(* ===== verification/_CoqProject ===== *)
-Q . S2P
Prelude.v
Hw.v
Types.v
I2c.v
Printf.v
Dac.v
Sram.v
Prsr.v
Acortex.v
Fgyrus.v
Vcortex.v
FftCache.v
Cortex.v
Lsd.v
Tasks.v
Codec.v
Wav.v
Ledos.v
Shell.v
Diskio.v
FatVol.v
FatBytes.v
FatWin.v
FatRam.v
FatTable.v
FatChain.v
FatMount.v
FatName.v
FatDir.v
FatFile.v
FatPath.v
FatData.v
FatRead.v
FatWrite.v
FatSeek.v
FatScan.v
FatOpen.v
FatSync.v
FatStore.v
FatUnlink.v
FatCreate.v
FatRename.v
FatFree.v
FatList.v
FatRuns.v
FatCases.v
ChLists.v
Kernel.v
ChVt.v
ChSchd.v
ChInv.v
ChSeg.v
ChSem.v
ChThreads.v
ChMsg.v
ChEvents.v
ChRuns.v
ChBSem.v
ChMtx.v
ChLocks.v
ChWake.v
ChCond.v
ChSystem.v
ChRing.v
ChMbox.v
ChQueues.v
ChMem.v
ChHeap.v
ChPool.v
ChDyn.v
Bash.v
BashFat.v
