(* ===== verification/Prelude.v ===== *)
(** * LEDOS: a verification library for the Synesthesia firmware

    Synesthesia turns sound into light on an Altera DE1 board: an FPGA fabric
    captures audio, transforms it and drives sixteen PWM channels, and a Nios II
    processor in the fabric runs LEDOS, the firmware below
    src/sw_wxp/de1_ledos, on the ChibiOS/RT 2.4.0 kernel below
    src/sw_wxp/de1_limbus_bsp/ChibiOS_v240.  This library models the C sources
    of both as executable definitions and proves what makes them correct.

    ** The program and its parts

    - The drivers (ledos/cortex, ledos/codec, ledos/fft_cache) reach the fabric
      through 32-bit register reads and writes at one base address: the I2C
      master, the DAC and ADC driver, the SRAM port, the WAV parser, the two
      spectrum analysers and the PWM block.  The audio codec sits behind I2C and
      can only be written, so its driver keeps a shadow of its registers.
    - The application: the tasks of main.c, the WAV header handling of ledos.c,
      the plugins of ledos/lsd and the command line of ledos/shell with the
      board's commands.
    - The FAT file system (ledos/fatfs/ff.c) and the SD card below it
      (ledos/fatfs/diskio.c).
    - The kernel: queues of threads, virtual timers, the scheduler, semaphores,
      mutexes with priority inheritance, condition variables, events, messages,
      mailboxes, byte queues, and the allocators.

    The parts meet in four ways: drivers and application share the device and
    each owns its static variables; handlers call drivers and the file system
    and send messages to the plugin's thread; kernel calls share the kernel
    state, and a call that switches lets the others run on it; the allocators
    share the words of memory.

    ** How the code is modelled

    - Hw.v: the fabric is the class [Device], an arbitrary state machine.  Driver
      code is a program of a monad that threads the device, the driver's
      variables and a trace of all accesses, and ends in a value, in undefined
      behaviour, or, when a polling loop exceeds its fuel, without an answer.
      [FuelMono]: more fuel never changes an answer.  [RegFile] is the contract
      of control registers, with register files as instances; I2c.v and Prsr.v
      have the contracts of a master and a parser that make progress.  Rules for
      [wp] carry the proofs.
    - Kernel.v: the kernel's structures are one record, at the level of lists
      of threads that ChLists.v's refinement theorem justifies.  A kernel call
      is a program [K]: it returns, reaches a switch with the rest of the call
      as a continuation, or is undefined (an empty queue taken from, a counter
      overflowing, a failed check).  [gspec] specifies a program segment by
      segment, from its start or a resumption to its next switch or its end.
    - ChMem.v: the words of memory and the flags the allocators use, in an option
      monad whose failure is an access through the null pointer.
    - Diskio.v: the card and its bus are the class [Card]; the module's calls
      are total functions since all of its waits are counted.
    - FatVol.v: the disk is the class [Disk], which Diskio.v implements; the file
      system is a program of an option monad over the file-system object and the
      disk, stuck outside the window, at a null pointer, and in a loop that does
      not end.  FatWin.v: the class [Store] adds what theorems on contents need,
      that a successful transfer moved the sector and nothing else, while any
      transfer may fail.
    - Machine integers are [Z] with their wrap-around written out ([wrap w],
      below); C enumerations are inductive types with their numeric values;
      arrays are lists with checked access; strings in memory are lists of bytes.

    ** The files

    - Prelude.v (this file): machine integers, arrays, bits, shared lemmas and
      the [ledos] and [zlist] automation.
    - Hw.v, Types.v: the hardware interface and the shared enumerations.
    - I2c.v, Dac.v, Sram.v, Prsr.v, Acortex.v, Fgyrus.v, Vcortex.v, FftCache.v,
      Cortex.v: the files of the same names below ledos/cortex and
      ledos/fft_cache, one definition per macro and function.
    - Codec.v: ledos/codec; the shadow registers are its state.
    - Printf.v: HAL/src/alt_printf.c.  Lsd.v: ledos/lsd.  Tasks.v: main.c.
    - Wav.v: the WAV header part of ledos/ledos.c, on the header's memory image.
      Ledos.v: [prep_cortex] of the same file.
    - Shell.v: ledos/shell/shell.c.  Bash.v: ledos/shell/bash.c, over the class
      [FatFs] of what it uses of the file system.  BashFat.v: the file system of
      FatFile.v and FatPath.v as an instance of that class, and the commands on it.
    - Diskio.v: ledos/fatfs/diskio.c.
    - FatVol.v, FatTable.v, FatChain.v, FatMount.v, FatName.v, FatDir.v,
      FatFile.v, FatPath.v: ledos/fatfs/ff.c from the bottom up: the object and
      its window of one sector, the allocation table, chains of clusters,
      mounting, names, directories, the functions on open files, the functions on
      paths.  FatBytes.v and FatWin.v hold what they share: bytes and words, and
      the volume a window and a disk make together.  FatData.v: where the bytes of
      a chain of clusters are; FatRead.v, FatWrite.v and FatSeek.v: what [f_read],
      [f_write] and [f_lseek] do to them.  FatScan.v: a directory as the sequence
      of its entries.  FatOpen.v: a path followed to its file.  FatSync.v: what
      closing a file puts into its entry, and the paths that survive a change.
      FatStore.v: opening, writing, closing and reading again.  FatUnlink.v:
      removing a file.  FatCreate.v: making one.  FatRename.v: renaming one.
      FatFree.v: counting what is free.  FatList.v: listings.  FatRam.v, FatRuns.v, FatCases.v: disks in memory, with
      and without faults, and runs.
    - ChLists.v: the pointer-level queues of include/chinline.h, with the
      representation predicate of a circular queue.
    - Kernel.v, ChVt.v, ChSchd.v: the kernel state, chvt.c and chschd.c, and
      the invariant [wfx E]: well-formed but for the marked exceptions [E].
      ChInv.v: how each primitive step treats the invariant.  ChSeg.v: rely and
      guarantee between threads, segments, the scheduler's contracts, and the
      class [Service] of calls that keep the kernel well-formed.
    - ChSem.v, ChBSem.v, ChThreads.v, ChMsg.v, ChEvents.v, ChMtx.v, ChCond.v, ChMbox.v,
      ChQueues.v: chsem.c, chbsem.h, chthreads.c (with chdynamic.c, chregistry.c, chsys.c
      and the port's tick), chmsg.c, chevents.c, chmtx.c, chcond.c, chmboxes.c
      and chqueues.c; every blocking call is an instance of [Service].
      ChWake.v and ChRing.v hold what several of them share, ChRuns.v runs of
      the booted system, ChLocks.v the theorems on mutexes.
    - ChSystem.v: the composition.  A system is the kernel state and, for every
      thread, the rest of the call it was switched out in; steps are calls,
      interrupts and resumptions.
    - ChMem.v, ChHeap.v, ChPool.v: chmemcore.c, chheap.c, chmempools.c.  ChDyn.v:
      the threads of chdynamic.c, in memory from a heap or a pool.

    ** What is shown

    - The kernel as a whole: [system_never_crashes].  Whatever the threads call
      within the stated preconditions and whenever interrupts come, no reachable
      state is a crash, the most urgent ready thread runs, counters agree with
      queues, owners with lists.
    - Mutual exclusion and priorities: [mutex_lock_owns],
      [mutex_inheritance], [mutex_unlock_hands_over], [mutex_unlock_returns],
      [cond_wait_relocks].
    - Signals and data between threads: [semaphore_ops_spec],
      [binary_semaphore_refines], [events_spec],
      [mailbox_is_a_queue], [io_queues_interrupt_side],
      [io_queues_thread_side].
    - Data structures: [threads_queue_refines] and [vt_delta_list_exact] for the
      queues and the delta list of timers; [heap_alloc_spec] and
      [heap_free_spec] refine the heap to a list of blocks with first fit and
      joining, [core_alloc_spec] and [pool_is_a_stack] do the other allocators;
      [thread_memory_goes_round] joins the heap and the kernel.
    - The SD card: [disk_read_answers], [disk_bus_released] and
      [disk_initialize_type] hold of any card whatever it answers;
      [disk_read_delivers] of one that does its part; [sector_count_spec] compares
      with the card's specification.
    - The FAT volume, on disks that may fail at any transfer:
      [move_window_keeps_volume], [fat_is_a_map], [remove_chain_frees],
      [create_chain_extends] and [chk_mounted_validates]; files on it:
      [f_read_delivers] and [f_lseek_moves], and without faults [f_write_stores]
      and [write_then_read].  Directories and paths: [dir_find_first],
      [f_open_finds] and [file_is_read_by_path], from the text of a path to the
      bytes of its file; [stored_file_persists], through the entry that closing
      saves and back; [new_file_persists], the same for a file that has to be made;
      [removed_file_is_gone], whose path then leads nowhere;
      [renamed_file_keeps_its_bytes], found by its new path and not by the old one;
      [free_space_is_exact], the number of free clusters through all of it.
      Names: [create_name_spec] and [short_name_roundtrip].
      What unchecked answers and bounds cost: [create_chain_drops_tail],
      [f_write_stores_error_code], [f_getfree_keeps_partial_count],
      [f_unlink_root_follows_null] and [f_getcwd_overruns].
    - The drivers: [codec_init_spec], [codec_config_reg_updates_field],
      [prep_cortex_spec], [cortex_init_spec], [dac_clock_setup],
      [adc_cap_spec], [get_wav_hdr_spec] give the writes of each sequence,
      what the registers are left at, what happens when a word is refused, and
      that the polls end when the hardware makes progress.
    - The application: [shell_turn_runs_words], [shellGetLine_edits] and
      [shell_parse_words] for the command line, [cat_prints_file],
      [cat_at_the_prompt] and [drop_acid_trip] for commands over any file system,
      [cat_shows_the_file] and [ll_lists_the_root] from the keys to the sectors,
      [wave_parse_spec] and [chk_wav_hdr_accepts] for headers,
      [pwm_task_conserves_light] and [syn_turn_paints_spectrum] for the light
      shows, [alt_printf_hex] for the formatter.

    Each property with hypotheses has a witness that applies it to a concrete
    state: register files, scripts of acknowledgements, keys or card answers,
    runs of the booted kernel.

    ** Fuel and bounds

    Polling and waiting loops of the drivers take the fuel of the run; theorems
    that need an answer state how much is enough (more than the transaction's
    waits, the typed keys, the file's chunks) and a starved poll is shown to
    wait for ever.  The loops of the kernel have measures: a thread is boosted
    once, so the inheritance loop gets one more than the registered threads; a
    reset wakes one thread per round; a tick fires each armed timer once; the
    heap's walks get more than the free blocks.  The wait loops of the byte
    queues may go on for ever when other threads take every byte, and their
    fuel counts the waits.  The card's waits are the counters of the source.  A
    walk along a chain has as many turns as there are clusters, one through a
    directory as many as a 16-bit index has values, and a transfer of a file takes
    a byte or more in every round.

    ** What is not modelled

    - What ffconf.h leaves out of ledos/fatfs/ff.c: long names, fast seek, sharing,
      buffers per file, [f_mkfs], [f_forward] and the string functions.
    - [init_ledos] and the logo of ledos.c, the creation of the shell's
      and the plugin's threads from their stacks, and the stacks themselves.
    - chdebug.c and the checks that the configuration compiles out; where a
      check guards against undefined behaviour, the model is undefined there.
    - The port's assembly: a switch is a step, and interrupts come between the
      kernel's critical sections.
    - The HAL, the vendor's drivers and generated headers, whose registers are
      the devices above; the Verilog sources and their test bench. *)

From stdpp Require Export base tactics functions list list_numbers numbers gmap sorting strings.
From Stdlib Require Export ZArith Lia.

Global Open Scope Z_scope.

(** ** Machine-width integers

    A [w]-bit unsigned C integer is a [Z]; [wrap w] is the conversion the
    language performs when a value is stored in such a type. *)

Definition wrap (w x : Z) : Z := x mod 2 ^ w.

Abbreviation u8 := (wrap 8).
Abbreviation u16 := (wrap 16).
Abbreviation u32 := (wrap 32).

(** The value [x] fits the unsigned type of width [w]. *)
Definition fits (w x : Z) : Prop := 0 <= x < 2 ^ w.

#[export] Instance fits_dec w x : Decision (fits w x).
Proof. unfold fits. apply _. Defined.

Lemma wrap_range w x : 0 <= w -> 0 <= wrap w x < 2 ^ w.
Proof. intros. unfold wrap. apply Z.mod_pos_bound. apply Z.pow_pos_nonneg; lia. Qed.

Lemma wrap_fits w x : 0 <= w -> fits w (wrap w x).
Proof. apply wrap_range. Qed.

Lemma wrap_small w x : fits w x -> wrap w x = x.
Proof. intros. unfold wrap. apply Z.mod_small. done. Qed.

Lemma wrap_idemp w x : 0 <= w -> wrap w (wrap w x) = wrap w x.
Proof. intros. apply wrap_small, wrap_fits; done. Qed.

(** Truncating twice is truncating to the narrower width. *)
Lemma wrap_wrap w w' x : 0 <= w <= w' -> wrap w (wrap w' x) = wrap w x.
Proof.
  intros. unfold wrap. apply Z.mod_mod_divide.
  exists (2 ^ (w' - w)). rewrite <- Z.pow_add_r by lia. f_equal. lia.
Qed.

Lemma wrap_land w x : 0 <= w -> wrap w x = Z.land x (Z.ones w).
Proof. intros. unfold wrap. rewrite Z.land_ones; done. Qed.

Lemma testbit_wrap w x i :
  0 <= w -> 0 <= i -> Z.testbit (wrap w x) i = (i <? w) && Z.testbit x i.
Proof.
  intros. rewrite wrap_land, Z.land_spec, Z.testbit_ones by lia.
  replace (0 <=? i) with true by (symmetry; apply Z.leb_le; lia).
  simpl. apply andb_comm.
Qed.

Lemma fits_testbit w x i : 0 <= w -> fits w x -> w <= i -> Z.testbit x i = false.
Proof.
  intros Hw Hf Hi. rewrite <- (wrap_small w x Hf), testbit_wrap by lia.
  replace (i <? w) with false by (symmetry; apply Z.ltb_ge; lia). done.
Qed.

Lemma fits_0 w : 0 <= w -> fits w 0.
Proof. intros. split; [lia|]. apply Z.pow_pos_nonneg; lia. Qed.

Lemma fits_mono w w' x : 0 <= w <= w' -> fits w x -> fits w' x.
Proof.
  intros ? [??]. split; [lia|]. eapply Z.lt_le_trans; [done|].
  apply Z.pow_le_mono_r; lia.
Qed.

(** A non-negative number whose bits from [w] upwards are clear fits. *)
Lemma fits_of_bits w x :
  0 <= w -> 0 <= x -> (forall i, w <= i -> Z.testbit x i = false) -> fits w x.
Proof.
  intros Hw Hx Hb. split; [done|].
  destruct (Z.eq_dec x 0) as [->|Hnz]; [apply Z.pow_pos_nonneg; lia|].
  destruct (Z_lt_le_dec x (2 ^ w)) as [|Hge]; [done|].
  assert (w <= Z.log2 x) as Hl by (apply Z.log2_le_pow2; lia).
  specialize (Hb (Z.log2 x) Hl). rewrite Z.bit_log2 in Hb by lia. done.
Qed.

(** Different offsets from one base are different addresses. *)
Lemma addr_ne base a b :
  fits 32 a -> fits 32 b -> a <> b -> u32 (base + a) <> u32 (base + b).
Proof.
  unfold fits, wrap. intros Ha Hb Hne Heq.
  apply (f_equal (fun x => (x - base) mod 2 ^ 32)) in Heq.
  rewrite !Zminus_mod_idemp_l, !(Z.add_comm base), !Z.add_simpl_r, !Z.mod_small in Heq; done.
Qed.

(** ** Bitwise equality by cases on the bit index *)

Lemma if_same_b {A} (b : bool) (x : A) : (if b then x else x) = x.
Proof. by destruct b. Qed.

#[export] Hint Rewrite
  Z.land_spec Z.lor_spec Z.lxor_spec Z.ldiff_spec Z.testbit_0_l
  andb_true_r andb_false_r andb_true_l andb_false_l
  orb_true_r orb_false_r orb_true_l orb_false_l : bits.

#[export] Hint Rewrite
  Z.shiftl_spec Z.shiftr_spec Z.lnot_spec testbit_wrap using lia : bits.

(** [bit_cases i n] splits the proof on the position [i] up to [n]. *)
Ltac bit_eq i :=
  apply Z.bits_inj'; intros i ?; autorewrite with bits.

(** Decide boolean comparisons of integers that lia can settle. *)
Ltac zbool :=
  repeat match goal with
  | |- context [?a <? ?b] =>
      first [ replace (a <? b) with true by (symmetry; apply Z.ltb_lt; lia)
            | replace (a <? b) with false by (symmetry; apply Z.ltb_ge; lia) ]
  | |- context [?a <=? ?b] =>
      first [ replace (a <=? b) with true by (symmetry; apply Z.leb_le; lia)
            | replace (a <=? b) with false by (symmetry; apply Z.leb_gt; lia) ]
  | |- context [?a =? ?b] =>
      first [ replace (a =? b) with true by (symmetry; apply Z.eqb_eq; lia)
            | replace (a =? b) with false by (symmetry; apply Z.eqb_neq; lia) ]
  end.

(** Case analysis on an integer comparison in the goal or a hypothesis,
    with the propositional reading of the outcome. *)
Ltac case_z :=
  match goal with
  | |- context [?a <? ?b] => destruct (Z.ltb_spec a b)
  | |- context [?a <=? ?b] => destruct (Z.leb_spec a b)
  | |- context [?a =? ?b] => destruct (Z.eqb_spec a b)
  | H : context [?a <? ?b] |- _ => destruct (Z.ltb_spec a b)
  | H : context [?a <=? ?b] |- _ => destruct (Z.leb_spec a b)
  | H : context [?a =? ?b] |- _ => destruct (Z.eqb_spec a b)
  end.

(** ** Lists indexed by machine integers *)

(** [l[i]] for an integer index: [None] outside the array. *)
Definition zget {A} (l : list A) (i : Z) : option A :=
  if 0 <=? i then l !! Z.to_nat i else None.

(** [l[i] = x]: the array is unchanged outside its bounds, which callers
    test with [zget] or [zin] first. *)
Definition zset {A} (l : list A) (i : Z) (x : A) : list A :=
  if 0 <=? i then <[Z.to_nat i := x]> l else l.

Definition zlen {A} (l : list A) : Z := Z.of_nat (length l).

Lemma zlen_nonneg {A} (l : list A) : 0 <= zlen l.
Proof. unfold zlen. lia. Qed.

Lemma zget_lookup {A} (l : list A) (i : nat) : zget l (Z.of_nat i) = l !! i.
Proof. unfold zget. zbool. by rewrite Nat2Z.id. Qed.

Lemma zget_Some_range {A} (l : list A) i x : zget l i = Some x -> 0 <= i < zlen l.
Proof.
  unfold zget, zlen. case_z; [|done]. intros Hl.
  apply lookup_lt_Some in Hl. lia.
Qed.

Lemma zget_in_range {A} (l : list A) i : 0 <= i < zlen l -> is_Some (zget l i).
Proof.
  unfold zget, zlen. intros. zbool. apply lookup_lt_is_Some_2. lia.
Qed.

Lemma zset_length {A} (l : list A) i x : length (zset l i x) = length l.
Proof. unfold zset. case_z; [apply length_insert|done]. Qed.

Lemma zlen_zset {A} (l : list A) i x : zlen (zset l i x) = zlen l.
Proof. unfold zlen. by rewrite zset_length. Qed.

Lemma zget_zset_eq {A} (l : list A) i x : 0 <= i < zlen l -> zget (zset l i x) i = Some x.
Proof.
  unfold zget, zset, zlen. intros. zbool. apply list_lookup_insert_eq. lia.
Qed.

Lemma zget_zset_ne {A} (l : list A) i j x : i <> j -> zget (zset l i x) j = zget l j.
Proof.
  unfold zget, zset. intros. repeat case_z; try done.
  apply list_lookup_insert_ne. lia.
Qed.

#[export] Hint Rewrite @zset_length @zlen_zset : zlist.
#[export] Hint Rewrite @zget_zset_eq @zget_zset_ne using (autorewrite with zlist; lia) : zlist.

Lemma filter_all {A} (P : A -> Prop) `{!forall x, Decision (P x)} l : Forall P l -> filter P l = l.
Proof. induction 1; [done|]. rewrite filter_cons_True by done. by f_equal. Qed.

Lemma filter_ext_in {A} (P Q : A -> Prop) `{!forall x, Decision (P x), !forall x, Decision (Q x)} (l : list A) :
  (forall x : A, x ∈ l -> P x <-> Q x) -> filter P l = filter Q l.
Proof.
  induction l as [|x l IH]; intros HPQ; [done|]. rewrite !filter_cons.
  rewrite (IH ltac:(intros y Hy; apply HPQ; by right)).
  pose proof (HPQ x ltac:(by left)). repeat case_decide; tauto || done.
Qed.

Lemma filter_none {A} (P : A -> Prop) `{!forall x, Decision (P x)} l :
  Forall (fun x => ~ P x) l -> filter P l = [].
Proof. induction 1; [done|]. by rewrite filter_cons_False by done. Qed.

(** The indices [0, 1, ..., n - 1] of a counted loop. *)
Definition upto (n : Z) : list Z := seqZ 0 n.

Lemma upto_lookup n (i : nat) : Z.of_nat i < n -> upto n !! i = Some (Z.of_nat i).
Proof. intros. unfold upto. rewrite lookup_seqZ. split; [lia|done]. Qed.

Lemma upto_length n : 0 <= n -> length (upto n) = Z.to_nat n.
Proof. intros. apply length_seqZ. Qed.

Lemma elem_of_upto n i : i ∈ upto n <-> 0 <= i < n.
Proof. unfold upto. rewrite elem_of_seqZ. lia. Qed.

Lemma upto_succ n : 0 <= n -> upto (n + 1) = upto n ++ [n].
Proof.
  intros. unfold upto. rewrite seqZ_app by lia. f_equal.
Qed.

(** A buffer whose first [n] cells have been set to [f 0], ..., [f (n - 1)]. *)
Definition filled {A} (f : Z -> A) (n : Z) (b : list A) : list A :=
  (f <$> upto n) ++ drop (Z.to_nat n) b.

Lemma filled_0 {A} (f : Z -> A) b : filled f 0 b = b.
Proof. done. Qed.

Lemma filled_length {A} (f : Z -> A) n b :
  0 <= n <= zlen b -> length (filled f n b) = length b.
Proof.
  unfold filled, zlen. intros. rewrite length_app, length_fmap, length_drop, upto_length; lia.
Qed.

Lemma filled_ext {A} (f g : Z -> A) n b :
  (forall i, 0 <= i < n -> f i = g i) -> filled f n b = filled g n b.
Proof.
  intros Hfg. unfold filled. f_equal. apply list_fmap_ext. intros k i Hi.
  by apply Hfg, elem_of_upto, (list_elem_of_lookup_2 _ k).
Qed.

Lemma zset_filled {A} (f : Z -> A) i b :
  0 <= i < zlen b -> zset (filled f i b) i (f i) = filled f (i + 1) b.
Proof.
  unfold filled, zset, zlen. intros Hi. zbool.
  assert (length (upto i) = Z.to_nat i) as Hl by (apply upto_length; lia).
  rewrite upto_succ, fmap_app, insert_app_r_alt by (rewrite ?length_fmap; lia).
  rewrite <- app_assoc. f_equal. rewrite length_fmap, Hl, Nat.sub_diag.
  destruct (drop (Z.to_nat i) b) as [|x l] eqn:E.
  { apply (f_equal length) in E. rewrite length_drop in E. simpl in E. lia. }
  simpl. f_equal. replace (Z.to_nat (i + 1)) with (1 + Z.to_nat i)%nat by lia.
  by rewrite Nat.add_comm, <- drop_drop, E.
Qed.

Lemma zget_filled {A} (f : Z -> A) n b i :
  0 <= n <= zlen b -> 0 <= i -> zget (filled f n b) i = if i <? n then Some (f i) else zget b i.
Proof.
  unfold filled, zget, zlen. intros Hn Hi. zbool.
  assert (length (upto n) = Z.to_nat n) as Hl by (apply upto_length; lia).
  case_z.
  - rewrite lookup_app_l by (rewrite length_fmap; lia).
    rewrite list_lookup_fmap, upto_lookup by lia. simpl. f_equal. f_equal. lia.
  - rewrite lookup_app_r by (rewrite length_fmap; lia). rewrite length_fmap, Hl, lookup_drop.
    f_equal. lia.
Qed.

Create HintDb ledos.
#[export] Hint Resolve zlen_nonneg : ledos.
