(* ===== verification/Hw.v ===== *)
(** * The hardware interface of the firmware

    Drivers reach the FPGA fabric through [IORD_32DIRECT] and
    [IOWR_32DIRECT], wait with [chThdSleepMilliseconds] and talk to the
    operator through [alt_putchar] and [alt_getchar].  The fabric is not part
    of the C program: it is the class [Device], an arbitrary state machine.
    Driver code is a program of the monad [M]: it threads the device state and
    the driver's own static variables, records every access in a trace, and
    ends in a value, in undefined behaviour, or without an answer when a
    polling loop exceeds the fuel it is given. *)

From S2P Require Import Prelude.

(** ** Devices *)

Class Device (D : Type) := {
  dev_read : Z -> D -> Z * D;
  dev_write : Z -> Z -> D -> D;
  dev_sleep : Z -> D -> D;
  dev_putc : Z -> D -> D;
  dev_getc : D -> Z * D
}.

Inductive event :=
| EvRd (addr val : Z)
| EvWr (addr val : Z)
| EvSleep (ms : Z)
| EvPutc (c : Z)
| EvGetc (c : Z).

#[export] Instance event_eq_dec : EqDecision event.
Proof. solve_decision. Defined.

(** The accesses to the bus, without waits and console traffic. *)
Definition is_bus (e : event) : bool :=
  match e with EvRd _ _ | EvWr _ _ => true | _ => false end.

(** The writes to the bus. *)
Definition wr_of (e : event) : option (Z * Z) :=
  match e with EvWr a v => Some (a, v) | _ => None end.

Definition writes (t : list event) : list (Z * Z) := omap wr_of t.

Definition putc_of (e : event) : option Z :=
  match e with EvPutc c => Some c | _ => None end.

(** What a trace prints on the console. *)
Definition printed (t : list event) : list Z := omap putc_of t.

Lemma writes_app t1 t2 : writes (t1 ++ t2) = writes t1 ++ writes t2.
Proof. apply omap_app. Qed.

Lemma printed_app t1 t2 : printed (t1 ++ t2) = printed t1 ++ printed t2.
Proof. apply omap_app. Qed.

Lemma writes_EvWr (l : list (Z * Z)) : writes ((fun p => EvWr p.1 p.2) <$> l) = l.
Proof. induction l as [|[a v] l IH]; [done|]. unfold writes in *. simpl. f_equal. exact IH. Qed.

(** ** The monad *)

Inductive res (A : Type) :=
| Ok (a : A)
| Diverge
| Ub.
Arguments Ok {A} a.
Arguments Diverge {A}.
Arguments Ub {A}.

Record out (D St A : Type) := Out {
  o_res : res A;
  o_dev : D;
  o_st : St;
  o_tr : list event
}.
Arguments Out {D St A} o_res o_dev o_st o_tr.
Arguments o_res {D St A} _.
Arguments o_dev {D St A} _.
Arguments o_st {D St A} _.
Arguments o_tr {D St A} _.

(** A program is run with the fuel of each of its polling loops, a device
    and the static variables it owns. *)
Definition M (D St A : Type) : Type := nat -> D -> St -> out D St A.

#[export] Instance M_ret {D St} : MRet (M D St) :=
  fun A a _ d s => Out (Ok a) d s [].

#[export] Instance M_bind {D St} : MBind (M D St) :=
  fun A B f m n d s =>
    match m n d s with
    | Out (Ok a) d1 s1 t1 =>
        let r := f a n d1 s1 in
        Out (o_res r) (o_dev r) (o_st r) (t1 ++ o_tr r)
    | Out Diverge d1 s1 t1 => Out Diverge d1 s1 t1
    | Out Ub d1 s1 t1 => Out Ub d1 s1 t1
    end.

Section ops.
Context {D St : Type} `{Device D}.

Definition ub {A} : M D St A := fun _ d s => Out Ub d s [].
Definition diverge {A} : M D St A := fun _ d s => Out Diverge d s [].

(** [IORD_32DIRECT(base, offset)]: a 32-bit value. *)
Definition iord (base off : Z) : M D St Z := fun _ d s =>
  let a := u32 (base + off) in
  let r := dev_read a d in
  Out (Ok (u32 r.1)) r.2 s [EvRd a (u32 r.1)].

(** [IOWR_32DIRECT(base, offset, data)]. *)
Definition iowr (base off v : Z) : M D St unit := fun _ d s =>
  let a := u32 (base + off) in
  Out (Ok tt) (dev_write a (u32 v) d) s [EvWr a (u32 v)].

(** [chThdSleepMilliseconds(ms)], as the calling thread sees it. *)
Definition sleep_ms (ms : Z) : M D St unit := fun _ d s =>
  Out (Ok tt) (dev_sleep ms d) s [EvSleep ms].

Definition alt_putchar (c : Z) : M D St unit := fun _ d s =>
  Out (Ok tt) (dev_putc (u8 c) d) s [EvPutc (u8 c)].

Definition alt_getchar : M D St Z := fun _ d s =>
  let r := dev_getc d in
  Out (Ok r.1) r.2 s [EvGetc r.1].

Definition get_st : M D St St := fun _ d s => Out (Ok s) d s [].
Definition put_st (s' : St) : M D St unit := fun _ d _ => Out (Ok tt) d s' [].

(** [a[i]] for an array the program owns: undefined outside its bounds. *)
Definition aget {A} (l : list A) (i : Z) : M D St A :=
  match zget l i with Some x => mret x | None => ub end.

Definition aset {A} (l : list A) (i : Z) (x : A) : M D St (list A) :=
  if bool_decide (0 <= i < zlen l) then mret (zset l i x) else ub.

(** [for (i in l) body(i)] with the loop's variables threaded. *)
Fixpoint mfold {A B} (f : A -> B -> M D St A) (l : list B) (a : A) : M D St A :=
  match l with
  | [] => mret a
  | b :: l => a' ← f a b; mfold f l a'
  end.

Fixpoint mfor {B} (f : B -> M D St unit) (l : list B) : M D St unit :=
  match l with
  | [] => mret tt
  | b :: l => f b;; mfor f l
  end.

(** [while (c) body], at most [k] evaluations of the condition. *)
Fixpoint while_upto (k : nat) (c : M D St bool) (body : M D St unit) : M D St unit :=
  match k with
  | O => diverge
  | S k => b ← c; if b : bool then body;; while_upto k c body else mret tt
  end.

Definition while (c : M D St bool) (body : M D St unit) : M D St unit :=
  fun n => while_upto n c body n.
End ops.

(** Running a program that owns part of a larger state. *)
Definition zoom {D St T A} (get : T -> St) (put : St -> T -> T) (m : M D St A) : M D T A :=
  fun n d t =>
    let r := m n d (get t) in
    Out (o_res r) (o_dev r) (put (o_st r) t) (o_tr r).

(** ** Running programs *)

Section rules.
Context {D St : Type} `{Device D}.

Lemma bind_ok {A B} (m : M D St A) (f : A -> M D St B) n d s a d1 s1 t1 r d2 s2 t2 :
  m n d s = Out (Ok a) d1 s1 t1 ->
  f a n d1 s1 = Out r d2 s2 t2 ->
  (m ≫= f) n d s = Out r d2 s2 (t1 ++ t2).
Proof. intros H1 H2. unfold mbind, M_bind. rewrite H1, H2. done. Qed.

Lemma bind_stop {A B} (m : M D St A) (f : A -> M D St B) n d s d1 s1 t1 :
  m n d s = Out Diverge d1 s1 t1 -> (m ≫= f) n d s = Out Diverge d1 s1 t1.
Proof. intros H1. unfold mbind, M_bind. rewrite H1. done. Qed.

Lemma bind_assoc {A B C} (m : M D St A) (f : A -> M D St B) (g : B -> M D St C) n d s :
  ((m ≫= f) ≫= g) n d s = (m ≫= (fun x => f x ≫= g)) n d s.
Proof.
  unfold mbind, M_bind. destruct (m n d s) as [[a| |] d1 s1 t1]; try done.
  destruct (f a n d1 s1) as [[b| |] d2 s2 t2]; simpl; try done.
  by rewrite app_assoc.
Qed.

Lemma bind_ret_l {A B} (a : A) (f : A -> M D St B) n d s :
  (mret a ≫= f) n d s = f a n d s.
Proof. unfold mbind, M_bind, mret, M_ret. simpl. by destruct (f a n d s). Qed.

Lemma mfor_app {B} (f : B -> M D St unit) l1 l2 n d s :
  mfor f (l1 ++ l2) n d s = (mfor f l1;; mfor f l2) n d s.
Proof.
  revert d s. induction l1 as [|b l1 IH]; intros d s; simpl.
  - by rewrite bind_ret_l.
  - rewrite bind_assoc. unfold mbind, M_bind.
    destruct (f b n d s) as [[a| |] d1 s1 t1]; try done. rewrite IH.
    unfold mbind, M_bind. done.
Qed.

Lemma mfold_app {A B} (f : A -> B -> M D St A) l1 l2 a n d s :
  mfold f (l1 ++ l2) a n d s = (mfold f l1 a ≫= mfold f l2) n d s.
Proof.
  revert a d s. induction l1 as [|b l1 IH]; intros a d s; simpl.
  - by rewrite bind_ret_l.
  - rewrite bind_assoc. unfold mbind, M_bind.
    destruct (f a b n d s) as [[a'| |] d1 s1 t1]; try done. rewrite IH.
    unfold mbind, M_bind. done.
Qed.

(** The device after a list of writes. *)
Definition dev_writes (l : list (Z * Z)) (d : D) : D :=
  foldl (fun d p => dev_write p.1 p.2 d) d l.

(** A loop whose body performs one write per element performs exactly those
    writes, in order. *)
Lemma mfor_writes {B} (f : B -> M D St unit) (g : B -> Z * Z) l n d s :
  (forall b d s, b ∈ l ->
     f b n d s = Out (Ok tt) (dev_write (g b).1 (g b).2 d) s [EvWr (g b).1 (g b).2]) ->
  mfor f l n d s
  = Out (Ok tt) (dev_writes (g <$> l) d) s ((fun b => EvWr (g b).1 (g b).2) <$> l).
Proof.
  revert d s. induction l as [|b l IH]; intros d s Hf; [done|].
  change (mfor f (b :: l)) with (f b;; mfor f l).
  erewrite bind_ok; [|apply Hf; set_solver|apply IH; intros; apply Hf; set_solver].
  done.
Qed.

Lemma aget_ok {A} (l : list A) i x n d s :
  zget l i = Some x -> aget (D:=D) (St:=St) l i n d s = Out (Ok x) d s [].
Proof. intros Hi. unfold aget. by rewrite Hi. Qed.

Lemma aset_ok {A} (l : list A) i x n d s :
  0 <= i < zlen l -> aset (D:=D) (St:=St) l i x n d s = Out (Ok (zset l i x)) d s [].
Proof. intros Hi. unfold aset. by rewrite bool_decide_eq_true_2. Qed.
End rules.

(** ** Fuel

    More fuel never changes an answer: the outcome of a program that does not
    run out of fuel is its outcome with any larger amount. *)

Class FuelMono {D St A} (m : M D St A) : Prop :=
  fuel_mono : forall n n' d s, (n <= n')%nat -> o_res (m n d s) <> Diverge -> m n' d s = m n d s.

#[export] Hint Mode FuelMono - - - ! : typeclass_instances.

Section fuel.
Context {D St : Type} `{Device D}.

#[export] Instance mono_ret {A} (a : A) : FuelMono (D:=D) (St:=St) (mret a).
Proof. done. Qed.

#[export] Instance mono_iord b o : FuelMono (D:=D) (St:=St) (iord b o).
Proof. done. Qed.

#[export] Instance mono_iowr b o v : FuelMono (D:=D) (St:=St) (iowr b o v).
Proof. done. Qed.

#[export] Instance mono_sleep ms : FuelMono (D:=D) (St:=St) (sleep_ms ms).
Proof. done. Qed.

#[export] Instance mono_putc c : FuelMono (D:=D) (St:=St) (alt_putchar c).
Proof. done. Qed.

#[export] Instance mono_getc : FuelMono (D:=D) (St:=St) alt_getchar.
Proof. done. Qed.

#[export] Instance mono_get : FuelMono (D:=D) (St:=St) get_st.
Proof. done. Qed.

#[export] Instance mono_put s : FuelMono (D:=D) (St:=St) (put_st s).
Proof. done. Qed.

#[export] Instance mono_ub {A} : FuelMono (D:=D) (St:=St) (A:=A) ub.
Proof. done. Qed.

#[export] Instance mono_aget {A} (l : list A) i : FuelMono (D:=D) (St:=St) (aget l i).
Proof. unfold aget. destruct (zget l i); apply _. Qed.

#[export] Instance mono_aset {A} (l : list A) i x : FuelMono (D:=D) (St:=St) (aset l i x).
Proof. unfold aset. destruct (bool_decide _); apply _. Qed.

#[export] Instance mono_bind {A B} (m : M D St A) (f : A -> M D St B) :
  FuelMono m -> (forall a, FuelMono (f a)) -> FuelMono (m ≫= f).
Proof.
  intros Hm Hf n n' d s Hn Hr. unfold mbind, M_bind in *.
  specialize (Hm n n' d s Hn).
  destruct (m n d s) as [[a| |] d1 s1 t1]; simpl in *; try done;
    rewrite Hm by done; try done.
  by rewrite (Hf a n n').
Qed.

#[export] Instance mono_if {A} (b : bool) (m1 m2 : M D St A) :
  FuelMono m1 -> FuelMono m2 -> FuelMono (if b then m1 else m2).
Proof. by destruct b. Qed.

#[export] Instance mono_mfor {B} (f : B -> M D St unit) l :
  (forall b, FuelMono (f b)) -> FuelMono (mfor f l).
Proof. intros. induction l; simpl; apply _. Qed.

#[export] Instance mono_mfold {A B} (f : A -> B -> M D St A) l a :
  (forall a b, FuelMono (f a b)) -> FuelMono (mfold f l a).
Proof. intros. revert a. induction l; intros; simpl; apply _. Qed.

Lemma while_upto_mono (c : M D St bool) (body : M D St unit) k k' n n' d s :
  FuelMono c -> FuelMono body -> (k <= k')%nat -> (n <= n')%nat ->
  o_res (while_upto k c body n d s) <> Diverge ->
  while_upto k' c body n' d s = while_upto k c body n d s.
Proof.
  intros Hc Hb. revert k' d s. induction k as [|k IH]; intros k' d s Hk Hn Hr; [done|].
  destruct k' as [|k']; [lia|]. simpl in Hr |- *. unfold mbind, M_bind in *.
  specialize (Hc n n' d s Hn).
  destruct (c n d s) as [[[]| |] d1 s1 t1]; simpl in *; try done;
    rewrite Hc by done; try done.
  specialize (Hb n n' d1 s1 Hn).
  destruct (body n d1 s1) as [[[]| |] d2 s2 t2]; simpl in *; try done;
    rewrite Hb by done; try done.
  rewrite (IH k'); [done|lia|lia|done].
Qed.

#[export] Instance mono_while (c : M D St bool) (body : M D St unit) :
  FuelMono c -> FuelMono body -> FuelMono (while c body).
Proof. intros ?? n n' d s Hn. unfold while. by apply while_upto_mono. Qed.
End fuel.

#[export] Instance mono_zoom {D St T A} (g : T -> St) (p : St -> T -> T) (m : M D St A) :
  FuelMono m -> FuelMono (zoom g p m).
Proof.
  intros Hm n n' d t Hn Hr. unfold zoom in *. simpl in *. by rewrite (Hm n n').
Qed.

(** ** Polling

    [polls c body d s k d' s' t]: the loop [while (c) body] evaluates its
    condition [k + 1] times from [d], [s] and leaves in [d'], [s'] with the
    trace [t]. *)

Section polling.
Context {D St : Type} `{Device D}.
Variables (c : M D St bool) (body : M D St unit).

Inductive polls (n : nat) : D -> St -> nat -> D -> St -> list event -> Prop :=
| polls_done d s d1 s1 t1 :
    c n d s = Out (Ok false) d1 s1 t1 -> polls n d s 0 d1 s1 t1
| polls_again d s d1 s1 t1 d2 s2 t2 k d3 s3 t3 :
    c n d s = Out (Ok true) d1 s1 t1 ->
    body n d1 s1 = Out (Ok tt) d2 s2 t2 ->
    polls n d2 s2 k d3 s3 t3 ->
    polls n d s (S k) d3 s3 (t1 ++ t2 ++ t3).

Lemma while_upto_polls n m d s k d' s' t :
  polls n d s k d' s' t -> (k < m)%nat ->
  while_upto m c body n d s = Out (Ok tt) d' s' t.
Proof.
  intros Hp. revert m. induction Hp as [d s d1 s1 t1 Hc|d s d1 s1 t1 d2 s2 t2 k d3 s3 t3 Hc Hb Hp IH];
    intros m Hm; (destruct m as [|m]; [lia|]); simpl.
  - erewrite bind_ok; [|done|done]. by rewrite app_nil_r.
  - erewrite bind_ok; [|done|]; [done|].
    eapply bind_ok; [done|]. apply IH. lia.
Qed.

Lemma while_polls n d s k d' s' t :
  polls n d s k d' s' t -> (k < n)%nat -> while c body n d s = Out (Ok tt) d' s' t.
Proof. apply while_upto_polls. Qed.

(** A condition that holds for ever keeps the loop from answering: a set of
    states closed under one turn of the loop in which it never stops. *)
Lemma while_forever (P : D -> St -> Prop) n d s :
  (forall d s, P d s -> exists d1 s1 t1 d2 s2 t2,
     c n d s = Out (Ok true) d1 s1 t1 /\ body n d1 s1 = Out (Ok tt) d2 s2 t2 /\ P d2 s2) ->
  P d s -> o_res (while c body n d s) = Diverge.
Proof.
  intros Hstep HP. unfold while. set (m := n) at 1. clearbody m. revert d s HP.
  induction m as [|m IH]; intros d s HP; [done|].
  destruct (Hstep d s HP) as (d1 & s1 & t1 & d2 & s2 & t2 & Hc & Hb & HP2).
  simpl. unfold mbind, M_bind. rewrite Hc, Hb. simpl. by apply IH.
Qed.
End polling.

(** ** Reasoning about one run

    [wp m n d s Q]: the run of [m] from [d], [s] ends in a result, a device,
    variables and a trace that satisfy [Q].  The rules peel a program one
    command at a time. *)

Section wp.
Context {D St : Type} `{Device D}.

Definition wp {A} (m : M D St A) (n : nat) (d : D) (s : St)
    (Q : res A -> D -> St -> list event -> Prop) : Prop :=
  Q (o_res (m n d s)) (o_dev (m n d s)) (o_st (m n d s)) (o_tr (m n d s)).

Lemma wp_intro {A} (m : M D St A) n d s Q :
  (forall r d' s' t, m n d s = Out r d' s' t -> Q r d' s' t) -> wp m n d s Q.
Proof. intros HQ. apply HQ. by destruct (m n d s). Qed.

Lemma wp_elim {A} (m : M D St A) n d s Q r d' s' t :
  m n d s = Out r d' s' t -> wp m n d s Q -> Q r d' s' t.
Proof. unfold wp. by intros ->. Qed.

Lemma wp_mono {A} (m : M D St A) n d s Q Q' :
  wp m n d s Q -> (forall r d' s' t, Q r d' s' t -> Q' r d' s' t) -> wp m n d s Q'.
Proof. unfold wp. auto. Qed.

Lemma wp_bind {A B} (m : M D St A) (f : A -> M D St B) n d s Q :
  wp m n d s (fun r d1 s1 t1 =>
    match r with
    | Ok a => wp (f a) n d1 s1 (fun r' d2 s2 t2 => Q r' d2 s2 (t1 ++ t2))
    | Diverge => Q Diverge d1 s1 t1
    | Ub => Q Ub d1 s1 t1
    end) -> wp (m ≫= f) n d s Q.
Proof. unfold wp, mbind, M_bind. destruct (m n d s) as [[a| |] d1 s1 t1]; done. Qed.

Lemma wp_assoc {A B C} (m : M D St A) (f : A -> M D St B) (g : B -> M D St C) n d s Q :
  wp (m ≫= (fun x => f x ≫= g)) n d s Q -> wp ((m ≫= f) ≫= g) n d s Q.
Proof. unfold wp. by rewrite bind_assoc. Qed.

(** A run whose value and variables are known. *)
Lemma wp_out {A} (m : M D St A) n d s a s1 (P : D -> list event -> Prop) :
  wp m n d s (fun r d' s' t => r = Ok a /\ s' = s1 /\ P d' t) ->
  exists d' t, m n d s = Out (Ok a) d' s1 t /\ P d' t.
Proof. unfold wp. destruct (m n d s) as [r d1 s' t]. simpl. intros (-> & -> & HP). eauto. Qed.

Lemma wp_ret {A} (a : A) n d s Q : Q (Ok a) d s [] -> wp (mret a) n d s Q.
Proof. done. Qed.

Lemma wp_iord b o n d s Q :
  (let r := dev_read (u32 (b + o)) d in Q (Ok (u32 r.1)) r.2 s [EvRd (u32 (b + o)) (u32 r.1)]) ->
  wp (iord b o) n d s Q.
Proof. done. Qed.

Lemma wp_iowr b o v n d s Q :
  Q (Ok tt) (dev_write (u32 (b + o)) (u32 v) d) s [EvWr (u32 (b + o)) (u32 v)] ->
  wp (iowr b o v) n d s Q.
Proof. done. Qed.

Lemma wp_sleep ms n d s Q :
  Q (Ok tt) (dev_sleep ms d) s [EvSleep ms] -> wp (sleep_ms ms) n d s Q.
Proof. done. Qed.

Lemma wp_putc c n d s Q :
  Q (Ok tt) (dev_putc (u8 c) d) s [EvPutc (u8 c)] -> wp (alt_putchar c) n d s Q.
Proof. done. Qed.

Lemma wp_getc n d s Q :
  (let r := dev_getc d in Q (Ok r.1) r.2 s [EvGetc r.1]) -> wp alt_getchar n d s Q.
Proof. done. Qed.

Lemma wp_get n d s Q : Q (Ok s) d s [] -> wp get_st n d s Q.
Proof. done. Qed.

Lemma wp_put s' n d s Q : Q (Ok tt) d s' [] -> wp (put_st s') n d s Q.
Proof. done. Qed.

(** The invariant rule for polling loops: [I] relates the state in which the
    condition is about to be evaluated to the trace so far. *)
Lemma wp_while (c : M D St bool) (body : M D St unit) n d s
    (I : D -> St -> list event -> Prop) (Q : res unit -> D -> St -> list event -> Prop) :
  I d s [] ->
  (forall d s t, I d s t ->
     wp c n d s (fun r d1 s1 t1 =>
       match r with
       | Ok true => wp body n d1 s1 (fun r' d2 s2 t2 =>
           match r' with
           | Ok _ => I d2 s2 (t ++ t1 ++ t2)
           | Diverge => Q Diverge d2 s2 (t ++ t1 ++ t2)
           | Ub => Q Ub d2 s2 (t ++ t1 ++ t2)
           end)
       | Ok false => Q (Ok tt) d1 s1 (t ++ t1)
       | Diverge => Q Diverge d1 s1 (t ++ t1)
       | Ub => Q Ub d1 s1 (t ++ t1)
       end)) ->
  (forall d s t, I d s t -> Q Diverge d s t) ->
  wp (while c body) n d s Q.
Proof.
  intros HI Hstep HD. unfold while.
  assert (forall m d s t, I d s t ->
    wp (while_upto m c body) n d s (fun r d' s' t' => Q r d' s' (t ++ t'))) as Hm.
  { induction m as [|m IH]; intros d0 s0 t0 HI0.
    - unfold wp. simpl. rewrite app_nil_r. by apply HD.
    - simpl. apply wp_bind. eapply wp_mono; [by apply Hstep|].
      intros [[]| |] d1 s1 t1; simpl; try done.
      + intros Hb. apply wp_bind. eapply wp_mono; [exact Hb|].
        intros [u| |] d2 s2 t2; simpl; try done.
        intros HI2. eapply wp_mono; [by apply (IH d2 s2 (t0 ++ t1 ++ t2))|].
        intros r d' s' t'. simpl. by rewrite <- !app_assoc.
      + intros HQ. apply wp_ret. by rewrite app_nil_r. }
  apply (wp_mono _ _ _ _ _ _ (Hm n d s [] HI)). done.
Qed.
End wp.

Section wp_loops.
Context {D St : Type} `{Device D}.

Lemma wp_bind_ok {A B} (m : M D St A) (f : A -> M D St B) n d s
    (P : A -> D -> St -> list event -> Prop) Q :
  wp m n d s (fun r d' s' t => exists a, r = Ok a /\ P a d' s' t) ->
  (forall a d' s' t, P a d' s' t -> wp (f a) n d' s' (fun r d2 s2 t2 => Q r d2 s2 (t ++ t2))) ->
  wp (m ≫= f) n d s Q.
Proof.
  intros Hm Hf. apply wp_bind. eapply wp_mono; [exact Hm|].
  intros r d' s' t (a & -> & HP). by apply Hf.
Qed.

(** The invariant rule for counted loops that thread a variable. *)
Lemma wp_mfold {A} (f : A -> Z -> M D St A) N a n d s
    (I : Z -> A -> D -> St -> list event -> Prop) :
  0 <= N -> I 0 a d s [] ->
  (forall i a d s t, 0 <= i < N -> I i a d s t ->
     wp (f a i) n d s (fun r d' s' t' => exists a', r = Ok a' /\ I (i + 1) a' d' s' (t ++ t'))) ->
  wp (mfold f (upto N) a) n d s (fun r d' s' t => exists a', r = Ok a' /\ I N a' d' s' t).
Proof.
  intros HN HI Hstep. revert N HN Hstep.
  refine (natlike_ind _ _ _).
  - intros _. apply wp_ret. eauto.
  - intros N HN IH Hstep. rewrite <- Z.add_1_r, upto_succ by lia.
    unfold wp. rewrite mfold_app. fold (wp (mfold f (upto N) a ≫= mfold f [N]) n d s
      (fun r d' s' t => exists a', r = Ok a' /\ I (N + 1) a' d' s' t)).
    eapply wp_bind_ok; [apply IH; intros; apply Hstep; [lia|done]|].
    intros a' d' s' t HI'. simpl.
    eapply wp_bind_ok.
    { eapply wp_mono; [apply (Hstep N a' d' s' t); [lia|done]|].
      intros r d2 s2 t2 (a2 & -> & HI2). eexists. split; [done|].
      exact (conj HI2 (eq_refl t2)). }
    intros a2 d2 s2 t2 [HI2 _]. apply wp_ret. exists a2. by rewrite app_nil_r.
Qed.

Lemma wp_mfor (f : Z -> M D St unit) N n d s (I : Z -> D -> St -> list event -> Prop) :
  0 <= N -> I 0 d s [] ->
  (forall i d s t, 0 <= i < N -> I i d s t ->
     wp (f i) n d s (fun r d' s' t' => r = Ok tt /\ I (i + 1) d' s' (t ++ t'))) ->
  wp (mfor f (upto N)) n d s (fun r d' s' t => r = Ok tt /\ I N d' s' t).
Proof.
  intros HN HI Hstep.
  assert (forall l n d s, mfor f l n d s = mfold (fun _ i => f i) l tt n d s) as Heq.
  { induction l as [|i l IH]; intros n0 d0 s0; [done|]. simpl. unfold mbind, M_bind.
    destruct (f i n0 d0 s0) as [[[]| |] d1 s1 t1]; [|done..]. by rewrite IH. }
  unfold wp. rewrite Heq.
  assert (wp (mfold (fun _ i => f i) (upto N) tt) n d s
            (fun r d' s' t => exists a, r = Ok a /\ I N d' s' t)) as Hf.
  { apply wp_mfold with (I := fun i _ => I i); [done..|].
    intros i [] d1 s1 t1 Hi HI1. eapply wp_mono; [by apply Hstep|].
    intros r d' s' t' [-> ?]. eauto. }
  by destruct Hf as ([] & -> & ?).
Qed.
End wp_loops.

(** A function of the device that a character does not change survives a
    text. *)
Lemma foldl_putc_inv {D B} `{Device D} (P : D -> B) l d :
  (forall c d, P (dev_putc c d) = P d) -> P (foldl (fun d c => dev_putc c d) d l) = P d.
Proof. intros HP. revert d. induction l as [|c l IH]; intros d; [done|]. simpl. by rewrite IH, HP. Qed.

(** Peel the first command of a program. *)
Ltac wp_prim :=
  lazymatch goal with
  | |- wp (mret _) _ _ _ _ => apply wp_ret
  | |- wp (iord _ _) _ _ _ _ => apply wp_iord
  | |- wp (iowr _ _ _) _ _ _ _ => apply wp_iowr
  | |- wp (sleep_ms _) _ _ _ _ => apply wp_sleep
  | |- wp (alt_putchar _) _ _ _ _ => apply wp_putc
  | |- wp alt_getchar _ _ _ _ => apply wp_getc
  | |- wp get_st _ _ _ _ => apply wp_get
  | |- wp (put_st _) _ _ _ _ => apply wp_put
  end.

Ltac wp_step :=
  repeat apply wp_assoc;
  lazymatch goal with
  | |- wp (_ ≫= _) _ _ _ _ => apply wp_bind; wp_prim
  | |- _ => wp_prim
  end; cbv zeta beta iota.

(** One step of a driver: run the first command of a sequence. *)
Ltac hw_step := first
  [ eapply bind_ok; [reflexivity|]
  | erewrite bind_ok; [|reflexivity|] ].

#[export] Hint Extern 2 (FuelMono _) => (cbv beta; apply _) : ledos.

(** ** Register files

    The contract of the control registers of the fabric: a register [a] of
    the set [R] returns, in the bits of its mask, what was last written to
    it.  Writes to the addresses of [X] (block resets) are exempt. *)

Class RegFile (D : Type) `{Device D} (R X : Z -> Prop) (keep : Z -> Z) := {
  reg : D -> Z -> Z;
  reg_read a d : R a -> u32 (dev_read a d).1 = reg d a;
  reg_after_read a b d : R a -> reg (dev_read b d).2 a = reg d a;
  reg_write_eq a v d : R a -> reg (dev_write a v d) a = Z.land v (keep a);
  reg_write_ne a b v d : R a -> b <> a -> ~ X b -> reg (dev_write b v d) a = reg d a;
  reg_sleep a ms d : R a -> reg (dev_sleep ms d) a = reg d a;
  reg_putc a c d : R a -> reg (dev_putc c d) a = reg d a
}.

(** *** A concrete register file

    The device in which every address is such a register: it validates the
    contract and runs the witnesses. *)

Record regdev := RegDev { rd_regs : gmap Z Z; rd_input : list Z }.

#[export] Instance regdev_device : Device regdev := {
  dev_read a d := (default 0 (rd_regs d !! a), d);
  dev_write a v d := RegDev (<[a := v]> (rd_regs d)) (rd_input d);
  dev_sleep _ d := d;
  dev_putc _ d := d;
  dev_getc d :=
    match rd_input d with
    | [] => (-1, d)
    | c :: l => (c, RegDev (rd_regs d) l)
    end
}.

(** The register file in which only the bits of [keep] are implemented. *)
Record maskdev (keep : Z -> Z) := MaskDev { md_regs : gmap Z Z }.
Arguments MaskDev {keep} md_regs.
Arguments md_regs {keep} _.

#[export] Instance maskdev_device keep : Device (maskdev keep) := {
  dev_read a d := (default 0 (md_regs d !! a), d);
  dev_write a v d := MaskDev (<[a := u32 (Z.land v (keep a))]> (md_regs d));
  dev_sleep _ d := d;
  dev_putc _ d := d;
  dev_getc d := (-1, d)
}.

#[export] Program Instance maskdev_regfile keep R X
  (Hk : forall a, R a -> fits 32 (keep a)) : RegFile (maskdev keep) R X keep := {
  reg d a := u32 (default 0 (md_regs d !! a))
}.
Next Obligation. done. Qed.
Next Obligation. done. Qed.
Next Obligation.
  intros keep R X Hk a v d Ha. simpl. rewrite lookup_insert_eq. simpl.
  rewrite wrap_idemp by lia. apply wrap_small.
  destruct (Hk a Ha) as [Hk0 Hk1].
  apply fits_of_bits; [lia|apply Z.land_nonneg; auto|].
  intros i Hi. rewrite Z.land_spec, (fits_testbit 32 (keep a)); [apply andb_false_r|lia|by apply Hk|done].
Qed.
Next Obligation. intros keep R X Hk a b v d Ha Hne _. simpl. by rewrite lookup_insert_ne. Qed.
Next Obligation. done. Qed.
Next Obligation. done. Qed.
