(* ===== verification/Types.v ===== *)
(** * Enumerations shared by the drivers

    A C enumeration constant is an [int]: each type comes with its numeric
    values, used wherever the code indexes a table with a constant, compares
    it, or passes it to a function declared with another enumeration. *)

From S2P Require Import Prelude.

(** [FS_T] of ledos_types.h: the sampling rates. *)
Inductive FS_T := FS_8KHZ | FS_32KHZ | FS_44KHZ | FS_48KHZ | FS_88KHZ | FS_96KHZ.

Definition FS_T_val (fs : FS_T) : Z :=
  match fs with
  | FS_8KHZ => 0 | FS_32KHZ => 1 | FS_44KHZ => 2
  | FS_48KHZ => 3 | FS_88KHZ => 4 | FS_96KHZ => 5
  end.

(** [BPS_T] of ledos_types.h: the sample widths. *)
Inductive BPS_T := BPS_32 | BPS_16.

Definition BPS_T_val (b : BPS_T) : Z :=
  match b with BPS_32 => 1 | BPS_16 => 0 end.

(** [I2C_RES] of i2c_drvr.h. *)
Inductive I2C_RES := I2C_OK | I2C_NACK_DETECTED | I2C_BUSY | I2C_IDLE.

Definition I2C_RES_val (r : I2C_RES) : Z :=
  match r with I2C_OK => 0 | I2C_NACK_DETECTED => 1 | I2C_BUSY => 2 | I2C_IDLE => 3 end.

(** [MCLK_SEL_VAL] of dac_drvr.h: the master clock selections. *)
Inductive MCLK_SEL_VAL := CLK_18MHZ | CLK_16MHZ | CLK_12MHZ | CLK_11MHZ.

Definition MCLK_SEL_VAL_val (m : MCLK_SEL_VAL) : Z :=
  match m with CLK_18MHZ => 0 | CLK_16MHZ => 1 | CLK_12MHZ => 2 | CLK_11MHZ => 3 end.

#[export] Instance FS_T_eq_dec : EqDecision FS_T.
Proof. solve_decision. Defined.
#[export] Instance BPS_T_eq_dec : EqDecision BPS_T.
Proof. solve_decision. Defined.
#[export] Instance I2C_RES_eq_dec : EqDecision I2C_RES.
Proof. solve_decision. Defined.
#[export] Instance MCLK_SEL_VAL_eq_dec : EqDecision MCLK_SEL_VAL.
Proof. solve_decision. Defined.

(** A condition [if (r)] on an I2C result. *)
Definition i2c_failed (r : I2C_RES) : bool := negb (I2C_RES_val r =? 0).

Lemma i2c_failed_false r : i2c_failed r = false <-> r = I2C_OK.
Proof. by destruct r. Qed.

(** The slave base addresses of the generated system.h. *)
Definition CORTEX_MM_SL_BASE : Z := 0x1000000.
Definition FFT_CACHE_MM_SL_BASE : Z := 0x1100000.
