(* ===== verification/I2c.v ===== *)
(** * The I2C master driver: cortex/acortex/i2c/i2c_drvr.[ch]

    A register write to a slave is a transaction: the driver waits for the
    master to be free, loads data and address, starts the transaction with a
    write to the status register, waits for its end and reads the outcome. *)

From S2P Require Import Prelude Hw Types.

(** ** Registers and fields (i2c_drvr.h) *)

Definition I2C_DRIVER_STATUS_REG_ADDR : Z := 0x20000.
Definition I2C_DRIVER_ADDR_REG_ADDR : Z := 0x20010.
Definition I2C_DRIVER_DATA_REG_ADDR : Z := 0x20020.
Definition I2C_DRIVER_CLK_DIV_REG_ADDR : Z := 0x20030.

Definition I2C_DRIVER_STATUS_BUSY_MSK : Z := 0x0001.
Definition I2C_DRIVER_STATUS_NACK_MSK : Z := 0x0002.

Section driver.
Context {D St : Type} `{Device D}.
Local Abbreviation M := (M D St).

Definition IORD_I2C_STATUS (base : Z) : M Z := iord base I2C_DRIVER_STATUS_REG_ADDR.
Definition IORD_I2C_CLK_DIV (base : Z) : M Z := iord base I2C_DRIVER_CLK_DIV_REG_ADDR.
Definition IOWR_I2C_STATUS (base data : Z) : M unit := iowr base I2C_DRIVER_STATUS_REG_ADDR data.
Definition IOWR_I2C_ADDR (base data : Z) : M unit := iowr base I2C_DRIVER_ADDR_REG_ADDR data.
Definition IOWR_I2C_DATA (base data : Z) : M unit := iowr base I2C_DRIVER_DATA_REG_ADDR data.
Definition IOWR_I2C_CLK_DIV (base data : Z) : M unit := iowr base I2C_DRIVER_CLK_DIV_REG_ADDR data.

(** [reg & msk] as a condition. *)
Definition has (reg msk : Z) : bool := negb (Z.land reg msk =? 0).

(** ** Operations *)

Definition get_i2c_status (base : Z) : M I2C_RES :=
  v ← IORD_I2C_STATUS base;
  let reg := u16 v in
  if has reg I2C_DRIVER_STATUS_NACK_MSK then mret I2C_NACK_DETECTED
  else if has reg I2C_DRIVER_STATUS_BUSY_MSK then mret I2C_BUSY
  else mret I2C_IDLE.

Definition is_busy (base : Z) : M I2C_RES :=
  v ← IORD_I2C_STATUS base;
  let reg := u16 v in
  if has reg I2C_DRIVER_STATUS_BUSY_MSK then mret I2C_BUSY else mret I2C_IDLE.

(** [while (IORD_I2C_STATUS(base) & BUSY) chThdSleepMilliseconds(1);] *)
Definition i2c_busy (base : Z) : M bool :=
  v ← IORD_I2C_STATUS base; mret (has v I2C_DRIVER_STATUS_BUSY_MSK).

Definition i2c_wait_free (base : Z) : M unit := while (i2c_busy base) (sleep_ms 1).

Definition i2c_xtn_write16 (base addr data : Z) : M I2C_RES :=
  i2c_wait_free base;;
  IOWR_I2C_DATA base data;;
  IOWR_I2C_ADDR base (Z.land addr 0xfe);;
  IOWR_I2C_STATUS base 0x0;;
  i2c_wait_free base;;
  v ← IORD_I2C_STATUS base;
  if has v I2C_DRIVER_STATUS_NACK_MSK then mret I2C_NACK_DETECTED else mret I2C_OK.

Definition configure_i2c_clk (base clk_val : Z) : M unit := IOWR_I2C_CLK_DIV base clk_val.

Definition get_i2c_clk (base : Z) : M Z :=
  v ← IORD_I2C_CLK_DIV base; mret (u8 v).

#[export] Instance i2c_busy_mono base : FuelMono (i2c_busy base).
Proof. unfold i2c_busy, IORD_I2C_STATUS. apply _. Qed.

#[export] Instance i2c_wait_free_mono base : FuelMono (i2c_wait_free base).
Proof. unfold i2c_wait_free. apply _. Qed.

#[export] Instance i2c_xtn_write16_mono base addr data : FuelMono (i2c_xtn_write16 base addr data).
Proof.
  unfold i2c_xtn_write16, IOWR_I2C_DATA, IOWR_I2C_ADDR, IOWR_I2C_STATUS, IORD_I2C_STATUS.
  apply _.
Qed.

(** ** The shape of a transaction *)

(** Polling the status register never writes to the bus and leaves the
    driver's variables alone. *)
Lemma i2c_wait_free_trace base n d s :
  wp (i2c_wait_free base) n d s (fun r _ s' t =>
    writes t = [] /\ printed t = [] /\ s' = s /\ r <> Ub).
Proof.
  apply wp_while with (I := fun _ s' t => writes t = [] /\ printed t = [] /\ s' = s);
    [done| |by intros ? ? ? (? & ? & ?)].
  intros d1 s1 t1 (Hw & Hp & ->). unfold i2c_busy, IORD_I2C_STATUS.
  do 2 wp_step. destruct (has _ _); simpl; [wp_step|];
    rewrite ?writes_app, ?printed_app, ?Hw, ?Hp; done.
Qed.

(** The writes of a transaction: data word, slave address with its
    read bit cleared, then the trigger. *)
Definition i2c_xtn_writes (base addr data : Z) : list (Z * Z) :=
  [(u32 (base + I2C_DRIVER_DATA_REG_ADDR), u32 data);
   (u32 (base + I2C_DRIVER_ADDR_REG_ADDR), u32 (Z.land addr 0xfe));
   (u32 (base + I2C_DRIVER_STATUS_REG_ADDR), 0)].

Lemma i2c_xtn_write16_cases base addr data n d s :
  wp (i2c_xtn_write16 base addr data) n d s (fun r _ s' t =>
    s' = s /\ r <> Ub /\ printed t = [] /\
    match r with
    | Ok r => (r = I2C_OK \/ r = I2C_NACK_DETECTED) /\
              writes t = i2c_xtn_writes base addr data
    | _ => writes t = [] \/ writes t = i2c_xtn_writes base addr data
    end).
Proof.
  unfold i2c_xtn_write16, IOWR_I2C_DATA, IOWR_I2C_ADDR, IOWR_I2C_STATUS, IORD_I2C_STATUS.
  apply wp_bind. eapply wp_mono; [apply i2c_wait_free_trace|].
  intros r d1 s1 t1 (Hw1 & Hp1 & -> & Hr1). destruct r; [|by eauto..].
  do 3 wp_step. apply wp_bind. eapply wp_mono; [apply i2c_wait_free_trace|].
  intros r d2 s2 t2 (Hw2 & Hp2 & -> & Hr2).
  assert (forall t, writes (t1 ++ [EvWr (u32 (base + I2C_DRIVER_DATA_REG_ADDR)) (u32 data)] ++
      [EvWr (u32 (base + I2C_DRIVER_ADDR_REG_ADDR)) (u32 (Z.land addr 0xfe))] ++
      [EvWr (u32 (base + I2C_DRIVER_STATUS_REG_ADDR)) (u32 0)] ++ t2 ++ t)
      = i2c_xtn_writes base addr data ++ writes t) as Hws.
  { intros t. rewrite !writes_app, Hw1, Hw2. done. }
  assert (forall t, printed (t1 ++ [EvWr (u32 (base + I2C_DRIVER_DATA_REG_ADDR)) (u32 data)] ++
      [EvWr (u32 (base + I2C_DRIVER_ADDR_REG_ADDR)) (u32 (Z.land addr 0xfe))] ++
      [EvWr (u32 (base + I2C_DRIVER_STATUS_REG_ADDR)) (u32 0)] ++ t2 ++ t) = printed t) as Hps.
  { intros t. rewrite !printed_app, Hp1, Hp2. done. }
  specialize (Hws []) as Hws0. specialize (Hps []) as Hps0. rewrite app_nil_r in Hws0, Hps0.
  destruct r; [|by eauto 10..].
  wp_step. destruct (has _ _); wp_step; rewrite Hps, Hws; eauto 10.
Qed.
End driver.

(** ** The contract of the I2C master hardware

    What the driver relies on: the busy flag reflects a transaction in
    progress, time passing brings it to its end, and reading the status
    register does not disturb it. *)

Class I2cMaster (D : Type) `{Device D} (base : Z) := {
  (** The number of 1 ms waits until the master is free. *)
  i2c_left : D -> nat;
  (** The outcome the status register reports once the master is free. *)
  i2c_nacked : D -> bool;
  i2c_bound : nat;
  i2c_status_read d :
    let r := dev_read (u32 (base + I2C_DRIVER_STATUS_REG_ADDR)) d in
    Z.testbit (u32 r.1) 0 = negb (i2c_left d =? 0)%nat /\
    (i2c_left d = 0%nat -> Z.testbit (u32 r.1) 1 = i2c_nacked d) /\
    i2c_left r.2 = i2c_left d /\ i2c_nacked r.2 = i2c_nacked d;
  i2c_tick d : i2c_left (dev_sleep 1 d) = Nat.pred (i2c_left d);
  i2c_sleep ms d : (i2c_left (dev_sleep ms d) <= i2c_left d)%nat;
  i2c_putc c d : i2c_left (dev_putc c d) = i2c_left d;
  i2c_left_bound a v d : (i2c_left d <= i2c_bound)%nat -> (i2c_left (dev_write a v d) <= i2c_bound)%nat
}.

Lemma has_testbit v k : 0 <= k -> has v (2 ^ k) = Z.testbit v k.
Proof.
  intros. unfold has. destruct (Z.testbit v k) eqn:E.
  - apply negb_true_iff, Z.eqb_neq. intros Hz.
    assert (Z.testbit (Z.land v (2 ^ k)) k = true) as Ht.
    { rewrite Z.land_spec, E, Z.pow2_bits_true by lia. done. }
    rewrite Hz, Z.testbit_0_l in Ht. done.
  - apply negb_false_iff, Z.eqb_eq. apply Z.bits_inj'. intros i Hi.
    rewrite Z.land_spec, Z.testbit_0_l.
    destruct (Z.eq_dec i k) as [->|]; [by rewrite E|].
    rewrite (Z.pow2_bits_false k i) by lia. apply andb_false_r.
Qed.

Section liveness.
Context {D St : Type} `{Device D} (base : Z) `{!I2cMaster D base}.

(** Waiting for the master ends with it free. *)
Lemma i2c_wait_free_polls n d s :
  exists d' t, polls (St:=St) (i2c_busy base) (sleep_ms 1) n d s (i2c_left d) d' s t /\ i2c_left d' = 0%nat.
Proof.
  remember (i2c_left d) as k eqn:Hk. revert d Hk.
  induction k as [|k IH]; intros d Hk;
    destruct (i2c_status_read d) as (Hb & Hn & Hl & Hk2).
  - eexists _, _. split.
    + apply polls_done. unfold i2c_busy, IORD_I2C_STATUS, iord, mbind, M_bind. simpl.
      change I2C_DRIVER_STATUS_BUSY_MSK with (2 ^ 0). rewrite has_testbit, Hb, <- Hk by lia.
      done.
    + by rewrite Hl.
  - destruct (IH (dev_sleep 1 (dev_read (u32 (base + I2C_DRIVER_STATUS_REG_ADDR)) d).2))
      as (d' & t & Hp & H0).
    { rewrite i2c_tick, Hl. lia. }
    eexists d', _. split; [|done].
    eapply polls_again; [|reflexivity|done].
    unfold i2c_busy, IORD_I2C_STATUS, iord, mbind, M_bind. simpl.
    change I2C_DRIVER_STATUS_BUSY_MSK with (2 ^ 0). rewrite has_testbit, Hb, <- Hk by lia. done.
Qed.

Lemma i2c_wait_free_ends n d s :
  (i2c_left d < n)%nat ->
  exists d' t, i2c_wait_free (St:=St) base n d s = Out (Ok tt) d' s t /\ i2c_left d' = 0%nat.
Proof.
  intros Hn. destruct (i2c_wait_free_polls n d s) as (d' & t & Hp & H0).
  exists d', t. split; [|done]. by eapply while_polls.
Qed.

Lemma i2c_xtn_write16_ends addr data n d s :
  (i2c_left d <= i2c_bound)%nat -> (i2c_bound < n)%nat ->
  exists r d' t,
    i2c_xtn_write16 (St:=St) base addr data n d s = Out (Ok r) d' s t /\ (i2c_left d' <= i2c_bound)%nat.
Proof.
  intros Hd Hn.
  destruct (i2c_wait_free_ends n d s) as (d1 & t1 & H1 & Hl1); [lia|].
  set (d2 := dev_writes (i2c_xtn_writes base addr data) d1).
  assert (i2c_left d2 <= i2c_bound)%nat as Hl2.
  { unfold d2. simpl. repeat apply i2c_left_bound. lia. }
  destruct (i2c_wait_free_ends n d2 s) as (d3 & t3 & H3 & Hl3); [lia|].
  destruct (i2c_status_read d3) as (_ & _ & Hl4 & _).
  pose (rd := dev_read (u32 (base + I2C_DRIVER_STATUS_REG_ADDR)) d3).
  exists (if has (u32 rd.1) I2C_DRIVER_STATUS_NACK_MSK then I2C_NACK_DETECTED else I2C_OK), rd.2.
  eexists. split.
  { unfold i2c_xtn_write16. eapply bind_ok; [exact H1|]. do 3 hw_step.
    eapply bind_ok; [exact H3|]. hw_step. by destruct (has _ _). }
  unfold rd. rewrite Hl4. lia.
Qed.
End liveness.

(** ** Programs that always answer

    [live m]: with more fuel than the master's longest transaction takes, [m]
    ends, and leaves the master no busier than that. *)

Section live.
Context {D St : Type} `{Device D} (base : Z) `{!I2cMaster D base}.

Definition live {A} (m : M D St A) : Prop :=
  forall n d s, (i2c_left d <= i2c_bound)%nat -> (i2c_bound < n)%nat ->
    wp m n d s (fun r d' _ _ => r <> Diverge /\ (i2c_left d' <= i2c_bound)%nat).

Lemma live_ret {A} (a : A) : live (mret a).
Proof. intros n d s Hd Hn. by apply wp_ret. Qed.

Lemma live_bind {A B} (m : M D St A) (f : A -> M D St B) :
  live m -> (forall a, live (f a)) -> live (m ≫= f).
Proof.
  intros Hm Hf n d s Hd Hn. apply wp_bind. eapply wp_mono; [by apply Hm|].
  intros [a| |] d' s' t [Hr Hd']; [|done|done].
  eapply wp_mono; [by apply (Hf a)|]. done.
Qed.

Lemma live_mfor {B} (f : B -> M D St unit) l : (forall b, live (f b)) -> live (mfor f l).
Proof. intros Hf. induction l as [|b l IH]; [apply live_ret|]. by apply live_bind. Qed.

Lemma live_sleep ms : live (sleep_ms ms).
Proof. intros n d s Hd Hn. apply wp_sleep. split; [done|]. pose proof (i2c_sleep ms d). lia. Qed.

Lemma live_get : live get_st.
Proof. done. Qed.

Lemma live_put s : live (put_st s).
Proof. done. Qed.

Lemma live_aget {A} (l : list A) i : live (aget l i).
Proof. intros n d s Hd Hn. unfold aget. by destruct (zget l i). Qed.

Lemma live_aset {A} (l : list A) i x : live (aset l i x).
Proof. intros n d s Hd Hn. unfold aset. by destruct (bool_decide _). Qed.

Lemma live_if {A} (b : bool) (m1 m2 : M D St A) : live m1 -> live m2 -> live (if b then m1 else m2).
Proof. by destruct b. Qed.

Lemma live_ub {A} : live (A := A) ub.
Proof. done. Qed.

Lemma live_putchar c : live (alt_putchar c).
Proof. intros n d s Hd Hn. apply wp_putc. split; [done|]. by rewrite i2c_putc. Qed.

Lemma live_xtn addr data : live (i2c_xtn_write16 base addr data).
Proof.
  intros n d s Hd Hn. destruct (i2c_xtn_write16_ends base addr data n d s) as (r & d' & t & Heq & Hl); [done..|].
  unfold wp. by rewrite Heq.
Qed.
End live.

Create HintDb live.
#[export] Hint Resolve live_ret live_bind live_mfor live_sleep live_get live_put live_aget live_aset
  live_if live_ub live_putchar live_xtn : live.

(** ** A master that satisfies the contract

    Every transaction takes [delay] waits; the slave's acknowledgements follow
    the script [id_script] ([true]: not acknowledged). *)

Record i2c_dev (base : Z) (delay : nat) := I2cDev {
  id_left : nat; id_nack : bool; id_script : list bool; id_data : Z; id_sent : list Z
}.
Arguments I2cDev {base delay} _ _ _ _ _.
Arguments id_left {base delay} _.
Arguments id_nack {base delay} _.
Arguments id_script {base delay} _.
Arguments id_data {base delay} _.
Arguments id_sent {base delay} _.

#[export] Instance i2c_dev_device base delay : Device (i2c_dev base delay) := {
  dev_read a d :=
    (if a =? u32 (base + I2C_DRIVER_STATUS_REG_ADDR)
     then (if (id_left d =? 0)%nat then 0 else 1) + (if id_nack d then 2 else 0) else 0, d);
  dev_write a v d :=
    if a =? u32 (base + I2C_DRIVER_STATUS_REG_ADDR) then
      I2cDev delay (default false (head (id_script d))) (tail (id_script d)) (id_data d)
        (id_sent d ++ [id_data d])
    else if a =? u32 (base + I2C_DRIVER_DATA_REG_ADDR) then
      I2cDev (id_left d) (id_nack d) (id_script d) v (id_sent d)
    else d;
  dev_sleep ms d :=
    I2cDev (id_left d - Z.to_nat ms) (id_nack d) (id_script d) (id_data d) (id_sent d);
  dev_putc _ d := d;
  dev_getc d := (-1, d)
}.

#[export] Program Instance i2c_dev_master base delay : I2cMaster (i2c_dev base delay) base := {
  i2c_left := id_left;
  i2c_nacked := id_nack;
  i2c_bound := delay
}.
Next Obligation.
  intros base delay d. cbv zeta. cbn [dev_read i2c_dev_device fst snd]. rewrite Z.eqb_refl.
  destruct (id_left d), (id_nack d); split_and!; done.
Qed.
Next Obligation. intros. cbn. lia. Qed.
Next Obligation. intros. cbn. lia. Qed.
Next Obligation. done. Qed.
Next Obligation. intros base delay a v d Hd. cbn [dev_write i2c_dev_device]. by repeat case_z. Qed.
