(* ===== verification/Printf.v ===== *)
(** * The HAL's console formatter: alt_printf.c

    [alt_printf] is the only formatter of the drivers and of most of the
    shell: literal characters, [%%], [%c], [%x] and [%s]. *)

From S2P Require Import Prelude Hw.
From Stdlib Require Import Ascii String.

(** ** Characters and strings *)

Definition code (c : ascii) : Z := Z.of_nat (nat_of_ascii c).

(** The bytes of a C string, without its terminator. *)
Fixpoint codes (s : string) : list Z :=
  match s with
  | EmptyString => []
  | String c s => code c :: codes s
  end.

Definition cr : string := String "013" EmptyString.
Definition lf : string := String "010" EmptyString.
Definition tab : string := String "009" EmptyString.
Definition crlf : string := cr +:+ lf.

Lemma codes_app s1 s2 : codes (s1 +:+ s2) = codes s1 ++ codes s2.
Proof. induction s1; simpl; [done|]. by f_equal. Qed.

Lemma code_range c : 0 <= code c < 256.
Proof.
  unfold code. pose proof (nat_ascii_bounded c). lia.
Qed.

Lemma codes_bytes s : Forall (fun c => 0 <= c < 256) (codes s).
Proof. induction s; simpl; constructor; [apply code_range|done]. Qed.

(** ** Arguments and conversions *)

(** A variadic argument: an integer of the machine's word, or a string. *)
Inductive parg := PInt (v : Z) | PStr (s : list Z).

(** The [k]-th hexadecimal digit: [(v & (0xF << 4k)) >> 4k]. *)
Definition nibble (v : Z) (k : nat) : Z :=
  Z.shiftr (Z.land v (Z.shiftl 0xF (4 * Z.of_nat k))) (4 * Z.of_nat k).

(** [while (!(v & (0xF << digit_shift))) digit_shift -= 4;] from digit [k];
    [None] when the shift would become negative. *)
Fixpoint lead_digit (v : Z) (k : nat) : option nat :=
  if Z.land v (Z.shiftl 0xF (4 * Z.of_nat k)) =? 0
  then match k with O => None | S k => lead_digit v k end
  else Some k.

(** The character of a digit: [c = '0' + digit] or [c = 'a' + digit - 10]. *)
Definition digit_char (d : Z) : Z := if d <=? 9 then 48 + d else 97 + d - 10.

(** The digits from [k] down to [0]. *)
Fixpoint digits_from (v : Z) (k : nat) : list Z :=
  digit_char (nibble v k) :: match k with O => [] | S k => digits_from v k end.

Section printf.
Context {D St : Type} `{Device D}.

Definition alt_putstr (s : list Z) : M D St unit := mfor alt_putchar s.

(** The [%x] conversion of the 32-bit value [v]. *)
Definition alt_putx (v : Z) : M D St unit :=
  if v =? 0 then alt_putchar 48
  else match lead_digit v 7 with
       | Some k => mfor alt_putchar (digits_from v k)
       | None => ub
       end.

Fixpoint alt_printf (w : string) (args : list parg) : M D St unit :=
  match w with
  | EmptyString => mret tt
  | String c w =>
      if negb (Ascii.eqb c "%") then alt_putchar (code c);; alt_printf w args
      else
        match w with
        | EmptyString => mret tt
        | String c w =>
            if Ascii.eqb c "%" then alt_putchar (code c);; alt_printf w args
            else if Ascii.eqb c "c" then
              match args with
              | PInt v :: args => alt_putchar v;; alt_printf w args
              | _ => ub
              end
            else if Ascii.eqb c "x" then
              match args with
              | PInt v :: args => alt_putx (u32 v);; alt_printf w args
              | _ => ub
              end
            else if Ascii.eqb c "s" then
              match args with
              | PStr s :: args => alt_putstr s;; alt_printf w args
              | _ => ub
              end
            else alt_printf w args
        end
  end.
End printf.

(** ** What is printed *)

Definition hex_of (v : Z) : list Z :=
  if v =? 0 then [48]
  else match lead_digit v 7 with Some k => digits_from v k | None => [] end.

(** The output of [alt_printf], as a function of format and arguments:
    [None] when a conversion has no argument of its type. *)
Fixpoint formatted (w : string) (args : list parg) : option (list Z) :=
  match w with
  | EmptyString => Some []
  | String c w =>
      if negb (Ascii.eqb c "%") then cons (code c) <$> formatted w args
      else
        match w with
        | EmptyString => Some []
        | String c w =>
            if Ascii.eqb c "%" then cons (code c) <$> formatted w args
            else if Ascii.eqb c "c" then
              match args with PInt v :: args => cons (u8 v) <$> formatted w args | _ => None end
            else if Ascii.eqb c "x" then
              match args with
              | PInt v :: args => app (hex_of (u32 v)) <$> formatted w args
              | _ => None
              end
            else if Ascii.eqb c "s" then
              match args with
              | PStr s :: args => app (u8 <$> s) <$> formatted w args
              | _ => None
              end
            else formatted w args
        end
  end.

Fixpoint plain (w : string) : bool :=
  match w with
  | EmptyString => true
  | String c w => negb (Ascii.eqb c "%") && plain w
  end.

(** A run that only prints [l]: its trace is one [EvPutc] per character. *)
Definition prints {D St : Type} `{Device D} (m : M D St unit) (l : list Z) : Prop :=
  forall n d s, m n d s = Out (Ok tt) (foldl (fun d c => dev_putc c d) d l) s (EvPutc <$> l).

Section laws.
Context {D St : Type} `{Device D}.

Lemma prints_ret : prints (D:=D) (St:=St) (mret tt) [].
Proof. done. Qed.

Lemma prints_bind (m1 m2 : M D St unit) l1 l2 :
  prints m1 l1 -> prints m2 l2 -> prints (m1;; m2) (l1 ++ l2).
Proof.
  intros H1 H2 n d s. erewrite bind_ok; [|apply H1|apply H2].
  by rewrite foldl_app, fmap_app.
Qed.

Lemma prints_putchar c : prints (D:=D) (St:=St) (alt_putchar c) [u8 c].
Proof. done. Qed.

Lemma prints_str l : prints (D:=D) (St:=St) (mfor alt_putchar l) (u8 <$> l).
Proof.
  induction l as [|c l IH]; [done|]. simpl.
  apply (prints_bind _ _ [u8 c]); [apply prints_putchar|done].
Qed.

Lemma u8_code c : u8 (code c) = code c.
Proof. apply wrap_small. apply code_range. Qed.

Lemma prints_code c (m : M D St unit) l :
  prints m l -> prints (alt_putchar (code c);; m) (code c :: l).
Proof.
  intros Hm. rewrite <- u8_code at 2.
  apply (prints_bind _ _ [_]); [apply prints_putchar|done].
Qed.

Lemma digit_char_byte v : u8 (digit_char v) = digit_char v \/ ~ (0 <= v < 16).
Proof.
  destruct (decide (0 <= v < 16)) as [Hv|]; [left|by right].
  unfold digit_char. apply wrap_small. unfold fits. case_z; lia.
Qed.

Lemma nibble_range v k : 0 <= v -> 0 <= nibble v k < 16.
Proof.
  intros Hv. unfold nibble. rewrite Z.shiftr_land, Z.shiftr_shiftl_l, Z.sub_diag by lia.
  change (Z.shiftl 15 0) with (Z.ones 4). rewrite Z.land_ones by lia.
  apply Z.mod_pos_bound. lia.
Qed.

Lemma digits_bytes v k : 0 <= v -> u8 <$> digits_from v k = digits_from v k.
Proof.
  intros Hv. induction k as [|k IH]; simpl; f_equal; try done;
    match goal with |- u8 (digit_char ?x) = _ => destruct (digit_char_byte x) as [|[]] end;
    auto using nibble_range.
Qed.

(** The search for the leading digit of a non-zero value succeeds. *)
Lemma lead_digit_some v k :
  0 < v < 2 ^ (4 * (Z.of_nat k + 1)) ->
  exists j, lead_digit v k = Some j /\ (j <= k)%nat /\ nibble v j <> 0 /\
            v < 2 ^ (4 * (Z.of_nat j + 1)).
Proof.
  intros Hv. induction k as [|k IH]; simpl lead_digit.
  - destruct (Z.eqb_spec (Z.land v (Z.shiftl 15 (4 * Z.of_nat 0))) 0) as [Hz|Hz].
    + exfalso. change (Z.shiftl 15 (4 * Z.of_nat 0)) with (Z.ones 4) in Hz.
      rewrite Z.land_ones in Hz by lia.
      rewrite Z.mod_small in Hz; [lia|]. simpl Z.of_nat in Hv. lia.
    + exists 0%nat. split_and!; [done|lia| |apply Hv].
      unfold nibble. rewrite Z.shiftr_0_r. done.
  - destruct (Z.eqb_spec (Z.land v (Z.shiftl 15 (4 * Z.of_nat (S k)))) 0) as [Hz|Hz].
    + destruct IH as (j & Hj & Hle & Hn & Hb).
      { split; [lia|]. destruct (Z_lt_le_dec v (2 ^ (4 * (Z.of_nat k + 1)))) as [|Hge]; [done|].
        exfalso.
        assert (Z.testbit v (Z.log2 v) = true) as Hbit by (apply Z.bit_log2; lia).
        assert (4 * (Z.of_nat k + 1) <= Z.log2 v) by (apply Z.log2_le_pow2; lia).
        assert (Z.log2 v < 4 * (Z.of_nat (S k) + 1)) by (apply Z.log2_lt_pow2; lia).
        assert (Z.testbit (Z.land v (Z.shiftl 15 (4 * Z.of_nat (S k)))) (Z.log2 v) = true) as Ht.
        { rewrite Z.land_spec, Hbit, Z.shiftl_spec by lia.
          change 15 with (Z.ones 4). rewrite Z.testbit_ones by lia. zbool. done. }
        rewrite Hz, Z.testbit_0_l in Ht. done. }
      exists j. split_and!; [done|lia|done|done].
    + exists (S k). split_and!; [done|lia| |apply Hv].
      unfold nibble. intros Hn. apply Hz.
      apply Z.bits_inj'. intros i Hi. rewrite Z.testbit_0_l.
      destruct (Z_lt_le_dec i (4 * Z.of_nat (S k))).
      * rewrite Z.land_spec, Z.shiftl_spec_low by lia. apply andb_false_r.
      * replace i with ((i - 4 * Z.of_nat (S k)) + 4 * Z.of_nat (S k)) by lia.
        rewrite <- Z.shiftr_spec by lia. rewrite Hn. apply Z.testbit_0_l.
Qed.

Lemma prints_putx v : fits 32 v -> prints (D:=D) (St:=St) (alt_putx v) (hex_of v).
Proof.
  intros [Hv0 Hv]. unfold alt_putx, hex_of. destruct (Z.eqb_spec v 0); [done|].
  destruct (lead_digit_some v 7) as (j & -> & _); [simpl Z.of_nat; lia|].
  rewrite <- (digits_bytes v j) at 2 by done. apply prints_str.
Qed.

Lemma alt_printf_prints w args l :
  formatted w args = Some l -> prints (D:=D) (St:=St) (alt_printf w args) l.
Proof.
  remember (String.length w) as k eqn:Hk. revert w args l Hk.
  induction (lt_wf k) as [k _ IH]. intros w args l -> Hf.
  destruct w as [|c w]; simpl in *; [by simplify_eq|].
  destruct (negb (Ascii.eqb c "%")).
  { apply fmap_Some in Hf as (l' & Hl & ->). apply prints_code.
    eapply IH; [|reflexivity|done]. lia. }
  destruct w as [|c2 w]; [by simplify_eq|]. simpl in IH.
  assert (forall args l, formatted w args = Some l -> prints (D:=D) (St:=St) (alt_printf w args) l)
    as IH' by (intros; eapply IH; [|reflexivity|done]; lia).
  repeat case_match; try done; try (apply fmap_Some in Hf as (l' & Hl & ->));
    try (apply IH'; done).
  - apply prints_code, IH'. done.
  - apply (prints_bind _ _ [_]); [apply prints_putchar|by apply IH'].
  - apply prints_bind; [apply prints_putx, wrap_fits; lia|by apply IH'].
  - apply prints_bind; [apply prints_str|by apply IH'].
Qed.

Lemma wp_prints (m : M D St unit) l n d s (Q : res unit -> D -> St -> list event -> Prop) :
  prints m l ->
  Q (Ok tt) (foldl (fun d c => dev_putc c d) d l) s (EvPutc <$> l) -> wp m n d s Q.
Proof. intros Hm HQ. unfold wp. by rewrite Hm. Qed.

Lemma wp_printf w args l n d s (Q : res unit -> D -> St -> list event -> Prop) :
  formatted w args = Some l ->
  Q (Ok tt) (foldl (fun d c => dev_putc c d) d l) s (EvPutc <$> l) ->
  wp (alt_printf w args) n d s Q.
Proof. intros Hf. by apply wp_prints, alt_printf_prints. Qed.

(** Printing always answers. *)
Lemma printf_answers w args n d s : o_res (alt_printf (D:=D) (St:=St) w args n d s) <> Diverge.
Proof.
  assert (forall (m1 m2 : M D St unit) d s, (forall d s, o_res (m1 n d s) <> Diverge) ->
    (forall d s, o_res (m2 n d s) <> Diverge) -> o_res ((m1;; m2) n d s) <> Diverge) as Hb.
  { intros m1 m2 d0 s0 H1 H2. unfold mbind, M_bind. specialize (H1 d0 s0).
    destruct (m1 n d0 s0) as [[[]| |] ? ? ?]; [apply H2|done|done]. }
  assert (forall l d s, o_res (mfor (D:=D) (St:=St) alt_putchar l n d s) <> Diverge) as Hs.
  { intros l. induction l; intros; [done|]. by apply Hb. }
  remember (String.length w) as k eqn:Hk. revert w args d s Hk.
  induction (lt_wf k) as [k _ IH]. intros w args d s ->.
  destruct w as [|c w]; simpl; [done|].
  destruct (negb _).
  { apply Hb; [done|]. intros. eapply IH; [|reflexivity]. simpl. lia. }
  destruct w as [|c2 w]; [done|]. simpl in IH.
  assert (forall args d s, o_res (alt_printf (D:=D) (St:=St) w args n d s) <> Diverge) as IH'
    by (intros; eapply IH; [|reflexivity]; lia).
  unfold alt_putx, alt_putstr. repeat case_match; try done; try (apply Hb; intros; by auto).
Qed.

(** A format without conversions prints itself. *)
Lemma formatted_plain w : plain w = true -> formatted w [] = Some (codes w).
Proof.
  induction w as [|c w IH]; [done|]. simpl. intros [-> Hw]%andb_true_iff.
  by rewrite IH.
Qed.

Lemma wp_puts w n d s (Q : res unit -> D -> St -> list event -> Prop) :
  plain w = true ->
  Q (Ok tt) (foldl (fun d c => dev_putc c d) d (codes w)) s (EvPutc <$> codes w) ->
  wp (alt_printf w []) n d s Q.
Proof. intros Hp. by apply wp_printf, formatted_plain. Qed.

(** Printing does not touch the bus. *)
Lemma writes_putc l : writes (EvPutc <$> l) = [].
Proof. by induction l. Qed.

Lemma printed_putc l : printed (EvPutc <$> l) = l.
Proof. induction l; [done|]. unfold printed in *. simpl. by f_equal. Qed.

#[export] Instance alt_printf_mono w args : FuelMono (D:=D) (St:=St) (alt_printf w args).
Proof.
  remember (String.length w) as k eqn:Hk. revert w args Hk.
  induction (lt_wf k) as [k _ IH]. intros w args ->.
  destruct w as [|c w]; simpl; [apply _|].
  destruct (negb _).
  { apply mono_bind; [apply _|]. intros _. eapply IH; [|reflexivity]. simpl. lia. }
  destruct w as [|c2 w]; [apply _|]. simpl in IH.
  assert (forall args, FuelMono (D:=D) (St:=St) (alt_printf w args)) as IH'
    by (intros; eapply IH; [|reflexivity]; lia).
  unfold alt_putx, alt_putstr.
  repeat case_match; apply _.
Qed.
End laws.

(** ** Reading a number back *)

Definition digit_val (c : Z) : option Z :=
  if (48 <=? c) && (c <=? 57) then Some (c - 48)
  else if (97 <=? c) && (c <=? 102) then Some (c - 97 + 10) else None.

(** The value of a string of hexadecimal digits, most significant first. *)
Definition parse_hex (l : list Z) : option Z :=
  foldl (fun acc c => a ← acc; d ← digit_val c; Some (16 * a + d)) (Some 0) l.

Lemma digit_val_char d : 0 <= d < 16 -> digit_val (digit_char d) = Some d.
Proof.
  intros. unfold digit_val, digit_char.
  destruct (Z.leb_spec d 9); zbool; simpl; f_equal; lia.
Qed.

Lemma parse_digits v k acc :
  0 <= v ->
  foldl (fun acc c => a ← acc; d ← digit_val c; Some (16 * a + d)) (Some acc) (digits_from v k)
  = Some (acc * 16 ^ (Z.of_nat k + 1) + v mod 16 ^ (Z.of_nat k + 1)).
Proof.
  intros Hv. revert acc. induction k as [|k IH]; intros acc; simpl digits_from; cbn [foldl mbind option_bind].
  - rewrite digit_val_char by auto using nibble_range. simpl.
    unfold nibble. rewrite Z.shiftr_0_r. change (Z.shiftl 15 (4 * Z.of_nat 0)) with (Z.ones 4).
    rewrite Z.land_ones by lia. change (16 ^ (Z.of_nat 0 + 1)) with 16.
    change (2 ^ 4) with 16. f_equal. lia.
  - rewrite digit_val_char by auto using nibble_range. cbn [mbind option_bind].
    rewrite IH. f_equal.
    replace (Z.of_nat (S k) + 1) with (Z.of_nat k + 1 + 1) by lia.
    rewrite (Z.pow_add_r 16 (Z.of_nat k + 1) 1), Z.pow_1_r by lia.
    assert (nibble v (S k) = (v / 16 ^ (Z.of_nat k + 1)) mod 16) as ->.
    { unfold nibble. rewrite Z.shiftr_land, Z.shiftr_shiftl_l, Z.sub_diag by lia.
      change (Z.shiftl 15 0) with (Z.ones 4). rewrite Z.land_ones by lia.
      rewrite Z.shiftr_div_pow2 by lia. f_equal. f_equal.
      replace (4 * Z.of_nat (S k)) with (4 * (Z.of_nat k + 1)) by lia.
      rewrite Z.pow_mul_r by lia. done. }
    rewrite (Z.rem_mul_r v (16 ^ (Z.of_nat k + 1)) 16); [lia| |lia].
    apply Z.pow_nonzero; lia.
Qed.

(** The text printed for [%x] reads back as the value. *)
Lemma parse_hex_of v : fits 32 v -> parse_hex (hex_of v) = Some v.
Proof.
  intros [Hv0 Hv]. unfold hex_of, parse_hex. destruct (Z.eqb_spec v 0) as [->|]; [done|].
  destruct (lead_digit_some v 7) as (j & -> & Hj & _ & Hb); [simpl Z.of_nat; lia|].
  rewrite parse_digits by done. f_equal. rewrite Z.mul_0_l, Z.add_0_l. apply Z.mod_small.
  split; [done|]. change 16 with (2 ^ 4). rewrite <- Z.pow_mul_r by lia. done.
Qed.

(** ... and has no leading zero. *)
Lemma hex_of_head v : fits 32 v -> v <> 0 -> head (hex_of v) <> Some 48.
Proof.
  intros [Hv0 Hv] Hnz. unfold hex_of. destruct (Z.eqb_spec v 0); [done|].
  destruct (lead_digit_some v 7) as (j & -> & Hj & Hn & _); [simpl Z.of_nat; lia|].
  pose proof (nibble_range v j Hv0). destruct j; simpl; intros [= Hd]; revert Hd;
    unfold digit_char; case_z; lia.
Qed.

(** ** printf

    Newlib's [printf], for the conversions the firmware uses: the format is
    given as its pieces, literal text, [%u]/[%lu]/[%d] of a non-negative value
    with a field width, and [%s]. *)

Inductive piece := Txt (s : string) | Dec (width : nat) (v : Z) | Str (l : list Z).

Fixpoint dec_digits (fuel : nat) (v : Z) (acc : list Z) : list Z :=
  match fuel with
  | O => acc
  | S fuel =>
      let acc := 48 + v mod 10 :: acc in
      if v / 10 =? 0 then acc else dec_digits fuel (v / 10) acc
  end.

(** Ten digits hold any 32-bit value. *)
Definition dec_of (v : Z) : list Z := dec_digits 10 v [].

Definition piece_chars (p : piece) : list Z :=
  match p with
  | Txt s => codes s
  | Dec w v => let ds := dec_of v in replicate (w - List.length ds) 32 ++ ds
  | Str l => l
  end.

Definition printf {D St} `{Device D} (ps : list piece) : M D St unit :=
  mfor alt_putchar (mbind piece_chars ps).

Lemma printf_prints {D St} `{Device D} ps :
  prints (D:=D) (St:=St) (printf ps) (u8 <$> mbind piece_chars ps).
Proof. apply prints_str. Qed.

(** [alt_printf("%x", v)] prints the hexadecimal digits of the 32-bit
    value, and nothing else: they read back as the value and have no leading
    zero (zero itself is the one digit 0). *)
Theorem alt_printf_hex {D St} `{Device D} v :
  fits 32 v ->
  exists l, prints (D:=D) (St:=St) (alt_printf "%x" [PInt v]) l /\
    parse_hex l = Some v /\ (head l = Some 48 <-> v = 0).
Proof.
  intros Hv. exists (hex_of v). split_and!.
  - apply alt_printf_prints. simpl. rewrite wrap_small by done. simpl. by rewrite app_nil_r.
  - by apply parse_hex_of.
  - split; [|by intros ->]. intros Hh. destruct (Z.eq_dec v 0); [done|].
    by apply hex_of_head in Hv.
Qed.

Lemma alt_printf_hex_witness :
  exists l, prints (D:=regdev) (St:=unit) (alt_printf "%x" [PInt 0xdeadbeef]) l /\
    parse_hex l = Some 0xdeadbeef.
Proof.
  destruct (alt_printf_hex (D:=regdev) (St:=unit) 0xdeadbeef ltac:(done)) as (l & Hp & Hh & _).
  exists l. exact (conj Hp Hh).
Defined.
