(* ===== verification/Dac.v ===== *)
(** * The DAC/ADC serial driver: cortex/acortex/dac/dac_drvr.[ch] *)

From S2P Require Import Prelude Hw Types.

(** ** Registers, fields and tables (dac_drvr.h) *)

Definition DAC_DRVR_CTRL_REG_ADDR : Z := 0x23000.
Definition DAC_DRVR_STATUS_REG_ADDR : Z := 0x23010.
Definition DAC_DRVR_FS_DIV_REG_ADDR : Z := 0x23020.
Definition DAC_DRVR_MCLK_SEL_REG_ADDR : Z := 0x23030.

Definition DAC_DRVR_EN_MSK : Z := 0x1.
Definition ADC_DRVR_EN_MSK : Z := 0x2.
Definition DAC_DRVR_BPS_MSK : Z := 0x4.
Definition DAC_DRVR_FS_DIV_VAL_MSK : Z := 0x7ff.
Definition DAC_DRVR_MCLK_SEL_MSK : Z := 0x3.
Definition DAC_DRVR_MCLK_EN_MSK : Z := 0x8000.

(** [fs2mclk_lookup], indexed by an [FS_T] value. *)
Definition fs2mclk_lookup : list Z := MCLK_SEL_VAL_val <$>
  [ (* FS_8KHZ *) CLK_12MHZ; (* FS_32KHZ *) CLK_12MHZ; (* FS_44KHZ *) CLK_11MHZ;
    (* FS_48KHZ *) CLK_12MHZ; (* FS_88KHZ *) CLK_11MHZ; (* FS_96KHZ *) CLK_12MHZ ].

(** [FS_DIV_VAL]: bit clock over sampling rate. *)
Definition FS_DIV_8KHZ : Z := 781.
Definition FS_DIV_32KHZ : Z := 195.
Definition FS_DIV_44KHZ : Z := 142.
Definition FS_DIV_48KHZ : Z := 130.
Definition FS_DIV_88KHZ : Z := 71.
Definition FS_DIV_96KHZ : Z := 65.

(** [fs2div_lookup], indexed by an [FS_T] value. *)
Definition fs2div_lookup : list Z :=
  [ FS_DIV_8KHZ; FS_DIV_32KHZ; FS_DIV_44KHZ; FS_DIV_48KHZ; FS_DIV_88KHZ; FS_DIV_96KHZ ].

Section driver.
Context {D St : Type} `{Device D}.
Local Abbreviation M := (M D St).

Definition IORD_DAC_DRVR_CTRL (base : Z) : M Z := iord base DAC_DRVR_CTRL_REG_ADDR.
Definition IOWR_DAC_DRVR_CTRL (base data : Z) : M unit := iowr base DAC_DRVR_CTRL_REG_ADDR data.
Definition IOWR_DAC_DRVR_FS_DIV (base data : Z) : M unit := iowr base DAC_DRVR_FS_DIV_REG_ADDR data.
Definition IORD_DAC_DRVR_MCLK_SEL (base : Z) : M Z := iord base DAC_DRVR_MCLK_SEL_REG_ADDR.
Definition IOWR_DAC_DRVR_MCLK_SEL (base data : Z) : M unit := iowr base DAC_DRVR_MCLK_SEL_REG_ADDR data.

(** ** Operations *)

Definition disable_dac_drvr (base : Z) : M unit :=
  v ← IORD_DAC_DRVR_CTRL base; IOWR_DAC_DRVR_CTRL base (Z.land v (Z.lnot DAC_DRVR_EN_MSK)).

Definition enable_dac_drvr (base : Z) : M unit :=
  v ← IORD_DAC_DRVR_CTRL base; IOWR_DAC_DRVR_CTRL base (Z.lor v DAC_DRVR_EN_MSK).

Definition disable_adc_drvr (base : Z) : M unit :=
  v ← IORD_DAC_DRVR_CTRL base; IOWR_DAC_DRVR_CTRL base (Z.land v (Z.lnot ADC_DRVR_EN_MSK)).

Definition enable_adc_drvr (base : Z) : M unit :=
  v ← IORD_DAC_DRVR_CTRL base; IOWR_DAC_DRVR_CTRL base (Z.lor v ADC_DRVR_EN_MSK).

Definition configure_dac_drvr_bps (base val : Z) : M unit :=
  if negb (val =? 0) then
    v ← IORD_DAC_DRVR_CTRL base; IOWR_DAC_DRVR_CTRL base (Z.lor v DAC_DRVR_BPS_MSK)
  else
    v ← IORD_DAC_DRVR_CTRL base; IOWR_DAC_DRVR_CTRL base (Z.land v (Z.lnot DAC_DRVR_BPS_MSK)).

Definition enable_mclk (base : Z) : M unit :=
  v ← IORD_DAC_DRVR_MCLK_SEL base; IOWR_DAC_DRVR_MCLK_SEL base (Z.lor v DAC_DRVR_MCLK_EN_MSK).

Definition disable_mclk (base : Z) : M unit := IOWR_DAC_DRVR_MCLK_SEL base 0x0.

Definition update_mclk (base val : Z) : M unit :=
  disable_mclk base;;
  m ← aget fs2mclk_lookup val;
  IOWR_DAC_DRVR_MCLK_SEL base m;;
  enable_mclk base.

Definition update_fs_div (base val : Z) : M unit :=
  v ← aget fs2div_lookup val; IOWR_DAC_DRVR_FS_DIV base v.
End driver.

(** ** The registers of the block *)

Section contract.
Context {D St : Type} `{Device D} (base : Z).

Definition ctrl_addr : Z := u32 (base + DAC_DRVR_CTRL_REG_ADDR).
Definition fs_div_addr : Z := u32 (base + DAC_DRVR_FS_DIV_REG_ADDR).
Definition mclk_addr : Z := u32 (base + DAC_DRVR_MCLK_SEL_REG_ADDR).

(** The bits each register implements: the masks of the header. *)
Definition dac_keep (a : Z) : Z :=
  if a =? ctrl_addr then Z.lor DAC_DRVR_EN_MSK (Z.lor ADC_DRVR_EN_MSK DAC_DRVR_BPS_MSK)
  else if a =? fs_div_addr then DAC_DRVR_FS_DIV_VAL_MSK
  else Z.lor DAC_DRVR_MCLK_SEL_MSK DAC_DRVR_MCLK_EN_MSK.

Definition dac_regs (a : Z) : Prop := a = ctrl_addr \/ a = fs_div_addr \/ a = mclk_addr.

Lemma dac_addrs_distinct :
  ctrl_addr <> fs_div_addr /\ ctrl_addr <> mclk_addr /\ fs_div_addr <> mclk_addr.
Proof.
  unfold ctrl_addr, fs_div_addr, mclk_addr. split_and!; by apply addr_ne.
Qed.

Lemma dac_keep_fits a : dac_regs a -> fits 32 (dac_keep a).
Proof.
  intros _. unfold dac_keep. repeat case_z; done.
Qed.

Context (X : Z -> Prop) `{!RegFile D dac_regs X dac_keep}.

(** A read-modify-write of the control register. *)
Lemma ctrl_rmw (f : Z -> Z) n d (s : St) :
  let o := (v ← IORD_DAC_DRVR_CTRL base; IOWR_DAC_DRVR_CTRL base (f v)) n d s in
  o_res o = Ok tt /\ o_st o = s /\
  reg (o_dev o) ctrl_addr = Z.land (u32 (f (reg d ctrl_addr))) (dac_keep ctrl_addr).
Proof.
  unfold IORD_DAC_DRVR_CTRL, IOWR_DAC_DRVR_CTRL, iord, iowr, mbind, M_bind. simpl.
  split_and!; try done.
  fold ctrl_addr. rewrite reg_write_eq by (left; done).
  by rewrite reg_read by (left; done).
Qed.

(** The operation [m] drives control bit [k] to [b] and keeps the others. *)
Definition drives_ctrl_bit (m : M D St unit) (k : Z) (b : bool) : Prop :=
  forall n d s, let o := m n d s in
  o_res o = Ok tt /\ o_st o = s /\
  forall i, 0 <= i < 3 ->
    Z.testbit (reg (o_dev o) ctrl_addr) i
    = if i =? k then b else Z.testbit (reg d ctrl_addr) i.

Lemma ctrl_keep_bits i : 0 <= i < 3 -> Z.testbit (dac_keep ctrl_addr) i = true.
Proof.
  intros. unfold dac_keep. rewrite Z.eqb_refl.
  assert (i = 0 \/ i = 1 \/ i = 2) as [-> | [-> | ->]] by lia; done.
Qed.

Lemma rmw_drives (f : Z -> Z) k b :
  (forall v i, 0 <= i < 3 -> Z.testbit (f v) i = if i =? k then b else Z.testbit v i) ->
  drives_ctrl_bit (v ← IORD_DAC_DRVR_CTRL base; IOWR_DAC_DRVR_CTRL base (f v)) k b.
Proof.
  intros Hf n d s. destruct (ctrl_rmw f n d s) as (Hr & Hs & Hreg).
  cbv zeta. split_and!; [done..|]. intros i Hi.
  rewrite Hreg, Z.land_spec, ctrl_keep_bits, andb_true_r, testbit_wrap by lia.
  zbool. by apply Hf.
Qed.

Lemma testbit_set_pow2 v k i :
  0 <= i -> 0 <= k -> Z.testbit (Z.lor v (2 ^ k)) i = if i =? k then true else Z.testbit v i.
Proof.
  intros. rewrite Z.lor_spec. destruct (Z.eqb_spec i k) as [->|].
  - rewrite Z.pow2_bits_true by lia. apply orb_true_r.
  - rewrite Z.pow2_bits_false by lia. apply orb_false_r.
Qed.

Lemma testbit_clear_pow2 v k i :
  0 <= i -> 0 <= k ->
  Z.testbit (Z.land v (Z.lnot (2 ^ k))) i = if i =? k then false else Z.testbit v i.
Proof.
  intros. rewrite Z.land_spec, Z.lnot_spec by lia. destruct (Z.eqb_spec i k) as [->|].
  - rewrite Z.pow2_bits_true by lia. apply andb_false_r.
  - rewrite Z.pow2_bits_false by lia. apply andb_true_r.
Qed.

Lemma configure_bps_drives (b : BPS_T) :
  drives_ctrl_bit (configure_dac_drvr_bps base (BPS_T_val b)) 2 (bool_decide (b = BPS_32)).
Proof.
  destruct b; apply rmw_drives; intros v i Hi.
  - by apply (testbit_set_pow2 v 2); lia.
  - by apply (testbit_clear_pow2 v 2); lia.
Qed.

Lemma enable_dac_drives : drives_ctrl_bit (enable_dac_drvr base) 0 true.
Proof. apply rmw_drives. intros v i Hi. by apply (testbit_set_pow2 v 0); lia. Qed.

(** Each control operation of the DAC driver drives its own bit of the
    control register and leaves the two others as they were. *)
Theorem dac_ctrl_ops_drive_one_bit :
  drives_ctrl_bit (enable_dac_drvr base) 0 true /\
  drives_ctrl_bit (disable_dac_drvr base) 0 false /\
  drives_ctrl_bit (enable_adc_drvr base) 1 true /\
  drives_ctrl_bit (disable_adc_drvr base) 1 false /\
  (forall b, drives_ctrl_bit (configure_dac_drvr_bps base (BPS_T_val b)) 2 (bool_decide (b = BPS_32))).
Proof.
  split_and!; [apply enable_dac_drives|apply rmw_drives; intros v i Hi..|apply configure_bps_drives].
  - by apply (testbit_clear_pow2 v 0); lia.
  - by apply (testbit_set_pow2 v 1); lia.
  - by apply (testbit_clear_pow2 v 1); lia.
Qed.

(** The clock the DAC needs for a sampling rate: the 11 MHz crystal for the
    44.1 kHz family, the 12 MHz one otherwise. *)
Definition mclk_for (fs : FS_T) : MCLK_SEL_VAL :=
  match fs with FS_44KHZ | FS_88KHZ => CLK_11MHZ | _ => CLK_12MHZ end.

(** The bit-clock divider of a rate: 6.25 MHz over the rate, in Hz. *)
Definition rate_hz (fs : FS_T) : Z :=
  match fs with
  | FS_8KHZ => 8000 | FS_32KHZ => 32000 | FS_44KHZ => 44100
  | FS_48KHZ => 48000 | FS_88KHZ => 88200 | FS_96KHZ => 96000
  end.

Hypothesis no_reset : ~ X ctrl_addr /\ ~ X fs_div_addr /\ ~ X mclk_addr.

#[local] Ltac dac_side := unfold dac_regs; destruct no_reset as (? & ? & ?); intuition congruence.

Lemma update_mclk_run val m n d (s : St) :
  zget fs2mclk_lookup val = Some m ->
  exists t d', update_mclk base val n d s = Out (Ok tt) d' s t /\
    reg d' mclk_addr = Z.land (u32 (Z.lor (Z.land (u32 m) (dac_keep mclk_addr)) DAC_DRVR_MCLK_EN_MSK))
                         (dac_keep mclk_addr) /\
    reg d' ctrl_addr = reg d ctrl_addr /\ reg d' fs_div_addr = reg d fs_div_addr /\
    writes t = [(mclk_addr, 0); (mclk_addr, u32 m);
      (mclk_addr, u32 (Z.lor (Z.land (u32 m) (dac_keep mclk_addr)) DAC_DRVR_MCLK_EN_MSK))].
Proof.
  intros Hm. destruct dac_addrs_distinct as (? & ? & ?).
  pose (d2 := dev_write mclk_addr (u32 m) (dev_write mclk_addr (u32 0) d)).
  assert (u32 (dev_read mclk_addr d2).1 = Z.land (u32 m) (dac_keep mclk_addr)) as Hrd.
  { rewrite reg_read by dac_side.
    unfold d2. by rewrite reg_write_eq by dac_side. }
  eexists _, _. split.
  { unfold update_mclk, disable_mclk, enable_mclk. hw_step.
    eapply bind_ok; [by apply aget_ok|]. hw_step. hw_step. reflexivity. }
  fold mclk_addr. fold d2. rewrite Hrd. split_and!.
  - by rewrite reg_write_eq by dac_side.
  - rewrite reg_write_ne, reg_after_read by dac_side. unfold d2.
    by rewrite !reg_write_ne by dac_side.
  - rewrite reg_write_ne, reg_after_read by dac_side. unfold d2.
    by rewrite !reg_write_ne by dac_side.
  - done.
Qed.

Lemma update_fs_div_run val v n d (s : St) :
  zget fs2div_lookup val = Some v ->
  exists t d', update_fs_div base val n d s = Out (Ok tt) d' s t /\
    reg d' fs_div_addr = Z.land (u32 v) (dac_keep fs_div_addr) /\
    reg d' mclk_addr = reg d mclk_addr /\ reg d' ctrl_addr = reg d ctrl_addr /\
    writes t = [(fs_div_addr, u32 v)].
Proof.
  intros Hv. destruct dac_addrs_distinct as (? & ? & ?).
  eexists _, _. split.
  { unfold update_fs_div. eapply bind_ok; [by apply aget_ok|]. reflexivity. }
  fold fs_div_addr. rewrite reg_write_eq by dac_side.
  by rewrite !reg_write_ne by dac_side.
Qed.

(** A change of the control register leaves the two others. *)
Lemma enable_dac_others n d (s : St) :
  let o := enable_dac_drvr base n d s in
  reg (o_dev o) mclk_addr = reg d mclk_addr /\ reg (o_dev o) fs_div_addr = reg d fs_div_addr /\
  exists c, writes (o_tr o) = [(ctrl_addr, c)].
Proof.
  destruct dac_addrs_distinct as (? & ? & ?). unfold enable_dac_drvr, IORD_DAC_DRVR_CTRL, IOWR_DAC_DRVR_CTRL, iord, iowr, mbind, M_bind.
  cbv zeta. cbn [o_res o_dev o_st o_tr]. fold ctrl_addr. rewrite !reg_write_ne, !reg_after_read by dac_side.
  split_and!; [done..|]. by eexists.
Qed.

Lemma dac_keep_eq :
  dac_keep mclk_addr = 0x8003 /\ dac_keep fs_div_addr = 0x7ff.
Proof.
  destruct dac_addrs_distinct as (? & ? & ?). unfold dac_keep. by zbool.
Qed.

(** The divider nearest to the bit clock (6.25 MHz) over the rate. *)
Definition nearest_div (fs : FS_T) : Z := (2 * 6250000 + rate_hz fs) / (2 * rate_hz fs).

(** For every sampling rate, [update_mclk] leaves the clock selection of
    that rate's crystal with the clock enabled, and [update_fs_div] leaves
    the divider nearest to bit clock over rate; neither disturbs the
    block's other registers.  A value outside the tables is undefined
    behaviour. *)
Theorem dac_clock_setup (fs : FS_T) n d (s : St) :
  (let o := update_mclk base (FS_T_val fs) n d s in
   o_res o = Ok tt /\
   reg (o_dev o) mclk_addr = Z.lor (MCLK_SEL_VAL_val (mclk_for fs)) DAC_DRVR_MCLK_EN_MSK /\
   reg (o_dev o) ctrl_addr = reg d ctrl_addr /\
   reg (o_dev o) fs_div_addr = reg d fs_div_addr) /\
  (let o := update_fs_div base (FS_T_val fs) n d s in
   o_res o = Ok tt /\
   reg (o_dev o) fs_div_addr = nearest_div fs /\
   reg (o_dev o) mclk_addr = reg d mclk_addr /\
   reg (o_dev o) ctrl_addr = reg d ctrl_addr) /\
  (forall val, ~ (0 <= val < 6) ->
   o_res (update_mclk base val n d s) = Ub /\ o_res (update_fs_div base val n d s) = Ub).
Proof.
  destruct dac_keep_eq as [Hk1 Hk2]. split_and!.
  - destruct (update_mclk_run (FS_T_val fs) (MCLK_SEL_VAL_val (mclk_for fs)) n d s)
      as (t & d' & -> & Hm & Hc & Hf & _); [by destruct fs|].
    cbv zeta. simpl. rewrite Hm, Hk1. by destruct fs.
  - destruct (update_fs_div_run (FS_T_val fs) (nearest_div fs) n d s)
      as (t & d' & -> & Hf & Hm & Hc & _); [by destruct fs|].
    cbv zeta. simpl. rewrite Hf, Hk2. by destruct fs.
  - intros val Hval.
    assert (zget fs2mclk_lookup val = None /\ zget fs2div_lookup val = None) as [H1 H2].
    { split; [destruct (zget fs2mclk_lookup val) eqn:E|destruct (zget fs2div_lookup val) eqn:E];
        [|done| |done]; apply zget_Some_range in E; exfalso; apply Hval, E. }
    unfold update_mclk, update_fs_div, disable_mclk, mbind, M_bind, aget.
    by rewrite H1, H2.
Qed.
End contract.

(** ** The contract holds of a register file, and the theorems apply to it *)

Definition dac_dev (base : Z) : Type := maskdev (dac_keep base).

#[export] Instance dac_dev_device base : Device (dac_dev base) := maskdev_device (dac_keep base).

#[export] Instance dac_dev_regs base X : RegFile (dac_dev base) (dac_regs base) X (dac_keep base).
Proof. apply maskdev_regfile. apply dac_keep_fits. Defined.

Lemma dac_ctrl_ops_drive_one_bit_witness :
  drives_ctrl_bit (D := dac_dev CORTEX_MM_SL_BASE) (St := unit) CORTEX_MM_SL_BASE (fun _ => False)
    (enable_adc_drvr CORTEX_MM_SL_BASE) 1 true.
Proof.
  exact (proj1 (proj2 (proj2 (dac_ctrl_ops_drive_one_bit (D := dac_dev CORTEX_MM_SL_BASE) (St := unit)
    CORTEX_MM_SL_BASE (fun _ => False))))).
Defined.

Lemma dac_clock_setup_witness :
  let o := update_mclk (D := dac_dev CORTEX_MM_SL_BASE) CORTEX_MM_SL_BASE (FS_T_val FS_44KHZ) 0%nat
             (MaskDev ∅) tt in
  o_res o = Ok tt /\ md_regs (o_dev o) !! 0x1023030 = Some 0x8003.
Proof.
  split; [|by vm_compute].
  exact (proj1 (proj1 (dac_clock_setup (D := dac_dev CORTEX_MM_SL_BASE) CORTEX_MM_SL_BASE
    (fun _ => False) ltac:(tauto) FS_44KHZ 0%nat (MaskDev ∅) tt))).
Defined.
