(* ===== verification/Sram.v ===== *)
(** * The SRAM access port: cortex/acortex/sram/sram.[ch] *)

From S2P Require Import Prelude Hw.

(** ** Registers and fields (sram.h) *)

Definition SRAM_STATUS_REG_ADDR : Z := 0x21000.
Definition SRAM_ACC_CTRL_REG_ADDR : Z := 0x21010.
Definition SRAM_ACC_ADDR_H_REG_ADDR : Z := 0x21020.
Definition SRAM_ACC_ADDR_L_REG_ADDR : Z := 0x21030.
Definition SRAM_ACC_DATA_REG_ADDR : Z := 0x21040.

Definition SRAM_MM_RD_EN_MSK : Z := 0x1.
Definition SRAM_MM_WR_EN_MSK : Z := 0x2.
Definition SRAM_ADDR_H_MSK : Z := 0x3.
Definition SRAM_ADDR_L_MSK : Z := 0xffff.
Definition SRAM_DATA_MSK : Z := 0xffff.

Section driver.
Context {D St : Type} `{Device D}.
Local Abbreviation M := (M D St).

Definition IOWR_SRAM_ACC_CTRL (base data : Z) : M unit := iowr base SRAM_ACC_CTRL_REG_ADDR data.
Definition IOWR_SRAM_ACC_ADDR_H (base data : Z) : M unit := iowr base SRAM_ACC_ADDR_H_REG_ADDR data.
Definition IOWR_SRAM_ACC_ADDR_L (base data : Z) : M unit := iowr base SRAM_ACC_ADDR_L_REG_ADDR data.
Definition IOWR_SRAM_ACC_DATA (base data : Z) : M unit := iowr base SRAM_ACC_DATA_REG_ADDR data.
Definition IORD_SRAM_ACC_DATA (base : Z) : M Z := iord base SRAM_ACC_DATA_REG_ADDR.

(** ** Operations *)

Definition sram_read16 (base addr : Z) : M Z :=
  IOWR_SRAM_ACC_ADDR_H base (Z.land (Z.shiftr addr 16) SRAM_ADDR_H_MSK);;
  IOWR_SRAM_ACC_ADDR_L base (Z.land addr SRAM_ADDR_L_MSK);;
  IOWR_SRAM_ACC_CTRL base SRAM_MM_RD_EN_MSK;;
  v ← IORD_SRAM_ACC_DATA base;
  mret (u16 v).

Definition sram_write16 (base addr data : Z) : M unit :=
  IOWR_SRAM_ACC_ADDR_H base (Z.land (Z.shiftr addr 16) SRAM_ADDR_H_MSK);;
  IOWR_SRAM_ACC_ADDR_L base (Z.land addr SRAM_ADDR_L_MSK);;
  IOWR_SRAM_ACC_DATA base data;;
  IOWR_SRAM_ACC_CTRL base SRAM_MM_WR_EN_MSK.
End driver.

(** ** The contract of the port

    Two address latches, a data register, and a control register whose write
    starts an access to the 256 Ki-word memory. *)

Record sram_view := SramView { sv_h : Z; sv_l : Z; sv_q : Z; sv_mem : gmap Z Z }.

Definition sv_addr (v : sram_view) : Z := sv_h v * 65536 + sv_l v.

Definition sv_word (v : sram_view) (a : Z) : Z := default 0 (sv_mem v !! a).

(** The write the port makes of [x] to register offset [off]. *)
Definition sram_port_write (off x : Z) (v : sram_view) : sram_view :=
  if off =? SRAM_ACC_ADDR_H_REG_ADDR then SramView x (sv_l v) (sv_q v) (sv_mem v)
  else if off =? SRAM_ACC_ADDR_L_REG_ADDR then SramView (sv_h v) x (sv_q v) (sv_mem v)
  else if off =? SRAM_ACC_DATA_REG_ADDR then SramView (sv_h v) (sv_l v) (u16 x) (sv_mem v)
  else if Z.testbit x 0 then SramView (sv_h v) (sv_l v) (sv_word v (sv_addr v)) (sv_mem v)
  else if Z.testbit x 1 then
    SramView (sv_h v) (sv_l v) (sv_q v) (<[sv_addr v := sv_q v]> (sv_mem v))
  else v.

Lemma sram_port_h x v :
  sram_port_write SRAM_ACC_ADDR_H_REG_ADDR x v = SramView x (sv_l v) (sv_q v) (sv_mem v).
Proof. done. Qed.
Lemma sram_port_l x v :
  sram_port_write SRAM_ACC_ADDR_L_REG_ADDR x v = SramView (sv_h v) x (sv_q v) (sv_mem v).
Proof. done. Qed.
Lemma sram_port_q x v :
  sram_port_write SRAM_ACC_DATA_REG_ADDR x v = SramView (sv_h v) (sv_l v) (u16 x) (sv_mem v).
Proof. done. Qed.
Lemma sram_port_rd_en v :
  sram_port_write SRAM_ACC_CTRL_REG_ADDR (u32 SRAM_MM_RD_EN_MSK) v
  = SramView (sv_h v) (sv_l v) (sv_word v (sv_addr v)) (sv_mem v).
Proof. done. Qed.
Lemma sram_port_wr_en v :
  sram_port_write SRAM_ACC_CTRL_REG_ADDR (u32 SRAM_MM_WR_EN_MSK) v
  = SramView (sv_h v) (sv_l v) (sv_q v) (<[sv_addr v := sv_q v]> (sv_mem v)).
Proof. done. Qed.

Definition sram_offsets : list Z :=
  [SRAM_ACC_CTRL_REG_ADDR; SRAM_ACC_ADDR_H_REG_ADDR; SRAM_ACC_ADDR_L_REG_ADDR; SRAM_ACC_DATA_REG_ADDR].

Class SramPort (D : Type) `{Device D} (base : Z) := {
  sram_v : D -> sram_view;
  sram_port_wr off x d : off ∈ sram_offsets ->
    sram_v (dev_write (u32 (base + off)) x d) = sram_port_write off x (sram_v d);
  sram_port_rd d :
    u32 (dev_read (u32 (base + SRAM_ACC_DATA_REG_ADDR)) d).1 = u32 (sv_q (sram_v d)) /\
    sram_v (dev_read (u32 (base + SRAM_ACC_DATA_REG_ADDR)) d).2 = sram_v d
}.

(** The word address the driver puts on the latches. *)
Lemma sram_latched addr :
  u32 (Z.land (Z.shiftr addr 16) SRAM_ADDR_H_MSK) * 65536 + u32 (Z.land addr SRAM_ADDR_L_MSK)
  = addr mod 2 ^ 18.
Proof.
  change SRAM_ADDR_H_MSK with (Z.ones 2). change SRAM_ADDR_L_MSK with (Z.ones 16).
  rewrite !Z.land_ones, Z.shiftr_div_pow2 by lia.
  change (2 ^ 2) with 4. change (2 ^ 16) with 65536. change (2 ^ 18) with (65536 * 4).
  rewrite !wrap_small.
  - rewrite Z.rem_mul_r by lia. lia.
  - pose proof (Z.mod_pos_bound addr 65536). unfold fits. change (2 ^ 32) with 4294967296. lia.
  - pose proof (Z.mod_pos_bound (addr / 65536) 4). unfold fits. change (2 ^ 32) with 4294967296. lia.
Qed.

Section contract.
Context {D St : Type} `{Device D} (base : Z) `{!SramPort D base}.

#[local] Ltac port := rewrite sram_port_wr by (unfold sram_offsets; set_solver).

Lemma sram_read16_run addr n d (s : St) :
  exists t d', sram_read16 base addr n d s
               = Out (Ok (u16 (sv_word (sram_v d) (addr mod 2 ^ 18)))) d' s t /\
    sv_mem (sram_v d') = sv_mem (sram_v d).
Proof.
  set (d3 := dev_writes [(u32 (base + SRAM_ACC_ADDR_H_REG_ADDR), u32 (Z.land (Z.shiftr addr 16) SRAM_ADDR_H_MSK));
                         (u32 (base + SRAM_ACC_ADDR_L_REG_ADDR), u32 (Z.land addr SRAM_ADDR_L_MSK));
                         (u32 (base + SRAM_ACC_CTRL_REG_ADDR), u32 SRAM_MM_RD_EN_MSK)] d).
  assert (sv_q (sram_v d3) = sv_word (sram_v d) (addr mod 2 ^ 18) /\
          sv_mem (sram_v d3) = sv_mem (sram_v d)) as [Hq Hm].
  { unfold d3. cbn [dev_writes foldl fst snd]. port. port. port.
    rewrite sram_port_rd_en, sram_port_l, sram_port_h. unfold sv_word, sv_addr.
    cbn [sv_q sv_mem sv_h sv_l]. by rewrite sram_latched. }
  destruct (sram_port_rd d3) as [Hr1 Hr2].
  eexists _, _. split.
  { unfold sram_read16. do 3 hw_step. hw_step.
    match goal with |- mret ?v _ _ _ = _ =>
      replace v with (u16 (sv_word (sram_v d) (addr mod 2 ^ 18))) end; [reflexivity|].
    rewrite <- Hq, <- (wrap_wrap 16 32 (sv_q _)), <- Hr1 by lia. reflexivity. }
  etrans; [|exact Hm]. by rewrite <- Hr2.
Qed.

Lemma sram_write16_run addr data n d (s : St) :
  exists t d', sram_write16 base addr data n d s = Out (Ok tt) d' s t /\
    sv_mem (sram_v d') = <[addr mod 2 ^ 18 := u16 data]> (sv_mem (sram_v d)).
Proof.
  eexists _, _. split.
  { unfold sram_write16. do 3 hw_step. reflexivity. }
  port. port. port. port. rewrite sram_port_wr_en, sram_port_q, sram_port_l, sram_port_h.
  unfold sv_addr. cbn [sv_q sv_mem sv_h sv_l]. rewrite sram_latched.
  by rewrite wrap_wrap by lia.
Qed.

(** A 16-bit word written through the port is read back at the same
    18-bit word address (the driver's address taken modulo [2^18]), and
    every other word is read as it was. *)
Theorem sram_read_after_write addr data addr' n n' d (s : St) :
  let o := sram_write16 base addr data n d s in
  o_res o = Ok tt /\
  o_res (sram_read16 base addr' n' (o_dev o) (o_st o))
  = if addr' mod 2 ^ 18 =? addr mod 2 ^ 18 then Ok (u16 data)
    else o_res (sram_read16 base addr' n' d s).
Proof.
  destruct (sram_write16_run addr data n d s) as (t & d1 & -> & Hm).
  cbv zeta. cbn [o_res o_dev o_st]. split; [done|].
  destruct (sram_read16_run addr' n' d1 s) as (t1 & d2 & -> & _).
  destruct (sram_read16_run addr' n' d s) as (t2 & d3 & -> & _). cbn [o_res].
  unfold sv_word. rewrite Hm. destruct (Z.eqb_spec (addr' mod 2 ^ 18) (addr mod 2 ^ 18)) as [Ha|Ha].
  - rewrite Ha, lookup_insert_eq. simpl. by rewrite wrap_idemp.
  - by rewrite lookup_insert_ne.
Qed.
End contract.

(** ** A port that satisfies the contract *)

#[export] Instance sram_view_device : Device sram_view := {
  dev_read a d := (sv_q d, d);
  dev_write a x d := sram_port_write a x d;
  dev_sleep _ d := d;
  dev_putc _ d := d;
  dev_getc d := (-1, d)
}.

#[export] Program Instance sram_view_port : SramPort sram_view 0 := { sram_v := id }.
Next Obligation.
  intros off x d Hoff. simpl. rewrite wrap_small; [done|].
  unfold sram_offsets in Hoff. rewrite !elem_of_cons, elem_of_nil in Hoff.
  by destruct Hoff as [-> | [-> | [-> | [-> | []]]]].
Qed.
Next Obligation. done. Qed.

Lemma sram_read_after_write_witness :
  let o := sram_write16 0 0x12345 0xbeef 0%nat (SramView 0 0 0 ∅) tt in
  o_res (sram_read16 0 0x12345 0%nat (o_dev o) (o_st o)) = Ok 0xbeef.
Proof.
  exact (proj2 (sram_read_after_write (D := sram_view) 0 0x12345 0xbeef 0x12345 0%nat 0%nat
    (SramView 0 0 0 ∅) tt)).
Defined.
