(* ===== verification/Prsr.v ===== *)
(** * The WAV header parser: cortex/acortex/prsr/prsr.[ch] *)

From S2P Require Import Prelude Hw.

(** ** Registers and fields (prsr.h) *)

Definition PRSR_CTRL_REG_ADDR : Z := 0x22000.
Definition PRSR_FSM_PSTATE_REG_ADDR : Z := 0x22010.
Definition PRSR_BYTES_READ_H_REG_ADDR : Z := 0x22020.
Definition PRSR_BYTES_READ_L_REG_ADDR : Z := 0x22030.
Definition PRSR_HDR_RAM_RD_ADDR_REG_ADDR : Z := 0x22040.
Definition PRSR_HDR_RAM_RD_DATA_REG_ADDR : Z := 0x22050.

Definition PRSR_EN_MSK : Z := 0x1.

Section driver.
Context {D St : Type} `{Device D}.
Local Abbreviation M := (M D St).

Definition IOWR_PRSR_CTRL (base data : Z) : M unit := iowr base PRSR_CTRL_REG_ADDR data.
Definition IORD_PRSR_BYTES_READ_H (base : Z) : M Z := iord base PRSR_BYTES_READ_H_REG_ADDR.
Definition IORD_PRSR_BYTES_READ_L (base : Z) : M Z := iord base PRSR_BYTES_READ_L_REG_ADDR.
Definition IOWR_PRSR_HDR_RAM_RD_ADDR (base data : Z) : M unit := iowr base PRSR_HDR_RAM_RD_ADDR_REG_ADDR data.
Definition IORD_PRSR_HDR_RAM_RD_DATA (base : Z) : M Z := iord base PRSR_HDR_RAM_RD_DATA_REG_ADDR.

(** ** Operations *)

Definition prsr_enable (base : Z) : M unit := IOWR_PRSR_CTRL base PRSR_EN_MSK.

Definition prsr_disable (base : Z) : M unit := IOWR_PRSR_CTRL base 0x0.

Definition prsr_hdr_ram_read16 (base addr : Z) : M Z :=
  IOWR_PRSR_HDR_RAM_RD_ADDR base addr;;
  v ← IORD_PRSR_HDR_RAM_RD_DATA base;
  mret (u16 (Z.land v 0xffff)).

(** The two registers are read in the order the expression lists them. *)
Definition prsr_get_bytes_read (base : Z) : M Z :=
  h ← IORD_PRSR_BYTES_READ_H base;
  l ← IORD_PRSR_BYTES_READ_L base;
  mret (u32 (Z.shiftl (Z.land h 0xffff) 16 + Z.land l 0xffff)).

(** [while (prsr_get_bytes_read(base) < 48)]: the unsigned comparison. *)
Definition prsr_starved (base : Z) : M bool :=
  v ← prsr_get_bytes_read base; mret (v <? 48).

(** The buffer is the array of half-words the caller passes. *)
Definition get_wav_hdr_frm_prsr (base : Z) (bffr : list Z) : M (list Z) :=
  while (prsr_starved base) (sleep_ms 1);;
  mfold (fun b i => w ← prsr_hdr_ram_read16 base i; aset b i w) (upto 23) bffr.

#[export] Instance prsr_starved_mono base : FuelMono (prsr_starved base).
Proof.
  unfold prsr_starved, prsr_get_bytes_read, IORD_PRSR_BYTES_READ_H, IORD_PRSR_BYTES_READ_L.
  apply _.
Qed.

#[export] Instance get_wav_hdr_mono base b : FuelMono (get_wav_hdr_frm_prsr base b).
Proof.
  unfold get_wav_hdr_frm_prsr, prsr_hdr_ram_read16, IOWR_PRSR_HDR_RAM_RD_ADDR,
    IORD_PRSR_HDR_RAM_RD_DATA.
  apply _.
Qed.
End driver.

(** ** The contract of the header RAM's read port *)

Class PrsrPort (D : Type) `{Device D} (base : Z) := {
  prsr_ram : D -> Z -> Z;
  prsr_rd_addr : D -> Z;
  prsr_port_addr x d :
    let d' := dev_write (u32 (base + PRSR_HDR_RAM_RD_ADDR_REG_ADDR)) x d in
    prsr_rd_addr d' = x /\ prsr_ram d' = prsr_ram d;
  prsr_port_data d :
    let r := dev_read (u32 (base + PRSR_HDR_RAM_RD_DATA_REG_ADDR)) d in
    u32 r.1 = u32 (prsr_ram d (prsr_rd_addr d)) /\
    prsr_rd_addr r.2 = prsr_rd_addr d /\ prsr_ram r.2 = prsr_ram d
}.

Lemma land_ffff x : Z.land x 0xffff = u16 x.
Proof. change 0xffff with (Z.ones 16). by rewrite Z.land_ones. Qed.

Section contract.
Context {D St : Type} `{Device D} (base : Z) `{!PrsrPort D base}.

Lemma prsr_hdr_ram_read16_run addr n d (s : St) :
  wp (prsr_hdr_ram_read16 base addr) n d s (fun r d' s' _ =>
    r = Ok (u16 (prsr_ram d (u32 addr))) /\ s' = s /\ prsr_ram d' = prsr_ram d).
Proof.
  unfold prsr_hdr_ram_read16, IOWR_PRSR_HDR_RAM_RD_ADDR, IORD_PRSR_HDR_RAM_RD_DATA.
  do 3 wp_step.
  destruct (prsr_port_addr (u32 addr) d) as [Ha Hm].
  match goal with |- context [dev_read _ ?d1] => destruct (prsr_port_data d1) as (Hv & _ & Hm2) end.
  rewrite Hm2, Hm, Hv, Hm, Ha, land_ffff. rewrite wrap_idemp, wrap_wrap by lia. done.
Qed.

(** What the header fetch leaves in a buffer [b]. *)
Definition hdr_words (ram : Z -> Z) (b : list Z) : list Z :=
  filled (fun i => u16 (ram i)) 23 b.

Lemma hdr_loop ram b0 n d (s : St) :
  23 <= zlen b0 -> prsr_ram d = ram ->
  wp (mfold (fun b i => w ← prsr_hdr_ram_read16 base i; aset b i w) (upto 23) b0) n d s
    (fun r d' s' _ => exists b, r = Ok b /\ b = hdr_words ram b0 /\ s' = s /\ prsr_ram d' = ram).
Proof.
  intros Hlen Hram.
  eapply wp_mono; [apply wp_mfold with
    (I := fun i b d' s' _ => s' = s /\ prsr_ram d' = ram /\
            b = filled (fun i => u16 (ram i)) i b0)|].
  - lia.
  - done.
  - intros i b d1 s1 t1 Hi (-> & Hr & ->).
    apply wp_bind. eapply wp_mono; [apply prsr_hdr_ram_read16_run|].
    intros r d2 s2 t2 (-> & -> & Hr2).
    unfold wp. rewrite aset_ok by (unfold zlen in *; rewrite filled_length; unfold zlen; lia).
    simpl. eexists. split; [done|]. split_and!; [done|congruence|].
    rewrite Hr, (wrap_small 32 i) by (split; [lia|change (2 ^ 32) with 4294967296; lia]).
    apply (zset_filled (fun i => u16 (ram i))). lia.
  - intros r d' s' t (b & -> & -> & Hr & ->). eexists. split; [done|]. done.
Qed.

Lemma get_wav_hdr_done bffr n d (s : St) k d1 t1 :
  23 <= zlen bffr -> polls (prsr_starved base) (sleep_ms 1) n d s k d1 s t1 -> (k < n)%nat ->
  exists d2 t2, get_wav_hdr_frm_prsr base bffr n d s
                = Out (Ok (hdr_words (prsr_ram d1) bffr)) d2 s t2.
Proof.
  intros Hlen Hp Hk.
  pose proof (hdr_loop (prsr_ram d1) bffr n d1 s Hlen eq_refl) as Hl.
  destruct (wp_out (mfold (fun b i => w ← prsr_hdr_ram_read16 base i; aset b i w) (upto 23) bffr)
    n d1 s (hdr_words (prsr_ram d1) bffr) s (fun _ _ => True)) as (d2 & t2 & Heq & _).
  { eapply wp_mono; [exact Hl|]. intros r d' s' t (b & -> & -> & -> & _). done. }
  eexists _, _. unfold get_wav_hdr_frm_prsr.
  eapply bind_ok; [by eapply while_polls|exact Heq].
Qed.

(** Once the parser has seen 48 bytes, after any number [k] of waits
    within the fuel, the fetch fills the first 23 half-words of the caller's
    buffer with the header RAM's words 0 to 22 and changes nothing else of
    it; a parser that stays below 48 bytes for ever keeps the caller
    waiting, whatever the fuel. *)
Theorem get_wav_hdr_spec bffr n d (s : St) :
  23 <= zlen bffr ->
  (forall k d1 t1,
     polls (prsr_starved base) (sleep_ms 1) n d s k d1 s t1 -> (k < n)%nat ->
     exists d2 t2, get_wav_hdr_frm_prsr base bffr n d s
                   = Out (Ok (hdr_words (prsr_ram d1) bffr)) d2 s t2) /\
  (forall P : D -> Prop,
     (forall d, P d -> exists d1 t1, prsr_starved base n d s = Out (Ok true) d1 s t1 /\
                                     P (dev_sleep 1 d1)) ->
     P d -> o_res (get_wav_hdr_frm_prsr base bffr n d s) = Diverge).
Proof.
  intros Hlen. split.
  - intros k d1 t1. by apply get_wav_hdr_done.
  - intros P HP Hd. unfold get_wav_hdr_frm_prsr.
    pose proof (while_forever (prsr_starved base) (sleep_ms 1)
      (fun d s' => P d /\ s' = s) n d s) as Hf.
    destruct (while (prsr_starved base) (sleep_ms 1) n d s) as [r d1 s1 t1] eqn:E. simpl in Hf.
    rewrite Hf in E; [|intros d2 s2 [H2 ->]|done].
    + by rewrite (bind_stop _ _ _ _ _ _ _ _ E).
    + destruct (HP d2 H2) as (d3 & t3 & H3 & H4). eexists _, _, _, _, _, _.
      split_and!; [exact H3|reflexivity|done|done].
Qed.
End contract.

(** ** A parser that satisfies the contract *)

(** [pd_wait] waits until [pd_count] bytes are reported. *)
Record prsr_dev := PrsrDev { pd_wait : nat; pd_count : Z; pd_addr : Z; pd_ram : Z -> Z }.

#[export] Instance prsr_dev_device : Device prsr_dev := {
  dev_read a d :=
    (if a =? PRSR_BYTES_READ_L_REG_ADDR then (if pd_wait d is O then pd_count d else 0)
     else if a =? PRSR_BYTES_READ_H_REG_ADDR then 0
     else pd_ram d (pd_addr d), d);
  dev_write a x d := PrsrDev (pd_wait d) (pd_count d) x (pd_ram d);
  dev_sleep _ d := PrsrDev (Nat.pred (pd_wait d)) (pd_count d) (pd_addr d) (pd_ram d);
  dev_putc _ d := d;
  dev_getc d := (-1, d)
}.

#[export] Program Instance prsr_dev_port : PrsrPort prsr_dev 0 := {
  prsr_ram := pd_ram;
  prsr_rd_addr := pd_addr
}.
Next Obligation. done. Qed.
Next Obligation. done. Qed.

Lemma get_wav_hdr_spec_witness :
  exists d2 t2,
    get_wav_hdr_frm_prsr 0 (replicate 24 7) 3%nat (PrsrDev 1 48 0 (fun i => 100 + i)) tt
    = Out (Ok (((fun i => 100 + i) <$> upto 23) ++ [7])) d2 tt t2.
Proof.
  destruct (get_wav_hdr_spec (D := prsr_dev) 0 (replicate 24 7) 3%nat
    (PrsrDev 1 48 0 (fun i => 100 + i)) tt ltac:(vm_compute; discriminate)) as [Hok _].
  edestruct (Hok 1%nat) as (d2 & t2 & Heq).
  - eapply polls_again; [reflexivity|reflexivity|]. eapply polls_done. reflexivity.
  - lia.
  - exists d2, t2. refine (eq_trans Heq _). reflexivity.
Defined.
