(* ===== verification/Acortex.v ===== *)
(** * The audio cortex: cortex/acortex/acortex.[ch]

    Reset, audio source selection, capture of ADC samples and initialisation
    of the block. *)

From S2P Require Import Prelude Hw Types Printf I2c Dac.

(** ** Registers and fields (acortex.h) *)

Definition ADC_LCAPTURE_RAM_ADDR_REG : Z := 0x24000.
Definition ADC_RCAPTURE_RAM_ADDR_REG : Z := 0x25000.
Definition ADC_START_CAPTURE_REG : Z := 0x26000.
Definition ACORTEX_AUDIO_SRC_SEL_REG : Z := 0x27000.
Definition ACORTEX_RESET_ADDR : Z := 0x28000.

Definition ACORTEX_ADC_CAP_DEPTH : Z := 128.
Definition ADC_START_CAPTURE_EN_MSK : Z := 0x1.
Definition ADC_CAPTURE_BUSY_MSK : Z := 0x1.
Definition ACORTEX_I2C_CLK_DIV_VAL : Z := 100.

(** [ACORTEX_AUDIO_SRC_SEL_VAL]. *)
Inductive ACORTEX_AUDIO_SRC_SEL_VAL := SRC_ADC | SRC_PRSR.

Definition ACORTEX_AUDIO_SRC_SEL_VAL_val (v : ACORTEX_AUDIO_SRC_SEL_VAL) : Z :=
  match v with SRC_ADC => 0x0 | SRC_PRSR => 0x1 end.

Section driver.
Context {D St : Type} `{Device D}.
Local Abbreviation M := (M D St).

Definition IORD_ADC_LCAPTURE_DATA (base : Z) : M Z := iord base ADC_LCAPTURE_RAM_ADDR_REG.
Definition IORD_ADC_RCAPTURE_DATA (base : Z) : M Z := iord base ADC_RCAPTURE_RAM_ADDR_REG.
Definition IORD_ADC_START_CAPTURE_REG (base : Z) : M Z := iord base ADC_START_CAPTURE_REG.
Definition IOWR_ADC_LCAPTURE_DATA (base data : Z) : M unit := iowr base ADC_LCAPTURE_RAM_ADDR_REG data.
Definition IOWR_ADC_RCAPTURE_DATA (base data : Z) : M unit := iowr base ADC_RCAPTURE_RAM_ADDR_REG data.
Definition IOWR_ADC_START_CAPTURE_REG (base data : Z) : M unit := iowr base ADC_START_CAPTURE_REG data.
Definition IOWR_ACORTEX_AUDIO_SRC_SEL_REG (base data : Z) : M unit := iowr base ACORTEX_AUDIO_SRC_SEL_REG data.

(** ** Operations *)

Definition reset_acortex (base : Z) : M unit :=
  iowr base ACORTEX_RESET_ADDR 0x0;;
  sleep_ms 1.

Definition acortex_aud_src_sel (base val : Z) : M unit := IOWR_ACORTEX_AUDIO_SRC_SEL_REG base val.

Definition adc_cap_busy (base : Z) : M bool :=
  v ← IORD_ADC_START_CAPTURE_REG base; mret (has v ADC_CAPTURE_BUSY_MSK).

(** One channel: for each sample, point at its low half, read it, point at
    its high half, read and add it.  The index and the RAM address are
    8-bit variables. *)
Definition adc_cap_sample (wr : Z -> M unit) (rd : M Z) (bffr : list Z) (i : Z) : M (list Z) :=
  let cap_addr := u8 (Z.shiftl i 1) in
  wr cap_addr;;
  lo ← rd;
  b ← aset bffr i (Z.land lo 0xffff);
  let cap_addr := u8 (cap_addr + 1) in
  wr cap_addr;;
  hi ← rd;
  x ← aget b i;
  aset b i (u32 (x + Z.shiftl (Z.land hi 0xffff) 16)).

Definition adc_cap (base : Z) (lcap_bffr rcap_bffr : list Z) : M (list Z * list Z) :=
  IOWR_ADC_START_CAPTURE_REG base ADC_START_CAPTURE_EN_MSK;;
  while (adc_cap_busy base)
    (alt_printf ("[adc_cap] capture busy" +:+ lf) [];; sleep_ms 1);;
  alt_printf ("[adc_cap] capture completed" +:+ lf) [];;
  l ← mfold (adc_cap_sample (IOWR_ADC_LCAPTURE_DATA base) (IORD_ADC_LCAPTURE_DATA base))
        (upto ACORTEX_ADC_CAP_DEPTH) lcap_bffr;
  r ← mfold (adc_cap_sample (IOWR_ADC_RCAPTURE_DATA base) (IORD_ADC_RCAPTURE_DATA base))
        (upto ACORTEX_ADC_CAP_DEPTH) rcap_bffr;
  mret (l, r).

Definition acortex_init (base fs bps : Z) : M unit :=
  reset_acortex base;;
  configure_i2c_clk base ACORTEX_I2C_CLK_DIV_VAL;;
  configure_dac_drvr_bps base bps;;
  update_fs_div base fs;;
  update_mclk base fs;;
  alt_printf ("ACORTEX Init done" +:+ crlf) [].
End driver.

(** ** The contract of the capture RAMs

    One RAM per channel: writing its register selects a word, reading the
    register returns that word; the access ports leave the captured words
    alone. *)

Definition cap_reg (right : bool) : Z :=
  if right then ADC_RCAPTURE_RAM_ADDR_REG else ADC_LCAPTURE_RAM_ADDR_REG.

Class CaptureRams (D : Type) `{Device D} (base : Z) := {
  cap_ram : bool -> D -> Z -> Z;
  cap_ptr : bool -> D -> Z;
  cap_select ch x d :
    let d' := dev_write (u32 (base + cap_reg ch)) x d in
    cap_ptr ch d' = x /\ forall ch', cap_ram ch' d' = cap_ram ch' d;
  cap_read ch d :
    let r := dev_read (u32 (base + cap_reg ch)) d in
    u32 r.1 = u32 (cap_ram ch d (cap_ptr ch d)) /\ forall ch', cap_ram ch' r.2 = cap_ram ch' d;
  cap_putc ch c d : cap_ram ch (dev_putc c d) = cap_ram ch d
}.

Section capture.
Context {D St : Type} `{Device D} (base : Z) `{!CaptureRams D base}.

(** The sample assembled from words [2i] and [2i + 1] of a RAM. *)
Definition cap_sample (ram : Z -> Z) (i : Z) : Z := u16 (ram (2 * i)) + 65536 * u16 (ram (2 * i + 1)).

Definition cap_words (ram : Z -> Z) (b : list Z) : list Z :=
  filled (cap_sample ram) ACORTEX_ADC_CAP_DEPTH b.

Lemma u16_land_u32 x : Z.land (u32 x) 0xffff = u16 x.
Proof.
  change 0xffff with (Z.ones 16). rewrite Z.land_ones by lia.
  change (u32 x mod 2 ^ 16) with (u16 (u32 x)). apply wrap_wrap. lia.
Qed.

Lemma adc_cap_sample_run ch b i n d (s : St) :
  0 <= i < 128 -> i < zlen b ->
  wp (adc_cap_sample (iowr base (cap_reg ch)) (iord base (cap_reg ch)) b i) n d s (fun r d' s' _ =>
    exists b', r = Ok b' /\ b' = zset b i (cap_sample (cap_ram ch d) i) /\ s' = s /\
               (forall ch', cap_ram ch' d' = cap_ram ch' d)).
Proof.
  intros Hi Hlen. unfold adc_cap_sample.
  assert (u8 (Z.shiftl i 1) = 2 * i) as ->.
  { rewrite Z.shiftl_mul_pow2 by lia. change (2 ^ 1) with 2. rewrite wrap_small; [lia|].
    split; [lia|]. change (2 ^ 8) with 256. lia. }
  assert (u8 (2 * i + 1) = 2 * i + 1) as ->.
  { apply wrap_small. split; [lia|]. change (2 ^ 8) with 256. lia. }
  assert (forall x, 0 <= x < 256 -> u32 x = x) as Hu.
  { intros. apply wrap_small. split; [lia|]. change (2 ^ 32) with 4294967296. lia. }
  do 2 wp_step. destruct (cap_select ch (u32 (2 * i)) d) as [Hp Hm].
  match goal with |- context [dev_read _ ?d1] =>
    destruct (cap_read ch d1) as (Hv & Hm2); set (r1 := dev_read _ d1) in * end.
  rewrite Hv, Hm, Hp, (Hu (2 * i)), u16_land_u32 by lia. 
  apply wp_bind. unfold wp at 1. rewrite aset_ok by lia. cbn [o_res o_dev o_st o_tr].
  do 2 wp_step. destruct (cap_select ch (u32 (2 * i + 1)) r1.2) as [Hp3 Hm3].
  match goal with |- context [dev_read _ ?d1] =>
    destruct (cap_read ch d1) as (Hv4 & Hm4); set (r2 := dev_read _ d1) in * end.
  rewrite Hv4, Hm3, Hp3, Hm2, Hm, (Hu (2 * i + 1)), u16_land_u32 by lia.
  apply wp_bind. unfold wp at 1.
  rewrite (aget_ok _ i (u16 (cap_ram ch d (2 * i)))) by (autorewrite with zlist; done).
  cbn [o_res o_dev o_st o_tr]. unfold wp.
  rewrite aset_ok by (autorewrite with zlist; lia). cbn [o_res o_dev o_st o_tr].
  eexists. split; [reflexivity|]. split_and!; [|done|intros; by rewrite Hm4, Hm3, Hm2, Hm].
  unfold cap_sample. rewrite Z.shiftl_mul_pow2, (Z.mul_comm _ (2 ^ 16)) by lia.
  change (2 ^ 16) with 65536. rewrite (wrap_small 32).
  - unfold zset. zbool. by rewrite list_insert_insert_eq.
  - pose proof (wrap_range 16 (cap_ram ch d (2 * i))). pose proof (wrap_range 16 (cap_ram ch d (2 * i + 1))).
    change (2 ^ 16) with 65536 in *. split; [lia|]. change (2 ^ 32) with 4294967296. lia.
Qed.

Lemma adc_cap_channel ch b n d (s : St) :
  ACORTEX_ADC_CAP_DEPTH <= zlen b ->
  wp (mfold (adc_cap_sample (iowr base (cap_reg ch)) (iord base (cap_reg ch)))
        (upto ACORTEX_ADC_CAP_DEPTH) b) n d s
    (fun r d' s' _ => exists b', r = Ok b' /\ b' = cap_words (cap_ram ch d) b /\ s' = s /\
                      (forall ch', cap_ram ch' d' = cap_ram ch' d)).
Proof.
  intros Hlen. unfold ACORTEX_ADC_CAP_DEPTH in *. eapply wp_mono; [apply wp_mfold with
    (I := fun i b' d' s' _ => s' = s /\ (forall ch', cap_ram ch' d' = cap_ram ch' d) /\
            b' = filled (cap_sample (cap_ram ch d)) i b)|].
  - done.
  - done.
  - intros i b1 d1 s1 t1 Hi (-> & Hr & ->).
    eapply wp_mono; [apply adc_cap_sample_run; [lia|]|].
    { unfold zlen in *. rewrite filled_length; unfold zlen; lia. }
    intros r d2 s2 t2 (b2 & -> & -> & -> & Hr2). eexists. split; [done|].
    split_and!; [done|intros; by rewrite Hr2, Hr|]. rewrite Hr. apply zset_filled. lia.
  - intros r d' s' t (b' & -> & -> & Hr & ->). eauto 6.
Qed.

(** When the capture ends after [k] waits, the two buffers hold, in
    their first 128 cells, the 32-bit samples assembled from consecutive
    half-words of the left and right capture RAM, and are unchanged beyond;
    a capture that stays busy keeps the caller waiting. *)
Theorem adc_cap_spec lb rb n d (s : St) :
  ACORTEX_ADC_CAP_DEPTH <= zlen lb -> ACORTEX_ADC_CAP_DEPTH <= zlen rb ->
  let d0 := dev_write (u32 (base + ADC_START_CAPTURE_REG)) (u32 ADC_START_CAPTURE_EN_MSK) d in
  let wait := alt_printf ("[adc_cap] capture busy" +:+ lf) [];; sleep_ms 1 in
  (forall k d1 t1, polls (adc_cap_busy base) wait n d0 s k d1 s t1 -> (k < n)%nat ->
     exists d2 t2, adc_cap base lb rb n d s
       = Out (Ok (cap_words (cap_ram false d1) lb, cap_words (cap_ram true d1) rb)) d2 s t2) /\
  (forall P : D -> Prop,
     (forall d, P d -> exists d1 t1 d2 t2, adc_cap_busy base n d s = Out (Ok true) d1 s t1 /\
                         wait n d1 s = Out (Ok tt) d2 s t2 /\ P d2) ->
     P d0 -> o_res (adc_cap base lb rb n d s) = Diverge).
Proof.
  intros Hl Hr d0 wait. split.
  - intros k d1 t1 Hp Hk.
    edestruct (wp_out (adc_cap base lb rb) n d s
      (cap_words (cap_ram false d1) lb, cap_words (cap_ram true d1) rb) s (fun _ _ => True))
      as (d2 & t2 & -> & _); [|by eauto].
    { unfold adc_cap, IOWR_ADC_START_CAPTURE_REG. wp_step.
      apply wp_bind. unfold wp at 1. fold d0 wait. rewrite (while_polls _ _ _ _ _ _ _ _ _ Hp Hk).
      cbn [o_res o_dev o_st o_tr]. apply wp_bind. eapply wp_printf; [reflexivity|].
      match goal with |- context [foldl ?f d1 ?l] => set (d2 := foldl f d1 l) end.
      assert (forall ch, cap_ram ch d2 = cap_ram ch d1) as Hd2.
      { intros ch. apply (foldl_putc_inv (cap_ram ch)). intros. apply cap_putc. }
      eapply wp_bind_ok.
      { eapply wp_mono; [apply (adc_cap_channel false); done|].
        intros r d3 s3 t3 (b & -> & Hb & Hs & Hc). eexists. split; [done|].
        exact (conj Hb (conj Hs Hc)). }
      intros b d3 s3 t3 (-> & -> & Hc). simpl. eapply wp_bind_ok.
      { eapply wp_mono; [apply (adc_cap_channel true); done|].
        intros r d4 s4 t4 (b & -> & Hb & Hs & _). eexists. split; [done|].
        exact (conj Hb Hs). }
      intros b d4 s4 t4 (-> & ->). apply wp_ret. by rewrite Hc, !Hd2. }
  - intros P HP Hd.
    pose proof (while_forever (adc_cap_busy base) wait (fun d s' => P d /\ s' = s) n d0 s) as Hf.
    unfold adc_cap, IOWR_ADC_START_CAPTURE_REG, mbind at 1, M_bind at 1, iowr. fold d0 wait.
    destruct (while (adc_cap_busy base) wait n d0 s) as [r d1 s1 t1] eqn:E. simpl in Hf.
    rewrite Hf in E; [|intros d2 s2 [H2 ->]|done].
    + by rewrite (bind_stop _ _ _ _ _ _ _ _ E).
    + destruct (HP d2 H2) as (d3 & t3 & d4 & t4 & H3 & H4 & H5). eauto 12.
Qed.
End capture.

(** ** Initialisation *)

Section init.
Context {D St : Type} `{Device D} (base : Z) (X : Z -> Prop)
        `{!RegFile D (dac_regs base) X (dac_keep base)}.

(** The reset register may clear the block; the I2C divider does not. *)
Hypothesis no_reset : ~ X (ctrl_addr base) /\ ~ X (fs_div_addr base) /\ ~ X (mclk_addr base).

Definition dac_reg (d : D) (a : Z) : Z := reg d a.

Lemma configure_bps_run (b : BPS_T) n d (s : St) :
  wp (configure_dac_drvr_bps base (BPS_T_val b)) n d s (fun r d' s' t =>
    r = Ok tt /\ s' = s /\ exists c, writes t = [(ctrl_addr base, c)] /\
    forall i, 0 <= i < 3 ->
      Z.testbit (dac_reg d' (ctrl_addr base)) i
      = if i =? 2 then bool_decide (b = BPS_32) else Z.testbit (dac_reg d (ctrl_addr base)) i).
Proof.
  pose proof (configure_bps_drives (St:=St) base X b n d s) as (Hr & Hs & Hb).
  unfold wp. split_and!; [done..|].
  destruct b; eexists; (split; [reflexivity|exact Hb]).
Qed.

Lemma update_fs_div_wp (fs : FS_T) n d (s : St) :
  wp (update_fs_div base (FS_T_val fs)) n d s (fun r d' s' t =>
    r = Ok tt /\ s' = s /\ writes t = [(fs_div_addr base, nearest_div fs)] /\
    dac_reg d' (fs_div_addr base) = nearest_div fs /\
    dac_reg d' (ctrl_addr base) = dac_reg d (ctrl_addr base)).
Proof.
  destruct (update_fs_div_run base X no_reset (FS_T_val fs) (nearest_div fs) n d s)
    as (t & d' & Heq & Hf & Hm & Hc & Hw); [by destruct fs|].
  unfold wp. rewrite Heq. cbn [o_res o_dev o_st o_tr]. split_and!; [done..| | |exact Hc].
  - rewrite Hw. by destruct fs.
  - unfold dac_reg. rewrite Hf. destruct (dac_keep_eq base) as [_ ->]. by destruct fs.
Qed.

Lemma update_mclk_wp (fs : FS_T) n d (s : St) :
  let m := MCLK_SEL_VAL_val (mclk_for fs) in
  wp (update_mclk base (FS_T_val fs)) n d s (fun r d' s' t =>
    r = Ok tt /\ s' = s /\
    writes t = [(mclk_addr base, 0); (mclk_addr base, m); (mclk_addr base, Z.lor m DAC_DRVR_MCLK_EN_MSK)] /\
    dac_reg d' (mclk_addr base) = Z.lor m DAC_DRVR_MCLK_EN_MSK /\
    dac_reg d' (fs_div_addr base) = dac_reg d (fs_div_addr base) /\
    dac_reg d' (ctrl_addr base) = dac_reg d (ctrl_addr base)).
Proof.
  intros m.
  destruct (update_mclk_run base X no_reset (FS_T_val fs) m n d s)
    as (t & d' & Heq & Hm & Hc & Hf & Hw); [by destruct fs|].
  unfold wp. rewrite Heq. cbn [o_res o_dev o_st o_tr]. unfold dac_reg.
  destruct (dac_keep_eq base) as [Hk _]. rewrite Hw, Hm, Hk.
  split_and!; try done; unfold m; by destruct fs.
Qed.

(** The writes of [acortex_init]: the control word [c] is the one read back
    with the sample-width bit set or cleared. *)
Definition acortex_init_writes (fs : FS_T) (c : Z) : list (Z * Z) :=
  let m := MCLK_SEL_VAL_val (mclk_for fs) in
  [(u32 (base + ACORTEX_RESET_ADDR), 0);
   (u32 (base + I2C_DRIVER_CLK_DIV_REG_ADDR), ACORTEX_I2C_CLK_DIV_VAL);
   (ctrl_addr base, c); (fs_div_addr base, nearest_div fs);
   (mclk_addr base, 0); (mclk_addr base, m); (mclk_addr base, Z.lor m DAC_DRVR_MCLK_EN_MSK)].

Lemma acortex_init_run (fs : FS_T) (b : BPS_T) n d (s : St) :
  wp (acortex_init base (FS_T_val fs) (BPS_T_val b)) n d s (fun r d' s' t =>
    r = Ok tt /\ s' = s /\ (exists c, writes t = acortex_init_writes fs c) /\
    Z.testbit (dac_reg d' (ctrl_addr base)) 2 = bool_decide (b = BPS_32) /\
    dac_reg d' (fs_div_addr base) = nearest_div fs /\
    dac_reg d' (mclk_addr base) = Z.lor (MCLK_SEL_VAL_val (mclk_for fs)) DAC_DRVR_MCLK_EN_MSK).
Proof.
  unfold acortex_init, reset_acortex, configure_i2c_clk, IOWR_I2C_CLK_DIV.
  do 3 wp_step.
  apply wp_bind. eapply wp_mono; [apply configure_bps_run|].
  intros r d1 s1 t1 (-> & -> & c & Hw1 & Hc1).
  apply wp_bind. eapply wp_mono; [apply update_fs_div_wp|].
  intros r d2 s2 t2 (-> & -> & Hw2 & Hf2 & Hc2).
  apply wp_bind. eapply wp_mono; [apply update_mclk_wp|].
  intros r d3 s3 t3 (-> & -> & Hw3 & Hm3 & Hf3 & Hc3).
  apply wp_puts; [done|]. generalize ("ACORTEX Init done" +:+ crlf). intros txt.
  match goal with |- context [foldl ?f d3 ?l] => set (d4 := foldl f d3 l) end.
  assert (forall a, dac_regs base a -> dac_reg d4 a = dac_reg d3 a) as Hd4.
  { intros a Ha. apply (foldl_putc_inv (fun d => dac_reg d a)). intros. by apply reg_putc. }
  rewrite !writes_app, Hw1, Hw2, Hw3, writes_putc, !Hd4 by (unfold dac_regs; tauto).
  split_and!; try done.
  - by exists c.
  - rewrite Hc3, Hc2. by apply (Hc1 2).
  - by rewrite Hf3, Hf2.
Qed.
End init.

(** ** A capture block that satisfies the contract *)

(** [cb_wait] waits until the capture is over. *)
Record cap_dev := CapDev { cb_wait : nat; cb_lptr : Z; cb_rptr : Z; cb_l : Z -> Z; cb_r : Z -> Z }.

#[export] Instance cap_dev_device : Device cap_dev := {
  dev_read a d :=
    (if a =? ADC_LCAPTURE_RAM_ADDR_REG then cb_l d (cb_lptr d)
     else if a =? ADC_RCAPTURE_RAM_ADDR_REG then cb_r d (cb_rptr d)
     else if cb_wait d is O then 0 else 1, d);
  dev_write a x d :=
    if a =? ADC_LCAPTURE_RAM_ADDR_REG then CapDev (cb_wait d) x (cb_rptr d) (cb_l d) (cb_r d)
    else if a =? ADC_RCAPTURE_RAM_ADDR_REG then CapDev (cb_wait d) (cb_lptr d) x (cb_l d) (cb_r d)
    else d;
  dev_sleep _ d := CapDev (Nat.pred (cb_wait d)) (cb_lptr d) (cb_rptr d) (cb_l d) (cb_r d);
  dev_putc _ d := d;
  dev_getc d := (-1, d)
}.

#[export] Program Instance cap_dev_rams : CaptureRams cap_dev 0 := {
  cap_ram ch d := if ch : bool then cb_r d else cb_l d;
  cap_ptr ch d := if ch : bool then cb_rptr d else cb_lptr d
}.
Next Obligation. by intros []. Qed.
Next Obligation. by intros []. Qed.
Next Obligation. done. Qed.

Lemma adc_cap_spec_witness :
  exists d2 t2,
    adc_cap 0 (replicate 129 7) (replicate 128 8) 3%nat (CapDev 1 0 0 (fun i => i) (fun i => 2 * i)) tt
    = Out (Ok (filled (fun i => 2 * i + 65536 * (2 * i + 1)) 128 (replicate 129 7),
               filled (fun i => 4 * i + 65536 * (4 * i + 2)) 128 (replicate 128 8))) d2 tt t2.
Proof.
  destruct (adc_cap_spec (D := cap_dev) 0 (replicate 129 7) (replicate 128 8) 3%nat
    (CapDev 1 0 0 (fun i => i) (fun i => 2 * i)) tt ltac:(by vm_compute) ltac:(by vm_compute)) as [Hok _].
  edestruct (Hok 1%nat) as (d2 & t2 & Heq).
  - eapply polls_again; [reflexivity| |].
    + eapply bind_ok; [|reflexivity]. refine (alt_printf_prints _ _ _ (formatted_plain _ _) _ _ _).
      reflexivity.
    + eapply polls_done. reflexivity.
  - lia.
  - exists d2, t2. refine (eq_trans Heq _). apply (f_equal (fun x => Out (Ok x) d2 tt t2)).
    vm_compute. reflexivity.
Defined.
