(* ===== verification/Fgyrus.v ===== *)
(** * The spectrum analysers: cortex/fgyrus/fgyrus.[ch] *)

From S2P Require Import Prelude Hw.

(** ** Registers, fields and enumerations (fgyrus.h) *)

Definition FGYRUS_LCHNL_BLK_CODE : Z := 0x00000.
Definition FGYRUS_RCHNL_BLK_CODE : Z := 0x10000.

Definition FGYRUS_CONTROL_REG_ADDR : Z := 0x00000.
Definition FGYRUS_FSM_PSTATE_REG_ADDR : Z := 0x00020.
Definition FGYRUS_STATUS_REG_ADDR : Z := 0x00040.
Definition FGYRUS_POST_NORM_REG_ADDR : Z := 0x00060.

Definition FGYRUS_EN_MSK : Z := 0x1.
Definition FGYRUS_FSM_PSTATE_MSK : Z := 0x7.
Definition FGYRUS_BUSY_MSK : Z := 0x1.

Inductive FGYRUS_TYPE := LCHNL | RCHNL.

Definition FGYRUS_TYPE_val (fg : FGYRUS_TYPE) : Z := match fg with LCHNL => 0 | RCHNL => 1 end.

Inductive FGYRUS_STATUS_TYPE := IDLE | DECIMATE | FFT | FFT_WAIT | CORDIC | ABS.

Definition FGYRUS_STATUS_TYPE_val (x : FGYRUS_STATUS_TYPE) : Z :=
  match x with IDLE => 0 | DECIMATE => 1 | FFT => 2 | FFT_WAIT => 3 | CORDIC => 4 | ABS => 5 end.

Inductive FGYRUS_POST_NORM_TYPE := NORM_OFF | NORM_16 | NORM_128 | NORM_256 | NORM_4k | NORM_64k.

Definition FGYRUS_POST_NORM_TYPE_val (x : FGYRUS_POST_NORM_TYPE) : Z :=
  match x with
  | NORM_OFF => 0x0 | NORM_16 => 0x1 | NORM_128 => 0x2 | NORM_256 => 0x3
  | NORM_4k => 0x4 | NORM_64k => 0x5
  end.

(** [fg] is the integer the caller passes; only [LCHNL] selects the left
    block. *)
Definition get_full_fgyrus_addr (fg addr : Z) : Z :=
  if fg =? FGYRUS_TYPE_val LCHNL then u32 (addr + FGYRUS_LCHNL_BLK_CODE)
  else u32 (addr + FGYRUS_RCHNL_BLK_CODE).

Section driver.
Context {D St : Type} `{Device D}.
Local Abbreviation M := (M D St).

Definition IORD_FGYRUS_FSM_PSTATE (base fg : Z) : M Z :=
  iord base (get_full_fgyrus_addr fg FGYRUS_FSM_PSTATE_REG_ADDR).
Definition IORD_FGYRUS_STATUS (base fg : Z) : M Z :=
  iord base (get_full_fgyrus_addr fg FGYRUS_STATUS_REG_ADDR).
Definition IOWR_FGYRUS_CTRL (base fg data : Z) : M unit :=
  iowr base (get_full_fgyrus_addr fg FGYRUS_CONTROL_REG_ADDR) data.
Definition IOWR_FGYRUS_POST_NORM (base fg data : Z) : M unit :=
  iowr base (get_full_fgyrus_addr fg FGYRUS_POST_NORM_REG_ADDR) data.

(** ** Operations *)

Definition get_fgyrus_status (base fg : Z) : M FGYRUS_STATUS_TYPE :=
  v ← IORD_FGYRUS_STATUS base fg;
  if negb (Z.land v FGYRUS_BUSY_MSK =? 0) then mret DECIMATE else mret IDLE.

(** The state is the register's low bits, whether or not the enumeration
    names them. *)
Definition get_fgyrus_fsm_pstate (base fg : Z) : M Z :=
  v ← IORD_FGYRUS_FSM_PSTATE base fg; mret (Z.land v FGYRUS_FSM_PSTATE_MSK).

Definition enable_fgyrus (base fg : Z) : M unit := IOWR_FGYRUS_CTRL base fg FGYRUS_EN_MSK.

Definition disable_fgyrus (base fg : Z) : M unit := IOWR_FGYRUS_CTRL base fg 0x0.

Definition configure_post_norm (base fg val : Z) : M unit := IOWR_FGYRUS_POST_NORM base fg val.
End driver.
