(* ===== verification/Vcortex.v ===== *)
(** * The video cortex: cortex/vcortex/vcortex.[ch]

    Sixteen PWM channels, each a word of the PWM RAM at a 16-byte stride. *)

From S2P Require Import Prelude Hw.

Definition VCORTEX_CONTROL_REG_ADDR : Z := 0x30000.
Definition VCORTEX_PWM_RAM_BASE : Z := 0x31000.
Definition VCORTEX_PWM_CHNNLS : Z := 16.
Definition VCORTEX_CTRL_EN_MSK : Z := 0x1.

Section driver.
Context {D St : Type} `{Device D}.
Local Abbreviation M := (M D St).

Definition IOWR_VCORTEX_CTRL (base data : Z) : M unit := iowr base VCORTEX_CONTROL_REG_ADDR data.

Definition enable_vcortex (base : Z) : M unit := IOWR_VCORTEX_CTRL base VCORTEX_CTRL_EN_MSK.

Definition disable_vcortex (base : Z) : M unit := IOWR_VCORTEX_CTRL base 0x0.

Definition pwm_paint (base : Z) (bffr : list Z) : M unit :=
  mfor (fun i => v ← aget bffr i; iowr base (VCORTEX_PWM_RAM_BASE + Z.shiftl i 4) v)
    (upto VCORTEX_PWM_CHNNLS).

(** ** What a frame writes *)

Definition pwm_addr (base i : Z) : Z := u32 (base + (VCORTEX_PWM_RAM_BASE + Z.shiftl i 4)).

(** The writes of a frame: channel [i] gets [bffr[i]]. *)
Definition frame (base : Z) (bffr : list Z) : list (Z * Z) :=
  (fun i => (pwm_addr base i, u32 (default 0 (zget bffr i)))) <$> upto VCORTEX_PWM_CHNNLS.

Lemma pwm_paint_run base bffr n d (s : St) :
  VCORTEX_PWM_CHNNLS <= zlen bffr ->
  pwm_paint base bffr n d s
  = Out (Ok tt) (dev_writes (frame base bffr) d) s ((fun p => EvWr p.1 p.2) <$> frame base bffr).
Proof.
  intros Hl. unfold pwm_paint, frame.
  rewrite (mfor_writes _ (fun i => (pwm_addr base i, u32 (default 0 (zget bffr i))))).
  - by rewrite <- list_fmap_compose.
  - intros i d' s' Hi%elem_of_upto. unfold VCORTEX_PWM_CHNNLS in *.
    destruct (zget_in_range bffr i) as [v Hv]; [lia|].
    erewrite bind_ok; [|by apply aget_ok|reflexivity]. by rewrite Hv.
Qed.
End driver.
