(* ===== verification/FftCache.v ===== *)
(** * The spectrum cache: fft_cache/fft_cache.[ch]

    The analysers leave both channels' bins in a cache of 16-byte slots, the
    right channel first. *)

From S2P Require Import Prelude Hw Types.

Definition FFT_LCACHE_BASE : Z := 0x80.
Definition FFT_RCACHE_BASE : Z := 0x00.
Definition FFT_NUM_SAMPLES : Z := 128.

Section driver.
Context {D St : Type} `{Device D}.
Local Abbreviation M := (M D St).

(** One bin: the right channel, then the left. *)
Definition read_fft_bin (b : list Z * list Z) (i : Z) : M (list Z * list Z) :=
  r ← iord FFT_CACHE_MM_SL_BASE (Z.shiftl (i + FFT_RCACHE_BASE) 4);
  rfft ← aset b.2 i r;
  l ← iord FFT_CACHE_MM_SL_BASE (Z.shiftl (i + FFT_LCACHE_BASE) 4);
  lfft ← aset b.1 i l;
  mret (lfft, rfft).

(** The pair is (left, right); [num] is an 8-bit count. *)
Definition read_fft_cache (lfft_bffr rfft_bffr : list Z) (num : Z) : M (list Z * list Z) :=
  mfold read_fft_bin (upto (u8 num)) (lfft_bffr, rfft_bffr).
End driver.

(** ** The contract of the cache: reading a slot does not disturb the others *)

Class SpectrumCache (D : Type) `{Device D} := {
  bin : D -> Z -> Z;
  bin_read i d : 0 <= i < 256 ->
    let r := dev_read (u32 (FFT_CACHE_MM_SL_BASE + 16 * i)) d in
    u32 r.1 = bin d i /\ forall j, bin r.2 j = bin d j
}.

Section contract.
Context {D St : Type} `{SpectrumCache D}.

Lemma read_fft_bin_run i l r n d (s : St) :
  0 <= i < 128 -> i < zlen l -> i < zlen r ->
  wp (read_fft_bin (l, r) i) n d s (fun x d' s' t =>
    x = Ok (zset l i (bin d (128 + i)), zset r i (bin d i)) /\ s' = s /\ writes t = [] /\
    forall j, bin d' j = bin d j).
Proof.
  intros Hi Hl Hr. unfold read_fft_bin. rewrite !Z.shiftl_mul_pow2 by lia. change (2 ^ 4) with 16.
  replace ((i + FFT_RCACHE_BASE) * 16) with (16 * i) by (unfold FFT_RCACHE_BASE; lia).
  replace ((i + FFT_LCACHE_BASE) * 16) with (16 * (128 + i)) by (unfold FFT_LCACHE_BASE; lia).
  wp_step. destruct (bin_read i d) as [Hv1 Hb1]; [lia|]. rewrite Hv1.
  apply wp_bind. unfold wp at 1. cbn [fst snd]. rewrite aset_ok by lia. cbn [o_res o_dev o_st o_tr].
  wp_step. match goal with |- context [dev_read _ ?d1] => destruct (bin_read (128 + i) d1) as [Hv2 Hb2] end; [lia|].
  rewrite Hv2. apply wp_bind. unfold wp at 1. rewrite aset_ok by lia. cbn [o_res o_dev o_st o_tr].
  wp_step. rewrite Hb1. split_and!; [done..|]. intros j. by rewrite Hb2, Hb1.
Qed.

Lemma read_fft_cache_run num l r n d (s : St) :
  0 <= num <= 128 -> num <= zlen l -> num <= zlen r ->
  wp (read_fft_cache l r num) n d s (fun x d' s' t =>
    exists b, x = Ok b /\ b = (filled (fun i => bin d (128 + i)) num l, filled (bin d) num r) /\
    s' = s /\ writes t = [] /\ forall j, bin d' j = bin d j).
Proof.
  intros Hn Hl Hr. unfold read_fft_cache.
  rewrite wrap_small by (split; [lia|change (2 ^ 8) with 256; lia]).
  eapply wp_mono; [apply wp_mfold with
    (I := fun i b d' s' t => s' = s /\ writes t = [] /\ (forall j, bin d' j = bin d j) /\
       b = (filled (fun i => bin d (128 + i)) i l, filled (bin d) i r)); [lia|done|]|].
  - intros i b d1 s1 t1 Hi (-> & Hw & Hb & ->).
    eapply wp_mono; [apply read_fft_bin_run; [lia|..]|].
    1,2: unfold zlen in *; rewrite filled_length; unfold zlen; lia.
    intros x d2 s2 t2 (-> & -> & Hw2 & Hb2). eexists. split; [done|].
    split_and!; [done|by rewrite writes_app, Hw, Hw2|intros; by rewrite Hb2|]. rewrite !Hb.
    rewrite (zset_filled (fun i => bin d (128 + i))), (zset_filled (bin d)) by lia. done.
  - intros x d' s' t (b & -> & -> & Hw & Hb & ->). eauto 8.
Qed.
End contract.
