(* ===== verification/Cortex.v ===== *)
(** * The cortex: cortex/cortex.[ch]

    Initialisation of the audio, analyser and video blocks behind one base
    address. *)

From S2P Require Import Prelude Hw Types Printf I2c Dac Acortex Fgyrus Vcortex.

Section driver.
Context {D St : Type} `{Device D}.

Definition cortex_init (base fs bps : Z) : M D St unit :=
  acortex_init base fs bps;;
  configure_post_norm CORTEX_MM_SL_BASE (FGYRUS_TYPE_val LCHNL) (FGYRUS_POST_NORM_TYPE_val NORM_64k);;
  configure_post_norm CORTEX_MM_SL_BASE (FGYRUS_TYPE_val RCHNL) (FGYRUS_POST_NORM_TYPE_val NORM_64k);;
  enable_vcortex base;;
  alt_printf ("Cortex Init done" +:+ crlf) [].
End driver.

Section contract.
Context {D St : Type} `{Device D}.
Let base := CORTEX_MM_SL_BASE.

(** Only the reset register disturbs the audio registers. *)
Definition acortex_resets (a : Z) : Prop := a = u32 (base + ACORTEX_RESET_ADDR).

Context `{!RegFile D (dac_regs base) acortex_resets (dac_keep base)}.

Lemma dac_regs_cases a :
  dac_regs base a -> a = 0x1023000 \/ a = 0x1023020 \/ a = 0x1023030.
Proof. unfold dac_regs. tauto. Qed.

Lemma dac_not_reset :
  ~ acortex_resets (ctrl_addr base) /\ ~ acortex_resets (fs_div_addr base) /\
  ~ acortex_resets (mclk_addr base).
Proof. done. Qed.

(** The writes after those of the audio block. *)
Definition cortex_tail_writes : list (Z * Z) :=
  [(0x1000060, FGYRUS_POST_NORM_TYPE_val NORM_64k); (0x1010060, FGYRUS_POST_NORM_TYPE_val NORM_64k);
   (0x1030000, VCORTEX_CTRL_EN_MSK)].

Lemma dac_reg_tail a d :
  dac_regs base a -> reg (dev_writes cortex_tail_writes d) a = reg d a.
Proof.
  intros Ha. unfold cortex_tail_writes. simpl dev_writes.
  pose proof (dac_regs_cases a Ha).
  rewrite !reg_write_ne; try done; intuition congruence.
Qed.

(** Initialising the cortex at its bus address succeeds on every sampling
    rate and width, and performs exactly these writes: block reset, I2C
    divider 100, sample-width bit, rate divider, the three-step clock
    change, 64k normalisation of both analysers and the video enable.  It
    leaves the audio block configured for that rate and width. *)
Theorem cortex_init_spec (fs : FS_T) (b : BPS_T) n d (s : St) :
  exists c d' t, cortex_init base (FS_T_val fs) (BPS_T_val b) n d s = Out (Ok tt) d' s t /\
    writes t = acortex_init_writes base fs c ++ cortex_tail_writes /\
    Z.testbit (reg d' (ctrl_addr base)) 2 = bool_decide (b = BPS_32) /\
    reg d' (fs_div_addr base) = nearest_div fs /\
    reg d' (mclk_addr base) = Z.lor (MCLK_SEL_VAL_val (mclk_for fs)) DAC_DRVR_MCLK_EN_MSK.
Proof.
  edestruct (wp_out (cortex_init base (FS_T_val fs) (BPS_T_val b)) n d s tt s (fun d' t =>
    exists c, writes t = acortex_init_writes base fs c ++ cortex_tail_writes /\
    Z.testbit (reg d' (ctrl_addr base)) 2 = bool_decide (b = BPS_32) /\
    reg d' (fs_div_addr base) = nearest_div fs /\
    reg d' (mclk_addr base) = Z.lor (MCLK_SEL_VAL_val (mclk_for fs)) DAC_DRVR_MCLK_EN_MSK))
    as (d' & t & Heq & c & Hp); [|by eauto 10].
  unfold cortex_init. apply wp_bind.
  eapply wp_mono; [apply (acortex_init_run base _ dac_not_reset)|].
  intros r d1 s1 t1 (-> & -> & (c & Hw) & Hc & Hf & Hm).
  unfold configure_post_norm, IOWR_FGYRUS_POST_NORM, enable_vcortex, IOWR_VCORTEX_CTRL.
  do 3 wp_step. apply wp_puts; [done|].
  match goal with |- context [foldl ?f (dev_write ?a ?v ?d2) ?l] =>
    change (dev_write a v d2) with (dev_writes cortex_tail_writes d1);
    set (d4 := foldl f (dev_writes cortex_tail_writes d1) l) end.
  assert (forall a, dac_regs base a -> reg d4 a = reg d1 a) as Hd4.
  { intros a Ha. rewrite <- (dac_reg_tail a d1 Ha).
    apply (foldl_putc_inv (fun d => reg d a)). intros. by apply reg_putc. }
  split_and!; [done..|]. exists c.
  rewrite !writes_app, Hw, writes_putc, !Hd4 by (unfold dac_regs; tauto).
  by split_and!.
Qed.
End contract.

(** The contract and the theorem on a register file. *)
Lemma cortex_init_spec_witness :
  exists c d' t,
    cortex_init (D := dac_dev CORTEX_MM_SL_BASE) (St := unit) CORTEX_MM_SL_BASE (FS_T_val FS_32KHZ)
      (BPS_T_val BPS_16) 0%nat (MaskDev ∅) tt = Out (Ok tt) d' tt t /\
    writes t = acortex_init_writes CORTEX_MM_SL_BASE FS_32KHZ c ++ cortex_tail_writes.
Proof.
  destruct (cortex_init_spec (D := dac_dev CORTEX_MM_SL_BASE) FS_32KHZ BPS_16 0%nat (MaskDev ∅) tt)
    as (c & d' & t & Heq & Hw & _).
  exists c, d', t. exact (conj Heq Hw).
Defined.
