(* ===== verification/Lsd.v ===== *)
(** * The visualisation plugins: lsd/lsd.[ch] *)

From S2P Require Import Prelude Hw Vcortex FftCache.

(** [acid_t]: the functions a plugin can name. *)
Inductive acid_t := ACID_SUNSHINE.

#[export] Instance acid_t_eq_dec : EqDecision acid_t.
Proof. solve_decision. Defined.

(** [Acid]; the table's terminator is the end of the list. *)
Record Acid := MkAcid { acid_name : string; acid_function : acid_t }.

Definition acid_box : list Acid := [MkAcid "sunshine" ACID_SUNSHINE].

Definition get_acid_box : list Acid := acid_box.

Section plugins.
Context {D St : Type} `{Device D}.

(** The two low bits of each left bin, scaled to a duty cycle. *)
Definition acid_sunshine (argc : Z) (lfft_bffr rfft_bffr pwm_bffr : list Z) : M D St (list Z) :=
  mfold (fun b i => v ← aget lfft_bffr i; aset b i (u16 (u32 (Z.shiftl v 14))))
    (upto VCORTEX_PWM_CHNNLS) pwm_bffr.

(** A call through the plugin's function pointer. *)
Definition call_acid (f : acid_t) : Z -> list Z -> list Z -> list Z -> M D St (list Z) :=
  match f with ACID_SUNSHINE => acid_sunshine end.

Definition sunshine_duty (v : Z) : Z := u16 (u32 (Z.shiftl v 14)).

Lemma sunshine_duty_low_bits v : sunshine_duty v = v mod 4 * 16384.
Proof.
  unfold sunshine_duty. rewrite wrap_wrap, Z.shiftl_mul_pow2 by lia. unfold wrap.
  change (2 ^ 16) with (4 * 16384). change (2 ^ 14) with 16384.
  by rewrite Z.mul_mod_distr_r.
Qed.

Lemma acid_sunshine_run argc l r b n d (s : St) :
  VCORTEX_PWM_CHNNLS <= zlen l -> VCORTEX_PWM_CHNNLS <= zlen b ->
  acid_sunshine argc l r b n d s
  = Out (Ok (filled (fun i => sunshine_duty (default 0 (zget l i))) VCORTEX_PWM_CHNNLS b)) d s [].
Proof.
  intros Hl Hb. unfold acid_sunshine, VCORTEX_PWM_CHNNLS in *.
  set (f := fun i => sunshine_duty (default 0 (zget l i))).
  edestruct (wp_out (mfold (fun b i => v ← aget l i; aset b i (u16 (u32 (Z.shiftl v 14))))
    (upto 16) b) n d s (filled f 16 b) s (fun d' t => d' = d /\ t = [])) as (d' & t & Heq & -> & ->);
    [|exact Heq].
  eapply wp_mono; [apply wp_mfold with
    (I := fun i b' d' s' t => b' = filled f i b /\ s' = s /\ d' = d /\ t = []); [done|done|]|].
  - intros i b1 d1 s1 t1 Hi (-> & -> & -> & ->).
    destruct (zget_in_range l i) as [v Hv]; [lia|].
    apply wp_bind. unfold wp at 1. rewrite (aget_ok _ _ _ _ _ _ Hv). cbn [o_res o_dev o_st o_tr].
    unfold wp. rewrite aset_ok by (unfold zlen in *; rewrite filled_length; unfold zlen; lia).
    cbn [o_res o_dev o_st o_tr]. eexists. split; [done|]. split_and!; try done.
    rewrite <- (zset_filled f) by lia. unfold f, sunshine_duty. by rewrite Hv.
  - intros x d' s' t (b' & -> & -> & -> & -> & ->). done.
Qed.
End plugins.
