(* ===== verification/Tasks.v ===== *)
(** * The demonstration tasks of main.c

    [PWMTask] moves a fixed amount of light along the sixteen PWM channels and
    back; [SynTask] shows the spectrum.  A task's arrays are its state. *)

From S2P Require Import Prelude Hw Types Vcortex FftCache Lsd.

Definition PWM_SLEEP_TICKS : Z := 100.

Section tasks.
Context {D : Type} `{Device D}.
Local Abbreviation M := (M D (list Z)).

(** ** PWMTask *)

(** [a[i] = f(a[i], a[j])] on the task's 16-bit array. *)
Definition pwm_upd (f : Z -> Z -> Z) (i j : Z) : M unit :=
  b ← get_st; x ← aget b i; y ← aget b j; b' ← aset b i (u16 (f x y)); put_st b'.

Definition pwm_put (i v : Z) : M unit :=
  b ← get_st; b' ← aset b i (u16 v); put_st b'.

Definition pwm_show : M unit :=
  b ← get_st; pwm_paint CORTEX_MM_SL_BASE b;; sleep_ms PWM_SLEEP_TICKS.

(** [1 << (VCORTEX_PWM_CHNNLS - 1 - i)]. *)
Definition pwm_quantum (i : Z) : Z := Z.shiftl 1 (VCORTEX_PWM_CHNNLS - 1 - i).

(** The last channel absorbs its neighbour, channels 2 to 14 take the value
    below them. *)
Definition pwm_shift_up : M unit :=
  pwm_upd Z.add (VCORTEX_PWM_CHNNLS - 1) (VCORTEX_PWM_CHNNLS - 2);;
  mfor (fun j => pwm_upd (fun _ y => y) j (j - 1)) (reverse (seqZ 2 (VCORTEX_PWM_CHNNLS - 3))).

(** The first channel absorbs its neighbour, channels 1 to 13 take the value
    above them. *)
Definition pwm_shift_down : M unit :=
  pwm_upd Z.add 0 1;;
  mfor (fun j => pwm_upd (fun _ y => y) j (j + 1)) (seqZ 1 (VCORTEX_PWM_CHNNLS - 3)).

(** The body of the task's endless loop. *)
Definition pwm_round : M unit :=
  pwm_show;;
  mfor (fun i =>
    pwm_shift_up;;
    pwm_upd (fun x _ => x - pwm_quantum i) 0 0;;
    pwm_put 1 (pwm_quantum i);;
    pwm_show) (upto VCORTEX_PWM_CHNNLS);;
  pwm_put 0 0;;
  pwm_put 1 0;;
  mfor (fun _ => pwm_shift_up;; pwm_show) (upto VCORTEX_PWM_CHNNLS);;
  mfor (fun i =>
    pwm_shift_down;;
    pwm_upd (fun x _ => x - pwm_quantum i) (VCORTEX_PWM_CHNNLS - 1) (VCORTEX_PWM_CHNNLS - 1);;
    pwm_put (VCORTEX_PWM_CHNNLS - 2) (pwm_quantum i);;
    pwm_show) (upto VCORTEX_PWM_CHNNLS);;
  pwm_put (VCORTEX_PWM_CHNNLS - 1) 0;;
  pwm_put (VCORTEX_PWM_CHNNLS - 2) 0;;
  mfor (fun _ => pwm_shift_down;; pwm_show) (upto VCORTEX_PWM_CHNNLS).

Definition PWMTask : M unit :=
  mfor (fun i => pwm_put i 0x0) (upto VCORTEX_PWM_CHNNLS);;
  pwm_show;;
  pwm_put 0 0xffff;;
  while (mret true) pwm_round.
End tasks.

(** ** The light of a frame *)

(** The values written to the PWM channels, in frames of sixteen. *)
Definition frame_light (f : list (Z * Z)) : Z := u16 (foldr Z.add 0 (snd <$> f)).

Fixpoint chunks (k : nat) (n : nat) {A} (l : list A) : list (list A) :=
  match k with O => [] | S k => take n l :: chunks k n (drop n l) end.

(** A frame addresses the sixteen channels of the bus address, in order. *)
Definition frame_ok (f : list (Z * Z)) : bool :=
  bool_decide (fst <$> f = pwm_addr CORTEX_MM_SL_BASE <$> upto VCORTEX_PWM_CHNNLS).

(** The state between rounds. *)
Definition pwm_rest : list Z := 0xfffe :: replicate 15 0.

(** Frame [k] of the task: dark first, then the whole of 16 bits until the
    light has left the first channel, then one unit less, for ever. *)
Definition light_at (k : nat) : Z :=
  if (k =? 0)%nat then 0 else if (k <=? 17)%nat then 0xffff else 0xfffe.

Fixpoint frames_ok (light : nat -> Z) (fs : list (list (Z * Z))) : bool :=
  match fs with
  | [] => true
  | f :: fs => frame_ok f && (frame_light f =? light 0%nat) && frames_ok (fun k => light (S k)) fs
  end.

Lemma frames_ok_ext light light' fs :
  (forall k, light k = light' k) -> frames_ok light fs = frames_ok light' fs.
Proof.
  revert light light'. induction fs as [|f fs IH]; intros light light' Hl; [done|].
  simpl. rewrite Hl. f_equal. by apply IH.
Qed.

Lemma frames_ok_lookup light fs k f :
  frames_ok light fs = true -> fs !! k = Some f -> frame_ok f = true /\ frame_light f = light k.
Proof.
  revert light k. induction fs as [|g fs IH]; intros light k Hok Hk; [done|].
  simpl in Hok. rewrite !andb_true_iff, Z.eqb_eq in Hok. destruct Hok as [[H1 H2] H3].
  destruct k as [|k]; simpl in Hk; [by simplify_eq|]. by apply (IH _ _ H3).
Qed.

Lemma chunks_app {A} k1 k2 n (l1 l2 : list A) :
  length l1 = (k1 * n)%nat -> chunks (k1 + k2) n (l1 ++ l2) = chunks k1 n l1 ++ chunks k2 n l2.
Proof.
  revert l1. induction k1 as [|k1 IH]; intros l1 Hl; simpl in *.
  - by destruct l1.
  - rewrite take_app_le, drop_app_le by lia. by rewrite IH by (rewrite length_drop; lia).
Qed.

Lemma chunks_length {A} k n (l : list A) : length (chunks k n l) = k.
Proof. revert l. induction k as [|k IH]; intros l; simpl; [done|by f_equal]. Qed.

Lemma frames_ok_app light fs1 fs2 :
  frames_ok light (fs1 ++ fs2)
  = frames_ok light fs1 && frames_ok (fun k => light (length fs1 + k)%nat) fs2.
Proof.
  revert light. induction fs1 as [|f fs1 IH]; intros light; [done|].
  simpl. by rewrite IH, andb_assoc.
Qed.

Section rounds.
Context {D : Type} `{Device D}.

Definition pwm_first : list Z := 0xffff :: replicate 15 0.

(** A run that shows [k] frames of the given light and ends in [b']. *)
Definition shows (k : nat) (light : nat -> Z) (t : list event) : Prop :=
  length (writes t) = (k * 16)%nat /\ frames_ok light (chunks k 16 (writes t)) = true.

Lemma shows_app k1 k2 light t1 t2 :
  shows k1 light t1 -> shows k2 (fun k => light (k1 + k)%nat) t2 -> shows (k1 + k2) light (t1 ++ t2).
Proof.
  intros [Hl1 H1] [Hl2 H2]. split; [rewrite writes_app, length_app; lia|].
  by rewrite writes_app, chunks_app, frames_ok_app, H1, chunks_length, H2.
Qed.

Lemma shows_ext k light light' t :
  (forall i, light i = light' i) -> shows k light t -> shows k light' t.
Proof.
  intros Hl [H1 H2]. split; [done|]. by rewrite <- (frames_ok_ext _ _ _ Hl).
Qed.

Lemma pwm_round_first n d :
  wp pwm_round n d pwm_first (fun r _ b' t =>
    r = Ok tt /\ b' = pwm_rest /\ shows 65 (fun k => light_at (1 + k)) t).
Proof. unfold wp, shows. vm_compute. done. Qed.

Lemma pwm_round_rest n d :
  wp pwm_round n d pwm_rest (fun r _ b' t =>
    r = Ok tt /\ b' = pwm_rest /\ shows 65 (fun _ => 0xfffe) t).
Proof. unfold wp, shows. vm_compute. done. Qed.

Lemma pwm_rounds m n d :
  wp (while_upto m (mret true) pwm_round) n d pwm_rest (fun r _ _ t =>
    r = Diverge /\ shows (m * 65) (fun _ => 0xfffe) t).
Proof.
  revert d. induction m as [|m IH]; intros d; [done|]. cbn [while_upto].
  apply wp_bind, wp_ret, wp_bind. eapply wp_mono; [apply pwm_round_rest|].
  intros r d1 b t (-> & -> & Hs). eapply wp_mono; [apply IH|].
  intros r d2 b2 t2 (-> & Hs2). split; [done|].
  exact (shows_app 65 (m * 65) (fun _ => 0xfffe) t t2 Hs Hs2).
Qed.

Lemma pwm_start (b : list Z) n d Q :
  length b = 16%nat ->
  (forall d' t, shows 1 light_at t -> wp (while (mret true) pwm_round) n d' pwm_first
     (fun r d2 b2 t2 => Q r d2 b2 (t ++ t2))) ->
  wp PWMTask n d b Q.
Proof.
  intros Hb HQ. do 16 (destruct b as [|? b]; [done|]). destruct b; [|done].
  unfold PWMTask. apply wp_bind.
  apply (wp_mono _ _ _ _ (fun r _ b' t => r = Ok tt /\ b' = replicate 16 0 /\ t = [])).
  { unfold wp. vm_compute. done. }
  intros r d1 b1 t1 (-> & -> & ->). apply wp_bind.
  apply (wp_mono _ _ _ _ (fun r _ b' t => r = Ok tt /\ b' = replicate 16 0 /\ shows 1 light_at t)).
  { unfold wp, shows. vm_compute. done. }
  intros r d2 b2 t2 (-> & -> & Ht2). apply wp_bind.
  apply (wp_mono _ _ _ _ (fun r _ b' t => r = Ok tt /\ b' = pwm_first /\ t = [])).
  { unfold wp. vm_compute. done. }
  intros r d3 b3 t3 (-> & -> & ->). eapply wp_mono; [by apply HQ|].
  intros r d4 b4 t4. by rewrite app_nil_l.
Qed.

(** (C39) [PWMTask] never returns, and after any number [n] of rounds it has
    painted [1 + 65 n] complete frames.  Every frame writes the sixteen
    channels in order; its total light, as a 16-bit sum, is 0 in the first
    frame, 0xffff while the first round empties channel 0, and 0xfffe in
    every later frame: shifting light from channel to channel loses none. *)
Theorem pwm_task_conserves_light (b : list Z) n d :
  length b = 16%nat ->
  let o := PWMTask n d b in
  o_res o = Diverge /\
  length (writes (o_tr o)) = ((1 + n * 65) * 16)%nat /\
  forall k f, chunks (1 + n * 65) 16 (writes (o_tr o)) !! k = Some f ->
    fst <$> f = pwm_addr CORTEX_MM_SL_BASE <$> upto VCORTEX_PWM_CHNNLS /\
    frame_light f = light_at k.
Proof.
  intros Hb o.
  assert (wp PWMTask n d b (fun r _ _ t => r = Diverge /\ shows (1 + n * 65) light_at t))
    as (Hr & Hl & Hf).
  { apply pwm_start; [done|]. intros d1 t1 Ht1.
    destruct n as [|m].
    { split; [done|]. unfold while, while_upto, diverge. cbn [o_tr]. by rewrite app_nil_r. }
    change (wp (b ← mret true; if b : bool then pwm_round;; while_upto m (mret true) pwm_round else mret tt)
      (S m) d1 pwm_first (fun r _ _ t => r = Diverge /\ shows (1 + S m * 65) light_at (t1 ++ t))).
    apply wp_bind, wp_ret, wp_bind. eapply wp_mono; [apply pwm_round_first|].
    intros r d2 b2 t2 (-> & -> & Ht2). eapply wp_mono; [apply pwm_rounds|].
    intros r d3 b3 t3 (-> & Ht3). split; [done|].
    replace (1 + S m * 65)%nat with (1 + (65 + m * 65))%nat by lia.
    apply shows_app; [exact Ht1|]. apply (shows_app 65 (m * 65) _ t2 t3); [exact Ht2|].
    eapply shows_ext; [|exact Ht3]. done. }
  split_and!; [done|done|]. intros k f Hk.
  destruct (frames_ok_lookup _ _ _ _ Hf Hk) as [H1 H2].
  split; [|done]. unfold frame_ok in H1. by apply bool_decide_eq_true in H1.
Qed.
End rounds.

Lemma pwm_task_conserves_light_witness :
  o_res (PWMTask 3%nat (RegDev ∅ []) (replicate 16 7)) = Diverge.
Proof.
  exact (proj1 (pwm_task_conserves_light (replicate 16 7) 3%nat (RegDev ∅ []) eq_refl)).
Defined.

(** ** SynTask *)

(** The task's arrays: left and right bins, duty cycles. *)
Record syn_bufs := SynBufs { syn_l : list Z; syn_r : list Z; syn_pwm : list Z }.

(** The duty cycles a spectrum shows. *)
Definition spectrum_frame (bin : Z -> Z) : list (Z * Z) :=
  (fun i => (pwm_addr CORTEX_MM_SL_BASE i, bin (128 + i) mod 4 * 16384)) <$> upto VCORTEX_PWM_CHNNLS.

Lemma spectrum_frame_filled (f : Z -> Z) b :
  VCORTEX_PWM_CHNNLS <= zlen b ->
  frame CORTEX_MM_SL_BASE (filled (fun i => sunshine_duty (f (128 + i))) VCORTEX_PWM_CHNNLS b)
  = spectrum_frame f.
Proof.
  intros Hb. unfold frame, spectrum_frame. apply list_fmap_ext. intros k i Hi.
  apply list_elem_of_lookup_2, elem_of_upto in Hi. f_equal. unfold VCORTEX_PWM_CHNNLS in *.
  rewrite zget_filled by lia. zbool. simpl default. rewrite sunshine_duty_low_bits.
  apply wrap_small. pose proof (Z.mod_pos_bound (f (128 + i)) 4). split; [lia|].
  change (2 ^ 32) with 4294967296. lia.
Qed.

Section syn.
Context {D : Type} `{Device D}.
Local Abbreviation M := (M D syn_bufs).

Definition syn_turn : M unit :=
  s ← get_st;
  lr ← read_fft_cache (syn_l s) (syn_r s) 64;
  pwm ← mfold (fun b i => v ← aget lr.1 i; aset b i (u16 (u32 (Z.shiftl v 14))))
          (upto VCORTEX_PWM_CHNNLS) (syn_pwm s);
  put_st (SynBufs lr.1 lr.2 pwm);;
  pwm_paint CORTEX_MM_SL_BASE pwm;;
  sleep_ms 1.

Definition SynTask : M unit := while (mret true) syn_turn.

(** The declared sizes of the task's arrays. *)
Definition syn_ok (s : syn_bufs) : Prop :=
  zlen (syn_l s) = FFT_NUM_SAMPLES /\ zlen (syn_r s) = FFT_NUM_SAMPLES /\
  zlen (syn_pwm s) = VCORTEX_PWM_CHNNLS.

Context `{!SpectrumCache D}.

(** One turn of [SynTask], from arrays of the declared sizes holding
    anything, paints the spectrum the cache held when the turn began, the
    two low bits of left bin [i] setting channel [i]; the arrays keep their
    sizes. *)
Theorem syn_turn_paints_spectrum n d s :
  syn_ok s ->
  wp syn_turn n d s (fun r _ s' t =>
    r = Ok tt /\ syn_ok s' /\ writes t = spectrum_frame (bin d)).
Proof.
  intros (Hl & Hr & Hp). unfold FFT_NUM_SAMPLES, VCORTEX_PWM_CHNNLS in *.
  unfold syn_turn. wp_step. eapply wp_bind_ok.
  { eapply wp_mono; [apply (read_fft_cache_run 64); lia|].
    intros r d1 s1 t1 (b & -> & Hb & Hs & Hw & _). eexists. split; [done|].
    exact (conj Hb (conj Hs Hw)). }
  intros lr d1 s1 t1 (-> & -> & Hw). cbn [fst snd].
  set (l' := filled (fun i => bin d (128 + i)) 64 (syn_l s)).
  set (r' := filled (bin d) 64 (syn_r s)).
  assert (zlen l' = 128 /\ zlen r' = 128) as [Hl' Hr'].
  { unfold zlen in *. unfold l', r'. rewrite !filled_length; unfold zlen; lia. }
  apply wp_bind. unfold wp at 1.
  change (mfold _ (upto VCORTEX_PWM_CHNNLS) (syn_pwm s))
    with (acid_sunshine (D:=D) (St:=syn_bufs) 0 l' r' (syn_pwm s)).
  rewrite acid_sunshine_run by (unfold VCORTEX_PWM_CHNNLS; lia). cbn [o_res o_dev o_st o_tr].
  set (pwm := filled _ _ (syn_pwm s)).
  assert (zlen pwm = 16) as Hpwm.
  { unfold zlen in *. unfold pwm, VCORTEX_PWM_CHNNLS. rewrite filled_length; unfold zlen; lia. }
  wp_step. apply wp_bind. unfold wp at 1.
  rewrite pwm_paint_run by (unfold VCORTEX_PWM_CHNNLS; lia). cbn [o_res o_dev o_st o_tr].
  wp_step. unfold syn_ok. cbn [syn_l syn_r syn_pwm]. split_and!; try done.
  rewrite !writes_app, Hw, writes_EvWr. change (writes [EvSleep 1]) with (@nil (Z * Z)).
  change (writes []) with (@nil (Z * Z)). rewrite app_nil_r, !app_nil_l.
  rewrite <- (spectrum_frame_filled (bin d) (syn_pwm s)) by (unfold VCORTEX_PWM_CHNNLS; lia).
  reflexivity.
Qed.
End syn.

(** A cache whose bins are constant. *)
Record bin_dev := BinDev { bd_bin : Z -> Z }.

#[export] Instance bin_dev_device : Device bin_dev := {
  dev_read a d := (bd_bin d ((a - FFT_CACHE_MM_SL_BASE) / 16), d);
  dev_write a x d := d;
  dev_sleep _ d := d;
  dev_putc _ d := d;
  dev_getc d := (-1, d)
}.

#[export] Program Instance bin_dev_cache : SpectrumCache bin_dev := {
  bin d i := u32 (bd_bin d i)
}.
Next Obligation.
  intros i d Hi. simpl. split; [|done]. f_equal.
  rewrite (wrap_small 32) by (unfold fits, FFT_CACHE_MM_SL_BASE; change (2 ^ 32) with 4294967296; lia).
  f_equal. rewrite Z.add_simpl_l, Z.mul_comm, Z.div_mul; lia.
Qed.

Lemma syn_turn_paints_spectrum_witness :
  let s := SynBufs (replicate 128 9) (replicate 128 9) (replicate 16 9) in
  let o := syn_turn 0%nat (BinDev (fun i => i + 5)) s in
  o_res o = Ok tt /\ writes (o_tr o) = spectrum_frame (fun i => u32 (i + 5)).
Proof.
  destruct (syn_turn_paints_spectrum (D := bin_dev) 0%nat (BinDev (fun i => i + 5))
    (SynBufs (replicate 128 9) (replicate 128 9) (replicate 16 9)) ltac:(done)) as (Hr & _ & Hw).
  exact (conj Hr Hw).
Defined.
