(* ===== verification/Codec.v ===== *)
(** * The audio codec: codec/codec.[ch]

    The codec's registers are write-only: the firmware keeps a shadow of each
    and sends the whole 16-bit word, register address in the top seven bits,
    on every change.  The shadow array is the state of this component. *)

From S2P Require Import Prelude Hw Types Printf I2c.

(** ** Registers and fields (codec.h) *)

Definition CODEC_I2C_WRITE_ADDR : Z := 0x34.
Definition NO_OF_CODEC_REGS : Z := 11.

Definition CODEC_LEFT_LINE_IN_REG_IDX : Z := 0.
Definition CODEC_RIGHT_LINE_IN_REG_IDX : Z := 1.
Definition CODEC_LEFT_HP_OUT_REG_IDX : Z := 2.
Definition CODEC_RIGHT_HP_OUT_REG_IDX : Z := 3.
Definition CODEC_DIGITAL_AUD_PATH_REG_IDX : Z := 5.
Definition CODEC_POWER_DOWN_REG_IDX : Z := 6.
Definition CODEC_DIGITAL_AUD_IF_FMT_REG_IDX : Z := 7.
Definition CODEC_ACTIVE_CTRL_REG_IDX : Z := 9.
Definition CODEC_RESET_IDX : Z := 10.

(** A field: [CODEC_<name>_MSK], [CODEC_<name>_OFFST], [CODEC_<name>_IDX]. *)
Record codec_field := Field { f_msk : Z; f_offst : Z; f_idx : Z }.

Definition CODEC_LINVOL : codec_field := Field 0x1f 0 0.
Definition CODEC_LIN_MUTE : codec_field := Field 0x1 7 0.
Definition CODEC_LRIN_BOTH : codec_field := Field 0x1 8 0.
Definition CODEC_RINVOL : codec_field := Field 0x1f 0 1.
Definition CODEC_RIN_MUTE : codec_field := Field 0x1 7 1.
Definition CODEC_RLIN_BOTH : codec_field := Field 0x1 8 1.
Definition CODEC_LHPVOL : codec_field := Field 0x7f 0 2.
Definition CODEC_LZCEN : codec_field := Field 0x1 7 2.
Definition CODEC_LRHP_BOTH : codec_field := Field 0x1 8 2.
Definition CODEC_RHPVOL : codec_field := Field 0x7f 0 3.
Definition CODEC_RZCEN : codec_field := Field 0x1 7 3.
Definition CODEC_RLHP_BOTH : codec_field := Field 0x1 8 3.
Definition CODEC_MIC_BOOST : codec_field := Field 0x1 0 4.
Definition CODEC_MUTE_MIC : codec_field := Field 0x1 1 4.
Definition CODEC_INSEL : codec_field := Field 0x1 2 4.
Definition CODEC_BYPASS : codec_field := Field 0x1 3 4.
Definition CODEC_DAC_SEL : codec_field := Field 0x1 4 4.
Definition CODEC_SIDE_TONE : codec_field := Field 0x1 5 4.
Definition CODEC_SIDE_ATT : codec_field := Field 0x3 6 4.
Definition CODEC_ADC_HPD : codec_field := Field 0x1 0 5.
Definition CODEC_DEEMPH : codec_field := Field 0x3 1 5.
Definition CODEC_DAC_MU : codec_field := Field 0x1 3 5.
Definition CODEC_HPOR : codec_field := Field 0x1 4 5.
Definition CODEC_LINEINPD : codec_field := Field 0x1 0 6.
Definition CODEC_MICPD : codec_field := Field 0x1 1 6.
Definition CODEC_ADCPD : codec_field := Field 0x1 2 6.
Definition CODEC_DACPD : codec_field := Field 0x1 3 6.
Definition CODEC_OUTPD : codec_field := Field 0x1 4 6.
Definition CODEC_OSCPD : codec_field := Field 0x1 5 6.
Definition CODEC_CLKOUTPD : codec_field := Field 0x1 6 6.
Definition CODEC_PWROFF : codec_field := Field 0x1 7 6.
Definition CODEC_FORMAT : codec_field := Field 0x3 0 7.
Definition CODEC_IWL : codec_field := Field 0x3 2 7.
Definition CODEC_LRP : codec_field := Field 0x1 4 7.
Definition CODEC_LRSWAP : codec_field := Field 0x1 5 7.
Definition CODEC_MS : codec_field := Field 0x1 6 7.
Definition CODEC_BCLK_INV : codec_field := Field 0x1 7 7.
Definition CODEC_USB_NORM : codec_field := Field 0x1 0 8.
Definition CODEC_BOSR : codec_field := Field 0x1 1 8.
Definition CODEC_SR : codec_field := Field 0xf 2 8.
Definition CODEC_CLKI_DIV2 : codec_field := Field 0x1 6 8.
Definition CODEC_CLKO_DIV2 : codec_field := Field 0x1 7 8.
Definition CODEC_ACTIVE : codec_field := Field 0x1 0 9.

Definition codec_fields : list codec_field :=
  [ CODEC_LINVOL; CODEC_LIN_MUTE; CODEC_LRIN_BOTH; CODEC_RINVOL; CODEC_RIN_MUTE; CODEC_RLIN_BOTH;
    CODEC_LHPVOL; CODEC_LZCEN; CODEC_LRHP_BOTH; CODEC_RHPVOL; CODEC_RZCEN; CODEC_RLHP_BOTH;
    CODEC_MIC_BOOST; CODEC_MUTE_MIC; CODEC_INSEL; CODEC_BYPASS; CODEC_DAC_SEL; CODEC_SIDE_TONE;
    CODEC_SIDE_ATT; CODEC_ADC_HPD; CODEC_DEEMPH; CODEC_DAC_MU; CODEC_HPOR; CODEC_LINEINPD;
    CODEC_MICPD; CODEC_ADCPD; CODEC_DACPD; CODEC_OUTPD; CODEC_OSCPD; CODEC_CLKOUTPD; CODEC_PWROFF;
    CODEC_FORMAT; CODEC_IWL; CODEC_LRP; CODEC_LRSWAP; CODEC_MS; CODEC_BCLK_INV; CODEC_USB_NORM;
    CODEC_BOSR; CODEC_SR; CODEC_CLKI_DIV2; CODEC_CLKO_DIV2; CODEC_ACTIVE ].

(** [CODEC_IWL]. *)
Inductive CODEC_IWL_T := IWL_16 | IWL_20 | IWL_24 | IWL_32.

Definition CODEC_IWL_val (v : CODEC_IWL_T) : Z :=
  match v with IWL_16 => 0x0 | IWL_20 => 0x1 | IWL_24 => 0x2 | IWL_32 => 0x3 end.

(** [SR_SEL]. *)
Inductive SR_SEL := FS_8KHZ_SR | FS_32KHZ_SR | FS_44KHZ_SR | FS_48KHZ_SR | FS_88KHZ_SR | FS_96KHZ_SR.

Definition SR_SEL_val (v : SR_SEL) : Z :=
  match v with
  | FS_8KHZ_SR => 0x3 | FS_32KHZ_SR => 0x6 | FS_44KHZ_SR => 0x8
  | FS_48KHZ_SR => 0x0 | FS_88KHZ_SR => 0xf | FS_96KHZ_SR => 0x7
  end.

(** [CODEC_PWR_ON_OFF]. *)
Inductive CODEC_PWR_ON_OFF := ON | OFF.

Definition CODEC_PWR_ON_OFF_val (v : CODEC_PWR_ON_OFF) : Z := match v with ON => 0x0 | OFF => 0x1 end.

(** [bps2iwl_lookup], indexed by a [BPS_T] value. *)
Definition bps2iwl_lookup : list Z := CODEC_IWL_val <$> [ (* BPS_16 *) IWL_16; (* BPS_32 *) IWL_32 ].

(** [fs2sr_lookup], indexed by an [FS_T] value. *)
Definition fs2sr_lookup : list Z := SR_SEL_val <$>
  [ FS_8KHZ_SR; FS_32KHZ_SR; FS_44KHZ_SR; FS_48KHZ_SR; FS_88KHZ_SR; FS_96KHZ_SR ].

Section driver.
Context {D : Type} `{Device D}.
(** The state is [codec_shadow_reg]. *)
Local Abbreviation M := (M D (list Z)).

Definition codec_get (idx : Z) : M Z := s ← get_st; aget s idx.

Definition codec_put (idx v : Z) : M unit := s ← get_st; s' ← aset s idx (u16 v); put_st s'.

(** [i2c_xtn_write16(CORTEX_MM_SL_BASE, CODEC_I2C_WRITE_ADDR,
    codec_shadow_reg[idx])]. *)
Definition codec_send (idx : Z) : M I2C_RES :=
  v ← codec_get idx; i2c_xtn_write16 CORTEX_MM_SL_BASE CODEC_I2C_WRITE_ADDR v.

(** [if(m) return I2C_NACK_DETECTED; k]. *)
Definition or_nack (m k : M I2C_RES) : M I2C_RES :=
  r ← m; if i2c_failed r then mret I2C_NACK_DETECTED else k.

(** ** Operations *)

(** The power-up values, register by register. *)
Definition codec_defaults : list Z :=
  [0x97; 0x297; 0x479; 0x679; 0x80a; 0xa08; 0xc9f; 0xe0a; 0x1000; 0x1200; 0x1e00].

Definition codec_reset : M I2C_RES :=
  mfor (fun p => codec_put p.1 p.2) (imap (fun i v => (Z.of_nat i, v)) codec_defaults);;
  codec_send CODEC_RESET_IDX.

(** The arguments are 8-bit; the shift is one of [int], undefined when it
    overflows. *)
Definition codec_config_reg (idx offst msk val : Z) : M I2C_RES :=
  let idx := u8 idx in let offst := u8 offst in let msk := u8 msk in let val := u8 val in
  if (offst <? 32) && (Z.shiftl msk offst <? 2 ^ 31) then
    x ← codec_get idx;
    codec_put idx (Z.land x (Z.lnot (u16 (Z.shiftl msk offst))));;
    x ← codec_get idx;
    codec_put idx (Z.lor x (u16 (Z.shiftl (Z.land val msk) offst)));;
    codec_send idx
  else ub.

Definition config_field (f : codec_field) (val : Z) : M I2C_RES :=
  codec_config_reg (f_idx f) (f_offst f) (f_msk f) val.

Definition codec_sr_update (val : Z) : M I2C_RES := config_field CODEC_SR val.
Definition codec_iwl_update (val : Z) : M I2C_RES := config_field CODEC_IWL val.

(** Program register [idx] whole: [codec_shadow_reg[idx] = v] and send it. *)
Definition codec_set (idx v : Z) : M I2C_RES := codec_put idx v;; codec_send idx.

Definition codec_dump_regs : M unit :=
  alt_printf ("CODEC Regs - " +:+ crlf) [];;
  mfor (fun i => v ← codec_get i; alt_printf ("REG[0x%x] - 0x%x" +:+ crlf) [PInt i; PInt v])
    (upto NO_OF_CODEC_REGS).

Definition codec_init (bps fs : Z) : M I2C_RES :=
  or_nack codec_reset (
  sleep_ms 100;;
  or_nack (codec_set CODEC_POWER_DOWN_REG_IDX 0xc10) (
  or_nack (codec_set CODEC_LEFT_LINE_IN_REG_IDX 0x17) (
  or_nack (codec_set CODEC_RIGHT_LINE_IN_REG_IDX 0x217) (
  or_nack (codec_set CODEC_LEFT_HP_OUT_REG_IDX 0x4f9) (
  or_nack (codec_set CODEC_RIGHT_HP_OUT_REG_IDX 0x6f9) (
  or_nack (codec_set CODEC_DIGITAL_AUD_PATH_REG_IDX 0xa00) (
  or_nack (codec_set CODEC_DIGITAL_AUD_IF_FMT_REG_IDX 0xe0f) (
  or_nack (v ← aget bps2iwl_lookup bps; codec_iwl_update v) (
  or_nack (v ← aget fs2sr_lookup fs; codec_sr_update v) (
  or_nack (codec_set CODEC_ACTIVE_CTRL_REG_IDX 0x1201) (
  or_nack (codec_set CODEC_POWER_DOWN_REG_IDX 0xc00) (
  codec_dump_regs;;
  alt_printf ("[codec_init] Success" +:+ crlf) [];;
  mret I2C_OK)))))))))))).

Definition codec_dsp_if_activate : M I2C_RES := config_field CODEC_ACTIVE 0x1.
Definition codec_dsp_if_inactivate : M I2C_RES := config_field CODEC_ACTIVE 0x0.

Definition codec_dac_activate : M I2C_RES :=
  or_nack (config_field CODEC_DACPD 0x0) (
  or_nack (config_field CODEC_DAC_SEL 0x1) (
  or_nack (config_field CODEC_DAC_MU 0x0) (
  mret I2C_OK))).

Definition codec_dac_inactivate : M I2C_RES :=
  or_nack (config_field CODEC_DAC_MU 0x1) (
  or_nack (config_field CODEC_DAC_SEL 0x0) (
  or_nack (config_field CODEC_DACPD 0x1) (
  mret I2C_OK))).

Definition codec_pwr_off_n_on (val : Z) : M I2C_RES := config_field CODEC_PWROFF val.
Definition codec_linein_pwr_dwn_n_up (val : Z) : M I2C_RES := config_field CODEC_LINEINPD val.
Definition codec_lineout_pwr_dwn_n_up (val : Z) : M I2C_RES := config_field CODEC_OUTPD val.
Definition codec_adc_hpf_enable (val : Z) : M I2C_RES := config_field CODEC_ADC_HPD val.
Definition codec_adc_pwr_dwn_n_up (val : Z) : M I2C_RES := config_field CODEC_ADCPD val.
End driver.

(** ** The shadow array *)

#[export] Instance codec_field_eq_dec : EqDecision codec_field.
Proof. solve_decision. Defined.

(** The register address the codec expects in the top seven bits: the reset
    register, last in the array, has address 15. *)
Definition codec_addr (i : Z) : Z := if i =? CODEC_RESET_IDX then 15 else i.

(** Every shadow word carries the address of its own register. *)
Definition shadow_ok (s : list Z) : Prop :=
  zlen s = NO_OF_CODEC_REGS /\
  forall i v, zget s i = Some v -> fits 16 v /\ Z.shiftr v 9 = codec_addr i.

(** The value of a field in the shadow array. *)
Definition field_get (f : codec_field) (s : list Z) : Z :=
  Z.land (Z.shiftr (default 0 (zget s (f_idx f))) (f_offst f)) (f_msk f).

(** The register word after [codec_config_reg] on it. *)
Definition field_put (f : codec_field) (x val : Z) : Z :=
  u16 (Z.lor (u16 (Z.land x (Z.lnot (u16 (Z.shiftl (f_msk f) (f_offst f))))))
             (u16 (Z.shiftl (Z.land val (f_msk f)) (f_offst f)))).

Definition field_ok (f : codec_field) : bool :=
  (0 <=? f_idx f) && (f_idx f <? 10) && (0 <=? f_offst f) && (f_offst f <? 9) &&
  (0 <=? f_msk f) && (Z.shiftl (f_msk f) (f_offst f) <? 512).

(** Distinct fields of one register have no bit in common. *)
Definition fields_apart (f g : codec_field) : bool :=
  bool_decide (f = g) || negb (f_idx f =? f_idx g) ||
  (Z.land (Z.shiftl (f_msk f) (f_offst f)) (Z.shiftl (f_msk g) (f_offst g)) =? 0).

Lemma codec_fields_ok : forallb field_ok codec_fields = true.
Proof. reflexivity. Qed.

Lemma codec_fields_apart :
  forallb (fun f => forallb (fields_apart f) codec_fields) codec_fields = true.
Proof. vm_compute. reflexivity. Qed.

Record field_bounds (f : codec_field) : Prop := {
  fb_idx : 0 <= f_idx f < 10;
  fb_offst : 0 <= f_offst f < 9;
  fb_msk : 0 <= f_msk f;
  fb_top : Z.shiftl (f_msk f) (f_offst f) < 512
}.

Lemma field_in f : f ∈ codec_fields -> field_bounds f.
Proof.
  intros Hf. pose proof codec_fields_ok as Hok. rewrite forallb_forall in Hok.
  apply list_elem_of_In in Hf. specialize (Hok f Hf). unfold field_ok in Hok.
  repeat rewrite andb_true_iff in Hok. rewrite !Z.leb_le, !Z.ltb_lt in Hok.
  constructor; tauto.
Qed.

Lemma fields_apart_in f g :
  f ∈ codec_fields -> g ∈ codec_fields -> f <> g -> f_idx f = f_idx g ->
  Z.land (Z.shiftl (f_msk f) (f_offst f)) (Z.shiftl (f_msk g) (f_offst g)) = 0.
Proof.
  intros Hf%list_elem_of_In Hg%list_elem_of_In Hne Hi. pose proof codec_fields_apart as Ha.
  rewrite forallb_forall in Ha. specialize (Ha f Hf).
  rewrite forallb_forall in Ha. specialize (Ha g Hg). unfold fields_apart in Ha.
  rewrite bool_decide_eq_false_2, Hi, Z.eqb_refl in Ha by done. by apply Z.eqb_eq in Ha.
Qed.

(** The bits of a mask are below bit 9. *)
Lemma field_mask_bit f j :
  field_bounds f -> 9 <= j -> Z.testbit (Z.shiftl (f_msk f) (f_offst f)) j = false.
Proof.
  intros [? ? ? ?] Hj. apply (fits_testbit 9); [lia| |done].
  split; [|done]. apply Z.shiftl_nonneg. done.
Qed.

Lemma field_put_bit f x val j :
  field_bounds f -> 0 <= j < 16 ->
  Z.testbit (field_put f x val) j
  = if Z.testbit (Z.shiftl (f_msk f) (f_offst f)) j then Z.testbit val (j - f_offst f)
    else Z.testbit x j.
Proof.
  intros Hb Hj. unfold field_put. destruct Hb as [? ? ? ?].
  rewrite testbit_wrap, Z.lor_spec, !testbit_wrap, Z.land_spec, Z.lnot_spec, testbit_wrap by lia.
  zbool. rewrite !andb_true_l, !Z.shiftl_spec, Z.land_spec by lia.
  destruct (Z.testbit (f_msk f) (j - f_offst f)); simpl.
  - by rewrite !andb_false_r, andb_true_r.
  - by rewrite andb_true_r, andb_false_r, orb_false_r.
Qed.

Lemma field_put_fits f x val : fits 16 (field_put f x val).
Proof. apply wrap_fits. lia. Qed.

Lemma testbit_16 x y :
  fits 16 x -> fits 16 y -> (forall j, 0 <= j < 16 -> Z.testbit x j = Z.testbit y j) -> x = y.
Proof.
  intros Hx Hy Hb. apply Z.bits_inj'. intros j Hj.
  destruct (Z_lt_le_dec j 16); [by apply Hb|].
  by rewrite !(fits_testbit 16) by (done || lia).
Qed.

(** The address bits of a word survive. *)
Lemma field_put_addr f x val :
  field_bounds f -> fits 16 x -> Z.shiftr (field_put f x val) 9 = Z.shiftr x 9.
Proof.
  intros Hb Hx. apply Z.bits_inj'. intros j Hj. rewrite !Z.shiftr_spec by done.
  destruct (Z_lt_le_dec (j + 9) 16).
  - rewrite field_put_bit by (done || lia). by rewrite field_mask_bit by (done || lia).
  - rewrite !(fits_testbit 16); try done; try lia. apply field_put_fits.
Qed.

Lemma shadow_ok_put f s x val :
  field_bounds f -> shadow_ok s -> zget s (f_idx f) = Some x ->
  shadow_ok (zset s (f_idx f) (field_put f x val)).
Proof.
  intros Hb [Hl Hok] Hx. split; [by autorewrite with zlist|]. intros i v Hv.
  pose proof (zget_Some_range _ _ _ Hx).
  destruct (Z.eq_dec (f_idx f) i) as [<-|Hne].
  - rewrite zget_zset_eq in Hv by done. simplify_eq. destruct (Hok _ _ Hx) as [Hf Ha].
    split; [apply field_put_fits|]. by rewrite field_put_addr.
  - rewrite zget_zset_ne in Hv by done. by apply Hok.
Qed.

(** Reading a field back. *)
Lemma field_get_put f s x val :
  field_bounds f -> zget s (f_idx f) = Some x ->
  field_get f (zset s (f_idx f) (field_put f x val)) = Z.land val (f_msk f).
Proof.
  intros Hb Hx. unfold field_get. rewrite zget_zset_eq by (by eapply zget_Some_range).
  simpl. apply Z.bits_inj'. intros j Hj. destruct (id Hb) as [? ? ? ?].
  rewrite !Z.land_spec, Z.shiftr_spec by done.
  destruct (Z.testbit (f_msk f) j) eqn:E; [|by rewrite !andb_false_r].
  assert (j + f_offst f < 9) as Hlt.
  { apply Z.nle_gt. intros Hge. pose proof (field_mask_bit f (j + f_offst f) Hb Hge) as Hm.
    rewrite Z.shiftl_spec, Z.add_simpl_r in Hm by lia. congruence. }
  rewrite field_put_bit by (done || lia).
  by rewrite Z.shiftl_spec, Z.add_simpl_r, E by lia.
Qed.

Lemma field_get_put_ne f g s x val :
  f ∈ codec_fields -> g ∈ codec_fields -> f <> g -> zget s (f_idx f) = Some x ->
  field_get g (zset s (f_idx f) (field_put f x val)) = field_get g s.
Proof.
  intros Hf Hg Hne Hx. unfold field_get.
  destruct (Z.eq_dec (f_idx f) (f_idx g)) as [He|He]; [|by rewrite zget_zset_ne].
  rewrite <- He, zget_zset_eq, Hx by (by eapply zget_Some_range). simpl.
  pose proof (fields_apart_in f g Hf Hg Hne He) as Ha.
  apply field_in in Hf, Hg. destruct (id Hg) as [? ? ? ?].
  apply Z.bits_inj'. intros j Hj. rewrite !Z.land_spec, !Z.shiftr_spec by done.
  destruct (Z.testbit (f_msk g) j) eqn:E; [|by rewrite !andb_false_r].
  assert (Z.testbit (Z.shiftl (f_msk g) (f_offst g)) (j + f_offst g) = true) as Eg.
  { by rewrite Z.shiftl_spec, Z.add_simpl_r by lia. }
  assert (j + f_offst g < 9) as Hlt.
  { apply Z.nle_gt. intros Hge. rewrite field_mask_bit in Eg by done. done. }
  apply (f_equal (fun z => Z.testbit z (j + f_offst g))) in Ha.
  rewrite Z.land_spec, Eg, andb_true_r, Z.testbit_0_l in Ha.
  rewrite field_put_bit by (done || lia). by rewrite Ha.
Qed.

(** ** What a run sends *)

(** The bus writes of a list of register words. *)
Definition codec_words (ws : list Z) : list (Z * Z) :=
  mbind (fun w => i2c_xtn_writes CORTEX_MM_SL_BASE CODEC_I2C_WRITE_ADDR w) ws.

Lemma codec_words_app ws1 ws2 : codec_words (ws1 ++ ws2) = codec_words ws1 ++ codec_words ws2.
Proof. apply bind_app. Qed.

Section runs.
Context {D : Type} `{Device D}.
Local Abbreviation M := (M D (list Z)).

(** [m], started on the shadow array [s], sends the words [ws] in order and
    leaves the array at [s'] if all are acknowledged; it stops at the first
    one that is not, having sent a non-empty prefix; if a poll never ends,
    the writes are a prefix too.  It never leaves the defined behaviours, and
    the array is well formed whenever it stops. *)
Definition i2c_run (m : M I2C_RES) (ws s s' : list Z) : Prop :=
  forall n d, wp m n d s (fun r _ s1 t =>
    shadow_ok s1 /\
    match r with
    | Ok I2C_OK => s1 = s' /\ writes t = codec_words ws
    | Ok I2C_NACK_DETECTED =>
        exists w ws1, (ws1 ++ [w]) `prefix_of` ws /\ writes t = codec_words (ws1 ++ [w])
    | Ok _ => False
    | Diverge => writes t `prefix_of` codec_words ws
    | Ub => False
    end).

Lemma i2c_run_send idx s w :
  shadow_ok s -> zget s idx = Some w -> i2c_run (codec_send idx) [w] s s.
Proof.
  intros Hs Hw n d. unfold codec_send, codec_get. wp_step.
  apply wp_bind. unfold wp at 1. rewrite (aget_ok _ _ _ _ _ _ Hw). cbn [o_res o_dev o_st o_tr].
  eapply wp_mono; [apply i2c_xtn_write16_cases|].
  intros r d' s' t (-> & Hub & _ & Hr). split; [done|].
  change (writes ([] ++ [] ++ t)) with (writes t).
  unfold codec_words. cbn [mbind list_bind]. rewrite app_nil_r.
  destruct r as [r| |]; [|destruct Hr as [-> | ->]|done].
  - destruct Hr as [[-> | ->] ->]; [done|]. exists w, []. split; [done|].
    cbn [app mbind list_bind]. by rewrite app_nil_r.
  - apply prefix_nil.
  - done.
Qed.

Lemma i2c_run_or_nack m k ws1 ws2 s s1 s2 :
  i2c_run m ws1 s s1 -> i2c_run k ws2 s1 s2 -> i2c_run (or_nack m k) (ws1 ++ ws2) s s2.
Proof.
  intros Hm Hk n d. unfold or_nack. apply wp_bind. eapply wp_mono; [apply Hm|].
  intros r d1 s1' t1 [Hok Hr]. destruct r as [r| |]; [|split; [done|]|done].
  - destruct r; try done; cbn [i2c_failed I2C_RES_val negb Z.eqb].
    + destruct Hr as [-> Hw]. eapply wp_mono; [apply Hk|].
      intros r d2 s2' t2 [Hok2 Hr2]. split; [done|].
      destruct r as [r| |]; [|rewrite writes_app, Hw, codec_words_app; by apply prefix_app|done].
      destruct r; try done; rewrite writes_app, Hw.
      * destruct Hr2 as [-> ->]. by rewrite codec_words_app.
      * destruct Hr2 as (w & ws & Hp & ->). exists w, (ws1 ++ ws).
        rewrite <- app_assoc, (codec_words_app ws1 (ws ++ [w])). split; [by apply prefix_app|done].
    + apply wp_ret. split; [done|]. destruct Hr as (w & ws & Hp & Hw).
      exists w, ws. rewrite app_nil_r. split; [by apply prefix_app_r|done].
  - rewrite codec_words_app. by apply prefix_app_r.
Qed.

(** A step that neither writes to the bus nor stops. *)
Lemma i2c_run_quiet {A} (m : M A) k ws s s1 s2 :
  (forall n d, wp m n d s (fun r _ s' t => (exists a, r = Ok a) /\ s' = s1 /\ writes t = [])) ->
  i2c_run k ws s1 s2 -> i2c_run (m;; k) ws s s2.
Proof.
  intros Hm Hk n d. apply wp_bind. eapply wp_mono; [apply Hm|].
  intros r d1 s' t ((a & ->) & -> & Hw). eapply wp_mono; [apply Hk|].
  intros r d2 s3 t2 Hr. by rewrite writes_app, Hw.
Qed.

Lemma i2c_run_ok s : shadow_ok s -> i2c_run (mret I2C_OK) [] s s.
Proof. intros Hs n d. by apply wp_ret. Qed.

Lemma codec_put_wp idx v n (d : D) s :
  0 <= idx < zlen s ->
  wp (codec_put idx v) n d s (fun r _ s' t =>
    (exists a, r = Ok a) /\ s' = zset s idx (u16 v) /\ writes t = []).
Proof.
  intros Hi. unfold codec_put. wp_step. apply wp_bind. unfold wp at 1.
  rewrite aset_ok by done. cbn [o_res o_dev o_st o_tr]. wp_step. eauto.
Qed.

(** ** The field update *)

Lemma codec_config_run f val s x :
  field_bounds f -> 0 <= val < 256 -> f_msk f < 256 -> shadow_ok s -> zget s (f_idx f) = Some x ->
  i2c_run (config_field f val) [field_put f x val] s (zset s (f_idx f) (field_put f x val)).
Proof.
  intros Hb Hval Hmsk Hs Hx. destruct (id Hb) as [? ? ? ?].
  pose proof (zget_Some_range _ _ _ Hx) as Hr.
  assert (forall z, 0 <= z < 256 -> u8 z = z) as Hu8.
  { intros. apply wrap_small. split; [lia|]. change (2 ^ 8) with 256. lia. }
  intros n d. unfold config_field, codec_config_reg. rewrite !Hu8 by lia.
  assert ((Z.shiftl (f_msk f) (f_offst f) <? 2 ^ 31) = true) as ->.
  { apply Z.ltb_lt. change (2 ^ 31) with 2147483648. lia. }
  zbool. cbn [andb]. unfold codec_get at 1. wp_step.
  apply wp_bind. unfold wp at 1. rewrite (aget_ok _ _ _ _ _ _ Hx). cbn [o_res o_dev o_st o_tr].
  set (x1 := u16 (Z.land x (Z.lnot (u16 (Z.shiftl (f_msk f) (f_offst f)))))).
  match goal with |- wp ?m n d s _ => enough (i2c_run m [field_put f x val] s
    (zset s (f_idx f) (field_put f x val))) as He by (specialize (He n d); exact He) end.
  apply (i2c_run_quiet _ _ _ _ (zset s (f_idx f) x1)); [intros; by apply codec_put_wp|].
  intros n1 d1. unfold codec_get. wp_step.
  apply wp_bind. unfold wp at 1. rewrite (aget_ok _ _ x1) by (autorewrite with zlist; done).
  cbn [o_res o_dev o_st o_tr].
  match goal with |- wp ?m n1 d1 _ _ => enough (i2c_run m [field_put f x val]
    (zset s (f_idx f) x1) (zset s (f_idx f) (field_put f x val))) as He
      by (specialize (He n1 d1); exact He) end.
  apply (i2c_run_quiet _ _ _ _ (zset s (f_idx f) (field_put f x val))).
  { intros n2 d2. eapply wp_mono; [apply codec_put_wp; by autorewrite with zlist|].
    intros r d' s' t (Ha & -> & Hw). split_and!; try done.
    unfold zset, field_put. zbool. by rewrite list_insert_insert_eq. }
  apply i2c_run_send; [by apply shadow_ok_put|by apply zget_zset_eq].
Qed.

Lemma codec_fields_msk f : f ∈ codec_fields -> f_msk f < 256.
Proof.
  intros Hf%list_elem_of_In.
  assert (forallb (fun f => f_msk f <? 256) codec_fields = true) as Hm by reflexivity.
  rewrite forallb_forall in Hm. apply Z.ltb_lt. by apply Hm.
Qed.

(** Setting a field of the codec to an 8-bit value, from a well-formed
    shadow array: the driver sends the one word in which the field holds the
    value's low bits, and when the codec acknowledges, the shadow agrees with
    what was sent: the field reads back as the value, every other field and
    every other register are as before, and the array stays well formed. *)
Theorem codec_config_reg_updates_field f val s :
  f ∈ codec_fields -> 0 <= val < 256 -> shadow_ok s ->
  exists w, let s' := zset s (f_idx f) w in
    i2c_run (config_field f val) [w] s s' /\
    shadow_ok s' /\
    field_get f s' = Z.land val (f_msk f) /\
    (forall g, g ∈ codec_fields -> g <> f -> field_get g s' = field_get g s) /\
    (forall i, i <> f_idx f -> zget s' i = zget s i).
Proof.
  intros Hf Hval Hs. pose proof (field_in f Hf) as Hb.
  destruct (zget_in_range s (f_idx f)) as [x Hx].
  { destruct Hb, Hs as [-> _]. unfold NO_OF_CODEC_REGS. lia. }
  exists (field_put f x val). cbv zeta. split_and!.
  - apply codec_config_run; try done. by apply codec_fields_msk.
  - by apply shadow_ok_put.
  - by apply field_get_put.
  - intros g Hg Hne. by apply field_get_put_ne.
  - intros i Hi. by apply zget_zset_ne.
Qed.
End runs.

(** ** Power-up *)

(** Executable form of the invariant. *)
Definition shadow_okb (s : list Z) : bool :=
  (zlen s =? NO_OF_CODEC_REGS) &&
  forallb (fun p => bool_decide (fits 16 p.2) && (Z.shiftr p.2 9 =? codec_addr (Z.of_nat p.1)))
    (imap pair s).

Lemma shadow_okb_ok s : shadow_okb s = true -> shadow_ok s.
Proof.
  unfold shadow_okb. intros [Hl Hf]%andb_true_iff. apply Z.eqb_eq in Hl. split; [done|].
  intros i v Hv. pose proof (zget_Some_range _ _ _ Hv) as Hr.
  rewrite forallb_forall in Hf. specialize (Hf (Z.to_nat i, v)).
  rewrite andb_true_iff, bool_decide_eq_true, Z.eqb_eq in Hf. cbn [fst snd] in Hf.
  rewrite Z2Nat.id in Hf by lia. apply Hf, list_elem_of_In, elem_of_lookup_imap.
  exists (Z.to_nat i), v. split; [done|]. unfold zget in Hv. by destruct (0 <=? i).
Qed.

(** The words of a power-up: reset, power control with the outputs off, line
    inputs, headphones, digital path, interface format, word length, sampling
    rate, activation, power control with everything on. *)
Definition codec_init_words (b : BPS_T) (fs : FS_T) : list Z :=
  [0x1e00; 0xc10; 0x17; 0x217; 0x4f9; 0x6f9; 0xa00; 0xe0f;
   0xe03 + Z.shiftl (CODEC_IWL_val (match b with BPS_32 => IWL_32 | BPS_16 => IWL_16 end)) 2;
   0x1000 + Z.shiftl (match fs with
     | FS_8KHZ => 0x3 | FS_32KHZ => 0x6 | FS_44KHZ => 0x8
     | FS_48KHZ => 0x0 | FS_88KHZ => 0xf | FS_96KHZ => 0x7 end) 2;
   0x1201; 0xc00].

(** The registers a power-up leaves. *)
Definition codec_init_regs (b : BPS_T) (fs : FS_T) : list Z :=
  let ws := codec_init_words b fs in
  [0x17; 0x217; 0x4f9; 0x6f9; 0x80a; 0xa00; 0xc00; default 0 (ws !! 8%nat); default 0 (ws !! 9%nat);
   0x1201; 0x1e00].

Section init.
Context {D : Type} `{Device D}.
Local Abbreviation M := (M D (list Z)).

Lemma i2c_run_set idx v s :
  0 <= idx < zlen s -> shadow_ok (zset s idx (u16 v)) ->
  i2c_run (D:=D) (codec_set idx v) [u16 v] s (zset s idx (u16 v)).
Proof.
  intros Hi Hs. apply (i2c_run_quiet _ _ _ _ (zset s idx (u16 v))).
  - intros. by apply codec_put_wp.
  - apply i2c_run_send; [done|]. by apply zget_zset_eq.
Qed.

Lemma i2c_run_aget (l : list Z) i v (k : Z -> M I2C_RES) ws s s' :
  zget l i = Some v -> i2c_run (k v) ws s s' -> i2c_run (x ← aget l i; k x) ws s s'.
Proof.
  intros Hv Hk n d. apply wp_bind. unfold wp at 1. rewrite (aget_ok _ _ _ _ _ _ Hv).
  cbn [o_res o_dev o_st o_tr]. apply Hk.
Qed.

Lemma i2c_run_reset s :
  zlen s = NO_OF_CODEC_REGS -> i2c_run (D:=D) codec_reset [0x1e00] s codec_defaults.
Proof.
  intros Hl. apply (i2c_run_quiet _ _ _ _ codec_defaults).
  - intros n d. unfold zlen, NO_OF_CODEC_REGS in Hl.
    do 11 (destruct s as [|? s]; [done|]). destruct s; [|simpl in Hl; lia].
    unfold wp. vm_compute. eauto.
  - apply i2c_run_send; [by apply shadow_okb_ok|done].
Qed.

(** The dump prints and changes nothing. *)
Lemma codec_dump_quiet s n (d : D) :
  shadow_ok s ->
  wp codec_dump_regs n d s (fun r _ s' t => (exists a, r = Ok a) /\ s' = s /\ writes t = []).
Proof.
  intros [Hl _]. unfold codec_dump_regs. apply wp_bind. apply wp_puts; [done|].
  assert (writes (EvPutc <$> codes ("CODEC Regs - " +:+ crlf)) = []) as Hw0 by apply writes_putc.
  revert Hw0. generalize (EvPutc <$> codes ("CODEC Regs - " +:+ crlf)). intros t0 Hw0.
  eapply wp_mono; [apply (wp_mfor _ _ _ _ _ (fun _ _ s' t => s' = s /\ writes t = []))|].
  - done.
  - done.
  - intros i d1 s1 t Hi [-> Hw]. destruct (zget_in_range s i) as [v Hv].
    { rewrite Hl. done. }
    unfold codec_get. wp_step. apply wp_bind. unfold wp at 1. rewrite (aget_ok _ _ _ _ _ _ Hv).
    cbn [o_res o_dev o_st o_tr].
    destruct (formatted ("REG[0x%x] - 0x%x" +:+ crlf) [PInt i; PInt v]) as [l|] eqn:E; [|done].
    eapply wp_printf; [exact E|]. split_and!; [done..|].
    by rewrite !writes_app, Hw, writes_putc.
  - intros r d1 s1 t (-> & -> & Hw). split_and!; [by eexists|done|]. by rewrite writes_app, Hw0, Hw.
Qed.

#[local] Ltac set_step :=
  match goal with |- i2c_run (or_nack (codec_set ?i ?v) _) (?w :: ?ws) ?s _ =>
    apply (i2c_run_or_nack _ _ [w] ws s (zset s i w));
    [ refine (i2c_run_set i v s _ _); [done | by apply shadow_okb_ok]
    | let s' := eval vm_compute in (zset s i w) in change (zset s i w) with s' ]
  end.

#[local] Ltac field_step f v :=
  match goal with |- i2c_run (or_nack _ _) (?w :: ?ws) ?s _ =>
    let x := eval vm_compute in (default 0 (zget s (f_idx f))) in
    let s' := eval vm_compute in (zset s (f_idx f) (field_put f x v)) in
    apply (i2c_run_or_nack _ _ [w] ws s s');
    [ apply (i2c_run_aget _ _ v); [done|];
      refine (codec_config_run f v s x _ _ _ _ _);
      [ apply field_in, list_elem_of_In; vm_compute; tauto | done | done | by apply shadow_okb_ok | done ]
    | ]
  end.

Lemma codec_init_run b fs s :
  zlen s = NO_OF_CODEC_REGS ->
  i2c_run (D:=D) (codec_init (BPS_T_val b) (FS_T_val fs)) (codec_init_words b fs) s
    (codec_init_regs b fs).
Proof.
  intros Hl. apply (i2c_run_or_nack _ _ [0x1e00] _ s codec_defaults); [by apply i2c_run_reset|].
  apply (i2c_run_quiet _ _ _ _ codec_defaults); [intros n d; wp_step; eauto|].
  unfold codec_defaults. do 7 set_step.
  assert (forall s, shadow_ok s -> i2c_run (D:=D) (codec_dump_regs;;
    alt_printf ("[codec_init] Success" +:+ crlf) [];; mret I2C_OK) [] s s) as Hend.
  { intros s1 Hs1. apply (i2c_run_quiet _ _ _ _ s1); [intros; by apply codec_dump_quiet|].
    apply (i2c_run_quiet _ _ _ _ s1); [|by apply i2c_run_ok].
    intros n d. apply wp_puts; [done|]. split_and!; [by eexists|done|apply writes_putc]. }
  destruct b;
    [field_step CODEC_IWL (CODEC_IWL_val IWL_32)|field_step CODEC_IWL (CODEC_IWL_val IWL_16)];
    (destruct fs;
     [ field_step CODEC_SR (SR_SEL_val FS_8KHZ_SR) | field_step CODEC_SR (SR_SEL_val FS_32KHZ_SR)
     | field_step CODEC_SR (SR_SEL_val FS_44KHZ_SR) | field_step CODEC_SR (SR_SEL_val FS_48KHZ_SR)
     | field_step CODEC_SR (SR_SEL_val FS_88KHZ_SR) | field_step CODEC_SR (SR_SEL_val FS_96KHZ_SR) ];
     do 2 set_step; apply Hend; by apply shadow_okb_ok).
Qed.
End init.

Section answers.
Context {D St : Type} `{Device D} (base : Z) `{!I2cMaster D base}.

Lemma live_printf w args : live (St:=St) base (alt_printf w args).
Proof.
  remember (String.length w) as k eqn:Hk. revert w args Hk.
  induction (lt_wf k) as [k _ IH]. intros w args ->.
  destruct w as [|c w]; simpl; [auto with live|].
  destruct (negb _).
  { apply live_bind; [auto with live|]. intros _. eapply IH; [|reflexivity]. simpl. lia. }
  destruct w as [|c2 w]; [auto with live|]. simpl in IH.
  assert (forall args, live (St:=St) base (alt_printf w args)) as IH'
    by (intros; eapply IH; [|reflexivity]; lia).
  unfold alt_putx, alt_putstr.
  repeat case_match; auto with live.
Qed.
End answers.

#[export] Hint Resolve live_printf : live.

Section codec_live.
Context {D : Type} `{Device D} `{!I2cMaster D CORTEX_MM_SL_BASE}.
Local Abbreviation L m := (live (D:=D) (St:=list Z) CORTEX_MM_SL_BASE m).

Lemma live_send idx : L (codec_send idx).
Proof. unfold codec_send, codec_get. auto with live. Qed.

Lemma live_codec_put idx v : L (codec_put idx v).
Proof. unfold codec_put. auto with live. Qed.

Lemma live_or_nack m k : L m -> L k -> L (or_nack m k).
Proof. intros. unfold or_nack. auto with live. Qed.

Lemma live_config idx offst msk val : L (codec_config_reg idx offst msk val).
Proof. unfold codec_config_reg, codec_get. auto 10 using live_send, live_codec_put with live. Qed.

Lemma live_set idx v : L (codec_set idx v).
Proof. unfold codec_set. auto using live_send, live_codec_put with live. Qed.

Lemma live_codec_init bps fs : L (codec_init bps fs).
Proof.
  assert (forall l, L (mfor (fun p : Z * Z => codec_put p.1 p.2) l)) as Hp.
  { intros. apply live_mfor. intros. apply live_codec_put. }
  unfold codec_init, codec_reset, codec_dump_regs, codec_get, codec_iwl_update, codec_sr_update, config_field.
  repeat lazymatch goal with
    | |- live _ (or_nack _ _) => apply live_or_nack
    | |- live _ (_ ≫= _) => apply live_bind; [|intros ?]
    | |- live _ (codec_config_reg _ _ _ _) => apply live_config
    | |- live _ (codec_set _ _) => apply live_set
    | |- live _ (codec_send _) => apply live_send
    | |- live _ (mfor _ (imap _ _)) => apply Hp
    | |- live _ (mfor _ _) => apply live_mfor; intros ?
    | |- live _ (alt_printf _ _) => apply live_printf
    | |- live _ (sleep_ms _) => apply live_sleep
    | |- live _ (aget _ _) => apply live_aget
    | |- live _ (mret _) => apply live_ret
    | |- live _ get_st => apply live_get
    end.
Qed.

Lemma i2c_run_live m ws s s' n d :
  i2c_run (D:=D) m ws s s' -> L m -> (i2c_left d <= i2c_bound)%nat -> (i2c_bound < n)%nat ->
  exists r d' s1 t, m n d s = Out (Ok r) d' s1 t /\ shadow_ok s1 /\
    ((r = I2C_OK /\ s1 = s' /\ writes t = codec_words ws) \/
     (r = I2C_NACK_DETECTED /\ exists w ws1, (ws1 ++ [w]) `prefix_of` ws /\
        writes t = codec_words (ws1 ++ [w]))).
Proof.
  intros Hm HL Hd Hn. specialize (Hm n d). specialize (HL n d s Hd Hn).
  unfold wp in Hm, HL. destruct (m n d s) as [r d' s1 t].
  cbn [o_res o_dev o_st o_tr] in *. destruct Hm as [Hok Hr], HL as [Hnd _].
  destruct r as [r| |]; try done. exists r, d', s1, t. split; [done|]. split; [done|].
  destruct r; try done; [left|right]; naive_solver.
Qed.


(** ** Switching the DAC path *)

(** [m] sends one word per listed field, leaves each at its value and every
    other field alone. *)
Definition sets_fields (m : M D (list Z) I2C_RES) (fvs : list (codec_field * Z)) : Prop :=
  forall s, shadow_ok s -> exists ws s', i2c_run m ws s s' /\ length ws = length fvs /\ shadow_ok s' /\
    (forall f v, (f, v) ∈ fvs -> field_get f s' = Z.land v (f_msk f)) /\
    (forall g, g ∈ codec_fields -> g ∉ fvs.*1 -> field_get g s' = field_get g s).

Lemma sets_fields_nil : sets_fields (mret I2C_OK) [].
Proof.
  intros s Hs. exists [], s. split_and!; [by apply i2c_run_ok|done|done| |done].
  intros f v Hf. by apply elem_of_nil in Hf.
Qed.

Lemma sets_fields_cons f v m fvs :
  f ∈ codec_fields -> 0 <= v < 256 -> f ∉ fvs.*1 -> sets_fields m fvs ->
  sets_fields (or_nack (config_field f v) m) ((f, v) :: fvs).
Proof.
  intros Hf Hv Hn Hm s Hs. pose proof (field_in f Hf) as Hb.
  destruct (zget_in_range s (f_idx f)) as [x Hx].
  { destruct Hb, Hs as [-> _]. unfold NO_OF_CODEC_REGS. lia. }
  set (s1 := zset s (f_idx f) (field_put f x v)).
  assert (shadow_ok s1) as Hs1 by (by apply shadow_ok_put).
  destruct (Hm s1 Hs1) as (ws & s' & Hrun & Hlen & Hok & Hget & Hoth).
  exists (field_put f x v :: ws), s'. split_and!.
  - apply (i2c_run_or_nack _ _ [field_put f x v] ws s s1); [|done].
    apply codec_config_run; try done. by apply codec_fields_msk.
  - simpl. by f_equal.
  - done.
  - intros g w [[= -> ->]|Hg]%elem_of_cons; [|by apply Hget].
    rewrite Hoth by done. by apply field_get_put.
  - intros g Hg Hni. rewrite fmap_cons, not_elem_of_cons in Hni. simpl in Hni. destruct Hni.
    rewrite Hoth by done. by apply field_get_put_ne.
Qed.

(** One after the other. *)
Lemma sets_fields_app m k fvs gvs :
  (forall f, f ∈ fvs.*1 -> f ∈ codec_fields /\ f ∉ gvs.*1) -> (forall g, g ∈ gvs.*1 -> g ∉ fvs.*1) ->
  sets_fields m fvs -> sets_fields k gvs -> sets_fields (or_nack m k) (fvs ++ gvs).
Proof.
  intros Hf Hg Hm Hk s Hs. destruct (Hm s Hs) as (ws1 & s1 & R1 & L1 & K1 & G1 & O1).
  destruct (Hk s1 K1) as (ws2 & s2 & R2 & L2 & K2 & G2 & O2). exists (ws1 ++ ws2), s2. split_and!.
  - by apply (i2c_run_or_nack m k ws1 ws2 s s1 s2).
  - rewrite !length_app. lia.
  - done.
  - intros f v [Hin|Hin]%elem_of_app; [|by apply G2].
    assert (Hin1 : f ∈ fvs.*1) by (apply list_elem_of_fmap; by exists (f, v)).
    destruct (Hf f Hin1). rewrite O2 by done. by apply G1.
  - intros g Hin Hn. rewrite fmap_app, not_elem_of_app in Hn. destruct Hn. by rewrite O2, O1.
Qed.

Lemma codec_dac_sets :
  sets_fields codec_dac_activate [(CODEC_DACPD, 0); (CODEC_DAC_SEL, 1); (CODEC_DAC_MU, 0)] /\
  sets_fields codec_dac_inactivate [(CODEC_DAC_MU, 1); (CODEC_DAC_SEL, 0); (CODEC_DACPD, 1)].
Proof.
  assert (forall f, bool_decide (f ∈ codec_fields) = true -> f ∈ codec_fields) as Hin
    by (intros f Hf; by apply bool_decide_eq_true in Hf).
  assert (forall (f : codec_field) (l : list codec_field), bool_decide (f ∈ l) = false -> f ∉ l) as Hni
    by (intros f l Hf; by apply bool_decide_eq_false in Hf).
  split; repeat (apply sets_fields_cons; [by apply Hin|done|by apply Hni|]);
    apply sets_fields_nil.
Qed.

(** Activating the DAC path powers the DAC, selects it and unmutes it;
    inactivating it mutes, deselects and powers it down, in the reverse
    order.  Each is three words on the bus and touches no other field. *)
Theorem codec_dac_path :
  sets_fields codec_dac_activate [(CODEC_DACPD, 0); (CODEC_DAC_SEL, 1); (CODEC_DAC_MU, 0)] /\
  sets_fields codec_dac_inactivate [(CODEC_DAC_MU, 1); (CODEC_DAC_SEL, 0); (CODEC_DACPD, 1)].
Proof. exact codec_dac_sets. Qed.
End codec_live.

Lemma codec_config_reg_updates_field_witness :
  exists w, let s' := zset codec_defaults 8 w in
    i2c_run (D := i2c_dev CORTEX_MM_SL_BASE 2) (config_field CODEC_SR 6) [w] codec_defaults s' /\
    field_get CODEC_SR s' = 6.
Proof.
  destruct (codec_config_reg_updates_field (D := i2c_dev CORTEX_MM_SL_BASE 2) CODEC_SR 6 codec_defaults)
    as (w & Hr & _ & Hg & _).
  - apply list_elem_of_In. vm_compute. tauto.
  - done.
  - by apply shadow_okb_ok.
  - exists w. split; [exact Hr|exact Hg].
Defined.

