(* ===== verification/Wav.v ===== *)
(** * WAV headers: the header part of ledos.[ch]

    The parser block delivers the header as half-words, which the firmware
    stores over a [WavHdrType]: the structure is modelled as its memory image,
    24 half-words on this little-endian machine, with the compiler's padding
    after [Extra]. *)

From S2P Require Import Prelude Hw Types Printf Prsr.

(** ** Byte order *)

Definition byte_swap16 (data : Z) : Z :=
  u16 (Z.shiftr (Z.land data 0xff00) 8 + Z.shiftl (Z.land data 0xff) 8).

Definition byte_swap32 (data : Z) : Z :=
  u32 (u32 (u32 (Z.shiftr (Z.land data 0xff000000) 24 + Z.shiftr (Z.land data 0xff0000) 8)
            + u32 (Z.shiftl (Z.land data 0xff00) 8))
       + u32 (Z.shiftl (Z.land data 0xff) 24)).

(** Byte [k] of a word. *)
Definition byte_of (x k : Z) : Z := x / 2 ^ (8 * k) mod 256.

(** ** The structure *)

(** Offsets, in half-words, of the members of [WavHdrType]. *)
Definition ChunkID : Z := 0.
Definition ChunkSize : Z := 2.
Definition Format : Z := 4.
Definition Subchunk1ID : Z := 6.
Definition Subchunk1Size : Z := 8.
Definition AudioFormat : Z := 10.
Definition NumChannels : Z := 11.
Definition SampleRate : Z := 12.
Definition ByteRate : Z := 14.
Definition BlockAlign : Z := 16.
Definition BitsPerSample : Z := 17.
Definition Extra : Z := 18.
Definition Subchunk2ID : Z := 20.
Definition Subchunk2Size : Z := 22.

(** [sizeof(WavHdrType)], in half-words. *)
Definition WavHdr_size : Z := 24.

Definition h16 (h : list Z) (k : Z) : Z := default 0 (zget h k).
Definition h32 (h : list Z) (k : Z) : Z := h16 h k + Z.shiftl (h16 h (k + 1)) 16.
Definition set16 (k v : Z) (h : list Z) : list Z := zset h k (u16 v).
Definition set32 (k v : Z) (h : list Z) : list Z :=
  zset (zset h k (u16 v)) (k + 1) (u16 (Z.shiftr v 16)).

(** The bytes of the structure, in memory order. *)
Definition hdr_bytes (h : list Z) : list Z :=
  mbind (fun w => [Z.land w 0xff; Z.shiftr w 8]) h.

(** The C string at byte [off] of the structure: [None] when no terminator
    follows inside it. *)
Fixpoint cstr (l : list Z) : option (list Z) :=
  match l with
  | [] => None
  | c :: l => if c =? 0 then Some [] else cons c <$> cstr l
  end.

Definition cstr_at (h : list Z) (k : Z) : option (list Z) :=
  cstr (drop (Z.to_nat (2 * k)) (hdr_bytes h)).

(** ** Operations *)

Definition chk_wav_hdr (h : list Z) : Z :=
  let error := 0 in
  let error := if negb (h32 h ChunkID =? 0x52494646) then 1 else error in
  let error := if negb (h32 h Format =? 0x57415645) then 1 else error in
  let error := if negb (h32 h Subchunk1ID =? 0x666d7420) then 1 else error in
  let error := if negb (h32 h Subchunk1Size =? 16) && negb (h32 h Subchunk1Size =? 18) then 1 else error in
  let error := if negb (h16 h AudioFormat =? 0x1) then 1 else error in
  let error := if negb (h16 h NumChannels =? 1) && negb (h16 h NumChannels =? 2) then 1 else error in
  let error := if negb (h16 h BitsPerSample =? 16) && negb (h16 h BitsPerSample =? 32) then 1 else error in
  let error := if negb (h32 h Subchunk2ID =? 0x64617461) then 1 else error in
  error.

(** The byte swaps and the realignment of [wave_parse], in its order. *)
Definition wav_fix (h : list Z) : list Z :=
  let swap32 k h := set32 k (byte_swap32 (h32 h k)) h in
  let swap16 k h := set16 k (byte_swap16 (h16 h k)) h in
  let h := swap32 ChunkSize h in
  let h := swap32 Subchunk1Size h in
  let h := swap16 AudioFormat h in
  let h := swap16 NumChannels h in
  let h := swap32 SampleRate h in
  let h := swap32 ByteRate h in
  let h := swap16 BlockAlign h in
  let h := swap16 BitsPerSample h in
  let h :=
    if h32 h Subchunk2Size =? 0x10 then
      let h := set32 Subchunk2Size (u32 (Z.shiftr (Z.land (h32 h Subchunk2Size) 0xffff0000) 16
                 + Z.shiftl (Z.land (h32 h Subchunk2ID) 0xffff) 16)) h in
      set32 Subchunk2ID (u32 (Z.shiftr (Z.land (h32 h Subchunk2ID) 0xffff0000) 16
                 + Z.shiftl (Z.land (h16 h Extra) 0xffff) 16)) h
    else h in
  swap32 Subchunk2Size h.

Section driver.
Context {D St : Type} `{Device D}.
Local Abbreviation M := (M D St).

(** One line: the member printed as the string at its address. *)
Definition print_member (h : list Z) (p : string * Z) : M unit :=
  match cstr_at h p.2 with
  | Some s => alt_printf (p.1 +:+ tab +:+ "-" +:+ tab +:+ "%s" +:+ crlf) [PStr s]
  | None => ub
  end.

Definition printf_wave_hdr (h : list Z) : M unit :=
  mfor (print_member h)
    [("ChunkID"%string, ChunkID); ("ChunkSize"%string, ChunkSize); ("Format"%string, Format);
     ("Subchunk1ID"%string, Subchunk1ID); ("Subchunk1Size"%string, Subchunk1Size);
     ("AudioFormat"%string, AudioFormat); ("NumChannels"%string, NumChannels);
     ("SampleRate"%string, SampleRate); ("ByteRate"%string, ByteRate);
     ("BlockAlign"%string, BlockAlign); ("BitsPerSample"%string, BitsPerSample);
     ("Extra"%string, Extra); ("Subchunk2ID"%string, Subchunk2ID);
     ("Subchunk2Size"%string, Subchunk2Size)].

(** The header the caller passes is updated in place: the pair is the
    structure afterwards and the returned code. *)
Definition wave_parse (hdr : list Z) : M (list Z * Z) :=
  hdr ← get_wav_hdr_frm_prsr CORTEX_MM_SL_BASE hdr;
  let hdr := wav_fix hdr in
  printf_wave_hdr hdr;;
  mret (hdr, chk_wav_hdr hdr).
End driver.

(** ** Byte order, proved *)

Lemma land_byte x k :
  0 <= k -> Z.land x (Z.shiftl 255 (8 * k)) = Z.shiftl (byte_of x k) (8 * k).
Proof.
  intros Hk. unfold byte_of. change 256 with (2 ^ 8).
  rewrite <- Z.shiftr_div_pow2, <- Z.land_ones by lia. change (Z.ones 8) with 255.
  rewrite Z.shiftl_land. apply Z.bits_inj'. intros i Hi. rewrite !Z.land_spec.
  destruct (Z_lt_le_dec i (8 * k)).
  - rewrite (Z.shiftl_spec_low 255) by lia. by rewrite !andb_false_r.
  - rewrite (Z.shiftl_spec _ _ i), (Z.shiftl_spec (Z.shiftr x _)), Z.shiftr_spec by lia. f_equal. f_equal. lia.
Qed.

Lemma byte_range x k : 0 <= byte_of x k < 256.
Proof. apply Z.mod_pos_bound. lia. Qed.

Lemma byte_swap16_bytes x : byte_swap16 x = byte_of x 1 + 256 * byte_of x 0.
Proof.
  unfold byte_swap16. change 0xff00 with (Z.shiftl 255 (8 * 1)). change 0xff with (Z.shiftl 255 (8 * 0)).
  rewrite !land_byte by lia. rewrite Z.shiftr_shiftl_l, Z.shiftl_shiftl by lia.
  rewrite !Z.shiftl_mul_pow2 by lia. change (2 ^ (8 * 1 - 8)) with 1. change (2 ^ (8 * 0 + 8)) with 256.
  pose proof (byte_range x 0). pose proof (byte_range x 1).
  rewrite wrap_small; [lia|]. unfold fits. change (2 ^ 16) with 65536. lia.
Qed.

Lemma byte_swap32_bytes x :
  byte_swap32 x = byte_of x 3 + 2 ^ 8 * byte_of x 2 + 2 ^ 16 * byte_of x 1 + 2 ^ 24 * byte_of x 0.
Proof.
  unfold byte_swap32.
  change 0xff000000 with (Z.shiftl 255 (8 * 3)). change 0xff0000 with (Z.shiftl 255 (8 * 2)).
  change 0xff00 with (Z.shiftl 255 (8 * 1)). change 0xff with (Z.shiftl 255 (8 * 0)).
  rewrite !land_byte by lia. rewrite !Z.shiftr_shiftl_l, !Z.shiftl_shiftl by lia.
  rewrite !Z.shiftl_mul_pow2 by lia.
  change (2 ^ (8 * 3 - 24)) with 1. change (2 ^ (8 * 2 - 8)) with (2 ^ 8).
  change (2 ^ (8 * 1 + 8)) with (2 ^ 16). change (2 ^ (8 * 0 + 24)) with (2 ^ 24).
  pose proof (byte_range x 0). pose proof (byte_range x 1).
  pose proof (byte_range x 2). pose proof (byte_range x 3).
  change (2 ^ 8) with 256. change (2 ^ 16) with 65536. change (2 ^ 24) with 16777216.
  assert (forall z, 0 <= z < 4294967296 -> u32 z = z) as Hu by (intros; by apply wrap_small).
  rewrite (Hu (byte_of x 3 * 1 + byte_of x 2 * 256)), (Hu (byte_of x 1 * 65536)),
    (Hu (byte_of x 0 * 16777216)) by lia.
  rewrite (Hu (byte_of x 3 * 1 + byte_of x 2 * 256 + byte_of x 1 * 65536)), Hu by lia. lia.
Qed.

Lemma bytes_of_word (a b c d : Z) :
  0 <= a < 256 -> 0 <= b < 256 -> 0 <= c < 256 -> 0 <= d < 256 ->
  let x := a + 2 ^ 8 * b + 2 ^ 16 * c + 2 ^ 24 * d in
  byte_of x 0 = a /\ byte_of x 1 = b /\ byte_of x 2 = c /\ byte_of x 3 = d.
Proof.
  intros Ha Hb Hc Hd x. unfold byte_of, x.
  change (2 ^ (8 * 0)) with 1. change (2 ^ (8 * 1)) with 256. change (2 ^ (8 * 2)) with 65536.
  change (2 ^ (8 * 3)) with 16777216. change (2 ^ 8) with 256. change (2 ^ 16) with 65536.
  change (2 ^ 24) with 16777216.
  split_and!; Z.div_mod_to_equations; lia.
Qed.

Lemma word_bytes x :
  fits 32 x -> x = byte_of x 0 + 2 ^ 8 * byte_of x 1 + 2 ^ 16 * byte_of x 2 + 2 ^ 24 * byte_of x 3.
Proof.
  unfold fits, byte_of. intros Hx.
  change (2 ^ (8 * 0)) with 1. change (2 ^ (8 * 1)) with 256. change (2 ^ (8 * 2)) with 65536.
  change (2 ^ (8 * 3)) with 16777216. change (2 ^ 8) with 256. change (2 ^ 16) with 65536.
  change (2 ^ 24) with 16777216. change (2 ^ 32) with 4294967296 in Hx.
  Z.div_mod_to_equations. lia.
Qed.

Lemma byte_swap32_fits x : fits 32 (byte_swap32 x).
Proof. apply wrap_fits. lia. Qed.

Lemma byte_swap16_fits x : fits 16 (byte_swap16 x).
Proof. apply wrap_fits. lia. Qed.

Lemma swap32_byte_of x :
  byte_of (byte_swap32 x) 0 = byte_of x 3 /\ byte_of (byte_swap32 x) 1 = byte_of x 2 /\
  byte_of (byte_swap32 x) 2 = byte_of x 1 /\ byte_of (byte_swap32 x) 3 = byte_of x 0.
Proof. rewrite byte_swap32_bytes. apply bytes_of_word; apply byte_range. Qed.

Lemma swap16_byte_of x :
  byte_of (byte_swap16 x) 0 = byte_of x 1 /\ byte_of (byte_swap16 x) 1 = byte_of x 0.
Proof.
  pose proof (bytes_of_word (byte_of x 1) (byte_of x 0) 0 0) as Hb.
  rewrite byte_swap16_bytes. cbv zeta in Hb. rewrite !Z.mul_0_r, !Z.add_0_r in Hb.
  change (2 ^ 8) with 256 in Hb.
  destruct Hb as (-> & -> & _); auto using byte_range with lia.
Qed.

Lemma byte_swap_invol :
  (forall x, fits 32 x -> byte_swap32 (byte_swap32 x) = x) /\
  (forall x, fits 16 x -> byte_swap16 (byte_swap16 x) = x).
Proof.
  split; intros x Hx.
  - destruct (swap32_byte_of x) as (H0 & H1 & H2 & H3).
    rewrite (byte_swap32_bytes (byte_swap32 x)), H0, H1, H2, H3. rewrite <- word_bytes; done.
  - destruct (swap16_byte_of x) as (H0 & H1). rewrite (byte_swap16_bytes (byte_swap16 x)), H0, H1.
    unfold byte_of, fits in *. change (2 ^ (8 * 0)) with 1. change (2 ^ (8 * 1)) with 256.
    change (2 ^ 16) with 65536 in Hx. Z.div_mod_to_equations. lia.
Qed.

(** The swaps reverse the bytes of a word: byte [k] of the result is byte
    [3 - k] (or [1 - k]) of the argument, and swapping twice restores every
    32-bit (or 16-bit) word. *)
Theorem byte_swap_reverses :
  (forall x k, 0 <= k < 4 -> byte_of (byte_swap32 x) k = byte_of x (3 - k)) /\
  (forall x k, 0 <= k < 2 -> byte_of (byte_swap16 x) k = byte_of x (1 - k)) /\
  (forall x, fits 32 x -> byte_swap32 (byte_swap32 x) = x) /\
  (forall x, fits 16 x -> byte_swap16 (byte_swap16 x) = x).
Proof.
  split_and!; [| |apply byte_swap_invol..].
  - intros x k Hk. destruct (swap32_byte_of x) as (? & ? & ? & ?).
    assert (k = 0 \/ k = 1 \/ k = 2 \/ k = 3) as [-> | [-> | [-> | ->]]] by lia; done.
  - intros x k Hk. destruct (swap16_byte_of x) as (? & ?).
    assert (k = 0 \/ k = 1) as [-> | ->] by lia; done.
Qed.

(** ** Members after an update *)

Lemma h16_set16_eq h k v : 0 <= k < zlen h -> h16 (set16 k v h) k = u16 v.
Proof. intros. unfold h16, set16. by rewrite zget_zset_eq. Qed.

Lemma h16_set16_ne h j k v : j <> k -> h16 (set16 k v h) j = h16 h j.
Proof. intros. unfold h16, set16. by rewrite zget_zset_ne by done. Qed.

Lemma h32_set16_ne h j k v : j <> k -> j + 1 <> k -> h32 (set16 k v h) j = h32 h j.
Proof. intros. unfold h32. by rewrite !h16_set16_ne by done. Qed.

Lemma h16_set32_ne h j k v : j <> k -> j <> k + 1 -> h16 (set32 k v h) j = h16 h j.
Proof. intros. unfold h16, set32. by rewrite !zget_zset_ne by done. Qed.

Lemma h32_set32_ne h j k v : j <> k -> j <> k + 1 -> j + 1 <> k -> h32 (set32 k v h) j = h32 h j.
Proof. intros. unfold h32. rewrite !h16_set32_ne by lia. done. Qed.

Lemma h32_set32_eq h k v : 0 <= k -> k + 1 < zlen h -> fits 32 v -> h32 (set32 k v h) k = v.
Proof.
  intros Hk Hl Hv. unfold h32, h16, set32. rewrite zget_zset_ne by lia.
  rewrite zget_zset_eq by lia. rewrite zget_zset_eq by (rewrite zlen_zset; lia). simpl.
  unfold fits in Hv. unfold wrap. rewrite Z.shiftr_div_pow2, Z.shiftl_mul_pow2 by lia.
  change (2 ^ 16) with 65536. change (2 ^ 32) with 4294967296 in Hv.
  Z.div_mod_to_equations. lia.
Qed.

Lemma zlen_set16 h k v : zlen (set16 k v h) = zlen h.
Proof. unfold set16. by rewrite zlen_zset. Qed.

Lemma zlen_set32 h k v : zlen (set32 k v h) = zlen h.
Proof. unfold set32. by rewrite !zlen_zset. Qed.

Create Rewrite HintDb wav.
#[export] Hint Rewrite zlen_set16 zlen_set32 : wav.
#[export] Hint Rewrite h16_set16_ne h32_set16_ne h16_set32_ne h32_set32_ne using done : wav.

(** ** Acceptance *)

(** The half-words, as the parser block delivers them, of a header the
    firmware accepts; none of the members used is followed by the
    realignment. *)
Definition riff_words (w : Z -> Z) : Prop :=
  w 0 = 0x4646 /\ w 1 = 0x5249 /\ w 4 = 0x5645 /\ w 5 = 0x5741 /\ w 6 = 0x7420 /\ w 7 = 0x666d /\
  (w 8 = 0 /\ (w 9 = 0x1000 \/ w 9 = 0x1200)) /\
  w 10 = 0x0100 /\ (w 11 = 0x0100 \/ w 11 = 0x0200) /\ (w 17 = 0x1000 \/ w 17 = 0x2000) /\
  w 20 = 0x7461 /\ w 21 = 0x6461.

(** The structure holds half-words. *)
Definition hdr_ok (h : list Z) : Prop := zlen h = WavHdr_size /\ Forall (fits 16) h.

Lemma h16_fits h k : hdr_ok h -> fits 16 (h16 h k).
Proof.
  intros [_ Hf]. unfold h16, zget. case_z; [|done].
  destruct (h !! Z.to_nat k) eqn:E; [|done]. by eapply Forall_lookup_1.
Qed.

Lemma h32_fits h k : hdr_ok h -> fits 32 (h32 h k).
Proof.
  intros Hh. pose proof (h16_fits h k Hh). pose proof (h16_fits h (k + 1) Hh).
  unfold h32, fits in *. rewrite Z.shiftl_mul_pow2 by lia.
  change (2 ^ 16) with 65536 in *. change (2 ^ 32) with 4294967296. lia.
Qed.

Lemma h32_eq h k c :
  hdr_ok h -> h32 h k = c <-> h16 h k = c mod 65536 /\ h16 h (k + 1) = c / 65536.
Proof.
  intros Hh. pose proof (h16_fits h k Hh). pose proof (h16_fits h (k + 1) Hh).
  unfold h32, fits in *. rewrite Z.shiftl_mul_pow2 by lia. change (2 ^ 16) with 65536 in *.
  split; [intros <-|intros [H1 H2]]; Z.div_mod_to_equations; lia.
Qed.

Lemma swap32_eq x c : fits 32 x -> fits 32 c -> byte_swap32 x = c <-> x = byte_swap32 c.
Proof.
  intros Hx Hc. destruct byte_swap_invol as [Hi _].
  split; [intros <-|intros ->]; by rewrite Hi.
Qed.

Lemma swap16_eq x c : fits 16 x -> fits 16 c -> byte_swap16 x = c <-> x = byte_swap16 c.
Proof.
  intros Hx Hc. destruct byte_swap_invol as [_ Hi].
  split; [intros <-|intros ->]; by rewrite Hi.
Qed.

(** What [wav_fix] leaves of each member [chk_wav_hdr] looks at. *)
Lemma wav_fix_members h :
  hdr_ok h -> h32 h Subchunk2Size <> 0x10 ->
  let h' := wav_fix h in
  h32 h' ChunkID = h32 h ChunkID /\ h32 h' Format = h32 h Format /\
  h32 h' Subchunk1ID = h32 h Subchunk1ID /\ h32 h' Subchunk2ID = h32 h Subchunk2ID /\
  h32 h' Subchunk1Size = byte_swap32 (h32 h Subchunk1Size) /\
  h16 h' AudioFormat = byte_swap16 (h16 h AudioFormat) /\
  h16 h' NumChannels = byte_swap16 (h16 h NumChannels) /\
  h16 h' BitsPerSample = byte_swap16 (h16 h BitsPerSample).
Proof.
  intros [Hl Hf] Hne. unfold wav_fix. cbv zeta.
  match goal with |- context [if ?b =? 0x10 then _ else _] =>
    replace (b =? 0x10) with false
      by (symmetry; apply Z.eqb_neq; by autorewrite with wav) end.
  pose proof (wrap_small 16 _ (byte_swap16_fits (h16 h AudioFormat))) as H1.
  pose proof (wrap_small 16 _ (byte_swap16_fits (h16 h NumChannels))) as H2.
  pose proof (wrap_small 16 _ (byte_swap16_fits (h16 h BitsPerSample))) as H3.
  unfold WavHdr_size in Hl. autorewrite with wav.
  rewrite h32_set32_eq; [|done|by autorewrite with wav; rewrite Hl|apply byte_swap32_fits].
  rewrite !h16_set16_eq; try (autorewrite with wav; rewrite Hl; done).
  autorewrite with wav. done.
Qed.

(** [if (b) error = 1;] keeps the code at 0 only when [b] fails. *)
Lemma err_if (b : bool) (e : Z) : (if b then 1 else e) = 0 <-> b = false /\ e = 0.
Proof. destruct b; [split; [done|intros [? _]; done]|tauto]. Qed.


(** ** Parsing *)

Lemma cstr_app l1 l2 : is_Some (cstr l2) -> is_Some (cstr (l1 ++ l2)).
Proof.
  intros H2. induction l1 as [|c l1 IH]; [done|]. simpl. case_z; [by eexists|].
  destruct IH as [s ->]. by eexists.
Qed.

(** A terminator after a later member serves the earlier ones too. *)
Lemma cstr_at_mono h j k : 0 <= j <= k -> is_Some (cstr_at h k) -> is_Some (cstr_at h j).
Proof.
  intros Hjk. unfold cstr_at.
  replace (Z.to_nat (2 * k)) with (Z.to_nat (2 * j) + Z.to_nat (2 * (k - j)))%nat by lia.
  rewrite <- drop_drop. generalize (drop (Z.to_nat (2 * j)) (hdr_bytes h)). intros l Hl.
  rewrite <- (take_drop (Z.to_nat (2 * (k - j))) l). by apply cstr_app.
Qed.

Section parse.
Context {D St : Type} `{Device D}.

Lemma print_members_ok h (ps : list (string * Z)) :
  Forall (fun p => is_Some (cstr_at h p.2) /\
                   forall s, is_Some (formatted (p.1 +:+ tab +:+ "-" +:+ tab +:+ "%s" +:+ crlf) [PStr s])) ps ->
  exists l, prints (D:=D) (St:=St) (mfor (print_member h) ps) l.
Proof.
  induction 1 as [|p ps [[s Hs] Hp] Hps [l Hl]]; [by exists []|].
  destruct (Hp s) as [l1 Hl1]. exists (l1 ++ l). simpl. apply prints_bind; [|done].
  unfold print_member. rewrite Hs. by apply alt_printf_prints.
Qed.

Lemma printf_wave_hdr_ok h :
  is_Some (cstr_at h Subchunk2Size) -> exists l, prints (D:=D) (St:=St) (printf_wave_hdr h) l.
Proof.
  intros Hh. apply print_members_ok.
  repeat (constructor; [split;
    [refine (cstr_at_mono h _ Subchunk2Size _ Hh); done|intros s; by eexists]|]).
  constructor.
Qed.

Lemma mfor_ub {B} (f : B -> M D St unit) l b n d s :
  b ∈ l -> (forall b d s, o_res (f b n d s) <> Diverge) ->
  (forall d s, o_res (f b n d s) = Ub) -> o_res (mfor f l n d s) = Ub.
Proof.
  intros Hb Hf Hu. revert d s. induction l as [|c l IH]; [by apply elem_of_nil in Hb|].
  intros d s. simpl. unfold mbind, M_bind.
  specialize (Hf c d s). specialize (Hu d s) as Hu'.
  destruct (f c n d s) as [[[]| |] d1 s1 t1] eqn:E; [|done|done].
  apply elem_of_cons in Hb as [->|Hb]; [by rewrite E in Hu'|]. by apply IH.
Qed.

Lemma print_member_answers h p n d (s : St) : o_res (print_member (D:=D) h p n d s) <> Diverge.
Proof.
  unfold print_member. destruct (cstr_at h p.2) as [x|]; [|done].
  pose proof (printf_answers (D:=D) (St:=St)
    (p.1 +:+ tab +:+ "-" +:+ tab +:+ "%s" +:+ crlf) [PStr x] n d s). done.
Qed.

(** The end of [wave_parse], on the structure [h]. *)
Lemma wave_verdict h n d (s : St) :
  let m := printf_wave_hdr (D:=D) (St:=St) h;; mret (h, chk_wav_hdr h) in
  match cstr_at h Subchunk2Size with
  | Some _ => exists d2 t2, m n d s = Out (Ok (h, chk_wav_hdr h)) d2 s t2
  | None => o_res (m n d s) = Ub
  end.
Proof.
  intros m. unfold m. destruct (cstr_at h Subchunk2Size) eqn:E.
  - destruct (printf_wave_hdr_ok h) as [txt Hpr]; [by eexists|].
    eexists _, _. eapply bind_ok; [apply Hpr|reflexivity].
  - assert (o_res (printf_wave_hdr (D:=D) (St:=St) h n d s) = Ub) as Hub.
    { unfold printf_wave_hdr.
      apply (mfor_ub _ _ ("Subchunk2Size"%string, Subchunk2Size)).
      - repeat constructor.
      - intros. apply print_member_answers.
      - intros. unfold print_member. cbn [snd]. by rewrite E. }
    unfold mbind, M_bind. destruct (printf_wave_hdr h n d s) as [[]]; done.
Qed.

Context `{!PrsrPort D CORTEX_MM_SL_BASE}.

End parse.

(** A header the parser delivers at once, its data chunk of 64 kB. *)
Definition riff_ram (i : Z) : Z :=
  default 0 ([0x4646; 0x5249; 0x0100; 0x2400; 0x5645; 0x5741; 0x7420; 0x666d; 0; 0x1000; 0x0100; 0x0200;
              0; 0x44ac; 0x0200; 0x10b1; 0x0400; 0x1000; 0; 0; 0x7461; 0x6461; 0x0100] !! Z.to_nat i).


(** The parser port at the cortex address. *)
Record wav_dev := WavDev { wd_addr : Z; wd_ram : Z -> Z }.

#[export] Instance wav_dev_device : Device wav_dev := {
  dev_read a d :=
    (if a =? u32 (CORTEX_MM_SL_BASE + PRSR_HDR_RAM_RD_DATA_REG_ADDR) then wd_ram d (wd_addr d) else 48, d);
  dev_write a x d := WavDev x (wd_ram d);
  dev_sleep _ d := d;
  dev_putc _ d := d;
  dev_getc d := (-1, d)
}.

#[export] Program Instance wav_dev_port : PrsrPort wav_dev CORTEX_MM_SL_BASE := {
  prsr_ram := wd_ram;
  prsr_rd_addr := wd_addr
}.
Next Obligation. done. Qed.
Next Obligation. done. Qed.

