(* ===== verification/Ledos.v ===== *)
(** * Preparing the cortex for a file: ledos.c

    Once the header of a WAV file is parsed, the codec is switched off the bus,
    set to the file's sample width and rate, and the audio and analyser blocks
    are set up for it. *)

From S2P Require Import Prelude Hw Types Printf I2c Dac Acortex Fgyrus Codec Wav.

(** ** Definitions *)

Definition update_aud_bytes_read (aud_bytes_read p : Z) : Z := u32 (aud_bytes_read + p).

(** [sr_val]: the enumeration value of the rate, an index. *)
Definition sr_val (rate : Z) : FS_T :=
  if rate =? 8000 then FS_8KHZ
  else if rate =? 32000 then FS_32KHZ
  else if rate =? 44100 then FS_44KHZ
  else if rate =? 48000 then FS_48KHZ
  else if rate =? 88200 then FS_88KHZ
  else FS_96KHZ.

Section driver.
Context {D : Type} `{Device D}.
Local Abbreviation M := (M D (list Z)).

(** The codec's part. *)
Definition prep_codec (hdr : list Z) : M I2C_RES :=
  or_nack codec_dsp_if_inactivate (
  or_nack codec_dac_inactivate (
  or_nack (if h16 hdr BitsPerSample =? 16 then codec_iwl_update (CODEC_IWL_val IWL_16)
           else codec_iwl_update (CODEC_IWL_val IWL_32)) (
  or_nack (config_field CODEC_SR (FS_T_val (sr_val (h32 hdr SampleRate)))) (
  mret I2C_OK)))).

(** The blocks' part. *)
Definition prep_blocks (hdr : list Z) : M I2C_RES :=
  (if (h32 hdr SampleRate =? 44100) || (h32 hdr SampleRate =? 88200)
   then update_mclk CORTEX_MM_SL_BASE (MCLK_SEL_VAL_val CLK_11MHZ)
   else update_mclk CORTEX_MM_SL_BASE (MCLK_SEL_VAL_val CLK_12MHZ));;
  enable_fgyrus CORTEX_MM_SL_BASE 0;;
  (if 1 <? h16 hdr NumChannels then enable_fgyrus CORTEX_MM_SL_BASE 1 else mret tt);;
  enable_dac_drvr CORTEX_MM_SL_BASE;;
  mret I2C_OK.

Definition prep_cortex (hdr : list Z) : M I2C_RES := or_nack (prep_codec hdr) (prep_blocks hdr).
End driver.

(** ** What it programs *)

(** The fields of the codec and their values. *)
Definition prep_fields (hdr : list Z) : list (codec_field * Z) :=
  [ (CODEC_ACTIVE, 0); (CODEC_DAC_MU, 1); (CODEC_DAC_SEL, 0); (CODEC_DACPD, 1);
    (CODEC_IWL, CODEC_IWL_val (if h16 hdr BitsPerSample =? 16 then IWL_16 else IWL_32));
    (CODEC_SR, FS_T_val (sr_val (h32 hdr SampleRate))) ].

(** The crystal selected: the selector constants taken for rates. *)
Definition prep_mclk (hdr : list Z) : MCLK_SEL_VAL :=
  mclk_for (if (h32 hdr SampleRate =? 44100) || (h32 hdr SampleRate =? 88200) then FS_48KHZ else FS_44KHZ).

Section contract.
Context {D : Type} `{Device D}.
Let base := CORTEX_MM_SL_BASE.
Context `{!RegFile D (dac_regs base) (fun a => a = u32 (base + ACORTEX_RESET_ADDR)) (dac_keep base)}.

Lemma prep_codec_sets hdr : sets_fields (D := D) (prep_codec hdr) (prep_fields hdr).
Proof.
  assert (forall f, bool_decide (f ∈ codec_fields) = true -> f ∈ codec_fields) as Hin
    by (intros f Hf; by apply bool_decide_eq_true in Hf).
  assert (forall (f : codec_field) (l : list codec_field), bool_decide (f ∈ l) = false -> f ∉ l) as Hni
    by (intros f l Hf; by apply bool_decide_eq_false in Hf).
  unfold prep_codec, prep_fields.
  apply sets_fields_cons; [by apply Hin|done|by apply Hni|].
  apply (sets_fields_app _ _ [(CODEC_DAC_MU, 1); (CODEC_DAC_SEL, 0); (CODEC_DACPD, 1)]);
    [|intros g Hg; set_solver|apply codec_dac_sets|].
  - intros f Hf. rewrite !fmap_cons, fmap_nil, !elem_of_cons in Hf.
    destruct Hf as [->|[->|[->|Hf]]]; [| | |by apply elem_of_nil in Hf]; (split; [by apply Hin|by apply Hni]).
  - destruct (h16 hdr BitsPerSample =? 16); (apply sets_fields_cons; [by apply Hin|done|by apply Hni|]);
      (apply sets_fields_cons; [by apply Hin| |by apply Hni|apply sets_fields_nil]);
      by destruct (sr_val (h32 hdr SampleRate)).
Qed.

(** The writes that switch the analysers on. *)
Definition prep_fgyrus_writes (hdr : list Z) : list (Z * Z) :=
  (0x1000000, FGYRUS_EN_MSK) :: (if 1 <? h16 hdr NumChannels then [(0x1010000, FGYRUS_EN_MSK)] else []).

(** What the blocks' part leaves: the clock on with the crystal selected, the
    DAC driver on and its other control bits and the divider as they were. *)
Definition prepared (hdr : list Z) (d d' : D) (t : list event) : Prop :=
  reg d' (mclk_addr base) = Z.lor (MCLK_SEL_VAL_val (prep_mclk hdr)) DAC_DRVR_MCLK_EN_MSK /\
  reg d' (fs_div_addr base) = reg d (fs_div_addr base) /\
  (forall i, 0 <= i < 3 ->
     Z.testbit (reg d' (ctrl_addr base)) i = if i =? 0 then true else Z.testbit (reg d (ctrl_addr base)) i) /\
  exists m1 m2 c, writes t =
    [(mclk_addr base, 0); (mclk_addr base, m1); (mclk_addr base, m2)] ++ prep_fgyrus_writes hdr ++ [(ctrl_addr base, c)].

Lemma fgyrus_regs a v w d :
  dac_regs base a -> reg (dev_write 0x1010000 w (dev_write 0x1000000 v d)) a = reg d a /\
  reg (dev_write 0x1000000 v d) a = reg d a.
Proof.
  intros Ha. assert (a <> 0x1000000 /\ a <> 0x1010000) as [H1 H2].
  { destruct Ha as [->|[->| ->]]; done. }
  rewrite !reg_write_ne by done. done.
Qed.

Lemma prep_blocks_run hdr n d s :
  exists d' t, prep_blocks hdr n d s = Out (Ok I2C_OK) d' s t /\ prepared hdr d d' t.
Proof.
  set (b := (h32 hdr SampleRate =? 44100) || (h32 hdr SampleRate =? 88200)).
  set (v := MCLK_SEL_VAL_val (if b then CLK_11MHZ else CLK_12MHZ)).
  set (m := MCLK_SEL_VAL_val (prep_mclk hdr)).
  assert (zget fs2mclk_lookup v = Some m) as Hm by (unfold v, m, prep_mclk; fold b; by destruct b).
  destruct (update_mclk_run base (fun a => a = u32 (base + ACORTEX_RESET_ADDR)) ltac:(by split_and!) v m n d s Hm)
    as (t1 & d1 & E1 & Rm & Rc & Rf & W1).
  set (d2 := if 1 <? h16 hdr NumChannels then dev_write 0x1010000 FGYRUS_EN_MSK (dev_write 0x1000000 FGYRUS_EN_MSK d1)
             else dev_write 0x1000000 FGYRUS_EN_MSK d1).
  assert (forall a, dac_regs base a -> reg d2 a = reg d1 a) as R2.
  { intros a Ha. unfold d2. destruct (fgyrus_regs a FGYRUS_EN_MSK FGYRUS_EN_MSK d1 Ha). by destruct (1 <? h16 hdr NumChannels). }
  destruct (enable_dac_drives base _ n d2 s) as (Er & Es & Eb).
  destruct (enable_dac_others base (fun a => a = u32 (base + ACORTEX_RESET_ADDR)) ltac:(by split_and!) n d2 s) as (Em & Ef & c & Ew).
  destruct (enable_dac_drvr base n d2 s) as [r3 d3 s3 t3] eqn:E3. cbn [o_res o_dev o_st o_tr] in *. subst r3 s3.
  exists d3. eexists. split.
  { unfold prep_blocks. fold b. eapply bind_ok; [by destruct b; exact E1|].
    eapply bind_ok; [reflexivity|]. eapply bind_ok; [|].
    { instantiate (1 := if 1 <? h16 hdr NumChannels then [EvWr 0x1010000 FGYRUS_EN_MSK] else []).
      instantiate (1 := s). instantiate (1 := d2). instantiate (1 := tt). unfold d2. by destruct (1 <? h16 hdr NumChannels). }
    eapply bind_ok; [exact E3|]. reflexivity. }
  unfold prepared. split_and!.
  - rewrite Em, R2, Rm by (unfold dac_regs; tauto). destruct (dac_keep_eq base) as [-> _].
    unfold m, prep_mclk. fold b. by destruct b.
  - rewrite Ef, R2 by (unfold dac_regs; tauto). done.
  - intros i Hi. rewrite Eb, R2 by (done || (unfold dac_regs; tauto)). by rewrite Rc.
  - do 2 eexists. exists c. rewrite !writes_app, W1, Ew. unfold prep_fgyrus_writes.
    destruct (1 <? h16 hdr NumChannels); reflexivity.
Qed.

(** The codec's part on a bus whose transactions end. *)
Lemma live_prep_codec `{!I2cMaster D base} hdr : live (St := list Z) base (prep_codec hdr).
Proof.
  unfold prep_codec, codec_dsp_if_inactivate, codec_dac_inactivate, codec_iwl_update, config_field.
  repeat lazymatch goal with
    | |- live _ (or_nack _ _) => apply live_or_nack
    | |- live _ (codec_config_reg _ _ _ _) => apply live_config
    | |- live _ (mret _) => apply live_ret
    | |- live _ (if _ then _ else _) => apply live_if
    end.
Qed.

End contract.

(** The selector constants are no rates: a file of 44.1 kHz gets the 12 MHz
    crystal, and one of 48 kHz the 11 MHz one. *)
Example prep_mclk_swapped :
  prep_mclk (set32 SampleRate 44100 (repeat 0 24)) = CLK_12MHZ /\ mclk_for FS_44KHZ = CLK_11MHZ /\
  prep_mclk (set32 SampleRate 48000 (repeat 0 24)) = CLK_11MHZ /\ mclk_for FS_48KHZ = CLK_12MHZ.
Proof. by vm_compute. Qed.

(** And the sampling-rate field gets the index of a rate instead of the codec's
    code for it. *)
Example prep_sr_index :
  FS_T_val (sr_val 44100) = 2 /\ zget fs2sr_lookup (FS_T_val (sr_val 44100)) = Some 8.
Proof. by vm_compute. Qed.

(** A stereo file of 16 bits and 44.1 kHz, on registers whose codec always
    acknowledges. *)
Definition hdr_cd : list Z :=
  set16 BitsPerSample 16 (set16 NumChannels 2 (set32 SampleRate 44100 (repeat 0 24))).

