(* ===== verification/Shell.v ===== *)
(** * The command line: shell/shell.[ch]

    Line editing, tokenising in place, command lookup and the turns of the
    shell thread.  The line buffer is a value each function receives and
    returns; a pointer into it is its offset. *)

From S2P Require Import Prelude Hw Printf.

Definition SHELL_MAX_LINE_LENGTH : Z := 64.
Definition SHELL_MAX_ARGUMENTS : nat := 4.
Definition SHELL_PROMPT : string := crlf +:+ "root@ledos>".

(** The delimiter string [" \009"]: the escape is the octal [\00] followed by
    the digit 9, so the string is one space, its terminator, and a 9 no
    string function looks at. *)
Definition delim : list Z := [32].

(** ** The C library on the buffer *)

(** [short c = (short)x]. *)
Definition s16 (x : Z) : Z := if u16 x <? 32768 then u16 x else u16 x - 65536.

(** [strspn]: [None] when the string has no terminator in the buffer. *)
Fixpoint strspn (l delim : list Z) : option nat :=
  match l with
  | [] => None
  | c :: l =>
      if c =? 0 then Some 0%nat
      else if bool_decide (c ∈ delim) then S <$> strspn l delim else Some 0%nat
  end.

(** [strpbrk], as an offset: [Some None] is the null pointer. *)
Fixpoint strpbrk (l delim : list Z) : option (option nat) :=
  match l with
  | [] => None
  | c :: l =>
      if c =? 0 then Some None
      else if bool_decide (c ∈ delim) then Some (Some 0%nat) else fmap (M := option) S <$> strpbrk l delim
  end.

(** The string at a pointer. *)
Fixpoint c_string (l : list Z) : option (list Z) :=
  match l with
  | [] => None
  | c :: l => if c =? 0 then Some [] else cons c <$> c_string l
  end.

Definition tolower (c : Z) : Z := if (65 <=? c) && (c <=? 90) then c + 32 else c.

(** [strcasecmp(a, b) == 0]. *)
Definition strcaseeq (a b : list Z) : bool := bool_decide (tolower <$> a = tolower <$> b).

(** ** Tokenising *)

(** [_strtok]: the buffer, [*saveptr] and the token it leaves. *)
Definition _strtok (buf : list Z) (str : option nat) (saveptr : option nat) :
    option (list Z * option nat * option nat) :=
  let saveptr := match str with Some p => Some p | None => saveptr end in
  match saveptr with
  | None => Some (buf, None, None)
  | Some token =>
      k ← strspn (drop token buf) delim;
      let token := (token + k)%nat in
      q ← strpbrk (drop token buf) delim;
      let '(buf, saveptr) :=
        match q with
        | Some j => (<[(token + j)%nat := 0]> buf, Some (token + j + 1)%nat)
        | None => (buf, None)
        end in
      c ← buf !! token;
      Some (buf, saveptr, if c =? 0 then None else Some token)
  end.

(** [while ((lp = _strtok(NULL, ...)) != NULL) ...]: [room] more arguments are
    accepted; the flag says the loop broke off. *)
Fixpoint shell_args (room : nat) (buf : list Z) (tokp : option nat) (args : list nat) :
    option (list Z * list nat * bool) :=
  '(buf, tokp, lp) ← _strtok buf None tokp;
  match lp with
  | None => Some (buf, args, false)
  | Some lp =>
      match room with
      | O => Some (buf, args, true)
      | S room => shell_args room buf tokp (args ++ [lp])
      end
  end.

(** The parse of a line: buffer, command, arguments, and whether there were
    too many. *)
Definition shell_parse (line : list Z) : option (list Z * option nat * list nat * bool) :=
  '(buf, tokp, cmd) ← _strtok line (Some 0%nat) None;
  '(buf, args, toomany) ← shell_args SHELL_MAX_ARGUMENTS buf tokp [];
  Some (buf, cmd, args, toomany).

Section shell.
Context {D St : Type} `{Device D}.
Local Abbreviation M := (M D St).

(** ** Line input *)

(** One key: [Some b] ends the loop with the result [b]. *)
Definition shell_key (size : Z) (line : list Z) (p : Z) : M (option bool * list Z * Z) :=
  x ← alt_getchar;
  let c := s16 x in
  if c <? 0 then mret (Some true, line, p)
  else if c =? 4 then alt_printf "^D" [];; mret (Some true, line, p)
  else if c =? 8 then
    if negb (p =? 0) then
      alt_putchar c;; alt_putchar 0x20;; alt_putchar c;; mret (None, line, p - 1)
    else mret (None, line, p)
  else if c =? 13 then
    alt_printf crlf [];; line ← aset line p 0; mret (Some false, line, p)
  else if c <? 0x20 then mret (None, line, p)
  else if p <? size - 1 then
    alt_putchar c;; line ← aset line p (u8 c); mret (None, line, p + 1)
  else mret (None, line, p).

(** At most [k] keys. *)
Fixpoint shell_keys (k : nat) (size : Z) (line : list Z) (p : Z) : M (bool * list Z) :=
  match k with
  | O => diverge
  | S k =>
      r ← shell_key size line p;
      match r with
      | (Some b, line, _) => mret (b, line)
      | (None, line, p) => shell_keys k size line p
      end
  end.

Definition shellGetLine (line : list Z) (size : Z) : M (bool * list Z) :=
  fun n => shell_keys n size line 0 n.

(** ** Commands *)

(** [ShellCommand]: a handler receives its argument strings; [argc] is their
    number.  The table's terminator is the end of the list. *)
Record ShellCommand := MkCommand { sc_name : string; sc_function : list (list Z) -> M unit }.

Definition usage (p : string) : M unit := alt_printf ("Usage: %s" +:+ crlf) [PStr (codes p)].

Definition list_commands (scp : list ShellCommand) : M unit :=
  mfor (fun c => alt_printf (tab +:+ "%s" +:+ crlf) [PStr (codes (sc_name c))]) scp.

(** [cmdexec]: [TRUE] when no command has the name. *)
Fixpoint cmdexec (scp : list ShellCommand) (name : list Z) (argv : list (list Z)) : M bool :=
  match scp with
  | [] => mret true
  | c :: scp =>
      if strcaseeq (codes (sc_name c)) name then sc_function c argv;; mret false
      else cmdexec scp name argv
  end.

(** Build time stamps of the compiler and the kernel's clock. *)
Variables (DATE TIME : string) (chTimeNow : M Z).

Definition ALT_CPU_FREQ : Z := 100000000.

Definition cmd_info (argv : list (list Z)) : M unit :=
  match argv with
  | _ :: _ => usage "info"
  | [] =>
      alt_printf ("Kernel:       %s" +:+ crlf) [PStr (codes "2.4.0")];;
      alt_printf ("Compiler:     %s" +:+ crlf) [PStr (codes "GCC")];;
      alt_printf ("Architecture: %s" +:+ crlf) [PStr (codes "Nios II")];;
      alt_printf ("Core Variant: %s" +:+ crlf) [PStr (codes "tiny")];;
      alt_printf ("Port Info:    %s" +:+ crlf) [PStr (codes "")];;
      alt_printf ("Platform:     %s" +:+ crlf) [PStr (codes "Nios II")];;
      alt_printf ("Board:        %s" +:+ crlf) [PStr (codes "Altera DE1")];;
      alt_printf ("Build time:   %s%s%s" +:+ crlf) [PStr (codes DATE); PStr (codes " - "); PStr (codes TIME)];;
      printf [Txt "CPU Clock:    "; Dec 0 ALT_CPU_FREQ; Txt ("Hz" +:+ crlf)]
  end.

Definition cmd_systime (argv : list (list Z)) : M unit :=
  match argv with
  | _ :: _ => usage "systime"
  | [] => t ← chTimeNow; printf [Dec 0 t; Txt crlf]
  end.

Definition local_commands : list ShellCommand :=
  [MkCommand "info" cmd_info; MkCommand "systime" cmd_systime].

(** ** The thread *)

(** What is done with a parsed line; [scp] is the configured table, if any. *)
Definition shell_exec (scp : option (list ShellCommand)) (cmd : list Z) (args : list (list Z)) : M unit :=
  if strcaseeq cmd (codes "exit") then
    match args with _ :: _ => usage "exit" | [] => sleep_ms 100 end
  else if strcaseeq cmd (codes "help") then
    match args with
    | _ :: _ => usage "help"
    | [] =>
        alt_printf ("Commands:" +:+ crlf +:+ tab +:+ "help" +:+ crlf +:+ tab +:+ "exit" +:+ crlf) [];;
        list_commands local_commands;;
        match scp with Some scp => list_commands scp | None => mret tt end;;
        alt_printf crlf [];;
        sleep_ms 100
    end
  else
    unknown ← (b ← cmdexec local_commands cmd args;
               if b : bool then match scp with Some scp => cmdexec scp cmd args | None => mret true end
               else mret false);
    (if unknown : bool then
       alt_printf "%s" [PStr cmd];; alt_printf (" ???" +:+ crlf) []
     else mret tt);;
    sleep_ms 100.

(** One turn of the loop; the result is the line buffer it leaves.  An
    argument list that is broken off loses the command. *)
Definition shell_turn (scp : option (list ShellCommand)) (line : list Z) : M (list Z) :=
  alt_printf SHELL_PROMPT [];;
  r ← shellGetLine line SHELL_MAX_LINE_LENGTH;
  (if (r.1 : bool) then alt_printf (crlf +:+ "logout") [] else mret tt);;
  match shell_parse r.2 with
  | None => ub
  | Some (line, cmd, args, toomany) =>
      (if (toomany : bool) then alt_printf ("Too many arguments" +:+ crlf) [] else mret tt);;
      match (if toomany then None else cmd), mapM (fun p => c_string (drop p line)) args with
      | _, None => ub
      | None, _ => sleep_ms 100
      | Some cmd, Some argv =>
          match c_string (drop cmd line) with
          | Some name => shell_exec scp name argv
          | None => ub
          end
      end;;
      mret line
  end.

Fixpoint shell_turns (k : nat) (scp : option (list ShellCommand)) (line : list Z) : M unit :=
  match k with
  | O => diverge
  | S k => line ← shell_turn scp line; shell_turns k scp line
  end.

(** The thread, which never leaves its loop; [line] is what the stack held. *)
Definition shell_thread (scp : option (list ShellCommand)) (line : list Z) : M unit :=
  fun n =>
    (alt_printf (crlf +:+ "ChibiOS/RT - LEDOS Shell" +:+ crlf) [];; shell_turns n scp line) n.
End shell.
Arguments ShellCommand : clear implicits.

(** ** What tokenising means *)

(** The pieces of a string between spaces, and the words among them. *)
Fixpoint split_sp (s : list Z) : list (list Z) :=
  match s with
  | [] => [[]]
  | c :: s =>
      match split_sp s with
      | w :: ws => if c =? 32 then [] :: w :: ws else (c :: w) :: ws
      | [] => []
      end
  end.

Definition words (s : list Z) : list (list Z) := filter (fun w => w <> []) (split_sp s).

(** Leading spaces, and the length of the leading word. *)
Fixpoint nsp (s : list Z) : nat :=
  match s with [] => 0 | c :: s => if c =? 32 then S (nsp s) else 0 end.
Fixpoint nwd (s : list Z) : nat :=
  match s with [] => 0 | c :: s => if c =? 32 then 0 else S (nwd s) end.

Lemma split_sp_cons s : exists w ws, split_sp s = w :: ws.
Proof.
  induction s as [|c s (w & ws & IH)]; simpl; [by eexists _, _|].
  rewrite IH. case_z; by eexists _, _.
Qed.

Lemma words_space s : words (32 :: s) = words s.
Proof.
  unfold words. simpl. destruct (split_sp_cons s) as (w & ws & ->).
  by rewrite filter_cons_False by naive_solver.
Qed.

Lemma words_drop_spaces s : words s = words (drop (nsp s) s).
Proof.
  induction s as [|c s IH]; [done|]. simpl. destruct (Z.eqb_spec c 32) as [->|]; [|done].
  by rewrite words_space.
Qed.

Lemma split_sp_word s :
  split_sp s = take (nwd s) s :: (if (nwd s =? length s)%nat then [] else split_sp (drop (S (nwd s)) s)).
Proof.
  induction s as [|c s IH]; [done|]. simpl split_sp. simpl nwd.
  destruct (Z.eqb_spec c 32) as [->|Hne].
  - simpl. rewrite drop_0. by destruct (split_sp_cons s) as (w & ws & ->).
  - rewrite IH. done.
Qed.

Lemma words_cons s :
  drop (nsp s) s <> [] ->
  words s = take (nwd (drop (nsp s) s)) (drop (nsp s) s)
            :: words (drop (S (nwd (drop (nsp s) s))) (drop (nsp s) s)).
Proof.
  intros Hne. rewrite words_drop_spaces. set (s' := drop (nsp s) s) in *.
  assert (exists c t, s' = c :: t /\ c <> 32) as (c & t & Hs & Hc).
  { subst s'. clear -Hne. induction s as [|c s IH]; [done|]. simpl in *.
    destruct (Z.eqb_spec c 32); [by apply IH|]. by exists c, s. }
  unfold words at 1. rewrite split_sp_word, filter_cons_True.
  - f_equal. destruct (Nat.eqb_spec (nwd s') (length s')) as [He|]; [|done].
    rewrite drop_ge by lia. done.
  - rewrite Hs. simpl. by rewrite (proj2 (Z.eqb_neq _ _) Hc).
Qed.

Lemma words_nil s : drop (nsp s) s = [] -> words s = [].
Proof. intros He. by rewrite words_drop_spaces, He. Qed.

Lemma in_delim c : bool_decide (c ∈ delim) = (c =? 32).
Proof.
  unfold delim. destruct (Z.eqb_spec c 32) as [->|Hne].
  - by apply bool_decide_eq_true, list_elem_of_here.
  - apply bool_decide_eq_false. rewrite list_elem_of_singleton. done.
Qed.

Lemma strspn_eq s r : 0 ∉ s -> strspn (s ++ 0 :: r) delim = Some (nsp s).
Proof.
  induction s as [|c s IH]; [done|]. rewrite not_elem_of_cons. intros [Hc Hs]. simpl.
  rewrite (proj2 (Z.eqb_neq c 0)), in_delim by done. case_z; [|done]. by rewrite IH.
Qed.

Lemma strpbrk_eq s r :
  0 ∉ s -> strpbrk (s ++ 0 :: r) delim = Some (if (nwd s =? length s)%nat then None else Some (nwd s)).
Proof.
  induction s as [|c s IH]; [done|]. rewrite not_elem_of_cons. intros [Hc Hs]. simpl.
  rewrite (proj2 (Z.eqb_neq c 0)), in_delim by done. case_z; [done|]. rewrite IH by done.
  simpl. by destruct (nwd s =? length s)%nat.
Qed.

Lemma c_string_eq w r : 0 ∉ w -> c_string (w ++ 0 :: r) = Some w.
Proof.
  induction w as [|c w IH]; [done|]. rewrite not_elem_of_cons. intros [Hc Hw]. simpl.
  rewrite (proj2 (Z.eqb_neq c 0)) by done. by rewrite IH.
Qed.

Lemma c_string_inv l w : c_string l = Some w -> exists r, l = w ++ 0 :: r /\ 0 ∉ w.
Proof.
  revert w. induction l as [|c l IH]; intros w; [done|]. simpl. case_z.
  - intros [= <-]. subst. exists l. split; [done|]. apply not_elem_of_nil.
  - intros (w' & Hw & ->)%fmap_Some. destruct (IH _ Hw) as (r & -> & Hn).
    exists r. split; [done|]. rewrite not_elem_of_cons. done.
Qed.

(** A string before position [q] only depends on the buffer before it. *)
Lemma c_string_stable b b' t w q :
  take q b' = take q b -> c_string (drop t b) = Some w -> (t + length w < q)%nat ->
  c_string (drop t b') = Some w.
Proof.
  intros Ht Hc Hq. destruct (c_string_inv _ _ Hc) as (r & Hd & Hn).
  assert (take (q - t) (drop t b') = take (q - t) (drop t b)) as Hd'.
  { rewrite !take_drop_commute. by replace (t + (q - t))%nat with q by lia; rewrite Ht. }
  rewrite <- (take_drop (q - t) (drop t b')), Hd', Hd.
  rewrite take_app_ge by lia. destruct (q - t - length w)%nat eqn:E; [lia|]. simpl.
  rewrite <- app_assoc. simpl. by apply c_string_eq.
Qed.

Lemma nwd_le s : (nwd s <= length s)%nat.
Proof. induction s; simpl; [lia|]. case_z; lia. Qed.

Lemma nsp_le s : (nsp s <= length s)%nat.
Proof. induction s; simpl; [lia|]. case_z; lia. Qed.

Lemma take_take_le (n m : nat) (l : list Z) : (n <= m)%nat -> take n (take m l) = take n l.
Proof. intros. rewrite take_take. f_equal. lia. Qed.

Lemma not_in_drop (x : Z) k l : x ∉ l -> x ∉ drop k l.
Proof. intros Hx Hd. apply Hx. rewrite <- (take_drop k l). apply elem_of_app. by right. Qed.

Lemma not_in_take (x : Z) k l : x ∉ l -> x ∉ take k l.
Proof. intros Hx Hd. apply Hx. rewrite <- (take_drop k l). apply elem_of_app. by left. Qed.

(** [_strtok] from position [p], where the buffer holds the string [s]. *)
Lemma strtok_none buf p s r :
  drop p buf = s ++ 0 :: r -> 0 ∉ s -> drop (nsp s) s = [] ->
  _strtok buf None (Some p) = Some (buf, None, None).
Proof.
  intros Hb Hs He. pose proof (nsp_le s). apply (f_equal length) in He as Hl.
  rewrite length_drop in Hl. simpl in Hl.
  unfold _strtok. rewrite Hb, strspn_eq by done. cbn [mbind option_bind].
  rewrite <- drop_drop, Hb, drop_app_ge by lia.
  replace (nsp s - length s)%nat with 0%nat by lia. rewrite drop_0. cbn [strpbrk Z.eqb].
  cbn [mbind option_bind].
  replace (buf !! (p + nsp s)%nat) with (Some 0); [done|].
  rewrite <- lookup_drop, Hb, lookup_app_r by lia. by replace (nsp s - length s)%nat with 0%nat by lia.
Qed.

Lemma strtok_some buf p s r :
  drop p buf = s ++ 0 :: r -> 0 ∉ s -> drop (nsp s) s <> [] ->
  let s' := drop (nsp s) s in
  let t := (p + nsp s)%nat in
  exists buf' save, _strtok buf None (Some p) = Some (buf', save, Some t) /\
    length buf' = length buf /\ take t buf' = take t buf /\
    c_string (drop t buf') = Some (take (nwd s') s') /\
    match save with
    | None => nwd s' = length s'
    | Some q => q = (t + nwd s' + 1)%nat /\ drop q buf' = drop (S (nwd s')) s' ++ 0 :: r
    end.
Proof.
  intros Hb Hs Hne s' t. pose proof (nsp_le s). pose proof (nwd_le s').
  assert (drop t buf = s' ++ 0 :: r) as Hd.
  { unfold t, s'. by rewrite <- drop_drop, Hb, drop_app_le by lia. }
  assert (0 ∉ s') as Hs' by (by apply not_in_drop).
  assert (exists c tl, s' = c :: tl /\ c <> 0 /\ nwd s' <> 0%nat) as (c & tl & Hc & Hc0 & Hn0).
  { revert Hs'. unfold s'. clear -Hne. intros Hs'. induction s as [|c s IH]; [done|]. simpl in *.
    destruct (Z.eqb_spec c 32); [by apply IH|]. exists c, s. simpl in Hs'. rewrite not_elem_of_cons in Hs'.
    simpl. zbool. split_and!; [done|intros ->; by apply (proj1 Hs')|lia]. }
  assert (length buf = t + length s' + S (length r))%nat as Hlb.
  { apply (f_equal length) in Hd as Hl. rewrite length_drop, length_app in Hl. simpl in Hl.
    rewrite Hc in Hl. simpl in Hl. rewrite Hc. simpl. lia. }
  unfold _strtok. rewrite Hb, strspn_eq by done. cbn [mbind option_bind]. fold t.
  rewrite Hd, strpbrk_eq by done. cbn [mbind option_bind].
  destruct (Nat.eqb_spec (nwd s') (length s')) as [He|He].
  - replace (buf !! t) with (Some c).
    2:{ rewrite <- (Nat.add_0_r t), <- lookup_drop, Hd, Hc. done. }
    cbn [mbind option_bind]. rewrite (proj2 (Z.eqb_neq c 0)) by done.
    exists buf, None. split_and!; try done. rewrite Hd, take_ge by lia. by apply c_string_eq.
  - replace (<[(t + nwd s')%nat:=0]> buf !! t) with (Some c).
    2:{ rewrite list_lookup_insert_ne by lia.
        rewrite <- (Nat.add_0_r t), <- lookup_drop, Hd, Hc. done. }
    cbn [mbind option_bind]. rewrite (proj2 (Z.eqb_neq c 0)) by done.
    assert (drop t (<[(t + nwd s')%nat:=0]> buf)
            = take (nwd s') s' ++ 0 :: drop (S (nwd s')) s' ++ 0 :: r) as Hd2.
    { rewrite drop_insert_ge by lia. replace (t + nwd s' - t)%nat with (nwd s') by lia.
      rewrite Hd, insert_app_l by lia.
      rewrite insert_take_drop by lia. by rewrite <- app_assoc. }
    eexists _, _. split; [reflexivity|]. split_and!.
    + by rewrite length_insert.
    + rewrite take_insert_ge by lia. done.
    + rewrite Hd2. by apply c_string_eq, not_in_take.
    + lia.
    + replace (t + nwd s' + 1)%nat with (t + S (nwd s'))%nat by lia.
      rewrite <- drop_drop, Hd2. rewrite (drop_app_ge _ _ (S (nwd s'))) by (rewrite length_take; lia).
      rewrite length_take. by replace (S (nwd s') - nwd s' `min` length s')%nat with 1%nat by lia.
Qed.

(** The tokens at the pointers [ps] of a buffer are the words [ws]. *)
Definition tokens_are (buf : list Z) (ps : list nat) (ws : list (list Z)) : Prop :=
  Forall2 (fun p w => c_string (drop p buf) = Some w) ps ws.

(** No token left: the loop ends at once. *)
Lemma shell_args_end room buf save args s :
  _strtok buf None save = Some (buf, None, None) -> words s = [] ->
  exists buf' ps,
    shell_args room buf save args
    = Some (buf', args ++ ps, bool_decide (room < length (words s))%nat) /\
    length buf' = length buf /\ tokens_are buf' ps (take room (words s)) /\
    match save with Some p => take p buf' = take p buf | None => buf' = buf end.
Proof.
  intros Ht Hw. exists buf, []. rewrite Hw, app_nil_r, take_nil.
  assert (shell_args room buf save args = Some (buf, args, false)) as ->.
  { destruct room; cbn [shell_args]; by rewrite Ht. }
  split_and!; [|done|constructor|by destruct save].
  rewrite bool_decide_eq_false_2; [done|]. simpl. lia.
Qed.

Lemma shell_args_eq room buf save args s r :
  match save with
  | None => s = []
  | Some p => drop p buf = s ++ 0 :: r /\ 0 ∉ s
  end ->
  exists buf' ps,
    shell_args room buf save args
    = Some (buf', args ++ ps, bool_decide (room < length (words s))%nat) /\
    length buf' = length buf /\ tokens_are buf' ps (take room (words s)) /\
    match save with Some p => take p buf' = take p buf | None => buf' = buf end.
Proof.
  revert buf save args s. induction room as [|room IH]; intros buf save args s Hs;
    (destruct save as [p|]; [|subst s; by apply shell_args_end]);
    destruct Hs as [Hd H0];
    (destruct (decide (drop (nsp s) s = [])) as [He|Hne];
     [apply shell_args_end; [by apply (strtok_none buf p s r)|by apply words_nil]|]);
    destruct (strtok_some buf p s r Hd H0 Hne) as (buf1 & save & Htok & Hl & Htk & Hc & Hsave);
    rewrite (words_cons s Hne); set (s' := drop (nsp s) s) in *; set (t := (p + nsp s)%nat) in *.
  - exists buf1, []. cbn [shell_args]. rewrite Htok, app_nil_r. cbn [mbind option_bind].
    split_and!; [done|done|by constructor|].
    by rewrite <- (take_take_le p t buf1), Htk, take_take_le by lia.
  - cbn [shell_args]. rewrite Htok. cbn [mbind option_bind].
    destruct (IH buf1 save (args ++ [t]) (drop (S (nwd s')) s')) as (buf2 & ps & Hrun & Hl2 & Htoks & Htk2).
    { destruct save as [q|]; [|apply drop_ge; lia].
      destruct Hsave as [-> Hq]. split; [done|]. by do 2 apply not_in_drop. }
    exists buf2, (t :: ps). rewrite Hrun, <- app_assoc. split_and!.
    + f_equal. f_equal. apply bool_decide_ext. simpl. lia.
    + lia.
    + simpl. constructor; [|done]. destruct save as [q|]; [|by subst buf2].
      destruct Hsave as [-> Hq]. eapply c_string_stable; [exact Htk2|exact Hc|].
      rewrite length_take. lia.
    + destruct save as [q|]; [|subst buf2].
      * destruct Hsave as [-> Hq]. assert (take t buf2 = take t buf1) as Ht2.
        { rewrite <- (take_take_le t (t + nwd s' + 1) buf2), Htk2, take_take_le by lia. done. }
        rewrite <- (take_take_le p t buf2), Ht2, Htk, take_take_le by lia. done.
      * rewrite <- (take_take_le p t buf1), Htk, take_take_le by lia. done.
Qed.

Lemma shell_parse_eq s r :
  0 ∉ s ->
  exists line' cmd args,
    shell_parse (s ++ 0 :: r) = Some (line', cmd, args, bool_decide (5 < length (words s))%nat) /\
    length line' = length (s ++ 0 :: r) /\
    match words s with
    | [] => cmd = None /\ args = []
    | w :: ws => (exists p, cmd = Some p /\ c_string (drop p line') = Some w) /\
                 tokens_are line' args (take SHELL_MAX_ARGUMENTS ws)
    end.
Proof.
  intros Hs. unfold shell_parse.
  change (_strtok (s ++ 0 :: r) (Some 0%nat) None) with (_strtok (s ++ 0 :: r) None (Some 0%nat)).
  destruct (decide (drop (nsp s) s = [])) as [He|Hne].
  - rewrite (strtok_none _ 0 s r), (words_nil s He) by done. cbn [mbind option_bind].
    by eexists _, _, _.
  - destruct (strtok_some (s ++ 0 :: r) 0 s r eq_refl Hs Hne) as (buf1 & save & Htok & Hl & Htk & Hc & Hsave).
    rewrite Htok, (words_cons s Hne). cbn [mbind option_bind].
    set (s' := drop (nsp s) s) in *.
    destruct (shell_args_eq SHELL_MAX_ARGUMENTS buf1 save [] (drop (S (nwd s')) s') r)
      as (buf2 & ps & -> & Hl2 & Htoks & Htk2).
    { destruct save as [q|]; [|apply drop_ge; lia].
      destruct Hsave as [-> Hq]. split; [done|]. by do 2 apply not_in_drop. }
    cbn [mbind option_bind app]. eexists _, _, _. split; [|split].
    + f_equal. f_equal. apply bool_decide_ext. unfold SHELL_MAX_ARGUMENTS. simpl. lia.
    + lia.
    + split; [|done]. eexists. split; [done|]. destruct save as [q|]; [|by subst buf2].
      destruct Hsave as [-> Hq]. eapply c_string_stable; [exact Htk2|exact Hc|].
      rewrite length_take. lia.
Qed.

(** Tokenising a terminated line in place never reads past its end and
    yields its words: the command is the first word, the arguments are the
    next four, and the caller is told when there are more; an empty or blank
    line has no command.  The pointers keep denoting these words after the
    last token was cut off. *)
Theorem shell_parse_words s r :
  0 ∉ s ->
  exists line' cmd args,
    shell_parse (s ++ 0 :: r) = Some (line', cmd, args, bool_decide (5 < length (words s))%nat) /\
    length line' = length (s ++ 0 :: r) /\
    match words s with
    | [] => cmd = None /\ args = []
    | w :: ws => (exists p, cmd = Some p /\ c_string (drop p line') = Some w) /\
                 tokens_are line' args (take SHELL_MAX_ARGUMENTS ws)
    end.
Proof. apply shell_parse_eq. Qed.

Lemma shell_parse_words_witness :
  exists line', shell_parse (codes "  mv a.txt  b" ++ [0; 7]) = Some (line', Some 2%nat, [5; 12]%nat, false) /\
    c_string (drop 5 line') = Some (codes "a.txt").
Proof.
  destruct (shell_parse_words (codes "  mv a.txt  b") [7]) as (line' & cmd & args & Heq & _ & Hw).
  { by apply (bool_decide_unpack _). }
  assert (shell_parse (codes "  mv a.txt  b" ++ [0; 7])
          = Some (line', Some 2%nat, [5; 12]%nat, false)) as Heq2
    by (rewrite Heq; vm_compute in Heq; by simplify_eq).
  exists line'. split; [exact Heq2|]. rewrite Heq in Heq2. simplify_eq.
  cbn in Hw. destruct Hw as [_ Hw]. by inversion Hw.
Defined.

(** The trace of printing a text. *)
Definition codes_tr (w : string) : list event := EvPutc <$> codes w.

(** ** What line editing means *)

(** The effect of one key on the text typed so far. *)
Definition typed (size : Z) (txt : list Z) (c : Z) : list Z :=
  if c =? 8 then removelast txt
  else if c <? 32 then txt
  else if zlen txt <? size - 1 then txt ++ [c] else txt.

(** What the terminal shows of a key, and of a line up to its return. *)
Definition echoed (size : Z) (txt : list Z) (c : Z) : list Z :=
  if c =? 8 then if zlen txt =? 0 then [] else [8; 32; 8]
  else if c <? 32 then []
  else if zlen txt <? size - 1 then [c] else [].

Fixpoint echo (size : Z) (txt keys : list Z) : list Z :=
  match keys with [] => codes crlf | c :: keys => echoed size txt c ++ echo size (typed size txt c) keys end.

(** The trace prints [l] and writes nothing to the bus. *)
Definition shown (l : list Z) (t : list event) : Prop := printed t = l /\ writes t = [].

(** A key that neither ends the line nor hangs up. *)
Definition is_text (c : Z) : Prop := 0 <= c < 256 /\ c <> 4 /\ c <> 13.

(** The operator's keys, as the console delivers them. *)
Class Console (D : Type) `{Device D} := {
  con_in : D -> list Z;
  con_getc d c l : con_in d = c :: l -> (dev_getc d).1 = c /\ con_in (dev_getc d).2 = l;
  con_putc c d : con_in (dev_putc c d) = con_in d
}.

Section input.
Context {D St : Type} `{Device D}.

Lemma shell_key_safe size line p n d (s : St) :
  0 <= p < size -> size <= zlen line ->
  wp (shell_key size line p) n d s (fun r _ s' _ =>
    exists o line' p', r = Ok (o, line', p') /\ s' = s /\ zlen line' = zlen line /\ 0 <= p' < size).
Proof.
  intros Hp Hl. unfold shell_key. wp_step. set (c := s16 _).
  destruct (c <? 0); [wp_step; eauto 10|].
  destruct (c =? 4).
  { apply wp_bind, wp_puts; [done|]. wp_step. eauto 10. }
  destruct (c =? 8).
  { destruct (Z.eqb_spec p 0); cbn [negb]; [wp_step; eauto 10|].
    do 4 wp_step. eexists _, _, _. split_and!; try done; lia. }
  destruct (c =? 13).
  { apply wp_bind, wp_puts; [done|]. apply wp_bind. unfold wp at 1. rewrite aset_ok by lia.
    cbn [o_res o_dev o_st o_tr]. wp_step. eexists _, _, _. rewrite zlen_zset. split_and!; done || lia. }
  destruct (c <? 0x20); [wp_step; eauto 10|].
  destruct (Z.ltb_spec p (size - 1)); [|wp_step; eauto 10].
  wp_step. apply wp_bind. unfold wp at 1. rewrite aset_ok by lia.
  cbn [o_res o_dev o_st o_tr]. wp_step. eexists _, _, _. rewrite zlen_zset. split_and!; done || lia.
Qed.

Lemma shell_keys_safe k size line p n d (s : St) :
  0 <= p < size -> size <= zlen line ->
  wp (shell_keys k size line p) n d s (fun r _ s' _ =>
    s' = s /\ match r with Ok (_, line') => zlen line' = zlen line | Diverge => True | Ub => False end).
Proof.
  revert line p d. induction k as [|k IH]; intros line p d Hp Hl; [done|]. cbn [shell_keys].
  apply wp_bind. eapply wp_mono; [by apply shell_key_safe|].
  intros r d1 s1 t1 (o & line' & p' & -> & -> & Hlen & Hp'). destruct o as [b|].
  - by wp_step.
  - eapply wp_mono; [apply IH; lia|]. intros r d2 s2 t2 [-> Hr]. split; [done|].
    destruct r as [[b l]| |]; try done. by rewrite Hr.
Qed.

Context `{!Console D}.

Lemma s16_small c : 0 <= c < 256 -> s16 c = c.
Proof.
  intros. unfold s16. rewrite wrap_small by (split; [lia|change (2 ^ 16) with 65536; lia]). by zbool.
Qed.

(** The buffer holds the text [txt] below the cursor. *)
Definition holds (line txt : list Z) : Prop := exists r, line = txt ++ r.

Lemma holds_typed line txt c :
  holds line txt -> zlen txt < zlen line -> holds (zset line (zlen txt) c) (txt ++ [c]).
Proof.
  intros [r ->] Hl. unfold zlen in *. rewrite length_app in Hl. unfold zset. zbool.
  rewrite Nat2Z.id. destruct r as [|x r]; [simpl in Hl; lia|]. exists r.
  by rewrite insert_app_r_alt, Nat.sub_diag, <- app_assoc by lia.
Qed.

Lemma holds_removelast line txt : holds line txt -> holds line (removelast txt).
Proof.
  intros [r ->]. destruct txt as [|x txt _] using rev_ind; [by exists r|].
  rewrite removelast_last. exists (x :: r). by rewrite <- app_assoc.
Qed.

Lemma zlen_removelast (txt : list Z) : txt <> [] -> zlen (removelast txt) = zlen txt - 1.
Proof.
  destruct txt as [|x txt _] using rev_ind; [done|]. intros _. rewrite removelast_last.
  unfold zlen. rewrite length_app. simpl. lia.
Qed.

(** One text key. *)
Lemma shell_key_text size line txt c l n d (s : St) :
  con_in d = c :: l -> is_text c -> holds line txt -> zlen txt < size -> size <= zlen line ->
  wp (shell_key size line (zlen txt)) n d s (fun r d' s' t =>
    shown (echoed size txt c) t /\
    exists line', r = Ok (None, line', zlen (typed size txt c)) /\ s' = s /\ con_in d' = l /\
      holds line' (typed size txt c) /\ zlen line' = zlen line /\ zlen (typed size txt c) < size).
Proof.
  intros Hin ([Hc0 Hc1] & Hc4 & Hc13) Hh Hs Hl. unfold shell_key. wp_step.
  destruct (con_getc d c l Hin) as [-> Hin']. rewrite s16_small by lia. unfold typed, echoed.
  pose proof (zlen_nonneg txt). zbool. destruct (Z.eqb_spec c 8) as [->|H8].
  { destruct (Z.eqb_spec (zlen txt) 0) as [Hz|Hz]; cbn [negb].
    - destruct txt; [|unfold zlen in Hz; simpl in Hz; lia]. wp_step. split; [done|]. exists line. by split_and!.
    - do 4 wp_step. split; [done|]. exists line. rewrite zlen_removelast by (intros ->; by apply Hz).
      rewrite !con_putc. split_and!; try done; [by apply holds_removelast|lia]. }
  destruct (Z.ltb_spec c 32) as [H32|H32]; [wp_step; split; [done|]; exists line; by split_and!|].
  destruct (Z.ltb_spec (zlen txt) (size - 1)) as [Hroom|Hroom]; [|wp_step; split; [done|]; exists line; by split_and!].
  wp_step. apply wp_bind. unfold wp at 1. rewrite aset_ok by lia. cbn [o_res o_dev o_st o_tr]. wp_step.
  assert (u8 c = c) as -> by (apply wrap_small; split; [lia|change (2 ^ 8) with 256; lia]).
  assert (zlen (txt ++ [c]) = zlen txt + 1) as Hlen by (unfold zlen; rewrite length_app; simpl; lia).
  split; [done|]. eexists. rewrite Hlen, con_putc. split_and!; try done; [apply holds_typed; [done|lia]|by rewrite zlen_zset|lia].
Qed.

Lemma shown_app l1 l2 t1 t2 : shown l1 t1 -> shown l2 t2 -> shown (l1 ++ l2) (t1 ++ t2).
Proof. intros [<- W1] [<- W2]. split; [apply printed_app|]. by rewrite writes_app, W1, W2. Qed.

Lemma shown_putc l : shown l (EvPutc <$> l).
Proof. split; [apply printed_putc|apply writes_putc]. Qed.

Lemma shell_keys_text keys : forall size line txt more k n d (s : St),
  con_in d = keys ++ 13 :: more -> Forall is_text keys -> holds line txt ->
  zlen txt < size -> size <= zlen line -> (length keys < k)%nat ->
  wp (shell_keys k size line (zlen txt)) n d s (fun r d' s' t =>
    shown (echo size txt keys) t /\
    exists line', r = Ok (false, line') /\ s' = s /\ con_in d' = more /\ zlen line' = zlen line /\
      holds line' (foldl (typed size) txt keys ++ [0])).
Proof.
  induction keys as [|c keys IH]; intros size line txt more k n d s Hin Ht Hh Hs Hl Hk;
    (destruct k as [|k]; [simpl in Hk; lia|]); cbn [shell_keys].
  - apply wp_bind. unfold shell_key. wp_step. destruct (con_getc d 13 more Hin) as [-> Hin'].
    change (s16 13) with 13. cbn [Z.ltb Z.eqb Z.compare Pos.compare Pos.compare_cont Pos.eqb].
    apply wp_bind, wp_puts; [done|]. pose proof (zlen_nonneg txt).
    apply wp_bind. unfold wp at 1. rewrite aset_ok by lia. cbn [o_res o_dev o_st o_tr]. do 2 wp_step.
    split; [done|]. eexists. split_and!; [done|done| |by rewrite zlen_zset|refine (holds_typed line txt 0 Hh _); lia].
    by rewrite (foldl_putc_inv con_in) by apply con_putc.
  - apply Forall_cons in Ht as [Hc Ht]. cbn [length] in Hk. apply wp_bind.
    eapply wp_mono; [by apply (shell_key_text size line txt c (keys ++ 13 :: more))|].
    intros r d1 s1 t1 (E1 & line1 & -> & -> & Hin1 & Hh1 & Hl1 & Hs1).
    eapply wp_mono; [apply (IH size line1 (typed size txt c) more k n d1 s); done || lia|].
    intros r d2 s2 t2 (E2 & line2 & -> & -> & Hin2 & Hl2 & Hh2). split; [by apply shown_app|]. exists line2. split_and!; try done. lia.
Qed.

(** (C34) Line input is safe and edits as expected.  On any console and with
    any fuel it stays inside a buffer of at least [size] bytes.  When the
    operator types text keys and then return, the buffer ends up holding the
    edited text, terminated: printable keys append while there is room for
    the terminator, backspace removes the last character, other control keys
    do nothing; meanwhile each accepted key is echoed and a removed one is wiped
    out, nothing else is shown, and no device is written to; the keys after the return are left for the next reader. *)
Theorem shellGetLine_edits size line n d (s : St) :
  1 <= size <= zlen line ->
  (o_res (shellGetLine line size n d s) <> Ub) /\
  (forall keys more, con_in d = keys ++ 13 :: more -> Forall is_text keys -> (length keys < n)%nat ->
     let txt := foldl (typed size) [] keys in
     exists d' t r, shellGetLine line size n d s = Out (Ok (false, txt ++ 0 :: r)) d' s t /\
       con_in d' = more /\ length (txt ++ 0 :: r) = length line /\ shown (echo size [] keys) t).
Proof.
  intros Hsz. unfold shellGetLine. split.
  - pose proof (shell_keys_safe n size line 0 n d s ltac:(lia) ltac:(lia)) as [_ Hr].
    destruct (o_res (shell_keys n size line 0 n d s)) as [[]| |]; done.
  - intros keys more Hin Ht Hn. set (txt := foldl (typed size) [] keys).
    pose proof (shell_keys_text keys size line [] more n n d s Hin Ht (ex_intro _ line eq_refl)
      ltac:(unfold zlen; simpl; lia) ltac:(lia) Hn) as (Hecho & line' & Hr & Hs & Hin' & Hl & [r Hh]).
    change (zlen []) with 0 in *. destruct (shell_keys n size line 0 n d s) as [res d' s' t].
    cbn [o_res o_dev o_st o_tr] in *. subst. exists d', t, r. rewrite <- app_assoc in Hl |- *.
    split_and!; [done|done| |done]. unfold zlen in Hl. by apply Nat2Z.inj in Hl.
Qed.

(** ** A whole turn *)

Lemma typed_no_nul size keys : Forall is_text keys -> 0 ∉ foldl (typed size) [] keys.
Proof.
  assert (forall txt, 0 ∉ txt -> Forall is_text keys -> 0 ∉ foldl (typed size) txt keys) as Hg.
  { induction keys as [|c keys IH]; intros txt H0 Ht; [done|]. apply Forall_cons in Ht as [Hc Ht].
    simpl. apply IH; [|done]. unfold typed. destruct Hc as ([] & _ & _).
    destruct (c =? 8).
    { destruct txt as [|x txt _] using rev_ind; [done|]. rewrite removelast_last.
      rewrite elem_of_app in H0. tauto. }
    destruct (Z.ltb_spec c 32); [done|]. destruct (zlen txt <? size - 1); [|done].
    rewrite elem_of_app, list_elem_of_singleton. intros [?|?]; [done|lia]. }
  apply Hg, not_elem_of_nil.
Qed.

Lemma tokens_mapM buf ps ws :
  tokens_are buf ps ws -> mapM (fun p => c_string (drop p buf)) ps = Some ws.
Proof. intros Ht. by apply mapM_Some. Qed.

Lemma shellGetLine_text keys more size line n d (s : St) :
  1 <= size <= zlen line -> con_in d = keys ++ 13 :: more -> Forall is_text keys ->
  (length keys < n)%nat ->
  exists d' t r, shellGetLine line size n d s
    = Out (Ok (false, foldl (typed size) [] keys ++ 0 :: r)) d' s t /\ con_in d' = more /\ shown (echo size [] keys) t.
Proof.
  intros Hsz Hin Ht Hn. unfold shellGetLine.
  pose proof (shell_keys_text keys size line [] more n n d s Hin Ht (ex_intro _ line eq_refl)
    ltac:(unfold zlen; simpl; lia) ltac:(lia) Hn) as (Hecho & line' & Hr & Hs & Hin' & Hl & [r Hh]).
  change (zlen []) with 0 in *. destruct (shell_keys n size line 0 n d s) as [res d' s' t].
  cbn [o_res o_dev o_st o_tr] in *. subst. exists d', t, r. by rewrite <- app_assoc.
Qed.

Variables (DATE TIME : string) (chTimeNow : M D St Z).
Local Abbreviation turn := (shell_turn DATE TIME chTimeNow).
Local Abbreviation exec := (shell_exec DATE TIME chTimeNow).

Lemma shell_turn_ok scp line keys more n d (s : St) :
  zlen line = SHELL_MAX_LINE_LENGTH -> con_in d = keys ++ 13 :: more -> Forall is_text keys ->
  (length keys < n)%nat ->
  let ws := words (foldl (typed SHELL_MAX_LINE_LENGTH) [] keys) in
  (length ws <= 5)%nat ->
  exists d1 t1 line1, con_in d1 = more /\ shown (codes SHELL_PROMPT ++ echo SHELL_MAX_LINE_LENGTH [] keys) t1 /\
    turn scp line n d s
    = (let o := (match ws with [] => sleep_ms 100 | w :: args => exec scp w args end;; mret line1) n d1 s in
       Out (o_res o) (o_dev o) (o_st o) (t1 ++ o_tr o)).
Proof.
  intros Hl Hin Ht Hn ws Hws. set (txt := foldl (typed SHELL_MAX_LINE_LENGTH) [] keys) in *.
  pose (d0 := foldl (fun d c => dev_putc c d) d (codes SHELL_PROMPT)).
  assert (con_in d0 = keys ++ 13 :: more) as Hin0.
  { unfold d0. rewrite (foldl_putc_inv con_in) by apply con_putc. done. }
  destruct (shellGetLine_text keys more SHELL_MAX_LINE_LENGTH line n d0 s) as (d1 & t1 & r & Hget & Hin1 & Hecho);
    [rewrite Hl; done|done|done|done|]. fold txt in Hget.
  destruct (shell_parse_eq txt r) as (line1 & cmd & args & Hparse & _ & Hp); [by apply typed_no_nul|].
  fold ws in Hparse, Hp. rewrite bool_decide_eq_false_2 in Hparse by lia.
  set (body := match ws with [] => sleep_ms 100 | w :: args => exec scp w args end).
  assert (match cmd, mapM (fun p => c_string (drop p line1)) args with
          | _, None => ub
          | None, _ => sleep_ms 100
          | Some cmd, Some argv =>
              match c_string (drop cmd line1) with
              | Some name => exec scp name argv
              | None => ub
              end
          end = body) as Hbody.
  { unfold body. destruct ws as [|w ws']; [by destruct Hp as [-> ->]|].
    destruct Hp as [(p & -> & Hc) Htok].
    rewrite (tokens_mapM _ _ _ Htok), Hc. rewrite take_ge by (unfold SHELL_MAX_ARGUMENTS; simpl in Hws; lia).
    done. }
  destruct ((body;; mret line1) n d1 s) as [res d2 s2 t2] eqn:Hrun.
  exists d1, (codes_tr SHELL_PROMPT ++ t1), line1. split; [done|]. split; [apply shown_app; [apply shown_putc|done]|]. rewrite Hrun.
  cbn [o_res o_dev o_st o_tr]. rewrite <- app_assoc. unfold shell_turn.
  eapply bind_ok; [exact (alt_printf_prints _ _ _ (formatted_plain SHELL_PROMPT eq_refl) n d s)|].
  eapply bind_ok; [exact Hget|]. cbn [fst snd]. rewrite bind_ret_l, Hparse, bind_ret_l, Hbody. exact Hrun.
Qed.

End input.

(** ** A console with a script of keys *)

#[export] Program Instance regdev_console : Console regdev := { con_in := rd_input }.
Next Obligation. intros d c l Hin. simpl. by rewrite Hin. Qed.
Next Obligation. done. Qed.

Lemma shellGetLine_edits_witness :
  exists d' t r,
    shellGetLine (replicate 64 9) 64 9%nat (RegDev ∅ (codes "hel" ++ [8; 8; 105; 1; 13; 33])) tt
    = Out (Ok (false, codes "hi" ++ 0 :: r)) d' tt t /\ rd_input d' = [33].
Proof.
  destruct (proj2 (shellGetLine_edits 64 (replicate 64 9) 9%nat
    (RegDev ∅ (codes "hel" ++ [8; 8; 105; 1; 13; 33])) tt ltac:(by vm_compute))
    (codes "hel" ++ [8; 8; 105; 1]) [33] ltac:(done)
    ltac:(repeat constructor; done) ltac:(simpl; lia)) as (d' & t & r & Heq & Hin & _).
  exists d', t, r. exact (conj Heq Hin).
Defined.

