(* ===== verification/Diskio.v ===== *)
(** * The SD card behind the file system: ledos/fatfs/diskio.c, diskio.h

    The card is a machine at the other end of the SPI bus: it gets a byte and
    answers one.  The module selects the card, sends commands and moves blocks;
    all its waits are counted. *)

From S2P Require Import Prelude.

Definition STA_NOINIT : Z := 1.

Inductive DRESULT := RES_OK | RES_ERROR | RES_WRPRT | RES_NOTRDY | RES_PARERR.

#[export] Instance DRESULT_eq_dec : EqDecision DRESULT.
Proof. solve_decision. Defined.

Definition CTRL_SYNC : Z := 0.
Definition GET_SECTOR_COUNT : Z := 1.
Definition GET_BLOCK_SIZE : Z := 3.

Definition CMD0 : Z := 0.
Definition CMD1 : Z := 1.
Definition ACMD41 : Z := 128 + 41.
Definition CMD8 : Z := 8.
Definition CMD9 : Z := 9.
Definition CMD12 : Z := 12.
Definition CMD13 : Z := 13.
Definition CMD16 : Z := 16.
Definition CMD17 : Z := 17.
Definition CMD18 : Z := 18.
Definition ACMD23 : Z := 128 + 23.
Definition CMD24 : Z := 24.
Definition CMD25 : Z := 25.
Definition CMD55 : Z := 55.
Definition CMD58 : Z := 58.

Definition CT_MMC : Z := 1.
Definition CT_SD1 : Z := 2.
Definition CT_SD2 : Z := 4.
Definition CT_SDC : Z := 6.
Definition CT_BLOCK : Z := 8.

(** A card at the end of the bus controller: what it answers to a byte, selected
    or not, and what a microsecond, one run of the timer, does to it. *)
Class Card (C : Type) := {
  xfer : bool -> Z -> C -> Z * C;
  tick : C -> C;
  xfer_byte sel b c : 0 <= (xfer sel b c).1 < 256
}.

Section Diskio.

Context {C : Type} `{!Card C}.

(** The card, the slave-select line and the module's two variables. *)
Record disk := mkDisk { card : C; ss : bool; Stat : Z; CardType : Z }.

Definition D (A : Type) : Type := disk -> A * disk.

#[local] Instance D_ret : MRet D := fun A a d => (a, d).
#[local] Instance D_bind : MBind D := fun A B f p d => let '(a, d) := p d in f a d.

Definition dget : D disk := fun d => (d, d).
Definition set_ss (b : bool) : D unit := fun d => (tt, mkDisk (card d) b (Stat d) (CardType d)).
Definition set_Stat (s : Z) : D unit := fun d => (tt, mkDisk (card d) (ss d) s (CardType d)).
Definition set_CardType (t : Z) : D unit := fun d => (tt, mkDisk (card d) (ss d) (Stat d) t).

(** [wait_on_spi; IOWR TXDATA; wait_on_spi; IORD RXDATA]: a byte each way. *)
Definition spi (b : Z) : D Z := fun d =>
  let '(r, c) := xfer (ss d) b (card d) in (r, mkDisk c (ss d) (Stat d) (CardType d)).

(** [n] runs of the timer. *)
Definition delay (n : Z) (c : C) : C := Nat.iter (Z.to_nat (u16 n)) tick c.

Definition dly_us (n : Z) : D unit := fun d => (tt, mkDisk (delay n (card d)) (ss d) (Stat d) (CardType d)).

Fixpoint xmit_mmc (buff : list Z) : D unit :=
  match buff with [] => mret tt | b :: buff => spi b;; xmit_mmc buff end.

Fixpoint rcvr_mmc (bc : nat) : D (list Z) :=
  match bc with O => mret [] | S bc => b ← spi 255; l ← rcvr_mmc bc; mret (b :: l) end.

(** One byte. *)
Definition rcvr1 : D Z := l ← rcvr_mmc 1; mret (nth 0 l 255).

Fixpoint wait_ready_loop (tmr : nat) : D bool :=
  match tmr with
  | O => mret false
  | S tmr => d ← rcvr1; if d =? 255 then mret true else dly_us 100;; wait_ready_loop tmr
  end.

Definition wait_ready : D bool := wait_ready_loop (Z.to_nat 5000).

Definition init_port : D unit := set_ss false.

Definition deselect : D unit := set_ss false;; rcvr1;; mret tt.

Definition select : D bool :=
  set_ss true;;
  rcvr1;;
  r ← wait_ready;
  if r : bool then mret true else deselect;; mret false.

(** The first byte that is not idle, or the last one tried. *)
Fixpoint token_loop (tmr : nat) (d : Z) : D Z :=
  match tmr with
  | O => mret d
  | S tmr => d ← rcvr1; if negb (d =? 255) then mret d else dly_us 100;; token_loop tmr d
  end.

(** The block, or [None] when no data token came. *)
Definition rcvr_datablock (btr : nat) : D (option (list Z)) :=
  d ← token_loop (Z.to_nat 1000) 255;
  if negb (d =? 254) then mret None
  else
    buff ← rcvr_mmc btr;
    rcvr_mmc 2;;
    mret (Some buff).

Definition xmit_datablock (buff : list Z) (token : Z) : D bool :=
  r ← wait_ready;
  if negb r then mret false
  else
    xmit_mmc [token];;
    if negb (token =? 253) then
      xmit_mmc buff;;
      rcvr_mmc 2;;
      d ← rcvr1;
      mret (Z.land d 31 =? 5)
    else mret true.

(** The response: the first byte with bit 7 clear, of [n] tried. *)
Fixpoint response_loop (n : nat) : D Z :=
  match n with
  | O => mret 255
  | S n => d ← rcvr1; if negb (Z.land d 128 =? 0) && negb (n =? 0)%nat then response_loop n else mret d
  end.

Definition cmd_frame (cmd arg : Z) : list Z :=
  [ u8 (Z.lor 64 cmd); u8 (Z.shiftr arg 24); u8 (Z.shiftr arg 16); u8 (Z.shiftr arg 8); u8 arg;
    if cmd =? CMD8 then 135 else if cmd =? CMD0 then 149 else 1 ].

(** The command proper, after the prefix. *)
Definition send_plain (cmd arg : Z) : D Z :=
  deselect;;
  r ← select;
  if negb r then mret 255
  else
    xmit_mmc (cmd_frame cmd arg);;
    (if cmd =? CMD12 then rcvr1;; mret tt else mret tt);;
    response_loop 10.

(** The call for [CMD55] does not recur again. *)
Definition send_cmd (cmd arg : Z) : D Z :=
  if negb (Z.land cmd 128 =? 0) then
    n ← send_plain CMD55 0;
    if 1 <? n then mret n else send_plain (Z.land cmd 127) arg
  else send_plain cmd arg.

Definition disk_status (drv : Z) : D Z :=
  if negb (drv =? 0) then mret STA_NOINIT
  else
    d ← dget;
    s ← (if Z.land (Stat d) STA_NOINIT =? 0 then
           r ← send_cmd CMD13 0;
           rcvr1;;
           deselect;;
           mret (if negb (r =? 0) then STA_NOINIT else Stat d)
         else mret (Stat d));
    set_Stat s;;
    mret s.

(** Sending [cmd] until the card has left its idle state, [tmr] times. *)
Fixpoint idle_loop (tmr : nat) (cmd arg : Z) : D bool :=
  match tmr with
  | O => mret false
  | S tmr => r ← send_cmd cmd arg; if r =? 0 then mret true else dly_us 1000;; idle_loop tmr cmd arg
  end.

(** The card's type, or 0. *)
Definition card_type : D Z :=
  r ← send_cmd CMD0 0;
  if r =? 1 then
    r ← send_cmd CMD8 426;
    if r =? 1 then
      buf ← rcvr_mmc 4;
      if (nth 2 buf 0 =? 1) && (nth 3 buf 0 =? 170) then
        b ← idle_loop (Z.to_nat 1000) ACMD41 (2 ^ 30);
        if b : bool then
          r ← send_cmd CMD58 0;
          if r =? 0 then
            buf ← rcvr_mmc 4;
            mret (if negb (Z.land (nth 0 buf 0) 64 =? 0) then Z.lor CT_SD2 CT_BLOCK else CT_SD2)
          else mret 0
        else mret 0
      else mret 0
    else
      r ← send_cmd ACMD41 0;
      let '(ty, cmd) := if r <=? 1 then (CT_SD1, ACMD41) else (CT_MMC, CMD1) in
      b ← idle_loop (Z.to_nat 1000) cmd 0;
      if negb b then mret 0
      else r ← send_cmd CMD16 512; mret (if negb (r =? 0) then 0 else ty)
  else mret 0.

(** [RES_NOTRDY] has the value 3. *)
Definition disk_initialize (drv : Z) : D Z :=
  if negb (drv =? 0) then mret 3
  else
    init_port;;
    rcvr_mmc 10;;
    ty ← card_type;
    set_CardType ty;;
    let s := if ty =? 0 then STA_NOINIT else 0 in
    set_Stat s;;
    deselect;;
    mret s.

(** Blocks of 512 bytes received, until [count] or a failure: how many are
    missing, and the data. *)
Fixpoint read_blocks (count : nat) : D (nat * list Z) :=
  match count with
  | O => mret (0%nat, [])
  | S n =>
      r ← rcvr_datablock 512;
      match r with
      | None => mret (count, [])
      | Some b => '(m, l) ← read_blocks n; mret (m, b ++ l)
      end
  end.

(** Where the card finds a sector. *)
Definition block_address (ty sector : Z) : Z := if Z.land ty CT_BLOCK =? 0 then u32 (sector * 512) else sector.

(** The result and the bytes stored at [buff]. *)
Definition disk_read (drv sector count : Z) : D (DRESULT * list Z) :=
  s ← disk_status drv;
  if negb (Z.land s STA_NOINIT =? 0) then mret (RES_NOTRDY, [])
  else if count =? 0 then mret (RES_PARERR, [])
  else
    d ← dget;
    let sector := block_address (CardType d) sector in
    '(missing, buff) ←
      (if count =? 1 then
         r ← send_cmd CMD17 sector;
         if r =? 0 then
           b ← rcvr_datablock 512;
           match b with Some l => mret (0%nat, l) | None => mret (1%nat, []) end
         else mret (1%nat, [])
       else
         r ← send_cmd CMD18 sector;
         if r =? 0 then
           x ← read_blocks (Z.to_nat count);
           send_cmd CMD12 0;;
           mret x
         else mret (Z.to_nat count, []));
    deselect;;
    mret (if (missing =? 0)%nat then RES_OK else RES_ERROR, buff).

(** The blocks that could not be written. *)
Fixpoint write_blocks (blocks : list (list Z)) : D nat :=
  match blocks with
  | [] => mret 0%nat
  | b :: l => r ← xmit_datablock b 252; if r : bool then write_blocks l else mret (length blocks)
  end.

(** [buff] is the blocks, [count] of them. *)
Definition disk_write (drv : Z) (buff : list (list Z)) (sector : Z) : D DRESULT :=
  let count := zlen buff in
  s ← disk_status drv;
  if negb (Z.land s STA_NOINIT =? 0) then mret RES_NOTRDY
  else if count =? 0 then mret RES_PARERR
  else
    d ← dget;
    let sector := block_address (CardType d) sector in
    missing ←
      (if count =? 1 then
         r ← send_cmd CMD24 sector;
         if r =? 0 then b ← xmit_datablock (nth 0 buff []) 254; mret (if b : bool then 0%nat else 1%nat)
         else mret 1%nat
       else
         (if negb (Z.land (CardType d) CT_SDC =? 0) then send_cmd ACMD23 count;; mret tt else mret tt);;
         r ← send_cmd CMD25 sector;
         if r =? 0 then
           n ← write_blocks buff;
           b ← xmit_datablock [] 253;
           mret (if b : bool then n else 1%nat)
         else mret (Z.to_nat count));
    deselect;;
    mret (if (missing =? 0)%nat then RES_OK else RES_ERROR).

(** The number of sectors from the card's specific data; a 16-bit [cs]. *)
Definition sector_count (csd : list Z) : Z :=
  let b i := nth i csd 0 in
  if Z.shiftr (b 0%nat) 6 =? 1 then
    let cs := u16 (b 9%nat + Z.shiftl (b 8%nat) 8 + 1) in
    u32 (Z.shiftl cs 10)
  else
    let n := u8 (Z.land (b 5%nat) 15 + Z.shiftr (Z.land (b 10%nat) 128) 7 + Z.shiftl (Z.land (b 9%nat) 3) 1 + 2) in
    let cs := u16 (Z.shiftr (b 8%nat) 6 + Z.shiftl (b 7%nat) 2 + Z.shiftl (Z.land (b 6%nat) 3) 10 + 1) in
    u32 (Z.shiftl cs (n - 9)).

(** The result and what is stored at [buff]. *)
Definition disk_ioctl (drv ctrl : Z) : D (DRESULT * option Z) :=
  s ← disk_status drv;
  if negb (Z.land s STA_NOINIT =? 0) then mret (RES_NOTRDY, None)
  else
    r ←
      (if ctrl =? CTRL_SYNC then
         b ← select;
         if b : bool then deselect;; mret (RES_OK, None) else mret (RES_ERROR, None)
       else if ctrl =? GET_SECTOR_COUNT then
         r ← send_cmd CMD9 0;
         if r =? 0 then
           b ← rcvr_datablock 16;
           match b with Some csd => mret (RES_OK, Some (sector_count csd)) | None => mret (RES_ERROR, None) end
         else mret (RES_ERROR, None)
       else if ctrl =? GET_BLOCK_SIZE then mret (RES_OK, Some 128)
       else mret (RES_PARERR, None));
    deselect;;
    mret r.

(** ** Running a program of the module *)

Definition with_card (c : C) (d : disk) : disk := mkDisk c (ss d) (Stat d) (CardType d).

Lemma D_bind_eq {A B} (p : D A) (f : A -> D B) d a d' : p d = (a, d') -> (p ≫= f) d = f a d'.
Proof using. unfold mbind, D_bind. by intros ->. Qed.

(** [Q] holds of what [p] answers and leaves. *)
Definition ends {A} (Q : A -> disk -> Prop) (p : A * disk) : Prop := Q p.1 p.2.

Lemma ends_bind {A B} Q (p : D A) (f : A -> D B) d : ends (fun a d' => ends Q (f a d')) (p d) -> ends Q ((p ≫= f) d).
Proof using. unfold ends, mbind, D_bind. by destruct (p d). Qed.

Lemma ends_any {A} (Q : A -> disk -> Prop) (p : A * disk) : (forall a d, Q a d) -> ends Q p.
Proof using. intros H. apply H. Qed.

Lemma ends_mono {A} (Q Q' : A -> disk -> Prop) (p : A * disk) : (forall a d, Q a d -> Q' a d) -> ends Q p -> ends Q' p.
Proof using. intros H. apply H. Qed.

Lemma ends_ret {A} (Q : A -> disk -> Prop) a d : Q a d -> ends Q ((mret a : D A) d).
Proof using. done. Qed.

(** Several bytes each way. *)
Fixpoint talk (sel : bool) (out : list Z) (c : C) : list Z * C :=
  match out with
  | [] => ([], c)
  | b :: out => let '(r, c1) := xfer sel b c in let '(rs, c2) := talk sel out c1 in (r :: rs, c2)
  end.

Lemma talk_length sel out c : length (talk sel out c).1 = length out.
Proof using. revert c. induction out as [|b out IH]; intros c; [done|]. simpl. destruct (xfer sel b c) as [r c1]. specialize (IH c1). destruct (talk sel out c1). simpl in *. congruence. Qed.

Lemma talk_bytes sel out c : Forall (fun b => 0 <= b < 256) (talk sel out c).1.
Proof using.
  revert c. induction out as [|b out IH]; intros c; [constructor|]. simpl. pose proof (xfer_byte sel b c) as Hb.
  destruct (xfer sel b c) as [r c1]. specialize (IH c1). destruct (talk sel out c1). by constructor.
Qed.

Lemma xmit_eq out d : xmit_mmc out d = (tt, with_card (talk (ss d) out (card d)).2 d).
Proof using.
  revert d. induction out as [|b out IH]; intros d; [by destruct d|]. cbn [xmit_mmc talk]. unfold mbind, D_bind, spi.
  destruct (xfer (ss d) b (card d)) as [r c1]. rewrite IH. simpl. by destruct (talk (ss d) out c1).
Qed.

Lemma rcvr_eq n d :
  rcvr_mmc n d = ((talk (ss d) (repeat 255 n) (card d)).1, with_card (talk (ss d) (repeat 255 n) (card d)).2 d).
Proof using.
  revert d. induction n as [|n IH]; intros d; [by destruct d|]. cbn [rcvr_mmc talk repeat]. unfold mbind, D_bind, spi.
  destruct (xfer (ss d) 255 (card d)) as [r c1]. rewrite IH. simpl. by destruct (talk (ss d) (repeat 255 n) c1).
Qed.

Lemma rcvr1_eq d : rcvr1 d = ((xfer (ss d) 255 (card d)).1, with_card (xfer (ss d) 255 (card d)).2 d).
Proof using. unfold rcvr1. rewrite (D_bind_eq _ _ _ _ _ (rcvr_eq 1 d)). simpl. by destruct (xfer (ss d) 255 (card d)). Qed.

(** ** Whatever the card answers *)

Definition is_byte (b : Z) : Prop := 0 <= b < 256.

Lemma datablock_ends n d :
  ends (fun r d' => ss d' = ss d /\ forall l, r = Some l -> length l = n /\ Forall is_byte l) (rcvr_datablock n d).
Proof using.
  assert (Ht : forall tmr x d, ends (fun _ d' => ss d' = ss d) (token_loop tmr x d)).
  { clear d. induction tmr as [|tmr IH]; intros x d; cbn [token_loop]; [done|]. rewrite (D_bind_eq _ _ _ _ _ (rcvr1_eq d)).
    destruct (negb _); [done|]. unfold mbind, D_bind, dly_us. eapply ends_mono; [|apply IH]. by intros ? ? ->. }
  unfold rcvr_datablock. apply ends_bind. eapply ends_mono; [|apply Ht]. intros x d1 H1.
  destruct (negb _); [by apply ends_ret|]. rewrite (D_bind_eq _ _ _ _ _ (rcvr_eq n d1)), (D_bind_eq _ _ _ _ _ (rcvr_eq 2 _)).
  apply ends_ret. split; [exact H1|]. intros l [= <-]. split; [by rewrite talk_length, repeat_length|apply talk_bytes].
Qed.

Lemma deselect_ends d : ends (fun _ d' => ss d' = false) (deselect d).
Proof using. unfold deselect. unfold mbind at 1, D_bind at 1, set_ss. by rewrite (D_bind_eq _ _ _ _ _ (rcvr1_eq _)). Qed.

Lemma read_blocks_ends count d :
  ends (fun r _ => (r.1 <= count)%nat /\ length r.2 = (512 * (count - r.1))%nat /\ Forall is_byte r.2) (read_blocks count d).
Proof using.
  revert d. induction count as [|n IH]; intros d; cbn [read_blocks]; [by apply ends_ret|].
  apply ends_bind. eapply ends_mono; [|apply datablock_ends]. intros [b|] d1 [_ Hb].
  - destruct (Hb b eq_refl) as [Hl Hbb]. apply ends_bind. eapply ends_mono; [|apply IH]. intros [m l] d2 (H1 & H2 & H3).
    apply ends_ret. cbn [fst snd] in *. split_and!; [lia| |by apply Forall_app]. rewrite length_app. lia.
  - apply ends_ret. cbn [fst snd]. split_and!; [done|by rewrite Nat.sub_diag|constructor].
Qed.

Lemma send_any (Q : Z -> disk -> Prop) cmd arg d : (forall r d, Q r d) -> ends Q (send_cmd cmd arg d).
Proof using. intros H. apply H. Qed.

(** What a read answers. *)
Definition read_result (count : Z) (r : DRESULT * list Z) : Prop :=
  Forall is_byte r.2 /\
  match r.1 with
  | RES_OK => 0 < count /\ zlen r.2 = 512 * count
  | RES_ERROR => exists n, 0 <= n < count /\ zlen r.2 = 512 * n
  | RES_NOTRDY => r.2 = []
  | RES_PARERR => r.2 = [] /\ count = 0
  | RES_WRPRT => False
  end.

Lemma read_result_intro count missing buff :
  0 < count -> (missing <= Z.to_nat count)%nat -> length buff = (512 * (Z.to_nat count - missing))%nat -> Forall is_byte buff ->
  read_result count (if (missing =? 0)%nat then RES_OK else RES_ERROR, buff).
Proof using.
  intros Hc Hm Hl Hb. unfold read_result, zlen. cbn [fst snd]. rewrite Hl. split; [done|].
  destruct (Nat.eqb_spec missing 0) as [->|Hne]; [lia|]. exists (count - Z.of_nat missing). lia.
Qed.

Lemma disk_read_ends drv sector count d : 0 <= count -> ends (fun r _ => read_result count r) (disk_read drv sector count d).
Proof using.
  intros Hc. unfold disk_read. apply ends_bind, ends_any. intros s d1.
  destruct (negb _); [by apply ends_ret|]. destruct (Z.eqb_spec count 0) as [->|Hne]; [by apply ends_ret|].
  apply ends_bind, ends_any. intros d2 d3. apply ends_bind.
  eapply (ends_mono (fun r _ => (r.1 <= Z.to_nat count)%nat /\ length r.2 = (512 * (Z.to_nat count - r.1))%nat /\ Forall is_byte r.2)).
  { intros [missing buff] d4 (H1 & H2 & H3). apply ends_bind, ends_any. intros [] d5. apply ends_ret.
    apply read_result_intro; [lia|done..]. }
  destruct (Z.eqb_spec count 1) as [->|Hn1].
  - apply ends_bind, ends_any. intros r d4. destruct (_ =? _); [|apply ends_ret; cbn; by split_and!].
    apply ends_bind. eapply ends_mono; [|apply datablock_ends]. intros [l|] d5 [_ Hl]; apply ends_ret; cbn [fst snd].
    + destruct (Hl l eq_refl) as [-> Hb]. split_and!; [lia|done|done].
    + by split_and!.
  - apply ends_bind, ends_any. intros r d4. destruct (_ =? _).
    + apply ends_bind. eapply ends_mono; [|apply read_blocks_ends]. intros [m l] d5 (H1 & H2 & H3).
      apply ends_bind, ends_any. intros x d6. apply ends_ret. by split_and!.
    + apply ends_ret. cbn [fst snd]. split_and!; [done|by rewrite Nat.sub_diag|constructor].
Qed.

(** (C26) Reading sectors, whatever the card answers and whenever it stops
    answering: the call ends, and it says [RES_OK] only with 512 bytes for each
    of the sectors asked for, [RES_ERROR] only with a smaller number of whole
    blocks, and [RES_NOTRDY] and [RES_PARERR] with nothing stored; a drive other
    than 0 is not ready, and no sectors at all are a wrong parameter. *)
Theorem disk_read_answers drv sector count d :
  0 <= count ->
  read_result count (disk_read drv sector count d).1 /\
  (drv <> 0 -> (disk_read drv sector count d).1 = (RES_NOTRDY, [])) /\
  (count = 0 -> (disk_read drv sector count d).1.1 = RES_NOTRDY \/ (disk_read drv sector count d).1.1 = RES_PARERR).
Proof using.
  intros Hc. split_and!.
  - by apply (disk_read_ends drv sector count d).
  - intros Hd. unfold disk_read. assert (Hs : disk_status drv d = (STA_NOINIT, d)).
    { unfold disk_status. by rewrite (proj2 (Z.eqb_neq _ _) Hd). }
    by rewrite (D_bind_eq _ _ _ _ _ Hs).
  - intros ->. unfold disk_read, mbind, D_bind. destruct (disk_status drv d) as [s d1]. destruct (negb _); [by left|by right].
Qed.

(** The bus is free again.  A call that finds the card's chip select high
    leaves it high, on every path: reading, writing, control, initialisation and
    the status, with or without a card that answers. *)
Theorem disk_bus_released drv sector count ctrl buff d :
  ss d = false ->
  ss (disk_status drv d).2 = false /\ ss (disk_initialize drv d).2 = false /\
  ss (disk_read drv sector count d).2 = false /\ ss (disk_write drv buff sector d).2 = false /\
  ss (disk_ioctl drv ctrl d).2 = false.
Proof using.
  intros Hs. set (Q := fun (A : Type) (_ : A) d => ss d = false).
  assert (Hdes : forall (A : Type) (a : A) d, ends (Q A) ((deselect;; mret a : D A) d)).
  { intros A a d'. apply ends_bind. eapply ends_mono; [|apply deselect_ends]. intros [] d1 H1. by apply ends_ret. }
  assert (Hst : ends (Q Z) (disk_status drv d)).
  { unfold disk_status. destruct (negb _); [by apply ends_ret|]. apply ends_bind. unfold ends at 1. cbn [fst snd dget].
    apply ends_bind. eapply (ends_mono (Q Z)); [intros s d1 H1; apply ends_bind; by apply ends_ret|].
    destruct (_ =? _); [|by apply ends_ret]. apply ends_bind, ends_any. intros r d1. apply ends_bind, ends_any. intros x d2. apply Hdes. }
  split_and!.
  - exact Hst.
  - change (ends (Q Z) (disk_initialize drv d)). unfold disk_initialize. destruct (negb _); [by apply ends_ret|].
    do 3 (apply ends_bind, ends_any; intros ? ?). do 2 (apply ends_bind, ends_any; intros ? ?). apply Hdes.
  - change (ends (Q _) (disk_read drv sector count d)). unfold disk_read. apply ends_bind. eapply ends_mono; [|exact Hst].
    intros s d1 H1. destruct (negb _); [by apply ends_ret|]. destruct (count =? 0); [by apply ends_ret|].
    do 2 (apply ends_bind, ends_any; intros ? ?). destruct a0 as [m l]. apply Hdes.
  - change (ends (Q _) (disk_write drv buff sector d)). unfold disk_write. apply ends_bind. eapply ends_mono; [|exact Hst].
    intros s d1 H1. destruct (negb _); [by apply ends_ret|]. destruct (zlen buff =? 0); [by apply ends_ret|].
    do 2 (apply ends_bind, ends_any; intros ? ?). apply Hdes.
  - change (ends (Q _) (disk_ioctl drv ctrl d)). unfold disk_ioctl. apply ends_bind. eapply ends_mono; [|exact Hst].
    intros s d1 H1. destruct (negb _); [by apply ends_ret|]. apply ends_bind, ends_any. intros r d2. apply Hdes.
Qed.

(** ** A card that does its part *)

(** [k] polls, each answered by a byte to [skip], with a pause after each. *)
Inductive idles (skip : Z -> bool) (us : Z) : nat -> C -> C -> Prop :=
| idles_none c : idles skip us 0 c c
| idles_one k b c c1 c' :
    xfer true 255 c = (b, c1) -> skip b = true -> idles skip us k (delay us c1) c' -> idles skip us (S k) c c'.

(** The card, which is not selected, is ready before the time is over, takes the
    command and answers [r] within ten bytes. *)
Definition answers (cmd arg r : Z) (c c' : C) : Prop :=
  exists k c1 c2 skipped,
    idles (fun b => negb (b =? 255)) 100 k (talk true [255] (talk false [255] c).2).2 c1 /\ (k < 5000)%nat /\
    xfer true 255 c1 = (255, c2) /\
    talk true (repeat 255 (S (length skipped)))
      (talk true (cmd_frame cmd arg ++ if cmd =? CMD12 then [255] else []) c2).2 = (skipped ++ [r], c') /\
    (length skipped < 10)%nat /\ Forall (fun b => Z.land b 128 <> 0) skipped /\ Z.land r 128 = 0.

(** The selected card sends the blocks, each with its token and two bytes of
    CRC, and none later than the time allows. *)
Fixpoint delivers (blocks : list (list Z)) (c c' : C) : Prop :=
  match blocks with
  | [] => c = c'
  | b :: blocks =>
      exists k c1 c2 crc,
        idles (fun b => b =? 255) 100 k c c1 /\ (k < 1000)%nat /\ length b = 512%nat /\ length crc = 2%nat /\
        talk true (repeat 255 515) c1 = (254 :: b ++ crc, c2) /\ delivers blocks c2 c'
  end.

Lemma talk_cons sel b out c :
  talk sel (b :: out) c =
    ((xfer sel b c).1 :: (talk sel out (xfer sel b c).2).1, (talk sel out (xfer sel b c).2).2).
Proof using. simpl. destruct (xfer sel b c) as [r c1]. simpl. by destruct (talk sel out c1). Qed.

Lemma talk_app sel o1 o2 c :
  talk sel (o1 ++ o2) c =
    ((talk sel o1 c).1 ++ (talk sel o2 (talk sel o1 c).2).1, (talk sel o2 (talk sel o1 c).2).2).
Proof using.
  revert c. induction o1 as [|b o1 IH]; intros c; [simpl; by destruct (talk sel o2 c)|]. simpl.
  destruct (xfer sel b c) as [r c1]. rewrite IH. by destruct (talk sel o1 c1).
Qed.

Lemma wait_ready_ok tmr k d c1 c2 :
  ss d = true -> idles (fun b => negb (b =? 255)) 100 k (card d) c1 -> (k < tmr)%nat -> xfer true 255 c1 = (255, c2) ->
  wait_ready_loop tmr d = (true, with_card c2 d).
Proof using.
  intros Hs Hi. remember (card d) as c eqn:Hc. revert tmr d Hs Hc.
  induction Hi as [c|k b c c1' c' Hx Hb Hi IH]; intros tmr d Hs Hc Hk H2; (destruct tmr as [|tmr]; [lia|]); cbn [wait_ready_loop];
    rewrite (D_bind_eq _ _ _ _ _ (rcvr1_eq d)), Hs, <- Hc.
  - by rewrite H2.
  - rewrite Hx. cbn [fst snd]. apply negb_true_iff in Hb. rewrite Hb. unfold mbind, D_bind, dly_us.
    rewrite IH; [done|done|done|lia|done].
Qed.

Lemma token_ok tmr k d c1 c2 b x :
  ss d = true -> idles (fun b => b =? 255) 100 k (card d) c1 -> (k < tmr)%nat -> xfer true 255 c1 = (b, c2) -> b <> 255 ->
  token_loop tmr x d = (b, with_card c2 d).
Proof using.
  intros Hs Hi. remember (card d) as c eqn:Hc. revert tmr d x Hs Hc.
  induction Hi as [c|k y c c1' c' Hx Hb Hi IH]; intros tmr d x Hs Hc Hk H2 Hn; (destruct tmr as [|tmr]; [lia|]); cbn [token_loop];
    rewrite (D_bind_eq _ _ _ _ _ (rcvr1_eq d)), Hs, <- Hc.
  - rewrite H2. cbn [fst snd]. by rewrite (proj2 (Z.eqb_neq _ _) Hn).
  - rewrite Hx. cbn [fst snd]. rewrite Hb. cbn [negb]. unfold mbind, D_bind, dly_us.
    rewrite IH; [done|done|done|lia|done|done].
Qed.

Lemma response_ok n skipped r d c' :
  ss d = true -> talk true (repeat 255 (S (length skipped))) (card d) = (skipped ++ [r], c') -> (length skipped < n)%nat ->
  Forall (fun b => Z.land b 128 <> 0) skipped -> Z.land r 128 = 0 -> response_loop n d = (r, with_card c' d).
Proof using.
  intros Hs. revert n d Hs. induction skipped as [|b skipped IH]; intros n d Hs Ht Hn Hf Hr;
    (destruct n as [|n]; [simpl in Hn; lia|]); cbn [response_loop]; rewrite (D_bind_eq _ _ _ _ _ (rcvr1_eq d)), Hs;
    cbn [length repeat] in Ht; rewrite talk_cons in Ht; cbn [app] in Ht.
  - cbn [talk fst snd] in Ht. injection Ht as Hx Hc. rewrite Hx, Hc, Hr. done.
  - pose proof (f_equal snd Ht) as Hc. pose proof (f_equal (fun p => tail p.1) Ht) as Hrs.
    pose proof (f_equal (fun p => hd 0 p.1) Ht) as Hx. cbn [fst snd tail hd] in Hc, Hrs, Hx. apply Forall_cons in Hf as [Hb Hf]. rewrite Hx, (proj2 (Z.eqb_neq _ _) Hb). simpl in Hn.
    rewrite (proj2 (Nat.eqb_neq n 0)) by lia. cbn [negb andb]. rewrite IH; [by rewrite <- Hc|done| |lia|done|done].
    cbn [card with_card].
    change (repeat 255 (S (length skipped))) with (255 :: repeat 255 (length skipped)).
    by rewrite (surjective_pairing (talk true (_ :: _) _)), Hrs, Hc.
Qed.

(** ** Commands and blocks *)

Lemma deselect_eq d : deselect d = (tt, mkDisk (talk false [255] (card d)).2 false (Stat d) (CardType d)).
Proof using.
  unfold deselect. unfold mbind at 1, D_bind at 1, set_ss. rewrite (D_bind_eq _ _ _ _ _ (rcvr1_eq _)), talk_cons. done.
Qed.

Lemma send_plain_ok cmd arg r d c' :
  answers cmd arg r (card d) c' -> send_plain cmd arg d = (r, mkDisk c' true (Stat d) (CardType d)).
Proof using.
  intros (k & c1 & c2 & skipped & Hi & Hk & Hx & Ht & Hl & Hf & Hr). unfold send_plain.
  rewrite (D_bind_eq _ _ _ _ _ (deselect_eq d)). set (c0 := (talk false [255] (card d)).2) in *.
  set (d1 := mkDisk (talk true [255] c0).2 true (Stat d) (CardType d)).
  assert (Hsel : select (mkDisk c0 false (Stat d) (CardType d)) = (true, with_card c2 d1)).
  { unfold select. unfold mbind at 1, D_bind at 1, set_ss. cbn [card Stat CardType]. rewrite (D_bind_eq _ _ _ _ _ (rcvr1_eq _)).
    assert (Hd1 : with_card (xfer true 255 c0).2 (mkDisk c0 true (Stat d) (CardType d)) = d1)
      by (unfold d1; rewrite talk_cons; done).
    cbn [ss card]. rewrite Hd1. by rewrite (D_bind_eq _ _ _ _ _ (wait_ready_ok _ k d1 c1 c2 eq_refl Hi Hk Hx)). }
  rewrite (D_bind_eq _ _ _ _ _ Hsel). cbn [negb]. rewrite (D_bind_eq _ _ _ _ _ (xmit_eq _ _)). cbn [ss with_card d1 card].
  rewrite talk_app in Ht. cbn [snd] in Ht. set (c3 := (talk true (cmd_frame cmd arg) c2).2) in *.
  assert (Hs : forall d2, ss d2 = true -> card d2 = c3 ->
    (if cmd =? CMD12 then rcvr1;; mret tt else mret tt) d2 = (tt, with_card (talk true (if cmd =? CMD12 then [255] else []) c3).2 d2)).
  { intros d2 H2 Hc3. destruct (cmd =? CMD12); [|cbn [talk snd]; rewrite <- Hc3; by destruct d2].
    rewrite (D_bind_eq _ _ _ _ _ (rcvr1_eq d2)), H2, Hc3, talk_cons. done. }
  erewrite D_bind_eq; [|by apply Hs]. etrans; [by apply (response_ok 10 skipped r _ c')|done].
Qed.

Lemma send_cmd_ok cmd arg r d c' :
  Z.land cmd 128 = 0 -> answers cmd arg r (card d) c' -> send_cmd cmd arg d = (r, mkDisk c' true (Stat d) (CardType d)).
Proof using. intros Hc. unfold send_cmd. rewrite Hc. apply send_plain_ok. Qed.

Lemma datablock_ok b k c1 c2 crc d :
  ss d = true -> idles (fun b => b =? 255) 100 k (card d) c1 -> (k < 1000)%nat -> length b = 512%nat -> length crc = 2%nat ->
  talk true (repeat 255 515) c1 = (254 :: b ++ crc, c2) -> rcvr_datablock 512 d = (Some b, with_card c2 d).
Proof using.
  intros Hs Hi Hk Hb Hcrc Ht. change (repeat 255 515) with (255 :: repeat 255 512 ++ repeat 255 2) in Ht.
  rewrite talk_cons, talk_app in Ht. pose proof (f_equal (fun p => hd 0 p.1) Ht) as H1.
  pose proof (f_equal (fun p => tail p.1) Ht) as H2. pose proof (f_equal snd Ht) as H3. clear Ht.
  cbn [fst snd hd tail] in H1, H2, H3. set (c3 := (xfer true 255 c1).2) in *.
  assert (Hx : xfer true 255 c1 = (254, c3)) by (unfold c3; rewrite <- H1; by destruct (xfer true 255 c1)).
  apply app_inj_1 in H2 as [H2 _]; [|by rewrite talk_length, repeat_length, Hb].
  unfold rcvr_datablock. rewrite (D_bind_eq _ _ _ _ _ (token_ok _ k d c1 c3 254 255 Hs Hi Hk Hx ltac:(lia))).
  change (negb (254 =? 254)) with false. cbn match. rewrite (D_bind_eq _ _ _ _ _ (rcvr_eq 512 _)).
  rewrite (D_bind_eq _ _ _ _ _ (rcvr_eq 2 _)). cbn [ss with_card card]. rewrite Hs, H2, H3. done.
Qed.

Lemma read_blocks_ok blocks d c' :
  ss d = true -> delivers blocks (card d) c' -> read_blocks (length blocks) d = ((0%nat, concat blocks), with_card c' d).
Proof using.
  revert d. induction blocks as [|b blocks IH]; intros d Hs; cbn [delivers].
  - intros <-. by destruct d.
  - intros (k & c1 & c2 & crc & H1 & H2 & H3 & H4 & H5 & H6). cbn [length read_blocks concat].
    rewrite (D_bind_eq _ _ _ _ _ (datablock_ok b k c1 c2 crc d Hs H1 H2 H3 H4 H5)).
    by rewrite (D_bind_eq _ _ _ _ _ (IH (with_card c2 d) Hs H6)).
Qed.

(** The card is there: its status is fine, and after the second byte of that it
    has been deselected. *)
Definition present (c c' : C) : Prop :=
  exists c1, answers CMD13 0 0 c c1 /\ c' = (talk false [255] (talk true [255] c1).2).2.

Lemma disk_status_ok d c' :
  Z.land (Stat d) STA_NOINIT = 0 -> present (card d) c' ->
  disk_status 0 d = (Stat d, mkDisk c' false (Stat d) (CardType d)).
Proof using.
  intros Hst (c1 & Ha & ->). unfold disk_status. change (negb (0 =? 0)) with false. cbn match.
  unfold mbind at 1, D_bind at 1, dget. rewrite Hst. change (0 =? 0) with true. cbn match.
  unfold mbind at 1, D_bind at 1. rewrite (D_bind_eq _ _ _ _ _ (send_cmd_ok CMD13 0 0 d c1 eq_refl Ha)).
  rewrite (D_bind_eq _ _ _ _ _ (rcvr1_eq _)), (D_bind_eq _ _ _ _ _ (deselect_eq _)). cbn [ss card with_card Stat CardType].
  rewrite (talk_cons true). reflexivity.
Qed.

(** (C25) Reading from a card that does its part: it is there, answers the read
    command for the sector (a byte address unless it counts in blocks)
    and delivers the blocks in time.  The call returns [RES_OK] and exactly the
    bytes of those blocks in order, without tokens and CRCs; more than one block
    are followed by the stop command. *)
Theorem disk_read_delivers sector blocks d c1 c2 c3 :
  let count := zlen blocks in
  0 < count -> Z.land (Stat d) STA_NOINIT = 0 -> present (card d) c1 ->
  answers (if count =? 1 then CMD17 else CMD18) (block_address (CardType d) sector) 0 c1 c2 -> delivers blocks c2 c3 ->
  (disk_read 0 sector count d).1 = (RES_OK, concat blocks).
Proof using.
  intros count Hc Hst Hp Ha Hd. unfold disk_read. rewrite (D_bind_eq _ _ _ _ _ (disk_status_ok d c1 Hst Hp)), Hst.
  change (negb (0 =? 0)) with false. cbn match. rewrite (proj2 (Z.eqb_neq count 0)) by lia.
  unfold mbind at 1, D_bind at 1, dget. cbn [CardType]. set (d1 := mkDisk c1 false (Stat d) (CardType d)).
  destruct (Z.eqb_spec count 1) as [H1|H1].
  - destruct blocks as [|b [|b2 blocks]]; [done| |unfold count, zlen in H1; simpl in H1; lia].
    destruct Hd as (k & c4 & c5 & crc & D1 & D2 & D3 & D4 & D5 & D6).
    set (d2 := mkDisk c2 true (Stat d) (CardType d)).
    pose proof (datablock_ok b k c4 c5 crc d2 eq_refl D1 D2 D3 D4 D5) as Hb.
    unfold mbind at 1, D_bind at 1. rewrite (D_bind_eq _ _ _ _ _ (send_cmd_ok CMD17 _ 0 d1 c2 eq_refl Ha)).
    change (0 =? 0) with true. cbn match. fold d2. rewrite (D_bind_eq _ _ _ _ _ Hb). unfold mret at 1, D_ret at 1.
    rewrite (D_bind_eq _ _ _ _ _ (deselect_eq _)). cbn [concat]. by rewrite app_nil_r.
  - set (d2 := mkDisk c2 true (Stat d) (CardType d)). pose proof (read_blocks_ok blocks d2 c3 eq_refl Hd) as Hb.
    unfold mbind at 1, D_bind at 1. rewrite (D_bind_eq _ _ _ _ _ (send_cmd_ok CMD18 _ 0 d1 c2 eq_refl Ha)).
    change (0 =? 0) with true. cbn match. fold d2. unfold count, zlen. rewrite Nat2Z.id, (D_bind_eq _ _ _ _ _ Hb).
    unfold mbind at 1, D_bind at 1. destruct (send_cmd CMD12 0 _) as [r d3]. unfold mret at 1, D_ret at 1.
    rewrite (D_bind_eq _ _ _ _ _ (deselect_eq _)). done.
Qed.

(** ** The type of the card *)

Definition a_type (t : Z) : Prop := t = 0 \/ t = CT_MMC \/ t = CT_SD1 \/ t = CT_SD2 \/ t = Z.lor CT_SD2 CT_BLOCK.

Lemma card_type_ends d : ends (fun t _ => a_type t) (card_type d).
Proof using.
  assert (Hr : forall t d, a_type t -> ends (fun t _ => a_type t) ((mret t : D Z) d)) by (intros; by apply ends_ret).
  assert (H0 : forall d, ends (fun t _ => a_type t) ((mret 0 : D Z) d)) by (intros; apply ends_ret; by left).
  unfold card_type. apply ends_bind, ends_any. intros r d1. destruct (r =? 1); [|apply H0].
  apply ends_bind, ends_any. intros r1 d2. destruct (r1 =? 1).
  - apply ends_bind, ends_any. intros buf d3. destruct (_ && _); [|apply H0].
    apply ends_bind, ends_any. intros [] d4; [|apply H0]. apply ends_bind, ends_any. intros r2 d5. destruct (r2 =? 0); [|apply H0].
    apply ends_bind, ends_any. intros buf2 d6. apply Hr. unfold a_type. destruct (negb _); tauto.
  - apply ends_bind, ends_any. intros r2 d3.
    assert (Ht : a_type (if r2 <=? 1 then (CT_SD1, ACMD41) else (CT_MMC, CMD1)).1) by (unfold a_type; destruct (_ <=? _); cbn [fst]; tauto).
    destruct (if r2 <=? 1 then _ else _) as [ty cmd]. cbn [fst] in Ht.
    apply ends_bind, ends_any. intros b d4. destruct (negb b); [apply H0|]. apply ends_bind, ends_any. intros r3 d5.
    apply Hr. destruct (negb _); [by left|done].
Qed.

(** Initialising drive 0, whatever the card answers: the card's type is one
    of the five the module knows, the answer and the stored status are 0 exactly
    when a card was recognised and [STA_NOINIT] when none was; any other
    drive is refused with nothing touched. *)
Theorem disk_initialize_type drv d :
  let r := disk_initialize drv d in
  if drv =? 0 then a_type (CardType r.2) /\ Stat r.2 = r.1 /\ r.1 = (if CardType r.2 =? 0 then STA_NOINIT else 0)
  else r = (3, d).
Proof using.
  intros r. unfold r, disk_initialize. destruct (Z.eqb_spec drv 0) as [->|Hd]; [|done]. change (negb (0 =? 0)) with false. cbn match.
  change (ends (fun a d => a_type (CardType d) /\ Stat d = a /\ a = (if CardType d =? 0 then STA_NOINIT else 0))
    ((init_port;; rcvr_mmc 10;; ty ← card_type; set_CardType ty;; set_Stat (if ty =? 0 then STA_NOINIT else 0);; deselect;;
      mret (if ty =? 0 then STA_NOINIT else 0)) d)).
  do 2 (apply ends_bind, ends_any; intros ? ?). apply ends_bind. eapply ends_mono; [|apply card_type_ends].
  intros ty d3 Ht. unfold mbind at 1, D_bind at 1, set_CardType. unfold mbind at 1, D_bind at 1, set_Stat.
  rewrite (D_bind_eq _ _ _ _ _ (deselect_eq _)). by apply ends_ret.
Qed.

End Diskio.

(** ** The number of sectors *)

(** The card's specific data as a number of 128 bits, and a field of it. *)
Definition csd_number (csd : list Z) : Z := foldl (fun n b => n * 256 + b) 0 csd.
Definition csd_field (csd : list Z) (hi lo : Z) : Z := (csd_number csd / 2 ^ lo) mod 2 ^ (hi - lo + 1).

(** Sectors by the card's standard: the capacity of a version 1 card is
    (C_SIZE + 1) * 2^(C_SIZE_MULT + 2) blocks of 2^READ_BL_LEN bytes, that of a
    version 2 card (C_SIZE + 1) times 512 KiB. *)
Definition csd_sectors (csd : list Z) : Z :=
  if csd_field csd 127 126 =? 1 then (csd_field csd 69 48 + 1) * 1024
  else (csd_field csd 73 62 + 1) * 2 ^ (csd_field csd 49 47 + 2 + csd_field csd 83 80 - 9).

Lemma field_split n x y z lo w : n = x * 2 ^ (lo + w) + y * 2 ^ lo + z -> 0 <= y < 2 ^ w -> 0 <= z < 2 ^ lo -> 0 <= lo -> 0 <= w ->
  (n / 2 ^ lo) mod 2 ^ w = y.
Proof.
  intros -> Hy Hz Hl Hw. rewrite Z.pow_add_r by lia.
  replace (x * (2 ^ lo * 2 ^ w) + y * 2 ^ lo + z) with (z + (x * 2 ^ w + y) * 2 ^ lo) by lia.
  rewrite Z.div_add by lia. rewrite (Z.div_small z) by done. rewrite Z.add_0_l, Z.add_comm, Z.mod_add by lia. by apply Z.mod_small.
Qed.

Lemma csd_foldl l n : foldl (fun n b => n * 256 + b) n l = n * 256 ^ zlen l + csd_number l.
Proof.
  unfold csd_number. revert n. induction l as [|b l IH]; intros n; cbn [foldl]; [unfold zlen; simpl; lia|].
  rewrite (IH (n * 256 + b)), (IH (0 * 256 + b)). assert (zlen (b :: l) = 1 + zlen l) as -> by (unfold zlen; simpl; lia).
  rewrite Z.pow_add_r by (pose proof (zlen_nonneg l); lia). lia.
Qed.

Lemma csd_app l1 l2 : csd_number (l1 ++ l2) = csd_number l1 * 256 ^ zlen l2 + csd_number l2.
Proof. unfold csd_number at 1. by rewrite foldl_app, csd_foldl. Qed.

Lemma csd_range l : Forall is_byte l -> 0 <= csd_number l < 256 ^ zlen l.
Proof.
  induction 1 as [|b l Hb Hl IH]; [unfold csd_number, zlen; simpl; lia|]. change (b :: l) with ([b] ++ l). rewrite csd_app.
  assert (zlen ([b] ++ l) = 1 + zlen l) as -> by (unfold zlen; simpl; lia).
  rewrite Z.pow_add_r by (pose proof (zlen_nonneg l); lia). unfold csd_number at 1 3. simpl. unfold is_byte in Hb. nia.
Qed.

(** A field within the bytes [l2] of [l1 ++ l2 ++ l3]. *)
Lemma csd_within l1 l2 l3 hi lo x y z :
  Forall is_byte (l1 ++ l2 ++ l3) -> csd_number l2 = x * 2 ^ (lo - 8 * zlen l3 + (hi - lo + 1)) + y * 2 ^ (lo - 8 * zlen l3) + z ->
  0 <= y < 2 ^ (hi - lo + 1) -> 0 <= z < 2 ^ (lo - 8 * zlen l3) -> 8 * zlen l3 <= lo <= hi -> hi < 8 * (zlen l2 + zlen l3) ->
  csd_field (l1 ++ l2 ++ l3) hi lo = y.
Proof.
  intros Hb Hn Hy Hz Hlo Hhi. apply Forall_app in Hb as [_ Hb]. apply Forall_app in Hb as [_ H3].
  pose proof (csd_range _ H3) as Hr. pose proof (zlen_nonneg l3) as Hl3. pose proof (zlen_nonneg l2) as Hl2.
  assert (Hp3 : 256 ^ zlen l3 = 2 ^ (8 * zlen l3)) by (change 256 with (2 ^ 8); rewrite <- Z.pow_mul_r by lia; done).
  assert (Hp2 : 256 ^ zlen l2 = 2 ^ (8 * zlen l2)) by (change 256 with (2 ^ 8); rewrite <- Z.pow_mul_r by lia; done).
  set (s := 8 * zlen l3) in *. set (e := 8 * zlen l2 - (hi - s + 1)) in *.
  unfold csd_field. apply (field_split _ (csd_number l1 * 2 ^ e + x) y (z * 2 ^ s + csd_number l3)); [|done| |lia|lia].
  - rewrite !csd_app. assert (zlen (l2 ++ l3) = zlen l2 + zlen l3) as -> by (unfold zlen; rewrite length_app; lia).
    rewrite Z.pow_add_r by lia. rewrite Hn, Hp3, Hp2.
    assert (H1 : 2 ^ (8 * zlen l2) = 2 ^ e * 2 ^ (lo - s + (hi - lo + 1))) by (rewrite <- Z.pow_add_r by (unfold e; lia); f_equal; unfold e; lia).
    assert (H2 : 2 ^ (lo + (hi - lo + 1)) = 2 ^ (lo - s + (hi - lo + 1)) * 2 ^ s) by (rewrite <- Z.pow_add_r by lia; f_equal; lia).
    assert (H4 : 2 ^ lo = 2 ^ (lo - s) * 2 ^ s) by (rewrite <- Z.pow_add_r by lia; f_equal; lia).
    rewrite H1, H2, H4. ring.
  - rewrite Hp3 in Hr. assert (H4 : 2 ^ lo = 2 ^ (lo - s) * 2 ^ s) by (rewrite <- Z.pow_add_r by lia; f_equal; lia). nia.
Qed.

Ltac field_tac :=
  unfold csd_number, zlen; cbn [foldl length Z.of_nat Pos.of_succ_nat Pos.succ];
  repeat match goal with |- context [2 ^ ?e] => let v := eval vm_compute in (2 ^ e) in change (2 ^ e) with v end;
  Z.div_mod_to_equations; lia.

(** The bytes of the fields. *)
Lemma csd_fields c0 c1 c2 c3 c4 c5 c6 c7 c8 c9 c10 c11 c12 c13 c14 c15 :
  let csd := [c0; c1; c2; c3; c4; c5; c6; c7; c8; c9; c10; c11; c12; c13; c14; c15] in
  Forall is_byte csd ->
  csd_field csd 127 126 = c0 / 64 /\ csd_field csd 69 48 = c7 mod 64 * 65536 + c8 * 256 + c9 /\
  csd_field csd 73 62 = c6 mod 4 * 1024 + c7 * 4 + c8 / 64 /\ csd_field csd 49 47 = c9 mod 4 * 2 + c10 / 128 /\
  csd_field csd 83 80 = c5 mod 16.
Proof.
  intros csd Hb. assert (Hby : forall i x, csd !! i = Some x -> is_byte x) by (intros i x; by apply Forall_lookup_1).
  pose proof (Hby 0%nat c0 eq_refl). pose proof (Hby 5%nat c5 eq_refl). pose proof (Hby 6%nat c6 eq_refl).
  pose proof (Hby 7%nat c7 eq_refl). pose proof (Hby 8%nat c8 eq_refl). pose proof (Hby 9%nat c9 eq_refl).
  pose proof (Hby 10%nat c10 eq_refl). unfold is_byte in *. clear Hby. split_and!.
  - apply (csd_within [] [c0] [c1; c2; c3; c4; c5; c6; c7; c8; c9; c10; c11; c12; c13; c14; c15] 127 126 0 (c0 / 64) (c0 mod 64));
      [done|field_tac..].
  - apply (csd_within [c0; c1; c2; c3; c4; c5; c6] [c7; c8; c9] [c10; c11; c12; c13; c14; c15] 69 48 (c7 / 64)
      (c7 mod 64 * 65536 + c8 * 256 + c9) 0); [done|field_tac..].
  - apply (csd_within [c0; c1; c2; c3; c4; c5] [c6; c7; c8] [c9; c10; c11; c12; c13; c14; c15] 73 62 (c6 / 4)
      (c6 mod 4 * 1024 + c7 * 4 + c8 / 64) (c8 mod 64)); [done|field_tac..].
  - apply (csd_within [c0; c1; c2; c3; c4; c5; c6; c7; c8] [c9; c10] [c11; c12; c13; c14; c15] 49 47 (c9 / 4)
      (c9 mod 4 * 2 + c10 / 128) (c10 mod 128)); [done|field_tac..].
  - apply (csd_within [c0; c1; c2; c3; c4] [c5] [c6; c7; c8; c9; c10; c11; c12; c13; c14; c15] 83 80 (c5 / 16)
      (c5 mod 16) 0); [done|field_tac..].
Qed.

Lemma land_top b : 0 <= b < 256 -> Z.shiftr (Z.land b 128) 7 = b / 128.
Proof.
  intros Hb. rewrite Z.shiftr_land. change (Z.shiftr 128 7) with (Z.ones 1). rewrite Z.land_ones, Z.shiftr_div_pow2 by lia.
  apply Z.mod_small. change (2 ^ 7) with 128. change (2 ^ 1) with 2. Z.div_mod_to_equations. lia.
Qed.

(** The number of sectors from the card's specific data.  For a version 1
    card it is the capacity the standard defines, in units of 512 bytes, for
    every block length of at least 512 bytes, without overflow on the way.  For
    a version 2 card it is that too as long as C_SIZE + 1 fits in 16 bits, which
    are the cards up to 32 GB; of a larger C_SIZE the upper bits are lost. *)
Theorem sector_count_spec csd :
  length csd = 16%nat -> Forall is_byte csd ->
  (csd_field csd 127 126 <> 1 -> 9 <= csd_field csd 83 80 -> sector_count csd = csd_sectors csd) /\
  (csd_field csd 127 126 = 1 ->
    sector_count csd = (csd_field csd 69 48 + 1) mod 2 ^ 16 * 1024 /\
    (csd_field csd 69 48 + 1 < 2 ^ 16 -> sector_count csd = csd_sectors csd)).
Proof.
  intros Hl Hb.
  destruct csd as [|c0 [|c1 [|c2 [|c3 [|c4 [|c5 [|c6 [|c7 [|c8 [|c9 [|c10 [|c11 [|c12 [|c13 [|c14 [|c15 [|]]]]]]]]]]]]]]]]]; try done.
  destruct (csd_fields c0 c1 c2 c3 c4 c5 c6 c7 c8 c9 c10 c11 c12 c13 c14 c15 Hb) as (F0 & F1 & F2 & F3 & F4).
  unfold csd_sectors. rewrite F0, F1, F2, F3, F4. unfold sector_count. cbn [nth].
  assert (Hby : forall x, x ∈ [c0; c5; c6; c7; c8; c9; c10] -> is_byte x).
  { intros x Hx. rewrite Forall_forall in Hb. apply Hb. set_solver. }
  unfold is_byte in Hby. pose proof (Hby c0 ltac:(set_solver)). pose proof (Hby c5 ltac:(set_solver)).
  pose proof (Hby c6 ltac:(set_solver)). pose proof (Hby c7 ltac:(set_solver)). pose proof (Hby c8 ltac:(set_solver)).
  pose proof (Hby c9 ltac:(set_solver)). pose proof (Hby c10 ltac:(set_solver)). clear Hby Hb Hl F0 F1 F2 F3 F4.
  rewrite (land_top c10) by done. change 15 with (Z.ones 4). change 3 with (Z.ones 2).
  rewrite !Z.land_ones, !Z.shiftr_div_pow2 by lia.
  change (2 ^ 6) with 64. change (2 ^ 2) with 4. change (2 ^ 4) with 16.
  destruct (Z.eqb_spec (c0 / 64) 1) as [Hv|Hv]; split; intros Hx; try done.
  - rewrite !Z.shiftl_mul_pow2 by lia. change (2 ^ 8) with 256. change (2 ^ 10) with 1024.
    assert (Hw : (c9 + c8 * 256 + 1) mod 2 ^ 16 = (c7 mod 64 * 65536 + c8 * 256 + c9 + 1) mod 2 ^ 16).
    { replace (c7 mod 64 * 65536 + c8 * 256 + c9 + 1) with (c9 + c8 * 256 + 1 + c7 mod 64 * 2 ^ 16) by lia. by rewrite Z.mod_add. }
    pose proof (Z.mod_pos_bound (c9 + c8 * 256 + 1) (2 ^ 16) ltac:(lia)) as Hr.
    rewrite (wrap_small 32) by (unfold fits, wrap; lia). unfold wrap. rewrite Hw. split; [done|].
    intros Hlt. rewrite Z.mod_small; [done|]. Z.div_mod_to_equations. lia.
  - intros Hlen. rewrite (Z.shiftl_mul_pow2 (c9 mod 4)), (Z.shiftl_mul_pow2 c7), (Z.shiftl_mul_pow2 (c6 mod 4)) by lia.
    change (2 ^ 1) with 2. change (2 ^ 2) with 4. change (2 ^ 10) with 1024.
    rewrite (wrap_small 8), (wrap_small 16) by (unfold fits; Z.div_mod_to_equations; lia).
    set (n := c5 mod 16 + c10 / 128 + c9 mod 4 * 2 + 2). set (cs := c8 / 64 + c7 * 4 + c6 mod 4 * 1024 + 1).
    assert (Hn : 11 <= n <= 24) by (unfold n; Z.div_mod_to_equations; lia).
    assert (Hcs : 0 <= cs <= 4096) by (unfold cs; Z.div_mod_to_equations; lia).
    rewrite Z.shiftl_mul_pow2 by lia.
    assert (Hp : 0 < 2 ^ (n - 9) <= 2 ^ 15) by (split; [apply Z.pow_pos_nonneg; lia|apply Z.pow_le_mono_r; lia]).
    rewrite (wrap_small 32) by (unfold fits; nia). unfold n, cs. f_equal; [lia|f_equal; lia].
Qed.

(** ** A card that plays a script *)

#[export] Instance script : Card (list Z).
Proof.
  refine {| xfer := fun _ _ c => match c with [] => (255, []) | b :: c => (u8 b, c) end; tick := fun c => c |}.
  intros _ _ [|b c]; simpl; [lia|]. by apply wrap_range.
Defined.

(** Ready at once, the answer 0 to the command. *)
Definition says_0 : list Z := repeat 255 9 ++ [0].

(** A card that is there, takes a read command and sends a block of sevens. *)
Definition card_of_sevens : list Z := says_0 ++ [0; 255] ++ says_0 ++ [254] ++ repeat 7 512 ++ [1; 2].

Lemma says_0_answers cmd arg c :
  (cmd =? CMD12) = false -> answers cmd arg 0 (says_0 ++ c) c.
Proof.
  intros Hc. exists 0%nat, (repeat 255 7 ++ [0] ++ c), (repeat 255 6 ++ [0] ++ c), []. rewrite Hc, app_nil_r.
  split_and!; [apply idles_none|lia|done|done|simpl; lia|constructor|done].
Qed.

Lemma disk_read_delivers_witness :
  (disk_read 0 5 1 (mkDisk card_of_sevens false 0 CT_SD1)).1 = (RES_OK, repeat 7 512).
Proof.
  assert (Hp : present card_of_sevens (says_0 ++ [254] ++ repeat 7 512 ++ [1; 2])).
  { exists ([0; 255] ++ says_0 ++ [254] ++ repeat 7 512 ++ [1; 2]). split; [by apply says_0_answers|done]. }
  assert (Hd : delivers [repeat 7 512] ([254] ++ repeat 7 512 ++ [1; 2]) []).
  { exists 0%nat, ([254] ++ repeat 7 512 ++ [1; 2]), [], [1; 2].
    split_and!; [apply idles_none|lia|done|done|by vm_compute|done]. }
  assert (Ha : answers CMD17 (block_address CT_SD1 5) 0 (says_0 ++ [254] ++ repeat 7 512 ++ [1; 2]) ([254] ++ repeat 7 512 ++ [1; 2]))
    by (by apply says_0_answers).
  exact (disk_read_delivers 5 [repeat 7 512] (mkDisk card_of_sevens false 0 CT_SD1) _ _ _ eq_refl eq_refl Hp Ha Hd).
Defined.

(** No card: idle for ever. *)
Lemma disk_read_answers_witness : read_result 2 (disk_read 0 5 2 (mkDisk ([] : list Z) false 0 CT_SD1)).1.
Proof.
  assert (Hc : 0 <= 2) by lia. exact (proj1 (disk_read_answers 0 5 2 (mkDisk ([] : list Z) false 0 CT_SD1) Hc)).
Defined.

Lemma disk_bus_released_witness : ss (disk_read 0 5 2 (mkDisk ([] : list Z) false 0 CT_SD1)).2 = false.
Proof.
  exact (proj1 (proj2 (proj2 (disk_bus_released 0 5 2 0 [] (mkDisk ([] : list Z) false 0 CT_SD1) eq_refl)))).
Defined.

(** A card of 2 GB, version 1, and one of 33 GB, version 2, of which only
    32768 sectors are left. *)
Definition csd_2G : list Z := [0; 46; 0; 50; 91; 90; 131; 213; 109; 183; 255; 128; 22; 128; 0; 145].
Definition csd_33G : list Z := [64; 14; 0; 50; 91; 89; 1; 1; 0; 31; 127; 128; 10; 64; 0; 1].

Lemma sector_count_spec_witness : sector_count csd_2G = csd_sectors csd_2G /\ sector_count csd_33G = 32 * 1024.
Proof.
  assert (H1 : Forall is_byte csd_2G) by (repeat constructor; done).
  assert (H2 : Forall is_byte csd_33G) by (repeat constructor; done). split.
  - refine (proj1 (sector_count_spec csd_2G eq_refl H1) _ _); by vm_compute.
  - pose proof (proj1 (proj2 (sector_count_spec csd_33G eq_refl H2) ltac:(by vm_compute))) as H. exact H.
Defined.

Example sectors_of_33G : csd_sectors csd_33G = 65568 * 1024.
Proof. by vm_compute. Qed.
