(* ===== verification/FatVol.v ===== *)
(** * The volume below the files: fatfs/ff.c up to [clust2sect]

    The disk as the file system sees it, the file-system object with its window
    of one sector, moving the window, and flushing it. *)

From S2P Require Import Prelude Diskio.

(** ** Results *)

Inductive FRESULT :=
| FR_OK | FR_DISK_ERR | FR_INT_ERR | FR_NOT_READY | FR_NO_FILE | FR_NO_PATH | FR_INVALID_NAME | FR_DENIED | FR_EXIST
| FR_INVALID_OBJECT | FR_WRITE_PROTECTED | FR_INVALID_DRIVE | FR_NOT_ENABLED | FR_NO_FILESYSTEM | FR_MKFS_ABORTED
| FR_TIMEOUT | FR_LOCKED | FR_NOT_ENOUGH_CORE | FR_TOO_MANY_OPEN_FILES | FR_INVALID_PARAMETER.

#[export] Instance FRESULT_eq_dec : EqDecision FRESULT.
Proof. solve_decision. Defined.

Definition decode_fres (res : FRESULT) : string :=
  match res with
  | FR_OK => "Succeeded"
  | FR_DISK_ERR => "A hard error occured in the low level disk I/O layer"
  | FR_INT_ERR => "Assertion failed"
  | FR_NOT_READY => "The physical drive cannot work"
  | FR_NO_FILE => "Could not find the file"
  | FR_NO_PATH => "Could not find the path"
  | FR_INVALID_NAME => "The path name format is invalid"
  | FR_DENIED => "Access denied due to prohibited access or directory full"
  | FR_EXIST => "Access denied due to prohibited access"
  | FR_INVALID_OBJECT => "The file/directory object is invalid"
  | FR_WRITE_PROTECTED => "The physical drive is write protected"
  | FR_INVALID_DRIVE => "The logical drive number is invalid"
  | FR_NOT_ENABLED => "The volume has no work area"
  | FR_NO_FILESYSTEM => "There is no valid FAT volume"
  | FR_MKFS_ABORTED => "f_mkfs() aborted due to any parameter error"
  | FR_TIMEOUT => "Could not get a grant to access the volume within defined period"
  | FR_LOCKED => "The operation is rejected according to the file sharing policy"
  | FR_NOT_ENOUGH_CORE => "LFN working buffer could not be allocated"
  | FR_TOO_MANY_OPEN_FILES => "Number of open files > _FS_SHARE"
  | FR_INVALID_PARAMETER => "Given parameter is invalid"
  end.

(** ** The disk, as the file system calls it *)

(** The five calls of diskio.h on a state of the disk.  A read promises what
    [disk_read] does: [RES_OK] only with all the bytes, and the bytes it stored
    otherwise. *)
Class Disk (DK : Type) := {
  d_initialize : Z -> DK -> Z * DK;
  d_status : Z -> DK -> Z * DK;
  d_read : Z -> Z -> Z -> DK -> DRESULT * list Z * DK;
  d_write : Z -> list (list Z) -> Z -> DK -> DRESULT * DK;
  d_ioctl : Z -> Z -> DK -> DRESULT * option Z * DK;
  d_read_result drv sector count d : 0 <= count -> read_result count (d_read drv sector count d).1
}.

(** The module behind an SD card is such a disk. *)
#[export] Instance card_disk {C : Type} {HC : Card C} : Disk disk := {
  d_initialize := disk_initialize;
  d_status := disk_status;
  d_read := disk_read;
  d_write := disk_write;
  d_ioctl := disk_ioctl;
  d_read_result := disk_read_ends
}.

(** ** Bytes and words of the FAT structures *)

Definition mem_set (val : Z) (cnt : Z) : list Z := replicate (Z.to_nat cnt) (u8 val).

(** [mem_cpy(dst + o, l, zlen l)]. *)
Definition mem_cpy (dst : list Z) (o : Z) (l : list Z) : list Z :=
  take (Z.to_nat o) dst ++ l ++ drop (Z.to_nat o + length l) dst.

(** The difference of the first bytes that differ, 0 when none of [cnt] does. *)
Fixpoint mem_cmp (dst src : list Z) (cnt : nat) : Z :=
  match cnt, dst, src with
  | S n, d :: dst, s :: src => if d - s =? 0 then mem_cmp dst src n else d - s
  | _, _, _ => 0
  end.

(** The character found, or the terminator. *)
Fixpoint chk_chr (str : list Z) (chr : Z) : Z :=
  match str with
  | [] => 0
  | c :: str => if c =? chr then c else chk_chr str chr
  end.

Definition byte_at (p : list Z) (i : Z) : Z := nth (Z.to_nat i) p 0.

Definition LD_WORD (p : list Z) : Z := u16 (Z.lor (Z.shiftl (byte_at p 1) 8) (byte_at p 0)).
Definition LD_DWORD (p : list Z) : Z :=
  u32 (Z.lor (Z.lor (Z.lor (Z.shiftl (byte_at p 3) 24) (Z.shiftl (byte_at p 2) 16)) (Z.shiftl (byte_at p 1) 8)) (byte_at p 0)).
Definition ST_WORD (val : Z) : list Z := [u8 val; u8 (Z.shiftr (u16 val) 8)].
Definition ST_DWORD (val : Z) : list Z :=
  [u8 val; u8 (Z.shiftr (u16 val) 8); u8 (Z.shiftr (u32 val) 16); u8 (Z.shiftr (u32 val) 24)].

#[export] Instance is_byte_dec b : Decision (is_byte b).
Proof. unfold is_byte. apply _. Defined.

(** ** The file-system object *)

Definition FS_FAT12 : Z := 1.
Definition FS_FAT16 : Z := 2.
Definition FS_FAT32 : Z := 3.

(** The bytes of a sector; [_MAX_SS]. *)
Definition SS : Z := 512.

Record FATFS := mkFs {
  fs_type : Z;
  drv : Z;
  csize : Z;
  n_fats : Z;
  wflag : bool;
  fsi_flag : bool;
  fs_id : Z;
  n_rootdir : Z;
  last_clust : Z;
  free_clust : Z;
  fsi_sector : Z;
  cdir : Z;
  n_fatent : Z;
  fsize : Z;
  fatbase : Z;
  dirbase : Z;
  database : Z;
  winsect : Z;
  win : list Z
}.

Definition with_window (wf : bool) (ws : Z) (w : list Z) (f : FATFS) : FATFS :=
  mkFs (fs_type f) (drv f) (csize f) (n_fats f) wf (fsi_flag f) (fs_id f) (n_rootdir f) (last_clust f) (free_clust f)
    (fsi_sector f) (cdir f) (n_fatent f) (fsize f) (fatbase f) (dirbase f) (database f) ws w.
Definition set_wflag (b : bool) (f : FATFS) : FATFS := with_window b (winsect f) (win f) f.
Definition set_winsect (s : Z) (f : FATFS) : FATFS := with_window (wflag f) s (win f) f.
Definition set_win (w : list Z) (f : FATFS) : FATFS := with_window (wflag f) (winsect f) w f.

(** The counts kept for the FSInfo sector. *)
Definition with_fsinfo (flag : bool) (last free : Z) (f : FATFS) : FATFS :=
  mkFs (fs_type f) (drv f) (csize f) (n_fats f) (wflag f) flag (fs_id f) (n_rootdir f) last free
    (fsi_sector f) (cdir f) (n_fatent f) (fsize f) (fatbase f) (dirbase f) (database f) (winsect f) (win f).
Definition set_fsi_flag (b : bool) (f : FATFS) : FATFS := with_fsinfo b (last_clust f) (free_clust f) f.
Definition set_last_clust (c : Z) (f : FATFS) : FATFS := with_fsinfo (fsi_flag f) c (free_clust f) f.
Definition set_free_clust (n : Z) (f : FATFS) : FATFS := with_fsinfo (fsi_flag f) (last_clust f) n f.

(** The members that mounting sets. *)
Definition set_fs_type (x : Z) (f : FATFS) : FATFS :=
    mkFs x (drv f) (csize f) (n_fats f) (wflag f) (fsi_flag f) (fs_id f) (n_rootdir f) (last_clust f) (free_clust f)
    (fsi_sector f) (cdir f) (n_fatent f) (fsize f) (fatbase f) (dirbase f) (database f) (winsect f) (win f).
Definition set_drv (x : Z) (f : FATFS) : FATFS :=
    mkFs (fs_type f) x (csize f) (n_fats f) (wflag f) (fsi_flag f) (fs_id f) (n_rootdir f) (last_clust f) (free_clust
    f) (fsi_sector f) (cdir f) (n_fatent f) (fsize f) (fatbase f) (dirbase f) (database f) (winsect f) (win f).
Definition set_csize (x : Z) (f : FATFS) : FATFS :=
    mkFs (fs_type f) (drv f) x (n_fats f) (wflag f) (fsi_flag f) (fs_id f) (n_rootdir f) (last_clust f) (free_clust f)
    (fsi_sector f) (cdir f) (n_fatent f) (fsize f) (fatbase f) (dirbase f) (database f) (winsect f) (win f).
Definition set_n_fats (x : Z) (f : FATFS) : FATFS :=
    mkFs (fs_type f) (drv f) (csize f) x (wflag f) (fsi_flag f) (fs_id f) (n_rootdir f) (last_clust f) (free_clust f)
    (fsi_sector f) (cdir f) (n_fatent f) (fsize f) (fatbase f) (dirbase f) (database f) (winsect f) (win f).
Definition set_fs_id (x : Z) (f : FATFS) : FATFS :=
    mkFs (fs_type f) (drv f) (csize f) (n_fats f) (wflag f) (fsi_flag f) x (n_rootdir f) (last_clust f) (free_clust f)
    (fsi_sector f) (cdir f) (n_fatent f) (fsize f) (fatbase f) (dirbase f) (database f) (winsect f) (win f).
Definition set_n_rootdir (x : Z) (f : FATFS) : FATFS :=
    mkFs (fs_type f) (drv f) (csize f) (n_fats f) (wflag f) (fsi_flag f) (fs_id f) x (last_clust f) (free_clust f)
    (fsi_sector f) (cdir f) (n_fatent f) (fsize f) (fatbase f) (dirbase f) (database f) (winsect f) (win f).
Definition set_fsi_sector (x : Z) (f : FATFS) : FATFS :=
    mkFs (fs_type f) (drv f) (csize f) (n_fats f) (wflag f) (fsi_flag f) (fs_id f) (n_rootdir f) (last_clust f)
    (free_clust f) x (cdir f) (n_fatent f) (fsize f) (fatbase f) (dirbase f) (database f) (winsect f) (win f).
Definition set_cdir (x : Z) (f : FATFS) : FATFS :=
    mkFs (fs_type f) (drv f) (csize f) (n_fats f) (wflag f) (fsi_flag f) (fs_id f) (n_rootdir f) (last_clust f)
    (free_clust f) (fsi_sector f) x (n_fatent f) (fsize f) (fatbase f) (dirbase f) (database f) (winsect f) (win f).
Definition set_n_fatent (x : Z) (f : FATFS) : FATFS :=
    mkFs (fs_type f) (drv f) (csize f) (n_fats f) (wflag f) (fsi_flag f) (fs_id f) (n_rootdir f) (last_clust f)
    (free_clust f) (fsi_sector f) (cdir f) x (fsize f) (fatbase f) (dirbase f) (database f) (winsect f) (win f).
Definition set_fsize (x : Z) (f : FATFS) : FATFS :=
    mkFs (fs_type f) (drv f) (csize f) (n_fats f) (wflag f) (fsi_flag f) (fs_id f) (n_rootdir f) (last_clust f)
    (free_clust f) (fsi_sector f) (cdir f) (n_fatent f) x (fatbase f) (dirbase f) (database f) (winsect f) (win f).
Definition set_fatbase (x : Z) (f : FATFS) : FATFS :=
    mkFs (fs_type f) (drv f) (csize f) (n_fats f) (wflag f) (fsi_flag f) (fs_id f) (n_rootdir f) (last_clust f)
    (free_clust f) (fsi_sector f) (cdir f) (n_fatent f) (fsize f) x (dirbase f) (database f) (winsect f) (win f).
Definition set_dirbase (x : Z) (f : FATFS) : FATFS :=
    mkFs (fs_type f) (drv f) (csize f) (n_fats f) (wflag f) (fsi_flag f) (fs_id f) (n_rootdir f) (last_clust f)
    (free_clust f) (fsi_sector f) (cdir f) (n_fatent f) (fsize f) (fatbase f) x (database f) (winsect f) (win f).
Definition set_database (x : Z) (f : FATFS) : FATFS :=
    mkFs (fs_type f) (drv f) (csize f) (n_fats f) (wflag f) (fsi_flag f) (fs_id f) (n_rootdir f) (last_clust f)
    (free_clust f) (fsi_sector f) (cdir f) (n_fatent f) (fsize f) (fatbase f) (dirbase f) x (winsect f) (win f).

Section FatVol.

Context {DK : Type} {HD : Disk DK}.

Record vol := mkVol { fatfs : FATFS; dev : DK }.

(** Programs on the volume; [None] is an access outside the window, a null
    pointer, or a loop that does not end. *)
Definition F (A : Type) : Type := vol -> option (A * vol).

#[local] Instance F_ret : MRet F := fun A a v => Some (a, v).
#[local] Instance F_bind : MBind F := fun A B f p v =>
  match p v with Some (a, v') => f a v' | None => None end.

Definition stuck {A} : F A := fun _ => None.
Definition fs_get : F FATFS := fun v => Some (fatfs v, v).
Definition fs_mod (f : FATFS -> FATFS) : F unit := fun v => Some (tt, mkVol (f (fatfs v)) (dev v)).
Definition on_dev {A} (p : DK -> A * DK) : F A := fun v => let '(a, d) := p (dev v) in Some (a, mkVol (fatfs v) d).

(** Bytes of the window through a pointer [win + o]. *)
Definition win_bytes (o n : Z) : F (list Z) :=
  f ← fs_get;
  if (0 <=? o) && (o + n <=? zlen (win f)) then mret (take (Z.to_nat n) (drop (Z.to_nat o) (win f))) else stuck.
Definition win_at (o : Z) : F Z := l ← win_bytes o 1; mret (byte_at l 0).
Definition win_put (o : Z) (l : list Z) : F unit :=
  f ← fs_get;
  if (0 <=? o) && (o + zlen l <=? zlen (win f)) then fs_mod (set_win (mem_cpy (win f) o l)) else stuck.

(** [disk_write(fs->drv, fs->win, sect, 1)] and the like. *)
Definition write_win (sect : Z) : F DRESULT := f ← fs_get; on_dev (d_write (drv f) [win f] sect).
Definition read_win (sect : Z) : F DRESULT :=
  f ← fs_get;
  '(r, l) ← on_dev (d_read (drv f) sect 1);
  fs_mod (set_win (mem_cpy (win f) 0 l));;
  mret r.

(** The other copies of the FAT, whose errors are ignored. *)
Fixpoint fat_copies (nf : nat) (wsect : Z) : F unit :=
  match nf with
  | O => mret tt
  | S n =>
      f ← fs_get;
      let wsect := u32 (wsect + fsize f) in
      write_win wsect;;
      fat_copies n wsect
  end.

(** A dirty window is written back. *)
Definition write_back (wsect : Z) : F FRESULT :=
  f ← fs_get;
  if wflag f then
    r ← write_win wsect;
    match r with
    | RES_OK =>
        fs_mod (set_wflag false);;
        (if wsect <? u32 (fatbase f + fsize f) then fat_copies (Z.to_nat (n_fats f - 1)) wsect else mret tt);;
        mret FR_OK
    | _ => mret FR_DISK_ERR
    end
  else mret FR_OK.

Definition move_window (sector : Z) : F FRESULT :=
  f ← fs_get;
  let wsect := winsect f in
  if wsect =? sector then mret FR_OK
  else
    r ← write_back wsect;
    match r with
    | FR_OK =>
        if sector =? 0 then mret FR_OK
        else
          r ← read_win sector;
          match r with
          | RES_OK => fs_mod (set_winsect sector);; mret FR_OK
          | _ => mret FR_DISK_ERR
          end
    | e => mret e
    end.

(** The image of the FSInfo sector. *)
Definition fsinfo (f : FATFS) : list Z :=
  let w := mem_set 0 512 in
  let w := mem_cpy w 510 (ST_WORD 43605) in
  let w := mem_cpy w 0 (ST_DWORD 1096897106) in
  let w := mem_cpy w 484 (ST_DWORD 1631679090) in
  let w := mem_cpy w 488 (ST_DWORD (free_clust f)) in
  mem_cpy w 492 (ST_DWORD (last_clust f)).

Definition sync : F FRESULT :=
  r ← move_window 0;
  match r with
  | FR_OK =>
      f ← fs_get;
      (if (fs_type f =? FS_FAT32) && fsi_flag f then
         fs_mod (set_winsect 0);;
         fs_mod (set_win (fsinfo f));;
         write_win (fsi_sector f);;
         fs_mod (set_fsi_flag false)
       else mret tt);;
      '(r, _) ← on_dev (d_ioctl (drv f) CTRL_SYNC);
      match r with RES_OK => mret FR_OK | _ => mret FR_DISK_ERR end
  | e => mret e
  end.

(** The first sector of a cluster; 0: no such cluster. *)
Definition clust2sect (f : FATFS) (clst : Z) : Z :=
  let clst := u32 (clst - 2) in
  if u32 (n_fatent f - 2) <=? clst then 0 else u32 (clst * csize f + database f).

(** ** Running a program *)

(** [p] neither gets stuck nor runs out of turns, and [Q] holds of what it
    answers and leaves. *)
Definition fwp {A} (p : F A) (Q : A -> vol -> Prop) (v : vol) : Prop :=
  match p v with Some (a, v') => Q a v' | None => False end.

Lemma fwp_ret {A} (a : A) Q v : Q a v -> fwp (mret a) Q v.
Proof using. done. Qed.

Lemma fwp_bind {A B} (p : F A) (k : A -> F B) Q v : fwp p (fun a v' => fwp (k a) Q v') v -> fwp (p ≫= k) Q v.
Proof using. unfold fwp, mbind, F_bind. by destruct (p v) as [[a v']|]. Qed.

Lemma fwp_mono {A} (p : F A) (Q Q' : A -> vol -> Prop) v : (forall a v', Q a v' -> Q' a v') -> fwp p Q v -> fwp p Q' v.
Proof using. unfold fwp. destruct (p v) as [[a v']|]; [eauto|done]. Qed.

Lemma fwp_get Q v : Q (fatfs v) v -> fwp fs_get Q v.
Proof using. done. Qed.

Lemma fwp_mod f Q v : Q tt (mkVol (f (fatfs v)) (dev v)) -> fwp (fs_mod f) Q v.
Proof using. done. Qed.

Lemma fwp_dev {A} (p : DK -> A * DK) (Q : A -> vol -> Prop) v :
  (forall a d, p (dev v) = (a, d) -> Q a (mkVol (fatfs v) d)) -> fwp (on_dev p) Q v.
Proof using. intros H. unfold fwp, on_dev. destruct (p (dev v)) as [a d] eqn:E. by apply H. Qed.

Lemma fwp_run {A} (p : F A) Q v : fwp p Q v -> exists a v', p v = Some (a, v') /\ Q a v'.
Proof using. unfold fwp. destruct (p v) as [[a v']|]; [eauto|done]. Qed.

End FatVol.

#[export] Existing Instance F_ret.
#[export] Existing Instance F_bind.
