(* ===== verification/FatBytes.v ===== *)
(** * Bytes, words and nibbles of the FAT structures

    What the access macros of fatfs/ff.h compute, as arithmetic. *)

From S2P Require Import Prelude Diskio FatVol.

Lemma lor_add n a b : 0 <= n -> fits n a -> Z.lor (Z.shiftl b n) a = b * 2 ^ n + a.
Proof.
  intros Hn Ha. rewrite <- Z.lxor_lor, <- Z.add_nocarry_lxor, Z.shiftl_mul_pow2 by (done || (bit_eq i; destruct (Z.ltb_spec i n);
    [rewrite (Z.testbit_neg_r b) by lia; done|rewrite (fits_testbit n a) by (done || lia); apply andb_false_r])). done.
Qed.

Lemma land_mod x n : 0 <= n -> Z.land x (2 ^ n - 1) = x mod 2 ^ n.
Proof. intros. rewrite <- Z.land_ones by done. f_equal. rewrite Z.ones_equiv. lia. Qed.

Lemma shiftr_div x n : 0 <= n -> Z.shiftr x n = x / 2 ^ n.
Proof. apply Z.shiftr_div_pow2. Qed.

Lemma byte_fits b : is_byte b -> fits 8 b.
Proof. done. Qed.

Lemma byte_at_byte p i : Forall is_byte p -> is_byte (byte_at p i).
Proof.
  intros Hp. unfold byte_at. destruct (nth_in_or_default (Z.to_nat i) p 0) as [Hi| ->]; [|unfold is_byte; lia].
  by apply (proj1 (Forall_forall _ _) Hp), list_elem_of_In.
Qed.

(** ** Loads *)

Lemma ld_word p : Forall is_byte p -> LD_WORD p = byte_at p 0 + 256 * byte_at p 1.
Proof.
  intros Hp. pose proof (byte_at_byte p 0 Hp). pose proof (byte_at_byte p 1 Hp). unfold is_byte in *.
  unfold LD_WORD. rewrite lor_add by (done || lia). rewrite wrap_small by (unfold fits; lia). lia.
Qed.

Lemma ld_dword p :
  Forall is_byte p -> LD_DWORD p = byte_at p 0 + 256 * byte_at p 1 + 65536 * byte_at p 2 + 16777216 * byte_at p 3.
Proof.
  intros Hp. pose proof (byte_at_byte p 0 Hp). pose proof (byte_at_byte p 1 Hp).
  pose proof (byte_at_byte p 2 Hp). pose proof (byte_at_byte p 3 Hp). unfold is_byte in *.
  unfold LD_DWORD. rewrite <- !Z.lor_assoc. rewrite (lor_add 8) by (done || lia).
  rewrite (lor_add 16) by (unfold fits; lia). rewrite (lor_add 24) by (unfold fits; lia).
  rewrite wrap_small by (unfold fits; lia). lia.
Qed.

Lemma ld_word_range p : 0 <= LD_WORD p < 2 ^ 16.
Proof. apply wrap_range. lia. Qed.

Lemma ld_dword_range p : 0 <= LD_DWORD p < 2 ^ 32.
Proof. apply wrap_range. lia. Qed.

(** ** Stores *)

Lemma u8_shift w x n : 0 <= n -> n + 8 <= w -> u8 (Z.shiftr (wrap w x) n) = (x / 2 ^ n) mod 256.
Proof.
  intros Hn Hw. unfold wrap. rewrite shiftr_div by lia. change (2 ^ 8) with 256.
  apply Z.bits_inj'. intros i Hi. change 256 with (2 ^ 8).
  rewrite !Z.testbit_mod_pow2, !Z.div_pow2_bits by lia. destruct (Z.ltb_spec i 8); [|done].
  rewrite Z.testbit_mod_pow2 by lia. zbool. done.
Qed.

Lemma st_word x : ST_WORD x = [x mod 256; (x / 256) mod 256].
Proof. unfold ST_WORD. rewrite (u8_shift 16) by lia. done. Qed.

Lemma st_dword x : ST_DWORD x = [x mod 256; (x / 256) mod 256; (x / 65536) mod 256; (x / 16777216) mod 256].
Proof. unfold ST_DWORD. rewrite (u8_shift 16), (u8_shift 32 x 16), (u8_shift 32 x 24) by lia. done. Qed.

(** ** Parts of a buffer *)

Lemma byte_at_part w o n i : 0 <= o -> 0 <= i < n -> byte_at (take (Z.to_nat n) (drop (Z.to_nat o) w)) i = byte_at w (o + i).
Proof.
  intros Ho Hi. unfold byte_at. rewrite !nth_lookup. f_equal.
  rewrite lookup_take_lt, lookup_drop by lia. f_equal. lia.
Qed.

Lemma byte_at_cpy w o l i :
  0 <= o -> 0 <= i -> o + zlen l <= zlen w ->
  byte_at (mem_cpy w o l) i = if decide (o <= i < o + zlen l) then byte_at l (i - o) else byte_at w i.
Proof.
  unfold zlen. intros Ho Hi Hl. unfold byte_at, mem_cpy. rewrite !nth_lookup.
  destruct (decide (i < o)) as [Hlt|Hge].
  - rewrite decide_False by lia. rewrite lookup_app_l by (rewrite length_take; lia). by rewrite lookup_take_lt by lia.
  - rewrite lookup_app_r by (rewrite length_take; lia). rewrite length_take.
    replace (Z.to_nat i - Z.to_nat o `min` length w)%nat with (Z.to_nat (i - o)) by lia. case_decide.
    + by rewrite lookup_app_l by lia.
    + rewrite lookup_app_r, lookup_drop by lia. do 2 f_equal. lia.
Qed.

(** ** Nibbles *)

Lemma put_high_nibble b x : is_byte b -> u8 (Z.lor (Z.land b 15) (Z.shiftl (u8 x) 4)) = b mod 16 + 16 * (x mod 16).
Proof.
  intros Hb. change 15 with (2 ^ 4 - 1). rewrite land_mod, Z.lor_comm, lor_add by (lia || (apply Z.mod_pos_bound; lia)).
  unfold wrap. change (2 ^ 4) with 16. change (2 ^ 8) with (16 * 16). pose proof (Z.mod_pos_bound b 16 ltac:(lia)).
  rewrite Z.mul_comm.
  rewrite (Z.rem_mul_r x 16 16) by lia.
  replace (16 * (x mod 16 + 16 * ((x / 16) mod 16)) + b mod 16) with (b mod 16 + 16 * (x mod 16) + (x / 16) mod 16 * (16 * 16)) by lia.
  rewrite Z.mod_add by lia. apply Z.mod_small. pose proof (Z.mod_pos_bound x 16 ltac:(lia)). lia.
Qed.

Lemma put_low_nibble b x : is_byte b -> u8 (Z.lor (Z.land b 240) (Z.land (u8 (Z.shiftr x 8)) 15)) = 16 * (b / 16) + (x / 256) mod 16.
Proof.
  intros Hb. unfold is_byte in Hb.
  assert (Hh : Z.land b 240 = Z.shiftl (b / 16) 4).
  { change 16 with (2 ^ 4). rewrite <- shiftr_div by lia. bit_eq i. change 240 with (Z.shiftl (Z.ones 4) 4).
    destruct (Z.ltb_spec i 4) as [Hi|Hi]; [rewrite Z.shiftl_spec_low, (Z.testbit_neg_r _ (i - 4)) by lia; apply andb_false_r|].
    rewrite Z.shiftl_spec, Z.shiftr_spec, Z.sub_add by lia.
    destruct (Z.ltb_spec i 8) as [H8|H8]; [rewrite Z.ones_spec_low by lia; apply andb_true_r|].
    by rewrite (fits_testbit 8 b i) by (done || lia). }
  change 15 with (2 ^ 4 - 1). rewrite Hh, land_mod by lia. rewrite lor_add by (lia || (apply Z.mod_pos_bound; lia)).
  unfold wrap. rewrite shiftr_div by lia. change (2 ^ 8) with 256. change (2 ^ 4) with 16.
  assert (Hm : (x / 256) mod 256 mod 16 = (x / 256) mod 16) by (apply Z.mod_mod_divide; exists 16; lia). rewrite Hm.
  pose proof (Z.mod_pos_bound (x / 256) 16 ltac:(lia)). pose proof (Z.div_mod b 16 ltac:(lia)). pose proof (Z.mod_pos_bound b 16 ltac:(lia)).
  rewrite Z.mod_small by lia. lia.
Qed.
