(* ===== verification/FatWin.v ===== *)
(** * The window onto the disk: what moving it keeps

    The contract of a disk that keeps its sectors, and the volume the file
    system works on: the sectors of the disk with the window in front of them.
    Moving the window never changes this volume, whichever transfer fails. *)

From S2P Require Import Prelude Diskio FatVol.

(** ** A disk that keeps its sectors *)

Definition sector (b : list Z) : Prop := length b = 512%nat /\ Forall is_byte b.

(** Transfers may fail.  A read that succeeds delivers what the sectors hold and
    no read changes them; a write that succeeds stores the blocks, and one that
    fails may leave anything in the sectors it was for, but in no other. *)
Class Store (DK : Type) {HD : Disk DK} := {
  content : DK -> Z -> list Z;
  content_sector d s : sector (content d s);
  read_ok s n d l d' : d_read 0 s n d = (RES_OK, l, d') -> l = concat (content d <$> seqZ s n);
  read_keeps s n d t : content (d_read 0 s n d).2 t = content d t;
  write_ok bs s d d' i b :
    d_write 0 bs s d = (RES_OK, d') -> bs !! i = Some b -> sector b -> content d' (s + Z.of_nat i) = b;
  write_other bs s d t : t < s \/ s + zlen bs <= t -> content (d_write 0 bs s d).2 t = content d t;
  ioctl_keeps c d t : content (d_ioctl 0 c d).2 t = content d t;
  status_keeps d t : content (d_status 0 d).2 t = content d t;
  initialize_keeps d t : content (d_initialize 0 d).2 t = content d t
}.

(** ** The volume behind the window *)

(** The place of the file allocation table and its copies. *)
Record geometry (f : FATFS) : Prop := {
  g_drv : drv f = 0;
  g_copies : n_fats f = 1 \/ n_fats f = 2;
  g_base : 0 < fatbase f;
  g_size : 0 < fsize f;
  g_end : fatbase f + n_fats f * fsize f < 2 ^ 32
}.

Definition mirror (f : FATFS) (s : Z) : Prop := fatbase f + fsize f <= s < fatbase f + n_fats f * fsize f.

(** The sectors from the first table on, without the copies of the table. *)
Definition primary (f : FATFS) (s : Z) : Prop := fatbase f <= s < 2 ^ 32 /\ ~ mirror f s.

(** Only the window differs. *)
Definition same (f f' : FATFS) : Prop := f' = with_window (wflag f') (winsect f') (win f') f.

Lemma same_refl f : same f f.
Proof. by destruct f. Qed.

Lemma same_trans f g h : same f g -> same g h -> same f h.
Proof. unfold same. intros -> ->. reflexivity. Qed.

Lemma same_window wf ws w f : same f (with_window wf ws w f).
Proof. reflexivity. Qed.

Lemma same_geometry f f' : same f f' -> geometry f -> geometry f'.
Proof. intros -> []. by constructor. Qed.

Lemma same_primary f f' s : same f f' -> primary f' s <-> primary f s.
Proof. by intros ->. Qed.

Lemma set_win_id f : set_win (win f) f = f.
Proof. by destruct f. Qed.

Lemma mem_cpy_nil w : mem_cpy w 0 [] = w.
Proof. unfold mem_cpy. change (Z.to_nat 0) with 0%nat. by rewrite take_0. Qed.

Lemma mem_cpy_all w l : length l = length w -> mem_cpy w 0 l = l.
Proof.
  intros Hl. unfold mem_cpy. change (Z.to_nat 0) with 0%nat. cbn [Nat.add app take].
  rewrite take_0, drop_ge by lia. by rewrite app_nil_r.
Qed.

(** Only the window and the counts for the FSInfo sector differ. *)
Definition alike (f f' : FATFS) : Prop :=
  f' = with_fsinfo (fsi_flag f') (last_clust f') (free_clust f') (with_window (wflag f') (winsect f') (win f') f).

#[export] Instance alike_pre : PreOrder alike.
Proof. split; [by intros []|]. unfold alike. intros f g h -> ->. reflexivity. Qed.

Lemma same_alike f f' : same f f' -> alike f f'.
Proof. unfold same, alike. intros ->. reflexivity. Qed.

Lemma alike_geometry f f' : alike f f' -> geometry f -> geometry f'.
Proof. intros -> []. by constructor. Qed.

Lemma alike_primary f f' s : alike f f' -> primary f' s <-> primary f s.
Proof. by intros ->. Qed.

Lemma cpy_length w o l : 0 <= o -> (Z.to_nat o + length l <= length w)%nat -> length (mem_cpy w o l) = length w.
Proof. intros Ho Hl. unfold mem_cpy. rewrite !length_app, length_take, length_drop. lia. Qed.

Lemma cpy_sector w o l : sector w -> Forall is_byte l -> 0 <= o -> o + zlen l <= 512 -> sector (mem_cpy w o l).
Proof.
  unfold zlen. intros [Hw Hb] Hl Ho Hin. split; [rewrite cpy_length by lia; done|].
  unfold mem_cpy. rewrite !Forall_app. split_and!; [by apply Forall_take|done|by apply Forall_drop].
Qed.

Lemma u8_byte x : is_byte (u8 x).
Proof. apply (wrap_range 8). lia. Qed.

Lemma st_word_bytes x : Forall is_byte (ST_WORD x).
Proof. repeat constructor; apply u8_byte. Qed.

Lemma st_dword_bytes x : Forall is_byte (ST_DWORD x).
Proof. repeat constructor; apply u8_byte. Qed.

Section FatWin.

Context {DK : Type} {HD : Disk DK} {HS : Store DK}.

Implicit Types v : vol (DK := DK).

(** A sector as the file system sees it. *)
Definition view v (s : Z) : list Z := if decide (s = winsect (fatfs v)) then win (fatfs v) else content (dev v) s.

(** The window holds a sector: what is on the disk when it is clean; no sector
    is number 0. *)
Record win_ok v : Prop := {
  w_geo : geometry (fatfs v);
  w_sector : sector (win (fatfs v));
  w_place : winsect (fatfs v) = 0 \/ primary (fatfs v) (winsect (fatfs v));
  w_dirty : wflag (fatfs v) = true -> winsect (fatfs v) <> 0;
  w_clean : wflag (fatfs v) = false -> winsect (fatfs v) <> 0 -> win (fatfs v) = content (dev v) (winsect (fatfs v))
}.

(** The same volume, with the window elsewhere. *)
Record stays v v' : Prop := {
  st_same : same (fatfs v) (fatfs v');
  st_view : forall s, primary (fatfs v) s -> view v' s = view v s;
  st_some : winsect (fatfs v) <> 0 -> winsect (fatfs v') <> 0
}.

#[global] Instance stays_pre : PreOrder stays.
Proof using.
  split.
  - intros v. split; [apply same_refl|done|done].
  - intros u v w [H1 H2 H3] [H4 H5 H6]. split; [by eapply same_trans| |by auto].
    intros s Hs. rewrite H5 by (by apply (same_primary _ _ _ H1)). by apply H2.
Qed.

Lemma primary_pos f s : geometry f -> primary f s -> s <> 0.
Proof using. intros [] [? _]. lia. Qed.

Lemma view_sector v s : win_ok v -> sector (view v s).
Proof using. intros []. unfold view. case_decide; [done|apply content_sector]. Qed.

(** Without a dirty window the disk has it all. *)
Lemma clean_disk v s : win_ok v -> primary (fatfs v) s -> wflag (fatfs v) = false -> content (dev v) s = view v s.
Proof using.
  intros Hok Hs Hf. unfold view. case_decide as Hd; [|done]. subst s. symmetry. apply Hok; [done|].
  apply (primary_pos (fatfs v)); [apply Hok|done].
Qed.

(** ** One transfer *)

(** A disk on which no write fails. *)
Definition reliable : Prop := forall bs s d, (d_write 0 bs s d).1 = RES_OK.

(** A disk on which no transfer fails. *)
Definition sound : Prop := reliable /\ forall s n d, 0 < n -> (d_read 0 s n d).1.1 = RES_OK.

Lemma write_win_ok v s :
  drv (fatfs v) = 0 -> sector (win (fatfs v)) ->
  fwp (write_win s) (fun r v' => fatfs v' = fatfs v /\ (forall t, t <> s -> content (dev v') t = content (dev v) t) /\
    (r = RES_OK -> content (dev v') s = win (fatfs v)) /\ (reliable -> r = RES_OK)) v.
Proof using.
  intros Hd Hw. unfold write_win. apply fwp_bind, fwp_get, fwp_dev. rewrite Hd. intros r d Hr. cbn [fatfs dev].
  split_and!; [done| | |].
  - intros t Ht. replace d with (d_write 0 [win (fatfs v)] s (dev v)).2 by (by rewrite Hr).
    apply write_other. change (zlen [_]) with 1. lia.
  - intros ->. rewrite <- (Z.add_0_r s). by apply (write_ok _ _ _ _ 0 _ Hr).
  - intros R. rewrite <- (R [win (fatfs v)] s (dev v)). by rewrite Hr.
Qed.

Lemma read_win_ok v s :
  drv (fatfs v) = 0 -> sector (win (fatfs v)) ->
  fwp (read_win s) (fun r v' => (forall t, content (dev v') t = content (dev v) t) /\
    (r = RES_OK /\ fatfs v' = set_win (content (dev v) s) (fatfs v) \/ r <> RES_OK /\ fatfs v' = fatfs v) /\ (sound -> r = RES_OK)) v.
Proof using.
  intros Hd Hw. unfold read_win. apply fwp_bind, fwp_get, fwp_bind, fwp_dev. rewrite Hd. intros [r l] d Hr.
  apply fwp_bind, fwp_mod, fwp_ret. cbn [fatfs dev].
  split_and!; [| |intros [_ Hread]; rewrite <- (Hread s 1 (dev v)) by lia; by rewrite Hr].
  { intros t. replace d with (d_read 0 s 1 (dev v)).2 by (by rewrite Hr). apply read_keeps. }
  pose proof (d_read_result 0 s 1 (dev v) ltac:(lia)) as [_ Hl]. rewrite Hr in Hl. cbn [fst snd] in Hl.
  destruct (decide (r = RES_OK)) as [->|Hne].
  - left. split; [done|]. rewrite (read_ok _ _ _ _ _ Hr). change (seqZ s 1) with [0 + s]. cbn [fmap list_fmap concat].
    rewrite app_nil_r, Z.add_0_l. f_equal. apply mem_cpy_all. destruct (content_sector (dev v) s), Hw. congruence.
  - right. split; [done|]. assert (l = []) as ->.
    { destruct r; [done| |done|done|by destruct Hl]. destruct Hl as (n & Hn & Hz).
      apply nil_length_inv. unfold zlen in Hz. lia. }
    by rewrite mem_cpy_nil, set_win_id.
Qed.

Lemma fat_copies_ok n v s :
  geometry (fatfs v) -> sector (win (fatfs v)) -> (n <= Z.to_nat (n_fats (fatfs v) - 1))%nat ->
  fatbase (fatfs v) <= s < fatbase (fatfs v) + fsize (fatfs v) ->
  fwp (fat_copies n s) (fun _ v' => fatfs v' = fatfs v /\
    (forall t, ~ mirror (fatfs v) t \/ t <> s + fsize (fatfs v) -> content (dev v') t = content (dev v) t) /\
    (reliable -> n = 1%nat -> content (dev v') (s + fsize (fatfs v)) = win (fatfs v))) v.
Proof using.
  intros [Hd Hc Hb Hz He] Hw Hn Hs. destruct n as [|[|n]]; [by apply fwp_ret| |lia].
  cbn [fat_copies]. apply fwp_bind, fwp_get, fwp_bind. rewrite wrap_small by (unfold fits; lia).
  eapply fwp_mono; [|by apply write_win_ok]. intros r v' (Hf & Ho & Hr & Hrel). apply fwp_ret.
  split_and!; [done| |by intros R _; apply Hr, Hrel]. intros t Ht. apply Ho. intros ->. destruct Ht as [Ht|Ht]; [|done].
  apply Ht. unfold mirror. lia.
Qed.

(** ** Writing back *)

(** The copies of the table agree with it, but for what waits in the window. *)
Definition mirrored v : Prop :=
  n_fats (fatfs v) = 2 -> forall s, fatbase (fatfs v) <= s < fatbase (fatfs v) + fsize (fatfs v) ->
  wflag (fatfs v) = false \/ s <> winsect (fatfs v) ->
  content (dev v) (s + fsize (fatfs v)) = content (dev v) s.

(** What happens to the disk when the window is written. *)
Definition written v v' : Prop :=
  forall t, ~ mirror (fatfs v) t -> content (dev v') t = if decide (t = winsect (fatfs v)) then win (fatfs v) else content (dev v) t.

Lemma written_ok v v' :
  win_ok v -> wflag (fatfs v) = true -> fatfs v' = set_wflag false (fatfs v) -> written v v' ->
  win_ok v' /\ stays v v'.
Proof using.
  intros [Hg Hw Hp Hd Hc] Hwf Hf Hwr. specialize (Hd Hwf). destruct Hp as [Hp|Hp]; [done|].
  split; split; rewrite ?Hf; try done.
  - by apply (same_geometry (fatfs v)).
  - by right.
  - intros _ _. cbn [winsect win set_wflag with_window]. rewrite Hwr by apply Hp. by rewrite decide_True.
  - intros t Ht. unfold view. rewrite Hf. cbn [winsect win set_wflag with_window]. rewrite Hwr by apply Ht.
    by repeat case_decide.
Qed.

(** The step that writes a dirty window and the copies. *)
Lemma write_through_ok v v1 :
  win_ok v -> wflag (fatfs v) = true -> fatfs v1 = fatfs v ->
  (forall t, t <> winsect (fatfs v) -> content (dev v1) t = content (dev v) t) ->
  content (dev v1) (winsect (fatfs v)) = win (fatfs v) ->
  fwp (fs_mod (set_wflag false);;
      (if winsect (fatfs v) <? u32 (fatbase (fatfs v) + fsize (fatfs v))
       then fat_copies (Z.to_nat (n_fats (fatfs v) - 1)) (winsect (fatfs v)) else mret tt);;
      mret FR_OK)
    (fun r v' => r = FR_OK /\ fatfs v' = set_wflag false (fatfs v) /\ written v v' /\ (reliable -> mirrored v -> mirrored v')) v1.
Proof using.
  intros Hok Hwf Hf1 Ho Hr. pose proof Hok as [[_ Hcp Hb Hs He] Hw Hp Hd _]. specialize (Hd Hwf).
  destruct Hp as [Hp|Hp]; [done|]. destruct Hp as [Hp Hnm]. unfold mirror in Hnm.
  apply fwp_bind, fwp_mod. rewrite Hf1. rewrite wrap_small by (unfold fits; lia). apply fwp_bind. case_z.
  - eapply fwp_mono; [|apply fat_copies_ok]; cbn [fatfs dev]; [|by apply (same_geometry (fatfs v)), Hok|done|done|].
    2: { change (fatbase (set_wflag _ _)) with (fatbase (fatfs v)). change (fsize (set_wflag _ _)) with (fsize (fatfs v)). lia. }
    intros [] v3 (Hf3 & Hc3 & Hm3). apply fwp_ret. split_and!; [done|by rewrite Hf3| |].
    + intros t Ht. rewrite Hc3 by (by left). case_decide as Hx; [by subst|by apply Ho].
    + intros R Hm. unfold mirrored. rewrite Hf3. cbn [n_fats fatbase fsize set_wflag with_window]. intros Hn s Hs' _.
      change (fsize (set_wflag _ _)) with (fsize (fatfs v)) in *. change (win (set_wflag _ _)) with (win (fatfs v)) in *.
      destruct (decide (s = winsect (fatfs v))) as [->|Hne].
      * rewrite Hm3 by (done || by rewrite Hn). rewrite Hc3, Hr; [done|left]. unfold mirror. cbn. lia.
      * rewrite !Hc3 by (right; lia). rewrite !Ho by lia. apply Hm; [done|lia|by right].
  - apply fwp_ret, fwp_ret. split_and!; [done|done| |].
    + intros t Ht. cbn [dev]. case_decide as Hx; [by subst|by apply Ho].
    + intros R Hm Hn s Hs' _. cbn [fatfs dev] in *. cbn [n_fats fatbase fsize set_wflag with_window] in *.
      rewrite !Ho by nia. apply Hm; [done|lia|right; lia].
Qed.

Lemma write_back_ok v :
  win_ok v ->
  fwp (write_back (winsect (fatfs v))) (fun r v' => win_ok v' /\ stays v v' /\ winsect (fatfs v') = winsect (fatfs v) /\
    (r = FR_OK /\ wflag (fatfs v') = false \/ r = FR_DISK_ERR) /\ (reliable -> r = FR_OK /\ (mirrored v -> mirrored v'))) v.
Proof using.
  intros Hok. pose proof Hok as [Hg Hw Hp Hd Hc]. unfold write_back.
  apply fwp_bind, fwp_get. destruct (wflag (fatfs v)) eqn:Hwf.
  2: { apply fwp_ret. split_and!; [done|done|done|by left|done]. }
  apply fwp_bind. eapply fwp_mono; [|by apply write_win_ok; [apply Hok|]]. intros r v1 (Hf & Ho & Hr & Hrel).
  destruct (decide (r = RES_OK)) as [->|Hne].
  - eapply fwp_mono; [|apply (write_through_ok v v1 Hok Hwf Hf Ho (Hr eq_refl))].
    intros r v3 (-> & Hf3 & Hw3 & Hm3). destruct (written_ok v v3 Hok Hwf Hf3 Hw3) as [H1 H2].
    split_and!; [done|done|by rewrite Hf3|left; by rewrite Hf3|by auto].
  - replace (match r with RES_OK => _ | _ => _ end) with (mret FR_DISK_ERR : F (DK := DK) FRESULT) by (by destruct r).
    specialize (Hd eq_refl). destruct Hp as [Hp|Hp]; [done|].
    apply fwp_ret. split_and!; [|split|by rewrite Hf|by right|by intros R; destruct Hne; auto].
    + split; rewrite Hf; try done; [by right|congruence].
    + rewrite Hf. apply same_refl.
    + intros t Ht. unfold view. rewrite Hf. case_decide as Hx; [done|]. by apply Ho.
    + by rewrite Hf.
Qed.

(** ** Moving *)

Lemma mirrored_window v v' :
  fatfs v' = with_window false (winsect (fatfs v')) (win (fatfs v')) (fatfs v) -> wflag (fatfs v) = false ->
  (forall t, content (dev v') t = content (dev v) t) -> mirrored v -> mirrored v'.
Proof using.
  intros Hf Hwf Hc Hm. unfold mirrored. rewrite Hf. cbn [n_fats fatbase fsize with_window]. intros Hn s Hs _.
  rewrite !Hc. apply Hm; [done|done|by left].
Qed.

(** What a move of the window to [sect] answers and leaves. *)
Record moved (sect : Z) v (r : FRESULT) v' : Prop := {
  mv_ok : win_ok v';
  mv_stays : stays v v';
  mv_answer : r = FR_OK \/ r = FR_DISK_ERR;
  mv_there : r = FR_OK -> sect <> 0 -> winsect (fatfs v') = sect;
  mv_clean : r = FR_OK -> sect = 0 -> wflag (fatfs v') = false;
  mv_mirrors : reliable -> mirrored v -> mirrored v';
  mv_sound : sound -> r = FR_OK
}.

Lemma move_window_ok v sect :
  win_ok v -> sect = 0 \/ primary (fatfs v) sect -> fwp (move_window sect) (moved sect v) v.
Proof using.
  intros Hok Hsect. unfold move_window. apply fwp_bind, fwp_get. case_z.
  { apply fwp_ret. split; try done; [by left|]. intros _ ->. destruct (wflag (fatfs v)) eqn:E; [|done].
    by destruct (w_dirty v Hok E). }
  apply fwp_bind. eapply fwp_mono; [|by apply write_back_ok]. intros r v1 (Hok1 & Hst1 & Hws1 & Hr1 & Hrel).
  destruct Hr1 as [[-> Hwf]| ->].
  2: { apply fwp_ret. split; try done; [by right| |]; [intros R|intros [R _]]; by destruct (Hrel R). }
  case_z.
  { apply fwp_ret. split; try done; [by left|]. intros R. by destruct (Hrel R). }
  destruct Hsect as [|Hsect]; [done|].
  apply fwp_bind. eapply fwp_mono; [|apply read_win_ok; apply Hok1]. intros r v2 (Hc2 & [[-> Hf2]|[Hne Hf2]] & Hsnd).
  - apply fwp_bind, fwp_mod, fwp_ret. rewrite Hf2. destruct Hst1 as [Hsm Hvw Hso].
    assert (Hp1 : primary (fatfs v1) sect) by (by apply (same_primary _ _ _ Hsm)).
    split; [split|split|by left|done|done| |done]; cbn [fatfs dev].
    + by apply (same_geometry (fatfs v1)), Hok1.
    + apply content_sector.
    + by right.
    + done.
    + by intros _ _; cbn; rewrite Hc2.
    + by eapply same_trans.
    + intros t Ht. rewrite <- Hvw by done. rewrite <- (clean_disk v1 t) by (done || by apply (same_primary _ _ _ Hsm)).
      unfold view. cbn. case_decide as Hd; [by subst|by rewrite Hc2].
    + done.
    + intros R Hm. apply (mirrored_window v1); [|done|done|by apply Hrel]. unfold set_winsect, set_win. cbn. by rewrite Hwf.
  - replace (match r with RES_OK => _ | _ => _ end) with (mret FR_DISK_ERR : F (DK := DK) FRESULT) by (by destruct r).
    apply fwp_ret. assert (Hst2 : stays v1 v2).
    { split; [rewrite Hf2; apply same_refl| |by rewrite Hf2]. intros t Ht. unfold view. rewrite Hf2. case_decide; [done|apply Hc2]. }
    split; [|by transitivity v1|by right|done|done| |by intros S; destruct Hne; auto].
    + destruct Hok1 as [H1 H2 H3 H4 H5]. split; rewrite Hf2; try done. intros. rewrite Hc2. by apply H5.
    + intros R Hm. apply (mirrored_window v1); [rewrite Hf2, <- Hwf; by destruct (fatfs v1)|done|done|]. by apply Hrel.
Qed.

(** (C19) Moving the window to a sector, or with 0 only writing it back, ends and never
    changes the volume the file system sees, whichever transfers fail; a failure
    is answered, and after a success the window shows the sector, or the disk has
    every sector.  When writing never fails, the copies of the allocation table
    follow it. *)
Theorem move_window_keeps_volume v sect :
  win_ok v -> sect = 0 \/ primary (fatfs v) sect ->
  exists r v', move_window sect v = Some (r, v') /\ win_ok v' /\ same (fatfs v) (fatfs v') /\
    (forall s, primary (fatfs v) s -> view v' s = view v s) /\
    (r = FR_OK \/ r = FR_DISK_ERR) /\
    (r = FR_OK -> sect <> 0 -> winsect (fatfs v') = sect /\ win (fatfs v') = view v sect) /\
    (r = FR_OK -> sect = 0 -> forall s, primary (fatfs v) s -> content (dev v') s = view v s) /\
    (reliable -> mirrored v -> mirrored v').
Proof using.
  intros Hok Hs. destruct (fwp_run _ _ _ (move_window_ok v sect Hok Hs)) as (r & v' & Hrun & [H1 [H2 H3 H4] H5 H6 H7 H8 _]).
  exists r, v'. split_and!; try done.
  - intros Hr Hz. specialize (H6 Hr Hz). split; [done|]. destruct Hs as [|Hs]; [done|].
    rewrite <- H3 by done. unfold view. by rewrite decide_True.
  - intros Hr Hz s Hp. rewrite <- H3 by done. apply clean_disk; [done|by apply (same_primary _ _ _ H2)|by apply H7].
Qed.

(** ** Flushing everything *)

Record synced v (r : FRESULT) v' : Prop := {
  sy_ok : win_ok v';
  sy_alike : alike (fatfs v) (fatfs v');
  sy_view : forall s, primary (fatfs v) s -> view v' s = view v s;
  sy_answer : r = FR_OK \/ r = FR_DISK_ERR;
  sy_sound : sound -> (forall d : DK, (d_ioctl 0 CTRL_SYNC d).1.1 = RES_OK) -> r = FR_OK;
  sy_disk : r = FR_OK -> forall s, primary (fatfs v) s -> content (dev v') s = view v s;
  sy_info : r = FR_OK -> reliable -> fs_type (fatfs v) = FS_FAT32 -> fsi_flag (fatfs v) = true ->
    content (dev v') (fsi_sector (fatfs v)) = fsinfo (fatfs v)
}.

Lemma fsinfo_sector f : sector (fsinfo f).
Proof using.
  unfold fsinfo. repeat (apply cpy_sector; [|apply st_word_bytes || apply st_dword_bytes|done|unfold zlen, ST_WORD, ST_DWORD; cbn [length]; lia]).
  split; [apply length_replicate|]. by apply Forall_replicate.
Qed.

(** The sector of the counts is in front of the tables. *)
Definition info_apart (f : FATFS) : Prop := fs_type f = FS_FAT32 -> 0 < fsi_sector f < fatbase f.

(** Everything is on the disk, with the counts. *)
Record on_disk v v' : Prop := {
  od_ok : win_ok v';
  od_alike : alike (fatfs v) (fatfs v');
  od_view : forall s, primary (fatfs v) s -> view v' s = view v s;
  od_disk : forall s, primary (fatfs v) s -> content (dev v') s = view v s;
  od_info : reliable -> fs_type (fatfs v) = FS_FAT32 -> fsi_flag (fatfs v) = true -> content (dev v') (fsi_sector (fatfs v)) = fsinfo (fatfs v)
}.

(** The counts are written to their sector. *)
Lemma write_info_ok v v1 :
  win_ok v1 -> wflag (fatfs v1) = false -> same (fatfs v) (fatfs v1) -> (forall s, primary (fatfs v) s -> content (dev v1) s = view v s) ->
  0 < fsi_sector (fatfs v) < fatbase (fatfs v) ->
  fwp (fs_mod (set_winsect 0);; fs_mod (set_win (fsinfo (fatfs v1)));; write_win (fsi_sector (fatfs v1));; fs_mod (set_fsi_flag false)) (fun _ => on_disk v) v1.
Proof using.
  intros Hok1 Hcl Hsm Hdisk Hap. apply fwp_bind, fwp_mod, fwp_bind, fwp_mod, fwp_bind.
  eapply fwp_mono; [|apply write_win_ok; [apply Hok1|apply fsinfo_sector]]. cbn [fatfs dev].
  intros r v2 (Hf2 & Ho & Hr & Hrel). apply fwp_mod. rewrite Hf2.
  assert (Hfe : fsi_sector (fatfs v1) = fsi_sector (fatfs v)) by (by rewrite Hsm).
  assert (Hne : forall s, primary (fatfs v) s -> s <> fsi_sector (fatfs v1) /\ s <> 0) by (intros s [? _]; lia).
  split; cbn [fatfs dev].
  - destruct Hok1 as [H1 H2 H3 H4 H5]. split; cbn; [by destruct H1| |by left|congruence|done]. apply fsinfo_sector.
  - etrans; [by apply same_alike|]. by destruct (fatfs v1).
  - intros s Hs. destruct (Hne s Hs). unfold view. cbn [fatfs dev]. rewrite decide_False by done.
    rewrite Ho by done. by apply Hdisk.
  - intros s Hs. rewrite Ho by (by apply Hne). by apply Hdisk.
  - intros R _ _. rewrite <- Hfe, Hr by auto. cbn [win set_win with_window]. by rewrite Hsm.
Qed.

(** The command that lets the disk finish. *)
Lemma finish_ok v v2 r o d :
  on_disk v v2 -> drv (fatfs v) = 0 -> d_ioctl 0 CTRL_SYNC (dev v2) = (r, o, d) ->
  synced v (match r with RES_OK => FR_OK | _ => FR_DISK_ERR end) (mkVol (fatfs v2) d).
Proof using.
  intros [H1 H2 H3 H4 H5] Hdrv Hi. assert (Hk : forall t, content d t = content (dev v2) t).
  { intros t. replace d with (d_ioctl 0 CTRL_SYNC (dev v2)).2 by (by rewrite Hi). apply ioctl_keeps. }
  split; cbn [fatfs dev].
  - destruct H1. split; cbn [fatfs dev]; try done. intros. rewrite Hk. auto.
  - done.
  - intros s Hs. rewrite <- H3 by done. unfold view. cbn [fatfs dev]. by rewrite Hk.
  - destruct r; auto.
  - intros _ Hf. specialize (Hf (dev v2)). rewrite Hi in Hf. cbn in Hf. by rewrite Hf.
  - intros _ s Hs. rewrite Hk. by apply H4.
  - intros _ R Ht Hfl. rewrite Hk. by apply H5.
Qed.

Lemma sync_ok v : win_ok v -> info_apart (fatfs v) -> fwp sync (synced v) v.
Proof using.
  intros Hok Hfsi. unfold sync. apply fwp_bind. eapply fwp_mono; [|by apply move_window_ok; [|left]].
  intros r v1 [Hok1 [Hsm Hvw _] Hr Hth Hcl _ Hsd]. destruct Hr as [-> | ->].
  2: { apply fwp_ret. split; try done; [by apply same_alike|by right|intros S _; by apply Hsd]. }
  specialize (Hcl eq_refl eq_refl). pose proof (g_drv _ (w_geo _ Hok)) as Hdrv. pose proof (g_drv _ (w_geo _ Hok1)) as Hdrv1.
  assert (Hdisk : forall s, primary (fatfs v) s -> content (dev v1) s = view v s).
  { intros s Hp. rewrite <- Hvw by done. apply clean_disk; [done|by apply (same_primary _ _ _ Hsm)|done]. }
  apply fwp_bind, fwp_get, fwp_bind. apply (fwp_mono _ (fun _ => on_disk v)).
  - intros [] v2 Hod. apply fwp_bind, fwp_dev. rewrite Hdrv1. intros [r o] d Hi. pose proof (finish_ok v v2 r o d Hod Hdrv Hi) as Hend. by destruct r.
  - destruct (_ && _) eqn:Hcond.
    + apply andb_prop in Hcond as [Ht _]. apply write_info_ok; [done|done|done|done|]. apply Hfsi, Z.eqb_eq. by rewrite Hsm in Ht.
    + apply fwp_ret. split; [done|by apply same_alike|done|done|]. intros _ Ht Hfl.
      replace (fs_type (fatfs v1)) with (fs_type (fatfs v)) in Hcond by (by rewrite Hsm).
      replace (fsi_flag (fatfs v1)) with (fsi_flag (fatfs v)) in Hcond by (by rewrite Hsm).
      by rewrite Ht, Hfl in Hcond.
Qed.

End FatWin.
