(* ===== verification/FatRam.v ===== *)
(** * A disk in memory

    Two instances of the contract of a disk: on one no transfer fails, on the other
    a list tells for each transfer to come whether it does.  The file system's
    theorems are applied to volumes on them. *)

From S2P Require Import Prelude Diskio FatVol FatWin.

Record ram (faulty : bool) := mkRam { sectors : gmap Z (list Z); faults : list bool }.
Arguments mkRam {faulty} sectors faults.
Arguments sectors {faulty} _.
Arguments faults {faulty} _.

#[export] Instance sector_dec b : Decision (sector b).
Proof. unfold sector. apply _. Defined.

Definition blank : list Z := mem_set 0 512.

(** Sectors never written are blank. *)
Definition ram_content {faulty} (r : ram faulty) (s : Z) : list Z :=
  let b := default blank (sectors r !! s) in if decide (sector b) then b else blank.

Definition next_fault {faulty} (r : ram faulty) : bool * ram faulty :=
  match faults r with [] => (false, r) | b :: l => (faulty && b, mkRam (sectors r) l) end.

Definition ram_read {faulty} (drv s n : Z) (r : ram faulty) : DRESULT * list Z * ram faulty :=
  let '(fault, r) := next_fault r in
  if n =? 0 then (RES_PARERR, [], r)
  else if fault then (RES_ERROR, [], r)
  else (RES_OK, concat (ram_content r <$> seqZ s n), r).

Fixpoint put_blocks (bs : list (list Z)) (s : Z) (m : gmap Z (list Z)) : gmap Z (list Z) :=
  match bs with [] => m | b :: bs => <[s := b]> (put_blocks bs (s + 1) m) end.

Definition ram_write {faulty} (drv : Z) (bs : list (list Z)) (s : Z) (r : ram faulty) : DRESULT * ram faulty :=
  let '(fault, r) := next_fault r in
  if fault then (RES_ERROR, r) else (RES_OK, mkRam (put_blocks bs s (sectors r)) (faults r)).

Lemma blank_sector : sector blank.
Proof. split; [apply length_replicate|by apply Forall_replicate]. Qed.

Lemma ram_content_sector {faulty} (r : ram faulty) s : sector (ram_content r s).
Proof. unfold ram_content. case_decide; [done|apply blank_sector]. Qed.

Lemma next_fault_sectors {faulty} (r : ram faulty) : sectors (next_fault r).2 = sectors r.
Proof. unfold next_fault. by destruct (faults r). Qed.

Lemma concat_sectors {faulty} (r : ram faulty) l : length (concat (ram_content r <$> l)) = (512 * length l)%nat /\ Forall is_byte (concat (ram_content r <$> l)).
Proof.
  induction l as [|s l [IH1 IH2]]; [done|]. cbn [fmap list_fmap concat]. destruct (ram_content_sector r s) as [Hl Hb].
  rewrite length_app, IH1, Hl. cbn [length]. split; [lia|]. by apply Forall_app.
Qed.

Lemma ram_read_result {faulty} drv s n (r : ram faulty) : 0 <= n -> read_result n (ram_read drv s n r).1.
Proof.
  intros Hn. unfold ram_read. destruct (next_fault r) as [fault r']. destruct (Z.eqb_spec n 0) as [->|Hz]; [by split_and!|].
  destruct fault; (split; [|cbn]); [done| |by apply concat_sectors|].
  - exists 0. split; [lia|done].
  - split; [lia|]. unfold zlen. rewrite (proj1 (concat_sectors _ _)), length_seqZ. lia.
Qed.

#[export] Instance ram_disk {faulty} : Disk (ram faulty) := {
  d_initialize _ r := (0, r);
  d_status _ r := (0, r);
  d_read := ram_read;
  d_write := ram_write;
  d_ioctl _ _ r := (RES_OK, None, r);
  d_read_result := ram_read_result
}.

Lemma put_lookup bs s m t :
  put_blocks bs s m !! t = if decide (s <= t < s + zlen bs) then bs !! Z.to_nat (t - s) else m !! t.
Proof.
  unfold zlen. revert s. induction bs as [|b bs IH]; intros s; cbn [put_blocks length].
  - by rewrite decide_False by lia.
  - destruct (decide (t = s)) as [->|Hne].
    + rewrite lookup_insert_eq. rewrite decide_True by lia. by rewrite Z.sub_diag.
    + rewrite lookup_insert_ne by done. rewrite IH. repeat case_decide; try lia; [|done].
      by replace (Z.to_nat (t - s)) with (S (Z.to_nat (t - (s + 1)))) by lia.
Qed.

Lemma put_hit bs s m i b : bs !! i = Some b -> put_blocks bs s m !! (s + Z.of_nat i) = Some b.
Proof.
  intros Hi. assert (Hlt := lookup_lt_Some _ _ _ Hi). rewrite put_lookup, decide_True by (unfold zlen; lia).
  by replace (Z.to_nat (s + Z.of_nat i - s)) with i by lia.
Qed.

Lemma put_miss bs s m t : t < s \/ s + zlen bs <= t -> put_blocks bs s m !! t = m !! t.
Proof. intros Ht. rewrite put_lookup. by rewrite decide_False by lia. Qed.

Lemma ram_content_ext {faulty} (r r' : ram faulty) s : sectors r' !! s = sectors r !! s -> ram_content r' s = ram_content r s.
Proof. unfold ram_content. by intros ->. Qed.

#[export] Program Instance ram_store {faulty} : Store (ram faulty) := { content := ram_content }.
Next Obligation. intros faulty d s. apply ram_content_sector. Qed.
Next Obligation.
  intros faulty s n d l d'. cbn. unfold ram_read. pose proof (next_fault_sectors d) as Hs. destruct (next_fault d) as [fault r]. cbn in Hs.
  destruct (n =? 0); [done|]. destruct fault; [done|]. intros [= <- _]. f_equal. apply list_fmap_ext. intros i t _.
  apply ram_content_ext. by rewrite Hs.
Qed.
Next Obligation.
  intros faulty s n d t. cbn. unfold ram_read. pose proof (next_fault_sectors d) as Hs. destruct (next_fault d) as [fault r]. cbn in Hs.
  apply ram_content_ext. destruct (n =? 0); [by cbn; rewrite Hs|]. by destruct fault; cbn; rewrite Hs.
Qed.
Next Obligation.
  intros faulty bs s d d' i b. cbn. unfold ram_write. destruct (next_fault d) as [[] r]; [done|]. intros [= <-] Hi Hb.
  unfold ram_content. cbn [sectors]. rewrite (put_hit _ _ _ _ _ Hi). cbn [default from_option]. by rewrite decide_True.
Qed.
Next Obligation.
  intros faulty bs s d t Ht. cbn. unfold ram_write. pose proof (next_fault_sectors d) as Hs. destruct (next_fault d) as [[] r]; cbn in *.
  - apply ram_content_ext. by rewrite Hs.
  - apply ram_content_ext. cbn. rewrite put_miss by done. by rewrite Hs.
Qed.
Next Obligation. done. Qed.
Next Obligation. done. Qed.
Next Obligation. done. Qed.

Lemma ram_sound : sound (DK := ram false).
Proof.
  assert (Hf : forall r : ram false, (next_fault r).1 = false) by (intros r; unfold next_fault; by destruct (faults r)).
  split.
  - intros bs s d. cbn. unfold ram_write. specialize (Hf d). destruct (next_fault d) as [fault r]. cbn in Hf. by subst.
  - intros s n d Hn. cbn. unfold ram_read. specialize (Hf d). destruct (next_fault d) as [fault r]. cbn in Hf. subst.
    by rewrite (proj2 (Z.eqb_neq n 0)) by lia.
Qed.
