(* ===== verification/FatTable.v ===== *)
(** * The file allocation table: [get_fat] and [put_fat] of fatfs/ff.c

    Entries of 12, 16 and 32 bits, read and written through the window, and the
    table they make up: a map from clusters to links. *)

From S2P Require Import Prelude Diskio FatVol FatBytes FatWin.

(** The answer that stands for a failed transfer. *)
Definition DISK_ERROR : Z := 4294967295.

Section FatTable.

Context {DK : Type} {HD : Disk DK}.

Definition get_fat (clst : Z) : F (DK := DK) Z :=
  f ← fs_get;
  if (clst <? 2) || (n_fatent f <=? clst) then mret 1
  else if fs_type f =? FS_FAT12 then
    let bc := u32 (clst + clst / 2) in
    r ← move_window (u32 (fatbase f + bc / SS));
    if decide (r = FR_OK) then
      wc ← win_at (bc mod SS);
      let bc := u32 (bc + 1) in
      r ← move_window (u32 (fatbase f + bc / SS));
      if decide (r = FR_OK) then
        b ← win_at (bc mod SS);
        let wc := Z.lor wc (Z.shiftl b 8) in
        mret (if Z.land clst 1 =? 0 then Z.land wc 4095 else Z.shiftr wc 4)
      else mret DISK_ERROR
    else mret DISK_ERROR
  else if fs_type f =? FS_FAT16 then
    r ← move_window (u32 (fatbase f + clst / (SS / 2)));
    if decide (r = FR_OK) then p ← win_bytes (u32 (clst * 2) mod SS) 2; mret (LD_WORD p) else mret DISK_ERROR
  else if fs_type f =? FS_FAT32 then
    r ← move_window (u32 (fatbase f + clst / (SS / 4)));
    if decide (r = FR_OK) then p ← win_bytes (u32 (clst * 4) mod SS) 4; mret (Z.land (LD_DWORD p) 268435455)
    else mret DISK_ERROR
  else mret DISK_ERROR.

Definition put_fat12 (f : FATFS) (clst val : Z) : F (DK := DK) FRESULT :=
  let odd := negb (Z.land clst 1 =? 0) in
  let bc := u32 (clst + clst / 2) in
  r ← move_window (u32 (fatbase f + bc / SS));
  if decide (r = FR_OK) then
    b ← win_at (bc mod SS);
    win_put (bc mod SS) [if odd then u8 (Z.lor (Z.land b 15) (Z.shiftl (u8 val) 4)) else u8 val];;
    let bc := u32 (bc + 1) in
    fs_mod (set_wflag true);;
    r ← move_window (u32 (fatbase f + bc / SS));
    if decide (r = FR_OK) then
      b ← win_at (bc mod SS);
      win_put (bc mod SS) [if odd then u8 (Z.shiftr val 4) else u8 (Z.lor (Z.land b 240) (Z.land (u8 (Z.shiftr val 8)) 15))];;
      mret FR_OK
    else mret r
  else mret r.

Definition put_fat (clst val : Z) : F (DK := DK) FRESULT :=
  f ← fs_get;
  if (clst <? 2) || (n_fatent f <=? clst) then mret FR_INT_ERR
  else
    r ← (if fs_type f =? FS_FAT12 then put_fat12 f clst val
         else if fs_type f =? FS_FAT16 then
           r ← move_window (u32 (fatbase f + clst / (SS / 2)));
           if decide (r = FR_OK) then win_put (u32 (clst * 2) mod SS) (ST_WORD (u16 val));; mret FR_OK else mret r
         else if fs_type f =? FS_FAT32 then
           r ← move_window (u32 (fatbase f + clst / (SS / 4)));
           if decide (r = FR_OK) then
             p ← win_bytes (u32 (clst * 4) mod SS) 4;
             let val := Z.lor val (Z.land (LD_DWORD p) 4026531840) in
             win_put (u32 (clst * 4) mod SS) (ST_DWORD val);;
             mret FR_OK
           else mret r
         else mret FR_INT_ERR);
    fs_mod (set_wflag true);;
    mret r.

End FatTable.

(** ** The table as a map *)

(** The entry of a cluster in a table of bytes. *)
Definition entry_of (ty : Z) (B : Z -> Z) (c : Z) : Z :=
  if ty =? FS_FAT12 then
    let w := B (c + c / 2) + 256 * B (c + c / 2 + 1) in
    if Z.even c then w mod 4096 else w / 16
  else if ty =? FS_FAT16 then B (2 * c) + 256 * B (2 * c + 1)
  else (B (4 * c) + 256 * B (4 * c + 1) + 65536 * B (4 * c + 2) + 16777216 * B (4 * c + 3)) mod 2 ^ 28.

(** The bits an entry has. *)
Definition entry_bits (ty : Z) : Z := if ty =? FS_FAT12 then 12 else if ty =? FS_FAT16 then 16 else 28.

(** The bytes the table needs for [n] entries. *)
Definition table_bytes (ty n : Z) : Z :=
  if ty =? FS_FAT12 then n * 3 / 2 + n mod 2 else if ty =? FS_FAT16 then 2 * n else 4 * n.

(** The first byte and the number of bytes an entry touches. *)
Definition entry_at (ty c : Z) : Z := if ty =? FS_FAT12 then c + c / 2 else if ty =? FS_FAT16 then 2 * c else 4 * c.
Definition entry_size (ty : Z) : Z := if ty =? FS_FAT12 then 2 else if ty =? FS_FAT16 then 2 else 4.

Record table_ok (f : FATFS) : Prop := {
  t_geo : geometry f;
  t_type : fs_type f = FS_FAT12 \/ fs_type f = FS_FAT16 \/ fs_type f = FS_FAT32;
  t_some : 2 < n_fatent f;
  t_room : table_bytes (fs_type f) (n_fatent f) <= SS * fsize f;
  t_marks : n_fatent f < 2 ^ entry_bits (fs_type f)
}.

Definition cluster (f : FATFS) (c : Z) : Prop := 2 <= c < n_fatent f.

#[export] Instance cluster_dec f c : Decision (cluster f c).
Proof. unfold cluster. apply _. Defined.

Lemma even_land c : (Z.land c 1 =? 0) = Z.even c.
Proof. change 1 with (Z.ones 1). rewrite Z.land_ones by lia. change (2 ^ 1) with 2. rewrite Zmod_even. by destruct (Z.even c). Qed.

Lemma entry_in_table f c :
  table_ok f -> cluster f c ->
  0 <= entry_at (fs_type f) c /\ entry_at (fs_type f) c + entry_size (fs_type f) <= SS * fsize f.
Proof.
  intros [_ Ht Hs Hr _] [H1 H2]. revert Hr. unfold table_bytes, entry_at, entry_size.
  destruct Ht as [-> | [-> | ->]]; cbn -[SS Z.mul Z.div Z.modulo]; [|lia|lia].
  pose proof (Z.div_mod (n_fatent f * 3) 2 ltac:(lia)). pose proof (Z.mod_pos_bound (n_fatent f * 3) 2 ltac:(lia)).
  pose proof (Z.div_mod (n_fatent f) 2 ltac:(lia)). pose proof (Z.mod_pos_bound (n_fatent f) 2 ltac:(lia)).
  pose proof (Z.div_mod c 2 ltac:(lia)). pose proof (Z.mod_pos_bound c 2 ltac:(lia)). lia.
Qed.

(** The table with the bytes [l] at [o]. *)
Definition upd (B : Z -> Z) (o : Z) (l : list Z) (i : Z) : Z := if decide (o <= i < o + zlen l) then byte_at l (i - o) else B i.

Lemma upd_out B o l i : i < o \/ o + zlen l <= i -> upd B o l i = B i.
Proof. intros H. unfold upd. rewrite decide_False by lia. done. Qed.

Lemma upd_in B o l i : 0 <= i < zlen l -> upd B o l (o + i) = byte_at l i.
Proof. intros H. unfold upd. rewrite decide_True by lia. f_equal. lia. Qed.

Lemma upd_at B o l : l <> [] -> upd B o l o = byte_at l 0.
Proof. intros H. replace o with (o + 0) at 2 by lia. apply upd_in. destruct l; [done|]. unfold zlen. cbn [length]. lia. Qed.

Lemma st_word_len x : zlen (ST_WORD x) = 2.
Proof. reflexivity. Qed.

Lemma st_dword_len x : zlen (ST_DWORD x) = 4.
Proof. reflexivity. Qed.

Definition bytes (B : Z -> Z) : Prop := forall i, is_byte (B i).

Lemma bytes_upd B o l : bytes B -> Forall is_byte l -> bytes (upd B o l).
Proof. intros HB Hl i. unfold upd. case_decide; [by apply byte_at_byte|done]. Qed.

Lemma digits_2 x : x mod 256 + 256 * ((x / 256) mod 256) = x mod 65536.
Proof. change 65536 with (256 * 256). rewrite Z.rem_mul_r by lia. lia. Qed.

Lemma digits_4 x :
  x mod 256 + 256 * ((x / 256) mod 256) + 65536 * ((x / 65536) mod 256) + 16777216 * ((x / 16777216) mod 256) = x mod 2 ^ 32.
Proof.
  change (2 ^ 32) with (65536 * 65536). rewrite Z.rem_mul_r by lia. rewrite <- (digits_2 x), <- (digits_2 (x / 65536)).
  rewrite Z.div_div by lia. change (65536 * 256) with 16777216. lia.
Qed.

Lemma put_entry16 B c x :
  entry_of FS_FAT16 (upd B (2 * c) (ST_WORD x)) c = x mod 2 ^ 16 /\
  forall c', c' <> c -> entry_of FS_FAT16 (upd B (2 * c) (ST_WORD x)) c' = entry_of FS_FAT16 B c'.
Proof.
  unfold entry_of. cbn -[Z.mul Z.add upd]. split.
  - rewrite upd_at, (upd_in _ _ _ 1) by (rewrite ?st_word_len; done || lia). rewrite st_word. apply digits_2.
  - intros c' Hc. rewrite !upd_out by (rewrite st_word_len; lia). done.
Qed.

Lemma put_entry32 B c x :
  entry_of FS_FAT32 (upd B (4 * c) (ST_DWORD x)) c = x mod 2 ^ 28 /\
  forall c', c' <> c -> entry_of FS_FAT32 (upd B (4 * c) (ST_DWORD x)) c' = entry_of FS_FAT32 B c'.
Proof.
  unfold entry_of. cbn -[Z.mul Z.add upd Z.modulo Z.pow]. split.
  - rewrite upd_at, (upd_in _ _ _ 1), (upd_in _ _ _ 2), (upd_in _ _ _ 3) by (rewrite ?st_dword_len; done || lia). rewrite st_dword.
    unfold byte_at. cbn [nth Z.to_nat Pos.to_nat Pos.iter_op Init.Nat.add].
    etransitivity; [apply (f_equal (fun z => z mod 2 ^ 28) (digits_4 x))|]. apply Z.mod_mod_divide. exists 16. done.
  - intros c' Hc. rewrite !upd_out by (rewrite st_dword_len; lia). done.
Qed.

(** The first byte an entry of 12 bits changes, and the second. *)
Definition low12 (B : Z -> Z) (c x : Z) : Z -> Z :=
  upd B (c + c / 2) [if Z.even c then x mod 256 else B (c + c / 2) mod 16 + 16 * (x mod 16)].
Definition high12 (B : Z -> Z) (c x : Z) : Z -> Z :=
  upd B (c + c / 2 + 1) [if Z.even c then 16 * (B (c + c / 2 + 1) / 16) + (x / 256) mod 16 else (x / 16) mod 256].

Lemma upd_1 B o b i : upd B o [b] i = if decide (i = o) then b else B i.
Proof.
  unfold upd. change (zlen [b]) with 1. repeat case_decide; try lia; subst; by rewrite ?Z.sub_diag.
Qed.

Lemma halves c : 0 <= c -> exists k p, c = 2 * k + Z.b2z p /\ c / 2 = k /\ Z.even c = negb p.
Proof.
  intros Hc. exists (c / 2), (Z.odd c). split_and!; [|done|by rewrite Z.negb_odd].
  rewrite <- Z.bit0_odd, Z.bit0_mod. apply Z.div_mod. lia.
Qed.

Lemma mod_16_4096 b x : 0 <= b < 256 -> (b + 256 * x) mod 4096 = b + 256 * (x mod 16).
Proof. intros Hb. change 4096 with (256 * 16). rewrite (Z.rem_mul_r (b + 256 * x)) by lia.
  rewrite (Z.mul_comm 256 x), Z.mod_add, Z.mod_small, Z.div_add, Z.div_small by lia. by rewrite Z.add_0_l.
Qed.

Lemma other_entry12 B B' c c' :
  bytes B -> 0 <= c -> 0 <= c' -> c' <> c ->
  (forall i, i <> c + c / 2 -> i <> c + c / 2 + 1 -> B' i = B i) ->
  (if Z.even c then B' (c + c / 2 + 1) / 16 = B (c + c / 2 + 1) / 16 else B' (c + c / 2) mod 16 = B (c + c / 2) mod 16) ->
  bytes B' ->
  entry_of FS_FAT12 B' c' = entry_of FS_FAT12 B c'.
Proof.
  intros HB Hc Hc' Hne Hout Hshare HB'. unfold entry_of. cbn -[Z.mul Z.add Z.modulo Z.div Z.even].
  destruct (halves c) as (k & p & -> & Hd & Hev); [done|]. destruct (halves c') as (k' & p' & -> & Hd' & Hev'); [done|].
  rewrite Hd, ?Hev, Hd', Hev' in *.
  pose proof (HB (2 * k' + Z.b2z p' + k')) as H1. pose proof (HB' (2 * k' + Z.b2z p' + k')) as H2.
  pose proof (HB (2 * k' + Z.b2z p' + k' + 1)) as H3. pose proof (HB' (2 * k' + Z.b2z p' + k' + 1)) as H4. unfold is_byte in *.
  destruct (decide (k' = k)) as [->|Hk].
  - destruct p, p'; cbn [Z.b2z negb] in *; try done.
    + rewrite (Hout (2 * k + 0 + k)) by lia. replace (2 * k + 0 + k + 1) with (2 * k + 1 + k) in * by lia.
      rewrite !(mod_16_4096 (B _)) by lia. by rewrite Hshare.
    + rewrite (Hout (2 * k + 1 + k + 1)) by lia. replace (2 * k + 1 + k) with (2 * k + 0 + k + 1) in * by lia.
      rewrite !(Z.add_comm (_ (2 * k + 0 + k + 1))). change 256 with (16 * 16). rewrite <- !Z.mul_assoc, !(Z.mul_comm 16).
      by rewrite !Z.div_add_l, Hshare by lia.
  - rewrite !Hout by (destruct p, p'; cbn [Z.b2z] in *; lia). done.
Qed.

Lemma low_bytes B c x : bytes B -> bytes (low12 B c x).
Proof.
  intros HB. apply bytes_upd; [done|]. constructor; [|done]. pose proof (HB (c + c / 2)). unfold is_byte in *.
  pose proof (Z.mod_pos_bound x 256 ltac:(lia)). pose proof (Z.mod_pos_bound x 16 ltac:(lia)).
  pose proof (Z.mod_pos_bound (B (c + c / 2)) 16 ltac:(lia)). destruct (Z.even c); lia.
Qed.

Lemma high_bytes B c x : bytes B -> bytes (high12 B c x).
Proof.
  intros HB. apply bytes_upd; [done|]. constructor; [|done]. pose proof (HB (c + c / 2 + 1)). unfold is_byte in *.
  pose proof (Z.mod_pos_bound (x / 16) 256 ltac:(lia)). pose proof (Z.mod_pos_bound (x / 256) 16 ltac:(lia)).
  pose proof (Z.div_mod (B (c + c / 2 + 1)) 16 ltac:(lia)). pose proof (Z.mod_pos_bound (B (c + c / 2 + 1)) 16 ltac:(lia)).
  destruct (Z.even c); lia.
Qed.

(** Half of the work leaves the other entries alone. *)
Lemma half_entry12 B c x c' :
  bytes B -> 0 <= c -> 0 <= c' -> c' <> c -> entry_of FS_FAT12 (low12 B c x) c' = entry_of FS_FAT12 B c'.
Proof.
  intros HB Hc Hc' Hne. apply (other_entry12 _ _ c); try done; [| |by apply low_bytes].
  - intros i H1 H2. unfold low12. rewrite upd_1. by rewrite decide_False.
  - unfold low12. rewrite !upd_1. rewrite (decide_False (P := c + c / 2 + 1 = _)), decide_True by lia.
    destruct (Z.even c); [done|]. rewrite Z.mul_comm, Z.mod_add by lia. by rewrite Z.mod_mod.
Qed.

Lemma put_entry12 B c x :
  bytes B -> 0 <= c ->
  entry_of FS_FAT12 (high12 (low12 B c x) c x) c = x mod 2 ^ 12 /\
  forall c', 0 <= c' -> c' <> c -> entry_of FS_FAT12 (high12 (low12 B c x) c x) c' = entry_of FS_FAT12 B c'.
Proof.
  intros HB Hc. split.
  - unfold entry_of, high12, low12. cbn -[Z.mul Z.add Z.modulo Z.div Z.even Z.pow]. rewrite !upd_1.
    rewrite decide_False, !decide_True, decide_False by lia. pose proof (HB (c + c / 2)) as H1. unfold is_byte in H1.
    pose proof (Z.mod_pos_bound x 256 ltac:(lia)). pose proof (Z.mod_pos_bound x 16 ltac:(lia)). pose proof (Z.mod_pos_bound (B (c + c / 2)) 16 ltac:(lia)).
    destruct (Z.even c).
    + rewrite mod_16_4096 by lia. rewrite (Z.mul_comm 16), Z.add_comm, (Z.add_comm (_ * 16)), Z.mod_add, Z.mod_mod by lia.
      change (2 ^ 12) with (256 * 16). rewrite Z.rem_mul_r by lia. lia.
    + replace (_ + _) with (B (c + c / 2) mod 16 + (x mod 16 + 16 * ((x / 16) mod 256)) * 16) by lia.
      rewrite Z.div_add, Z.div_small, Z.add_0_l by lia. change (2 ^ 12) with (16 * 256). rewrite Z.rem_mul_r by lia. done.
  - intros c' Hc' Hne. rewrite <- (half_entry12 B c x c') by done.
    apply (other_entry12 _ _ c); try done; [by apply low_bytes| | |by apply high_bytes, low_bytes].
    + intros i H1 H2. unfold high12. rewrite upd_1. by rewrite decide_False.
    + unfold high12. rewrite !upd_1. rewrite (decide_False (P := c + c / 2 = _)), decide_True by lia.
      destruct (Z.even c); [|done]. pose proof (Z.mod_pos_bound (x / 256) 16 ltac:(lia)).
      rewrite Z.add_comm, Z.mul_comm, Z.div_add, Z.div_small by lia. done.
Qed.

Lemma entry_of_ext ty B B' c :
  0 <= c -> (forall i, entry_at ty c <= i < entry_at ty c + entry_size ty -> B' i = B i) -> entry_of ty B' c = entry_of ty B c.
Proof.
  intros Hc. unfold entry_of, entry_at, entry_size. intros H. destruct (ty =? FS_FAT12); [by rewrite !H by lia|].
  destruct (ty =? FS_FAT16); by rewrite !H by lia.
Qed.

(** ** The table through the window *)

Section FatTableProofs.

Context {DK : Type} {HD : Disk DK} {HS : Store DK}.

Implicit Types v : vol (DK := DK).

(** A byte of the table, and the entry of a cluster. *)
Definition fat_byte v (o : Z) : Z := byte_at (view v (fatbase (fatfs v) + o / SS)) (o mod SS).
Definition entry v (c : Z) : Z := entry_of (fs_type (fatfs v)) (fat_byte v) c.

Definition in_table (f : FATFS) (o : Z) : Prop := 0 <= o < SS * fsize f.

Lemma fat_bytes v : win_ok v -> bytes (fat_byte v).
Proof using. intros Hok o. by apply byte_at_byte, view_sector. Qed.

Lemma entry_range v c : win_ok v -> 0 <= entry v c < 2 ^ 28.
Proof using.
  intros Hok. pose proof (fat_bytes v Hok) as HB. unfold entry, entry_of, bytes, is_byte in *. change (2 ^ 28) with 268435456.
  repeat case_match.
  - pose proof (Z.mod_pos_bound (fat_byte v (c + c / 2) + 256 * fat_byte v (c + c / 2 + 1)) 4096 ltac:(lia)). lia.
  - pose proof (HB (c + c / 2)). pose proof (HB (c + c / 2 + 1)). split; [apply Z.div_pos; lia|]. apply Z.div_lt_upper_bound; lia.
  - pose proof (HB (2 * c)). pose proof (HB (2 * c + 1)). lia.
  - apply Z.mod_pos_bound. lia.
Qed.

Lemma table_primary f o : geometry f -> in_table f o -> primary f (fatbase f + o / SS) /\ fatbase f + o / SS < fatbase f + fsize f.
Proof using.
  intros [_ Hc Hb Hs He] Ho. unfold in_table, SS in *.
  assert (0 <= o / 512 < fsize f) by (split; [apply Z.div_pos; lia|apply Z.div_lt_upper_bound; lia]).
  split; [split; [lia|unfold mirror; lia]|lia].
Qed.

Lemma fat_byte_stays v v' o : geometry (fatfs v) -> stays v v' -> in_table (fatfs v) o -> fat_byte v' o = fat_byte v o.
Proof using.
  intros Hg [Hsm Hvw _] Ho. unfold fat_byte. replace (fatbase (fatfs v')) with (fatbase (fatfs v)) by (by rewrite Hsm).
  rewrite Hvw; [done|]. by apply table_primary.
Qed.

Lemma entry_stays v v' c : table_ok (fatfs v) -> stays v v' -> cluster (fatfs v) c -> entry v' c = entry v c.
Proof using.
  intros Ht Hst Hc. unfold entry. replace (fs_type (fatfs v')) with (fs_type (fatfs v)) by (by destruct Hst as [-> _ _]).
  pose proof (entry_in_table _ _ Ht Hc). apply entry_of_ext; [unfold cluster in Hc; lia|]. intros i Hi.
  apply fat_byte_stays; [apply Ht|done|]. unfold in_table. lia.
Qed.

(** ** Pointers into the window *)

Lemma fwp_bytes o n (Q : list Z -> vol -> Prop) v :
  sector (win (fatfs v)) -> 0 <= o -> o + n <= 512 -> Q (take (Z.to_nat n) (drop (Z.to_nat o) (win (fatfs v)))) v -> fwp (win_bytes o n) Q v.
Proof using.
  intros [Hl _] Ho Hn HQ. unfold win_bytes. apply fwp_bind, fwp_get. unfold zlen. rewrite Hl.
  change (Z.of_nat 512) with 512. zbool. by apply fwp_ret.
Qed.

Lemma fwp_at o (Q : Z -> vol -> Prop) v :
  sector (win (fatfs v)) -> 0 <= o < 512 -> Q (byte_at (win (fatfs v)) o) v -> fwp (win_at o) Q v.
Proof using.
  intros Hs Ho HQ. unfold win_at. apply fwp_bind, fwp_bytes; [done|lia|lia|]. apply fwp_ret.
  change 1 with (0 + 1). rewrite byte_at_part by lia. by rewrite Z.add_0_r.
Qed.

Lemma fwp_put o l (Q : unit -> vol -> Prop) v :
  sector (win (fatfs v)) -> 0 <= o -> o + zlen l <= 512 -> Q tt (mkVol (set_win (mem_cpy (win (fatfs v)) o l) (fatfs v)) (dev v)) ->
  fwp (win_put o l) Q v.
Proof using.
  intros [Hl _] Ho Hn HQ. unfold win_put. apply fwp_bind, fwp_get. unfold zlen at 2. rewrite Hl.
  change (Z.of_nat 512) with 512. zbool. by apply fwp_mod.
Qed.

(** The window is at the byte [o] of the table. *)
Definition at_byte v (o : Z) : Prop := winsect (fatfs v) = fatbase (fatfs v) + o / SS.

Lemma at_byte_get v o i :
  at_byte v o -> 0 <= i -> o mod SS + i < 512 -> byte_at (win (fatfs v)) (o mod SS + i) = fat_byte v (o + i).
Proof using.
  intros Ha Hi Hlt. unfold fat_byte. assert (Hq : (o + i) / SS = o / SS /\ (o + i) mod SS = o mod SS + i).
  { unfold SS in *. pose proof (Z.div_mod o 512 ltac:(lia)). pose proof (Z.mod_pos_bound o 512 ltac:(lia)).
    split; [symmetry; apply (Z.div_unique _ _ _ (o mod 512 + i)); lia|symmetry; apply (Z.mod_unique _ _ (o / 512)); lia]. }
  destruct Hq as [-> ->]. unfold view. by rewrite decide_True.
Qed.

(** Moving the window to a byte of the table. *)
Record sought (o : Z) v (r : FRESULT) v' : Prop := {
  so_ok : win_ok v';
  so_stays : stays v v';
  so_answer : r = FR_OK /\ at_byte v' o \/ r = FR_DISK_ERR;
  so_mirrors : reliable -> mirrored v -> mirrored v';
  so_sound : sound -> r = FR_OK
}.

Lemma seek_ok v o : win_ok v -> in_table (fatfs v) o -> fwp (move_window (u32 (fatbase (fatfs v) + o / SS))) (sought o v) v.
Proof using.
  intros Hok Ho. destruct (table_primary _ o (w_geo _ Hok) Ho) as [Hp Hlt].
  assert (Hw : u32 (fatbase (fatfs v) + o / SS) = fatbase (fatfs v) + o / SS).
  { apply wrap_small. destruct Hp as [Hp _], (w_geo _ Hok). unfold fits. lia. }
  rewrite Hw. eapply fwp_mono; [|by apply move_window_ok; [|right]]. intros r v' [H1 H2 H3 H4 _ H6 H7]. split; try done.
  destruct H3 as [-> | ->]; [left|by right]. split; [done|]. unfold at_byte. rewrite H4; [|done|].
  - by rewrite (st_same _ _ H2).
  - apply (primary_pos (fatfs v)); [apply Hok|done].
Qed.

(** [let r = move_window(..); if (r == FR_OK) k; else e r]. *)
Lemma fwp_seek {B} f0 v o (k : F B) (e : FRESULT -> F B) (Q : B -> vol -> Prop) :
  win_ok v -> in_table (fatfs v) o -> fatbase f0 = fatbase (fatfs v) ->
  (forall v', sought o v FR_OK v' -> at_byte v' o -> fwp k Q v') ->
  (forall v', sought o v FR_DISK_ERR v' -> fwp (e FR_DISK_ERR) Q v') ->
  fwp (r ← move_window (u32 (fatbase f0 + o / SS)); if decide (r = FR_OK) then k else e r) Q v.
Proof using.
  intros Hok Ho -> Hk He. apply fwp_bind. eapply fwp_mono; [|by apply seek_ok]. intros r v' Hs.
  destruct (so_answer _ _ _ _ Hs) as [[-> Ha]| ->].
  - rewrite decide_True by done. by apply Hk.
  - rewrite decide_False by done. by apply He.
Qed.

(** ** Reading an entry *)

Record got (c : Z) v (r : Z) v' : Prop := {
  gt_ok : win_ok v';
  gt_stays : stays v v';
  gt_answer : r = entry v c /\ winsect (fatfs v') <> 0 \/ r = DISK_ERROR;
  gt_mirrors : reliable -> mirrored v -> mirrored v';
  gt_sound : sound -> r = entry v c
}.

Lemma sought_got o c v v' : sought o v FR_DISK_ERR v' -> got c v DISK_ERROR v'.
Proof using. intros [H1 H2 _ H4 H5]. split; try done; [by right|]. intros S. by specialize (H5 S). Qed.

Lemma got_intro c v r v' :
  win_ok v' -> stays v v' -> (reliable -> mirrored v -> mirrored v') -> winsect (fatfs v') <> 0 -> r = entry v c -> got c v r v'.
Proof using. intros H1 H2 H3 H4 H5. split; try done. by left. Qed.

Lemma sought_some o v r v' : sought o v r v' -> at_byte v' o -> in_table (fatfs v) o -> winsect (fatfs v') <> 0.
Proof using.
  intros [H1 H2 _ _ _] -> Ho. destruct (w_geo _ H1). unfold in_table, SS in *.
  pose proof (Z.div_pos o 512 ltac:(lia) ltac:(lia)). lia.
Qed.

Lemma get_fat12 v c :
  win_ok v -> table_ok (fatfs v) -> cluster (fatfs v) c -> fs_type (fatfs v) = FS_FAT12 -> fwp (get_fat c) (got c v) v.
Proof using.
  intros Hok Ht Hc Hty. pose proof (entry_in_table _ _ Ht Hc) as Hin. pose proof Ht as [_ _ _ _ Hm]. rewrite Hty in Hin, Hm.
  unfold entry_at, entry_size, entry_bits in *. cbn [Z.eqb FS_FAT12 Pos.eqb] in *. unfold cluster in Hc.
  unfold get_fat. apply fwp_bind, fwp_get. replace ((c <? 2) || (n_fatent (fatfs v) <=? c)) with false by (zbool; done).
  rewrite Hty. change (FS_FAT12 =? FS_FAT12) with true. cbn match.
  set (o := c + c / 2) in *. assert (Ho : o < 2 ^ 13) by (pose proof (Z.div_le_upper_bound c 2 c ltac:(lia) ltac:(lia)); lia).
  rewrite (wrap_small 32 o), (wrap_small 32 (o + 1)) by (unfold fits; lia).
  assert (Hi0 : in_table (fatfs v) o) by (unfold in_table; lia). assert (Hi1 : in_table (fatfs v) (o + 1)) by (unfold in_table; lia).
  apply fwp_seek; [done|done|done| |intros v1 Hs; by apply fwp_ret, (sought_got o)].
  intros v1 Hs1 Ha1. pose proof Hs1 as [Hok1 Hst1 _ Hm1 _]. pose proof (st_same _ _ Hst1) as Hsm1.
  apply fwp_bind, fwp_at; [apply Hok1|apply Z.mod_pos_bound; unfold SS; lia|].
  rewrite <- (Z.add_0_r (o mod SS)), at_byte_get by (done || (pose proof (Z.mod_pos_bound o 512 ltac:(lia)); unfold SS; lia)).
  rewrite Z.add_0_r, (fat_byte_stays v) by (done || apply Hok).
  apply fwp_seek; [done|by rewrite Hsm1|by rewrite Hsm1| |].
  2: { intros v2 [H1 H2 H3 H4 H5]. apply fwp_ret. split; [done|by transitivity v1|by right|auto|]. intros S. by specialize (H5 S). }
  intros v2 Hs2 Ha2. pose proof Hs2 as [Hok2 Hst2 _ Hm2 _]. assert (Hst : stays v v2) by (by transitivity v1).
  apply fwp_bind, fwp_at; [apply Hok2|apply Z.mod_pos_bound; unfold SS; lia|].
  rewrite <- (Z.add_0_r ((o + 1) mod SS)), at_byte_get by (done || (pose proof (Z.mod_pos_bound (o + 1) 512 ltac:(lia)); unfold SS; lia)).
  rewrite Z.add_0_r, (fat_byte_stays v v2) by (done || apply Hok). apply fwp_ret.
  apply got_intro; [done|done|by auto|apply (sought_some (o + 1) v1 FR_OK); [done|done|by rewrite Hsm1]|].
  unfold entry, entry_of. rewrite Hty. change (FS_FAT12 =? FS_FAT12) with true. cbn match. fold o. rewrite even_land.
  rewrite Z.lor_comm, lor_add by (lia || apply (fat_bytes v Hok)). rewrite shiftr_div by lia.
  change 4095 with (2 ^ 12 - 1). rewrite land_mod by lia. change (2 ^ 8) with 256.
  by rewrite Z.mul_comm, Z.add_comm.
Qed.

(** The bytes of a wide entry, in one sector. *)
Lemma part_bytes v o n i :
  at_byte v o -> 0 <= i < n -> o mod SS + n <= 512 -> byte_at (take (Z.to_nat n) (drop (Z.to_nat (o mod SS)) (win (fatfs v)))) i = fat_byte v (o + i).
Proof using.
  intros Ha Hi Hn. pose proof (Z.mod_pos_bound o SS ltac:(unfold SS; lia)).
  rewrite byte_at_part by lia. apply at_byte_get; [done|lia|lia].
Qed.

Lemma part_is_bytes v o n : win_ok v -> Forall is_byte (take n (drop o (win (fatfs v)))).
Proof using. intros Hok. apply Forall_take, Forall_drop, Hok. Qed.

Lemma wide_aligned c k : 0 <= c -> (k | 512) -> 0 < k -> k * c / SS = c / (SS / k) /\ (k * c) mod SS + k <= 512.
Proof using.
  intros Hc [q Hq] Hk. unfold SS. rewrite Hq. rewrite Z.div_mul by lia. rewrite (Z.mul_comm q k).
  rewrite Z.div_mul_cancel_l, Z.mul_mod_distr_l by lia. split; [done|]. pose proof (Z.mod_pos_bound c q ltac:(lia)). nia.
Qed.

Lemma get_fat_wide v c :
  win_ok v -> table_ok (fatfs v) -> cluster (fatfs v) c -> fs_type (fatfs v) <> FS_FAT12 -> fwp (get_fat c) (got c v) v.
Proof using.
  intros Hok Ht Hc Hty. pose proof (entry_in_table _ _ Ht Hc) as Hin. pose proof Ht as [_ Htys _ _ Hm].
  destruct Htys as [|Htys]; [done|]. unfold cluster in Hc.
  unfold get_fat. apply fwp_bind, fwp_get. replace ((c <? 2) || (n_fatent (fatfs v) <=? c)) with false by (zbool; done).
  assert (Hgot : forall n o p v1, o = n * c -> (n = 2 \/ n = 4) -> sought o v FR_OK v1 -> at_byte v1 o -> o mod SS + n <= 512 -> in_table (fatfs v) o ->
    in_table (fatfs v) (o + n - 1) ->
    p = take (Z.to_nat n) (drop (Z.to_nat (o mod SS)) (win (fatfs v1))) ->
    win_ok v1 /\ stays v v1 /\ winsect (fatfs v1) <> 0 /\ (reliable -> mirrored v -> mirrored v1) /\ Forall is_byte p /\ forall i, 0 <= i < n -> byte_at p i = fat_byte v (o + i)).
  { intros n o p v1 Ho Hn Hs Ha Hal Hi Hi' ->. pose proof Hs as [Hok1 Hst1 _ Hm1 _]. split_and!; try done.
    - by apply (sought_some o v FR_OK).
    - by apply part_is_bytes.
    - intros i Hii. rewrite part_bytes by done. apply fat_byte_stays; [apply Hok|done|]. unfold in_table in *. lia. }
  destruct Htys as [Hty2|Hty2]; rewrite Hty2 in *; unfold entry_at, entry_size, entry_bits in *;
    cbn -[SS Z.mul Z.div Z.modulo Z.pow] in *.
  - destruct (wide_aligned c 2 ltac:(lia) ltac:(by exists 256) ltac:(lia)) as [<- Hal].
    rewrite (wrap_small 32), (Z.mul_comm c) by (unfold fits; lia).
    apply fwp_seek; [done|unfold in_table; lia|done| |intros v1 Hs; by apply fwp_ret, (sought_got (2 * c))].
    intros v1 Hs Ha. apply fwp_bind, fwp_bytes; [apply Hs|apply Z.mod_pos_bound; unfold SS; lia|done|]. apply fwp_ret.
    edestruct (Hgot 2 (2 * c)) as (H1 & H2 & H3 & H4 & H5 & H6); [done|by left|done|done|done|unfold in_table; lia|unfold in_table; lia|done|].
    apply got_intro; try done. rewrite ld_word by done. rewrite !H6, Z.add_0_r by lia.
    unfold entry, entry_of. by rewrite Hty2.
  - destruct (wide_aligned c 4 ltac:(lia) ltac:(by exists 128) ltac:(lia)) as [<- Hal].
    rewrite (wrap_small 32), (Z.mul_comm c) by (unfold fits; lia).
    apply fwp_seek; [done|unfold in_table; lia|done| |intros v1 Hs; by apply fwp_ret, (sought_got (4 * c))].
    intros v1 Hs Ha. apply fwp_bind, fwp_bytes; [apply Hs|apply Z.mod_pos_bound; unfold SS; lia|done|]. apply fwp_ret.
    edestruct (Hgot 4 (4 * c)) as (H1 & H2 & H3 & H4 & H5 & H6); [done|by right|done|done|done|unfold in_table; lia|unfold in_table; lia|done|].
    apply got_intro; try done. rewrite ld_dword by done. rewrite !H6, Z.add_0_r by lia.
    change 268435455 with (2 ^ 28 - 1). rewrite land_mod by lia. unfold entry, entry_of. by rewrite Hty2.
Qed.

Lemma get_fat_ok v c : win_ok v -> table_ok (fatfs v) -> cluster (fatfs v) c -> fwp (get_fat c) (got c v) v.
Proof using.
  intros Hok Ht Hc. destruct (decide (fs_type (fatfs v) = FS_FAT12)); [by apply get_fat12|by apply get_fat_wide].
Qed.

Lemma get_fat_range v c : ~ cluster (fatfs v) c -> get_fat c v = Some (1, v).
Proof using.
  unfold cluster. intros Hc. unfold get_fat, mbind, F_bind, fs_get.
  destruct ((c <? 2) || (n_fatent (fatfs v) <=? c)) eqn:E; [done|]. apply orb_false_elim in E as [E1 E2].
  apply Z.ltb_ge in E1. apply Z.leb_gt in E2. lia.
Qed.

(** ** Changing the window *)

Definition mark v : vol := mkVol (set_wflag true (fatfs v)) (dev v).

(** The volume with the bytes [l] at [o] of the table. *)
Record edited (o : Z) (l : list Z) v v' : Prop := {
  ed_ok : win_ok v';
  ed_same : same (fatfs v) (fatfs v');
  ed_some : winsect (fatfs v') <> 0;
  ed_view : forall s, primary (fatfs v) s -> s <> fatbase (fatfs v) + o / SS -> view v' s = view v s;
  ed_bytes : forall i, in_table (fatfs v) i -> fat_byte v' i = upd (fat_byte v) o l i;
  ed_at : at_byte v' o;
  ed_mirrors : mirrored v -> mirrored v'
}.

Lemma mirrored_dirty v w : mirrored v -> mirrored (mark (mkVol (set_win w (fatfs v)) (dev v))).
Proof using. intros Hm Hn s Hs [|Hne]; [done|]. apply Hm; [done|done|by right]. Qed.

Lemma edit_ok v o l :
  win_ok v -> at_byte v o -> in_table (fatfs v) o -> o mod SS + zlen l <= 512 -> Forall is_byte l ->
  edited o l v (mark (mkVol (set_win (mem_cpy (win (fatfs v)) (o mod SS) l) (fatfs v)) (dev v))).
Proof using.
  intros Hok Ha Ho Hlen Hl. pose proof Hok as [Hg Hw Hp _ _]. destruct (table_primary _ _ Hg Ho) as [Hpr _].
  pose proof (Z.mod_pos_bound o SS ltac:(unfold SS; lia)) as Hmod.
  assert (Hne : winsect (fatfs v) <> 0) by (rewrite Ha; by apply (primary_pos (fatfs v))).
  split.
  - split; cbn; try done; [by apply (same_geometry (fatfs v))|apply cpy_sector; [done|done|lia|lia]].
  - done.
  - done.
  - intros s Hs Hns. unfold view, mark. cbn. rewrite Ha. by rewrite !decide_False.
  - intros i Hi. unfold fat_byte at 1, view, mark. cbn [fatfs dev].
    change (fatbase (set_wflag _ _)) with (fatbase (fatfs v)). change (winsect (set_wflag _ _)) with (winsect (fatfs v)).
    change (win (set_wflag true (set_win ?w _))) with w. rewrite Ha. unfold in_table, upd, SS in *.
    pose proof (Z.div_mod o 512 ltac:(lia)) as Do. pose proof (Z.div_mod i 512 ltac:(lia)) as Di.
    pose proof (Z.mod_pos_bound i 512 ltac:(lia)). destruct (decide (i / 512 = o / 512)) as [Hq|Hq].
    + rewrite decide_True by lia. rewrite byte_at_cpy by (lia || (unfold zlen at 2; destruct Hw as [-> _]; lia)).
      destruct (decide (o <= i < o + zlen l)).
      * rewrite decide_True by lia. f_equal. lia.
      * rewrite decide_False by lia. unfold fat_byte, view, SS. by rewrite decide_True by (rewrite Ha; unfold SS; lia).
    + rewrite decide_False by lia. rewrite decide_False by nia. unfold fat_byte, view, SS.
      by rewrite decide_False by (rewrite Ha; unfold SS; lia).
  - done.
  - apply mirrored_dirty.
Qed.

Lemma mark_ok v : win_ok v -> winsect (fatfs v) <> 0 -> win_ok (mark v) /\ stays v (mark v) /\ (mirrored v -> mirrored (mark v)).
Proof using.
  intros [H1 H2 H3 H4 H5] Hne. split_and!; [split|split|]; try done; [by apply (same_geometry (fatfs v))|].
  intros Hm Hn s Hs [|Hns]; [done|]. apply Hm; [done|done|by right].
Qed.

(** ** Writing an entry *)

(** What [put_fat] leaves: at most the entry changed, and it did when the call
    says so; nothing behind the table changed. *)
Record put_result (c x : Z) v (r : FRESULT) v' : Prop := {
  pr_ok : win_ok v';
  pr_same : same (fatfs v) (fatfs v');
  pr_some : winsect (fatfs v') <> 0;
  pr_data : forall s, primary (fatfs v) s -> fatbase (fatfs v) + fsize (fatfs v) <= s -> view v' s = view v s;
  pr_others : forall c', cluster (fatfs v) c' -> c' <> c -> entry v' c' = entry v c';
  pr_answer : r = FR_OK /\ entry v' c = x mod 2 ^ entry_bits (fs_type (fatfs v)) \/ r = FR_DISK_ERR;
  pr_mirrors : reliable -> mirrored v -> mirrored v';
  pr_sound : sound -> r = FR_OK
}.

(** The volume with the table [B]. *)
Record table_as (B : Z -> Z) v v' : Prop := {
  ta_ok : win_ok v';
  ta_same : same (fatfs v) (fatfs v');
  ta_some : winsect (fatfs v') <> 0;
  ta_data : forall s, primary (fatfs v) s -> fatbase (fatfs v) + fsize (fatfs v) <= s -> view v' s = view v s;
  ta_bytes : forall i, in_table (fatfs v) i -> fat_byte v' i = B i;
  ta_mirrors : reliable -> mirrored v -> mirrored v'
}.

Lemma table_as_refl v : win_ok v -> winsect (fatfs v) <> 0 -> table_as (fat_byte v) v v.
Proof using. intros Hok Hne. split; try done. apply same_refl. Qed.

Lemma table_as_stays B v v1 v2 :
  table_as B v v1 -> win_ok v2 -> stays v1 v2 -> (reliable -> mirrored v1 -> mirrored v2) -> table_as B v v2.
Proof using.
  intros [H1 H2 H3 H4 H5 H6] Hok Hst Hm. pose proof Hst as [Hsm Hvw Hso]. split; [done|by eapply same_trans|by auto| | |by auto].
  - intros s Hs Hge. rewrite Hvw by (by apply (same_primary _ _ _ H2)). by apply H4.
  - intros i Hi. rewrite (fat_byte_stays v1) by (done || apply H1 || by rewrite H2). by apply H5.
Qed.

Lemma table_as_sought B v v1 o r v2 : table_as B v v1 -> sought o v1 r v2 -> table_as B v v2.
Proof using. intros H [H1 H2 _ H4 _]. by eapply table_as_stays. Qed.

Lemma table_as_mark B v v1 : table_as B v v1 -> table_as B v (mark v1).
Proof using. intros H. destruct (mark_ok v1 (ta_ok _ _ _ H) (ta_some _ _ _ H)) as (H1 & H2 & H3). by apply (table_as_stays B v v1). Qed.

Lemma table_as_edit B v v1 o l v2 :
  geometry (fatfs v) -> in_table (fatfs v) o -> table_as B v v1 -> edited o l v1 v2 -> table_as (upd B o l) v v2.
Proof using.
  intros Hg Ho [H1 H2 H3 H4 H5 H6] [E1 E2 E3 E4 E5 _ E7]. split; [done|by eapply same_trans|done| | |by auto].
  - intros s Hs Hge. destruct (table_primary _ _ Hg Ho) as [_ Hlt]. rewrite E4; [by apply H4|by apply (same_primary _ _ _ H2)|].
    replace (fatbase (fatfs v1)) with (fatbase (fatfs v)) by (by rewrite H2). lia.
  - intros i Hi. rewrite E5 by (by rewrite H2). unfold upd. case_decide; [done|]. by apply H5.
Qed.

Lemma table_as_put c x B v r v' :
  table_ok (fatfs v) -> cluster (fatfs v) c -> table_as B v v' ->
  (forall c', cluster (fatfs v) c' -> c' <> c -> entry_of (fs_type (fatfs v)) B c' = entry v c') ->
  r = FR_OK /\ entry_of (fs_type (fatfs v)) B c = x mod 2 ^ entry_bits (fs_type (fatfs v)) \/ r = FR_DISK_ERR -> (sound -> r = FR_OK) ->
  put_result c x v r v'.
Proof using.
  intros Ht Hc [H1 H2 H3 H4 H5 H6] Hothers Hr Hsnd.
  assert (Hentry : forall c', cluster (fatfs v) c' -> entry v' c' = entry_of (fs_type (fatfs v)) B c').
  { intros c' Hc'. unfold entry. replace (fs_type (fatfs v')) with (fs_type (fatfs v)) by (by rewrite H2).
    pose proof (entry_in_table _ _ Ht Hc') as Hin. apply entry_of_ext; [unfold cluster in Hc'; lia|]. intros i Hi.
    apply H5. unfold in_table. lia. }
  split; try done.
  - intros c' Hc' Hne. rewrite Hentry by done. by apply Hothers.
  - by rewrite Hentry.
Qed.

Lemma put_fat16 v c x :
  win_ok v -> winsect (fatfs v) <> 0 -> table_ok (fatfs v) -> cluster (fatfs v) c -> fs_type (fatfs v) = FS_FAT16 ->
  fwp (put_fat c x) (put_result c x v) v.
Proof using.
  intros Hok Hne Ht Hc Hty. pose proof (entry_in_table _ _ Ht Hc) as Hin. pose proof Ht as [_ _ _ _ Hm]. rewrite Hty in Hin, Hm.
  pose proof Hc as Hcl. unfold cluster in Hcl. pose proof (table_as_refl v Hok Hne) as Hta.
  unfold entry_at, entry_size, entry_bits in *. cbn -[SS Z.mul Z.div Z.modulo Z.pow] in *.
  unfold put_fat. apply fwp_bind, fwp_get. replace ((c <? 2) || (n_fatent (fatfs v) <=? c)) with false by (zbool; done).
  rewrite Hty. change (FS_FAT16 =? FS_FAT12) with false. change (FS_FAT16 =? FS_FAT16) with true. cbn match.
  destruct (wide_aligned c 2 ltac:(lia) ltac:(by exists 256) ltac:(lia)) as [<- Hal].
  rewrite (wrap_small 32), (Z.mul_comm c) by (unfold fits; lia). assert (Hi : in_table (fatfs v) (2 * c)) by (unfold in_table; lia).
  apply fwp_bind, fwp_seek; [done|done|done| |].
  - intros v1 Hs Ha. pose proof (table_as_sought _ _ _ _ _ _ Hta Hs) as Hta1.
    apply fwp_bind, fwp_put; [apply Hs|apply Z.mod_pos_bound; unfold SS; lia|by rewrite st_word_len|]. apply fwp_ret, fwp_bind, fwp_mod, fwp_ret.
    assert (He := edit_ok v1 (2 * c) (ST_WORD (u16 x)) (so_ok _ _ _ _ Hs) Ha ltac:(by rewrite (st_same _ _ (so_stays _ _ _ _ Hs))) Hal ltac:(apply st_word_bytes)).
    eapply table_as_put; [done|done|apply (table_as_edit _ _ _ _ _ _ (t_geo _ Ht) Hi Hta1 He)| |left; split; [done|]|done]; rewrite Hty.
    + intros c' _ Hn. rewrite (proj2 (put_entry16 _ _ _)) by done. unfold entry. by rewrite Hty.
    + rewrite (proj1 (put_entry16 _ _ _)). unfold wrap. by rewrite Z.mod_mod.
  - intros v1 Hs. apply fwp_ret, fwp_bind, fwp_mod, fwp_ret.
    eapply table_as_put; [done|done|apply table_as_mark, (table_as_sought _ _ _ _ _ _ Hta Hs)| |by right|by apply Hs]. by intros c' _ _.
Qed.

Lemma keep_reserved x old : 0 <= old -> (Z.lor x (Z.land old 4026531840)) mod 2 ^ 28 = x mod 2 ^ 28.
Proof using.
  intros _. apply Z.bits_inj'. intros i Hi. rewrite !Z.testbit_mod_pow2 by lia. destruct (Z.ltb_spec i 28); [|done].
  rewrite Z.lor_spec, Z.land_spec. change 4026531840 with (Z.shiftl 15 28). rewrite Z.shiftl_spec_low by lia.
  by rewrite andb_false_r, orb_false_r.
Qed.

Lemma put_fat32 v c x :
  win_ok v -> winsect (fatfs v) <> 0 -> table_ok (fatfs v) -> cluster (fatfs v) c -> fs_type (fatfs v) = FS_FAT32 ->
  fwp (put_fat c x) (put_result c x v) v.
Proof using.
  intros Hok Hne Ht Hc Hty. pose proof (entry_in_table _ _ Ht Hc) as Hin. pose proof Ht as [_ _ _ _ Hm]. rewrite Hty in Hin, Hm.
  pose proof Hc as Hcl. unfold cluster in Hcl. pose proof (table_as_refl v Hok Hne) as Hta.
  unfold entry_at, entry_size, entry_bits in *. cbn -[SS Z.mul Z.div Z.modulo Z.pow] in *.
  unfold put_fat. apply fwp_bind, fwp_get. replace ((c <? 2) || (n_fatent (fatfs v) <=? c)) with false by (zbool; done).
  rewrite Hty. change (FS_FAT32 =? FS_FAT12) with false. change (FS_FAT32 =? FS_FAT16) with false. change (FS_FAT32 =? FS_FAT32) with true. cbn match.
  destruct (wide_aligned c 4 ltac:(lia) ltac:(by exists 128) ltac:(lia)) as [<- Hal].
  rewrite (wrap_small 32), (Z.mul_comm c) by (unfold fits; lia). assert (Hi : in_table (fatfs v) (4 * c)) by (unfold in_table; lia).
  apply fwp_bind, fwp_seek; [done|done|done| |].
  - intros v1 Hs Ha. pose proof (table_as_sought _ _ _ _ _ _ Hta Hs) as Hta1.
    apply fwp_bind, fwp_bytes; [apply Hs|apply Z.mod_pos_bound; unfold SS; lia|done|].
    apply fwp_bind, fwp_put; [apply Hs|apply Z.mod_pos_bound; unfold SS; lia|by rewrite st_dword_len|]. apply fwp_ret, fwp_bind, fwp_mod, fwp_ret.
    match goal with |- context [ST_DWORD ?y] => set (y' := y) end.
    assert (He := edit_ok v1 (4 * c) (ST_DWORD y') (so_ok _ _ _ _ Hs) Ha ltac:(by rewrite (st_same _ _ (so_stays _ _ _ _ Hs))) Hal ltac:(apply st_dword_bytes)).
    eapply table_as_put; [done|done|apply (table_as_edit _ _ _ _ _ _ (t_geo _ Ht) Hi Hta1 He)| |left; split; [done|]|done]; rewrite Hty.
    + intros c' _ Hn. rewrite (proj2 (put_entry32 _ _ _)) by done. unfold entry. by rewrite Hty.
    + rewrite (proj1 (put_entry32 _ _ _)). apply keep_reserved, ld_dword_range.
  - intros v1 Hs. apply fwp_ret, fwp_bind, fwp_mod, fwp_ret.
    eapply table_as_put; [done|done|apply table_as_mark, (table_as_sought _ _ _ _ _ _ Hta Hs)| |by right|by apply Hs]. by intros c' _ _.
Qed.

(** The two bytes an entry of 12 bits is written with. *)
Lemma first_byte12 B c x : bytes B -> 
  (if negb (Z.land c 1 =? 0) then u8 (Z.lor (Z.land (B (c + c / 2)) 15) (Z.shiftl (u8 x) 4)) else u8 x) =
  (if Z.even c then x mod 256 else B (c + c / 2) mod 16 + 16 * (x mod 16)).
Proof using. intros HB. rewrite even_land. destruct (Z.even c); [done|]. by apply put_high_nibble. Qed.

Lemma second_byte12 B c x : bytes B ->
  (if negb (Z.land c 1 =? 0) then u8 (Z.shiftr x 4) else u8 (Z.lor (Z.land (B (c + c / 2 + 1)) 240) (Z.land (u8 (Z.shiftr x 8)) 15))) =
  (if Z.even c then 16 * (B (c + c / 2 + 1) / 16) + (x / 256) mod 16 else (x / 16) mod 256).
Proof using.
  intros HB. rewrite even_land. destruct (Z.even c); cbn [negb]; [by apply put_low_nibble|].
  unfold wrap. by rewrite shiftr_div.
Qed.

Lemma mod_ss o : 0 <= o mod SS < 512.
Proof using. apply Z.mod_pos_bound. unfold SS. lia. Qed.

Lemma byte_window v o : win_ok v -> at_byte v o -> byte_at (win (fatfs v)) (o mod SS) = fat_byte v o.
Proof using.
  intros Hok Ha. pose proof (mod_ss o) as Hm.
  rewrite <- (Z.add_0_r (o mod SS)), at_byte_get by (done || lia). by rewrite Z.add_0_r.
Qed.

(** One byte of the table replaced, with the window on it. *)
Lemma table_as_byte B v v1 o b :
  table_ok (fatfs v) -> in_table (fatfs v) o -> table_as B v v1 -> at_byte v1 o -> is_byte b ->
  table_as (upd B o [b]) v (mark (mkVol (set_win (mem_cpy (win (fatfs v1)) (o mod SS) [b]) (fatfs v1)) (dev v1))).
Proof using.
  intros Ht Ho H Ha Hb. pose proof (mod_ss o) as Hm.
  apply (table_as_edit B v v1); [apply Ht|done|done|]. apply edit_ok; [apply H|done| |change (zlen [b]) with 1; lia|by constructor].
  by rewrite (ta_same _ _ _ H).
Qed.

Lemma put_fat12_ok v c x :
  win_ok v -> winsect (fatfs v) <> 0 -> table_ok (fatfs v) -> cluster (fatfs v) c -> fs_type (fatfs v) = FS_FAT12 ->
  fwp (put_fat12 (fatfs v) c x) (fun r v' => put_result c x v r (mark v')) v.
Proof using.
  intros Hok Hne Ht Hc Hty. pose proof (entry_in_table _ _ Ht Hc) as Hin. pose proof Ht as [_ _ _ _ Hm]. rewrite Hty in Hin, Hm.
  pose proof Hc as Hcl. unfold cluster in Hcl. pose proof (table_as_refl v Hok Hne) as Hta. pose proof (fat_bytes v Hok) as HB.
  unfold entry_at, entry_size, entry_bits in *. cbn -[SS Z.mul Z.div Z.modulo Z.pow] in *.
  unfold put_fat12. set (o := c + c / 2) in *.
  assert (Ho : o < 2 ^ 13) by (pose proof (Z.div_le_upper_bound c 2 c ltac:(lia) ltac:(lia)); lia).
  rewrite (wrap_small 32 o), (wrap_small 32 (o + 1)) by (unfold fits; lia).
  assert (Hi0 : in_table (fatfs v) o) by (unfold in_table; lia). assert (Hi1 : in_table (fatfs v) (o + 1)) by (unfold in_table; lia).
  assert (Hother : forall c', cluster (fatfs v) c' -> c' <> c -> entry_of (fs_type (fatfs v)) (low12 (fat_byte v) c x) c' = entry v c').
  { intros c' Hc' Hn. unfold entry. rewrite Hty. apply half_entry12; unfold cluster in Hc'; done || lia. }
  apply fwp_seek; [done|done|done| |].
  2: { intros v1 Hs. apply fwp_ret. eapply table_as_put; [done|done|apply table_as_mark, (table_as_sought _ _ _ _ _ _ Hta Hs)|done|by right|by apply Hs]. }
  intros v1 Hs1 Ha1. pose proof (table_as_sought _ _ _ _ _ _ Hta Hs1) as Hta1.
  apply fwp_bind, fwp_at; [apply Hs1|apply mod_ss|]. rewrite (byte_window v1), (ta_bytes _ _ _ Hta1) by (done || apply Hs1).
  apply fwp_bind, fwp_put; [apply Hs1|apply mod_ss|pose proof (mod_ss o); unfold zlen; cbn [length]; lia|]. apply fwp_bind, fwp_mod.
  pose proof (first_byte12 (fat_byte v) c x HB) as Eb. fold o in Eb. rewrite Eb. match goal with |- context [mem_cpy _ _ [?b]] => set (b0 := b) end.
  assert (Hb0 : is_byte b0) by (pose proof (low_bytes _ c x HB o) as Hb; unfold low12 in Hb; by rewrite upd_1, decide_True in Hb).
  pose proof (table_as_byte _ v v1 o b0 Ht Hi0 Hta1 Ha1 Hb0) as Hta2. change (upd (fat_byte v) o [b0]) with (low12 (fat_byte v) c x) in Hta2.
  match type of Hta2 with table_as _ _ ?w => change (mkVol (set_wflag true _) _) with w; set (v2 := w) in * end.
  apply fwp_seek; [apply Hta2|by rewrite (ta_same _ _ _ Hta2)|by rewrite (ta_same _ _ _ Hta2)| |].
  2: { intros v3 Hs. apply fwp_ret. eapply table_as_put; [done|done|apply table_as_mark, (table_as_sought _ _ _ _ _ _ Hta2 Hs)|done|by right|by apply Hs]. }
  intros v3 Hs3 Ha3. pose proof (table_as_sought _ _ _ _ _ _ Hta2 Hs3) as Hta3.
  apply fwp_bind, fwp_at; [apply Hs3|apply mod_ss|]. rewrite (byte_window v3), (ta_bytes _ _ _ Hta3) by (done || apply Hs3).
  apply fwp_bind, fwp_put; [apply Hs3|apply mod_ss|pose proof (mod_ss (o + 1)); unfold zlen; cbn [length]; lia|]. apply fwp_ret.
  pose proof (second_byte12 (low12 (fat_byte v) c x) c x (low_bytes _ _ _ HB)) as Eb'. fold o in Eb'. rewrite Eb'.
  match goal with |- context [mem_cpy _ _ [?b]] => set (b1 := b) end.
  assert (Hb1 : is_byte b1).
  { pose proof (high_bytes _ c x (low_bytes _ c x HB) (o + 1)) as Hb. unfold high12 in Hb. by rewrite upd_1, decide_True in Hb. }
  pose proof (table_as_byte _ v v3 (o + 1) b1 Ht Hi1 Hta3 Ha3 Hb1) as Hta4.
  change (upd (low12 (fat_byte v) c x) (o + 1) [b1]) with (high12 (low12 (fat_byte v) c x) c x) in Hta4.
  destruct (put_entry12 (fat_byte v) c x HB ltac:(lia)) as [Hnew Hold].
  eapply table_as_put; [done|done|exact Hta4| |left; split; [done|by rewrite Hty]|done].
  intros c' Hc' Hn. unfold entry. rewrite Hty. apply Hold; unfold cluster in Hc'; done || lia.
Qed.

Lemma put_fat_ok v c x :
  win_ok v -> winsect (fatfs v) <> 0 -> table_ok (fatfs v) -> cluster (fatfs v) c -> fwp (put_fat c x) (put_result c x v) v.
Proof using.
  intros Hok Hne Ht Hc. destruct (t_type _ Ht) as [Hty|[Hty|Hty]]; [|by apply put_fat16|by apply put_fat32].
  unfold put_fat. apply fwp_bind, fwp_get. unfold cluster in Hc. replace ((c <? 2) || (n_fatent (fatfs v) <=? c)) with false by (zbool; done).
  rewrite Hty. change (FS_FAT12 =? FS_FAT12) with true. cbn match. apply fwp_bind.
  eapply fwp_mono; [|by apply put_fat12_ok]. intros r v' H. by apply fwp_bind, fwp_mod, fwp_ret.
Qed.

Lemma put_fat_range v c x : ~ cluster (fatfs v) c -> put_fat c x v = Some (FR_INT_ERR, v).
Proof using.
  unfold cluster. intros Hc. unfold put_fat, mbind, F_bind, fs_get.
  destruct ((c <? 2) || (n_fatent (fatfs v) <=? c)) eqn:E; [done|]. apply orb_false_elim in E as [E1 E2].
  apply Z.ltb_ge in E1. apply Z.leb_gt in E2. lia.
Qed.

(** (C17) The table is a map from clusters to links of 12, 16 or 28 bits.  Writing an
    entry ends on every disk; it changes no other entry and nothing behind the
    table, and when it says so every entry then reads as the map with the new link,
    unless the disk fails.  Numbers outside the table are refused. *)
Theorem fat_is_a_map v c x :
  win_ok v -> table_ok (fatfs v) -> winsect (fatfs v) <> 0 ->
  (cluster (fatfs v) c ->
   exists r v', put_fat c x v = Some (r, v') /\ put_result c x v r v' /\
     forall c', cluster (fatfs v) c' -> r = FR_OK ->
       exists a v2, get_fat c' v' = Some (a, v2) /\ stays v' v2 /\
         (a = (if decide (c' = c) then x mod 2 ^ entry_bits (fs_type (fatfs v)) else entry v c') \/ a = DISK_ERROR /\ ~ sound)) /\
  (~ cluster (fatfs v) c -> put_fat c x v = Some (FR_INT_ERR, v) /\ get_fat c v = Some (1, v)).
Proof using.
  intros Hok Ht Hne. split; [intros Hc|by intros Hc; split; [apply put_fat_range|apply get_fat_range]].
  destruct (fwp_run _ _ _ (put_fat_ok v c x Hok Hne Ht Hc)) as (r & v' & Hrun & Hp). exists r, v'. split_and!; [done|done|].
  intros c' Hc' ->. pose proof Hp as [Hok' Hsm _ _ Ho Ha _ _]. destruct Ha as [[_ E]|]; [|done].
  assert (Ht' : table_ok (fatfs v')) by (destruct Ht as [H1 H2 H3 H4 H5]; split; [by apply (same_geometry (fatfs v))|by rewrite Hsm..]).
  destruct (fwp_run _ _ _ (get_fat_ok v' c' Hok' Ht' ltac:(by rewrite Hsm))) as (a & v2 & Hrun2 & [_ Hst Ha2 _ Hs2]).
  exists a, v2. split_and!; [done|done|]. assert (Hval : entry v' c' = if decide (c' = c) then x mod 2 ^ entry_bits (fs_type (fatfs v)) else entry v c').
  { case_decide as Hd; [by subst|by apply Ho]. }
  rewrite <- Hval. destruct Ha2 as [[-> _]| ->]; [by left|right]. split; [done|]. intros S. specialize (Hs2 S).
  pose proof (entry_range v' c' Hok'). unfold DISK_ERROR in Hs2. lia.
Qed.

End FatTableProofs.
