(* ===== verification/FatChain.v ===== *)
(** * Chains of clusters: [remove_chain] and [create_chain] of fatfs/ff.c

    The table links the clusters of a file.  Chains are cut off and freed, and
    made longer with clusters found free. *)

From S2P Require Import Prelude Diskio FatVol FatBytes FatWin FatTable.

(** The number of free clusters when it is not known. *)
Definition UNKNOWN : Z := 4294967295.

Section FatChain.

Context {DK : Type} {HD : Disk DK}.

(** A cluster more, or less, is free; the FSInfo sector is to be written. *)
Definition count_free (n : Z) : F (DK := DK) unit :=
  f ← fs_get;
  if free_clust f =? UNKNOWN then mret tt
  else fs_mod (set_free_clust (u32 (free_clust f + n)));; fs_mod (set_fsi_flag true).

(** The loop along the chain; [fuel] bounds its rounds. *)
Fixpoint remove_loop (fuel : nat) (clst : Z) : F (DK := DK) FRESULT :=
  f ← fs_get;
  if clst <? n_fatent f then
    match fuel with
    | O => stuck
    | S n =>
        nxt ← get_fat clst;
        if nxt =? 0 then mret FR_OK
        else if nxt =? 1 then mret FR_INT_ERR
        else if nxt =? DISK_ERROR then mret FR_DISK_ERR
        else
          res ← put_fat clst 0;
          if decide (res = FR_OK) then count_free 1;; remove_loop n nxt else mret res
    end
  else mret FR_OK.

(** More rounds than the table has entries are never needed. *)
Definition remove_chain (clst : Z) : F (DK := DK) FRESULT :=
  f ← fs_get;
  if (clst <? 2) || (n_fatent f <=? clst) then mret FR_INT_ERR else remove_loop (Z.to_nat (n_fatent f)) clst.

(** The search for a free cluster behind [ncl]: the cluster, or an answer of
    [create_chain]. *)
Fixpoint find_free (fuel : nat) (scl ncl : Z) : F (DK := DK) (Z + Z) :=
  match fuel with
  | O => stuck
  | S n =>
      f ← fs_get;
      let ncl := u32 (ncl + 1) in
      let wrapped := n_fatent f <=? ncl in
      let ncl := if wrapped then 2 else ncl in
      if wrapped && (scl <? ncl) then mret (inr 0)
      else
        cs ← get_fat ncl;
        if cs =? 0 then mret (inl ncl)
        else if (cs =? DISK_ERROR) || (cs =? 1) then mret (inr cs)
        else if ncl =? scl then mret (inr 0)
        else find_free n scl ncl
  end.

(** Where the search starts, or an answer. *)
Definition chain_start (clst : Z) : F (DK := DK) (Z + Z) :=
  f ← fs_get;
  if clst =? 0 then mret (inl (if (last_clust f =? 0) || (n_fatent f <=? last_clust f) then 1 else last_clust f))
  else
    cs ← get_fat clst;
    if cs <? 2 then mret (inr 1)
    else if cs <? n_fatent f then mret (inr cs)
    else mret (inl clst).

Definition link_free (clst ncl : Z) : F (DK := DK) Z :=
  res ← put_fat ncl 268435455;
  res ← (if bool_decide (res = FR_OK) && negb (clst =? 0) then put_fat clst ncl else mret res);
  if decide (res = FR_OK) then
    fs_mod (set_last_clust ncl);;
    count_free (-1);;
    mret ncl
  else mret (if decide (res = FR_DISK_ERR) then DISK_ERROR else 1).

Definition create_chain (clst : Z) : F (DK := DK) Z :=
  s ← chain_start clst;
  match s with
  | inr answer => mret answer
  | inl scl =>
      f ← fs_get;
      r ← find_free (Z.to_nat (n_fatent f)) scl scl;
      match r with inr answer => mret answer | inl ncl => link_free clst ncl end
  end.

End FatChain.

(** ** Following links *)

(** From [c] through the clusters [l] to [d], which is behind them. *)
Inductive path (e : Z -> Z) : Z -> list Z -> Z -> Prop :=
| path_nil c : path e c [] c
| path_cons c l d : 1 < e c -> path e (e c) l d -> path e c (c :: l) d.

Lemma path_ext e e' c l d : (forall x, x ∈ l -> e' x = e x) -> path e c l d -> path e' c l d.
Proof.
  intros He Hp. induction Hp as [c|c l d Hc Hp IH]; [constructor|]. constructor.
  - rewrite He; [done|by left].
  - rewrite He by (by left). apply IH. intros x Hx. apply He. by right.
Qed.

Lemma path_app e c l1 d l2 d' : path e c l1 d -> path e d l2 d' -> path e c (l1 ++ l2) d'.
Proof. intros H1 H2. induction H1; [done|]. by constructor; [|auto]. Qed.

Lemma path_links e c l d x : path e c l d -> x ∈ l -> 1 < e x.
Proof. induction 1 as [|c l d Hc Hp IH]; [by rewrite elem_of_nil|]. rewrite elem_of_cons. intros [-> |]; auto. Qed.

Lemma path_prefix e n c l d l' d' :
  path e c l d -> n <= d -> path e c l' d' -> Forall (fun x => x < n) l' -> exists k, l = l' ++ k /\ path e d' k d.
Proof.
  intros Hp Hd Hp'. revert l d Hp Hd. induction Hp' as [c|c l' d' Hc Hp' IH]; intros l d Hp Hd Hl; [by exists l|].
  apply Forall_cons in Hl as [Hlt Hl]. inversion Hp as [|c0 l0 d0 Hc0 Hp0]; subst; [lia|].
  destruct (IH _ _ Hp0 Hd Hl) as (k & -> & Hk). by exists k.
Qed.

Lemma path_det e n c l1 d1 l2 d2 :
  path e c l1 d1 -> n <= d1 -> Forall (fun x => x < n) l1 -> path e c l2 d2 -> n <= d2 -> Forall (fun x => x < n) l2 -> l1 = l2.
Proof.
  intros H1 Hd1 Hl1 H2 Hd2 Hl2. destruct (path_prefix _ _ _ _ _ _ _ H1 Hd1 H2 Hl2) as ([|x k] & -> & Hk); [by rewrite app_nil_r|].
  apply Forall_app in Hl1 as [_ Hx]. apply Forall_cons in Hx as [Hx _]. inversion Hk; subst. lia.
Qed.

Lemma path_split e c l1 x l2 d : path e c (l1 ++ x :: l2) d -> path e x (x :: l2) d.
Proof.
  revert c. induction l1 as [|y l1 IH]; intros c Hp; cbn [app] in Hp.
  - by inversion Hp; subst.
  - inversion Hp; subst. by eapply IH.
Qed.

(** A way out of the table visits no cluster twice. *)
Lemma path_nodup e n c l d : path e c l d -> n <= d -> Forall (fun x => x < n) l -> NoDup l.
Proof.
  intros Hp Hd. induction Hp as [|c l d Hc Hp IH]; intros Hl; [constructor|]. pose proof Hl as [Hlt Hl']%Forall_cons.
  constructor; [|by apply IH]. intros (l1 & l2 & ->)%list_elem_of_split. pose proof (path_split _ _ _ _ _ _ Hp) as Hp2.
  apply Forall_app in Hl' as [_ Hl2].
  assert (Hp1 : path e c (c :: l1 ++ c :: l2) d) by (by constructor).
  pose proof (path_det _ _ _ _ _ _ _ Hp1 Hd Hl Hp2 Hd Hl2) as E. apply (f_equal length) in E. cbn [length] in E.
  rewrite length_app in E. cbn [length] in E. lia.
Qed.

Lemma filter_shorter {A} (P Q : A -> Prop) `{!forall x, Decision (P x), !forall x, Decision (Q x)} (l : list A) :
  (forall y, y ∈ l -> Q y -> P y) -> (length (filter Q l) <= length (filter P l))%nat.
Proof.
  induction l as [|y l IH]; intros Hsub; [done|]. rewrite !filter_cons. specialize (IH ltac:(intros; apply Hsub; [by right|done])).
  pose proof (Hsub y ltac:(by left)). repeat case_decide; cbn [length]; tauto || lia.
Qed.

Lemma filter_shorter_strict {A} (P Q : A -> Prop) `{!forall x, Decision (P x), !forall x, Decision (Q x)} (l : list A) x :
  (forall y, y ∈ l -> Q y -> P y) -> x ∈ l -> P x -> ~ Q x -> (length (filter Q l) < length (filter P l))%nat.
Proof.
  intros Hsub Hx HP HQ. induction l as [|y l IH]; [by apply elem_of_nil in Hx|].
  assert (Hl : forall y, y ∈ l -> Q y -> P y) by (intros; apply Hsub; [by right|done]). rewrite !filter_cons.
  apply elem_of_cons in Hx as [->|Hx].
  - rewrite decide_False, decide_True by done. cbn [length]. pose proof (filter_shorter P Q l Hl). lia.
  - specialize (IH Hl Hx). pose proof (Hsub y ltac:(by left)). repeat case_decide; cbn [length]; tauto || lia.
Qed.

Section FatChainProofs.

Context {DK : Type} {HD : Disk DK} {HS : Store DK}.

Implicit Types v : vol (DK := DK).

(** A step of the operations on chains: the table may change, and the counts;
    what is behind the table does not. *)
Record kept v v' : Prop := {
  k_ok : win_ok v';
  k_alike : alike (fatfs v) (fatfs v');
  k_some : winsect (fatfs v) <> 0 -> winsect (fatfs v') <> 0;
  k_data : forall s, primary (fatfs v) s -> fatbase (fatfs v) + fsize (fatfs v) <= s -> view v' s = view v s;
  k_mirrors : reliable -> mirrored v -> mirrored v'
}.

Lemma kept_trans u v w : kept u v -> kept v w -> kept u w.
Proof using.
  intros [H1 H2 H3 H4 H5] [K1 K2 K3 K4 K5]. split; [done|by etrans|by auto| |by auto].
  intros s Hs Hge. rewrite K4; [by apply H4|by apply (alike_primary _ _ _ H2)|by rewrite H2].
Qed.

Lemma kept_refl v : win_ok v -> kept v v.
Proof using. intros Hok. by split. Qed.

Lemma kept_stays v v' : win_ok v' -> stays v v' -> (reliable -> mirrored v -> mirrored v') -> kept v v'.
Proof using. intros H1 [H2 H3 H4] H5. split; [done|by apply same_alike|done|by auto|done]. Qed.

Lemma kept_got c v r v' : got c v r v' -> kept v v'.
Proof using. intros [H1 H2 _ H4 _]. by apply kept_stays. Qed.

Lemma kept_put c x v r v' : put_result c x v r v' -> kept v v'.
Proof using. intros [H1 H2 H3 H4 _ _ H7 _]. split; [done|by apply same_alike|done|done|done]. Qed.

Lemma kept_counts v b l n : win_ok v -> kept v (mkVol (with_fsinfo b l n (fatfs v)) (dev v)).
Proof using.
  intros [[] H2 H3 H4 H5]. by split.
Qed.

Lemma entry_counts v b l n c : entry (mkVol (with_fsinfo b l n (fatfs v)) (dev v)) c = entry v c.
Proof using. done. Qed.

Lemma alike_table f f' : alike f f' -> table_ok f -> table_ok f'.
Proof using. intros Ha [H1 H2 H3 H4 H5]. split; [by eapply alike_geometry|..]; by rewrite Ha. Qed.

Lemma alike_cluster f f' c : alike f f' -> cluster f' c <-> cluster f c.
Proof using. by intros ->. Qed.

Lemma count_free_ok v n :
  win_ok v ->
  fwp (count_free n) (fun _ v' => kept v v' /\ (forall c, entry v' c = entry v c) /\ last_clust (fatfs v') = last_clust (fatfs v) /\
    winsect (fatfs v') = winsect (fatfs v) /\
    free_clust (fatfs v') = if free_clust (fatfs v) =? UNKNOWN then UNKNOWN else u32 (free_clust (fatfs v) + n)) v.
Proof using.
  intros Hok. unfold count_free. apply fwp_bind, fwp_get. destruct (Z.eqb_spec (free_clust (fatfs v)) UNKNOWN) as [E|_].
  - apply fwp_ret. split_and!; try done.
  - apply fwp_bind, fwp_mod, fwp_mod. cbn [fatfs dev]. split_and!; try done. by apply (kept_counts v).
Qed.

(** ** Freeing a chain *)

(** The clusters in use. *)
Definition used v : nat := length (filter (fun c => entry v c <> 0) (seqZ 2 (n_fatent (fatfs v) - 2))).

Lemma used_bound v : table_ok (fatfs v) -> (used v < Z.to_nat (n_fatent (fatfs v)))%nat.
Proof using.
  intros [_ _ Hs _ _]. unfold used. eapply Nat.le_lt_trans; [apply length_filter|]. rewrite length_seqZ. lia.
Qed.

Lemma used_less v v' c :
  n_fatent (fatfs v') = n_fatent (fatfs v) -> cluster (fatfs v) c -> entry v c <> 0 -> entry v' c = 0 ->
  (forall c', cluster (fatfs v) c' -> c' <> c -> entry v' c' = entry v c') -> (used v' < used v)%nat.
Proof using.
  intros Hn Hc H1 H2 Ho. unfold used. rewrite Hn. apply (filter_shorter_strict _ _ _ c); try done; [|apply elem_of_seqZ; unfold cluster in Hc; lia|by intros ?].
  intros y Hy. apply elem_of_seqZ in Hy. destruct (decide (y = c)) as [->|Hne]; [done|]. by rewrite Ho by (unfold cluster; lia || done).
Qed.

(** What [remove_chain] leaves when it answers [r]: it has freed the clusters [l]
    and stopped at [d]. *)
Record removed (c : Z) (l : list Z) (d : Z) v (r : FRESULT) v' : Prop := {
  rm_kept : kept v v';
  rm_path : path (entry v) c l d;
  rm_nodup : NoDup l;
  rm_clusters : Forall (cluster (fatfs v)) l;
  rm_freed : forall x, x ∈ l -> entry v' x = 0;
  rm_others : forall x, cluster (fatfs v) x -> x ∉ l -> entry v' x = entry v x \/ r = FR_DISK_ERR /\ x = d /\ entry v d <> 0;
  rm_free : 0 <= free_clust (fatfs v) -> free_clust (fatfs v) + Z.of_nat (used v) < UNKNOWN ->
    free_clust (fatfs v') = free_clust (fatfs v) + zlen l;
  rm_end : r = FR_OK /\ (n_fatent (fatfs v) <= d \/ d ∈ l \/ cluster (fatfs v) d /\ entry v d = 0) \/
    r = FR_INT_ERR /\ cluster (fatfs v) d /\ entry v d = 1 \/
    r = FR_DISK_ERR /\ cluster (fatfs v) d;
  rm_sound : sound -> r <> FR_DISK_ERR
}.

Lemma removed_nothing c v r v' :
  kept v v' -> (forall x, cluster (fatfs v) x -> entry v' x = entry v x \/ r = FR_DISK_ERR /\ x = c /\ entry v c <> 0) ->
  free_clust (fatfs v') = free_clust (fatfs v) ->
  r = FR_OK /\ (n_fatent (fatfs v) <= c \/ cluster (fatfs v) c /\ entry v c = 0) \/ r = FR_INT_ERR /\ cluster (fatfs v) c /\ entry v c = 1 \/ r = FR_DISK_ERR /\ cluster (fatfs v) c ->
  (sound -> r <> FR_DISK_ERR) -> removed c [] c v r v'.
Proof using.
  intros Hk Ho Hf He Hs. split; try done.
  - constructor.
  - constructor.
  - intros x Hx. by apply elem_of_nil in Hx.
  - intros x Hx _. by apply Ho.
  - intros _ _. rewrite Hf. unfold zlen. cbn [length]. lia.
  - destruct He as [[-> [He|He]]|He]; auto.
Qed.

(** One round, and the rest. *)
Lemma removed_cons c l d v v1 r v' :
  kept v v1 -> cluster (fatfs v) c -> 1 < entry v c -> entry v1 c = 0 ->
  (forall x, cluster (fatfs v) x -> x <> c -> entry v1 x = entry v x) ->
  (0 <= free_clust (fatfs v) -> free_clust (fatfs v) + Z.of_nat (used v) < UNKNOWN -> free_clust (fatfs v1) = free_clust (fatfs v) + 1) ->
  removed (entry v c) l d v1 r v' -> removed c (c :: l) d v r v'.
Proof using.
  intros Hk Hc Hl H0 Ho Hf [R1 R2 R3 R4 R5 R6 R7 R8 R9]. pose proof (k_alike _ _ Hk) as Ha.
  assert (Hn : n_fatent (fatfs v1) = n_fatent (fatfs v)) by (by rewrite Ha).
  assert (Hcl : forall x, cluster (fatfs v1) x <-> cluster (fatfs v) x) by (intros x; by rewrite Ha).
  assert (Hnot : c ∉ l) by (intros Hx; pose proof (path_links _ _ _ _ _ R2 Hx); lia).
  assert (R4' : Forall (cluster (fatfs v)) l) by (eapply Forall_impl; [exact R4|]; intros x; apply Hcl).
  split.
  - by eapply kept_trans.
  - constructor; [done|]. eapply path_ext; [|exact R2]. intros x Hx. symmetry. apply Ho; [by apply (proj1 (Forall_forall _ _) R4')|by intros ->].
  - by constructor.
  - by constructor.
  - intros x [-> |Hx]%elem_of_cons; [|by apply R5]. destruct (R6 c) as [E|(_ & -> & E)]; [by apply Hcl|done|by rewrite E|done].
  - intros x Hx [Hne Hni]%not_elem_of_cons. destruct (R6 x) as [E|(-> & -> & E)]; [by apply Hcl|done| |].
    + left. by rewrite E, Ho.
    + right. by rewrite <- Ho.
  - intros Hf0 Hf1. assert (Hu : (used v1 < used v)%nat) by (apply (used_less v v1 c); done || lia).
    specialize (Hf Hf0 Hf1). rewrite R7 by lia. unfold zlen. cbn [length]. lia.
  - rewrite <- Hn. destruct R8 as [[-> [R8|[R8|[Hcd R8]]]]|[(-> & Hcd & R8)|[-> R8]]].
    + left. auto.
    + left. split; [done|]. right. left. by right.
    + left. split; [done|]. apply Hcl in Hcd. destruct (decide (d = c)) as [->|Hne]; [right; left; by left|].
      right. right. by rewrite <- Ho.
    + right. left. apply Hcl in Hcd. split_and!; [done..|]. rewrite <- Ho; [done|done|]. intros ->. lia.
    + right. right. split; [done|by apply Hcl].
  - done.
Qed.

Lemma entry_alike_got c v r v' x : table_ok (fatfs v) -> got c v r v' -> cluster (fatfs v) x -> entry v' x = entry v x.
Proof using. intros Ht [_ Hst _ _ _] Hx. by apply entry_stays. Qed.

Lemma remove_loop_ok fuel v c :
  win_ok v -> table_ok (fatfs v) -> 2 <= c -> (used v < fuel)%nat ->
  fwp (remove_loop fuel c) (fun r v' => exists l d, removed c l d v r v') v.
Proof using.
  revert v c. induction fuel as [|n IH]; intros v c Hok Ht Hc Hfuel; [lia|].
  cbn [remove_loop]. apply fwp_bind, fwp_get. destruct (Z.ltb_spec c (n_fatent (fatfs v))) as [Hlt|Hge].
  2: { apply fwp_ret. exists [], c. apply removed_nothing; auto using kept_refl; done. }
  assert (Hcl : cluster (fatfs v) c) by (unfold cluster; lia).
  apply fwp_bind. eapply fwp_mono; [|by apply get_fat_ok]. intros nxt v1 Hg. pose proof Hg as [Hok1 Hst1 Ha1 _ Hs1].
  pose proof (kept_got _ _ _ _ Hg) as Hk1. pose proof (entry_range v c Hok) as Hrange.
  assert (He1 : forall x, cluster (fatfs v) x -> entry v1 x = entry v x) by (intros; by eapply entry_alike_got).
  assert (Hf1 : free_clust (fatfs v1) = free_clust (fatfs v)) by (by rewrite (st_same _ _ Hst1)).
  destruct Ha1 as [[-> Hne1]| ->].
  2: { apply fwp_ret. exists [], c. apply removed_nothing; auto. intros S. specialize (Hs1 S). unfold DISK_ERROR in Hs1. lia. }
  destruct (Z.eqb_spec (entry v c) 0) as [E0|E0].
  { apply fwp_ret. exists [], c. apply removed_nothing; auto; done. }
  destruct (Z.eqb_spec (entry v c) 1) as [E1|E1].
  { apply fwp_ret. exists [], c. apply removed_nothing; auto; done. }
  destruct (Z.eqb_spec (entry v c) DISK_ERROR) as [E2|_]; [unfold DISK_ERROR in E2; lia|].
  assert (Ht1 : table_ok (fatfs v1)) by (eapply alike_table; [apply Hk1|done]).
  assert (Hcl1 : cluster (fatfs v1) c) by (by apply (alike_cluster _ _ _ (k_alike _ _ Hk1))).
  apply fwp_bind. eapply fwp_mono; [|by apply put_fat_ok]. intros r v2 Hp. pose proof Hp as [Hok2 Hsm2 Hne2 _ Ho2 Ha2 _ Hs2].
  pose proof (kept_trans _ _ _ Hk1 (kept_put _ _ _ _ _ Hp)) as Hk2.
  assert (Ho : forall x, cluster (fatfs v) x -> x <> c -> entry v2 x = entry v x).
  { intros x Hx Hxc. rewrite Ho2; [by apply He1|by apply (alike_cluster _ _ _ (k_alike _ _ Hk1))|done]. }
  assert (Hf2 : free_clust (fatfs v2) = free_clust (fatfs v)) by (by rewrite Hsm2).
  destruct Ha2 as [[-> E]| ->].
  - rewrite decide_True by done. rewrite Z.mod_0_l in E by (apply Z.pow_nonzero; [lia|by unfold entry_bits; repeat case_match]).
    apply fwp_bind. eapply fwp_mono; [|by apply count_free_ok]. intros [] v3 (Hk3 & He3 & _ & _ & Hf3).
    pose proof (kept_trans _ _ _ Hk2 Hk3) as Hk.
    eapply fwp_mono; [|apply IH].
    + intros r v' (l & d & Hr). exists (c :: l), d. apply (removed_cons _ _ _ _ v3); try done; [lia|by rewrite He3| |].
      * intros x Hx Hxc. rewrite He3. by apply Ho.
      * intros H0 H1. rewrite Hf3, Hf2. unfold UNKNOWN in *. zbool. rewrite wrap_small by (unfold fits; lia). lia.
    + apply Hk.
    + eapply alike_table; [apply Hk|done].
    + lia.
    + assert (used v3 < used v)%nat; [|lia]. apply (used_less v v3 c); [by rewrite (k_alike _ _ Hk)|done|done|by rewrite He3|].
      intros x Hx Hxc. rewrite He3. by apply Ho.
  - rewrite decide_False by done. apply fwp_ret. exists [], c. apply removed_nothing; auto; [|by intros S; specialize (Hs2 S)].
    intros x Hx. destruct (decide (x = c)) as [->|Hxc]; [by right|left; by apply Ho].
Qed.

Lemma remove_chain_ok v c :
  win_ok v -> table_ok (fatfs v) -> cluster (fatfs v) c -> fwp (remove_chain c) (fun r v' => exists l d, removed c l d v r v') v.
Proof using.
  intros Hok Ht Hc. unfold remove_chain. apply fwp_bind, fwp_get. unfold cluster in Hc.
  replace ((c <? 2) || (n_fatent (fatfs v) <=? c)) with false by (zbool; done).
  apply remove_loop_ok; [done|done|lia|by apply used_bound].
Qed.

(** The chain of clusters from [c]: the last link leads out of the table. *)
Definition chain v (c : Z) (l : list Z) : Prop :=
  l <> [] /\ Forall (cluster (fatfs v)) l /\ exists d, path (entry v) c l d /\ n_fatent (fatfs v) <= d.

Lemma clusters_below f l : Forall (cluster f) l -> Forall (fun x => x < n_fatent f) l.
Proof using. intros Hl. eapply Forall_impl; [exact Hl|]. unfold cluster. intros; lia. Qed.

Lemma chain_nodup v c l : chain v c l -> NoDup l.
Proof using. intros (_ & Hl & d & Hp & Hd). by eapply path_nodup; [..|apply clusters_below]. Qed.

(** Without faults the whole chain is freed, and nothing else. *)
Lemma removed_chain c l l' d' v r v' : sound -> chain v c l -> removed c l' d' v r v' -> r = FR_OK /\ l' = l.
Proof using.
  intros S Hch Hr. pose proof (chain_nodup _ _ _ Hch) as Hnd. destruct Hch as (_ & Hl & d & Hp & Hd).
  pose proof Hr as [_ R2 _ R4 _ _ _ R8 R9]. specialize (R9 S).
  destruct (path_prefix _ _ _ _ _ _ _ Hp Hd R2 (clusters_below _ _ R4)) as (k & -> & Hk).
  apply NoDup_app in Hnd as (_ & Hdis & _). apply Forall_app in Hl as [_ Hkl].
  assert (Hend : k = [] \/ d' ∈ k /\ 1 < entry v d' /\ d' < n_fatent (fatfs v)).
  { inversion Hk as [|x k' d0 Hx Hk']; subst; [by left|right]. apply Forall_cons in Hkl as [Hx' _]. unfold cluster in Hx'.
    split_and!; [by left|done|lia]. }
  destruct Hend as [-> | (Hin & H1 & H2)].
  - rewrite app_nil_r. inversion Hk; subst. destruct R8 as [[-> _]|[(-> & Hcd & _)|[-> _]]]; [done|unfold cluster in Hcd; lia|done].
  - exfalso. destruct R8 as [[_ [R8|[R8|[_ R8]]]]|[(_ & _ & R8)|[-> _]]]; [lia|by apply (Hdis d')|lia|lia|done].
Qed.

(** (C18) Removing a chain ends on every table, loops included, and leaves what is
    behind the table alone.  It frees, in order, clusters that each link to the
    next, and changes no other entry, but for the one it could not write.  On a
    disk without faults it frees exactly the chain and counts its clusters. *)
Theorem remove_chain_frees v c :
  win_ok v -> table_ok (fatfs v) -> cluster (fatfs v) c ->
  exists r v', remove_chain c v = Some (r, v') /\ kept v v' /\
    (exists l d, path (entry v) c l d /\ (forall x, x ∈ l -> entry v' x = 0) /\
      (forall x, cluster (fatfs v) x -> x ∉ l -> entry v' x = entry v x \/ r = FR_DISK_ERR /\ x = d)) /\
    forall l, sound -> chain v c l ->
      r = FR_OK /\ (forall x, cluster (fatfs v) x -> entry v' x = if decide (x ∈ l) then 0 else entry v x) /\
      (0 <= free_clust (fatfs v) -> free_clust (fatfs v) + Z.of_nat (used v) < UNKNOWN ->
       free_clust (fatfs v') = free_clust (fatfs v) + zlen l).
Proof using.
  intros Hok Ht Hc. destruct (fwp_run _ _ _ (remove_chain_ok v c Hok Ht Hc)) as (r & v' & Hrun & l & d & Hr).
  pose proof Hr as [R1 R2 _ _ R5 R6 R7 _ _]. exists r, v'. split_and!; [done|done| |].
  - exists l, d. split_and!; [done|done|]. intros x Hx Hn. destruct (R6 x Hx Hn) as [|(? & ? & _)]; auto.
  - intros l' S Hch. destruct (removed_chain _ _ _ _ _ _ _ S Hch Hr) as [-> ->]. split_and!; [done| |done].
    intros x Hx. case_decide as Hin; [by apply R5|]. by destruct (R6 x Hx Hin) as [|(? & _)].
Qed.

(** ** Finding a free cluster *)

(** The clusters the search has seen when it is at [ncl]. *)
Definition seen (scl ncl x : Z) : Prop := if decide (scl <= ncl) then scl < x <= ncl else scl < x \/ x <= ncl.

(** The rounds left. *)
Definition rounds (n scl ncl : Z) : Z := if decide (scl <= ncl) then n - 1 - ncl + scl else scl - ncl.

Record found (scl : Z) v (r : Z + Z) v' : Prop := {
  fd_ok : win_ok v';
  fd_stays : stays v v';
  fd_mirrors : reliable -> mirrored v -> mirrored v';
  fd_answer : match r with
    | inl ncl => cluster (fatfs v) ncl /\ entry v ncl = 0 /\ winsect (fatfs v') <> 0
    | inr a => a = 0 /\ (forall x, cluster (fatfs v) x -> entry v x <> 0) \/ a = 1 /\ (exists x, cluster (fatfs v) x /\ entry v x = 1) \/ a = DISK_ERROR
    end;
  fd_sound : sound -> r <> inr DISK_ERROR
}.

Lemma found_more scl v v1 r v' :
  stays v v1 -> table_ok (fatfs v) -> (reliable -> mirrored v -> mirrored v1) -> found scl v1 r v' -> found scl v r v'.
Proof using.
  intros Hst Ht Hm [H1 H2 H3 H4 H5]. pose proof (same_alike _ _ (st_same _ _ Hst)) as Ha.
  assert (Hcl : forall x, cluster (fatfs v1) x <-> cluster (fatfs v) x) by (intros x; by rewrite Ha).
  assert (He : forall x, cluster (fatfs v) x -> entry v1 x = entry v x) by (intros; by apply entry_stays).
  split; [done|by transitivity v1|by auto| |done]. destruct r as [ncl|a].
  - destruct H4 as (Hc & E & Hne). apply Hcl in Hc. split_and!; [done|by rewrite <- He|done].
  - destruct H4 as [[-> Hall]|[[-> (x & Hc & E)]| ->]]; [left|right; left|by right; right].
    + split; [done|]. intros x Hx. rewrite <- He by done. by apply Hall, Hcl.
    + split; [done|]. apply Hcl in Hc. exists x. by rewrite <- He.
Qed.

Lemma found_answer scl v r :
  win_ok v -> match r with
    | inl ncl => cluster (fatfs v) ncl /\ entry v ncl = 0 /\ winsect (fatfs v) <> 0
    | inr a => a = 0 /\ (forall x, cluster (fatfs v) x -> entry v x <> 0) \/ a = 1 /\ (exists x, cluster (fatfs v) x /\ entry v x = 1)
    end -> found scl v r v.
Proof using.
  intros Hok Ha. split; try done.
  - destruct r; [done|]. destruct Ha as [Ha|Ha]; auto.
  - intros _ ->. by destruct Ha as [[? _]|[? _]].
Qed.

Lemma find_free_ok fuel scl ncl v :
  win_ok v -> table_ok (fatfs v) -> 1 <= scl < n_fatent (fatfs v) -> 1 <= ncl < n_fatent (fatfs v) ->
  (forall x, cluster (fatfs v) x -> seen scl ncl x -> entry v x <> 0) ->
  (scl <= ncl \/ 2 <= ncl) -> rounds (n_fatent (fatfs v)) scl ncl <= Z.of_nat fuel -> 0 < Z.of_nat fuel ->
  fwp (find_free fuel scl ncl) (found scl v) v.
Proof using.
  revert ncl v. induction fuel as [|k IH]; intros ncl v Hok Ht Hscl Hncl Hseen Hside Hr Hk; [lia|].
  pose proof Ht as [_ _ H2 _ Hmarks]. assert (Hn : n_fatent (fatfs v) < 2 ^ 28).
  { eapply Z.lt_le_trans; [exact Hmarks|]. apply Z.pow_le_mono_r; [lia|]. unfold entry_bits. repeat case_match; lia. }
  cbn [find_free]. apply fwp_bind, fwp_get. rewrite (wrap_small 32) by (unfold fits; lia).
  set (nc := if n_fatent (fatfs v) <=? ncl + 1 then 2 else ncl + 1).
  assert (Hnc : cluster (fatfs v) nc) by (unfold nc, cluster; case_z; lia).
  destruct ((n_fatent (fatfs v) <=? ncl + 1) && (scl <? nc)) eqn:Hwrap.
  { apply andb_prop in Hwrap as [Hw1 Hw2]. apply Z.leb_le in Hw1. apply Z.ltb_lt in Hw2. unfold nc in Hw2.
    rewrite (proj2 (Z.leb_le _ _) Hw1) in Hw2.
    apply fwp_ret, found_answer; [done|]. left. split; [done|]. intros x Hx. apply Hseen; [done|].
    unfold seen, cluster in *. rewrite decide_True by lia. lia. }
  apply fwp_bind. eapply fwp_mono; [|by apply get_fat_ok]. intros cs v1 Hg. pose proof Hg as [Hok1 Hst1 Ha1 Hm1 Hs1].
  pose proof (entry_range v nc Hok) as Hrange. pose proof (st_same _ _ Hst1) as Hsm1.
  assert (He : forall x, cluster (fatfs v) x -> entry v1 x = entry v x) by (intros; by apply entry_stays).
  destruct Ha1 as [[-> Hne1]| ->].
  2: { apply fwp_ret. split; [done|done|done|by right; right|]. intros S. specialize (Hs1 S). unfold DISK_ERROR in Hs1. lia. }
  assert (Hcl1 : cluster (fatfs v1) nc) by (by rewrite Hsm1). assert (He1 := He nc Hnc).
  destruct (Z.eqb_spec (entry v nc) 0) as [E0|E0].
  { apply fwp_ret, (found_more _ _ v1); try done. apply found_answer; [done|]. by rewrite He1. }
  replace (entry v nc =? DISK_ERROR) with false by (symmetry; apply Z.eqb_neq; unfold DISK_ERROR; lia). cbn [orb].
  destruct (Z.eqb_spec (entry v nc) 1) as [E1|E1].
  { apply fwp_ret, (found_more _ _ v1); try done. apply found_answer; [done|]. right. split; [done|]. exists nc. by rewrite He1. }
  apply (fwp_mono _ (found scl v1)); [intros r v' Hf; by apply (found_more scl v v1)|].
  assert (Hseen1 : forall x, cluster (fatfs v1) x -> x = nc \/ seen scl ncl x -> entry v1 x <> 0).
  { intros x Hx Hs. assert (Hx' : cluster (fatfs v) x) by (by rewrite Hsm1 in Hx). rewrite He by done.
    destruct Hs as [-> |Hs]; [done|by apply Hseen]. }
  assert (Hn1 : n_fatent (fatfs v1) = n_fatent (fatfs v)) by (by rewrite Hsm1).
  assert (Hcase : ncl + 1 < n_fatent (fatfs v) /\ nc = ncl + 1 \/ ncl + 1 = n_fatent (fatfs v) /\ nc = 2 /\ 2 <= scl).
  { apply andb_false_iff in Hwrap. rewrite Z.leb_gt, Z.ltb_ge in Hwrap. unfold nc in *. case_z; lia. }
  clearbody nc. unfold cluster in Hnc.
  destruct (Z.eqb_spec nc scl) as [Es|Es].
  - apply fwp_ret, found_answer; [done|]. left. split; [done|]. intros x Hx. apply Hseen1; [done|].
    unfold seen, cluster in *. rewrite Hn1 in Hx. case_decide; lia.
  - apply IH; [done|by apply (alike_table _ _ (same_alike _ _ Hsm1))|by rewrite Hn1|rewrite Hn1; lia| | | |].
    + intros x Hx Hs. apply Hseen1; [done|]. unfold seen, cluster in *. rewrite Hn1 in Hx. repeat case_decide; lia.
    + lia.
    + rewrite Hn1. unfold rounds in *. repeat case_decide; lia.
    + unfold rounds in *. repeat case_decide; lia.
Qed.

(** ** Making a chain longer *)

(** The mark at the end of a chain, as it is stored. *)
Definition end_mark (f : FATFS) : Z := 2 ^ entry_bits (fs_type f) - 1.

Lemma mark_stored f : table_ok f -> 268435455 mod 2 ^ entry_bits (fs_type f) = end_mark f.
Proof using. intros [_ Hty _ _ _]. unfold end_mark. by destruct Hty as [-> |[-> | ->]]. Qed.

Lemma cluster_stored f c : table_ok f -> cluster f c -> c mod 2 ^ entry_bits (fs_type f) = c.
Proof using. intros [_ _ _ _ Hm] [? ?]. apply Z.mod_small. lia. Qed.

Lemma mark_outside f : table_ok f -> n_fatent f <= end_mark f.
Proof using. intros [_ _ _ _ Hm]. unfold end_mark. lia. Qed.

(** What [create_chain] answers and leaves. *)
Inductive created (c : Z) v : Z -> vol -> Prop :=
| cr_full v' : (forall x, cluster (fatfs v) x -> entry v x <> 0) -> (forall x, cluster (fatfs v) x -> entry v' x = entry v x) ->
    (sound -> c <> 0 -> n_fatent (fatfs v) <= entry v c) -> last_clust (fatfs v') = last_clust (fatfs v) ->
    free_clust (fatfs v') = free_clust (fatfs v) -> created c v 0 v'
| cr_followed v' : cluster (fatfs v) c -> cluster (fatfs v) (entry v c) -> (forall x, cluster (fatfs v) x -> entry v' x = entry v x) ->
    last_clust (fatfs v') = last_clust (fatfs v) -> free_clust (fatfs v') = free_clust (fatfs v) -> created c v (entry v c) v'
| cr_bad v' : (cluster (fatfs v) c /\ entry v c < 2 \/ exists x, cluster (fatfs v) x /\ entry v x = 1) -> (forall x, cluster (fatfs v) x -> entry v' x = entry v x) ->
    free_clust (fatfs v') = free_clust (fatfs v) -> created c v 1 v'
| cr_new n v' : cluster (fatfs v) n -> entry v n = 0 -> (n <> c -> entry v' n = end_mark (fatfs v)) -> (c <> 0 -> entry v' c = n) ->
    (forall x, cluster (fatfs v) x -> x <> n -> x <> c -> entry v' x = entry v x) -> (sound -> c <> 0 -> n_fatent (fatfs v) <= entry v c) ->
    last_clust (fatfs v') = n -> free_clust (fatfs v') = (if free_clust (fatfs v) =? UNKNOWN then UNKNOWN else u32 (free_clust (fatfs v) - 1)) ->
    created c v n v'
| cr_error n v' : ~ sound -> (forall x, cluster (fatfs v) x -> x <> n -> x <> c -> entry v' x = entry v x) -> (cluster (fatfs v) n -> entry v n = 0) -> created c v DISK_ERROR v'.

Lemma chain_start_ok v c :
  win_ok v -> table_ok (fatfs v) -> c = 0 \/ cluster (fatfs v) c -> 0 <= last_clust (fatfs v) ->
  fwp (chain_start c) (fun r v' => win_ok v' /\ stays v v' /\ (reliable -> mirrored v -> mirrored v') /\
    match r with
    | inl scl => 1 <= scl < n_fatent (fatfs v) /\ (sound -> c <> 0 -> n_fatent (fatfs v) <= entry v c)
    | inr a => created c v a v'
    end) v.
Proof using.
  intros Hok Ht Hc Hlast. unfold chain_start. apply fwp_bind, fwp_get. pose proof Ht as [_ _ Hn _ _]. destruct (Z.eqb_spec c 0) as [-> |Hne].
  - apply fwp_ret. split_and!; [done|done|done| | |done]; destruct (Z.eqb_spec (last_clust (fatfs v)) 0); cbn [orb]; try lia; case_z; lia.
  - destruct Hc as [|Hc]; [done|]. apply fwp_bind. eapply fwp_mono; [|by apply get_fat_ok].
    intros cs v1 [Hok1 Hst1 Ha1 Hm1 Hs1]. assert (He : forall x, cluster (fatfs v) x -> entry v1 x = entry v x) by (intros; by apply entry_stays).
    assert (Hcs : cs = entry v c \/ cs = DISK_ERROR /\ ~ sound).
    { destruct Ha1 as [[-> _]| ->]; [by left|right]. split; [done|]. intros S. specialize (Hs1 S). pose proof (entry_range v c Hok). unfold DISK_ERROR in Hs1. lia. }
    assert (Hn28 : n_fatent (fatfs v) <= 2 ^ 28).
    { destruct Ht as [_ _ _ _ Hm]. transitivity (2 ^ entry_bits (fs_type (fatfs v))); [lia|]. apply Z.pow_le_mono_r; [lia|].
      unfold entry_bits. repeat case_match; lia. }
    unfold cluster in Hc. destruct Hcs as [-> |[-> Hns]].
    + destruct (Z.ltb_spec (entry v c) 2).
      { apply fwp_ret. split_and!; [done|done|done|]. apply cr_bad; [left; unfold cluster; lia|done|by rewrite (st_same _ _ Hst1)]. }
      destruct (Z.ltb_spec (entry v c) (n_fatent (fatfs v))).
      { apply fwp_ret. split_and!; [done|done|done|]. apply cr_followed; [unfold cluster; lia|unfold cluster; lia|done|by rewrite (st_same _ _ Hst1)..]. }
      apply fwp_ret. split_and!; [done|done|done|lia|lia|done].
    + replace (DISK_ERROR <? 2) with false by done. replace (DISK_ERROR <? n_fatent (fatfs v)) with false by (symmetry; apply Z.ltb_ge; unfold DISK_ERROR; lia).
      apply fwp_ret. split_and!; [done|done|done|lia|lia|done].
Qed.

Lemma link_free_ok v c n :
  win_ok v -> table_ok (fatfs v) -> winsect (fatfs v) <> 0 -> c = 0 \/ cluster (fatfs v) c -> cluster (fatfs v) n -> entry v n = 0 ->
  (sound -> c <> 0 -> n_fatent (fatfs v) <= entry v c) ->
  fwp (link_free c n) (fun r v' => kept v v' /\ created c v r v') v.
Proof using.
  intros Hok Ht Hne Hc Hn E Hend. unfold link_free. apply fwp_bind. eapply fwp_mono; [|by apply put_fat_ok].
  intros r1 v1 Hp1. pose proof Hp1 as [Hok1 Hsm1 Hne1 _ Ho1 Ha1 _ Hs1]. pose proof (kept_put _ _ _ _ _ Hp1) as Hk1.
  assert (Ht1 : table_ok (fatfs v1)) by (by apply (alike_table _ _ (same_alike _ _ Hsm1))).
  destruct Ha1 as [[-> E1]| ->].
  2: { rewrite bool_decide_false by done. cbn [andb]. apply fwp_bind, fwp_ret. rewrite decide_False, decide_True by done. apply fwp_ret.
    split; [done|]. apply (cr_error _ _ n); [by intros S; specialize (Hs1 S)| |done]. intros x Hx Hxn _. by apply Ho1. }
  rewrite bool_decide_true by done. cbn [andb]. rewrite mark_stored in E1 by done.
  assert (Hfin : forall v2, kept v v2 -> fatfs v2 = with_window (wflag (fatfs v2)) (winsect (fatfs v2)) (win (fatfs v2)) (fatfs v) ->
    (n <> c -> entry v2 n = end_mark (fatfs v)) -> (c <> 0 -> entry v2 c = n) ->
    (forall x, cluster (fatfs v) x -> x <> n -> x <> c -> entry v2 x = entry v x) ->
    fwp (fs_mod (set_last_clust n);; count_free (-1);; mret n) (fun r v' => kept v v' /\ created c v r v') v2).
  { intros v2 Hk2 Hsm2 He2 Hc2 Ho2. apply fwp_bind, fwp_mod, fwp_bind. pose proof (kept_counts v2 (fsi_flag (fatfs v2)) n (free_clust (fatfs v2)) (k_ok _ _ Hk2)) as Hk3.
    eapply fwp_mono; [|apply count_free_ok, Hk3]. intros [] v4 (Hk4 & He4 & Hl4 & _ & Hf4). apply fwp_ret.
    split; [by eapply kept_trans; [|eapply kept_trans]|]. cbn [fatfs last_clust free_clust set_last_clust with_fsinfo] in *.
    apply cr_new; try done.
    - intros Hnc. rewrite He4. by apply He2.
    - intros Hc0. rewrite He4. by apply Hc2.
    - intros x Hx Hxn Hxc. rewrite He4. by apply Ho2.
    - rewrite Hf4. by rewrite Hsm2. }
  destruct (Z.eqb_spec c 0) as [-> |Hc0]; cbn [negb].
  - apply fwp_bind, fwp_ret. rewrite decide_True by done. apply Hfin; [done|done|done|done|]. intros x Hx Hxn _. by apply Ho1.
  - destruct Hc as [|Hc]; [done|]. assert (Hc1 : cluster (fatfs v1) c) by (by rewrite Hsm1).
    assert (Hn1 : cluster (fatfs v1) n) by (by rewrite Hsm1).
    apply fwp_bind. eapply fwp_mono; [|by apply put_fat_ok]. intros r2 v2 Hp2. pose proof Hp2 as [Hok2 Hsm2 Hne2 _ Ho2 Ha2 _ Hs2].
    pose proof (kept_trans _ _ _ Hk1 (kept_put _ _ _ _ _ Hp2)) as Hk2.
    assert (Hcl : forall x, cluster (fatfs v) x -> cluster (fatfs v1) x) by (intros x; by rewrite Hsm1).
    assert (Ho : forall x, cluster (fatfs v) x -> x <> n -> x <> c -> entry v2 x = entry v x).
    { intros x Hx Hxn Hxc. rewrite Ho2 by auto. by apply Ho1. }
    destruct Ha2 as [[-> E2]| ->].
    + rewrite decide_True by done. rewrite cluster_stored in E2 by done. apply Hfin; [done|by eapply same_trans| |done|done].
      intros Hnc. rewrite Ho2 by auto. done.
    + rewrite decide_False, decide_True by done. apply fwp_ret. split; [done|]. apply (cr_error _ _ n); [by intros S; specialize (Hs2 S)|done|done].
Qed.

Lemma created_stays c v v1 r v' :
  table_ok (fatfs v) -> stays v v1 -> c = 0 \/ cluster (fatfs v) c -> created c v1 r v' -> created c v r v'.
Proof using.
  intros Ht Hst Hc Hcr. pose proof (st_same _ _ Hst) as Hsm.
  assert (Hcl : forall x, cluster (fatfs v1) x <-> cluster (fatfs v) x) by (intros x; by rewrite Hsm).
  assert (He : forall x, cluster (fatfs v) x -> entry v1 x = entry v x) by (intros; by apply entry_stays).
  destruct Hcr as [v' Hall Ho Hst0 Hlc Hfc|v' Hcc Hf Ho Hlc Hfc|v' Hbad Ho Hfc|n v' Hn E En Ec Ho Hs Hl Hfr|n v' Hs Ho E].
  - apply cr_full; [intros x Hx; rewrite <- He by done; by apply Hall, Hcl|intros x Hx; rewrite <- He by done; by apply Ho, Hcl| |by rewrite Hlc, Hsm|by rewrite Hfc, Hsm].
    intros S Hc0. destruct Hc as [|Hc]; [done|]. rewrite <- He by done. replace (n_fatent (fatfs v)) with (n_fatent (fatfs v1)) by (by rewrite Hsm). auto.
  - apply Hcl in Hcc. rewrite He in Hf by done. rewrite He by done. apply cr_followed; [done|by apply Hcl| |by rewrite Hlc, Hsm|by rewrite Hfc, Hsm].
    intros x Hx. rewrite <- He by done. by apply Ho, Hcl.
  - apply cr_bad; [|intros x Hx; rewrite <- He by done; by apply Ho, Hcl|by rewrite Hfc, Hsm]. destruct Hbad as [[Hx Hb]|(x & Hx & Hb)].
    + apply Hcl in Hx. left. by rewrite <- He.
    + right. exists x. apply Hcl in Hx. by rewrite <- He.
  - apply Hcl in Hn. rewrite He in E by done.
    replace (end_mark (fatfs v1)) with (end_mark (fatfs v)) in En by (by rewrite Hsm).
    replace (free_clust (fatfs v1)) with (free_clust (fatfs v)) in Hfr by (by rewrite Hsm).
    apply cr_new; try done.
    + intros x Hx Hxn Hxc. rewrite <- He by done. apply Ho; [by apply Hcl|done|done].
    + intros S Hc0. destruct Hc as [|Hc]; [done|]. rewrite <- He by done.
      replace (n_fatent (fatfs v)) with (n_fatent (fatfs v1)) by (by rewrite Hsm). by apply Hs.
  - apply (cr_error _ _ n); [done| |].
    + intros x Hx Hxn Hxc. rewrite <- He by done. apply Ho; [by apply Hcl|done|done].
    + intros Hn. rewrite <- He by done. by apply E, Hcl.
Qed.

Lemma create_chain_ok v c :
  win_ok v -> table_ok (fatfs v) -> c = 0 \/ cluster (fatfs v) c -> 0 <= last_clust (fatfs v) ->
  fwp (create_chain c) (fun r v' => kept v v' /\ created c v r v') v.
Proof using.
  intros Hok Ht Hc Hlast. unfold create_chain. apply fwp_bind. eapply fwp_mono; [|by apply chain_start_ok].
  intros [scl|a] v1 (Hok1 & Hst1 & Hm1 & Hr1).
  2: { apply fwp_ret. split; [by apply kept_stays|done]. }
  destruct Hr1 as [Hscl Hend]. pose proof (st_same _ _ Hst1) as Hsm1. pose proof Ht as [_ _ Hn2 _ _].
  assert (Hn1 : n_fatent (fatfs v1) = n_fatent (fatfs v)) by (by rewrite Hsm1).
  assert (Ht1 : table_ok (fatfs v1)) by (by apply (alike_table _ _ (same_alike _ _ Hsm1))).
  apply fwp_bind, fwp_get, fwp_bind. eapply fwp_mono; [|apply find_free_ok]; try done; try (by rewrite Hn1); try lia.
  2: { intros x Hx. unfold seen. rewrite decide_True by lia. lia. }
  2: { unfold rounds. rewrite decide_True by lia. lia. }
  intros r v2 Hf. apply (found_more _ _ _ _ _ Hst1 Ht Hm1) in Hf. destruct Hf as [Hok2 Hst2 Hm2 Ha2 Hs2].
  assert (He : forall x, cluster (fatfs v) x -> entry v2 x = entry v x) by (intros; by apply entry_stays).
  pose proof (kept_stays _ _ Hok2 Hst2 Hm2) as Hk2. destruct r as [n|a].
  - destruct Ha2 as (Hn & E & Hne). pose proof (st_same _ _ Hst2) as Hsm2.
    assert (Hcl : forall x, cluster (fatfs v2) x <-> cluster (fatfs v) x) by (intros x; by rewrite Hsm2).
    eapply fwp_mono; [|apply link_free_ok]; try done.
    + intros r v3 [Hk3 Hc3]. split; [by eapply kept_trans|]. by apply (created_stays _ _ v2).
    + by apply (alike_table _ _ (same_alike _ _ Hsm2)).
    + destruct Hc; [by left|right; by apply Hcl].
    + by apply Hcl.
    + by rewrite He.
    + intros S Hc0. destruct Hc as [|Hc]; [done|]. rewrite He by done. replace (n_fatent (fatfs v2)) with (n_fatent (fatfs v)) by (by rewrite Hsm2). auto.
  - apply fwp_ret. split; [done|]. destruct Ha2 as [[-> Hall]|[[-> (x & Hx & Hb)]| ->]].
    + apply cr_full; [done|done|done|..]; by rewrite (st_same _ _ Hst2).
    + apply cr_bad; [right; by exists x|done|by rewrite (st_same _ _ Hst2)].
    + apply (cr_error _ _ 0); [by intros S; specialize (Hs2 S)|by auto|]. intros [? _]. lia.
Qed.

(** ** What it means for the chains *)

Lemma chain_other v v' h l :
  alike (fatfs v) (fatfs v') -> (forall x, x ∈ l -> entry v' x = entry v x) -> chain v h l -> chain v' h l.
Proof using.
  intros Ha He (Hne & Hl & d & Hp & Hd). split; [done|]. split.
  - eapply Forall_impl; [exact Hl|]. intros x. by apply alike_cluster.
  - exists d. split; [by apply (path_ext (entry v))|]. by rewrite Ha.
Qed.

Lemma path_snoc_inv e h l c d : path e h (l ++ [c]) d -> path e h l c /\ d = e c /\ 1 < e c.
Proof using.
  revert h. induction l as [|y l IH]; intros h Hp; cbn [app] in Hp; inversion Hp as [|c0 l0 d0 Hc0 Hp0]; subst.
  - inversion Hp0; subst. split_and!; [constructor|done|done].
  - destruct (IH _ Hp0) as (H1 & H2 & H3). split_and!; [by constructor|done|done].
Qed.

Lemma chain_longer v v' h l c n :
  table_ok (fatfs v) -> alike (fatfs v) (fatfs v') -> chain v h (l ++ [c]) -> cluster (fatfs v) n -> entry v n = 0 -> n <> c ->
  entry v' n = end_mark (fatfs v) -> entry v' c = n ->
  (forall x, cluster (fatfs v) x -> x <> n -> x <> c -> entry v' x = entry v x) -> chain v' h (l ++ [c; n]).
Proof using.
  intros Ht Ha Hch Hn E Hnc En Ec Ho. pose proof (chain_nodup _ _ _ Hch) as Hnd. destruct Hch as (_ & Hl & d & Hp & Hd).
  pose proof (mark_outside _ Ht) as Hmark. pose proof Ht as [_ _ H2 _ _]. assert (Hn2 : 2 <= n) by apply Hn.
  destruct (path_snoc_inv _ _ _ _ _ Hp) as (Hp1 & -> & Hc1). apply NoDup_app in Hnd as (_ & Hdis & _).
  assert (Hlx : forall x, x ∈ l -> entry v' x = entry v x).
  { intros x Hx. apply Forall_app in Hl as [Hl _]. apply Ho; [by apply (proj1 (Forall_forall _ _) Hl)| |].
    - intros ->. pose proof (path_links _ _ _ _ _ Hp1 Hx). lia.
    - intros ->. apply (Hdis c Hx). by left. }
  split; [by destruct l|]. split.
  - apply Forall_app in Hl as [Hl Hc]. apply Forall_cons in Hc as [Hc _]. apply Forall_app. split; [|repeat constructor].
    + eapply Forall_impl; [exact Hl|]. intros x. by apply alike_cluster.
    + by apply (alike_cluster _ _ _ Ha), Hc.
    + by apply (alike_cluster _ _ _ Ha), Hc.
    + by apply (alike_cluster _ _ _ Ha), Hn.
    + by apply (alike_cluster _ _ _ Ha), Hn.
  - exists (end_mark (fatfs v)). split; [|by rewrite Ha].
    eapply path_app; [by apply (path_ext (entry v))|]. constructor; [lia|]. rewrite Ec. constructor; [lia|]. rewrite En. constructor.
Qed.


End FatChainProofs.
