(* ===== verification/FatMount.v ===== *)
(** * Mounting a volume: [check_fs], [chk_mounted], [validate] and [f_mount] of fatfs/ff.c

    The boot record is found and its parameters become the members of the
    file-system object. *)

From S2P Require Import Prelude Diskio FatVol FatBytes FatWin FatTable.

Definition STA_PROTECT : Z := 4.

Section FatMount.

Context {DK : Type} {HD : Disk DK}.

(** The variables of the module.  The program has one file-system object;
    [registered] is whether [FatFs[0]] points to it. *)
Record fsys := mkSys { volume : vol (DK := DK); registered : bool; Fsid : Z; CurrVol : Z }.

Definition G (A : Type) : Type := fsys -> option (A * fsys).

#[local] Instance G_ret : MRet G := fun A a s => Some (a, s).
#[local] Instance G_bind : MBind G := fun A B f p s =>
  match p s with Some (a, s') => f a s' | None => None end.

Definition on_vol {A} (p : F A) : G A := fun s =>
  match p (volume s) with Some (a, v) => Some (a, mkSys v (registered s) (Fsid s) (CurrVol s)) | None => None end.
Definition sys_get : G fsys := fun s => Some (s, s).
Definition sys_mod (f : fsys -> fsys) : G unit := fun s => Some (tt, f s).

(** The string at a pointer: its first character; none is beyond the buffer. *)
Definition char_at (p : list Z) (i : nat) : F (DK := DK) Z := match p !! i with Some c => mret c | None => stuck end.

Definition load_word (o : Z) : F (DK := DK) Z := p ← win_bytes o 2; mret (LD_WORD p).
Definition load_dword (o : Z) : F (DK := DK) Z := p ← win_bytes o 4; mret (LD_DWORD p).

(** 0: a FAT boot record, 1: another one, 2: none, 3: the disk failed. *)
Definition check_fs (sect : Z) : F (DK := DK) Z :=
  r ← read_win sect;
  if decide (r = RES_OK) then
    w ← load_word 510;
    if negb (w =? 43605) then mret 2
    else
      a ← load_dword 54;
      if Z.land a 16777215 =? 5521734 then mret 0
      else
        b ← load_dword 82;
        mret (if Z.land b 16777215 =? 5521734 then 0 else 1)
  else mret 3.

(** The FAT sub-type for a number of clusters. *)
Definition MIN_FAT16 : Z := 4086.
Definition MIN_FAT32 : Z := 65526.
Definition fat_type (nclst : Z) : Z :=
  let fmt := FS_FAT12 in
  let fmt := if MIN_FAT16 <=? nclst then FS_FAT16 else fmt in
  if MIN_FAT32 <=? nclst then FS_FAT32 else fmt.

Definition find_volume : F (DK := DK) (Z * Z) :=
  fmt ← check_fs 0;
  if fmt =? 1 then
    t ← win_at (446 + 4);
    if negb (t =? 0) then
      bsect ← load_dword (446 + 8);
      fmt ← check_fs bsect;
      mret (fmt, bsect)
    else mret (fmt, 0)
  else mret (fmt, 0).

(** The counts in the FSInfo sector, when there is a good one. *)
Definition read_fsinfo : F (DK := DK) unit :=
  f ← fs_get;
  r ← read_win (fsi_sector f);
  if decide (r = RES_OK) then
    w ← load_word 510;
    a ← load_dword 0;
    b ← load_dword 484;
    if (w =? 43605) && (a =? 1096897106) && (b =? 1631679090) then
      l ← load_dword 492;
      fs_mod (set_last_clust l);;
      n ← load_dword 488;
      fs_mod (set_free_clust n)
    else mret tt
  else mret tt.

(** The bytes the table must have. *)
Definition needed_bytes (fmt n_fatent : Z) : Z :=
  if fmt =? FS_FAT32 then u32 (n_fatent * 4)
  else if fmt =? FS_FAT16 then u32 (n_fatent * 2)
  else u32 (u32 (n_fatent * 3) / 2 + Z.land n_fatent 1).

(** The second half: the sub-type, the boundaries, and the allocation counts;
    [fasize] is the size of all copies of the table. *)
Definition set_boundaries (bsect fasize tsect nrsv : Z) : F (DK := DK) FRESULT :=
  f ← fs_get;
  let sysect := u32 (nrsv + fasize + n_rootdir f / 16) in
  if tsect <? sysect then mret FR_NO_FILESYSTEM
  else
    let nclst := (tsect - sysect) / csize f in
    if nclst =? 0 then mret FR_NO_FILESYSTEM
    else
      let fmt := fat_type nclst in
      fs_mod (set_n_fatent (u32 (nclst + 2)));;
      fs_mod (set_database (u32 (bsect + sysect)));;
      fs_mod (set_fatbase (u32 (bsect + nrsv)));;
      f ← fs_get;
      if (fmt =? FS_FAT32) && negb (n_rootdir f =? 0) then mret FR_NO_FILESYSTEM
      else if negb (fmt =? FS_FAT32) && (n_rootdir f =? 0) then mret FR_NO_FILESYSTEM
      else
        (if fmt =? FS_FAT32 then c ← load_dword 44; fs_mod (set_dirbase c)
         else fs_mod (set_dirbase (u32 (fatbase f + fasize))));;
        if fsize f <? u32 (needed_bytes fmt (n_fatent f) + 511) / SS then mret FR_NO_FILESYSTEM
        else
          fs_mod (fun f => set_last_clust 0 (set_free_clust 4294967295 f));;
          (if fmt =? FS_FAT32 then
             w ← load_word 48;
             fs_mod (set_fsi_flag false);;
             fs_mod (set_fsi_sector (u32 (bsect + w)));;
             read_fsinfo
           else mret tt);;
          fs_mod (set_fs_type fmt);;
          mret FR_OK.

(** The boot record in the window becomes the members of the object. *)
Definition read_bpb (bsect : Z) : F (DK := DK) FRESULT :=
  w ← load_word 11;
  if negb (w =? SS) then mret FR_NO_FILESYSTEM
  else
    w ← load_word 22;
    fasize ← (if w =? 0 then load_dword 36 else mret w);
    fs_mod (set_fsize fasize);;
    b ← win_at 16;
    fs_mod (set_n_fats b);;
    if negb (b =? 1) && negb (b =? 2) then mret FR_NO_FILESYSTEM
    else
      let fasize := u32 (fasize * b) in
      b ← win_at 13;
      fs_mod (set_csize b);;
      if (b =? 0) || negb (Z.land b (b - 1) =? 0) then mret FR_NO_FILESYSTEM
      else
        w ← load_word 17;
        fs_mod (set_n_rootdir w);;
        if negb (w mod 16 =? 0) then mret FR_NO_FILESYSTEM
        else
          w ← load_word 19;
          tsect ← (if w =? 0 then load_dword 32 else mret w);
          nrsv ← load_word 14;
          if nrsv =? 0 then mret FR_NO_FILESYSTEM else set_boundaries bsect fasize tsect nrsv.

(** The attempt to mount, once the drive is initialised. *)
Definition mount_volume : F (DK := DK) FRESULT :=
  '(fmt, bsect) ← find_volume;
  if fmt =? 3 then mret FR_DISK_ERR
  else if negb (fmt =? 0) then mret FR_NO_FILESYSTEM
  else read_bpb bsect.

(** A drive number in front of the path, and the path behind it. *)
Definition drive_number (path : list Z) : G (Z * list Z) :=
  s ← sys_get;
  c0 ← on_vol (char_at path 0);
  let vol := u32 (c0 - 48) in
  if vol <=? 9 then
    c1 ← on_vol (char_at path 1);
    mret (if c1 =? 58 then (vol, drop 2 path) else (CurrVol s, path))
  else mret (CurrVol s, path).

Definition _VOLUMES : Z := 1.

(** The object is cleared and the volume mounted anew. *)
Definition mount_drive (protected : Z -> bool) (vol : Z) : G FRESULT :=
  on_vol (fs_mod (set_fs_type 0));;
  on_vol (fs_mod (set_drv vol));;
  stat ← on_vol (on_dev (d_initialize vol));
  if negb (Z.land stat STA_NOINIT =? 0) then mret FR_NOT_READY
  else if protected stat then mret FR_WRITE_PROTECTED
  else
    r ← on_vol mount_volume;
    if decide (r = FR_OK) then
      s ← sys_get;
      let fsid := u16 (Fsid s + 1) in
      sys_mod (fun s => mkSys (volume s) (registered s) fsid (CurrVol s));;
      on_vol (fs_mod (set_fs_id fsid));;
      on_vol (fs_mod (set_winsect 0));;
      on_vol (fs_mod (set_wflag false));;
      on_vol (fs_mod (set_cdir 0));;
      mret FR_OK
    else mret r.

(** Whether a write is asked for and the drive refuses it. *)
Definition wp_refused (chk_wp stat : Z) : bool := negb (chk_wp =? 0) && negb (Z.land stat STA_PROTECT =? 0).

(** The result and the path behind the drive number. *)
Definition chk_mounted (path : list Z) (chk_wp : Z) : G (FRESULT * list Z) :=
  '(vol, path) ← drive_number path;
  if _VOLUMES <=? vol then mret (FR_INVALID_DRIVE, path)
  else
    s ← sys_get;
    if negb (registered s) then mret (FR_NOT_ENABLED, path)
    else
      f ← on_vol fs_get;
      stat ← (if fs_type f =? 0 then mret STA_NOINIT else on_vol (on_dev (d_status (drv f))));
      if Z.land stat STA_NOINIT =? 0 then mret (if wp_refused chk_wp stat then FR_WRITE_PROTECTED else FR_OK, path)
      else r ← mount_drive (wp_refused chk_wp) vol; mret (r, path).

(** [attached] is whether the object's [fs] pointer is not null. *)
Definition validate (attached : bool) (id : Z) : G FRESULT :=
  f ← on_vol fs_get;
  if negb attached || (fs_type f =? 0) || negb (fs_id f =? id) then mret FR_INVALID_OBJECT
  else
    stat ← on_vol (on_dev (d_status (drv f)));
    mret (if Z.land stat STA_NOINIT =? 0 then FR_OK else FR_NOT_READY).

(** [fs] is the file-system object or, when false, the null pointer. *)
Definition f_mount (vol : Z) (fs : bool) : G FRESULT :=
  if _VOLUMES <=? vol then mret FR_INVALID_DRIVE
  else
    s ← sys_get;
    (if registered s then on_vol (fs_mod (set_fs_type 0)) else mret tt);;
    (if fs then on_vol (fs_mod (set_fs_type 0)) else mret tt);;
    sys_mod (fun s => mkSys (volume s) fs (Fsid s) (CurrVol s));;
    mret FR_OK.

End FatMount.

#[export] Existing Instance G_ret.
#[export] Existing Instance G_bind.

(** ** What a mounted volume is *)

(** The members after a mount that succeeded. *)
Record parameters (f : FATFS) : Prop := {
  pa_copies : n_fats f = 1 \/ n_fats f = 2;
  pa_csize : 0 < csize f < 256 /\ Z.land (csize f) (csize f - 1) = 0;
  pa_root : n_rootdir f mod 16 = 0 /\ 0 <= n_rootdir f;
  pa_type : 2 < n_fatent f -> fs_type f = fat_type (n_fatent f - 2);
  pa_room : u32 (needed_bytes (fs_type f) (n_fatent f) + 511) / SS <= fsize f;
  pa_dir : if fs_type f =? FS_FAT32 then n_rootdir f = 0 else n_rootdir f <> 0 /\ dirbase f = u32 (fatbase f + u32 (fsize f * n_fats f))
}.

(** The volume lies within 2^32 sectors and has fewer clusters than links have
    values: what the boot record of a proper volume says. *)
Record within (f : FATFS) : Prop := {
  wi_base : 0 < fatbase f;
  wi_data : database f = fatbase f + n_fats f * fsize f + n_rootdir f / 16 /\ database f < 2 ^ 32;
  wi_clusters : 2 < n_fatent f < 2 ^ 28
}.

Lemma fat_type_bounds n :
  fat_type n = FS_FAT12 /\ n < 4086 \/ fat_type n = FS_FAT16 /\ 4086 <= n < 65526 \/ fat_type n = FS_FAT32 /\ 65526 <= n.
Proof. unfold fat_type, MIN_FAT16, MIN_FAT32. repeat case_z; auto; lia. Qed.

Lemma needed_enough ty n b : 2 < n < 2 ^ 28 -> u32 (needed_bytes ty n + 511) / SS <= b ->
  ty = FS_FAT12 \/ ty = FS_FAT16 \/ ty = FS_FAT32 -> 0 < b /\ table_bytes ty n <= SS * b.
Proof.
  intros Hn Hb Hty. assert (Hx : table_bytes ty n <= needed_bytes ty n < 2 ^ 31 /\ 0 < table_bytes ty n).
  { unfold table_bytes, needed_bytes. destruct Hty as [-> |[-> | ->]]; cbn -[Z.mul Z.div Z.modulo Z.land wrap Z.pow].
    - pose proof (Z.mod_pos_bound n 2 ltac:(lia)). change 1 with (2 ^ 1 - 1). rewrite land_mod by lia. change (2 ^ 1) with 2.
      pose proof (Z.div_mod (n * 3) 2 ltac:(lia)). pose proof (Z.mod_pos_bound (n * 3) 2 ltac:(lia)).
      rewrite !wrap_small by (unfold fits; rewrite ?wrap_small by (unfold fits; lia); lia). lia.
    - rewrite wrap_small by (unfold fits; lia). lia.
    - rewrite wrap_small by (unfold fits; lia). lia. }
  rewrite wrap_small in Hb by (unfold fits; lia). unfold SS in *.
  pose proof (Z.div_mod (needed_bytes ty n + 511) 512 ltac:(lia)). pose proof (Z.mod_pos_bound (needed_bytes ty n + 511) 512 ltac:(lia)). lia.
Qed.

Lemma mounted_table f : drv f = 0 -> parameters f -> within f -> table_ok f.
Proof.
  intros Hd [Hc Hcs Hr Ht Hroom _] [Hb [Hdata Hd32] Hn]. specialize (Ht ltac:(lia)).
  assert (Hty : fs_type f = FS_FAT12 \/ fs_type f = FS_FAT16 \/ fs_type f = FS_FAT32).
  { destruct (fat_type_bounds (n_fatent f - 2)) as [[E _]|[[E _]|[E _]]]; rewrite Ht, E; auto. }
  destruct (needed_enough _ _ _ Hn Hroom Hty) as [Hs Htb].
  assert (Hg : geometry f) by (split; try done; pose proof (Z.div_pos (n_rootdir f) 16 ltac:(lia) ltac:(lia)); lia).
  split; [done|done|lia|done|].
  destruct (fat_type_bounds (n_fatent f - 2)) as [[E ?]|[[E ?]|[E ?]]]; rewrite Ht, E; unfold entry_bits; cbn -[Z.pow]; lia.
Qed.

Section FatMountProofs.

Context {DK : Type} {HD : Disk DK} {HS : Store DK}.

Implicit Types v : vol (DK := DK).

(** Only the object in memory has changed. *)
Record loaded v v' : Prop := {
  lo_content : forall t, content (dev v') t = content (dev v) t;
  lo_sector : sector (win (fatfs v'));
  lo_drv : drv (fatfs v') = drv (fatfs v)
}.

Lemma loaded_refl v : sector (win (fatfs v)) -> loaded v v.
Proof using. by split. Qed.

Lemma loaded_trans u v w : loaded u v -> loaded v w -> loaded u w.
Proof using. intros [H1 H2 H3] [K1 K2 K3]. split; [intros t; by rewrite K1|done|congruence]. Qed.

Lemma fwp_word o (Q : Z -> vol -> Prop) v :
  sector (win (fatfs v)) -> 0 <= o <= 510 -> (forall x, 0 <= x < 2 ^ 16 -> Q x v) -> fwp (load_word o) Q v.
Proof using. intros Hs Ho HQ. unfold load_word. apply fwp_bind, fwp_bytes; [done|lia|lia|]. apply fwp_ret, HQ, ld_word_range. Qed.

Lemma fwp_dword o (Q : Z -> vol -> Prop) v :
  sector (win (fatfs v)) -> 0 <= o <= 508 -> (forall x, 0 <= x < 2 ^ 32 -> Q x v) -> fwp (load_dword o) Q v.
Proof using. intros Hs Ho HQ. unfold load_dword. apply fwp_bind, fwp_bytes; [done|lia|lia|]. apply fwp_ret, HQ, ld_dword_range. Qed.

Lemma fwp_byte o (Q : Z -> vol -> Prop) v :
  sector (win (fatfs v)) -> 0 <= o < 512 -> (forall x, 0 <= x < 256 -> Q x v) -> fwp (win_at o) Q v.
Proof using. intros Hs Ho HQ. apply fwp_at; [done|done|]. apply HQ, byte_at_byte, Hs. Qed.

Lemma check_fs_ok v sect :
  drv (fatfs v) = 0 -> sector (win (fatfs v)) -> fwp (check_fs sect) (fun r v' => loaded v v' /\ 0 <= r <= 3) v.
Proof using.
  intros Hd Hs. unfold check_fs. apply fwp_bind. eapply fwp_mono; [|by apply read_win_ok].
  intros r v1 (Hc & Hf & _). assert (Hl : loaded v v1).
  { destruct Hf as [[-> Hf]|[_ Hf]]; split; rewrite ?Hf; try done. apply content_sector. }
  case_decide; [|apply fwp_ret; split; [done|lia]]. pose proof (lo_sector _ _ Hl) as Hs1.
  apply fwp_bind, fwp_word; [done|lia|]. intros w _. destruct (negb _); [apply fwp_ret; split; [done|lia]|].
  apply fwp_bind, fwp_dword; [done|lia|]. intros a _. destruct (_ =? _); [apply fwp_ret; split; [done|lia]|].
  apply fwp_bind, fwp_dword; [done|lia|]. intros b _. apply fwp_ret. split; [done|]. destruct (_ =? _); lia.
Qed.

Lemma find_volume_ok v :
  drv (fatfs v) = 0 -> sector (win (fatfs v)) -> fwp find_volume (fun r v' => loaded v v' /\ 0 <= r.1 <= 3) v.
Proof using.
  intros Hd Hs. unfold find_volume. apply fwp_bind. eapply fwp_mono; [|by apply check_fs_ok]. intros fmt v1 [Hl Hr].
  destruct (fmt =? 1); [|by apply fwp_ret]. pose proof (lo_sector _ _ Hl) as Hs1.
  apply fwp_bind, fwp_byte; [done|lia|]. intros t _. destruct (negb _); [|by apply fwp_ret].
  apply fwp_bind, fwp_dword; [done|lia|]. intros b _. apply fwp_bind. eapply fwp_mono; [|apply check_fs_ok; [by rewrite (lo_drv _ _ Hl)|done]].
  intros fmt' v2 [Hl2 Hr2]. apply fwp_ret. split; [by eapply loaded_trans|done].
Qed.

Lemma loaded_set v f : sector (win f) -> drv f = drv (fatfs v) -> loaded v (mkVol f (dev v)).
Proof using. intros Hs Hd. by split. Qed.

Lemma read_fsinfo_ok v :
  drv (fatfs v) = 0 -> sector (win (fatfs v)) -> fwp read_fsinfo (fun _ v' => loaded v v' /\ alike (fatfs v) (fatfs v')) v.
Proof using.
  intros Hd Hs. unfold read_fsinfo. apply fwp_bind, fwp_get, fwp_bind. eapply fwp_mono; [|by apply read_win_ok].
  intros r v1 (Hc & Hf & _). assert (Hl : loaded v v1 /\ alike (fatfs v) (fatfs v1)).
  { destruct Hf as [[-> Hf]|[_ Hf]]; (split; [split|]); rewrite ?Hf; try done. apply content_sector. }
  destruct Hl as [Hl Ha]. pose proof (lo_sector _ _ Hl) as Hs1. case_decide; [|by apply fwp_ret].
  apply fwp_bind, fwp_word; [done|lia|]. intros w _. apply fwp_bind, fwp_dword; [done|lia|]. intros a _.
  apply fwp_bind, fwp_dword; [done|lia|]. intros b _. destruct (_ && _ && _); [|by apply fwp_ret].
  apply fwp_bind, fwp_dword; [done|lia|]. intros l _. apply fwp_bind, fwp_mod, fwp_bind, fwp_dword; [done|lia|]. intros n _.
  apply fwp_mod. cbn [fatfs dev]. split; [eapply loaded_trans; [exact Hl|by apply loaded_set]|].
  etrans; [exact Ha|]. cbn [fatfs]. by destruct (fatfs v1).
Qed.

Lemma alike_parameters f f' : alike f f' -> parameters f -> parameters f'.
Proof using. intros -> []. by split. Qed.

(** The answers of the mounting code. *)
Definition mount_answer (r : FRESULT) : Prop := r = FR_OK \/ r = FR_DISK_ERR \/ r = FR_NO_FILESYSTEM.

Lemma set_boundaries_ok v bsect tsect nrsv :
  drv (fatfs v) = 0 -> sector (win (fatfs v)) -> n_fats (fatfs v) = 1 \/ n_fats (fatfs v) = 2 ->
  0 < csize (fatfs v) < 256 /\ Z.land (csize (fatfs v)) (csize (fatfs v) - 1) = 0 ->
  n_rootdir (fatfs v) mod 16 = 0 /\ 0 <= n_rootdir (fatfs v) -> 0 <= tsect < 2 ^ 32 ->
  fwp (set_boundaries bsect (u32 (fsize (fatfs v) * n_fats (fatfs v))) tsect nrsv) (fun r v' => loaded v v' /\ mount_answer r /\ (r = FR_OK -> parameters (fatfs v'))) v.
Proof using.
  intros Hd Hs Hnf Hcs Hrd Hts. unfold set_boundaries. set (fasize := u32 (fsize _ * _)). apply fwp_bind, fwp_get. set (f0 := fatfs v) in *.
  assert (Hno : forall v', loaded v v' -> fwp (mret FR_NO_FILESYSTEM) (fun r v' => loaded v v' /\ mount_answer r /\ (r = FR_OK -> parameters (fatfs v'))) v').
  { intros v' Hl. apply fwp_ret. split_and!; [done|by right; right|done]. }
  set (sysect := u32 (nrsv + fasize + n_rootdir f0 / 16)). case_z; [by apply Hno, loaded_refl|].
  set (nclst := (tsect - sysect) / csize f0). destruct (Z.eqb_spec nclst 0) as [|Hn0]; [by apply Hno, loaded_refl|].
  pose proof (wrap_range 32 (nrsv + fasize + n_rootdir f0 / 16) ltac:(lia)) as Hsys. fold sysect in Hsys.
  assert (Hncl : 0 < nclst < 2 ^ 32).
  { assert (0 <= nclst) by (apply Z.div_pos; lia). split; [lia|]. apply Z.div_lt_upper_bound; nia. }
  set (fmt := fat_type nclst).
  apply fwp_bind, fwp_mod, fwp_bind, fwp_mod, fwp_bind, fwp_mod, fwp_bind, fwp_get. cbn [fatfs dev].
  set (f1 := set_fatbase _ _). assert (Hw1 : sector (win f1)) by done.
  destruct ((fmt =? FS_FAT32) && _) eqn:E1; [by apply Hno, loaded_set|].
  destruct (negb (fmt =? FS_FAT32) && _) eqn:E2; [by apply Hno, loaded_set|].
  apply fwp_bind. set (dirb := if fmt =? FS_FAT32 then _ else _).
  apply (fwp_mono dirb (fun _ v' => exists x, v' = mkVol (set_dirbase x f1) (dev v) /\ (fmt <> FS_FAT32 -> x = u32 (fatbase f1 + fasize)))).
  2: { unfold dirb. destruct (Z.eqb_spec fmt FS_FAT32).
    - apply fwp_bind, fwp_dword; [done|lia|]. intros x _. apply fwp_mod. by exists x.
    - apply fwp_mod. by eexists. }
  clear dirb. intros [] v2 (dirb & -> & Hdir). case_z; [by apply Hno, loaded_set|].
  apply fwp_bind, fwp_mod, fwp_bind. cbn [fatfs dev]. set (f3 := set_last_clust _ _).
  apply (fwp_mono _ (fun _ v' => loaded v v' /\ alike (set_fsi_sector (fsi_sector (fatfs v')) f3) (fatfs v'))).
  2: { destruct (fmt =? FS_FAT32).
    - apply fwp_bind, fwp_word; [done|lia|]. intros w _. apply fwp_bind, fwp_mod, fwp_bind, fwp_mod.
      eapply fwp_mono; [|by apply read_fsinfo_ok]. cbn [fatfs dev]. intros [] v' [Hl Ha]. split.
      + eapply loaded_trans; [|exact Hl]. by apply loaded_set.
      + rewrite Ha. reflexivity.
    - apply fwp_ret. split; [by apply loaded_set|reflexivity]. }
  intros [] v4 [Hl Ha]. apply fwp_bind, fwp_mod, fwp_ret. cbn [fatfs dev].
  split_and!; [eapply loaded_trans; [exact Hl|apply loaded_set; [apply Hl|done]]|by left|]. intros _.
  assert (Hty : fmt = FS_FAT32 -> n_rootdir f0 = 0).
  { intros E. rewrite E in E1. cbn in E1. by apply negb_false_iff, Z.eqb_eq in E1. }
  assert (Hty' : fmt <> FS_FAT32 -> n_rootdir f0 <> 0).
  { intros E. rewrite (proj2 (Z.eqb_neq _ _) E) in E2. cbn in E2. by apply Z.eqb_neq in E2. }
  rewrite Ha. split; cbn; try done.
  - intros Hn2. fold fmt. unfold fmt. f_equal.
    assert (Hne : nclst + 2 < 2 ^ 32).
    { destruct (Z_lt_le_dec (nclst + 2) (2 ^ 32)) as [|Hge]; [done|]. exfalso. unfold wrap in Hn2.
      rewrite <- (Z.mod_add _ (-1)) in Hn2 by lia. rewrite Z.mod_small in Hn2 by lia. lia. }
    rewrite wrap_small by (unfold fits; lia). lia.
  - destruct (Z.eqb_spec fmt FS_FAT32); [by apply Hty|]. split; [by apply Hty'|]. by rewrite Hdir.
Qed.

Definition mounts v (r : FRESULT) v' : Prop := loaded v v' /\ mount_answer r /\ (r = FR_OK -> parameters (fatfs v')).

Lemma read_bpb_ok v bsect : drv (fatfs v) = 0 -> sector (win (fatfs v)) -> fwp (read_bpb bsect) (mounts v) v.
Proof using.
  destruct v as [f0 d0]. intros Hd Hs. unfold read_bpb.
  assert (Hno : forall f, sector (win f) -> drv f = drv f0 -> fwp (mret FR_NO_FILESYSTEM) (mounts (mkVol f0 d0)) (mkVol f d0)).
  { intros f H1 H2. apply fwp_ret. split_and!; [by apply loaded_set|by right; right|done]. }
  apply fwp_bind, fwp_word; [done|lia|]. intros w _. destruct (negb _); [by apply Hno|].
  apply fwp_bind, fwp_word; [done|lia|]. intros w2 Hw2. apply fwp_bind.
  apply (fwp_mono _ (fun _ v' => v' = mkVol f0 d0)); [|destruct (w2 =? 0); [apply fwp_dword; [done|lia|done]|by apply fwp_ret]].
  intros fz v1 ->. apply fwp_bind, fwp_mod, fwp_bind, fwp_byte; [done|lia|]. intros nf _.
  apply fwp_bind, fwp_mod. cbn [fatfs dev]. destruct (negb (nf =? 1) && negb (nf =? 2)) eqn:Enf; [by apply Hno|].
  assert (Hnf : nf = 1 \/ nf = 2) by (destruct (Z.eqb_spec nf 1), (Z.eqb_spec nf 2); auto; done).
  apply fwp_bind, fwp_byte; [done|lia|]. intros cs Hcs. apply fwp_bind, fwp_mod. cbn [fatfs dev].
  destruct ((cs =? 0) || negb (Z.land cs (cs - 1) =? 0)) eqn:Ecs; [by apply Hno|].
  apply orb_false_elim in Ecs as [Ecs1 Ecs2%negb_false_iff]. apply Z.eqb_neq in Ecs1. apply Z.eqb_eq in Ecs2.
  apply fwp_bind, fwp_word; [done|lia|]. intros rd Hrd. apply fwp_bind, fwp_mod. cbn [fatfs dev].
  destruct (negb (rd mod 16 =? 0)) eqn:Erd; [by apply Hno|]. apply negb_false_iff, Z.eqb_eq in Erd.
  apply fwp_bind, fwp_word; [done|lia|]. intros ts0 Hts0. apply fwp_bind.
  match goal with |- fwp _ _ ?x => set (v1 := x) end.
  apply (fwp_mono _ (fun ts v' => v' = v1 /\ 0 <= ts < 2 ^ 32)).
  2: { destruct (ts0 =? 0); [apply fwp_dword; [done|lia|done]|apply fwp_ret; split; [done|lia]]. }
  intros ts v2 [-> Hts]. apply fwp_bind, fwp_word; [done|lia|]. intros nrsv _. destruct (nrsv =? 0); [by apply Hno|].
  eapply fwp_mono; [|apply (set_boundaries_ok v1); try done; cbn; lia].
  intros r v3 (Hl & Hr & Hp). split_and!; [|done|done]. eapply loaded_trans; [|exact Hl]. by apply loaded_set.
Qed.

Lemma mount_volume_ok v : drv (fatfs v) = 0 -> sector (win (fatfs v)) -> fwp mount_volume (mounts v) v.
Proof using.
  intros Hd Hs. unfold mount_volume. apply fwp_bind. eapply fwp_mono; [|by apply find_volume_ok]. intros [fmt bsect] v1 [Hl _].
  destruct (fmt =? 3); [apply fwp_ret; split_and!; [done|by right; left|done]|].
  destruct (negb _); [apply fwp_ret; split_and!; [done|by right; right|done]|].
  eapply fwp_mono; [|apply read_bpb_ok; [by rewrite (lo_drv _ _ Hl)|apply Hl]]. intros r v2 (Hl2 & Hr & Hp).
  split_and!; [by eapply loaded_trans|done|done].
Qed.

(** ** Programs on the module's variables *)

Definition gwp {A} (p : G (DK := DK) A) (Q : A -> fsys (DK := DK) -> Prop) (s : fsys (DK := DK)) : Prop :=
  match p s with Some (a, s') => Q a s' | None => False end.

Lemma gwp_ret {A} (a : A) Q s : Q a s -> gwp (mret a) Q s.
Proof using. done. Qed.

Lemma gwp_bind {A B} (p : G (DK := DK) A) (k : A -> G (DK := DK) B) Q s : gwp p (fun a s' => gwp (k a) Q s') s -> gwp (p ≫= k) Q s.
Proof using. unfold gwp, mbind, G_bind. by destruct (p s) as [[a s']|]. Qed.

Lemma gwp_mono {A} (p : G (DK := DK) A) (Q Q' : A -> fsys (DK := DK) -> Prop) s : (forall a s', Q a s' -> Q' a s') -> gwp p Q s -> gwp p Q' s.
Proof using. unfold gwp. destruct (p s) as [[a s']|]; [eauto|done]. Qed.

Definition with_volume (s : fsys (DK := DK)) v : fsys (DK := DK) := mkSys v (registered s) (Fsid s) (CurrVol s).

Lemma gwp_vol {A} (p : F (DK := DK) A) (Q : A -> fsys (DK := DK) -> Prop) s :
  fwp p (fun a v => Q a (with_volume s v)) (volume s) -> gwp (on_vol p) Q s.
Proof using. unfold gwp, on_vol, fwp. by destruct (p (volume s)) as [[a v]|]. Qed.

Lemma gwp_run {A} (p : G (DK := DK) A) Q s : gwp p Q s -> exists a s', p s = Some (a, s') /\ Q a s'.
Proof using. unfold gwp. destruct (p s) as [[a s']|]; [eauto|done]. Qed.

(** A string in memory: there is a terminator. *)
Definition c_path (path : list Z) : Prop := exists l r, path = l ++ 0 :: r /\ 0 ∉ l.

Lemma drive_number_ok s path :
  c_path path -> gwp (drive_number path) (fun r s' => s' = s /\ (r.1 = CurrVol s /\ r.2 = path \/ 0 <= r.1 <= 9 /\ r.2 = drop 2 path)) s.
Proof using.
  intros (l & r & -> & Hl). unfold drive_number, gwp, mbind, G_bind, sys_get, on_vol, char_at.
  destruct s as [v reg fid cv]. cbn [volume registered Fsid CurrVol]. destruct l as [|c l]; cbn [app lookup list_lookup].
  - change (u32 (0 - 48) <=? 9) with false. cbn match. by split; [|left].
  - cbn [mret F_ret]. destruct (Z.leb_spec (u32 (c - 48)) 9) as [H9|H9]; [|by split; [|left]].
    pose proof (wrap_range 32 (c - 48) ltac:(lia)).
    destruct l as [|c' l]; cbn [app lookup list_lookup]; cbn [mret F_ret].
    + change (0 =? 58) with false. by split; [|left].
    + destruct (c' =? 58); (split; [done|]); [right|by left]. cbn [fst snd]; split; [lia|done].
Qed.

(** What a mount leaves: a clean window over no sector, a fresh number, and, for a
    volume within its bounds, a table that is well-formed. *)
Record mounted_now (s s' : fsys (DK := DK)) : Prop := {
  mo_params : parameters (fatfs (volume s'));
  mo_window : winsect (fatfs (volume s')) = 0 /\ wflag (fatfs (volume s')) = false /\ cdir (fatfs (volume s')) = 0;
  mo_id : fs_id (fatfs (volume s')) = u16 (Fsid s + 1) /\ Fsid s' = u16 (Fsid s + 1);
  mo_ok : within (fatfs (volume s')) -> table_ok (fatfs (volume s')) /\ win_ok (volume s')
}.

Lemma gwp_sys (f : fsys (DK := DK) -> fsys) (Q : unit -> fsys -> Prop) s : Q tt (f s) -> gwp (sys_mod f) Q s.
Proof using. done. Qed.

Lemma gwp_get (Q : fsys (DK := DK) -> fsys -> Prop) s : Q s s -> gwp sys_get Q s.
Proof using. done. Qed.

Lemma gwp_fs_mod f (Q : unit -> fsys (DK := DK) -> Prop) s :
  Q tt (with_volume s (mkVol (f (fatfs (volume s))) (dev (volume s)))) -> gwp (on_vol (fs_mod f)) Q s.
Proof using. done. Qed.

(** The part of [chk_mounted] that mounts. *)
Definition mount_result (s : fsys) (r : FRESULT) (s' : fsys) : Prop :=
  (forall t, content (dev (volume s')) t = content (dev (volume s)) t) /\
  (r = FR_OK -> mounted_now s s') /\
  (r = FR_OK \/ r = FR_NOT_READY \/ r = FR_WRITE_PROTECTED \/ r = FR_DISK_ERR \/ r = FR_NO_FILESYSTEM).

Lemma mount_now_ok (s : fsys) v1 :
  loaded (volume s) v1 -> drv (fatfs v1) = 0 -> parameters (fatfs v1) ->
  gwp (s ← sys_get;
       sys_mod (fun s0 => mkSys (volume s0) (registered s0) (u16 (Fsid s + 1)) (CurrVol s0));;
       on_vol (fs_mod (set_fs_id (u16 (Fsid s + 1))));;
       on_vol (fs_mod (set_winsect 0));;
       on_vol (fs_mod (set_wflag false));;
       on_vol (fs_mod (set_cdir 0));;
       mret FR_OK) (mount_result s) (with_volume s v1).
Proof using.
  intros Hl Hd Hp. apply gwp_bind, gwp_get. unfold with_volume. cbn [Fsid].
  apply gwp_bind, gwp_sys, gwp_bind, gwp_fs_mod, gwp_bind, gwp_fs_mod, gwp_bind, gwp_fs_mod, gwp_bind, gwp_fs_mod, gwp_ret.
  unfold with_volume. cbn [volume registered Fsid CurrVol fatfs dev]. split_and!; [apply Hl| |by left]. intros _.
  match goal with |- mounted_now _ (mkSys (mkVol ?f _) _ _ _) => set (f' := f) end.
  assert (Hp' : parameters f') by (destruct Hp; by split).
  split; cbn [volume fatfs dev Fsid]; [done|done|done|]. intros Hw. pose proof (mounted_table f' Hd Hp' Hw) as Ht. split; [done|].
  split; cbn [fatfs dev]; [apply Ht|apply Hl|by left|done|done].
Qed.

Lemma mount_drive_ok (s : fsys) protected :
  sector (win (fatfs (volume s))) -> gwp (mount_drive protected 0) (mount_result s) s.
Proof using.
  intros Hs. unfold mount_drive. apply gwp_bind, gwp_fs_mod, gwp_bind, gwp_fs_mod. unfold with_volume. cbn [volume registered Fsid CurrVol fatfs dev].
  apply gwp_bind, gwp_vol. cbn [volume]. apply fwp_dev. intros stat d Hi. cbn [fatfs dev] in *.
  assert (Hc : forall t, content d t = content (dev (volume s)) t).
  { intros t. replace d with (d_initialize 0 (dev (volume s))).2 by (by rewrite Hi). apply initialize_keeps. }
  unfold with_volume. cbn [volume registered Fsid CurrVol].
  set (v1 := mkVol (set_drv 0 (set_fs_type 0 (fatfs (volume s)))) d).
  destruct (negb _); [apply gwp_ret; split_and!; [done|done|by right; left]|].
  destruct (protected stat); [apply gwp_ret; split_and!; [done|done|by right; right; left]|].
  apply gwp_bind, gwp_vol. cbn [volume]. eapply fwp_mono; [|by apply mount_volume_ok].
  intros r v2 (Hl & Hr & Hp). unfold with_volume. cbn [volume registered Fsid CurrVol].
  pose proof (lo_content _ _ Hl) as Hc2. case_decide as Hd.
  - eapply gwp_mono; [|apply (mount_now_ok (mkSys v1 (registered s) (Fsid s) (CurrVol s)) v2 Hl); [by rewrite (lo_drv _ _ Hl)|by apply Hp]].
    intros r' s' (H1 & H2 & H3). split_and!; [intros t; rewrite H1; apply Hc| |done].
    intros Hr'. destruct (H2 Hr') as [M1 M2 M3 M4]. by split.
  - apply gwp_ret. split_and!; [intros t; cbn [volume]; rewrite Hc2; apply Hc|done|].
    destruct Hr as [|[-> | ->]]; [done|by right; right; right; left|by right; right; right; right].
Qed.


End FatMountProofs.
