(* ===== verification/FatName.v ===== *)
(** * Names: [create_name] of fatfs/ff.c

    One component of a path becomes the eleven bytes of a directory entry and a
    byte of flags.  Paths are the bytes behind a pointer, with their terminator. *)

From S2P Require Import Prelude Diskio FatVol.

(** ** Characters *)

Definition IsUpper (c : Z) : bool := (65 <=? c) && (c <=? 90).
Definition IsLower (c : Z) : bool := (97 <=? c) && (c <=? 122).

(** The two bytes of a character of code page 932. *)
Definition IsDBCS1 (c : Z) : bool := (129 <=? u8 c) && (u8 c <=? 159) || (224 <=? u8 c) && (u8 c <=? 252).
Definition IsDBCS2 (c : Z) : bool := (64 <=? u8 c) && (u8 c <=? 126) || (128 <=? u8 c) && (u8 c <=? 252).

Definition DDE : Z := 229.
Definition NDDE : Z := 5.

Definition NS : nat := 11.
Definition NS_LAST : Z := 4.
Definition NS_BODY : Z := 8.
Definition NS_EXT : Z := 16.
Definition NS_DOT : Z := 32.

(** A slash or a backslash. *)
Definition is_sep (c : Z) : bool := (c =? 47) || (c =? 92).

(** A double quote, the characters * + , :;<=>?[]| and DEL, which no short name has. *)
Definition illegal : list Z := [34; 42; 43; 44; 58; 59; 60; 61; 62; 63; 91; 93; 124; 127].

(** ** Making a name *)

Fixpoint skip_seps (p : list Z) : list Z :=
  match p with c :: p' => if is_sep c then skip_seps p' else p | [] => [] end.

(** The dots of "." and "..", and the character behind them. *)
Fixpoint dot_loop (p : list Z) (si i : Z) (sfn : list Z) : option (Z * list Z * list Z) :=
  match p with
  | [] => None
  | c :: p =>
      let si := si + 1 in
      if negb (c =? 46) || (3 <=? si) then Some (c, p, sfn) else dot_loop p si (i + 1) (<[Z.to_nat i := c]> sfn)
  end.

(** The buffer and, unless the name is refused, the character that ended it, the
    path behind, and the counters. *)
Fixpoint name_loop (p : list Z) (i ni b : Z) (sfn : list Z) : option (list Z * option (Z * list Z * Z * Z * Z)) :=
  match p with
  | [] => None
  | c :: p =>
      if (c <=? 32) || is_sep c then Some (sfn, Some (c, p, i, ni, b))
      else if (c =? 46) || (ni <=? i) then
        if negb (ni =? 8) || negb (c =? 46) then Some (sfn, None) else name_loop p 8 11 (u8 (Z.shiftl b 2)) sfn
      else
        let b := if 128 <=? c then Z.lor b 3 else b in
        if IsDBCS1 c then
          match p with
          | [] => None
          | d :: p =>
              if negb (IsDBCS2 d) || (ni - 1 <=? i) then Some (sfn, None)
              else name_loop p (i + 2) ni b (<[Z.to_nat (i + 1) := d]> (<[Z.to_nat i := c]> sfn))
          end
        else if negb (chk_chr illegal c =? 0) then Some (sfn, None)
        else if IsUpper c then name_loop p (i + 1) ni (Z.lor b 2) (<[Z.to_nat i := c]> sfn)
        else if IsLower c then name_loop p (i + 1) ni (Z.lor b 1) (<[Z.to_nat i := c - 32]> sfn)
        else name_loop p (i + 1) ni b (<[Z.to_nat i := c]> sfn)
  end.

(** The status byte: whether the name is the last one, and the case of its parts. *)
Definition name_status (c ni b : Z) : Z :=
  let s := if c <=? 32 then NS_LAST else 0 in
  let b := if ni =? 8 then u8 (Z.shiftl b 2) else b in
  let s := if Z.land b 3 =? 1 then Z.lor s NS_EXT else s in
  if Z.land b 12 =? 4 then Z.lor s NS_BODY else s.

(** The result, the buffer [fn] and the path behind the component; [None] is a
    read behind the end of the path. *)
Definition create_name (fn path : list Z) : option (FRESULT * list Z * list Z) :=
  let p := skip_seps path in
  let sfn := mem_set 32 11 ++ drop 11 fn in
  match p with
  | [] => None
  | c0 :: _ =>
      if c0 =? 46 then
        match dot_loop p 0 0 sfn with
        | None => None
        | Some (c, rest, sfn) =>
            if negb (is_sep c) && (32 <? c) then Some (FR_INVALID_NAME, sfn, path)
            else Some (FR_OK, <[NS := if c <=? 32 then Z.lor NS_LAST NS_DOT else NS_DOT]> sfn, rest)
        end
      else
        match name_loop p 0 8 0 sfn with
        | None => None
        | Some (sfn, None) => Some (FR_INVALID_NAME, sfn, path)
        | Some (sfn, Some (c, rest, i, ni, b)) =>
            if i =? 0 then Some (FR_INVALID_NAME, sfn, rest)
            else
              let sfn := if byte_at sfn 0 =? DDE then <[0%nat := NDDE]> sfn else sfn in
              Some (FR_OK, <[NS := name_status c ni b]> sfn, rest)
        end
  end.

(** ** Printing a name *)

(** A part of the name up to its padding. *)
Fixpoint name_part (l : list Z) : list Z :=
  match l with [] => [] | c :: l => if c =? 32 then [] else c :: name_part l end.

(** The eleven bytes of an entry as text, without the terminator. *)
Definition name_text (nm : list Z) : list Z :=
  ((fun c => if c =? NDDE then DDE else c) <$> name_part (take 8 nm)) ++
  (if byte_at nm 8 =? 32 then [] else 46 :: name_part (take 3 (drop 8 nm))).

(** ** What names are *)

(** A character of one byte, and the byte stored for it. *)
Definition single (c : Z) : Prop :=
  32 < c < 256 /\ c <> 46 /\ is_sep c = false /\ chk_chr illegal c = 0 /\ IsDBCS1 c = false.
#[export] Instance single_dec c : Decision (single c).
Proof. unfold single. apply _. Defined.

Definition up (c : Z) : Z := if IsLower c then c - 32 else c.

(** A text of whole characters and the bytes stored for it. *)
Inductive spelled : list Z -> list Z -> Prop :=
| spelled_nil : spelled [] []
| spelled_one c t s : single c -> spelled t s -> spelled (c :: t) (up c :: s)
| spelled_two c d t s : is_byte c -> is_byte d -> IsDBCS1 c = true -> IsDBCS2 d = true -> spelled t s -> spelled (c :: d :: t) (c :: d :: s).

Definition ender (c : Z) : Prop := c <= 32 \/ is_sep c = true.

Definition pad (n : nat) (l : list Z) : list Z := l ++ replicate (n - length l) 32.

(** The entry bytes of a body and an extension. *)
Definition short (b e : list Z) : list Z := pad 8 (match b with [] => [] | c :: b' => (if c =? DDE then NDDE else c) :: b' end) ++ pad 3 e.

(** The first component of [path] is a name of at most eight characters with an
    extension of at most three; it is stored as [nm], [c] ends it, and [rest] is
    behind. *)
Definition component (path nm : list Z) (c : Z) (rest : list Z) : Prop :=
  exists seps body b tail ext e,
    path = seps ++ body ++ tail ++ c :: rest /\ Forall (fun c => is_sep c = true) seps /\ spelled body b /\ spelled ext e /\
    (tail = [] /\ ext = [] \/ tail = 46 :: ext) /\ (1 <= length body <= 8)%nat /\ (length ext <= 3)%nat /\ ender c /\ nm = short b e.

Lemma spelled_length t s : spelled t s -> length s = length t.
Proof. induction 1; cbn [length]; congruence. Qed.

Lemma insert_cpy l i x : (i < length l)%nat -> <[i := x]> l = mem_cpy l (Z.of_nat i) [x].
Proof. intros Hi. rewrite insert_take_drop by done. unfold mem_cpy. rewrite Nat2Z.id. cbn [length app]. by rewrite Nat.add_1_r. Qed.

Lemma cpy_cpy l i s1 s2 :
  0 <= i -> (Z.to_nat i + length s1 <= length l)%nat -> mem_cpy (mem_cpy l i s1) (i + zlen s1) s2 = mem_cpy l i (s1 ++ s2).
Proof.
  intros Hi Hl. unfold mem_cpy, zlen. replace (Z.to_nat (i + Z.of_nat (length s1))) with (Z.to_nat i + length s1)%nat by lia.
  set (n := Z.to_nat i) in *. assert (Ht : (n + length s1)%nat = length (take n l ++ s1)) by (rewrite length_app, length_take; lia).
  rewrite (app_assoc (take n l) s1), Ht, take_app_length, <- drop_drop, drop_app_length, drop_drop, <- !app_assoc, <- Ht, (length_app s1 s2).
  do 3 f_equal. by rewrite Nat.add_assoc.
Qed.

Lemma cpy_0 l i : mem_cpy l i [] = l.
Proof. unfold mem_cpy. cbn [app length]. rewrite Nat.add_0_r. apply take_drop. Qed.

Lemma cpy_size l i s : (Z.to_nat i + length s <= length l)%nat -> length (mem_cpy l i s) = length l.
Proof. intros H. unfold mem_cpy. rewrite !length_app, length_take, length_drop. lia. Qed.

Lemma name_loop_one c p i ni b sfn :
  single c -> 0 <= i < ni -> ni <= 11 -> length sfn = 12%nat ->
  exists b', name_loop (c :: p) i ni b sfn = name_loop p (i + 1) ni b' (mem_cpy sfn i [up c]).
Proof.
  intros (Hc & Hd & Hs & Hl & H1) Hi Hni Hlen. cbn [name_loop]. rewrite Hs, Hl, H1. zbool. cbn [orb negb].
  assert (Hin : forall x, <[Z.to_nat i := x]> sfn = mem_cpy sfn i [x]) by (intros x; rewrite insert_cpy by lia; by rewrite Z2Nat.id by lia).
  unfold up. destruct (IsUpper c) eqn:Eu; [|by destruct (IsLower c); rewrite Hin; eauto].
  replace (IsLower c) with false; [rewrite Hin; eauto|]. symmetry. unfold IsUpper, IsLower in *. apply andb_true_iff in Eu as [E1 E2]. apply Z.leb_le in E1, E2. zbool. done.
Qed.

Lemma dbcs1_plain c : is_byte c -> IsDBCS1 c = true -> 129 <= c /\ is_sep c = false.
Proof.
  unfold is_byte, IsDBCS1, is_sep. intros Hc H. rewrite (wrap_small 8 c) in H by (unfold fits; lia).
  assert (Hge : 129 <= c) by (apply orb_true_iff in H as [H|H]; apply andb_true_iff in H as [H _]; apply Z.leb_le in H; lia).
  split; [done|]. zbool. done.
Qed.

Lemma name_loop_two c d p i ni b sfn :
  is_byte c -> is_byte d -> IsDBCS1 c = true -> IsDBCS2 d = true -> 0 <= i -> i + 2 <= ni -> ni <= 11 -> length sfn = 12%nat ->
  exists b', name_loop (c :: d :: p) i ni b sfn = name_loop p (i + 2) ni b' (mem_cpy sfn i [c; d]).
Proof.
  intros Hc Hd H1 H2 Hi Hni H11 Hlen. destruct (dbcs1_plain c Hc H1) as [Hge Hs]. cbn [name_loop]. rewrite Hs, H1, H2. zbool. cbn [orb negb].
  eexists. f_equal. rewrite !insert_cpy by (rewrite ?length_insert; lia). rewrite !Z2Nat.id by lia.
  change (i + 1) with (i + zlen [c]). rewrite cpy_cpy by (cbn [length]; lia). done.
Qed.

(** Whole characters are copied. *)
Lemma name_loop_text t s p i ni b sfn :
  spelled t s -> 0 <= i -> i + zlen t <= ni -> ni <= 11 -> length sfn = 12%nat ->
  exists b', name_loop (t ++ p) i ni b sfn = name_loop p (i + zlen t) ni b' (mem_cpy sfn i s).
Proof.
  intros Ht. revert i b sfn. induction Ht as [|c t s Hc Ht IH|c d t s Hc Hd H1 H2 Ht IH]; intros i b sfn Hi Hle Hni Hlen.
  - exists b. rewrite cpy_0. cbn [app]. unfold zlen. cbn [length]. by rewrite Z.add_0_r.
  - unfold zlen in Hle. cbn [length] in Hle. cbn [app]. destruct (name_loop_one c (t ++ p) i ni b sfn) as [b1 ->]; try done; [lia|].
    destruct (IH (i + 1) b1 (mem_cpy sfn i [up c])) as [b2 ->]; [lia|unfold zlen; lia|done|rewrite cpy_size; cbn [length]; lia|].
    exists b2. f_equal; [unfold zlen; cbn [length]; lia|]. change (i + 1) with (i + zlen [up c]). rewrite cpy_cpy by (cbn [length]; lia). done.
  - unfold zlen in Hle. cbn [length] in Hle. cbn [app]. destruct (name_loop_two c d (t ++ p) i ni b sfn) as [b1 ->]; try done; [lia|].
    destruct (IH (i + 2) b1 (mem_cpy sfn i [c; d])) as [b2 ->]; [lia|unfold zlen; lia|done|rewrite cpy_size; cbn [length]; lia|].
    exists b2. f_equal; [unfold zlen; cbn [length]; lia|]. change (i + 2) with (i + zlen [c; d]). rewrite cpy_cpy by (cbn [length]; lia). done.
Qed.

Lemma name_loop_end c p i ni b sfn : ender c -> name_loop (c :: p) i ni b sfn = Some (sfn, Some (c, p, i, ni, b)).
Proof.
  intros Hc. cbn [name_loop]. replace ((c <=? 32) || is_sep c) with true; [done|]. symmetry. apply orb_true_iff.
  destruct Hc; [left; by apply Z.leb_le|by right].
Qed.

Lemma name_loop_dot p i ni b sfn :
  name_loop (46 :: p) i ni b sfn = if ni =? 8 then name_loop p 8 11 (u8 (Z.shiftl b 2)) sfn else Some (sfn, None).
Proof. cbn [name_loop]. change ((46 <=? 32) || is_sep 46) with false. cbn [Z.eqb orb negb]. rewrite orb_false_r. by destruct (ni =? 8). Qed.

Lemma ender_dec c : {ender c} + {~ ender c}.
Proof. unfold ender. destruct (decide (c <= 32)); [left; by left|]. destruct (is_sep c); [left; by right|right; intros [?|?]; done]. Qed.

(** A name that is accepted is whole characters up to a dot or the end. *)
Lemma name_loop_split p i ni b sfn sfn' res :
  Forall is_byte p -> 0 <= i <= ni -> ni <= 11 -> length sfn = 12%nat -> name_loop p i ni b sfn = Some (sfn', Some res) ->
  exists t s c p' b', p = t ++ c :: p' /\ spelled t s /\ i + zlen t <= ni /\ (ender c \/ c = 46) /\
    name_loop (c :: p') (i + zlen t) ni b' (mem_cpy sfn i s) = Some (sfn', Some res).
Proof.
  remember (length p) as n eqn:Hn. revert p Hn i b sfn. induction n as [n IH] using lt_wf_ind. intros p -> i b sfn Hp Hi Hni Hlen Hrun.
  destruct p as [|c p]; [done|]. pose proof (Forall_inv Hp) as Hc. pose proof (Forall_inv_tail Hp) as Hp'.
  assert (Hstop : ender c \/ c = 46 -> exists t s c' p' b', c :: p = t ++ c' :: p' /\ spelled t s /\ i + zlen t <= ni /\ (ender c' \/ c' = 46) /\
    name_loop (c' :: p') (i + zlen t) ni b' (mem_cpy sfn i s) = Some (sfn', Some res)).
  { intros Hend. exists [], [], c, p, b. unfold zlen. cbn [length app]. rewrite cpy_0, Z.add_0_r. split_and!; [done|constructor|lia|done|done]. }
  destruct (ender_dec c) as [He|He]; [by apply Hstop; left|]. destruct (Z.eq_dec c 46) as [E46|E46]; [by apply Hstop; right|]. clear Hstop.
  assert (Hpl : 32 < c /\ is_sep c = false).
  { unfold ender in He. destruct (is_sep c); [destruct He; by right|]. split; [|done]. destruct (decide (c <= 32)); [destruct He; by left|lia]. }
  destruct Hpl as [H32 Hsep]. pose proof Hrun as Hr. cbn [name_loop] in Hr. rewrite Hsep in Hr.
  replace (c <=? 32) with false in Hr by (symmetry; apply Z.leb_gt; lia). replace (c =? 46) with false in Hr by (symmetry; by apply Z.eqb_neq).
  cbn [orb] in Hr. destruct (Z.leb_spec ni i) as [|Hlt]; [by rewrite orb_true_r in Hr|].
  destruct (IsDBCS1 c) eqn:E1.
  - destruct p as [|d p]; [done|]. destruct (IsDBCS2 d) eqn:E2; [|done]. destruct (Z.leb_spec (ni - 1) i) as [|Hlt2]; [done|]. clear Hr.
    destruct (name_loop_two c d p i ni b sfn) as [b1 E]; try done; [by apply Forall_cons in Hp' as [? _]|lia|lia|]. rewrite E in Hrun.
    apply (IH (length p)) in Hrun as (t & s & c' & p' & b' & -> & Ht & Hle & Hend & Hrun); [|cbn [length]; lia|done|by apply Forall_cons in Hp' as [_ ?]|lia|done|rewrite cpy_size; cbn [length]; lia].
    pose proof (spelled_length _ _ Ht) as Hs. exists (c :: d :: t), (c :: d :: s), c', p', b'. split_and!; [done| | |done|].
    + constructor; try done. by apply Forall_cons in Hp' as [? _].
    + unfold zlen in *. cbn [length]. lia.
    + change (i + 2) with (i + zlen [c; d]) in Hrun. rewrite cpy_cpy in Hrun by (cbn [length]; lia).
      rewrite <- Hrun. f_equal. unfold zlen. cbn [length]. lia.
  - destruct (chk_chr illegal c =? 0) eqn:E0; [|done]. clear Hr. apply Z.eqb_eq in E0. unfold is_byte in Hc.
    assert (Hsg : single c) by (split_and!; done || lia).
    destruct (name_loop_one c p i ni b sfn) as [b1 E]; try done; [lia|]. rewrite E in Hrun.
    apply (IH (length p)) in Hrun as (t & s & c' & p' & b' & -> & Ht & Hle & Hend & Hrun); [|cbn [length]; lia|done|done|lia|done|rewrite cpy_size; cbn [length]; lia].
    pose proof (spelled_length _ _ Ht) as Hs. exists (c :: t), (up c :: s), c', p', b'. split_and!; [done|by constructor| |done|].
    + unfold zlen in *. cbn [length]. lia.
    + change (i + 1) with (i + zlen [up c]) in Hrun. rewrite cpy_cpy in Hrun by (cbn [length]; lia).
      rewrite <- Hrun. f_equal. unfold zlen. cbn [length]. lia.
Qed.

(** ** The buffer *)

Lemma pad_length n l : (length l <= n)%nat -> length (pad n l) = n.
Proof. intros H. unfold pad. rewrite length_app, length_replicate. lia. Qed.

Lemma short_length b e : (length b <= 8)%nat -> (length e <= 3)%nat -> length (short b e) = 11%nat.
Proof. intros Hb He. unfold short. rewrite length_app, !pad_length; [done|done|]. by destruct b. Qed.

(** Where the parts are copied. *)
Lemma buffer_parts x b e :
  (length b <= 8)%nat -> (length e <= 3)%nat -> mem_cpy (mem_cpy (replicate 11 32 ++ [x]) 0 b) 8 e = (pad 8 b ++ pad 3 e) ++ [x].
Proof.
  intros Hb He. assert (E1 : mem_cpy (replicate 11 32 ++ [x]) 0 b = pad 8 b ++ replicate 3 32 ++ [x]).
  { unfold mem_cpy, pad. change (Z.to_nat 0) with 0%nat. rewrite take_0. cbn [app Nat.add]. rewrite <- app_assoc. f_equal.
    rewrite drop_app_le by (rewrite length_replicate; lia). rewrite drop_replicate. rewrite (app_assoc (replicate (8 - _) _)), <- replicate_add.
    do 2 f_equal. lia. }
  rewrite E1. unfold mem_cpy. change (Z.to_nat 8) with 8%nat. rewrite take_app_le, take_ge by (rewrite pad_length; lia).
  rewrite drop_app_ge by (rewrite pad_length; lia). rewrite pad_length by done. replace (8 + length e - 8)%nat with (length e) by lia.
  rewrite drop_app_le by (rewrite length_replicate; lia). rewrite drop_replicate. unfold pad. by rewrite <- !app_assoc. 
Qed.

(** The first byte, and the status. *)
Lemma buffer_ends b e x st :
  b <> [] -> (length b <= 8)%nat -> (length e <= 3)%nat ->
  (let sfn := (pad 8 b ++ pad 3 e) ++ [x] in <[NS := st]> (if byte_at sfn 0 =? DDE then <[0%nat := NDDE]> sfn else sfn)) = short b e ++ [st].
Proof.
  intros Hne Hb He. destruct b as [|c b]; [done|]. cbn zeta. change (byte_at _ 0) with c.
  assert (E : (if c =? DDE then <[0%nat := NDDE]> ((pad 8 (c :: b) ++ pad 3 e) ++ [x]) else (pad 8 (c :: b) ++ pad 3 e) ++ [x]) = short (c :: b) e ++ [x]).
  { unfold short. by destruct (c =? DDE). }
  rewrite E. rewrite insert_app_r_alt by (rewrite short_length; done). rewrite short_length by done. done.
Qed.

(** ** Accepting names *)

Lemma name_status_bits c ni b : Z.testbit (name_status c ni b) 2 = (c <=? 32) /\ Z.testbit (name_status c ni b) 5 = false.
Proof.
  unfold name_status. destruct (c <=? 32), (ni =? 8);
    match goal with |- context [Z.land ?x 3 =? 1] => destruct (Z.land x 3 =? 1), (Z.land x 12 =? 4) end; by split.
Qed.

Lemma skip_seps_app seps p : Forall (fun c => is_sep c = true) seps -> skip_seps (seps ++ p) = skip_seps p.
Proof. induction 1 as [|c seps Hc _ IH]; [done|]. cbn [app skip_seps]. by rewrite Hc. Qed.

Lemma skip_seps_split p :
  exists seps, p = seps ++ skip_seps p /\ Forall (fun c => is_sep c = true) seps /\ match skip_seps p with c :: _ => is_sep c = false | [] => True end.
Proof.
  induction p as [|c p (seps & E & Hs & Hh)]; [by exists []|]. cbn [skip_seps]. destruct (is_sep c) eqn:Ec.
  - exists (c :: seps). split_and!; [cbn [app]; by f_equal|by constructor|done].
  - exists []. by split_and!.
Qed.

Lemma last_byte (fn : list Z) : length fn = 12%nat -> exists x, mem_set 32 11 ++ drop 11 fn = replicate 11 32 ++ [x].
Proof.
  intros Hl. assert (Hd : length (drop 11 fn) = 1%nat) by (rewrite length_drop; lia).
  destruct (drop 11 fn) as [|x [|]]; try done. by exists x.
Qed.

Lemma spelled_head t s : spelled t s -> t <> [] -> exists c t', t = c :: t' /\ is_sep c = false /\ c <> 46.
Proof.
  intros Ht Hne. destruct Ht as [|c t s (H1 & H2 & H3 & _) _|c d t s Hc _ H1 _ _]; [done|by exists c, t|].
  destruct (dbcs1_plain c Hc H1). exists c, (d :: t). split_and!; [done|done|lia].
Qed.

Definition dots (path nm : list Z) (c : Z) (rest : list Z) : Prop :=
  exists seps d, path = seps ++ d ++ c :: rest /\ Forall (fun c => is_sep c = true) seps /\ (d = [46] \/ d = [46; 46]) /\ ender c /\ nm = pad 11 d.

Lemma create_name_component fn path nm c rest :
  length fn = 12%nat -> component path nm c rest ->
  exists st, create_name fn path = Some (FR_OK, nm ++ [st], rest) /\ Z.testbit st 2 = (c <=? 32) /\ Z.testbit st 5 = false.
Proof.
  intros Hfn (seps & body & b & tail & ext & e & -> & Hseps & Hb & He & Htail & Hbl & Hel & Hc & ->).
  destruct (last_byte fn Hfn) as [x Ex]. pose proof (spelled_length _ _ Hb) as Lb. pose proof (spelled_length _ _ He) as Le.
  destruct (spelled_head _ _ Hb) as (c0 & body' & E0 & Hs0 & H46); [by intros ->; cbn in Hbl; lia|].
  assert (Hne : b <> []) by (intros ->; cbn in Lb; lia).
  assert (Hloop : exists b', name_loop (body ++ tail ++ c :: rest) 0 8 0 (replicate 11 32 ++ [x]) =
    Some ((pad 8 b ++ pad 3 e) ++ [x], Some (c, rest, (match tail with [] => zlen body | _ => 8 + zlen ext end), (match tail with [] => 8 | _ => 11 end), b'))).
  { destruct (name_loop_text body b (tail ++ c :: rest) 0 8 0 (replicate 11 32 ++ [x]) Hb) as [b1 ->]; [lia|unfold zlen; lia|lia|done|].
    destruct Htail as [[-> ->]| ->]; cbn [app].
    - rewrite name_loop_end by done. inversion He; subst. eexists. rewrite <- buffer_parts by (cbn [length]; lia). rewrite cpy_0. repeat f_equal.
    - rewrite name_loop_dot. cbn [Z.eqb Pos.eqb].
      destruct (name_loop_text ext e (c :: rest) 8 11 (u8 (Z.shiftl b1 2)) (mem_cpy (replicate 11 32 ++ [x]) 0 b) He) as [b2 ->];
        [lia|unfold zlen; lia|lia|rewrite cpy_size; cbn; lia|].
      rewrite name_loop_end by done. eexists. rewrite buffer_parts by lia. done. }
  destruct Hloop as [b' Hloop]. exists (name_status c (match tail with [] => 8 | _ => 11 end) b').
  split; [|apply name_status_bits]. unfold create_name. rewrite skip_seps_app by done. rewrite Ex.
  assert (Hsk : skip_seps (body ++ tail ++ c :: rest) = body ++ tail ++ c :: rest) by (rewrite E0; cbn [app skip_seps]; by rewrite Hs0).
  rewrite Hsk. clear Hsk. subst body. cbn [app] in *. rewrite (proj2 (Z.eqb_neq _ _) H46), Hloop. replace (_ =? 0) with false.
  - by rewrite (buffer_ends b e x) by (done || lia).
  - symmetry. apply Z.eqb_neq. unfold zlen. destruct tail; lia.
Qed.

Lemma create_name_dots fn path nm c rest :
  length fn = 12%nat -> dots path nm c rest ->
  exists st, create_name fn path = Some (FR_OK, nm ++ [st], rest) /\ Z.testbit st 2 = (c <=? 32) /\ Z.testbit st 5 = true.
Proof.
  intros Hfn (seps & d & -> & Hseps & Hd & Hc & ->). destruct (last_byte fn Hfn) as [x Ex].
  assert (Hne : (negb (is_sep c) && (32 <? c)) = false).
  { destruct Hc as [Hc|Hc]; [|by rewrite Hc]. apply andb_false_iff. right. by apply Z.ltb_ge. }
  assert (H46 : c =? 46 = false).
  { apply Z.eqb_neq. intros ->. by destruct Hc. }
  exists (if c <=? 32 then Z.lor NS_LAST NS_DOT else NS_DOT). split; [|by destruct (c <=? 32)].
  unfold create_name. rewrite skip_seps_app by done. rewrite Ex.
  assert (Hskip : skip_seps (d ++ c :: rest) = d ++ c :: rest) by (by destruct Hd as [-> | ->]).
  assert (Hloop : dot_loop (d ++ c :: rest) 0 0 (replicate 11 32 ++ [x]) = Some (c, rest, pad 11 d ++ [x])).
  { destruct Hd as [-> | ->]; cbn [app dot_loop]; rewrite H46; reflexivity. }
  rewrite Hskip, Hloop, Hne. destruct Hd as [-> | ->]; reflexivity.
Qed.

Lemma dot_loop_some p si i sfn c rest sfn' :
  0 <= si -> dot_loop p si i sfn = Some (c, rest, sfn') -> c <> 46 ->
  exists k, p = replicate k 46 ++ c :: rest /\ si + Z.of_nat k <= Z.max si 2.
Proof.
  revert si i sfn. induction p as [|c' p IH]; intros si i sfn Hsi H Hc; [done|]. cbn [dot_loop] in H.
  destruct (Z.eqb_spec c' 46) as [-> |Hne]; cbn [negb orb] in H.
  - destruct (Z.leb_spec 3 (si + 1)); [congruence|]. apply IH in H as (k & -> & Hk); [|lia|done]. exists (S k). split; [done|lia].
  - injection H as -> -> _. exists 0%nat. split; [done|lia].
Qed.

Lemma create_name_accepts fn path r fn' rest :
  length fn = 12%nat -> Forall is_byte path -> create_name fn path = Some (r, fn', rest) -> r = FR_INVALID_NAME \/
  r = FR_OK /\ exists nm c, component path nm c rest \/ dots path nm c rest.
Proof.
  intros Hfn Hp. destruct (last_byte fn Hfn) as [x Ex]. destruct (skip_seps_split path) as (seps & Epath & Hseps & Hh).
  unfold create_name. rewrite Ex. destruct (skip_seps path) as [|c0 p] eqn:Ep; [done|].
  destruct (Z.eqb_spec c0 46) as [-> |H46].
  - destruct (dot_loop _ _ _ _) as [[[c rest'] sfn]|] eqn:Ed; [|done]. destruct (negb (is_sep c) && (32 <? c)) eqn:Ec; intros [= <- _ <-]; [by left|].
    assert (He : ender c).
    { apply andb_false_iff in Ec as [Ec|Ec]; [right; by apply negb_false_iff|left; by apply Z.ltb_ge]. }
    apply dot_loop_some in Ed as (k & E & Hk); [|done|by intros ->; destruct He].
    right. split; [done|]. destruct k as [|k]; [cbn [replicate app] in E; injection E as <- _; by destruct He|].
    assert (k = 0 \/ k = 1)%nat as Hk01 by lia. exists (pad 11 (replicate (S k) 46)), c. right. exists seps, (replicate (S k) 46).
    split_and!; [by rewrite Epath, E|done| |done|done]. destruct Hk01 as [-> | ->]; auto.
  - destruct (name_loop _ _ _ _ _) as [[sfn [[[[[c rest'] i] ni] b]|]]|] eqn:El; [|intros [= <- _ _]; by left|done].
    assert (Hb0 : Forall is_byte (c0 :: p)) by (rewrite Epath in Hp; by apply Forall_app in Hp as [_ ?]).
    pose proof El as Hsplit. apply name_loop_split in Hsplit as (t & s & c1 & p1 & b1 & Et & Hts & Hle & Hend & Hrun); [|done|lia|lia|done].
    unfold zlen in Hle. destruct (ender_dec c1) as [He|He].
    + rewrite name_loop_end in Hrun by done. injection Hrun as _ <- <- <- _ _.
      destruct (Z.eqb_spec (0 + zlen t) 0) as [E0|E0]; intros [= <- _ <-]; [by left|]. right. split; [done|].
      exists (short s []), c1. left. exists seps, t, s, [], [], []. split_and!; [by rewrite Epath, Et|done|done|apply spelled_nil|by left| | | |done|done].
      * unfold zlen in E0. lia.
      * lia.
      * cbn [length]. lia.
    + destruct Hend as [| ->]; [done|]. rewrite name_loop_dot in Hrun. cbn [Z.eqb Pos.eqb] in Hrun.
      pose proof (spelled_length _ _ Hts) as Hl. assert (Hb1 : Forall is_byte p1) by (rewrite Et in Hb0; apply Forall_app in Hb0 as [_ Hb0]; by apply Forall_cons in Hb0 as [_ ?]).
      apply name_loop_split in Hrun as (t2 & s2 & c2 & p2 & b2 & -> & Hts2 & Hle2 & Hend2 & Hrun); [|done|lia|lia|rewrite cpy_size; cbn; lia].
      unfold zlen in Hle2. destruct (ender_dec c2) as [He2|He2]; [|destruct Hend2 as [| ->]; [done|by rewrite name_loop_dot in Hrun]].
      rewrite name_loop_end in Hrun by done. injection Hrun as _ <- <- <- _ _.
      destruct (Z.eqb_spec (8 + zlen t2) 0) as [E0|E0]; intros [= <- _ <-]; [by left|]. right. split; [done|].
      exists (short s s2), c2. left. exists seps, t, s, (46 :: t2), t2, s2. split_and!; [by rewrite Epath, Et|done|done|done|by right| |lia|lia|done|done].
      destruct t as [|y t]; [|cbn [length]; lia]. cbn [app] in Et. injection Et as -> _. by destruct H46.
Qed.

(** A terminated path is never read behind its end. *)
Lemma name_loop_ends p i ni b sfn : 0 ∈ p -> name_loop p i ni b sfn <> None.
Proof.
  remember (length p) as n eqn:Hn. revert p Hn i ni b sfn. induction n as [n IH] using lt_wf_ind. intros p -> i ni b sfn H0.
  destruct p as [|c p]; [by apply elem_of_nil in H0|]. cbn [name_loop]. destruct ((c <=? 32) || is_sep c) eqn:Ee; [done|].
  assert (Hp : 0 ∈ p).
  { apply elem_of_cons in H0 as [<- |]; [|done]. done. }
  assert (IHp : forall i ni b sfn, name_loop p i ni b sfn <> None) by (intros; apply (IH (length p)); cbn [length]; done || lia).
  destruct ((c =? 46) || (ni <=? i)); [by case_match; [|apply IHp]|]. destruct (IsDBCS1 c).
  - destruct p as [|d p]; [by apply elem_of_nil in Hp|]. destruct (negb (IsDBCS2 d) || (ni - 1 <=? i)) eqn:Ed; [done|].
    apply (IH (length p)); [cbn [length]; lia|done|]. by apply elem_of_cons in Hp as [<- |].
  - case_match; [done|]. case_match; [apply IHp|]. case_match; apply IHp.
Qed.

Lemma dot_loop_ends p si i sfn : 0 ∈ p -> dot_loop p si i sfn <> None.
Proof.
  revert si i sfn. induction p as [|c p IH]; intros si i sfn H0; [by apply elem_of_nil in H0|]. cbn [dot_loop].
  apply elem_of_cons in H0 as [<- |H0]; [done|]. case_match; [done|by apply IH].
Qed.

Lemma create_name_ends fn path : 0 ∈ path -> create_name fn path <> None.
Proof.
  intros H0. unfold create_name. destruct (skip_seps_split path) as (seps & Epath & Hseps & _).
  assert (Hp : 0 ∈ skip_seps path).
  { rewrite Epath in H0. apply elem_of_app in H0 as [H0|]; [|done]. by apply (proj1 (Forall_forall _ _) Hseps) in H0. }
  destruct (skip_seps path) as [|c0 p]; [by apply elem_of_nil in Hp|].
  pose proof (fun si i sfn => dot_loop_ends _ si i sfn Hp) as Hd. pose proof (fun i ni b sfn => name_loop_ends _ i ni b sfn Hp) as Hl.
  destruct (c0 =? 46).
  - specialize (Hd 0 0 (mem_set 32 11 ++ drop 11 fn)). destruct (dot_loop _ _ _ _) as [[[c rest] sfn]|]; [|done]. by case_match.
  - specialize (Hl 0 8 0 (mem_set 32 11 ++ drop 11 fn)). destruct (name_loop _ _ _ _ _) as [[sfn [[[[[c rest] i] ni] b]|]]|]; [|done|done]. by case_match.
Qed.

(** ** Printing and reading again *)

Lemma single_up c : single c -> single (up c) /\ up (up c) = up c.
Proof.
  intros Hc. unfold up. destruct (IsLower c) eqn:El; [|by rewrite El]. unfold IsLower in El. apply andb_true_iff in El as [E1 E2].
  apply Z.leb_le in E1, E2. split; [|unfold IsLower; zbool; done].
  assert (Hin : Forall (fun x => single x) (seqZ 65 26)).
  { by apply (bool_decide_unpack _); vm_compute. }
  apply (proj1 (Forall_forall _ _) Hin), elem_of_seqZ. lia.
Qed.

Lemma spelled_stored t s : spelled t s -> spelled s s.
Proof.
  induction 1 as [|c t s Hc Ht IH|]; [constructor| |by constructor]. destruct (single_up c Hc) as [Hu E].
  rewrite <- E at 1. rewrite E. pose proof (spelled_one (up c) s s Hu IH) as H. by rewrite E in H.
Qed.

Lemma spelled_chars t s : spelled t s -> Forall (fun c => 32 < c) s.
Proof.
  induction 1 as [|c t s Hc Ht IH|c d t s Hc Hd H1 H2 Ht IH]; [done|constructor; [|done]|].
  - by destruct (single_up c Hc) as [[[? _] _] _].
  - destruct (dbcs1_plain c Hc H1). constructor; [lia|]. constructor; [|done]. unfold IsDBCS2, is_byte in *. rewrite (wrap_small 8 d) in H2 by (unfold fits; lia).
    apply orb_true_iff in H2 as [H2|H2]; apply andb_true_iff in H2 as [H2 _]; apply Z.leb_le in H2; lia.
Qed.

(** The bytes of a name. *)
Lemma up_byte c : single c -> is_byte (up c).
Proof. intros Hc. destruct (single_up c Hc) as [[Hu _] _]. unfold is_byte. lia. Qed.

Lemma spelled_bytes t s : spelled t s -> Forall is_byte s.
Proof.
  induction 1 as [|c t s Hc _ IH|c d t s Hc Hd _ _ _ IH]; [done| |].
  - constructor; [by apply up_byte|done].
  - constructor; [done|]. by constructor.
Qed.

(** A name has bytes and does not begin like a blank entry. *)
Lemma component_name path nm c rest : component path nm c rest -> Forall is_byte nm /\ byte_at nm 0 <> 0 /\ byte_at nm 0 <> DDE.
Proof.
  intros (seps & body & b & tail & ext & e & _ & _ & Hs & Hse & _ & Hb & _ & _ & ->). pose proof (spelled_length _ _ Hs) as Hl. pose proof (spelled_bytes _ _ Hs) as Hby.
  destruct b as [|x b]; [cbn in Hl; lia|]. apply Forall_cons in Hby as [Hx Hby]. pose proof (spelled_chars _ _ Hs) as Hc. apply Forall_cons in Hc as [Hc _].
  split; [|unfold short, pad; cbn [app]; change (byte_at ((if x =? DDE then NDDE else x) :: ?l) 0) with (if x =? DDE then NDDE else x); destruct (Z.eqb_spec x DDE) as [->|]; [done|split; [lia|done]]].
  unfold short, pad. repeat (apply Forall_app; split); [|by apply Forall_replicate|by eapply spelled_bytes|by apply Forall_replicate].
  constructor; [by case_match|done].
Qed.

Lemma name_part_pad n l : Forall (fun c => c <> 32) l -> name_part (pad n l) = l.
Proof.
  unfold pad. generalize (n - length l)%nat as k. intros k Hl. induction Hl as [|c l Hc Hl IH]; cbn [app name_part].
  - by destruct k.
  - rewrite IH. by rewrite (proj2 (Z.eqb_neq _ _)).
Qed.

Lemma name_text_short b e t t' :
  spelled t b -> spelled t' e -> b <> [] -> (length b <= 8)%nat -> (length e <= 3)%nat ->
  name_text (short b e) = b ++ match e with [] => [] | _ => 46 :: e end.
Proof.
  intros Hb He Hne Hbl Hel. pose proof (spelled_chars _ _ Hb) as Cb. pose proof (spelled_chars _ _ He) as Ce.
  destruct b as [|c b]; [done|]. set (b' := (if c =? DDE then NDDE else c) :: b).
  assert (Hb' : Forall (fun x => x <> 32) b').
  { apply Forall_cons in Cb as [Cc Cb]. unfold b', NDDE. constructor; [destruct (c =? DDE); lia|]. eapply Forall_impl; [exact Cb|]. cbn. lia. }
  assert (Lb : length b' = length (c :: b)) by done. unfold name_text, short. fold b'. f_equal.
  - rewrite take_app_le, take_ge by (rewrite pad_length; lia). rewrite name_part_pad by done. unfold b'. rewrite fmap_cons. f_equal.
    + apply Forall_cons in Cb as [Cc _]. destruct (Z.eqb_spec c DDE) as [-> |]; [done|]. unfold NDDE. by rewrite (proj2 (Z.eqb_neq _ _)) by lia.
    + apply Forall_cons in Cb as [_ Cb]. rewrite <- (list_fmap_id b) at 2. apply list_fmap_ext. intros i x Hx.
      apply list_elem_of_lookup_2 in Hx. assert (32 < x) by (by apply (proj1 (Forall_forall _ _) Cb)). cbn. unfold NDDE. by rewrite (proj2 (Z.eqb_neq _ _)) by lia.
  - rewrite drop_app_ge by (rewrite pad_length; lia). rewrite pad_length by lia. rewrite Nat.sub_diag, drop_0.
    rewrite take_ge by (rewrite pad_length; lia). unfold byte_at. change (Z.to_nat 8) with 8%nat.
    rewrite app_nth2 by (rewrite pad_length; lia). rewrite pad_length by lia. cbn [Nat.sub]. rewrite name_part_pad.
    + destruct e as [|c' e]; [done|]. cbn [pad app nth]. apply Forall_cons in Ce as [Ce _]. by rewrite (proj2 (Z.eqb_neq _ _)) by lia.
    + eapply Forall_impl; [exact Ce|]. cbn. lia.
Qed.

Lemma name_text_component path nm c rest : component path nm c rest -> component (name_text nm ++ [0]) nm 0 [].
Proof.
  intros (seps & body & b & tail & ext & e & _ & _ & Hb & He & _ & Hbl & Hel & _ & ->).
  pose proof (spelled_length _ _ Hb) as Lb. pose proof (spelled_length _ _ He) as Le.
  exists [], b, b, (match e with [] => [] | _ => 46 :: e end), e, e.
  split_and!; [|done|by eapply spelled_stored|by eapply spelled_stored| |lia|lia|lia|by left|done].
  - rewrite (name_text_short b e body ext) by (done || lia || by intros ->; cbn in Lb; lia). cbn [app]. by rewrite <- app_assoc.
  - destruct e; auto.
Qed.

(** (C40) A component of a path is accepted exactly when it is "." or "..", or at most
    eight whole characters with an extension of at most three, none of them among
    the illegal ones; it is stored in capitals and padded, the status byte says
    whether it was the last, and the path moves behind the character that ended it.
    A path with its terminator is never read beyond it. *)
Theorem create_name_spec fn path :
  length fn = 12%nat -> Forall is_byte path ->
  (forall nm c rest, component path nm c rest ->
    exists st, create_name fn path = Some (FR_OK, nm ++ [st], rest) /\ Z.testbit st 2 = (c <=? 32) /\ Z.testbit st 5 = false) /\
  (forall nm c rest, dots path nm c rest ->
    exists st, create_name fn path = Some (FR_OK, nm ++ [st], rest) /\ Z.testbit st 2 = (c <=? 32) /\ Z.testbit st 5 = true) /\
  ((forall nm c rest, ~ component path nm c rest) -> (forall nm c rest, ~ dots path nm c rest) -> 0 ∈ path ->
    exists fn' rest, create_name fn path = Some (FR_INVALID_NAME, fn', rest)) /\
  (0 ∈ path -> create_name fn path <> None).
Proof.
  intros Hfn Hp. split_and!; [by intros; eapply create_name_component|by intros; eapply create_name_dots| |by apply create_name_ends].
  intros Hc Hd H0. pose proof (create_name_ends fn path H0) as He. destruct (create_name fn path) as [[[r fn'] rest]|] eqn:E; [|done].
  destruct (create_name_accepts _ _ _ _ _ Hfn Hp E) as [-> |(_ & nm & c & [H|H])]; [by exists fn', rest|by destruct (Hc nm c rest)|by destruct (Hd nm c rest)].
Qed.

(** What [create_name] stored for a component, [get_fileinfo] prints as a text
    that [create_name] stores as the same eleven bytes, and as the last component. *)
Theorem short_name_roundtrip fn fn' fn2 path rest :
  length fn = 12%nat -> length fn2 = 12%nat -> Forall is_byte path ->
  create_name fn path = Some (FR_OK, fn', rest) -> Z.testbit (byte_at fn' 11) 5 = false ->
  exists st, create_name fn2 (name_text (take 11 fn') ++ [0]) = Some (FR_OK, take 11 fn' ++ [st], []) /\ Z.testbit st 2 = true.
Proof.
  intros Hfn Hfn2 Hp Hrun Hdot. destruct (create_name_accepts _ _ _ _ _ Hfn Hp Hrun) as [|(_ & nm & c & [Hc|Hd])]; [done| |].
  - destruct (create_name_component fn path nm c rest Hfn Hc) as (st & E & _). rewrite Hrun in E. injection E as ->.
    assert (Hl : length nm = 11%nat).
    { destruct Hc as (?&?&?&?&?&?&_&_&Hb&He&_&?&?&_&->). apply spelled_length in Hb, He. apply short_length; lia. }
    rewrite take_app_le, take_ge by lia. destruct (create_name_component fn2 _ _ _ _ Hfn2 (name_text_component _ _ _ _ Hc)) as (st2 & E2 & E3 & _).
    by exists st2.
  - destruct (create_name_dots fn path nm c rest Hfn Hd) as (st & E & _ & E5). rewrite Hrun in E. injection E as ->.
    assert (Hl : length nm = 11%nat) by (destruct Hd as (?&d&_&_&[-> | ->]&_&->); reflexivity).
    unfold byte_at in Hdot. change (Z.to_nat 11) with 11%nat in Hdot. rewrite app_nth2, Hl in Hdot by lia. cbn [nth Nat.sub] in Hdot. congruence.
Qed.

(** The bytes of "/Wave1.txt/x" with their terminator. *)
Definition wave_path : list Z := [47; 87; 97; 118; 101; 49; 46; 116; 120; 116; 47; 120; 0].

Lemma create_name_spec_witness :
  exists st, create_name (replicate 12 0) wave_path = Some (FR_OK, [87; 65; 86; 69; 49; 32; 32; 32; 84; 88; 84; st], [120; 0]) /\ Z.testbit st 2 = false.
Proof.
  destruct (create_name_spec (replicate 12 0) wave_path) as (Hok & _); [done|by apply (bool_decide_unpack _); vm_compute|].
  destruct (Hok [87; 65; 86; 69; 49; 32; 32; 32; 84; 88; 84] 47 [120; 0]) as (st & E & E2 & _); [|by exists st].
  exists [47], [87; 97; 118; 101; 49], [87; 65; 86; 69; 49], [46; 116; 120; 116], [116; 120; 116], [84; 88; 84].
  split_and!; [done|by repeat constructor| | |by right|cbn; lia|cbn; lia|cbn; lia|by right|done].
  - by repeat (apply (spelled_one 87) || apply (spelled_one 97) || apply (spelled_one 118) || apply (spelled_one 101) || apply (spelled_one 49) || apply spelled_nil || (split_and!; done)).
  - by repeat (apply (spelled_one 116) || apply (spelled_one 120) || apply spelled_nil || (split_and!; done)).
Defined.

Lemma short_name_roundtrip_witness :
  exists st, create_name (replicate 12 1) ([87; 65; 86; 69; 49; 46; 84; 88; 84] ++ [0]) = Some (FR_OK, [87; 65; 86; 69; 49; 32; 32; 32; 84; 88; 84; st], []) /\ Z.testbit st 2 = true.
Proof.
  refine (short_name_roundtrip (replicate 12 0) [87; 65; 86; 69; 49; 32; 32; 32; 84; 88; 84; 16] (replicate 12 1) wave_path [120; 0] _ _ _ _ _);
    [done|done|by apply (bool_decide_unpack _); vm_compute|by vm_compute|done].
Defined.
