(* ===== verification/FatDir.v ===== *)
(** * Directories: [dir_sdi] to [follow_path] of fatfs/ff.c

    A directory object walks over the entries of a directory, in the fixed area of
    the root or along a chain of clusters, and a path leads from one to the next. *)

From S2P Require Import Prelude Diskio FatVol FatBytes FatWin FatTable FatChain FatMount FatName.

(** Offsets of the members of an entry. *)
Definition DIR_Name : Z := 0.
Definition DIR_Attr : Z := 11.
Definition DIR_CrtTime : Z := 14.
Definition DIR_FstClusHI : Z := 20.
Definition DIR_WrtTime : Z := 22.
Definition DIR_WrtDate : Z := 24.
Definition DIR_FstClusLO : Z := 26.
Definition DIR_FileSize : Z := 28.
Definition SZ_DIR : Z := 32.

Definition AM_RDO : Z := 1.
Definition AM_HID : Z := 2.
Definition AM_SYS : Z := 4.
Definition AM_VOL : Z := 8.
Definition AM_DIR : Z := 16.
Definition AM_ARC : Z := 32.

(** [d_fs] is whether [fs] points to the object of the volume; [dir] points into
    the window or is null; [fn] is the buffer the name is in. *)
Record DIR := mkDir {
  d_fs : bool;
  d_id : Z;
  d_index : Z;
  d_sclust : Z;
  d_clust : Z;
  d_sect : Z;
  d_dir : option Z;
  d_fn : list Z
}.

Definition set_index (x : Z) (d : DIR) : DIR := mkDir (d_fs d) (d_id d) x (d_sclust d) (d_clust d) (d_sect d) (d_dir d) (d_fn d).
Definition set_sclust (x : Z) (d : DIR) : DIR := mkDir (d_fs d) (d_id d) (d_index d) x (d_clust d) (d_sect d) (d_dir d) (d_fn d).
Definition set_clust (x : Z) (d : DIR) : DIR := mkDir (d_fs d) (d_id d) (d_index d) (d_sclust d) x (d_sect d) (d_dir d) (d_fn d).
Definition set_sect (x : Z) (d : DIR) : DIR := mkDir (d_fs d) (d_id d) (d_index d) (d_sclust d) (d_clust d) x (d_dir d) (d_fn d).
Definition set_ptr (x : option Z) (d : DIR) : DIR := mkDir (d_fs d) (d_id d) (d_index d) (d_sclust d) (d_clust d) (d_sect d) x (d_fn d).
Definition set_fn (x : list Z) (d : DIR) : DIR := mkDir (d_fs d) (d_id d) (d_index d) (d_sclust d) (d_clust d) (d_sect d) (d_dir d) x.
Definition set_id (x : Z) (d : DIR) : DIR := mkDir (d_fs d) x (d_index d) (d_sclust d) (d_clust d) (d_sect d) (d_dir d) (d_fn d).
Definition set_fs (x : bool) (d : DIR) : DIR := mkDir x (d_id d) (d_index d) (d_sclust d) (d_clust d) (d_sect d) (d_dir d) (d_fn d).

(** The status byte behind the name. *)
Definition fn_status (d : DIR) : Z := byte_at (d_fn d) 11.

(** The entries of a sector. *)
Definition PER_SECTOR : Z := SS / SZ_DIR.

Section FatDir.

Context {DK : Type} {HD : Disk DK}.

(** Members of the entry a pointer shows; a null pointer is not followed. *)
Definition at_ptr {A} (p : option Z) (f : Z -> F (DK := DK) A) : F (DK := DK) A := match p with Some o => f o | None => stuck end.
Definition ent_bytes (p : option Z) (o n : Z) : F (DK := DK) (list Z) := at_ptr p (fun d => win_bytes (d + o) n).
Definition ent_byte (p : option Z) (o : Z) : F (DK := DK) Z := at_ptr p (fun d => win_at (d + o)).
Definition ent_put (p : option Z) (o : Z) (l : list Z) : F (DK := DK) unit := at_ptr p (fun d => win_put (d + o) l).

Definition LD_CLUST (p : option Z) : F (DK := DK) Z :=
  hi ← ent_bytes p DIR_FstClusHI 2;
  lo ← ent_bytes p DIR_FstClusLO 2;
  mret (Z.lor (u32 (Z.shiftl (LD_WORD hi) 16)) (LD_WORD lo)).
Definition ST_CLUST (p : option Z) (cl : Z) : F (DK := DK) unit :=
  ent_put p DIR_FstClusLO (ST_WORD (u16 cl));;
  ent_put p DIR_FstClusHI (ST_WORD (u16 (Z.shiftr (u32 cl) 16))).

(** ** Seeking *)

(** Along the chain to the cluster that holds the entry; the index in it. *)
Fixpoint sdi_loop (fuel : nat) (ic clst idx : Z) : F (DK := DK) (FRESULT + Z * Z) :=
  if ic <=? idx then
    match fuel with
    | O => stuck
    | S n =>
        f ← fs_get;
        clst ← get_fat clst;
        if clst =? DISK_ERROR then mret (inl FR_DISK_ERR)
        else if (clst <? 2) || (n_fatent f <=? clst) then mret (inl FR_INT_ERR)
        else sdi_loop n ic clst (u16 (idx - ic))
    end
  else mret (inr (clst, idx)).

Definition entry_ptr (idx : Z) : option Z := Some (idx mod PER_SECTOR * SZ_DIR).

Definition dir_sdi (dj : DIR) (idx : Z) : F (DK := DK) (FRESULT * DIR) :=
  f ← fs_get;
  let dj := set_index idx dj in
  let clst := d_sclust dj in
  if (clst =? 1) || (n_fatent f <=? clst) then mret (FR_INT_ERR, dj)
  else
    let clst := if (clst =? 0) && (fs_type f =? FS_FAT32) then dirbase f else clst in
    if clst =? 0 then
      let dj := set_clust clst dj in
      if n_rootdir f <=? idx then mret (FR_INT_ERR, dj)
      else mret (FR_OK, set_ptr (entry_ptr idx) (set_sect (u32 (dirbase f + idx / PER_SECTOR)) dj))
    else
      let ic := u16 (PER_SECTOR * csize f) in
      r ← sdi_loop (S (Z.to_nat idx)) ic clst idx;
      match r with
      | inl e => mret (e, dj)
      | inr (clst, idx) =>
          f ← fs_get;
          mret (FR_OK, set_ptr (entry_ptr idx) (set_sect (u32 (clust2sect f clst + idx / PER_SECTOR)) (set_clust clst dj)))
      end.

(** The sectors of the window's cluster are blanked one after the other. *)
Fixpoint blank_sectors (n : nat) : F (DK := DK) FRESULT :=
  match n with
  | O => mret FR_OK
  | S n =>
      fs_mod (set_wflag true);;
      r ← move_window 0;
      if decide (r = FR_OK) then fs_mod (fun f => set_winsect (u32 (winsect f + 1)) f);; blank_sectors n else mret FR_DISK_ERR
  end.

Definition blank_cluster (clst : Z) : F (DK := DK) FRESULT :=
  r ← move_window 0;
  if decide (r = FR_OK) then
    fs_mod (set_win (mem_set 0 SS));;
    fs_mod (fun f => set_winsect (clust2sect f clst) f);;
    f ← fs_get;
    r ← blank_sectors (Z.to_nat (csize f));
    if decide (r = FR_OK) then fs_mod (fun g => set_winsect (u32 (winsect g - csize f)) g);; mret FR_OK else mret r
  else mret FR_DISK_ERR.

(** The cluster behind the last one of a directory, made when [stretch] is set. *)
Definition next_cluster (dj : DIR) (stretch : bool) : F (DK := DK) (FRESULT + Z) :=
  clst ← get_fat (d_clust dj);
  if clst <=? 1 then mret (inl FR_INT_ERR)
  else if clst =? DISK_ERROR then mret (inl FR_DISK_ERR)
  else
    f ← fs_get;
    if n_fatent f <=? clst then
      if negb stretch then mret (inl FR_NO_FILE)
      else
        clst ← create_chain (d_clust dj);
        if clst =? 0 then mret (inl FR_DENIED)
        else if clst =? 1 then mret (inl FR_INT_ERR)
        else if clst =? DISK_ERROR then mret (inl FR_DISK_ERR)
        else r ← blank_cluster clst; mret (if decide (r = FR_OK) then inr clst else inl r)
    else mret (inr clst).

Definition dir_next (dj : DIR) (stretch : bool) : F (DK := DK) (FRESULT * DIR) :=
  let i := u16 (d_index dj + 1) in
  if (i =? 0) || (d_sect dj =? 0) then mret (FR_NO_FILE, dj)
  else
    let there (dj : DIR) := mret (FR_OK, set_ptr (entry_ptr i) (set_index i dj)) in
    if i mod PER_SECTOR =? 0 then
      let dj := set_sect (u32 (d_sect dj + 1)) dj in
      f ← fs_get;
      if d_clust dj =? 0 then
        if n_rootdir f <=? i then mret (FR_NO_FILE, dj) else there dj
      else if Z.land (i / PER_SECTOR) (csize f - 1) =? 0 then
        r ← next_cluster dj stretch;
        match r with
        | inl e => mret (e, dj)
        | inr clst => f ← fs_get; there (set_sect (clust2sect f clst) (set_clust clst dj))
        end
      else there dj
    else there dj.

(** ** Searching *)

(** The index of an entry has 16 bits. *)
Definition dir_turns : nat := Z.to_nat 65536.

Fixpoint find_loop (fuel : nat) (dj : DIR) : F (DK := DK) (FRESULT * DIR) :=
  match fuel with
  | O => stuck
  | S n =>
      r ← move_window (d_sect dj);
      if decide (r = FR_OK) then
        c ← ent_byte (d_dir dj) DIR_Name;
        if c =? 0 then mret (FR_NO_FILE, dj)
        else
          a ← ent_byte (d_dir dj) DIR_Attr;
          nm ← ent_bytes (d_dir dj) DIR_Name 11;
          if (Z.land a AM_VOL =? 0) && (mem_cmp nm (d_fn dj) 11 =? 0) then mret (FR_OK, dj)
          else
            '(r, dj) ← dir_next dj false;
            if decide (r = FR_OK) then find_loop n dj else mret (r, dj)
      else mret (r, dj)
  end.

Definition dir_find (dj : DIR) : F (DK := DK) (FRESULT * DIR) :=
  '(r, dj) ← dir_sdi dj 0;
  if decide (r = FR_OK) then find_loop dir_turns dj else mret (r, dj).

Fixpoint read_loop (fuel : nat) (res : FRESULT) (dj : DIR) : F (DK := DK) (FRESULT * DIR) :=
  if d_sect dj =? 0 then mret (res, dj)
  else
    match fuel with
    | O => stuck
    | S n =>
        r ← move_window (d_sect dj);
        if decide (r = FR_OK) then
          c ← ent_byte (d_dir dj) DIR_Name;
          if c =? 0 then mret (FR_NO_FILE, dj)
          else
            a ← ent_byte (d_dir dj) DIR_Attr;
            if negb (c =? DDE) && (Z.land a AM_VOL =? 0) then mret (FR_OK, dj)
            else
              '(r, dj) ← dir_next dj false;
              if decide (r = FR_OK) then read_loop n FR_OK dj else mret (r, dj)
        else mret (r, dj)
    end.

Definition dir_read (dj : DIR) : F (DK := DK) (FRESULT * DIR) :=
  '(r, dj) ← read_loop dir_turns FR_NO_FILE dj;
  mret (r, if decide (r = FR_OK) then dj else set_sect 0 dj).

(** ** Making and removing entries *)

(** The first entry that is deleted or was never used. *)
Fixpoint blank_loop (fuel : nat) (dj : DIR) : F (DK := DK) (FRESULT * DIR) :=
  match fuel with
  | O => stuck
  | S n =>
      r ← move_window (d_sect dj);
      if decide (r = FR_OK) then
        c ← ent_byte (d_dir dj) DIR_Name;
        if (c =? DDE) || (c =? 0) then mret (FR_OK, dj)
        else
          '(r, dj) ← dir_next dj true;
          if decide (r = FR_OK) then blank_loop n dj else mret (r, dj)
      else mret (r, dj)
  end.

Definition dir_register (dj : DIR) : F (DK := DK) (FRESULT * DIR) :=
  '(r, dj) ← dir_sdi dj 0;
  '(r, dj) ← (if decide (r = FR_OK) then blank_loop dir_turns dj else mret (r, dj));
  if decide (r = FR_OK) then
    r ← move_window (d_sect dj);
    if decide (r = FR_OK) then
      ent_put (d_dir dj) 0 (mem_set 0 SZ_DIR);;
      ent_put (d_dir dj) 0 (take 11 (d_fn dj));;
      fs_mod (set_wflag true);;
      mret (r, dj)
    else mret (r, dj)
  else mret (r, dj).

Definition dir_remove (dj : DIR) : F (DK := DK) (FRESULT * DIR) :=
  '(r, dj) ← dir_sdi dj (d_index dj);
  if decide (r = FR_OK) then
    r ← move_window (d_sect dj);
    if decide (r = FR_OK) then
      ent_put (d_dir dj) 0 [DDE];;
      fs_mod (set_wflag true);;
      mret (r, dj)
    else mret (r, dj)
  else mret (r, dj).

(** ** What an entry says *)

(** [fi_name] is the text with its terminator. *)
Record FILINFO := mkInfo { fi_size : Z; fi_date : Z; fi_time : Z; fi_attrib : Z; fi_name : list Z }.

Definition get_fileinfo (dj : DIR) (fno : FILINFO) : F (DK := DK) FILINFO :=
  if d_sect dj =? 0 then mret (mkInfo (fi_size fno) (fi_date fno) (fi_time fno) (fi_attrib fno) [0])
  else
    nm ← ent_bytes (d_dir dj) 0 11;
    a ← ent_byte (d_dir dj) DIR_Attr;
    sz ← ent_bytes (d_dir dj) DIR_FileSize 4;
    wd ← ent_bytes (d_dir dj) DIR_WrtDate 2;
    wt ← ent_bytes (d_dir dj) DIR_WrtTime 2;
    mret (mkInfo (LD_DWORD sz) (LD_WORD wd) (LD_WORD wt) a (name_text nm ++ [0])).

(** ** Following a path *)

Definition from_name (dj : DIR) (path : list Z) : F (DK := DK) (FRESULT * DIR * list Z) :=
  match create_name (d_fn dj) path with
  | Some (r, fn, rest) => mret (r, set_fn fn dj, rest)
  | None => stuck
  end.

Fixpoint path_loop (fuel : nat) (dj : DIR) (path : list Z) : F (DK := DK) (FRESULT * DIR) :=
  match fuel with
  | O => stuck
  | S n =>
      '(res, dj, path) ← from_name dj path;
      if decide (res = FR_OK) then
        '(res, dj) ← dir_find dj;
        let ns := fn_status dj in
        let last := negb (Z.land ns NS_LAST =? 0) in
        if decide (res = FR_OK) then
          if last then mret (FR_OK, dj)
          else
            a ← ent_byte (d_dir dj) DIR_Attr;
            if Z.land a AM_DIR =? 0 then mret (FR_NO_PATH, dj)
            else cl ← LD_CLUST (d_dir dj); path_loop n (set_sclust cl dj) path
        else if decide (res = FR_NO_FILE) then
          if negb (Z.land ns NS_DOT =? 0) then
            let dj := set_ptr None (set_sclust 0 dj) in
            if last then mret (FR_OK, dj) else path_loop n dj path
          else mret (if last then FR_NO_FILE else FR_NO_PATH, dj)
        else mret (res, dj)
      else mret (res, dj)
  end.

Definition follow_path (dj : DIR) (path : list Z) : F (DK := DK) (FRESULT * DIR) :=
  f ← fs_get;
  c ← char_at path 0;
  let '(path, dj) := if is_sep c then (drop 1 path, set_sclust 0 dj) else (path, set_sclust (cdir f) dj) in
  c ← char_at path 0;
  if c <? 32 then
    '(res, dj) ← dir_sdi dj 0;
    mret (res, set_ptr None dj)
  else path_loop (length path) dj path.

End FatDir.
