(* ===== verification/FatFile.v ===== *)
(** * Files: the functions of fatfs/ff.c on a file object

    Opening, reading, writing, flushing, closing, moving the pointer and cutting,
    in the tiny configuration, where data goes through the window. *)

From S2P Require Import Prelude Diskio FatVol FatBytes FatWin FatTable FatChain FatMount FatName FatDir.

Definition FA_READ : Z := 1.
Definition FA_WRITE : Z := 2.
Definition FA_CREATE_NEW : Z := 4.
Definition FA_CREATE_ALWAYS : Z := 8.
Definition FA_OPEN_ALWAYS : Z := 16.
Definition FA__WRITTEN : Z := 32.
Definition FA__ERROR : Z := 128.

(** [f_fs] is whether [fs] points to the object of the volume. *)
Record FIL := mkFil {
  f_fs : bool;
  f_id : Z;
  f_flag : Z;
  f_ptr : Z;
  f_size : Z;
  f_sclust : Z;
  f_clust : Z;
  f_dsect : Z;
  f_dir_sect : Z;
  f_dir_ptr : option Z
}.

Definition put_fs (x : bool) (p : FIL) : FIL := mkFil x (f_id p) (f_flag p) (f_ptr p) (f_size p) (f_sclust p) (f_clust p) (f_dsect p) (f_dir_sect p) (f_dir_ptr p).
Definition put_flag (x : Z) (p : FIL) : FIL := mkFil (f_fs p) (f_id p) x (f_ptr p) (f_size p) (f_sclust p) (f_clust p) (f_dsect p) (f_dir_sect p) (f_dir_ptr p).
Definition put_ptr (x : Z) (p : FIL) : FIL := mkFil (f_fs p) (f_id p) (f_flag p) x (f_size p) (f_sclust p) (f_clust p) (f_dsect p) (f_dir_sect p) (f_dir_ptr p).
Definition put_size (x : Z) (p : FIL) : FIL := mkFil (f_fs p) (f_id p) (f_flag p) (f_ptr p) x (f_sclust p) (f_clust p) (f_dsect p) (f_dir_sect p) (f_dir_ptr p).
Definition put_sclust (x : Z) (p : FIL) : FIL := mkFil (f_fs p) (f_id p) (f_flag p) (f_ptr p) (f_size p) x (f_clust p) (f_dsect p) (f_dir_sect p) (f_dir_ptr p).
Definition put_clust (x : Z) (p : FIL) : FIL := mkFil (f_fs p) (f_id p) (f_flag p) (f_ptr p) (f_size p) (f_sclust p) x (f_dsect p) (f_dir_sect p) (f_dir_ptr p).
Definition put_dsect (x : Z) (p : FIL) : FIL := mkFil (f_fs p) (f_id p) (f_flag p) (f_ptr p) (f_size p) (f_sclust p) (f_clust p) x (f_dir_sect p) (f_dir_ptr p).

(** [fp->flag & m], [fp->flag |= m] and [fp->flag &= ~m]. *)
Definition flagged (m : Z) (p : FIL) : bool := negb (Z.land (f_flag p) m =? 0).
Definition raise_flag (m : Z) (p : FIL) : FIL := put_flag (Z.lor (f_flag p) m) p.
Definition clear_flag (m : Z) (p : FIL) : FIL := put_flag (Z.land (f_flag p) (255 - m)) p.

Definition get_fattime : Z :=
  Z.lor (Z.lor (Z.shiftl (2012 - 1980) 25) (Z.shiftl 1 21)) (Z.shiftl 1 16).

Section FatFile.

Context {DK : Type} {HD : Disk DK}.

(** The local buffer for names, before anything is written to it. *)
Variable sfn : list Z.

Definition ABORT {A} (x : A) (fp : FIL) : A * FIL := (x, raise_flag FA__ERROR fp).

(** The checks with which the functions on files begin. *)
Definition check_file (fp : FIL) (access : Z) : G (DK := DK) FRESULT :=
  r ← validate (f_fs fp) (f_id fp);
  mret (if decide (r = FR_OK) then
          if flagged FA__ERROR fp then FR_INT_ERR
          else if negb (access =? 0) && negb (flagged access fp) then FR_DENIED else FR_OK
        else r).

(** A directory object for the volume, with the local buffer. *)
Definition new_dir : DIR := mkDir true 0 0 0 0 0 None sfn.

(** ** Opening *)

(** The entry of a new file. *)
Definition fresh_entry (dir : option Z) : F (DK := DK) FRESULT :=
  ent_put dir DIR_CrtTime (ST_DWORD get_fattime);;
  ent_put dir DIR_Attr [0];;
  ent_put dir DIR_FileSize (ST_DWORD 0);;
  cl ← LD_CLUST dir;
  ST_CLUST dir 0;;
  fs_mod (set_wflag true);;
  if negb (cl =? 0) then
    f ← fs_get;
    res ← remove_chain cl;
    if decide (res = FR_OK) then
      fs_mod (set_last_clust (u32 (cl - 1)));;
      move_window (winsect f)
    else mret res
  else mret FR_OK.

(** Creating: the mode may become [FA_CREATE_ALWAYS]. *)
Definition open_creating (res : FRESULT) (dj : DIR) (mode : Z) : F (DK := DK) (FRESULT * DIR * Z) :=
  '(res, dj, mode) ←
    (if decide (res = FR_OK) then
       a ← ent_byte (d_dir dj) DIR_Attr;
       mret (if negb (Z.land a (Z.lor AM_RDO AM_DIR) =? 0) then FR_DENIED
             else if negb (Z.land mode FA_CREATE_NEW =? 0) then FR_EXIST else FR_OK, dj, mode)
     else
       '(res, dj) ← (if decide (res = FR_NO_FILE) then dir_register dj else mret (res, dj));
       mret (res, dj, Z.lor mode FA_CREATE_ALWAYS));
  if bool_decide (res = FR_OK) && negb (Z.land mode FA_CREATE_ALWAYS =? 0) then
    res ← fresh_entry (d_dir dj);
    mret (res, dj, mode)
  else mret (res, dj, mode).

Definition open_existing (res : FRESULT) (dj : DIR) (mode : Z) : F (DK := DK) FRESULT :=
  if decide (res = FR_OK) then
    a ← ent_byte (d_dir dj) DIR_Attr;
    mret (if negb (Z.land a AM_DIR =? 0) then FR_NO_FILE
          else if negb (Z.land mode FA_WRITE =? 0) && negb (Z.land a AM_RDO =? 0) then FR_DENIED else FR_OK)
  else mret res.

(** The file object of an entry that has been opened. *)
Definition opened (dj : DIR) (mode : Z) (fp : FIL) : F (DK := DK) FIL :=
  f ← fs_get;
  let mode := if negb (Z.land mode FA_CREATE_ALWAYS =? 0) then Z.lor mode FA__WRITTEN else mode in
  cl ← LD_CLUST (d_dir dj);
  sz ← ent_bytes (d_dir dj) DIR_FileSize 4;
  mret (mkFil true (fs_id f) mode 0 (LD_DWORD sz) cl (f_clust fp) 0 (winsect f) (d_dir dj)).

Definition f_open (fp : FIL) (path : list Z) (mode : Z) : G (DK := DK) (FRESULT * FIL) :=
  let fp := put_fs false fp in
  let mode := Z.land mode 31 in
  '(res, path) ← chk_mounted path (Z.land mode 254);
  on_vol (
    '(res, dj) ← (if decide (res = FR_OK) then follow_path new_dir path else mret (res, new_dir));
    let res := if decide (res = FR_OK) then match d_dir dj with None => FR_INVALID_NAME | Some _ => FR_OK end else res in
    '(res, dj, mode) ←
      (if negb (Z.land mode 28 =? 0) then open_creating res dj mode
       else res ← open_existing res dj mode; mret (res, dj, mode));
    if decide (res = FR_OK) then fp ← opened dj mode fp; mret (FR_OK, fp) else mret (res, fp)).

(** ** Reading *)

(** At the boundary of a cluster, the next one is taken. *)
Definition read_cluster (fp : FIL) : F (DK := DK) (FRESULT * FIL) :=
  clst ← (if f_ptr fp =? 0 then mret (f_sclust fp) else get_fat (f_clust fp));
  mret (if clst <? 2 then ABORT FR_INT_ERR fp
        else if clst =? DISK_ERROR then ABORT FR_DISK_ERR fp else (FR_OK, put_clust clst fp)).

(** Whole sectors go to the buffer; a dirty window has newer contents. *)
Definition read_sectors (sect cc : Z) : F (DK := DK) (DRESULT * list Z) :=
  f ← fs_get;
  '(r, l) ← on_dev (d_read (drv f) sect (u8 cc));
  f ← fs_get;
  let o := u32 (winsect f - sect) in
  mret (r, if bool_decide (r = RES_OK) && wflag f && (o <? cc) then mem_cpy l (o * SS) (win f) else l).

(** One round: the bytes stored, and how many of them count. *)
Definition read_round (fp : FIL) (btr : Z) : F (DK := DK) (FRESULT * FIL * list Z * Z) :=
  f ← fs_get;
  let rest (fp : FIL) :=
    let o := f_ptr fp mod SS in
    let rcnt := if btr <? SS - o then btr else SS - o in
    r ← move_window (f_dsect fp);
    if decide (r = FR_OK) then l ← win_bytes o rcnt; mret (FR_OK, fp, l, rcnt)
    else mret (ABORT FR_DISK_ERR fp, [], 0) in
  if f_ptr fp mod SS =? 0 then
    let csect := u8 (Z.land (f_ptr fp / SS) (csize f - 1)) in
    '(r, fp) ← (if csect =? 0 then read_cluster fp else mret (FR_OK, fp));
    if decide (r = FR_OK) then
      f ← fs_get;
      let sect := clust2sect f (f_clust fp) in
      if sect =? 0 then mret (ABORT FR_INT_ERR fp, [], 0)
      else
        let sect := u32 (sect + csect) in
        let cc := btr / SS in
        if negb (cc =? 0) then
          let cc := if csize f <? u32 (csect + cc) then csize f - csect else cc in
          '(r, l) ← read_sectors sect cc;
          if decide (r = RES_OK) then mret (FR_OK, fp, l, SS * cc) else mret (ABORT FR_DISK_ERR fp, l, 0)
        else rest (put_dsect sect fp)
    else mret (r, fp, [], 0)
  else rest fp.

(** The bytes stored in the buffer, and [*br]. *)
Fixpoint read_rounds (fuel : nat) (fp : FIL) (btr br : Z) (buff : list Z) : F (DK := DK) (FRESULT * FIL * list Z * Z) :=
  if btr =? 0 then mret (FR_OK, fp, buff, br)
  else
    match fuel with
    | O => stuck
    | S n =>
        '(r, fp, l, rcnt) ← read_round fp btr;
        if decide (r = FR_OK) then read_rounds n (put_ptr (u32 (f_ptr fp + rcnt)) fp) (u32 (btr - rcnt)) (u32 (br + rcnt)) (buff ++ l)
        else mret (r, fp, buff ++ l, br)
    end.

Definition f_read (fp : FIL) (btr : Z) : G (DK := DK) (FRESULT * FIL * list Z * Z) :=
  res ← check_file fp FA_READ;
  if decide (res = FR_OK) then
    let remain := u32 (f_size fp - f_ptr fp) in
    let btr := if remain <? btr then remain else btr in
    on_vol (read_rounds (S (Z.to_nat btr)) fp btr 0 [])
  else mret (res, fp, [], 0).

(** ** Writing *)

(** At the boundary of a cluster; [None] when the disk is full. *)
Definition write_cluster (fp : FIL) : F (DK := DK) (option FRESULT * FIL) :=
  '(clst, fp) ← (if f_ptr fp =? 0 then
      if f_sclust fp =? 0 then c ← create_chain 0; mret (c, put_sclust c fp) else mret (f_sclust fp, fp)
    else c ← create_chain (f_clust fp); mret (c, fp));
  mret (if clst =? 0 then (None, fp)
        else if clst =? 1 then ABORT (Some FR_INT_ERR) fp
        else if clst =? DISK_ERROR then ABORT (Some FR_DISK_ERR) fp
        else (Some FR_OK, put_clust clst fp)).

(** The bytes cut into [n] sectors. *)
Fixpoint blocks (n : nat) (l : list Z) : list (list Z) :=
  match n with O => [] | S n => take (Z.to_nat SS) l :: blocks n (drop (Z.to_nat SS) l) end.

(** Whole sectors from the buffer; the window takes its sector over and is clean. *)
Definition write_sectors (sect cc : Z) (wbuff : list Z) : F (DK := DK) DRESULT :=
  f ← fs_get;
  r ← on_dev (d_write (drv f) (blocks (Z.to_nat (u8 cc)) wbuff) sect);
  let o := u32 (winsect f - sect) in
  (if bool_decide (r = RES_OK) && (o <? cc) then
     fs_mod (set_win (take (Z.to_nat SS) (drop (Z.to_nat (o * SS)) wbuff)));; fs_mod (set_wflag false)
   else mret tt);;
  mret r.

(** Bytes up to the end of the sector, through the window. *)
Definition write_window (fp : FIL) (wbuff : list Z) : F (DK := DK) (option FRESULT * FIL * Z) :=
  let btw := zlen wbuff in
  let o := f_ptr fp mod SS in
  let wcnt := if btw <? SS - o then btw else SS - o in
  r ← move_window (f_dsect fp);
  if decide (r = FR_OK) then
    win_put o (take (Z.to_nat wcnt) wbuff);;
    fs_mod (set_wflag true);;
    mret (Some FR_OK, fp, wcnt)
  else mret (ABORT (Some FR_DISK_ERR) fp, 0).

(** At the boundary of a sector, with the cluster chosen: whole sectors, or the
    window is put over the sector, which is read only when the file has it. *)
Definition write_boundary (csect : Z) (fp : FIL) (wbuff : list Z) : F (DK := DK) (option FRESULT * FIL * Z) :=
  f ← fs_get;
  r ← (if winsect f =? f_dsect fp then move_window 0 else mret FR_OK);
  if decide (r = FR_OK) then
    f ← fs_get;
    let sect := clust2sect f (f_clust fp) in
    if sect =? 0 then mret (ABORT (Some FR_INT_ERR) fp, 0)
    else
      let sect := u32 (sect + csect) in
      let cc := zlen wbuff / SS in
      if negb (cc =? 0) then
        let cc := if csize f <? u32 (csect + cc) then csize f - csect else cc in
        r ← write_sectors sect cc wbuff;
        if decide (r = RES_OK) then mret (Some FR_OK, fp, SS * cc) else mret (ABORT (Some FR_DISK_ERR) fp, 0)
      else
        r ← (if f_size fp <=? f_ptr fp then
               r ← move_window 0;
               if decide (r = FR_OK) then fs_mod (set_winsect sect);; mret FR_OK else mret FR_DISK_ERR
             else mret FR_OK);
        if decide (r = FR_OK) then write_window (put_dsect sect fp) wbuff else mret (ABORT (Some FR_DISK_ERR) fp, 0)
  else mret (ABORT (Some FR_DISK_ERR) fp, 0).

(** One round: the bytes taken; [None] when the disk is full. *)
Definition write_round (fp : FIL) (wbuff : list Z) : F (DK := DK) (option FRESULT * FIL * Z) :=
  f ← fs_get;
  if f_ptr fp mod SS =? 0 then
    let csect := u8 (Z.land (f_ptr fp / SS) (csize f - 1)) in
    '(r, fp) ← (if csect =? 0 then write_cluster fp else mret (Some FR_OK, fp));
    if decide (r = Some FR_OK) then write_boundary csect fp wbuff else mret (r, fp, 0)
  else write_window fp wbuff.

(** The result, and [*bw]. *)
Fixpoint write_rounds (fuel : nat) (fp : FIL) (wbuff : list Z) (bw : Z) : F (DK := DK) (FRESULT * FIL * Z) :=
  if zlen wbuff =? 0 then mret (FR_OK, fp, bw)
  else
    match fuel with
    | O => stuck
    | S n =>
        '(r, fp, wcnt) ← write_round fp wbuff;
        match r with
        | None => mret (FR_OK, fp, bw)
        | Some FR_OK => write_rounds n (put_ptr (u32 (f_ptr fp + wcnt)) fp) (drop (Z.to_nat wcnt) wbuff) (u32 (bw + wcnt))
        | Some e => mret (e, fp, bw)
        end
    end.

(** The last lines are for a write that was not aborted. *)
Definition f_write (fp : FIL) (wbuff : list Z) : G (DK := DK) (FRESULT * FIL * Z) :=
  res ← check_file fp FA_WRITE;
  if decide (res = FR_OK) then
    let wbuff := if u32 (f_size fp + zlen wbuff) <? f_size fp then [] else wbuff in
    on_vol (
      '(r, fp, bw) ← write_rounds (S (length wbuff)) fp wbuff 0;
      if decide (r = FR_OK) then
        let fp := if f_size fp <? f_ptr fp then put_size (f_ptr fp) fp else fp in
        mret (FR_OK, raise_flag FA__WRITTEN fp, bw)
      else mret (r, fp, bw))
  else mret (res, fp, 0).

(** ** Closing *)

Definition f_sync (fp : FIL) : G (DK := DK) (FRESULT * FIL) :=
  res ← validate (f_fs fp) (f_id fp);
  if bool_decide (res = FR_OK) && flagged FA__WRITTEN fp then
    on_vol (
      res ← move_window (f_dir_sect fp);
      if decide (res = FR_OK) then
        let dir := f_dir_ptr fp in
        a ← ent_byte dir DIR_Attr;
        ent_put dir DIR_Attr [Z.lor a AM_ARC];;
        ent_put dir DIR_FileSize (ST_DWORD (f_size fp));;
        ST_CLUST dir (f_sclust fp);;
        ent_put dir DIR_WrtTime (ST_DWORD get_fattime);;
        fs_mod (set_wflag true);;
        res ← sync;
        mret (res, clear_flag FA__WRITTEN fp)
      else mret (res, fp))
  else mret (res, fp).

Definition f_close (fp : FIL) : G (DK := DK) (FRESULT * FIL) :=
  '(res, fp) ← f_sync fp;
  mret (res, if decide (res = FR_OK) then put_fs false fp else fp).

(** ** Moving the pointer *)

(** Along the chain while more than a cluster is left; a disk that is full cuts
    the offset, with no cluster. *)
Fixpoint seek_loop (fuel : nat) (bcs : Z) (fp : FIL) (clst ofs : Z) : F (DK := DK) (FRESULT * FIL * Z * Z) :=
  if bcs <? ofs then
    match fuel with
    | O => stuck
    | S n =>
        clst ← (if flagged FA_WRITE fp then create_chain clst else get_fat clst);
        if flagged FA_WRITE fp && (clst =? 0) then mret (FR_OK, fp, clst, bcs)
        else if clst =? DISK_ERROR then mret (ABORT FR_DISK_ERR fp, clst, ofs)
        else
          f ← fs_get;
          if (clst <=? 1) || (n_fatent f <=? clst) then mret (ABORT FR_INT_ERR fp, clst, ofs)
          else seek_loop n bcs (put_ptr (u32 (f_ptr fp + bcs)) (put_clust clst fp)) clst (ofs - bcs)
    end
  else mret (FR_OK, fp, clst, ofs).

(** Where the walk starts: at the current cluster when the offset is not before
    it. *)
Definition seek_start (bcs ifptr : Z) (fp : FIL) (ofs : Z) : F (DK := DK) (FRESULT * FIL * Z * Z) :=
  if (0 <? ifptr) && ((ifptr - 1) / bcs <=? (ofs - 1) / bcs) then
    let base := Z.land (ifptr - 1) (4294967295 - (bcs - 1)) in
    mret (FR_OK, put_ptr base fp, f_clust fp, ofs - base)
  else if f_sclust fp =? 0 then
    clst ← create_chain 0;
    if clst =? 1 then mret (ABORT FR_INT_ERR fp, clst, ofs)
    else if clst =? DISK_ERROR then mret (ABORT FR_DISK_ERR fp, clst, ofs)
    else mret (FR_OK, put_clust clst (put_sclust clst fp), clst, ofs)
  else mret (FR_OK, put_clust (f_sclust fp) fp, f_sclust fp, ofs).

(** The sector of the offset, or 0. *)
Definition seek_walk (ifptr : Z) (fp : FIL) (ofs : Z) : F (DK := DK) (FRESULT * FIL * Z) :=
  f ← fs_get;
  let bcs := u32 (csize f * SS) in
  if bcs =? 0 then stuck
  else
    '(r, fp, clst, ofs) ← seek_start bcs ifptr fp ofs;
    if bool_decide (r = FR_OK) && negb (clst =? 0) then
      '(r, fp, clst, ofs) ← seek_loop (S (Z.to_nat (ofs / bcs))) bcs fp clst ofs;
      if decide (r = FR_OK) then
        let fp := put_ptr (u32 (f_ptr fp + ofs)) fp in
        if ofs mod SS =? 0 then mret (FR_OK, fp, 0)
        else
          f ← fs_get;
          let nsect := clust2sect f clst in
          mret (if nsect =? 0 then (ABORT FR_INT_ERR fp, 0) else (FR_OK, fp, u32 (nsect + ofs / SS)))
      else mret (r, fp, 0)
    else mret (r, fp, 0).

Definition f_lseek (fp : FIL) (ofs : Z) : G (DK := DK) (FRESULT * FIL) :=
  res ← check_file fp 0;
  if decide (res = FR_OK) then
    let ofs := if (f_size fp <? ofs) && negb (flagged FA_WRITE fp) then f_size fp else ofs in
    let ifptr := f_ptr fp in
    let fp := put_ptr 0 fp in
    on_vol (
      '(r, fp, nsect) ← (if ofs =? 0 then mret (FR_OK, fp, 0) else seek_walk ifptr fp ofs);
      if decide (r = FR_OK) then
        let fp := if negb (f_ptr fp mod SS =? 0) && negb (nsect =? f_dsect fp) then put_dsect nsect fp else fp in
        let fp := if f_size fp <? f_ptr fp then raise_flag FA__WRITTEN (put_size (f_ptr fp) fp) else fp in
        mret (FR_OK, fp)
      else mret (r, fp))
  else mret (res, fp).

(** ** Cutting a file *)

(** The chain behind the pointer is freed. *)
Definition cut_chain (fp : FIL) : F (DK := DK) (FRESULT * FIL) :=
  if f_ptr fp =? 0 then res ← remove_chain (f_sclust fp); mret (res, put_sclust 0 fp)
  else
    ncl ← get_fat (f_clust fp);
    f ← fs_get;
    let res := if ncl =? DISK_ERROR then FR_DISK_ERR else if ncl =? 1 then FR_INT_ERR else FR_OK in
    if bool_decide (res = FR_OK) && (ncl <? n_fatent f) then
      res ← put_fat (f_clust fp) 268435455;
      res ← (if decide (res = FR_OK) then remove_chain ncl else mret res);
      mret (res, fp)
    else mret (res, fp).

Definition f_truncate (fp : FIL) : G (DK := DK) (FRESULT * FIL) :=
  r ← check_file fp FA_WRITE;
  if decide (r = FR_OK) then
    if f_ptr fp <? f_size fp then
      on_vol (
        '(res, fp) ← cut_chain (raise_flag FA__WRITTEN (put_size (f_ptr fp) fp));
        mret (res, if decide (res = FR_OK) then fp else raise_flag FA__ERROR fp))
    else mret (FR_OK, fp)
  else mret (r, fp).

End FatFile.
