(* ===== verification/FatPath.v ===== *)
(** * Paths: the functions of fatfs/ff.c on names and directories

    The current directory, listing a directory, the state of a file, free space,
    and making, removing, renaming and changing entries. *)

From S2P Require Import Prelude Diskio FatVol FatBytes FatWin FatTable FatChain FatMount FatName FatDir FatFile.

Section FatPath.

Context {DK : Type} {HD : Disk DK}.

(** The local buffer for names, before anything is written to it. *)
Variable sfn : list Z.

(** ** The current drive and directory *)

Definition f_chdrive (drv : Z) : G (DK := DK) FRESULT :=
  if _VOLUMES <=? drv then mret FR_INVALID_DRIVE
  else sys_mod (fun s => mkSys (volume s) (registered s) (Fsid s) drv);; mret FR_OK.

(** The functions on a path: the check of the volume, and the rest. *)
Definition with_path {A} (fail : FRESULT -> A) (path : list Z) (chk_wp : Z) (p : DIR -> list Z -> F (DK := DK) A) : G (DK := DK) A :=
  '(res, path) ← chk_mounted path chk_wp;
  if decide (res = FR_OK) then on_vol (p (new_dir sfn) path) else mret (fail res).

Definition f_chdir (path : list Z) : G (DK := DK) FRESULT :=
  with_path id path 0 (fun dj path =>
    '(res, dj) ← follow_path dj path;
    res ← (if decide (res = FR_OK) then
             match d_dir dj with
             | None => fs_mod (set_cdir (d_sclust dj));; mret FR_OK
             | Some _ =>
                 a ← ent_byte (d_dir dj) DIR_Attr;
                 if negb (Z.land a AM_DIR =? 0) then cl ← LD_CLUST (d_dir dj); fs_mod (set_cdir cl);; mret FR_OK
                 else mret FR_NO_PATH
             end
           else mret res);
    mret (if decide (res = FR_NO_FILE) then FR_NO_PATH else res)).

(** The entry of the directory [ccl] in its parent. *)
Fixpoint find_clust (fuel : nat) (ccl : Z) (dj : DIR) : F (DK := DK) (FRESULT * DIR) :=
  match fuel with
  | O => stuck
  | S n =>
      '(res, dj) ← dir_read dj;
      if decide (res = FR_OK) then
        cl ← LD_CLUST (d_dir dj);
        if ccl =? cl then mret (FR_OK, dj)
        else
          '(res, dj) ← dir_next dj false;
          if decide (res = FR_OK) then find_clust n ccl dj else mret (res, dj)
      else mret (res, dj)
  end.

(** One directory up: its entry in the parent. *)
Definition cwd_step (dj : DIR) : F (DK := DK) (FRESULT * DIR) :=
  let ccl := d_sclust dj in
  '(res, dj) ← dir_sdi dj 1;
  if decide (res = FR_OK) then
    '(res, dj) ← dir_read dj;
    if decide (res = FR_OK) then
      cl ← LD_CLUST (d_dir dj);
      '(res, dj) ← dir_sdi (set_sclust cl dj) 0;
      if decide (res = FR_OK) then
        '(res, dj) ← find_clust dir_turns ccl dj;
        mret (if decide (res = FR_NO_FILE) then FR_INT_ERR else res, dj)
      else mret (res, dj)
    else mret (res, dj)
  else mret (res, dj).

(** A string up to its terminator. *)
Fixpoint c_text (l : list Z) : list Z :=
  match l with [] => [] | c :: l => if c =? 0 then [] else c :: c_text l end.

(** Writing to the caller's buffer. *)
Definition buf_put (buf : list Z) (o : Z) (l : list Z) : F (DK := DK) (list Z) :=
  if (0 <=? o) && (o + zlen l <=? zlen buf) then mret (mem_cpy buf o l) else stuck.

(** The names from the current directory up, at the end of the buffer, which is
    filled from [i] on. *)
Fixpoint cwd_loop (fuel : nat) (dj : DIR) (fno : FILINFO) (i : Z) (buf : list Z) : F (DK := DK) (FRESULT * Z * list Z) :=
  if d_sclust dj =? 0 then mret (FR_OK, i, buf)
  else
    match fuel with
    | O => stuck
    | S n =>
        '(res, dj) ← cwd_step dj;
        if decide (res = FR_OK) then
          fno ← get_fileinfo dj fno;
          let name := c_text (fi_name fno) in
          if i <? u32 (zlen name + 3) then mret (FR_NOT_ENOUGH_CORE, i, buf)
          else
            buf ← buf_put buf (i - zlen name - 1) (47 :: name);
            cwd_loop n dj fno (i - zlen name - 1) buf
        else mret (res, i, buf)
    end.

(** The size of [buf] is what the caller says; every name takes at least a byte. *)
Definition f_getcwd (buf : list Z) : G (DK := DK) (FRESULT * list Z) :=
  buf ← on_vol (buf_put buf 0 [0]);
  '(res, path) ← chk_mounted buf 0;
  if decide (res = FR_OK) then
    s ← sys_get;
    on_vol (
      f ← fs_get;
      '(res, i, buf) ← cwd_loop (S (length buf)) (set_sclust (cdir f) (new_dir sfn)) (mkInfo 0 0 0 0 [0]) (zlen buf) buf;
      buf ← (if decide (res = FR_OK) then
               buf_put buf 0 ([u8 (48 + CurrVol s); 58] ++ (if i =? zlen buf then [47] else drop (Z.to_nat i) buf) ++ [0])
             else buf_put buf 0 [0]);
      mret (res, buf))
  else mret (res, buf).

(** ** Listing *)

Definition f_opendir (dj : DIR) (path : list Z) : G (DK := DK) (FRESULT * DIR) :=
  '(res, path) ← chk_mounted path 0;
  s ← sys_get;
  let dj := if decide (res = FR_INVALID_DRIVE) then dj else set_fs (registered s) dj in
  if decide (res = FR_OK) then
    on_vol (
      '(res, dj) ← follow_path (set_fn sfn dj) path;
      '(res, dj) ← (if decide (res = FR_OK) then
          '(res, dj) ← (match d_dir dj with
                        | None => mret (FR_OK, dj)
                        | Some _ =>
                            a ← ent_byte (d_dir dj) DIR_Attr;
                            if negb (Z.land a AM_DIR =? 0) then cl ← LD_CLUST (d_dir dj); mret (FR_OK, set_sclust cl dj)
                            else mret (FR_NO_PATH, dj)
                        end);
          if decide (res = FR_OK) then f ← fs_get; dir_sdi (set_id (fs_id f) dj) 0 else mret (res, dj)
        else mret (res, dj));
      mret (if decide (res = FR_NO_FILE) then FR_NO_PATH else res, dj))
  else mret (res, dj).

(** The end of the directory is no error; it leaves no sector. *)
Definition end_of_dir (r : FRESULT * DIR) : FRESULT * DIR :=
  if decide (r.1 = FR_NO_FILE) then (FR_OK, set_sect 0 r.2) else r.

(** Without a [fno] the directory is read from the start again. *)
Definition f_readdir (dj : DIR) (fno : option FILINFO) : G (DK := DK) (FRESULT * DIR * option FILINFO) :=
  res ← validate (d_fs dj) (d_id dj);
  if decide (res = FR_OK) then
    on_vol (
      match fno with
      | None => '(res, dj) ← dir_sdi dj 0; mret (res, dj, None)
      | Some fno =>
          r ← dir_read (set_fn sfn dj);
          let '(res, dj) := end_of_dir r in
          if decide (res = FR_OK) then
            fno ← get_fileinfo dj fno;
            r ← dir_next dj false;
            mret (end_of_dir r, Some fno)
          else mret (res, dj, Some fno)
      end)
  else mret (res, dj, fno).

Definition f_stat (path : list Z) (fno : FILINFO) : G (DK := DK) (FRESULT * FILINFO) :=
  with_path (fun res => (res, fno)) path 0 (fun dj path =>
    '(res, dj) ← follow_path dj path;
    if decide (res = FR_OK) then
      match d_dir dj with
      | Some _ => fno ← get_fileinfo dj fno; mret (FR_OK, fno)
      | None => mret (FR_INVALID_NAME, fno)
      end
    else mret (res, fno)).

(** ** Free space *)

(** Counting entry by entry, for FAT12. *)
Fixpoint count_entries (fuel : nat) (clst n : Z) : F (DK := DK) (FRESULT * Z) :=
  match fuel with
  | O => stuck
  | S k =>
      stat ← get_fat clst;
      if stat =? DISK_ERROR then mret (FR_DISK_ERR, n)
      else if stat =? 1 then mret (FR_INT_ERR, n)
      else
        let n := if stat =? 0 then n + 1 else n in
        f ← fs_get;
        if clst + 1 <? n_fatent f then count_entries k (clst + 1) n else mret (FR_OK, n)
  end.

(** Counting through the sectors of the table; [p] points into the window and [i]
    bytes are left in it. *)
Fixpoint count_table (fuel : nat) (fat clst sect i p n : Z) : F (DK := DK) (FRESULT * Z) :=
  match fuel with
  | O => stuck
  | S k =>
      '(res, sect, i, p) ← (if i =? 0 then r ← move_window sect; mret (r, u32 (sect + 1), SS, 0) else mret (FR_OK, sect, i, p));
      if decide (res = FR_OK) then
        l ← win_bytes p (if fat =? FS_FAT16 then 2 else 4);
        let x := if fat =? FS_FAT16 then LD_WORD l else Z.land (LD_DWORD l) 268435455 in
        let w := if fat =? FS_FAT16 then 2 else 4 in
        let n := if x =? 0 then n + 1 else n in
        if clst - 1 =? 0 then mret (FR_OK, n) else count_table k fat (clst - 1) sect (i - w) (p + w) n
      else mret (res, n)
  end.

(** The number of free clusters, where it was stored. *)
Definition f_getfree (path : list Z) : G (DK := DK) (FRESULT * option Z) :=
  '(res, path) ← chk_mounted path 0;
  if decide (res = FR_OK) then
    on_vol (
      f ← fs_get;
      if free_clust f <=? u32 (n_fatent f - 2) then mret (FR_OK, Some (free_clust f))
      else
        '(res, n) ← (if fs_type f =? FS_FAT12 then count_entries (Z.to_nat (n_fatent f)) 2 0
                     else count_table (Z.to_nat (n_fatent f)) (fs_type f) (n_fatent f) (fatbase f) 0 0 0);
        fs_mod (set_free_clust n);;
        (if fs_type f =? FS_FAT32 then fs_mod (set_fsi_flag true) else mret tt);;
        mret (res, Some n))
  else mret (res, None).

(** ** Making and removing *)

(** The entry a path leads to, which must not be a dot entry. *)
Definition follow_entry (dj : DIR) (path : list Z) : F (DK := DK) (FRESULT * DIR) :=
  '(res, dj) ← follow_path dj path;
  mret (if bool_decide (res = FR_OK) && negb (Z.land (fn_status dj) NS_DOT =? 0) then FR_INVALID_NAME else res, dj).

(** A directory may be removed when it is empty and not the current one. *)
Definition check_empty (dj : DIR) (dclst : Z) : F (DK := DK) FRESULT :=
  if dclst <? 2 then mret FR_INT_ERR
  else
    '(res, sdj) ← dir_sdi (set_sclust dclst dj) 2;
    if decide (res = FR_OK) then
      '(res, sdj) ← dir_read sdj;
      f ← fs_get;
      let res := if bool_decide (res = FR_OK) || (dclst =? cdir f) then FR_DENIED else res in
      mret (if decide (res = FR_NO_FILE) then FR_OK else res)
    else mret res.

Definition f_unlink (path : list Z) : G (DK := DK) FRESULT :=
  with_path id path 1 (fun dj path =>
    '(res, dj) ← follow_entry dj path;
    if decide (res = FR_OK) then
      res ← (match d_dir dj with
             | None => mret FR_INVALID_NAME
             | Some _ => a ← ent_byte (d_dir dj) DIR_Attr; mret (if negb (Z.land a AM_RDO =? 0) then FR_DENIED else FR_OK)
             end);
      dclst ← LD_CLUST (d_dir dj);
      res ← (if decide (res = FR_OK) then
               a ← ent_byte (d_dir dj) DIR_Attr;
               if negb (Z.land a AM_DIR =? 0) then check_empty dj dclst else mret FR_OK
             else mret res);
      if decide (res = FR_OK) then
        '(res, dj) ← dir_remove dj;
        if decide (res = FR_OK) then
          res ← (if negb (dclst =? 0) then remove_chain dclst else mret FR_OK);
          if decide (res = FR_OK) then sync else mret res
        else mret res
      else mret res
    else mret res).

(** The sectors of a new directory, the first with what the window holds. *)
Fixpoint mkdir_sectors (n : nat) (dsc : Z) : F (DK := DK) FRESULT :=
  match n with
  | O => mret FR_OK
  | S n =>
      fs_mod (set_winsect dsc);;
      fs_mod (set_wflag true);;
      r ← move_window 0;
      if decide (r = FR_OK) then win_put 0 (mem_set 0 SS);; mkdir_sectors n (u32 (dsc + 1)) else mret r
  end.

(** The dot entries of a directory at [dcl] in one at [pcl]. *)
Definition dot_entries (dcl pcl : Z) : F (DK := DK) unit :=
  win_put 0 (mem_set 0 SS);;
  win_put DIR_Name (mem_set 32 11);;
  win_put DIR_Name [46];;
  win_put DIR_Attr [AM_DIR];;
  win_put DIR_WrtTime (ST_DWORD get_fattime);;
  ST_CLUST (Some 0) dcl;;
  d ← win_bytes 0 SZ_DIR;
  win_put SZ_DIR d;;
  win_put 33 [46];;
  f ← fs_get;
  ST_CLUST (Some SZ_DIR) (if (fs_type f =? FS_FAT32) && (pcl =? dirbase f) then 0 else pcl).

Definition f_mkdir (path : list Z) : G (DK := DK) FRESULT :=
  with_path id path 1 (fun dj path =>
    '(res, dj) ← follow_path dj path;
    let res := if decide (res = FR_OK) then FR_EXIST else res in
    let res := if bool_decide (res = FR_NO_FILE) && negb (Z.land (fn_status dj) NS_DOT =? 0) then FR_INVALID_NAME else res in
    if decide (res = FR_NO_FILE) then
      dcl ← create_chain 0;
      let res := if dcl =? DISK_ERROR then FR_DISK_ERR else if dcl =? 1 then FR_INT_ERR else if dcl =? 0 then FR_DENIED else FR_OK in
      res ← (if decide (res = FR_OK) then move_window 0 else mret res);
      res ← (if decide (res = FR_OK) then
               f ← fs_get;
               dot_entries dcl (d_sclust dj);;
               mkdir_sectors (Z.to_nat (csize f)) (clust2sect f dcl)
             else mret res);
      '(res, dj) ← (if decide (res = FR_OK) then dir_register dj else mret (res, dj));
      if decide (res = FR_OK) then
        ent_put (d_dir dj) DIR_Attr [AM_DIR];;
        ent_put (d_dir dj) DIR_WrtTime (ST_DWORD get_fattime);;
        ST_CLUST (d_dir dj) dcl;;
        fs_mod (set_wflag true);;
        sync
      else remove_chain dcl;; mret res
    else mret res).

(** ** Changing entries *)

Definition f_chmod (path : list Z) (value mask : Z) : G (DK := DK) FRESULT :=
  with_path id path 1 (fun dj path =>
    '(res, dj) ← follow_entry dj path;
    if decide (res = FR_OK) then
      match d_dir dj with
      | None => mret FR_INVALID_NAME
      | Some _ =>
          let mask := Z.land mask (Z.lor (Z.lor (Z.lor AM_RDO AM_HID) AM_SYS) AM_ARC) in
          a ← ent_byte (d_dir dj) DIR_Attr;
          ent_put (d_dir dj) DIR_Attr [Z.lor (Z.land value mask) (Z.land a (255 - mask))];;
          fs_mod (set_wflag true);;
          sync
      end
    else mret res).

Definition f_utime (path : list Z) (fno : FILINFO) : G (DK := DK) FRESULT :=
  with_path id path 1 (fun dj path =>
    '(res, dj) ← follow_entry dj path;
    if decide (res = FR_OK) then
      match d_dir dj with
      | None => mret FR_INVALID_NAME
      | Some _ =>
          ent_put (d_dir dj) DIR_WrtTime (ST_WORD (fi_time fno));;
          ent_put (d_dir dj) DIR_WrtDate (ST_WORD (fi_date fno));;
          fs_mod (set_wflag true);;
          sync
      end
    else mret res).

(** A directory that moves is told its new parent. *)
Definition rename_parent (djo djn : DIR) : F (DK := DK) FRESULT :=
  a ← ent_byte (d_dir djn) DIR_Attr;
  if negb (d_sclust djo =? d_sclust djn) && negb (Z.land a AM_DIR =? 0) then
    cl ← LD_CLUST (d_dir djn);
    f ← fs_get;
    let dw := clust2sect f cl in
    if dw =? 0 then mret FR_INT_ERR
    else
      res ← move_window dw;
      b ← win_at (SZ_DIR + 1);
      if bool_decide (res = FR_OK) && (b =? 46) then
        f ← fs_get;
        ST_CLUST (Some SZ_DIR) (if (fs_type f =? FS_FAT32) && (d_sclust djn =? dirbase f) then 0 else d_sclust djn);;
        fs_mod (set_wflag true);;
        mret FR_OK
      else mret res
  else mret FR_OK.

Definition f_rename (path_old path_new : list Z) : G (DK := DK) FRESULT :=
  with_path id path_old 1 (fun djo path_old =>
    '(res, djo) ← follow_entry djo path_old;
    if decide (res = FR_OK) then
      match d_dir djo with
      | None => mret FR_NO_FILE
      | Some _ =>
          buf ← ent_bytes (d_dir djo) DIR_Attr 21;
          '(res, djn) ← follow_path djo path_new;
          if decide (res = FR_OK) then mret FR_EXIST
          else if decide (res = FR_NO_FILE) then
            '(res, djn) ← dir_register djn;
            if decide (res = FR_OK) then
              ent_put (d_dir djn) 13 (drop 2 buf);;
              ent_put (d_dir djn) DIR_Attr [Z.lor (byte_at buf 0) AM_ARC];;
              fs_mod (set_wflag true);;
              res ← rename_parent djo djn;
              if decide (res = FR_OK) then
                '(res, _) ← dir_remove djo;
                if decide (res = FR_OK) then sync else mret res
              else mret res
            else mret res
          else mret res
      end
    else mret res).

End FatPath.
