(* ===== verification/FatData.v ===== *)
(** * The data of files

    Where the clusters are, the bytes of a chain of clusters, and what reading and
    writing through a file object deliver. *)

From S2P Require Import Prelude Diskio FatVol FatBytes FatWin FatTable FatChain FatMount FatDir FatFile.

(** ** The area behind the table *)

(** The clusters lie behind the tables, within the 2^32 sectors there are. *)
Record layout (f : FATFS) : Prop := {
  ly_table : table_ok f;
  ly_csize : exists k, 0 <= k <= 7 /\ csize f = 2 ^ k;
  ly_base : fatbase f + n_fats f * fsize f <= database f;
  ly_end : database f + (n_fatent f - 2) * csize f <= 2 ^ 32
}.

Definition first_sector (f : FATFS) (c : Z) : Z := database f + (c - 2) * csize f.

(** The bytes of a cluster. *)
Definition bcs (f : FATFS) : Z := csize f * SS.

(** The sector of the byte [i] of a file with the clusters [l]. *)
Definition place (f : FATFS) (l : list Z) (i : Z) : Z :=
  first_sector f (nth (Z.to_nat (i / bcs f)) l 0) + (i / SS) mod csize f.

Lemma csize_range f : layout f -> 1 <= csize f <= 128.
Proof.
  intros [_ (k & Hk & ->) _ _]. split; [apply (Z.pow_le_mono_r 2 0); lia|]. change 128 with (2 ^ 7). apply Z.pow_le_mono_r; lia.
Qed.

Lemma first_sector_range f c : layout f -> cluster f c -> 0 < database f <= first_sector f c /\ first_sector f c + csize f <= 2 ^ 32.
Proof.
  intros Hl [H1 H2]. pose proof (csize_range f Hl). pose proof Hl as [[[] _ _ _ _] _ Hb He]. unfold first_sector. nia.
Qed.

Lemma clust2sect_cluster f c : layout f -> cluster f c -> clust2sect f c = first_sector f c /\ first_sector f c <> 0.
Proof.
  intros Hl Hc. pose proof (first_sector_range f c Hl Hc). pose proof (csize_range f Hl). pose proof Hl as [[[] _ Hn _ Hm] _ Hb He].
  assert (Hn32 : n_fatent f < 2 ^ 32).
  { eapply Z.lt_le_trans; [exact Hm|]. apply Z.pow_le_mono_r; [lia|]. unfold entry_bits. repeat case_match; lia. }
  unfold cluster in Hc. unfold clust2sect, first_sector in *. rewrite !(wrap_small 32 (_ - 2)) by (unfold fits; lia).
  zbool. rewrite wrap_small by (unfold fits; nia). lia.
Qed.

Lemma clust2sect_outside f c : layout f -> 0 <= c < 2 ^ 32 -> ~ cluster f c -> clust2sect f c = 0.
Proof.
  intros Hl Hc Ho. pose proof Hl as [[[] _ Hn _ Hm] _ Hb He].
  assert (Hn32 : n_fatent f < 2 ^ 32).
  { eapply Z.lt_le_trans; [exact Hm|]. apply Z.pow_le_mono_r; [lia|]. unfold entry_bits. repeat case_match; lia. }
  unfold clust2sect, cluster in *. replace (u32 (n_fatent f - 2) <=? u32 (c - 2)) with true; [done|]. symmetry. apply Z.leb_le.
  rewrite (wrap_small 32 (n_fatent f - 2)) by (unfold fits; lia). destruct (decide (2 <= c)).
  - rewrite wrap_small by (unfold fits; lia). lia.
  - unfold wrap. rewrite <- (Z.mod_add (c - 2) 1) by lia. rewrite Z.mod_small by lia. lia.
Qed.

(** The sectors of clusters are behind the tables. *)
Lemma data_primary f c j :
  layout f -> cluster f c -> 0 <= j < csize f ->
  primary f (first_sector f c + j) /\ fatbase f + n_fats f * fsize f <= first_sector f c + j < 2 ^ 32.
Proof.
  intros Hl Hc Hj. pose proof (first_sector_range f c Hl Hc). pose proof Hl as [[[] _ _ _ _] _ Hb _].
  unfold primary, mirror. nia.
Qed.

Lemma first_sector_inj f c j c' j' :
  0 <= j < csize f -> 0 <= j' < csize f -> first_sector f c + j = first_sector f c' + j' -> c = c' /\ j = j'.
Proof.
  unfold first_sector. intros Hj Hj' E. assert (c = c'); [|subst; split; [done|lia]].
  destruct (Z.lt_trichotomy c c') as [|[|]]; [nia|done|nia].
Qed.

Lemma alike_layout f f' : alike f f' -> layout f -> layout f'.
Proof. intros Ha [H1 H2 H3 H4]. split; [by eapply alike_table|by rewrite Ha..]. Qed.

Lemma alike_place f f' l i : alike f f' -> place f' l i = place f l i.
Proof. by intros ->. Qed.

Lemma byte_place_range f i : layout f -> 0 <= (i / SS) mod csize f < csize f.
Proof. intros Hl. pose proof (csize_range f Hl). apply Z.mod_pos_bound. lia. Qed.

(** The sector in the cluster, as the code computes it. *)
Lemma csect_mod f p : layout f -> 0 <= p -> u8 (Z.land (p / SS) (csize f - 1)) = (p / SS) mod csize f.
Proof.
  intros Hl Hp. pose proof (csize_range f Hl). pose proof Hl as [_ (k & Hk & E) _ _]. rewrite E at 1.
  rewrite land_mod by lia. rewrite <- E. pose proof (byte_place_range f p Hl). apply wrap_small. unfold fits. lia.
Qed.

(** ** Slices *)

Lemma slice_bytes w o n :
  0 <= o -> 0 <= n -> o + n <= zlen w -> take (Z.to_nat n) (drop (Z.to_nat o) w) = byte_at w <$> seqZ o n.
Proof.
  unfold zlen. intros Ho Hn Hl. apply list_eq. intros i. destruct (decide (i < Z.to_nat n)%nat) as [Hi|Hi].
  - rewrite lookup_take_lt, lookup_drop by done. rewrite list_lookup_fmap, lookup_seqZ_lt by lia. cbn [fmap option_fmap option_map].
    unfold byte_at. replace (Z.to_nat (o + Z.of_nat i)) with (Z.to_nat o + i)%nat by lia.
    destruct (lookup_lt_is_Some_2 w (Z.to_nat o + i)) as [x E]; [lia|]. rewrite E. by rewrite (nth_lookup_Some _ _ 0 _ E).
  - rewrite lookup_take_ge by lia. by rewrite list_lookup_fmap, lookup_seqZ_ge by lia.
Qed.

Lemma bytes_shift {A} (g h : Z -> A) a b n : (forall i, 0 <= i < n -> g (a + i) = h (b + i)) -> g <$> seqZ a n = h <$> seqZ b n.
Proof.
  intros H. apply list_eq. intros i. rewrite !list_lookup_fmap. destruct (decide (Z.of_nat i < n)).
  - rewrite !lookup_seqZ_lt by done. cbn. f_equal. apply H. lia.
  - by rewrite !lookup_seqZ_ge by lia.
Qed.

(** ** Links along a chain *)

Lemma path_link e c l d i x : path e c l d -> l !! i = Some x -> e x = default d (l !! S i).
Proof.
  intros Hp. revert i. induction Hp as [c|c l d Hc Hp IH]; intros i Hx; [done|]. destruct i as [|i].
  - injection Hx as <-. cbn [lookup list_lookup]. by inversion Hp.
  - cbn in Hx. rewrite (IH _ Hx). done.
Qed.

Section FatData.

Context {DK : Type} {HD : Disk DK} {HS : Store DK}.

Implicit Types v : vol (DK := DK).

Lemma chain_first v c l : chain v c l -> l !! 0%nat = Some c.
Proof using. intros (Hne & _ & d & Hp & _). by destruct Hp. Qed.

Lemma chain_next v c l i x y : chain v c l -> l !! i = Some x -> l !! S i = Some y -> entry v x = y.
Proof using. intros (_ & _ & d & Hp & _) Hx Hy. rewrite (path_link _ _ _ _ _ _ Hp Hx). by rewrite Hy. Qed.

Lemma chain_cluster v c l i x : chain v c l -> l !! i = Some x -> cluster (fatfs v) x.
Proof using. intros (_ & Hl & _) Hx. by eapply Forall_lookup. Qed.

Lemma chain_stays v v' c l : table_ok (fatfs v) -> stays v v' -> chain v c l -> chain v' c l.
Proof using.
  intros Ht Hst (Hne & Hl & d & Hp & Hd). pose proof (st_same _ _ Hst) as Hsm. split; [done|].
  split; [eapply Forall_impl; [exact Hl|]; intros x; by rewrite Hsm|]. exists d. split; [|by rewrite Hsm].
  eapply path_ext; [|exact Hp]. intros x Hx. apply entry_stays; [done|done|]. by apply (proj1 (Forall_forall _ _) Hl).
Qed.

(** A step that leaves the volume as it is. *)
Record quiet v v' : Prop := {
  q_ok : win_ok v';
  q_stays : stays v v';
  q_mirrors : reliable -> mirrored v -> mirrored v'
}.

Lemma quiet_refl v : win_ok v -> quiet v v.
Proof using. by split. Qed.

Lemma quiet_trans u v w : quiet u v -> quiet v w -> quiet u w.
Proof using. intros [H1 H2 H3] [K1 K2 K3]. split; [done|by etrans|by auto]. Qed.

Lemma quiet_moved sect v r v' : moved sect v r v' -> quiet v v'.
Proof using. intros [H1 H2 _ _ _ H6 _]. by split. Qed.

Lemma quiet_got c v r v' : got c v r v' -> quiet v v'.
Proof using. intros [H1 H2 _ H4 _]. by split. Qed.

Lemma quiet_alike v v' : quiet v v' -> alike (fatfs v) (fatfs v').
Proof using. intros [_ [H _ _] _]. by apply same_alike. Qed.

Lemma quiet_dev v d : win_ok v -> (forall t, content d t = content (dev v) t) -> quiet v (mkVol (fatfs v) d).
Proof using.
  intros [H1 H2 H3 H4 H5] Hd. split; [split; try done|split|]; cbn [fatfs dev].
  - intros. rewrite Hd. by apply H5.
  - apply same_refl.
  - intros s Hs. unfold view. cbn [fatfs dev]. case_decide; [done|apply Hd].
  - done.
  - intros R Hm Hn s Hs Hw. cbn [fatfs dev] in *. rewrite !Hd. by apply Hm.
Qed.

(** ** The bytes of a chain *)

Definition file_byte v (l : list Z) (i : Z) : Z := byte_at (view v (place (fatfs v) l i)) (i mod SS).
Definition file_bytes v (l : list Z) (o n : Z) : list Z := file_byte v l <$> seqZ o n.

(** The byte is within the clusters. *)
Definition inside (f : FATFS) (l : list Z) (i : Z) : Prop := 0 <= i < bcs f * zlen l.

Lemma bcs_pos f : layout f -> 512 <= bcs f <= 65536.
Proof using. intros Hl. pose proof (csize_range f Hl). unfold bcs, SS. lia. Qed.

Lemma inside_cluster f l i : layout f -> inside f l i -> exists c, l !! Z.to_nat (i / bcs f) = Some c /\ nth (Z.to_nat (i / bcs f)) l 0 = c.
Proof using.
  intros Hl [H1 H2]. pose proof (bcs_pos f Hl). assert (0 <= i / bcs f < zlen l).
  { split; [apply Z.div_pos; lia|apply Z.div_lt_upper_bound; lia]. }
  unfold zlen in *. destruct (lookup_lt_is_Some_2 l (Z.to_nat (i / bcs f))) as [c Hc]; [lia|]. exists c. split; [done|].
  by apply nth_lookup_Some.
Qed.

Lemma place_primary f l i :
  layout f -> Forall (cluster f) l -> inside f l i ->
  exists c, c ∈ l /\ cluster f c /\ place f l i = first_sector f c + (i / SS) mod csize f /\ primary f (place f l i) /\
    fatbase f + n_fats f * fsize f <= place f l i < 2 ^ 32.
Proof using.
  intros Hl Hall Hi. destruct (inside_cluster f l i Hl Hi) as (c & Hc & E). exists c.
  assert (Hcl : cluster f c) by (by eapply Forall_lookup). pose proof (byte_place_range f i Hl).
  unfold place. rewrite E. split_and!; [by eapply list_elem_of_lookup_2|done|done|by apply data_primary..].
Qed.

(** The bytes of a sector are in one place. *)
Lemma place_same f l i k : layout f -> 0 <= k -> i mod SS + k < SS -> place f l (i + k) = place f l i /\ (i + k) mod SS = i mod SS + k.
Proof using.
  intros Hl Hk Hlt. pose proof (csize_range f Hl) as Hcs. unfold SS in *.
  pose proof (Z.div_mod i 512 ltac:(lia)). pose proof (Z.mod_pos_bound i 512 ltac:(lia)).
  assert (E1 : (i + k) / 512 = i / 512) by (symmetry; apply (Z.div_unique _ _ _ (i mod 512 + k)); lia).
  assert (E2 : (i + k) mod 512 = i mod 512 + k) by (symmetry; apply (Z.mod_unique _ _ (i / 512)); lia).
  split; [|done]. unfold place, bcs, SS. rewrite (Z.mul_comm (csize f) 512), <- !Z.div_div by lia. by rewrite E1.
Qed.

Lemma file_bytes_sector v l o n :
  layout (fatfs v) -> win_ok v -> 0 <= n -> 0 <= o -> o mod SS + n <= SS ->
  file_bytes v l o n = take (Z.to_nat n) (drop (Z.to_nat (o mod SS)) (view v (place (fatfs v) l o))).
Proof using.
  intros Hl Hok Hn Ho Hle. pose proof (Z.mod_pos_bound o SS ltac:(unfold SS; lia)).
  destruct (view_sector v (place (fatfs v) l o) Hok) as [Hlen _].
  rewrite slice_bytes by (unfold zlen, SS in *; lia). apply bytes_shift. intros i Hi. unfold file_byte.
  destruct (place_same (fatfs v) l o i Hl ltac:(lia) ltac:(lia)) as [-> ->]. done.
Qed.

Lemma file_bytes_app v l o n m : 0 <= n -> 0 <= m -> file_bytes v l o (n + m) = file_bytes v l o n ++ file_bytes v l (o + n) m.
Proof using. intros Hn Hm. unfold file_bytes. by rewrite seqZ_app, fmap_app. Qed.

Lemma file_bytes_0 v l o : file_bytes v l o 0 = [].
Proof using. done. Qed.

Lemma file_bytes_length v l o n : 0 <= n -> zlen (file_bytes v l o n) = n.
Proof using. intros Hn. unfold file_bytes, zlen. rewrite length_fmap, length_seqZ. lia. Qed.

(** The sectors of a cluster follow each other. *)
Lemma place_next f l o :
  layout f -> 0 <= o -> o mod SS = 0 -> (o / SS) mod csize f + 1 < csize f -> place f l (o + SS) = place f l o + 1.
Proof using.
  intros Hl Ho Hm Hlt. pose proof (csize_range f Hl) as Hcs. unfold place, bcs, SS in *.
  rewrite (Z.mul_comm (csize f) 512), <- !Z.div_div by lia. replace ((o + 512) / 512) with (o / 512 + 1) by (rewrite <- Z.div_add by lia; f_equal; lia).
  set (q := o / 512) in *. pose proof (Z.div_mod q (csize f) ltac:(lia)). pose proof (Z.mod_pos_bound q (csize f) ltac:(lia)).
  assert (E1 : (q + 1) / csize f = q / csize f) by (symmetry; apply (Z.div_unique _ _ _ (q mod csize f + 1)); lia).
  assert (E2 : (q + 1) mod csize f = q mod csize f + 1) by (symmetry; apply (Z.mod_unique _ _ (q / csize f)); lia).
  rewrite E1, E2. lia.
Qed.

Lemma file_bytes_sectors v l (cc : nat) o :
  layout (fatfs v) -> win_ok v -> 0 <= o -> o mod SS = 0 -> (o / SS) mod csize (fatfs v) + Z.of_nat cc <= csize (fatfs v) ->
  file_bytes v l o (SS * Z.of_nat cc) = concat (view v <$> seqZ (place (fatfs v) l o) (Z.of_nat cc)).
Proof using.
  intros Hl Hok. revert o. induction cc as [|cc IH]; intros o Ho Hm Hle; [done|].
  replace (SS * Z.of_nat (S cc)) with (SS + SS * Z.of_nat cc) by lia. rewrite file_bytes_app by (unfold SS; lia).
  rewrite Nat2Z.inj_succ, seqZ_cons by lia. rewrite Z.pred_succ. cbn [fmap list_fmap concat]. f_equal.
  - rewrite file_bytes_sector by (done || unfold SS in *; lia). rewrite Hm. change (Z.to_nat 0) with 0%nat. rewrite drop_0.
    destruct (view_sector v (place (fatfs v) l o) Hok) as [Hlen _]. apply take_ge. unfold SS. lia.
  - destruct cc as [|cc]; [done|]. rewrite IH; [by rewrite place_next by (done || lia)|unfold SS; lia| |].
    + unfold SS in *. replace (o + 512) with (o + 1 * 512) by lia. by rewrite Z.mod_add by lia.
    + pose proof (csize_range _ Hl). unfold SS in *. replace (o + 512) with (o + 1 * 512) by lia. rewrite Z.div_add by lia.
      pose proof (Z.mod_pos_bound (o / 512) (csize (fatfs v)) ltac:(lia)). pose proof (Z.div_mod (o / 512) (csize (fatfs v)) ltac:(lia)).
      rewrite <- (Z.mod_unique (o / 512 + 1) (csize (fatfs v)) (o / 512 / csize (fatfs v)) ((o / 512) mod csize (fatfs v) + 1)) by lia. lia.
Qed.

Lemma file_byte_stays v v' l i :
  layout (fatfs v) -> Forall (cluster (fatfs v)) l -> inside (fatfs v) l i -> stays v v' -> file_byte v' l i = file_byte v l i.
Proof using.
  intros Hl Hall Hi [Hsm Hvw _]. unfold file_byte. rewrite (alike_place _ _ l i (same_alike _ _ Hsm)).
  destruct (place_primary _ _ _ Hl Hall Hi) as (_ & _ & _ & _ & Hp & _). by rewrite Hvw.
Qed.

End FatData.
