(* ===== verification/FatRead.v ===== *)
(** * Reading files

    [f_read] delivers the bytes of the file's clusters, whatever fails. *)

From S2P Require Import Prelude Diskio FatVol FatBytes FatWin FatTable FatChain FatMount FatDir FatFile FatData.

Section FatRead.

Context {DK : Type} {HD : Disk DK} {HS : Store DK}.

Implicit Types v : vol (DK := DK).

(** The clusters of a file that starts at [c]; none when [c] is 0. *)
Definition clusters v (c : Z) (l : list Z) : Prop := c = 0 /\ l = [] \/ chain v c l.

(** The clusters [l] have room for the size. *)
Record file_core v (fp : FIL) (l : list Z) : Prop := {
  fc_clusters : clusters v (f_sclust fp) l;
  fc_size : f_size fp < 2 ^ 32 /\ f_size fp <= bcs (fatfs v) * zlen l;
  fc_ptr : 0 <= f_ptr fp <= f_size fp
}.

(** The file object is in order: the cluster and the sector it keeps are those of
    the pointer. *)
Record file_at v (fp : FIL) (l : list Z) : Prop := {
  fa_core : file_core v fp l;
  fa_clust : 0 < f_ptr fp -> l !! Z.to_nat ((f_ptr fp - 1) / bcs (fatfs v)) = Some (f_clust fp);
  fa_dsect : f_ptr fp mod SS <> 0 -> f_dsect fp = place (fatfs v) l (f_ptr fp)
}.

(** Only the place in the file differs. *)
Definition same_file (fp fp' : FIL) : Prop :=
  f_fs fp' = f_fs fp /\ f_id fp' = f_id fp /\ f_flag fp' = f_flag fp /\ f_size fp' = f_size fp /\ f_sclust fp' = f_sclust fp /\
  f_dir_sect fp' = f_dir_sect fp /\ f_dir_ptr fp' = f_dir_ptr fp.

Lemma same_file_refl p : same_file p p.
Proof using. by repeat split. Qed.

Lemma same_file_trans p q r : same_file p q -> same_file q r -> same_file p r.
Proof using. unfold same_file. intros (->&->&->&->&->&->&->) (->&->&->&->&->&->&->). done. Qed.

Lemma clusters_all v c l : clusters v c l -> Forall (cluster (fatfs v)) l.
Proof using. intros [[_ ->]|(_ & ? & _)]; [constructor|done]. Qed.

Lemma core_stays v v' fp l : layout (fatfs v) -> stays v v' -> file_core v fp l -> file_core v' fp l.
Proof using.
  intros Hl Hst [H1 H2 H3]. pose proof (same_alike _ _ (st_same _ _ Hst)) as Ha.
  assert (Hb : bcs (fatfs v') = bcs (fatfs v)) by (by rewrite Ha). split; rewrite ?Hb; try done.
  destruct H1 as [?|H1]; [by left|right]. eapply chain_stays; [apply Hl|done|done].
Qed.

Lemma file_stays v v' fp l : layout (fatfs v) -> stays v v' -> file_at v fp l -> file_at v' fp l.
Proof using.
  intros Hl Hst [H1 H4 H5]. pose proof (same_alike _ _ (st_same _ _ Hst)) as Ha.
  assert (Hb : bcs (fatfs v') = bcs (fatfs v)) by (by rewrite Ha). split; rewrite ?Hb; try done; [by apply (core_stays v)|].
  intros Hm. by rewrite (alike_place _ _ _ _ Ha), H5.
Qed.

Lemma same_core v fp fp' l : same_file fp fp' -> f_ptr fp' = f_ptr fp -> file_core v fp l -> file_core v fp' l.
Proof using. intros (_&_&_&E1&E2&_&_) E3 [H1 H2 H3]. split; by rewrite ?E1, ?E2, ?E3. Qed.

Lemma inside_size v fp l i : file_core v fp l -> 0 <= i < f_size fp -> inside (fatfs v) l i.
Proof using. intros [_ [_ H] _] Hi. unfold inside. lia. Qed.

(** Quotients at the boundary of a cluster. *)
Lemma cluster_start f p : layout f -> 0 <= p -> p mod SS = 0 -> (p / SS) mod csize f = 0 -> p mod bcs f = 0.
Proof using.
  intros Hl Hp H1 H2. pose proof (csize_range f Hl) as Hcs. unfold bcs, SS in *. rewrite Z.mul_comm.
  rewrite Z.rem_mul_r by lia. lia.
Qed.

Lemma cluster_before f p : layout f -> 0 < p -> p mod bcs f = 0 -> Z.to_nat (p / bcs f) = S (Z.to_nat ((p - 1) / bcs f)).
Proof using.
  intros Hl Hp H. pose proof (bcs_pos f Hl) as Hb. pose proof (Z.div_mod p (bcs f) ltac:(lia)) as Hd. rewrite H in Hd.
  assert (E : (p - 1) / bcs f = p / bcs f - 1) by (symmetry; apply (Z.div_unique _ _ _ (bcs f - 1)); lia).
  rewrite E. assert (1 <= p / bcs f) by nia. lia.
Qed.

Lemma cluster_inner f p q : layout f -> 0 <= p < q -> (p / SS) mod csize f * SS + p mod SS + (q - p) <= bcs f -> (q - 1) / bcs f = p / bcs f.
Proof using.
  intros Hl Hp Hle. pose proof (csize_range f Hl) as Hcs. unfold bcs, SS in *.
  pose proof (Z.div_mod p 512 ltac:(lia)). pose proof (Z.mod_pos_bound p 512 ltac:(lia)).
  pose proof (Z.div_mod (p / 512) (csize f) ltac:(lia)). pose proof (Z.mod_pos_bound (p / 512) (csize f) ltac:(lia)).
  assert (E : p / (csize f * 512) = p / 512 / csize f) by (rewrite Z.mul_comm, Z.div_div by lia; done).
  rewrite E. set (k := p / 512 / csize f) in *. set (j := (p / 512) mod csize f) in *.
  symmetry. apply (Z.div_unique _ _ _ (j * 512 + p mod 512 + (q - 1 - p))); [lia|nia].
Qed.

Lemma cluster_same f p : layout f -> 0 < p -> p mod SS <> 0 \/ (p / SS) mod csize f <> 0 -> (p - 1) / bcs f = p / bcs f.
Proof using.
  intros Hl Hp Hne. pose proof (bcs_pos f Hl) as Hb.
  pose proof (Z.div_mod p (bcs f) ltac:(lia)). pose proof (Z.mod_pos_bound p (bcs f) ltac:(lia)).
  assert (p mod bcs f <> 0).
  { intros E. unfold bcs, SS in *. pose proof (csize_range f Hl) as Hcs. rewrite Z.mul_comm, Z.rem_mul_r in E by lia.
    pose proof (Z.mod_pos_bound p 512 ltac:(lia)). pose proof (Z.mod_pos_bound (p / 512) (csize f) ltac:(lia)). lia. }
  symmetry. apply (Z.div_unique _ _ _ (p mod bcs f - 1)); lia.
Qed.

Lemma place_cluster f l p c :
  layout f -> 0 <= p -> l !! Z.to_nat (p / bcs f) = Some c -> place f l p = first_sector f c + (p / SS) mod csize f.
Proof using. intros Hl Hp Hc. unfold place. by rewrite (nth_lookup_Some _ _ _ _ Hc). Qed.

(** The object behind a transfer of [n] bytes that did not leave the cluster. *)
Lemma file_moved v fp fp' l n :
  layout (fatfs v) -> file_core v fp l -> same_file fp fp' -> f_ptr fp' = f_ptr fp + n -> 0 < n -> f_ptr fp + n <= f_size fp ->
  (f_ptr fp / SS) mod csize (fatfs v) * SS + f_ptr fp mod SS + n <= bcs (fatfs v) ->
  l !! Z.to_nat (f_ptr fp / bcs (fatfs v)) = Some (f_clust fp') ->
  ((f_ptr fp + n) mod SS <> 0 -> f_dsect fp' = place (fatfs v) l (f_ptr fp + n)) ->
  file_at v fp' l.
Proof using.
  intros Hl [H1 H2 H3] (_&_&_&E1&E2&_&_) E3 Hn Hle Hin Hc Hd. split; [split|..]; rewrite ?E1, ?E2, ?E3; try done; [lia|].
  intros _. rewrite (cluster_inner (fatfs v) (f_ptr fp)) by (done || lia). done.
Qed.

(** What a round answers: it counts [n] bytes, or the disk failed. *)
Definition round_read v fp l btr (x : FRESULT * FIL * list Z * Z) v' : Prop :=
  let '(r, fp', bs, n) := x in
  quiet v v' /\
  (r = FR_OK /\ 0 < n <= btr /\ bs = file_bytes v l (f_ptr fp) n /\ same_file fp fp' /\ f_ptr fp' = f_ptr fp /\
     file_at v' (put_ptr (f_ptr fp + n) fp') l \/
   r = FR_DISK_ERR /\ n = 0 /\ f_ptr fp' = f_ptr fp /\ ~ sound).

Lemma file_in_cluster v fp l :
  layout (fatfs v) -> file_at v fp l -> 0 < f_ptr fp < f_size fp -> f_ptr fp mod SS <> 0 \/ (f_ptr fp / SS) mod csize (fatfs v) <> 0 ->
  l !! Z.to_nat (f_ptr fp / bcs (fatfs v)) = Some (f_clust fp).
Proof using. intros Hl Hf Hp Hne. rewrite <- cluster_same by (done || lia). apply (fa_clust _ _ _ Hf). lia. Qed.

(** The bytes that come through the window. *)
Lemma read_window_ok v fp l btr :
  win_ok v -> layout (fatfs v) -> file_core v fp l -> f_ptr fp < f_size fp -> 0 < btr <= f_size fp - f_ptr fp ->
  l !! Z.to_nat (f_ptr fp / bcs (fatfs v)) = Some (f_clust fp) -> f_dsect fp = place (fatfs v) l (f_ptr fp) ->
  fwp (let o := f_ptr fp mod SS in
       let rcnt := if btr <? SS - o then btr else SS - o in
       r ← move_window (f_dsect fp);
       if decide (r = FR_OK) then l ← win_bytes o rcnt; mret (FR_OK, fp, l, rcnt)
       else mret (ABORT FR_DISK_ERR fp, [], 0)) (round_read v fp l btr) v.
Proof using.
  intros Hok Hl Hf Hlt Hbtr Hc Hd. cbn zeta. pose proof (Z.mod_pos_bound (f_ptr fp) SS ltac:(unfold SS; lia)) as Ho.
  pose proof (fc_ptr _ _ _ Hf) as Hp0.
  set (n := if btr <? SS - f_ptr fp mod SS then btr else _).
  assert (Hn : 0 < n <= btr /\ f_ptr fp mod SS + n <= SS) by (unfold n; case_z; unfold SS in *; lia).
  clearbody n. destruct Hn as [Hn Hin]. pose proof (clusters_all _ _ _ (fc_clusters _ _ _ Hf)) as Hall.
  destruct (place_primary _ _ (f_ptr fp) Hl Hall (inside_size v fp l (f_ptr fp) Hf ltac:(lia))) as (c & _ & _ & Hpl & Hprim & Hgeo).
  rewrite <- Hd in Hprim, Hgeo. assert (Hne : f_dsect fp <> 0) by (apply (primary_pos (fatfs v)); [apply Hok|done]).
  apply fwp_bind. eapply fwp_mono; [|by apply move_window_ok; [|right]]. intros r v1 Hm. pose proof (quiet_moved _ _ _ _ Hm) as Hq.
  pose proof (mv_answer _ _ _ _ Hm) as [-> | ->].
  2: { rewrite decide_False by done. apply fwp_ret. split; [done|]. right. split_and!; try done. intros S. by pose proof (mv_sound _ _ _ _ Hm S). }
  rewrite decide_True by done. apply fwp_bind, fwp_bytes; [apply (w_sector _ (mv_ok _ _ _ _ Hm))|lia|unfold SS in *; lia|].
  apply fwp_ret. split; [done|]. left. split_and!; [done|lia|lia| |by repeat split|done|].
  - rewrite file_bytes_sector by (done || lia). f_equal. f_equal. rewrite <- Hd.
    destruct (q_stays _ _ Hq) as [_ Hvw _]. rewrite <- Hvw by done. unfold view. rewrite decide_True; [done|].
    symmetry. by apply (mv_there _ _ _ _ Hm).
  - apply (file_stays v); [done|apply Hq|]. apply (file_moved v fp _ l n); try done; [lia|lia| |].
    + pose proof (byte_place_range (fatfs v) (f_ptr fp) Hl). pose proof (csize_range _ Hl). unfold bcs, SS in *. nia.
    + cbn [f_dsect put_ptr]. intros Hm2. rewrite Hd. symmetry. apply place_same; [done|lia|].
      destruct (decide (f_ptr fp mod SS + n = SS)) as [E|]; [|lia]. exfalso. apply Hm2.
      unfold SS in *. pose proof (Z.div_mod (f_ptr fp) 512 ltac:(lia)). symmetry. apply (Z.mod_unique _ _ (f_ptr fp / 512 + 1)); lia.
Qed.

(** Whole sectors, with a dirty window in front of them. *)
Lemma overlay v s (n : nat) k :
  win_ok v -> 0 < s -> s + Z.of_nat n <= 2 ^ 32 -> (forall t, s <= t < s + Z.of_nat n -> primary (fatfs v) t) ->
  k = u32 (winsect (fatfs v) - s) ->
  (if wflag (fatfs v) && (k <? Z.of_nat n) then mem_cpy (concat (content (dev v) <$> seqZ s (Z.of_nat n))) (k * SS) (win (fatfs v))
   else concat (content (dev v) <$> seqZ s (Z.of_nat n))) = concat (view v <$> seqZ s (Z.of_nat n)).
Proof using.
  intros Hok Hs Hend Hprim ->. assert (Hws : 0 <= winsect (fatfs v) < 2 ^ 32).
  { destruct (w_place _ Hok) as [-> |[? _]]; [lia|]. pose proof (g_base _ (w_geo _ Hok)). lia. }
  assert (Hout : forall a m, 0 <= m -> (forall t, a <= t < a + m -> t <> winsect (fatfs v) \/ wflag (fatfs v) = false /\ primary (fatfs v) t) ->
    content (dev v) <$> seqZ a m = view v <$> seqZ a m).
  { intros a m Hm Ha. apply bytes_shift. intros i Hi. unfold view. case_decide as E; [|done].
    destruct (Ha (a + i) ltac:(lia)) as [|[Hw Hp]]; [done|]. rewrite E. symmetry. apply (w_clean _ Hok); [done|].
    rewrite <- E. apply (primary_pos (fatfs v)); [apply Hok|done]. }
  destruct (wflag (fatfs v)) eqn:Hwf; cbn [andb].
  2: { f_equal. apply Hout; [lia|]. intros t Ht. right. split; [done|]. by apply Hprim. }
  destruct (decide (s <= winsect (fatfs v) < s + Z.of_nat n)) as [Hin|Hno].
  - rewrite wrap_small by (unfold fits; lia). zbool. set (i := winsect (fatfs v) - s).
    replace (Z.of_nat n) with (i + (1 + (Z.of_nat n - i - 1))) by lia. rewrite !seqZ_app by lia.
    rewrite !fmap_app, !concat_app. rewrite <- (Hout s i), <- (Hout (s + i + 1)) by (lia || (intros; left; lia)).
    replace (s + i) with (winsect (fatfs v)) by (unfold i; lia). change (seqZ (winsect (fatfs v)) 1) with [0 + winsect (fatfs v)].
    rewrite Z.add_0_l. cbn [fmap list_fmap concat]. rewrite !app_nil_r. unfold view at 1. rewrite decide_True by done.
    assert (Hlen : forall m, length (concat (content (dev v) <$> seqZ s m)) = (512 * Z.to_nat m)%nat).
    { intros m. rewrite <- (length_seqZ s m). induction (seqZ s m) as [|t ts IH]; [done|]. cbn [fmap list_fmap concat length].
      rewrite length_app, IH. destruct (content_sector (dev v) t) as [-> _]. lia. }
    unfold mem_cpy. replace (Z.to_nat (i * SS)) with (length (concat (content (dev v) <$> seqZ s i))) by (rewrite Hlen; unfold SS; lia).
    rewrite take_app_length. f_equal. f_equal. destruct (w_sector _ Hok) as [Hw _]. destruct (content_sector (dev v) (winsect (fatfs v))) as [Hcw _].
    rewrite Hw, <- Hcw, <- drop_drop, drop_app_length. by rewrite drop_app_length.
  - replace (_ <? _) with false; [f_equal; apply Hout; [lia|intros t Ht; left; lia]|]. symmetry. apply Z.ltb_ge.
    destruct (decide (s <= winsect (fatfs v))); [rewrite wrap_small by (unfold fits; lia); lia|].
    unfold wrap. rewrite <- (Z.mod_add _ 1) by lia. rewrite Z.mod_small by lia. lia.
Qed.

Lemma read_sectors_ok v l o cc :
  win_ok v -> layout (fatfs v) -> Forall (cluster (fatfs v)) l -> inside (fatfs v) l o -> o mod SS = 0 ->
  0 < cc -> (o / SS) mod csize (fatfs v) + cc <= csize (fatfs v) ->
  fwp (read_sectors (place (fatfs v) l o) cc) (fun x v' => quiet v v' /\
    (x.1 = RES_OK /\ x.2 = file_bytes v l o (SS * cc) \/ x.1 <> RES_OK /\ ~ sound)) v.
Proof using.
  intros Hok Hl Hall Hi Hm Hcc Hle. pose proof (csize_range _ Hl) as Hcs. pose proof (byte_place_range (fatfs v) o Hl) as Hj.
  destruct (place_primary _ _ o Hl Hall Hi) as (c & _ & Hc & Hpl & Hprim & Hgeo). pose proof (w_geo _ Hok) as [Hdrv _ Hb _ _].
  unfold read_sectors. apply fwp_bind, fwp_get, fwp_bind, fwp_dev. rewrite Hdrv, (wrap_small 8) by (unfold fits; lia). intros [r bs] d Hr.
  apply fwp_bind, fwp_get, fwp_ret. cbn [fatfs dev fst snd].
  assert (Hd : forall t, content d t = content (dev v) t) by (intros t; replace d with (d_read 0 (place (fatfs v) l o) cc (dev v)).2 by (by rewrite Hr); apply read_keeps).
  split; [by apply quiet_dev|]. destruct (decide (r = RES_OK)) as [-> |Hne].
  2: { right. split; [done|]. intros [_ Hs]. apply Hne. rewrite <- (Hs (place (fatfs v) l o) cc (dev v)) by lia. by rewrite Hr. }
  left. split; [done|]. rewrite bool_decide_true by done. cbn [andb]. rewrite (read_ok _ _ _ _ _ Hr).
  rewrite <- (Z2Nat.id cc) by lia. destruct Hi as [Hi0 _]. rewrite file_bytes_sectors by (done || lia).
  pose proof (first_sector_range _ c Hl Hc) as Hfs. apply overlay; [done|lia|lia| |done].
  intros t Ht. replace t with (first_sector (fatfs v) c + (t - first_sector (fatfs v) c)) by lia. apply data_primary; [done|done|]. lia.
Qed.

Lemma read_cluster_ok v fp l :
  win_ok v -> layout (fatfs v) -> file_at v fp l -> f_ptr fp < f_size fp -> f_ptr fp mod SS = 0 -> (f_ptr fp / SS) mod csize (fatfs v) = 0 ->
  fwp (read_cluster fp) (fun x v' => quiet v v' /\
    (exists c, x = (FR_OK, put_clust c fp) /\ l !! Z.to_nat (f_ptr fp / bcs (fatfs v)) = Some c \/ x = ABORT FR_DISK_ERR fp /\ ~ sound)) v.
Proof using.
  intros Hok Hl Hf Hlt Hm Hcs. pose proof (fa_core _ _ _ Hf) as Hcore. pose proof (fc_ptr _ _ _ Hcore) as Hp0. pose proof (cluster_start (fatfs v) (f_ptr fp) Hl ltac:(lia) Hm Hcs) as Hst.
  destruct (inside_cluster _ _ _ Hl (inside_size v fp l (f_ptr fp) Hcore ltac:(lia))) as (c & Hc & _).
  assert (Hch : chain v (f_sclust fp) l) by (destruct (fc_clusters _ _ _ Hcore) as [[_ ->]|?]; done).
  assert (Hcc : 2 <= c < 2 ^ 28).
  { destruct (chain_cluster _ _ _ _ _ Hch Hc) as [? ?]. split; [done|]. destruct (ly_table _ Hl) as [_ _ _ _ Hmk].
    eapply Z.lt_trans; [eassumption|]. eapply Z.lt_le_trans; [exact Hmk|]. apply Z.pow_le_mono_r; [lia|]. unfold entry_bits. repeat case_match; lia. }
  assert (Hfin : forall v1, quiet v v1 -> fwp (mret (if c <? 2 then ABORT FR_INT_ERR fp else if c =? DISK_ERROR then ABORT FR_DISK_ERR fp else (FR_OK, put_clust c fp)))
    (fun x v' => quiet v v' /\ (exists c, x = (FR_OK, put_clust c fp) /\ l !! Z.to_nat (f_ptr fp / bcs (fatfs v)) = Some c \/ x = ABORT FR_DISK_ERR fp /\ ~ sound)) v1).
  { intros v1 Hq. apply fwp_ret. split; [done|]. exists c. left. rewrite (proj2 (Z.ltb_ge c 2)) by lia.
    by rewrite (proj2 (Z.eqb_neq c DISK_ERROR)) by (unfold DISK_ERROR; lia). }
  unfold read_cluster. apply fwp_bind. destruct (Z.eqb_spec (f_ptr fp) 0) as [E|E].
  - apply fwp_ret. rewrite E in Hc. rewrite Z.div_0_l in Hc by (pose proof (bcs_pos _ Hl); lia). change (Z.to_nat 0) with 0%nat in Hc. rewrite (chain_first _ _ _ Hch) in Hc.
    injection Hc as ->. apply Hfin. by apply quiet_refl.
  - pose proof (fa_clust _ _ _ Hf ltac:(lia)) as Hb. rewrite (cluster_before (fatfs v) (f_ptr fp) Hl ltac:(lia) Hst) in Hc.
    eapply fwp_mono; [|apply get_fat_ok; [done|apply Hl|by eapply chain_cluster]]. intros x v1 Hg. pose proof (quiet_got _ _ _ _ Hg) as Hq.
    destruct (gt_answer _ _ _ _ Hg) as [[-> _]| ->]; [rewrite (chain_next _ _ _ _ _ _ Hch Hb Hc); by apply Hfin|].
    apply fwp_ret. split; [done|]. exists 0. right. split; [done|]. intros S. pose proof (gt_sound _ _ _ _ Hg S) as Ex.
    pose proof (entry_range v (f_clust fp) Hok). unfold DISK_ERROR in Ex. lia.
Qed.

(** The round behind the choice of the cluster. *)
(** At the start of a sector the cluster of the pointer is found. *)
Lemma round_cluster_ok v fp l :
  win_ok v -> layout (fatfs v) -> file_at v fp l -> f_ptr fp < f_size fp -> f_ptr fp mod SS = 0 ->
  fwp (if (f_ptr fp / SS) mod csize (fatfs v) =? 0 then read_cluster fp else mret (FR_OK, fp)) (fun x v1 => quiet v v1 /\
    (x.1 = FR_OK /\ same_file fp x.2 /\ f_ptr x.2 = f_ptr fp /\ l !! Z.to_nat (f_ptr fp / bcs (fatfs v)) = Some (f_clust x.2) \/ x = ABORT FR_DISK_ERR fp /\ ~ sound)) v.
Proof using.
  intros Hok Hl Hf Hlt Hm. pose proof (fc_ptr _ _ _ (fa_core _ _ _ Hf)) as Hp0. destruct (Z.eqb_spec ((f_ptr fp / SS) mod csize (fatfs v)) 0) as [Hj0|Hj0].
  - eapply fwp_mono; [|by apply read_cluster_ok]. intros x v1 (Hq & c & [[-> Hc]|[-> Hs]]); (split; [done|]); [left; by repeat split|by right].
  - apply fwp_ret. split; [by apply quiet_refl|]. left. split_and!; [done|by repeat split|done|]. cbn [snd]. pose proof (fa_core _ _ _ Hf). apply file_in_cluster; [done|done| |by right].
    split; [|done]. destruct (decide (f_ptr fp = 0)) as [E|]; [|lia]. exfalso. apply Hj0. by rewrite E.
Qed.

(** Whole sectors are read past the window. *)
Lemma read_whole_ok v v1 fp fp1 l btr :
  win_ok v -> layout (fatfs v) -> file_at v fp l -> f_ptr fp < f_size fp -> 0 < btr <= f_size fp - f_ptr fp -> f_ptr fp mod SS = 0 -> btr / SS <> 0 ->
  quiet v v1 -> same_file fp fp1 -> f_ptr fp1 = f_ptr fp -> l !! Z.to_nat (f_ptr fp / bcs (fatfs v)) = Some (f_clust fp1) ->
  let j := (f_ptr fp / SS) mod csize (fatfs v) in
  fwp (let cc := if csize (fatfs v) <? u32 (j + btr / SS) then csize (fatfs v) - j else btr / SS in
       '(r, bs) ← read_sectors (place (fatfs v) l (f_ptr fp)) cc;
       if decide (r = RES_OK) then mret (FR_OK, fp1, bs, SS * cc) else mret (ABORT FR_DISK_ERR fp1, bs, 0)) (round_read v fp l btr) v1.
Proof using.
  intros Hok Hl Hf Hlt Hbtr Hm Hd0 Hq1 Hsf Hp1 Hc j. pose proof (fa_core _ _ _ Hf) as Hcore. pose proof (fc_ptr _ _ _ Hcore) as Hp0. pose proof (fc_size _ _ _ Hcore) as [Hs32 _].
  pose proof (csize_range _ Hl) as Hcs. pose proof (byte_place_range (fatfs v) (f_ptr fp) Hl) as Hj. fold j in Hj. pose proof (quiet_alike _ _ Hq1) as Ha.
  pose proof (clusters_all _ _ _ (fc_clusters _ _ _ Hcore)) as Hall.
  assert (Hcc : 1 <= btr / SS /\ SS * (btr / SS) <= btr < 2 ^ 32).
  { unfold SS in *. pose proof (Z.div_mod btr 512 ltac:(lia)). pose proof (Z.mod_pos_bound btr 512 ltac:(lia)). pose proof (Z.div_pos btr 512 ltac:(lia) ltac:(lia)). lia. }
  rewrite (wrap_small 32) by (unfold fits, SS in *; lia). set (cc := if csize (fatfs v) <? j + btr / SS then csize (fatfs v) - j else btr / SS).
  assert (Hc1 : 0 < cc /\ j + cc <= csize (fatfs v) /\ SS * cc <= btr) by (unfold cc, SS in *; case_z; lia). clearbody cc. destruct Hc1 as (Hc1 & Hc2 & Hc3). cbn zeta.
  assert (Hin : inside (fatfs v) l (f_ptr fp)) by (apply (inside_size v fp); [done|lia]).
  rewrite <- (alike_place _ _ l (f_ptr fp) Ha). apply fwp_bind. eapply fwp_mono; [|apply read_sectors_ok; [apply Hq1|by eapply alike_layout| | |done|done|]].
  2: by eapply Forall_impl; [exact Hall|]; intros x; apply (alike_cluster _ _ x Ha).
  2: unfold inside, bcs in *; by rewrite Ha.
  2: by replace (csize (fatfs v1)) with (csize (fatfs v)) by (by rewrite Ha).
  intros [r bs] v2 (Hq2 & Hx). cbn [fst snd] in Hx. pose proof (quiet_trans _ _ _ Hq1 Hq2) as Hq. destruct Hx as [[-> ->]|[Hne2 Hs]].
  2: { rewrite decide_False by done. apply fwp_ret. split; [done|]. right. split_and!; done. }
  rewrite decide_True by done. apply fwp_ret. split; [done|]. left. split_and!; [done|unfold SS; lia|done| |done|done|].
  - apply bytes_shift. intros i Hi. apply file_byte_stays; [done|done| |apply Hq1]. apply (inside_size v fp); [done|lia].
  - apply (file_stays v); [done|apply Hq|]. apply (file_moved v fp _ l (SS * cc)); try done; [unfold SS; lia|lia|unfold bcs, SS in *; nia|].
    intros Hm2. exfalso. apply Hm2. unfold SS in *. rewrite (Z.mul_comm 512), Z.mod_add by lia. done.
Qed.

Lemma read_round_ok v fp l btr :
  win_ok v -> layout (fatfs v) -> file_at v fp l -> f_ptr fp < f_size fp -> 0 < btr <= f_size fp - f_ptr fp ->
  fwp (read_round fp btr) (round_read v fp l btr) v.
Proof using.
  intros Hok Hl Hf Hlt Hbtr. pose proof (fa_core _ _ _ Hf) as Hcore. pose proof (fc_ptr _ _ _ Hcore) as Hp0.
  pose proof (csize_range _ Hl) as Hcs. pose proof (byte_place_range (fatfs v) (f_ptr fp) Hl) as Hj.
  unfold read_round. apply fwp_bind, fwp_get. cbn zeta. destruct (Z.eqb_spec (f_ptr fp mod SS) 0) as [Hm|Hm].
  2: { apply read_window_ok; try done.
    - apply file_in_cluster; [done|done| |by left]. split; [|done]. destruct (decide (f_ptr fp = 0)) as [E|]; [by rewrite E in Hm|lia].
    - by apply (fa_dsect _ _ _ Hf). }
  rewrite csect_mod by (done || lia). apply fwp_bind. eapply fwp_mono; [|by apply round_cluster_ok]. set (j := (f_ptr fp / SS) mod csize (fatfs v)) in *.
  intros [r fp1] v1 (Hq1 & Hx). cbn [fst snd] in Hx. destruct Hx as [(-> & Hsf & Hp1 & Hc)|[[= -> ->] Hs]].
  2: { rewrite decide_False by done. apply fwp_ret. split; [done|]. right. by split_and!. }
  rewrite decide_True by done. apply fwp_bind, fwp_get. pose proof (quiet_alike _ _ Hq1) as Ha. pose proof (alike_layout _ _ Ha Hl) as Hl1.
  pose proof (clusters_all _ _ _ (fc_clusters _ _ _ Hcore)) as Hall. assert (Hcl : cluster (fatfs v) (f_clust fp1)) by (by eapply Forall_lookup).
  destruct (clust2sect_cluster (fatfs v1) (f_clust fp1) Hl1 ltac:(by apply (alike_cluster _ _ _ Ha))) as [-> Hne].
  replace (first_sector (fatfs v1) (f_clust fp1) =? 0) with false by (symmetry; by apply Z.eqb_neq).
  assert (Hpl : u32 (first_sector (fatfs v1) (f_clust fp1) + j) = place (fatfs v) l (f_ptr fp)).
  { rewrite (place_cluster (fatfs v) l (f_ptr fp) (f_clust fp1) Hl ltac:(lia) Hc). fold j. replace (first_sector (fatfs v1) (f_clust fp1)) with (first_sector (fatfs v) (f_clust fp1)) by (by rewrite Ha).
    destruct (data_primary _ _ j Hl Hcl Hj) as [_ ?]. pose proof (w_geo _ Hok) as []. apply wrap_small. unfold fits. nia. }
  rewrite Hpl. replace (csize (fatfs v1)) with (csize (fatfs v)) by (by rewrite Ha).
  cbn zeta. destruct (Z.eqb_spec (btr / SS) 0) as [Hd0|Hd0]; cbn [negb]; [|by apply (read_whole_ok v v1)].
  assert (Hback : forall x v2, round_read v1 (put_dsect (place (fatfs v) l (f_ptr fp)) fp1) l btr x v2 -> round_read v fp l btr x v2).
  { intros [[[r bs] fp'] n] v2 [Hq2 Hx]. split; [by eapply quiet_trans|]. cbn [f_ptr put_dsect] in Hx. rewrite Hp1 in Hx.
    destruct Hx as [(H1 & H2 & H3 & H4 & H5 & H6)|Hx]; [left|by right]. split_and!; try done; [lia|lia| |by eapply same_file_trans].
    rewrite H3. apply bytes_shift. intros i Hi. apply file_byte_stays; [done|done| |apply Hq1]. apply (inside_size v fp); [done|lia]. }
  eapply fwp_mono; [intros x v2; apply Hback|]. pose proof Hsf as (_&_&_&Hsz&_&_&_). apply read_window_ok; cbn [f_ptr f_size f_dsect f_clust put_dsect]; rewrite ?Hp1, ?Hsz; try done.
  - apply Hq1.
  - assert (Hcore1 : file_core v1 fp1 l) by (apply (same_core v1 fp); [done|done|by apply (core_stays v); [..|apply Hq1|]]). by apply (same_core v1 fp1).
  - by replace (bcs (fatfs v1)) with (bcs (fatfs v)) by (by rewrite Ha).
  - by rewrite (alike_place _ _ _ _ Ha).
Qed.

(** The bytes stored and counted from [br] on; what is stored behind them is a
    transfer that failed. *)
Definition rounds_read v fp l btr (br : Z) (buff : list Z) (x : FRESULT * FIL * list Z * Z) v' : Prop :=
  let '(r, fp', bs, n) := x in
  quiet v v' /\ exists k rest, 0 <= k <= btr /\ n = br + k /\ bs = buff ++ file_bytes v l (f_ptr fp) k ++ rest /\ f_ptr fp' = f_ptr fp + k /\
  (r = FR_OK /\ k = btr /\ rest = [] /\ same_file fp fp' /\ file_at v' fp' l \/ r = FR_DISK_ERR /\ ~ sound).

Lemma read_rounds_ok fuel v fp l btr br buff :
  win_ok v -> layout (fatfs v) -> file_at v fp l -> 0 <= btr <= f_size fp - f_ptr fp -> btr <= Z.of_nat fuel -> 0 <= br -> br + btr < 2 ^ 32 ->
  fwp (read_rounds fuel fp btr br buff) (rounds_read v fp l btr br buff) v.
Proof using.
  revert v fp btr br buff. induction fuel as [|n IH]; intros v fp btr br buff Hok Hl Hf Hbtr Hfuel Hbr Hsum; cbn [read_rounds];
    (destruct (Z.eqb_spec btr 0) as [-> |Hne];
      [apply fwp_ret; split; [by apply quiet_refl|]; exists 0, []; rewrite file_bytes_0, !app_nil_r; split_and!; try done; [lia|lia|left; split_and!; by try apply same_file_refl]|]); [lia|].
  pose proof (fa_core _ _ _ Hf) as Hcore. pose proof (fc_ptr _ _ _ Hcore) as Hp0. pose proof (fc_size _ _ _ Hcore) as [Hs32 _].
  apply fwp_bind. eapply fwp_mono; [|apply read_round_ok; done || lia]. intros [[[r fp1] bs] k] v1 [Hq1 Hx].
  destruct Hx as [(-> & Hk & -> & Hsf & Hp1 & Hf1)|(-> & -> & Hp1 & Hs)].
  2: { rewrite decide_False by done. apply fwp_ret. split; [done|]. exists 0, bs. rewrite file_bytes_0. split_and!; try done; [lia|lia|lia|by right]. }
  rewrite decide_True by done. rewrite Hp1, !(wrap_small 32) by (unfold fits; lia). pose proof Hsf as (_&_&_&Hsz&_&_&_).
  pose proof (quiet_alike _ _ Hq1) as Ha. eapply fwp_mono; [|apply IH; cbn [f_ptr f_size put_ptr]; rewrite ?Hsz; try done; [apply Hq1|by eapply alike_layout|lia..]].
  intros [[[r fp2] bs] m] v2 (Hq2 & k2 & rest & Hk2 & -> & -> & Hp2 & Hr). cbn [f_ptr put_ptr] in *.
  split; [by eapply quiet_trans|]. exists (k + k2), rest. split_and!; try lia.
  - rewrite file_bytes_app by lia. rewrite <- !app_assoc. do 3 f_equal. apply bytes_shift. intros i Hi. apply file_byte_stays; [done| | |apply Hq1].
    + by apply (clusters_all v _ _ (fc_clusters _ _ _ Hcore)).
    + apply (inside_size v fp); [done|lia].
  - destruct Hr as [(-> & -> & -> & Hsf2 & Hf2)|Hr]; [left|by right]. split_and!; [done|lia|done| |done].
    eapply same_file_trans; [exact Hsf|]. exact Hsf2.
Qed.

(** ** The checks before *)

Definition file_answer (r : FRESULT) : Prop := r = FR_INVALID_OBJECT \/ r = FR_NOT_READY \/ r = FR_INT_ERR \/ r = FR_DENIED.

(** The object belongs to the mounted volume, no error has stuck to it, and the
    access is allowed. *)
Definition usable (f : FATFS) (fp : FIL) (access : Z) : Prop :=
  f_fs fp = true /\ fs_type f <> 0 /\ fs_id f = f_id fp /\ flagged FA__ERROR fp = false /\ (access = 0 \/ flagged access fp = true).

(** The drive is initialised. *)
Definition drive_ready : Prop := forall d : DK, Z.land (d_status 0 d).1 STA_NOINIT = 0.

(** One of the answers of the checks, when they have a reason. *)
Definition refused (f : FATFS) (fp : FIL) (access : Z) (r : FRESULT) : Prop := file_answer r /\ ~ (usable f fp access /\ drive_ready).

Lemma refused_error f fp access r : refused f fp access r -> r <> FR_OK /\ r <> FR_DISK_ERR.
Proof using. by intros [[-> |[-> |[-> | ->]]] _]. Qed.

(** An object of the mounted volume, on a drive that is ready. *)
Lemma validate_ready (s : fsys) id :
  drive_ready -> win_ok (volume s) -> fs_type (fatfs (volume s)) <> 0 -> id = fs_id (fatfs (volume s)) ->
  gwp (validate true id) (fun r s' => r = FR_OK /\ quiet (volume s) (volume s') /\ fatfs (volume s') = fatfs (volume s)) s.
Proof using.
  intros Hdr Hok Ht ->. unfold validate. apply gwp_bind, gwp_vol, fwp_get. replace (with_volume s (volume s)) with s by (by destruct s).
  rewrite (proj2 (Z.eqb_neq _ _)), Z.eqb_refl by done. cbn [negb orb]. apply gwp_bind, gwp_vol, fwp_dev. rewrite (g_drv _ (w_geo _ Hok)). intros stat d Hst.
  apply gwp_ret. cbn [volume with_volume fatfs dev]. split_and!; [| |done].
  - replace stat with (d_status 0 (dev (volume s))).1 by (by rewrite Hst). by rewrite Hdr.
  - apply quiet_dev; [done|]. intros t. replace d with (d_status 0 (dev (volume s))).2 by (by rewrite Hst). apply status_keeps.
Qed.

Lemma check_file_ok (s : fsys) fp access :
  win_ok (volume s) ->
  gwp (check_file fp access) (fun r s' => quiet (volume s) (volume s') /\ fatfs (volume s') = fatfs (volume s) /\ registered s' = registered s /\
    Fsid s' = Fsid s /\ CurrVol s' = CurrVol s /\ (r = FR_OK /\ usable (fatfs (volume s)) fp access \/ refused (fatfs (volume s)) fp access r)) s.
Proof using.
  intros Hok. unfold check_file, validate. apply gwp_bind, gwp_bind, gwp_vol, fwp_get. replace (with_volume s (volume s)) with s by (by destruct s).
  destruct (negb (f_fs fp) || (fs_type (fatfs (volume s)) =? 0) || negb (fs_id (fatfs (volume s)) =? f_id fp)) eqn:E.
  { apply gwp_ret, gwp_ret. rewrite decide_False by done. split_and!; [by apply quiet_refl|done..|]. right. split; [by left|]. intros [(H1 & H2 & H3 & _) _].
    rewrite H1, (proj2 (Z.eqb_neq _ _) H2), (proj2 (Z.eqb_eq _ _) H3) in E. done. }
  apply orb_false_iff in E as [[E1 E2]%orb_false_iff E3]. apply negb_false_iff in E1, E3. apply Z.eqb_neq in E2. apply Z.eqb_eq in E3.
  pose proof (g_drv _ (w_geo _ Hok)) as Hd. apply gwp_bind, gwp_vol, fwp_dev. rewrite Hd. intros stat d Hst. cbn [fatfs dev].
  apply gwp_ret, gwp_ret. unfold with_volume. cbn [volume registered Fsid CurrVol fatfs].
  split_and!; [apply quiet_dev; [done|]; intros t; replace d with (d_status 0 (dev (volume s))).2 by (by rewrite Hst); apply status_keeps|done..|].
  destruct (Z.eqb_spec (Z.land stat STA_NOINIT) 0) as [E6|E6]; [rewrite decide_True by done|rewrite decide_False by done; right; split; [by right; left|]].
  2: { intros [_ Hr]. apply E6. rewrite <- (Hr (dev (volume s))). by rewrite Hst. }
  destruct (flagged FA__ERROR fp) eqn:E4; [right; split; [by right; right; left|]; intros [(_ & _ & _ & H4 & _) _]; congruence|].
  destruct (negb (access =? 0) && negb (flagged access fp)) eqn:E5.
  - right. split; [by right; right; right|]. intros [(_ & _ & _ & _ & [-> |H5]) _]; [done|]. rewrite H5, andb_false_r in E5. done.
  - left. split; [done|]. split_and!; try done. apply andb_false_iff in E5 as [E5|E5]; apply negb_false_iff in E5; [left; by apply Z.eqb_eq|by right].
Qed.

(** What [f_read] answers. *)
Definition read_answer v fp l btr (x : FRESULT * FIL * list Z * Z) v' : Prop :=
  let '(r, fp', buff, br) := x in
  quiet v v' /\
  0 <= br <= Z.min btr (f_size fp - f_ptr fp) /\
  take (Z.to_nat br) buff = file_bytes v l (f_ptr fp) br /\
  f_ptr fp' = f_ptr fp + br /\
  (r = FR_OK -> br = Z.min btr (f_size fp - f_ptr fp) /\ zlen buff = br /\ same_file fp fp' /\ file_at v' fp' l) /\
  (r = FR_OK /\ usable (fatfs v) fp FA_READ \/ refused (fatfs v) fp FA_READ r /\ br = 0 /\ fp' = fp \/ r = FR_DISK_ERR /\ ~ sound).

(** The contents of a file on the volume that stays. *)
Lemma file_bytes_stay v v' fp l o n :
  layout (fatfs v) -> file_core v fp l -> 0 <= o -> o + n <= f_size fp -> stays v v' -> file_bytes v' l o n = file_bytes v l o n.
Proof using.
  intros Hl Hf Ho Hn Hst. apply bytes_shift. intros i Hi. apply file_byte_stays; [done|by apply (clusters_all v _ _ (fc_clusters _ _ _ Hf))| |done].
  apply (inside_size v fp); [done|lia].
Qed.

Lemma f_read_ok (s : fsys) fp l btr :
  win_ok (volume s) -> layout (fatfs (volume s)) -> file_at (volume s) fp l -> 0 <= btr < 2 ^ 32 ->
  gwp (f_read fp btr) (fun x s' => read_answer (volume s) fp l btr x (volume s')) s.
Proof using.
  intros Hok Hl Hf Hbtr. pose proof (fa_core _ _ _ Hf) as Hcore. pose proof (fc_ptr _ _ _ Hcore) as Hp0. pose proof (fc_size _ _ _ Hcore) as [Hs32 _].
  unfold f_read. apply gwp_bind. eapply gwp_mono; [|by apply check_file_ok]. intros r0 s1 (Hq1 & Hf1 & _ & _ & _ & Hr).
  destruct Hr as [[-> Hu]|Hr].
  2: { pose proof (refused_error _ _ _ _ Hr) as [Hne _]. rewrite decide_False by done. apply gwp_ret. split_and!; [done|lia|lia|done|lia|done|right; left; by split_and!]. }
  rewrite decide_True by done. rewrite wrap_small by (unfold fits; lia). set (n := if f_size fp - f_ptr fp <? btr then _ else btr).
  assert (Hn : n = Z.min btr (f_size fp - f_ptr fp)) by (unfold n; case_z; lia). clearbody n. apply gwp_vol.
  pose proof (file_stays _ _ _ _ Hl (q_stays _ _ Hq1) Hf) as Hfs.
  eapply fwp_mono; [|apply (read_rounds_ok _ _ _ l); [apply Hq1|by rewrite Hf1|done|lia..]].
  intros [[[r fp'] bs] m] v' (Hq2 & k & rest & Hk & -> & -> & Hp & Hx). cbn [app with_volume volume]. rewrite Z.add_0_l.
  assert (Hb : file_bytes (volume s1) l (f_ptr fp) k = file_bytes (volume s) l (f_ptr fp) k).
  { apply (file_bytes_stay _ _ fp); [done|done|lia|lia|apply Hq1]. }
  rewrite Hb. assert (Hlen : length (file_bytes (volume s) l (f_ptr fp) k) = Z.to_nat k) by (pose proof (file_bytes_length (volume s) l (f_ptr fp) k ltac:(lia)); unfold zlen in *; lia).
  split_and!; [by eapply quiet_trans|lia|lia| |done| |].
  - rewrite <- Hlen. apply take_app_length.
  - intros ->. destruct Hx as [(_ & -> & -> & Hsf & Hfat)|[? _]]; [|done]. split_and!; [done| |done|done]. unfold zlen. rewrite app_nil_r, Hlen. lia.
  - destruct Hx as [(-> & _)|[-> ?]]; [by left|by right; right].
Qed.

(** (C15) Reading from an open file ends on every disk and changes nothing.  The bytes it
    counts are the bytes of the file's chain of clusters from the pointer on, stored
    at the start of the buffer, and the pointer moves behind them, whatever fails
    afterwards.  A success means that all bytes asked for, up to the end of the
    file, are there; on a disk without faults only the checks of the object
    refuse. *)
Theorem f_read_delivers (s : fsys) fp l btr :
  win_ok (volume s) -> layout (fatfs (volume s)) -> file_at (volume s) fp l -> 0 <= btr < 2 ^ 32 ->
  exists r fp' buff br s', f_read fp btr s = Some ((r, fp', buff, br), s') /\ quiet (volume s) (volume s') /\
    0 <= br <= Z.min btr (f_size fp - f_ptr fp) /\
    take (Z.to_nat br) buff = file_bytes (volume s) l (f_ptr fp) br /\
    f_ptr fp' = f_ptr fp + br /\
    (r = FR_OK -> br = Z.min btr (f_size fp - f_ptr fp) /\ zlen buff = br /\ same_file fp fp' /\ file_at (volume s') fp' l) /\
    (r = FR_OK /\ usable (fatfs (volume s)) fp FA_READ \/ refused (fatfs (volume s)) fp FA_READ r /\ br = 0 /\ fp' = fp \/ r = FR_DISK_ERR /\ ~ sound).
Proof using.
  intros Hok Hl Hf Hbtr. destruct (gwp_run _ _ _ (f_read_ok s fp l btr Hok Hl Hf Hbtr)) as ([[[r fp'] buff] br] & s' & Hrun & H1).
  by exists r, fp', buff, br, s'.
Qed.

End FatRead.
