(* ===== verification/FatWrite.v ===== *)
(** * Writing files

    On a disk without faults [f_write] stores its bytes in the file's chain of
    clusters, makes the chain longer where it must, and touches nothing else. *)

From S2P Require Import Prelude Diskio FatVol FatBytes FatWin FatTable FatChain FatMount FatDir FatFile FatData FatRead.

Section FatWrite.

Context {DK : Type} {HD : Disk DK} {HS : Store DK}.

Implicit Types v : vol (DK := DK).

(** ** What changes *)

Definition in_cluster (f : FATFS) (c t : Z) : Prop := first_sector f c <= t < first_sector f c + csize f.

(** The chain [l] of a file became [l'] with clusters that were free; outside of
    [l'] neither links nor data changed. *)
Record grew v (l : list Z) v' (l' : list Z) : Prop := {
  gr_ok : win_ok v';
  gr_alike : alike (fatfs v) (fatfs v');
  gr_mirrors : reliable -> mirrored v -> mirrored v';
  gr_last : 0 <= last_clust (fatfs v) -> 0 <= last_clust (fatfs v');
  gr_new : exists ext, l' = l ++ ext /\ Forall (fun c => cluster (fatfs v) c /\ entry v c = 0) ext;
  gr_entries : forall x, cluster (fatfs v) x -> x ∉ l' -> entry v' x = entry v x;
  gr_data : forall t, primary (fatfs v) t -> fatbase (fatfs v) + fsize (fatfs v) <= t -> (forall c, c ∈ l' -> ~ in_cluster (fatfs v) c t) -> view v' t = view v t
}.

Lemma grew_trans u v w l1 l2 l3 :
  (forall x, x ∈ l2 -> entry v x <> 0) -> grew u l1 v l2 -> grew v l2 w l3 -> grew u l1 w l3.
Proof using.
  intros Hnz [H1 H2 H3 H4 (e1 & -> & H5) H6 H7] [K1 K2 K3 K4 (e2 & -> & K5) K6 K7].
  assert (Hcl : forall x, cluster (fatfs v) x <-> cluster (fatfs u) x) by (intros x; by apply alike_cluster).
  split; [done|by etrans|by auto|by auto| | |].
  - exists (e1 ++ e2). split; [by rewrite app_assoc|]. apply Forall_app. split; [done|]. apply Forall_forall. intros x Hx.
    destruct (proj1 (Forall_forall _ _) K5 x Hx) as [Hc E]. apply Hcl in Hc. split; [done|]. rewrite <- H6; [done|done|].
    intros Hin. by apply (Hnz x).
  - intros x Hx Hn. rewrite K6; [apply H6; [done|]|by apply Hcl|done]. intros Hin. apply Hn. apply elem_of_app. by left.
  - intros t Ht Hge Hno. rewrite K7.
    + apply H7; [done|done|]. intros c Hc. apply Hno. apply elem_of_app. by left.
    + by apply (alike_primary _ _ _ H2).
    + by rewrite H2.
    + intros c Hc. assert (E : in_cluster (fatfs v) c t <-> in_cluster (fatfs u) c t) by (by rewrite H2). rewrite E. by apply Hno.
Qed.

Lemma clusters_used v c l x : clusters v c l -> x ∈ l -> entry v x <> 0.
Proof using.
  intros [[_ ->]|(_ & _ & d & Hp & _)] Hx; [by apply elem_of_nil in Hx|]. pose proof (path_links _ _ _ _ _ Hp Hx). lia.
Qed.

Lemma clusters_nodup v c l : clusters v c l -> NoDup l.
Proof using. intros [[_ ->]|H]; [constructor|by eapply chain_nodup]. Qed.

Lemma quiet_grew v v' c l : table_ok (fatfs v) -> quiet v v' -> clusters v c l -> grew v l v' l.
Proof using.
  intros Ht [H1 H2 H3] Hc. pose proof H2 as [H4 H5 _]. split; [done|by apply same_alike|done|by rewrite H4| | |].
  - exists []. by rewrite app_nil_r.
  - intros x Hx _. by apply entry_stays.
  - auto.
Qed.

(** ** Places *)

Lemma place_app f l ext i : layout f -> inside f l i -> place f (l ++ ext) i = place f l i.
Proof using.
  intros Hl Hi. destruct (inside_cluster f l i Hl Hi) as (c & Hc & E). unfold place. rewrite E.
  by rewrite (nth_lookup_Some _ _ _ c) by (by apply lookup_app_l_Some).
Qed.

Lemma place_inj f l i i' :
  layout f -> NoDup l -> inside f l i -> inside f l i' -> place f l i = place f l i' -> i / SS = i' / SS.
Proof using.
  intros Hl Hnd Hi Hi'. destruct (inside_cluster f l i Hl Hi) as (c & Hc & E). destruct (inside_cluster f l i' Hl Hi') as (c' & Hc' & E').
  pose proof (byte_place_range f i Hl) as R. pose proof (byte_place_range f i' Hl) as R'. unfold place. rewrite E, E'. intros Heq.
  destruct (first_sector_inj f c _ c' _ R R' Heq) as [-> Hj]. pose proof (NoDup_lookup _ _ _ _ Hnd Hc Hc') as Hq.
  destruct Hi as [Hi _], Hi' as [Hi' _]. pose proof (csize_range f Hl) as Hcs. pose proof (bcs_pos f Hl).
  assert (Hq2 : i / bcs f = i' / bcs f).
  { pose proof (Z.div_pos i (bcs f) ltac:(lia) ltac:(lia)). pose proof (Z.div_pos i' (bcs f) ltac:(lia) ltac:(lia)). lia. }
  unfold bcs, SS in *. rewrite (Z.mul_comm (csize f)), <- !Z.div_div in Hq2 by lia.
  rewrite (Z.div_mod (i / 512) (csize f)), (Z.div_mod (i' / 512) (csize f)) by lia. by rewrite Hq2, Hj.
Qed.

(** Sectors further in the cluster. *)
Lemma place_plus f l o k :
  layout f -> 0 <= o -> o mod SS = 0 -> 0 <= k -> (o / SS) mod csize f + k < csize f -> place f l (o + SS * k) = place f l o + k.
Proof using.
  intros Hl Ho Hm Hk. revert k Hk. apply (natlike_ind (fun k => (o / SS) mod csize f + k < csize f -> place f l (o + SS * k) = place f l o + k)).
  - intros _. by rewrite Z.mul_0_r, !Z.add_0_r.
  - intros k Hk IH Hlt. unfold Z.succ in *. replace (o + SS * (k + 1)) with ((o + SS * k) + SS) by lia.
    pose proof (csize_range f Hl) as Hcs. pose proof (Z.mod_pos_bound (o / SS) (csize f) ltac:(lia)).
    assert (E : (o + SS * k) / SS = o / SS + k) by (unfold SS in *; rewrite (Z.mul_comm 512); by rewrite Z.div_add by lia).
    assert (E2 : (o / SS + k) mod csize f = (o / SS) mod csize f + k).
    { symmetry. apply (Z.mod_unique _ _ (o / SS / csize f)); [lia|]. pose proof (Z.div_mod (o / SS) (csize f) ltac:(lia)). lia. }
    rewrite place_next; [rewrite IH by lia; lia|done|unfold SS in *; lia| |rewrite E, E2; lia].
    unfold SS in *. rewrite (Z.mul_comm 512). by rewrite Z.mod_add by lia.
Qed.

Lemma inside_lookup f l i c : layout f -> 0 <= i -> l !! Z.to_nat (i / bcs f) = Some c -> inside f l i.
Proof using.
  intros Hl Hi Hc. apply lookup_lt_Some in Hc. pose proof (bcs_pos f Hl) as Hb. unfold inside, zlen. pose proof (Z.div_mod i (bcs f) ltac:(lia)).
  pose proof (Z.mod_pos_bound i (bcs f) ltac:(lia)). pose proof (Z.div_pos i (bcs f) ltac:(lia) ltac:(lia)). nia.
Qed.

Lemma place_in_cluster f l i c : layout f -> l !! Z.to_nat (i / bcs f) = Some c -> in_cluster f c (place f l i).
Proof using.
  intros Hl Hc. pose proof (byte_place_range f i Hl). unfold place, in_cluster. rewrite (nth_lookup_Some _ _ _ _ Hc). lia.
Qed.

(** ** The bytes of the file *)

(** [n] bytes of [w] are at [p], and the others up to [size] are as they were. *)
Definition spliced v l v' l' (size p n : Z) (w : list Z) : Prop :=
  forall i, 0 <= i < Z.max size (p + n) -> file_byte v' l' i = if decide (p <= i < p + n) then byte_at w (i - p) else file_byte v l i.

(** ** Through the window *)

(** Bytes are put into the window, which is at the sector [t] or was put there
    when it was clean. *)
Lemma poke_ok v v1 t o w :
  win_ok v -> dev v1 = dev v -> fatfs v1 = with_window (wflag (fatfs v1)) t (win (fatfs v1)) (fatfs v) -> sector (win (fatfs v1)) ->
  wflag (fatfs v) = false \/ winsect (fatfs v) = t ->
  primary (fatfs v) t -> fatbase (fatfs v) + n_fats (fatfs v) * fsize (fatfs v) <= t -> Forall is_byte w -> 0 <= o -> o + zlen w <= 512 ->
  let v' := mkVol (set_wflag true (set_win (mem_cpy (win (fatfs v1)) o w) (fatfs v1))) (dev v1) in
  win_ok v' /\ same (fatfs v) (fatfs v') /\ (forall s, primary (fatfs v) s -> s <> t -> view v' s = view v s) /\
    view v' t = mem_cpy (win (fatfs v1)) o w /\ (mirrored v -> mirrored v').
Proof using.
  intros Hok Hd Hf Hw Hst Hp Hbase Hb Ho Hle. rewrite Hf, Hd. cbn zeta. set (b := mem_cpy _ o w).
  assert (Hsec : sector b) by (by apply cpy_sector). pose proof (w_geo _ Hok) as Hg. pose proof (primary_pos _ _ Hg Hp) as Hne.
  split_and!; [split|done| | |]; cbn; try done; [by apply (same_geometry (fatfs v))|by right| | |].
  - intros s Hs Hst2. unfold view. cbn. rewrite decide_False by done. case_decide as E; [|done].
    destruct Hst as [Hwf|Hst]; [|congruence]. rewrite E. symmetry. apply (w_clean _ Hok); [done|]. rewrite <- E. by apply (primary_pos (fatfs v)).
  - unfold view. cbn. by rewrite decide_True.
  - intros Hm Hn s Hs _. cbn [fatfs dev] in *. apply Hm; [done|exact Hs|].
    destruct Hst as [|Hst]; [by left|right]. rewrite Hst. cbn in Hs. destruct Hg. cbn in Hn. nia.
Qed.

Lemma spliced_window v v' l p size (old : list Z) w :
  layout (fatfs v) -> NoDup l -> Forall (cluster (fatfs v)) l -> 0 <= size <= bcs (fatfs v) * zlen l -> 0 <= p -> alike (fatfs v) (fatfs v') ->
  0 < zlen w -> p mod SS + zlen w <= SS -> p + zlen w <= bcs (fatfs v) * zlen l -> length old = 512%nat ->
  (forall s, primary (fatfs v) s -> s <> place (fatfs v) l p -> view v' s = view v s) ->
  view v' (place (fatfs v) l p) = mem_cpy old (p mod SS) w ->
  (old = view v (place (fatfs v) l p) \/ size <= p /\ p mod SS = 0) ->
  spliced v l v' l size p (zlen w) w.
Proof using.
  intros Hl Hnd Hall Hsz Hp Ha Hn Hle Hin Hold Ho Hv Hw i Hi. unfold file_byte. rewrite (alike_place _ _ l i Ha).
  assert (Hini : inside (fatfs v) l i) by (unfold inside; lia). assert (Hinp : inside (fatfs v) l p) by (unfold inside; lia).
  pose proof (Z.mod_pos_bound p SS ltac:(unfold SS; lia)) as Hpm. pose proof (Z.mod_pos_bound i SS ltac:(unfold SS; lia)) as Him.
  pose proof (Z.div_mod p SS ltac:(unfold SS; lia)) as Dp. pose proof (Z.div_mod i SS ltac:(unfold SS; lia)) as Di.
  destruct (decide (i / SS = p / SS)) as [Eq|Ne].
  - assert (Hpl : place (fatfs v) l i = place (fatfs v) l p).
    { unfold place, bcs. rewrite (Z.mul_comm (csize (fatfs v))), <- !Z.div_div by (pose proof (csize_range _ Hl); unfold SS; lia). by rewrite Eq. }
    rewrite Hpl, Hv. rewrite byte_at_cpy by (unfold zlen in *; rewrite ?Hold; unfold SS in *; lia). destruct (decide (p <= i < p + zlen w)).
    + rewrite decide_True by lia. f_equal. lia.
    + rewrite decide_False by lia. destruct Hw as [-> |[Hw1 Hw2]]; [done|]. exfalso. lia.
  - assert (Hpl : place (fatfs v) l i <> place (fatfs v) l p).
    { intros E. apply Ne. by apply (place_inj (fatfs v) l). }
    destruct (place_primary _ _ i Hl Hall Hini) as (_ & _ & _ & _ & Hpr & _). rewrite Ho by done.
    rewrite decide_False; [done|]. unfold SS in *. intros Hr. apply Ne. apply (Z.div_unique _ _ _ (p mod 512 + (i - p))) || symmetry; [lia|].
    lia.
Qed.

(** ** Whole sectors *)

Lemma blocks_lookup n l i : (i < n)%nat -> blocks n l !! i = Some (take 512 (drop (512 * i) l)).
Proof using.
  revert l i. induction n as [|n IH]; intros l i Hi; [lia|]. cbn [blocks]. change (Z.to_nat SS) with 512%nat. destruct i as [|i].
  - done.
  - cbn [lookup list_lookup]. rewrite IH by lia. rewrite drop_drop. do 3 f_equal. lia.
Qed.

Lemma blocks_length n l : length (blocks n l) = n.
Proof using. revert l. induction n as [|n IH]; intros l; [done|]. cbn [blocks length]. by rewrite IH. Qed.

Definition block (w : list Z) (k : Z) : list Z := take 512 (drop (Z.to_nat (SS * k)) w).

Lemma block_sector w k : Forall is_byte w -> 0 <= k -> SS * k + SS <= zlen w -> sector (block w k).
Proof using.
  intros Hw Hk Hle. unfold block, zlen, SS in *. split; [rewrite length_take, length_drop; lia|]. by apply Forall_take, Forall_drop.
Qed.

(** Sectors [t], ..., [t + cc - 1] take the bytes; the window follows. *)
Lemma write_sectors_ok v t cc w :
  sound -> win_ok v -> 0 < cc <= 128 -> (forall s, t <= s < t + cc -> primary (fatfs v) s /\ fatbase (fatfs v) + n_fats (fatfs v) * fsize (fatfs v) <= s < 2 ^ 32) ->
  SS * cc <= zlen w -> Forall is_byte w ->
  fwp (write_sectors t cc w) (fun r v' => r = RES_OK /\ win_ok v' /\ same (fatfs v) (fatfs v') /\ (mirrored v -> mirrored v') /\
    (forall k, 0 <= k < cc -> view v' (t + k) = block w k) /\ (forall s, primary (fatfs v) s -> s < t \/ t + cc <= s -> view v' s = view v s)) v.
Proof using.
  intros [Hrel _] Hok Hcc Hts Hlen Hw. pose proof (w_geo _ Hok) as Hg. pose proof Hg as [Hdrv _ Hfb _ _].
  pose proof (Hts t ltac:(lia)) as [[Ht0 _] Htb]. pose proof (Hts (t + cc - 1) ltac:(lia)) as [_ Hte].
  unfold write_sectors. apply fwp_bind, fwp_get, fwp_bind, fwp_dev. rewrite Hdrv, (wrap_small 8) by (unfold fits; lia). intros r d Hr. cbn [fatfs dev].
  assert (r = RES_OK) as -> by (rewrite <- (Hrel (blocks (Z.to_nat cc) w) t (dev v)); by rewrite Hr).
  rewrite bool_decide_true by done. cbn [andb].
  assert (Hin : forall k, 0 <= k < cc -> content d (t + k) = block w k).
  { intros k Hk. rewrite <- (Z2Nat.id k) at 1 by lia. apply (write_ok _ _ _ _ _ _ Hr); [|apply block_sector; unfold SS in *; done || lia].
    rewrite blocks_lookup by lia. unfold block. do 3 f_equal. unfold SS. lia. }
  assert (Hout : forall s, s < t \/ t + cc <= s -> content d s = content (dev v) s).
  { intros s Hs. replace d with (d_write 0 (blocks (Z.to_nat cc) w) t (dev v)).2 by (by rewrite Hr). apply write_other.
    unfold zlen. rewrite blocks_length. lia. }
  assert (Hm : forall v', fatfs v' = with_window (wflag (fatfs v')) (winsect (fatfs v)) (win (fatfs v')) (fatfs v) -> dev v' = d ->
    wflag (fatfs v') = wflag (fatfs v) \/ t <= winsect (fatfs v) < t + cc -> mirrored v -> mirrored v').
  { intros v' Hf Hd Hwf Hm. unfold mirrored. rewrite Hd, Hf. cbn [n_fats fatbase fsize wflag winsect with_window]. intros Hn s Hs Hsw.
    destruct Hg. rewrite !Hout by lia. apply Hm; [done|done|]. destruct Hsw as [Hsw|]; [|by right]. destruct Hwf as [E|Hr2]; [left; congruence|right; lia]. }
  assert (Hws : 0 <= winsect (fatfs v) < 2 ^ 32) by (destruct (w_place _ Hok) as [-> |[? _]]; lia).
  apply fwp_bind. destruct (decide (t <= winsect (fatfs v) < t + cc)) as [Hi|Hno].
  - rewrite wrap_small by (unfold fits; lia). rewrite (proj2 (Z.ltb_lt _ _)) by lia. apply fwp_bind, fwp_mod, fwp_mod, fwp_ret. cbn [fatfs dev].
    assert (Eb : take (Z.to_nat SS) (drop (Z.to_nat ((winsect (fatfs v) - t) * SS)) w) = block w (winsect (fatfs v) - t)) by (unfold block; do 2 f_equal; lia).
    rewrite Eb. split; [done|]. split_and!; [split| | | |]; cbn; try done.
    + by apply (same_geometry (fatfs v)).
    + apply block_sector; [done|lia|]. unfold SS in *. lia.
    + apply (w_place _ Hok).
    + intros _ _. rewrite <- (Hin (winsect (fatfs v) - t)) by lia. f_equal. lia.
    + apply Hm; [done|done|by right].
    + intros k Hk. unfold view. cbn. case_decide as E; [f_equal; lia|by apply Hin].
    + intros s Hs Ho. unfold view. cbn. case_decide; [lia|by apply Hout].
  - assert (Ho : u32 (winsect (fatfs v) - t) <? cc = false).
    { apply Z.ltb_ge. destruct (decide (t <= winsect (fatfs v))); [rewrite wrap_small by (unfold fits; lia); lia|].
      unfold wrap. rewrite <- (Z.mod_add _ 1) by lia. rewrite Z.mod_small by lia. lia. }
    rewrite Ho. apply fwp_ret, fwp_ret. destruct Hok as [K1 K2 K3 K4 K5]. split_and!; [done|split|apply same_refl| | |]; cbn; try done.
    + intros H1 H2. rewrite Hout by lia. by apply K5.
    + apply Hm; [by destruct (fatfs v)|done|by left].
    + intros k Hk. unfold view. cbn. case_decide; [lia|by apply Hin].
    + intros s Hs Ho2. unfold view. cbn. case_decide; [done|by apply Hout].
Qed.

Lemma spliced_sectors v v' l p size cc w :
  layout (fatfs v) -> NoDup l -> Forall (cluster (fatfs v)) l -> 0 <= size <= bcs (fatfs v) * zlen l -> 0 <= p -> p mod SS = 0 -> alike (fatfs v) (fatfs v') ->
  0 < cc -> (p / SS) mod csize (fatfs v) + cc <= csize (fatfs v) -> p + SS * cc <= bcs (fatfs v) * zlen l ->
  (forall k, 0 <= k < cc -> view v' (place (fatfs v) l p + k) = block w k) ->
  (forall s, primary (fatfs v) s -> s < place (fatfs v) l p \/ place (fatfs v) l p + cc <= s -> view v' s = view v s) ->
  SS * cc <= zlen w ->
  spliced v l v' l size p (SS * cc) w.
Proof using.
  intros Hl Hnd Hall Hsz Hp Hpm Ha Hcc Hle Hin Hk Ho Hw i Hi. unfold file_byte. rewrite (alike_place _ _ l i Ha).
  assert (Hini : inside (fatfs v) l i) by (unfold inside, SS in *; lia). pose proof (byte_place_range (fatfs v) p Hl) as Hj.
  assert (Hpp : forall k, 0 <= k < cc -> place (fatfs v) l (p + SS * k) = place (fatfs v) l p + k) by (intros; apply place_plus; done || lia).
  pose proof (Z.mod_pos_bound i SS ltac:(unfold SS; lia)) as Him. pose proof (Z.div_mod i SS ltac:(unfold SS; lia)) as Di.
  pose proof (Z.div_mod p SS ltac:(unfold SS; lia)) as Dp. destruct (decide (p <= i < p + SS * cc)) as [Hr|Hr].
  - assert (Hq : 0 <= i / SS - p / SS < cc) by (unfold SS in *; lia).
    assert (Hpl : place (fatfs v) l i = place (fatfs v) l p + (i / SS - p / SS)).
    { rewrite <- Hpp by done. destruct (place_same (fatfs v) l (p + SS * (i / SS - p / SS)) (i mod SS) Hl) as [<- _]; [lia| |f_equal; unfold SS in *; lia].
      replace (p + SS * (i / SS - p / SS)) with (0 + (i / SS) * SS) by (unfold SS in *; lia). rewrite Z.mod_add, Z.mod_0_l by (unfold SS; lia). unfold SS in *. lia. }
    rewrite Hpl, Hk by done. unfold block. change 512%nat with (Z.to_nat 512). rewrite byte_at_part by (unfold SS in *; lia). f_equal. lia.
  - destruct (place_primary _ _ i Hl Hall Hini) as (_ & _ & _ & _ & Hpr & _). rewrite Ho; [done|done|].
    destruct (decide (place (fatfs v) l p <= place (fatfs v) l i < place (fatfs v) l p + cc)) as [Hc|]; [|lia]. exfalso.
    set (k := place (fatfs v) l i - place (fatfs v) l p) in *. assert (E : place (fatfs v) l i = place (fatfs v) l (p + SS * k)) by (rewrite Hpp by (unfold k; lia); unfold k; lia).
    apply place_inj in E; [|done|done|done|unfold inside, SS in *; lia].
    assert (E2 : (p + SS * k) / SS = p / SS + k) by (unfold SS; rewrite (Z.mul_comm 512); by rewrite Z.div_add by lia).
    rewrite E2 in E. unfold SS in *. lia.
Qed.

(** ** Making the chain longer *)

Lemma kept_grew v v' l ext :
  kept v v' -> (0 <= last_clust (fatfs v) -> 0 <= last_clust (fatfs v')) -> Forall (fun c => cluster (fatfs v) c /\ entry v c = 0) ext ->
  (forall x, cluster (fatfs v) x -> x ∉ l ++ ext -> entry v' x = entry v x) -> grew v l v' (l ++ ext).
Proof using.
  intros [H1 H2 H3 H4 H5] Hla He Ho. split; try done; [by exists ext|]. auto.
Qed.

(** The table is damaged: an entry that no table has. *)
Definition damaged v : Prop := exists x, cluster (fatfs v) x /\ entry v x = 1.

(** No cluster is free. *)
Definition full v : Prop := forall x, cluster (fatfs v) x -> entry v x <> 0.

(** The outcomes of [create_chain] for a file with the clusters [l]. *)
Inductive chained v (h : Z) (l : list Z) : Z -> vol -> Prop :=
| chained_full v' : full v -> (forall x, cluster (fatfs v) x -> entry v' x = entry v x) -> last_clust (fatfs v') = last_clust (fatfs v) -> chained v h l 0 v'
| chained_bad v' : damaged v -> chained v h l 1 v'
| chained_new n v' : l <> [] -> cluster (fatfs v) n -> entry v n = 0 -> chain v' h (l ++ [n]) ->
    (forall x, cluster (fatfs v) x -> x ∉ l ++ [n] -> entry v' x = entry v x) -> last_clust (fatfs v') = n -> chained v h l n v'
| chained_first n v' : l = [] -> cluster (fatfs v) n -> entry v n = 0 -> chain v' n [n] ->
    (forall x, cluster (fatfs v) x -> x ∉ [n] -> entry v' x = entry v x) -> last_clust (fatfs v') = n -> chained v h l n v'.

(** At the end of the chain. *)
Lemma extend_ok v h l c :
  sound -> win_ok v -> layout (fatfs v) -> 0 <= last_clust (fatfs v) -> clusters v h l -> (l = [] /\ c = 0 \/ last l = Some c) ->
  fwp (create_chain c) (fun r v' => kept v v' /\ chained v h l r v') v.
Proof using.
  intros S Hok Hl Hla Hc Hcase. pose proof (ly_table _ Hl) as Ht.
  assert (Hcc : c = 0 \/ cluster (fatfs v) c).
  { destruct Hcase as [[_ ->]|Hlast]; [by left|right]. apply last_Some_elem_of in Hlast. pose proof (clusters_all _ _ _ Hc) as Hall. by apply (proj1 (Forall_forall _ _) Hall). }
  eapply fwp_mono; [|by apply create_chain_ok]. intros r v' [Hk Hcr]. split; [done|]. pose proof (k_alike _ _ Hk) as Ha.
  destruct Hcr as [v' Hall Ho Hst0 Hlc|v' Hcl Hf Ho Hlc|v' Hbad Ho|n v' Hn E En Ec Ho Hs Hlast Hfr|n v' Hs Ho E].
  - by apply chained_full.
  - exfalso. destruct Hcase as [[_ ->]|Hlast]; [destruct Hcl; lia|]. destruct Hc as [[_ ->]|Hch]; [done|].
    destruct Hch as (_ & _ & d & Hp & Hd). apply last_Some in Hlast as (l0 & ->). destruct (path_snoc_inv _ _ _ _ _ Hp) as (_ & -> & _). destruct Hf. lia.
  - apply chained_bad. destruct Hbad as [[Hcl E]|(x & Hx & E)]; [|by exists x]. exfalso. destruct Hcase as [[_ ->]|Hlast]; [destruct Hcl; lia|].
    apply last_Some_elem_of in Hlast. destruct Hc as [[_ ->]|(_ & _ & d & Hp & _)]; [by apply elem_of_nil in Hlast|].
    pose proof (path_links _ _ _ _ _ Hp Hlast). lia.
  - assert (Hnc : n <> c) by (intros ->; destruct Hcase as [[_ ->]|Hla2]; [destruct Hn; lia|]; apply last_Some_elem_of in Hla2; by apply (clusters_used _ _ _ _ Hc Hla2)).
    specialize (En Hnc). destruct Hcase as [[-> ->]|Hla2].
    + apply chained_first; try done; [|intros x Hx Hxn; apply Ho; [done|by intros ->; apply Hxn; left|by intros ->; destruct Hx; lia]].
      split; [done|]. split; [by constructor; [apply (alike_cluster _ _ _ Ha)|]|]. exists (end_mark (fatfs v)). pose proof (mark_outside _ Ht). pose proof Ht as [_ _ H2 _ _].
      split; [|by rewrite Ha]. constructor; [lia|]. rewrite En. constructor.
    + destruct Hc as [[_ ->]|Hch]; [done|]. pose proof Hla2 as Hin. apply last_Some_elem_of in Hin. apply last_Some in Hla2 as (l0 & ->).
      assert (Hc0 : c <> 0) by (destruct Hcc as [-> |[? _]]; [destruct Hch as (_ & Hall & _); apply (proj1 (Forall_forall _ _) Hall) in Hin; destruct Hin; lia|lia]).
      apply chained_new; try done; [by destruct l0| |].
      * rewrite <- app_assoc. apply (chain_longer v); try done. by apply Ec.
      * intros x Hx Hni. apply Ho; [done| |].
        -- intros ->. apply Hni. apply elem_of_app. right. by left.
        -- intros ->. apply Hni. apply elem_of_app. by left.
  - done.
Qed.

(** In the middle of the chain the next cluster is taken. *)
Lemma follow_ok v h l c y i :
  sound -> win_ok v -> layout (fatfs v) -> 0 <= last_clust (fatfs v) -> chain v h l -> l !! i = Some c -> l !! S i = Some y ->
  fwp (create_chain c) (fun r v' => kept v v' /\ r = y /\ (forall x, cluster (fatfs v) x -> entry v' x = entry v x) /\ last_clust (fatfs v') = last_clust (fatfs v) \/ r = 1 /\ damaged v) v.
Proof using.
  intros S Hok Hl Hla Hch Hc Hy. pose proof (ly_table _ Hl) as Ht. pose proof (chain_cluster _ _ _ _ _ Hch Hc) as Hcc.
  pose proof (chain_cluster _ _ _ _ _ Hch Hy) as Hyc. pose proof (chain_next _ _ _ _ _ _ Hch Hc Hy) as He.
  eapply fwp_mono; [|apply create_chain_ok; by auto]. intros r v' [Hk Hcr].
  assert (Hc0 : c <> 0) by (destruct Hcc; lia).
  destruct Hcr as [v' Hall Ho Hst0 Hlc|v' Hcl Hf Ho Hlc|v' Hbad Ho|n v' Hn E En Ec Ho Hs Hlast Hfr|n v' Hs Ho E].
  - specialize (Hst0 S Hc0). destruct Hyc. lia.
  - left. by rewrite He.
  - destruct Hbad as [[_ E]|(x & Hx & E)]; [destruct Hyc; lia|]. right. split; [done|]. by exists x.
  - specialize (Hs S Hc0). destruct Hyc. lia.
  - done.
Qed.

(** ** Choosing the cluster *)

(** The object with its size grown to the pointer, as [f_write] leaves it. *)
Definition grown (fp : FIL) : FIL := if f_size fp <? f_ptr fp then put_size (f_ptr fp) fp else fp.

Lemma grown_fields fp :
  f_ptr (grown fp) = f_ptr fp /\ f_size (grown fp) = Z.max (f_size fp) (f_ptr fp) /\ f_sclust (grown fp) = f_sclust fp /\
  f_clust (grown fp) = f_clust fp /\ f_dsect (grown fp) = f_dsect fp.
Proof using. unfold grown. destruct (Z.ltb_spec (f_size fp) (f_ptr fp)); cbn; split_and!; done || lia. Qed.

(** What writing leaves of the object but for its place and its first cluster. *)
Definition wrote (fp fp' : FIL) : Prop :=
  f_fs fp' = f_fs fp /\ f_id fp' = f_id fp /\ f_flag fp' = f_flag fp /\ f_size fp' = f_size fp /\
  f_dir_sect fp' = f_dir_sect fp /\ f_dir_ptr fp' = f_dir_ptr fp.

Lemma wrote_refl fp : wrote fp fp.
Proof using. by repeat split. Qed.

Lemma wrote_trans p q r : wrote p q -> wrote q r -> wrote p r.
Proof using. unfold wrote. intros (->&->&->&->&->&->) (->&->&->&->&->&->). done. Qed.

Lemma kept_bytes v v' l ext i :
  layout (fatfs v) -> kept v v' -> Forall (cluster (fatfs v)) l -> inside (fatfs v) l i -> file_byte v' (l ++ ext) i = file_byte v l i.
Proof using.
  intros Hl Hk Hall Hi. unfold file_byte. rewrite (alike_place _ _ _ i (k_alike _ _ Hk)), place_app by done.
  destruct (place_primary _ _ i Hl Hall Hi) as (_ & _ & _ & _ & Hp & Hb & _). destruct (t_geo _ (ly_table _ Hl)).
  rewrite (k_data _ _ Hk); [done|done|nia].
Qed.

Lemma cluster_small f c : layout f -> cluster f c -> 2 <= c < 2 ^ 28.
Proof using.
  intros Hl [H1 H2]. split; [done|]. pose proof (t_marks _ (ly_table _ Hl)). eapply Z.lt_trans; [eassumption|].
  eapply Z.lt_le_trans; [eassumption|]. apply Z.pow_le_mono_r; [lia|]. unfold entry_bits. repeat case_match; lia.
Qed.

(** The clusters, and the one of the pointer, after [write_cluster]. *)
Definition cluster_chosen v fp l (x : option FRESULT * FIL) v' : Prop :=
  let '(r, fp') := x in
  r = Some FR_OK /\ (exists l', grew v l v' l' /\ clusters v' (f_sclust fp') l' /\ l' !! Z.to_nat (f_ptr fp / bcs (fatfs v)) = Some (f_clust fp') /\
    wrote fp fp' /\ f_ptr fp' = f_ptr fp /\ (forall i, inside (fatfs v) l i -> file_byte v' l' i = file_byte v l i)) \/
  r = None /\ fp' = fp /\ full v /\ grew v l v' l /\ clusters v' (f_sclust fp) l /\ (forall i, inside (fatfs v) l i -> file_byte v' l i = file_byte v l i) \/
  r = Some FR_INT_ERR /\ damaged v.

Lemma entries_clusters v v' h l :
  alike (fatfs v) (fatfs v') -> (forall x, cluster (fatfs v) x -> entry v' x = entry v x) -> clusters v h l -> clusters v' h l.
Proof using.
  intros Ha He [?|Hc]; [by left|right]. apply (chain_other v); [done| |done]. intros x Hx. apply He.
  destruct Hc as (_ & Hall & _). by apply (proj1 (Forall_forall _ _) Hall).
Qed.

Lemma kept_same v v' l :
  kept v v' -> (forall x, cluster (fatfs v) x -> entry v' x = entry v x) -> (0 <= last_clust (fatfs v) -> 0 <= last_clust (fatfs v')) -> grew v l v' l.
Proof using.
  intros Hk He Hla. rewrite <- (app_nil_r l) at 2. apply kept_grew; [done|done|constructor|]. intros x Hx _. by apply He.
Qed.

(** The answer of [create_chain] at the end of the chain, taken up. *)
Lemma chosen_end v fp l h (next : Z -> FIL) r v' :
  layout (fatfs v) -> 0 <= last_clust (fatfs v) -> kept v v' -> chained v h l r v' -> clusters v (f_sclust fp) l -> h = f_sclust fp ->
  Z.to_nat (f_ptr fp / bcs (fatfs v)) = length l -> (forall c, f_ptr (next c) = f_ptr fp /\ wrote fp (next c)) ->
  (l <> [] -> forall c, f_sclust (next c) = f_sclust fp) -> (l = [] -> forall c, f_sclust (next c) = c) -> next 0 = fp ->
  cluster_chosen v fp l (if r =? 0 then (None, next r) else if r =? 1 then ABORT (Some FR_INT_ERR) (next r)
    else if r =? DISK_ERROR then ABORT (Some FR_DISK_ERR) (next r) else (Some FR_OK, put_clust r (next r))) v'.
Proof using.
  intros Hl Hla Hk Hch Hc -> Hidx Hnext Hsc1 Hsc2 Hn0. pose proof (clusters_all _ _ _ Hc) as Hall.
  assert (Hnew : forall n, cluster (fatfs v) n -> (if n =? 0 then (None, next n) else if n =? 1 then ABORT (Some FR_INT_ERR) (next n)
    else if n =? DISK_ERROR then ABORT (Some FR_DISK_ERR) (next n) else (Some FR_OK, put_clust n (next n))) = (Some FR_OK, put_clust n (next n))).
  { intros n Hn. pose proof (cluster_small _ _ Hl Hn). rewrite !(proj2 (Z.eqb_neq _ _)) by (unfold DISK_ERROR; lia). done. }
  assert (Hlast : forall n, (l ++ [n]) !! Z.to_nat (f_ptr fp / bcs (fatfs v)) = Some n) by (intros n; rewrite Hidx; by apply list_lookup_middle).
  destruct Hch as [v' Hf Ho Hlc|v' Hb|n v' Hne Hn E Hchn Ho Hlc|n v' -> Hn E Hchn Ho Hlc].
  - right. left. cbn. rewrite Hn0. split_and!; [done|done|done| | |].
    + apply kept_same; [done|done|by rewrite Hlc].
    + by apply (entries_clusters v); [apply Hk|..].
    + intros i Hi. rewrite <- (app_nil_r l) at 1. by apply kept_bytes.
  - right. right. by cbn.
  - rewrite Hnew by done. left. split; [done|]. exists (l ++ [n]). destruct (Hnext n) as [H1 H2]. split_and!; try done.
    + apply kept_grew; [done|by rewrite Hlc; destruct Hn; lia|by apply Forall_singleton|done].
    + cbn. rewrite Hsc1 by done. by right.
    + intros i Hi. by apply kept_bytes.
  - rewrite Hnew by done. left. split; [done|]. exists [n]. destruct (Hnext n) as [H1 H2]. split_and!; try done.
    + apply (kept_grew v v' [] [n]); [done|by rewrite Hlc; destruct Hn; lia|by apply Forall_singleton|done].
    + cbn. rewrite Hsc2 by done. by right.
    + apply (Hlast n).
    + intros i Hi. by apply (kept_bytes v v' [] [n]).
Qed.

Lemma write_cluster_ok v fp l :
  sound -> win_ok v -> layout (fatfs v) -> 0 <= last_clust (fatfs v) -> file_at v (grown fp) l -> f_ptr fp mod bcs (fatfs v) = 0 ->
  fwp (write_cluster fp) (cluster_chosen v fp l) v.
Proof using.
  intros S Hok Hl Hla Hf Hm. destruct (grown_fields fp) as (G1 & G2 & G3 & G4 & G5). destruct Hf as [[Hc Hsz Hp] Hfc _].
  rewrite ?G1, ?G2, ?G3, ?G4 in *. pose proof (bcs_pos _ Hl) as Hb. pose proof (clusters_all _ _ _ Hc) as Hall.
  unfold write_cluster. apply fwp_bind. destruct (Z.eqb_spec (f_ptr fp) 0) as [E|E].
  - destruct (Z.eqb_spec (f_sclust fp) 0) as [E0|E0].
    + assert (l = []) as ->.
      { destruct Hc as [[_ ->]|Hch]; [done|]. pose proof (chain_cluster _ _ _ _ _ Hch (chain_first _ _ _ Hch)) as [? _]. lia. }
      apply fwp_bind. eapply fwp_mono; [|apply (extend_ok v (f_sclust fp) []); by auto]. intros r v' [Hk Hch]. apply fwp_ret, fwp_ret.
      apply (chosen_end v fp [] (f_sclust fp) (fun c => put_sclust c fp)); try done; [by rewrite E, Z.div_0_l by lia|]. rewrite <- E0. by destruct fp.
    + apply fwp_ret, fwp_ret. destruct Hc as [[? _]|Hch]; [done|]. pose proof (chain_first _ _ _ Hch) as H0.
      pose proof (cluster_small _ _ Hl (chain_cluster _ _ _ _ _ Hch H0)). rewrite !(proj2 (Z.eqb_neq _ _)) by (unfold DISK_ERROR; lia).
      left. split; [done|]. exists l. split_and!; [apply (quiet_grew _ _ (f_sclust fp)); [apply Hl|by apply quiet_refl|by right]|by right| |by repeat split|done|done].
      rewrite E, Z.div_0_l by lia. done.
  - pose proof (Hfc ltac:(lia)) as Hcur. pose proof (cluster_before (fatfs v) (f_ptr fp) Hl ltac:(lia) Hm) as Hidx.
    assert (Hch : chain v (f_sclust fp) l) by (destruct Hc as [[_ ->]|?]; done).
    apply fwp_bind. destruct (l !! Z.to_nat (f_ptr fp / bcs (fatfs v))) as [y|] eqn:Ey.
    + rewrite Hidx in Ey. eapply fwp_mono; [|by eapply follow_ok]. intros r v' Hr. apply fwp_ret, fwp_ret. destruct Hr as [(Hk & -> & He & Hlc)|[-> Hd]].
      2: { right. right. by cbn. }
      pose proof (cluster_small _ _ Hl (chain_cluster _ _ _ _ _ Hch Ey)). rewrite !(proj2 (Z.eqb_neq _ _)) by (unfold DISK_ERROR; lia).
      left. split; [done|]. exists l. split_and!; [apply kept_same; [done|done|by rewrite Hlc]| | |by repeat split|done|].
      * apply (entries_clusters v); [apply Hk|done|by right].
      * by rewrite Hidx.
      * intros i Hi. rewrite <- (app_nil_r l) at 1. by apply kept_bytes.
    + assert (Hlen : Z.to_nat (f_ptr fp / bcs (fatfs v)) = length l).
      { apply lookup_ge_None in Ey. apply lookup_lt_Some in Hcur. lia. }
      eapply fwp_mono; [|apply (extend_ok v (f_sclust fp) l (f_clust fp)); try done]. 2: { right. rewrite last_lookup, <- Hlen, Hidx. done. }
      intros r v' [Hk Hcd]. apply fwp_ret, fwp_ret. apply (chosen_end v fp l (f_sclust fp) (fun _ => fp)); try done. by intros ->.
Qed.

(** ** A round *)

(** Only data in clusters of [l] changed. *)
Lemma data_grew v v' l :
  layout (fatfs v) -> Forall (cluster (fatfs v)) l -> win_ok v' -> same (fatfs v) (fatfs v') -> (mirrored v -> mirrored v') ->
  (forall s, primary (fatfs v) s -> (forall c, c ∈ l -> ~ in_cluster (fatfs v) c s) -> view v' s = view v s) ->
  grew v l v' l /\ forall x, cluster (fatfs v) x -> entry v' x = entry v x.
Proof using.
  intros Hl Hall Hok Hsm Hm Hv. assert (He : forall x, cluster (fatfs v) x -> entry v' x = entry v x).
  { intros x Hx. pose proof (ly_table _ Hl) as Ht. unfold entry. replace (fs_type (fatfs v')) with (fs_type (fatfs v)) by (by rewrite Hsm).
    pose proof (entry_in_table _ _ Ht Hx). apply entry_of_ext; [unfold cluster in Hx; lia|]. intros i Hi. unfold fat_byte.
    replace (fatbase (fatfs v')) with (fatbase (fatfs v)) by (by rewrite Hsm). destruct (table_primary (fatfs v) i (t_geo _ Ht)) as [Hp Hlt]; [unfold in_table; lia|].
    rewrite Hv; [done|done|]. intros c Hc [Hin _]. pose proof (first_sector_range _ c Hl (proj1 (Forall_forall _ _) Hall c Hc)).
    pose proof (ly_base _ Hl). destruct (t_geo _ Ht). nia. }
  split; [|done]. split; [done|by apply same_alike|done|by rewrite Hsm|exists []; by rewrite app_nil_r|by auto|].
  intros t Ht _ Hno. by apply Hv.
Qed.

(** The object when [n] bytes were stored in the cluster it is at. *)
Lemma written_file v v' fp l n :
  layout (fatfs v) -> alike (fatfs v) (fatfs v') -> clusters v' (f_sclust fp) l -> 0 <= f_ptr fp -> 0 <= f_size fp -> 0 < n -> f_ptr fp + n < 2 ^ 32 -> f_size fp < 2 ^ 32 ->
  f_size fp <= bcs (fatfs v) * zlen l -> l !! Z.to_nat (f_ptr fp / bcs (fatfs v)) = Some (f_clust fp) ->
  (f_ptr fp / SS) mod csize (fatfs v) * SS + f_ptr fp mod SS + n <= bcs (fatfs v) ->
  ((f_ptr fp + n) mod SS <> 0 -> f_dsect fp = place (fatfs v) l (f_ptr fp + n)) ->
  file_at v' (grown (put_ptr (f_ptr fp + n) fp)) l /\ f_ptr fp + n <= bcs (fatfs v) * zlen l.
Proof using.
  intros Hl Ha Hc Hp Hs Hn H32 Hs32 Hroom Hcl Hin Hd. destruct (grown_fields (put_ptr (f_ptr fp + n) fp)) as (G1 & G2 & G3 & G4 & G5). cbn [f_ptr f_size f_sclust f_clust f_dsect put_ptr] in *.
  assert (Eb : bcs (fatfs v') = bcs (fatfs v)) by (by rewrite Ha). pose proof (cluster_inner (fatfs v) (f_ptr fp) (f_ptr fp + n) Hl ltac:(lia) ltac:(lia)) as Hq.
  assert (Hle : f_ptr fp + n <= bcs (fatfs v) * zlen l).
  { apply lookup_lt_Some in Hcl. pose proof (bcs_pos _ Hl) as Hb. pose proof (Z.div_mod (f_ptr fp + n - 1) (bcs (fatfs v)) ltac:(lia)) as Hdm.
    pose proof (Z.mod_pos_bound (f_ptr fp + n - 1) (bcs (fatfs v)) ltac:(lia)). rewrite Hq in Hdm. unfold zlen.
    pose proof (Z.div_pos (f_ptr fp) (bcs (fatfs v)) ltac:(lia) ltac:(lia)). nia. }
  split; [|done]. split; [split|..]; rewrite ?Eb, ?G1, ?G2, ?G3, ?G4, ?G5; try done; [lia|lia| |].
  - intros _. by rewrite Hq.
  - intros Hm. rewrite (alike_place _ _ _ _ Ha). by apply Hd.
Qed.

(** What storing [n] bytes in the chain [l] does. *)
Definition stored v fp l w (n : Z) v' : Prop :=
  0 < n <= zlen w /\ grew v l v' l /\ file_at v' (grown (put_ptr (f_ptr fp + n) fp)) l /\ spliced v l v' l (f_size fp) (f_ptr fp) n w.

Record ready_at v fp l (w : list Z) : Prop := {
  ra_ok : win_ok v;
  ra_layout : layout (fatfs v);
  ra_clusters : clusters v (f_sclust fp) l;
  ra_ptr : 0 <= f_ptr fp /\ f_ptr fp + zlen w < 2 ^ 32;
  ra_size : 0 <= f_size fp < 2 ^ 32 /\ f_size fp <= bcs (fatfs v) * zlen l;
  ra_clust : l !! Z.to_nat (f_ptr fp / bcs (fatfs v)) = Some (f_clust fp);
  ra_bytes : Forall is_byte w;
  ra_some : 0 < zlen w
}.

Lemma spliced_part v l v' l' size p n w w' : (forall i, 0 <= i < n -> byte_at w' i = byte_at w i) -> spliced v l v' l' size p n w' -> spliced v l v' l' size p n w.
Proof using. intros He Hs i Hi. rewrite Hs by done. case_decide; [|done]. apply He. lia. Qed.

(** The bytes up to the end of the sector, in the window at [v1]. *)
Lemma poke_stored v v1 fp l w n :
  ready_at v fp l w -> f_dsect fp = place (fatfs v) l (f_ptr fp) -> n = (if zlen w <? SS - f_ptr fp mod SS then zlen w else SS - f_ptr fp mod SS) ->
  dev v1 = dev v -> fatfs v1 = with_window (wflag (fatfs v1)) (f_dsect fp) (win (fatfs v1)) (fatfs v) -> sector (win (fatfs v1)) ->
  wflag (fatfs v) = false \/ winsect (fatfs v) = f_dsect fp -> (win (fatfs v1) = view v (f_dsect fp) \/ f_size fp <= f_ptr fp /\ f_ptr fp mod SS = 0) ->
  fwp (win_put (f_ptr fp mod SS) (take (Z.to_nat n) w);; fs_mod (set_wflag true);; mret (Some FR_OK, fp, n))
    (fun x v' => x = (Some FR_OK, fp, n) /\ stored v fp l w n v') v1.
Proof using.
  intros [Hok Hl Hc Hp Hs Hcl Hb Hw] Hd Hn Hdev Hf Hsec Hst Hold. pose proof (Z.mod_pos_bound (f_ptr fp) SS ltac:(unfold SS; lia)) as Hm.
  assert (Hn1 : 0 < n <= zlen w /\ f_ptr fp mod SS + n <= SS) by (rewrite Hn; case_z; unfold SS in *; lia). clear Hn.
  assert (Hlen : zlen (take (Z.to_nat n) w) = n) by (unfold zlen in *; rewrite length_take; lia).
  pose proof (clusters_all _ _ _ Hc) as Hall. pose proof (inside_lookup (fatfs v) l (f_ptr fp) _ Hl (proj1 Hp) Hcl) as Hini.
  destruct (place_primary _ _ (f_ptr fp) Hl Hall Hini) as (c & _ & _ & Hpl & Hprim & Hgeo). rewrite <- Hd in Hprim, Hgeo.
  apply fwp_bind, fwp_put; [done|lia|unfold SS in *; lia|]. apply fwp_bind, fwp_mod, fwp_ret. cbn [fatfs dev]. split; [done|].
  destruct (poke_ok v v1 (f_dsect fp) (f_ptr fp mod SS) (take (Z.to_nat n) w) Hok Hdev Hf Hsec Hst Hprim) as (K1 & K2 & K3 & K4 & K5);
    [lia|by apply Forall_take|lia|unfold SS in *; lia|].
  set (v' := mkVol _ _) in *. destruct (data_grew v v' l Hl Hall K1 K2 K5) as [Hg He].
  { intros s Hs1 Hno. apply K3; [done|]. intros ->. rewrite Hd in Hno. eapply Hno; [by eapply list_elem_of_lookup_2|]. by apply place_in_cluster. }
  destruct (written_file v v' fp l n Hl (same_alike _ _ K2)) as [Hfile Hroom]; try done; try lia.
  { apply (entries_clusters v); [by apply same_alike|done|done]. }
  { pose proof (byte_place_range (fatfs v) (f_ptr fp) Hl). pose proof (csize_range _ Hl). unfold bcs, SS in *. nia. }
  { intros Hm2. rewrite Hd. symmetry. apply place_same; [done|lia|]. destruct (decide (f_ptr fp mod SS + n = SS)) as [E|]; [|lia]. exfalso. apply Hm2.
    unfold SS in *. pose proof (Z.div_mod (f_ptr fp) 512 ltac:(lia)). symmetry. apply (Z.mod_unique _ _ (f_ptr fp / 512 + 1)); lia. }
  split_and!; [lia|lia|done|done|]. apply (spliced_part _ _ _ _ _ _ _ _ (take (Z.to_nat n) w)).
  { intros i Hi. change w with (drop (Z.to_nat 0) w) at 1. by rewrite byte_at_part by lia. }
  rewrite <- Hlen at 1. apply (spliced_window v v' l _ _ (win (fatfs v1))); rewrite ?Hlen; try done; [by eapply clusters_nodup|lia|lia|by apply same_alike|lia|lia|by destruct Hsec| | |].
  - intros s Hs1 Hne. apply K3; [done|by rewrite Hd].
  - by rewrite <- Hd.
  - by rewrite <- Hd.
Qed.

Lemma stored_quiet v v1 fp fp' l w n v' :
  ready_at v fp l w -> wrote fp fp' -> f_ptr fp' = f_ptr fp -> quiet v v1 -> stored v1 fp' l w n v' -> stored v fp' l w n v'.
Proof using.
  intros [Hok Hl Hc Hp Hs Hcl Hb Hw] (_ & _ & _ & Esz & _) Ep Hq (H1 & H2 & H3 & H4). rewrite Ep, Esz in H4. pose proof (quiet_alike _ _ Hq) as Ha. split_and!; [lia|lia| |done|].
  - eapply grew_trans; [|eapply quiet_grew; [apply Hl|done|done]|done]. intros x Hx. eapply (clusters_used v1 (f_sclust fp)); [|done].
    destruct Hc as [?|Hc]; [by left|right]. eapply chain_stays; [apply Hl|apply Hq|done].
  - rewrite Ep, Esz. intros i Hi. rewrite H4 by done. case_decide as D; [done|]. apply file_byte_stays; [done|by eapply clusters_all| |apply Hq]. unfold inside.
    pose proof (inside_lookup (fatfs v) l (f_ptr fp) _ Hl (proj1 Hp) Hcl) as [_ Hin]. unfold inside. lia.
Qed.

Lemma ready_quiet v v1 fp l w : ready_at v fp l w -> quiet v v1 -> ready_at v1 fp l w.
Proof using.
  intros [Hok Hl Hc Hp Hs Hcl Hb Hw] Hq. pose proof (quiet_alike _ _ Hq) as Ha. assert (Eb : bcs (fatfs v1) = bcs (fatfs v)) by (by rewrite Ha).
  split; rewrite ?Eb; try done; [apply Hq|by eapply alike_layout|]. destruct Hc as [?|Hc]; [by left|right]. eapply chain_stays; [apply Hl|apply Hq|done].
Qed.

(** What is answered when bytes were stored. *)
Definition answer_stored v fp l w (x : option FRESULT * FIL * Z) v' : Prop :=
  exists fp' n, x = (Some FR_OK, fp', n) /\ wrote fp fp' /\ f_sclust fp' = f_sclust fp /\ f_ptr fp' = f_ptr fp /\ stored v fp' l w n v'.

(** The window is at the sector, as the volume has it, or put over it. *)
Lemma write_window_ok v v1 fp l w :
  ready_at v fp l w -> f_dsect fp = place (fatfs v) l (f_ptr fp) -> sound ->
  v1 = v \/ wflag (fatfs v) = false /\ v1 = mkVol (set_winsect (f_dsect fp) (fatfs v)) (dev v) /\ f_size fp <= f_ptr fp /\ f_ptr fp mod SS = 0 ->
  fwp (write_window fp w) (answer_stored v fp l w) v1.
Proof using.
  intros Hr Hd S Hcase. unfold write_window. cbn zeta. set (n := if zlen w <? _ then _ else _).
  destruct Hcase as [-> |(Hwf & -> & Hsz & Hm)].
  - assert (Hsect : primary (fatfs v) (f_dsect fp)).
    { pose proof Hr as [Hok Hl Hc Hp Hs Hcl Hb Hw]. rewrite Hd. rewrite (place_cluster (fatfs v) l (f_ptr fp) (f_clust fp) Hl (proj1 Hp) Hcl).
      apply data_primary; [done|eapply Forall_lookup; [by eapply clusters_all|done]|by apply byte_place_range]. }
    pose proof (primary_pos _ _ (w_geo _ (ra_ok _ _ _ _ Hr)) Hsect) as Hne.
    apply fwp_bind. eapply fwp_mono; [|apply move_window_ok; [apply Hr|by right]]. intros r v2 Hmv. pose proof (mv_sound _ _ _ _ Hmv S) as ->.
    rewrite decide_True by done. pose proof (quiet_moved _ _ _ _ Hmv) as Hq. pose proof (mv_there _ _ _ _ Hmv eq_refl Hne) as Hws.
    eapply fwp_mono; [|apply (poke_stored v2 v2 fp l w n)]; try done.
    + intros x v' [-> Hst]. exists fp, n. split_and!; try done. by eapply stored_quiet.
    + by eapply ready_quiet.
    + by rewrite (alike_place _ _ _ _ (quiet_alike _ _ Hq)).
    + rewrite <- Hws. by destruct (fatfs v2).
    + apply (mv_ok _ _ _ _ Hmv).
    + by right.
    + left. unfold view. by rewrite decide_True.
  - apply fwp_bind. unfold move_window. apply fwp_bind, fwp_get. cbn [fatfs winsect set_winsect with_window]. rewrite Z.eqb_refl.
    apply fwp_ret. rewrite decide_True by done.
    eapply fwp_mono; [|apply (poke_stored v _ fp l w n)]; try done.
    + intros x v' [-> Hst]. exists fp, n. by split_and!.
    + apply (ra_ok _ _ _ _ Hr).
    + by left.
    + by right.
Qed.

(** Whole sectors from the buffer. *)
Lemma write_through_buffer_ok v fp l w cc :
  ready_at v fp l w -> sound -> f_ptr fp mod SS = 0 -> 0 < cc -> (f_ptr fp / SS) mod csize (fatfs v) + cc <= csize (fatfs v) -> SS * cc <= zlen w ->
  fwp (write_sectors (place (fatfs v) l (f_ptr fp)) cc w) (fun r v' => r = RES_OK /\ stored v fp l w (SS * cc) v') v.
Proof using.
  intros [Hok Hl Hc Hp Hs Hcl Hb Hw] S Hm Hcc Hle Hlen. pose proof (clusters_all _ _ _ Hc) as Hall. pose proof (csize_range _ Hl) as Hcs.
  pose proof (byte_place_range (fatfs v) (f_ptr fp) Hl) as Hj. assert (Hcl2 : cluster (fatfs v) (f_clust fp)) by (by eapply Forall_lookup).
  pose proof (place_cluster (fatfs v) l (f_ptr fp) (f_clust fp) Hl (proj1 Hp) Hcl) as Hpl.
  eapply fwp_mono; [|apply write_sectors_ok; [done|done|lia| |done|done]].
  2: { intros s Hs2. replace s with (first_sector (fatfs v) (f_clust fp) + (s - first_sector (fatfs v) (f_clust fp))) by lia. apply data_primary; [done|done|lia]. }
  intros r v' (-> & K1 & K2 & K3 & K4 & K5). split; [done|].
  destruct (data_grew v v' l Hl Hall K1 K2 K3) as [Hg He].
  { intros s Hs1 Hno. apply K5; [done|]. destruct (decide (place (fatfs v) l (f_ptr fp) <= s < place (fatfs v) l (f_ptr fp) + cc)) as [Hin|]; [|lia].
    exfalso. apply (Hno (f_clust fp)); [by eapply list_elem_of_lookup_2|]. unfold in_cluster. lia. }
  destruct (written_file v v' fp l (SS * cc) Hl (same_alike _ _ K2)) as [Hfile Hroom]; try done; try (unfold SS in *; lia).
  { apply (entries_clusters v); [by apply same_alike|done|done]. }
  { unfold bcs, SS in *. nia. }
  { intros Hm2. exfalso. apply Hm2. unfold SS in *. rewrite (Z.mul_comm 512), Z.mod_add by lia. done. }
  split_and!; [unfold SS in *; lia|lia|done|done|].
  apply spliced_sectors; try done; [by eapply clusters_nodup|lia|lia|by apply same_alike].
Qed.

Lemma answer_quiet v v1 fp l w x v' : ready_at v fp l w -> quiet v v1 -> answer_stored v1 fp l w x v' -> answer_stored v fp l w x v'.
Proof using.
  intros Hr Hq (fp' & n & -> & Hw & Hsc & Hp & Hst). exists fp', n. split_and!; try done. by eapply stored_quiet.
Qed.

Lemma ready_dsect v fp l w s : ready_at v fp l w -> ready_at v (put_dsect s fp) l w.
Proof using. by intros []. Qed.

Lemma answer_dsect v fp l w s x v' : answer_stored v (put_dsect s fp) l w x v' -> answer_stored v fp l w x v'.
Proof using. intros (fp' & n & -> & Hw & Hsc & Hp & Hst). by exists fp', n. Qed.

Lemma write_boundary_ok v fp l w :
  ready_at v fp l w -> sound -> f_ptr fp mod SS = 0 ->
  fwp (write_boundary ((f_ptr fp / SS) mod csize (fatfs v)) fp w) (answer_stored v fp l w) v.
Proof using.
  intros Hr S Hm. unfold write_boundary. apply fwp_bind, fwp_get. cbn zeta.
  apply fwp_bind. apply (fwp_mono _ (fun r v1 => r = FR_OK /\ quiet v v1)).
  2: { destruct (_ =? _); [|apply fwp_ret; split; [done|by apply quiet_refl, (ra_ok _ _ _ _ Hr)]].
    eapply fwp_mono; [|apply move_window_ok; [apply Hr|by left]]. intros r v1 Hmv. split; [by apply (mv_sound _ _ _ _ Hmv)|by eapply quiet_moved]. }
  intros r v1 [-> Hq]. rewrite decide_True by done. apply (fwp_mono _ (answer_stored v1 fp l w)); [intros x v'; by apply answer_quiet|].
  replace (csize (fatfs v)) with (csize (fatfs v1)) by (by rewrite (quiet_alike _ _ Hq)).
  pose proof (ready_quiet _ _ _ _ _ Hr Hq) as Hr1. clear v Hr Hq. rename v1 into v. pose proof Hr1 as [Hok Hl Hc Hp Hs Hcl Hb Hw].
  pose proof (csize_range _ Hl) as Hcs. pose proof (byte_place_range (fatfs v) (f_ptr fp) Hl) as Hj. set (j := (f_ptr fp / SS) mod csize (fatfs v)) in *.
  assert (Hcl2 : cluster (fatfs v) (f_clust fp)) by (eapply Forall_lookup; [by eapply clusters_all|done]).
  apply fwp_bind, fwp_get. destruct (clust2sect_cluster (fatfs v) (f_clust fp) Hl Hcl2) as [-> Hne]. rewrite (proj2 (Z.eqb_neq _ _) Hne).
  destruct (data_primary _ _ j Hl Hcl2 Hj) as [Hprim Hgeo]. rewrite (wrap_small 32 (_ + j)).
  2: { unfold fits. pose proof (first_sector_range _ _ Hl Hcl2). lia. }
  replace (first_sector (fatfs v) (f_clust fp) + j) with (place (fatfs v) l (f_ptr fp)) by (by rewrite (place_cluster (fatfs v) l (f_ptr fp) (f_clust fp) Hl (proj1 Hp) Hcl)).
  destruct (Z.eqb_spec (zlen w / SS) 0) as [Hd0|Hd0]; cbn [negb].
  - destruct (Z.leb_spec (f_size fp) (f_ptr fp)) as [Hle|Hgt].
    + apply fwp_bind, fwp_bind. eapply fwp_mono; [|apply move_window_ok; [done|by left]]. intros r v1 Hmv. pose proof (mv_sound _ _ _ _ Hmv S) as ->.
      pose proof (quiet_moved _ _ _ _ Hmv) as Hq. rewrite decide_True by done. apply fwp_bind, fwp_mod, fwp_ret. rewrite decide_True by done.
      eapply fwp_mono; [intros x v'; by apply answer_quiet|]. eapply fwp_mono; [intros x v'; apply (answer_dsect v1 fp l w (place (fatfs v) l (f_ptr fp)))|].
      apply write_window_ok; [by apply ready_dsect; eapply ready_quiet|by cbn; rewrite (alike_place _ _ _ _ (quiet_alike _ _ Hq))|done|].
      right. split_and!; [by apply (mv_clean _ _ _ _ Hmv)|done|done|done].
    + apply fwp_bind, fwp_ret. rewrite decide_True by done. eapply fwp_mono; [intros x v'; apply (answer_dsect v fp l w (place (fatfs v) l (f_ptr fp)))|].
      apply write_window_ok; [by apply ready_dsect|done|done|by left].
  - assert (Hcc : 1 <= zlen w / SS /\ SS * (zlen w / SS) <= zlen w).
    { unfold SS in *. pose proof (Z.div_mod (zlen w) 512 ltac:(lia)). pose proof (Z.mod_pos_bound (zlen w) 512 ltac:(lia)). pose proof (Z.div_pos (zlen w) 512 ltac:(lia) ltac:(lia)). lia. }
    rewrite (wrap_small 32) by (unfold fits, SS in *; lia). set (cc := if csize (fatfs v) <? j + zlen w / SS then csize (fatfs v) - j else zlen w / SS).
    assert (Hc1 : 0 < cc /\ j + cc <= csize (fatfs v) /\ SS * cc <= zlen w) by (unfold cc, SS in *; case_z; lia). clearbody cc.
    apply fwp_bind. eapply fwp_mono; [|apply (write_through_buffer_ok v fp l w cc); by destruct_and?]. intros r v' [-> Hst].
    rewrite decide_True by done. apply fwp_ret. exists fp, (SS * cc). by split_and!.
Qed.

(** What a round answers: bytes were stored, no cluster is free, or the table is
    damaged. *)
Definition round_wrote v fp l w (x : option FRESULT * FIL * Z) v' : Prop :=
  let '(r, fp', n) := x in
  r = Some FR_OK /\ 0 < n <= zlen w /\ wrote fp fp' /\ f_ptr fp' = f_ptr fp /\
    (exists l', grew v l v' l' /\ file_at v' (grown (put_ptr (f_ptr fp + n) fp')) l' /\ spliced v l v' l' (f_size fp) (f_ptr fp) n w) \/
  r = None /\ n = 0 /\ fp' = fp /\ full v' /\ grew v l v' l /\ file_at v' (grown fp) l /\ (forall i, inside (fatfs v) l i -> file_byte v' l i = file_byte v l i) \/
  r = Some FR_INT_ERR /\ damaged v.

(** The file object before a round. *)
Record writable v fp l (w : list Z) : Prop := {
  wr_ok : win_ok v;
  wr_layout : layout (fatfs v);
  wr_last : 0 <= last_clust (fatfs v);
  wr_file : file_at v (grown fp) l;
  wr_size : 0 <= f_size fp;
  wr_ptr : f_ptr fp + zlen w < 2 ^ 32;
  wr_bytes : Forall is_byte w
}.

Lemma writable_core v fp l w : writable v fp l w -> clusters v (f_sclust fp) l /\ 0 <= f_ptr fp /\ f_size fp < 2 ^ 32 /\ Z.max (f_size fp) (f_ptr fp) <= bcs (fatfs v) * zlen l.
Proof using.
  intros [_ _ _ [[Hc [H1 H2] H3] _ _] H4 _ _]. destruct (grown_fields fp) as (G1 & G2 & G3 & _). rewrite G1, G2, G3 in *. split_and!; [done|lia|lia|lia].
Qed.

Lemma stored_answer v v1 fp fp1 l l' w x v' :
  writable v fp l w -> grew v l v1 l' -> clusters v1 (f_sclust fp1) l' -> wrote fp fp1 -> f_ptr fp1 = f_ptr fp ->
  (forall i, inside (fatfs v) l i -> file_byte v1 l' i = file_byte v l i) -> answer_stored v1 fp1 l' w x v' -> round_wrote v fp l w x v'.
Proof using.
  intros Hw Hg Hc Hwr Hp Hb (fp' & n & -> & Hwr2 & Hsc & Hp2 & H1 & H2 & H3 & H4). destruct (writable_core _ _ _ _ Hw) as (_ & Hp0 & _ & Hroom).
  pose proof Hwr as (_&_&_&Hsz&_). pose proof Hwr2 as (_&_&_&Hsz2&_). rewrite Hp2, Hp, Hsz2, Hsz in *.
  left. split_and!; try done; [lia|lia|by eapply wrote_trans|]. exists l'. split_and!; [|done|].
  - eapply grew_trans; [|done|done]. intros y. by eapply clusters_used.
  - intros i Hi. rewrite H4 by done. case_decide; [done|]. apply Hb. unfold inside. lia.
Qed.

Lemma chosen_full v v' fp l : full v -> grew v l v' l -> clusters v' (f_sclust fp) l -> full v'.
Proof using.
  intros Hf Hg Hc x Hx. assert (Hx' : cluster (fatfs v) x) by (by apply (alike_cluster _ _ _ (gr_alike _ _ _ _ Hg))).
  destruct (decide (x ∈ l)) as [Hin|Hno]; [by eapply clusters_used|]. rewrite (gr_entries _ _ _ _ Hg) by done. by apply Hf.
Qed.

(** The object is for the volume that only grew. *)
Lemma file_alike v v' fp l : alike (fatfs v) (fatfs v') -> clusters v' (f_sclust fp) l -> file_at v fp l -> file_at v' fp l.
Proof using.
  intros Ha Hc [[_ H2 H3] H4 H5]. assert (Eb : bcs (fatfs v') = bcs (fatfs v)) by (by rewrite Ha). split; [split|..]; rewrite ?Eb; try done.
  intros Hm. rewrite (alike_place _ _ _ _ Ha). by apply H5.
Qed.

Lemma write_round_ok v fp l w :
  sound -> writable v fp l w -> 0 < zlen w -> fwp (write_round fp w) (round_wrote v fp l w) v.
Proof using.
  intros S Hwr Hw. pose proof Hwr as [Hok Hl Hla Hf Hs0 Hp32 Hb]. destruct (writable_core _ _ _ _ Hwr) as (Hc & Hp0 & Hs32 & Hroom).
  destruct (grown_fields fp) as (G1 & G2 & G3 & G4 & G5). pose proof (byte_place_range (fatfs v) (f_ptr fp) Hl) as Hj.
  assert (Hready : l !! Z.to_nat (f_ptr fp / bcs (fatfs v)) = Some (f_clust fp) -> ready_at v fp l w) by (intros Hcl; split; try done; lia).
  assert (Hinner : f_ptr fp mod SS <> 0 \/ (f_ptr fp / SS) mod csize (fatfs v) <> 0 -> l !! Z.to_nat (f_ptr fp / bcs (fatfs v)) = Some (f_clust fp)).
  { intros Hne. destruct (decide (f_ptr fp = 0)) as [E|Hne0]; [rewrite E in Hne; rewrite Z.mod_0_l, Z.div_0_l, Z.mod_0_l in Hne by (pose proof (csize_range _ Hl); unfold SS; lia); lia|].
    rewrite <- (cluster_same (fatfs v)) by (done || lia). rewrite <- G4, <- G1 at 1. apply (fa_clust _ _ _ Hf). lia. }
  unfold write_round. apply fwp_bind, fwp_get. destruct (Z.eqb_spec (f_ptr fp mod SS) 0) as [Hm|Hm].
  2: { eapply fwp_mono; [|apply (write_window_ok v v fp l w)]; [|by apply Hready, Hinner; left| |done|by left].
    - intros x v'. apply (stored_answer v v fp fp l l); try done. by eapply quiet_grew; [apply Hl|apply quiet_refl|].
    - rewrite <- G5. rewrite (fa_dsect _ _ _ Hf); by rewrite G1. }
  rewrite csect_mod by done. cbn zeta. apply fwp_bind. apply (fwp_mono _ (cluster_chosen v fp l)).
  2: { destruct (Z.eqb_spec ((f_ptr fp / SS) mod csize (fatfs v)) 0) as [Hj0|Hj0]; [apply write_cluster_ok; try done; by apply cluster_start|].
    apply fwp_ret. left. split; [done|]. exists l. split_and!; [by eapply quiet_grew; [apply Hl|apply quiet_refl|]|done|by apply Hinner; right|apply wrote_refl|done|done]. }
  intros [r fp1] v1 [(-> & l' & Hg & Hc1 & Hcl & Hwr1 & Hp1 & Hby)|[(-> & -> & Hfull & Hg & Hc1 & Hby)|[-> Hd]]].
  - rewrite decide_True by done. pose proof (gr_alike _ _ _ _ Hg) as Ha. assert (Eb : bcs (fatfs v1) = bcs (fatfs v)) by (by rewrite Ha).
    replace (csize (fatfs v)) with (csize (fatfs v1)) by (by rewrite Ha). rewrite <- Hp1.
    eapply fwp_mono; [intros x v'; by apply (stored_answer v v1 fp fp1 l l')|]. pose proof Hwr1 as (_&_&_&Hsz&_). apply write_boundary_ok; [|done|by rewrite Hp1].
    destruct (gr_new _ _ _ _ Hg) as (ext & -> & _). split; rewrite ?Eb, ?Hp1, ?Hsz; try done; [apply Hg|by eapply alike_layout|].
    split; [lia|]. unfold zlen in *. rewrite length_app. pose proof (bcs_pos _ Hl). nia.
  - rewrite decide_False by done. apply fwp_ret. right. left. split_and!; try done; [by eapply chosen_full|].
    apply (file_alike v); [apply Hg|by rewrite G3|done].
  - rewrite decide_False by done. apply fwp_ret. right. by right.
Qed.

(** ** All rounds *)

(** [n] bytes were stored, all there were unless no cluster is free. *)
Definition bytes_written v fp l w (r : FRESULT) (fp' : FIL) (n : Z) v' : Prop :=
  0 <= n <= zlen w /\ (n = zlen w \/ full v') /\ r = FR_OK /\ wrote fp fp' /\ f_ptr fp' = f_ptr fp + n /\
  exists l', grew v l v' l' /\ file_at v' (grown fp') l' /\ spliced v l v' l' (f_size fp) (f_ptr fp) n w.

Lemma spliced_none v v' l l' size p w :
  (forall i, 0 <= i < Z.max size p -> file_byte v' l' i = file_byte v l i) -> spliced v l v' l' size p 0 w.
Proof using. intros H i Hi. rewrite H by lia. by rewrite decide_False by lia. Qed.

Lemma spliced_trans u v w l1 l2 l3 size p n m (bs : list Z) :
  0 <= p -> 0 <= n -> 0 <= m -> spliced u l1 v l2 size p n bs -> spliced v l2 w l3 size (p + n) m (drop (Z.to_nat n) bs) -> spliced u l1 w l3 size p (n + m) bs.
Proof using.
  intros Hp Hn Hm H1 H2 i Hi. rewrite H2 by lia. destruct (decide (p + n <= i < p + n + m)) as [D|D].
  - rewrite decide_True by lia. unfold byte_at. rewrite !nth_lookup, lookup_drop. do 2 f_equal. lia.
  - rewrite H1 by lia. destruct (decide (p <= i < p + n)); [by rewrite decide_True by lia|by rewrite decide_False by lia].
Qed.

Lemma damaged_before v v' l h : (forall c, c ∈ l -> entry v' c <> 1) -> grew v h v' l -> damaged v' -> damaged v.
Proof using.
  intros H1 Hg (x & Hx & E). assert (Hx' : cluster (fatfs v) x) by (by apply (alike_cluster _ _ _ (gr_alike _ _ _ _ Hg))).
  exists x. split; [done|]. rewrite <- (gr_entries _ _ _ _ Hg); [done|done|]. intros Hin. by apply (H1 x).
Qed.

Lemma clusters_sane v c l x : clusters v c l -> x ∈ l -> entry v x <> 1.
Proof using.
  intros [[_ ->]|(_ & _ & d & Hp & _)] Hx; [by apply elem_of_nil in Hx|]. pose proof (path_links _ _ _ _ _ Hp Hx). lia.
Qed.

Lemma write_rounds_ok fuel v fp l w bw :
  sound -> writable v fp l w -> zlen w <= Z.of_nat fuel -> 0 <= bw -> bw + zlen w < 2 ^ 32 ->
  fwp (write_rounds fuel fp w bw) (fun x v' => let '(r, fp', b) := x in
    bytes_written v fp l w r fp' (b - bw) v' \/ r = FR_INT_ERR /\ damaged v) v.
Proof using.
  intros S. revert v fp l w bw. induction fuel as [|k IH]; intros v fp l w bw Hwr Hfuel Hbw Hsum;
    destruct (writable_core _ _ _ _ Hwr) as (Hc & Hp0 & Hs32 & Hroom); pose proof (wr_file _ _ _ _ Hwr) as Hf; cbn [write_rounds].
  all: destruct (Z.eqb_spec (zlen w) 0) as [E|Hne];
    [apply fwp_ret; left; rewrite Z.sub_diag; split_and!; [lia|lia|left; lia|done|apply wrote_refl|lia|];
     exists l; split_and!; [eapply quiet_grew; [apply Hwr|apply quiet_refl, Hwr|done]|done|by apply spliced_none]|].
  { unfold zlen in *. lia. }
  apply fwp_bind. eapply fwp_mono; [|apply write_round_ok; try done; unfold zlen in *; lia].
  intros [[r fp1] n] v1 [(-> & Hn & Hwr1 & Hp1 & l1 & Hg & Hf1 & Hsp)|[(-> & -> & -> & Hfull & Hg & Hf1 & Hby)|[-> Hd]]].
  3: { apply fwp_ret. by right. }
  2: { apply fwp_ret. left. rewrite Z.sub_diag. pose proof (zlen_nonneg w). split_and!; [lia|lia|by right|done|apply wrote_refl|lia|]. exists l. split_and!; [done|done|].
    apply spliced_none. intros i Hi. apply Hby. unfold inside. lia. }
  pose proof Hwr as [Hok Hl Hla _ Hs0 Hp32 Hb]. pose proof (gr_alike _ _ _ _ Hg) as Ha. pose proof Hwr1 as (_&_&_&Hsz1&_).
  rewrite Hp1, !(wrap_small 32) by (unfold fits; lia). assert (Hlen : zlen (drop (Z.to_nat n) w) = zlen w - n) by (unfold zlen in *; rewrite length_drop; lia).
  assert (Hwr2 : writable v1 (put_ptr (f_ptr fp + n) fp1) l1 (drop (Z.to_nat n) w)).
  { split; cbn [f_ptr f_size put_ptr]; rewrite ?Hlen, ?Hsz1; try done; [apply Hg|by eapply alike_layout|by apply Hg|lia|by apply Forall_drop]. }
  eapply fwp_mono; [|apply (IH v1 _ l1 _ (bw + n) Hwr2); lia]. intros [[r fp2] b] v2 [(H1 & H2 & -> & H3 & H4 & l2 & H5 & H6 & H7)|[-> Hd]].
  2: { right. split; [done|]. eapply damaged_before; [|done|done]. intros c Hin. by eapply clusters_sane; [apply (writable_core _ _ _ _ Hwr2)|]. }
  left. cbn [f_ptr f_size put_ptr] in *. rewrite Hsz1 in H7. split_and!; [lia|lia|destruct H2; [left; lia|by right]|done|by eapply wrote_trans|lia|].
  exists l2. split_and!; [|done|].
  - eapply grew_trans; [|done|done]. intros c Hin. by eapply clusters_used; [apply (writable_core _ _ _ _ Hwr2)|].
  - replace (b - bw) with (n + (b - (bw + n))) by lia. apply (spliced_trans v v1 v2 l l1 l2); try done; lia.
Qed.

(** The object is for [n] more bytes, which are the first of [w]; the file has its
    other bytes, and the volume the other clusters. *)
Definition file_written v fp l w fp' (n : Z) v' : Prop :=
  f_ptr fp' = f_ptr fp + n /\ f_size fp' = Z.max (f_size fp) (f_ptr fp + n) /\ f_flag fp' = Z.lor (f_flag fp) FA__WRITTEN /\
  (f_fs fp' = f_fs fp /\ f_id fp' = f_id fp /\ f_dir_sect fp' = f_dir_sect fp /\ f_dir_ptr fp' = f_dir_ptr fp) /\
  exists l', grew v l v' l' /\ file_at v' fp' l' /\
    forall i, 0 <= i < f_size fp' -> file_byte v' l' i = if decide (f_ptr fp <= i < f_ptr fp + n) then byte_at w (i - f_ptr fp) else file_byte v l i.

Lemma file_flag v fp m l : file_at v fp l -> file_at v (raise_flag m fp) l.
Proof using. intros [[H1 H2 H3] H4 H5]. by split; [split|..]. Qed.

Lemma bytes_file v fp l w w' fp' n v' :
  0 <= n -> (forall i, 0 <= i < n -> byte_at w' i = byte_at w i) -> f_ptr fp <= f_size fp -> bytes_written v fp l w' FR_OK fp' n v' ->
  file_written v fp l w (raise_flag FA__WRITTEN (grown fp')) n v'.
Proof using.
  intros Hn He Hp (H1 & H2 & _ & H3 & H4 & l' & H5 & H6 & H7). destruct (grown_fields fp') as (G1 & G2 & _). pose proof H3 as (Hfs&Hid&Hfl&Hsz&Hds&Hdp).
  assert (G6 : f_flag (grown fp') = f_flag fp') by (unfold grown; by destruct (_ <? _)).
  assert (Esz : f_size (grown fp') = Z.max (f_size fp) (f_ptr fp + n)) by (rewrite G2, Hsz, H4; lia).
  split; [cbn; by rewrite G1|]. split; [done|]. split; [cbn; by rewrite G6, Hfl|].
  split; [unfold grown; destruct (_ <? _); by cbn|].
  exists l'. split; [done|]. split; [by apply file_flag|]. intros i Hi. cbn [f_size raise_flag put_flag] in Hi. rewrite Esz in Hi.
  rewrite H7 by done. case_decide; [|done]. apply He. lia.
Qed.

(** The count of the code does not pass 4 GB. *)
Lemma write_length fp w :
  f_size fp < 2 ^ 32 -> zlen w < 2 ^ 32 -> Forall is_byte w -> 0 <= f_size fp ->
  let w' := if u32 (f_size fp + zlen w) <? f_size fp then [] else w in
  (w' = [] /\ 2 ^ 32 <= f_size fp + zlen w \/ w' = w) /\ f_size fp + zlen w' < 2 ^ 32 /\ Forall is_byte w'.
Proof using.
  intros Hs32 Hw Hb Hs0. pose proof (zlen_nonneg w). cbn zeta. destruct (Z.ltb_spec (u32 (f_size fp + zlen w)) (f_size fp)) as [Hlt|Hge].
  - split_and!; [|change (zlen (@nil Z)) with 0; lia|constructor]. left. split; [done|]. destruct (decide (f_size fp + zlen w < 2 ^ 32)); [|lia].
    rewrite wrap_small in Hlt by (unfold fits; lia). lia.
  - split_and!; [by right| |done]. unfold wrap in Hge. destruct (decide (f_size fp + zlen w < 2 ^ 32)); [done|].
    rewrite <- (Z.mod_add _ (-1)), Z.mod_small in Hge by lia. lia.
Qed.

(** What [f_write] answers. *)
Definition write_answer v fp l w (x : FRESULT * FIL * Z) v' : Prop :=
  let '(r, fp', n) := x in
  r = FR_OK /\ usable (fatfs v) fp FA_WRITE /\ file_written v fp l w fp' n v' /\
    (n = zlen w \/ 0 <= n < zlen w /\ full v' \/ n = 0 /\ 2 ^ 32 <= f_size fp + zlen w) \/
  refused (fatfs v) fp FA_WRITE r /\ n = 0 /\ fp' = fp /\ quiet v v' \/
  r = FR_INT_ERR /\ damaged v.

Lemma f_write_ok (s : fsys) fp l w :
  sound -> win_ok (volume s) -> layout (fatfs (volume s)) -> 0 <= last_clust (fatfs (volume s)) -> file_at (volume s) fp l ->
  Forall is_byte w -> zlen w < 2 ^ 32 -> gwp (f_write fp w) (fun x s' => write_answer (volume s) fp l w x (volume s')) s.
Proof using.
  intros S Hok Hl Hla Hf Hb Hw. pose proof Hf as [[Hc [Hs32 Hroom] Hptr] _ _].
  unfold f_write. apply gwp_bind. eapply gwp_mono; [|by apply check_file_ok]. intros r0 s1 (Hq & Hf1 & _ & _ & _ & [[-> Hu]|Hr]).
  2: { pose proof (refused_error _ _ _ _ Hr) as [Hne _]. rewrite decide_False by done. apply gwp_ret. right. left. by split_and!. }
  rewrite decide_True by done. set (w' := if _ <? _ then [] else w).
  destruct (write_length fp w Hs32 Hw Hb) as (Hw' & Hw2 & Hb'); [lia|]. fold w' in Hw', Hw2, Hb'. pose proof (zlen_nonneg w) as Hz0.
  clearbody w'. pose proof (zlen_nonneg w') as Hz. pose proof (quiet_alike _ _ Hq) as Ha.
  assert (Hwr : writable (volume s1) fp l w').
  { split; rewrite ?Hf1; try done; [apply Hq| |lia|lia]. unfold grown. rewrite (proj2 (Z.ltb_ge _ _)) by lia. eapply file_stays; [done|apply Hq|done]. }
  apply gwp_vol, fwp_bind. eapply fwp_mono; [|apply (write_rounds_ok _ _ _ _ _ _ S Hwr); unfold zlen in *; lia].
  intros [[r fp1] n] v2 [Hbw|[-> Hd]]; rewrite ?Z.sub_0_r in *.
  - pose proof Hbw as (Hn & Hfull & -> & _). rewrite decide_True by done. apply fwp_ret. left. cbn [volume with_volume]. split_and!; [done|done| |].
    + assert (Hb2 : bytes_written (volume s) fp l w' FR_OK fp1 n v2).
      { destruct Hbw as (K1 & K2 & K3 & K4 & K5 & l' & K6 & K7 & K8). split_and!; try done; [lia|lia|]. exists l'. split_and!; [|done|].
        - eapply grew_trans; [|by eapply quiet_grew; [apply Hl| |exact Hc]|done]. intros c Hin. by eapply clusters_used; [apply (writable_core _ _ _ _ Hwr)|].
        - intros i Hi. rewrite K8 by done. case_decide; [done|]. apply file_byte_stays; [done|by eapply clusters_all| |apply Hq]. unfold inside. lia. }
      eapply bytes_file; [lia| |lia|done]. intros i Hi. destruct Hw' as [[-> _]| ->]; [|done]. change (zlen (@nil Z)) with 0 in Hn. lia.
    + destruct Hw' as [[-> ?]| ->]; [change (zlen (@nil Z)) with 0 in Hn; right; right; split; [lia|done]|].
      destruct (decide (n = zlen w)); [by left|right; left]. split; [lia|]. by destruct Hfull.
  - rewrite decide_False by done. apply fwp_ret. right. right. split; [done|]. destruct Hd as (x & Hx & E). exists x.
    rewrite Hf1 in Hx. split; [done|]. rewrite <- E. symmetry. apply entry_stays; [apply Hl|apply Hq|done].
Qed.

(** (C12) Writing to an open file on a disk without faults stores the bytes at the pointer,
    in clusters of the file and in clusters that were free, and the pointer and the
    size follow; the other bytes of the file, the links and the data of all other
    clusters stay.  Fewer bytes are stored only when no cluster is free, and none
    when the size would pass 4 GB.  Only the checks of the object, or an entry of the
    table that no table has, answer an error. *)
Theorem f_write_stores (s : fsys) fp l w :
  sound -> win_ok (volume s) -> layout (fatfs (volume s)) -> 0 <= last_clust (fatfs (volume s)) -> file_at (volume s) fp l ->
  Forall is_byte w -> zlen w < 2 ^ 32 ->
  exists r fp' n s', f_write fp w s = Some ((r, fp', n), s') /\
    (r = FR_OK /\ usable (fatfs (volume s)) fp FA_WRITE /\ file_written (volume s) fp l w fp' n (volume s') /\
       (n = zlen w \/ 0 <= n < zlen w /\ full (volume s') \/ n = 0 /\ 2 ^ 32 <= f_size fp + zlen w) \/
     refused (fatfs (volume s)) fp FA_WRITE r /\ n = 0 /\ fp' = fp /\ quiet (volume s) (volume s') \/
     r = FR_INT_ERR /\ damaged (volume s)).
Proof using.
  intros S Hok Hl Hla Hf Hb Hw. destruct (gwp_run _ _ _ (f_write_ok s fp l w S Hok Hl Hla Hf Hb Hw)) as ([[r fp'] n] & s' & Hrun & H1).
  by exists r, fp', n, s'.
Qed.

End FatWrite.
