(* ===== verification/FatSeek.v ===== *)
(** * Moving the pointer of a file

    [f_lseek] within a file, with the walk along its clusters. *)

From S2P Require Import Prelude Diskio FatVol FatBytes FatWin FatTable FatChain FatMount FatDir FatFile FatData FatRead FatWrite.

Section FatSeek.

Context {DK : Type} {HD : Disk DK} {HS : Store DK}.

Implicit Types v : vol (DK := DK).

(** A step that only read the table. *)
Record followed v v' : Prop := {
  fo_kept : kept v v';
  fo_entries : forall x, cluster (fatfs v) x -> entry v' x = entry v x;
  fo_last : 0 <= last_clust (fatfs v) -> 0 <= last_clust (fatfs v')
}.

Lemma followed_refl v : win_ok v -> followed v v.
Proof using. intros Hok. split; [by apply kept_refl|done|done]. Qed.

Lemma followed_trans u v w : followed u v -> followed v w -> followed u w.
Proof using.
  intros [H1 H2 H3] [K1 K2 K3]. split; [by eapply kept_trans| |by auto]. intros x Hx. rewrite K2; [by apply H2|].
  by apply (alike_cluster _ _ _ (k_alike _ _ H1)).
Qed.

Lemma quiet_followed v v' : table_ok (fatfs v) -> quiet v v' -> followed v v'.
Proof using.
  intros Ht [H1 H2 H3]. split; [by apply kept_stays|intros x Hx; by apply entry_stays|]. by rewrite (st_same _ _ H2).
Qed.

Lemma followed_clusters v v' h l : followed v v' -> clusters v h l -> clusters v' h l.
Proof using. intros [H1 H2 _]. apply entries_clusters; [apply H1|done]. Qed.

Lemma followed_bytes v v' l i : layout (fatfs v) -> followed v v' -> Forall (cluster (fatfs v)) l -> inside (fatfs v) l i -> file_byte v' l i = file_byte v l i.
Proof using. intros Hl [H1 _ _] Hall Hi. rewrite <- (app_nil_r l) at 1. by apply kept_bytes. Qed.

Lemma followed_damaged v v' : followed v v' -> damaged v' -> damaged v.
Proof using.
  intros [H1 H2 _] (x & Hx & E). assert (Hx' : cluster (fatfs v) x) by (by apply (alike_cluster _ _ _ (k_alike _ _ H1))). exists x. split; [done|]. by rewrite <- H2.
Qed.

(** ** Where the walk is *)

(** The walk is at the cluster [k] of the chain, with [rem] bytes to go. *)
Record walking (f : FATFS) (l : list Z) (ofs k : Z) (fp : FIL) (clst rem : Z) : Prop := {
  wk_clust : f_clust fp = clst;
  wk_index : 0 <= k /\ l !! Z.to_nat k = Some clst;
  wk_ptr : f_ptr fp = bcs f * k;
  wk_rem : 0 < rem /\ bcs f * k + rem = ofs
}.

Lemma walking_step f l ofs k fp clst rem c :
  layout f -> ofs <= bcs f * zlen l -> ofs < 2 ^ 32 -> l !! S (Z.to_nat k) = Some c -> walking f l ofs k fp clst rem -> bcs f < rem ->
  walking f l ofs (k + 1) (put_ptr (u32 (f_ptr fp + bcs f)) (put_clust c fp)) c (rem - bcs f).
Proof using.
  intros Hl Hle H32 Hc [H1 H2 H3 H4] Hlt. pose proof (bcs_pos f Hl). split; cbn; [done| | |].
  - split; [lia|]. by replace (Z.to_nat (k + 1)) with (S (Z.to_nat k)) by lia.
  - rewrite H3, wrap_small by (unfold fits; nia). lia.
  - split; [lia|nia].
Qed.

Lemma walking_alike f f' l ofs k fp clst rem : bcs f' = bcs f -> walking f l ofs k fp clst rem -> walking f' l ofs k fp clst rem.
Proof using. intros Eb [H1 H2 H3 H4]. by split; rewrite ?Eb. Qed.

(** There is a next cluster while more than one is left. *)
Lemma walking_next f l ofs k fp clst rem :
  layout f -> ofs <= bcs f * zlen l -> walking f l ofs k fp clst rem -> bcs f < rem -> exists c, l !! S (Z.to_nat k) = Some c.
Proof using.
  intros Hl Hle [H1 H2 H3 H4] Hlt. pose proof (bcs_pos f Hl). apply lookup_lt_is_Some_2. unfold zlen in *.
  assert (k + 1 < Z.of_nat (length l)) by nia. lia.
Qed.

Definition walked v l ofs fp (x : FRESULT * FIL * Z * Z) v' : Prop :=
  let '(r, fp', clst, rem) := x in
  r = FR_OK /\ followed v v' /\ same_file fp fp' /\ f_dsect fp' = f_dsect fp /\ (exists k, walking (fatfs v) l ofs k fp' clst rem) /\ rem <= bcs (fatfs v) \/
  r = FR_INT_ERR /\ damaged v.

(** Following the chain, with or without the right to make it longer. *)
Lemma seek_next_ok v h l i c y (w : bool) :
  sound -> win_ok v -> layout (fatfs v) -> 0 <= last_clust (fatfs v) -> chain v h l -> l !! i = Some c -> l !! S i = Some y ->
  fwp (if w then create_chain c else get_fat c) (fun r v' => followed v v' /\ r = y \/ r = 1 /\ damaged v) v.
Proof using.
  intros S Hok Hl Hla Hch Hc Hy. destruct w.
  - eapply fwp_mono; [|by eapply follow_ok]. intros r v' [(Hk & -> & He & Hlc)|?]; [left|by right]. split; [|done]. split; [done|done|by rewrite Hlc].
  - pose proof (chain_cluster _ _ _ _ _ Hch Hc) as Hcc. eapply fwp_mono; [|apply get_fat_ok; [done|apply Hl|done]]. intros r v' Hg. left.
    split; [apply quiet_followed; [apply Hl|by eapply quiet_got]|]. rewrite (gt_sound _ _ _ _ Hg S). by eapply chain_next.
Qed.

Lemma seek_loop_ok fuel v h l ofs k fp clst rem :
  sound -> win_ok v -> layout (fatfs v) -> 0 <= last_clust (fatfs v) -> chain v h l -> ofs <= bcs (fatfs v) * zlen l -> ofs < 2 ^ 32 ->
  walking (fatfs v) l ofs k fp clst rem -> rem <= bcs (fatfs v) * (Z.of_nat fuel + 1) ->
  fwp (seek_loop fuel (bcs (fatfs v)) fp clst rem) (walked v l ofs fp) v.
Proof using.
  intros S. revert v k fp clst rem. induction fuel as [|n IH]; intros v k fp clst rem Hok Hl Hla Hch Hroom H32 Hwk Hfuel; cbn [seek_loop].
  all: destruct (Z.ltb_spec (bcs (fatfs v)) rem) as [Hlt|Hge];
    [|apply fwp_ret; left; split_and!; [done|by apply followed_refl|by apply same_file_refl|done|by exists k|done]].
  { lia. }
  destruct (walking_next _ _ _ _ _ _ _ Hl Hroom Hwk Hlt) as [y Hy]. pose proof (wk_index _ _ _ _ _ _ _ Hwk) as [_ Hc].
  pose proof (chain_cluster _ _ _ _ _ Hch Hy) as Hyc. pose proof (cluster_small _ _ Hl Hyc) as Hys.
  apply fwp_bind. eapply fwp_mono; [|by eapply (seek_next_ok v h l _ clst y (flagged FA_WRITE fp))].
  intros r v1 [[Hfo ->]|[-> Hd]].
  2: { rewrite andb_false_r. cbn [Z.eqb DISK_ERROR]. apply fwp_bind, fwp_get. cbn [Z.leb Z.compare orb]. apply fwp_ret. by right. }
  pose proof (k_alike _ _ (fo_kept _ _ Hfo)) as Ha. rewrite (proj2 (Z.eqb_neq y 0)), andb_false_r by lia. rewrite (proj2 (Z.eqb_neq y DISK_ERROR)) by (unfold DISK_ERROR; lia).
  apply fwp_bind, fwp_get. rewrite (proj2 (Z.leb_gt y 1)) by lia. replace (n_fatent (fatfs v1)) with (n_fatent (fatfs v)) by (by rewrite Ha).
  rewrite (proj2 (Z.leb_gt (n_fatent (fatfs v)) y)) by (by destruct Hyc). cbn [orb].
  assert (Eb : bcs (fatfs v1) = bcs (fatfs v)) by (by rewrite Ha). rewrite <- Eb.
  eapply fwp_mono; [|apply (IH v1 (k + 1)); rewrite ?Eb; try done].
  - intros [[[r fp'] c'] m] v2 [(-> & Hfo2 & Hsf & Hds & (k2 & Hwk2) & Hm)|[-> Hd]]; [left|right].
    + split_and!; [done|by eapply followed_trans|by eapply same_file_trans; [|exact Hsf]|by rewrite Hds|exists k2|by rewrite <- Eb].
      by apply (walking_alike (fatfs v1)).
    + split; [done|]. by eapply followed_damaged.
  - apply (k_ok _ _ (fo_kept _ _ Hfo)).
  - by eapply alike_layout.
  - by apply (fo_last _ _ Hfo).
  - destruct (followed_clusters _ _ h l Hfo (or_intror Hch)) as [[_ ->]|?]; [done|done].
  - apply (walking_alike (fatfs v)); [done|]. rewrite ?Eb. by eapply walking_step.
  - lia.
Qed.

(** ** Where it starts *)

Lemma bcs_bits f : layout f -> exists n, 9 <= n <= 16 /\ bcs f = 2 ^ n.
Proof using.
  intros [_ (k & Hk & E) _ _]. exists (k + 9). split; [lia|]. unfold bcs, SS. rewrite E, Z.pow_add_r by lia. done.
Qed.

(** The start of the cluster with the mask of the code. *)
Lemma mask_start n x : 0 <= n <= 32 -> 0 <= x < 2 ^ 32 -> Z.land x (4294967295 - (2 ^ n - 1)) = 2 ^ n * (x / 2 ^ n).
Proof using.
  intros Hn Hx. assert (E : 4294967295 - (2 ^ n - 1) = Z.shiftl (Z.ones (32 - n)) n).
  { rewrite Z.shiftl_mul_pow2, Z.ones_equiv by lia. assert (2 ^ 32 = 2 ^ (32 - n) * 2 ^ n) by (rewrite <- Z.pow_add_r by lia; f_equal; lia). lia. }
  rewrite E. transitivity (Z.shiftl (Z.shiftr x n) n); [|rewrite Z.shiftl_mul_pow2, Z.shiftr_div_pow2 by lia; lia].
  apply Z.bits_inj'. intros i Hi. rewrite Z.land_spec, !Z.shiftl_spec by lia. destruct (decide (i < n)).
  - rewrite !(Z.testbit_neg_r _ (i - n)) by lia. apply andb_false_r.
  - rewrite Z.shiftr_spec, Z.testbit_ones by lia. replace (i - n + n) with i by lia. destruct (decide (i < 32)).
    + rewrite (proj2 (Z.leb_le _ _)), (proj2 (Z.ltb_lt _ _)) by lia. by rewrite andb_true_r.
    + rewrite (proj1 (Z.bounded_iff_bits_nonneg 32 x ltac:(lia) ltac:(lia)) ltac:(lia) i) by lia. done.
Qed.

(** The walk starts at the cluster of the pointer, when the offset is not before
    it, or at the first one. *)
Lemma seek_start_ok v fp l ofs :
  layout (fatfs v) -> file_at v fp l -> 0 < ofs <= f_size fp ->
  exists k fp' clst rem, walking (fatfs v) l ofs k fp' clst rem /\ same_file fp fp' /\ f_dsect fp' = f_dsect fp /\
    seek_start (bcs (fatfs v)) (f_ptr fp) (put_ptr 0 fp) ofs v = Some ((FR_OK, fp', clst, rem), v).
Proof using.
  intros Hl [[Hc [H32 Hroom] Hp] Hcl _] Hofs. pose proof (bcs_pos _ Hl) as Hb. destruct (bcs_bits _ Hl) as (n & Hn & En). set (B := bcs (fatfs v)) in *.
  unfold seek_start. cbn [f_clust f_sclust put_ptr]. destruct ((0 <? f_ptr fp) && ((f_ptr fp - 1) / B <=? (ofs - 1) / B)) eqn:E.
  - apply andb_true_iff in E as [E1%Z.ltb_lt E2%Z.leb_le]. assert (Em : Z.land (f_ptr fp - 1) (4294967295 - (B - 1)) = B * ((f_ptr fp - 1) / B)) by (rewrite En; apply mask_start; lia).
    cbn zeta. rewrite Em.
    pose proof (Z.div_mod (f_ptr fp - 1) B ltac:(lia)). pose proof (Z.mod_pos_bound (f_ptr fp - 1) B ltac:(lia)).
    pose proof (Z.div_pos (f_ptr fp - 1) B ltac:(lia) ltac:(lia)). pose proof (Z.div_mod (ofs - 1) B ltac:(lia)). pose proof (Z.mod_pos_bound (ofs - 1) B ltac:(lia)).
    exists ((f_ptr fp - 1) / B), (put_ptr (B * ((f_ptr fp - 1) / B)) (put_ptr 0 fp)), (f_clust fp), (ofs - B * ((f_ptr fp - 1) / B)).
    split; [|by split_and!]. split; [done|split; [done|by apply Hcl]|done|]. fold B. split; [nia|lia].
  - destruct (Z.eqb_spec (f_sclust fp) 0) as [E0|E0].
    + exfalso. assert (l = []) as ->; [|change (zlen (@nil Z)) with 0 in Hroom; lia].
      destruct Hc as [[_ ->]|Hch]; [done|]. pose proof (chain_cluster _ _ _ _ _ Hch (chain_first _ _ _ Hch)) as [? _]. lia.
    + destruct Hc as [[? _]|Hch]; [done|]. exists 0, (put_clust (f_sclust fp) (put_ptr 0 fp)), (f_sclust fp), ofs.
      split; [|by split_and!]. split; cbn; [done| |lia|lia]. split; [done|]. by apply (chain_first v).
Qed.

(** ** The whole walk *)

Definition sought v l ofs fp (x : FRESULT * FIL * Z) v' : Prop :=
  let '(r, fp', nsect) := x in
  r = FR_OK /\ followed v v' /\ same_file fp fp' /\ f_dsect fp' = f_dsect fp /\ f_ptr fp' = ofs /\ l !! Z.to_nat ((ofs - 1) / bcs (fatfs v)) = Some (f_clust fp') /\
    (ofs mod SS <> 0 -> nsect = place (fatfs v) l ofs) \/
  r = FR_INT_ERR /\ damaged v.

Lemma seek_walk_ok v fp l ofs :
  sound -> win_ok v -> layout (fatfs v) -> 0 <= last_clust (fatfs v) -> file_at v fp l -> 0 < ofs <= f_size fp ->
  fwp (seek_walk (f_ptr fp) (put_ptr 0 fp) ofs) (sought v l ofs fp) v.
Proof using.
  intros S Hok Hl Hla Hf Hofs. pose proof Hf as [[Hc [H32 Hroom] Hp] _ _]. pose proof (bcs_pos _ Hl) as Hb.
  destruct (seek_start_ok v fp l ofs Hl Hf Hofs) as (k & fp1 & c & rem & Hwk & Hsf & Hds & Hrun).
  assert (Hch : chain v (f_sclust fp) l) by (destruct Hc as [[_ ->]|?]; [change (zlen (@nil Z)) with 0 in Hroom; lia|done]).
  unfold seek_walk. apply fwp_bind, fwp_get. cbn zeta. change (csize (fatfs v) * SS) with (bcs (fatfs v)). rewrite (wrap_small 32) by (unfold fits; lia).
  rewrite (proj2 (Z.eqb_neq _ _)) by lia. apply fwp_bind. unfold fwp at 1. rewrite Hrun.
  destruct (wk_index _ _ _ _ _ _ _ Hwk) as [Hk0 Hkc]. pose proof (cluster_small _ _ Hl (chain_cluster _ _ _ _ _ Hch Hkc)) as Hcs.
  rewrite bool_decide_true, (proj2 (Z.eqb_neq c 0)) by (done || lia). cbn [andb negb]. pose proof (wk_rem _ _ _ _ _ _ _ Hwk) as Hrem.
  apply fwp_bind. eapply fwp_mono; [|apply (seek_loop_ok _ v (f_sclust fp) l ofs k fp1 c rem); try done; [lia|lia|]].
  2: { pose proof (Z.div_mod rem (bcs (fatfs v)) ltac:(lia)). pose proof (Z.mod_pos_bound rem (bcs (fatfs v)) ltac:(lia)). pose proof (Z.div_pos rem (bcs (fatfs v)) ltac:(lia) ltac:(lia)). nia. }
  intros [[[r fp2] c2] m] v1 [(-> & Hfo & Hsf2 & Hds2 & (k2 & [W1 [W2 W3] W4 W5]) & Hm)|[-> Hd]].
  2: { rewrite decide_False by done. apply fwp_ret. by right. }
  rewrite decide_True by done. rewrite W4, (wrap_small 32) by (unfold fits; lia). replace (bcs (fatfs v) * k2 + m) with ofs by lia.
  assert (Hq : (ofs - 1) / bcs (fatfs v) = k2) by (symmetry; apply (Z.div_unique _ _ _ (m - 1)); lia).
  pose proof (csize_range _ Hl) as Hcr. assert (Hmod : ofs mod SS = m mod SS).
  { destruct W5 as [_ W5]. rewrite <- W5. unfold bcs, SS in *. replace (csize (fatfs v) * 512 * k2 + m) with (m + (csize (fatfs v) * k2) * 512) by lia. by rewrite Z.mod_add by lia. }
  pose proof (k_alike _ _ (fo_kept _ _ Hfo)) as Ha.
  destruct (Z.eqb_spec (m mod SS) 0) as [Hm0|Hm0].
  - apply fwp_ret. left. split_and!; [done|done|by eapply same_file_trans|by cbn; rewrite Hds2|done|by cbn; rewrite Hq, W3, W1|by rewrite Hmod].
  - apply fwp_bind, fwp_get, fwp_ret. pose proof (chain_cluster _ _ _ _ _ Hch W3) as Hcl2.
    destruct (clust2sect_cluster (fatfs v) c2 Hl Hcl2) as [E Hne]. replace (clust2sect (fatfs v1) c2) with (clust2sect (fatfs v) c2) by (by rewrite Ha).
    rewrite E, (proj2 (Z.eqb_neq _ _) Hne). assert (Hlt : m < bcs (fatfs v)).
    { destruct (decide (m = bcs (fatfs v))) as [Em|]; [|lia]. exfalso. apply Hm0. rewrite Em. unfold bcs. apply Z.mod_mul. done. }
    assert (Hj : 0 <= m / SS < csize (fatfs v)) by (unfold bcs, SS in *; split; [apply Z.div_pos; lia|apply Z.div_lt_upper_bound; lia]).
    left. split_and!; [done|done|by eapply same_file_trans|by cbn; rewrite Hds2|done|by cbn; rewrite Hq, W3, W1|]. intros _.
    assert (Hq2 : ofs / bcs (fatfs v) = k2) by (symmetry; apply (Z.div_unique _ _ _ m); lia).
    rewrite (place_cluster (fatfs v) l ofs c2 Hl) by (lia || by rewrite Hq2). pose proof (data_primary _ _ _ Hl Hcl2 Hj) as [_ ?].
    pose proof (first_sector_range _ _ Hl Hcl2). rewrite (wrap_small 32) by (unfold fits; lia). f_equal.
    assert (Eo : ofs / SS = m / SS + k2 * csize (fatfs v)).
    { destruct W5 as [_ W5]. rewrite <- W5. unfold bcs, SS in *. replace (csize (fatfs v) * 512 * k2 + m) with (m + (k2 * csize (fatfs v)) * 512) by lia. by rewrite Z.div_add by lia. }
    rewrite Eo, Z.mod_add by lia. symmetry. by apply Z.mod_small.
Qed.

(** What [f_lseek] answers for a place in the file. *)
Definition seek_answer v fp l ofs (x : FRESULT * FIL) v' : Prop :=
  let '(r, fp') := x in
  r = FR_OK /\ f_ptr fp' = Z.min ofs (f_size fp) /\ same_file fp fp' /\ file_at v' fp' l /\ followed v v' \/
  refused (fatfs v) fp 0 r /\ fp' = fp /\ quiet v v' \/
  r = FR_INT_ERR /\ damaged v.

(** The object at the end of the walk. *)
Lemma sought_file v v' fp l ofs fp' nsect :
  layout (fatfs v) -> file_at v fp l -> 0 <= ofs <= f_size fp -> followed v v' -> same_file fp fp' -> f_ptr fp' = ofs ->
  (0 < ofs -> l !! Z.to_nat ((ofs - 1) / bcs (fatfs v)) = Some (f_clust fp')) -> (ofs mod SS <> 0 -> nsect = place (fatfs v) l ofs) ->
  let fp2 := if negb (f_ptr fp' mod SS =? 0) && negb (nsect =? f_dsect fp') then put_dsect nsect fp' else fp' in
  f_ptr fp2 = ofs /\ f_size fp2 = f_size fp /\ same_file fp fp2 /\ file_at v' fp2 l.
Proof using.
  intros Hl [[Hc [H32 Hroom] Hp] _ _] Hofs Hfo Hsf Hp' Hcl Hn fp2. pose proof (k_alike _ _ (fo_kept _ _ Hfo)) as Ha.
  assert (Eb : bcs (fatfs v') = bcs (fatfs v)) by (by rewrite Ha). pose proof (followed_clusters _ _ _ _ Hfo Hc) as Hc'.
  assert (H2 : f_ptr fp2 = ofs /\ same_file fp fp2 /\ f_clust fp2 = f_clust fp') by (unfold fp2; by destruct (_ && _)).
  assert (H3 : ofs mod SS <> 0 -> f_dsect fp2 = place (fatfs v) l ofs).
  { intros Hm. rewrite <- (Hn Hm). unfold fp2. rewrite Hp', (proj2 (Z.eqb_neq _ _) Hm). cbn [andb negb]. by destruct (Z.eqb_spec nsect (f_dsect fp')). }
  clearbody fp2. destruct H2 as (E1 & E2 & E3). pose proof E2 as (_&_&_&Es&Esc&_). split_and!; try done.
  split; [split|..]; rewrite ?E1, ?Es, ?Esc, ?E3, ?Eb; try done. intros Hm. rewrite (alike_place _ _ _ _ Ha). by apply H3.
Qed.

Lemma f_lseek_ok (s : fsys) fp l ofs :
  sound -> win_ok (volume s) -> layout (fatfs (volume s)) -> 0 <= last_clust (fatfs (volume s)) -> file_at (volume s) fp l ->
  0 <= ofs -> ofs <= f_size fp \/ flagged FA_WRITE fp = false ->
  gwp (f_lseek fp ofs) (fun x s' => seek_answer (volume s) fp l ofs x (volume s')) s.
Proof using.
  intros S Hok Hl Hla Hf Hofs Hin. pose proof Hf as [[Hc [H32 Hroom] Hp] _ _].
  unfold f_lseek. apply gwp_bind. eapply gwp_mono; [|by apply check_file_ok]. intros r0 s1 (Hq & Hf1 & _ & _ & _ & [[-> _]|Hr]).
  2: { pose proof (refused_error _ _ _ _ Hr) as [Hne _]. rewrite decide_False by done. apply gwp_ret. right. left. by split_and!. }
  rewrite decide_True by done. cbn zeta. set (t := if (f_size fp <? ofs) && _ then _ else _).
  assert (Ht : t = Z.min ofs (f_size fp)).
  { unfold t. destruct Hin as [Hin| ->]; [rewrite (proj2 (Z.ltb_ge _ _)) by lia; cbn; lia|]. destruct (Z.ltb_spec (f_size fp) ofs); cbn; lia. }
  clearbody t. apply gwp_vol. pose proof (quiet_followed _ _ (ly_table _ Hl) Hq) as Hfo.
  pose proof (file_stays _ _ _ _ Hl (q_stays _ _ Hq) Hf) as Hfs.
  apply fwp_bind. apply (fwp_mono _ (fun x v' => let '(r, fp', nsect) := x in
    r = FR_OK /\ followed (volume s) v' /\ same_file fp fp' /\ f_ptr fp' = t /\
      (0 < t -> l !! Z.to_nat ((t - 1) / bcs (fatfs (volume s))) = Some (f_clust fp')) /\ (t mod SS <> 0 -> nsect = place (fatfs (volume s)) l t) \/
    r = FR_INT_ERR /\ damaged (volume s))).
  - intros [[r fp'] nsect] v' [(-> & Hfo2 & Hsf & Hp2 & Hcl & Hn)|[-> Hd]].
    2: { rewrite decide_False by done. apply fwp_ret. right. by right. }
    rewrite decide_True by done. apply fwp_ret. destruct (sought_file (volume s) v' fp l t fp' nsect Hl Hf) as (K1 & K2 & K3 & K4); try done; [lia|].
    set (fp2 := if negb (f_ptr fp' mod SS =? 0) && _ then _ else _) in *. rewrite K1, K2, (proj2 (Z.ltb_ge _ _)) by lia.
    left. cbn [volume with_volume]. split_and!; try done. lia.
  - destruct (Z.eqb_spec t 0) as [E|E].
    + apply fwp_ret. left. rewrite E. split_and!; try done; lia.
    + eapply fwp_mono; [|apply (seek_walk_ok _ fp l t S (q_ok _ _ Hq)); rewrite ?Hf1; try done; lia].
      intros [[r fp'] nsect] v' [(-> & Hfo2 & Hsf & _ & Hp2 & Hcl & Hn)|[-> Hd]]; rewrite ?Hf1 in *; [left|right].
      * split_and!; try done. by eapply followed_trans.
      * split; [done|]. by eapply followed_damaged.
Qed.

(** Moving the pointer within a file on a disk without faults ends, and leaves it
    at the offset, or at the end of the file when that is less and the file is only
    read; the object keeps the cluster and the sector of the new place, although in a
    file that may be written the walk goes through the allocator.  The file keeps its
    clusters, every link and all data stay. *)
Theorem f_lseek_moves (s : fsys) fp l ofs :
  sound -> win_ok (volume s) -> layout (fatfs (volume s)) -> 0 <= last_clust (fatfs (volume s)) -> file_at (volume s) fp l ->
  0 <= ofs -> ofs <= f_size fp \/ flagged FA_WRITE fp = false ->
  exists r fp' s', f_lseek fp ofs s = Some ((r, fp'), s') /\
    (r = FR_OK /\ f_ptr fp' = Z.min ofs (f_size fp) /\ same_file fp fp' /\ file_at (volume s') fp' l /\ followed (volume s) (volume s') \/
     refused (fatfs (volume s)) fp 0 r /\ fp' = fp /\ quiet (volume s) (volume s') \/
     r = FR_INT_ERR /\ damaged (volume s)).
Proof using.
  intros S Hok Hl Hla Hf Hofs Hin. destruct (gwp_run _ _ _ (f_lseek_ok s fp l ofs S Hok Hl Hla Hf Hofs Hin)) as ([r fp'] & s' & Hrun & H1).
  by exists r, fp', s'.
Qed.

(** ** Writing, going back and reading *)

(** As a caller does it, who stops at the first error. *)
Definition write_back_read (fp : FIL) (w : list Z) : G (DK := DK) (FRESULT * Z * list Z) :=
  '(r, fp1, n) ← f_write fp w;
  if decide (r = FR_OK) then
    '(r, fp2) ← f_lseek fp1 (f_ptr fp);
    if decide (r = FR_OK) then
      '(r, fp3, buff, br) ← f_read fp2 n;
      mret (r, n, buff)
    else mret (r, n, [])
  else mret (r, n, []).

Lemma file_bytes_all v l o n w : 0 <= n <= zlen w -> (forall i, o <= i < o + n -> file_byte v l i = byte_at w (i - o)) -> file_bytes v l o n = take (Z.to_nat n) w.
Proof using.
  intros Hn Hb. change w with (drop (Z.to_nat 0) w). rewrite slice_bytes by lia. apply bytes_shift. intros i Hi. rewrite Hb by lia. f_equal. lia.
Qed.

Lemma flagged_written m fp fp' : f_flag fp' = Z.lor (f_flag fp) FA__WRITTEN -> Z.land FA__WRITTEN m = 0 -> flagged m fp' = flagged m fp.
Proof using. intros E H. unfold flagged. by rewrite E, Z.land_lor_distr_l, H, Z.lor_0_r. Qed.

(** The object can still be used after the write. *)
Lemma usable_written v v' fp l w fp' n access :
  file_written v fp l w fp' n v' -> usable (fatfs v) fp FA_WRITE -> access = 0 \/ flagged access fp = true -> Z.land FA__WRITTEN access = 0 -> usable (fatfs v') fp' access.
Proof using.
  intros (_ & _ & Hfl & (Hfs & Hid & _) & l' & Hg & _) (U1 & U2 & U3 & U4 & _) Ha Hz. pose proof (gr_alike _ _ _ _ Hg) as Hal. unfold usable.
  rewrite Hfs, Hid, !(flagged_written _ _ _ Hfl) by done. replace (fs_type (fatfs v')) with (fs_type (fatfs v)) by (by rewrite Hal).
  replace (fs_id (fatfs v')) with (fs_id (fatfs v)) by (by rewrite Hal). by split_and!.
Qed.

Lemma usable_same f f' fp fp' access : alike f f' -> same_file fp fp' -> usable f fp access -> usable f' fp' access.
Proof using.
  intros Ha (E1 & E2 & E3 & _) (U1 & U2 & U3 & U4 & U5). unfold usable, flagged in *. rewrite E1, E2, E3.
  replace (fs_type f') with (fs_type f) by (by rewrite Ha). replace (fs_id f') with (fs_id f) by (by rewrite Ha). done.
Qed.

(** (C14) What was written can be read again, also across clusters the file grew by:
    writing to a file that may be written and read, going back to where the writing
    began and reading as many bytes as were stored ends, and the bytes read are the bytes
    given to be written, as many as were stored; an error is answered only when the
    checks of the object have a reason or the table has an entry that no table has. *)
Theorem write_then_read (s : fsys) fp l w :
  sound -> win_ok (volume s) -> layout (fatfs (volume s)) -> 0 <= last_clust (fatfs (volume s)) -> file_at (volume s) fp l ->
  Forall is_byte w -> zlen w < 2 ^ 32 -> flagged FA_READ fp = true ->
  exists r n buff s', write_back_read fp w s = Some ((r, n, buff), s') /\
    (r = FR_OK /\ buff = take (Z.to_nat n) w \/ refused (fatfs (volume s)) fp FA_WRITE r \/ r = FR_INT_ERR /\ damaged (volume s)).
Proof using.
  intros S Hok Hl Hla Hf Hb Hw Hfr. enough (Hrun : gwp (write_back_read fp w) (fun x _ => x.1.1 = FR_OK /\ x.2 = take (Z.to_nat x.1.2) w \/
    refused (fatfs (volume s)) fp FA_WRITE x.1.1 \/ x.1.1 = FR_INT_ERR /\ damaged (volume s)) s).
  { destruct (gwp_run _ _ _ Hrun) as ([[r n] buff] & s' & Hr & H1). by exists r, n, buff, s'. }
  pose proof Hf as [[Hc [H32 Hroom] Hp] _ _]. apply gwp_bind. eapply gwp_mono; [|by apply (f_write_ok s fp l w)].
  intros [[r fp1] n] s1 [(-> & Hu & Hfw & Hn)|[(Hr & -> & -> & _)|[-> Hd]]].
  2: { pose proof (refused_error _ _ _ _ Hr) as [Hne _]. rewrite decide_False by done. apply gwp_ret. by right; left. }
  2: { rewrite decide_False by done. apply gwp_ret. by right; right. }
  pose proof (usable_written _ _ _ _ _ _ _ 0 Hfw Hu (or_introl eq_refl) eq_refl) as Hu0. pose proof (usable_written _ _ _ _ _ _ _ FA_READ Hfw Hu (or_intror Hfr) eq_refl) as Hu1.
  pose proof Hfw as (Hp1 & Hs1 & _ & _ & l1 & Hg & Hf1 & Hby).
  rewrite decide_True by done. pose proof (zlen_nonneg w) as Hz. assert (Hn2 : 0 <= n <= zlen w) by lia.
  pose proof (alike_layout _ _ (gr_alike _ _ _ _ Hg) Hl) as Hl1. pose proof Hf1 as [Hcore1 _ _].
  assert (Hready : forall r, refused (fatfs (volume s1)) fp1 0 r -> refused (fatfs (volume s)) fp FA_WRITE r).
  { intros r [Hr1 Hr2]. split; [done|]. intros [_ Hdr]. by apply Hr2. }
  apply gwp_bind. eapply gwp_mono; [|apply (f_lseek_ok s1 fp1 l1 (f_ptr fp) S); try done; [apply Hg|by apply Hg|lia|left; lia]].
  intros [r fp2] s2 [(-> & Hp2 & Hsf & Hf2 & Hfo)|[(Hr & -> & _)|[-> Hd]]].
  2: { pose proof (refused_error _ _ _ _ Hr) as [Hne _]. rewrite decide_False by done. apply gwp_ret. right. left. by apply Hready. }
  2: { rewrite decide_False by done. apply gwp_ret. right. right. split; [done|]. eapply damaged_before; [|done|done]. intros c Hin. eapply clusters_sane; [apply Hcore1|done]. }
  rewrite decide_True by done. pose proof (k_alike _ _ (fo_kept _ _ Hfo)) as Ha. pose proof Hsf as (_&_&_&Hs2&_).
  apply gwp_bind. eapply gwp_mono; [|apply (f_read_ok s2 fp2 l1 n); [apply (k_ok _ _ (fo_kept _ _ Hfo))|by eapply alike_layout|done|lia]].
  intros [[[r fp3] buff] br] s3 (_ & _ & Htk & _ & Hr & [[-> _]|[(Hans & _)|[_ Hs]]]); apply gwp_ret; [left|right; left|done].
  2: { destruct Hans as [Hr1 Hr2]. split; [done|]. intros [_ Hdr]. apply Hr2. split; [by eapply usable_same|done]. }
  destruct (Hr eq_refl) as (-> & Hlen & _). cbn [fst snd]. split; [done|]. rewrite Hs2, Hp2 in *. replace (Z.min n _) with n in * by lia.
  rewrite take_ge in Htk by (unfold zlen in Hlen; lia). rewrite Htk. apply file_bytes_all; [done|]. intros i Hi. replace (Z.min (f_ptr fp) _) with (f_ptr fp) in * by lia.
  rewrite (followed_bytes (volume s1) (volume s2)); [|done|done|by apply (clusters_all (volume s1) _ _ (fc_clusters _ _ _ Hcore1))|apply (inside_size _ fp1); [done|lia]].
  rewrite Hby by lia. by rewrite decide_True by lia.
Qed.

End FatSeek.
