(* ===== verification/FatScan.v ===== *)
(** * Directories as sequences of entries

    A directory is the fixed area of the root or a chain of clusters.  The directory
    object steps through its entries, and a search finds the first one that has the
    name. *)

From S2P Require Import Prelude Diskio FatVol FatBytes FatWin FatTable FatChain FatMount FatName FatDir FatFile FatData FatRead FatWrite.

(** ** Where the entries are *)

(** The area of the root directory lies between the tables and the clusters. *)
Record root_area (f : FATFS) : Prop := {
  area_some : 0 < n_rootdir f < 65536;
  area_whole : n_rootdir f mod PER_SECTOR = 0;
  area_base : fatbase f + n_fats f * fsize f <= dirbase f;
  area_end : dirbase f + n_rootdir f / PER_SECTOR <= database f
}.

Lemma area_small f : layout f -> root_area f -> dirbase f + n_rootdir f / PER_SECTOR <= 2 ^ 32.
Proof.
  intros Hl [_ _ _ He]. pose proof (csize_range f Hl). pose proof (t_some _ (ly_table _ Hl)). pose proof (ly_end _ Hl). nia.
Qed.

(** The sector of an entry of the directory in the clusters [l], of the root's when
    there is none. *)
Definition dsector (f : FATFS) (l : list Z) (i : Z) : Z :=
  match l with [] => dirbase f + i / PER_SECTOR | _ => place f l (SZ_DIR * i) end.

Definition dcluster (f : FATFS) (l : list Z) (i : Z) : Z := nth (Z.to_nat (i / PER_SECTOR / csize f)) l 0.

Definition room (f : FATFS) (l : list Z) : Z :=
  match l with [] => n_rootdir f | _ => PER_SECTOR * csize f * zlen l end.

(** The entries that an index of 16 bits reaches. *)
Definition entries (f : FATFS) (l : list Z) : Z := Z.min (room f l) 65536.

Lemma per_sector : PER_SECTOR = 16.
Proof. done. Qed.

Lemma dsector_place f l i : l <> [] -> dsector f l i = place f l (SZ_DIR * i).
Proof. by destruct l. Qed.

Lemma dsector_ext f f' l i : alike f f' -> dsector f' l i = dsector f l i.
Proof. intros ->. done. Qed.

Lemma entries_ext f f' l : alike f f' -> entries f' l = entries f l.
Proof. intros ->. done. Qed.

Lemma dir_offset i : 0 <= i -> (SZ_DIR * i) / SS = i / PER_SECTOR /\ (SZ_DIR * i) mod SS = i mod PER_SECTOR * SZ_DIR.
Proof.
  intros Hi. rewrite per_sector. unfold SZ_DIR, SS. change 512 with (32 * 16). split; [by apply Z.div_mul_cancel_l|].
  rewrite Z.mul_mod_distr_l by lia. lia.
Qed.

Lemma dir_cluster f i : layout f -> 0 <= i -> (SZ_DIR * i) / bcs f = i / PER_SECTOR / csize f.
Proof.
  intros Hl Hi. pose proof (csize_range f Hl). unfold bcs. rewrite Z.mul_comm, (Z.mul_comm (csize f)), <- Z.div_div by (unfold SS; lia).
  rewrite Z.mul_comm. by rewrite (proj1 (dir_offset i Hi)).
Qed.

Section FatScan.

Context {DK : Type} {HD : Disk DK} {HS : Store DK}.

Implicit Types v : vol (DK := DK).

(** The directory with the first cluster [c], which is 0 for the root. *)
Definition directory v (c : Z) (l : list Z) : Prop :=
  c = 0 /\ l = [] /\ fs_type (fatfs v) <> FS_FAT32 /\ root_area (fatfs v) \/
  (exists h, chain v h l /\ (c = h \/ c = 0 /\ fs_type (fatfs v) = FS_FAT32 /\ dirbase (fatfs v) = h)).

Lemma directory_all v c l : directory v c l -> Forall (cluster (fatfs v)) l.
Proof using. intros [(_ & -> & _)|(h & (_ & ? & _) & _)]; [constructor|done]. Qed.

Lemma directory_stays v v' c l : table_ok (fatfs v) -> stays v v' -> directory v c l -> directory v' c l.
Proof using.
  intros Ht Hst. pose proof (st_same _ _ Hst) as Hsm. intros [(H1 & H2 & H3 & [H4 H5 H6 H7])|(h & Hch & Hc)].
  - left. split_and!; try done; [by rewrite Hsm|]. split; by rewrite Hsm.
  - right. exists h. split; [by eapply chain_stays|]. by rewrite Hsm.
Qed.

Lemma dsector_primary v c l i :
  layout (fatfs v) -> directory v c l -> 0 <= i < room (fatfs v) l -> primary (fatfs v) (dsector (fatfs v) l i) /\ dsector (fatfs v) l i < 2 ^ 32.
Proof using.
  intros Hl Hd Hi. pose proof (t_geo _ (ly_table _ Hl)) as []. destruct Hd as [(_ & -> & _ & Har)|(h & Hch & _)].
  - pose proof (area_small _ Hl Har). destruct Har as [H1 H2 H3 H4]. cbn [room dsector] in *. rewrite per_sector in *. pose proof (Z.div_mod (n_rootdir (fatfs v)) 16 ltac:(lia)).
    assert (0 <= i / 16 < n_rootdir (fatfs v) / 16) by (split; [apply Z.div_pos; lia|apply Z.div_lt_upper_bound; lia]).
    unfold primary, mirror. nia.
  - pose proof Hch as (Hne & Hall & _). assert (Er : room (fatfs v) l = PER_SECTOR * csize (fatfs v) * zlen l) by (by destruct l).
    rewrite dsector_place by done. rewrite Er, per_sector in Hi.
    destruct (place_primary (fatfs v) l (SZ_DIR * i) Hl Hall) as (_ & _ & _ & _ & Hp & _ & ?); [|done].
    unfold inside, bcs, SS, SZ_DIR. lia.
Qed.

Definition dentry v (l : list Z) (i : Z) : list Z :=
  take (Z.to_nat SZ_DIR) (drop (Z.to_nat (i mod PER_SECTOR * SZ_DIR)) (view v (dsector (fatfs v) l i))).

Lemma dentry_stays v v' c l i : layout (fatfs v) -> directory v c l -> 0 <= i < room (fatfs v) l -> stays v v' -> dentry v' l i = dentry v l i.
Proof using.
  intros Hl Hd Hi [Hsm Hvw _]. unfold dentry. rewrite (dsector_ext _ _ l i (same_alike _ _ Hsm)). by rewrite Hvw by (by eapply dsector_primary).
Qed.

(** ** The object at an entry *)

Record dir_at (f : FATFS) (l : list Z) (i : Z) (dj : DIR) : Prop := {
  da_index : d_index dj = i;
  da_sect : d_sect dj = dsector f l i;
  da_ptr : d_dir dj = Some (i mod PER_SECTOR * SZ_DIR);
  da_clust : d_clust dj = dcluster f l i
}.

(** Only the place differs. *)
Definition same_dir (dj dj' : DIR) : Prop := d_fs dj' = d_fs dj /\ d_id dj' = d_id dj /\ d_sclust dj' = d_sclust dj /\ d_fn dj' = d_fn dj.

Lemma same_dir_refl dj : same_dir dj dj.
Proof using. by repeat split. Qed.

Lemma same_dir_trans p q r : same_dir p q -> same_dir q r -> same_dir p r.
Proof using. unfold same_dir. intros (->&->&->&->) (->&->&->&->). done. Qed.

Lemma dir_at_alike f f' l i dj : alike f f' -> dir_at f l i dj -> dir_at f' l i dj.
Proof using. intros Ha [H1 H2 H3 H4]. split; try done; [by rewrite (dsector_ext _ _ _ _ Ha)|]. by rewrite Ha. Qed.

(** The first cluster of a directory, which the object may not say. *)
Lemma start_cluster v h l c :
  layout (fatfs v) -> chain v h l -> c = h \/ c = 0 /\ fs_type (fatfs v) = FS_FAT32 /\ dirbase (fatfs v) = h ->
  (c =? 1) || (n_fatent (fatfs v) <=? c) = false /\ (if (c =? 0) && (fs_type (fatfs v) =? FS_FAT32) then dirbase (fatfs v) else c) = h /\ 2 <= h < 2 ^ 28.
Proof using.
  intros Hl Hch Hh. pose proof (chain_cluster _ _ _ _ _ Hch (chain_first _ _ _ Hch)) as Hcl. pose proof (cluster_small _ _ Hl Hcl) as Hr28. destruct Hcl as [_ Hr].
  split; [|split; [|done]].
  - destruct Hh as [-> |(-> & _)]; apply orb_false_iff; (split; [apply Z.eqb_neq|apply Z.leb_gt]); lia.
  - destruct Hh as [-> |(-> & Ht & E)]; [by rewrite (proj2 (Z.eqb_neq _ _)) by lia|]. by rewrite Ht.
Qed.

(** The start of a directory. *)
Lemma dir_sdi_start v c l dj :
  layout (fatfs v) -> directory v c l -> d_sclust dj = c ->
  fwp (dir_sdi dj 0) (fun x v' => v' = v /\ x.1 = FR_OK /\ dir_at (fatfs v) l 0 x.2 /\ same_dir dj x.2) v.
Proof using.
  intros Hl Hd Hc. pose proof (csize_range _ Hl) as Hcs. pose proof (t_some _ (ly_table _ Hl)) as Hn.
  unfold dir_sdi. apply fwp_bind, fwp_get. cbn [d_sclust set_index]. cbn zeta. rewrite Hc.
  destruct Hd as [(-> & -> & Ht & Har)|(h & Hch & Hh)].
  - rewrite (proj2 (Z.leb_gt _ _)) by lia. rewrite (proj2 (Z.eqb_neq (fs_type _) _)) by done. cbn [Z.eqb orb andb].
    pose proof (area_small _ Hl Har) as H32. pose proof (area_some _ Har) as Hs. rewrite (proj2 (Z.leb_gt (n_rootdir (fatfs v)) 0)) by lia. apply fwp_ret. split_and!; try done.
    split; cbn; try done. rewrite Z.add_0_r. apply wrap_small. unfold fits. destruct Har. pose proof (t_geo _ (ly_table _ Hl)) as []. rewrite per_sector in *.
    pose proof (Z.div_mod (n_rootdir (fatfs v)) 16 ltac:(lia)). nia.
  - pose proof (chain_first _ _ _ Hch) as H0. destruct (start_cluster v h l c Hl Hch Hh) as (-> & -> & Hr28).
    rewrite (proj2 (Z.eqb_neq h 0)) by lia. rewrite (wrap_small 16) by (unfold fits; rewrite per_sector; lia).
    apply fwp_bind. cbn [sdi_loop]. rewrite (proj2 (Z.leb_gt _ _)) by (rewrite per_sector; lia). apply fwp_ret, fwp_bind, fwp_get, fwp_ret.
    split_and!; try done. destruct (clust2sect_cluster (fatfs v) h Hl) as [E _]; [by eapply chain_cluster|].
    pose proof Hch as (Hne & _). pose proof (first_sector_range _ h Hl ltac:(by eapply chain_cluster)).
    split; cbn; try done.
    + rewrite E, Z.add_0_r, wrap_small by (unfold fits; lia). rewrite dsector_place by done. rewrite (place_cluster (fatfs v) l _ h Hl); [|done|by rewrite Z.div_0_l by (pose proof (bcs_pos _ Hl); lia)].
      rewrite Z.div_0_l by done. rewrite Z.mod_0_l by lia. lia.
    + unfold dcluster. change (0 / PER_SECTOR) with 0. rewrite Z.div_0_l by lia. change (Z.to_nat 0) with 0%nat. by rewrite (nth_lookup_Some _ _ _ _ H0).
Qed.

(** ** One step *)

(** The next entry, in the next sector when a sector ends. *)
Lemma step_sector i : 0 <= i -> (i + 1) mod PER_SECTOR = 0 -> (i + 1) / PER_SECTOR = i / PER_SECTOR + 1.
Proof using.
  rewrite per_sector. intros Hi Hm. pose proof (Z.div_mod (i + 1) 16 ltac:(lia)).
  pose proof (Z.div_mod i 16 ltac:(lia)). pose proof (Z.mod_pos_bound i 16 ltac:(lia)). lia.
Qed.

Lemma same_sector i : 0 <= i -> (i + 1) mod PER_SECTOR <> 0 -> (i + 1) / PER_SECTOR = i / PER_SECTOR.
Proof using.
  rewrite per_sector. intros Hi Hm. pose proof (Z.div_mod (i + 1) 16 ltac:(lia)). pose proof (Z.mod_pos_bound (i + 1) 16 ltac:(lia)).
  apply (Z.div_unique _ _ _ ((i + 1) mod 16 - 1)); lia.
Qed.

(** In terms of clusters and sectors. *)
Lemma dsector_chain f l i : layout f -> l <> [] -> 0 <= i -> dsector f l i = first_sector f (dcluster f l i) + (i / PER_SECTOR) mod csize f.
Proof using.
  intros Hl Hne Hi. rewrite dsector_place by done. unfold place, dcluster. by rewrite (dir_cluster f i Hl Hi), (proj1 (dir_offset i Hi)).
Qed.

Lemma room_chain f l : l <> [] -> room f l = PER_SECTOR * csize f * zlen l.
Proof using. by destruct l. Qed.

(** The cluster index of an entry. *)
Lemma dcluster_lookup f l i :
  layout f -> l <> [] -> 0 <= i < room f l -> l !! Z.to_nat (i / PER_SECTOR / csize f) = Some (dcluster f l i).
Proof using.
  intros Hl Hne Hi. pose proof (csize_range f Hl) as Hcs. rewrite room_chain, per_sector in Hi by done. unfold dcluster, zlen in *. rewrite per_sector.
  assert (0 <= i / 16 / csize f < Z.of_nat (length l)).
  { split; [apply Z.div_pos; [apply Z.div_pos|]; lia|]. rewrite Z.div_div by lia. apply Z.div_lt_upper_bound; nia. }
  destruct (lookup_lt_is_Some_2 l (Z.to_nat (i / 16 / csize f))) as [c Hc]; [lia|]. by rewrite Hc, (nth_lookup_Some _ _ _ _ Hc).
Qed.

(** At the end of a cluster. *)
Definition next_outcome v l (k : nat) (r : FRESULT + Z) v' : Prop :=
  quiet v v' /\
  ((exists c, r = inr c /\ l !! S k = Some c) \/ r = inl FR_NO_FILE /\ length l = S k \/ r = inl FR_DISK_ERR /\ ~ sound).

Lemma next_cluster_ok v h l k c dj st :
  win_ok v -> layout (fatfs v) -> chain v h l -> l !! k = Some c -> d_clust dj = c -> (st = true -> (S k < length l)%nat) ->
  fwp (next_cluster dj st) (next_outcome v l k) v.
Proof using.
  intros Hok Hl Hch Hk Hc Hst. pose proof (ly_table _ Hl) as Ht. pose proof (chain_cluster _ _ _ _ _ Hch Hk) as Hcl. unfold next_cluster. rewrite Hc.
  apply fwp_bind. eapply fwp_mono; [|by apply get_fat_ok]. intros x v1 Hg. pose proof (quiet_got _ _ _ _ Hg) as Hq.
  destruct (gt_answer _ _ _ _ Hg) as [[-> _]| ->].
  2: { cbn [Z.leb Z.eqb DISK_ERROR Z.compare]. apply fwp_ret. split; [done|]. right. right. split; [done|]. intros S.
    pose proof (gt_sound _ _ _ _ Hg S) as E. pose proof (entry_range v c Hok). unfold DISK_ERROR in E. lia. }
  destruct Hch as (Hne & Hall & d & Hp & Hd). pose proof (path_link _ _ _ _ _ _ Hp Hk) as E. pose proof (entry_range v c Hok) as Her.
  destruct (l !! S k) as [y|] eqn:Ey; cbn [default from_option id] in E.
  - pose proof (proj1 (Forall_lookup _ _) Hall _ _ Ey) as Hy. pose proof (cluster_small _ _ Hl Hy). rewrite E, (proj2 (Z.leb_gt y 1)) by lia.
    rewrite (proj2 (Z.eqb_neq y DISK_ERROR)) by (unfold DISK_ERROR; lia). apply fwp_bind, fwp_get.
    replace (n_fatent (fatfs v1)) with (n_fatent (fatfs v)) by (by rewrite (quiet_alike _ _ Hq)). rewrite (proj2 (Z.leb_gt _ y)) by (by destruct Hy).
    apply fwp_ret. split; [done|]. left. by exists y.
  - pose proof (t_some _ Ht). rewrite E in Her |- *. rewrite (proj2 (Z.leb_gt d 1)) by lia.
    rewrite (proj2 (Z.eqb_neq d DISK_ERROR)) by (unfold DISK_ERROR; lia). apply fwp_bind, fwp_get.
    replace (n_fatent (fatfs v1)) with (n_fatent (fatfs v)) by (by rewrite (quiet_alike _ _ Hq)). rewrite (proj2 (Z.leb_le _ d)) by lia.
    assert (st = false) as -> by (destruct st; [apply lookup_ge_None in Ey; specialize (Hst eq_refl); lia|done]). cbn [negb]. apply fwp_ret. split; [done|]. right. left. split; [done|]. apply lookup_ge_None in Ey. apply lookup_lt_Some in Hk. lia.
Qed.

Lemma room_whole v c l : directory v c l -> room (fatfs v) l mod PER_SECTOR = 0.
Proof using.
  intros [(_ & -> & _ & H)|(h & (Hne & _) & _)]; [apply H|]. rewrite room_chain, per_sector by done.
  rewrite <- Z.mul_assoc, Z.mul_comm. by apply Z.mod_mul.
Qed.

(** Within a sector only the pointer moves. *)
Lemma dir_at_within v c l i dj :
  layout (fatfs v) -> directory v c l -> 0 <= i < room (fatfs v) l -> dir_at (fatfs v) l i dj -> (i + 1) mod PER_SECTOR <> 0 ->
  i + 1 < room (fatfs v) l /\ dir_at (fatfs v) l (i + 1) (set_ptr (entry_ptr (i + 1)) (set_index (i + 1) dj)).
Proof using.
  intros Hl Hd Hi [H1 H2 H3 H4] Hm. pose proof (same_sector i ltac:(lia) Hm) as Hs. split.
  - pose proof (room_whole v c l Hd) as Hw. destruct (decide (i + 1 = room (fatfs v) l)) as [E|]; [|lia]. by rewrite E in Hm.
  - assert (Hc : dcluster (fatfs v) l (i + 1) = dcluster (fatfs v) l i) by (unfold dcluster; by rewrite Hs).
    split; cbn; [done| |done|by rewrite H4]. rewrite H2. destruct l as [|x l]; [cbn; by rewrite Hs|].
    by rewrite !dsector_chain, Hs, Hc by (done || lia).
Qed.

(** The sector that follows, in the root's area and in a cluster. *)
Lemma dir_at_root f i dj :
  0 <= i -> dir_at f [] i dj -> (i + 1) mod PER_SECTOR = 0 -> dirbase f + (i + 1) / PER_SECTOR < 2 ^ 32 -> 0 <= dirbase f ->
  dir_at f [] (i + 1) (set_ptr (entry_ptr (i + 1)) (set_index (i + 1) (set_sect (u32 (d_sect dj + 1)) dj))).
Proof using.
  intros Hi [H1 H2 H3 H4] Hm Hb H0. pose proof (step_sector i Hi Hm) as Hs. assert (0 <= i / PER_SECTOR) by (apply Z.div_pos; [lia|by rewrite per_sector]).
  split; cbn; [done| |done|]; [|by rewrite H4; unfold dcluster; cbn; repeat case_match].
  rewrite H2. cbn [dsector]. rewrite Hs in *. rewrite wrap_small by (unfold fits; lia). lia.
Qed.

Lemma dir_at_cluster f l i dj :
  layout f -> l <> [] -> Forall (cluster f) l -> 0 <= i < room f l -> dir_at f l i dj -> (i + 1) mod PER_SECTOR = 0 -> ((i + 1) / PER_SECTOR) mod csize f <> 0 ->
  i + 1 < room f l /\ dir_at f l (i + 1) (set_ptr (entry_ptr (i + 1)) (set_index (i + 1) (set_sect (u32 (d_sect dj + 1)) dj))).
Proof using.
  intros Hl Hne Hall Hi [H1 H2 H3 H4] Hm Hj. pose proof (csize_range f Hl) as Hcs. pose proof (step_sector i ltac:(lia) Hm) as Hs.
  assert (H0 : 0 <= i / PER_SECTOR) by (apply Z.div_pos; [lia|by rewrite per_sector]). rewrite Hs in Hj.
  pose proof (Z.div_mod (i / PER_SECTOR) (csize f) ltac:(lia)) as D1. pose proof (Z.mod_pos_bound (i / PER_SECTOR) (csize f) ltac:(lia)) as B1.
  pose proof (Z.div_mod (i / PER_SECTOR + 1) (csize f) ltac:(lia)) as D2. pose proof (Z.mod_pos_bound (i / PER_SECTOR + 1) (csize f) ltac:(lia)) as B2.
  assert (Eq : (i / PER_SECTOR + 1) / csize f = i / PER_SECTOR / csize f) by nia.
  assert (Em : (i / PER_SECTOR + 1) mod csize f = (i / PER_SECTOR) mod csize f + 1) by (rewrite Eq in D2; lia).
  assert (Ec : dcluster f l (i + 1) = dcluster f l i) by (unfold dcluster; by rewrite Hs, Eq).
  pose proof (dcluster_lookup f l i Hl Hne Hi) as Hlk. pose proof (proj1 (Forall_lookup _ _) Hall _ _ Hlk) as Hcl.
  pose proof (first_sector_range f _ Hl Hcl). split.
  - rewrite room_chain in * by done. rewrite per_sector in *. pose proof (Z.div_mod (i + 1) 16 ltac:(lia)).
    destruct (decide (i + 1 = 16 * csize f * zlen l)) as [E|]; [|lia]. exfalso. apply Hj. rewrite <- Hs, E.
    replace (16 * csize f * zlen l) with ((zlen l * csize f) * 16) by lia. rewrite Z.div_mul by lia. apply Z.mod_mul. lia.
  - split; cbn; [done| |done|by rewrite Ec]. rewrite H2, !dsector_chain, Hs, Ec, Em by (done || lia). rewrite wrap_small by (unfold fits; lia). lia.
Qed.

(** The first sector of the next cluster. *)
Lemma dir_at_next f l i dj c :
  layout f -> l <> [] -> 0 <= i -> (i + 1) mod PER_SECTOR = 0 -> ((i + 1) / PER_SECTOR) mod csize f = 0 -> l !! S (Z.to_nat (i / PER_SECTOR / csize f)) = Some c ->
  i + 1 < room f l /\ dir_at f l (i + 1) (set_ptr (entry_ptr (i + 1)) (set_index (i + 1) (set_sect (first_sector f c) (set_clust c dj)))).
Proof using.
  intros Hl Hne Hi Hm Hj Hc. pose proof (csize_range f Hl) as Hcs. pose proof (step_sector i Hi Hm) as Hs.
  assert (H0 : 0 <= i / PER_SECTOR) by (apply Z.div_pos; [lia|by rewrite per_sector]). rewrite Hs in Hj.
  pose proof (Z.div_mod (i / PER_SECTOR) (csize f) ltac:(lia)) as D1. pose proof (Z.mod_pos_bound (i / PER_SECTOR) (csize f) ltac:(lia)) as B1.
  pose proof (Z.div_mod (i / PER_SECTOR + 1) (csize f) ltac:(lia)) as D2. pose proof (Z.div_pos (i / PER_SECTOR) (csize f) ltac:(lia) ltac:(lia)).
  assert (Eq : (i / PER_SECTOR + 1) / csize f = i / PER_SECTOR / csize f + 1) by nia.
  assert (Ec : dcluster f l (i + 1) = c).
  { unfold dcluster. rewrite Hs, Eq. replace (Z.to_nat (_ + 1)) with (S (Z.to_nat (i / PER_SECTOR / csize f))) by lia. by rewrite (nth_lookup_Some _ _ _ _ Hc). }
  split.
  - apply lookup_lt_Some in Hc. rewrite room_chain by done. unfold zlen. rewrite per_sector in *. pose proof (Z.div_mod (i + 1) 16 ltac:(lia)). nia.
  - split; cbn; [done| |done|done]. rewrite dsector_chain, Ec, Hs, Hj by (done || lia). lia.
Qed.

Lemma next_index f l i :
  layout f -> l <> [] -> 0 <= i -> (i + 1) mod PER_SECTOR = 0 -> ((i + 1) / PER_SECTOR) mod csize f = 0 -> i + 1 < room f l ->
  (S (Z.to_nat (i / PER_SECTOR / csize f)) < length l)%nat.
Proof using.
  intros Hl Hne Hi Hm Hj Hr. pose proof (csize_range f Hl) as Hcs. pose proof (step_sector i Hi Hm) as Hs. rewrite Hs in Hj. rewrite room_chain in Hr by done. unfold zlen in Hr.
  rewrite per_sector in *. pose proof (Z.div_mod (i + 1) 16 ltac:(lia)). pose proof (Z.div_pos i 16 ltac:(lia) ltac:(lia)) as H0.
  pose proof (Z.div_mod (i / 16) (csize f) ltac:(lia)). pose proof (Z.mod_pos_bound (i / 16) (csize f) ltac:(lia)). pose proof (Z.div_pos (i / 16) (csize f) ltac:(lia) ltac:(lia)).
  pose proof (Z.div_mod (i / 16 + 1) (csize f) ltac:(lia)). assert ((i / 16 + 1) / csize f = i / 16 / csize f + 1) by nia. nia.
Qed.

(** The object stepped to the next entry, there is none, or the disk failed. *)
Definition stepped v l i dj (x : FRESULT * DIR) v' : Prop :=
  quiet v v' /\ same_dir dj x.2 /\
  (x.1 = FR_OK /\ i + 1 < entries (fatfs v) l /\ dir_at (fatfs v) l (i + 1) x.2 \/
   x.1 = FR_NO_FILE /\ entries (fatfs v) l <= i + 1 \/
   x.1 = FR_DISK_ERR /\ ~ sound).

Lemma dcluster_pos v c l i : layout (fatfs v) -> directory v c l -> l <> [] -> 0 <= i < room (fatfs v) l -> cluster (fatfs v) (dcluster (fatfs v) l i).
Proof using. intros Hl Hd Hne Hi. eapply Forall_lookup; [by eapply directory_all|by apply dcluster_lookup]. Qed.

Lemma dir_next_ok v c l i dj st :
  win_ok v -> layout (fatfs v) -> directory v c l -> 0 <= i < entries (fatfs v) l -> dir_at (fatfs v) l i dj -> (st = true -> i + 1 < entries (fatfs v) l) ->
  fwp (dir_next dj st) (stepped v l i dj) v.
Proof using.
  intros Hok Hl Hd Hi Hat Hstr. pose proof Hat as [H1 H2 H3 H4]. unfold entries in *. assert (Hir : 0 <= i < room (fatfs v) l) by lia.
  destruct (dsector_primary v c l i Hl Hd Hir) as [Hp Hp32]. pose proof (primary_pos _ _ (w_geo _ Hok) Hp) as Hne0.
  pose proof (csize_range _ Hl) as Hcs. pose proof (quiet_refl v Hok) as Hq0.
  assert (Hend : room (fatfs v) l `min` 65536 <= i + 1 -> fwp (mret (FR_NO_FILE, dj)) (stepped v l i dj) v).
  { intros He. apply fwp_ret. split; [done|]. split; [apply same_dir_refl|]. by right; left. }
  unfold dir_next. cbn zeta. rewrite H1, H2. rewrite (proj2 (Z.eqb_neq (dsector _ _ _) 0)) by done. rewrite orb_false_r.
  destruct (Z.eqb_spec (u16 (i + 1)) 0) as [E0|E0].
  { apply Hend. destruct (decide (i + 1 < 65536)); [|lia]. rewrite wrap_small in E0 by (unfold fits; lia). lia. }
  assert (Hi1 : u16 (i + 1) = i + 1).
  { apply wrap_small. unfold fits. destruct (decide (i = 65535)) as [->|]; [|lia]. by exfalso; apply E0. }
  rewrite Hi1 in *. assert (H16 : i + 1 < 65536) by (pose proof (wrap_range 16 (i + 1) ltac:(lia)); lia).
  assert (Hgo : forall dj' v', quiet v v' -> same_dir dj dj' -> i + 1 < room (fatfs v) l /\ dir_at (fatfs v) l (i + 1) dj' -> stepped v l i dj (FR_OK, dj') v').
  { intros dj' v' Hq Hs [Hlt Hd']. split; [done|]. split; [done|]. left. unfold entries. split_and!; [done|lia|done]. }
  destruct (Z.eqb_spec ((i + 1) mod PER_SECTOR) 0) as [Hm|Hm].
  2: { apply fwp_ret, Hgo; [done|by repeat split|by eapply dir_at_within]. }
  apply fwp_bind, fwp_get. cbn [d_clust set_sect]. rewrite H4.
  destruct (decide (l = [])) as [-> |Hne].
  - destruct Hd as [(_ & _ & _ & Har)|(h & (? & _) & _)]; [|done]. replace (dcluster (fatfs v) [] i) with 0 by (unfold dcluster; cbn; by case_match).
    cbn [Z.eqb]. cbn [room] in *. pose proof (area_small _ Hl Har). destruct Har as [A1 A2 A3 A4]. destruct (Z.leb_spec (n_rootdir (fatfs v)) (i + 1)) as [He|Hlt].
    + apply fwp_ret. split; [done|]. split; [by repeat split|]. right. left. unfold entries. cbn [room fst]. split; [done|lia].
    + apply fwp_ret, Hgo; [done|by repeat split|]. split; [done|]. rewrite <- H2. pose proof (t_geo _ (ly_table _ Hl)) as [].
      apply (dir_at_root (fatfs v) i dj); [lia|done|done| |nia]. rewrite per_sector in *.
      pose proof (Z.div_mod (i + 1) 16 ltac:(lia)). pose proof (Z.div_mod (n_rootdir (fatfs v)) 16 ltac:(lia)). lia.
  - pose proof (dcluster_pos _ _ _ _ Hl Hd Hne Hir) as Hcl. pose proof Hl as [_ (k & Hk & Ek) _ _]. rewrite (proj2 (Z.eqb_neq (dcluster _ _ _) 0)) by (destruct Hcl; lia).
    rewrite Ek at 1. rewrite land_mod, <- Ek by lia. destruct Hd as [(_ & ? & _)|(h & Hch & Hh)]; [done|].
    destruct (Z.eqb_spec (((i + 1) / PER_SECTOR) mod csize (fatfs v)) 0) as [Hj|Hj].
    2: { rewrite <- H2. apply fwp_ret, Hgo; [done|by repeat split|]. apply dir_at_cluster; try done. apply Hch. }
    apply fwp_bind. eapply fwp_mono; [|apply (next_cluster_ok v h l _ _ _ st Hok Hl Hch (dcluster_lookup _ _ _ Hl Hne Hir)); [by cbn|intros Es; apply next_index; [done|done|lia|done|done|specialize (Hstr Es); unfold entries in Hstr; lia]]].
    intros r v1 [Hq [(c2 & -> & Hc2)|[[-> Hlen]|[-> Hs]]]].
    + apply fwp_bind, fwp_get, fwp_ret. apply Hgo; [done|by repeat split|]. pose proof (quiet_alike _ _ Hq) as Ha.
      pose proof (chain_cluster _ _ _ _ _ Hch Hc2) as Hcl2. replace (clust2sect (fatfs v1) c2) with (clust2sect (fatfs v) c2) by (by rewrite Ha).
      destruct (clust2sect_cluster (fatfs v) c2 Hl Hcl2) as [-> _]. destruct (dir_at_next (fatfs v) l i dj c2 Hl Hne ltac:(lia) Hm Hj Hc2) as [Hlt [D1 D2 D3 D4]].
      split; [done|]. by split.
    + apply fwp_ret. split; [done|]. split; [by repeat split|]. right. left. split; [done|]. unfold entries. rewrite room_chain by done. unfold zlen. rewrite Hlen.
      rewrite per_sector in *. pose proof (step_sector i ltac:(lia) ltac:(by rewrite per_sector)) as Hs. rewrite per_sector in Hs. rewrite Hs in Hj.
      pose proof (Z.div_mod (i + 1) 16 ltac:(lia)). pose proof (Z.div_mod (i / 16 + 1) (csize (fatfs v)) ltac:(lia)).
      pose proof (Z.div_mod (i / 16) (csize (fatfs v)) ltac:(lia)). pose proof (Z.mod_pos_bound (i / 16) (csize (fatfs v)) ltac:(lia)).
      pose proof (Z.div_pos (i / 16) (csize (fatfs v)) ltac:(apply Z.div_pos; lia) ltac:(lia)).
      assert ((i / 16 + 1) / csize (fatfs v) = i / 16 / csize (fatfs v) + 1) by nia. nia.
    + apply fwp_ret. split; [done|]. split; [by repeat split|]. by right; right.
Qed.

(** ** The entry in the window *)

(** The object is at the entry [i], and its sector is in the window. *)
Record showing v l i dj : Prop := {
  sh_ok : win_ok v;
  sh_range : 0 <= i;
  sh_at : dir_at (fatfs v) l i dj;
  sh_here : winsect (fatfs v) = dsector (fatfs v) l i
}.

Lemma dentry_window v l i dj : showing v l i dj -> dentry v l i = take (Z.to_nat SZ_DIR) (drop (Z.to_nat (i mod PER_SECTOR * SZ_DIR)) (win (fatfs v))).
Proof using. intros [_ _ _ H]. unfold dentry, view. by rewrite decide_True. Qed.

Lemma ptr_range i : 0 <= i -> 0 <= i mod PER_SECTOR * SZ_DIR /\ i mod PER_SECTOR * SZ_DIR + SZ_DIR <= 512.
Proof using. intros Hi. rewrite per_sector. unfold SZ_DIR. pose proof (Z.mod_pos_bound i 16 ltac:(lia)). lia. Qed.

Lemma fwp_ent_bytes v l i dj o n (Q : list Z -> vol -> Prop) :
  showing v l i dj -> 0 <= o -> 0 <= n -> o + n <= SZ_DIR -> Q (take (Z.to_nat n) (drop (Z.to_nat o) (dentry v l i))) v -> fwp (ent_bytes (d_dir dj) o n) Q v.
Proof using.
  intros Hs Ho Hn Hle HQ. pose proof Hs as [Hok Hi [_ _ Hp _] _]. rewrite (dentry_window _ _ _ _ Hs) in HQ. unfold ent_bytes. rewrite Hp. cbn [at_ptr].
  pose proof (ptr_range i Hi). apply fwp_bytes; [apply (w_sector _ Hok)|lia|lia|].
  rewrite skipn_firstn_comm, take_take, drop_drop in HQ. rewrite Nat.min_l in HQ by (unfold SZ_DIR in *; lia). by rewrite Z2Nat.inj_add by lia.
Qed.

Lemma fwp_ent_byte v l i dj o (Q : Z -> vol -> Prop) :
  showing v l i dj -> 0 <= o < SZ_DIR -> Q (byte_at (dentry v l i) o) v -> fwp (ent_byte (d_dir dj) o) Q v.
Proof using.
  intros Hs Ho HQ. pose proof Hs as [Hok Hi [_ _ Hp _] _]. rewrite (dentry_window _ _ _ _ Hs) in HQ. unfold ent_byte. rewrite Hp. cbn [at_ptr].
  pose proof (ptr_range i Hi). apply fwp_at; [apply (w_sector _ Hok)|lia|]. by rewrite byte_at_part in HQ by lia.
Qed.

Lemma dentry_length v c l i : win_ok v -> layout (fatfs v) -> directory v c l -> 0 <= i < room (fatfs v) l -> length (dentry v l i) = 32%nat.
Proof using.
  intros Hok Hl Hd Hi. unfold dentry. destruct (view_sector v (dsector (fatfs v) l i) Hok) as [Hlen _].
  rewrite length_take, length_drop, Hlen. pose proof (ptr_range i ltac:(lia)). unfold SZ_DIR in *. lia.
Qed.

(** Moving the window to the object's sector shows the entry. *)
Lemma show_entry v c l i dj :
  win_ok v -> layout (fatfs v) -> directory v c l -> 0 <= i < entries (fatfs v) l -> dir_at (fatfs v) l i dj ->
  fwp (move_window (d_sect dj)) (fun r v' => quiet v v' /\ (r = FR_OK /\ showing v' l i dj \/ r = FR_DISK_ERR /\ ~ sound)) v.
Proof using.
  intros Hok Hl Hd Hi Hat. unfold entries in Hi. destruct (dsector_primary v c l i Hl Hd ltac:(lia)) as [Hp _]. pose proof (primary_pos _ _ (w_geo _ Hok) Hp) as Hne.
  rewrite (da_sect _ _ _ _ Hat). eapply fwp_mono; [|apply move_window_ok; [done|by right]]. intros r v' Hm. pose proof (quiet_moved _ _ _ _ Hm) as Hq. split; [done|].
  destruct (mv_answer _ _ _ _ Hm) as [-> | ->]; [left|right].
  - split; [done|]. pose proof (quiet_alike _ _ Hq) as Ha. split; [apply Hq|lia|by apply (dir_at_alike (fatfs v))|].
    rewrite (dsector_ext _ _ _ _ Ha). by apply (mv_there _ _ _ _ Hm).
  - split; [done|]. intros S. by pose proof (mv_sound _ _ _ _ Hm S).
Qed.

(** ** Searching *)

(** The entry is no volume label and has the name. *)
Definition named (fn e : list Z) : Prop := Z.land (byte_at e DIR_Attr) AM_VOL = 0 /\ take 11 e = take 11 fn.

Lemma mem_cmp_take n a b : (n <= length a)%nat -> (n <= length b)%nat -> mem_cmp a b n = 0 <-> take n a = take n b.
Proof using.
  revert a b. induction n as [|n IH]; intros a b Ha Hb; [by destruct a, b|]. destruct a as [|x a], b as [|y b]; try (cbn in *; lia).
  cbn [mem_cmp take]. cbn [length] in *. destruct (Z.eqb_spec (x - y) 0) as [E|E].
  - rewrite IH by lia. split; [intros ->; f_equal; lia|by intros [= _ ->]].
  - split; [lia|]. intros [= -> _]. lia.
Qed.

(** No entry from [i] to [j] has the name or ends the directory. *)
Definition passed v l fn (i j : Z) : Prop := forall k, i <= k < j -> byte_at (dentry v l k) 0 <> 0 /\ ~ named fn (dentry v l k).

Definition searched v l i dj (x : FRESULT * DIR) v' : Prop :=
  quiet v v' /\ same_dir dj x.2 /\
  ((exists j, x.1 = FR_OK /\ i <= j < entries (fatfs v) l /\ passed v l (d_fn dj) i j /\ byte_at (dentry v l j) 0 <> 0 /\ named (d_fn dj) (dentry v l j) /\
      showing v' l j x.2) \/
   (exists j, x.1 = FR_NO_FILE /\ i <= j <= entries (fatfs v) l /\ passed v l (d_fn dj) i j /\ (j = entries (fatfs v) l \/ byte_at (dentry v l j) 0 = 0)) \/
   x.1 = FR_DISK_ERR /\ ~ sound).

Lemma passed_nil v l fn i : passed v l fn i i.
Proof using. intros k Hk. lia. Qed.

Lemma passed_snoc v l fn i j : i <= j -> byte_at (dentry v l i) 0 <> 0 -> ~ named fn (dentry v l i) -> passed v l fn (i + 1) j -> passed v l fn i j.
Proof using. intros Hij H1 H2 H3 k Hk. destruct (decide (k = i)) as [->|]; [done|]. apply H3. lia. Qed.

Lemma find_loop_ok fuel v c l i dj :
  win_ok v -> layout (fatfs v) -> directory v c l -> 0 <= i < entries (fatfs v) l -> dir_at (fatfs v) l i dj -> (11 <= length (d_fn dj))%nat ->
  entries (fatfs v) l - i <= Z.of_nat fuel -> fwp (find_loop fuel dj) (searched v l i dj) v.
Proof using.
  revert v i dj. induction fuel as [|n IH]; intros v i dj Hok Hl Hd Hi Hat Hfn Hfuel; [lia|]. cbn [find_loop]. assert (Hir : 0 <= i < room (fatfs v) l) by (unfold entries in Hi; lia).
  apply fwp_bind. eapply fwp_mono; [|by eapply show_entry]. intros r v1 [Hq [[-> Hs]|[-> Hns]]].
  2: { rewrite decide_False by done. apply fwp_ret. split; [done|]. split; [apply same_dir_refl|]. by right; right. }
  rewrite decide_True by done. pose proof (dentry_stays v v1 c l i Hl Hd Hir (q_stays _ _ Hq)) as He.
  apply fwp_bind. eapply fwp_ent_byte; [done|done|]. rewrite He. destruct (Z.eqb_spec (byte_at (dentry v l i) DIR_Name) 0) as [E0|E0].
  { apply fwp_ret. split; [done|]. split; [apply same_dir_refl|]. right. left. exists i. split_and!; [done|lia|lia|apply passed_nil|by right]. }
  apply fwp_bind. eapply fwp_ent_byte; [done|done|]. apply fwp_bind. eapply fwp_ent_bytes; [done|done|done|done|]. rewrite He.
  change (Z.to_nat DIR_Name) with 0%nat. rewrite drop_0. change (Z.to_nat 11) with 11%nat. pose proof (dentry_length v c l i Hok Hl Hd Hir) as Hlen.
  assert (Hnm : (Z.land (byte_at (dentry v l i) DIR_Attr) AM_VOL =? 0) && (mem_cmp (take 11 (dentry v l i)) (d_fn dj) 11 =? 0) = true <-> named (d_fn dj) (dentry v l i)).
  { rewrite andb_true_iff, !Z.eqb_eq, mem_cmp_take by (rewrite ?length_take; lia). by rewrite take_take. }
  destruct (_ && _) eqn:Eh.
  - apply fwp_ret. split; [done|]. split; [apply same_dir_refl|]. left. exists i. split_and!; [done|lia|lia|apply passed_nil|done|by apply Hnm|done].
  - assert (Hno : ~ named (d_fn dj) (dentry v l i)) by (intros Hx; apply Hnm in Hx; congruence).
    pose proof (quiet_alike _ _ Hq) as Ha. pose proof (alike_layout _ _ Ha Hl) as Hl1. pose proof (directory_stays _ _ _ _ (ly_table _ Hl) (q_stays _ _ Hq) Hd) as Hd1.
    pose proof (entries_ext _ _ l Ha) as Ee.
    apply fwp_bind. eapply fwp_mono; [|apply (dir_next_ok v1 c l i dj false); [apply Hs|done|done|by rewrite Ee|apply Hs|done]].
    intros [r dj'] v2 (Hq2 & Hsd & Hx). cbn [fst snd] in *. pose proof (quiet_trans _ _ _ Hq Hq2) as Hq3. pose proof Hsd as (_ & _ & _ & Hfn').
    destruct Hx as [(-> & Hlt & Hat')|[(-> & Hge)|[-> Hns]]]; rewrite ?Ee in *.
    + rewrite decide_True by done. pose proof (quiet_alike _ _ Hq2) as Ha2. pose proof (quiet_alike _ _ Hq3) as Ha3. pose proof (entries_ext _ _ l Ha3) as Ee3.
      eapply fwp_mono; [|apply (IH v2 (i + 1) dj'); rewrite ?Ee3, ?Hfn'; try done; try lia].
      2: apply Hq2. 2: by eapply alike_layout. 2: { eapply (directory_stays v); [apply Hl|apply Hq3|done]. } 2: by apply (dir_at_alike (fatfs v1)).
      intros x v3 (Hq4 & Hsd2 & Hy). rewrite Hfn', Ee3 in Hy. split; [by eapply quiet_trans|]. split; [by eapply same_dir_trans|].
      assert (Hde : forall k, i + 1 <= k < entries (fatfs v) l -> dentry v2 l k = dentry v l k).
      { intros k Hk. apply (dentry_stays v v2 c); [done|done|unfold entries in Hk; lia|apply Hq3]. }
      assert (Hps : forall j, i + 1 <= j <= entries (fatfs v) l -> passed v2 l (d_fn dj) (i + 1) j -> passed v l (d_fn dj) i j).
      { intros j Hj Hp. apply passed_snoc; [lia|done|done|]. intros k Hk. rewrite <- Hde by lia. by apply Hp. }
      destruct Hy as [(j & Hr & Hj & Hp & Hb & Hn & Hsh)|[(j & Hr & Hj & Hp & Hb)|Hr]]; [left|right; left|by right; right].
      * exists j. rewrite Hde in Hb, Hn by lia. split_and!; try done; [lia|lia|]. apply Hps; [lia|done].
      * exists j. split_and!; try done; [lia|lia|apply Hps; [lia|done]|]. destruct Hb as [|Hb]; [by left|].
        destruct (decide (j < entries (fatfs v) l)); [right; by rewrite <- Hde by lia|left; lia].
    + rewrite decide_False by done. apply fwp_ret. split; [done|]. split; [done|]. right. left. exists (i + 1). split_and!; [done|lia|lia| |left; lia].
      apply passed_snoc; [lia|done|done|apply passed_nil].
    + rewrite decide_False by done. apply fwp_ret. split; [done|]. split; [done|]. by right; right.
Qed.

Lemma entries_pos v c l : layout (fatfs v) -> directory v c l -> 0 < entries (fatfs v) l.
Proof using.
  intros Hl Hd. pose proof (csize_range _ Hl). unfold entries. destruct Hd as [(_ & -> & _ & [? _ _ _])|(h & (Hne & _) & _)]; [cbn [room]; lia|].
  rewrite room_chain, per_sector by done. destruct l; [done|]. unfold zlen. cbn [length]. nia.
Qed.

Lemma dir_find_ok v l dj :
  win_ok v -> layout (fatfs v) -> directory v (d_sclust dj) l -> (11 <= length (d_fn dj))%nat -> fwp (dir_find dj) (searched v l 0 dj) v.
Proof using.
  intros Hok Hl Hd Hfn. unfold dir_find. apply fwp_bind. eapply fwp_mono; [|by apply (dir_sdi_start v (d_sclust dj) l)].
  intros [r dj1] v1 (-> & Hr & Hat & Hsd). cbn [fst snd] in *. subst r. rewrite decide_True by done. pose proof Hsd as (_ & _ & Hsc & Hfn1). pose proof (entries_pos _ _ _ Hl Hd).
  eapply fwp_mono; [|apply (find_loop_ok _ v (d_sclust dj) l 0 dj1); rewrite ?Hfn1; try done; unfold entries, dir_turns; lia].
  intros x v' (Hq & Hs & Hx). rewrite Hfn1 in Hx. split; [done|]. split; [by eapply same_dir_trans|done].
Qed.

(** Searching a directory, the area of the root or a chain of clusters, ends and
    changes nothing.  It finds the first entry with the name that is no volume label and
    is before the end mark, and shows it in the window; or it answers that there is
    none, when the end mark or the last entry an index reaches comes first; on a disk
    without faults there is no third answer. *)
Theorem dir_find_first v l dj :
  win_ok v -> layout (fatfs v) -> directory v (d_sclust dj) l -> (11 <= length (d_fn dj))%nat ->
  exists r dj' v', dir_find dj v = Some ((r, dj'), v') /\ quiet v v' /\ same_dir dj dj' /\
    ((exists j, r = FR_OK /\ 0 <= j < entries (fatfs v) l /\ passed v l (d_fn dj) 0 j /\ byte_at (dentry v l j) 0 <> 0 /\ named (d_fn dj) (dentry v l j) /\
        showing v' l j dj') \/
     (exists j, r = FR_NO_FILE /\ 0 <= j <= entries (fatfs v) l /\ passed v l (d_fn dj) 0 j /\ (j = entries (fatfs v) l \/ byte_at (dentry v l j) 0 = 0)) \/
     r = FR_DISK_ERR /\ ~ sound).
Proof using.
  intros Hok Hl Hd Hfn. destruct (fwp_run _ _ _ (dir_find_ok v l dj Hok Hl Hd Hfn)) as ([r dj'] & v' & Hrun & Hq & Hs & Hx).
  by exists r, dj', v'.
Qed.

End FatScan.
