(* ===== verification/FatOpen.v ===== *)
(** * Opening files

    A path leads through directories to an entry, and [f_open] makes the file object
    of it. *)

From S2P Require Import Prelude Diskio FatVol FatBytes FatWin FatTable FatChain FatMount FatName FatDir FatFile FatData FatRead FatWrite FatScan.

(** What an entry says about its file. *)
Definition ent_cluster (e : list Z) : Z :=
  Z.lor (u32 (Z.shiftl (LD_WORD (take (Z.to_nat 2) (drop (Z.to_nat DIR_FstClusHI) e))) 16)) (LD_WORD (take (Z.to_nat 2) (drop (Z.to_nat DIR_FstClusLO) e))).
Definition ent_size (e : list Z) : Z := LD_DWORD (take (Z.to_nat 4) (drop (Z.to_nat DIR_FileSize) e)).
Definition ent_attr (e : list Z) : Z := byte_at e DIR_Attr.

Section FatOpen.

Context {DK : Type} {HD : Disk DK} {HS : Store DK}.

Implicit Types v : vol (DK := DK).

(** The entry [i] is the first one with the name [nm]. *)
Definition first_named v (l : list Z) (nm : list Z) (i : Z) : Prop :=
  0 <= i < entries (fatfs v) l /\ passed v l nm 0 i /\ byte_at (dentry v l i) 0 <> 0 /\ named nm (dentry v l i).

(** No entry has the name. *)
Definition missing v (l : list Z) (nm : list Z) : Prop :=
  exists j, 0 <= j <= entries (fatfs v) l /\ passed v l nm 0 j /\ (j = entries (fatfs v) l \/ byte_at (dentry v l j) 0 = 0).

(** The path leads from the directory at [c], through directories with [P], to the
    directory in the clusters [l], where its last component is [nm]. *)
Inductive walk (P : list Z -> Prop) v : Z -> list Z -> list Z -> list Z -> Prop :=
| walk_last c l path nm e rest : P l -> directory v c l -> component path nm e rest -> e <= 32 -> walk P v c path l nm
| walk_down c l path nm e rest i l' nm' :
    P l -> directory v c l -> component path nm e rest -> 32 < e -> first_named v l nm i ->
    Z.land (ent_attr (dentry v l i)) AM_DIR <> 0 -> walk P v (ent_cluster (dentry v l i)) rest l' nm' -> walk P v c path l' nm'.

(** A path begins at the root or at the current directory. *)
Definition reaches (P : list Z -> Prop) v (path l nm : list Z) : Prop :=
  match path with c :: rest => if is_sep c then walk P v 0 rest l nm else walk P v (cdir (fatfs v)) path l nm | [] => False end.

(** The path leads to the entry [i]. *)
Definition leads_by (P : list Z -> Prop) v (path l : list Z) (i : Z) : Prop := exists nm, reaches P v path l nm /\ first_named v l nm i.

Definition anywhere (l : list Z) : Prop := True.
Definition leads := leads_by anywhere.

Lemma first_named_unique v l nm i j : first_named v l nm i -> first_named v l nm j -> i = j.
Proof using.
  intros (H1 & H2 & H3 & H4) (K1 & K2 & K3 & K4). destruct (Z.lt_trichotomy i j) as [|[|]]; [|done|].
  - by destruct (K2 i ltac:(lia)).
  - by destruct (H2 j ltac:(lia)).
Qed.

(** The volume that stays has the same entries. *)
Lemma first_named_stays v v' c l nm i : layout (fatfs v) -> directory v c l -> stays v v' -> first_named v l nm i -> first_named v' l nm i.
Proof using.
  intros Hl Hd Hst (H1 & H2 & H3 & H4). pose proof (same_alike _ _ (st_same _ _ Hst)) as Ha.
  assert (He : forall k, 0 <= k < entries (fatfs v) l -> dentry v' l k = dentry v l k) by (intros k Hk; apply (dentry_stays v v' c); [done|done|unfold entries in Hk; lia|done]).
  unfold first_named. rewrite (entries_ext _ _ l Ha), He by done. split_and!; try done; try apply H1. intros k Hk. rewrite He by lia. by apply H2.
Qed.

Lemma missing_stays v v' c l nm : layout (fatfs v) -> directory v c l -> stays v v' -> missing v l nm -> missing v' l nm.
Proof using.
  intros Hl Hd Hst (j & Hj & Hp & He). pose proof (same_alike _ _ (st_same _ _ Hst)) as Ha.
  assert (Hk : forall k, 0 <= k < entries (fatfs v) l -> dentry v' l k = dentry v l k) by (intros k Hk; apply (dentry_stays v v' c); [done|done|unfold entries in Hk; lia|done]).
  exists j. rewrite (entries_ext _ _ l Ha). split; [done|]. split.
  - intros k Hk2. rewrite Hk by lia. by apply Hp.
  - destruct He as [?|He]; [by left|]. destruct (decide (j = entries (fatfs v) l)); [by left|right]. by rewrite Hk by lia.
Qed.

(** An entry is there or not. *)
Lemma missing_not v l nm i : missing v l nm -> first_named v l nm i -> False.
Proof using.
  intros (j & Hj & Hp & He) (Hi & Hpi & Hbi & Hni). destruct (decide (i < j)); [by destruct (Hp i ltac:(lia))|]. destruct He as [|He]; [lia|].
  destruct (decide (j = i)) as [->|]; [done|]. by destruct (Hpi j ltac:(lia)).
Qed.

Lemma walk_stays P v v' c path l nm : layout (fatfs v) -> stays v v' -> walk P v c path l nm -> walk P v' c path l nm.
Proof using.
  intros Hl Hst Hp. pose proof (ly_table _ Hl) as Ht.
  induction Hp as [c l path nm e rest HP Hd Hc He|c l path nm e rest i l' nm' HP Hd Hc He Hf Ha _ IH].
  - eapply walk_last; [done|by eapply directory_stays|done|done].
  - pose proof Hf as (Hi & _). assert (E : dentry v' l i = dentry v l i) by (apply (dentry_stays v v' c); [done|done|unfold entries in Hi; lia|done]).
    eapply walk_down; [done|by eapply directory_stays|done|done|by eapply first_named_stays|by rewrite E|by rewrite E].
Qed.

Lemma component_shorter path nm c rest : component path nm c rest -> (length rest + 2 <= length path)%nat.
Proof using.
  intros (seps & body & b & tail & ext & e & -> & _ & _ & _ & _ & Hb & _). rewrite !length_app. cbn [length]. lia.
Qed.

Lemma component_bytes path nm c rest : component path nm c rest -> length nm = 11%nat.
Proof using.
  intros (seps & body & b & tail & ext & e & _ & _ & Hs1 & Hs2 & _ & Hb & He & _ & ->).
  pose proof (spelled_length _ _ Hs1). pose proof (spelled_length _ _ Hs2). apply short_length; lia.
Qed.

(** Reading the first cluster of the entry that is shown. *)
Lemma fwp_clust v l i dj (Q : Z -> vol -> Prop) : showing v l i dj -> Q (ent_cluster (dentry v l i)) v -> fwp (LD_CLUST (d_dir dj)) Q v.
Proof using.
  intros Hs HQ. unfold LD_CLUST. apply fwp_bind. eapply fwp_ent_bytes; [done|done|done|done|]. apply fwp_bind. eapply fwp_ent_bytes; [done|done|done|done|]. by apply fwp_ret.
Qed.

(** ** Following a path *)

Lemma named_ext nm st e : length nm = 11%nat -> named (nm ++ [st]) e <-> named nm e.
Proof using. intros Hn. unfold named. rewrite take_app_le, (take_ge nm) by lia. done. Qed.

(** What a search for a name found in the volume it left. *)
Definition found v (l nm : list Z) (x : FRESULT * DIR) : Prop :=
  (exists i, x.1 = FR_OK /\ first_named v l nm i /\ showing v l i x.2) \/ x.1 = FR_NO_FILE /\ missing v l nm.

(** The disk failed. *)
Definition failed {A} (x : FRESULT * A) : Prop := x.1 = FR_DISK_ERR /\ ~ sound.

Lemma find_named_ok v l nm st dj :
  win_ok v -> layout (fatfs v) -> directory v (d_sclust dj) l -> d_fn dj = nm ++ [st] -> length nm = 11%nat ->
  fwp (dir_find dj) (fun x v' => quiet v v' /\ same_dir dj x.2 /\ (found v' l nm x \/ failed x)) v.
Proof using.
  intros Hok Hl Hd Hfn Hnm. eapply fwp_mono; [|apply (dir_find_ok v l dj); try done; rewrite Hfn, length_app, Hnm; cbn; lia].
  intros x v' (Hq & Hs & Hx). split; [done|]. split; [done|]. rewrite Hfn in Hx. pose proof (q_stays _ _ Hq) as Hst.
  assert (Hpass : forall k j, passed v l (nm ++ [st]) k j -> passed v l nm k j).
  { intros k j Hp m Hm. destruct (Hp m Hm) as [? Hn]. split; [done|]. by rewrite <- (named_ext nm st). }
  destruct Hx as [(j & Hr & Hj & Hp & Hb & Hn & Hsh)|[(j & Hr & Hj & Hp & Hb)|Hr]]; [left; left; exists j|left; right|by right].
  - split; [done|]. split; [|done]. eapply first_named_stays; [done|done|done|]. split_and!; try done; [lia|lia|by apply Hpass|by apply (named_ext nm st)].
  - split; [done|]. eapply missing_stays; [done|done|done|]. exists j. split; [done|]. split; [by apply Hpass|done].
Qed.

Lemma found_first v l nm i x : found v l nm x -> first_named v l nm i -> x.1 = FR_OK /\ showing v l i x.2.
Proof using.
  intros [(j & Hr & Hj & Hsh)|[_ Hm]] Hi; [|by destruct (missing_not _ _ _ _ Hm Hi)].
  split; [done|]. by rewrite (first_named_unique v l nm i j).
Qed.

Lemma found_missing v l nm x : found v l nm x -> missing v l nm -> x.1 = FR_NO_FILE.
Proof using. intros [(j & _ & Hj & _)|[Hr _]] Hm; [by destruct (missing_not _ _ _ _ Hm Hj)|done]. Qed.

Lemma bit_test x n : 0 <= n -> negb (Z.land x (2 ^ n) =? 0) = Z.testbit x n.
Proof using.
  intros Hn. destruct (Z.testbit x n) eqn:E.
  - apply negb_true_iff, Z.eqb_neq. intros H. assert (Hb : Z.testbit (Z.land x (2 ^ n)) n = false) by (rewrite H; apply Z.testbit_0_l).
    by rewrite Z.land_spec, E, Z.pow2_bits_true in Hb.
  - apply negb_false_iff, Z.eqb_eq, Z.bits_inj'. intros m Hm. rewrite Z.land_spec, Z.testbit_0_l. destruct (decide (m = n)) as [->|Hne].
    + by rewrite E.
    + rewrite Z.pow2_bits_false by done. apply andb_false_r.
Qed.

(** The directory of the last component was searched for it. *)
Definition arrived v l nm dj (x : FRESULT * DIR) v' : Prop :=
  quiet v v' /\ d_fs x.2 = d_fs dj /\ d_id x.2 = d_id dj /\
  (directory v' (d_sclust x.2) l /\ (exists st, d_fn x.2 = nm ++ [st] /\ fn_status x.2 = st /\ Z.testbit st 5 = false) /\ found v' l nm x \/ failed x).

Lemma status_of nm st dj : length nm = 11%nat -> d_fn dj = nm ++ [st] -> fn_status dj = st.
Proof using. intros Hnm Hfn. unfold fn_status. rewrite Hfn. change (byte_at (nm ++ [st]) 11) with (nth 11 (nm ++ [st]) 0). by rewrite nth_lookup, lookup_app_r, Hnm by lia. Qed.

(** One component of the path. *)
Lemma path_component v c l path nm e rest dj :
  win_ok v -> layout (fatfs v) -> directory v c l -> component path nm e rest -> d_sclust dj = c -> length (d_fn dj) = 12%nat ->
  exists st dj1, Z.testbit st 2 = (e <=? 32) /\ Z.testbit st 5 = false /\ d_sclust dj1 = c /\ d_fn dj1 = nm ++ [st] /\ d_fs dj1 = d_fs dj /\ d_id dj1 = d_id dj /\
    from_name dj path v = Some ((FR_OK, dj1, rest), v) /\
    fwp (dir_find dj1) (fun x v' => quiet v v' /\ same_dir dj1 x.2 /\ (found v' l nm x \/ failed x)) v.
Proof using.
  intros Hok Hl Hd Hc Hsc Hfn. destruct (create_name_component (d_fn dj) path nm e rest Hfn Hc) as (st & E & Hst & Hst5).
  exists st, (set_fn (nm ++ [st]) dj). split_and!; try done; [unfold from_name; by rewrite E|].
  apply (find_named_ok v l nm st); try done; [by cbn; rewrite Hsc|by eapply component_bytes].
Qed.

(** The first component of a path that can be walked. *)
Lemma walk_first P v c path l nm :
  walk P v c path l nm -> exists l0 nm0 e rest, directory v c l0 /\ component path nm0 e rest /\
    (e <= 32 /\ l0 = l /\ nm0 = nm \/
     32 < e /\ exists i, first_named v l0 nm0 i /\ Z.land (ent_attr (dentry v l0 i)) AM_DIR <> 0 /\ walk P v (ent_cluster (dentry v l0 i)) rest l nm).
Proof using.
  intros [c0 l0 path0 nm0 e rest HP Hd Hc He|c0 l0 path0 nm0 e rest i l' nm' HP Hd Hc He Hf Ha Hw].
  - exists l0, nm0, e, rest. split_and!; [done|done|by left].
  - exists l0, nm0, e, rest. split_and!; [done|done|right]. split; [done|]. by exists i.
Qed.

Lemma path_loop_ok P fuel v c path l nm dj :
  win_ok v -> layout (fatfs v) -> walk P v c path l nm -> d_sclust dj = c -> length (d_fn dj) = 12%nat -> (length path <= fuel)%nat ->
  fwp (path_loop fuel dj path) (arrived v l nm dj) v.
Proof using.
  revert v c path dj. induction fuel as [|n IH]; intros v c path dj Hok Hl Hp Hsc Hfn Hfuel;
    destruct (walk_first _ _ _ _ _ _ Hp) as (l0 & nm0 & e & rest & Hd & Hc & Hcase); pose proof (component_shorter _ _ _ _ Hc) as Hlen; [lia|].
  cbn [path_loop]. pose proof (component_bytes _ _ _ _ Hc) as Hnm.
  destruct (path_component v c l0 path nm0 e rest dj Hok Hl Hd Hc Hsc Hfn) as (st & dj1 & Hst & Hst5 & Hsc1 & Hfn1 & Hfs1 & Hid1 & Hrun & Hfind).
  apply fwp_bind. unfold fwp at 1. rewrite Hrun. rewrite decide_True by done. apply fwp_bind. eapply fwp_mono; [|exact Hfind].
  intros [r dj2] v1 (Hq & (Hfs2 & Hid2 & Hsc2 & Hfn2) & Hx). cbn [fst snd] in *. rewrite Hfn1 in Hfn2. pose proof (status_of _ _ _ Hnm Hfn2) as Hstat.
  assert (Hlast : negb (Z.land (fn_status dj2) NS_LAST =? 0) = (e <=? 32)) by (change NS_LAST with (2 ^ 2); rewrite bit_test by lia; by rewrite Hstat).
  assert (Hdot : negb (Z.land (fn_status dj2) NS_DOT =? 0) = false) by (change NS_DOT with (2 ^ 5); rewrite bit_test by lia; by rewrite Hstat).
  assert (Hd1 : directory v1 (d_sclust dj2) l0) by (rewrite Hsc2, Hsc1; eapply directory_stays; [apply Hl|apply Hq|done]).
  rewrite Hlast, Hdot. destruct Hx as [Hx|[Hr Hns]].
  2: { cbn in Hr. subst r. rewrite decide_False, decide_False by done. apply fwp_ret. split; [done|]. cbn [fst snd]. split_and!; [congruence|congruence|by right]. }
  destruct Hcase as [(He & -> & ->)|(He & i0 & Hf & Hattr & Hnext)].
  - rewrite (proj2 (Z.leb_le e 32)) by done.
    assert (Harr : arrived v l nm dj (r, dj2) v1).
    { split; [done|]. cbn [fst snd]. split_and!; [congruence|congruence|left]. split; [done|]. split; [by exists st|done]. }
    destruct Hx as [(i & Hr & _)|(Hr & _)]; cbn in Hr; subst r; [rewrite decide_True by done|rewrite decide_False, decide_True by done]; by apply fwp_ret.
  - pose proof (first_named_stays _ _ _ _ _ _ Hl Hd (q_stays _ _ Hq) Hf) as Hf1. rewrite (proj2 (Z.leb_gt e 32)) by lia.
    destruct (found_first _ _ _ _ _ Hx Hf1) as [Hr Hsh]. cbn in Hr. subst r. cbn [snd] in Hsh. rewrite decide_True by done. pose proof Hf as (Hi0 & _).
    assert (E : dentry v1 l0 i0 = dentry v l0 i0) by (apply (dentry_stays v v1 c); [done|done|unfold entries in Hi0; lia|apply Hq]).
    apply fwp_bind. eapply fwp_ent_byte; [done|done|]. rewrite E, (proj2 (Z.eqb_neq _ _)) by done.
    apply fwp_bind. eapply fwp_clust; [done|]. rewrite E. pose proof (quiet_alike _ _ Hq) as Ha.
    eapply fwp_mono; [|apply (IH v1 (ent_cluster (dentry v l0 i0))); [apply Hq|by eapply alike_layout|by eapply walk_stays; [..|apply Hq|]|done| |lia]].
    + intros x v2 (Hq2 & H1 & H2 & H3). cbn [d_fs d_id set_sclust] in *. split; [by eapply quiet_trans|]. split_and!; [congruence|congruence|done].
    + cbn [d_fn set_sclust]. rewrite Hfn2, length_app, Hnm. done.
Qed.

Lemma component_head path nm c rest : component path nm c rest -> exists d p, path = d :: p /\ 32 < d.
Proof using.
  intros (seps & body & b & tail & ext & e & -> & Hs & Hb & _ & _ & Hlen & _). destruct Hs as [|d seps Hd _].
  - destruct Hb as [|d t b (H1 & _) _|d d2 t b Hd _ H1 _ _]; [cbn in Hlen; lia|by exists d, (t ++ tail ++ c :: rest); split; [|lia]|].
    destruct (dbcs1_plain d Hd H1). exists d, (d2 :: t ++ tail ++ c :: rest). split; [done|lia].
  - exists d, (seps ++ body ++ tail ++ c :: rest). split; [done|]. unfold is_sep in Hd. apply orb_true_iff in Hd as [Hd|Hd]; apply Z.eqb_eq in Hd; lia.
Qed.

Lemma walk_head P v c path l nm : walk P v c path l nm -> exists d p, path = d :: p /\ 32 < d.
Proof using. intros Hw. destruct (walk_first _ _ _ _ _ _ Hw) as (l0 & nm0 & e & rest & _ & Hc & _). by eapply component_head. Qed.

Lemma walk_whole P v c path l nm : walk P v c path l nm -> P l /\ length nm = 11%nat /\ exists d, directory v d l.
Proof using. induction 1 as [c l path nm e rest HP Hd Hc He|]; [|done]. split; [done|]. split; [by eapply component_bytes|by exists c]. Qed.

Lemma reaches_whole P v path l nm : reaches P v path l nm -> P l /\ length nm = 11%nat /\ exists d, directory v d l.
Proof using. unfold reaches. destruct path as [|c rest]; [done|]. destruct (is_sep c); apply walk_whole. Qed.

(** The last component is a name. *)
Lemma walk_name P v c path l nm : walk P v c path l nm -> exists p e rest, component p nm e rest.
Proof using. induction 1; eauto. Qed.

Lemma reaches_name P v path l nm : reaches P v path l nm -> length nm = 11%nat /\ Forall is_byte nm /\ byte_at nm 0 <> 0 /\ byte_at nm 0 <> DDE.
Proof using.
  unfold reaches. destruct path as [|c rest]; [done|]. intros H. assert (E : exists p e r, component p nm e r) by (destruct (is_sep c); by eapply walk_name).
  destruct E as (p & e & r & Hc). destruct (component_name _ _ _ _ Hc). split; [by eapply component_bytes|done].
Qed.

Lemma reaches_stays P v v' path l nm : layout (fatfs v) -> stays v v' -> reaches P v path l nm -> reaches P v' path l nm.
Proof using.
  intros Hl Hst. unfold reaches. replace (cdir (fatfs v')) with (cdir (fatfs v)) by (by rewrite (st_same _ _ Hst)).
  destruct path as [|c rest]; [done|]. destruct (is_sep c); by apply walk_stays.
Qed.

Lemma leads_in P v path l i : leads_by P v path l i -> P l /\ 0 <= i < entries (fatfs v) l /\ exists d, directory v d l.
Proof using. intros (nm & Hr & [Hi _]). by destruct (reaches_whole _ _ _ _ _ Hr) as (HP & _ & Hd). Qed.

Lemma leads_by_stays P v v' path l i : layout (fatfs v) -> stays v v' -> leads_by P v path l i -> leads_by P v' path l i.
Proof using.
  intros Hl Hst (nm & Hr & Hf). destruct (reaches_whole _ _ _ _ _ Hr) as (_ & _ & d & Hd).
  exists nm. split; [by eapply reaches_stays|by eapply first_named_stays].
Qed.

Lemma follow_path_ok P v path l nm dj :
  win_ok v -> layout (fatfs v) -> reaches P v path l nm -> length (d_fn dj) = 12%nat -> fwp (follow_path dj path) (arrived v l nm dj) v.
Proof using.
  intros Hok Hl Hp Hfn. unfold follow_path. apply fwp_bind, fwp_get. destruct path as [|c rest]; [done|]. cbn [reaches] in Hp.
  apply fwp_bind, fwp_ret. destruct (is_sep c) eqn:Es.
  - cbn [drop]. destruct (walk_head _ _ _ _ _ _ Hp) as (d & p & -> & Hd). apply fwp_bind, fwp_ret. rewrite (proj2 (Z.ltb_ge d 32)) by lia.
    eapply fwp_mono; [|by apply (path_loop_ok P _ v 0 (d :: p) l nm)]. intros x v' (H1 & H2 & H3 & H4). by split_and!.
  - destruct (walk_head _ _ _ _ _ _ Hp) as (d & p & [= <- <-] & Hd). apply fwp_bind, fwp_ret. rewrite (proj2 (Z.ltb_ge c 32)) by lia.
    eapply fwp_mono; [|by apply (path_loop_ok P _ v (cdir (fatfs v)) (c :: rest) l nm)]. intros x v' (H1 & H2 & H3 & H4). by split_and!.
Qed.

(** The path leads to an entry. *)
Lemma follow_leads P v path l i dj :
  win_ok v -> layout (fatfs v) -> leads_by P v path l i -> length (d_fn dj) = 12%nat ->
  fwp (follow_path dj path) (fun x v' => quiet v v' /\
    (x.1 = FR_OK /\ showing v' l i x.2 /\ directory v' (d_sclust x.2) l /\ Z.testbit (fn_status x.2) 5 = false /\ length (d_fn x.2) = 12%nat \/ failed x)) v.
Proof using.
  intros Hok Hl (nm & Hr & Hf) Hfn. destruct (reaches_whole _ _ _ _ _ Hr) as (_ & Hlen & d & Hd).
  eapply fwp_mono; [|by apply (follow_path_ok P v path l nm)]. intros x v' (Hq & _ & _ & [(Hd' & (st & Hn & Hst & Hb) & Hx)|Hx]); (split; [done|]); [left|by right].
  destruct (found_first _ _ _ i _ Hx) as [H1 H2]; [eapply first_named_stays; [done|done|apply Hq|done]|]. rewrite Hst, Hn, length_app, Hlen. by split_and!.
Qed.

(** ** The object of the file *)

(** The volume is mounted, and its drive is ready and may be written. *)
Record mounted_ready (s : fsys (DK := DK)) : Prop := {
  mr_registered : registered s = true;
  mr_volume : CurrVol s = 0;
  mr_type : fs_type (fatfs (volume s)) <> 0;
  mr_status : forall d : DK, (d_status 0 d).1 = 0
}.

(** The path does not begin with the number of a drive. *)
Definition no_drive (path : list Z) : Prop := match path with c :: _ => 9 < u32 (c - 48) | [] => False end.

Lemma mounted_stays (s s' : fsys) :
  mounted_ready s -> registered s' = registered s -> CurrVol s' = CurrVol s -> fs_type (fatfs (volume s')) = fs_type (fatfs (volume s)) -> mounted_ready s'.
Proof using. intros [H1 H2 H3 H4] E1 E2 E3. by split; rewrite ?E1, ?E2, ?E3. Qed.

(** The check of a mounted volume, with the path behind the drive. *)
Lemma chk_mounted_drive (s : fsys) path path' chk_wp :
  win_ok (volume s) -> mounted_ready s -> drive_number path s = Some ((0, path'), s) ->
  gwp (chk_mounted path chk_wp) (fun x s' => x = (FR_OK, path') /\ quiet (volume s) (volume s') /\ fatfs (volume s') = fatfs (volume s) /\ mounted_ready s') s.
Proof using.
  intros Hok Hr Hd. pose proof Hr as [H1 H2 H3 H4]. pose proof (g_drv _ (w_geo _ Hok)) as Hdrv.
  unfold chk_mounted. apply gwp_bind. unfold gwp at 1. rewrite Hd. cbn [Z.leb _VOLUMES Z.compare]. apply gwp_bind, gwp_get. rewrite H1. cbn [negb].
  apply gwp_bind, gwp_vol, fwp_get. replace (with_volume s (volume s)) with s by (by destruct s). rewrite (proj2 (Z.eqb_neq _ _)) by done.
  apply gwp_bind, gwp_vol, fwp_dev. rewrite Hdrv. intros stat d Hst. cbn [fatfs dev]. assert (stat = 0) as -> by (rewrite <- (H4 (dev (volume s))); by rewrite Hst).
  cbn [Z.land Z.eqb]. unfold wp_refused. cbn [Z.land Z.eqb negb]. rewrite andb_false_r. apply gwp_ret. unfold with_volume. cbn [volume fatfs].
  split_and!; [done| |done|by apply (mounted_stays s)]. apply quiet_dev; [done|]. intros t. replace d with (d_status 0 (dev (volume s))).2 by (by rewrite Hst). apply status_keeps.
Qed.

Lemma chk_mounted_ready (s : fsys) path chk_wp :
  win_ok (volume s) -> mounted_ready s -> no_drive path ->
  gwp (chk_mounted path chk_wp) (fun x s' => x = (FR_OK, path) /\ quiet (volume s) (volume s') /\ fatfs (volume s') = fatfs (volume s) /\ mounted_ready s') s.
Proof using.
  intros Hok Hr Hp. apply chk_mounted_drive; [done|done|]. destruct path as [|c path]; [done|]. cbn in Hp. destruct s as [v reg id cur]. destruct Hr as [_ H2 _ _]. cbn in H2. subst cur.
  unfold drive_number, on_vol, sys_get, mbind, G_bind. cbn. rewrite (proj2 (Z.leb_gt _ 9)) by done. done.
Qed.

(** Nothing is made, and the file may be opened in this way. *)
Definition may_open (mode : Z) (e : list Z) : Prop :=
  Z.land (Z.land mode 31) 28 = 0 /\ Z.land (ent_attr e) AM_DIR = 0 /\ (Z.land mode FA_WRITE <> 0 -> Z.land (ent_attr e) AM_RDO = 0).

(** The object of the file with the entry [e] at [i]. *)
Definition file_object (f : FATFS) (l : list Z) (i : Z) (mode : Z) (e : list Z) (clust : Z) : FIL :=
  mkFil true (fs_id f) (Z.land mode 31) 0 (ent_size e) (ent_cluster e) clust 0 (dsector f l i) (Some (i mod PER_SECTOR * SZ_DIR)).

Lemma open_existing_ok v l i dj mode :
  showing v l i dj -> may_open mode (dentry v l i) -> fwp (open_existing FR_OK dj (Z.land mode 31)) (fun r v' => v' = v /\ r = FR_OK) v.
Proof using.
  intros Hs (_ & Hd & Hw). unfold open_existing. rewrite decide_True by done. apply fwp_bind. eapply fwp_ent_byte; [done|done|].
  fold (ent_attr (dentry v l i)). rewrite Hd. cbn [Z.eqb negb]. apply fwp_ret. split; [done|].
  rewrite <- Z.land_assoc. change (Z.land 31 FA_WRITE) with FA_WRITE. destruct (Z.eqb_spec (Z.land mode FA_WRITE) 0) as [|Hne]; [done|]. by rewrite Hw.
Qed.

Lemma opened_ok v l i dj mode fp :
  showing v l i dj -> may_open mode (dentry v l i) ->
  fwp (opened dj (Z.land mode 31) fp) (fun x v' => v' = v /\ x = file_object (fatfs v) l i mode (dentry v l i) (f_clust fp)) v.
Proof using.
  intros Hs (Hm & _). unfold opened. apply fwp_bind, fwp_get. cbn zeta.
  assert (Ec : Z.land (Z.land mode 31) FA_CREATE_ALWAYS = 0).
  { change FA_CREATE_ALWAYS with (Z.land 28 8). by rewrite Z.land_assoc, Hm. }
  rewrite Ec. cbn [Z.eqb negb]. apply fwp_bind. eapply fwp_clust; [done|]. apply fwp_bind. eapply fwp_ent_bytes; [done|done|done|done|].
  apply fwp_ret. split; [done|]. unfold file_object. by rewrite (sh_here _ _ _ _ Hs), (da_ptr _ _ _ _ (sh_at _ _ _ _ Hs)).
Qed.

Lemma file_object_at v fp_clust l i mode e lf :
  clusters v (ent_cluster e) lf -> ent_size e <= bcs (fatfs v) * zlen lf -> file_at v (file_object (fatfs v) l i mode e fp_clust) lf.
Proof using.
  intros Hc Hle. assert (Hsz : 0 <= ent_size e < 2 ^ 32) by (apply (wrap_range 32); lia). split; [split|..]; cbn; try done; lia.
Qed.

Lemma f_open_ok sfn (s : fsys) fp path mode l i :
  win_ok (volume s) -> layout (fatfs (volume s)) -> mounted_ready s -> no_drive path -> length sfn = 12%nat ->
  leads (volume s) path l i -> may_open mode (dentry (volume s) l i) ->
  gwp (f_open sfn fp path mode) (fun x s' => quiet (volume s) (volume s') /\
    (x = (FR_OK, file_object (fatfs (volume s)) l i mode (dentry (volume s) l i) (f_clust fp)) \/ x.1 = FR_DISK_ERR /\ ~ sound)) s.
Proof using.
  intros Hok Hl Hr Hnd Hsfn Hp Hm. unfold f_open. cbn zeta. apply gwp_bind. eapply gwp_mono; [|by apply chk_mounted_ready].
  intros [r0 path0] s1 ([= -> ->] & Hq & Hf & _). pose proof (quiet_alike _ _ Hq) as Ha. pose proof (alike_layout _ _ Ha Hl) as Hl1. rewrite decide_True by done.
  assert (Hp1 : leads (volume s1) path l i).
  { apply (leads_by_stays anywhere (volume s)); [done|apply Hq|done]. }
  apply gwp_vol, fwp_bind. eapply fwp_mono; [|apply (follow_leads anywhere (volume s1) path l i (new_dir sfn)); [apply Hq|done|done|done]].
  intros [r dj] v2 (Hq2 & Hx). cbn [fst snd] in Hx. pose proof (quiet_trans _ _ _ Hq Hq2) as Hq3. rewrite (proj1 Hm). cbn [Z.eqb negb].
  destruct Hx as [(-> & Hsh & _)|[Hr2 Hns]]; [|cbn in Hr2; subst r].
  - rewrite decide_True by done. rewrite (da_ptr _ _ _ _ (sh_at _ _ _ _ Hsh)). apply fwp_bind, fwp_bind.
    destruct (leads_in _ _ _ _ _ Hp) as (_ & Hi & d & Hd).
    assert (E : dentry v2 l i = dentry (volume s) l i) by (apply (dentry_stays (volume s) v2 d); [done|done|unfold entries in Hi; lia|apply Hq3]).
    eapply fwp_mono; [|apply (open_existing_ok v2 l i dj mode Hsh); by rewrite E]. intros r v3 [-> ->]. apply fwp_ret. rewrite decide_True by done.
    apply fwp_bind. eapply fwp_mono; [|apply (opened_ok v2 l i dj mode _ Hsh); by rewrite E]. intros fp2 v3 [-> ->]. apply fwp_ret. rewrite E.
    cbn [volume with_volume]. split; [done|]. left. f_equal. unfold file_object. rewrite (dsector_ext _ _ _ _ (quiet_alike _ _ Hq3)).
    by rewrite (quiet_alike _ _ Hq3).
  - rewrite decide_False by done. apply fwp_bind, fwp_bind, fwp_ret, fwp_ret. rewrite decide_False by done. apply fwp_ret. cbn [volume with_volume]. split; [done|]. by right.
Qed.

(** Where nothing has the name, there is nothing to open. *)
Lemma f_open_missing sfn (s : fsys) fp path mode P l nm :
  win_ok (volume s) -> layout (fatfs (volume s)) -> mounted_ready s -> no_drive path -> length sfn = 12%nat ->
  reaches P (volume s) path l nm -> missing (volume s) l nm -> Z.land (Z.land mode 31) 28 = 0 ->
  gwp (f_open sfn fp path mode) (fun x s' => quiet (volume s) (volume s') /\ (x.1 = FR_NO_FILE \/ failed x)) s.
Proof using.
  intros Hok Hl Hr Hnd Hsfn Hp Hms Hm. destruct (reaches_whole _ _ _ _ _ Hp) as (_ & _ & d & Hd).
  unfold f_open. cbn zeta. apply gwp_bind. eapply gwp_mono; [|by apply chk_mounted_ready]. intros [r0 path0] s1 ([= -> ->] & Hq & _ & _). rewrite decide_True by done.
  pose proof (alike_layout _ _ (quiet_alike _ _ Hq) Hl) as Hl1.
  apply gwp_vol, fwp_bind. eapply fwp_mono; [|apply (follow_path_ok P (volume s1) path l nm (new_dir sfn)); [apply Hq|done|by eapply reaches_stays; [..|apply Hq|]|done]].
  intros [r dj] v2 (Hq2 & _ & _ & Hx). cbn [fst snd] in Hx. pose proof (quiet_trans _ _ _ Hq Hq2) as Hq3. rewrite Hm. cbn [Z.eqb negb].
  assert (Hr2 : r = FR_NO_FILE \/ r = FR_DISK_ERR /\ ~ sound).
  { destruct Hx as [(_ & _ & Hx)|Hx]; [left|by right]. apply (found_missing v2 l nm (r, dj) Hx). apply (missing_stays (volume s) v2 d); [done|done|apply Hq3|done]. }
  assert (Hne : r <> FR_OK) by (by destruct Hr2 as [-> |[-> _]]). rewrite (decide_False (P := r = FR_OK)) by done.
  unfold open_existing. rewrite (decide_False (P := r = FR_OK)) by done. apply fwp_bind, fwp_bind, fwp_ret, fwp_ret. rewrite decide_False by done. by apply fwp_ret.
Qed.

(** Opening a file that exists, from a path of names through directories, ends and
    changes nothing, and makes the object of the first entry that has the last name:
    with the size and the first cluster in the entry and the place of the entry.
    When the clusters from there have room for the size, the object is in order
    for reading and writing.  Only a disk that failed is answered otherwise. *)
Theorem f_open_finds sfn (s : fsys) fp path mode l i lf :
  win_ok (volume s) -> layout (fatfs (volume s)) -> mounted_ready s -> no_drive path -> length sfn = 12%nat ->
  leads (volume s) path l i -> let e := dentry (volume s) l i in
  may_open mode e -> clusters (volume s) (ent_cluster e) lf -> ent_size e <= bcs (fatfs (volume s)) * zlen lf ->
  exists r fp' s', f_open sfn fp path mode s = Some ((r, fp'), s') /\ quiet (volume s) (volume s') /\
    (r = FR_OK /\ fp' = file_object (fatfs (volume s)) l i mode e (f_clust fp) /\ file_at (volume s') fp' lf \/
     r = FR_DISK_ERR /\ ~ sound).
Proof using.
  intros Hok Hl Hr Hnd Hsfn Hp e Hm Hc Hsz. destruct (gwp_run _ _ _ (f_open_ok sfn s fp path mode l i Hok Hl Hr Hnd Hsfn Hp Hm)) as ([r fp'] & s' & Hrun & Hq & Hx).
  exists r, fp', s'. split; [done|]. split; [done|]. destruct Hx as [[= -> ->]|Hx]; [left|by right]. split_and!; [done|done|].
  eapply file_stays; [done|apply Hq|]. by apply file_object_at.
Qed.

(** ** Opening and reading *)

Definition open_and_read (sfn : list Z) (fp : FIL) (path : list Z) (btr : Z) : G (DK := DK) (FRESULT * list Z * Z) :=
  '(r, fp) ← f_open sfn fp path FA_READ;
  if decide (r = FR_OK) then '(r, fp, buff, br) ← f_read fp btr; mret (r, buff, br) else mret (r, [], 0).

Lemma open_and_read_ok sfn (s : fsys) fp path btr l i lf :
  sound -> win_ok (volume s) -> layout (fatfs (volume s)) -> mounted_ready s -> no_drive path -> length sfn = 12%nat ->
  leads (volume s) path l i -> let e := dentry (volume s) l i in
  Z.land (ent_attr e) AM_DIR = 0 -> clusters (volume s) (ent_cluster e) lf -> ent_size e <= bcs (fatfs (volume s)) * zlen lf -> 0 <= btr < 2 ^ 32 ->
  gwp (open_and_read sfn fp path btr) (fun x s' => x = (FR_OK, file_bytes (volume s) lf 0 (Z.min btr (ent_size e)), Z.min btr (ent_size e)) /\
    quiet (volume s) (volume s')) s.
Proof using.
  intros S Hok Hl Hr Hnd Hsfn Hp e Ha Hc Hsz Hbtr.
  assert (Hm : may_open FA_READ e) by (split; [done|]; split; [done|]; by intros []).
  apply gwp_bind. eapply gwp_mono; [|by apply (f_open_ok sfn s fp path FA_READ l i)]. intros [r fp1] s1 [Hq [[= -> ->]|[_ Hns]]]; [|done].
  rewrite decide_True by done. fold e. set (fp1 := file_object _ _ _ _ _ _). pose proof (quiet_alike _ _ Hq) as Hal.
  assert (Hf1 : file_at (volume s1) fp1 lf) by (eapply file_stays; [done|apply Hq|by apply file_object_at]).
  assert (Hu : usable (fatfs (volume s1)) fp1 FA_READ).
  { pose proof (mr_type _ Hr). unfold usable. replace (fs_type (fatfs (volume s1))) with (fs_type (fatfs (volume s))) by (by rewrite Hal).
    replace (fs_id (fatfs (volume s1))) with (fs_id (fatfs (volume s))) by (by rewrite Hal). split_and!; try done. by right. }
  apply gwp_bind. eapply gwp_mono; [|apply (f_read_ok s1 fp1 lf btr); [apply Hq|by eapply alike_layout|done|done]].
  intros [[[r fp3] buff] br] s3 (Hq3 & Hbr & Htk & _ & Hok3 & [[-> _]|[([_ Hno] & _)|[_ Hns]]]); [apply gwp_ret| |done].
  2: { exfalso. apply Hno. split; [done|]. intros d. by rewrite (mr_status _ Hr). }
  destruct (Hok3 eq_refl) as (Ebr & Hlen & _). change (f_size fp1) with (ent_size e) in *. change (f_ptr fp1) with 0 in *. rewrite Z.sub_0_r in *.
  split; [|by eapply quiet_trans]. rewrite take_ge in Htk by (unfold zlen in Hlen; lia). rewrite Htk, Ebr. do 2 f_equal. apply bytes_shift. intros k Hk.
  pose proof Hc as Hc2. apply file_byte_stays; [done|by eapply clusters_all| |apply Hq]. unfold inside. lia.
Qed.

(** What a file contains can be read by its path: opening it and reading [btr] bytes
    ends, changes nothing, and on a disk without faults delivers the first bytes of
    the clusters of the file, as many as asked for or as the entry says it has. *)
Theorem file_is_read_by_path sfn (s : fsys) fp path btr l i lf :
  sound -> win_ok (volume s) -> layout (fatfs (volume s)) -> mounted_ready s -> no_drive path -> length sfn = 12%nat ->
  leads (volume s) path l i -> let e := dentry (volume s) l i in
  Z.land (ent_attr e) AM_DIR = 0 -> clusters (volume s) (ent_cluster e) lf -> ent_size e <= bcs (fatfs (volume s)) * zlen lf -> 0 <= btr < 2 ^ 32 ->
  exists s', open_and_read sfn fp path btr s = Some ((FR_OK, file_bytes (volume s) lf 0 (Z.min btr (ent_size e)), Z.min btr (ent_size e)), s') /\
    quiet (volume s) (volume s').
Proof using.
  intros S Hok Hl Hr Hnd Hsfn Hp e Ha Hc Hsz Hbtr.
  destruct (gwp_run _ _ _ (open_and_read_ok sfn s fp path btr l i lf S Hok Hl Hr Hnd Hsfn Hp Ha Hc Hsz Hbtr)) as (x & s' & Hx & -> & Hq). by exists s'.
Qed.

End FatOpen.
