(* ===== verification/FatSync.v ===== *)
(** * Closing files

    Closing a file that was written puts its size and first cluster into its
    directory entry and flushes the volume; every path still leads where it led, and
    what was stored is read back by the path. *)

From S2P Require Import Prelude Diskio FatVol FatBytes FatWin FatTable FatChain FatMount FatName FatDir FatFile FatData FatRead FatWrite FatSeek FatScan FatOpen.

(** ** Entries within a sector *)

Definition entry_in (b : list Z) (p : Z) : list Z := take (Z.to_nat SZ_DIR) (drop (Z.to_nat p) b).

Lemma entry_in_length b p : length b = 512%nat -> 0 <= p -> p + SZ_DIR <= 512 -> length (entry_in b p) = 32%nat.
Proof. intros Hb Hp Hle. unfold entry_in. rewrite length_take, length_drop. unfold SZ_DIR in *. lia. Qed.

(** Two lists of bytes with the same length and bytes are equal. *)
Lemma bytes_eq (a b : list Z) : length a = length b -> (forall i, 0 <= i < zlen a -> byte_at a i = byte_at b i) -> a = b.
Proof.
  intros Hl Hb. apply list_eq. intros i. destruct (decide (i < length a)%nat) as [Hi|Hi]; [|by rewrite !lookup_ge_None_2 by lia].
  specialize (Hb (Z.of_nat i)). unfold byte_at, zlen in Hb. rewrite !Nat2Z.id in Hb.
  destruct (lookup_lt_is_Some_2 a i) as [x Hx]; [lia|]. destruct (lookup_lt_is_Some_2 b i) as [y Hy]; [lia|].
  rewrite Hx, Hy. f_equal. rewrite (nth_lookup_Some _ _ 0 _ Hx), (nth_lookup_Some _ _ 0 _ Hy) in Hb. apply Hb. lia.
Qed.

Lemma cpy_len w o l : 0 <= o -> o + zlen l <= zlen w -> length (mem_cpy w o l) = length w.
Proof. intros Ho Hl. unfold zlen in Hl. apply cpy_length; lia. Qed.

(** A part of an entry is a part of the sector. *)
Lemma cpy_part b p e o w :
  length b = 512%nat -> length e = 32%nat -> 0 <= p -> p + 32 <= 512 -> 0 <= o -> o + zlen w <= 32 ->
  mem_cpy (mem_cpy b p e) (p + o) w = mem_cpy b p (mem_cpy e o w).
Proof.
  intros Hb He Hp Hle Ho Hw. pose proof (zlen_nonneg w) as Hz. assert (Zb : zlen b = 512) by (unfold zlen; lia). assert (Ze : zlen e = 32) by (unfold zlen; lia).
  assert (L1 : length (mem_cpy b p e) = 512%nat) by (rewrite cpy_len; lia). assert (L2 : length (mem_cpy e o w) = 32%nat) by (rewrite cpy_len; lia).
  apply bytes_eq; [rewrite !cpy_len; unfold zlen in *; lia|]. intros i Hi.
  assert (Hi2 : 0 <= i < 512) by (revert Hi; unfold zlen; rewrite cpy_len by (unfold zlen in *; lia); lia).
  assert (Z1 : zlen (mem_cpy b p e) = 512) by (unfold zlen; lia). assert (Z2 : zlen (mem_cpy e o w) = 32) by (unfold zlen; lia).
  rewrite !byte_at_cpy by lia. rewrite Z2, Ze. destruct (decide (p + o <= i < p + o + zlen w)).
  - rewrite (decide_True (P := p <= i < p + 32)), byte_at_cpy, decide_True by lia. f_equal. lia.
  - destruct (decide (p <= i < p + 32)); [|done]. by rewrite byte_at_cpy, decide_False by lia.
Qed.

Lemma cpy_entry b p : length b = 512%nat -> 0 <= p -> p + SZ_DIR <= 512 -> mem_cpy b p (entry_in b p) = b.
Proof.
  intros Hb Hp Hle. pose proof (entry_in_length b p Hb Hp Hle) as He. unfold mem_cpy. rewrite He. unfold entry_in, SZ_DIR in *. change (Z.to_nat 32) with 32%nat.
  rewrite <- drop_drop, take_drop. apply take_drop.
Qed.

Lemma entry_cpy b p e : length b = 512%nat -> length e = 32%nat -> 0 <= p -> p + SZ_DIR <= 512 -> entry_in (mem_cpy b p e) p = e.
Proof.
  intros Hb He Hp Hle. unfold SZ_DIR in Hle. assert (Ze : zlen e = 32) by (unfold zlen; lia). assert (Zb : zlen b = 512) by (unfold zlen; lia).
  assert (L : length (mem_cpy b p e) = 512%nat) by (rewrite cpy_len; lia).
  apply bytes_eq; [rewrite entry_in_length by (unfold SZ_DIR; lia); done|]. intros i Hi. unfold zlen in Hi. rewrite entry_in_length in Hi by (unfold SZ_DIR; lia).
  unfold entry_in. rewrite byte_at_part by (unfold SZ_DIR; lia). rewrite byte_at_cpy by lia. rewrite decide_True by lia. f_equal. lia.
Qed.

Lemma entry_cpy_other b p q e :
  length b = 512%nat -> length e = 32%nat -> 0 <= p -> p + SZ_DIR <= 512 -> 0 <= q -> q + SZ_DIR <= 512 -> q + SZ_DIR <= p \/ p + SZ_DIR <= q ->
  entry_in (mem_cpy b p e) q = entry_in b q.
Proof.
  intros Hb He Hp Hle Hq Hleq Hne. unfold SZ_DIR in *. assert (Ze : zlen e = 32) by (unfold zlen; lia). assert (Zb : zlen b = 512) by (unfold zlen; lia).
  assert (L : length (mem_cpy b p e) = 512%nat) by (rewrite cpy_len; lia).
  apply bytes_eq; [rewrite !entry_in_length by (unfold SZ_DIR; lia); done|]. intros i Hi. unfold zlen in Hi. rewrite entry_in_length in Hi by (unfold SZ_DIR; lia).
  unfold entry_in. rewrite !byte_at_part by (unfold SZ_DIR; lia). rewrite byte_at_cpy by lia. by rewrite decide_False by lia.
Qed.

(** Slices of a list a part of which was replaced. *)
Lemma slice_cpy_other e p w o n :
  0 <= p -> p + zlen w <= zlen e -> 0 <= o -> 0 <= n -> o + n <= p \/ p + zlen w <= o -> o + n <= zlen e ->
  take (Z.to_nat n) (drop (Z.to_nat o) (mem_cpy e p w)) = take (Z.to_nat n) (drop (Z.to_nat o) e).
Proof.
  intros Hp Hw Ho Hn Hne Hle. assert (Hl : zlen (mem_cpy e p w) = zlen e) by (unfold zlen at 1; rewrite cpy_len; [done|lia|lia]).
  rewrite !slice_bytes by lia. apply bytes_shift. intros i Hi. rewrite byte_at_cpy by lia. by rewrite decide_False by lia.
Qed.

Lemma slice_cpy_same e p w : 0 <= p -> p + zlen w <= zlen e -> take (Z.to_nat (zlen w)) (drop (Z.to_nat p) (mem_cpy e p w)) = w.
Proof.
  intros Hp Hw. pose proof (zlen_nonneg w). assert (Hl : zlen (mem_cpy e p w) = zlen e) by (unfold zlen at 1; rewrite cpy_len; [done|lia|lia]).
  assert (E : byte_at w <$> seqZ 0 (zlen w) = w).
  { rewrite <- (slice_bytes w 0 (zlen w)) by lia. change (Z.to_nat 0) with 0%nat. rewrite drop_0. apply take_ge. unfold zlen. lia. }
  rewrite slice_bytes by lia. transitivity (byte_at w <$> seqZ 0 (zlen w)); [|done]. apply bytes_shift. intros i Hi. rewrite byte_at_cpy by lia. rewrite decide_True by lia. f_equal. lia.
Qed.

(** ** The entry of a file that was written *)

Definition saved_entry (e : list Z) (size cl : Z) : list Z :=
  let e := mem_cpy e DIR_Attr [Z.lor (byte_at e DIR_Attr) AM_ARC] in
  let e := mem_cpy e DIR_FileSize (ST_DWORD size) in
  let e := mem_cpy e DIR_FstClusLO (ST_WORD (u16 cl)) in
  let e := mem_cpy e DIR_FstClusHI (ST_WORD (u16 (Z.shiftr (u32 cl) 16))) in
  mem_cpy e DIR_WrtTime (ST_DWORD get_fattime).

Lemma zlen_word x : zlen (ST_WORD x) = 2.
Proof. done. Qed.

Lemma zlen_dword x : zlen (ST_DWORD x) = 4.
Proof. done. Qed.

Lemma zlen_cpy e p w : 0 <= p -> p + zlen w <= zlen e -> zlen (mem_cpy e p w) = zlen e.
Proof. intros Hp Hw. unfold zlen at 1. by rewrite cpy_len. Qed.

Lemma zlen_one (x : Z) : zlen [x] = 1.
Proof. done. Qed.

(** Lengths of lists parts of which were replaced. *)
Ltac size_of := unfold DIR_Attr, DIR_CrtTime, DIR_FileSize, DIR_FstClusLO, DIR_FstClusHI, DIR_WrtTime; repeat rewrite zlen_cpy by size_of; rewrite ?zlen_word, ?zlen_dword, ?zlen_one; lia.

Lemma saved_length e size cl : zlen e = 32 -> zlen (saved_entry e size cl) = 32.
Proof. intros He. unfold saved_entry. size_of. Qed.

Lemma ld_st_dword x : 0 <= x < 2 ^ 32 -> LD_DWORD (ST_DWORD x) = x.
Proof.
  intros Hx. rewrite ld_dword by apply st_dword_bytes. rewrite st_dword. etrans; [apply (digits_4 x)|by apply Z.mod_small].
Qed.

Lemma ld_st_word x : LD_WORD (ST_WORD x) = x mod 65536.
Proof. rewrite ld_word by apply st_word_bytes. rewrite st_word. apply digits_2. Qed.

Lemma cpy_bytes e p w : Forall is_byte e -> Forall is_byte w -> Forall is_byte (mem_cpy e p w).
Proof. intros He Hw. unfold mem_cpy. apply Forall_app. split; [by apply Forall_take|]. apply Forall_app. split; [done|by apply Forall_drop]. Qed.

Lemma archive_byte e : Forall is_byte e -> Forall is_byte [Z.lor (byte_at e DIR_Attr) AM_ARC].
Proof.
  intros He. constructor; [|constructor]. pose proof (byte_at_byte e DIR_Attr He) as Hb. change (fits 8 (Z.lor (byte_at e DIR_Attr) AM_ARC)).
  apply fits_of_bits; [lia|apply Z.lor_nonneg; split; [apply Hb|done]|]. intros i Hi.
  by rewrite Z.lor_spec, (fits_testbit 8 (byte_at e DIR_Attr)), (fits_testbit 8 AM_ARC) by (done || lia).
Qed.

Ltac bytes_of := repeat (apply cpy_bytes; [|apply st_word_bytes || apply st_dword_bytes || (by apply archive_byte) || by repeat constructor]); done.

Lemma saved_bytes e size cl : zlen e = 32 -> Forall is_byte e -> Forall is_byte (saved_entry e size cl).
Proof.
  intros _ He. unfold saved_entry. bytes_of.
Qed.

(** The two halves of a cluster number. *)
Lemma cluster_words cl : 0 <= cl < 2 ^ 32 -> Z.lor (u32 (Z.shiftl (u16 (Z.shiftr (u32 cl) 16) mod 65536) 16)) (u16 cl mod 65536) = cl.
Proof.
  intros Hc. change 65536 with (2 ^ 16). rewrite (wrap_small 32 cl) by done. rewrite shiftr_div by lia.
  assert (Hq : 0 <= cl / 2 ^ 16 < 2 ^ 16) by (split; [apply Z.div_pos; lia|apply Z.div_lt_upper_bound; lia]).
  rewrite (wrap_small 16 (cl / _)) by done. rewrite (Z.mod_small (cl / _)) by done. unfold wrap at 2. rewrite Z.mod_mod by lia.
  rewrite wrap_small by (unfold fits; rewrite Z.shiftl_mul_pow2 by lia; lia). rewrite lor_add by (lia || apply Z.mod_pos_bound; lia).
  pose proof (Z.div_mod cl (2 ^ 16) ltac:(lia)). lia.
Qed.

Lemma saved_says e size cl : zlen e = 32 -> 0 <= size < 2 ^ 32 -> 0 <= cl < 2 ^ 32 ->
  ent_size (saved_entry e size cl) = size /\ ent_cluster (saved_entry e size cl) = cl /\ ent_attr (saved_entry e size cl) = Z.lor (ent_attr e) AM_ARC /\
  take 11 (saved_entry e size cl) = take 11 e.
Proof.
  intros He Hs Hc. unfold saved_entry, ent_size, ent_cluster, DIR_Attr, DIR_FileSize, DIR_FstClusLO, DIR_FstClusHI, DIR_WrtTime in *.
  split_and!.
  - rewrite !slice_cpy_other by size_of. change 4 with (zlen (ST_DWORD size)). rewrite slice_cpy_same by size_of. by apply ld_st_dword.
  - rewrite !(slice_cpy_other _ 22) by size_of. rewrite (slice_cpy_other _ 20 _ 26) by size_of. change 2 with (zlen (ST_WORD (u16 (Z.shiftr (u32 cl) 16)))) at 1.
    rewrite slice_cpy_same by size_of. change 2 with (zlen (ST_WORD (u16 cl))). rewrite slice_cpy_same by size_of. rewrite !ld_st_word.
    by apply cluster_words.
  - unfold ent_attr, DIR_Attr. rewrite !byte_at_cpy by size_of. done.
  - change 11%nat with (Z.to_nat 11). change (take (Z.to_nat 11) ?x) with (take (Z.to_nat 11) (drop (Z.to_nat 0) x)). by rewrite !slice_cpy_other by size_of.
Qed.


Section FatSync.

Context {DK : Type} {HD : Disk DK} {HS : Store DK}.

Implicit Types v : vol (DK := DK).

(** ** Putting bytes into the entry at [p] of the window *)

Definition put_entry v (p : Z) (e : list Z) : vol (DK := DK) := mkVol (set_win (mem_cpy (win (fatfs v)) p e) (fatfs v)) (dev v).

Lemma put_entry_start v p : sector (win (fatfs v)) -> 0 <= p -> p + SZ_DIR <= 512 -> put_entry v p (entry_in (win (fatfs v)) p) = v.
Proof using. intros [Hl _] Hp Hle. unfold put_entry. rewrite cpy_entry by done. rewrite set_win_id. by destruct v. Qed.

Lemma put_entry_sector v p e : sector (win (fatfs v)) -> zlen e = 32 -> Forall is_byte e -> 0 <= p -> p + SZ_DIR <= 512 -> sector (win (fatfs (put_entry v p e))).
Proof using. intros Hs He Hb Hp Hle. cbn. apply cpy_sector; [done|done|done|]. unfold SZ_DIR in Hle. lia. Qed.

Lemma fwp_entry_put v p e o w (Q : unit -> vol (DK := DK) -> Prop) :
  sector (win (fatfs v)) -> zlen e = 32 -> Forall is_byte e -> 0 <= p -> p + SZ_DIR <= 512 -> 0 <= o -> o + zlen w <= 32 ->
  Q tt (put_entry v p (mem_cpy e o w)) -> fwp (ent_put (Some p) o w) Q (put_entry v p e).
Proof using.
  intros Hs He Hb Hp Hle Ho Hw HQ. pose proof (put_entry_sector v p e Hs He Hb Hp Hle) as Hs2. unfold SZ_DIR in Hle.
  apply fwp_put; [done|lia|lia|]. unfold put_entry in *. cbn [fatfs dev win set_win with_window] in *.
  rewrite cpy_part; [exact HQ|apply Hs|unfold zlen in He; lia|lia|lia|lia|lia].
Qed.

Lemma fwp_entry_byte v p e o (Q : Z -> vol (DK := DK) -> Prop) :
  sector (win (fatfs v)) -> zlen e = 32 -> Forall is_byte e -> 0 <= p -> p + SZ_DIR <= 512 -> 0 <= o < 32 ->
  Q (byte_at e o) (put_entry v p e) -> fwp (ent_byte (Some p) o) Q (put_entry v p e).
Proof using.
  intros Hs He Hb Hp Hle Ho HQ. pose proof (put_entry_sector v p e Hs He Hb Hp Hle) as Hs2. unfold SZ_DIR in Hle.
  apply fwp_at; [done|lia|]. destruct Hs as [Hl _]. cbn [put_entry fatfs win set_win with_window]. rewrite byte_at_cpy by (unfold zlen in *; lia).
  rewrite decide_True by lia. by replace (p + o - p) with o by lia.
Qed.

(** ** Editing an entry of a directory *)

Lemma dentry_in v l i : dentry v l i = entry_in (view v (dsector (fatfs v) l i)) (i mod PER_SECTOR * SZ_DIR).
Proof using. done. Qed.

(** The entry [i] of the directory in the clusters [l] became [e]. *)
Record edited v l i e v' : Prop := {
  ed_ok : win_ok v';
  ed_alike : alike (fatfs v) (fatfs v');
  ed_here : view v' (dsector (fatfs v) l i) = mem_cpy (view v (dsector (fatfs v) l i)) (i mod PER_SECTOR * SZ_DIR) e;
  ed_else : forall s, primary (fatfs v) s -> s <> dsector (fatfs v) l i -> view v' s = view v s
}.

(** The sectors of directories are behind the tables. *)
Lemma dsector_base v c l i :
  layout (fatfs v) -> directory v c l -> 0 <= i < room (fatfs v) l -> fatbase (fatfs v) + n_fats (fatfs v) * fsize (fatfs v) <= dsector (fatfs v) l i.
Proof using.
  intros Hl Hd Hi. destruct Hd as [(_ & -> & _ & [_ _ H3 _])|(h & Hch & _)].
  - cbn [dsector]. rewrite per_sector. pose proof (Z.div_pos i 16 ltac:(lia) ltac:(lia)). lia.
  - pose proof Hch as (Hne & Hall & _). rewrite dsector_place by done.
    rewrite room_chain, per_sector in Hi by done. assert (Hin : inside (fatfs v) l (SZ_DIR * i)) by (unfold inside, bcs, SS, SZ_DIR; lia).
    destruct (inside_cluster (fatfs v) l _ Hl Hin) as (x & Hx & E). pose proof (proj1 (Forall_lookup _ _) Hall _ _ Hx) as Hcl.
    unfold place. rewrite E. pose proof (byte_place_range (fatfs v) (SZ_DIR * i) Hl). apply (data_primary (fatfs v) x); done.
Qed.

Lemma mark_edited v c l i e :
  win_ok v -> layout (fatfs v) -> directory v c l -> 0 <= i < entries (fatfs v) l -> winsect (fatfs v) = dsector (fatfs v) l i ->
  zlen e = 32 -> Forall is_byte e ->
  let v' := mkVol (set_wflag true (fatfs (put_entry v (i mod PER_SECTOR * SZ_DIR) e))) (dev v) in
  win_ok v' /\ same (fatfs v) (fatfs v') /\ edited v l i e v' /\ (mirrored v -> mirrored v').
Proof using.
  intros Hok Hl Hd Hi Hw He Hb. assert (Hir : 0 <= i < room (fatfs v) l) by (unfold entries in Hi; lia).
  destruct (dsector_primary v c l i Hl Hd Hir) as [Hp _]. pose proof (dsector_base v c l i Hl Hd Hir) as Hbase. pose proof (ptr_range i ltac:(lia)) as [Hp0 Hp1].
  destruct (poke_ok v v (dsector (fatfs v) l i) (i mod PER_SECTOR * SZ_DIR) e) as (H1 & H2 & H3 & H4 & H5); try done.
  - rewrite <- Hw. by destruct (fatfs v).
  - apply (w_sector _ Hok).
  - by right.
  - unfold SZ_DIR in *. lia.
  - split_and!; [done|done| |done]. split; [done|by apply same_alike| |done]. etrans; [exact H4|]. f_equal. unfold view. by rewrite decide_True.
Qed.

(** A quiet step, then the edit, then a flush. *)
Lemma edited_before v v1 v' c l i e :
  layout (fatfs v) -> directory v c l -> 0 <= i < room (fatfs v) l -> quiet v v1 -> edited v1 l i e v' -> edited v l i e v'.
Proof using.
  intros Hl Hd Hi Hq [E1 E2 E3 E4]. pose proof (quiet_alike _ _ Hq) as Ha. pose proof (dsector_ext _ _ l i Ha) as Eds. rewrite Eds in E3, E4.
  destruct (dsector_primary v c l i Hl Hd Hi) as [Hp _]. pose proof (st_view _ _ (q_stays _ _ Hq)) as Hv.
  split; [done|by etrans|by rewrite E3, Hv|]. intros s Hs Hne. rewrite E4; [by apply Hv|by apply (alike_primary _ _ _ Ha)|done].
Qed.

Lemma edited_around v v1 v2 v3 c l i e r :
  layout (fatfs v) -> directory v c l -> 0 <= i < room (fatfs v) l -> quiet v v1 -> edited v1 l i e v2 -> synced v2 r v3 -> edited v l i e v3.
Proof using.
  intros Hl Hd Hi Hq [E1 E2 E3 E4] [Y1 Y2 Y3 _ _ _ _]. pose proof (quiet_alike _ _ Hq) as Ha. pose proof (dsector_ext _ _ l i Ha) as Eds. rewrite Eds in E3, E4.
  destruct (dsector_primary v c l i Hl Hd Hi) as [Hp _]. assert (Hpr : forall s, primary (fatfs v) s -> primary (fatfs v2) s).
  { intros s Hs. apply (alike_primary _ _ _ E2), (alike_primary _ _ _ Ha). done. }
  pose proof (st_view _ _ (q_stays _ _ Hq)) as Hv. split; [done|by etrans; [|etrans]| |].
  - rewrite Y3, E3 by auto. by rewrite Hv.
  - intros s Hs Hne. rewrite Y3, E4; [by apply Hv|by apply (alike_primary _ _ _ Ha)|done|auto].
Qed.

(** ** Closing *)

Definition flushes : Prop := forall d : DK, (d_ioctl 0 CTRL_SYNC d).1.1 = RES_OK.

Lemma save_entry_ok {A} v c l i fp (k : F (DK := DK) A) (Q : A -> vol -> Prop) :
  win_ok v -> layout (fatfs v) -> directory v c l -> 0 <= i < entries (fatfs v) l -> winsect (fatfs v) = dsector (fatfs v) l i ->
  (forall v', win_ok v' /\ same (fatfs v) (fatfs v') /\ edited v l i (saved_entry (dentry v l i) (f_size fp) (f_sclust fp)) v' /\ (mirrored v -> mirrored v') -> fwp k Q v') ->
  let dir := Some (i mod PER_SECTOR * SZ_DIR) in
  fwp (a ← ent_byte dir DIR_Attr;
       ent_put dir DIR_Attr [Z.lor a AM_ARC];;
       ent_put dir DIR_FileSize (ST_DWORD (f_size fp));;
       ST_CLUST dir (f_sclust fp);;
       ent_put dir DIR_WrtTime (ST_DWORD get_fattime);;
       fs_mod (set_wflag true);;
       k) Q v.
Proof using.
  intros Hok Hl Hd Hi Hw HQ dir. assert (Hir : 0 <= i < room (fatfs v) l) by (unfold entries in Hi; lia).
  pose proof (ptr_range i ltac:(lia)) as [Hp Hle]. pose proof (w_sector _ Hok) as Hs. unfold dir. set (p := i mod PER_SECTOR * SZ_DIR) in *.
  assert (He : dentry v l i = entry_in (win (fatfs v)) p) by (unfold dentry, view; by rewrite decide_True).
  assert (Hz : zlen (dentry v l i) = 32) by (unfold zlen; by rewrite (dentry_length v c) by done).
  assert (Hb : Forall is_byte (dentry v l i)) by (rewrite He; apply Forall_take, Forall_drop, Hs).
  pose proof (saved_length (dentry v l i) (f_size fp) (f_sclust fp) Hz) as Hz'. pose proof (saved_bytes (dentry v l i) (f_size fp) (f_sclust fp) Hz Hb) as Hb'.
  pose proof (put_entry_start v p Hs Hp Hle) as Hst. rewrite <- He in Hst.
  match goal with |- fwp ?m _ _ => enough (Hrun : fwp m Q (put_entry v p (dentry v l i))) by (by rewrite Hst in Hrun) end.
  apply fwp_bind, fwp_entry_byte; [done|done|done|done|done|done|]. unfold ST_CLUST.
  apply fwp_bind, fwp_entry_put; [done|done|done|done|done|done|done|].
  apply fwp_bind, fwp_entry_put; [done|size_of|bytes_of|done|done|done|done|].
  apply fwp_bind, fwp_bind, fwp_entry_put; [done|size_of|bytes_of|done|done|done|done|].
  apply fwp_entry_put; [done|size_of|bytes_of|done|done|done|done|].
  apply fwp_bind, fwp_entry_put; [done|size_of|bytes_of|done|done|done|done|].
  apply fwp_bind, fwp_mod, HQ. by apply (mark_edited v c).
Qed.

Lemma info_apart_alike f f' : alike f f' -> info_apart f -> info_apart f'.
Proof using. intros Ha H. unfold info_apart. by rewrite Ha. Qed.

(** The object of a file that was written saves its entry. *)
Lemma f_close_ok (s : fsys) fp c l i :
  sound -> flushes -> drive_ready -> win_ok (volume s) -> layout (fatfs (volume s)) -> info_apart (fatfs (volume s)) -> usable (fatfs (volume s)) fp 0 ->
  flagged FA__WRITTEN fp = true -> directory (volume s) c l -> 0 <= i < entries (fatfs (volume s)) l ->
  f_dir_sect fp = dsector (fatfs (volume s)) l i -> f_dir_ptr fp = Some (i mod PER_SECTOR * SZ_DIR) ->
  gwp (f_close fp) (fun x s' => x.1 = FR_OK /\ edited (volume s) l i (saved_entry (dentry (volume s) l i) (f_size fp) (f_sclust fp)) (volume s')) s.
Proof using.
  intros S Hfl Hdr Hok Hl Hinfo (U1 & U2 & U3 & _) Hw Hd Hi Hsect Hptr. unfold f_close, f_sync. rewrite U1.
  assert (Hir : 0 <= i < room (fatfs (volume s)) l) by (unfold entries in Hi; lia).
  apply gwp_bind, gwp_bind. eapply gwp_mono; [|by apply validate_ready]. intros r s1 (-> & Hq1 & Hf1). rewrite bool_decide_eq_true_2, Hw by done. cbn [andb].
  destruct (dsector_primary _ _ _ _ Hl Hd Hir) as [Hp _]. pose proof (primary_pos _ _ (w_geo _ Hok) Hp) as Hne.
  apply gwp_vol, fwp_bind. rewrite Hsect. eapply fwp_mono; [|apply move_window_ok; [apply Hq1|right; by rewrite Hf1]].
  intros r v1 Hm. pose proof (mv_sound _ _ _ _ Hm S) as ->. rewrite decide_True by done. pose proof (quiet_trans _ _ _ Hq1 (quiet_moved _ _ _ _ Hm)) as Hq.
  pose proof (quiet_alike _ _ Hq) as Ha. pose proof (entries_ext _ _ l Ha) as Ee. rewrite Hptr.
  assert (Hd1 : directory v1 c l) by (eapply directory_stays; [apply Hl|apply Hq|done]). pose proof (alike_layout _ _ Ha Hl) as Hl1.
  assert (Ed : dentry v1 l i = dentry (volume s) l i) by (apply (dentry_stays _ _ c); [done|done|done|apply Hq]).
  apply (save_entry_ok v1 c l i fp); [apply Hq|done|done|by rewrite Ee| |].
  { rewrite (dsector_ext _ _ _ _ Ha). by apply (mv_there _ _ _ _ Hm). }
  intros v2 (Hok2 & Hsm2 & He & _). rewrite Ed in He. apply fwp_bind. eapply fwp_mono; [|apply sync_ok; [done|]].
  2: { eapply info_apart_alike; [|exact Hinfo]. etrans; [exact Ha|by apply same_alike]. }
  intros r v3 Hy. pose proof (sy_sound _ _ _ Hy S Hfl) as ->. apply fwp_ret. rewrite decide_True by done. apply gwp_ret. split; [done|].
  by eapply edited_around.
Qed.

(** ** What a change leaves *)

(** Links are the same when the sectors of the table are. *)
Lemma entry_views v v' x :
  table_ok (fatfs v) -> alike (fatfs v) (fatfs v') -> (forall s, primary (fatfs v) s -> s < fatbase (fatfs v) + fsize (fatfs v) -> view v' s = view v s) ->
  cluster (fatfs v) x -> entry v' x = entry v x.
Proof using.
  intros Ht Ha Hv Hx. unfold entry. replace (fs_type (fatfs v')) with (fs_type (fatfs v)) by (by rewrite Ha).
  pose proof (entry_in_table _ _ Ht Hx). apply entry_of_ext; [unfold cluster in Hx; lia|]. intros o Ho.
  unfold fat_byte. replace (fatbase (fatfs v')) with (fatbase (fatfs v)) by (by rewrite Ha).
  destruct (table_primary (fatfs v) o (t_geo _ Ht)) as [Hp Hlt]; [unfold in_table; lia|]. by rewrite Hv.
Qed.

Lemma chain_entries v v' c l : alike (fatfs v) (fatfs v') -> (forall x, x ∈ l -> entry v' x = entry v x) -> chain v c l -> chain v' c l.
Proof using.
  intros Ha He (Hne & Hl & d & Hp & Hd). split; [done|]. split; [eapply Forall_impl; [exact Hl|]; intros x; by rewrite (alike_cluster _ _ _ Ha)|].
  exists d. split; [by eapply path_ext|by rewrite Ha].
Qed.

Lemma directory_entries v v' c l : alike (fatfs v) (fatfs v') -> (forall x, x ∈ l -> entry v' x = entry v x) -> directory v c l -> directory v' c l.
Proof using.
  intros Ha He [(-> & -> & Ht & [H1 H2 H3 H4])|(h & Hch & Hc)].
  - left. split_and!; try done; [by rewrite Ha|]. split; by rewrite Ha.
  - right. exists h. split; [by eapply chain_entries|]. by rewrite Ha.
Qed.

Lemma edited_entries v c l i e v' x :
  layout (fatfs v) -> directory v c l -> 0 <= i < room (fatfs v) l -> edited v l i e v' -> cluster (fatfs v) x -> entry v' x = entry v x.
Proof using.
  intros Hl Hd Hi He Hx. apply entry_views; [apply Hl|apply He|  |done]. intros s Hs Hlt. apply (ed_else _ _ _ _ _ He); [done|].
  pose proof (dsector_base v c l i Hl Hd Hi). pose proof (t_geo _ (ly_table _ Hl)) as [? Hc ? ? ?]. nia.
Qed.

(** Entries of directories after an edit. *)
Lemma dentry_edited v c l i e v' c2 l2 k :
  win_ok v -> layout (fatfs v) -> directory v c l -> 0 <= i < room (fatfs v) l -> directory v c2 l2 -> 0 <= k < room (fatfs v) l2 -> zlen e = 32 -> edited v l i e v' ->
  dentry v' l2 k = dentry v l2 k \/ dentry v l2 k = dentry v l i /\ dentry v' l2 k = e.
Proof using.
  intros Hok Hl Hd Hi Hd2 Hk Hz He. pose proof (dsector_ext _ _ l2 k (ed_alike _ _ _ _ _ He)) as Eds. pose proof (ptr_range i ltac:(lia)) as [P1 P2]. pose proof (ptr_range k ltac:(lia)) as [K1 K2].
  rewrite !dentry_in, Eds. destruct (decide (dsector (fatfs v) l2 k = dsector (fatfs v) l i)) as [Es|Hne].
  2: { left. f_equal. apply (ed_else _ _ _ _ _ He); [|done]. by apply (dsector_primary v c2). }
  rewrite Es, (ed_here _ _ _ _ _ He). destruct (view_sector v (dsector (fatfs v) l i) Hok) as [Hlen _].
  assert (He32 : length e = 32%nat) by (unfold zlen in Hz; lia).
  destruct (decide (k mod PER_SECTOR = i mod PER_SECTOR)) as [->|Hm]; [right|left].
  - split; [done|]. by apply entry_cpy.
  - apply entry_cpy_other; try done. unfold SZ_DIR in *. lia.
Qed.

Lemma dentry_at v c l i e v' : win_ok v -> layout (fatfs v) -> directory v c l -> 0 <= i < room (fatfs v) l -> zlen e = 32 -> edited v l i e v' -> dentry v' l i = e.
Proof using.
  intros Hok Hl Hd Hi Hz He. pose proof (ptr_range i ltac:(lia)) as [P1 P2]. rewrite dentry_in, (dsector_ext _ _ _ _ (ed_alike _ _ _ _ _ He)), (ed_here _ _ _ _ _ He).
  destruct (view_sector v (dsector (fatfs v) l i) Hok) as [Hlen _]. apply entry_cpy; [done|unfold zlen in Hz; lia|done|done].
Qed.

(** The sectors of a directory belong to no other cluster. *)
Lemma dsector_apart v c l k x :
  layout (fatfs v) -> directory v c l -> 0 <= k < room (fatfs v) l -> cluster (fatfs v) x -> x ∉ l -> ~ in_cluster (fatfs v) x (dsector (fatfs v) l k).
Proof using.
  intros Hl Hd Hk Hx Hn Hin. destruct Hd as [(_ & -> & _ & [H1 H2 H3 H4])|(h & Hch & _)].
  - pose proof (first_sector_range _ _ Hl Hx) as [[_ Hf] _]. unfold in_cluster in Hin. cbn [dsector room] in *. rewrite per_sector in *.
    assert (k / 16 < n_rootdir (fatfs v) / 16); [|lia]. apply Z.div_lt_upper_bound; [lia|]. pose proof (Z.div_mod (n_rootdir (fatfs v)) 16 ltac:(lia)). lia.
  - pose proof Hch as (Hne & Hall & _). rewrite dsector_place in Hin by done. rewrite room_chain, per_sector in Hk by done.
    assert (Hins : inside (fatfs v) l (SZ_DIR * k)) by (unfold inside, bcs, SS, SZ_DIR; lia).
    destruct (inside_cluster (fatfs v) l _ Hl Hins) as (y & Hy & E). unfold in_cluster, place in Hin. rewrite E in Hin.
    pose proof (byte_place_range (fatfs v) (SZ_DIR * k) Hl) as R. apply Hn.
    destruct (first_sector_inj (fatfs v) y ((SZ_DIR * k / SS) mod csize (fatfs v)) x (first_sector (fatfs v) y + (SZ_DIR * k / SS) mod csize (fatfs v) - first_sector (fatfs v) x)) as [<- _];
      [done|lia|lia|]. by eapply list_elem_of_lookup_2.
Qed.

(** ** Paths that still lead where they led *)

(** The same for a search. *)
Record similar (e e' : list Z) : Prop := {
  si_first : byte_at e' 0 = byte_at e 0;
  si_name : take 11 e' = take 11 e;
  si_label : Z.land (ent_attr e') AM_VOL = Z.land (ent_attr e) AM_VOL;
  si_dir : Z.land (ent_attr e') AM_DIR = Z.land (ent_attr e) AM_DIR;
  si_cluster : Z.land (ent_attr e) AM_DIR <> 0 -> ent_cluster e' = ent_cluster e
}.

Lemma similar_refl e : similar e e.
Proof using. by split. Qed.

Lemma similar_named nm e e' : similar e e' -> named nm e' <-> named nm e.
Proof using. intros [_ H2 H3 _ _]. unfold named. fold (ent_attr e) (ent_attr e'). by rewrite H2, H3. Qed.

Lemma first_named_similar v v' c l nm i :
  alike (fatfs v) (fatfs v') -> directory v c l -> (forall k, 0 <= k < entries (fatfs v) l -> similar (dentry v l k) (dentry v' l k)) ->
  first_named v l nm i -> first_named v' l nm i.
Proof using.
  intros Ha Hd Hs (H1 & H2 & H3 & H4). unfold first_named. rewrite (entries_ext _ _ l Ha). split; [done|]. split.
  - intros k Hk. destruct (H2 k Hk) as [Hb Hn]. pose proof (Hs k ltac:(lia)) as Hk2. rewrite (si_first _ _ Hk2). split; [done|].
    by rewrite (similar_named _ _ _ Hk2).
  - pose proof (Hs i H1) as Hi. rewrite (si_first _ _ Hi). split; [done|]. by apply (similar_named _ _ _ Hi).
Qed.

(** What a change keeps of the directories with [P]: for a search they are the same. *)
Definition searches_alike (P P' : list Z -> Prop) v v' : Prop :=
  forall d m, P m -> directory v d m -> P' m /\ directory v' d m /\ forall k, 0 <= k < entries (fatfs v) m -> similar (dentry v m k) (dentry v' m k).

Lemma walk_similar (P P' : list Z -> Prop) v v' c path l nm :
  alike (fatfs v) (fatfs v') -> searches_alike P P' v v' -> walk P v c path l nm -> walk P' v' c path l nm.
Proof using.
  intros Ha Hs Hp. induction Hp as [c l path nm e rest HP Hd Hc He|c l path nm e rest i l' nm' HP Hd Hc He Hf Hattr _ IH]; destruct (Hs _ _ HP Hd) as (HP' & Hd' & Hsim).
  - by eapply walk_last.
  - pose proof (first_named_similar _ _ _ _ _ _ Ha Hd Hsim Hf) as Hf'. pose proof Hf as (Hi & _). pose proof (Hsim i Hi) as Hi'.
    eapply walk_down; [done|done|done|done|done|by rewrite (si_dir _ _ Hi')|]. by rewrite (si_cluster _ _ Hi').
Qed.

Lemma reaches_similar (P P' : list Z -> Prop) v v' path l nm :
  alike (fatfs v) (fatfs v') -> searches_alike P P' v v' -> reaches P v path l nm -> reaches P' v' path l nm.
Proof using.
  intros Ha Hs. unfold reaches. replace (cdir (fatfs v')) with (cdir (fatfs v)) by (by rewrite Ha). destruct path as [|c rest]; [done|].
  destruct (is_sep c); by apply walk_similar.
Qed.

Lemma leads_by_similar (P P' : list Z -> Prop) v v' path l i :
  alike (fatfs v) (fatfs v') -> searches_alike P P' v v' -> leads_by P v path l i -> leads_by P' v' path l i.
Proof using.
  intros Ha Hs (nm & Hr & Hf). destruct (reaches_whole _ _ _ _ _ Hr) as (HP & _ & d & Hd). destruct (Hs _ _ HP Hd) as (_ & _ & Hsim).
  exists nm. split; [by eapply reaches_similar|by eapply first_named_similar].
Qed.

Lemma leads_by_leads P v path l i : leads_by P v path l i -> leads v path l i.
Proof using.
  apply leads_by_similar; [done|]. intros d m _ Hd. split; [done|]. split; [done|]. intros k _. apply similar_refl.
Qed.

(** ** Writing and saving keep the paths *)

(** The directory shares no cluster with the file. *)
Definition apart (lf l : list Z) : Prop := forall x, x ∈ l -> x ∉ lf.

Lemma directory_used v c l x : directory v c l -> x ∈ l -> entry v x <> 0.
Proof using. intros [(_ & -> & _)|(h & (_ & _ & d & Hp & _) & _)] Hx; [by apply not_elem_of_nil in Hx|]. pose proof (path_links _ _ _ _ _ Hp Hx). lia. Qed.

Lemma grew_apart v lf v' lf' c l : grew v lf v' lf' -> directory v c l -> apart lf l -> apart lf' l.
Proof using.
  intros Hg Hd Hap x Hx. destruct (gr_new _ _ _ _ Hg) as (ext & -> & Hext). rewrite not_elem_of_app. split; [by apply Hap|]. intros Hin.
  destruct (proj1 (Forall_forall _ _) Hext x Hin) as [_ E]. by apply (directory_used v c l x).
Qed.

Lemma grew_directory v lf v' lf' c l :
  layout (fatfs v) -> Forall (cluster (fatfs v)) lf' -> grew v lf v' lf' -> directory v c l -> apart lf l ->
  directory v' c l /\ forall k, 0 <= k < room (fatfs v) l -> dentry v' l k = dentry v l k.
Proof using.
  intros Hl Hall Hg Hd Hap. pose proof (grew_apart _ _ _ _ _ _ Hg Hd Hap) as Hap'. split.
  - eapply directory_entries; [apply Hg| |done]. intros x Hx. apply (gr_entries _ _ _ _ Hg); [|by apply Hap'].
    apply (proj1 (Forall_forall _ _) (directory_all _ _ _ Hd) x Hx).
  - intros k Hk. rewrite !dentry_in, (dsector_ext _ _ _ _ (gr_alike _ _ _ _ Hg)). f_equal. destruct (dsector_primary v c l k Hl Hd Hk) as [Hp _].
    apply (gr_data _ _ _ _ Hg); [done| |].
    + pose proof (dsector_base v c l k Hl Hd Hk). pose proof (t_geo _ (ly_table _ Hl)) as [? Hc ? ? ?]. nia.
    + intros x Hx. apply (dsector_apart v c l k x); [done|done|done|by apply (proj1 (Forall_forall _ _) Hall)|]. intros Hin. by apply (Hap' x).
Qed.

(** Saving the entry of a file keeps all directories and paths. *)
Lemma first_byte (e : list Z) : byte_at e 0 = byte_at (take 11 e) 0.
Proof using. unfold byte_at. change (Z.to_nat 0) with 0%nat. by destruct e. Qed.

Lemma saved_similar e size cl :
  zlen e = 32 -> 0 <= size < 2 ^ 32 -> 0 <= cl < 2 ^ 32 -> Z.land (ent_attr e) AM_DIR = 0 -> similar e (saved_entry e size cl).
Proof using.
  intros He Hs Hc Ha. destruct (saved_says e size cl He Hs Hc) as (_ & _ & Hattr & Hn).
  split; [by rewrite first_byte, Hn, <- first_byte|done|by rewrite Hattr, Z.land_lor_distr_l, Z.lor_0_r|by rewrite Hattr, Z.land_lor_distr_l, Z.lor_0_r|done].
Qed.

Lemma edited_directory v c l i e v' d m :
  win_ok v -> layout (fatfs v) -> directory v c l -> 0 <= i < room (fatfs v) l -> zlen e = 32 -> similar (dentry v l i) e -> edited v l i e v' ->
  directory v d m -> directory v' d m /\ forall k, 0 <= k < entries (fatfs v) m -> similar (dentry v m k) (dentry v' m k).
Proof using.
  intros Hok Hl Hd Hi Hz Hs He Hm. split.
  - eapply directory_entries; [apply He| |done]. intros x Hx. apply (edited_entries v c l i e v'); [done|done|done|done|].
    by apply (proj1 (Forall_forall _ _) (directory_all _ _ _ Hm) x Hx).
  - intros k Hk. destruct (dentry_edited v c l i e v' d m k) as [->|[-> ->]]; try done. unfold entries in Hk. lia.
Qed.

(** The file in other clusters than the directory. *)
Lemma edited_file v c l i e v' h lf :
  layout (fatfs v) -> directory v c l -> 0 <= i < room (fatfs v) l -> edited v l i e v' -> clusters v h lf -> apart lf l ->
  clusters v' h lf /\ forall k, inside (fatfs v) lf k -> file_byte v' lf k = file_byte v lf k.
Proof using.
  intros Hl Hd Hi He Hc Hap. pose proof (clusters_all _ _ _ Hc) as Hall. split.
  - destruct Hc as [?|Hc]; [by left|right]. eapply chain_entries; [apply He| |done]. intros x Hx. apply (edited_entries v c l i e v'); [done|done|done|done|].
    by apply (proj1 (Forall_forall _ _) Hall).
  - intros k Hk. unfold file_byte. rewrite (alike_place _ _ lf k (ed_alike _ _ _ _ _ He)). destruct (place_primary _ _ _ Hl Hall Hk) as (_ & _ & _ & _ & Hp & _).
    rewrite (ed_else _ _ _ _ _ He); [done|done|]. intros E. destruct (inside_cluster _ _ _ Hl Hk) as (x & Hx & _).
    pose proof (list_elem_of_lookup_2 _ _ _ Hx) as Hin. apply (dsector_apart v c l i x Hl Hd Hi); [by apply (proj1 (Forall_forall _ _) Hall)| |].
    + intros Hin2. by apply (Hap x).
    + rewrite <- E. by apply place_in_cluster.
Qed.

End FatSync.
