(* ===== verification/FatStore.v ===== *)
(** * Storing files

    What is written to a file that is found by its path, and saved when the file is
    closed, is what the path leads to afterwards: opening, writing, closing, opening
    again and reading, with the variables of the module in between. *)

From S2P Require Import Prelude Diskio FatVol FatBytes FatWin FatTable FatChain FatMount FatName FatDir FatFile FatData FatRead FatWrite FatSeek FatScan FatOpen FatSync.

Section FatStore.

Context {DK : Type} {HD : Disk DK} {HS : Store DK}.

Implicit Types v : vol (DK := DK).

(** ** Calls that leave the registration and the current drive *)

Definition steady {A} (p : G (DK := DK) A) : Prop :=
  forall s, match p s with Some (_, s') => registered s' = registered s /\ CurrVol s' = CurrVol s | None => True end.

Lemma steady_ret {A} (a : A) : steady (mret a).
Proof using. done. Qed.

Lemma steady_bind {A B} (p : G (DK := DK) A) (k : A -> G (DK := DK) B) : steady p -> (forall a, steady (k a)) -> steady (p ≫= k).
Proof using.
  intros Hp Hk s. unfold mbind, G_bind. specialize (Hp s). destruct (p s) as [[a s1]|]; [|done]. specialize (Hk a s1).
  destruct (k a s1) as [[b s2]|]; [|done]. by destruct Hp as [<- <-].
Qed.

Lemma steady_vol {A} (p : F (DK := DK) A) : steady (on_vol p).
Proof using. intros s. unfold on_vol. by destruct (p (volume s)) as [[a v]|]. Qed.

Lemma steady_get : steady sys_get.
Proof using. done. Qed.

Lemma steady_mod (f : fsys (DK := DK) -> fsys) : (forall s, registered (f s) = registered s /\ CurrVol (f s) = CurrVol s) -> steady (sys_mod f).
Proof using. intros H s. apply H. Qed.

(** Through the calls of a program. *)
Ltac steady :=
  repeat first [apply steady_ret | apply steady_vol | apply steady_get | by apply steady_mod | apply steady_bind; [|intros ?]
    | match goal with |- steady (match ?x with _ => _ end) => destruct x end].

Lemma drive_number_steady path : steady (drive_number path).
Proof using. unfold drive_number. steady. Qed.

Lemma chk_mounted_steady path chk_wp : steady (chk_mounted path chk_wp).
Proof using. unfold chk_mounted, mount_drive. apply steady_bind; [apply drive_number_steady|intros ?]. steady. Qed.

Lemma validate_steady b id : steady (validate b id).
Proof using. unfold validate. steady. Qed.

Lemma f_open_steady sfn fp path mode : steady (f_open sfn fp path mode).
Proof using. unfold f_open. apply steady_bind; [apply chk_mounted_steady|intros ?]. steady. Qed.

Lemma f_write_steady fp w : steady (f_write fp w).
Proof using. unfold f_write, check_file. apply steady_bind; [apply steady_bind; [apply validate_steady|intros ?; steady]|intros ?]. steady. Qed.

Lemma f_close_steady fp : steady (f_close fp).
Proof using. unfold f_close, f_sync. apply steady_bind; [apply steady_bind; [apply validate_steady|intros ?; steady]|intros ?]. steady. Qed.

(** The volume stays mounted in such calls. *)
Lemma gwp_steady {A} (p : G (DK := DK) A) (Q : A -> fsys (DK := DK) -> Prop) s :
  steady p -> mounted_ready s -> gwp p (fun a s' => (fs_type (fatfs (volume s')) = fs_type (fatfs (volume s)) -> mounted_ready s') -> Q a s') s -> gwp p Q s.
Proof using.
  intros Hp Hm. unfold gwp. specialize (Hp s). destruct (p s) as [[a s']|]; [|done]. destruct Hp as [H1 H2]. intros HQ. apply HQ. intros H3. by apply (mounted_stays s).
Qed.

Lemma mounted_drive (s : fsys (DK := DK)) : mounted_ready s -> drive_ready.
Proof using. intros [_ _ _ H] d. by rewrite H. Qed.

(** ** Saving a file that grew *)

(** The file with the entry [i] of the directory [l] has the contents [w] at its
    beginning: the path leads to the entry, and the entry to the clusters [lf]. *)
Record stored v (path l : list Z) (i : Z) (lf : list Z) (size : Z) : Prop := {
  sd_path : leads_by (apart lf) v path l i;
  sd_attr : Z.land (ent_attr (dentry v l i)) AM_DIR = 0;
  sd_clusters : clusters v (ent_cluster (dentry v l i)) lf;
  sd_size : ent_size (dentry v l i) = size /\ size <= bcs (fatfs v) * zlen lf
}.

(** The entry is saved when the file is closed, and says where the file is. *)
Lemma saved_stored v v' c fp path l i lf :
  win_ok v -> layout (fatfs v) -> directory v c l -> 0 <= i < entries (fatfs v) l -> file_core v fp lf -> leads_by (apart lf) v path l i ->
  Z.land (ent_attr (dentry v l i)) AM_DIR = 0 -> edited v l i (saved_entry (dentry v l i) (f_size fp) (f_sclust fp)) v' ->
  stored v' path l i lf (f_size fp) /\ (forall k, inside (fatfs v) lf k -> file_byte v' lf k = file_byte v lf k) /\
  (forall x, cluster (fatfs v) x -> entry v' x = entry v x).
Proof using.
  intros Hok Hl Hd Hi [Hc [Hs1 Hs2] Hp] Hlead Ha He. assert (Hir : 0 <= i < room (fatfs v) l) by (unfold entries in Hi; lia).
  assert (Hz : zlen (dentry v l i) = 32) by (unfold zlen; by rewrite (dentry_length v c)).
  pose proof (ed_alike _ _ _ _ _ He) as Hal. assert (Hcl : 0 <= f_sclust fp < 2 ^ 32).
  { destruct Hc as [[-> _]|Hc]; [lia|]. pose proof (chain_first _ _ _ Hc) as Hh. pose proof (cluster_small _ _ Hl (chain_cluster _ _ _ _ _ Hc Hh)). lia. }
  destruct (saved_says (dentry v l i) (f_size fp) (f_sclust fp) Hz) as (E1 & E2 & E3 & _); [lia|done|].
  pose proof (saved_length (dentry v l i) (f_size fp) (f_sclust fp) Hz) as Hz2.
  assert (Hsim : similar (dentry v l i) (saved_entry (dentry v l i) (f_size fp) (f_sclust fp))) by (apply saved_similar; [done|lia|done|done]).
  destruct (leads_in _ _ _ _ _ Hlead) as (Hap & _). destruct (edited_file v c l i _ v' (f_sclust fp) lf Hl Hd Hir He Hc Hap) as [Hc' Hb].
  split; [|split; [done|intros x Hx; by apply (edited_entries v c l i _ v' x Hl Hd Hir He)]].
  pose proof (dentry_at v c l i _ v' Hok Hl Hd Hir Hz2 He) as Hat. split; rewrite ?Hat, ?E1, ?E2, ?E3; try done.
  - eapply leads_by_similar; [exact Hal| |exact Hlead]. intros d m Hm Hdm. split; [done|]. by eapply (edited_directory v c l i _ v' d m Hok Hl Hd Hir Hz2).
  - by rewrite Z.land_lor_distr_l, Ha.
  - split; [done|]. by replace (bcs (fatfs v')) with (bcs (fatfs v)) by (by rewrite Hal).
Qed.

(** While the file grows, the path still leads to its entry. *)
Lemma grew_leads v lf v' lf' path l i :
  layout (fatfs v) -> Forall (cluster (fatfs v)) lf' -> grew v lf v' lf' -> leads_by (apart lf) v path l i -> leads_by (apart lf') v' path l i.
Proof using.
  intros Hl Hall Hg. apply leads_by_similar; [apply Hg|]. intros d m Hm Hd. destruct (grew_directory v lf v' lf' d m Hl Hall Hg Hd Hm) as [Hd' He].
  split; [by eapply grew_apart|]. split; [done|]. intros k Hk. rewrite He by (unfold entries in Hk; lia). apply similar_refl.
Qed.

(** ** Opening, writing, closing and reading again *)

(** The state between the calls: the volume and what is asked of the disk. *)
Record in_order (s : fsys (DK := DK)) : Prop := {
  io_win : win_ok (volume s);
  io_layout : layout (fatfs (volume s));
  io_last : 0 <= last_clust (fatfs (volume s));
  io_info : info_apart (fatfs (volume s));
  io_mounted : mounted_ready s
}.

(** The bytes [w] were written to the file from its beginning. *)
Definition has_written v fp lf w fp' n v' lf' : Prop :=
  grew v lf v' lf' /\ file_at v' fp' lf' /\ usable (fatfs v') fp' 0 /\ flagged FA__WRITTEN fp' = true /\
  f_dir_sect fp' = f_dir_sect fp /\ f_dir_ptr fp' = f_dir_ptr fp /\ f_size fp' = Z.max (f_size fp) n /\ 0 <= n <= zlen w /\
  file_bytes v' lf' 0 n = take (Z.to_nat n) w /\ (n = zlen w \/ full v' \/ n = 0 /\ 2 ^ 32 <= f_size fp + zlen w).

Lemma written_bit x : Z.land (Z.lor x FA__WRITTEN) FA__WRITTEN <> 0.
Proof using. rewrite Z.land_lor_distr_l. intros H. apply (f_equal (fun z => Z.testbit z 5)) in H. rewrite Z.lor_spec, Z.testbit_0_l in H. apply orb_false_iff in H as [_ H]. done. Qed.

Lemma write_from_start (s : fsys) fp lf w :
  sound -> in_order s -> file_at (volume s) fp lf -> f_ptr fp = 0 -> usable (fatfs (volume s)) fp FA_WRITE -> Forall is_byte w -> zlen w < 2 ^ 32 ->
  gwp (f_write fp w) (fun x s' => mounted_ready s' /\ x.1.1 = FR_OK /\ (exists lf', has_written (volume s) fp lf w x.1.2 x.2 (volume s') lf') \/
    x.1.1 = FR_INT_ERR /\ damaged (volume s)) s.
Proof using.
  intros S [Hok Hl Hla _ Hmr] Hf Hp0 Hu Hb Hw. apply gwp_steady; [apply f_write_steady|done|]. eapply gwp_mono; [|by apply (f_write_ok s fp lf w)].
  intros [[r fp'] n] s' Hans Hst. cbn [fst snd]. destruct Hans as [(-> & _ & Hfw & Hn)|[(Hr & _)|[-> Hd]]]; [left| |by right].
  2: { exfalso. apply (proj2 Hr). split; [done|by apply (mounted_drive s)]. }
  pose proof Hfw as (Hp1 & Hs1 & Hfl & (_ & _ & Hds & Hdp) & lf' & Hg & Hf1 & Hby).
  split; [apply Hst; by rewrite (gr_alike _ _ _ _ Hg)|]. split; [done|]. exists lf'. rewrite Hp0 in *. pose proof (zlen_nonneg w). assert (Hn2 : 0 <= n <= zlen w) by lia.
  pose proof Hf as [[_ [Hz _] [Hz2 _]] _ _]. split_and!; try done; try lia.
  - by eapply usable_written; [..|left|].
  - unfold flagged. rewrite Hfl. apply negb_true_iff, Z.eqb_neq, written_bit.
  - apply file_bytes_all; [done|]. intros k Hk. rewrite Hby by lia. by rewrite decide_True by lia.
  - destruct Hn as [?|[(_ & ?)|?]]; auto.
Qed.

Lemma close_stores (s : fsys) fp path l i lf :
  sound -> flushes -> win_ok (volume s) -> layout (fatfs (volume s)) -> info_apart (fatfs (volume s)) -> mounted_ready s ->
  file_core (volume s) fp lf -> usable (fatfs (volume s)) fp 0 -> flagged FA__WRITTEN fp = true -> leads_by (apart lf) (volume s) path l i ->
  f_dir_sect fp = dsector (fatfs (volume s)) l i -> f_dir_ptr fp = Some (i mod PER_SECTOR * SZ_DIR) -> Z.land (ent_attr (dentry (volume s) l i)) AM_DIR = 0 ->
  gwp (f_close fp) (fun x s' => x.1 = FR_OK /\ win_ok (volume s') /\ alike (fatfs (volume s)) (fatfs (volume s')) /\ mounted_ready s' /\
    stored (volume s') path l i lf (f_size fp) /\ (forall k, inside (fatfs (volume s)) lf k -> file_byte (volume s') lf k = file_byte (volume s) lf k) /\
    (forall x, cluster (fatfs (volume s)) x -> entry (volume s') x = entry (volume s) x)) s.
Proof using.
  intros S Hfl Hok Hl Hinfo Hmr Hc Hu Hw Hlead Hds Hdp Ha. destruct (leads_in _ _ _ _ _ Hlead) as (_ & Hi & c & Hd).
  apply gwp_steady; [apply f_close_steady|done|]. eapply gwp_mono; [|apply (f_close_ok s fp c l i); try done; by apply (mounted_drive s)].
  intros x s' [Hr He] Hst. pose proof (ed_alike _ _ _ _ _ He) as Hal. destruct (saved_stored _ _ c fp path l i lf Hok Hl Hd Hi Hc Hlead Ha He) as (Hsd & Hb & Hen).
  split_and!; try done; [apply He|apply Hst; by rewrite Hal].
Qed.

(** As a caller does it, who stops at the first error: closing what was written,
    and reading it again. *)
Definition close_and_read (sfn : list Z) (fp : FIL) (path : list Z) (n : Z) : G (DK := DK) (FRESULT * Z * list Z) :=
  '(r, fp) ← f_close fp;
  if decide (r = FR_OK) then '(r, buff, br) ← open_and_read sfn fp path n; mret (r, n, buff)
  else mret (r, n, []).

Definition write_and_read (sfn : list Z) (fp : FIL) (path w : list Z) : G (DK := DK) (FRESULT * Z * list Z) :=
  '(r, fp, n) ← f_write fp w;
  if decide (r = FR_OK) then close_and_read sfn fp path n else mret (r, n, []).

Definition store_and_read (sfn : list Z) (fp : FIL) (path : list Z) (mode : Z) (w : list Z) : G (DK := DK) (FRESULT * Z * list Z) :=
  '(r, fp) ← f_open sfn fp path mode;
  if decide (r = FR_OK) then write_and_read sfn fp path w else mret (r, 0, []).

Lemma in_order_quiet (s s' : fsys (DK := DK)) : in_order s -> quiet (volume s) (volume s') -> mounted_ready s' -> in_order s'.
Proof using.
  intros [H1 H2 H3 H4 H5] Hq Hm. pose proof (quiet_alike _ _ Hq) as Ha. pose proof (st_same _ _ (q_stays _ _ Hq)) as Hs.
  split; [apply Hq|by eapply alike_layout|by rewrite Hs|by eapply info_apart_alike|done].
Qed.

Lemma stored_stays v v' path l i lf size : win_ok v -> layout (fatfs v) -> stays v v' -> stored v path l i lf size -> stored v' path l i lf size.
Proof using.
  intros Hok Hl Hst [H1 H2 H3 [H4 H5]]. destruct (leads_in _ _ _ _ _ H1) as (_ & Hi & d & Hd).
  assert (E : dentry v' l i = dentry v l i) by (apply (dentry_stays _ _ d); [done|done|unfold entries in Hi; lia|done]).
  split; rewrite ?E; [by eapply leads_by_stays|done| |].
  - destruct H3 as [?|H3]; [by left|right]. eapply chain_stays; [apply Hl|done|done].
  - split; [done|]. by replace (bcs (fatfs v')) with (bcs (fatfs v)) by (by rewrite (st_same _ _ Hst)).
Qed.

(** An object that was opened, for what it may be used. *)
Lemma opened_usable (s s1 : fsys (DK := DK)) l i mode e c access :
  mounted_ready s -> alike (fatfs (volume s)) (fatfs (volume s1)) -> Z.land (Z.land mode 31) FA__ERROR = 0 -> negb (Z.land (Z.land mode 31) access =? 0) = true ->
  usable (fatfs (volume s1)) (file_object (fatfs (volume s)) l i mode e c) access.
Proof using.
  intros Hr Hal He Ha. pose proof (mr_type _ Hr). unfold usable. replace (fs_type (fatfs (volume s1))) with (fs_type (fatfs (volume s))) by (by rewrite Hal).
  replace (fs_id (fatfs (volume s1))) with (fs_id (fatfs (volume s))) by (by rewrite Hal). unfold flagged. cbn [f_fs f_id f_flag file_object].
  split_and!; [done|done|done|by rewrite He|by right].
Qed.

Lemma stays_damaged v v' : layout (fatfs v) -> stays v v' -> damaged v' -> damaged v.
Proof using.
  intros Hl Hst (x & Hx & E). assert (Hx' : cluster (fatfs v) x) by (by apply (alike_cluster _ _ _ (same_alike _ _ (st_same _ _ Hst)))).
  exists x. split; [done|]. rewrite <- E. symmetry. by apply entry_stays; [apply Hl|..].
Qed.

Lemma close_and_read_ok sfn (s s1 : fsys) fp fp1 path w n l i lf lf1 :
  sound -> flushes -> in_order s -> mounted_ready s1 -> no_drive path -> length sfn = 12%nat -> leads_by (apart lf) (volume s) path l i ->
  Z.land (ent_attr (dentry (volume s) l i)) AM_DIR = 0 -> f_dir_sect fp = dsector (fatfs (volume s)) l i -> f_dir_ptr fp = Some (i mod PER_SECTOR * SZ_DIR) ->
  zlen w < 2 ^ 32 -> has_written (volume s) fp lf w fp1 n (volume s1) lf1 ->
  gwp (close_and_read sfn fp1 path n) (fun x s' => x = (FR_OK, n, take (Z.to_nat n) w) /\ (full (volume s1) -> full (volume s')) /\
    stored (volume s') path l i lf1 (f_size fp1)) s1.
Proof using.
  intros S Hfl [Hok Hl Hla Hinfo Hmr] Hmr1 Hnd Hsfn Hlead Ha Hds Hdp Hw (Hg & Hf1 & Hu & Hwr & Eds & Edp & Hs1 & Hn & Hb & _).
  pose proof (gr_alike _ _ _ _ Hg) as Hal. pose proof (alike_layout _ _ Hal Hl) as Hl1. pose proof Hf1 as [Hcore _ _].
  assert (Hall : Forall (cluster (fatfs (volume s))) lf1).
  { eapply Forall_impl; [apply (clusters_all _ _ _ (fc_clusters _ _ _ Hcore))|]. intros x. by apply (alike_cluster _ _ _ Hal). }
  destruct (leads_in _ _ _ _ _ Hlead) as (Hap & Hi & c & Hd). destruct (grew_directory _ _ _ _ _ _ Hl Hall Hg Hd Hap) as [_ He].
  assert (Ei : dentry (volume s1) l i = dentry (volume s) l i) by (apply He; unfold entries in Hi; lia).
  unfold close_and_read. apply gwp_bind. eapply gwp_mono; [|apply (close_stores s1 fp1 path l i lf1 S Hfl); try done].
  2: { apply Hg. } 2: { by eapply info_apart_alike. } 2: { by apply (grew_leads (volume s) lf). }
  2: { by rewrite Eds, Hds, (dsector_ext _ _ _ _ Hal). } 2: { by rewrite Edp. } 2: { by rewrite Ei. }
  intros [r fp2] s2 (Hr & Hok2 & Hal2 & Hmr2 & Hsd & Hby & Hen). cbn in Hr. subst r. rewrite decide_True by done. pose proof (alike_layout _ _ Hal2 Hl1) as Hl2.
  pose proof Hsd as [D1 D2 D3 [D4 D5]]. apply gwp_bind. eapply gwp_mono; [|apply (open_and_read_ok sfn s2 fp2 path n l i lf1 S); try done; [by eapply leads_by_leads|by rewrite D4|lia]].
  intros [[r buff] br] s3 ([= -> -> ->] & Hq). apply gwp_ret.
  rewrite Hs1 in *. rewrite D4 in *. replace (Z.min n _) with n by lia. split_and!.
  - do 2 f_equal. rewrite <- Hb. apply bytes_shift. intros k Hk. apply Hby. apply (inside_size _ fp1); [done|lia].
  - intros Hf x Hx. assert (Hx1 : cluster (fatfs (volume s1)) x).
    { apply (alike_cluster _ _ _ Hal2). by apply (alike_cluster _ _ _ (quiet_alike _ _ Hq)). }
    rewrite (entry_stays (volume s2)); [rewrite Hen by done; by apply Hf|apply Hl2|apply Hq|by apply (alike_cluster _ _ _ Hal2)].
  - eapply stored_stays; [..|apply Hq|done]; done.
Qed.

(** What was stored is there and was read, with the size [size] before; or the table
    of the volume [v] is damaged. *)
Definition store_answer v path l i w size (x : FRESULT * Z * list Z) v' : Prop :=
  let '(r, n, buff) := x in
  r = FR_OK /\ buff = take (Z.to_nat n) w /\ 0 <= n <= zlen w /\ (n = zlen w \/ full v' \/ n = 0 /\ 2 ^ 32 <= size + zlen w) /\
    (exists lf', stored v' path l i lf' (Z.max size n)) \/
  r = FR_INT_ERR /\ damaged v.

Lemma write_and_read_ok sfn (s : fsys) fp path w l i lf :
  sound -> flushes -> in_order s -> no_drive path -> length sfn = 12%nat -> file_at (volume s) fp lf -> f_ptr fp = 0 -> usable (fatfs (volume s)) fp FA_WRITE ->
  leads_by (apart lf) (volume s) path l i -> Z.land (ent_attr (dentry (volume s) l i)) AM_DIR = 0 ->
  f_dir_sect fp = dsector (fatfs (volume s)) l i -> f_dir_ptr fp = Some (i mod PER_SECTOR * SZ_DIR) -> Forall is_byte w -> zlen w < 2 ^ 32 ->
  gwp (write_and_read sfn fp path w) (fun x s' => store_answer (volume s) path l i w (f_size fp) x (volume s')) s.
Proof using.
  intros S Hfl Hio Hnd Hsfn Hf Hp0 Hu Hlead Ha Hds Hdp Hb Hw. unfold write_and_read, store_answer.
  apply gwp_bind. eapply gwp_mono; [|by apply (write_from_start s fp lf w S Hio Hf)].
  intros [[r fp2] n] s2 [(Hmr2 & Hr & lf1 & Hwr)|[Hr Hd2]]; cbn in Hr; subst r; cbn [fst snd] in *.
  2: { rewrite decide_False by done. apply gwp_ret. by right. }
  rewrite decide_True by done. eapply gwp_mono; [|by apply (close_and_read_ok sfn s s2 fp fp2 path w n l i lf lf1 S Hfl Hio)].
  pose proof Hwr as (_ & _ & _ & _ & _ & _ & Hs2 & Hn & _ & Hfull). intros x s3 (-> & Hf3 & Hsd). left. do 4 (split; [first [done|destruct Hfull as [?|[?|[? ?]]]; auto]|]).
  exists lf1. by rewrite Hs2 in Hsd.
Qed.

Lemma store_and_read_ok sfn (s : fsys) fp path w l i lf :
  sound -> flushes -> in_order s -> no_drive path -> length sfn = 12%nat -> leads_by (apart lf) (volume s) path l i ->
  let e := dentry (volume s) l i in
  may_open FA_WRITE e -> clusters (volume s) (ent_cluster e) lf -> ent_size e <= bcs (fatfs (volume s)) * zlen lf -> Forall is_byte w -> zlen w < 2 ^ 32 ->
  gwp (store_and_read sfn fp path FA_WRITE w) (fun x s' => store_answer (volume s) path l i w (ent_size e) x (volume s')) s.
Proof using.
  intros S Hfl Hio Hnd Hsfn Hlead e Hm Hc Hsz Hb Hw. pose proof Hio as [Hok Hl _ _ Hmr].
  unfold store_and_read. apply gwp_bind, gwp_steady; [apply f_open_steady|done|].
  eapply gwp_mono; [|apply (f_open_ok sfn s fp path FA_WRITE l i); try done; by eapply leads_by_leads]. intros [r fp1] s1 [Hq [[= -> ->]|[_ Hns]]] Hst1; [|done].
  rewrite decide_True by done. fold e. set (fp1 := file_object _ _ _ _ _ _). pose proof (quiet_alike _ _ Hq) as Hal.
  assert (Hio1 : in_order s1) by (apply (in_order_quiet s); [done|done|apply Hst1; by rewrite Hal]).
  assert (Hf1 : file_at (volume s1) fp1 lf) by (eapply file_stays; [done|apply Hq|by apply file_object_at]).
  destruct (leads_in _ _ _ _ _ Hlead) as (_ & Hi & d & Hd).
  assert (Ei : dentry (volume s1) l i = e) by (apply (dentry_stays _ _ d); [done|done|unfold entries in Hi; lia|apply Hq]).
  assert (Hlead1 : leads_by (apart lf) (volume s1) path l i) by (by eapply leads_by_stays; [|apply Hq|]).
  eapply gwp_mono; [|apply (write_and_read_ok sfn s1 fp1 path w l i lf S Hfl Hio1); try done; [by apply opened_usable|rewrite Ei; apply (proj1 (proj2 Hm))|cbn; by rewrite (dsector_ext _ _ _ _ Hal)]].
  intros [[r n] buff] s2 [Hx|[-> Hd2]]; [by left|right]. split; [done|]. by apply (stays_damaged _ (volume s1)); [done|apply Hq|].
Qed.

(** (C7) What is stored in a file persists: opening a file by a path, writing to it,
    closing it, opening it again by the path and reading as many bytes as were written
    ends, and reads the bytes given to be written; all of them were written unless no
    cluster is free any more or the size would not fit 32 bits.  The path leads to the
    same entry as before, which now has the size and the clusters of the file.  Without
    a fault of the disk, an error is answered only when the table has an entry that no
    table has.  The directories on the path share no cluster with the file. *)
Theorem stored_file_persists sfn (s : fsys) fp path w l i lf :
  sound -> flushes -> in_order s -> no_drive path -> length sfn = 12%nat -> leads_by (apart lf) (volume s) path l i ->
  let e := dentry (volume s) l i in
  may_open FA_WRITE e -> clusters (volume s) (ent_cluster e) lf -> ent_size e <= bcs (fatfs (volume s)) * zlen lf -> Forall is_byte w -> zlen w < 2 ^ 32 ->
  exists r n buff s', store_and_read sfn fp path FA_WRITE w s = Some ((r, n, buff), s') /\
    (r = FR_OK /\ buff = take (Z.to_nat n) w /\ 0 <= n <= zlen w /\ (n = zlen w \/ full (volume s') \/ n = 0 /\ 2 ^ 32 <= ent_size e + zlen w) /\
      (exists lf', stored (volume s') path l i lf' (Z.max (ent_size e) n)) \/
     r = FR_INT_ERR /\ damaged (volume s)).
Proof using.
  intros S Hfl Hio Hnd Hsfn Hlead e Hm Hc Hsz Hb Hw.
  destruct (gwp_run _ _ _ (store_and_read_ok sfn s fp path w l i lf S Hfl Hio Hnd Hsfn Hlead Hm Hc Hsz Hb Hw)) as ([[r n] buff] & s' & Hrun & H1).
  by exists r, n, buff, s'.
Qed.

End FatStore.
