(* ===== verification/FatUnlink.v ===== *)
(** * Removing files

    [f_unlink] marks the entry a path leads to as deleted and frees the clusters of
    its file; everything else of the volume stays. *)

From S2P Require Import Prelude Diskio FatVol FatBytes FatWin FatTable FatChain FatMount FatName FatDir FatFile FatPath FatData FatRead FatWrite FatScan FatOpen FatSync FatStore.

Section FatUnlink.

Context {DK : Type} {HD : Disk DK} {HS : Store DK}.

Implicit Types v : vol (DK := DK).

(** ** Going to an entry *)

(** Along the chain to the cluster of the entry [i]. *)
Lemma sdi_loop_ok fuel v h l k c ic i :
  win_ok v -> layout (fatfs v) -> chain v h l -> l !! k = Some c -> 0 < ic -> 0 <= i - ic * Z.of_nat k -> i < ic * zlen l -> i < 65536 ->
  i - ic * Z.of_nat k <= Z.of_nat fuel ->
  fwp (sdi_loop fuel ic c (i - ic * Z.of_nat k)) (fun r v' => quiet v v' /\
    ((exists c', r = inr (c', i mod ic) /\ l !! Z.to_nat (i / ic) = Some c') \/ r = inl FR_DISK_ERR /\ ~ sound)) v.
Proof using.
  revert v k c. induction fuel as [|n IH]; intros v k c Hok Hl Hch Hk Hic Hge Hlt H16 Hfuel.
  - assert (E : i - ic * Z.of_nat k = 0) by lia. rewrite E. cbn [sdi_loop]. rewrite (proj2 (Z.leb_gt _ _)) by lia. apply fwp_ret. split; [by apply quiet_refl|].
    left. exists c. assert (Eq : i / ic = Z.of_nat k) by (symmetry; apply (Z.div_unique _ _ _ 0); lia). rewrite Eq, Nat2Z.id. split; [|done]. do 2 f_equal.
    apply (Z.mod_unique _ _ (Z.of_nat k)); lia.
  - cbn [sdi_loop]. destruct (Z.leb_spec ic (i - ic * Z.of_nat k)) as [Hle|Hgt].
    2: { apply fwp_ret. split; [by apply quiet_refl|]. left. exists c.
      assert (Eq : i / ic = Z.of_nat k) by (symmetry; apply (Z.div_unique _ _ _ (i - ic * Z.of_nat k)); lia). rewrite Eq, Nat2Z.id. split; [|done]. do 2 f_equal.
      apply (Z.mod_unique _ _ (Z.of_nat k)); lia. }
    assert (Hk2 : (S k < length l)%nat) by (unfold zlen in Hlt; nia). destruct (lookup_lt_is_Some_2 l (S k) Hk2) as [y Hy].
    pose proof (chain_cluster _ _ _ _ _ Hch Hk) as Hcl. pose proof (chain_cluster _ _ _ _ _ Hch Hy) as Hcy. pose proof (cluster_small _ _ Hl Hcy) as H28.
    pose proof (chain_next _ _ _ _ _ _ Hch Hk Hy) as E. apply fwp_bind, fwp_get, fwp_bind.
    eapply fwp_mono; [|apply get_fat_ok; [done|apply Hl|done]]. intros x v1 Hg. pose proof (quiet_got _ _ _ _ Hg) as Hq.
    destruct (gt_answer _ _ _ _ Hg) as [[-> _]| ->].
    + rewrite E, (proj2 (Z.eqb_neq y _)) by (unfold DISK_ERROR; lia). rewrite (proj2 (Z.ltb_ge y 2)), (proj2 (Z.leb_gt _ y)) by (destruct Hcy; lia). cbn [orb].
      rewrite (wrap_small 16) by (unfold fits; lia). replace (i - ic * Z.of_nat k - ic) with (i - ic * Z.of_nat (S k)) by lia.
      pose proof (quiet_alike _ _ Hq) as Ha. eapply fwp_mono; [|apply (IH v1 (S k) y); try done; [apply Hq|by eapply alike_layout|eapply chain_stays; [apply Hl|apply Hq|done]|lia|lia]].
      intros r v2 (Hq2 & Hr). split; [by eapply quiet_trans|done].
    + cbn [Z.eqb DISK_ERROR Pos.eqb]. apply fwp_ret. split; [done|]. right. split; [done|]. intros S.
      pose proof (gt_sound _ _ _ _ Hg S) as E2. rewrite E in E2. unfold DISK_ERROR in E2. lia.
Qed.

(** The sector of an entry, from its cluster and its index there. *)
Lemma entry_cluster f l i c :
  layout f -> l <> [] -> 0 <= i -> l !! Z.to_nat (i / (PER_SECTOR * csize f)) = Some c ->
  dcluster f l i = c /\ dsector f l i = first_sector f c + i mod (PER_SECTOR * csize f) / PER_SECTOR /\
  (i mod (PER_SECTOR * csize f)) mod PER_SECTOR = i mod PER_SECTOR /\ 0 <= i mod (PER_SECTOR * csize f) / PER_SECTOR < csize f.
Proof using.
  intros Hl Hne Hi Hc. pose proof (csize_range f Hl) as Hcs. rewrite per_sector in *. rewrite <- Z.div_div in Hc by lia.
  assert (Ec : dcluster f l i = c) by (unfold dcluster; rewrite per_sector; by apply nth_lookup_Some).
  assert (Em : i mod (16 * csize f) = i mod 16 + 16 * ((i / 16) mod csize f)) by (apply Z.rem_mul_r; lia).
  pose proof (Z.mod_pos_bound i 16 ltac:(lia)). pose proof (Z.mod_pos_bound (i / 16) (csize f) ltac:(lia)).
  assert (Ed : i mod (16 * csize f) / 16 = (i / 16) mod csize f) by (symmetry; apply (Z.div_unique _ _ _ (i mod 16)); lia).
  split; [done|]. rewrite dsector_chain, Ec, Ed, per_sector by done. split; [done|]. split; [|done]. symmetry. apply (Z.mod_unique _ _ ((i / 16) mod csize f)); lia.
Qed.

Lemma dir_sdi_ok v l i dj :
  win_ok v -> layout (fatfs v) -> directory v (d_sclust dj) l -> 0 <= i < entries (fatfs v) l ->
  fwp (dir_sdi dj i) (fun x v' => quiet v v' /\ same_dir dj x.2 /\ (x.1 = FR_OK /\ dir_at (fatfs v) l i x.2 \/ x.1 = FR_DISK_ERR /\ ~ sound)) v.
Proof using.
  intros Hok Hl Hd [H0 Hi]. unfold entries in Hi. pose proof (csize_range _ Hl) as Hcs. pose proof (t_some _ (ly_table _ Hl)) as Hn.
  unfold dir_sdi. apply fwp_bind, fwp_get. cbn [d_sclust set_index]. cbn zeta.
  destruct Hd as [(-> & -> & Ht & Har)|(h & Hch & Hh)].
  - rewrite (proj2 (Z.leb_gt _ _)) by lia. rewrite (proj2 (Z.eqb_neq (fs_type _) _)) by done. cbn [Z.eqb orb andb]. cbn [room] in Hi.
    pose proof (area_small _ Hl Har) as H32. rewrite (proj2 (Z.leb_gt (n_rootdir (fatfs v)) i)) by lia. apply fwp_ret.
    split; [by apply quiet_refl|]. split; [done|left]. split; [done|]. pose proof (t_geo _ (ly_table _ Hl)) as [].
    split; cbn; [done| |done|by unfold dcluster; cbn; case_match]. apply wrap_small. unfold fits. rewrite per_sector in *.
    pose proof (Z.div_pos i 16 ltac:(lia) ltac:(lia)). assert (i / 16 < n_rootdir (fatfs v) / 16); [|destruct Har; nia].
    destruct Har as [_ Hm _ _]; rewrite per_sector in Hm. pose proof (Z.div_mod (n_rootdir (fatfs v)) 16 ltac:(lia)). apply Z.div_lt_upper_bound; lia.
  - destruct (start_cluster v h l _ Hl Hch Hh) as (-> & -> & Hr28). rewrite (proj2 (Z.eqb_neq h 0)) by lia.
    pose proof Hch as (Hne & Hall & _). rewrite room_chain in Hi by done. rewrite (wrap_small 16) by (unfold fits; rewrite per_sector; lia).
    apply fwp_bind. pose proof per_sector as Eps. assert (Hic : 0 < PER_SECTOR * csize (fatfs v)) by lia.
    pose proof (sdi_loop_ok (S (Z.to_nat i)) v h l 0 h (PER_SECTOR * csize (fatfs v)) i Hok Hl Hch (chain_first _ _ _ Hch) Hic) as Hrun. rewrite Z.mul_0_r, Z.sub_0_r in Hrun.
    eapply fwp_mono; [|apply Hrun; lia]. intros r v1 [Hq [(c & -> & Hc)|[-> Hns]]].
    2: { apply fwp_ret. split; [done|]. split; [done|]. by right. }
    apply fwp_bind, fwp_get, fwp_ret. pose proof (quiet_alike _ _ Hq) as Ha. split; [done|]. split; [done|]. left. split; [done|].
    destruct (entry_cluster _ _ _ _ Hl Hne H0 Hc) as (E1 & E2 & E3 & E4). pose proof (chain_cluster _ _ _ _ _ Hch Hc) as Hcl.
    replace (clust2sect (fatfs v1) c) with (clust2sect (fatfs v) c) by (by rewrite Ha). destruct (clust2sect_cluster (fatfs v) c Hl Hcl) as [-> _].
    pose proof (first_sector_range _ _ Hl Hcl). split; cbn; [done| |by unfold entry_ptr; rewrite E3|done]. rewrite E2. apply wrap_small. unfold fits. lia.
Qed.

(** ** Marking an entry *)

Definition deleted (e : list Z) : list Z := mem_cpy e 0 [DDE].

Lemma deleted_length v c l i : win_ok v -> layout (fatfs v) -> directory v c l -> 0 <= i < room (fatfs v) l -> length (deleted (dentry v l i)) = 32%nat.
Proof using.
  intros Hok Hl Hd Hi. pose proof (dentry_length v c l i Hok Hl Hd Hi) as He. unfold deleted. rewrite cpy_length; [done|lia|]. change (length [DDE]) with 1%nat. lia.
Qed.

Lemma deleted_window v l i dj :
  showing v l i dj -> length (dentry v l i) = 32%nat ->
  mkVol (set_win (mem_cpy (win (fatfs v)) (i mod PER_SECTOR * SZ_DIR) [DDE]) (fatfs v)) (dev v) = put_entry v (i mod PER_SECTOR * SZ_DIR) (deleted (dentry v l i)).
Proof using.
  intros Hsh He. pose proof (ptr_range i (sh_range _ _ _ _ Hsh)) as [Hp Hle]. pose proof (w_sector _ (sh_ok _ _ _ _ Hsh)) as Hs.
  assert (E : dentry v l i = entry_in (win (fatfs v)) (i mod PER_SECTOR * SZ_DIR)) by (by rewrite (dentry_window v l i dj)).
  rewrite E in *. set (p := i mod PER_SECTOR * SZ_DIR) in *. destruct Hs as [Hlen _]. unfold put_entry, deleted. do 2 f_equal.
  unfold SZ_DIR in Hle. rewrite <- (cpy_part (win (fatfs v)) p (entry_in (win (fatfs v)) p) 0 [DDE]) by (try done; lia || by cbn). by rewrite cpy_entry, Z.add_0_r.
Qed.

Lemma dir_remove_ok v l i dj :
  sound -> win_ok v -> layout (fatfs v) -> directory v (d_sclust dj) l -> 0 <= i < entries (fatfs v) l -> d_index dj = i ->
  fwp (dir_remove dj) (fun x v' => x.1 = FR_OK /\ edited v l i (deleted (dentry v l i)) v') v.
Proof using.
  intros S Hok Hl Hd Hi <-. set (i := d_index dj) in *. assert (Hir : 0 <= i < room (fatfs v) l) by (unfold entries in Hi; lia).
  unfold dir_remove. apply fwp_bind. eapply fwp_mono; [|by apply (dir_sdi_ok v l i)]. intros [r dj1] v1 (Hq & Hs & [[Hr Hat]|[_ Hns]]); [|done].
  cbn [fst snd] in *. subst r. rewrite decide_True by done. pose proof (quiet_alike _ _ Hq) as Ha. pose proof (alike_layout _ _ Ha Hl) as Hl1.
  assert (Hd1 : directory v1 (d_sclust dj) l) by (eapply directory_stays; [apply Hl|apply Hq|done]).
  assert (Hi1 : 0 <= i < entries (fatfs v1) l) by (by rewrite (entries_ext _ _ l Ha)).
  apply fwp_bind. eapply fwp_mono; [|apply (show_entry v1 (d_sclust dj) l i dj1); [apply Hq|done|done|done|by eapply dir_at_alike]].
  intros r v2 [Hq2 [[-> Hsh]|[_ Hns]]]; [|done]. rewrite decide_True by done. pose proof (quiet_trans _ _ _ Hq Hq2) as Hq3. pose proof (quiet_alike _ _ Hq3) as Ha3.
  pose proof (alike_layout _ _ Ha3 Hl) as Hl2. assert (Hd2 : directory v2 (d_sclust dj) l) by (eapply directory_stays; [apply Hl|apply Hq3|done]).
  assert (Hi2 : 0 <= i < entries (fatfs v2) l) by (by rewrite (entries_ext _ _ l Ha3)).
  assert (E : dentry v2 l i = dentry v l i) by (by apply (dentry_stays _ _ (d_sclust dj)); [| | |apply Hq3]).
  assert (Hlen : length (dentry v2 l i) = 32%nat) by (by rewrite E, (dentry_length v (d_sclust dj))).
  rewrite (da_ptr _ _ _ _ (sh_at _ _ _ _ Hsh)). pose proof (ptr_range i ltac:(lia)) as [Hp Hle]. unfold SZ_DIR in Hle.
  apply fwp_bind, fwp_put; [apply Hsh|lia|change (zlen [DDE]) with 1; unfold SZ_DIR in *; lia|]. rewrite Z.add_0_r. apply fwp_bind, fwp_mod, fwp_ret. split; [done|].
  rewrite (deleted_window v2 l i dj1 Hsh Hlen). rewrite <- E. apply (edited_before v v2 _ (d_sclust dj)); [done|done|done|done|].
  apply (mark_edited v2 (d_sclust dj) l i (deleted (dentry v2 l i))); [apply Hsh|done|done|done|apply Hsh| |].
  - unfold zlen, deleted. rewrite cpy_length by (cbn; lia). by rewrite Hlen.
  - apply cpy_bytes; [|by repeat constructor]. rewrite (dentry_window v2 l i dj1 Hsh). apply Forall_take, Forall_drop, (w_sector _ (sh_ok _ _ _ _ Hsh)).
Qed.

(** ** Removing a file *)

(** The entry [i] of the directory [l] is deleted and the clusters [lf] are free. *)
Record unlinked v (l : list Z) (i : Z) (lf : list Z) v' : Prop := {
  un_ok : win_ok v';
  un_alike : alike (fatfs v) (fatfs v');
  un_links : forall x, cluster (fatfs v) x -> entry v' x = if decide (x ∈ lf) then 0 else entry v x;
  un_here : view v' (dsector (fatfs v) l i) = mem_cpy (view v (dsector (fatfs v) l i)) (i mod PER_SECTOR * SZ_DIR) (deleted (dentry v l i));
  un_else : forall s, primary (fatfs v) s -> fatbase (fatfs v) + fsize (fatfs v) <= s -> s <> dsector (fatfs v) l i -> view v' s = view v s
}.

Lemma unlinked_before v v1 v' c l i lf :
  layout (fatfs v) -> directory v c l -> 0 <= i < room (fatfs v) l -> quiet v v1 -> unlinked v1 l i lf v' -> unlinked v l i lf v'.
Proof using.
  intros Hl Hd Hi Hq [H1 H2 H3 H4 H5]. pose proof (quiet_alike _ _ Hq) as Ha. pose proof (dsector_ext _ _ l i Ha) as Eds. rewrite Eds in H4, H5.
  destruct (dsector_primary v c l i Hl Hd Hi) as [Hp _]. pose proof (st_view _ _ (q_stays _ _ Hq)) as Hv.
  rewrite (dentry_stays v v1 c l i Hl Hd Hi (q_stays _ _ Hq)) in H4. split; [done|by etrans| |by rewrite H4, Hv|].
  - intros x Hx. rewrite H3 by (by apply (alike_cluster _ _ _ Ha)). by rewrite (entry_stays v v1 x (ly_table _ Hl) (q_stays _ _ Hq) Hx).
  - intros s Hs Hge Hne. rewrite H5; [by apply Hv|by apply (alike_primary _ _ _ Ha)|by rewrite Ha|done].
Qed.

(** Links after a synchronisation. *)
Lemma synced_links v r v' x : table_ok (fatfs v) -> synced v r v' -> cluster (fatfs v) x -> entry v' x = entry v x.
Proof using. intros Ht [_ Ha Hv _ _ _ _] Hx. apply entry_views; [done|done| |done]. intros s Hs _. by apply Hv. Qed.

Lemma freed_unlinked v v2 v3 v4 c l i lf r4 :
  layout (fatfs v) -> directory v c l -> 0 <= i < room (fatfs v) l -> edited v l i (deleted (dentry v l i)) v2 -> kept v2 v3 ->
  (forall x, cluster (fatfs v2) x -> entry v3 x = if decide (x ∈ lf) then 0 else entry v2 x) -> synced v3 r4 v4 -> unlinked v l i lf v4.
Proof using.
  intros Hl Hd Hi He Hk Hen Hy. pose proof (ed_alike _ _ _ _ _ He) as A2. pose proof (k_alike _ _ Hk) as A3. pose proof (sy_alike _ _ _ Hy) as A4.
  pose proof (alike_layout _ _ A2 Hl) as Hl2. pose proof (alike_layout _ _ A3 Hl2) as Hl3. destruct (dsector_primary v c l i Hl Hd Hi) as [Hp _].
  pose proof (dsector_base v c l i Hl Hd Hi) as Hbase. pose proof (t_geo _ (ly_table _ Hl)) as [? Hc ? ? ?].
  assert (Hge : fatbase (fatfs v) + fsize (fatfs v) <= dsector (fatfs v) l i) by nia.
  assert (Hv : forall s, primary (fatfs v) s -> fatbase (fatfs v) + fsize (fatfs v) <= s -> view v4 s = view v2 s).
  { intros s Hs Hg. rewrite (sy_view _ _ _ Hy) by (apply (alike_primary _ _ _ A3), (alike_primary _ _ _ A2); done).
    apply (k_data _ _ Hk); [by apply (alike_primary _ _ _ A2)|by rewrite A2]. }
  split; [apply Hy|by etrans; [|etrans]| |by rewrite Hv, (ed_here _ _ _ _ _ He)|].
  - intros x Hx. assert (Hx2 : cluster (fatfs v2) x) by (by apply (alike_cluster _ _ _ A2)). assert (Hx3 : cluster (fatfs v3) x) by (by apply (alike_cluster _ _ _ A3)).
    rewrite (synced_links _ _ _ _ (ly_table _ Hl3) Hy Hx3), Hen by done. by rewrite (edited_entries v c l i _ v2 x Hl Hd Hi He).
  - intros s Hs Hg Hne. rewrite Hv by done. by apply (ed_else _ _ _ _ _ He).
Qed.

(** Freeing the clusters of the file, if it has any. *)
Lemma free_file_ok v c lf :
  sound -> win_ok v -> layout (fatfs v) -> clusters v c lf ->
  fwp (if negb (c =? 0) then remove_chain c else mret FR_OK) (fun r v' => r = FR_OK /\ kept v v' /\
    forall x, cluster (fatfs v) x -> entry v' x = if decide (x ∈ lf) then 0 else entry v x) v.
Proof using.
  intros S Hok Hl [[-> ->]|Hch].
  - apply fwp_ret. split; [done|]. split; [by apply kept_refl|]. intros x _. rewrite decide_False; [done|]. apply not_elem_of_nil.
  - pose proof (chain_cluster _ _ _ _ _ Hch (chain_first _ _ _ Hch)) as Hcl. rewrite (proj2 (Z.eqb_neq c 0)) by (destruct Hcl; lia). cbn [negb].
    eapply fwp_mono; [|by apply remove_chain_ok; [|apply Hl|]]. intros r v' (l' & d & Hr). destruct (removed_chain _ _ _ _ _ _ _ S Hch Hr) as [-> ->].
    split; [done|]. split; [apply Hr|]. intros x Hx. case_decide as Hin; [by apply (rm_freed _ _ _ _ _ _ Hr)|].
    by destruct (rm_others _ _ _ _ _ _ Hr x Hx Hin) as [|(? & _)].
Qed.

(** The entry is that of a file that may be removed. *)
Definition removable (e : list Z) : Prop := Z.land (ent_attr e) AM_RDO = 0 /\ Z.land (ent_attr e) AM_DIR = 0.

Lemma follow_entry_ok v path l i dj :
  sound -> win_ok v -> layout (fatfs v) -> leads v path l i -> length (d_fn dj) = 12%nat ->
  fwp (follow_entry dj path) (fun x v' => x.1 = FR_OK /\ quiet v v' /\ showing v' l i x.2 /\ directory v' (d_sclust x.2) l /\ length (d_fn x.2) = 12%nat) v.
Proof using.
  intros S Hok Hl Hp Hfn. unfold follow_entry. apply fwp_bind. eapply fwp_mono; [|by apply (follow_leads anywhere v path l i dj)].
  intros [r dj1] v1 (Hq & [(Hr & Hsh & Hd & Hst & Hn)|[_ Hns]]); [|done]. apply fwp_ret. cbn [fst snd] in *. subst r. change NS_DOT with (2 ^ 5).
  rewrite bit_test, Hst by lia. by rewrite andb_false_r.
Qed.

Lemma remove_entry_ok v l i dj lf :
  sound -> flushes -> showing v l i dj -> layout (fatfs v) -> info_apart (fatfs v) -> directory v (d_sclust dj) l -> 0 <= i < entries (fatfs v) l ->
  clusters v (ent_cluster (dentry v l i)) lf ->
  fwp ('(res, dj) ← dir_remove dj;
       if decide (res = FR_OK) then
         res ← (if negb (ent_cluster (dentry v l i) =? 0) then remove_chain (ent_cluster (dentry v l i)) else mret FR_OK);
         if decide (res = FR_OK) then sync else mret res
       else mret res) (fun r v' => r = FR_OK /\ unlinked v l i lf v') v.
Proof using.
  intros S Hfl Hsh Hl Hinfo Hd Hi Hc. assert (Hir : 0 <= i < room (fatfs v) l) by (unfold entries in Hi; lia). set (c := ent_cluster _) in *.
  apply fwp_bind. eapply fwp_mono; [|by apply (dir_remove_ok v l i dj S (sh_ok _ _ _ _ Hsh) Hl Hd Hi (da_index _ _ _ _ (sh_at _ _ _ _ Hsh)))].
  intros [r dj2] v2 [Hr He]. cbn in Hr. subst r. rewrite decide_True by done. pose proof (ed_alike _ _ _ _ _ He) as A2. pose proof (alike_layout _ _ A2 Hl) as Hl2.
  assert (Hc2 : clusters v2 c lf).
  { destruct Hc as [?|Hc]; [by left|right]. eapply chain_entries; [exact A2| |exact Hc]. intros x Hx. apply (edited_entries v (d_sclust dj) l i _ v2 x Hl Hd Hir He).
    by apply (proj1 (Forall_forall _ _) (proj1 (proj2 Hc)) x). }
  apply fwp_bind. eapply fwp_mono; [|apply (free_file_ok v2 c lf S (ed_ok _ _ _ _ _ He) Hl2 Hc2)]. intros r v3 (-> & Hk & Hen). rewrite decide_True by done.
  eapply fwp_mono; [|apply sync_ok; [apply Hk|]]. 2: { eapply info_apart_alike; [|exact Hinfo]. etrans; [exact A2|apply Hk]. }
  intros r v4 Hy. split; [by apply (sy_sound _ _ _ Hy S)|]. by eapply freed_unlinked.
Qed.

Lemma f_unlink_ok sfn (s : fsys) path l i lf :
  sound -> flushes -> win_ok (volume s) -> layout (fatfs (volume s)) -> info_apart (fatfs (volume s)) -> mounted_ready s -> no_drive path -> length sfn = 12%nat ->
  leads (volume s) path l i -> let e := dentry (volume s) l i in removable e -> clusters (volume s) (ent_cluster e) lf ->
  gwp (f_unlink sfn path) (fun r s' => r = FR_OK /\ unlinked (volume s) l i lf (volume s')) s.
Proof using.
  intros S Hfl Hok Hl Hinfo Hmr Hnd Hsfn Hp e [He1 He2] Hc. destruct (leads_in _ _ _ _ _ Hp) as (_ & Hi & d & Hd). assert (Hir : 0 <= i < room (fatfs (volume s)) l) by (unfold entries in Hi; lia).
  unfold f_unlink, with_path. apply gwp_bind. eapply gwp_mono; [|by apply chk_mounted_ready]. intros [r0 path0] s1 ([= -> ->] & Hq & _ & _). rewrite decide_True by done.
  pose proof (quiet_alike _ _ Hq) as Ha. pose proof (alike_layout _ _ Ha Hl) as Hl1.
  apply gwp_vol, fwp_bind. eapply fwp_mono; [|apply (follow_entry_ok (volume s1) path l i (new_dir sfn) S); [apply Hq|done|by eapply leads_by_stays; [..|apply Hq|]|done]].
  intros [r dj] v2 (Hr & Hq2 & Hsh & Hdj & _). cbn [fst snd] in *. subst r. rewrite decide_True by done. pose proof (quiet_trans _ _ _ Hq Hq2) as Hq3.
  pose proof (quiet_alike _ _ Hq3) as A3. pose proof (alike_layout _ _ A3 Hl) as Hl2.
  assert (E : dentry v2 l i = e) by (by apply (dentry_stays _ _ d); [| | |apply Hq3]). rewrite (da_ptr _ _ _ _ (sh_at _ _ _ _ Hsh)).
  apply fwp_bind, fwp_bind. rewrite <- (da_ptr _ _ _ _ (sh_at _ _ _ _ Hsh)). eapply fwp_ent_byte; [done|done|]. rewrite E. fold (ent_attr e). rewrite He1. apply fwp_ret.
  apply fwp_bind. eapply fwp_clust; [done|]. rewrite E. cbn [Z.eqb negb]. rewrite decide_True by done.
  apply fwp_bind, fwp_bind. eapply fwp_ent_byte; [done|done|]. rewrite E. fold (ent_attr e). rewrite He2. cbn [Z.eqb negb]. apply fwp_ret. rewrite decide_True by done.
  assert (Hc2 : clusters v2 (ent_cluster (dentry v2 l i)) lf).
  { rewrite E. destruct Hc as [?|Hc]; [by left|right]. eapply chain_stays; [apply Hl|apply Hq3|done]. }
  eapply fwp_mono; [|rewrite <- E; apply (remove_entry_ok v2 l i dj lf S Hfl Hsh Hl2); [by eapply info_apart_alike|done|by rewrite (entries_ext _ _ l A3)|done]].
  intros r v3 [-> Hun]. split; [done|]. cbn [volume with_volume]. by eapply unlinked_before.
Qed.

(** ** The path of a file that was removed *)

Lemma deleted_first e : zlen e = 32 -> byte_at (deleted e) 0 = DDE.
Proof using. intros He. unfold deleted. rewrite byte_at_cpy by (change (zlen [DDE]) with 1; lia). by rewrite decide_True by (change (zlen [DDE]) with 1; lia). Qed.

Lemma deleted_not_named e nm : zlen e = 32 -> length nm = 11%nat -> byte_at nm 0 <> DDE -> ~ named nm (deleted e).
Proof using.
  intros He Hn Hm [_ E]. apply Hm. rewrite (first_byte nm), <- E, <- first_byte. by apply deleted_first.
Qed.

(** Entries of a directory after the removal. *)
Lemma dentry_unlinked v c l i lf v' d m k :
  win_ok v -> layout (fatfs v) -> directory v c l -> 0 <= i < room (fatfs v) l -> unlinked v l i lf v' -> directory v d m -> 0 <= k < room (fatfs v) m ->
  dentry v' m k = dentry v m k \/
  dsector (fatfs v) m k = dsector (fatfs v) l i /\ dentry v m k = dentry v l i /\ dentry v' m k = deleted (dentry v l i).
Proof using.
  intros Hok Hl Hd Hi [U1 U2 U3 U4 U5] Hm Hk. pose proof (ptr_range i ltac:(lia)) as [P1 P2]. pose proof (ptr_range k ltac:(lia)) as [K1 K2].
  rewrite !dentry_in, (dsector_ext _ _ _ _ U2). destruct (decide (dsector (fatfs v) m k = dsector (fatfs v) l i)) as [Es|Hne].
  2: { left. f_equal. destruct (dsector_primary v d m k Hl Hm Hk) as [Hp _]. pose proof (dsector_base v d m k Hl Hm Hk).
    pose proof (t_geo _ (ly_table _ Hl)) as [? Hc ? ? ?]. apply U5; [done|nia|done]. }
  rewrite Es, U4. destruct (view_sector v (dsector (fatfs v) l i) Hok) as [Hlen _].
  assert (He : length (deleted (dentry v l i)) = 32%nat) by (apply (deleted_length v c); done).
  destruct (decide (k mod PER_SECTOR = i mod PER_SECTOR)) as [->|Hmod]; [right|left].
  - split; [done|]. split; [done|]. by apply entry_cpy.
  - apply entry_cpy_other; try done. unfold SZ_DIR in *. lia.
Qed.

Lemma dentry_here v c l i lf v' :
  win_ok v -> layout (fatfs v) -> directory v c l -> 0 <= i < room (fatfs v) l -> unlinked v l i lf v' -> dentry v' l i = deleted (dentry v l i).
Proof using.
  intros Hok Hl Hd Hi [U1 U2 U3 U4 U5]. pose proof (ptr_range i ltac:(lia)) as [P1 P2]. rewrite dentry_in, (dsector_ext _ _ _ _ U2), U4.
  destruct (view_sector v (dsector (fatfs v) l i) Hok) as [Hlen _]. apply entry_cpy; [done|by apply (deleted_length v c)|done|done].
Qed.

(** Directories that share no cluster with the file are still there. *)
Lemma unlinked_directory v l i lf v' d m : unlinked v l i lf v' -> directory v d m -> apart lf m -> directory v' d m.
Proof using.
  intros [U1 U2 U3 U4 U5] Hm Hap. eapply directory_entries; [exact U2| |exact Hm]. intros x Hx.
  rewrite U3 by (by apply (proj1 (Forall_forall _ _) (directory_all _ _ _ Hm) x)). rewrite decide_False; [done|]. by apply Hap.
Qed.

(** Names that are not the removed one are found as before. *)
Lemma first_named_unlinked v c l i lf v' d m nm k :
  win_ok v -> layout (fatfs v) -> directory v c l -> 0 <= i < room (fatfs v) l -> unlinked v l i lf v' -> directory v d m ->
  length nm = 11%nat -> byte_at nm 0 <> DDE -> dentry v' m k = dentry v m k -> first_named v m nm k -> first_named v' m nm k.
Proof using.
  intros Hok Hl Hd Hi Hu Hm Hn Hb He (H1 & H2 & H3 & H4). pose proof (un_alike _ _ _ _ _ Hu) as Hal.
  unfold first_named. rewrite (entries_ext _ _ m Hal), He. split; [done|]. split; [|done]. intros j Hj. destruct (H2 j Hj) as [J1 J2].
  destruct (dentry_unlinked v c l i lf v' d m j) as [->|(_ & E & ->)]; try done; [unfold entries in H1; lia|].
  assert (Hz : zlen (dentry v l i) = 32) by (unfold zlen; by rewrite (dentry_length v c)). split; [by rewrite deleted_first|by apply deleted_not_named].
Qed.

(** Subdirectories are not the file that was removed. *)
Lemma subdir_unlinked v c l i lf v' d m k :
  win_ok v -> layout (fatfs v) -> directory v c l -> 0 <= i < room (fatfs v) l -> unlinked v l i lf v' -> directory v d m -> Z.land (ent_attr (dentry v l i)) AM_DIR = 0 ->
  Z.land (ent_attr (dentry v m k)) AM_DIR <> 0 -> 0 <= k < entries (fatfs v) m -> dentry v' m k = dentry v m k.
Proof using.
  intros Hok Hl Hd Hi Hu Hm Ha Hk Hr. destruct (dentry_unlinked v c l i lf v' d m k) as [E|(_ & E & _)]; try done; [unfold entries in Hr; lia|]. by rewrite E in Hk.
Qed.

Lemma walk_unlinked v c l i lf v' d path m nm :
  win_ok v -> layout (fatfs v) -> directory v c l -> 0 <= i < room (fatfs v) l -> unlinked v l i lf v' -> Z.land (ent_attr (dentry v l i)) AM_DIR = 0 ->
  walk (apart lf) v d path m nm -> walk (apart lf) v' d path m nm.
Proof using.
  intros Hok Hl Hd Hi Hu Ha Hw. induction Hw as [d m path nm e rest HP Hm Hc He|d m path nm e rest k m' nm' HP Hm Hc He Hf Hattr _ IH].
  - eapply walk_last; [done|by eapply unlinked_directory|done|done].
  - assert (E : dentry v' m k = dentry v m k) by (apply (subdir_unlinked v c l i lf v' d m k); try done; apply Hf).
    assert (Hf' : first_named v' m nm k) by (apply (first_named_unlinked v c l i lf v' d m nm k); try done; [by eapply component_bytes|apply (component_name _ _ _ _ Hc)]).
    eapply walk_down; [done|by eapply unlinked_directory|done|done|done|by rewrite E|by rewrite E].
Qed.

Lemma reaches_unlinked v c l i lf v' path m nm :
  win_ok v -> layout (fatfs v) -> directory v c l -> 0 <= i < room (fatfs v) l -> unlinked v l i lf v' -> Z.land (ent_attr (dentry v l i)) AM_DIR = 0 ->
  reaches (apart lf) v path m nm -> reaches (apart lf) v' path m nm.
Proof using.
  intros Hok Hl Hd Hi Hu Ha. unfold reaches. replace (cdir (fatfs v')) with (cdir (fatfs v)) by (by rewrite (un_alike _ _ _ _ _ Hu)). destruct path as [|x rest]; [done|].
  destruct (is_sep x); by apply (walk_unlinked v c l i).
Qed.

(** The entry [i] is the only one with the name. *)
Definition only_named v (l nm : list Z) (i : Z) : Prop :=
  exists j, i < j <= entries (fatfs v) l /\ (forall k, 0 <= k < j -> byte_at (dentry v l k) 0 <> 0 /\ (named nm (dentry v l k) -> k = i)) /\
    (j = entries (fatfs v) l \/ byte_at (dentry v l j) 0 = 0).

Lemma unlinked_missing v c l i lf v' nm :
  win_ok v -> layout (fatfs v) -> directory v c l -> 0 <= i -> unlinked v l i lf v' -> length nm = 11%nat -> byte_at nm 0 <> DDE ->
  named nm (dentry v l i) -> only_named v l nm i -> missing v' l nm.
Proof using.
  intros Hok Hl Hd Hi Hu Hn Hb Hni (j & Hj & Hk & He). pose proof (un_alike _ _ _ _ _ Hu) as Hal. unfold entries in Hj.
  assert (Hir : 0 <= i < room (fatfs v) l) by lia. assert (Hz : zlen (dentry v l i) = 32) by (unfold zlen; by rewrite (dentry_length v c)).
  assert (Hdel : byte_at (deleted (dentry v l i)) 0 <> 0 /\ ~ named nm (deleted (dentry v l i))) by (split; [by rewrite deleted_first|by apply deleted_not_named]).
  exists j. rewrite (entries_ext _ _ l Hal). split; [unfold entries; lia|]. split.
  - intros k Hkj. destruct (Hk k Hkj) as [K1 K2]. destruct (dentry_unlinked v c l i lf v' c l k) as [E|(_ & E & ->)]; try done; [lia|]. rewrite E. split; [done|].
    intros Hnk. pose proof (K2 Hnk) as ->. rewrite (dentry_here v c l i lf v') in E by done. apply (proj2 Hdel). by rewrite E.
  - destruct He as [?|He]; [by left|]. destruct (decide (j = entries (fatfs v) l)) as [|Hne]; [by left|right]. unfold entries in Hne.
    destruct (dentry_unlinked v c l i lf v' c l j) as [->|(_ & E & _)]; try done; [lia|]. exfalso. destruct (Hk i ltac:(lia)) as [K1 _]. by rewrite <- E in K1.
Qed.

(** Files in other clusters keep their clusters and bytes. *)
Lemma unlinked_file v c l i lf v' h lf2 :
  layout (fatfs v) -> directory v c l -> 0 <= i < room (fatfs v) l -> unlinked v l i lf v' -> clusters v h lf2 -> apart lf lf2 -> apart lf2 l ->
  clusters v' h lf2 /\ forall k, inside (fatfs v) lf2 k -> file_byte v' lf2 k = file_byte v lf2 k.
Proof using.
  intros Hl Hd Hi [U1 U2 U3 U4 U5] Hc Hap Hdir. pose proof (clusters_all _ _ _ Hc) as Hall. split.
  - destruct Hc as [?|Hc]; [by left|right]. eapply chain_entries; [exact U2| |done]. intros x Hx.
    rewrite U3 by (by apply (proj1 (Forall_forall _ _) Hall)). rewrite decide_False; [done|]. by apply Hap.
  - intros k Hk. unfold file_byte. rewrite (alike_place _ _ lf2 k U2). destruct (place_primary _ _ _ Hl Hall Hk) as (_ & _ & _ & _ & Hp & Hge & _).
    pose proof (t_geo _ (ly_table _ Hl)) as [? Hcp ? ? ?]. rewrite U5; [done|done|nia|]. intros E. destruct (inside_cluster _ _ _ Hl Hk) as (x & Hx & _).
    pose proof (list_elem_of_lookup_2 _ _ _ Hx) as Hin. apply (dsector_apart v c l i x Hl Hd Hi); [by apply (proj1 (Forall_forall _ _) Hall)| |].
    + intros Hin2. by apply (Hdir x).
    + rewrite <- E. by apply place_in_cluster.
Qed.

Lemma f_unlink_steady sfn path : steady (f_unlink sfn path).
Proof using. unfold f_unlink, with_path. apply steady_bind; [apply chk_mounted_steady|intros [r p]]. destruct (decide _); [apply steady_vol|apply steady_ret]. Qed.

(** (C8) Removing a file makes its path lead nowhere and leaves the rest: [f_unlink] on a
    path to a file that may be written ends, marks its entry as deleted and frees
    exactly its clusters; opening the path afterwards answers that there is no such
    file, when no other entry of the directory has the name; and every file in other
    clusters than the file's and the directory's keeps its clusters and its bytes. *)
Theorem removed_file_is_gone sfn (s : fsys) fp path mode nm l i lf :
  sound -> flushes -> in_order s -> no_drive path -> length sfn = 12%nat ->
  reaches (apart lf) (volume s) path l nm -> first_named (volume s) l nm i -> only_named (volume s) l nm i ->
  let e := dentry (volume s) l i in removable e -> clusters (volume s) (ent_cluster e) lf -> Z.land (Z.land mode 31) 28 = 0 ->
  exists s1 s2 fp', f_unlink sfn path s = Some (FR_OK, s1) /\ unlinked (volume s) l i lf (volume s1) /\
    f_open sfn fp path mode s1 = Some ((FR_NO_FILE, fp'), s2) /\
    forall h lf2, clusters (volume s) h lf2 -> apart lf lf2 -> apart lf2 l ->
      clusters (volume s1) h lf2 /\ forall k, inside (fatfs (volume s)) lf2 k -> file_byte (volume s1) lf2 k = file_byte (volume s) lf2 k.
Proof using.
  intros S Hfl [Hok Hl _ Hinfo Hmr] Hnd Hsfn Hp Hf Hon e He Hc Hm. destruct (reaches_whole _ _ _ _ _ Hp) as (_ & Hlen & d & Hd). pose proof Hf as (Hi & _ & _ & Hni).
  assert (Hir : 0 <= i < room (fatfs (volume s)) l) by (unfold entries in Hi; lia). destruct (reaches_name _ _ _ _ _ Hp) as (_ & _ & _ & Hmk).
  assert (Hlead : leads (volume s) path l i) by (apply (leads_by_leads (apart lf)); by exists nm).
  destruct (gwp_run (f_unlink sfn path) (fun r s1 => mounted_ready s1 /\ r = FR_OK /\ unlinked (volume s) l i lf (volume s1)) s) as (r & s1 & Hrun & Hmr1 & -> & Hu).
  { apply gwp_steady; [apply f_unlink_steady|done|]. eapply gwp_mono; [|by apply (f_unlink_ok sfn s path l i lf)]. intros r s1 [-> Hu] Hst.
    split; [apply Hst; by rewrite (un_alike _ _ _ _ _ Hu)|done]. }
  pose proof (un_alike _ _ _ _ _ Hu) as Hal.
  destruct (gwp_run _ _ _ (f_open_missing sfn s1 fp path mode (apart lf) l nm (un_ok _ _ _ _ _ Hu) (alike_layout _ _ Hal Hl) Hmr1 Hnd Hsfn
    (reaches_unlinked _ d l i lf _ path l nm Hok Hl Hd Hir Hu (proj2 He) Hp)
    (unlinked_missing _ d l i lf _ nm Hok Hl Hd (proj1 Hi) Hu Hlen Hmk Hni Hon) Hm)) as ([r fp'] & s2 & Hrun2 & _ & [Hr|[_ Hns]]); [|done].
  cbn in Hr. subst r. exists s1, s2, fp'. split_and!; try done. intros h lf2. by apply (unlinked_file _ d l i).
Qed.

End FatUnlink.
