(* ===== verification/FatCreate.v ===== *)
(** * Making files

    Opening a path that leads to no entry makes one in the first blank place of the
    directory; the path then leads to it, and a file stored by it can be read
    again. *)

From S2P Require Import Prelude Diskio FatVol FatBytes FatWin FatTable FatChain FatMount FatName FatDir FatFile FatData FatRead FatWrite FatScan FatOpen FatSync FatStore.

(** The entry of a new file. *)
Definition new_entry (nm : list Z) : list Z := nm ++ replicate 21 0.
Definition created_entry (nm : list Z) : list Z := nm ++ [0; 0; 0] ++ ST_DWORD get_fattime ++ replicate 14 0.

Lemma eleven (nm : list Z) : length nm = 11%nat -> exists a b c d e f g h i j k, nm = [a; b; c; d; e; f; g; h; i; j; k].
Proof. do 11 (destruct nm as [|? nm]; [done|]). destruct nm; [|done]. intros _. by repeat eexists. Qed.

Lemma created_length nm : length nm = 11%nat -> zlen (created_entry nm) = 32.
Proof. intros Hn. unfold zlen, created_entry. rewrite !length_app, Hn. done. Qed.

Lemma new_length nm : length nm = 11%nat -> zlen (new_entry nm) = 32.
Proof. intros Hn. unfold zlen, new_entry. rewrite !length_app, Hn. done. Qed.

Lemma new_named e nm : zlen e = 32 -> length nm = 11%nat -> mem_cpy (mem_cpy e 0 (mem_set 0 SZ_DIR)) 0 nm = new_entry nm.
Proof.
  intros He Hn. unfold zlen in He. destruct (eleven nm Hn) as (a & b & c & d & e' & f & g & h & i & j & k & ->).
  assert (E : mem_cpy e 0 (mem_set 0 SZ_DIR) = replicate 32 0).
  { unfold mem_cpy. change (Z.to_nat 0) with 0%nat. rewrite take_0. change (length (mem_set 0 SZ_DIR)) with 32%nat. rewrite drop_ge by lia. by rewrite app_nil_r. }
  by rewrite E.
Qed.

Lemma created_puts nm : length nm = 11%nat ->
  mem_cpy (mem_cpy (mem_cpy (mem_cpy (mem_cpy (new_entry nm) DIR_CrtTime (ST_DWORD get_fattime)) DIR_Attr [0]) DIR_FileSize (ST_DWORD 0))
    DIR_FstClusLO (ST_WORD (u16 0))) DIR_FstClusHI (ST_WORD (u16 (Z.shiftr (u32 0) 16))) = created_entry nm.
Proof. intros Hn. destruct (eleven nm Hn) as (a & b & c & d & e' & f & g & h & i & j & k & ->). reflexivity. Qed.

Lemma fresh_cluster nm : length nm = 11%nat ->
  ent_cluster (mem_cpy (mem_cpy (mem_cpy (new_entry nm) DIR_CrtTime (ST_DWORD get_fattime)) DIR_Attr [0]) DIR_FileSize (ST_DWORD 0)) = 0.
Proof. intros Hn. destruct (eleven nm Hn) as (a & b & c & d & e' & f & g & h & i & j & k & ->). reflexivity. Qed.

Lemma created_says nm : length nm = 11%nat ->
  ent_size (created_entry nm) = 0 /\ ent_cluster (created_entry nm) = 0 /\ ent_attr (created_entry nm) = 0 /\ take 11 (created_entry nm) = nm /\
  ent_cluster (new_entry nm) = 0.
Proof. intros Hn. destruct (eleven nm Hn) as (a & b & c & d & e' & f & g & h & i & j & k & ->). by split_and!. Qed.

Lemma created_bytes nm : Forall is_byte nm -> Forall is_byte (created_entry nm) /\ Forall is_byte (new_entry nm).
Proof.
  intros Hn. split; unfold created_entry, new_entry; repeat (apply Forall_app; split); try done; try apply st_dword_bytes; try (by apply Forall_replicate); by repeat constructor.
Qed.

Section FatCreate.

Context {DK : Type} {HD : Disk DK} {HS : Store DK}.

Implicit Types v : vol (DK := DK).

(** ** The first blank place of a directory *)

(** The entry was deleted or never used. *)
Definition vacant (e : list Z) : Prop := byte_at e 0 = DDE \/ byte_at e 0 = 0.

Definition first_vacant v (l : list Z) (j : Z) : Prop :=
  0 <= j < entries (fatfs v) l /\ vacant (dentry v l j) /\ forall k, 0 <= k < j -> ~ vacant (dentry v l k).

Lemma vacant_stays v v' c l j : layout (fatfs v) -> directory v c l -> stays v v' -> first_vacant v l j -> first_vacant v' l j.
Proof using.
  intros Hl Hd Hst (H1 & H2 & H3). pose proof (same_alike _ _ (st_same _ _ Hst)) as Ha.
  assert (He : forall k, 0 <= k < entries (fatfs v) l -> dentry v' l k = dentry v l k) by (intros k Hk; apply (dentry_stays v v' c); [done|done|unfold entries in Hk; lia|done]).
  unfold first_vacant. rewrite (entries_ext _ _ l Ha), He by done. split_and!; try done; try apply H1. intros k Hk. rewrite He by lia. by apply H3.
Qed.

Lemma blank_loop_ok fuel v c l i j dj :
  win_ok v -> layout (fatfs v) -> directory v c l -> first_vacant v l j -> 0 <= i <= j -> dir_at (fatfs v) l i dj -> j - i < Z.of_nat fuel ->
  fwp (blank_loop fuel dj) (fun x v' => quiet v v' /\ same_dir dj x.2 /\ (x.1 = FR_OK /\ showing v' l j x.2 \/ failed x)) v.
Proof using.
  revert v i dj. induction fuel as [|n IH]; intros v i dj Hok Hl Hd Hbl Hij Hat Hfuel; [lia|]. pose proof Hbl as (Hj & Hb & Hnb).
  assert (Hi : 0 <= i < entries (fatfs v) l) by lia. assert (Hir : 0 <= i < room (fatfs v) l) by (unfold entries in Hi; lia).
  cbn [blank_loop]. apply fwp_bind. eapply fwp_mono; [|by eapply show_entry]. intros r v1 [Hq [[-> Hs]|[-> Hns]]].
  2: { rewrite decide_False by done. apply fwp_ret. split; [done|]. split; [apply same_dir_refl|]. by right. }
  rewrite decide_True by done. pose proof (dentry_stays v v1 c l i Hl Hd Hir (q_stays _ _ Hq)) as He. pose proof (quiet_alike _ _ Hq) as Ha.
  apply fwp_bind. eapply fwp_ent_byte; [done|done|]. rewrite He. unfold DIR_Name. destruct (decide (i = j)) as [->|Hne].
  - replace (_ || _) with true by (symmetry; apply orb_true_iff; rewrite !Z.eqb_eq; exact Hb). apply fwp_ret. split; [done|]. split; [apply same_dir_refl|]. by left.
  - assert (Hn : (byte_at (dentry v l i) 0 =? DDE) || (byte_at (dentry v l i) 0 =? 0) = false).
    { apply not_true_iff_false. rewrite orb_true_iff, !Z.eqb_eq. apply Hnb. lia. }
    rewrite Hn. pose proof (alike_layout _ _ Ha Hl) as Hl1. pose proof (directory_stays _ _ _ _ (ly_table _ Hl) (q_stays _ _ Hq) Hd) as Hd1.
    pose proof (entries_ext _ _ l Ha) as Ee.
    apply fwp_bind. eapply fwp_mono; [|apply (dir_next_ok v1 c l i dj true); [apply Hs|done|done|by rewrite Ee|apply Hs|rewrite Ee; lia]].
    intros [r dj1] v2 (Hq2 & Hs2 & Hx). pose proof (quiet_trans _ _ _ Hq Hq2) as Hq3. cbn [fst snd] in *. destruct Hx as [(-> & Hlt & Hat2)|[(-> & Hge)|[-> Hns]]]; [|lia|].
    2: { rewrite decide_False by done. apply fwp_ret. split; [done|]. split; [done|]. by right. }
    rewrite decide_True by done. pose proof (quiet_alike _ _ Hq3) as Ha3. eapply fwp_mono; [|apply (IH v2 (i + 1)); try lia; [apply Hq3|by eapply alike_layout| | |]].
    + intros x v3 (Hq4 & Hs4 & Hx). split; [by eapply quiet_trans|]. split; [by eapply same_dir_trans|done].
    + apply (directory_stays v v2); [apply Hl|apply Hq3|done].
    + apply (vacant_stays v v2 c); [done|done|apply Hq3|done].
    + eapply dir_at_alike; [exact (quiet_alike _ _ Hq2)|done].
Qed.

(** ** A new entry *)

(** The volume with a dirty window. *)
Definition dirty v : vol (DK := DK) := mkVol (set_wflag true (fatfs v)) (dev v).

(** The entry [e] in the window, which is dirty. *)
Definition poked v (j : Z) (e : list Z) : vol (DK := DK) := put_entry (dirty v) (j mod PER_SECTOR * SZ_DIR) e.

Lemma fwp_poked_put v l j dj e o w (Q : unit -> vol (DK := DK) -> Prop) :
  showing v l j dj -> zlen e = 32 -> Forall is_byte e -> 0 <= o -> o + zlen w <= 32 ->
  Q tt (poked v j (mem_cpy e o w)) -> fwp (ent_put (d_dir dj) o w) Q (poked v j e).
Proof using.
  intros Hsh He Hb Ho Hw HQ. rewrite (da_ptr _ _ _ _ (sh_at _ _ _ _ Hsh)). pose proof (ptr_range j (sh_range _ _ _ _ Hsh)) as [Hp Hle].
  by apply fwp_entry_put; [apply (w_sector _ (sh_ok _ _ _ _ Hsh))|..].
Qed.

Lemma fwp_poked_bytes v l j dj e o n (Q : list Z -> vol (DK := DK) -> Prop) :
  showing v l j dj -> zlen e = 32 -> Forall is_byte e -> 0 <= o -> 0 <= n -> o + n <= 32 ->
  Q (take (Z.to_nat n) (drop (Z.to_nat o) e)) (poked v j e) -> fwp (ent_bytes (d_dir dj) o n) Q (poked v j e).
Proof using.
  intros Hsh He Hb Ho Hn Hle HQ. rewrite (da_ptr _ _ _ _ (sh_at _ _ _ _ Hsh)). pose proof (ptr_range j (sh_range _ _ _ _ Hsh)) as [Hp Hpe].
  pose proof (put_entry_sector (dirty v) _ e (w_sector _ (sh_ok _ _ _ _ Hsh)) He Hb Hp Hpe) as Hs2. set (p := j mod PER_SECTOR * SZ_DIR) in *.
  destruct (w_sector _ (sh_ok _ _ _ _ Hsh)) as [Hlen _].
  assert (E : e = entry_in (win (fatfs (poked v j e))) p) by (symmetry; apply entry_cpy; [exact Hlen|unfold zlen in He; lia|done|done]).
  unfold ent_bytes. cbn [at_ptr]. unfold SZ_DIR in Hpe. apply fwp_bytes; [exact Hs2|lia|lia|]. rewrite E in HQ at 1. unfold entry_in in HQ.
  rewrite skipn_firstn_comm, take_take, drop_drop in HQ. rewrite Nat.min_l in HQ by (unfold SZ_DIR in *; lia). by rewrite Z2Nat.inj_add by lia.
Qed.

Lemma fwp_poked_clust v l j dj e (Q : Z -> vol (DK := DK) -> Prop) :
  showing v l j dj -> zlen e = 32 -> Forall is_byte e -> Q (ent_cluster e) (poked v j e) -> fwp (LD_CLUST (d_dir dj)) Q (poked v j e).
Proof using.
  intros Hsh He Hb HQ. unfold LD_CLUST. apply fwp_bind, (fwp_poked_bytes v l j dj); try done. apply fwp_bind, (fwp_poked_bytes v l j dj); done.
Qed.

(** The blank place gets the name. *)
Lemma register_puts {A} v l j dj nm (k : F (DK := DK) A) (Q : A -> vol (DK := DK) -> Prop) :
  showing v l j dj -> length (dentry v l j) = 32%nat -> length nm = 11%nat -> Forall is_byte nm -> fwp k Q (poked v j (new_entry nm)) ->
  fwp (ent_put (d_dir dj) 0 (mem_set 0 SZ_DIR);; ent_put (d_dir dj) 0 nm;; fs_mod (set_wflag true);; k) Q v.
Proof using.
  intros Hsh He Hn Hb HQ. pose proof (w_sector _ (sh_ok _ _ _ _ Hsh)) as Hs. pose proof (ptr_range j (sh_range _ _ _ _ Hsh)) as [Hp Hle].
  rewrite (da_ptr _ _ _ _ (sh_at _ _ _ _ Hsh)). pose proof (put_entry_start v _ Hs Hp Hle) as Hst. pose proof (dentry_window v l j dj Hsh) as E. fold (entry_in (win (fatfs v)) (j mod PER_SECTOR * SZ_DIR)) in E.
  rewrite <- E in Hst. assert (Hz : zlen (dentry v l j) = 32) by (unfold zlen; lia).
  assert (Hbe : Forall is_byte (dentry v l j)) by (rewrite E; apply Forall_take, Forall_drop, Hs).
  match goal with |- fwp ?m _ _ => enough (Hrun : fwp m Q (put_entry v (j mod PER_SECTOR * SZ_DIR) (dentry v l j))) by (by rewrite Hst in Hrun) end.
  apply fwp_bind, fwp_entry_put; [done|done|done|done|done|done|by change (zlen (mem_set 0 SZ_DIR)) with 32|].
  apply fwp_bind, fwp_entry_put; [done|rewrite zlen_cpy by (change (zlen (mem_set 0 SZ_DIR)) with 32; lia); done| |done|done|done|unfold zlen; lia|].
  { apply cpy_bytes; [done|]. by apply Forall_replicate. }
  rewrite new_named by done. by apply fwp_bind, fwp_mod.
Qed.

Lemma dir_register_ok v l j nm st dj :
  sound -> win_ok v -> layout (fatfs v) -> directory v (d_sclust dj) l -> first_vacant v l j -> d_fn dj = nm ++ [st] -> length nm = 11%nat -> Forall is_byte nm ->
  fwp (dir_register dj) (fun x v' => x.1 = FR_OK /\ exists v2, quiet v v2 /\ showing v2 l j x.2 /\ v' = poked v2 j (new_entry nm)) v.
Proof using.
  intros S Hok Hl Hd Hbl Hfn Hlen Hby. pose proof Hbl as (Hj & _). unfold dir_register.
  apply fwp_bind. eapply fwp_mono; [|by apply (dir_sdi_start v (d_sclust dj) l)]. intros [r dj1] v1 (-> & Hr & Hat & Hsd). cbn [fst snd] in *. subst r.
  rewrite decide_True by done. apply fwp_bind.
  eapply fwp_mono; [|apply (blank_loop_ok _ v (d_sclust dj) l 0 j dj1); try done; unfold dir_turns, entries in *; lia].
  intros [r dj2] v1 (Hq & Hs2 & [[Hr Hsh]|[_ Hns]]); [|done]. cbn [fst snd] in *. subst r. rewrite decide_True by done.
  pose proof (quiet_alike _ _ Hq) as Ha. assert (Hd1 : directory v1 (d_sclust dj) l) by (apply (directory_stays v); [apply Hl|apply Hq|done]).
  apply fwp_bind. eapply fwp_mono; [|apply (show_entry v1 (d_sclust dj) l j dj2); [apply Hsh|by eapply alike_layout|done|by rewrite (entries_ext _ _ l Ha)|apply Hsh]].
  intros r v2 [Hq2 [[-> Hsh2]|[_ Hns]]]; [|done]. rewrite decide_True by done. pose proof (quiet_trans _ _ _ Hq Hq2) as Hq3.
  pose proof Hsd as (_ & _ & _ & F1). pose proof Hs2 as (_ & _ & _ & F2). rewrite F2, F1, Hfn, take_app_le, (take_ge nm) by lia.
  assert (Hlen2 : length (dentry v2 l j) = 32%nat).
  { rewrite (dentry_stays v v2 (d_sclust dj)), (dentry_length v (d_sclust dj)); try done; [unfold entries in Hj; lia|unfold entries in Hj; lia|apply Hq3]. }
  apply (register_puts v2 l j dj2 nm); [done|done|done|done|]. apply fwp_ret. split; [done|]. by exists v2.
Qed.

Lemma fresh_entry_ok v l j dj nm (Q : FRESULT -> vol (DK := DK) -> Prop) :
  showing v l j dj -> length nm = 11%nat -> Forall is_byte nm -> Q FR_OK (poked v j (created_entry nm)) ->
  fwp (fresh_entry (d_dir dj)) Q (poked v j (new_entry nm)).
Proof using.
  intros Hsh Hn Hb HQ. pose proof (new_length nm Hn) as Hz. destruct (created_bytes nm Hb) as [_ Hbn]. unfold fresh_entry, ST_CLUST.
  apply fwp_bind, (fwp_poked_put v l j dj); [done|done|done|done|done|]. apply fwp_bind, (fwp_poked_put v l j dj); [done|size_of|bytes_of|done|done|].
  apply fwp_bind, (fwp_poked_put v l j dj); [done|size_of|bytes_of|done|done|]. apply fwp_bind, (fwp_poked_clust v l j dj); [done|size_of|bytes_of|].
  apply fwp_bind, fwp_bind, (fwp_poked_put v l j dj); [done|size_of|bytes_of|done|done|]. apply (fwp_poked_put v l j dj); [done|size_of|bytes_of|done|done|].
  rewrite (created_puts nm Hn), fresh_cluster by done. by apply fwp_bind, fwp_mod, fwp_ret.
Qed.

(** The object of a file that was made. *)
Definition created_object (f : FATFS) (l : list Z) (j : Z) (mode clust : Z) : FIL :=
  mkFil true (fs_id f) (Z.lor (Z.lor (Z.land mode 31) FA_CREATE_ALWAYS) FA__WRITTEN) 0 0 0 clust 0 (dsector f l j) (Some (j mod PER_SECTOR * SZ_DIR)).

Lemma opened_new v l j dj nm mode fp (Q : FIL -> vol (DK := DK) -> Prop) :
  showing v l j dj -> length nm = 11%nat -> Forall is_byte nm ->
  Q (created_object (fatfs v) l j mode (f_clust fp)) (poked v j (created_entry nm)) ->
  fwp (opened dj (Z.lor (Z.land mode 31) FA_CREATE_ALWAYS) fp) Q (poked v j (created_entry nm)).
Proof using.
  intros Hsh Hn Hb HQ. pose proof (created_length nm Hn) as Hz. destruct (created_bytes nm Hb) as [Hbc _]. destruct (created_says nm Hn) as (E1 & E2 & _).
  unfold opened. apply fwp_bind, fwp_get. cbn zeta. replace (negb (Z.land (Z.lor (Z.land mode 31) FA_CREATE_ALWAYS) FA_CREATE_ALWAYS =? 0)) with true.
  2: { symmetry. change FA_CREATE_ALWAYS with (2 ^ 3). rewrite bit_test by lia. rewrite Z.lor_spec, Z.pow2_bits_true by lia. by rewrite orb_true_r. }
  apply fwp_bind, (fwp_poked_clust v l j dj); [done|done|done|]. apply fwp_bind, (fwp_poked_bytes v l j dj); [done|done|done|done|done|done|].
  apply fwp_ret. fold (ent_size (created_entry nm)). rewrite E1, E2. unfold created_object in HQ.
  by rewrite <- (sh_here _ _ _ _ Hsh), <- (da_ptr _ _ _ _ (sh_at _ _ _ _ Hsh)) in HQ.
Qed.

Lemma create_new_ok v l j dj nm st mode :
  sound -> win_ok v -> layout (fatfs v) -> directory v (d_sclust dj) l -> first_vacant v l j -> d_fn dj = nm ++ [st] -> length nm = 11%nat -> Forall is_byte nm ->
  fwp (open_creating FR_NO_FILE dj mode) (fun x v' => exists v2 dj', x = (FR_OK, dj', Z.lor mode FA_CREATE_ALWAYS) /\ quiet v v2 /\ showing v2 l j dj' /\
    v' = poked v2 j (created_entry nm)) v.
Proof using.
  intros S Hok Hl Hd Hbl Hfn Hlen Hby. unfold open_creating. rewrite decide_False, decide_True by done. apply fwp_bind, fwp_bind.
  eapply fwp_mono; [|by apply (dir_register_ok v l j nm st dj S)]. intros [r dj2] v1 [Hr (v2 & Hq & Hsh & ->)]. cbn [fst snd] in *. subst r. apply fwp_ret.
  replace (_ && _) with true.
  2: { symmetry. change FA_CREATE_ALWAYS with (2 ^ 3). rewrite bit_test by lia. rewrite Z.lor_spec, Z.pow2_bits_true by lia. by rewrite orb_true_r. }
  apply fwp_bind, (fresh_entry_ok v2 l j dj2 nm); [done|done|done|]. apply fwp_ret. by exists v2, dj2.
Qed.

Lemma f_open_creates sfn (s : fsys) fp path mode P l nm j :
  sound -> win_ok (volume s) -> layout (fatfs (volume s)) -> mounted_ready s -> no_drive path -> length sfn = 12%nat ->
  reaches P (volume s) path l nm -> missing (volume s) l nm -> first_vacant (volume s) l j -> Forall is_byte nm -> Z.land (Z.land mode 31) 28 <> 0 ->
  gwp (f_open sfn fp path mode) (fun x s' => x = (FR_OK, created_object (fatfs (volume s)) l j mode (f_clust fp)) /\
    edited (volume s) l j (created_entry nm) (volume s') /\ last_clust (fatfs (volume s')) = last_clust (fatfs (volume s))) s.
Proof using.
  intros S Hok Hl Hr Hnd Hsfn Hp Hms Hbl Hby Hm. destruct (reaches_whole _ _ _ _ _ Hp) as (_ & Hlen & d & Hd). pose proof Hbl as (Hj & _).
  unfold f_open. cbn zeta. apply gwp_bind. eapply gwp_mono; [|by apply chk_mounted_ready]. intros [r0 path0] s1 ([= -> ->] & Hq & _ & _). rewrite decide_True by done.
  pose proof (alike_layout _ _ (quiet_alike _ _ Hq) Hl) as Hl1.
  apply gwp_vol, fwp_bind. eapply fwp_mono; [|apply (follow_path_ok P (volume s1) path l nm (new_dir sfn)); [apply Hq|done|by eapply reaches_stays; [..|apply Hq|]|done]].
  intros [r dj] v2 (Hq2 & _ & _ & Hx). cbn [fst snd] in Hx. pose proof (quiet_trans _ _ _ Hq Hq2) as Hq3. pose proof (q_stays _ _ Hq3) as Hst.
  destruct Hx as [(Hdj & (st & Hfn & _) & Hx)|[_ Hns]]; [|done]. pose proof (found_missing v2 l nm (r, dj) Hx (missing_stays _ _ d _ _ Hl Hd Hst Hms)) as Hr2.
  cbn in Hr2. subst r. rewrite (decide_False (P := FR_NO_FILE = FR_OK)) by done. rewrite (proj2 (Z.eqb_neq _ _)) by done. cbn [negb].
  pose proof (alike_layout _ _ (quiet_alike _ _ Hq3) Hl) as Hl2.
  apply fwp_bind. eapply fwp_mono; [|apply (create_new_ok v2 l j dj nm st (Z.land mode 31) S); try done; [apply Hq3|by apply (vacant_stays _ _ d _ _ Hl Hd Hst)]].
  intros x v3 (v4 & dj' & -> & Hq4 & Hsh & ->). pose proof (quiet_trans _ _ _ Hq3 Hq4) as Hq5. rewrite decide_True by done. pose proof (quiet_alike _ _ Hq5) as A5.
  apply fwp_bind, (opened_new v4 l j dj' nm mode); [done|done|done|]. apply fwp_ret. cbn [volume with_volume].
  assert (Hd4 : directory v4 d l) by (apply (directory_stays (volume s)); [apply Hl|apply Hq5|done]). destruct (created_bytes nm Hby) as [Hbc _].
  destruct (mark_edited v4 d l j (created_entry nm)) as (M1 & M2 & M3 & _); try done; [apply Hsh|by eapply alike_layout|by rewrite (entries_ext _ _ l A5)|apply Hsh|by apply created_length|].
  assert (Hir : 0 <= j < room (fatfs (volume s)) l) by (unfold entries in Hj; lia).
  split; [|split; [by apply (edited_before _ v4 _ d)|]].
  - unfold created_object. rewrite (dsector_ext _ _ _ _ A5). by replace (fs_id (fatfs v4)) with (fs_id (fatfs (volume s))) by (by rewrite A5).
  - pose proof (st_same _ _ (q_stays _ _ Hq5)) as Hs5. change (last_clust (fatfs v4) = last_clust (fatfs (volume s))). by rewrite Hs5.
Qed.

(** ** The path to the new entry *)

(** The directory is [l] or shares no cluster with it. *)
Definition beside (l m : list Z) : Prop := m = l \/ forall x, x ∈ m -> x ∉ l.

Lemma dsector_in v c l j : layout (fatfs v) -> directory v c l -> l <> [] -> 0 <= j < room (fatfs v) l -> exists x, x ∈ l /\ cluster (fatfs v) x /\ in_cluster (fatfs v) x (dsector (fatfs v) l j).
Proof using.
  intros Hl Hd Hne Hj. pose proof (dcluster_lookup _ _ _ Hl Hne Hj) as Hx. exists (dcluster (fatfs v) l j). split; [by eapply list_elem_of_lookup_2|].
  split; [by eapply dcluster_pos|]. rewrite dsector_chain by (done || lia). unfold in_cluster. pose proof (csize_range _ Hl).
  pose proof (Z.mod_pos_bound (j / PER_SECTOR) (csize (fatfs v)) ltac:(lia)). lia.
Qed.

Lemma dsector_differ v c l j d m k :
  layout (fatfs v) -> directory v c l -> 0 <= j < room (fatfs v) l -> directory v d m -> 0 <= k < room (fatfs v) m -> beside l m -> m <> l ->
  dsector (fatfs v) m k <> dsector (fatfs v) l j.
Proof using.
  intros Hl Hd Hj Hm Hk Hb Hne E. destruct Hb as [|Hb]; [done|]. destruct (decide (l = [])) as [->|Hl0].
  - destruct (dsector_in v d m k Hl Hm Hne Hk) as (x & Hx & Hcl & Hin). rewrite E in Hin. apply (dsector_apart v c [] j x Hl Hd Hj Hcl); [by apply not_elem_of_nil|done].
  - destruct (dsector_in v c l j Hl Hd Hl0 Hj) as (x & Hx & Hcl & Hin). rewrite <- E in Hin. apply (dsector_apart v d m k x Hl Hm Hk Hcl); [|done]. intros Hx2. by apply (Hb x).
Qed.

(** An entry with the name that is no volume label. *)
Definition entry_for (nm e : list Z) : Prop := zlen e = 32 /\ take 11 e = nm /\ Z.land (ent_attr e) AM_VOL = 0.

Lemma created_for nm : length nm = 11%nat -> entry_for nm (created_entry nm).
Proof using. intros Hn. destruct (created_says nm Hn) as (_ & _ & Ea & Et & _). split; [by apply created_length|]. by rewrite Ea. Qed.

(** A vacant place became the entry [e] with the name. *)
Record made v c l j nm e v' : Prop := {
  md_ok : win_ok v;
  md_layout : layout (fatfs v);
  md_dir : directory v c l;
  md_vacant : first_vacant v l j;
  md_missing : missing v l nm;
  md_name : length nm = 11%nat /\ Forall is_byte nm /\ byte_at nm 0 <> 0 /\ byte_at nm 0 <> DDE;
  md_entry : entry_for nm e;
  md_edited : edited v l j e v'
}.

Lemma made_room v c l j nm e v' : made v c l j nm e v' -> 0 <= j < room (fatfs v) l.
Proof using. intros [_ _ _ (H & _) _ _ _ _]. unfold entries in H. lia. Qed.

(** The other entries are as they were; only a blank one changed. *)
Lemma dentry_made v c l j nm e v' d m k :
  made v c l j nm e v' -> directory v d m -> beside l m -> 0 <= k < room (fatfs v) m ->
  dentry v' m k = dentry v m k \/ m = l /\ vacant (dentry v m k) /\ dentry v' m k = e.
Proof using.
  intros Hmd Hm Hb Hk. pose proof (made_room _ _ _ _ _ _ _ Hmd) as Hj. destruct Hmd as [Hok Hl Hd (_ & Hbl & _) _ _ (Hz & _) He].
  destruct (decide (m = l)) as [->|Hne].
  - destruct (dentry_edited v c l j e v' d l k) as [|[E1 E2]]; try done; [by left|right]. split; [done|]. by rewrite E1.
  - left. rewrite !dentry_in, (dsector_ext _ _ _ _ (ed_alike _ _ _ _ _ He)). f_equal. apply (ed_else _ _ _ _ _ He); [by apply (dsector_primary v d)|].
    by apply (dsector_differ v c l j d m k).
Qed.

(** What is found is not blank. *)
Lemma named_not_vacant nm e : length nm = 11%nat -> byte_at nm 0 <> DDE -> byte_at e 0 <> 0 -> named nm e -> ~ vacant e.
Proof using. intros Hn Hd H0 [_ E] [Hb|Hb]; [|done]. apply Hd. rewrite first_byte, (take_ge nm), <- (take_ge nm 11) by lia. by rewrite <- E, <- first_byte. Qed.

Lemma entry_named nm e nm' : length nm' = 11%nat -> entry_for nm e -> named nm' e -> nm' = nm.
Proof using. intros Hn (_ & Et & _) [_ E]. rewrite Et, (take_ge nm') in E by lia. done. Qed.

Lemma entry_first nm e : length nm = 11%nat -> entry_for nm e -> byte_at e 0 = byte_at nm 0.
Proof using. intros Hn (_ & Et & _). by rewrite first_byte, Et. Qed.

Lemma first_named_made v c l j nm e v' d m nm' k :
  made v c l j nm e v' -> directory v d m -> beside l m -> length nm' = 11%nat -> byte_at nm' 0 <> DDE -> first_named v m nm' k ->
  first_named v' m nm' k /\ dentry v' m k = dentry v m k.
Proof using.
  intros Hmd Hm Hb Hn Hnd Hf. pose proof Hf as (H1 & H2 & H3 & H4). pose proof Hmd as [Hok Hl Hd _ Hms (Hn0 & _ & Hz & _) Hfor He]. pose proof (ed_alike _ _ _ _ _ He) as Hal.
  assert (Hr : forall i, 0 <= i <= k -> 0 <= i < room (fatfs v) m) by (unfold entries in H1; lia).
  assert (E : dentry v' m k = dentry v m k).
  { destruct (dentry_made v c l j nm e v' d m k) as [|(_ & Hbl & _)]; try done; [apply Hr; lia|]. by apply (named_not_vacant nm') in Hbl. }
  split; [|done]. unfold first_named. rewrite (entries_ext _ _ m Hal), E. split; [done|]. split; [|done]. intros i Hi. destruct (H2 i Hi) as [J1 J2].
  destruct (dentry_made v c l j nm e v' d m i) as [->|(-> & _ & ->)]; try done; [apply Hr; lia|]. split; [by rewrite (entry_first nm e)|].
  intros Hnm. pose proof (entry_named nm e nm' Hn Hfor Hnm) as ->. by apply (missing_not v l nm k).
Qed.

Lemma made_directory v c l j nm e0 v' d m : made v c l j nm e0 v' -> directory v d m -> directory v' d m.
Proof using.
  intros Hmd Hm. pose proof (made_room _ _ _ _ _ _ _ Hmd) as Hj. destruct Hmd as [Hok Hl Hd _ _ _ _ He]. eapply directory_entries; [apply He| |exact Hm]. intros x Hx.
  apply (edited_entries v c l j _ v' x Hl Hd Hj He). by apply (proj1 (Forall_forall _ _) (directory_all _ _ _ Hm) x).
Qed.

Lemma walk_made P v c l j nm e0 v' d path m nm' :
  (forall m, P m) -> made v c l j nm e0 v' -> walk (beside l) v d path m nm' -> walk P v' d path m nm'.
Proof using.
  intros HP Hmd Hw. induction Hw as [d m path nm' e rest Hb Hm Hc He|d m path nm' e rest k m' nm2 Hb Hm Hc He Hf Hattr _ IH].
  - eapply walk_last; [done|by eapply made_directory|done|done].
  - destruct (component_name _ _ _ _ Hc) as (_ & _ & Hnd). destruct (first_named_made v c l j nm e0 v' d m nm' k) as [Hf' E]; try done; [by eapply component_bytes|].
    eapply walk_down; [done|by eapply made_directory|done|done|done|by rewrite E|by rewrite E].
Qed.

(** The path leads to the new entry. *)
Lemma reaches_made P v c l j nm e0 v' path m nm' :
  (forall m, P m) -> made v c l j nm e0 v' -> reaches (beside l) v path m nm' -> reaches P v' path m nm'.
Proof using.
  intros HP Hmd. unfold reaches. replace (cdir (fatfs v')) with (cdir (fatfs v)) by (by rewrite (ed_alike _ _ _ _ _ (md_edited _ _ _ _ _ _ _ Hmd))).
  destruct path as [|x rest]; [done|]. destruct (is_sep x); by apply (walk_made P v c l j nm e0).
Qed.

Lemma made_first v c l j nm e0 v' : made v c l j nm e0 v' -> first_named v' l nm j.
Proof using.
  intros Hmd. pose proof (made_room _ _ _ _ _ _ _ Hmd) as Hj. pose proof Hmd as [Hok Hl Hd (Hj2 & Hbl & Hnb) (e & He1 & He2 & He3) (Hn & _ & Hz & Hnd) Hfor He].
  pose proof Hfor as (Hz32 & Et & Ea). pose proof (dentry_at v c l j _ v' Hok Hl Hd Hj Hz32 He) as E.
  unfold first_named. rewrite (entries_ext _ _ l (ed_alike _ _ _ _ _ He)), E. split; [done|]. split.
  - intros k Hk. destruct (dentry_made v c l j nm e0 v' c l k) as [->|(_ & Hb & _)]; try done; [by left|lia| |by destruct (Hnb k ltac:(lia))].
    apply He2. split; [lia|]. destruct (decide (k < e)); [done|]. exfalso. destruct He3 as [?|He3]; [lia|]. apply (Hnb e); [lia|]. by right.
  - rewrite (entry_first nm e0) by done. split; [done|]. split; [done|by rewrite Et, (take_ge nm) by lia].
Qed.

(** ** Making, storing and reading again *)

Lemma create_flags mode m : Z.land (Z.lor FA_CREATE_ALWAYS FA__WRITTEN) m = 0 -> Z.land (Z.lor (Z.lor (Z.land mode 31) FA_CREATE_ALWAYS) FA__WRITTEN) m = Z.land mode (Z.land 31 m).
Proof using. intros H. by rewrite <- Z.lor_assoc, Z.land_lor_distr_l, H, Z.lor_0_r, Z.land_assoc. Qed.

Lemma created_usable (s s1 : fsys (DK := DK)) l j mode c :
  mounted_ready s -> alike (fatfs (volume s)) (fatfs (volume s1)) -> Z.land mode FA_WRITE <> 0 -> usable (fatfs (volume s1)) (created_object (fatfs (volume s)) l j mode c) FA_WRITE.
Proof using.
  intros Hr Hal Hm. pose proof (mr_type _ Hr). unfold usable, flagged. cbn [f_fs f_id f_flag created_object]. rewrite !create_flags by done.
  replace (fs_type (fatfs (volume s1))) with (fs_type (fatfs (volume s))) by (by rewrite Hal).
  replace (fs_id (fatfs (volume s1))) with (fs_id (fatfs (volume s))) by (by rewrite Hal).
  change (Z.land 31 FA_WRITE) with FA_WRITE. change (Z.land 31 FA__ERROR) with 0. rewrite Z.land_0_r. split_and!; try done. right. by apply negb_true_iff, Z.eqb_neq.
Qed.

Lemma created_at v f l j mode c : file_at v (created_object f l j mode c) [].
Proof using. split; [split|..]; cbn; try done; [by left|by rewrite Z.mul_0_r]. Qed.

(** (C6) A file that is made persists: opening a path whose last name is not in its
    directory, with a mode that creates and writes, writing, closing, opening the path
    again and reading ends, and reads the bytes given to be written; fewer were written
    only when no cluster is free any more.  The new entry is in the first place of the
    directory that was deleted or never used, the path leads to it, and it has the size
    and the clusters of what was written. *)
Theorem new_file_persists sfn (s : fsys) fp path mode w l nm j :
  sound -> flushes -> in_order s -> no_drive path -> length sfn = 12%nat ->
  reaches (beside l) (volume s) path l nm -> missing (volume s) l nm -> first_vacant (volume s) l j ->
  Z.land (Z.land mode 31) 28 <> 0 -> Z.land mode FA_WRITE <> 0 -> Forall is_byte w -> zlen w < 2 ^ 32 ->
  exists r n buff s', store_and_read sfn fp path mode w s = Some ((r, n, buff), s') /\
    (r = FR_OK /\ buff = take (Z.to_nat n) w /\ 0 <= n <= zlen w /\ (n = zlen w \/ full (volume s')) /\ (exists lf, stored (volume s') path l j lf n) \/
     r = FR_INT_ERR /\ damaged (volume s)).
Proof using.
  intros S Hfl [Hok Hl Hla Hinfo Hmr] Hnd Hsfn Hp Hms Hbl Hm Hw2 Hb Hw. pose proof (reaches_name _ _ _ _ _ Hp) as Hnm. destruct (reaches_whole _ _ _ _ _ Hp) as (_ & _ & d & Hd).
  enough (Hrun : gwp (store_and_read sfn fp path mode w) (fun x s' => store_answer (volume s) path l j w 0 x (volume s')) s).
  { destruct (gwp_run _ _ _ Hrun) as ([[r n] buff] & s' & Hx & Hans). exists r, n, buff, s'. split; [done|].
    destruct Hans as [(-> & H1 & H2 & H3 & lf & H4)|H1]; [left|by right]. split_and!; try done; [lia|lia|destruct H3 as [?|[?|[_ ?]]]; [by left|by right|lia]|].
    exists lf. by rewrite Z.max_r in H4 by lia. }
  apply gwp_bind, gwp_steady; [apply f_open_steady|done|].
  eapply gwp_mono; [|apply (f_open_creates sfn s fp path mode (beside l) l nm j S); try done; apply Hnm]. intros [r fp1] s1 ([= -> ->] & He & Hla1) Hst.
  rewrite decide_True by done. pose proof (ed_alike _ _ _ _ _ He) as Hal. assert (Hmd : made (volume s) d l j nm (created_entry nm) (volume s1)) by (split; try done; apply created_for, Hnm).
  assert (Hio1 : in_order s1).
  { split; [apply He|by eapply alike_layout|by rewrite Hla1|by eapply info_apart_alike|apply Hst; by rewrite Hal]. }
  pose proof (made_room _ _ _ _ _ _ _ Hmd) as Hj. destruct (created_says nm (proj1 Hnm)) as (_ & _ & Ea & _).
  assert (Hlead : leads_by (apart []) (volume s1) path l j) by (exists nm; split; [apply (reaches_made _ (volume s) d l j nm (created_entry nm)); [intros m x _; apply not_elem_of_nil|done|done]|by eapply made_first]).
  eapply gwp_mono; [|apply (write_and_read_ok sfn s1 _ path w l j [] S Hfl Hio1 Hnd Hsfn (created_at _ _ _ _ _ _)); try done; [by apply created_usable| |cbn; by rewrite (dsector_ext _ _ _ _ Hal)]].
  - intros [[r n] buff] s2 [Hx|[-> (x & Hx & E)]]; [by left|right]. split; [done|]. assert (Hx0 : cluster (fatfs (volume s)) x) by (by apply (alike_cluster _ _ _ Hal)).
    exists x. split; [done|]. by rewrite <- (edited_entries _ d l j _ _ x Hl Hd Hj He Hx0).
  - by rewrite (dentry_at _ d l j _ _ Hok Hl Hd Hj (created_length nm (proj1 Hnm)) He), Ea.
Qed.

End FatCreate.
