(* ===== verification/FatRename.v ===== *)
(** * Renaming files

    [f_rename] makes an entry with the new name, copies what the old one says and
    deletes the old one: the file is found by its new path, with its bytes, and no
    longer by the old one. *)

From S2P Require Import Prelude Diskio FatVol FatBytes FatWin FatTable FatChain FatMount FatName FatDir FatFile FatPath FatData FatRead FatWrite FatScan FatOpen FatSync FatStore FatUnlink FatCreate.

(** The entry under the new name. *)
Definition renamed_entry (nm e : list Z) : list Z :=
  mem_cpy (mem_cpy (new_entry nm) 13 (take 19 (drop 13 e))) DIR_Attr [Z.lor (byte_at e DIR_Attr) AM_ARC].

Lemma moved_length (e : list Z) : zlen e = 32 -> zlen (take 19 (drop 13 e)) = 19.
Proof. unfold zlen. rewrite length_take, length_drop. lia. Qed.

Lemma renamed_length nm e : length nm = 11%nat -> zlen e = 32 -> zlen (renamed_entry nm e) = 32.
Proof.
  intros Hn He. pose proof (moved_length e He) as Hm. pose proof (new_length nm Hn) as Hw. unfold renamed_entry, DIR_Attr.
  rewrite !zlen_cpy; rewrite ?zlen_cpy, ?zlen_one, ?Hm; lia.
Qed.

Lemma renamed_bytes nm e : Forall is_byte nm -> Forall is_byte e -> Forall is_byte (renamed_entry nm e).
Proof.
  intros Hn He. destruct (created_bytes nm Hn) as [_ Hb]. unfold renamed_entry. apply cpy_bytes; [|by apply archive_byte].
  apply cpy_bytes; [done|]. by apply Forall_take, Forall_drop.
Qed.

(** Behind the attribute the entries agree. *)
Lemma renamed_slice nm e o n : length nm = 11%nat -> zlen e = 32 -> 13 <= o -> 0 <= n -> o + n <= 32 ->
  take (Z.to_nat n) (drop (Z.to_nat o) (renamed_entry nm e)) = take (Z.to_nat n) (drop (Z.to_nat o) e).
Proof.
  intros Hn He Ho Hn0 Hle. pose proof (moved_length e He) as Hm. pose proof (new_length nm Hn) as Hw. pose proof (renamed_length nm e Hn He) as Hr.
  rewrite !slice_bytes by lia. apply bytes_shift. intros i Hi. replace (o + (i - o)) with i by lia. unfold renamed_entry, DIR_Attr.
  rewrite byte_at_cpy by (rewrite ?zlen_cpy, ?zlen_one, ?Hm; lia). rewrite zlen_one, decide_False by lia.
  rewrite byte_at_cpy by lia. rewrite decide_True by lia. change 19%nat with (Z.to_nat 19). change 13%nat with (Z.to_nat 13). rewrite byte_at_part by lia. f_equal. lia.
Qed.

Lemma renamed_says nm e : length nm = 11%nat -> zlen e = 32 ->
  ent_size (renamed_entry nm e) = ent_size e /\ ent_cluster (renamed_entry nm e) = ent_cluster e /\ ent_attr (renamed_entry nm e) = Z.lor (ent_attr e) AM_ARC /\
  take 11 (renamed_entry nm e) = nm.
Proof.
  intros Hn He. pose proof (moved_length e He) as Hm. pose proof (new_length nm Hn) as Hw. pose proof (renamed_length nm e Hn He) as Hr. split_and!.
  - unfold ent_size. by rewrite renamed_slice by (done || lia).
  - unfold ent_cluster. by rewrite !renamed_slice by (done || lia).
  - unfold ent_attr, renamed_entry, DIR_Attr. rewrite byte_at_cpy by (rewrite ?zlen_cpy, ?zlen_one, ?Hm; lia). done.
  - change 11%nat with (Z.to_nat 11) at 1. change (take (Z.to_nat 11) ?x) with (take (Z.to_nat 11) (drop (Z.to_nat 0) x)). unfold renamed_entry, DIR_Attr.
    rewrite slice_cpy_other by (rewrite ?zlen_cpy, ?zlen_one, ?Hm; lia). rewrite slice_cpy_other by (rewrite ?Hm; lia).
    change (Z.to_nat 0) with 0%nat. rewrite drop_0. unfold new_entry. rewrite take_app_le, take_ge by lia. done.
Qed.

Section FatRename.

Context {DK : Type} {HD : Disk DK} {HS : Store DK}.

Implicit Types v : vol (DK := DK).

Lemma fwp_poked_byte v l j dj e o (Q : Z -> vol (DK := DK) -> Prop) :
  showing v l j dj -> zlen e = 32 -> Forall is_byte e -> 0 <= o < 32 -> Q (byte_at e o) (poked v j e) -> fwp (ent_byte (d_dir dj) o) Q (poked v j e).
Proof using.
  intros Hsh He Hb Ho HQ. rewrite (da_ptr _ _ _ _ (sh_at _ _ _ _ Hsh)). pose proof (ptr_range j (sh_range _ _ _ _ Hsh)) as [Hp Hle].
  by apply fwp_entry_byte; [apply (w_sector _ (sh_ok _ _ _ _ Hsh))|..].
Qed.

(** What the old entry says about its attributes and behind them. *)
Lemma moved_bytes (e : list Z) : drop 2 (take (Z.to_nat 21) (drop (Z.to_nat DIR_Attr) e)) = take 19 (drop 13 e) /\
  byte_at (take (Z.to_nat 21) (drop (Z.to_nat DIR_Attr) e)) 0 = byte_at e DIR_Attr.
Proof using.
  unfold DIR_Attr. split; [|by rewrite byte_at_part by lia]. change (Z.to_nat 21) with 21%nat. change (Z.to_nat 11) with 11%nat. by rewrite skipn_firstn_comm, drop_drop.
Qed.

Lemma copy_entry_ok {A} v l j djo djn nm e (k : FRESULT -> F (DK := DK) A) (Q : A -> vol (DK := DK) -> Prop) :
  showing v l j djn -> zlen e = 32 -> Forall is_byte e -> length nm = 11%nat -> Forall is_byte nm -> Z.land (ent_attr e) AM_DIR = 0 ->
  fwp (k FR_OK) Q (poked v j (renamed_entry nm e)) ->
  fwp (ent_put (d_dir djn) 13 (take 19 (drop 13 e));;
       ent_put (d_dir djn) DIR_Attr [Z.lor (byte_at e DIR_Attr) AM_ARC];;
       fs_mod (set_wflag true);;
       res ← rename_parent djo djn;
       k res) Q (poked v j (new_entry nm)).
Proof using.
  intros Hsh He Hb Hn Hbn Ha HQ. destruct (created_bytes nm Hbn) as [_ Hb2]. pose proof (new_length nm Hn) as Hz. pose proof (moved_length e He) as Hm.
  destruct (renamed_says nm e Hn He) as (_ & _ & Ea & _).
  apply fwp_bind, (fwp_poked_put v l j djn); [done|done|done|done|lia|].
  apply fwp_bind, (fwp_poked_put v l j djn); [done|rewrite zlen_cpy; lia| |done|done|].
  { apply cpy_bytes; [done|]. by apply Forall_take, Forall_drop. }
  apply fwp_bind, fwp_mod, fwp_bind. unfold rename_parent. apply fwp_bind.
  apply (fwp_poked_byte v l j djn (renamed_entry nm e)); [done|by apply renamed_length|by apply renamed_bytes|done|].
  change (byte_at (renamed_entry nm e) DIR_Attr) with (ent_attr (renamed_entry nm e)). rewrite Ea, Z.land_lor_distr_l, Ha. rewrite andb_false_r. by apply fwp_ret.
Qed.

(** The renamed entry is one for the name. *)
Lemma renamed_for nm e : length nm = 11%nat -> zlen e = 32 -> Z.land (ent_attr e) AM_VOL = 0 -> entry_for nm (renamed_entry nm e).
Proof using.
  intros Hn He Ha. destruct (renamed_says nm e Hn He) as (_ & _ & Ea & Et). split; [by apply renamed_length|]. split; [done|].
  by rewrite Ea, Z.land_lor_distr_l, Ha.
Qed.

(** The entry in the window of a dirty volume is made. *)
Lemma poked_made v v2 c l j nm e dj :
  win_ok v -> layout (fatfs v) -> directory v c l -> first_vacant v l j -> missing v l nm ->
  length nm = 11%nat /\ Forall is_byte nm /\ byte_at nm 0 <> 0 /\ byte_at nm 0 <> DDE -> entry_for nm e -> Forall is_byte e ->
  quiet v v2 -> showing v2 l j dj -> made v c l j nm e (poked v2 j e).
Proof using.
  intros Hok Hl Hd Hbl Hms Hnm Hfor Hb Hq Hsh. pose proof Hbl as (Hj & _). assert (Hjr : 0 <= j < room (fatfs v) l) by (unfold entries in Hj; lia).
  pose proof (quiet_alike _ _ Hq) as Ha. assert (Hd2 : directory v2 c l) by (eapply directory_stays; [apply Hl|apply Hq|done]).
  destruct (mark_edited v2 c l j e) as (_ & _ & He & _); [apply Hsh|by eapply alike_layout|done|by rewrite (entries_ext _ _ l Ha)|apply Hsh|apply Hfor|done|].
  split; try done. by apply (edited_before v v2 _ c).
Qed.

Lemma switch_ok v lo i ln j djo djn nm st :
  sound -> flushes -> win_ok v -> layout (fatfs v) -> info_apart (fatfs v) -> directory v (d_sclust djo) lo -> d_index djo = i -> 0 <= i < entries (fatfs v) lo ->
  directory v (d_sclust djn) ln -> first_vacant v ln j -> missing v ln nm -> d_fn djn = nm ++ [st] ->
  length nm = 11%nat /\ Forall is_byte nm /\ byte_at nm 0 <> 0 /\ byte_at nm 0 <> DDE ->
  let e := dentry v lo i in Z.land (ent_attr e) AM_DIR = 0 -> Z.land (ent_attr e) AM_VOL = 0 ->
  fwp ('(res, djn) ← dir_register djn;
       if decide (res = FR_OK) then
         ent_put (d_dir djn) 13 (take 19 (drop 13 e));;
         ent_put (d_dir djn) DIR_Attr [Z.lor (byte_at e DIR_Attr) AM_ARC];;
         fs_mod (set_wflag true);;
         res ← rename_parent djo djn;
         if decide (res = FR_OK) then
           '(res, _) ← dir_remove djo;
           if decide (res = FR_OK) then sync else mret res
         else mret res
       else mret res)
    (fun r v' => r = FR_OK /\ exists v1, made v (d_sclust djn) ln j nm (renamed_entry nm e) v1 /\ unlinked v1 lo i [] v') v.
Proof using.
  intros S Hfl Hok Hl Hinfo Hdo Hio Hi Hdn Hbl Hms Hfn Hnm e Ha Hv. pose proof Hnm as (Hn & Hbn & _). assert (Hir : 0 <= i < room (fatfs v) lo) by (unfold entries in Hi; lia).
  assert (Hz : zlen e = 32) by (unfold zlen, e; by rewrite (dentry_length v (d_sclust djo))).
  assert (Hb : Forall is_byte e) by (unfold e; rewrite dentry_in; apply Forall_take, Forall_drop, (view_sector v _ Hok)).
  apply fwp_bind. eapply fwp_mono; [|by apply (dir_register_ok v ln j nm st djn S)]. intros [r djn2] v1 [Hr (v2 & Hq & Hsh & ->)]. cbn [fst snd] in *. subst r.
  rewrite decide_True by done. apply (copy_entry_ok v2 ln j djo djn2 nm e); try done. rewrite decide_True by done.
  pose proof (poked_made v v2 (d_sclust djn) ln j nm (renamed_entry nm e) djn2 Hok Hl Hdn Hbl Hms Hnm (renamed_for nm e Hn Hz Hv) (renamed_bytes nm e Hbn Hb) Hq Hsh) as Hmd.
  set (v1 := poked v2 j (renamed_entry nm e)) in *. pose proof (ed_alike _ _ _ _ _ (md_edited _ _ _ _ _ _ _ Hmd)) as A1. pose proof (alike_layout _ _ A1 Hl) as Hl1.
  pose proof (made_directory _ _ _ _ _ _ _ _ _ Hmd Hdo) as Hd1. assert (Hi1 : 0 <= i < entries (fatfs v1) lo) by (by rewrite (entries_ext _ _ lo A1)).
  apply fwp_bind. eapply fwp_mono; [|by apply (dir_remove_ok v1 lo i djo S (ed_ok _ _ _ _ _ (md_edited _ _ _ _ _ _ _ Hmd)) Hl1 Hd1 Hi1)].
  intros [r djo2] v3 [Hr He]. cbn [fst snd] in *. subst r. rewrite decide_True by done. pose proof (ed_alike _ _ _ _ _ He) as A3.
  eapply fwp_mono; [|apply sync_ok; [apply He|eapply info_apart_alike; [|exact Hinfo]; by etrans]].
  intros r v4 Hy. split; [by apply (sy_sound _ _ _ Hy S)|]. exists v1. split; [done|].
  apply (freed_unlinked v1 v3 v3 v4 (d_sclust djo) lo i [] r); try done; [unfold entries in Hi1; lia|apply kept_refl, He].
Qed.

(** What was made after a quiet step was made. *)
Lemma made_before v v1 v' c d l j nm e :
  win_ok v -> layout (fatfs v) -> directory v d l -> first_vacant v l j -> missing v l nm -> quiet v v1 -> made v1 c l j nm e v' -> made v d l j nm e v'.
Proof using.
  intros Hok Hl Hd Hbl Hms Hq [_ _ _ _ _ H6 H7 H8]. pose proof Hbl as (Hj & _). split; try done. by apply (edited_before v v1 _ d); [| |unfold entries in Hj; lia|..].
Qed.

(** The call, with the volume between the making and the removing. *)
Lemma f_rename_ok sfn (s : fsys (DK := DK)) path_old path_new P lo i ln nm j :
  sound -> flushes -> in_order s -> no_drive path_old -> length sfn = 12%nat ->
  leads (volume s) path_old lo i -> reaches P (volume s) path_new ln nm -> missing (volume s) ln nm -> first_vacant (volume s) ln j ->
  let e := dentry (volume s) lo i in Z.land (ent_attr e) AM_DIR = 0 -> Z.land (ent_attr e) AM_VOL = 0 ->
  gwp (f_rename sfn path_old path_new) (fun r s' => r = FR_OK /\
    exists dn v1, made (volume s) dn ln j nm (renamed_entry nm e) v1 /\ unlinked v1 lo i [] (volume s')) s.
Proof using.
  intros S Hfl [Hok Hl Hla Hinfo Hmr] Hnd Hsfn Hp Hpn Hms Hbl e Ha Hv. destruct (leads_in _ _ _ _ _ Hp) as (_ & Hi & d & Hd). pose proof (reaches_name _ _ _ _ _ Hpn) as Hnm.
  destruct (reaches_whole _ _ _ _ _ Hpn) as (_ & _ & dn & Hdn). assert (Hir : 0 <= i < room (fatfs (volume s)) lo) by (unfold entries in Hi; lia).
  unfold f_rename, with_path. apply gwp_bind. eapply gwp_mono; [|by apply chk_mounted_ready]. intros [r0 path0] s1 ([= -> ->] & Hq & _ & _). rewrite decide_True by done.
  pose proof (alike_layout _ _ (quiet_alike _ _ Hq) Hl) as Hl1.
  apply gwp_vol, fwp_bind. eapply fwp_mono; [|apply (follow_entry_ok (volume s1) path_old lo i (new_dir sfn) S); [apply Hq|done|by eapply leads_by_stays; [..|apply Hq|]|done]].
  intros [r djo] v2 (Hr & Hq2 & Hsh & Hdo & Hfo). cbn [fst snd] in *. subst r. rewrite decide_True by done. pose proof (quiet_trans _ _ _ Hq Hq2) as Hq3.
  pose proof (alike_layout _ _ (quiet_alike _ _ Hq3) Hl) as Hl2. pose proof (dentry_stays _ _ d lo i Hl Hd Hir (q_stays _ _ Hq3)) as E2. fold e in E2.
  pose proof (sh_at _ _ _ _ Hsh) as Hat. rewrite (da_ptr _ _ _ _ Hat). rewrite <- (da_ptr _ _ _ _ Hat) at 1.
  apply fwp_bind, (fwp_ent_bytes v2 lo i djo); [done|done|done|done|]. rewrite E2. destruct (moved_bytes e) as [-> ->].
  apply fwp_bind. eapply fwp_mono; [|apply (follow_path_ok P v2 path_new ln nm djo); [apply Hsh|done|by eapply reaches_stays; [..|apply Hq3|]|done]].
  intros [r djn] v3 (Hq4 & _ & _ & Hx). cbn [fst snd] in Hx. destruct Hx as [(Hdj & (st & Hfn & _) & Hx)|[_ Hns]]; [|done]. pose proof (quiet_trans _ _ _ Hq3 Hq4) as Hq5.
  pose proof (q_stays _ _ Hq5) as Hst. pose proof (quiet_alike _ _ Hq5) as A5. pose proof (alike_layout _ _ A5 Hl) as Hl3.
  pose proof (found_missing v3 ln nm (r, djn) Hx (missing_stays _ _ dn _ _ Hl Hdn Hst Hms)) as Hr. cbn in Hr. subst r.
  rewrite (decide_False (P := FR_NO_FILE = FR_OK)), (decide_True (P := FR_NO_FILE = FR_NO_FILE)) by done.
  pose proof (dentry_stays _ _ d lo i Hl Hd Hir Hst) as E3. fold e in E3.
  eapply fwp_mono; [|rewrite <- E3; apply (switch_ok v3 lo i ln j djo djn nm st S Hfl)]; rewrite ?E3; try done.
  - intros r v4 (-> & v1 & Hmd & Hun). split; [done|]. exists dn, v1. split; [|done]. by apply (made_before _ v3 v1 (d_sclust djn)).
  - apply Hq5.
  - by eapply info_apart_alike.
  - eapply directory_stays; [apply Hl2|apply Hq4|done].
  - apply Hat.
  - by rewrite (entries_ext _ _ lo A5).
  - by apply (vacant_stays (volume s) v3 dn).
  - by apply (missing_stays (volume s) v3 dn).
Qed.

(** ** The directories after a renaming *)

(** An entry that no other has the name of, behind the end mark neither. *)
Definition sole v (l nm : list Z) (i : Z) : Prop := first_named v l nm i /\ forall k, 0 <= k < entries (fatfs v) l -> named nm (dentry v l k) -> k = i.

(** Where no entry has the name a search ends without it. *)
Lemma unnamed_missing v l nm : 0 <= entries (fatfs v) l -> (forall k, 0 <= k < entries (fatfs v) l -> ~ named nm (dentry v l k)) -> missing v l nm.
Proof using.
  intros H0 Hn. assert (Hs : forall n, 0 <= n <= entries (fatfs v) l -> passed v l nm 0 n \/ missing v l nm).
  { intros n [Hn0 Hle]. revert Hle. pattern n. apply natlike_ind; [|clear n Hn0|done]; [intros _; left; intros k Hk; lia|]. intros n Hn0 IH Hle.
    destruct IH as [Hp|]; [lia| |by right]. destruct (decide (byte_at (dentry v l n) 0 = 0)) as [Hz|Hz].
    - right. exists n. split; [lia|]. split; [done|by right].
    - left. intros k Hk. destruct (decide (k = n)) as [->|]; [split; [done|apply Hn; lia]|apply Hp; lia]. }
  destruct (Hs (entries (fatfs v) l)) as [Hp|]; [lia| |done]. exists (entries (fatfs v) l). split; [lia|]. split; [done|by left].
Qed.

Section Renamed.

(** The entry [i] of [lo], with the name [no], moves to the place [j] of [ln]. *)
Context {v v1 v' : vol (DK := DK)} {c d i j : Z} {lo ln no nm : list Z}.
Hypotheses (Hlo : directory v d lo) (Hbeside : beside ln lo) (Hno : length no = 11%nat /\ byte_at no 0 <> DDE)
  (Hsole : sole v lo no i) (Hattr : Z.land (ent_attr (dentry v lo i)) AM_DIR = 0)
  (Hmade : made v c ln j nm (renamed_entry nm (dentry v lo i)) v1) (Hgone : unlinked v1 lo i [] v').

Lemma rn_room : 0 <= i < room (fatfs v) lo.
Proof using All. destruct Hsole as [(Hi & _) _]. unfold entries in Hi. lia. Qed.

Lemma rn_first : first_named v1 lo no i /\ dentry v1 lo i = dentry v lo i.
Proof using All. destruct Hno. by apply (first_named_made v c ln j nm (renamed_entry nm (dentry v lo i)) v1 d lo no i), Hsole. Qed.

Lemma rn_layout : layout (fatfs v1) /\ win_ok v1 /\ directory v1 d lo /\ 0 <= i < room (fatfs v1) lo.
Proof using All.
  pose proof Hmade as [_ Hl _ _ _ _ _ He]. pose proof (ed_alike _ _ _ _ _ He) as Ha. split; [by eapply alike_layout|]. split; [apply He|]. split; [by eapply made_directory|].
  pose proof rn_room as Hr. destruct Hsole as [(Hi & _) _]. rewrite <- (entries_ext _ _ lo Ha) in Hi. unfold entries in Hi. lia.
Qed.

Lemma rn_alike : alike (fatfs v) (fatfs v').
Proof using All. etrans; [apply Hmade|apply Hgone]. Qed.

(** The places differ. *)
Lemma rn_apart : ln = lo -> nm <> no.
Proof using All. intros -> ->. by apply (missing_not v lo no i (md_missing _ _ _ _ _ _ _ Hmade)), Hsole. Qed.

Lemma rn_length : zlen (dentry v lo i) = 32.
Proof using All. unfold zlen. by rewrite (dentry_length v d lo i (md_ok _ _ _ _ _ _ _ Hmade) (md_layout _ _ _ _ _ _ _ Hmade) Hlo rn_room). Qed.

Lemma rn_made_entry : dentry v1 ln j = renamed_entry nm (dentry v lo i).
Proof using All.
  pose proof Hmade as [Hok Hl Hd _ _ (Hn & _) _ He]. apply (dentry_at v c ln j); try done; [by eapply made_room|]. by apply renamed_length; [|apply rn_length].
Qed.

Lemma rn_there : dentry v' ln j = renamed_entry nm (dentry v lo i).
Proof using All.
  destruct rn_layout as (Hl1 & Hok1 & Hd1 & Hi1). pose proof Hmade as [Hok Hl Hd _ _ (Hn & _) _ He]. pose proof (made_room _ _ _ _ _ _ _ Hmade) as Hj. pose proof (ed_alike _ _ _ _ _ He) as Ha.
  assert (Hj1 : 0 <= j < room (fatfs v1) ln) by (revert Hj; unfold room; by rewrite Ha).
  destruct (dentry_unlinked v1 d lo i [] v' c ln j Hok1 Hl1 Hd1 Hi1 Hgone (made_directory _ _ _ _ _ _ _ _ _ Hmade Hd) Hj1) as [->|(Es & E & _)]; [apply rn_made_entry|].
  exfalso. destruct (decide (lo = ln)) as [Heq|Hne].
  - rewrite rn_made_entry in E. destruct rn_first as [(_ & _ & _ & _ & Hnm) _]. rewrite <- E in Hnm. destruct (renamed_says nm (dentry v lo i) Hn rn_length) as (_ & _ & _ & Et).
    rewrite Et, take_ge in Hnm by (destruct Hno; lia). by apply rn_apart.
  - apply (dsector_differ v c ln j d lo i Hl Hd Hj Hlo rn_room Hbeside Hne). by rewrite <- !(dsector_ext _ _ _ _ Ha).
Qed.

(** The new path leads to the entry. *)
Lemma rn_leads path : reaches (beside ln) v path ln nm -> leads_by (apart []) v' path ln j.
Proof using All.
  intros Hp. destruct rn_layout as (Hl1 & Hok1 & Hd1 & Hi1). destruct (reaches_name _ _ _ _ _ Hp) as (Hn & _ & _ & Hb). exists nm. split.
  - apply (reaches_unlinked v1 d lo i); try done; [by rewrite (proj2 rn_first)|]. eapply reaches_made; [|done..]. intros m x _. apply not_elem_of_nil.
  - apply (first_named_unlinked v1 d lo i [] v' c); try done; [|by rewrite rn_there, rn_made_entry|by eapply made_first]. eapply made_directory; [done|apply Hmade].
Qed.

(** Nothing has the old name. *)
Lemma rn_missing : missing v' lo no.
Proof using All.
  destruct rn_layout as (Hl1 & Hok1 & Hd1 & Hi1). destruct Hno as [Hn Hb]. pose proof rn_alike as Ha. pose proof Hmade as [Hok Hl Hd _ _ (Hnn & _) Hfor He].
  apply unnamed_missing; [rewrite (entries_ext _ _ lo Ha); destruct Hsole as [(Hi & _) _]; lia|]. intros k Hk. rewrite (entries_ext _ _ lo Ha) in Hk. intros Hnm.
  assert (Hkr : 0 <= k < room (fatfs v) lo) by (unfold entries in Hk; lia). assert (Hk1 : 0 <= k < room (fatfs v1) lo) by (revert Hkr; unfold room; by rewrite (ed_alike _ _ _ _ _ He)).
  assert (Hdel : ~ named no (deleted (dentry v1 lo i))) by (apply deleted_not_named; [rewrite (proj2 rn_first); apply rn_length|done|done]).
  destruct (dentry_unlinked v1 d lo i [] v' d lo k Hok1 Hl1 Hd1 Hi1 Hgone Hd1 Hk1) as [E|(_ & _ & E)]; rewrite E in Hnm; [|done].
  destruct (dentry_made v c ln j nm _ v1 d lo k Hmade Hlo Hbeside Hkr) as [E1|(El & _ & E1)]; rewrite E1 in Hnm.
  - destruct Hsole as [_ Hs]. pose proof (Hs k Hk Hnm) as ->. apply Hdel. rewrite <- (dentry_here v1 d lo i [] v') by done. by rewrite E, E1.
  - by apply (rn_apart (eq_sym El)), eq_sym, (entry_named nm _ no Hn Hfor).
Qed.

(** The old path still ends in the directory. *)
Lemma rn_reaches path : reaches (beside ln) v path lo no -> reaches (apart []) v' path lo no.
Proof using All.
  intros Hp. destruct rn_layout as (Hl1 & Hok1 & Hd1 & Hi1). apply (reaches_unlinked v1 d lo i); try done; [by rewrite (proj2 rn_first)|].
  eapply reaches_made; [|done..]. intros m x _. apply not_elem_of_nil.
Qed.

(** Files are as they were. *)
Lemma rn_file h lf : clusters v h lf -> apart lf lo -> apart lf ln -> clusters v' h lf /\ forall k, inside (fatfs v) lf k -> file_byte v' lf k = file_byte v lf k.
Proof using All.
  intros Hc Hao Han. destruct rn_layout as (Hl1 & Hok1 & Hd1 & Hi1). pose proof Hmade as [Hok Hl Hd _ _ _ _ He]. pose proof (made_room _ _ _ _ _ _ _ Hmade) as Hj.
  destruct (edited_file v c ln j _ v1 h lf Hl Hd Hj He Hc Han) as [Hc1 Hb1].
  destruct (unlinked_file v1 d lo i [] v' h lf Hl1 Hd1 Hi1 Hgone Hc1) as [Hc2 Hb2]; [intros x _; apply not_elem_of_nil|done|]. split; [done|]. intros k Hk.
  rewrite Hb2; [by apply Hb1|]. unfold inside, bcs in *. by rewrite (ed_alike _ _ _ _ _ He).
Qed.

End Renamed.

Lemma f_rename_steady sfn path_old path_new : steady (f_rename (DK := DK) sfn path_old path_new).
Proof using. unfold f_rename, with_path. apply steady_bind; [apply chk_mounted_steady|intros [r p]]. destruct (decide _); [apply steady_vol|apply steady_ret]. Qed.

(** (C9) Renaming a file moves its name and nothing else: [f_rename] from a path to a file
    to a path whose last name is not in its directory ends, also between directories;
    opening the new path and reading delivers the bytes the file had; opening the old
    one answers that there is no such file, when the file was the only one with its
    name; and every file outside the two directories keeps its clusters and bytes. *)
Theorem renamed_file_keeps_its_bytes sfn (s : fsys (DK := DK)) fp path_old path_new mode btr lo i no ln nm j lf :
  sound -> flushes -> in_order s -> no_drive path_old -> no_drive path_new -> length sfn = 12%nat ->
  reaches (beside ln) (volume s) path_old lo no -> sole (volume s) lo no i ->
  reaches (beside ln) (volume s) path_new ln nm -> missing (volume s) ln nm -> first_vacant (volume s) ln j ->
  let e := dentry (volume s) lo i in
  Z.land (ent_attr e) AM_DIR = 0 -> clusters (volume s) (ent_cluster e) lf -> ent_size e <= bcs (fatfs (volume s)) * zlen lf -> apart lf lo -> apart lf ln ->
  0 <= btr < 2 ^ 32 -> Z.land (Z.land mode 31) 28 = 0 ->
  exists s1 s2 s3 fp', f_rename sfn path_old path_new s = Some (FR_OK, s1) /\
    open_and_read sfn fp path_new btr s1 = Some ((FR_OK, file_bytes (volume s) lf 0 (Z.min btr (ent_size e)), Z.min btr (ent_size e)), s2) /\
    f_open sfn fp path_old mode s1 = Some ((FR_NO_FILE, fp'), s3) /\
    forall h lf2, clusters (volume s) h lf2 -> apart lf2 lo -> apart lf2 ln ->
      clusters (volume s1) h lf2 /\ forall k, inside (fatfs (volume s)) lf2 k -> file_byte (volume s1) lf2 k = file_byte (volume s) lf2 k.
Proof using.
  intros S Hfl Hio Hnd1 Hnd2 Hsfn Hpo Hso Hpn Hms Hbl e Ha Hc Hsz Hao Han Hbtr Hm. pose proof Hio as [Hok Hl _ _ Hmr].
  destruct (reaches_whole _ _ _ _ _ Hpo) as (Hbes & _ & d & Hd). destruct (reaches_name _ _ _ _ _ Hpo) as (Hno & _ & _ & Hnb).
  destruct (gwp_run (f_rename sfn path_old path_new) (fun r s1 => mounted_ready s1 /\ r = FR_OK /\
    exists dn v1, made (volume s) dn ln j nm (renamed_entry nm e) v1 /\ unlinked v1 lo i [] (volume s1)) s) as (r & s1 & Hrun & Hmr1 & -> & dn & v1 & Hmd & Hun).
  { apply gwp_steady; [apply f_rename_steady|done|]. eapply gwp_mono; [|apply (f_rename_ok sfn s path_old path_new (beside ln) lo i ln nm j); try done].
    - intros r s1 (-> & dn & v1 & Hmd & Hun) Hst. split; [apply Hst; by rewrite (rn_alike Hd Hbes (conj Hno Hnb) Hso Ha Hmd Hun)|]. split; [done|]. by exists dn, v1.
    - apply (leads_by_leads (beside ln)). exists no. by split; [|apply Hso].
    - by destruct Hso as [(_ & _ & _ & Hv & _) _]. }
  pose proof (rn_alike Hd Hbes (conj Hno Hnb) Hso Ha Hmd Hun) as Hal. pose proof (alike_layout _ _ Hal Hl) as Hl1. pose proof (un_ok _ _ _ _ _ Hun) as Hok1.
  pose proof (rn_there Hd Hbes (conj Hno Hnb) Hso Ha Hmd Hun) as E. fold e in E. destruct (md_name _ _ _ _ _ _ _ Hmd) as (Hnn & _).
  destruct (renamed_says nm e Hnn (rn_length Hd Hbes (conj Hno Hnb) Hso Ha Hmd Hun)) as (Es & Ec & Ea & _).
  pose proof (leads_by_leads _ _ _ _ _ (rn_leads Hd Hbes (conj Hno Hnb) Hso Ha Hmd Hun path_new Hpn)) as Hlead.
  pose proof (rn_file Hd Hbes (conj Hno Hnb) Hso Ha Hmd Hun) as Hfile. destruct (Hfile _ _ Hc Hao Han) as [Hc1 Hb1].
  destruct (gwp_run _ _ _ (open_and_read_ok sfn s1 fp path_new btr ln j lf S Hok1 Hl1 Hmr1 Hnd2 Hsfn Hlead
    ltac:(by rewrite E, Ea, Z.land_lor_distr_l, Ha) ltac:(by rewrite E, Ec) ltac:(unfold bcs in *; by rewrite E, Es, Hal) Hbtr)) as (x & s2 & Hrun2 & -> & _).
  destruct (gwp_run _ _ _ (f_open_missing sfn s1 fp path_old mode (apart []) lo no Hok1 Hl1 Hmr1 Hnd1 Hsfn
    (rn_reaches Hd Hbes (conj Hno Hnb) Hso Ha Hmd Hun path_old Hpo) (rn_missing Hd Hbes (conj Hno Hnb) Hso Ha Hmd Hun) Hm)) as ([r fp'] & s3 & Hrun3 & _ & [Hr|[_ Hns]]); [|done].
  cbn in Hr. subst r. exists s1, s2, s3, fp'. split; [done|]. split; [|by split]. rewrite Hrun2, E, Es. do 4 f_equal. apply bytes_shift. intros k Hk. apply Hb1.
  unfold inside. lia.
Qed.

End FatRename.
