(* ===== verification/FatFree.v ===== *)
(** * Free space

    [f_getfree] answers the number of free clusters, counted through the table or
    stored; a count that is exact stays so when chains are removed and made longer. *)

From S2P Require Import Prelude Diskio FatVol FatBytes FatWin FatTable FatChain FatMount FatName FatDir FatFile FatPath FatData FatRead FatWrite FatScan FatOpen FatSync FatStore.

Section FatFree.

Context {DK : Type} {HD : Disk DK} {HS : Store DK}.

Implicit Types v : vol (DK := DK).

(** ** Counting *)

(** The free ones of the entries [l]. *)
Definition free_among v (l : list Z) : list Z := filter (fun c => entry v c = 0) l.

(** The number of free clusters. *)
Definition free v : Z := zlen (free_among v (seqZ 2 (n_fatent (fatfs v) - 2))).

Lemma free_cons v c n : 0 < n -> zlen (free_among v (seqZ c n)) = (if entry v c =? 0 then 1 else 0) + zlen (free_among v (seqZ (c + 1) (n - 1))).
Proof using.
  intros Hn. rewrite seqZ_cons by done. replace (Z.succ c) with (c + 1) by lia. replace (Z.pred n) with (n - 1) by lia. unfold free_among. rewrite filter_cons. unfold zlen.
  destruct (Z.eqb_spec (entry v c) 0); [rewrite decide_True by done|rewrite decide_False by done]; cbn [length]; lia.
Qed.

Lemma free_none v c n : n <= 0 -> zlen (free_among v (seqZ c n)) = 0.
Proof using. intros Hn. by rewrite seqZ_nil. Qed.

Lemma free_same v v' l : (forall c, c ∈ l -> entry v' c = entry v c) -> free_among v' l = free_among v l.
Proof using.
  intros H. induction l as [|c l IH]; [done|]. unfold free_among in *. rewrite !filter_cons, IH by (intros; apply H; by right). by rewrite (H c) by (by left).
Qed.

Lemma free_range v : table_ok (fatfs v) -> 0 <= free v <= n_fatent (fatfs v) - 2.
Proof using.
  intros [_ _ Hs _ _]. unfold free, free_among, zlen. split; [lia|]. pose proof (length_filter (fun c => entry v c = 0) (seqZ 2 (n_fatent (fatfs v) - 2))) as H.
  rewrite length_seqZ in H. lia.
Qed.

Lemma free_stays v v' : table_ok (fatfs v) -> stays v v' -> free v' = free v.
Proof using.
  intros Ht Hst. unfold free. replace (n_fatent (fatfs v')) with (n_fatent (fatfs v)) by (by rewrite (st_same _ _ Hst)). f_equal. apply free_same.
  intros c Hc%elem_of_seqZ. apply entry_stays; [done|done|]. unfold cluster. lia.
Qed.

Lemma n_small v : table_ok (fatfs v) -> n_fatent (fatfs v) < 2 ^ 28.
Proof using. intros Ht. eapply Z.lt_le_trans; [apply Ht|]. apply Z.pow_le_mono_r; [lia|]. unfold entry_bits. repeat case_match; lia. Qed.

(** Entry by entry. *)
Lemma count_entries_ok fuel v clst n :
  win_ok v -> table_ok (fatfs v) -> cluster (fatfs v) clst -> n_fatent (fatfs v) - clst <= Z.of_nat fuel ->
  fwp (count_entries fuel clst n) (fun x v' => quiet v v' /\
    (x = (FR_OK, n + zlen (free_among v (seqZ clst (n_fatent (fatfs v) - clst)))) \/ x.1 = FR_INT_ERR /\ damaged v \/ x.1 = FR_DISK_ERR /\ ~ sound)) v.
Proof using.
  revert v clst n. induction fuel as [|k IH]; intros v clst n Hok Ht Hc Hf; [unfold cluster in Hc; lia|]. cbn [count_entries].
  apply fwp_bind. eapply fwp_mono; [|by apply get_fat_ok]. intros x v1 Hg. pose proof (quiet_got _ _ _ _ Hg) as Hq. pose proof (entry_range v clst Hok) as Hr.
  rewrite free_cons by (unfold cluster in Hc; lia). destruct (gt_answer _ _ _ _ Hg) as [[-> _]| ->].
  2: { cbn [Z.eqb DISK_ERROR Pos.eqb]. apply fwp_ret. split; [done|]. right. right. split; [done|]. intros S. pose proof (gt_sound _ _ _ _ Hg S) as E. unfold DISK_ERROR in E. lia. }
  rewrite (proj2 (Z.eqb_neq (entry v clst) DISK_ERROR)) by (unfold DISK_ERROR; lia). destruct (Z.eqb_spec (entry v clst) 1) as [E1|_].
  { apply fwp_ret. split; [done|]. right. left. split; [done|]. by exists clst. }
  apply fwp_bind, fwp_get. pose proof (quiet_alike _ _ Hq) as Ha. replace (n_fatent (fatfs v1)) with (n_fatent (fatfs v)) by (by rewrite Ha).
  set (n1 := if entry v clst =? 0 then n + 1 else n). assert (En : n1 = n + (if entry v clst =? 0 then 1 else 0)) by (unfold n1; case_match; lia).
  destruct (Z.ltb_spec (clst + 1) (n_fatent (fatfs v))) as [Hlt|Hge].
  - assert (Hn1 : n_fatent (fatfs v1) = n_fatent (fatfs v)) by (by rewrite Ha).
    eapply fwp_mono; [|apply (IH v1 (clst + 1) n1); [apply Hq|by eapply alike_table|unfold cluster in *; lia|lia]].
    intros x v2 (Hq2 & Hx). split; [by eapply quiet_trans|]. rewrite Hn1 in Hx. destruct Hx as [->|[[H1 (y & Hy & E)]|Hx]]; [left|right; left|by right; right].
    + rewrite (free_same v v1); [f_equal; replace (n_fatent (fatfs v) - clst - 1) with (n_fatent (fatfs v) - (clst + 1)) by lia; lia|].
      intros c Hin%elem_of_seqZ. apply entry_stays; [done|apply Hq|unfold cluster in *; lia].
    + split; [done|]. exists y. assert (Hy0 : cluster (fatfs v) y) by (by apply (alike_cluster _ _ _ Ha)). split; [done|]. by rewrite <- (entry_stays v v1 y Ht (q_stays _ _ Hq) Hy0).
  - apply fwp_ret. split; [done|]. left. rewrite free_none by lia. f_equal. lia.
Qed.

(** Sector by sector, for entries of whole bytes. *)
Definition width (ty : Z) : Z := if ty =? FS_FAT16 then 2 else 4.

Definition wide (f : FATFS) : Prop := table_ok f /\ fs_type f <> FS_FAT12.

Lemma width_cases f : wide f -> fs_type f = FS_FAT16 /\ width (fs_type f) = 2 \/ fs_type f = FS_FAT32 /\ width (fs_type f) = 4.
Proof using. intros [[_ [H|[H|H]] _ _ _] Hne]; [done|left|right]; by rewrite H. Qed.

Lemma wide_place f c : wide f -> 0 <= c < n_fatent f -> let w := width (fs_type f) in
  in_table f (w * c) /\ in_table f (w * c + w - 1) /\ (w * c) mod SS + w <= 512 /\ (w * c) mod SS mod w = 0.
Proof using.
  intros Hw Hc. pose proof Hw as [[_ _ _ Hr _] _]. unfold table_bytes in Hr. unfold in_table. destruct (width_cases f Hw) as [[E ->]|[E ->]]; rewrite E in Hr; cbn -[SS Z.mul] in Hr.
  - destruct (wide_aligned c 2 ltac:(lia) ltac:(by exists 256) ltac:(lia)) as [_ Hal]. split_and!; try lia. unfold SS.
    rewrite <- (Znumtheory.Zmod_div_mod 2 512) by (try lia; by exists 256). by rewrite Z.mul_comm, Z.mod_mul.
  - destruct (wide_aligned c 4 ltac:(lia) ltac:(by exists 128) ltac:(lia)) as [_ Hal]. split_and!; try lia. unfold SS.
    rewrite <- (Znumtheory.Zmod_div_mod 4 512) by (try lia; by exists 128). by rewrite Z.mul_comm, Z.mod_mul.
Qed.

Lemma wide_entry v v' c : wide (fatfs v) -> 0 <= c < n_fatent (fatfs v) -> stays v v' -> entry v' c = entry v c.
Proof using.
  intros Hw Hc Hst. destruct (wide_place _ c Hw Hc) as (H1 & H2 & _). unfold entry. replace (fs_type (fatfs v')) with (fs_type (fatfs v)) by (by rewrite (st_same _ _ Hst)).
  apply entry_of_ext; [lia|]. intros i Hi. apply fat_byte_stays; [apply Hw|done|]. revert Hi H1 H2. unfold entry_at, entry_size, in_table.
  destruct (width_cases _ Hw) as [[-> ->]|[-> ->]]; cbn -[Z.mul SS]; lia.
Qed.

(** The entry the walk points to. *)
Lemma wide_value v c : win_ok v -> wide (fatfs v) -> 0 <= c < n_fatent (fatfs v) -> let w := width (fs_type (fatfs v)) in at_byte v (w * c) ->
  let l := take (Z.to_nat w) (drop (Z.to_nat ((w * c) mod SS)) (win (fatfs v))) in
  (if fs_type (fatfs v) =? FS_FAT16 then LD_WORD l else Z.land (LD_DWORD l) 268435455) = entry v c.
Proof using.
  intros Hok Hw Hc w Ha l. destruct (wide_place _ c Hw Hc) as (H1 & H2 & H3 & _). fold w in H1, H2, H3.
  assert (Hl : Forall is_byte l) by (apply Forall_take, Forall_drop, Hok).
  assert (Hi : forall i, 0 <= i < w -> byte_at l i = fat_byte v (w * c + i)) by (intros i Hi; unfold l; by apply part_bytes).
  unfold entry, entry_of. unfold w in *. destruct (width_cases _ Hw) as [[E Ew]|[E Ew]]; rewrite Ew in Hi; rewrite E; cbn -[Z.mul Z.pow Z.modulo Z.land LD_WORD LD_DWORD].
  - rewrite ld_word by done. by rewrite !Hi, Z.add_0_r by lia.
  - rewrite ld_dword by done. rewrite !Hi, Z.add_0_r by lia. change 268435455 with (2 ^ 28 - 1). by rewrite land_mod by lia.
Qed.

(** The walk is at the entry [c]: at the end of a sector, or within one that is shown. *)
Definition walks v (c sect i p : Z) : Prop :=
  let o := width (fs_type (fatfs v)) * c in
  i = 0 /\ o mod SS = 0 /\ sect = fatbase (fatfs v) + o / SS \/
  0 < i /\ p = o mod SS /\ i = SS - p /\ at_byte v o /\ sect = fatbase (fatfs v) + o / SS + 1.

Lemma walk_load_ok v c sect i p :
  win_ok v -> wide (fatfs v) -> 0 <= c < n_fatent (fatfs v) -> walks v c sect i p ->
  let o := width (fs_type (fatfs v)) * c in
  fwp (if i =? 0 then r ← move_window sect; mret (r, u32 (sect + 1), SS, 0) else mret (FR_OK, sect, i, p)) (fun x v' => quiet v v' /\
    (x = (FR_OK, fatbase (fatfs v) + o / SS + 1, SS - o mod SS, o mod SS) /\ at_byte v' o \/ x.1.1.1 = FR_DISK_ERR /\ ~ sound)) v.
Proof using.
  intros Hok Hw Hc Hwk o. destruct (wide_place _ c Hw Hc) as (H1 & _). fold o in H1. destruct (table_primary _ o (w_geo _ Hok) H1) as [[Hp _] _].
  pose proof (w_geo _ Hok) as [? Hcp ? ? He]. unfold walks in Hwk. fold o in Hwk. destruct Hwk as [(-> & Hm & ->)|(Hi & -> & -> & Ha & ->)].
  - cbn [Z.eqb]. apply fwp_bind. replace (fatbase (fatfs v) + o / SS) with (u32 (fatbase (fatfs v) + o / SS)) at 1 by (apply wrap_small; unfold fits; lia).
    eapply fwp_mono; [|by apply seek_ok]. intros r v' [K1 K2 K3 K4 K5]. apply fwp_ret. split; [by split|].
    assert (Hlt : fatbase (fatfs v) + o / SS < fatbase (fatfs v) + fsize (fatfs v)) by (by apply table_primary). rewrite Hm, Z.sub_0_r.
    destruct K3 as [[-> Ha]| ->]; [left|right; split; [done|]; intros S; by specialize (K5 S)]. split; [|done]. by rewrite wrap_small by (unfold fits; nia).
  - rewrite (proj2 (Z.eqb_neq _ _)) by lia. apply fwp_ret. split; [by apply quiet_refl|]. by left.
Qed.

(** To the next entry. *)
Lemma walks_next v c p :
  wide (fatfs v) -> 0 <= c < n_fatent (fatfs v) -> let w := width (fs_type (fatfs v)) in at_byte v (w * c) -> p = (w * c) mod SS ->
  walks v (c + 1) (fatbase (fatfs v) + w * c / SS + 1) (SS - p - w) (p + w).
Proof using.
  intros Hw Hc w Ha ->. destruct (wide_place _ c Hw Hc) as (H1 & _ & H3 & _). fold w in H1, H3. unfold walks. fold w. replace (w * (c + 1)) with (w * c + w) by lia.
  assert (Hw0 : 0 < w) by (unfold w; destruct (width_cases _ Hw) as [[_ ->]|[_ ->]]; lia). set (o := w * c) in *. unfold in_table, SS in *.
  pose proof (Z.div_mod o 512 ltac:(lia)) as Hd. pose proof (Z.mod_pos_bound o 512 ltac:(lia)) as Hb. destruct (decide (o mod 512 + w = 512)) as [E|E].
  - left. assert (Eq : o / 512 + 1 = (o + w) / 512) by (apply (Z.div_unique _ _ _ 0); lia). split; [lia|]. split; [symmetry; apply (Z.mod_unique _ _ (o / 512 + 1)); lia|lia].
  - right. assert (Eq : o / 512 = (o + w) / 512) by (apply (Z.div_unique _ _ _ (o mod 512 + w)); lia).
    assert (Em : o mod 512 + w = (o + w) mod 512) by (apply (Z.mod_unique _ _ (o / 512)); lia). unfold at_byte, SS in *. rewrite <- Eq. split_and!; lia || done.
Qed.

Lemma count_table_ok fuel v c sect i p n :
  win_ok v -> wide (fatfs v) -> 0 <= c < n_fatent (fatfs v) -> walks v c sect i p -> n_fatent (fatfs v) - c <= Z.of_nat fuel ->
  fwp (count_table fuel (fs_type (fatfs v)) (n_fatent (fatfs v) - c) sect i p n) (fun x v' => quiet v v' /\
    (x = (FR_OK, n + zlen (free_among v (seqZ c (n_fatent (fatfs v) - c)))) \/ x.1 = FR_DISK_ERR /\ ~ sound)) v.
Proof using.
  revert v c sect i p n. induction fuel as [|k IH]; intros v c sect i p n Hok Hw Hc Hwk Hf; [lia|]. cbn [count_table].
  apply fwp_bind. eapply fwp_mono; [|by apply (walk_load_ok v c)]. set (o := width (fs_type (fatfs v)) * c). intros [[[r s1] i1] p1] v1 (Hq & Hx). cbn [fst] in Hx.
  destruct Hx as [([= -> -> -> ->] & Ha)|[-> Hns]].
  2: { rewrite decide_False by done. apply fwp_ret. split; [done|]. by right. }
  rewrite decide_True by done. pose proof (quiet_alike _ _ Hq) as Hal. assert (Et : fs_type (fatfs v1) = fs_type (fatfs v)) by (by rewrite Hal).
  assert (En : n_fatent (fatfs v1) = n_fatent (fatfs v)) by (by rewrite Hal). assert (Eb : fatbase (fatfs v1) = fatbase (fatfs v)) by (by rewrite Hal).
  assert (Hw1 : wide (fatfs v1)) by (split; [by eapply alike_table, Hw|rewrite Et; apply Hw]). destruct (wide_place _ c Hw Hc) as (H1 & _ & H3 & _). fold o in H1, H3.
  change (if fs_type (fatfs v) =? FS_FAT16 then 2 else 4) with (width (fs_type (fatfs v))).
  apply fwp_bind, fwp_bytes; [apply Hq|apply Z.mod_pos_bound; done|done|]. cbn zeta.
  pose proof (wide_value v1 c (q_ok _ _ Hq) Hw1 ltac:(by rewrite En)) as Hval. cbn zeta in Hval. rewrite Et in Hval. fold o in Hval. rewrite (Hval Ha), (wide_entry v v1 c Hw Hc (q_stays _ _ Hq)).
  rewrite free_cons by lia. set (n1 := if entry v c =? 0 then n + 1 else n). assert (En1 : n1 = n + (if entry v c =? 0 then 1 else 0)) by (unfold n1; destruct (entry v c =? 0); lia).
  destruct (Z.eqb_spec (n_fatent (fatfs v) - c - 1) 0) as [Hend|Hend].
  - apply fwp_ret. split; [done|]. left. rewrite free_none by lia. f_equal. lia.
  - pose proof (walks_next v1 c (o mod SS) Hw1 ltac:(by rewrite En)) as Hnext. cbn zeta in Hnext. rewrite Et, Eb in Hnext. fold o in Hnext. specialize (Hnext Ha eq_refl).
    replace (n_fatent (fatfs v) - c - 1) with (n_fatent (fatfs v1) - (c + 1)) by lia. rewrite <- Et at 1.
    eapply fwp_mono; [|apply (IH v1 (c + 1)); [apply Hq|done|lia|done|lia]].
    intros x v2 (Hq2 & Hx). split; [by eapply quiet_trans|]. destruct Hx as [->|Hx]; [left|by right]. rewrite (free_same v v1); [f_equal; lia|].
    intros y Hy%elem_of_seqZ. apply wide_entry; [done|lia|apply Hq].
Qed.

(** ** The answer *)

(** The count stored in the object. *)
Definition exact v : Prop := free_clust (fatfs v) = free v.

(** The first two entries are no clusters and not 0. *)
Definition reserved v : Prop := entry v 0 <> 0 /\ entry v 1 <> 0.

Lemma free_all v : table_ok (fatfs v) -> reserved v -> zlen (free_among v (seqZ 0 (n_fatent (fatfs v)))) = free v.
Proof using.
  intros [_ _ Hs _ _] [H0 H1]. rewrite free_cons by lia. change (0 + 1) with 1. rewrite (free_cons v 1) by lia. change (1 + 1) with 2. rewrite (proj2 (Z.eqb_neq _ _) H0), (proj2 (Z.eqb_neq _ _) H1).
  unfold free. replace (n_fatent (fatfs v) - 1 - 1) with (n_fatent (fatfs v) - 2) by lia. lia.
Qed.

Lemma reserved_stays v v' : table_ok (fatfs v) -> stays v v' -> reserved v -> reserved v'.
Proof using.
  intros Ht Hst [R0 R1]. assert (E : forall c, 0 <= c < 2 -> entry v' c = entry v c).
  { intros c Hc. assert (H2 : cluster (fatfs v) 2) by (pose proof (t_some _ Ht); unfold cluster; lia). destruct (entry_in_table _ _ Ht H2) as [_ H].
    unfold entry. replace (fs_type (fatfs v')) with (fs_type (fatfs v)) by (by rewrite (st_same _ _ Hst)). apply entry_of_ext; [lia|]. intros i Hi. apply fat_byte_stays; [apply Ht|done|].
    assert (Hm : 0 <= entry_at (fs_type (fatfs v)) c <= entry_at (fs_type (fatfs v)) 2).
    { unfold entry_at. assert (c = 0 \/ c = 1) as [-> | ->] by lia; destruct (fs_type (fatfs v) =? FS_FAT12), (fs_type (fatfs v) =? FS_FAT16); done. }
    unfold in_table. lia. }
  unfold reserved. by rewrite !E by lia.
Qed.

(** The volume with another count of free clusters. *)
Lemma recount v n b : win_ok v -> let v' := mkVol (with_fsinfo b (last_clust (fatfs v)) n (fatfs v)) (dev v) in
  win_ok v' /\ alike (fatfs v) (fatfs v') /\ free v' = free v /\ forall s, view v' s = view v s.
Proof using. intros Hok v'. destruct (kept_counts v b (last_clust (fatfs v)) n Hok) as [H1 H2 _ _ _]. by split_and!. Qed.

(** What the call leaves: the views of all sectors, and the count. *)
Definition counted v v' : Prop :=
  win_ok v' /\ alike (fatfs v) (fatfs v') /\ (forall s, primary (fatfs v) s -> view v' s = view v s) /\
  last_clust (fatfs v') = last_clust (fatfs v) /\ exact v'.

Lemma counted_quiet v v' n b :
  table_ok (fatfs v) -> quiet v v' -> n = free v -> counted v (mkVol (with_fsinfo b (last_clust (fatfs v')) n (fatfs v')) (dev v')).
Proof using.
  intros Ht Hq ->. destruct (recount v' (free v) b (q_ok _ _ Hq)) as (H1 & H2 & H3 & H4). split_and!; [done|etrans; [by apply quiet_alike|done]| | |].
  - intros t Hs. rewrite H4. by apply (st_view _ _ (q_stays _ _ Hq)).
  - cbn. by rewrite (st_same _ _ (q_stays _ _ Hq)).
  - unfold exact. rewrite H3. by rewrite (free_stays v v' Ht (q_stays _ _ Hq)).
Qed.

Lemma getfree_count_ok v :
  win_ok v -> table_ok (fatfs v) -> reserved v ->
  fwp (if fs_type (fatfs v) =? FS_FAT12 then count_entries (Z.to_nat (n_fatent (fatfs v))) 2 0
       else count_table (Z.to_nat (n_fatent (fatfs v))) (fs_type (fatfs v)) (n_fatent (fatfs v)) (fatbase (fatfs v)) 0 0 0)
    (fun x v' => quiet v v' /\ (x = (FR_OK, free v) \/ x.1 = FR_INT_ERR /\ damaged v \/ x.1 = FR_DISK_ERR /\ ~ sound)) v.
Proof using.
  intros Hok Ht Hre. pose proof (t_some _ Ht) as Hn. destruct (Z.eqb_spec (fs_type (fatfs v)) FS_FAT12) as [E|E].
  - eapply fwp_mono; [|apply (count_entries_ok _ v 2 0); [done|done|unfold cluster; lia|lia]]. intros x v' [Hq Hx]. by split.
  - assert (E0 : n_fatent (fatfs v) - 0 = n_fatent (fatfs v)) by lia. assert (Hw : wide (fatfs v)) by done.
    assert (Hwk : walks v 0 (fatbase (fatfs v)) 0 0) by (left; rewrite Z.mul_0_r; split; [done|]; split; [done|]; change (0 / SS) with 0; lia).
    pose proof (count_table_ok (Z.to_nat (n_fatent (fatfs v))) v 0 (fatbase (fatfs v)) 0 0 0 Hok Hw ltac:(lia) Hwk ltac:(lia)) as Hrun. rewrite E0, free_all, Z.add_0_l in Hrun by done.
    eapply fwp_mono; [|exact Hrun]. intros x v' [Hq Hx]. split; [done|]. destruct Hx as [Hx|Hx]; [by left|by right; right].
Qed.

Lemma f_getfree_ok (s : fsys (DK := DK)) path :
  sound -> win_ok (volume s) -> table_ok (fatfs (volume s)) -> mounted_ready s -> no_drive path ->
  exact (volume s) \/ reserved (volume s) /\ n_fatent (fatfs (volume s)) - 2 < free_clust (fatfs (volume s)) ->
  gwp (f_getfree path) (fun x s' => x = (FR_OK, Some (free (volume s))) /\ counted (volume s) (volume s') \/
    x.1 = FR_INT_ERR /\ damaged (volume s) /\ ~ exact (volume s)) s.
Proof using.
  intros S Hok Ht Hmr Hnd Hst. pose proof (t_some _ Ht) as Hn. pose proof (free_range _ Ht) as Hfr.
  pose proof (n_small _ Ht) as Hn28.
  unfold f_getfree. apply gwp_bind. eapply gwp_mono; [|by apply chk_mounted_ready]. intros [r0 path0] s1 ([= -> ->] & Hq & Hf & _). rewrite decide_True by done.
  apply gwp_vol, fwp_bind, fwp_get. rewrite Hf, (wrap_small 32) by (unfold fits; lia). destruct (Z.leb_spec (free_clust (fatfs (volume s))) (n_fatent (fatfs (volume s)) - 2)) as [Hle|Hgt].
  - destruct Hst as [Hex|]; [|lia]. apply fwp_ret. left. rewrite Hex. split; [done|]. cbn [volume with_volume]. split_and!; [apply Hq|by apply quiet_alike| | |].
    + intros t Hs. by apply (st_view _ _ (q_stays _ _ Hq)).
    + by rewrite Hf.
    + unfold exact. by rewrite Hf, (free_stays _ _ Ht (q_stays _ _ Hq)).
  - destruct Hst as [Hex|[Hre _]]; [unfold exact in Hex; lia|]. pose proof (quiet_alike _ _ Hq) as Ha. pose proof (free_stays _ _ Ht (q_stays _ _ Hq)) as Efr.
    pose proof (reserved_stays _ _ Ht (q_stays _ _ Hq) Hre) as Hre1.
    apply fwp_bind. rewrite <- Hf. eapply fwp_mono; [|apply (getfree_count_ok (volume s1)); [apply Hq|by eapply alike_table|done]].
    intros [r n] v2 (Hq2 & Hx). pose proof (quiet_trans _ _ _ Hq Hq2) as Hq3. apply fwp_bind, fwp_mod, fwp_bind.
    assert (Hend : forall b, (r, Some n) = (FR_OK, Some (free (volume s))) /\ counted (volume s) (mkVol (with_fsinfo b (last_clust (fatfs v2)) n (fatfs v2)) (dev v2)) \/
      r = FR_INT_ERR /\ damaged (volume s) /\ ~ exact (volume s)).
    { intros b. destruct Hx as [[= -> ->]|[[H1 (x & Hx & E)]|[_ Hns]]]; [left|right|done].
      - split; [by rewrite Efr|]. by apply counted_quiet.
      - split; [done|]. split; [|unfold exact; lia]. assert (Hx0 : cluster (fatfs (volume s)) x) by (by apply (alike_cluster _ _ _ Ha)). exists x. split; [done|].
        by rewrite <- (entry_stays _ _ x Ht (q_stays _ _ Hq) Hx0). }
    destruct (fs_type (fatfs (volume s1)) =? FS_FAT32); [apply fwp_mod|apply fwp_ret]; apply fwp_ret; cbn [volume with_volume fatfs dev]; [apply (Hend true)|apply (Hend (fsi_flag (fatfs v2)))].
Qed.

(** ** An exact count stays exact *)

(** Where the entries [l] became free, or were before. *)
Lemma free_more v v' l :
  n_fatent (fatfs v') = n_fatent (fatfs v) -> NoDup l -> (forall x, x ∈ l -> cluster (fatfs v) x /\ entry v x <> 0) ->
  (forall x, cluster (fatfs v) x -> entry v' x = 0 <-> entry v x = 0 \/ x ∈ l) -> free v' = free v + zlen l.
Proof using.
  intros Hn Hnd Hl He. unfold free. rewrite Hn. set (s := seqZ 2 (n_fatent (fatfs v) - 2)).
  assert (Hs : forall x, x ∈ s <-> cluster (fatfs v) x) by (intros x; unfold s; rewrite elem_of_seqZ; unfold cluster; lia).
  assert (Hp : free_among v' s ≡ₚ l ++ free_among v s).
  { apply NoDup_Permutation; [by apply NoDup_filter, NoDup_seqZ|apply NoDup_app; split_and!; [done| |by apply NoDup_filter, NoDup_seqZ]|].
    - intros x Hx [H0 _]%list_elem_of_filter. by destruct (Hl x Hx).
    - intros x. unfold free_among. rewrite elem_of_app, !list_elem_of_filter, Hs. split.
      + intros [H0 Hx]. apply He in H0; [|done]. tauto.
      + intros [Hx|[H0 Hx]]; [destruct (Hl x Hx) as [Hc _]|]; (split; [|done]); apply He; tauto. }
  unfold zlen. rewrite Hp, length_app. lia.
Qed.

Lemma removed_exact v c l r d v' : sound -> table_ok (fatfs v) -> exact v -> chain v c l -> removed c l d v r v' -> free v' = free v + zlen l /\ exact v'.
Proof using.
  intros S Ht Hex Hch Hr. pose proof (k_alike _ _ (rm_kept _ _ _ _ _ _ Hr)) as Ha. destruct (removed_chain _ _ _ _ _ _ _ S Hch Hr) as [-> _].
  pose proof (chain_nodup _ _ _ Hch) as Hnd. pose proof Hch as (_ & Hall & _). pose proof (t_some _ Ht).
  assert (Hmore : free v' = free v + zlen l).
  { apply free_more; [by rewrite Ha|done| |].
    - intros x Hx. split; [by apply (proj1 (Forall_forall _ _) Hall)|]. pose proof (path_links _ _ _ _ _ (rm_path _ _ _ _ _ _ Hr) Hx). lia.
    - intros x Hx. destruct (decide (x ∈ l)) as [Hin|Hin]; [rewrite (rm_freed _ _ _ _ _ _ Hr x Hin); tauto|].
      destruct (rm_others _ _ _ _ _ _ Hr x Hx Hin) as [->|(? & _)]; [tauto|done]. }
  split; [done|]. unfold exact. rewrite Hmore, (rm_free _ _ _ _ _ _ Hr); [by rewrite Hex|rewrite Hex; apply (free_range _ Ht)|].
  pose proof (used_bound _ Ht). pose proof (free_range _ Ht). rewrite Hex. pose proof (n_small _ Ht). unfold UNKNOWN. lia.
Qed.

(** The table as it was, or one free cluster less. *)
Lemma created_exact v c r v' :
  sound -> table_ok (fatfs v) -> alike (fatfs v) (fatfs v') -> exact v -> c = 0 \/ cluster (fatfs v) c -> created c v r v' ->
  ((forall x, cluster (fatfs v) x -> entry v' x = entry v x) /\ free v' = free v \/
   cluster (fatfs v) r /\ entry v r = 0 /\ free v' = free v - 1) /\ exact v'.
Proof using.
  intros S Ht Ha Hex Hc Hcr. pose proof (t_some _ Ht). pose proof (n_small _ Ht) as Hn28. pose proof (free_range _ Ht) as Hfr.
  assert (Hn : n_fatent (fatfs v') = n_fatent (fatfs v)) by (by rewrite Ha).
  assert (Hsame : (forall x, cluster (fatfs v) x -> entry v' x = entry v x) -> free_clust (fatfs v') = free_clust (fatfs v) -> free v' = free v /\ exact v').
  { intros Ho Hfc. assert (E : free v' = free v).
    { unfold free. rewrite Hn. f_equal. apply free_same. intros x Hx%elem_of_seqZ. apply Ho. unfold cluster. lia. }
    split; [done|]. unfold exact. by rewrite Hfc, E. }
  destruct Hcr as [v' Hall Ho _ _ Hfc|v' Hcc Hf Ho _ Hfc|v' Hbad Ho Hfc|n v' Hnc E En Ec Ho Hs Hl Hfc|n v' Hs Ho E]; [| | | |done].
  1-3: by destruct (Hsame Ho Hfc) as [-> ?]; split; [left; split|].
  assert (Hne : n <> c) by (intros ->; destruct Hnc; specialize (Hs S ltac:(lia)); lia).
  assert (Hmore : free v = free v' + zlen [n]).
  { apply free_more; [done|apply NoDup_singleton| |].
    - intros x ->%list_elem_of_singleton. split; [by apply (alike_cluster _ _ _ Ha)|]. rewrite (En Hne). pose proof (mark_outside _ Ht). lia.
    - intros x Hx. apply (alike_cluster _ _ _ Ha) in Hx. rewrite list_elem_of_singleton. destruct (decide (x = n)) as [->|Hxn]; [tauto|]. destruct (decide (x = c)) as [->|Hxc].
      + destruct Hx as [Hx1 Hx2]. specialize (Hs S ltac:(lia)). rewrite (Ec ltac:(lia)). destruct Hnc. lia.
      + rewrite Ho by done. tauto. }
  change (zlen [n]) with 1 in Hmore. split; [right; split_and!; [done|done|lia]|]. unfold exact. rewrite Hfc, Hex, (proj2 (Z.eqb_neq _ _)) by (unfold UNKNOWN; lia).
  pose proof (free_range v' ltac:(by eapply alike_table)). rewrite wrap_small by (unfold fits; lia). lia.
Qed.

(** ** Between two calls *)

Lemma f_getfree_steady path : steady (f_getfree (DK := DK) path).
Proof using.
  unfold f_getfree. apply steady_bind; [apply chk_mounted_steady|intros [r p]]. destruct (decide _); [apply steady_vol|apply steady_ret].
Qed.

Lemma counted_entry v v' x : table_ok (fatfs v) -> counted v v' -> cluster (fatfs v) x -> entry v' x = entry v x.
Proof using. intros Ht (_ & Ha & Hv & _) Hx. apply entry_views; [done|done| |done]. intros t Hp _. by apply Hv. Qed.

Lemma counted_free v v' : table_ok (fatfs v) -> counted v v' -> free v' = free v.
Proof using.
  intros Ht Hc. pose proof Hc as (_ & Ha & _). unfold free. replace (n_fatent (fatfs v')) with (n_fatent (fatfs v)) by (by rewrite Ha). f_equal. apply free_same.
  intros x Hx%elem_of_seqZ. apply counted_entry; [done|done|unfold cluster; lia].
Qed.

Lemma counted_chain v v' c l : table_ok (fatfs v) -> counted v v' -> chain v c l -> chain v' c l.
Proof using.
  intros Ht Hc Hch. pose proof Hc as (_ & Ha & _). pose proof Hch as (_ & Hl & _). apply (chain_entries v); [done| |done]. intros x Hx.
  apply counted_entry; [done|done|by apply (proj1 (Forall_forall _ _) Hl)].
Qed.

(** What the next call answers where the count is exact. *)
Lemma next_answer (s : fsys (DK := DK)) path v2 :
  sound -> table_ok (fatfs (volume s)) -> mounted_ready s -> no_drive path -> win_ok v2 -> alike (fatfs (volume s)) (fatfs v2) -> exact v2 ->
  exists s3, f_getfree path (with_volume s v2) = Some ((FR_OK, Some (free v2)), s3).
Proof using.
  intros S Ht Hmr Hnd Hok Ha Hex. assert (Hmr2 : mounted_ready (with_volume s v2)) by (apply (mounted_stays s); [done|done|done|by cbn; rewrite Ha]).
  destruct (gwp_run _ _ _ (f_getfree_ok (with_volume s v2) path S Hok ltac:(by eapply alike_table) Hmr2 Hnd (or_introl Hex))) as (x & s3 & Hrun & Hx).
  exists s3. rewrite Hrun. destruct Hx as [[-> _]|(_ & _ & H)]; [done|by destruct H].
Qed.

(** (C10) The number of free clusters is right, and stays right: where the stored count is
    exact, or unknown and the table has no damaged entry, [f_getfree] ends with the number
    of entries that are 0 and keeps that count; after a chain was removed the next
    call answers its length more; and after [create_chain] it answers the number of
    entries that are 0 then: one less where a free cluster was taken, and the same where
    the table was left as it was. *)
Theorem free_space_is_exact (s : fsys (DK := DK)) path :
  sound -> win_ok (volume s) -> table_ok (fatfs (volume s)) -> mounted_ready s -> no_drive path -> 0 <= last_clust (fatfs (volume s)) ->
  exact (volume s) \/ reserved (volume s) /\ n_fatent (fatfs (volume s)) - 2 < free_clust (fatfs (volume s)) /\ ~ damaged (volume s) ->
  exists s1, f_getfree path s = Some ((FR_OK, Some (free (volume s))), s1) /\ counted (volume s) (volume s1) /\
    (forall c l, chain (volume s) c l -> exists v2 s3, remove_chain c (volume s1) = Some (FR_OK, v2) /\
      f_getfree path (with_volume s1 v2) = Some ((FR_OK, Some (free (volume s) + zlen l)), s3)) /\
    (forall c, c = 0 \/ cluster (fatfs (volume s)) c -> exists r v2 s3, create_chain c (volume s1) = Some (r, v2) /\
      f_getfree path (with_volume s1 v2) = Some ((FR_OK, Some (free v2)), s3) /\
      ((forall x, cluster (fatfs (volume s)) x -> entry v2 x = entry (volume s) x) /\ free v2 = free (volume s) \/
       cluster (fatfs (volume s)) r /\ entry (volume s) r = 0 /\ free v2 = free (volume s) - 1)).
Proof using.
  intros S Hok Ht Hmr Hnd Hlast Hst.
  destruct (gwp_run (f_getfree path) (fun x s1 => mounted_ready s1 /\ x = (FR_OK, Some (free (volume s))) /\ counted (volume s) (volume s1)) s) as (x & s1 & Hrun & Hmr1 & -> & Hc).
  { apply gwp_steady; [apply f_getfree_steady|done|]. eapply gwp_mono; [|apply f_getfree_ok; try done; tauto].
    intros x s1 [[-> Hc]|(_ & Hd & Hne)] Hs; [|tauto]. split; [apply Hs; pose proof Hc as (_ & Ha & _); by rewrite Ha|done]. }
  pose proof Hc as (Hok1 & Ha1 & _ & Hl1 & Hex1). pose proof (alike_table _ _ Ha1 Ht) as Ht1. pose proof (counted_free _ _ Ht Hc) as Hf1.
  exists s1. split; [done|]. split; [done|]. split.
  - intros c l Hch%(counted_chain _ _ _ _ Ht Hc). pose proof (chain_cluster _ _ _ _ _ Hch (chain_first _ _ _ Hch)) as Hcl.
    destruct (fwp_run _ _ _ (remove_chain_ok (volume s1) c Hok1 Ht1 Hcl)) as (r & v2 & Hrun2 & l' & d & Hr).
    destruct (removed_chain _ _ _ _ _ _ _ S Hch Hr) as [-> ->]. destruct (removed_exact _ _ _ _ _ _ S Ht1 Hex1 Hch Hr) as [Hf2 Hex2].
    destruct (next_answer s1 path v2) as (s3 & Hrun3); try done; [apply Hr..|]. exists v2, s3. by rewrite <- Hf1, <- Hf2.
  - intros c Hcl. assert (Hcl1 : c = 0 \/ cluster (fatfs (volume s1)) c) by (rewrite (alike_cluster _ _ _ Ha1); done).
    destruct (fwp_run _ _ _ (create_chain_ok (volume s1) c Hok1 Ht1 Hcl1 ltac:(by rewrite Hl1))) as (r & v2 & Hrun2 & Hk & Hcr).
    destruct (created_exact _ _ _ _ S Ht1 (k_alike _ _ Hk) Hex1 Hcl1 Hcr) as [Hf2 Hex2].
    destruct (next_answer s1 path v2) as (s3 & Hrun3); try done; [apply Hk..|]. exists r, v2, s3. split; [done|]. split; [done|]. rewrite <- Hf1.
    destruct Hf2 as [[Ho E]|(H1 & H2 & E)]; [left|right].
    + split; [|done]. intros x Hx. rewrite <- (counted_entry _ _ _ Ht Hc Hx). apply Ho. by apply (alike_cluster _ _ _ Ha1).
    + apply (alike_cluster _ _ _ Ha1) in H1. by rewrite <- (counted_entry _ _ _ Ht Hc H1).
Qed.

End FatFree.
