(* ===== verification/FatList.v ===== *)
(** * Listing a directory

    A listing shows the entries of a directory up to its end mark, but for the deleted
    ones and the volume labels; [f_opendir] and [f_readdir] deliver it entry by entry. *)

From S2P Require Import Prelude Diskio FatVol FatBytes FatWin FatTable FatChain FatMount FatName FatDir FatFile FatPath FatData FatRead FatWrite FatScan FatOpen.

(** A listing shows the entry. *)
Definition listed (e : list Z) : bool := negb (byte_at e 0 =? DDE) && (Z.land (ent_attr e) AM_VOL =? 0).

(** What it tells of it. *)
Definition entry_info (e : list Z) : FILINFO :=
  mkInfo (ent_size e) (LD_WORD (take 2 (drop (Z.to_nat DIR_WrtDate) e))) (LD_WORD (take 2 (drop (Z.to_nat DIR_WrtTime) e)))
    (ent_attr e) (name_text (take 11 e) ++ [0]).

Section FatList.

Context {DK : Type} {HD : Disk DK} {HS : Store DK}.

Implicit Types v : vol (DK := DK).

(** At most [n] entries from [i] on. *)
Fixpoint listing_of v (l : list Z) (n : nat) (i : Z) : list (list Z) :=
  match n with
  | O => []
  | S n => if byte_at (dentry v l i) 0 =? 0 then [] else (if listed (dentry v l i) then [dentry v l i] else []) ++ listing_of v l n (i + 1)
  end.

(** The listing of the directory in the clusters [l] from its entry [i] on. *)
Definition listing v (l : list Z) (i : Z) : list (list Z) := listing_of v l (Z.to_nat (entries (fatfs v) l - i)) i.

Lemma listing_end v l i : entries (fatfs v) l <= i -> listing v l i = [].
Proof using. intros Hi. unfold listing. replace (Z.to_nat _) with 0%nat by lia. done. Qed.

Lemma listing_step v l i :
  i < entries (fatfs v) l ->
  listing v l i = if byte_at (dentry v l i) 0 =? 0 then [] else (if listed (dentry v l i) then [dentry v l i] else []) ++ listing v l (i + 1).
Proof using. intros Hi. unfold listing. replace (entries (fatfs v) l - i) with (Z.succ (entries (fatfs v) l - (i + 1))) by lia. by rewrite Z2Nat.inj_succ by lia. Qed.

Lemma listing_of_ext v v' l n i : (forall k, i <= k < i + Z.of_nat n -> dentry v' l k = dentry v l k) -> listing_of v' l n i = listing_of v l n i.
Proof using.
  revert i. induction n as [|n IH]; intros i H; [done|]. cbn [listing_of]. rewrite (H i) by lia. by rewrite IH by (intros k Hk; apply H; lia).
Qed.

Lemma listing_stays v v' c l i : layout (fatfs v) -> directory v c l -> stays v v' -> 0 <= i -> listing v' l i = listing v l i.
Proof using.
  intros Hl Hd Hst Hi. unfold listing. rewrite (entries_ext _ _ l (same_alike _ _ (st_same _ _ Hst))). apply listing_of_ext.
  intros k Hk. apply (dentry_stays v v' c); [done|done|unfold entries in Hk; lia|done].
Qed.

(** ** The next entry *)

Definition found_next v l i dj (x : FRESULT * DIR) v' : Prop :=
  quiet v v' /\ same_dir dj x.2 /\
  ((exists j, x.1 = FR_OK /\ i <= j < entries (fatfs v) l /\ listing v l i = dentry v l j :: listing v l (j + 1) /\ showing v' l j x.2) \/
   x.1 = FR_NO_FILE /\ listing v l i = [] \/
   x.1 = FR_DISK_ERR /\ ~ sound).

Lemma read_loop_ok fuel v c l i dj r0 :
  win_ok v -> layout (fatfs v) -> directory v c l -> 0 <= i < entries (fatfs v) l -> dir_at (fatfs v) l i dj ->
  entries (fatfs v) l - i <= Z.of_nat fuel -> fwp (read_loop fuel r0 dj) (found_next v l i dj) v.
Proof using.
  revert v i dj r0. induction fuel as [|n IH]; intros v i dj r0 Hok Hl Hd Hi Hat Hfuel; [lia|]. cbn [read_loop]. assert (Hir : 0 <= i < room (fatfs v) l) by (unfold entries in Hi; lia).
  destruct (dsector_primary v c l i Hl Hd Hir) as [Hp _]. rewrite (da_sect _ _ _ _ Hat) at 1. rewrite (proj2 (Z.eqb_neq (dsector _ _ _) 0)) by (by apply (primary_pos _ _ (w_geo _ Hok))).
  apply fwp_bind. eapply fwp_mono; [|by eapply show_entry]. intros r v1 [Hq [[-> Hs]|[-> Hns]]].
  2: { rewrite decide_False by done. apply fwp_ret. split; [done|]. split; [apply same_dir_refl|]. by right; right. }
  rewrite decide_True by done. pose proof (dentry_stays v v1 c l i Hl Hd Hir (q_stays _ _ Hq)) as He. pose proof (listing_step v l i ltac:(lia)) as Hstep.
  apply fwp_bind. eapply fwp_ent_byte; [done|done|]. rewrite He. change DIR_Name with 0 in *. destruct (Z.eqb_spec (byte_at (dentry v l i) 0) 0) as [E0|E0].
  { apply fwp_ret. split; [done|]. split; [apply same_dir_refl|]. by right; left. }
  apply fwp_bind. eapply fwp_ent_byte; [done|done|]. rewrite He. fold (ent_attr (dentry v l i)) (listed (dentry v l i)).
  destruct (listed (dentry v l i)).
  { apply fwp_ret. split; [done|]. split; [apply same_dir_refl|]. left. exists i. split_and!; try done; lia. }
  pose proof (quiet_alike _ _ Hq) as Ha. pose proof (entries_ext _ _ l Ha) as Ee. pose proof (directory_stays _ _ _ _ (ly_table _ Hl) (q_stays _ _ Hq) Hd) as Hd1.
  apply fwp_bind. eapply fwp_mono; [|apply (dir_next_ok v1 c l i dj false); [apply Hs|by eapply alike_layout|done|by rewrite Ee|apply Hs|done]].
  intros [r dj'] v2 (Hq2 & Hsd & Hx). cbn [fst snd] in *. pose proof (quiet_trans _ _ _ Hq Hq2) as Hq3. pose proof (quiet_alike _ _ Hq3) as Ha3.
  destruct Hx as [(-> & Hlt & Hat')|[(-> & Hge)|[-> Hns]]]; rewrite ?Ee in *.
  - rewrite decide_True by done. pose proof (entries_ext _ _ l Ha3) as Ee3. pose proof (directory_stays _ _ _ _ (ly_table _ Hl) (q_stays _ _ Hq3) Hd) as Hd2.
    eapply fwp_mono; [|apply (IH v2 (i + 1) dj'); [apply Hq2|by eapply alike_layout|done|rewrite Ee3; lia|by apply (dir_at_alike (fatfs v1)); [apply quiet_alike|]|rewrite Ee3; lia]].
    intros x v3 (Hq4 & Hsd2 & Hy). rewrite Ee3, (listing_stays v v2 c) in Hy by (done || apply Hq3 || lia).
    split; [by eapply quiet_trans|]. split; [by eapply same_dir_trans|]. rewrite Hstep. cbn [app].
    destruct Hy as [(j & Hr & Hj & Hls & Hsh)|[Hy|Hy]]; [left; exists j|by right; left|by right; right].
    rewrite (listing_stays v v2 c), (dentry_stays v v2 c) in Hls by (done || apply Hq3 || (unfold entries in Hj; lia)). split_and!; try done; lia.
  - rewrite decide_False by done. apply fwp_ret. split; [done|]. split; [done|]. right. left. rewrite Hstep, (listing_end v l (i + 1)) by lia. done.
  - rewrite decide_False by done. apply fwp_ret. split; [done|]. split; [done|]. by right; right.
Qed.

(** ** An open directory *)

(** The object is at an entry with this listing behind, or at the end. *)
Definition to_list v (l : list Z) (dj : DIR) (es : list (list Z)) : Prop :=
  (exists i, 0 <= i < entries (fatfs v) l /\ dir_at (fatfs v) l i dj /\ listing v l i = es) \/ d_sect dj = 0 /\ es = [].

Record open_dir v (dj : DIR) (l : list Z) (es : list (list Z)) : Prop := {
  od_fs : d_fs dj = true;
  od_type : fs_type (fatfs v) <> 0;
  od_id : d_id dj = fs_id (fatfs v);
  od_dir : directory v (d_sclust dj) l;
  od_rest : to_list v l dj es
}.

Lemma open_dir_stays v v' dj l es : layout (fatfs v) -> stays v v' -> open_dir v dj l es -> open_dir v' dj l es.
Proof using.
  intros Hl Hst [H1 H2 H3 H4 H5]. pose proof (same_alike _ _ (st_same _ _ Hst)) as Ha.
  split; [done|by rewrite Ha|by rewrite Ha|by eapply directory_stays; [apply Hl|..]|].
  destruct H5 as [(i & Hi & Hat & <-)|H5]; [left; exists i|by right].
  rewrite (entries_ext _ _ l Ha), (listing_stays v v' (d_sclust dj)) by (done || lia). split_and!; [lia|lia|by apply (dir_at_alike (fatfs v))|done].
Qed.

(** The rest of an entry's way: the object behind it. *)
Lemma open_dir_next v dj l es i : directory v (d_sclust dj) l -> d_fs dj = true -> fs_type (fatfs v) <> 0 -> d_id dj = fs_id (fatfs v) ->
  0 <= i < entries (fatfs v) l -> dir_at (fatfs v) l i dj -> listing v l i = es -> open_dir v dj l es.
Proof using. intros. split; try done. left. by exists i. Qed.

Lemma dir_read_ok v l dj es :
  win_ok v -> layout (fatfs v) -> directory v (d_sclust dj) l -> to_list v l dj es ->
  fwp (dir_read dj) (fun x v' => quiet v v' /\ same_dir dj x.2 /\
    (match es with
     | e :: es' => exists j, x.1 = FR_OK /\ 0 <= j < entries (fatfs v) l /\ e = dentry v l j /\ es' = listing v l (j + 1) /\ showing v' l j x.2
     | [] => x.1 = FR_NO_FILE /\ d_sect x.2 = 0
     end \/ x.1 = FR_DISK_ERR /\ ~ sound)) v.
Proof using.
  intros Hok Hl Hd Hes. unfold dir_read. apply fwp_bind. destruct Hes as [(i & Hi & Hat & <-)|[H0 ->]].
  - eapply fwp_mono; [|apply (read_loop_ok _ v (d_sclust dj) l i); try done; unfold entries, dir_turns; lia].
    intros [r dj'] v' (Hq & Hs & Hx). cbn [fst snd] in *. apply fwp_ret. cbn [fst snd]. split; [done|].
    destruct Hx as [(j & -> & Hj & -> & Hsh)|[[-> ->]|[-> Hns]]]; rewrite ?decide_True, ?decide_False by done; (split; [done|]); [left|by left|by right].
    exists j. split_and!; try done; lia.
  - unfold dir_turns. destruct (Z.to_nat 65536) eqn:E; [lia|]. cbn [read_loop]. rewrite H0. apply fwp_ret, fwp_ret. rewrite decide_False by done.
    split; [by apply quiet_refl|]. split; [by repeat split|]. by left.
Qed.

Lemma fileinfo_ok v l i dj fno (Q : FILINFO -> vol -> Prop) :
  showing v l i dj -> d_sect dj <> 0 -> Q (entry_info (dentry v l i)) v -> fwp (get_fileinfo dj fno) Q v.
Proof using.
  intros Hs Hne HQ. unfold get_fileinfo. rewrite (proj2 (Z.eqb_neq _ _)) by done.
  apply fwp_bind. eapply fwp_ent_bytes; [done|done|done|done|]. apply fwp_bind. eapply fwp_ent_byte; [done|done|].
  do 3 (apply fwp_bind; eapply fwp_ent_bytes; [done|done|done|done|]). by apply fwp_ret.
Qed.

(** ** One call *)

(** The answer when [es] are still to be listed. *)
Definition listed_info (fno : FILINFO) (es : list (list Z)) : FILINFO :=
  match es with [] => mkInfo (fi_size fno) (fi_date fno) (fi_time fno) (fi_attrib fno) [0] | e :: _ => entry_info e end.

Lemma end_of_dir_end (dj : DIR) : end_of_dir (FR_NO_FILE, dj) = (FR_OK, set_sect 0 dj).
Proof using. unfold end_of_dir. by rewrite decide_True. Qed.

Lemma end_of_dir_other r (dj : DIR) : r <> FR_NO_FILE -> end_of_dir (r, dj) = (r, dj).
Proof using. intros Hr. unfold end_of_dir. by rewrite decide_False. Qed.

Lemma f_readdir_ok sfn (s : fsys) dj fno l es :
  drive_ready -> win_ok (volume s) -> layout (fatfs (volume s)) -> open_dir (volume s) dj l es ->
  gwp (f_readdir sfn dj (Some fno)) (fun x s' => quiet (volume s) (volume s') /\
    (x.1.1 = FR_OK /\ x.2 = Some (listed_info fno es) /\ open_dir (volume s') x.1.2 l (tail es) \/ x.1.1 = FR_DISK_ERR /\ ~ sound)) s.
Proof using.
  intros Hdr Hok Hl [O1 O2 O3 O4 O5]. unfold f_readdir. rewrite O1. apply gwp_bind. eapply gwp_mono; [|by apply validate_ready].
  intros r0 s1 (-> & Hq1 & Hf1). rewrite decide_True by done. pose proof (quiet_alike _ _ Hq1) as Ha1. pose proof (alike_layout _ _ Ha1 Hl) as Hl1.
  pose proof (open_dir_stays _ _ _ _ _ Hl (q_stays _ _ Hq1) (Build_open_dir _ _ _ _ O1 O2 O3 O4 O5)) as [_ P2 P3 P4 P5].
  apply gwp_vol, fwp_bind. eapply fwp_mono; [|apply (dir_read_ok (volume s1) l (set_fn sfn dj) es); [apply Hq1|done|done|]].
  2: { destruct P5 as [(i & Hi & [A1 A2 A3 A4] & He)|P5]; [left; exists i|by right]. split_and!; try done; lia. }
  intros [r1 dj1] v2 (Hq2 & (S1 & S2 & S3 & _) & Hx). cbn [fst snd d_fs d_id d_sclust set_fn] in *. pose proof (quiet_trans _ _ _ Hq1 Hq2) as Hq3.
  pose proof (quiet_alike _ _ Hq3) as Ha3. pose proof (alike_layout _ _ Ha3 Hl) as Hl3. pose proof (directory_stays _ _ _ _ (ly_table _ Hl) (q_stays _ _ Hq3) O4) as Hd3.
  assert (T3 : fs_type (fatfs v2) <> 0) by (by rewrite Ha3). assert (I3 : d_id dj = fs_id (fatfs v2)) by (by rewrite Ha3).
  destruct Hx as [Hx|[-> Hns]].
  2: { rewrite end_of_dir_other, decide_False by done. apply fwp_ret. split; [done|]. by right. }
  destruct es as [|e es]; [destruct Hx as [-> H0]|destruct Hx as (j & -> & Hj & -> & -> & Hsh)].
  - rewrite end_of_dir_end, decide_True by done. unfold get_fileinfo, dir_next. cbn [d_sect set_sect Z.eqb]. cbn zeta.
    rewrite orb_true_r. apply fwp_bind, fwp_ret, fwp_bind, fwp_ret, fwp_ret. rewrite end_of_dir_end. split; [done|]. left. split; [done|]. split; [done|].
    split; cbn; [congruence|done|congruence|by rewrite S3|by right].
  - rewrite end_of_dir_other, decide_True by done.
    pose proof (entries_ext _ _ l (quiet_alike _ _ Hq2)) as Ee2. assert (Hj2 : 0 <= j < entries (fatfs v2) l) by (by rewrite Ee2).
    assert (Hne : d_sect dj1 <> 0).
    { rewrite (da_sect _ _ _ _ (sh_at _ _ _ _ Hsh)). destruct (dsector_primary v2 _ l j Hl3 Hd3) as [Hp _]; [unfold entries in *; lia|].
      by apply (primary_pos _ _ (w_geo _ (sh_ok _ _ _ _ Hsh))). }
    apply fwp_bind. eapply fileinfo_ok; [exact Hsh|done|].
    rewrite (dentry_stays (volume s1) v2 (d_sclust dj)) by (done || apply Hq2 || (unfold entries in Hj; lia)).
    apply fwp_bind. eapply fwp_mono; [|apply (dir_next_ok v2 (d_sclust dj) l j dj1 false); [apply Hsh|done|done|done|apply Hsh|done]].
    intros [r dj'] v3 (Hq4 & (N1 & N2 & N3 & _) & Hx). apply fwp_ret. cbn [fst snd volume with_volume] in *. pose proof (quiet_trans _ _ _ Hq3 Hq4) as Hq5.
    pose proof (quiet_alike _ _ Hq5) as Ha5. split; [done|]. pose proof (entries_ext _ _ l (quiet_alike _ _ Hq4)) as Ee4.
    assert (T5 : fs_type (fatfs v3) <> 0) by (by rewrite Ha5). assert (I5 : d_id dj' = fs_id (fatfs v3)) by (rewrite N2, S2, Ha5; exact O3).
    assert (D5 : directory v3 (d_sclust dj') l) by (rewrite N3, S3; eapply directory_stays; [apply Hl|apply Hq5|done]).
    assert (L5 : listing v3 l (j + 1) = listing (volume s1) l (j + 1)).
    { apply (listing_stays _ _ (d_sclust dj)); [done|done|by apply (q_stays _ _ (quiet_trans _ _ _ Hq2 Hq4))|lia]. }
    destruct Hx as [(-> & Hlt & Hat)|[(-> & Hge)|[-> Hns]]].
    + rewrite end_of_dir_other by done. left. split; [done|]. split; [done|]. cbn [tail fst snd]. rewrite <- L5.
      eapply (open_dir_next v3 _ l _ (j + 1)); [done|congruence|done|done|rewrite Ee4; lia| |done].
      apply (dir_at_alike (fatfs v2)); [by apply quiet_alike|done].
    + rewrite end_of_dir_end. left. split; [done|]. split; [done|]. cbn [tail fst snd]. rewrite <- L5, listing_end by (rewrite Ee4; lia).
      split; cbn; [congruence|done|done|done|by right].
    + rewrite end_of_dir_other by done. by right.
Qed.

(** ** The root directory *)

(** The text 0:/ and its terminator. *)
Definition root_path : list Z := [48; 58; 47; 0].

(** In the root, the path of the current directory. *)
Lemma f_getcwd_root sfn (s : fsys) buf :
  win_ok (volume s) -> mounted_ready s -> cdir (fatfs (volume s)) = 0 -> 4 <= zlen buf < 2 ^ 32 ->
  gwp (f_getcwd sfn buf) (fun x s' => x = (FR_OK, root_path ++ drop 4 buf) /\ quiet (volume s) (volume s') /\
    fatfs (volume s') = fatfs (volume s) /\ mounted_ready s') s.
Proof using.
  intros Hok Hr Hc Hb. unfold f_getcwd, buf_put. apply gwp_bind, gwp_vol.
  rewrite (proj2 (Z.leb_le (0 + zlen [0]) (zlen buf))) by (change (zlen [0]) with 1; lia). apply fwp_ret.
  replace (with_volume s (volume s)) with s by (by destruct s). destruct buf as [|b0 [|b1 [|b2 [|b3 buf]]]]; try (unfold zlen in Hb; cbn in Hb; lia).
  apply gwp_bind. eapply gwp_mono; [|apply chk_mounted_ready; [done|done|by vm_compute]].
  intros [r0 p0] s1 ([= -> ->] & Hq & Hf & Hr1). rewrite decide_True by done. apply gwp_bind, gwp_get, gwp_vol, fwp_bind, fwp_get.
  rewrite Hf, Hc. cbn [cwd_loop d_sclust set_sclust Z.eqb]. apply fwp_bind, fwp_ret. rewrite decide_True by done. rewrite Z.eqb_refl.
  pose proof Hr1 as [_ -> _ _]. apply fwp_bind. change (zlen (mem_cpy _ _ _)) with (zlen (b0 :: b1 :: b2 :: b3 :: buf)).
  rewrite (proj2 (Z.leb_le (0 + zlen _) _)) by exact (proj1 Hb). apply fwp_ret, fwp_ret. replace (with_volume s1 (volume s1)) with s1 by (by destruct s1). done.
Qed.

Lemma f_opendir_root sfn (s : fsys) dj l :
  win_ok (volume s) -> layout (fatfs (volume s)) -> mounted_ready s -> directory (volume s) 0 l ->
  gwp (f_opendir sfn dj root_path) (fun x s' => x.1 = FR_OK /\ open_dir (volume s') x.2 l (listing (volume s) l 0) /\ quiet (volume s) (volume s')) s.
Proof using.
  intros Hok Hl Hr Hd. unfold f_opendir. apply gwp_bind. eapply gwp_mono; [|apply (chk_mounted_drive s root_path [47; 0]); [done|done|]].
  2: { destruct s as [v reg id cur]. reflexivity. }
  intros [r0 p0] s1 ([= -> ->] & Hq & Hf & Hr1). apply gwp_bind, gwp_get. cbn zeta. rewrite (decide_False (P := FR_OK = FR_INVALID_DRIVE)), decide_True by done.
  pose proof Hr1 as [-> _ Ht _]. set (dj1 := set_fn sfn _).
  pose proof (alike_layout _ _ (quiet_alike _ _ Hq) Hl) as Hl1. pose proof (directory_stays _ _ _ _ (ly_table _ Hl) (q_stays _ _ Hq) Hd) as Hd1.
  apply gwp_vol, fwp_bind. unfold follow_path. apply fwp_bind, fwp_get, fwp_bind, fwp_ret. cbn zeta. change (is_sep 47) with true. cbn match. apply fwp_bind, fwp_ret.
  change (0 <? 32) with true. cbn match. apply fwp_bind. eapply fwp_mono; [|by apply (dir_sdi_start (volume s1) 0 l)].
  intros [r1 dj2] v2 (-> & H1 & _ & (S1 & S2 & S3 & _)). cbn [fst snd] in *. subst r1. apply fwp_ret. rewrite decide_True by done. cbn [d_dir set_ptr].
  apply fwp_bind, fwp_bind, fwp_ret. rewrite decide_True by done. apply fwp_bind, fwp_get.
  eapply fwp_mono; [|apply (dir_sdi_start (volume s1) 0 l); [done|done|exact S3]].
  intros [r3 dj3] v3 (-> & H3 & Hat & (T1 & T2 & T3 & _)). cbn [fst snd d_fs d_id d_sclust set_ptr set_id] in *. subst r3. apply fwp_ret. rewrite decide_False by done.
  replace (with_volume s1 (volume s1)) with s1 by (by destruct s1). split; [done|]. split; [|done]. cbn [snd].
  apply (open_dir_next _ _ _ _ 0); [by rewrite T3, S3|by rewrite T1, S1|done|done|split; [lia|by eapply entries_pos]|done|].
  apply (listing_stays _ _ 0); [done|done|apply Hq|lia].
Qed.

End FatList.
