(* ===== verification/FatRuns.v ===== *)
(** * Runs of the file system on a disk in memory

    A small FAT16 volume, on which the theorems of the volume, the table and the
    chains are applied, and what a failed read does to a chain. *)

From S2P Require Import Prelude Diskio FatVol FatBytes FatWin FatRam FatTable FatChain FatMount.

(** A sector of the table with these entries first. *)
Definition table16 (entries : list Z) : list Z := mem_cpy blank 0 (concat (ST_WORD <$> entries)).

(** Sector 8 and its copy in 9 are the table, of twelve entries; the chain from 3
    goes on to 4 and 5. *)
Definition links : list Z := [65528; 65535; 0; 4; 5; 65535].

Definition small_fs : FATFS :=
  mkFs FS_FAT16 0 1 2 false false 1 16 0 UNKNOWN 0 0 12 1 8 10 11 0 blank.

Section Small.

Context {faulty : bool}.

Definition small_disk (l : list bool) : ram faulty := mkRam (<[9 := table16 links]> (<[8 := table16 links]> ∅)) l.

Definition small (l : list bool) : vol := mkVol small_fs (small_disk l).

End Small.

Lemma small_geometry : geometry small_fs.
Proof. by split; cbn; [|right| | |]. Qed.

Lemma small_table : table_ok small_fs.
Proof. split; [apply small_geometry|right; by left|done..]. Qed.

Lemma small_win {faulty} l : win_ok (small (faulty := faulty) l).
Proof. split; [apply small_geometry|apply blank_sector|by left|done|done]. Qed.

(** The same with the table in the window. *)
Definition ready : vol (DK := ram false) := mkVol (with_window false 8 (table16 links) small_fs) (small_disk []).

Lemma ready_table : table_ok (fatfs ready).
Proof. apply (alike_table _ _ (same_alike _ _ (same_window false 8 (table16 links) small_fs)) small_table). Qed.

Lemma ready_primary : primary (fatfs ready) 8.
Proof. split; [done|]. unfold mirror. cbn. lia. Qed.

Lemma ready_win : win_ok ready.
Proof.
  split; [apply ready_table|by apply (bool_decide_unpack _); vm_compute|right; apply ready_primary|done|].
  intros _ _. by vm_compute.
Qed.

(** The chain in the table. *)
Lemma links_chain {faulty} (v : vol (DK := ram faulty)) :
  n_fatent (fatfs v) = 12 -> entry v 3 = 4 -> entry v 4 = 5 -> entry v 5 = 65535 -> chain v 3 [3; 4; 5].
Proof.
  intros Hn E3 E4 E5. split; [done|]. split; [repeat (apply Forall_cons; split; [unfold cluster; lia|]); constructor|]. exists 65535. split; [|by rewrite Hn].
  constructor; rewrite E3; [lia|]. constructor; rewrite E4; [lia|]. constructor; rewrite E5; [lia|]. constructor.
Qed.

Lemma ready_chain : chain ready 3 [3; 4; 5].
Proof. by apply links_chain; vm_compute. Qed.

(** ** The theorems at work *)

Lemma move_window_keeps_volume_witness :
  exists v', move_window 8 (small (faulty := true) [true]) = Some (FR_DISK_ERR, v') /\ win_ok v'.
Proof.
  destruct (move_window_keeps_volume (small (faulty := true) [true]) 8) as (r & v' & Hrun & Hok & _);
    [apply small_win|right; apply ready_primary|].
  assert (E : (fst <$> move_window 8 (small (faulty := true) [true])) = Some FR_DISK_ERR) by (by vm_compute).
  rewrite Hrun in E. injection E as ->. by exists v'.
Defined.

Lemma fat_is_a_map_witness :
  exists v' v2, put_fat 6 5 ready = Some (FR_OK, v') /\ get_fat 6 v' = Some (5, v2).
Proof.
  destruct (fat_is_a_map ready 6 5 ready_win ready_table) as [Hput _]; [done|].
  destruct Hput as (r & v' & Hrun & Hp & Hget); [done|]. pose proof (pr_sound _ _ _ _ _ Hp ram_sound) as ->.
  destruct (Hget 6) as (a & v2 & Hrun2 & _ & Ha); [done|done|]. exists v', v2. split; [done|]. rewrite Hrun2.
  destruct Ha as [-> |[_ Hs]]; [done|]. by destruct (Hs ram_sound).
Defined.

Lemma remove_chain_frees_witness :
  exists v', remove_chain 3 ready = Some (FR_OK, v') /\ entry v' 3 = 0 /\ entry v' 4 = 0 /\ entry v' 5 = 0 /\ entry v' 6 = entry ready 6.
Proof.
  destruct (remove_chain_frees ready 3 ready_win ready_table) as (r & v' & Hrun & _ & _ & Hch); [done|].
  destruct (Hch [3; 4; 5] ram_sound ready_chain) as (-> & He & _). exists v'. split; [done|].
  assert (Hin : forall x, 2 <= x < 12 -> entry v' x = if decide (x ∈ [3; 4; 5]) then 0 else entry ready x) by (intros x Hx; exact (He x Hx)).
  rewrite !Hin by lia. rewrite !decide_True by (rewrite !elem_of_cons; lia). rewrite decide_False by (rewrite !elem_of_cons, elem_of_nil; lia). split; [done|]. split; [done|]. split; reflexivity.
Defined.


(** ** A failed read cuts a chain *)

(** The answer of the first [get_fat] is not compared with the error code.  When
    the sector of the table cannot be read once, the chain 3, 4, 5 that is to be
    followed from 3 is taken to end there: [create_chain] answers a new cluster 6
    and links 3 to it, and 4 and 5 belong to no chain. *)
Theorem create_chain_drops_tail :
  chain (small (faulty := true) [true]) 3 [3; 4; 5] /\
  exists v', create_chain 3 (small (faulty := true) [true]) = Some (6, v') /\ chain v' 3 [3; 6] /\ entry v' 4 = 5 /\ entry v' 5 = 65535.
Proof.
  split; [by apply links_chain; vm_compute|].
  assert (E : exists v', create_chain 3 (small (faulty := true) [true]) = Some (6, v') /\
    (n_fatent (fatfs v'), entry v' 3, entry v' 6, entry v' 4, entry v' 5) = (12, 6, 65535, 5, 65535)).
  { eexists. split; [vm_compute; reflexivity|by vm_compute]. }
  destruct E as (v' & Hrun & Hv). injection Hv as Hn E3 E6 E4 E5. exists v'. split_and!; [done| |done|done].
  split; [done|]. split; [repeat (apply Forall_cons; split; [unfold cluster; lia|]); constructor|]. exists 65535. split; [|by rewrite Hn].
  constructor; rewrite E3; [lia|]. constructor; rewrite E6; [lia|]. constructor.
Qed.

(** ** Mounting *)

(** The boot record of a volume of 32 sectors with two tables of one sector. *)
Definition boot_record : list Z :=
  let w := mem_cpy blank 11 (ST_WORD 512) in
  let w := mem_cpy w 13 [1] in
  let w := mem_cpy w 14 (ST_WORD 1) in
  let w := mem_cpy w 16 [2] in
  let w := mem_cpy w 17 (ST_WORD 16) in
  let w := mem_cpy w 19 (ST_WORD 32) in
  let w := mem_cpy w 22 (ST_WORD 1) in
  let w := mem_cpy w 54 [70; 65; 84] in
  mem_cpy w 510 (ST_WORD 43605).

Definition fresh_fs : FATFS := mkFs 0 0 0 0 false false 0 0 0 0 0 0 0 0 0 0 0 0 blank.

Definition unmounted : fsys := mkSys (mkVol fresh_fs (mkRam (faulty := true) (<[0 := boot_record]> ∅) [])) true 6 0.

