(* ===== verification/FatCases.v ===== *)
(** * Runs of the functions on files and paths

    The theorems of reading and writing on a file of a small volume, and what the
    functions do in cases their code does not provide for. *)

From S2P Require Import Prelude Diskio FatVol FatBytes FatWin FatRam FatTable FatChain FatMount FatName FatDir FatFile FatPath FatData FatRead FatWrite FatSeek FatScan FatOpen FatSync FatStore FatUnlink FatCreate FatRename FatFree FatRuns.

(** ** A file of 1100 bytes in the clusters 3, 4 and 5 *)

Definition mounted : fsys := mkSys ready true 1 0.

Definition small_file (ptr clust dsect : Z) : FIL := mkFil true 1 (Z.lor FA_READ FA_WRITE) ptr 1100 3 clust dsect 10 (Some 0).

Lemma ready_layout : layout (fatfs ready).
Proof. split; [apply ready_table|by exists 0|by cbn|by cbn]. Qed.

Lemma small_file_at : file_at ready (small_file 510 3 12) [3; 4; 5].
Proof. split; [split|..]; [right; apply ready_chain|by split; vm_compute|by split; vm_compute|by vm_compute|by vm_compute]. Qed.

Lemma f_read_delivers_witness :
  exists fp' buff s', f_read (small_file 510 3 12) 4 mounted = Some ((FR_OK, fp', buff, 4), s') /\
    take 4 buff = file_bytes ready [3; 4; 5] 510 4 /\ f_ptr fp' = 514.
Proof.
  destruct (f_read_delivers mounted (small_file 510 3 12) [3; 4; 5] 4 ready_win ready_layout small_file_at)
    as (r & fp' & buff & br & s' & Hrun & _ & _ & Hb & Hp & _ & _); [done|].
  assert (E : (fun x => (x.1.1.1.1, x.1.2)) <$> f_read (small_file 510 3 12) 4 mounted = Some (FR_OK, 4)) by (by vm_compute).
  rewrite Hrun in E. injection E as -> ->. exists fp', buff, s'. split; [exact Hrun|]. split; [exact Hb|exact Hp].
Defined.

Lemma f_write_stores_witness :
  exists fp' s', f_write (small_file 510 3 12) [1; 2; 3; 4] mounted = Some ((FR_OK, fp', 4), s') /\ f_ptr fp' = 514 /\ f_size fp' = 1100.
Proof.
  destruct (f_write_stores mounted (small_file 510 3 12) [3; 4; 5] [1; 2; 3; 4] ram_sound ready_win ready_layout)
    as (r & fp' & n & s' & Hrun & Hr); [done|apply small_file_at|by repeat constructor|done|].
  assert (E : (fun x => (x.1.1.1, x.1.2)) <$> f_write (small_file 510 3 12) [1; 2; 3; 4] mounted = Some (FR_OK, 4)) by (by vm_compute).
  rewrite Hrun in E. injection E as -> ->. exists fp', s'. split; [exact Hrun|].
  destruct Hr as [(_ & _ & (Hp & Hs & _) & _)|[(H & _)|(H & _)]]; [split; [exact Hp|exact Hs]|by destruct H as [[|[|[|]]] _]|discriminate H].
Defined.

Lemma f_lseek_moves_witness :
  exists fp' s', f_lseek (small_file 510 3 12) 1030 mounted = Some ((FR_OK, fp'), s') /\ f_ptr fp' = 1030 /\ file_at (volume s') fp' [3; 4; 5].
Proof.
  destruct (f_lseek_moves mounted (small_file 510 3 12) [3; 4; 5] 1030 ram_sound ready_win ready_layout)
    as (r & fp' & s' & Hrun & Hr); [done|apply small_file_at|done|left; done|].
  assert (E : (fun x => x.1.1) <$> f_lseek (small_file 510 3 12) 1030 mounted = Some FR_OK) by (by vm_compute).
  rewrite Hrun in E. injection E as ->. exists fp', s'. split; [exact Hrun|].
  destruct Hr as [(_ & Hp & _ & Hf & _)|[(H & _)|(H & _)]]; [split; [exact Hp|exact Hf]|by destruct H as [[|[|[|]]] _]|discriminate H].
Defined.

(** Six hundred bytes near the end of the file make it a cluster longer. *)
Lemma write_then_read_witness :
  exists s', write_back_read (small_file 1098 5 14) (replicate 600 7) mounted = Some ((FR_OK, 600, replicate 600 7), s').
Proof.
  destruct (write_then_read mounted (small_file 1098 5 14) [3; 4; 5] (replicate 600 7) ram_sound ready_win ready_layout)
    as (r & n & buff & s' & Hrun & Hr);
    [done|split; [split|..]; [right; apply ready_chain|by split; vm_compute|by split; vm_compute|by vm_compute|by vm_compute]
    |by apply Forall_replicate|done|done|].
  assert (E : (fun x => x.1.1) <$> write_back_read (small_file 1098 5 14) (replicate 600 7) mounted = Some (FR_OK, 600)) by (by vm_compute).
  rewrite Hrun in E. injection E as -> ->. exists s'. rewrite Hrun. destruct Hr as [[_ ->]|[H|[H _]]]; [reflexivity|by destruct H as [[|[|[|]]] _]|discriminate H].
Defined.

(** ** The file AB.TXT of the root directory *)

Definition file_name : list Z := [65; 66; 32; 32; 32; 32; 32; 32; 84; 88; 84].

Definition root_sector : list Z := mem_cpy blank 0 (file_name ++ [32] ++ mem_set 0 14 ++ ST_WORD 3 ++ ST_DWORD 1100).

Definition rooted : vol (DK := ram false) :=
  mkVol small_fs (mkRam (<[10 := root_sector]> (<[9 := table16 links]> (<[8 := table16 links]> ∅))) []).

Definition rooted_system : fsys := mkSys rooted true 1 0.

Lemma rooted_win : win_ok rooted.
Proof. split; [apply small_geometry|apply blank_sector|by left|done|done]. Qed.

Lemma rooted_layout : layout (fatfs rooted).
Proof. split; [apply small_table|by exists 0|by cbn|by cbn]. Qed.

Lemma rooted_root : directory rooted 0 [].
Proof. left. split_and!; [done|done|done|]. by split; cbn. Qed.

Lemma rooted_chain : chain rooted 3 [3; 4; 5].
Proof. by apply links_chain; vm_compute. Qed.

Lemma rooted_first : first_named rooted [] file_name 0.
Proof. split; [by split; vm_compute|]. split; [apply passed_nil|]. by split; [vm_compute|split; vm_compute]. Qed.

(** /ab.txt *)
Definition file_path : list Z := [47; 97; 98; 46; 116; 120; 116; 0].

Lemma spelled_next c u t s : single c -> up c = u -> spelled t s -> spelled (c :: t) (u :: s).
Proof. intros Hc <-. by constructor. Qed.

(** Texts of constant characters. *)
Ltac spell := repeat (apply spelled_next; [by apply (bool_decide_unpack _); vm_compute|done|]); constructor.

Lemma file_component : component (drop 1 file_path) file_name 0 [].
Proof.
  exists [], [97; 98], [65; 66], [46; 116; 120; 116], [116; 120; 116], [84; 88; 84].
  split; [reflexivity|]. split; [constructor|].
  split; [spell|]. split; [spell|].
  split; [by right|]. split; [cbn; lia|]. split; [cbn; lia|]. split; [by left|]. by vm_compute.
Qed.

Lemma rooted_reaches P : P [] -> reaches P rooted file_path [] file_name.
Proof. intros HP. by apply (walk_last _ rooted 0 [] _ file_name 0 []); [|apply rooted_root|apply file_component|]. Qed.

Lemma rooted_leads : leads rooted file_path [] 0.
Proof. exists file_name. split; [by apply rooted_reaches|apply rooted_first]. Qed.

Lemma dir_find_first_witness :
  exists dj' v', dir_find (mkDir true 0 0 0 0 0 None (file_name ++ [4])) rooted = Some ((FR_OK, dj'), v') /\ d_dir dj' = Some 0.
Proof.
  destruct (dir_find_first rooted [] (mkDir true 0 0 0 0 0 None (file_name ++ [4])) rooted_win rooted_layout rooted_root)
    as (r & dj' & v' & Hrun & _ & _ & Hr); [cbn; lia|].
  assert (E : (fun x => (x.1.1, d_index x.1.2)) <$> dir_find (mkDir true 0 0 0 0 0 None (file_name ++ [4])) rooted = Some (FR_OK, 0)) by (by vm_compute).
  rewrite Hrun in E. injection E as -> E0. exists dj', v'. split; [exact Hrun|].
  destruct Hr as [(j & _ & _ & _ & _ & _ & [_ _ [Hj _ Hp _] _])|[(j & H & _)|(H & _)]]; [|discriminate H|discriminate H].
  rewrite Hp, <- Hj, E0. reflexivity.
Defined.

Lemma rooted_ready : mounted_ready rooted_system.
Proof. by split. Qed.

Lemma f_open_finds_witness :
  exists fp' s', f_open (mem_set 0 12) (small_file 0 0 0) file_path FA_READ rooted_system = Some ((FR_OK, fp'), s') /\ f_size fp' = 1100 /\ file_at (volume s') fp' [3; 4; 5].
Proof.
  destruct (f_open_finds (mem_set 0 12) rooted_system (small_file 0 0 0) file_path FA_READ [] 0 [3; 4; 5] rooted_win rooted_layout rooted_ready)
    as (r & fp' & s' & Hrun & _ & Hr); [by vm_compute|done|apply rooted_leads|split; [done|]; split; [by vm_compute|by intros []]|right; apply rooted_chain|by vm_compute|].
  destruct Hr as [(-> & Hfp & Hf)|[_ []]]; [|apply ram_sound]. exists fp', s'. split; [exact Hrun|]. split; [|exact Hf].
  rewrite Hfp. vm_compute. reflexivity.
Defined.

Lemma file_is_read_by_path_witness :
  exists s', open_and_read (mem_set 0 12) (small_file 0 0 0) file_path 700 rooted_system =
    Some ((FR_OK, file_bytes rooted [3; 4; 5] 0 700, 700), s').
Proof.
  destruct (file_is_read_by_path (mem_set 0 12) rooted_system (small_file 0 0 0) file_path 700 [] 0 [3; 4; 5] ram_sound rooted_win rooted_layout rooted_ready)
    as (s' & Hrun & _); [by vm_compute|done|apply rooted_leads|by vm_compute|right; apply rooted_chain|by vm_compute|done|].
  exists s'. exact Hrun.
Defined.

Lemma rooted_by lf : leads_by (apart lf) rooted file_path [] 0.
Proof. exists file_name. split; [|apply rooted_first]. apply rooted_reaches. intros x Hx. by apply not_elem_of_nil in Hx. Qed.

Lemma rooted_order : in_order rooted_system.
Proof. split; [apply rooted_win|apply rooted_layout|done|done|apply rooted_ready]. Qed.

(** Sixteen hundred bytes, with a cluster more than the file has. *)
Lemma stored_file_persists_witness :
  exists s', store_and_read (mem_set 0 12) (small_file 0 0 0) file_path FA_WRITE (replicate 1600 7) rooted_system = Some ((FR_OK, 1600, replicate 1600 7), s') /\
    exists lf, stored (volume s') file_path [] 0 lf 1600.
Proof.
  destruct (stored_file_persists (mem_set 0 12) rooted_system (small_file 0 0 0) file_path (replicate 1600 7) [] 0 [3; 4; 5] ram_sound)
    as (r & n & buff & s' & Hrun & Hr);
    [by intros d|apply rooted_order|by vm_compute|done|apply rooted_by|split; [done|]; split; [by vm_compute|intros _; by vm_compute]|right; apply rooted_chain|by vm_compute
    |by apply Forall_replicate|done|].
  assert (E : (fun x => x.1.1) <$> store_and_read (mem_set 0 12) (small_file 0 0 0) file_path FA_WRITE (replicate 1600 7) rooted_system = Some (FR_OK, 1600)) by (by vm_compute).
  rewrite Hrun in E. injection E as -> ->. exists s'. rewrite Hrun. destruct Hr as [(_ & -> & _ & _ & lf & Hsd)|[H _]]; [|discriminate H].
  split; [reflexivity|]. exists lf. exact Hsd.
Defined.

(** The only entry of the root directory. *)
Lemma rooted_only : only_named rooted [] file_name 0.
Proof.
  exists 1. split; [by split; vm_compute|]. split; [|right; by vm_compute]. intros k Hk. assert (k = 0) as -> by lia.
  split; [by vm_compute|done].
Qed.

Lemma removed_file_is_gone_witness :
  exists s1 s2 fp', f_unlink (mem_set 0 12) file_path rooted_system = Some (FR_OK, s1) /\ unlinked rooted [] 0 [3; 4; 5] (volume s1) /\
    f_open (mem_set 0 12) (small_file 0 0 0) file_path FA_READ s1 = Some ((FR_NO_FILE, fp'), s2).
Proof.
  destruct (removed_file_is_gone (mem_set 0 12) rooted_system (small_file 0 0 0) file_path FA_READ file_name [] 0 [3; 4; 5] ram_sound)
    as (s1 & s2 & fp' & Hrun & Hu & Hopen & _);
    [by intros d|apply rooted_order|by vm_compute|done|apply rooted_reaches; intros x Hx; by apply not_elem_of_nil in Hx|apply rooted_first|apply rooted_only|split; by vm_compute|right; apply rooted_chain|done|].
  exists s1, s2, fp'. split; [exact Hrun|]. split; [exact Hu|exact Hopen].
Defined.

(** /b.txt, which is not there *)
Definition other_path : list Z := [47; 98; 46; 116; 120; 116; 0].
Definition other_name : list Z := [66; 32; 32; 32; 32; 32; 32; 32; 84; 88; 84].

Lemma other_component : component (drop 1 other_path) other_name 0 [].
Proof.
  exists [], [98], [66], [46; 116; 120; 116], [116; 120; 116], [84; 88; 84].
  split; [reflexivity|]. split; [constructor|].
  split; [spell|]. split; [spell|].
  split; [by right|]. split; [cbn; lia|]. split; [cbn; lia|]. split; [by left|]. by vm_compute.
Qed.

Lemma other_reaches : reaches (beside []) rooted other_path [] other_name.
Proof. by apply (walk_last _ rooted 0 [] _ other_name 0 []); [left|apply rooted_root|apply other_component|]. Qed.

Lemma other_missing : missing rooted [] other_name.
Proof.
  exists 1. split; [by split; vm_compute|]. split; [|right; by vm_compute]. intros k Hk. assert (k = 0) as -> by lia.
  split; [by vm_compute|]. intros [_ H]. vm_compute in H. discriminate H.
Qed.

Lemma other_blank : first_vacant rooted [] 1.
Proof.
  split; [by split; vm_compute|]. split; [right; by vm_compute|]. intros k Hk. assert (k = 0) as -> by lia. intros [H|H]; vm_compute in H; discriminate H.
Qed.

Lemma new_file_persists_witness :
  exists s' lf, store_and_read (mem_set 0 12) (small_file 0 0 0) other_path (Z.lor FA_WRITE FA_CREATE_NEW) (replicate 700 9) rooted_system = Some ((FR_OK, 700, replicate 700 9), s') /\
    stored (volume s') other_path [] 1 lf 700.
Proof.
  destruct (new_file_persists (mem_set 0 12) rooted_system (small_file 0 0 0) other_path (Z.lor FA_WRITE FA_CREATE_NEW) (replicate 700 9) [] other_name 1 ram_sound)
    as (r & n & buff & s' & Hrun & Hr);
    [by intros d|apply rooted_order|by vm_compute|done|apply other_reaches|apply other_missing|apply other_blank|done|done|by apply Forall_replicate|done|].
  assert (E : (fun x => x.1.1) <$> store_and_read (mem_set 0 12) (small_file 0 0 0) other_path (Z.lor FA_WRITE FA_CREATE_NEW) (replicate 700 9) rooted_system = Some (FR_OK, 700)) by (by vm_compute).
  rewrite Hrun in E. injection E as -> ->. destruct Hr as [(_ & -> & _ & _ & lf & Hsd)|[H _]]; [|discriminate H].
  exists s', lf. split; [exact Hrun|exact Hsd].
Defined.

(** No entry behind the first one has its name. *)
Lemma rooted_sole : sole rooted [] file_name 0.
Proof.
  split; [apply rooted_first|]. intros k Hk [_ E].
  assert (H : Forall (fun k => k = 0 \/ take 11 (dentry rooted [] k) <> take 11 file_name) (seqZ 0 (entries (fatfs rooted) []))) by (apply (bool_decide_unpack _); vm_compute; reflexivity).
  destruct (proj1 (Forall_forall _ _) H k) as [|Hne]; [by apply elem_of_seqZ|done|by destruct Hne].
Qed.

Lemma renamed_file_keeps_its_bytes_witness :
  exists s1 s2 s3 fp', f_rename (mem_set 0 12) file_path other_path rooted_system = Some (FR_OK, s1) /\
    open_and_read (mem_set 0 12) (small_file 0 0 0) other_path 700 s1 = Some ((FR_OK, file_bytes rooted [3; 4; 5] 0 700, 700), s2) /\
    f_open (mem_set 0 12) (small_file 0 0 0) file_path FA_READ s1 = Some ((FR_NO_FILE, fp'), s3).
Proof.
  destruct (renamed_file_keeps_its_bytes (mem_set 0 12) rooted_system (small_file 0 0 0) file_path other_path FA_READ 700 [] 0 file_name [] other_name 1 [3; 4; 5] ram_sound)
    as (s1 & s2 & s3 & fp' & Hrun & Hread & Hopen & _);
    [by intros d|apply rooted_order|by vm_compute|by vm_compute|done|by apply rooted_reaches; left|apply rooted_sole|apply other_reaches|apply other_missing|apply other_blank
    |by vm_compute|right; apply rooted_chain|by vm_compute|by intros x Hx; apply not_elem_of_nil in Hx|by intros x Hx; apply not_elem_of_nil in Hx|done|done|].
  exists s1, s2, s3, fp'. split; [exact Hrun|]. split; [exact Hread|exact Hopen].
Defined.

(** ** Free space *)

(** No count is stored; the table has seven free entries, and three more without the file's chain. *)
Lemma free_space_is_exact_witness :
  exists s1 v2 s3, f_getfree [0] rooted_system = Some ((FR_OK, Some 7), s1) /\ remove_chain 3 (volume s1) = Some (FR_OK, v2) /\
    f_getfree [0] (with_volume s1 v2) = Some ((FR_OK, Some 10), s3).
Proof.
  destruct (free_space_is_exact rooted_system [0] ram_sound rooted_win small_table rooted_ready) as (s1 & Hrun & _ & Hrem & _);
    [by vm_compute|done|right; split; [by split; vm_compute|split; [by vm_compute|]]|].
  - intros (x & Hx & E). assert (H : Forall (fun x => entry rooted x <> 1) (seqZ 2 (n_fatent small_fs - 2))) by (apply (bool_decide_unpack _); vm_compute; reflexivity).
    apply (proj1 (Forall_forall _ _) H x); [|done]. apply elem_of_seqZ. unfold cluster in Hx. cbn in Hx |- *. lia.
  - destruct (Hrem 3 [3; 4; 5] rooted_chain) as (v2 & s3 & Hrem2 & Hrun2). assert (E : free (volume rooted_system) = 7) by (vm_compute; reflexivity).
    rewrite E in Hrun, Hrun2. exists s1, v2, s3. split; [exact Hrun|]. split; [exact Hrem2|exact Hrun2].
Defined.

Section Cases.

Context {faulty : bool}.

(** The volume of [boot_record], not mounted yet, and the transfers that fail. *)
Definition attached (l : list bool) : fsys (DK := ram faulty) :=
  mkSys (mkVol fresh_fs (mkRam (<[0 := boot_record]> ∅) l)) true 6 0.

End Cases.

(** A count of the free clusters that a failed transfer stopped is kept: the call
    answers the error, but the next one, without a fault, answers success and the
    partial count, here none of the 28 clusters that are free. *)
Theorem f_getfree_keeps_partial_count :
  exists s1 s2 s3, f_getfree [0] (attached (faulty := true) [false; true]) = Some ((FR_DISK_ERR, Some 0), s1) /\
    faults (dev (volume s1)) = [] /\ f_getfree [0] s1 = Some ((FR_OK, Some 0), s2) /\
    f_getfree [0] (attached (faulty := true) []) = Some ((FR_OK, Some 28), s3).
Proof.
  eexists _, _, _. split; [vm_compute; reflexivity|]. split; [reflexivity|]. split; vm_compute; reflexivity.
Qed.

(** ** Paths *)

(** The buffer for a name. *)
Definition name_buffer : list Z := mem_set 0 12.

(** Removing the root directory follows a null pointer: the path leads to no
    entry, and its cluster is read from the entry before the answer that the name
    is invalid counts.  [f_chmod] answers it. *)
Theorem f_unlink_root_follows_null :
  f_unlink name_buffer [47; 0] (attached (faulty := true) []) = None /\
  exists s, f_chmod name_buffer [47; 0] 0 0 (attached (faulty := true) []) = Some (FR_INVALID_NAME, s).
Proof. split; [by vm_compute|]. eexists. vm_compute. reflexivity. Qed.

(** [f_getcwd] writes a byte behind the caller's buffer when the path without its
    terminator fills it: in the directory A, made and made current, the answer 0:/A
    is stored in a buffer of 4 bytes, and its terminator after them. *)
Theorem f_getcwd_overruns :
  exists s1 s2 s3, f_mkdir name_buffer [65; 0] (attached (faulty := true) []) = Some (FR_OK, s1) /\
    f_chdir name_buffer [65; 0] s1 = Some (FR_OK, s2) /\
    f_getcwd name_buffer (mem_set 0 4) s2 = None /\
    f_getcwd name_buffer (mem_set 0 5) s2 = Some ((FR_OK, [48; 58; 47; 65; 0]), s3).
Proof.
  eexists _, _, _. split; [vm_compute; reflexivity|]. split; [vm_compute; reflexivity|]. split; vm_compute; reflexivity.
Qed.

(** When the first cluster of a file cannot be found because of one failed transfer,
    the error code becomes the file's first cluster; closing the file answers success
    and stores it in the directory.  The file can be opened, but no byte can be written
    to it any more. *)
Theorem f_write_stores_error_code :
  exists s1 s2 s3 s4 s5 fp1 fp2 fp3 fp4 fp5,
    f_open name_buffer (small_file 0 0 0) [65; 0] (Z.lor FA_WRITE FA_CREATE_ALWAYS) (attached (faulty := true) [false; false; true]) = Some ((FR_OK, fp1), s1) /\
    f_write fp1 [1; 2; 3] s1 = Some ((FR_DISK_ERR, fp2, 0), s2) /\ faults (dev (volume s2)) = [] /\
    f_close fp2 s2 = Some ((FR_OK, fp3), s3) /\
    f_open name_buffer fp3 [65; 0] FA_WRITE s3 = Some ((FR_OK, fp4), s4) /\ f_sclust fp4 = DISK_ERROR /\
    f_write fp4 [1; 2; 3] s4 = Some ((FR_DISK_ERR, fp5, 0), s5).
Proof.
  eexists _, _, _, _, _, _, _, _, _, _. split; [vm_compute; reflexivity|]. split; [vm_compute; reflexivity|]. split; [reflexivity|].
  split; [vm_compute; reflexivity|]. split; [vm_compute; reflexivity|]. split; [reflexivity|]. vm_compute. reflexivity.
Qed.
