(* ===== verification/ChLists.v ===== *)
(** * Threads queues and lists: kernel/include/chinline.h, chlists.h

    The kernel links threads through the [p_next]/[p_prev] fields of their own
    structures, in circular queues whose header is a structure of the same
    shape.  The operations are modelled on that memory, pointer by pointer, and
    refine operations on lists of threads. *)

From S2P Require Import Prelude.

(** ** Memory *)

(** The fields of the structures the operations touch, by address. *)
Record links := Links { p_next : Z -> Z; p_prev : Z -> Z; p_prio : Z -> Z }.

Definition set_next (a v : Z) (h : links) : links := Links (<[a := v]> (p_next h)) (p_prev h) (p_prio h).
Definition set_prev (a v : Z) (h : links) : links := Links (p_next h) (<[a := v]> (p_prev h)) (p_prio h).

(** ** Operations *)

Definition queue_init (tqp : Z) (h : links) : links := set_next tqp tqp (set_prev tqp tqp h).

Definition isempty (p : Z) (h : links) : bool := p_next h p =? p.

Definition notempty (p : Z) (h : links) : bool := negb (isempty p h).

(** [do cp = cp->p_next; while ((cp != tqp) && (cp->p_prio >= prio));], within
    a number of turns. *)
Fixpoint prio_scan (fuel : nat) (h : links) (tqp prio cp : Z) : option Z :=
  match fuel with
  | O => None
  | S fuel =>
      let cp := p_next h cp in
      if negb (cp =? tqp) && (prio <=? p_prio h cp) then prio_scan fuel h tqp prio cp else Some cp
  end.

(** Linking [tp] before [cp]: the three assignments that end an insertion. *)
Definition link_before (tp cp : Z) (h : links) : links :=
  let h := set_next tp cp h in
  let h := set_prev tp (p_prev h cp) h in
  let h := set_prev cp tp h in
  set_next (p_prev h tp) tp h.

Definition prio_insert (fuel : nat) (tp tqp : Z) (h : links) : option links :=
  cp ← prio_scan fuel h tqp (p_prio h tp) tqp;
  Some (link_before tp cp h).

(** [chSchReadyI]'s loop has no test for the header: the ready list's header
    carries a priority field of its own. *)
Fixpoint ready_scan (fuel : nat) (h : links) (prio cp : Z) : option Z :=
  match fuel with
  | O => None
  | S fuel =>
      let cp := p_next h cp in
      if prio <=? p_prio h cp then ready_scan fuel h prio cp else Some cp
  end.

Definition ready_insert (fuel : nat) (tp rq : Z) (h : links) : option links :=
  cp ← ready_scan fuel h (p_prio h tp) rq;
  Some (link_before tp cp h).

Definition queue_insert (tp tqp : Z) (h : links) : links :=
  let h := set_next tp tqp h in
  let h := set_prev tp (p_prev h tqp) h in
  let h := set_prev tqp tp h in
  set_next (p_prev h tp) tp h.

Definition fifo_remove (tqp : Z) (h : links) : Z * links :=
  let tp := p_next h tqp in
  let h := set_next tqp (p_next h tp) h in
  (tp, set_prev (p_next h tqp) tqp h).

Definition lifo_remove (tqp : Z) (h : links) : Z * links :=
  let tp := p_prev h tqp in
  let h := set_prev tqp (p_prev h tp) h in
  (tp, set_next (p_prev h tqp) tqp h).

Definition dequeue (tp : Z) (h : links) : links :=
  let h := set_next (p_prev h tp) (p_next h tp) h in
  set_prev (p_next h tp) (p_prev h tp) h.

(** Singly linked lists of threads. *)
Definition list_init (tlp : Z) (h : links) : links := set_next tlp tlp h.

Definition list_insert (tp tlp : Z) (h : links) : links :=
  set_next tlp tp (set_next tp (p_next h tlp) h).

Definition list_remove (tlp : Z) (h : links) : Z * links :=
  let tp := p_next h tlp in
  (tp, set_next tlp (p_next h tp) h).

(** ** Operations on lists

    [pinsert prio x l]: before the first element of lower priority. *)

Fixpoint pinsert (prio : Z -> Z) (x : Z) (l : list Z) : list Z :=
  match l with
  | [] => [x]
  | y :: l => if prio x <=? prio y then y :: pinsert prio x l else x :: y :: l
  end.

(** Highest priority first. *)
Definition by_prio (prio : Z -> Z) : relation Z := fun a b => prio b <= prio a.

Lemma pinsert_perm prio x l : pinsert prio x l ≡ₚ x :: l.
Proof.
  induction l as [|y l IH]; [done|]. simpl. case_z; [|done]. rewrite IH. apply perm_swap.
Qed.

Lemma pinsert_split prio x l :
  exists l1 l2, l = l1 ++ l2 /\ pinsert prio x l = l1 ++ x :: l2 /\
    Forall (fun y => prio x <= prio y) l1 /\
    match l2 with [] => True | y :: _ => prio y < prio x end.
Proof.
  induction l as [|y l (l1 & l2 & -> & E & H1 & H2)]; [by exists [], []|]. simpl.
  case_z; [|by exists [], (y :: l1 ++ l2)]. exists (y :: l1), l2. rewrite E. auto.
Qed.

Lemma pinsert_sorted prio x l :
  StronglySorted (by_prio prio) l -> StronglySorted (by_prio prio) (pinsert prio x l).
Proof.
  induction 1 as [|y l Hl IH Hy]; [repeat constructor|]. simpl. case_z.
  - constructor; [done|]. rewrite pinsert_perm. constructor; [|done]. unfold by_prio. lia.
  - constructor; [by constructor|]. constructor; [unfold by_prio; lia|].
    eapply Forall_impl; [exact Hy|]. unfold by_prio. intros z Hz. lia.
Qed.

Lemma sorted_sublist {A} (R : relation A) l l' :
  sublist l' l -> StronglySorted R l -> StronglySorted R l'.
Proof.
  induction 1 as [|x l1 l2 Hs IH|x l1 l2 Hs IH]; intros H; [done|..];
    apply StronglySorted_inv in H as [H Hx]; [|by apply IH].
  constructor; [by apply IH|]. rewrite Forall_forall in Hx |- *. intros y Hy. apply Hx.
  by eapply elem_of_sublist.
Qed.

(** Equal priorities keep their order of arrival. *)
Lemma pinsert_fifo prio x l :
  StronglySorted (by_prio prio) l ->
  filter (fun y => prio y = prio x) (pinsert prio x l) = filter (fun y => prio y = prio x) l ++ [x].
Proof.
  intros Hs. destruct (pinsert_split prio x l) as (l1 & l2 & -> & -> & H1 & H2).
  rewrite !filter_app, filter_cons_True by done. rewrite <- app_assoc. f_equal.
  assert (filter (fun y => prio y = prio x) l2 = []) as ->; [|done].
  destruct l2 as [|y l2]; [done|].
  apply StronglySorted_app_1_r in Hs. apply StronglySorted_inv in Hs as [_ Hy].
  rewrite filter_cons_False by lia.
  clear -H2 Hy. induction Hy as [|z l2 Hz _ IH]; [done|].
  rewrite filter_cons_False by (unfold by_prio in Hz; lia). exact IH.
Qed.

(** ** Representation *)

(** Consecutive elements point at each other. *)
Fixpoint chained (h : links) (a : Z) (l : list Z) (b : Z) : Prop :=
  match l with
  | [] => p_next h a = b /\ p_prev h b = a
  | x :: l => p_next h a = x /\ p_prev h x = a /\ chained h x l b
  end.

(** The queue with header [q] holds the threads [l], in order. *)
Definition is_queue (h : links) (q : Z) (l : list Z) : Prop :=
  NoDup (q :: l) /\ chained h q l q.

Lemma chained_app h a l1 x l2 b :
  chained h a (l1 ++ x :: l2) b <-> chained h a l1 x /\ chained h x l2 b.
Proof.
  revert a. induction l1 as [|y l1 IH]; intros a; simpl; [tauto|]. rewrite IH. tauto.
Qed.

(** A chain only depends on the forward links of all its nodes but the last
    and on the backward links of all but the first. *)
Lemma chained_frame h h' a l b :
  (forall x, x ∈ (a :: l) -> p_next h' x = p_next h x) ->
  (forall x, x ∈ (l ++ [b]) -> p_prev h' x = p_prev h x) ->
  chained h a l b -> chained h' a l b.
Proof.
  revert a. induction l as [|y l IH]; intros a Hn Hp; simpl.
  - intros [H1 H2]. rewrite Hn, Hp by set_solver. done.
  - intros (H1 & H2 & Hc). rewrite Hn, Hp by set_solver. split_and!; [done..|].
    apply IH; [|intros; apply Hp; set_solver|done].
    intros x Hx. apply Hn. by apply elem_of_cons; right.
Qed.

Lemma last_of_cons (a y : Z) l : default a (last (y :: l)) = default y (last l).
Proof. rewrite last_cons. by destruct (last l). Qed.

Lemma last_of_in (a : Z) l : default a (last l) ∈ (a :: l).
Proof.
  destruct (last l) eqn:E; simpl; [|set_solver]. apply last_Some in E as [l' ->]. set_solver.
Qed.

Lemma chained_last h a l b : chained h a l b -> p_prev h b = default a (last l) /\ p_next h (default a (last l)) = b.
Proof.
  revert a. induction l as [|y l IH]; intros a; [simpl; tauto|].
  intros (_ & _ & Hc). rewrite last_of_cons. by apply IH.
Qed.

(** Redirecting the end of a chain. *)
Lemma chained_retarget h h' a l b c :
  chained h a l b -> NoDup (a :: l) ->
  (forall x, x ∈ (a :: l) -> x <> default a (last l) -> p_next h' x = p_next h x) ->
  (forall x, x ∈ l -> p_prev h' x = p_prev h x) ->
  p_next h' (default a (last l)) = c -> p_prev h' c = default a (last l) ->
  chained h' a l c.
Proof.
  revert a. induction l as [|y l IH]; intros a; [done|]. intros (Hn & Hp & Hc) Hnd Hnx Hpx Hl1 Hl2.
  rewrite last_of_cons in *. apply NoDup_cons in Hnd as [Ha Hnd].
  pose proof (last_of_in y l) as Hin. simpl. split_and!.
  - rewrite Hnx; [done|set_solver|]. intros ->. done.
  - by rewrite Hpx by set_solver.
  - apply IH; try done; [intros x Hx; apply Hnx; set_solver|intros x Hx; apply Hpx; set_solver].
Qed.

Lemma link_before_next tp cp h x :
  tp <> cp -> p_prev h cp <> tp ->
  p_next (link_before tp cp h) x
  = if x =? p_prev h cp then tp else if x =? tp then cp else p_next h x.
Proof.
  intros H1 H2. unfold link_before, set_next, set_prev. simpl.
  rewrite (fn_lookup_insert_ne _ cp tp), fn_lookup_insert by congruence.
  unfold insert, fn_insert. repeat case_decide; subst; repeat case_z; congruence.
Qed.

Lemma link_before_prev tp cp h x :
  tp <> cp ->
  p_prev (link_before tp cp h) x = if x =? cp then tp else if x =? tp then p_prev h cp else p_prev h x.
Proof.
  intros H1. unfold link_before, set_next, set_prev. simpl.
  unfold insert, fn_insert. repeat case_decide; subst; repeat case_z; congruence.
Qed.

Lemma is_queue_nodup h q l : is_queue h q l -> (q ∉ l) /\ NoDup l.
Proof. intros [Hnd _]. by apply NoDup_cons in Hnd. Qed.

(** The node before which position [l1] of a queue is. *)
Definition at_pos (q : Z) (l2 : list Z) : Z := default q (head l2).

Lemma chained_split h q l1 l2 :
  chained h q (l1 ++ l2) q ->
  chained h q l1 (at_pos q l2) /\
  match l2 with [] => True | c :: l2 => chained h c l2 q end.
Proof.
  destruct l2 as [|c l2]; [rewrite app_nil_r; done|]. by rewrite chained_app.
Qed.

(** What duplicate-freeness says of a queue cut in two. *)
Lemma queue_cut (q : Z) (l1 l2 : list Z) :
  NoDup (q :: l1 ++ l2) ->
  (q ∉ l1) /\ (q ∉ l2) /\ NoDup l1 /\ NoDup l2 /\ (forall x, x ∈ l1 -> x ∉ l2).
Proof.
  intros [Hq Hnd]%NoDup_cons. apply NoDup_app in Hnd as (H1 & H2 & H3).
  rewrite not_elem_of_app in Hq. tauto.
Qed.

Lemma at_pos_in q l2 : at_pos q l2 = q \/ (at_pos q l2 ∈ l2).
Proof. unfold at_pos. destruct l2 as [|c l2]; [by left|]. right. simpl. by constructor. Qed.

Lemma link_before_queue h q tp l1 l2 :
  is_queue h q (l1 ++ l2) -> tp ∉ (q :: l1 ++ l2) ->
  is_queue (link_before tp (at_pos q l2) h) q (l1 ++ tp :: l2).
Proof.
  intros [Hnd Hc] Htp. destruct (chained_split _ _ _ _ Hc) as [Hc1 Hc2].
  destruct (queue_cut _ _ _ Hnd) as (Hq1 & Hq2 & Hn1 & Hn2 & Hdis).
  rewrite not_elem_of_cons, not_elem_of_app in Htp. destruct Htp as (Htq & Ht1 & Ht2).
  pose proof (at_pos_in q l2) as Hcp. set (cp := at_pos q l2) in *.
  destruct (chained_last _ _ _ _ Hc1) as [Hpr _].
  pose proof (last_of_in q l1) as Hpred. apply elem_of_cons in Hpred.
  set (pred := default q (last l1)) in *.
  assert (tp <> cp) as H1 by (destruct Hcp as [->|Hcp]; [done|by intros <-]).
  assert (pred <> tp) as H2 by (destruct Hpred as [->|?]; [done|by intros <-]).
  assert (p_prev h cp <> tp) as H2' by congruence.
  split.
  { rewrite <- Permutation_middle. apply NoDup_cons in Hnd as [Hq Hnd]. apply NoDup_cons.
    rewrite not_elem_of_cons. split; [done|]. apply NoDup_cons.
    rewrite not_elem_of_app. done. }
  assert (forall x, p_next (link_before tp cp h) x
            = if x =? pred then tp else if x =? tp then cp else p_next h x) as Hnext.
  { intros x. by rewrite link_before_next, Hpr. }
  assert (forall x, p_prev (link_before tp cp h) x
            = if x =? cp then tp else if x =? tp then pred else p_prev h x) as Hprev.
  { intros x. by rewrite link_before_prev, Hpr. }
  apply chained_app. split.
  - apply chained_retarget with (h := h) (b := cp); try done.
    + by apply NoDup_cons.
    + fold pred. intros x Hx Hne. rewrite Hnext. apply elem_of_cons in Hx.
      repeat case_z; try done. by destruct Hx; subst.
    + intros x Hx. rewrite Hprev. repeat case_z; try done; subst x; [|done].
      destruct Hcp as [Hcp|Hcp]; [by rewrite Hcp in Hx|by destruct (Hdis cp)].
    + rewrite Hnext. by rewrite Z.eqb_refl.
    + by rewrite Hprev, (proj2 (Z.eqb_neq tp cp) H1), Z.eqb_refl.
  - assert (p_next (link_before tp cp h) tp = cp /\ p_prev (link_before tp cp h) cp = tp) as [Hn Hp].
    { rewrite Hnext, Hprev, !Z.eqb_refl, (proj2 (Z.eqb_neq tp pred)) by congruence. done. }
    destruct l2 as [|c l2]; [done|]. change cp with c in *. simpl. split_and!; [done..|].
    eapply chained_frame; [| |exact Hc2].
    + intros x Hx. rewrite Hnext. repeat case_z; try done; subst x; [|done].
      destruct Hpred as [Hpq|Hpq]; [by rewrite Hpq in Hx|by destruct (Hdis pred Hpq)].
    + intros x Hx. rewrite Hprev. apply NoDup_cons in Hn2 as [Hc' _].
      rewrite not_elem_of_cons in Hq2, Ht2. apply elem_of_app in Hx as [Hx|Hx%list_elem_of_singleton];
        repeat case_z; try done; subst; tauto.
Qed.

Lemma dequeue_next tp h x :
  p_next (dequeue tp h) x = if x =? p_prev h tp then p_next h tp else p_next h x.
Proof.
  unfold dequeue, set_next, set_prev. simpl. unfold insert, fn_insert.
  repeat case_decide; subst; repeat case_z; congruence.
Qed.

Lemma dequeue_prev tp h x :
  p_prev h tp <> tp ->
  p_prev (dequeue tp h) x = if x =? p_next h tp then p_prev h tp else p_prev h x.
Proof.
  intros Hne. unfold dequeue, set_next, set_prev. simpl.
  rewrite (fn_lookup_insert_ne (p_next h) (p_prev h tp) tp) by done. unfold insert, fn_insert.
  repeat case_decide; subst; repeat case_z; congruence.
Qed.

Lemma dequeue_queue h q tp l1 l2 :
  is_queue h q (l1 ++ tp :: l2) -> is_queue (dequeue tp h) q (l1 ++ l2).
Proof.
  intros [Hnd Hc]. destruct (queue_cut _ _ _ Hnd) as (Hq1 & Hq2 & Hn1 & Hn2 & Hdis).
  apply NoDup_cons in Hn2 as [Ht2 Hn2]. rewrite not_elem_of_cons in Hq2. destruct Hq2 as [Hqt Hq2].
  assert (tp ∉ l1) as Ht1 by (intros Hx; apply (Hdis tp Hx); by constructor).
  apply chained_app in Hc as [Hc1 Hc2].
  destruct (chained_last _ _ _ _ Hc1) as [Hpr _].
  pose proof (last_of_in q l1) as Hpred. apply elem_of_cons in Hpred.
  set (pred := default q (last l1)) in *.
  assert (pred <> tp) as Hpt by (destruct Hpred as [->|?]; [done|by intros <-]).
  assert (p_next h tp = at_pos q l2) as Hnx by (destruct l2; simpl in Hc2; tauto).
  pose proof (at_pos_in q l2) as Hcp. set (cp := at_pos q l2) in *.
  assert (forall x, p_next (dequeue tp h) x = if x =? pred then cp else p_next h x) as Hnext.
  { intros x. by rewrite dequeue_next, Hpr, Hnx. }
  assert (forall x, p_prev (dequeue tp h) x = if x =? cp then pred else p_prev h x) as Hprev.
  { intros x. by rewrite dequeue_prev, Hpr, Hnx by congruence. }
  split.
  { rewrite <- Permutation_middle in Hnd. apply NoDup_cons in Hnd as [Hq Hnd].
    apply NoDup_cons in Hnd as [_ Hnd]. apply NoDup_cons. split; [|done].
    rewrite not_elem_of_app. tauto. }
  assert (chained (dequeue tp h) q l1 cp) as Hfront.
  { apply chained_retarget with (h := h) (b := tp); try done.
    - by apply NoDup_cons.
    - fold pred. intros x Hx Hne. rewrite Hnext. by case_z.
    - intros x Hx. rewrite Hprev. case_z; [|done]. subst x. destruct Hcp as [->|Hcp]; [done|].
      destruct (Hdis cp Hx). by constructor.
    - rewrite Hnext. by rewrite Z.eqb_refl.
    - rewrite Hprev. by rewrite Z.eqb_refl. }
  destruct l2 as [|c l2]; [by rewrite app_nil_r|]. apply chained_app. split; [exact Hfront|].
  change cp with c in *. destruct Hc2 as (_ & _ & Hc2). eapply chained_frame; [| |exact Hc2].
  - intros x Hx. rewrite Hnext. case_z; [|done]. subst x. destruct Hpred as [Hpq|Hpq]; [by rewrite Hpq in Hx|].
    destruct (Hdis pred Hpq). by constructor.
  - intros x Hx. rewrite Hprev. case_z; [|done]. subst x.
    apply NoDup_cons in Hn2 as [Hc' _]. apply elem_of_app in Hx as [Hx|Hx%list_elem_of_singleton]; [done|].
    exfalso. apply Hq2. rewrite <- Hx. constructor.
Qed.

(** The scans stop at the insertion point. *)
Lemma prio_scan_stops h q prio a l1 l2 fuel :
  chained h a (l1 ++ l2) q -> q ∉ (l1 ++ l2) ->
  Forall (fun y => prio <= p_prio h y) l1 ->
  match l2 with [] => True | y :: _ => p_prio h y < prio end ->
  (length l1 < fuel)%nat -> prio_scan fuel h q prio a = Some (at_pos q l2).
Proof.
  revert a fuel. induction l1 as [|y l1 IH]; intros a fuel Hc Hq H1 H2 Hf;
    (destruct fuel as [|fuel]; [simpl in Hf; lia|]); simpl.
  - destruct l2 as [|y l2]; simpl in *; [destruct Hc as [-> _]|destruct Hc as (-> & _)].
    + by rewrite Z.eqb_refl.
    + apply not_elem_of_cons in Hq as [Hq _]. rewrite (proj2 (Z.eqb_neq y q)) by done. by zbool.
  - simpl in Hc, Hq. destruct Hc as (-> & _ & Hc). apply not_elem_of_cons in Hq as [Hq Hq'].
    apply Forall_cons in H1 as [Hy H1]. rewrite (proj2 (Z.eqb_neq y q)) by done. zbool. simpl.
    apply IH; try done. simpl in Hf. lia.
Qed.

Lemma ready_scan_stops h q prio a l1 l2 fuel :
  chained h a (l1 ++ l2) q -> p_prio h q < prio ->
  Forall (fun y => prio <= p_prio h y) l1 ->
  match l2 with [] => True | y :: _ => p_prio h y < prio end ->
  (length l1 < fuel)%nat -> ready_scan fuel h prio a = Some (at_pos q l2).
Proof.
  revert a fuel. induction l1 as [|y l1 IH]; intros a fuel Hc Hq H1 H2 Hf;
    (destruct fuel as [|fuel]; [simpl in Hf; lia|]); simpl.
  - destruct l2 as [|y l2]; simpl in *; [destruct Hc as [-> _]|destruct Hc as (-> & _)]; by zbool.
  - simpl in Hc. destruct Hc as (-> & _ & Hc). apply Forall_cons in H1 as [Hy H1]. zbool.
    apply IH; try done. simpl in Hf. lia.
Qed.

(** (C4) The pointer operations on a circular queue implement the operations
    on the list of its threads: insertion by priority (after all threads of
    the same or higher priority), insertion at the end, removal of the first,
    of the last and of any thread, and the emptiness tests.  The loops end
    within one more turn than the queue has threads. *)
Theorem threads_queue_refines h q l :
  is_queue h q l ->
  (forall tp fuel, tp ∉ (q :: l) -> (length l < fuel)%nat ->
     exists h', prio_insert fuel tp q h = Some h' /\ is_queue h' q (pinsert (p_prio h) tp l)) /\
  (forall tp fuel, tp ∉ (q :: l) -> (length l < fuel)%nat -> p_prio h q < p_prio h tp ->
     exists h', ready_insert fuel tp q h = Some h' /\ is_queue h' q (pinsert (p_prio h) tp l)) /\
  (forall tp, tp ∉ (q :: l) -> is_queue (queue_insert tp q h) q (l ++ [tp])) /\
  (forall tp l', l = tp :: l' -> (fifo_remove q h).1 = tp /\ is_queue (fifo_remove q h).2 q l') /\
  (forall tp l', l = l' ++ [tp] -> (lifo_remove q h).1 = tp /\ is_queue (lifo_remove q h).2 q l') /\
  (forall tp l1 l2, l = l1 ++ tp :: l2 -> is_queue (dequeue tp h) q (l1 ++ l2)) /\
  isempty q h = bool_decide (l = []) /\ is_queue (queue_init q h) q [].
Proof.
  intros Hq. destruct (id Hq) as [Hnd Hc]. destruct (is_queue_nodup _ _ _ Hq) as [Hql _].
  split_and!.
  - intros tp fuel Htp Hf. unfold prio_insert.
    destruct (pinsert_split (p_prio h) tp l) as (l1 & l2 & Hl & -> & H1 & H2).
    assert (length l1 < fuel)%nat by (rewrite Hl, length_app in Hf; lia).
    rewrite (prio_scan_stops h q (p_prio h tp) q l1 l2) by (rewrite <- ?Hl; done).
    eexists. split; [done|]. rewrite Hl in Hq, Htp. by apply link_before_queue.
  - intros tp fuel Htp Hf Hlt. unfold ready_insert.
    destruct (pinsert_split (p_prio h) tp l) as (l1 & l2 & Hl & -> & H1 & H2).
    assert (length l1 < fuel)%nat by (rewrite Hl, length_app in Hf; lia).
    rewrite (ready_scan_stops h q (p_prio h tp) q l1 l2) by (rewrite <- ?Hl; done).
    eexists. split; [done|]. rewrite Hl in Hq, Htp. by apply link_before_queue.
  - intros tp Htp. apply (link_before_queue h q tp l []); by rewrite app_nil_r.
  - intros tp l' ->. assert ((fifo_remove q h) = (tp, dequeue tp h)) as ->; [|split; [done|]].
    { destruct Hc as (Hn & Hp & _). unfold fifo_remove, dequeue, set_next, set_prev. simpl.
      rewrite Hn, Hp. f_equal. f_equal. rewrite !fn_lookup_insert.
      rewrite fn_lookup_insert_ne; [done|]. by apply not_elem_of_cons in Hql as [? _]. }
    by apply (dequeue_queue h q tp [] l').
  - intros tp l' ->. assert ((lifo_remove q h) = (tp, dequeue tp h)) as ->; [|split; [done|]].
    { apply chained_app in Hc as [Hc1 [Hn Hp]]. apply chained_last in Hc1 as [Hpt _].
      unfold lifo_remove, dequeue, set_next, set_prev. simpl. rewrite Hp, Hn. f_equal.
      assert (<[p_prev h tp:=q]> (p_next h) tp = q) as -> by (unfold insert, fn_insert; by case_decide).
      by rewrite fn_lookup_insert. }
    rewrite <- (app_nil_r l'). by apply dequeue_queue.
  - intros tp l1 l2 ->. by apply dequeue_queue.
  - unfold isempty. destruct l as [|x l]; simpl in Hc.
    + destruct Hc as [-> _]. by rewrite Z.eqb_refl.
    + destruct Hc as (-> & _). apply not_elem_of_cons in Hql as [Hne _].
      by rewrite (proj2 (Z.eqb_neq x q)) by done.
  - split; [apply NoDup_singleton|]. simpl. unfold queue_init, set_next, set_prev. simpl.
    by rewrite !fn_lookup_insert.
Qed.

(** The single links of a list of threads. *)
Fixpoint list_chained (h : links) (a : Z) (l : list Z) (b : Z) : Prop :=
  match l with
  | [] => p_next h a = b
  | x :: l => p_next h a = x /\ list_chained h x l b
  end.

Definition is_list (h : links) (tlp : Z) (l : list Z) : Prop :=
  NoDup (tlp :: l) /\ list_chained h tlp l tlp.

Lemma list_chained_frame h h' a l b :
  (forall x, x ∈ (a :: l) -> p_next h' x = p_next h x) -> list_chained h a l b -> list_chained h' a l b.
Proof.
  revert a. induction l as [|y l IH]; intros a Hn; simpl.
  - intros Hb. rewrite Hn; [done|constructor].
  - intros [Ha Hc]. rewrite Hn by constructor. split; [done|]. apply IH; [|done].
    intros x Hx. apply Hn. by constructor.
Qed.

(** A list of threads is a stack. *)
Lemma threads_list_refines h tlp l :
  is_list h tlp l ->
  (forall tp, tp ∉ (tlp :: l) -> is_list (list_insert tp tlp h) tlp (tp :: l)) /\
  (forall tp l', l = tp :: l' -> (list_remove tlp h).1 = tp /\ is_list (list_remove tlp h).2 tlp l') /\
  is_list (list_init tlp h) tlp [].
Proof.
  intros [Hnd Hc]. apply NoDup_cons in Hnd as [Hq Hnd]. split_and!.
  - intros tp [Ht Htl]%not_elem_of_cons. split.
    { apply NoDup_cons. rewrite not_elem_of_cons. split; [done|]. by apply NoDup_cons. }
    unfold list_insert, set_next. simpl. rewrite fn_lookup_insert. split; [done|].
    destruct l as [|x l]; simpl in *.
    + by rewrite fn_lookup_insert_ne, fn_lookup_insert by done.
    + rewrite fn_lookup_insert_ne, fn_lookup_insert by done. destruct Hc as [Hx Hc]. split; [done|].
      eapply list_chained_frame; [|exact Hc]. intros y Hy. simpl.
      rewrite !fn_lookup_insert_ne; [done|..]; intros ->; done.
  - intros tp l' ->. destruct Hc as [Ht Hc]. unfold list_remove. rewrite Ht. split; [done|]. cbn [snd].
    apply not_elem_of_cons in Hq as [Hne Hq]. apply NoDup_cons in Hnd as [_ Hnd]. split; [by apply NoDup_cons|].
    destruct l' as [|x l']; simpl in *; rewrite fn_lookup_insert; [done|]. destruct Hc as [Hx Hc].
    split; [done|]. eapply list_chained_frame; [|exact Hc]. intros y Hy. simpl.
    rewrite fn_lookup_insert_ne; [done|]. intros ->. done.
  - split; [apply NoDup_singleton|]. simpl. by rewrite fn_lookup_insert.
Qed.

(** A queue of two threads, header 0. *)
Definition two_threads : links :=
  Links (fun a => if a =? 0 then 1 else if a =? 1 then 2 else 0)
        (fun a => if a =? 0 then 2 else if a =? 1 then 0 else 1)
        (fun a => if a =? 1 then 5 else if a =? 3 then 4 else if a =? 2 then 3 else 0).

Lemma threads_queue_refines_witness :
  exists h', prio_insert 3 3 0 two_threads = Some h' /\ is_queue h' 0 [1; 3; 2].
Proof.
  assert (is_queue two_threads 0 [1; 2]) as Hq.
  { split; [|done]. by apply (bool_decide_unpack _). }
  destruct (proj1 (threads_queue_refines two_threads 0 [1; 2] Hq) 3 3%nat) as (h' & Heq & Hq').
  - by apply (bool_decide_unpack _).
  - simpl. lia.
  - exists h'. split; [exact Heq|exact Hq'].
Defined.
