(* ===== verification/Kernel.v ===== *)
(** * The kernel's state and its control flow

    The scheduler's data (ReadyList of chschd.h, Thread of chthreads.h,
    Semaphore, Mutex and the virtual timers) as one record, at the level of
    ChLists.v's refinement: a queue is the list of its threads, and a thread's
    two link fields are the name of the queue it is linked in.

    Kernel code runs with interrupts disabled and can change threads in the
    middle of a function ([chSysSwitch]).  A program of the monad [K] is run by
    one thread: it ends with a value, or it stops at a switch and says how it
    goes on when the thread is current again. *)

From S2P Require Import Prelude ChLists.

(** ** Threads *)

Inductive tstate :=
| READY | CURRENT | SUSPENDED | WTSEM | WTMTX | WTCOND | SLEEPING | WTEXIT | WTOREVT | WTANDEVT
| SNDMSGQ | SNDMSG | WTMSG | WTQUEUE | FINAL.

#[export] Instance tstate_eq_dec : EqDecision tstate.
Proof. solve_decision. Defined.

(** A pointer to a queue of bytes, with its type: the counter of an
    [InputQueue] is the bytes in it, that of an [OutputQueue] the space left. *)
Inductive qptr := InputQueue (q : Z) | OutputQueue (q : Z).

#[export] Instance qptr_eq_dec : EqDecision qptr.
Proof. solve_decision. Defined.

(** The queues a thread can be linked in: the ready list, a semaphore's, a
    mutex's, a condition variable's, a thread's message queue, a thread's list
    of waiters for its exit, an I/O queue's. *)
Inductive qid :=
| QReady | QSem (s : Z) | QMtx (m : Z) | QCond (c : Z) | QMsg (t : Z) | QExit (t : Z) | QIoq (q : qptr).

#[export] Instance qid_eq_dec : EqDecision qid.
Proof. solve_decision. Defined.

(** The union [p_u]: the member last written. *)
Inductive punion := URdy (msg : Z) | UExit (msg : Z) | UObj (o : qid) | UMask (m : Z).

Record Thread := mkThread {
  t_prio : Z;
  t_realprio : Z;
  t_state : tstate;
  t_u : punion;
  t_link : option qid;       (** [p_next], [p_prev] *)
  t_flags : Z;
  t_refs : Z;
  t_time : Z;
  t_epending : Z;
  t_msg : Z;
  t_mtxlist : list Z         (** [p_mtxlist] and the [m_next] chain *)
}.

Definition with_prio p th := mkThread p (t_realprio th) (t_state th) (t_u th) (t_link th) (t_flags th)
  (t_refs th) (t_time th) (t_epending th) (t_msg th) (t_mtxlist th).
Definition with_realprio p th := mkThread (t_prio th) p (t_state th) (t_u th) (t_link th) (t_flags th)
  (t_refs th) (t_time th) (t_epending th) (t_msg th) (t_mtxlist th).
Definition with_state s th := mkThread (t_prio th) (t_realprio th) s (t_u th) (t_link th) (t_flags th)
  (t_refs th) (t_time th) (t_epending th) (t_msg th) (t_mtxlist th).
Definition with_u u th := mkThread (t_prio th) (t_realprio th) (t_state th) u (t_link th) (t_flags th)
  (t_refs th) (t_time th) (t_epending th) (t_msg th) (t_mtxlist th).
Definition with_link l th := mkThread (t_prio th) (t_realprio th) (t_state th) (t_u th) l (t_flags th)
  (t_refs th) (t_time th) (t_epending th) (t_msg th) (t_mtxlist th).
Definition with_flags f th := mkThread (t_prio th) (t_realprio th) (t_state th) (t_u th) (t_link th) f
  (t_refs th) (t_time th) (t_epending th) (t_msg th) (t_mtxlist th).
Definition with_refs r th := mkThread (t_prio th) (t_realprio th) (t_state th) (t_u th) (t_link th) (t_flags th)
  r (t_time th) (t_epending th) (t_msg th) (t_mtxlist th).
Definition with_time t th := mkThread (t_prio th) (t_realprio th) (t_state th) (t_u th) (t_link th) (t_flags th)
  (t_refs th) t (t_epending th) (t_msg th) (t_mtxlist th).
Definition with_epending e th := mkThread (t_prio th) (t_realprio th) (t_state th) (t_u th) (t_link th)
  (t_flags th) (t_refs th) (t_time th) e (t_msg th) (t_mtxlist th).
Definition with_msg m th := mkThread (t_prio th) (t_realprio th) (t_state th) (t_u th) (t_link th) (t_flags th)
  (t_refs th) (t_time th) (t_epending th) m (t_mtxlist th).
Definition with_mtxlist l th := mkThread (t_prio th) (t_realprio th) (t_state th) (t_u th) (t_link th)
  (t_flags th) (t_refs th) (t_time th) (t_epending th) (t_msg th) l.

(** ** The kernel *)

(** An armed timer: ticks after the timer before it, and the thread its
    [wakeup] callback gets. *)
Record vtimer := VT { vt_time : Z; vt_par : Z }.

(** A listener of an event source: its structure's name, the thread and the
    flags it is signalled with. *)
Record EventListener := Listener { el_id : Z; el_listener : Z; el_mask : Z }.

(** A mailbox: its buffer, where it writes and reads it, and its semaphores. *)
Record Mailbox := mkMailbox {
  mb_buffer : list Z;
  mb_wrptr : Z;
  mb_rdptr : Z;
  mb_fullsem : Z;
  mb_emptysem : Z
}.

(** The data of a queue of bytes. *)
Record GenericQueue := mkQueue {
  q_counter : Z;
  q_buffer : list Z;
  q_wrptr : Z;
  q_rdptr : Z
}.

Record kernel := mkKernel {
  thr : Z -> Thread;
  queues : qid -> list Z;
  currp : Z;
  r_preempt : Z;
  s_cnt : Z -> Z;
  m_owner : Z -> option Z;
  vtlist : list vtimer;
  vt_systime : Z;
  registry : list Z;         (** from [rlist.r_newer] along [p_newer] *)
  es_next : Z -> list EventListener;
  mbx : Z -> Mailbox;
  ioq : qptr -> GenericQueue
}.

Definition set_thr t th k := mkKernel (<[t := th]> (thr k)) (queues k) (currp k) (r_preempt k) (s_cnt k)
  (m_owner k) (vtlist k) (vt_systime k) (registry k) (es_next k) (mbx k) (ioq k).
Definition set_queue q l k := mkKernel (thr k) (<[q := l]> (queues k)) (currp k) (r_preempt k) (s_cnt k)
  (m_owner k) (vtlist k) (vt_systime k) (registry k) (es_next k) (mbx k) (ioq k).
Definition set_currp t k := mkKernel (thr k) (queues k) t (r_preempt k) (s_cnt k) (m_owner k) (vtlist k)
  (vt_systime k) (registry k) (es_next k) (mbx k) (ioq k).
Definition set_preempt p k := mkKernel (thr k) (queues k) (currp k) p (s_cnt k) (m_owner k) (vtlist k)
  (vt_systime k) (registry k) (es_next k) (mbx k) (ioq k).
Definition set_cnt s n k := mkKernel (thr k) (queues k) (currp k) (r_preempt k) (<[s := n]> (s_cnt k))
  (m_owner k) (vtlist k) (vt_systime k) (registry k) (es_next k) (mbx k) (ioq k).
Definition set_owner m o k := mkKernel (thr k) (queues k) (currp k) (r_preempt k) (s_cnt k)
  (<[m := o]> (m_owner k)) (vtlist k) (vt_systime k) (registry k) (es_next k) (mbx k) (ioq k).
Definition set_vts l k := mkKernel (thr k) (queues k) (currp k) (r_preempt k) (s_cnt k) (m_owner k) l
  (vt_systime k) (registry k) (es_next k) (mbx k) (ioq k).
Definition set_systime n k := mkKernel (thr k) (queues k) (currp k) (r_preempt k) (s_cnt k) (m_owner k)
  (vtlist k) n (registry k) (es_next k) (mbx k) (ioq k).
Definition set_registry l k := mkKernel (thr k) (queues k) (currp k) (r_preempt k) (s_cnt k) (m_owner k)
  (vtlist k) (vt_systime k) l (es_next k) (mbx k) (ioq k).

Definition set_listeners e l k := mkKernel (thr k) (queues k) (currp k) (r_preempt k) (s_cnt k) (m_owner k)
  (vtlist k) (vt_systime k) (registry k) (<[e := l]> (es_next k)) (mbx k) (ioq k).

Definition set_mbx b m k := mkKernel (thr k) (queues k) (currp k) (r_preempt k) (s_cnt k) (m_owner k) (vtlist k)
  (vt_systime k) (registry k) (es_next k) (<[b := m]> (mbx k)) (ioq k).

Definition set_ioq q iq k := mkKernel (thr k) (queues k) (currp k) (r_preempt k) (s_cnt k) (m_owner k) (vtlist k)
  (vt_systime k) (registry k) (es_next k) (mbx k) (<[q := iq]> (ioq k)).

Definition prio_of (k : kernel) (t : Z) : Z := t_prio (thr k t).

(** ** Programs *)

Inductive kprog (A : Type) :=
| KRet (k : kernel) (a : A)
| KSwitch (k : kernel) (resume : kernel -> kprog A)
| KUb.
Arguments KRet {A} k a.
Arguments KSwitch {A} k resume.
Arguments KUb {A}.

Definition K (A : Type) : Type := kernel -> kprog A.

Fixpoint kbind {A B} (p : kprog A) (f : A -> K B) : kprog B :=
  match p with
  | KRet k a => f a k
  | KSwitch k r => KSwitch k (fun k' => kbind (r k') f)
  | KUb => KUb
  end.

#[export] Instance K_ret : MRet K := fun A a k => KRet k a.
#[export] Instance K_bind : MBind K := fun A B f m k => kbind (m k) f.

Definition kget : K kernel := fun k => KRet k k.
Definition kmod (f : kernel -> kernel) : K unit := fun k => KRet (f k) tt.
Definition kub {A} : K A := fun _ => KUb.

(** [chSysSwitch]: another thread runs from here. *)
Definition chSysSwitch : K unit := fun k => KSwitch k (fun k' => KRet k' tt).

Lemma kget_bind {A} (f : kernel -> K A) k : (kget ≫= f) k = f k k.
Proof. done. Qed.

Lemma kmod_bind {A} g (f : unit -> K A) k : (kmod g ≫= f) k = f tt (g k).
Proof. done. Qed.

Lemma kbind_ret {A B} (m : K A) (f : A -> K B) k k' a : m k = KRet k' a -> (m ≫= f) k = f a k'.
Proof. unfold mbind, K_bind. by intros ->. Qed.

(** ** Threads and queues *)

Definition upd_thr (t : Z) (f : Thread -> Thread) (k : kernel) : kernel := set_thr t (f (thr k t)) k.

(** [t] linked in [q], which becomes [l]; [t] unlinked from [q]. *)
Definition enq (t : Z) (q : qid) (l : list Z) (k : kernel) : kernel :=
  set_queue q l (upd_thr t (with_link (Some q)) k).

Definition deq (t : Z) (q : qid) (l : list Z) (k : kernel) : kernel :=
  set_queue q l (upd_thr t (with_link None) k).

#[global] Arguments upd_thr : simpl never.
#[global] Arguments enq : simpl never.
#[global] Arguments deq : simpl never.

Definition upd (t : Z) (f : Thread -> Thread) : K unit := kmod (upd_thr t f).

Definition k_queue_insert (t : Z) (q : qid) : K unit := kmod (fun k => enq t q (queues k q ++ [t]) k).

Definition k_prio_insert (t : Z) (q : qid) : K unit := kmod (fun k =>
  enq t q (pinsert (prio_of k) t (queues k q)) k).

Definition k_list_insert (t : Z) (q : qid) : K unit := kmod (fun k => enq t q (t :: queues k q) k).

(** Taking from an empty queue yields its header: not a thread. *)
Definition k_fifo_remove (q : qid) : K Z := fun k =>
  match queues k q with
  | [] => KUb
  | t :: l => KRet (deq t q l k) t
  end.

Definition k_lifo_remove (q : qid) : K Z := fun k =>
  match last (queues k q) with
  | None => KUb
  | Some t => KRet (deq t q (removelast (queues k q)) k) t
  end.

(** Unlinking follows the thread's own links. *)
Definition k_dequeue (t : Z) : K unit := fun k =>
  match t_link (thr k t) with
  | None => KUb
  | Some q => KRet (deq t q (filter (fun x => x <> t) (queues k q)) k) tt
  end.

(** [notempty]. *)
Definition k_notempty (q : qid) (k : kernel) : bool := negb (bool_decide (queues k q = [])).

(** The counter of a semaphore is a 32-bit signed integer. *)
Definition cnt_add (s d : Z) : K Z := fun k =>
  let n := s_cnt k s + d in
  if (-(2 ^ 31) <=? n) && (n <? 2 ^ 31) then KRet (set_cnt s n k) n else KUb.

(** ** Specifications

    A thread's program runs in segments, from its call or a resumption to its
    next switch or its end.  [gspec S R Q k0 p], for a segment that began in
    [k0] and has come to [p]: a switch in [k] satisfies [S k0 k], and from any
    state [k'] it is resumed in with [R k k'] the rest is fine too; at the end
    the segment's start, the value and the state satisfy [Q]; nothing undefined
    happens. *)

Fixpoint gspec {A} (S R : kernel -> kernel -> Prop) (Q : kernel -> A -> kernel -> Prop) (k0 : kernel)
    (p : kprog A) : Prop :=
  match p with
  | KRet k a => Q k0 a k
  | KSwitch k r => S k0 k /\ forall k', R k k' -> gspec S R Q k' (r k')
  | KUb => False
  end.

Lemma gspec_bind {A B} S R (m : K A) (f : A -> K B) k0 k Q :
  gspec S R (fun k1 a k' => gspec S R Q k1 (f a k')) k0 (m k) -> gspec S R Q k0 ((m ≫= f) k).
Proof.
  unfold mbind, K_bind. generalize (m k). intros p. revert k0.
  induction p as [k' a|k' r IH|]; intros k0; simpl; [done| |done].
  intros [HS HR]. split; [done|]. intros k2 Hk2. apply IH, HR, Hk2.
Qed.

Lemma gspec_mono {A} (S R : kernel -> kernel -> Prop) (Q Q' : kernel -> A -> kernel -> Prop) k0 p :
  (forall k1 a k, Q k1 a k -> Q' k1 a k) -> gspec S R Q k0 p -> gspec S R Q' k0 p.
Proof.
  intros HQ. revert k0. induction p as [k a|k r IH|]; intros k0; simpl; [by apply HQ| |done].
  intros [HS HR]. split; [done|]. intros k' Hk'. apply IH, HR, Hk'.
Qed.
