(* ===== verification/ChVt.v ===== *)
(** * Virtual timers: kernel/src/chvt.c, include/chvt.h

    Armed timers form a list ordered by expiry in which every timer counts the
    ticks after the one before it; the header's count, the largest tick value,
    ends the search for the place of a new timer. *)

From S2P Require Import Prelude ChLists Kernel.

Definition CH_FREQUENCY : Z := 1000.
Definition TIME_IMMEDIATE : Z := 0.
Definition TIME_INFINITE : Z := 2 ^ 32 - 1.

(** Conversions to ticks, in 32-bit [long] arithmetic of defined range. *)
Definition S2ST (sec : Z) : Z := u32 (sec * CH_FREQUENCY).
Definition MS2ST (msec : Z) : Z := u32 (Z.quot ((msec - 1) * CH_FREQUENCY) 1000 + 1).
Definition US2ST (usec : Z) : Z := u32 (Z.quot ((usec - 1) * CH_FREQUENCY) 1000000 + 1).

(** ** Operations on the list *)

(** [chVTSetI]'s search and insertion. *)
Fixpoint vt_insert (time par : Z) (l : list vtimer) : list vtimer :=
  match l with
  | [] => [VT time par]
  | p :: l =>
      if vt_time p <? time then p :: vt_insert (u32 (time - vt_time p)) par l
      else VT time par :: VT (u32 (vt_time p - time)) (vt_par p) :: l
  end.

(** [chVTResetI]: the timer after gets the removed one's ticks. *)
Fixpoint vt_reset (par : Z) (l : list vtimer) : list vtimer :=
  match l with
  | [] => []
  | p :: l =>
      if vt_par p =? par then
        match l with
        | [] => []
        | n :: l => VT (u32 (vt_time n + vt_time p)) (vt_par n) :: l
        end
      else p :: vt_reset par l
  end.

(** The start of [chVTDoTickI]: [--vtlist.vt_next->vt_time]. *)
Definition vt_dec (l : list vtimer) : list vtimer :=
  match l with
  | [] => []
  | p :: l => VT (u32 (vt_time p - 1)) (vt_par p) :: l
  end.

(** The timers the loop of [chVTDoTickI] takes off, in order, and the rest. *)
Fixpoint vt_due (l : list vtimer) : list Z * list vtimer :=
  match l with
  | [] => ([], [])
  | p :: l' => if vt_time p =? 0 then let r := vt_due l' in (vt_par p :: r.1, r.2) else ([], l)
  end.

(** ** Kernel operations *)

Definition _vt_init : K unit := kmod (fun k => set_systime 0 (set_vts [] k)).

(** The timer is a local of the sleeping thread [par]: the thread names it. *)
Definition chVTSetI (time par : Z) : K unit := kmod (fun k => set_vts (vt_insert time par (vtlist k)) k).

Definition chVTResetI (par : Z) : K unit := kmod (fun k => set_vts (vt_reset par (vtlist k)) k).

Definition armed (k : kernel) (t : Z) : Prop := t ∈ (vt_par <$> vtlist k).

Definition chVTIsArmedI (par : Z) : K bool := fun k =>
  KRet k (bool_decide (par ∈ (vt_par <$> vtlist k))).

Definition chTimeNow : K Z := fun k => KRet k (vt_systime k).

Definition chTimeIsWithin (start end_ : Z) : K bool :=
  time ← chTimeNow;
  mret (if start <? end_ then (start <=? time) && (time <? end_) else (start <=? time) || (time <? end_)).

(** The loop of [chVTDoTickI]: as long as the first timer is due, take it off
    and run its callback. *)
Fixpoint vt_fire (fuel : nat) (fn : Z -> K unit) : K unit := fun k =>
  match fuel, vtlist k with
  | O, _ => KUb
  | S fuel, p :: l =>
      if vt_time p =? 0 then (kmod (set_vts l);; fn (vt_par p);; vt_fire fuel fn) k else KRet k tt
  | S fuel, [] => KRet k tt
  end.

Definition chVTDoTickI (fn : Z -> K unit) : K unit :=
  kmod (fun k => set_systime (u32 (vt_systime k + 1)) k);;
  kmod (fun k => set_vts (vt_dec (vtlist k)) k);;
  k ← kget;
  vt_fire (S (length (vtlist k))) fn.

(** ** Absolute times *)

(** The armed timers with the tick, counted from [b], at which each is due. *)
Fixpoint expiries (b : Z) (l : list vtimer) : list (Z * Z) :=
  match l with
  | [] => []
  | p :: l => (b + vt_time p, vt_par p) :: expiries (b + vt_time p) l
  end.

(** A list of deltas of machine width whose sum still fits. *)
Definition vts_ok (l : list vtimer) : Prop :=
  Forall (fun p => 0 <= vt_time p) l /\ foldr (fun p n => vt_time p + n) 0 l < 2 ^ 32.

(** Outside a tick the first timer has at least one tick to go. *)
Definition vts_live (l : list vtimer) : Prop := match l with [] => True | p :: _ => 1 <= vt_time p end.

(** Before the first timer due at the same time or later. *)
Fixpoint due_insert (e : Z * Z) (l : list (Z * Z)) : list (Z * Z) :=
  match l with
  | [] => [e]
  | x :: l => if x.1 <? e.1 then x :: due_insert e l else e :: x :: l
  end.

Lemma vts_ok_cons p l : vts_ok (p :: l) -> 0 <= vt_time p < 2 ^ 32 /\ vts_ok l /\
  vt_time p + foldr (fun p n => vt_time p + n) 0 l < 2 ^ 32.
Proof.
  intros [Hf Hs]. apply Forall_cons in Hf as [Hp Hf]. simpl in Hs.
  assert (0 <= foldr (fun p n => vt_time p + n) 0 l).
  { clear Hs. induction Hf as [|q l Hq Hf IH]; simpl; lia. }
  split_and!; [lia|lia|split; [done|lia]|lia].
Qed.

Lemma vts_sum_nonneg l : Forall (fun p => 0 <= vt_time p) l -> 0 <= foldr (fun p n => vt_time p + n) 0 l.
Proof. induction 1; simpl; lia. Qed.

Lemma expiries_insert b time par l :
  vts_ok l -> fits 32 time ->
  expiries b (vt_insert time par l) = due_insert (b + time, par) (expiries b l).
Proof.
  unfold fits. revert b time. induction l as [|p l IH]; intros b time Hl Ht; [done|].
  apply vts_ok_cons in Hl as (Hp & Hl & Hs). simpl.
  destruct (Z.ltb_spec (vt_time p) time).
  - zbool. simpl. f_equal. rewrite wrap_small by (unfold fits; lia).
    rewrite IH by (done || lia). f_equal. f_equal. lia.
  - zbool. simpl. f_equal. rewrite wrap_small by (unfold fits; lia). f_equal; [f_equal; lia|f_equal; lia].
Qed.

Lemma vts_ok_insert time par l :
  vts_ok l -> fits 32 time -> vts_ok (vt_insert time par l).
Proof.
  unfold fits. intros Hl Ht.
  assert (Forall (fun p => 0 <= vt_time p) (vt_insert time par l) /\
          foldr (fun p n => vt_time p + n) 0 (vt_insert time par l)
          = Z.max time (foldr (fun p n => vt_time p + n) 0 l)) as [H1 H2].
  { revert time Ht. induction l as [|p l IH]; intros time Ht; simpl.
    - split; [constructor; [simpl; lia|constructor]|]. lia.
    - apply vts_ok_cons in Hl as (Hp & Hl & Hs). pose proof (vts_sum_nonneg l (proj1 Hl)).
      destruct (Z.ltb_spec (vt_time p) time).
      + rewrite wrap_small by (unfold fits; lia). destruct (IH Hl (time - vt_time p)) as [H1 H2]; [lia|].
        split; [constructor; [lia|done]|]. simpl. rewrite H2. lia.
      + rewrite wrap_small by (unfold fits; lia). destruct Hl as [Hl _].
        split; [constructor; [simpl; lia|constructor; [simpl; lia|done]]|]. simpl. lia. }
  split; [done|]. rewrite H2. destruct Hl. lia.
Qed.

Lemma expiries_reset b par l :
  vts_ok l -> NoDup (vt_par <$> l) ->
  expiries b (vt_reset par l) = filter (fun e => e.2 <> par) (expiries b l).
Proof.
  revert b. induction l as [|p l IH]; intros b Hl Hnd; [done|].
  apply vts_ok_cons in Hl as (Hp & Hl & Hs). rewrite fmap_cons in Hnd.
  apply NoDup_cons in Hnd as [Hpn Hnd]. simpl vt_reset. simpl expiries at 2.
  destruct (Z.eqb_spec (vt_par p) par) as [He|He].
  - rewrite filter_cons_False by (simpl; lia).
    rewrite filter_all.
    2:{ apply Forall_forall. intros e Hin Heq. apply Hpn. rewrite He, <- Heq.
        clear -Hin. revert Hin. generalize (b + vt_time p). induction l as [|q l IH]; intros c; [by intros ?%elem_of_nil|].
        simpl. intros [->|Hin]%elem_of_cons; [by constructor|]. constructor. by eapply IH. }
    destruct l as [|n l]; [done|]. simpl in Hs. apply vts_ok_cons in Hl as (Hn & [Hl _] & _).
    pose proof (vts_sum_nonneg l Hl). simpl. rewrite wrap_small by (unfold fits; lia).
    f_equal; [f_equal; lia|f_equal; lia].
  - rewrite filter_cons_True by (simpl; lia). simpl. f_equal. by apply IH.
Qed.

(** ** The timers of a list *)

Lemma pars_insert time par l : vt_par <$> vt_insert time par l ≡ₚ par :: (vt_par <$> l).
Proof.
  revert time. induction l as [|p l IH]; intros time; [done|]. simpl. destruct (_ <? _); simpl; [|done].
  rewrite IH. apply perm_swap.
Qed.

Lemma pars_reset par l :
  NoDup (vt_par <$> l) -> vt_par <$> vt_reset par l = filter (fun t => t <> par) (vt_par <$> l).
Proof.
  induction l as [|p l IH]; intros Hnd; [done|]. rewrite fmap_cons in Hnd.
  apply NoDup_cons in Hnd as [Hp Hnd]. simpl vt_reset. rewrite fmap_cons.
  destruct (Z.eqb_spec (vt_par p) par) as [He|He].
  - rewrite filter_cons_False by auto. rewrite filter_all; [by destruct l|].
    apply Forall_forall. intros x Hx ->. by rewrite He in Hp.
  - rewrite filter_cons_True by done. simpl. f_equal. by apply IH.
Qed.

Lemma vts_ok_reset par l : vts_ok l -> vts_ok (vt_reset par l).
Proof.
  intros Hl.
  assert (Forall (fun p => 0 <= vt_time p) (vt_reset par l) /\
          foldr (fun p n => vt_time p + n) 0 (vt_reset par l) <= foldr (fun p n => vt_time p + n) 0 l) as [H1 H2].
  { induction l as [|p l IH]; simpl; [done|]. apply vts_ok_cons in Hl as (Hp & Hl & Hs).
    destruct (vt_par p =? par).
    - destruct l as [|n l]; [split; [done|simpl; lia]|].
      apply vts_ok_cons in Hl as (Hn & [Hl _] & Hs'). pose proof (vts_sum_nonneg l Hl). simpl in Hs.
      rewrite wrap_small by (unfold fits; lia). split; [constructor; [simpl; lia|done]|]. simpl. lia.
    - destruct (IH Hl) as [H1 H2]. split; [constructor; [lia|done]|]. simpl. lia. }
  split; [done|]. destruct Hl. lia.
Qed.

Lemma vts_live_insert time par l : 1 <= time -> vts_live l -> vts_live (vt_insert time par l).
Proof. intros Ht Hl. destruct l as [|p l]; simpl; [lia|]. by destruct (_ <? _). Qed.

Lemma vts_live_reset par l : vts_ok l -> vts_live l -> vts_live (vt_reset par l).
Proof.
  intros Hok Hl. destruct l as [|p l]; [done|]. simpl. destruct (_ =? _); [|done].
  apply vts_ok_cons in Hok as (Hp & Hok & Hs). destruct l as [|n l]; [done|].
  apply vts_ok_cons in Hok as (Hn & [Hok _] & _). pose proof (vts_sum_nonneg l Hok). simpl in Hl, Hs |- *.
  rewrite wrap_small by (unfold fits; lia). lia.
Qed.

Lemma vts_ok_dec l : vts_ok l -> vts_live l -> vts_ok (vt_dec l) /\ vt_par <$> vt_dec l = vt_par <$> l.
Proof.
  intros Hok Hl. destruct l as [|p l]; [done|]. apply vts_ok_cons in Hok as (Hp & [Hok _] & Hs). simpl in Hl |- *.
  rewrite wrap_small by (unfold fits; lia). split; [|done]. split; [constructor; [simpl; lia|done]|].
  simpl. lia.
Qed.

Lemma due_insert_perm e l : due_insert e l ≡ₚ e :: l.
Proof. induction l as [|x l IH]; [done|]. simpl. case_z; [|done]. rewrite IH. apply perm_swap. Qed.

(** Timers are kept in order of expiry. *)
Lemma expiries_sorted b l :
  Forall (fun p => 0 <= vt_time p) l ->
  StronglySorted (fun x y => x.1 <= y.1) (expiries b l) /\ Forall (fun e => b <= e.1) (expiries b l).
Proof.
  intros Hl. revert b. induction Hl as [|p l Hp Hl IH]; intros b; simpl; [repeat constructor|].
  destruct (IH (b + vt_time p)) as [Hs Hb]. split; [by constructor|].
  constructor; [simpl; lia|]. eapply Forall_impl; [exact Hb|]. simpl. intros; lia.
Qed.

Lemma expiries_shift b c l : expiries (b + c) l = (fun e => (e.1 + c, e.2)) <$> expiries b l.
Proof.
  revert b. induction l as [|p l IH]; intros b; [done|]. simpl. f_equal; [f_equal; lia|].
  rewrite <- IH. f_equal. lia.
Qed.

Lemma expiries_dec l :
  vts_ok l -> match l with [] => True | p :: _ => 1 <= vt_time p end ->
  expiries 0 (vt_dec l) = (fun e => (e.1 - 1, e.2)) <$> expiries 0 l.
Proof.
  destruct l as [|p l]; [done|]. intros (Hp & _ & _)%vts_ok_cons H1. simpl.
  rewrite wrap_small by (unfold fits; lia). f_equal.
  replace (0 + (vt_time p - 1)) with (0 + vt_time p + -1) by lia. rewrite expiries_shift.
  by apply list_fmap_ext.
Qed.

Lemma vt_due_expiries b l :
  Forall (fun p => 0 <= vt_time p) l ->
  (vt_due l).1 = snd <$> filter (fun e => e.1 = b) (expiries b l) /\
  expiries b (vt_due l).2 = filter (fun e => e.1 <> b) (expiries b l).
Proof.
  induction 1 as [|p l Hp Hl IH]; [done|]. simpl. destruct (Z.eqb_spec (vt_time p) 0) as [He|He].
  - destruct IH as [IH1 IH2]. rewrite He, Z.add_0_r. cbn [fst snd].
    rewrite filter_cons_True, filter_cons_False by (simpl; lia). simpl. by rewrite IH1.
  - destruct (expiries_sorted (b + vt_time p) l Hl) as [_ Hb].
    rewrite filter_cons_False, filter_cons_True by (simpl; lia).
    rewrite filter_none, filter_all.
    2,3: eapply Forall_impl; [exact Hb|]; simpl; intros; lia.
    done.
Qed.

(** (C31) The delta list keeps absolute time exact.  Arming a timer adds it at
    its due time and leaves every other timer's due time alone; disarming
    removes exactly that timer; a tick brings every timer one tick closer and
    fires those that become due, in list order, and no other. *)
Theorem vt_delta_list_exact l :
  vts_ok l ->
  (forall time par, fits 32 time ->
     expiries 0 (vt_insert time par l) ≡ₚ (time, par) :: expiries 0 l /\ vts_ok (vt_insert time par l)) /\
  (forall par, NoDup (vt_par <$> l) ->
     expiries 0 (vt_reset par l) = filter (fun e => e.2 <> par) (expiries 0 l)) /\
  (match l with [] => True | p :: _ => 1 <= vt_time p end ->
     let later := (fun e => (e.1 - 1, e.2)) <$> expiries 0 l in
     (vt_due (vt_dec l)).1 = snd <$> filter (fun e => e.1 = 0) later /\
     expiries 0 (vt_due (vt_dec l)).2 = filter (fun e => e.1 <> 0) later).
Proof.
  intros Hl. split_and!.
  - intros time par Ht. split; [|by apply vts_ok_insert].
    rewrite expiries_insert by done. apply due_insert_perm.
  - intros par Hnd. by apply expiries_reset.
  - intros H1. cbv zeta. rewrite <- expiries_dec by done. apply vt_due_expiries.
    destruct l as [|p l]; [constructor|]. apply vts_ok_cons in Hl as (Hp & [Hl _] & _).
    simpl. constructor; [|done]. simpl. apply wrap_range. lia.
Qed.

Lemma vt_delta_list_exact_witness :
  expiries 0 (vt_insert 7 3 [VT 5 1; VT 4 2]) ≡ₚ [(7, 3); (5, 1); (9, 2)].
Proof.
  exact (proj1 (proj1 (vt_delta_list_exact [VT 5 1; VT 4 2]
    ltac:(split; [repeat constructor; simpl; lia|done])) 7 3 ltac:(done))).
Defined.
