(* ===== verification/ChSchd.v ===== *)
(** * The scheduler: kernel/src/chschd.c, include/chschd.h

    Readying, sleeping (with and without a time-out), waking, rescheduling and
    preemption, and the kernel's well-formedness invariant with the proof rules
    of the steps every kernel function is made of. *)

From S2P Require Import Prelude ChLists Kernel ChVt.

Definition RDY_OK : Z := 0.
Definition RDY_TIMEOUT : Z := -1.
Definition RDY_RESET : Z := -2.
Definition NOPRIO : Z := 0.
Definition IDLEPRIO : Z := 1.
Definition NORMALPRIO : Z := 64.
Definition HIGHPRIO : Z := 127.
Definition CH_TIME_QUANTUM : Z := 20.

(** The union read as a message; a pointer's integer value is of no
    consequence and stands as 0. *)
Definition u_msg (u : punion) : Z :=
  match u with URdy m | UExit m | UMask m => m | UObj _ => 0 end.

(** ** Operations *)

Definition _scheduler_init : K unit := kmod (fun k =>
  set_registry [] (set_preempt CH_TIME_QUANTUM (set_queue QReady [] k))).

(** The priority of the first ready thread; the empty list's header has the
    lowest. *)
Definition firstprio (k : kernel) : Z :=
  match queues k QReady with [] => NOPRIO | t :: _ => prio_of k t end.

(** The search relies on the header's priority being lower: a thread of
    priority [NOPRIO] would make it run around for ever. *)
Definition chSchReadyI (tp : Z) : K unit := fun k =>
  if prio_of k tp <=? NOPRIO then KUb
  else (upd tp (with_state READY);; k_prio_insert tp QReady) k.

Definition chSchGoSleepS (newstate : tstate) : K unit :=
  k ← kget;
  let otp := currp k in
  upd otp (with_state newstate);;
  kmod (set_preempt CH_TIME_QUANTUM);;
  ntp ← k_fifo_remove QReady;
  kmod (set_currp ntp);;
  upd ntp (with_state CURRENT);;
  chSysSwitch.

(** The callback of a sleep's timer. *)
Definition wakeup (tp : Z) : K unit :=
  k ← kget;
  let expire := upd tp (with_u (URdy RDY_TIMEOUT));; chSchReadyI tp in
  match t_state (thr k tp) with
  | READY => mret tt
  | WTSEM =>
      match t_u (thr k tp) with
      | UObj (QSem s) => cnt_add s 1;; k_dequeue tp;; expire
      | _ => kub
      end
  | WTQUEUE | WTCOND => k_dequeue tp;; expire
  | _ => expire
  end.

Definition chSchGoSleepTimeoutS (newstate : tstate) (time : Z) : K Z :=
  k ← kget;
  let me := currp k in
  (if negb (TIME_INFINITE =? time) then
     chVTSetI time me;;
     chSchGoSleepS newstate;;
     b ← chVTIsArmedI me;
     if b : bool then chVTResetI me else mret tt
   else chSchGoSleepS newstate);;
  k ← kget;
  mret (u_msg (t_u (thr k (currp k)))).

Definition chSchWakeupS (ntp msg : Z) : K unit :=
  upd ntp (with_u (URdy msg));;
  k ← kget;
  if prio_of k ntp <=? prio_of k (currp k) then chSchReadyI ntp
  else
    chSchReadyI (currp k);;
    kmod (set_preempt CH_TIME_QUANTUM);;
    kmod (set_currp ntp);;
    upd ntp (with_state CURRENT);;
    chSysSwitch.

Definition chSchIsRescRequiredI (k : kernel) : bool := prio_of k (currp k) <? firstprio k.

Definition chSchDoReschedule : K unit :=
  kmod (set_preempt CH_TIME_QUANTUM);;
  k ← kget;
  let otp := currp k in
  ntp ← k_fifo_remove QReady;
  kmod (set_currp ntp);;
  upd ntp (with_state CURRENT);;
  chSchReadyI otp;;
  chSysSwitch.

Definition chSchRescheduleS : K unit :=
  k ← kget; if chSchIsRescRequiredI k then chSchDoReschedule else mret tt.

Definition chSchIsPreemptionRequired (k : kernel) : bool :=
  let p1 := firstprio k in
  let p2 := prio_of k (currp k) in
  if negb (r_preempt k =? 0) then p2 <? p1 else p2 <=? p1.

Definition chSchCanYieldS (k : kernel) : bool := prio_of k (currp k) <=? firstprio k.

Definition chSchDoYieldS : K unit :=
  k ← kget; if chSchCanYieldS k then chSchDoReschedule else mret tt.

Definition chSchPreemption : K unit :=
  k ← kget;
  let p1 := firstprio k in
  let p2 := prio_of k (currp k) in
  if negb (r_preempt k =? 0)
  then if p2 <? p1 then chSchDoReschedule else mret tt
  else if p2 <=? p1 then chSchDoReschedule else mret tt.

(** ** Well-formedness *)

(** The thread the system keeps for the time nothing else can run. *)
Definition idle : Z := 1.

(** A thread's state says which queue it is linked in. *)
Definition state_ok (k : kernel) (t : Z) : Prop :=
  let th := thr k t in
  match t_state th with
  | READY => t_link th = Some QReady
  | CURRENT => t_link th = None /\ t = currp k
  | WTSEM => exists s, t_link th = Some (QSem s) /\ t_u th = UObj (QSem s)
  | WTMTX => exists m, t_link th = Some (QMtx m) /\ t_u th = UObj (QMtx m)
  | WTCOND => exists c, t_link th = Some (QCond c) /\ t_u th = UObj (QCond c)
  | SNDMSGQ => exists r, t_link th = Some (QMsg r) /\ t_u th = UObj (QMsg r)
  | WTEXIT => exists r, t_link th = Some (QExit r)
  | WTQUEUE => exists q, t_link th = Some (QIoq q)
  | _ => t_link th = None
  end.

(** The states in which a thread may have an armed time-out. *)
Definition may_time_out (s : tstate) : bool :=
  match s with
  | READY | WTSEM | WTCOND | SLEEPING | WTOREVT | WTANDEVT | WTQUEUE => true
  | _ => false
  end.

(** A semaphore's counter, when negative, counts its waiters. *)
Definition sem_ok (k : kernel) (s : Z) : Prop :=
  zlen (queues k (QSem s)) = Z.max 0 (- s_cnt k s) /\ -(2 ^ 31) <= s_cnt k s < 2 ^ 31.

(** Mutexes: a thread's list holds exactly the mutexes it owns, nobody waits
    for a free mutex, waiters are queued by priority, and a thread's priority
    is its own or one it has from a waiter of a mutex it owns, except for the
    thread [X]. *)
Record mtx_but (X : option Z) (k : kernel) : Prop := {
  mx_owner m t : m_owner k m = Some t <-> m ∈ t_mtxlist (thr k t);
  mx_nodup t : NoDup (t_mtxlist (thr k t));
  mx_free m : m_owner k m = None -> queues k (QMtx m) = [];
  mx_sorted m : StronglySorted (by_prio (prio_of k)) (queues k (QMtx m));
  mx_cond c : StronglySorted (by_prio (prio_of k)) (queues k (QCond c));
  mx_real t : t_state (thr k t) <> FINAL -> NOPRIO < t_realprio (thr k t);
  mx_lower t : t_realprio (thr k t) <= prio_of k t;
  mx_upper t : X <> Some t -> prio_of k t <= t_realprio (thr k t) \/
    exists m w, m ∈ t_mtxlist (thr k t) /\ w ∈ queues k (QMtx m) /\ prio_of k t <= prio_of k w
}.

Notation mtx_ok := (mtx_but None).

(** The ring of a queue of bytes: the pointers are in the buffer, and the write
    pointer is as many places after the read pointer as there are bytes. *)
Definition q_used (qp : qptr) (iq : GenericQueue) : Z :=
  match qp with
  | InputQueue _ => q_counter iq
  | OutputQueue _ => zlen (q_buffer iq) - q_counter iq
  end.

Definition ioq_ok (qp : qptr) (iq : GenericQueue) : Prop :=
  0 <= q_used qp iq <= zlen (q_buffer iq) /\
  (0 < zlen (q_buffer iq) ->
   0 <= q_rdptr iq < zlen (q_buffer iq) /\ q_wrptr iq = (q_rdptr iq + q_used qp iq) mod zlen (q_buffer iq)).

(** What kernel code may have broken for the moment: a thread being moved, a
    semaphore being counted, the timers during a tick, the rule that no ready
    thread has a higher priority than the current one, the mutexes, the rule
    that every live thread is registered. *)
Inductive exc := XThr (t : Z) | XSem (s : Z) | XVts | XTop | XMtx | XReg.

#[export] Instance exc_eq_dec : EqDecision exc.
Proof. solve_decision. Defined.

Record wfx (E : list exc) (k : kernel) : Prop := {
  x_link t q : t ∈ queues k q <-> t_link (thr k t) = Some q;
  x_nodup q : NoDup (queues k q);
  x_state t : XThr t ∉ E -> state_ok k t;
  x_curr : XThr (currp k) ∉ E -> t_state (thr k (currp k)) = CURRENT;
  x_ready : StronglySorted (by_prio (prio_of k)) (queues k QReady);
  x_prio t : t_state (thr k t) <> FINAL -> NOPRIO < prio_of k t;
  x_idle : XThr idle ∉ E -> t_state (thr k idle) = READY \/ t_state (thr k idle) = CURRENT;
  x_exit t : t_state (thr k t) = FINAL -> queues k (QExit t) = [];
  x_vts : vts_ok (vtlist k) /\ NoDup (vt_par <$> vtlist k);
  x_live : XVts ∉ E -> vts_live (vtlist k);
  x_armed t : armed k t -> XThr t ∈ E \/ t = currp k \/ may_time_out (t_state (thr k t)) = true;
  x_sem s : XSem s ∉ E -> sem_ok k s;
  x_top : XTop ∉ E -> forall t, t ∈ queues k QReady -> prio_of k t <= prio_of k (currp k);
  x_mtx : XMtx ∉ E -> mtx_ok k;
  x_reg : XReg ∉ E -> forall t, t_state (thr k t) <> FINAL -> t ∈ registry k;
  x_ioq q : ioq_ok q (ioq k q)
}.

(** Well-formedness between kernel functions. *)
Definition wf (k : kernel) : Prop := wfx [] k.

(** ** Simplification of states *)

Lemma thr_upd t f k x : thr (upd_thr t f k) x = if decide (x = t) then f (thr k t) else thr k x.
Proof.
  unfold upd_thr, set_thr. simpl. destruct (decide (x = t)) as [->|Hx].
  - apply fn_lookup_insert.
  - by apply fn_lookup_insert_ne.
Qed.

Lemma thr_upd_eq t f k : thr (upd_thr t f k) t = f (thr k t).
Proof. rewrite thr_upd. by rewrite decide_True. Qed.

Lemma thr_upd_ne t f k x : x <> t -> thr (upd_thr t f k) x = thr k x.
Proof. intros. rewrite thr_upd. by rewrite decide_False. Qed.

Lemma queue_set q l k q' : queues (set_queue q l k) q' = if decide (q' = q) then l else queues k q'.
Proof.
  unfold set_queue. simpl. destruct (decide (q' = q)) as [->|Hx].
  - apply fn_lookup_insert.
  - by apply fn_lookup_insert_ne.
Qed.

Lemma queue_set_eq q l k : queues (set_queue q l k) q = l.
Proof. rewrite queue_set. by rewrite decide_True. Qed.

Lemma queue_set_ne q l k q' : q' <> q -> queues (set_queue q l k) q' = queues k q'.
Proof. intros. rewrite queue_set. by rewrite decide_False. Qed.

Lemma cnt_set s n k s' : s_cnt (set_cnt s n k) s' = if decide (s' = s) then n else s_cnt k s'.
Proof.
  unfold set_cnt. simpl. destruct (decide (s' = s)) as [->|Hx].
  - apply fn_lookup_insert.
  - by apply fn_lookup_insert_ne.
Qed.

Lemma thr_set_queue q l k : thr (set_queue q l k) = thr k.
Proof. done. Qed.

Lemma queues_upd t f k : queues (upd_thr t f k) = queues k.
Proof. done. Qed.

Lemma thr_enq t q l k x :
  thr (enq t q l k) x = if decide (x = t) then with_link (Some q) (thr k t) else thr k x.
Proof. apply thr_upd. Qed.

Lemma thr_deq t q l k x :
  thr (deq t q l k) x = if decide (x = t) then with_link None (thr k t) else thr k x.
Proof. apply thr_upd. Qed.

Lemma queues_enq t q l k q' : queues (enq t q l k) q' = if decide (q' = q) then l else queues k q'.
Proof. unfold enq. by rewrite queue_set. Qed.

Lemma queues_deq t q l k q' : queues (deq t q l k) q' = if decide (q' = q) then l else queues k q'.
Proof. unfold deq. by rewrite queue_set. Qed.

Lemma sorted_ext (p p' : Z -> Z) l :
  (forall t, t ∈ l -> p' t = p t) -> StronglySorted (by_prio p) l -> StronglySorted (by_prio p') l.
Proof.
  induction l as [|x l IH]; intros Hp Hs; [constructor|].
  apply StronglySorted_inv in Hs as [Hs Hx]. constructor.
  - apply IH; [|done]. intros t Ht. apply Hp. by right.
  - rewrite Forall_forall in Hx |- *. intros t Ht. unfold by_prio in *.
    rewrite (Hp x ltac:(by left)), (Hp t ltac:(by right)). by apply Hx.
Qed.

(** A change of one thread that keeps its place, its priorities and its
    mutexes. *)
Definition tame (f : Thread -> Thread) : Prop := forall th,
  t_link (f th) = t_link th /\ t_prio (f th) = t_prio th /\ t_realprio (f th) = t_realprio th /\
  t_mtxlist (f th) = t_mtxlist th.

Lemma prio_upd t f k x : t_prio (f (thr k t)) = t_prio (thr k t) -> prio_of (upd_thr t f k) x = prio_of k x.
Proof. intros Hf. unfold prio_of. rewrite thr_upd. case_decide; by subst. Qed.

Lemma prio_enq t q l k x : prio_of (enq t q l k) x = prio_of k x.
Proof. by apply (prio_upd t (with_link (Some q))). Qed.

Lemma prio_deq t q l k x : prio_of (deq t q l k) x = prio_of k x.
Proof. by apply (prio_upd t (with_link None)). Qed.
