(* ===== verification/ChInv.v ===== *)
(** * The kernel invariant, step by step

    How [wfx] survives the primitive steps of kernel code: each rule says which
    part of the invariant must be marked as broken before the step, and the
    [settle] rules clear the marks. *)

From S2P Require Import Prelude ChLists Kernel ChVt ChSchd.

Lemma wfx_mono E E' k : (forall e, e ∈ E -> e ∈ E') -> wfx E k -> wfx E' k.
Proof.
  intros HE [? ? Hst Hc ? ? Hi ? ? Hl Ha Hs Ht Hm Hr ?].
  constructor; auto 6. intros t Hat. destruct (Ha t Hat); auto.
Qed.

(** ** Threads *)

Lemma state_ok_ext k k' t :
  thr k' t = thr k t -> (t_state (thr k t) = CURRENT -> currp k' = currp k) -> state_ok k t -> state_ok k' t.
Proof. unfold state_ok. intros -> Hc. destruct (t_state (thr k t)); try done. by rewrite Hc. Qed.

Lemma mtx_ok_frame X k k' :
  (forall t, prio_of k' t = prio_of k t) -> (forall t, t_realprio (thr k' t) = t_realprio (thr k t)) ->
  (forall t, t_mtxlist (thr k' t) = t_mtxlist (thr k t)) ->
  (forall t, t_state (thr k' t) <> FINAL -> t_state (thr k t) <> FINAL \/ NOPRIO < t_realprio (thr k t)) ->
  m_owner k' = m_owner k -> (forall m, queues k' (QMtx m) = queues k (QMtx m)) ->
  (forall c, StronglySorted (by_prio (prio_of k)) (queues k (QCond c)) ->
             StronglySorted (by_prio (prio_of k)) (queues k' (QCond c))) ->
  mtx_but X k -> mtx_but X k'.
Proof.
  intros Hp Hr Hl Hf Ho Hq Hc [H1 H2 H3 H4 H5 H6 H0 H7]. constructor.
  - intros m t. by rewrite Ho, Hl.
  - intros t. by rewrite Hl.
  - intros m. rewrite Ho, Hq. auto.
  - intros m. rewrite Hq. eapply sorted_ext; [|apply H4]. auto.
  - intros c. eapply sorted_ext; [|by apply Hc, H5]. auto.
  - intros t Ht. rewrite Hr. destruct (Hf t Ht); auto.
  - intros t. by rewrite Hp, Hr.
  - intros t Ht. rewrite Hp, Hr, Hl. destruct (H7 t Ht) as [|(m & w & Hm & Hw & Hle)]; [by left|].
    right. exists m, w. by rewrite Hq, Hp.
Qed.

Lemma wfx_upd E t f k :
  XThr t ∈ E -> tame f ->
  (t_state (f (thr k t)) <> FINAL -> t_state (thr k t) <> FINAL) ->
  (t_state (f (thr k t)) = FINAL -> queues k (QExit t) = []) ->
  wfx E k -> wfx E (upd_thr t f k).
Proof.
  intros Ht Hf Hn Hx W. destruct (Hf (thr k t)) as (Hl & Hp & Hr & Hm).
  assert (Hprio : forall x, prio_of (upd_thr t f k) x = prio_of k x) by (intros; by apply prio_upd).
  constructor; try apply W.
  - intros x q. rewrite queues_upd, thr_upd, (x_link _ _ W). case_decide; subst; [by rewrite Hl|done].
  - intros x Hx'. apply (state_ok_ext k); [|done|by apply W]. apply thr_upd_ne. by intros ->.
  - intros Hc. rewrite thr_upd_ne; [by apply W|]. by intros Hct; rewrite Hct in Hc.
  - eapply sorted_ext; [|apply W]. auto.
  - intros x Hx'. rewrite Hprio. apply W. rewrite thr_upd in Hx'. case_decide; subst; auto.
  - intros Hi. rewrite thr_upd_ne; [by apply W|]. by intros Hi'; rewrite Hi' in Hi.
  - intros x. rewrite thr_upd. case_decide; subst; [done|]. apply W.
  - intros x Ha. rewrite thr_upd. case_decide; subst; [by left|]. by apply (x_armed _ _ W).
  - intros Htop x Hq. rewrite !Hprio. by apply W.
  - intros Hmx. eapply (mtx_ok_frame _ k); try done; [| | |by apply W].
    + intros x. rewrite thr_upd. by case_decide; subst.
    + intros x. rewrite thr_upd. by case_decide; subst.
    + intros x Hx'. left. rewrite thr_upd in Hx'. case_decide; subst; auto.
  - intros Hrg x Hx'. apply (x_reg _ _ W Hrg). rewrite thr_upd in Hx'. case_decide; subst; auto.
Qed.

(** States that agree on what the invariant reads. *)
Lemma wfx_ext E k k' :
  (forall t, thr k' t = thr k t) -> (forall q, queues k' q = queues k q) -> currp k' = currp k ->
  s_cnt k' = s_cnt k -> m_owner k' = m_owner k -> vtlist k' = vtlist k -> registry k' = registry k ->
  (forall q, ioq_ok q (ioq k q) -> ioq_ok q (ioq k' q)) -> wfx E k -> wfx E k'.
Proof.
  intros Ht Hq Hc Hs Ho Hv Hrg Hio W.
  assert (Hp : forall t, prio_of k' t = prio_of k t) by (intros t; unfold prio_of; by rewrite Ht).
  constructor.
  - intros t q. rewrite Hq, Ht. apply W.
  - intros q. rewrite Hq. apply W.
  - intros t He. apply (state_ok_ext k); [done|by rewrite Hc|by apply W].
  - rewrite Hc, Ht. apply W.
  - rewrite Hq. eapply sorted_ext; [|apply W]. auto.
  - intros t. rewrite Ht, Hp. apply W.
  - rewrite Ht. apply W.
  - intros t. rewrite Ht, Hq. apply W.
  - rewrite Hv. apply W.
  - rewrite Hv. apply W.
  - intros t. unfold armed. rewrite Hv, Hc, Ht. apply W.
  - intros s He. unfold sem_ok. rewrite Hq, Hs. by apply W.
  - intros He t. rewrite Hq, Hc, !Hp. by apply W.
  - intros He. eapply (mtx_ok_frame _ k); [..|by apply W]; auto; try (intros; by rewrite Ht).
    + intros t. rewrite Ht. auto.
    + intros c. by rewrite Hq.
  - intros He t. rewrite Ht, Hrg. by apply W.
  - intros q. apply Hio, W.
Qed.

(** Any change of an unlinked thread, with the mutexes marked. *)
Lemma wfx_upd_free E t f k :
  XThr t ∈ E -> XMtx ∈ E -> (t = currp k -> XTop ∈ E) ->
  t_link (thr k t) = None -> t_link (f (thr k t)) = None ->
  (t_state (f (thr k t)) <> FINAL -> NOPRIO < t_prio (f (thr k t))) ->
  (t_state (f (thr k t)) = FINAL -> queues k (QExit t) = []) ->
  XReg ∈ E \/ t_state (thr k t) <> FINAL ->
  wfx E k -> wfx E (upd_thr t f k).
Proof.
  intros Ht Hmx Htop Hl Hl' Hn Hx Hrg W.
  assert (Hnt : forall q x, x ∈ queues k q -> x <> t) by (intros q x Hq ->; apply (x_link _ _ W) in Hq; congruence).
  assert (Hprio : forall x, x <> t -> prio_of (upd_thr t f k) x = prio_of k x).
  { intros x Hxt. unfold prio_of. by rewrite thr_upd_ne. }
  constructor; try apply W; try done.
  - intros x q. rewrite queues_upd, thr_upd, (x_link _ _ W). case_decide; subst; [by rewrite Hl, Hl'|done].
  - intros x Hx'. apply (state_ok_ext k); [|done|by apply W]. apply thr_upd_ne. by intros ->.
  - intros Hc. rewrite thr_upd_ne; [by apply W|]. by intros Hct; rewrite Hct in Hc.
  - eapply sorted_ext; [|apply W]. intros x Hq. by apply Hprio, (Hnt QReady).
  - intros x Hx'. unfold prio_of. rewrite thr_upd in *. case_decide; subst; [auto|]. by apply W.
  - intros Hi. rewrite thr_upd_ne; [by apply W|]. by intros Hi'; rewrite Hi' in Hi.
  - intros x. rewrite thr_upd. case_decide; subst; [done|]. apply W.
  - intros x Ha. rewrite thr_upd. case_decide; subst; [by left|]. by apply (x_armed _ _ W).
  - intros Ht' x Hq. assert (Hcur : currp k <> t) by (intros <-; by apply Ht', Htop).
    rewrite (Hprio x) by (by eapply Hnt). change (currp (upd_thr t f k)) with (currp k).
    rewrite (Hprio (currp k)) by done. by apply W.
  - intros Hr x Hx'. rewrite thr_upd in Hx'. destruct Hrg as [|Hrg]; [done|].
    case_decide; subst; by apply (x_reg _ _ W Hr).
Qed.

(** ** Queues *)

(** What must be marked to change a queue. *)
Definition queue_marks (E : list exc) (q : qid) : Prop :=
  match q with QSem s => XSem s ∈ E | QMtx _ => XMtx ∈ E | _ => True end.

Lemma wfx_enq E t q l k :
  XThr t ∈ E -> t_link (thr k t) = None -> l ≡ₚ t :: queues k q -> queue_marks E q ->
  (q = QReady -> StronglySorted (by_prio (prio_of k)) l /\ (XTop ∈ E \/ prio_of k t <= prio_of k (currp k))) ->
  (forall c, q = QCond c -> StronglySorted (by_prio (prio_of k)) (queues k q) ->
             StronglySorted (by_prio (prio_of k)) l) ->
  (forall r, q = QExit r -> t_state (thr k r) <> FINAL) ->
  wfx E k -> wfx E (enq t q l k).
Proof.
  intros Ht Hlk Hl Hmk Hrdy Hcond Hexit W.
  assert (Hin : forall x q', x ∈ queues (enq t q l k) q' <-> (x = t /\ q' = q) \/ x ∈ queues k q').
  { intros x q'. rewrite queues_enq. case_decide as Hq; [|naive_solver].
    subst q'. rewrite Hl, elem_of_cons. naive_solver. }
  assert (Hnt : forall q', t ∉ queues k q') by (intros q' Hq'; apply (x_link _ _ W) in Hq'; congruence).
  constructor; try apply W.
  - intros x q'. rewrite Hin, thr_enq, (x_link _ _ W). case_decide as Hx; [|naive_solver].
    subst. simpl. rewrite Hlk. naive_solver.
  - intros q'. rewrite queues_enq. case_decide; subst; [|apply W].
    rewrite Hl. constructor; [apply Hnt|apply W].
  - intros x Hx. apply (state_ok_ext k); [|done|by apply W]. rewrite thr_enq, decide_False; [done|]. by intros ->.
  - intros Hc. rewrite thr_enq, decide_False; [by apply W|]. by intros Hct; rewrite Hct in Hc.
  - eapply (sorted_ext (prio_of k)); [intros; apply prio_enq|]. rewrite queues_enq.
    case_decide as Hq; [by apply Hrdy|apply W].
  - intros x Hx. rewrite prio_enq. apply W. rewrite thr_enq in Hx. by case_decide; subst.
  - intros Hi. rewrite thr_enq, decide_False; [by apply W|]. by intros Hi'; rewrite Hi' in Hi.
  - intros x Hx. assert (t_state (thr k x) = FINAL) as Hf by (rewrite thr_enq in Hx; by case_decide; subst).
    rewrite queues_enq. case_decide as Hq; [|by apply W].
    by destruct (Hexit x).
  - intros x Ha. rewrite thr_enq. case_decide; subst; [by left|]. by apply (x_armed _ _ W).
  - intros s Hs. unfold sem_ok. rewrite queues_enq. case_decide as Hq; [|by apply W].
    subst q. done.
  - intros Htop x Hx. rewrite !prio_enq. apply Hin in Hx as [[-> <-]|Hx]; [|by apply W].
    by destruct Hrdy as [_ [|]].
  - intros Hmx. eapply (mtx_ok_frame _ k); try done; [intros; apply prio_enq|..|by apply W].
    + intros x. rewrite thr_enq. by case_decide; subst.
    + intros x. rewrite thr_enq. by case_decide; subst.
    + intros x. rewrite thr_enq. case_decide; subst; auto.
    + intros m. rewrite queues_enq. case_decide; subst; [done|done].
    + intros c. rewrite queues_enq. case_decide; subst; eauto.
  - intros Hr x Hx'. apply (x_reg _ _ W Hr). rewrite thr_enq in Hx'. by case_decide; subst.
Qed.

(** The queues without [t]. *)
Lemma queued_deq E t q l k x q' : queues k q ≡ₚ t :: l -> wfx E k -> x ∈ queues (deq t q l k) q' <-> x <> t /\ x ∈ queues k q'.
Proof.
  intros Hl W. assert (Hnd : t ∉ l) by (pose proof (x_nodup _ _ W q) as Hn; rewrite Hl in Hn; by apply NoDup_cons in Hn as [? _]).
  assert (Htq : t_link (thr k t) = Some q) by (apply (x_link _ _ W); rewrite Hl; by left).
  rewrite queues_deq. case_decide as Hq.
  - subst q'. rewrite Hl, elem_of_cons. naive_solver.
  - split; [|naive_solver]. intros Hx. split; [|done]. intros ->. apply (x_link _ _ W) in Hx. congruence.
Qed.

Lemma sorted_deq t q l k p q' : sublist l (queues k q) -> StronglySorted (by_prio p) (queues k q') -> StronglySorted (by_prio p) (queues (deq t q l k) q').
Proof. intros Hsub Hs. rewrite queues_deq. case_decide; subst; [|done]. by eapply sorted_sublist. Qed.

Lemma wfx_deq E t q l k :
  queues k q ≡ₚ t :: l -> sublist l (queues k q) -> queue_marks E q ->
  wfx E k -> wfx (XThr t :: E) (deq t q l k).
Proof.
  intros Hl Hsub Hmk W.
  assert (Hnd : t ∉ l /\ NoDup l).
  { pose proof (x_nodup _ _ W q) as Hn. rewrite Hl in Hn. by apply NoDup_cons in Hn. }
  assert (Htq : t_link (thr k t) = Some q).
  { apply (x_link _ _ W). rewrite Hl. by left. }
  pose proof (fun x q' => queued_deq E t q l k x q' Hl W) as Hin. pose proof (fun p q' => sorted_deq t q l k p q' Hsub) as Hsorted.
  constructor; try apply W.
  - intros x q'. rewrite Hin, thr_deq, (x_link _ _ W). case_decide as Hx; [|naive_solver].
    subst. simpl. naive_solver.
  - intros q'. rewrite queues_deq. case_decide; subst; [apply Hnd|apply W].
  - intros x Hx. apply not_elem_of_cons in Hx as [Hx1 Hx2].
    apply (state_ok_ext k); [|done|by apply W]. rewrite thr_deq, decide_False; [done|]. by intros ->.
  - intros Hc. apply not_elem_of_cons in Hc as [Hc1 Hc2].
    rewrite thr_deq, decide_False; [by apply W|]. by intros Hct; rewrite Hct in Hc1.
  - eapply (sorted_ext (prio_of k)); [intros; apply prio_deq|]. apply Hsorted, W.
  - intros x Hx. rewrite prio_deq. apply W. rewrite thr_deq in Hx. by case_decide; subst.
  - intros Hi. apply not_elem_of_cons in Hi as [Hi1 Hi2].
    rewrite thr_deq, decide_False; [by apply W|]. by intros Hi'; rewrite Hi' in Hi1.
  - intros x Hx. assert (t_state (thr k x) = FINAL) as Hf by (rewrite thr_deq in Hx; by case_decide; subst).
    rewrite queues_deq. case_decide as Hq; [|by apply W].
    exfalso. subst q. apply (x_exit _ _ W) in Hf. rewrite Hf in Hl. by apply Permutation_nil_cons in Hl.
  - intros Hx. apply not_elem_of_cons in Hx as [_ Hx]. by apply W.
  - intros x Ha. rewrite thr_deq. case_decide; subst; [left; by left|].
    destruct (x_armed _ _ W x Ha) as [|]; [left; by right|by right].
  - intros s Hs. apply not_elem_of_cons in Hs as [_ Hs].
    unfold sem_ok. rewrite queues_deq. case_decide as Hq; [|by apply W].
    subst q. done.
  - intros Htop x Hx. apply not_elem_of_cons in Htop as [_ Htop].
    rewrite !prio_deq. apply Hin in Hx as [_ Hx]. by apply W.
  - intros Hmx. apply not_elem_of_cons in Hmx as [_ Hmx].
    eapply (mtx_ok_frame _ k); try done; [intros; apply prio_deq|..|by apply W].
    + intros x. rewrite thr_deq. by case_decide; subst.
    + intros x. rewrite thr_deq. by case_decide; subst.
    + intros x. rewrite thr_deq. case_decide; subst; auto.
    + intros m. rewrite queues_deq. case_decide; subst; [done|done].
    + intros c. apply Hsorted.
  - intros Hr x Hx'. apply not_elem_of_cons in Hr as [_ Hr].
    apply (x_reg _ _ W Hr). rewrite thr_deq in Hx'. by case_decide; subst.
Qed.

(** ** Clearing marks *)

Lemma wfx_settle E t k :
  state_ok k t -> (t = currp k -> t_state (thr k t) = CURRENT) ->
  (t = idle -> t_state (thr k t) = READY \/ t_state (thr k t) = CURRENT) ->
  (armed k t -> t = currp k \/ may_time_out (t_state (thr k t)) = true) ->
  wfx (XThr t :: E) k -> wfx E k.
Proof.
  intros Hs Hc Hi Ha W.
  assert (Hne : forall e, e <> XThr t -> e ∉ E -> e ∉ (XThr t :: E)) by (intros e ? ?; by apply not_elem_of_cons).
  constructor; try apply W; try (intros; apply W; by try apply Hne).
  - intros x Hx. destruct (decide (x = t)) as [->|]; [done|]. apply W, Hne; [congruence|done].
  - intros Hx. destruct (decide (currp k = t)) as [Heq|]; [rewrite Heq; by apply Hc|]. apply W, Hne; [congruence|done].
  - intros Hx. destruct (decide (t = idle)) as [Heq|]; [rewrite <- Heq; by apply Hi|]. apply W, Hne; [congruence|done].
  - intros x Hx. destruct (x_armed _ _ W x Hx) as [Hin|]; [|by right].
    apply elem_of_cons in Hin as [Heq|]; [|by left]. injection Heq as ->. right. by apply Ha.
Qed.

Lemma wfx_settle_sem E s k : sem_ok k s -> wfx (XSem s :: E) k -> wfx E k.
Proof.
  intros Hs W.
  assert (Hne : forall e, e <> XSem s -> e ∉ E -> e ∉ (XSem s :: E)) by (intros e ? ?; by apply not_elem_of_cons).
  constructor; try apply W; try (intros; apply W; by try apply Hne).
  - intros x Hx. destruct (x_armed _ _ W x Hx) as [Hin|]; [|by right].
    apply elem_of_cons in Hin as [|]; [done|by left].
  - intros x Hx. destruct (decide (x = s)) as [->|]; [done|]. apply W, Hne; [congruence|done].
Qed.

Lemma wfx_settle_top E k :
  (forall t, t ∈ queues k QReady -> prio_of k t <= prio_of k (currp k)) -> wfx (XTop :: E) k -> wfx E k.
Proof.
  intros Hs W.
  assert (Hne : forall e, e <> XTop -> e ∉ E -> e ∉ (XTop :: E)) by (intros e ? ?; by apply not_elem_of_cons).
  constructor; try apply W; try (intros; apply W; by try apply Hne); [|by intros; auto].
  intros x Hx. destruct (x_armed _ _ W x Hx) as [Hin|]; [|by right].
  apply elem_of_cons in Hin as [|]; [done|by left].
Qed.

Lemma wfx_settle_mtx E k : mtx_ok k -> wfx (XMtx :: E) k -> wfx E k.
Proof.
  intros Hs W.
  assert (Hne : forall e, e <> XMtx -> e ∉ E -> e ∉ (XMtx :: E)) by (intros e ? ?; by apply not_elem_of_cons).
  constructor; try apply W; try (intros; apply W; by try apply Hne); [|by intros; auto].
  intros x Hx. destruct (x_armed _ _ W x Hx) as [Hin|]; [|by right].
  apply elem_of_cons in Hin as [|]; [done|by left].
Qed.

Lemma wfx_settle_vts E k : vts_live (vtlist k) -> wfx (XVts :: E) k -> wfx E k.
Proof.
  intros Hs W.
  assert (Hne : forall e, e <> XVts -> e ∉ E -> e ∉ (XVts :: E)) by (intros e ? ?; by apply not_elem_of_cons).
  constructor; try apply W; try (intros; apply W; by try apply Hne); [by intros; auto|].
  intros x Hx. destruct (x_armed _ _ W x Hx) as [Hin|]; [|by right].
  apply elem_of_cons in Hin as [|]; [done|by left].
Qed.

Lemma wfx_settle_reg E k :
  (forall t, t_state (thr k t) <> FINAL -> t ∈ registry k) -> wfx (XReg :: E) k -> wfx E k.
Proof.
  intros Hs W.
  assert (Hne : forall e, e <> XReg -> e ∉ E -> e ∉ (XReg :: E)) by (intros e ? ?; by apply not_elem_of_cons).
  constructor; try apply W; try (intros; apply W; by try apply Hne); [|by intros; auto].
  intros x Hx. destruct (x_armed _ _ W x Hx) as [Hin|]; [|by right].
  apply elem_of_cons in Hin as [|]; [done|by left].
Qed.

(** ** Counters, the current thread, the timers *)

Lemma wfx_cnt E s n k : XSem s ∈ E -> wfx E k -> wfx E (set_cnt s n k).
Proof.
  intros Hs W. constructor; try apply W.
  - intros x Hx. pose proof (x_sem _ _ W x Hx) as Hok. unfold sem_ok in *.
    rewrite cnt_set, decide_False; [exact Hok|]. by intros ->.
  - intros Hx. eapply (mtx_ok_frame _ k); try done; auto. by apply W.
Qed.

Lemma wfx_currp E t k :
  XThr (currp k) ∈ E -> XThr t ∈ E -> XTop ∈ E -> wfx E k -> wfx E (set_currp t k).
Proof.
  intros Ho Hn Ht W. constructor; try apply W; try done.
  - intros x Hx. pose proof (x_state _ _ W x Hx) as Hst. unfold state_ok in *. simpl.
    destruct (t_state (thr k x)); try done. destruct Hst as [_ ->]. done.
  - intros x Hx. destruct (x_armed _ _ W x Hx) as [|[->|]]; auto.
  - intros Hx. eapply (mtx_ok_frame _ k); try done; auto. by apply W.
Qed.

Lemma wfx_preempt E n k : wfx E k -> wfx E (set_preempt n k).
Proof.
  intros W. constructor; try apply W.
  intros Hx. eapply (mtx_ok_frame _ k); try done; auto. by apply W.
Qed.

Lemma wfx_vts E l k :
  vts_ok l -> NoDup (vt_par <$> l) -> (XVts ∉ E -> vts_live l) ->
  (forall t, t ∈ (vt_par <$> l) -> armed k t \/ t = currp k) -> wfx E k -> wfx E (set_vts l k).
Proof.
  intros Hok Hnd Hl Ha W. constructor; try apply W; try done.
  - intros t Ht. destruct (Ha t Ht) as [|]; [by apply (x_armed _ _ W)|by auto].
  - intros Hx. eapply (mtx_ok_frame _ k); try done; auto. by apply W.
Qed.

Lemma wfx_registry E l k :
  XReg ∈ E \/ (forall t, t_state (thr k t) <> FINAL -> t ∈ registry k -> t ∈ l) ->
  wfx E k -> wfx E (set_registry l k).
Proof.
  intros Hl W. constructor; try apply W.
  - intros Hx. eapply (mtx_ok_frame _ k); try done; auto. by apply W.
  - intros Hx t Ht. destruct Hl as [|Hl]; [done|]. by apply Hl, W.
Qed.

Lemma wfx_systime E n k : wfx E k -> wfx E (set_systime n k).
Proof.
  intros W. constructor; try apply W.
  intros Hx. eapply (mtx_ok_frame _ k); try done; auto. by apply W.
Qed.
