(* ===== verification/ChSeg.v ===== *)
(** * Segments of kernel code

    What a thread's segment guarantees to the threads that wait ([rely]), and
    the contracts of the scheduler's functions, which every service of the
    kernel is built on. *)

From S2P Require Import Prelude ChLists Kernel ChVt ChSchd ChInv.

(** ** What the other threads do to a waiting thread [t] *)

(** The mutex a thread waits for. *)
Definition pending (th : Thread) : option Z :=
  match t_state th, t_u th with
  | WTMTX, UObj (QMtx m) => if decide (m ∈ t_mtxlist th) then None else Some m
  | _, _ => None
  end.

Lemma not_pending th : t_state th <> WTMTX -> pending th = None.
Proof. unfold pending. by destruct (t_state th). Qed.

(** The mutexes of a thread change when it gets the one it waits for, and at no
    other time. *)
Definition mtx_rely (th th' : Thread) : Prop :=
  (pending th' = pending th /\ t_mtxlist th' = t_mtxlist th) \/
  (exists m, pending th = Some m /\ pending th' = None /\ t_mtxlist th' = m :: t_mtxlist th).

#[export] Instance mtx_rely_refl : Reflexive mtx_rely.
Proof. intros th. by left. Qed.

#[export] Instance mtx_rely_trans : Transitive mtx_rely.
Proof.
  intros t1 t2 t3 [[P1 L1]|(m & P1 & P1' & L1)] [[P2 L2]|(m' & P2 & P2' & L2)]; unfold mtx_rely.
  - left. by rewrite P2, L2.
  - right. exists m'. by rewrite <- P1, <- L1.
  - right. exists m. by rewrite P2, L2.
  - congruence.
Qed.

(** Nobody arms its timer, nobody takes from its message queue, if it waits for
    a message it goes on waiting until it has one, and its mutexes are its own. *)
Definition rely (t : Z) (k k' : kernel) : Prop :=
  (armed k' t -> armed k t) /\
  (queues k (QMsg t) <> [] -> queues k' (QMsg t) <> []) /\
  (t_state (thr k t) = WTMSG -> t_state (thr k' t) = WTMSG \/ queues k' (QMsg t) <> []) /\
  mtx_rely (thr k t) (thr k' t).

#[export] Instance rely_refl t : Reflexive (rely t).
Proof. intros k. unfold rely. split_and!; auto. reflexivity. Qed.

#[export] Instance rely_trans t : Transitive (rely t).
Proof.
  intros k1 k2 k3 (A1 & Q1 & S1 & M1) (A2 & Q2 & S2 & M2). unfold rely.
  split_and!; [naive_solver..|by etrans].
Qed.

(** The guarantee of thread [me]. *)
Definition guar (me : Z) (k k' : kernel) : Prop := forall t, t <> me -> rely t k k'.

#[export] Instance guar_refl me : Reflexive (guar me).
Proof. by intros k t _. Qed.

#[export] Instance guar_trans me : Transitive (guar me).
Proof. intros k1 k2 k3 H1 H2 t Ht. etrans; [by apply H1|by apply H2]. Qed.

Lemma rely_frame t k k' :
  vtlist k' = vtlist k -> queues k' (QMsg t) = queues k (QMsg t) ->
  t_state (thr k' t) = t_state (thr k t) -> mtx_rely (thr k t) (thr k' t) -> rely t k k'.
Proof. intros Hv Hq Hs Hm. unfold rely, armed. rewrite Hv, Hq, Hs. auto. Qed.

(** A step that moves no thread but [me] and no message queue. *)
Lemma guar_frame me k k' :
  vtlist k' = vtlist k -> (forall t, queues k' (QMsg t) = queues k (QMsg t)) ->
  (forall t, t <> me -> t_state (thr k' t) = t_state (thr k t) /\ mtx_rely (thr k t) (thr k' t)) -> guar me k k'.
Proof. intros Hv Hq Hs t Ht. destruct (Hs t Ht). apply rely_frame; auto. Qed.

(** A step that changes no thread and no message queue. *)
Lemma guar_same me k k' :
  vtlist k' = vtlist k -> (forall t, queues k' (QMsg t) = queues k (QMsg t)) ->
  (forall t, t <> me -> thr k' t = thr k t) -> guar me k k'.
Proof. intros Hv Hq Hs. apply guar_frame; [done..|]. intros t Ht. rewrite Hs by done. split; [done|reflexivity]. Qed.

Lemma guar_upd me t f k :
  (forall th, t_state (f th) = t_state th) -> mtx_rely (thr k t) (f (thr k t)) -> guar me k (upd_thr t f k).
Proof.
  intros Hf Hm. apply guar_frame; [done..|]. intros x _. rewrite thr_upd.
  case_decide; subst; [auto|split; [done|reflexivity]].
Qed.

Lemma guar_upd_me me f k : guar me k (upd_thr me f k).
Proof. apply guar_same; [done..|]. intros x Hx. by rewrite thr_upd_ne. Qed.

(** A change that keeps what the mutexes look at. *)
Lemma mtx_rely_same th th' :
  t_state th' = t_state th -> t_u th' = t_u th -> t_mtxlist th' = t_mtxlist th -> mtx_rely th th'.
Proof. intros Hs Hu Hm. left. split; [|done]. unfold pending. by rewrite Hs, Hu, Hm. Qed.

Lemma guar_tame me t f k :
  tame f -> (forall th, t_state (f th) = t_state th) -> (forall th, t_u (f th) = t_u th) ->
  guar me k (upd_thr t f k).
Proof. intros Hf Hs Hu. apply guar_upd; [done|]. apply mtx_rely_same; [done|done|apply Hf]. Qed.

(** A change of a thread that waits for no mutex. *)
Lemma mtx_rely_free th th' :
  pending th = None -> pending th' = None -> t_mtxlist th' = t_mtxlist th -> mtx_rely th th'.
Proof. intros H1 H2 Hm. left. by rewrite H1, H2. Qed.

Lemma guar_enq me t q l k : l <> [] \/ (forall r, q <> QMsg r) -> guar me k (enq t q l k).
Proof.
  intros Hl x _. unfold rely. rewrite queues_enq, thr_enq. split_and!.
  - done.
  - case_decide; [|done]. naive_solver.
  - intros ?. left. by case_decide; subst.
  - case_decide; subst; [by apply mtx_rely_same|reflexivity].
Qed.

(** ** Segments *)

Definition seg_sw (me : Z) (k0 k : kernel) : Prop := wf k /\ guar me k0 k.
Definition seg_res (me : Z) (k k' : kernel) : Prop := wf k' /\ currp k' = me /\ rely me k k'.

Definition seg {A} (me : Z) (Q : kernel -> A -> kernel -> Prop) (k0 : kernel) (p : kprog A) : Prop :=
  gspec (seg_sw me) (seg_res me) Q k0 p.

(** What a function of thread [me], called in [k], leaves. *)
Definition post (me : Z) (k k1 k' : kernel) : Prop :=
  wf k' /\ currp k' = me /\ guar me k1 k' /\ (armed k' me -> armed k me).

Lemma post_resumed me k k' : wf k' -> currp k' = me -> (armed k' me -> armed k me) -> post me k k' k'.
Proof. intros ? ? ?. unfold post. by split_and!. Qed.

Lemma seg_bind {A B} me (m : K A) (f : A -> K B) k0 k Q :
  seg me (fun k1 a k' => seg me Q k1 (f a k')) k0 (m k) -> seg me Q k0 ((m ≫= f) k).
Proof. apply gspec_bind. Qed.

Lemma seg_mono {A} me (Q Q' : kernel -> A -> kernel -> Prop) k0 p :
  (forall k1 a k, Q k1 a k -> Q' k1 a k) -> seg me Q k0 p -> seg me Q' k0 p.
Proof. apply gspec_mono. Qed.

Lemma seg_get {A} me (f : kernel -> K A) k0 k Q : seg me Q k0 (f k k) -> seg me Q k0 ((kget ≫= f) k).
Proof. intros H. apply seg_bind, H. Qed.

Lemma seg_mod {A} me g (f : unit -> K A) k0 k Q : seg me Q k0 (f tt (g k)) -> seg me Q k0 ((kmod g ≫= f) k).
Proof. intros H. apply seg_bind, H. Qed.

Lemma seg_upd {A} me t g (f : unit -> K A) k0 k Q :
  seg me Q k0 (f tt (upd_thr t g k)) -> seg me Q k0 ((upd t g ≫= f) k).
Proof. intros H. apply seg_bind, H. Qed.

Lemma seg_step {A B} me (m : K A) (f : A -> K B) a k0 k k' Q :
  m k = KRet k' a -> seg me Q k0 (f a k') -> seg me Q k0 ((m ≫= f) k).
Proof. intros Hm Hf. unfold seg. by rewrite (kbind_ret _ _ _ _ _ Hm). Qed.

Lemma seg_done {A} me (m : K A) a k0 k k' Q : m k = KRet k' a -> Q k0 a k' -> seg me Q k0 (m k).
Proof. unfold seg. by intros ->. Qed.

Lemma seg_ret {A} me (a : A) k0 k Q : Q k0 a k -> seg me Q k0 ((mret a : K A) k).
Proof. done. Qed.

Lemma thr_preempt n k : thr (set_preempt n k) = thr k.
Proof. done. Qed.

Lemma queues_preempt n k : queues (set_preempt n k) = queues k.
Proof. done. Qed.

Lemma prio_preempt n k : prio_of (set_preempt n k) = prio_of k.
Proof. done. Qed.

(** ** Readying *)

Definition ready (tp : Z) (k : kernel) : kernel :=
  let k1 := upd_thr tp (with_state READY) k in
  enq tp QReady (pinsert (prio_of k1) tp (queues k1 QReady)) k1.

#[global] Arguments ready : simpl never.

Lemma chSchReadyI_eq tp k : NOPRIO < prio_of k tp -> chSchReadyI tp k = KRet (ready tp k) tt.
Proof. intros Hp. unfold chSchReadyI. destruct (Z.leb_spec (prio_of k tp) NOPRIO); [lia|done]. Qed.

Lemma thr_ready tp k x :
  thr (ready tp k) x = if decide (x = tp) then with_link (Some QReady) (with_state READY (thr k tp)) else thr k x.
Proof. unfold ready. rewrite thr_enq, thr_upd_eq, thr_upd. by repeat case_decide. Qed.

Lemma queues_ready tp k q :
  queues (ready tp k) q = if decide (q = QReady) then pinsert (prio_of (upd_thr tp (with_state READY) k)) tp (queues k q)
                          else queues k q.
Proof. unfold ready. rewrite queues_enq, queues_upd. by case_decide; subst. Qed.

Lemma prio_ready tp k x : prio_of (ready tp k) x = prio_of k x.
Proof. unfold prio_of. rewrite thr_ready. by case_decide; subst. Qed.

Lemma wfx_ready_marked E tp k :
  XThr tp ∈ E -> t_link (thr k tp) = None -> t_state (thr k tp) <> FINAL ->
  XTop ∈ E \/ prio_of k tp <= prio_of k (currp k) -> wfx E k -> wfx E (ready tp k).
Proof.
  intros Htp Hl Hs Ht W.
  assert (W1 : wfx E (upd_thr tp (with_state READY) k)) by (by apply wfx_upd).
  unfold ready. apply wfx_enq; [done|by rewrite thr_upd_eq|apply pinsert_perm|done|..|done]; [|done|done].
  intros _. split; [apply pinsert_sorted, W1|]. by rewrite !prio_upd by done.
Qed.

Lemma settle_ready E tp k : tp <> currp k -> wfx (XThr tp :: E) (ready tp k) -> wfx E (ready tp k).
Proof.
  intros Hc. apply wfx_settle; [|by intros Hx; destruct (Hc Hx)|intros _; left|intros _; right];
    unfold state_ok; by rewrite thr_ready, decide_True.
Qed.

Lemma wfx_ready E tp k :
  t_link (thr k tp) = None -> t_state (thr k tp) <> FINAL -> tp <> currp k ->
  XTop ∈ E \/ prio_of k tp <= prio_of k (currp k) ->
  wfx (XThr tp :: E) k -> wfx E (ready tp k).
Proof.
  intros Hl Hs Hc Ht W. apply settle_ready; [done|]. apply wfx_ready_marked; try done; [by left|].
  destruct Ht; [left; by right|by right].
Qed.

Lemma guar_ready me tp k :
  (t_state (thr k tp) = WTMSG -> queues k (QMsg tp) <> []) -> pending (thr k tp) = None ->
  guar me k (ready tp k).
Proof.
  intros Hm Hp t _. unfold rely. rewrite queues_ready, thr_ready, decide_False by done. split_and!; [done|done|..].
  - intros Ht. case_decide; subst; auto.
  - case_decide; subst; [by apply mtx_rely_free|reflexivity].
Qed.

(** ** Switching *)

Definition switch_to (ntp : Z) (k : kernel) : kernel := upd_thr ntp (with_state CURRENT) (set_currp ntp k).

#[global] Arguments switch_to : simpl never.

Lemma thr_switch ntp k x :
  thr (switch_to ntp k) x = if decide (x = ntp) then with_state CURRENT (thr k ntp) else thr k x.
Proof. unfold switch_to. by rewrite thr_upd. Qed.

Lemma queues_switch ntp k : queues (switch_to ntp k) = queues k.
Proof. done. Qed.

Lemma prio_switch ntp k x : prio_of (switch_to ntp k) x = prio_of k x.
Proof. unfold prio_of. rewrite thr_switch. by case_decide; subst. Qed.

Lemma wfx_switch E ntp k :
  XThr ntp ∈ E -> XThr (currp k) ∈ E -> XTop ∈ E -> t_state (thr k ntp) <> FINAL ->
  wfx E k -> wfx E (switch_to ntp k).
Proof. intros Hn Hc Ht Hf W. apply wfx_upd; [done|done|done|done|]. by apply wfx_currp. Qed.

Lemma settle_current E t k : t_link (thr k t) = None -> wfx (XThr t :: E) (switch_to t k) -> wfx E (switch_to t k).
Proof.
  intros Hl. assert (Hs : t_state (thr (switch_to t k) t) = CURRENT) by (by rewrite thr_switch, decide_True).
  apply wfx_settle; [|auto..|by left]. unfold state_ok. rewrite Hs, thr_switch, decide_True by done. done.
Qed.

Lemma guar_switch me t k : t_state (thr k t) = READY -> guar me k (switch_to t k).
Proof.
  intros Hm x _. unfold rely. rewrite thr_switch. split_and!; [done|done|..].
  - intros Hx. case_decide; subst; [congruence|by left].
  - case_decide; subst; [|reflexivity]. apply mtx_rely_free; [apply not_pending; by rewrite Hm|done|done].
Qed.

Lemma guar_deq me t q l k : (forall r, q <> QMsg r) -> guar me k (deq t q l k).
Proof.
  intros Hq. apply guar_frame; [done|..].
  - intros x. rewrite queues_deq, decide_False; [done|]. by intros Hx; destruct (Hq x).
  - intros x _. rewrite thr_deq. case_decide; subst; (split; [done|]); [by apply mtx_rely_same|reflexivity].
Qed.

(** The ready list is never empty when somebody is about to sleep. *)
Lemma ready_head E k :
  wfx E k -> XThr idle ∉ E -> currp k <> idle -> exists t l, queues k QReady = t :: l.
Proof.
  intros W Hi Hc. assert (idle ∈ queues k QReady) as Hin.
  { apply (x_link _ _ W). pose proof (x_state _ _ W idle Hi) as Hs. unfold state_ok in Hs.
    destruct (x_idle _ _ W Hi) as [Hst|Hst]; rewrite Hst in Hs; [done|]. by destruct Hs as [_ Hs]. }
  destruct (queues k QReady) as [|t l]; [by apply not_elem_of_nil in Hin|]. eauto.
Qed.

(** A ready thread that no mark excuses. *)
Lemma ready_state E k t : wfx E k -> XThr t ∉ E -> t ∈ queues k QReady -> t_state (thr k t) = READY.
Proof.
  intros W Ht Hq. apply (x_link _ _ W) in Hq. pose proof (x_state _ _ W t Ht) as Hs.
  unfold state_ok in Hs. destruct (t_state (thr k t)); try done; naive_solver.
Qed.

Lemma head_top E k t l : wfx E k -> queues k QReady = t :: l -> forall x, x ∈ l -> prio_of k x <= prio_of k t.
Proof.
  intros W Hq x Hx. pose proof (x_ready _ _ W) as Hs. rewrite Hq in Hs.
  apply StronglySorted_inv in Hs as [_ Hf]. rewrite Forall_forall in Hf. by apply Hf.
Qed.

(** [me] may sleep in state [s]: it is linked where [s] says. *)
Definition may_sleep (s : tstate) (me : Z) (k : kernel) : Prop :=
  state_ok (upd_thr me (with_state s) k) me /\ s <> READY /\ s <> CURRENT /\
  (armed k me -> may_time_out s = true) /\ (s = FINAL -> queues k (QExit me) = []).

(** Handing over to the first ready thread, once [me] is where its state says. *)
Lemma hand_over_wf me t l k :
  wfx [XThr me; XTop] k -> currp k = me -> queues k QReady = t :: l -> t <> me ->
  state_ok k me -> t_state (thr k me) <> CURRENT -> me <> idle ->
  (armed k me -> may_time_out (t_state (thr k me)) = true) ->
  wf (switch_to t (deq t QReady l k)) /\ guar me k (switch_to t (deq t QReady l k)).
Proof.
  intros W Hc Hq Htm Hok Hnc Hi Ha.
  assert (Htr : t_state (thr k t) = READY).
  { eapply ready_state; [exact W| |rewrite Hq; by left]. set_solver. }
  assert (W1 : wfx [XThr t; XThr me; XTop] (deq t QReady l k)).
  { apply wfx_deq; [by rewrite Hq|rewrite Hq; by constructor|done|done]. }
  assert (Hl : thr (deq t QReady l k) t = with_link None (thr k t)) by (by rewrite thr_deq, decide_True).
  assert (Hme : thr (switch_to t (deq t QReady l k)) me = thr k me).
  { by rewrite thr_switch, decide_False, thr_deq, decide_False. }
  split.
  - apply wfx_settle_top, (wfx_settle _ me), settle_current; [| | | | |by rewrite Hl|].
    + intros x Hx. rewrite !prio_switch, !prio_deq. rewrite queues_switch, queues_deq, decide_True in Hx by done.
      by eapply head_top.
    + apply (state_ok_ext k); [done| |done]. by intros.
    + intros Hx. by destruct Htm.
    + by intros.
    + intros Hx. right. rewrite Hme. by apply Ha.
    + assert (Hc' : currp (deq t QReady l k) = me) by exact Hc.
      apply wfx_switch; [set_solver|rewrite Hc'; set_solver|set_solver| |done]. rewrite Hl. simpl. by rewrite Htr.
  - etrans; [by apply (guar_deq me t QReady l)|]. apply guar_switch. rewrite Hl. simpl. by rewrite Htr.
Qed.

(** [me] sleeps in state [s].  A thread that ends is no longer registered. *)
Lemma go_sleep_reg s me k0 k Q :
  currp k = me -> me <> idle -> t_state (thr k me) = CURRENT -> wfx [XReg; XThr me; XTop] k -> guar me k0 k ->
  may_sleep s me k ->
  (forall t, t_state (thr k t) <> FINAL -> t ∈ registry k \/ t = me /\ s = FINAL) ->
  (forall k', wf k' -> currp k' = me -> (armed k' me -> armed k me) ->
     (s = WTMSG -> queues k' (QMsg me) <> []) -> mtx_rely (with_state s (thr k me)) (thr k' me) -> Q k' tt k') ->
  seg me Q k0 (chSchGoSleepS s k).
Proof.
  intros Hc Hi Hst W Hg (Hok & Hnr & Hnc & Har & Hfin) Hrg HQ.
  set (k1 := set_preempt CH_TIME_QUANTUM (upd_thr me (with_state s) k)).
  assert (Hme : thr k1 me = with_state s (thr k me)) by apply thr_upd_eq.
  assert (W1 : wfx [XThr me; XTop] k1).
  { apply wfx_settle_reg.
    - intros t Ht. destruct (decide (t = me)) as [->|Htm].
      + rewrite Hme in Ht. destruct (Hrg me) as [Hin|[_ Hf]]; [by rewrite Hst|done|done].
      + destruct (Hrg t) as [Hin|[Hx _]]; [|done|done].
        change (thr k1 t) with (thr (upd_thr me (with_state s) k) t) in Ht. by rewrite thr_upd_ne in Ht.
    - apply wfx_preempt, wfx_upd; try done; [set_solver|]. intros _. by rewrite Hst. }
  destruct (ready_head _ _ W1) as (t & l & Hq); [set_solver|by simpl; rewrite Hc|].
  assert (Htm : t <> me).
  { intros ->. assert (me ∈ queues k1 QReady) as Hin by (rewrite Hq; by left).
    apply (x_link _ _ W1) in Hin. unfold state_ok in Hok.
    change (thr k1 me) with (thr (upd_thr me (with_state s) k) me) in Hin.
    rewrite thr_upd_eq in Hok, Hin. simpl in Hok, Hin. rewrite Hin in Hok. destruct s; naive_solver. }
  destruct (hand_over_wf me t l k1) as [W2 G2]; try done; [by rewrite Hme|by rewrite Hme|].
  unfold chSchGoSleepS, seg, mbind, K_bind. simpl. rewrite Hc. fold k1.
  unfold k_fifo_remove. rewrite Hq. simpl. split.
  - split; [done|]. etrans; [done|]. etrans; [|exact G2].
    etrans; [apply (guar_upd_me me (with_state s))|]. by apply guar_same.
  - fold (switch_to t (deq t QReady l k1)). intros k' (W' & Hc' & Ha' & Hq' & Hs' & Hm').
    rewrite thr_switch, decide_False, thr_deq, decide_False, Hme in Hs', Hm' by done.
    apply HQ; [done|done|done| |done]. intros ->. destruct (Hs' eq_refl); [|done].
    pose proof (x_curr _ _ W' ltac:(set_solver)). congruence.
Qed.

Lemma go_sleep_mtx s me k0 k Q :
  currp k = me -> me <> idle -> t_state (thr k me) = CURRENT -> wfx [XThr me; XTop] k -> guar me k0 k ->
  may_sleep s me k ->
  (forall k', wf k' -> currp k' = me -> (armed k' me -> armed k me) ->
     (s = WTMSG -> queues k' (QMsg me) <> []) -> mtx_rely (with_state s (thr k me)) (thr k' me) -> Q k' tt k') ->
  seg me Q k0 (chSchGoSleepS s k).
Proof.
  intros Hc Hi Hst W Hg Hm HQ. eapply go_sleep_reg; try done.
  - eapply wfx_mono; [|exact W]. set_solver.
  - intros t Ht. left. apply (x_reg _ _ W); [set_solver|done].
Qed.

Lemma go_sleep_spec s me k0 k Q :
  currp k = me -> me <> idle -> t_state (thr k me) = CURRENT -> wfx [XThr me; XTop] k -> guar me k0 k ->
  may_sleep s me k ->
  (forall k', wf k' -> currp k' = me -> (armed k' me -> armed k me) ->
     (s = WTMSG -> queues k' (QMsg me) <> []) -> Q k' tt k') ->
  seg me Q k0 (chSchGoSleepS s k).
Proof. intros Hc Hi Hst W Hg Hm HQ. eapply go_sleep_mtx; eauto. Qed.

(** ** Sleeping with a time-out *)

Lemma wfx_set_timer E time me k :
  currp k = me -> fits 32 time -> 1 <= time -> ~ armed k me -> wfx E k ->
  wfx E (set_vts (vt_insert time me (vtlist k)) k).
Proof.
  intros Hc Ht H1 Ha W. destruct (x_vts _ _ W) as [Hok Hnd]. apply wfx_vts; [by apply vts_ok_insert|..|done].
  - rewrite pars_insert. by constructor.
  - intros Hx. apply vts_live_insert; [done|by apply W].
  - intros t. rewrite pars_insert. intros [->|]%elem_of_cons; auto.
Qed.

Lemma wfx_reset_timer E t k : wfx E k -> wfx E (set_vts (vt_reset t (vtlist k)) k) /\
  ~ armed (set_vts (vt_reset t (vtlist k)) k) t /\
  (forall x, armed (set_vts (vt_reset t (vtlist k)) k) x -> armed k x).
Proof.
  intros W. destruct (x_vts _ _ W) as [Hok Hnd]. unfold armed. simpl.
  pose proof (pars_reset t _ Hnd) as Hp. rewrite Hp. split_and!.
  - apply wfx_vts; [by apply vts_ok_reset|rewrite Hp; by apply NoDup_filter|..|done].
    + intros Hx. apply vts_live_reset; [done|by apply W].
    + intros x. rewrite Hp. intros [_ Hx]%list_elem_of_filter. by left.
  - intros [Hx _]%list_elem_of_filter. done.
  - intros x [_ Hx]%list_elem_of_filter. done.
Qed.

Lemma guar_vts me l k : (forall t, t <> me -> t ∈ (vt_par <$> l) -> armed k t) -> guar me k (set_vts l k).
Proof. intros Hl t Ht. unfold rely. split_and!; [by apply Hl|auto|auto|reflexivity]. Qed.

Lemma sleep_timeout_mtx s time me k0 k Q :
  currp k = me -> me <> idle -> t_state (thr k me) = CURRENT -> wfx [XThr me; XTop] k -> guar me k0 k ->
  may_sleep s me k -> may_time_out s = true -> ~ armed k me -> fits 32 time -> time <> TIME_IMMEDIATE ->
  (forall k1 k', post me k k1 k' -> mtx_rely (with_state s (thr k me)) (thr k' me) ->
     Q k1 (u_msg (t_u (thr k' me))) k') ->
  seg me Q k0 (chSchGoSleepTimeoutS s time k).
Proof.
  intros Hc Hi Hst W Hg Hms Hto Hna Hf Ht HQ. destruct Hms as (Hok & Hnr & Hnc & _ & Hfin).
  assert (Hend : forall k1 k', post me k k1 k' -> mtx_rely (with_state s (thr k me)) (thr k' me) ->
    seg me Q k1 ((k ← kget; mret (u_msg (t_u (thr k (currp k))))) k')).
  { intros k1 k' Hp Hr. apply seg_get, seg_ret. rewrite (proj1 (proj2 Hp)). by apply HQ. }
  unfold chSchGoSleepTimeoutS. apply seg_get. rewrite Hc. apply seg_bind.
  destruct (Z.eqb_spec TIME_INFINITE time) as [He|He]; simpl negb; cbn match.
  - eapply go_sleep_mtx; try done. intros k' W' Hc' Ha' _ Hr'. apply Hend; [by apply post_resumed|done].
  - apply seg_mod. set (k1 := set_vts (vt_insert time me (vtlist k)) k).
    assert (Ht1 : 1 <= time) by (unfold TIME_IMMEDIATE in Ht; unfold fits in Hf; lia).
    apply seg_bind. eapply go_sleep_mtx; try done.
    + by apply wfx_set_timer.
    + etrans; [done|]. apply guar_vts. intros t Htm. rewrite pars_insert. by intros [|]%elem_of_cons.
    + intros k' W' Hc' _ _ Hr'. apply seg_bind.
      destruct (wfx_reset_timer [] me k' W') as (W2 & Hn2 & Ha2).
      change (seg me (fun k1 a k' => seg me Q k1 ((k ← kget; mret (u_msg (t_u (thr k (currp k))))) k')) k'
               ((if bool_decide (me ∈ (vt_par <$> vtlist k')) then chVTResetI me else mret tt) k')).
      case_bool_decide as Ha; apply Hend; [|done|by apply post_resumed|done].
      unfold post. split_and!; [done|done| |done]. apply guar_vts. intros t _. apply Ha2.
Qed.

Lemma sleep_timeout_spec s time me k0 k Q :
  currp k = me -> me <> idle -> t_state (thr k me) = CURRENT -> wfx [XThr me; XTop] k -> guar me k0 k ->
  may_sleep s me k -> may_time_out s = true -> ~ armed k me -> fits 32 time -> time <> TIME_IMMEDIATE ->
  (forall k1 k', post me k k1 k' -> Q k1 (u_msg (t_u (thr k' me))) k') ->
  seg me Q k0 (chSchGoSleepTimeoutS s time k).
Proof. intros Hc Hi Hst W Hg Hms Hto Hna Hf Ht HQ. eapply sleep_timeout_mtx; eauto. Qed.

(** ** Waking a thread *)

(** [ntp] may be made ready: it is unlinked, if it waits for a message it has
    one, and if it waits for a mutex it has that. *)
Definition may_wake (ntp : Z) (k : kernel) : Prop :=
  t_link (thr k ntp) = None /\ t_state (thr k ntp) <> FINAL /\ ntp <> currp k /\
  (t_state (thr k ntp) = WTMSG -> queues k (QMsg ntp) <> []) /\ pending (thr k ntp) = None.

Lemma pending_u th msg : pending (with_u (URdy msg) th) = None.
Proof. unfold pending. simpl. by destruct (t_state th). Qed.

Lemma may_wake_u ntp msg k : may_wake ntp k -> may_wake ntp (upd_thr ntp (with_u (URdy msg)) k).
Proof.
  unfold may_wake. rewrite thr_upd_eq, queues_upd. intros (? & ? & ? & ? & ?).
  split_and!; try done. apply pending_u.
Qed.

Lemma guar_set_msg me ntp msg k :
  pending (thr k ntp) = None -> guar me k (upd_thr ntp (with_u (URdy msg)) k).
Proof. intros Hp. apply guar_upd; [done|]. apply mtx_rely_free; [done|apply pending_u|done]. Qed.

Lemma current_link E k : wfx E k -> XThr (currp k) ∉ E -> t_link (thr k (currp k)) = None.
Proof.
  intros W He. pose proof (x_state _ _ W _ He) as Hs. unfold state_ok in Hs.
  rewrite (x_curr _ _ W He) in Hs. by destruct Hs.
Qed.

Lemma ready_perm tp k : queues (ready tp k) QReady ≡ₚ tp :: queues k QReady.
Proof. rewrite queues_ready, decide_True by done. apply pinsert_perm. Qed.

(** No ready thread is more urgent than both [me] and [ntp]. *)
Definition top_of (me ntp : Z) (k : kernel) : Prop :=
  forall x, x ∈ queues k QReady -> prio_of k x <= Z.max (prio_of k me) (prio_of k ntp).

(** The current thread gives way to [ntp], which is more urgent. *)
Lemma give_way_wf me ntp k :
  currp k = me -> wfx [XThr ntp; XTop] k -> top_of me ntp k -> may_wake ntp k -> prio_of k me < prio_of k ntp ->
  let k' := switch_to ntp (set_preempt CH_TIME_QUANTUM (ready me k)) in wf k' /\ guar me k k'.
Proof.
  intros Hc W Htop (Hl & Hf & Hne & Hm & Hpe) Hp k'.
  assert (Hcm : XThr (currp k) ∉ [XThr ntp; XTop]) by set_solver.
  assert (Hst : t_state (thr k me) = CURRENT) by (rewrite <- Hc; by apply W).
  assert (Hn : thr (ready me k) ntp = thr k ntp) by (rewrite thr_ready, decide_False; congruence).
  assert (W1 : wfx [XThr ntp; XThr me; XTop] (ready me k)).
  { apply wfx_ready_marked; [set_solver|rewrite <- Hc; by eapply current_link|by rewrite Hst|left; set_solver|].
    eapply wfx_mono; [|exact W]. set_solver. }
  split.
  - unfold k'. apply wfx_settle_top, (wfx_settle _ me), settle_current.
    + intros x. rewrite queues_switch, !prio_switch. rewrite queues_preempt, !prio_preempt.
      change (currp (switch_to ntp _)) with ntp.
      rewrite ready_perm, !prio_ready. intros [->|Hx]%elem_of_cons; [lia|].
      pose proof (Htop x Hx). lia.
    + unfold state_ok. rewrite thr_switch, decide_False by congruence. by rewrite thr_preempt, thr_ready, decide_True.
    + intros Hx. change (me = ntp) in Hx. congruence.
    + intros _. left. rewrite thr_switch, decide_False by congruence. by rewrite thr_preempt, thr_ready, decide_True.
    + intros _. right. rewrite thr_switch, decide_False by congruence. by rewrite thr_preempt, thr_ready, decide_True.
    + by rewrite thr_preempt, Hn.
    + apply wfx_switch; [set_solver| |set_solver| |by apply wfx_preempt].
      * change (currp _) with (currp k). rewrite Hc. set_solver.
      * by rewrite thr_preempt, Hn.
  - intros t Ht. unfold rely, k'. rewrite queues_switch, thr_switch, !thr_preempt, queues_preempt.
    rewrite queues_ready, decide_False by done. split_and!; [done|done|..].
    + intros Hw. case_decide as Hx; [subst t; right; by apply Hm|left; by rewrite thr_ready, decide_False].
    + rewrite !thr_ready. rewrite (decide_False (P := t = me)), (decide_False (P := ntp = me)) by congruence.
      case_decide; subst; [by apply mtx_rely_free|reflexivity].
Qed.

Lemma wakeup_s_top ntp msg me k0 k Q :
  currp k = me -> wfx [XThr ntp; XTop] k -> top_of me ntp k -> guar me k0 k -> may_wake ntp k ->
  (forall k1 k', post me k k1 k' -> t_mtxlist (thr k' me) = t_mtxlist (thr k me) -> Q k1 tt k') ->
  seg me Q k0 (chSchWakeupS ntp msg k).
Proof.
  intros Hc W Htop Hg Hw HQ. unfold chSchWakeupS. apply seg_upd, seg_get.
  set (k1 := upd_thr ntp (with_u (URdy msg)) k).
  assert (W1 : wfx [XThr ntp; XTop] k1).
  { destruct Hw as (_ & Hf & _). apply wfx_upd; [set_solver|done|done|done|done]. }
  assert (Hg1 : guar me k0 k1) by (etrans; [done|]; apply guar_set_msg, Hw).
  assert (Hw1 : may_wake ntp k1) by (by apply may_wake_u).
  assert (Htop1 : top_of me ntp k1).
  { intros x Hx. unfold k1. rewrite !prio_upd by done. by apply Htop. }
  change (currp k1) with (currp k). rewrite Hc.
  assert (Hpos : NOPRIO < prio_of k1 ntp) by (apply W1, Hw1).
  destruct (Z.leb_spec (prio_of k1 ntp) (prio_of k1 me)) as [Hle|Hlt].
  - rewrite chSchReadyI_eq by done. destruct Hw1 as (Hl & Hf & Hne & Hm & Hpe).
    assert (Hntp : me <> ntp) by (change (ntp <> currp k) in Hne; congruence).
    apply HQ; [|rewrite thr_ready, decide_False by done; unfold k1; by rewrite thr_upd_ne].
    unfold post. split_and!; [|done| |done].
    + apply wfx_settle_top; [|apply wfx_ready; [done..|left; by left|done]].
      intros x. change (currp (ready ntp k1)) with (currp k). rewrite Hc, !prio_ready.
      rewrite ready_perm. intros [->|Hx]%elem_of_cons; [done|]. pose proof (Htop1 x Hx). lia.
    + etrans; [done|]. by apply guar_ready.
  - destruct (give_way_wf me ntp k1) as [W2 G2]; try done. apply seg_bind.
    assert (Hst : t_state (thr k1 me) = CURRENT).
    { assert (Hc1 : currp k1 = me) by done. rewrite <- Hc1. apply W1.
      destruct Hw1 as (_ & _ & Hne & _). set_solver. }
    rewrite chSchReadyI_eq by (apply W1; by rewrite Hst).
    apply seg_mod, seg_mod, seg_upd. split.
    + split; [exact W2|]. etrans; [done|exact G2].
    + intros k' (W' & Hc' & Ha' & _ & _ & Hr). apply HQ; [by apply post_resumed|].
      assert (Hntp : me <> ntp) by (destruct Hw1 as (_ & _ & Hne & _); change (ntp <> currp k) in Hne; congruence).
      change (upd_thr ntp (with_state CURRENT) (set_currp ntp (set_preempt CH_TIME_QUANTUM (ready me k1)))) with
        (switch_to ntp (set_preempt CH_TIME_QUANTUM (ready me k1))) in Hr.
      rewrite thr_switch, decide_False, thr_preempt, thr_ready, decide_True in Hr by done.
      destruct Hr as [[_ Hr]|(m & Hp & _)]; [|done]. rewrite Hr.
      change (t_mtxlist (thr k1 me) = t_mtxlist (thr k me)). unfold k1. by rewrite thr_upd_ne.
Qed.

Lemma wakeup_s_spec ntp msg me k0 k Q :
  currp k = me -> wfx [XThr ntp] k -> guar me k0 k -> may_wake ntp k ->
  (forall k1 k', post me k k1 k' -> Q k1 tt k') -> seg me Q k0 (chSchWakeupS ntp msg k).
Proof.
  intros Hc W Hg Hw HQ. eapply wakeup_s_top; eauto; [eapply wfx_mono; [|exact W]; set_solver|].
  intros x Hx. pose proof (x_top _ _ W ltac:(set_solver) x Hx). rewrite Hc in *. lia.
Qed.

(** ** Rescheduling *)

Lemma resched_wf me t l k :
  currp k = me -> wfx [XTop] k -> queues k QReady = t :: l -> prio_of k me <= prio_of k t ->
  let k' := ready me (switch_to t (deq t QReady l (set_preempt CH_TIME_QUANTUM k))) in wf k' /\ guar me k k'.
Proof.
  intros Hc W Hq Hp k'. set (k1 := deq t QReady l (set_preempt CH_TIME_QUANTUM k)) in *.
  assert (Hst : t_state (thr k me) = CURRENT) by (rewrite <- Hc; apply W; set_solver).
  assert (Htr : t_state (thr k t) = READY).
  { eapply ready_state; [exact W|set_solver|rewrite Hq; by left]. }
  assert (Htm : t <> me) by (intros ->; congruence).
  assert (Hml : t_link (thr k me) = None) by (rewrite <- Hc; eapply current_link; [done|set_solver]).
  assert (W1 : wfx [XThr t; XTop] k1).
  { apply wfx_deq; [by rewrite queues_preempt, Hq|rewrite queues_preempt, Hq; by constructor|done|by apply wfx_preempt]. }
  assert (Ht1 : thr k1 t = with_link None (thr k t)) by (unfold k1; by rewrite thr_deq, decide_True).
  assert (Hm2 : thr (switch_to t k1) me = thr k me).
  { rewrite thr_switch, decide_False by done. unfold k1. by rewrite thr_deq, decide_False. }
  assert (W2 : wfx [XThr me; XTop] (switch_to t k1)).
  { apply settle_current; [by rewrite Ht1|]. apply wfx_switch; [set_solver| |set_solver|by rewrite Ht1; simpl; rewrite Htr|].
    - change (currp k1) with (currp k). rewrite Hc. set_solver.
    - eapply wfx_mono; [|exact W1]. set_solver. }
  split.
  - unfold k'. apply wfx_settle_top.
    + intros x. rewrite ready_perm, !prio_ready, queues_switch, !prio_switch.
      change (currp (ready me (switch_to t k1))) with t. unfold k1. rewrite !prio_deq, queues_deq, decide_True by done.
      rewrite !prio_preempt.
      intros [->|Hx]%elem_of_cons; [lia|]. by eapply head_top.
    + apply wfx_ready; [by rewrite Hm2|by rewrite Hm2, Hst|change (me <> t); congruence|left; set_solver|done].
  - unfold k'. apply (guar_trans me k k1); [|apply (guar_trans me k1 (switch_to t k1))].
    + apply (guar_trans me k (set_preempt CH_TIME_QUANTUM k)); [by apply guar_same|by apply guar_deq].
    + apply guar_switch. rewrite Ht1. simpl. by rewrite Htr.
    + apply guar_ready; [by rewrite Hm2, Hst|]. rewrite Hm2. apply not_pending. by rewrite Hst.
Qed.

Lemma do_resched_spec me k0 k Q :
  currp k = me -> wfx [XTop] k -> guar me k0 k -> prio_of k me <= firstprio k ->
  (forall k1 k', post me k k1 k' -> Q k1 tt k') -> seg me Q k0 (chSchDoReschedule k).
Proof.
  intros Hc W Hg Hp HQ.
  assert (Hst : t_state (thr k me) = CURRENT) by (rewrite <- Hc; apply W; set_solver).
  assert (Hpos : NOPRIO < prio_of k me) by (apply W; by rewrite Hst).
  unfold firstprio in Hp. destruct (queues k QReady) as [|t l] eqn:Hq; [lia|].
  destruct (resched_wf me t l k) as [W2 G2]; try done.
  unfold chSchDoReschedule. apply seg_mod, seg_get, seg_bind. unfold k_fifo_remove.
  rewrite queues_preempt, Hq. apply seg_mod, seg_upd, seg_bind.
  change (currp (set_preempt CH_TIME_QUANTUM k)) with (currp k). rewrite Hc.
  assert (t <> me).
  { intros ->. assert (me ∈ queues k QReady) as Hin by (rewrite Hq; by left).
    rewrite (ready_state [XTop] k me) in Hst; [done|done|set_solver|done]. }
  rewrite chSchReadyI_eq.
  - split; [split; [exact W2|by etrans]|]. intros k' (W' & Hc' & Hr). apply HQ, post_resumed; [done..|].
    exact (proj1 Hr).
  - change (NOPRIO < prio_of (switch_to t (deq t QReady l (set_preempt CH_TIME_QUANTUM k))) me).
    by rewrite prio_switch, prio_deq.
Qed.

Lemma resched_spec me k0 k Q :
  currp k = me -> wfx [XTop] k -> guar me k0 k ->
  (forall k1 k', post me k k1 k' -> Q k1 tt k') -> seg me Q k0 (chSchRescheduleS k).
Proof.
  intros Hc W Hg HQ. unfold chSchRescheduleS. apply seg_get. unfold chSchIsRescRequiredI. rewrite Hc.
  destruct (Z.ltb_spec (prio_of k me) (firstprio k)) as [Hlt|Hge].
  - apply do_resched_spec; auto; lia.
  - apply HQ. unfold post. split_and!; [|done|done|done]. apply wfx_settle_top; [|done].
    rewrite Hc. intros x Hx. unfold firstprio in Hge. destruct (queues k QReady) as [|t l] eqn:Hq; [by apply elem_of_nil in Hx|].
    apply elem_of_cons in Hx as [->|Hx]; [lia|]. pose proof (head_top _ _ _ _ W Hq x Hx). lia.
Qed.

Lemma yield_spec me k0 k Q :
  currp k = me -> wf k -> guar me k0 k ->
  (forall k1 k', post me k k1 k' -> Q k1 tt k') -> seg me Q k0 (chSchDoYieldS k).
Proof.
  intros Hc W Hg HQ. unfold chSchDoYieldS. apply seg_get. unfold chSchCanYieldS. rewrite Hc.
  destruct (Z.leb_spec (prio_of k me) (firstprio k)) as [Hle|Hgt].
  - apply do_resched_spec; auto. eapply wfx_mono; [|exact W]. set_solver.
  - by apply HQ.
Qed.

(** ** Time-outs *)

Lemma filter_perm (t : Z) l : NoDup l -> t ∈ l -> l ≡ₚ t :: filter (fun x => x <> t) l.
Proof.
  induction l as [|x l IH]; [by intros _ ?%elem_of_nil|]. intros [Hx Hl]%NoDup_cons.
  intros [->|Ht]%elem_of_cons.
  - rewrite filter_cons_False by auto. rewrite filter_all; [done|].
    apply Forall_forall. by intros y Hy ->.
  - rewrite filter_cons_True by (by intros ->). rewrite <- (IH Hl Ht) at 1 || idtac.
    etrans; [|apply perm_swap]. by rewrite <- (IH Hl Ht).
Qed.

Lemma wfx_unlink E t q k :
  t_link (thr k t) = Some q -> queue_marks E q -> wfx E k ->
  wfx (XThr t :: E) (deq t q (filter (fun x => x <> t) (queues k q)) k).
Proof.
  intros Hl Hq W. apply wfx_deq; [|apply sublist_filter|done|done].
  apply filter_perm; [apply W|by apply W].
Qed.

Definition expire (tp : Z) (k : kernel) : kernel := ready tp (upd_thr tp (with_u (URdy RDY_TIMEOUT)) k).

Lemma wfx_expire E me tp k :
  may_wake tp k -> XTop ∈ E -> wfx (XThr tp :: E) k ->
  (upd tp (with_u (URdy RDY_TIMEOUT));; chSchReadyI tp) k = KRet (expire tp k) tt /\
  wfx E (expire tp k) /\ guar me k (expire tp k).
Proof.
  intros Hw Ht W. pose proof (may_wake_u tp RDY_TIMEOUT k Hw) as (Hl & Hf & Hc & Hm & Hp).
  assert (W1 : wfx (XThr tp :: E) (upd_thr tp (with_u (URdy RDY_TIMEOUT)) k)).
  { destruct Hw as (_ & Hf' & _). apply wfx_upd; [by left|done|done|done|done]. }
  split_and!.
  - unfold mbind, K_bind. simpl. apply chSchReadyI_eq. by apply W1.
  - apply wfx_ready; auto.
  - etrans; [apply (guar_set_msg me tp RDY_TIMEOUT), Hw|]. by apply guar_ready.
Qed.

(** What [wakeup] leaves: the thread is ready, the timers are as they were. *)
Definition woken (me tp : Z) (k k' : kernel) : Prop :=
  wfx [XVts; XTop] k' /\ currp k' = me /\ vtlist k' = vtlist k /\ guar me k k' /\ t_state (thr k' tp) = READY.

Lemma expire_woken me tp k k1 :
  may_wake tp k1 -> wfx [XThr tp; XVts; XTop] k1 -> currp k1 = me -> vtlist k1 = vtlist k -> guar me k k1 ->
  exists k', (upd tp (with_u (URdy RDY_TIMEOUT));; chSchReadyI tp) k1 = KRet k' tt /\ woken me tp k k'.
Proof.
  intros Hw W Hc Hv Hg. destruct (wfx_expire [XVts; XTop] me tp k1 Hw) as (He & We & Ge); [set_solver|done|].
  exists (expire tp k1). unfold woken. split_and!; try done; [by etrans|].
  unfold expire. by rewrite thr_ready, decide_True.
Qed.

Lemma may_wake_deq tp q l k :
  tp <> currp k -> t_state (thr k tp) <> FINAL -> t_state (thr k tp) <> WTMSG -> t_state (thr k tp) <> WTMTX ->
  may_wake tp (deq tp q l k).
Proof.
  unfold may_wake. rewrite thr_deq, decide_True by done. intros. split_and!; try done. by apply not_pending.
Qed.

Lemma wakeup_sem_woken me tp s k :
  wfx [XVts; XTop] k -> currp k = me -> tp <> me -> t_state (thr k tp) = WTSEM ->
  t_link (thr k tp) = Some (QSem s) ->
  exists k', (cnt_add s 1;; k_dequeue tp;; upd tp (with_u (URdy RDY_TIMEOUT));; chSchReadyI tp) k = KRet k' tt /\
    woken me tp k k'.
Proof.
  intros W Hc Htm Hst Hl. assert (Htq : tp ∈ queues k (QSem s)) by (by apply (x_link _ _ W)).
  destruct (x_sem _ _ W s ltac:(set_solver)) as [Hlen Hcnt].
  set (l := filter (fun x => x <> tp) (queues k (QSem s))).
  assert (Hl1 : zlen (queues k (QSem s)) = 1 + zlen l).
  { unfold zlen, l. rewrite (filter_perm tp) at 1; [|apply W|done]. rewrite length_cons. lia. }
  pose proof (zlen_nonneg l) as Hl0.
  set (k1 := set_cnt s (s_cnt k s + 1) k).
  assert (W2 : wfx (XThr tp :: [XSem s; XVts; XTop]) (deq tp (QSem s) l k1)).
  { apply (wfx_unlink _ tp (QSem s) k1); [done|simpl; set_solver|]. apply wfx_cnt; [set_solver|].
    eapply wfx_mono; [|exact W]. set_solver. }
  destruct (expire_woken me tp k (deq tp (QSem s) l k1)) as (k' & Hk' & Hw); [..|done|done| |].
  - apply may_wake_deq; [by change (currp k1) with (currp k); rewrite Hc|by change (thr k1) with (thr k); rewrite Hst..].
  - apply (wfx_settle_sem _ s); [|eapply wfx_mono; [|exact W2]; set_solver].
    unfold sem_ok. rewrite queues_deq, decide_True by done.
    change (s_cnt (deq _ _ _ k1) s) with (s_cnt k1 s). unfold k1. rewrite cnt_set, decide_True by done. lia.
  - apply (guar_trans me k k1); [by apply guar_same|by apply guar_deq].
  - exists k'. split; [|done]. rewrite <- Hk'. unfold mbind, K_bind, cnt_add.
    rewrite (proj2 (Z.leb_le _ _)), (proj2 (Z.ltb_lt _ _)) by lia. simpl. fold k1.
    unfold k_dequeue. change (thr k1) with (thr k). by rewrite Hl.
Qed.

(** [wakeup], the callback of a sleep's timer, on a thread that sleeps or was
    just woken. *)
Lemma wakeup_ok me tp k :
  wfx [XVts; XTop] k -> currp k = me -> tp <> me -> may_time_out (t_state (thr k tp)) = true ->
  exists k', wakeup tp k = KRet k' tt /\ woken me tp k k'.
Proof.
  intros W Hc Htm Hto. pose proof (x_state _ _ W tp ltac:(set_solver)) as Hok. unfold state_ok in Hok.
  assert (Hfree : t_state (thr k tp) <> FINAL -> t_state (thr k tp) <> WTMSG -> t_state (thr k tp) <> WTMTX ->
    t_link (thr k tp) = None ->
    exists k', (upd tp (with_u (URdy RDY_TIMEOUT));; chSchReadyI tp) k = KRet k' tt /\ woken me tp k k').
  { intros ? ? ? Hl. apply expire_woken; try done; [unfold may_wake; rewrite Hc; split_and!; try done; by apply not_pending|].
    eapply wfx_mono; [|exact W]. set_solver. }
  assert (Hqd : forall q, t_state (thr k tp) <> FINAL -> t_state (thr k tp) <> WTMSG ->
    t_state (thr k tp) <> WTMTX ->
    t_link (thr k tp) = Some q -> queue_marks [XVts; XTop] q -> (forall r, q <> QMsg r) ->
    exists k', (k_dequeue tp;; upd tp (with_u (URdy RDY_TIMEOUT));; chSchReadyI tp) k = KRet k' tt /\
      woken me tp k k').
  { intros q ? ? ? Hl Hm Hq. unfold mbind at 1, K_bind at 1, k_dequeue. rewrite Hl. simpl.
    apply expire_woken; try done; [apply may_wake_deq; by rewrite ?Hc|by apply wfx_unlink|by apply guar_deq]. }
  unfold wakeup. rewrite kget_bind. destruct (t_state (thr k tp)) eqn:Hst; try done.
  - exists k. unfold woken. by split_and!.
  - destruct Hok as (s & Hl & Hu). rewrite Hu. by apply wakeup_sem_woken.
  - destruct Hok as (c & Hl & Hu). by apply (Hqd (QCond c)).
  - by apply Hfree.
  - by apply Hfree.
  - by apply Hfree.
  - destruct Hok as (c & Hl). by apply (Hqd (QIoq c)).
Qed.

(** ** Kernel services

    A service is called by the current thread, which has no timer armed, and
    ends, in the same thread, in such a state again; [pre] is what the caller
    has to provide. *)

Definition user (me : Z) (k : kernel) : Prop := wf k /\ currp k = me /\ ~ armed k me.

Class Service {A} (pre : Z -> kernel -> Prop) (op : K A) : Prop :=
  service me k : user me k -> pre me k -> seg me (fun k1 _ k' => post me k k1 k') k (op k).

Lemma post_user me k k1 k' : user me k -> post me k k1 k' -> user me k'.
Proof. intros (_ & _ & Hn) (W & Hc & _ & Ha). split_and!; auto. Qed.

Lemma post_trans me k k1 k2 k3 k4 : guar me k3 k2 -> post me k k1 k2 -> post me k2 k3 k4 -> post me k k3 k4.
Proof. intros Hg (W & Hc & _ & Ha) (W' & Hc' & Hg' & Ha'). unfold post. split_and!; auto. Qed.

Lemma post_start me k : user me k -> post me k k k.
Proof. intros (W & Hc & _). by apply post_resumed. Qed.

(** A segment that began earlier. *)
Lemma seg_start {A} me (Q : kernel -> A -> kernel -> Prop) k0 k p :
  guar me k0 k -> (forall a k', Q k a k' -> Q k0 a k') -> seg me Q k p -> seg me Q k0 p.
Proof.
  intros Hg HQ. destruct p as [k' a|k' r|]; [apply HQ| |done]. intros [[W G] H]. split; [|done].
  split; [done|by etrans].
Qed.

(** The rest of a segment after what has already been done. *)
Lemma seg_after {A} me (P : A -> kernel -> Prop) k k1 k' p :
  user me k -> post me k k1 k' ->
  (user me k' -> seg me (fun k2 r k3 => post me k' k2 k3 /\ P r k3) k' p) ->
  seg me (fun k2 r k3 => post me k k2 k3 /\ P r k3) k1 p.
Proof.
  intros Hu Hp Hs. pose proof Hp as (W & C & G & Ha). eapply seg_start; [exact G| |].
  - intros r k2 [(W2 & C2 & G2 & A2) H]. split; [|done]. unfold post. split_and!; [done|done|by etrans|done].
  - eapply seg_mono; [|apply Hs; by eapply post_user]. intros k2 r k3 [(W3 & C3 & G3 & A3) H]. split; [|done].
    unfold post. split_and!; auto.
Qed.

Lemma user_current me k : user me k -> t_state (thr k me) = CURRENT /\ t_link (thr k me) = None.
Proof.
  intros (W & <- & _). split; [apply W; set_solver|]. eapply current_link; [done|set_solver].
Qed.

(** ** Readying from a queue *)

Lemma linked_state E t q k :
  wfx E k -> XThr t ∉ E -> t_link (thr k t) = Some q ->
  t_state (thr k t) <> FINAL /\ t_state (thr k t) <> WTMSG /\ t <> currp k.
Proof.
  intros W He Hl. pose proof (x_state _ _ W t He) as Hs. unfold state_ok in Hs.
  split_and!; [intros Hx; rewrite Hx in Hs; congruence..|].
  intros ->. pose proof (current_link _ _ W He). congruence.
Qed.

Lemma linked_not_mtx E t q k :
  wfx E k -> XThr t ∉ E -> t_link (thr k t) = Some q -> (forall m, q <> QMtx m) -> t_state (thr k t) <> WTMTX.
Proof.
  intros W He Hl Hq Hs. pose proof (x_state _ _ W t He) as Hok. unfold state_ok in Hok. rewrite Hs in Hok.
  destruct Hok as (m & Hm & _). destruct (Hq m). congruence.
Qed.

(** The thread [t] of queue [q] is made ready; [q] becomes [l]. *)
Definition wake_from (t : Z) (q : qid) (l : list Z) (k : kernel) : kernel := ready t (deq t q l k).
#[global] Arguments wake_from : simpl never.

Lemma wake_from_ok me E t q l k :
  wfx E k -> XThr t ∉ E -> XTop ∈ E -> queues k q ≡ₚ t :: l -> sublist l (queues k q) ->
  queue_marks E q -> (forall r, q <> QMsg r /\ q <> QMtx r) ->
  t <> currp k /\ chSchReadyI t (deq t q l k) = KRet (wake_from t q l k) tt /\
  wfx E (wake_from t q l k) /\ guar me k (wake_from t q l k).
Proof.
  intros W He Ht Hq Hs Hm Hr.
  assert (Hl : t_link (thr k t) = Some q) by (apply (x_link _ _ W); rewrite Hq; by left).
  destruct (linked_state _ _ _ _ W He Hl) as (Hf & Hw & Hc).
  assert (Hd : thr (deq t q l k) t = with_link None (thr k t)) by (by rewrite thr_deq, decide_True).
  assert (W1 : wfx (XThr t :: E) (deq t q l k)) by (by apply wfx_deq).
  split_and!; [done|..].
  - apply chSchReadyI_eq, W1. by rewrite Hd.
  - apply wfx_ready; [by rewrite Hd|by rewrite Hd|done|by left|done].
  - etrans; [apply (guar_deq me t q l); intros r; apply Hr|].
    apply guar_ready; rewrite Hd; [done|]. apply not_pending. simpl.
    eapply linked_not_mtx; [done..|]. intros m. apply Hr.
Qed.

Lemma thr_wake_from t q l k x :
  thr (wake_from t q l k) x = if decide (x = t) then with_link (Some QReady) (with_state READY (thr k t)) else thr k x.
Proof.
  unfold wake_from. rewrite thr_ready, !thr_deq. by repeat case_decide; subst.
Qed.

Lemma queues_wake_from t q l k q' : q' <> QReady ->
  queues (wake_from t q l k) q' = if decide (q' = q) then l else queues k q'.
Proof. intros Hq. unfold wake_from. by rewrite queues_ready, decide_False, queues_deq by done. Qed.

(** A change of one thread that keeps its place, its state, its priorities and
    its mutexes; the union may change in the states that do not use it. *)
Lemma wfx_tame E t f k :
  tame f -> (forall th, t_state (f th) = t_state th) ->
  (t_u (f (thr k t)) = t_u (thr k t) \/ t_state (thr k t) = READY \/ t_state (thr k t) = CURRENT) ->
  wfx E k -> wfx E (upd_thr t f k).
Proof.
  intros Hf Hs Hu W.
  assert (Hst : t_state (thr (upd_thr t f k) t) = t_state (thr k t)) by (by rewrite thr_upd_eq).
  destruct (decide (XThr t ∈ E)) as [He|He].
  - apply wfx_upd; [done|done|by rewrite Hs|rewrite Hs; apply W|done].
  - apply (wfx_settle _ t).
    + pose proof (x_state _ _ W t He) as Hok. unfold state_ok in *. rewrite Hst, thr_upd_eq.
      destruct (Hf (thr k t)) as (-> & _).
      destruct Hu as [->|[Hr|Hr]]; [done|by rewrite Hr in Hok |- *..].
    + rewrite Hst. intros Hcur. change (t = currp k) in Hcur. rewrite Hcur in He |- *. by apply W.
    + rewrite Hst. intros Hi. rewrite Hi in He |- *. by apply W.
    + rewrite Hst. intros Ha. destruct (x_armed _ _ W t Ha); [done|done].
    + apply wfx_upd; [by left|done|by rewrite Hs|rewrite Hs; apply W|].
      eapply wfx_mono; [|exact W]. set_solver.
Qed.

Lemma wfx_set_msg E t u k :
  XThr t ∉ E -> t_state (thr k t) = READY -> wfx E k -> wfx E (upd_thr t (with_u u) k).
Proof. intros He Hs W. apply wfx_tame; [done|done|by right; left|done]. Qed.

(** A step of kernel code that leaves the processor with [me] and arms
    nothing. *)
Definition quiet (me : Z) (E : list exc) (k k' : kernel) : Prop :=
  wfx E k' /\ currp k' = me /\ vtlist k' = vtlist k /\ guar me k k'.
