(* ===== verification/ChSem.v ===== *)
(** * Counting semaphores: kernel/src/chsem.c, include/chsem.h

    Waiting, with and without a time-out, signalling, resetting and adding to
    the counter, in the configuration without priority queues. *)

From S2P Require Import Prelude ChLists Kernel ChVt ChSchd ChInv ChSeg.

Definition sem_insert (t : Z) (s : Z) : K unit := k_queue_insert t (QSem s).

Definition chSemInit (s n : Z) : K unit := kmod (fun k => set_cnt s n (set_queue (QSem s) [] k)).

Definition chSemFastWaitI (s : Z) : K Z := cnt_add s (-1).
Definition chSemFastSignalI (s : Z) : K Z := cnt_add s 1.
Definition chSemGetCounterI (s : Z) : K Z := fun k => KRet k (s_cnt k s).

(** [while (++cnt <= 0)], which turns as often as there were waiters. *)
Fixpoint sem_reset_loop (fuel : nat) (s cnt : Z) : K unit :=
  match fuel with
  | O => kub
  | S fuel =>
      if cnt + 1 <=? 0 then
        tp ← k_lifo_remove (QSem s);
        chSchReadyI tp;;
        upd tp (with_u (URdy RDY_RESET));;
        sem_reset_loop fuel s (cnt + 1)
      else mret tt
  end.

Definition chSemResetI (s n : Z) : K unit :=
  cnt ← chSemGetCounterI s;
  kmod (set_cnt s n);;
  sem_reset_loop (S (Z.to_nat (- cnt))) s cnt.

Definition chSemReset (s n : Z) : K unit := chSemResetI s n;; chSchRescheduleS.

(** The current thread's wake-up message. *)
Definition rdymsg : K Z := k ← kget; mret (u_msg (t_u (thr k (currp k)))).

Definition chSemWaitS (s : Z) : K Z :=
  n ← chSemFastWaitI s;
  if n <? 0 then
    k ← kget;
    upd (currp k) (with_u (UObj (QSem s)));;
    sem_insert (currp k) s;;
    chSchGoSleepS WTSEM;;
    rdymsg
  else mret RDY_OK.

Definition chSemWait (s : Z) : K Z := chSemWaitS s.

Definition chSemWaitTimeoutS (s time : Z) : K Z :=
  n ← chSemFastWaitI s;
  if n <? 0 then
    if TIME_IMMEDIATE =? time then chSemFastSignalI s;; mret RDY_TIMEOUT
    else
      k ← kget;
      upd (currp k) (with_u (UObj (QSem s)));;
      sem_insert (currp k) s;;
      chSchGoSleepTimeoutS WTSEM time
  else mret RDY_OK.

Definition chSemWaitTimeout (s time : Z) : K Z := chSemWaitTimeoutS s time.

Definition chSemSignal (s : Z) : K unit :=
  n ← chSemFastSignalI s;
  if n <=? 0 then tp ← k_fifo_remove (QSem s); chSchWakeupS tp RDY_OK else mret tt.

(** [if (++sp->s_cnt <= 0) chSchReadyI(fifo_remove(&sp->s_queue))->p_u.rdymsg = RDY_OK;] *)
Definition sem_release (s : Z) : K unit :=
  n ← chSemFastSignalI s;
  if n <=? 0 then
    tp ← k_fifo_remove (QSem s); chSchReadyI tp;; upd tp (with_u (URdy RDY_OK))
  else mret tt.

Definition chSemSignalI (s : Z) : K unit :=
  n ← chSemFastSignalI s;
  if n <=? 0 then
    tp ← k_fifo_remove (QSem s); upd tp (with_u (URdy RDY_OK));; chSchReadyI tp
  else mret tt.

Fixpoint sem_add_loop (n : nat) (s : Z) : K unit :=
  match n with O => mret tt | S n => sem_release s;; sem_add_loop n s end.

Definition chSemAddCounterI (s n : Z) : K unit := sem_add_loop (Z.to_nat n) s.

Definition chSemSignalWait (sps spw : Z) : K Z :=
  sem_release sps;;
  n ← chSemFastWaitI spw;
  if n <? 0 then
    k ← kget;
    sem_insert (currp k) spw;;
    upd (currp k) (with_u (UObj (QSem spw)));;
    chSchGoSleepS WTSEM;;
    rdymsg
  else chSchRescheduleS;; mret RDY_OK.

(** ** Signalling *)

Lemma cnt_add_ok s d k :
  -(2 ^ 31) <= s_cnt k s + d < 2 ^ 31 -> cnt_add s d k = KRet (set_cnt s (s_cnt k s + d) k) (s_cnt k s + d).
Proof. intros H. unfold cnt_add. by rewrite (proj2 (Z.leb_le _ _)), (proj2 (Z.ltb_lt _ _)) by lia. Qed.

(** What one signal does: the counter goes up, and the thread that waits
    longest, if any, leaves the queue and is ready with [RDY_OK]; no other
    semaphore is touched. *)
Definition sem_signalled (s : Z) (k k' : kernel) : Prop :=
  s_cnt k' = <[s := s_cnt k s + 1]> (s_cnt k) /\
  queues k' (QSem s) = tail (queues k (QSem s)) /\
  (forall s', s' <> s -> queues k' (QSem s') = queues k (QSem s')) /\
  (forall t, head (queues k (QSem s)) <> Some t -> thr k' t = thr k t) /\
  (forall t, head (queues k (QSem s)) = Some t -> t_state (thr k' t) = READY /\ t_u (thr k' t) = URdy RDY_OK).

Lemma sem_count_up me s k :
  wfx [XTop] k -> currp k = me -> s_cnt k s + 1 < 2 ^ 31 ->
  let k1 := set_cnt s (s_cnt k s + 1) k in
  match queues k (QSem s) with
  | [] => 0 < s_cnt k s + 1 /\ quiet me [XTop] k k1 /\ sem_signalled s k k1
  | tp :: l =>
      s_cnt k s + 1 <= 0 /\ tp <> me /\ may_wake tp (deq tp (QSem s) l k1) /\
      wfx [XThr tp; XTop] (deq tp (QSem s) l k1) /\ guar me k (deq tp (QSem s) l k1)
  end.
Proof.
  intros W Hc Hn k1. destruct (x_sem _ _ W s ltac:(set_solver)) as [Hlen Hr].
  assert (W1 : wfx [XSem s; XTop] k1).
  { apply wfx_cnt; [set_solver|]. eapply wfx_mono; [|exact W]. set_solver. }
  assert (G1 : guar me k k1) by (by apply guar_same).
  destruct (queues k (QSem s)) as [|tp l] eqn:Hq; unfold zlen in Hlen; simpl in Hlen.
  - split_and!; [lia| |].
    + unfold quiet. split_and!; [|done..]. apply (wfx_settle_sem _ s); [|done].
      unfold sem_ok, k1. rewrite cnt_set, decide_True by done. change (queues (set_cnt _ _ k)) with (queues k).
      rewrite Hq. unfold zlen. simpl. lia.
    + unfold sem_signalled. change (queues k1) with (queues k). rewrite Hq. by split_and!.
  - assert (Hl : t_link (thr k tp) = Some (QSem s)) by (apply (x_link _ _ W); rewrite Hq; by left).
    destruct (linked_state [XTop] tp (QSem s) k) as (Hf & Hw & Hne); [done|set_solver|done|].
    pose proof (linked_not_mtx [XTop] tp (QSem s) k W ltac:(set_solver) Hl ltac:(done)) as Hnm.
    split_and!; [lia|congruence|by apply may_wake_deq|..].
    + apply (wfx_settle_sem _ s).
      * unfold sem_ok. rewrite queues_deq, decide_True by done.
        change (s_cnt (deq _ _ _ k1) s) with (s_cnt k1 s). unfold k1. rewrite cnt_set, decide_True by done.
        unfold zlen. lia.
      * eapply wfx_mono; [|apply (wfx_deq [XSem s; XTop]); [by change (queues k1) with (queues k); rewrite Hq|..|exact W1]].
        -- set_solver.
        -- change (queues k1) with (queues k). rewrite Hq. by constructor.
        -- simpl. set_solver.
    + etrans; [exact G1|by apply guar_deq].
Qed.

Lemma sem_signalled_wake s tp l u k :
  queues k (QSem s) = tp :: l -> u = URdy RDY_OK ->
  sem_signalled s k (ready tp (upd_thr tp (with_u u) (deq tp (QSem s) l (set_cnt s (s_cnt k s + 1) k)))) /\
  sem_signalled s k (upd_thr tp (with_u u) (ready tp (deq tp (QSem s) l (set_cnt s (s_cnt k s + 1) k)))).
Proof.
  intros Hq ->. unfold sem_signalled. rewrite Hq. cbn [head tail].
  set (kd := deq tp (QSem s) l (set_cnt s (s_cnt k s + 1) k)).
  assert (Hqd : forall s', queues kd (QSem s') = if decide (s' = s) then l else queues k (QSem s')).
  { intros s'. unfold kd. rewrite queues_deq. by repeat case_decide; simplify_eq. }
  assert (Htd : forall t, thr kd t = if decide (t = tp) then with_link None (thr k tp) else thr k t)
    by (intros; unfold kd; by rewrite thr_deq).
  split; split_and!; try done.
  - by rewrite queues_ready, decide_False, queues_upd, Hqd, decide_True by done.
  - intros s' Hs'. by rewrite queues_ready, decide_False, queues_upd, Hqd, decide_False by done.
  - intros t Ht. by rewrite thr_ready, decide_False, thr_upd_ne, Htd, decide_False by congruence.
  - intros t Ht. injection Ht as <-. by rewrite thr_ready, decide_True, thr_upd_eq.
  - by rewrite queues_upd, queues_ready, decide_False, Hqd, decide_True by done.
  - intros s' Hs'. by rewrite queues_upd, queues_ready, decide_False, Hqd, decide_False by done.
  - intros t Ht. by rewrite thr_upd_ne, thr_ready, decide_False, Htd, decide_False by congruence.
  - intros t Ht. injection Ht as <-. by rewrite thr_upd_eq, thr_ready, decide_True by done.
Qed.

Lemma sem_release_ok me s k :
  wfx [XTop] k -> currp k = me -> s_cnt k s + 1 < 2 ^ 31 ->
  exists k', sem_release s k = KRet k' tt /\ quiet me [XTop] k k' /\ sem_signalled s k k'.
Proof.
  intros W Hc Hn. pose proof (sem_count_up me s k W Hc Hn) as Hs. simpl in Hs.
  destruct (x_sem _ _ W s ltac:(set_solver)) as [_ Hr].
  unfold sem_release, chSemFastSignalI. erewrite kbind_ret by (apply cnt_add_ok; lia).
  set (k1 := set_cnt s (s_cnt k s + 1) k) in *.
  destruct (queues k (QSem s)) as [|tp l] eqn:Hq.
  - destruct Hs as (Hp & Hqt & Hsg). rewrite (proj2 (Z.leb_gt _ _)) by lia. by exists k1.
  - destruct Hs as (Hp & Htm & Hw & Wd & Gd). rewrite (proj2 (Z.leb_le _ _)) by lia.
    assert (Hfr : k_fifo_remove (QSem s) k1 = KRet (deq tp (QSem s) l k1) tp).
    { unfold k_fifo_remove. change (queues k1) with (queues k). by rewrite Hq. }
    erewrite kbind_ret by exact Hfr.
    erewrite kbind_ret by (apply chSchReadyI_eq, Wd, Hw).
    eexists. split; [reflexivity|]. destruct Hw as (Hl & Hf & Hne & Hm & Hpe). split.
    + unfold quiet. split_and!; [|done|done|].
      * apply wfx_set_msg; [set_solver|by rewrite thr_ready, decide_True|].
        apply wfx_ready; [done..|left; set_solver|done].
      * etrans; [exact Gd|]. etrans; [by apply (guar_ready me tp)|].
        apply guar_set_msg, not_pending. by rewrite thr_ready, decide_True.
    + exact (proj2 (sem_signalled_wake s tp l _ k Hq eq_refl)).
Qed.

Lemma chSemSignalI_ok me s k :
  wfx [XTop] k -> currp k = me -> s_cnt k s + 1 < 2 ^ 31 ->
  exists k', chSemSignalI s k = KRet k' tt /\ quiet me [XTop] k k' /\ sem_signalled s k k'.
Proof.
  intros W Hc Hn. pose proof (sem_count_up me s k W Hc Hn) as Hs. simpl in Hs.
  destruct (x_sem _ _ W s ltac:(set_solver)) as [_ Hr].
  unfold chSemSignalI, chSemFastSignalI. erewrite kbind_ret by (apply cnt_add_ok; lia).
  set (k1 := set_cnt s (s_cnt k s + 1) k) in *.
  destruct (queues k (QSem s)) as [|tp l] eqn:Hq.
  - destruct Hs as (Hp & Hqt & Hsg). rewrite (proj2 (Z.leb_gt _ _)) by lia. by exists k1.
  - destruct Hs as (Hp & Htm & Hw & Wd & Gd). rewrite (proj2 (Z.leb_le _ _)) by lia.
    assert (Hfr : k_fifo_remove (QSem s) k1 = KRet (deq tp (QSem s) l k1) tp).
    { unfold k_fifo_remove. change (queues k1) with (queues k). by rewrite Hq. }
    erewrite kbind_ret by exact Hfr. unfold upd. rewrite kmod_bind.
    pose proof (may_wake_u tp RDY_OK _ Hw) as Hw'.
    assert (Wu : wfx [XThr tp; XTop] (upd_thr tp (with_u (URdy RDY_OK)) (deq tp (QSem s) l k1))).
    { apply wfx_upd; [set_solver|done|done|by destruct Hw as (_ & ? & _)|done]. }
    rewrite chSchReadyI_eq by apply Wu, Hw'.
    eexists. split; [reflexivity|]. destruct Hw' as (Hl & Hf & Hne & Hm & Hpe). split.
    + unfold quiet. split_and!; [|done|done|].
      * apply wfx_ready; [done..|left; set_solver|done].
      * etrans; [exact Gd|]. etrans; [apply (guar_set_msg me tp RDY_OK), Hw|]. by apply guar_ready.
    + exact (proj1 (sem_signalled_wake s tp l _ k Hq eq_refl)).
Qed.

Lemma sem_add_ok me s n k :
  wfx [XTop] k -> currp k = me -> s_cnt k s + Z.of_nat n < 2 ^ 31 ->
  exists k', sem_add_loop n s k = KRet k' tt /\ quiet me [XTop] k k' /\
    s_cnt k' s = s_cnt k s + Z.of_nat n /\ queues k' (QSem s) = drop n (queues k (QSem s)).
Proof.
  revert k. induction n as [|n IH]; intros k W Hc Hn.
  - exists k. unfold quiet. split_and!; try done. lia.
  - destruct (sem_release_ok me s k W Hc) as (k1 & E1 & (W1 & C1 & V1 & G1) & (N1 & Q1 & _)); [lia|].
    assert (Hs1 : s_cnt k1 s = s_cnt k s + 1) by (rewrite N1; apply fn_lookup_insert).
    destruct (IH k1 W1 C1) as (k2 & E2 & (W2 & C2 & V2 & G2) & N2 & Q2); [lia|].
    exists k2. cbn [sem_add_loop]. erewrite kbind_ret by exact E1. split; [done|]. split.
    + unfold quiet. split_and!; [done|done|congruence|by etrans].
    + split; [lia|]. rewrite Q2, Q1. destruct (queues k (QSem s)); [apply drop_nil|done].
Qed.

(** ** Waiting *)

(** The current thread at the end of the semaphore's queue, once the counter
    was taken down below zero; [k] is the state with the new counter. *)
Lemma sem_enqueue me s k0 k :
  wfx [XSem s; XTop] k -> currp k = me -> guar me k0 k -> t_state (thr k me) = CURRENT ->
  t_link (thr k me) = None -> s_cnt k s < 0 -> -(2 ^ 31) <= s_cnt k s ->
  zlen (queues k (QSem s)) = - s_cnt k s - 1 ->
  let q := queues k (QSem s) ++ [me] in
  let u := with_u (UObj (QSem s)) in
  forall k', k' = enq me (QSem s) q (upd_thr me u k) \/ k' = upd_thr me u (enq me (QSem s) q k) ->
  wfx [XThr me; XTop] k' /\ guar me k0 k' /\ t_state (thr k' me) = CURRENT /\
  (~ armed k me -> may_sleep WTSEM me k').
Proof.
  intros W Hc Hg Hst Hl Hn Hb Hz q u k' Hk'.
  assert (Hth : thr k' me = with_link (Some (QSem s)) (u (thr k me))).
  { destruct Hk' as [->| ->]; [by rewrite thr_enq, decide_True, thr_upd_eq|].
    rewrite thr_upd_eq, thr_enq, decide_True by done. done. }
  assert (Hperm : q ≡ₚ me :: queues k (QSem s)) by (unfold q; by rewrite Permutation_app_comm).
  assert (Wm : wfx [XThr me; XSem s; XTop] k) by (eapply wfx_mono; [|exact W]; set_solver).
  assert (W' : wfx [XThr me; XSem s; XTop] k').
  { destruct Hk' as [->| ->].
    - apply wfx_enq; [set_solver|by rewrite thr_upd_eq|done|simpl; set_solver|done..|].
      apply wfx_upd; [set_solver|done|done|simpl; by rewrite Hst|done].
    - apply wfx_upd; [set_solver|done|..|].
      + done.
      + rewrite thr_enq, decide_True by done. simpl. by rewrite Hst.
      + apply wfx_enq; [set_solver|done|done|simpl; set_solver|done..]. }
  assert (Hq' : queues k' (QSem s) = q).
  { destruct Hk' as [->| ->]; [|rewrite queues_upd]; by rewrite queues_enq, decide_True. }
  assert (Hcnt : s_cnt k' = s_cnt k) by (by destruct Hk' as [->| ->]).
  assert (Hvt : vtlist k' = vtlist k) by (by destruct Hk' as [->| ->]).
  split_and!.
  - apply (wfx_settle_sem _ s); [|eapply wfx_mono; [|exact W']; set_solver].
    unfold sem_ok. rewrite Hq', Hcnt. unfold zlen, q in *. rewrite length_app. simpl. lia.
  - etrans; [done|]. destruct Hk' as [->| ->].
    + etrans; [apply (guar_upd_me me u)|]. apply guar_enq. by right.
    + etrans; [apply (guar_enq me me (QSem s) q); by right|]. apply guar_upd_me.
  - by rewrite Hth.
  - intros Ha. unfold may_sleep. split_and!; try done.
    unfold state_ok. rewrite thr_upd_eq, Hth. simpl. by exists s.
Qed.

(** The counter one down, from a well-formed state. *)
Lemma sem_count_down me s k :
  wfx [XTop] k -> currp k = me -> -(2 ^ 31) <= s_cnt k s - 1 ->
  let k1 := set_cnt s (s_cnt k s + -1) k in
  chSemFastWaitI s k = KRet k1 (s_cnt k s + -1) /\ guar me k k1 /\ wfx [XSem s; XTop] k1 /\
  (0 <= s_cnt k s + -1 -> wfx [XTop] k1) /\
  (s_cnt k s + -1 < 0 -> zlen (queues k1 (QSem s)) = - (s_cnt k s + -1) - 1).
Proof.
  intros W Hc Hb k1. destruct (x_sem _ _ W s ltac:(set_solver)) as [Hlen Hr].
  assert (W1 : wfx [XSem s; XTop] k1).
  { apply wfx_cnt; [set_solver|]. eapply wfx_mono; [|exact W]. set_solver. }
  split_and!; [apply cnt_add_ok; lia|by apply guar_same|done|..].
  - intros Hp. apply (wfx_settle_sem _ s); [|done]. unfold sem_ok, k1. rewrite cnt_set, decide_True by done.
    change (queues (set_cnt _ _ k)) with (queues k). lia.
  - intros Hp. change (queues k1) with (queues k). lia.
Qed.

Definition sem_wait_pre (s me : Z) (k : kernel) : Prop := me <> idle /\ -(2 ^ 31) <= s_cnt k s - 1.
Definition sem_signal_pre (s _ : Z) (k : kernel) : Prop := s_cnt k s + 1 < 2 ^ 31.

Lemma user_top me k : user me k -> wfx [XTop] k.
Proof. intros (W & _). eapply wfx_mono; [|exact W]. set_solver. Qed.

Lemma rdymsg_post me k k1 k' : post me k k1 k' -> seg me (fun k1 _ k' => post me k k1 k') k1 (rdymsg k').
Proof. intros Hp. by apply seg_get, seg_ret. Qed.

Lemma quiet_post me k k' : wf k' -> quiet me [] k k' -> post me k k k'.
Proof.
  intros W (_ & Hc & Hv & Hg). unfold post, armed. rewrite Hv. by split_and!.
Qed.

Lemma settle_user_top me k k' :
  user me k -> wfx [XTop] k' -> queues k' QReady = queues k QReady -> prio_of k' = prio_of k ->
  currp k' = currp k -> wf k'.
Proof.
  intros (W & _) W' Hq Hp Hc. apply wfx_settle_top; [|done]. rewrite Hq, Hp, Hc. apply W. set_solver.
Qed.

#[export] Instance chSemWait_service s : Service (sem_wait_pre s) (chSemWait s).
Proof.
  intros me k Hu [Hi Hb]. pose proof Hu as (W & Hc & Hna). pose proof (user_current _ _ Hu) as [Hst Hl].
  destruct (sem_count_down me s k (user_top _ _ Hu) Hc Hb) as (He & Hg & W1 & Wp & Hz).
  eapply seg_step; [exact He|]. set (k1 := set_cnt s (s_cnt k s + -1) k) in *.
  assert (Hcn : s_cnt k1 s = s_cnt k s + -1) by (unfold k1; by rewrite cnt_set, decide_True).
  destruct (Z.ltb_spec (s_cnt k s + -1) 0) as [Hn|Hp].
  - apply seg_get. change (currp k1) with (currp k). rewrite Hc. apply seg_upd, seg_mod, seg_bind.
    edestruct (sem_enqueue me s k k1) as (W2 & G2 & S2 & M2); try done; [lia|lia|by rewrite Hcn; apply Hz|by left|].
    eapply go_sleep_spec; try done. by apply M2.
  - apply seg_ret. unfold post. split_and!; [|done|done|done]. by eapply settle_user_top; [exact Hu|apply Wp|..].
Qed.

#[export] Instance chSemWaitTimeout_service s time :
  Service (fun me k => sem_wait_pre s me k /\ fits 32 time) (chSemWaitTimeout s time).
Proof.
  intros me k Hu [[Hi Hb] Hf]. pose proof Hu as (W & Hc & Hna). pose proof (user_current _ _ Hu) as [Hst Hl].
  destruct (sem_count_down me s k (user_top _ _ Hu) Hc Hb) as (He & Hg & W1 & Wp & Hz).
  destruct (x_sem _ _ W s ltac:(set_solver)) as [Hlen Hr].
  eapply seg_step; [exact He|]. set (k1 := set_cnt s (s_cnt k s + -1) k) in *.
  assert (Hcn : s_cnt k1 s = s_cnt k s + -1) by (unfold k1; by rewrite cnt_set, decide_True).
  destruct (Z.ltb_spec (s_cnt k s + -1) 0) as [Hn|Hp].
  - destruct (Z.eqb_spec TIME_IMMEDIATE time) as [Ht|Ht].
    + eapply seg_step; [apply cnt_add_ok; lia|]. apply seg_ret. unfold post. split_and!; [|done| |done].
      * eapply settle_user_top; [exact Hu| |done..]. apply (wfx_settle_sem _ s); [|apply wfx_cnt; [set_solver|done]].
        unfold sem_ok. rewrite cnt_set, decide_True by done. change (queues (set_cnt _ _ k1)) with (queues k). lia.
      * etrans; [exact Hg|]. by apply guar_same.
    + apply seg_get. change (currp k1) with (currp k). rewrite Hc. apply seg_upd, seg_mod.
      edestruct (sem_enqueue me s k k1) as (W2 & G2 & S2 & M2); try done; [lia|lia|by rewrite Hcn; apply Hz|by left|].
      eapply sleep_timeout_spec; try done. by apply M2.
  - apply seg_ret. unfold post. split_and!; [|done|done|done]. by eapply settle_user_top; [exact Hu|apply Wp|..].
Qed.

#[export] Instance chSemSignal_service s : Service (sem_signal_pre s) (chSemSignal s).
Proof.
  intros me k Hu Hb. pose proof Hu as (W & Hc & Hna). pose proof (user_top _ _ Hu) as Wt.
  destruct (x_sem _ _ W s ltac:(set_solver)) as [_ Hr].
  pose proof (sem_count_up me s k Wt Hc Hb) as Hs. simpl in Hs. unfold sem_signal_pre in Hb.
  eapply seg_step; [apply cnt_add_ok; lia|]. set (k1 := set_cnt s (s_cnt k s + 1) k) in *.
  destruct (queues k (QSem s)) as [|tp l] eqn:Hq.
  - destruct Hs as (Hp & (W1 & _ & _ & G1) & _). rewrite (proj2 (Z.leb_gt _ _)) by lia.
    apply seg_ret. unfold post. split_and!; [|done|done|done]. by eapply settle_user_top.
  - destruct Hs as (Hp & Htm & Hw & Wd & Gd). rewrite (proj2 (Z.leb_le _ _)) by lia.
    apply (seg_step me (k_fifo_remove (QSem s)) _ tp _ _ (deq tp (QSem s) l k1)).
    { unfold k_fifo_remove. change (queues k1) with (queues k). by rewrite Hq. }
    eapply wakeup_s_spec; try done. apply wfx_settle_top; [|eapply wfx_mono; [|exact Wd]; set_solver].
    intros t. rewrite queues_deq, decide_False, !prio_deq by done. apply W. set_solver.
Qed.

#[export] Instance chSemSignalWait_service sps spw :
  Service (fun me k => sem_signal_pre sps me k /\ sem_wait_pre spw me k) (chSemSignalWait sps spw).
Proof.
  intros me k Hu [Hb [Hi Hw]]. pose proof Hu as (W & Hc & Hna). pose proof (user_top _ _ Hu) as Wt.
  destruct (sem_release_ok me sps k Wt Hc Hb) as (k1 & E1 & (W1 & C1 & V1 & G1) & (N1 & _)).
  eapply seg_step; [exact E1|].
  assert (Hna1 : ~ armed k1 me) by (unfold armed; by rewrite V1).
  assert (Hst : t_state (thr k1 me) = CURRENT) by (rewrite <- C1; apply W1; set_solver).
  assert (Hl : t_link (thr k1 me) = None) by (rewrite <- C1; eapply current_link; [done|set_solver]).
  assert (Hw1 : -(2 ^ 31) <= s_cnt k1 spw - 1).
  { rewrite N1. destruct (decide (spw = sps)) as [->|]; [rewrite fn_lookup_insert|rewrite fn_lookup_insert_ne]; lia || done. }
  destruct (sem_count_down me spw k1 W1 C1 Hw1) as (He & Hg & W2 & Wp & Hz).
  eapply seg_step; [exact He|]. set (k2 := set_cnt spw (s_cnt k1 spw + -1) k1) in *.
  assert (Hcn : s_cnt k2 spw = s_cnt k1 spw + -1) by (unfold k2; by rewrite cnt_set, decide_True).
  assert (G2 : guar me k k2) by (by etrans).
  assert (Harm : forall k', (armed k' me -> armed k1 me) -> armed k' me -> armed k me) by (unfold armed; by rewrite V1).
  destruct (Z.ltb_spec (s_cnt k1 spw + -1) 0) as [Hn|Hp].
  - apply seg_get. change (currp k2) with (currp k1). rewrite C1. apply seg_mod, seg_upd, seg_bind.
    edestruct (sem_enqueue me spw k k2) as (W3 & G3 & S3 & M3); try done; [lia|lia|by rewrite Hcn; apply Hz|by right|].
    eapply go_sleep_spec; try done; [by apply M3|].
    intros k' W' Hc' Ha' _. apply rdymsg_post, post_resumed; [done..|]. by apply Harm.
  - apply seg_bind. eapply resched_spec; [done|by apply Wp|done|].
    intros k3 k' (W' & Hc' & Hg' & Ha'). apply seg_ret. unfold post. split_and!; auto. by apply Harm.
Qed.

(** ** Resetting *)

Lemma removelast_snoc {A} (l : list A) x : removelast (l ++ [x]) = l.
Proof. apply removelast_last. Qed.

Lemma sem_reset_ok me s fuel cnt k :
  wfx [XSem s; XTop] k -> currp k = me -> zlen (queues k (QSem s)) = Z.max 0 (- cnt) ->
  (Z.to_nat (- cnt) < fuel)%nat ->
  exists k', sem_reset_loop fuel s cnt k = KRet k' tt /\ quiet me [XSem s; XTop] k k' /\
    queues k' (QSem s) = [] /\ s_cnt k' = s_cnt k /\
    (forall t, t ∈ queues k (QSem s) -> t_state (thr k' t) = READY /\ t_u (thr k' t) = URdy RDY_RESET) /\
    (forall t, t ∉ queues k (QSem s) -> thr k' t = thr k t).
Proof.
  revert cnt k. induction fuel as [|fuel IH]; intros cnt k W Hc Hz Hf; [lia|]. cbn [sem_reset_loop].
  destruct (queues k (QSem s)) as [|x0 q0] eqn:Hq0; unfold zlen in Hz.
  { rewrite (proj2 (Z.leb_gt _ _)) by (simpl in Hz; lia). exists k. unfold quiet. split_and!; try done.
    by intros t ?%elem_of_nil. }
  destruct (exists_last (l := x0 :: q0)) as (l & tp & Hl); [done|]. rewrite Hl in *. clear x0 q0 Hl.
  rewrite length_app in Hz. simpl in Hz. rewrite (proj2 (Z.leb_le _ _)) by lia.
  destruct (wake_from_ok me [XSem s; XTop] tp (QSem s) l k) as (Htc & Er & Wr & Gr); try done.
  { set_solver. } { set_solver. } { rewrite Hq0. by rewrite Permutation_app_comm. }
  { rewrite Hq0. apply sublist_inserts_r. done. } { simpl. set_solver. }
  set (k1 := wake_from tp (QSem s) l k) in *. set (k2 := upd_thr tp (with_u (URdy RDY_RESET)) k1).
  assert (Hq2 : queues k2 (QSem s) = l).
  { unfold k2, k1. rewrite queues_upd, queues_wake_from, decide_True; done. }
  assert (Htl : tp ∉ l).
  { pose proof (x_nodup _ _ W (QSem s)) as Hnd. rewrite Hq0 in Hnd. apply NoDup_app in Hnd. set_solver. }
  destruct (IH (cnt + 1) k2) as (k' & E' & (W' & C' & V' & G') & Q' & N' & R' & T').
  { apply wfx_set_msg; [set_solver| |done]. unfold k1. by rewrite thr_wake_from, decide_True. }
  { done. } { rewrite Hq2. unfold zlen. lia. } { lia. }
  exists k'. split_and!.
  - erewrite kbind_ret; [|unfold k_lifo_remove; rewrite Hq0, last_snoc, removelast_snoc; reflexivity].
    erewrite kbind_ret by exact Er. unfold upd. by rewrite kmod_bind.
  - unfold quiet. split_and!; [done|done|done|]. etrans; [exact Gr|]. etrans; [|exact G'].
    apply (guar_set_msg me tp), not_pending. unfold k1. by rewrite thr_wake_from, decide_True.
  - done.
  - done.
  - intros t. rewrite elem_of_app, list_elem_of_singleton. intros [Ht| ->]; [apply R'; by rewrite Hq2|].
    rewrite T' by (by rewrite Hq2). unfold k2. rewrite thr_upd_eq. unfold k1.
    by rewrite thr_wake_from, decide_True.
  - intros t. rewrite not_elem_of_app, list_elem_of_singleton. intros [Ht Hne].
    rewrite T' by (by rewrite Hq2). unfold k2, k1. by rewrite thr_upd_ne, thr_wake_from, decide_False.
Qed.

(** What a reset leaves: the counter set, and every waiter ready with
    [RDY_RESET]; no other thread is touched. *)
Definition sem_was_reset (s n : Z) (k k' : kernel) : Prop :=
  s_cnt k' = <[s := n]> (s_cnt k) /\ queues k' (QSem s) = [] /\
  (forall t, t ∈ queues k (QSem s) -> t_state (thr k' t) = READY /\ t_u (thr k' t) = URdy RDY_RESET) /\
  (forall t, t ∉ queues k (QSem s) -> thr k' t = thr k t).

Lemma chSemResetI_ok me s n k :
  wfx [XTop] k -> currp k = me -> 0 <= n < 2 ^ 31 ->
  exists k', chSemResetI s n k = KRet k' tt /\ quiet me [XTop] k k' /\ sem_was_reset s n k k'.
Proof.
  intros W Hc Hn. destruct (x_sem _ _ W s ltac:(set_solver)) as [Hlen Hr].
  destruct (sem_reset_ok me s (S (Z.to_nat (- s_cnt k s))) (s_cnt k s) (set_cnt s n k))
    as (k' & E' & (W' & C' & V' & G') & Q' & N' & R' & T'); [|done|done|lia|].
  { apply wfx_cnt; [set_solver|]. eapply wfx_mono; [|exact W]. set_solver. }
  exists k'. split; [exact E'|]. split.
  - unfold quiet. split_and!; [|done|done|]; [|etrans; [|exact G']; by apply guar_same].
    apply (wfx_settle_sem _ s); [|done]. unfold sem_ok. rewrite Q', N', cnt_set, decide_True by done.
    unfold zlen. simpl. lia.
  - unfold sem_was_reset. by split_and!.
Qed.

#[export] Instance chSemReset_service s n : Service (fun _ _ => 0 <= n < 2 ^ 31) (chSemReset s n).
Proof.
  intros me k Hu Hn. pose proof Hu as (W & Hc & Hna).
  destruct (chSemResetI_ok me s n k (user_top _ _ Hu) Hc Hn) as (k1 & E1 & (W1 & C1 & V1 & G1) & _).
  eapply seg_step; [exact E1|]. eapply resched_spec; [done..|].
  intros k2 k' (W' & Hc' & Hg' & Ha'). unfold post. split_and!; [done..|].
  intros Ha. apply Ha' in Ha. unfold armed in *. by rewrite V1 in Ha.
Qed.

(** (C29) Semaphores count and queue as promised.  From any well-formed kernel
    state, signalling from interrupt level adds one to the counter and readies
    exactly the thread that has waited longest, with [RDY_OK]; adding [n]
    readies the [n] threads first in the queue; a reset to [n] readies every
    waiter with [RDY_RESET] and leaves nobody waiting.  None of them touches
    another semaphore's counter, switches threads or leaves the kernel
    ill-formed (a reschedule is due, no more). *)
Theorem semaphore_ops_spec me s k :
  wfx [XTop] k -> currp k = me ->
  (s_cnt k s + 1 < 2 ^ 31 ->
     exists k', chSemSignalI s k = KRet k' tt /\ quiet me [XTop] k k' /\ sem_signalled s k k') /\
  (forall n, 0 <= n -> s_cnt k s + n < 2 ^ 31 ->
     exists k', chSemAddCounterI s n k = KRet k' tt /\ quiet me [XTop] k k' /\
       s_cnt k' s = s_cnt k s + n /\ queues k' (QSem s) = drop (Z.to_nat n) (queues k (QSem s))) /\
  (forall n, 0 <= n < 2 ^ 31 ->
     exists k', chSemResetI s n k = KRet k' tt /\ quiet me [XTop] k k' /\ sem_was_reset s n k k').
Proof.
  intros W Hc. split_and!.
  - by apply chSemSignalI_ok.
  - intros n Hn Hb. destruct (sem_add_ok me s (Z.to_nat n) k W Hc) as (k' & E' & Qt & N' & Q'); [lia|].
    exists k'. rewrite Z2Nat.id in N' by lia. by split_and!.
  - intros n. by apply chSemResetI_ok.
Qed.
