(* ===== verification/ChThreads.v ===== *)
(** * Threads and the system tick: kernel/src/chthreads.c, chdynamic.c,
      chregistry.c, chsys.c

    Creation, priorities, suspension, sleeping, termination and joining,
    references, the registry, the tick interrupt and the start of the system. *)

From S2P Require Import Prelude ChLists Kernel ChVt ChSchd ChInv ChSeg ChSem.

Definition THD_MEM_MODE_MASK : Z := 3.
Definition THD_MEM_MODE_STATIC : Z := 0.
Definition THD_MEM_MODE_HEAP : Z := 1.
Definition THD_MEM_MODE_MEMPOOL : Z := 2.
Definition THD_TERMINATE : Z := 4.

(** ** The registry *)

Definition REG_INSERT (tp : Z) : K unit := kmod (fun k => set_registry (registry k ++ [tp]) k).

Definition REG_REMOVE (tp : Z) : K unit := kmod (fun k =>
  set_registry (filter (fun x => x <> tp) (registry k)) k).

Definition add_ref (tp : Z) : K unit := upd tp (fun th => with_refs (u8 (t_refs th + 1)) th).

(** The registry of a running system is never empty. *)
Definition chRegFirstThread : K Z :=
  k ← kget;
  match registry k with [] => kub | tp :: _ => add_ref tp;; mret tp end.

(** The element after [tp]. *)
Fixpoint reg_next (tp : Z) (l : list Z) : option Z :=
  match l with
  | [] => None
  | x :: l => if x =? tp then head l else reg_next tp l
  end.

(** ** Creation *)

Definition init_thread (prio : Z) (th : Thread) : Thread :=
  mkThread prio prio SUSPENDED (t_u th) (t_link th) THD_MEM_MODE_STATIC 1 0 0 (t_msg th) [].

(** Its list of waiters and its message queue start empty. *)
Definition _thread_init (tp prio : Z) : K unit :=
  upd tp (init_thread prio);;
  REG_INSERT tp;;
  kmod (set_queue (QExit tp) []);;
  kmod (set_queue (QMsg tp) []).

(** The working area is the thread's; its stack and context are the port's. *)
Definition chThdCreateI (tp prio : Z) : K unit := _thread_init tp prio.

Definition chThdCreateStatic (tp prio : Z) : K unit := chThdCreateI tp prio;; chSchWakeupS tp RDY_OK.

(** ** References *)

Definition chThdAddRef (tp : Z) : K unit := add_ref tp.

(** The answer says that the thread's memory goes back where [p_flags] says it
    came from. *)
Definition chThdRelease (tp : Z) : K bool :=
  upd tp (fun th => with_refs (u8 (t_refs th - 1)) th);;
  k ← kget;
  let th := thr k tp in
  let mode := Z.land (t_flags th) THD_MEM_MODE_MASK in
  if (t_refs th =? 0) && bool_decide (t_state th = FINAL)
     && ((mode =? THD_MEM_MODE_HEAP) || (mode =? THD_MEM_MODE_MEMPOOL))
  then REG_REMOVE tp;; mret true
  else mret false.

Definition chRegNextThread (tp : Z) : K (option Z) :=
  k ← kget;
  let ntp := reg_next tp (registry k) in
  match ntp with None => mret tt | Some ntp => add_ref ntp end;;
  chThdRelease tp;;
  mret ntp.

(** ** Control of threads *)

(** A boosted priority goes up with its owner's, but not down. *)
Definition set_priority (newprio : Z) (th : Thread) : Thread :=
  with_realprio newprio
    (if (t_prio th =? t_realprio th) || (t_prio th <? newprio) then with_prio newprio th else th).

Definition chThdSetPriority (newprio : Z) : K Z :=
  k ← kget;
  let oldprio := t_realprio (thr k (currp k)) in
  upd (currp k) (set_priority newprio);;
  chSchRescheduleS;;
  mret oldprio.

Definition chThdResume (tp : Z) : K unit := chSchWakeupS tp RDY_OK.

Definition chThdTerminate (tp : Z) : K unit :=
  upd tp (fun th => with_flags (Z.lor (t_flags th) THD_TERMINATE) th).

Definition chThdShouldTerminate : K bool :=
  k ← kget; mret (negb (Z.land (t_flags (thr k (currp k))) THD_TERMINATE =? 0)).

Definition chThdSleepS (time : Z) : K Z := chSchGoSleepTimeoutS SLEEPING time.

Definition chThdSleep (time : Z) : K unit := chThdSleepS time;; mret tt.

Definition chThdSleepMilliseconds (msec : Z) : K unit := chThdSleep (MS2ST msec).

Definition chThdSleepUntil (time : Z) : K unit :=
  now ← chTimeNow;
  let time := u32 (time - now) in
  if 0 <? time then chThdSleepS time;; mret tt else mret tt.

Definition chThdYield : K unit := chSchDoYieldS.

(** [while (notempty(&tp->p_waiting)) chSchReadyI(list_remove(&tp->p_waiting));] *)
Fixpoint ready_waiters (fuel : nat) (tp : Z) : K unit := fun k =>
  match fuel with
  | O => KUb
  | S fuel =>
      if k_notempty (QExit tp) k then (w ← k_fifo_remove (QExit tp); chSchReadyI w;; ready_waiters fuel tp) k
      else KRet k tt
  end.

Definition chThdExitS (msg : Z) : K unit :=
  k ← kget;
  let tp := currp k in
  upd tp (with_u (UExit msg));;
  ready_waiters (S (length (queues k (QExit tp)))) tp;;
  (if Z.land (t_flags (thr k tp)) THD_MEM_MODE_MASK =? THD_MEM_MODE_STATIC then REG_REMOVE tp else mret tt);;
  chSchGoSleepS FINAL.

Definition chThdExit (msg : Z) : K unit := chThdExitS msg.

Definition chThdWait (tp : Z) : K Z :=
  k ← kget;
  (if bool_decide (t_state (thr k tp) <> FINAL) then
     k_list_insert (currp k) (QExit tp);;
     chSchGoSleepS WTEXIT
   else mret tt);;
  k ← kget;
  let msg := u_msg (t_u (thr k tp)) in
  chThdRelease tp;;
  mret msg.

(** ** The tick *)

Definition chSysTimerHandlerI : K unit :=
  k ← kget;
  (if 0 <? r_preempt k then kmod (set_preempt (r_preempt k - 1)) else mret tt);;
  upd (currp k) (fun th => with_time (u32 (t_time th + 1)) th);;
  chVTDoTickI wakeup.

(** The end of every interrupt. *)
Definition ALT_OS_INT_EXIT : K unit :=
  k ← kget;
  if chSchIsPreemptionRequired k then chSchDoReschedule else mret tt.

(** The timer interrupt. *)
Definition port_time_tick : K unit := chSysTimerHandlerI;; ALT_OS_INT_EXIT.

(** ** The start *)

Definition mainthread : Z := 0.

Definition chSysInit : K unit :=
  _scheduler_init;;
  _vt_init;;
  _thread_init mainthread NORMALPRIO;;
  kmod (set_currp mainthread);;
  upd mainthread (with_state CURRENT);;
  chThdCreateStatic idle IDLEPRIO.

(** ** Sleeping and yielding *)

Lemma user_may_sleep s me k :
  user me k -> match s with SUSPENDED | SLEEPING | WTMSG | FINAL | WTOREVT | WTANDEVT => True | _ => False end ->
  (s = FINAL -> queues k (QExit me) = []) ->
  may_sleep s me k.
Proof.
  intros Hu Hs Hf. destruct (user_current _ _ Hu) as [Hst Hl]. destruct Hu as (W & Hc & Hna).
  unfold may_sleep. split_and!; [|by intros ->..|done|done].
  unfold state_ok. rewrite thr_upd_eq. simpl. by destruct s.
Qed.

Lemma user_marks me E k : user me k -> wfx E k.
Proof. intros (W & _). eapply wfx_mono; [|exact W]. by intros e ?%elem_of_nil. Qed.

#[export] Instance suspend_service : Service (fun me _ => me <> idle) (chSchGoSleepS SUSPENDED).
Proof.
  intros me k Hu Hi. destruct (user_current _ _ Hu) as [Hst Hl]. pose proof Hu as (W & Hc & Hna).
  eapply go_sleep_spec; try done; [by eapply user_marks|by apply user_may_sleep].
Qed.

Lemma chThdSleepS_spec time me k Q :
  user me k -> me <> idle -> fits 32 time -> time <> TIME_IMMEDIATE ->
  (forall k1 k' a, post me k k1 k' -> Q k1 a k') -> seg me Q k (chThdSleepS time k).
Proof.
  intros Hu Hi Hf Ht HQ. destruct (user_current _ _ Hu) as [Hst Hl]. pose proof Hu as (W & Hc & Hna).
  eapply sleep_timeout_spec; try done; [by eapply user_marks|by apply user_may_sleep|auto].
Qed.

#[export] Instance chThdSleep_service time :
  Service (fun me _ => me <> idle /\ fits 32 time /\ time <> TIME_IMMEDIATE) (chThdSleep time).
Proof. intros me k Hu (Hi & Hf & Ht). apply seg_bind. by apply chThdSleepS_spec. Qed.

#[export] Instance chThdSleepUntil_service time : Service (fun me _ => me <> idle) (chThdSleepUntil time).
Proof.
  intros me k Hu Hi. unfold chThdSleepUntil. eapply seg_step; [done|]. cbv zeta.
  destruct (Z.ltb_spec 0 (u32 (time - vt_systime k))) as [Ht|Ht].
  - apply seg_bind. apply chThdSleepS_spec; [done|done|apply wrap_fits; lia|unfold TIME_IMMEDIATE; lia|done].
  - apply seg_ret. destruct Hu as (W & Hc & _). by apply post_resumed.
Qed.

#[export] Instance chThdYield_service : Service (fun _ _ => True) chThdYield.
Proof. intros me k (W & Hc & Hna) _. by apply yield_spec. Qed.

(** ** Terminating and joining *)

(** A change that only a thread's own data sees. *)
Lemma tame_post me k0 k t f :
  post me k0 k0 k -> tame f -> (forall th, t_state (f th) = t_state th) -> (forall th, t_u (f th) = t_u th) ->
  post me k0 k0 (upd_thr t f k).
Proof.
  intros (W & Hc & Hg & Ha) Hf Hs Hu. unfold post. split_and!; [|done| |done].
  - apply wfx_tame; auto.
  - etrans; [done|]. by apply guar_tame.
Qed.

Lemma ready_waiters_ok me tp fuel k :
  wfx [XTop] k -> currp k = me -> (length (queues k (QExit tp)) < fuel)%nat ->
  exists k', ready_waiters fuel tp k = KRet k' tt /\ quiet me [XTop] k k' /\ queues k' (QExit tp) = [] /\
    (forall w, w ∈ queues k (QExit tp) -> t_state (thr k' w) = READY) /\
    (forall x, x ∉ queues k (QExit tp) -> thr k' x = thr k x).
Proof.
  revert k. induction fuel as [|fuel IH]; intros k W Hc Hf; [lia|]. cbn [ready_waiters]. unfold k_notempty.
  destruct (queues k (QExit tp)) as [|w l] eqn:Hq; simpl.
  - exists k. unfold quiet. split_and!; try done. by intros w ?%elem_of_nil.
  - destruct (wake_from_ok me [XTop] w (QExit tp) l k) as (Hwc & Er & Wr & Gr); try done.
    { set_solver. } { set_solver. } { by rewrite Hq. } { rewrite Hq. by constructor. }
    set (k1 := wake_from w (QExit tp) l k) in *.
    assert (Hq1 : queues k1 (QExit tp) = l) by (unfold k1; by rewrite queues_wake_from, decide_True).
    assert (Hnd : w ∉ l).
    { pose proof (x_nodup _ _ W (QExit tp)) as Hnd. rewrite Hq in Hnd. by apply NoDup_cons in Hnd as [? _]. }
    destruct (IH k1) as (k' & E' & (W' & C' & V' & G') & Q' & R' & T'); [done|done|rewrite Hq1; simpl in Hf; lia|].
    exists k'. split_and!.
    + erewrite kbind_ret; [|unfold k_fifo_remove; by rewrite Hq]. by erewrite kbind_ret by exact Er.
    + unfold quiet. split_and!; [done|done|done|by etrans].
    + done.
    + intros x [->|Hx]%elem_of_cons; [|by apply R'; rewrite Hq1].
      rewrite T' by (by rewrite Hq1). unfold k1. by rewrite thr_wake_from, decide_True.
    + intros x [Hxw Hxl]%not_elem_of_cons. rewrite T' by (by rewrite Hq1). unfold k1.
      by rewrite thr_wake_from, decide_False.
Qed.

Lemma queues_registry l k : queues (set_registry l k) = queues k.
Proof. done. Qed.

#[export] Instance chThdExit_service msg : Service (fun me _ => me <> idle) (chThdExit msg).
Proof.
  intros me k Hu Hi. destruct (user_current _ _ Hu) as [Hst Hl]. pose proof Hu as (W & Hc & Hna).
  unfold chThdExit, chThdExitS. apply seg_get. rewrite Hc. apply seg_upd.
  set (k1 := upd_thr me (with_u (UExit msg)) k).
  assert (W1 : wfx [XTop] k1) by (apply wfx_tame; [done|done|by right; right|exact (user_marks _ _ _ Hu)]).
  destruct (ready_waiters_ok me me (S (length (queues k (QExit me)))) k1) as
    (k2 & E2 & (W2 & C2 & V2 & G2) & Q2 & _ & T2); [done|done|simpl; lia|].
  eapply seg_step; [exact E2|]. apply seg_bind.
  assert (T2' : thr k2 me = thr k1 me).
  { apply T2. intros Hin. apply (x_link _ _ W1) in Hin. unfold k1 in Hin. rewrite thr_upd_eq in Hin. simpl in Hin. congruence. }
  assert (Hend : forall k3, wfx [XReg; XTop] k3 -> (forall t, t_state (thr k2 t) <> FINAL -> t ∈ registry k3 \/ t = me) ->
    thr k3 = thr k2 -> queues k3 = queues k2 -> currp k3 = me ->
    vtlist k3 = vtlist k2 -> guar me k k3 ->
    seg me (fun k1 _ k' => post me k k1 k') k (chSchGoSleepS FINAL k3)).
  { intros k3 W3 R3 T3 Q3 C3 V3 G3.
    assert (Hme : thr k3 me = with_u (UExit msg) (thr k me)) by (rewrite T3, T2'; unfold k1; by rewrite thr_upd_eq).
    eapply go_sleep_reg; try done.
    - by rewrite Hme.
    - eapply wfx_mono; [|exact W3]. set_solver.
    - unfold may_sleep. split_and!; try done; [unfold state_ok; rewrite thr_upd_eq, Hme; done|..].
      + unfold armed. rewrite V3, V2. done.
      + by rewrite Q3.
    - intros t. rewrite T3. intros Ht. destruct (R3 t Ht); auto.
    - intros k' W' Hc' Ha' _ _. apply post_resumed; [done..|]. unfold armed in *. by rewrite V3, V2 in Ha'. }
  assert (Wr : wfx [XReg; XTop] k2) by (eapply wfx_mono; [|exact W2]; set_solver).
  pose proof (x_reg _ _ W2 ltac:(set_solver)) as Hreg.
  destruct (Z.land (t_flags (thr k me)) THD_MEM_MODE_MASK =? THD_MEM_MODE_STATIC).
  - unfold REG_REMOVE. apply seg_done with (a := tt) (k' := set_registry (filter (fun x => x <> me) (registry k2)) k2); [done|].
    apply Hend; try done.
    { apply wfx_registry; [left; set_solver|done]. }
    { intros t Ht. destruct (decide (t = me)); [by right|left]. apply list_elem_of_filter. auto. }
    etrans; [|by apply (guar_same me k2)].
    etrans; [apply (guar_upd_me me (with_u (UExit msg)))|done].
  - apply seg_done with (a := tt) (k' := k2); [done|].
    apply Hend; try done; [intros t Ht; left; auto|]. etrans; [apply (guar_upd_me me (with_u (UExit msg)))|done].
Qed.

(** ** Bookkeeping services *)

Lemma chThdRelease_spec me tp k0 k Q :
  (forall k' b, (forall k1, post me k1 k0 k -> post me k1 k0 k') -> Q k0 b k') ->
  seg me Q k0 (chThdRelease tp k).
Proof.
  intros HQ. unfold chThdRelease. apply seg_upd, seg_get. cbv zeta.
  set (k1 := upd_thr tp (fun th => with_refs (u8 (t_refs th - 1)) th) k).
  assert (Hp : forall k2, post me k2 k0 k -> post me k2 k0 k1).
  { intros k2 (W & Hc & Hg & Ha). unfold post. split_and!; [|done| |done].
    - by apply wfx_tame; auto.
    - etrans; [done|]. by apply guar_tame. }
  destruct (_ && _) eqn:Hcond.
  - apply andb_true_iff in Hcond as [Hcond _]. apply andb_true_iff in Hcond as [_ Hfin%bool_decide_eq_true].
    apply seg_mod, seg_ret, HQ. intros k2 H2. apply Hp in H2 as (W & Hc & Hg & Ha).
    unfold post. split_and!; [|done|etrans; [done|by apply guar_same]|done].
    apply wfx_registry; [right|done]. intros t Ht Hin. apply list_elem_of_filter. split; [congruence|done].
  - by apply seg_ret, HQ.
Qed.

#[export] Instance chThdRelease_service tp : Service (fun _ _ => True) (chThdRelease tp).
Proof. intros me k Hu _. apply chThdRelease_spec. intros k' b Hp. by apply Hp, post_start. Qed.

#[export] Instance chThdTerminate_service tp : Service (fun _ _ => True) (chThdTerminate tp).
Proof. intros me k Hu _. eapply seg_done; [done|]. apply tame_post; [by apply post_start|done..]. Qed.

#[export] Instance chThdAddRef_service tp : Service (fun _ _ => True) (chThdAddRef tp).
Proof. intros me k Hu _. eapply seg_done; [done|]. apply tame_post; [by apply post_start|done..]. Qed.

#[export] Instance chRegFirstThread_service : Service (fun _ k => registry k <> []) chRegFirstThread.
Proof.
  intros me k Hu Hr. unfold chRegFirstThread. apply seg_get. destruct (registry k) as [|tp l]; [done|].
  apply seg_upd, seg_ret, tame_post; [by apply post_start|done..].
Qed.

#[export] Instance chRegNextThread_service tp : Service (fun _ _ => True) (chRegNextThread tp).
Proof.
  intros me k Hu _. unfold chRegNextThread. apply seg_get. cbv zeta. apply seg_bind.
  destruct (reg_next tp (registry k)) as [ntp|].
  - eapply seg_done; [done|]. apply seg_bind, chThdRelease_spec. intros k' b Hp. apply seg_ret, Hp, tame_post; [by apply post_start|done..].
  - eapply seg_done; [done|]. apply seg_bind, chThdRelease_spec. intros k' b Hp. by apply seg_ret, Hp, post_start.
Qed.

#[export] Instance chThdResume_service tp : Service (fun _ k => t_state (thr k tp) = SUSPENDED) (chThdResume tp).
Proof.
  intros me k Hu Hs. pose proof Hu as (W & Hc & Hna). destruct (user_current _ _ Hu) as [Hst _].
  pose proof (x_state _ _ W tp ltac:(set_solver)) as Hok. unfold state_ok in Hok. rewrite Hs in Hok.
  eapply wakeup_s_spec; try done; [exact (user_marks _ _ _ Hu)|].
  unfold may_wake. rewrite Hs, Hc. split_and!; [done|done| |done|apply not_pending; by rewrite Hs].
  intros ->. congruence.
Qed.

#[export] Instance chThdWait_service tp : Service (fun me _ => me <> idle) (chThdWait tp).
Proof.
  intros me k Hu Hi. destruct (user_current _ _ Hu) as [Hst Hl]. pose proof Hu as (W & Hc & Hna).
  assert (Hend : forall k1 k', post me k k1 k' ->
    seg me (fun k1 _ k' => post me k k1 k') k1
      ((k ← kget; let msg := u_msg (t_u (thr k tp)) in chThdRelease tp;; mret msg) k')).
  { intros k1 k' Hp. apply seg_get, seg_bind, chThdRelease_spec. intros k2 b H2. by apply seg_ret, H2. }
  unfold chThdWait. apply seg_get, seg_bind. case_bool_decide as Hf; [|by apply Hend, post_start].
  rewrite Hc. apply seg_mod. set (k1 := enq me (QExit tp) (me :: queues k (QExit tp)) k).
  assert (Hme : thr k1 me = with_link (Some (QExit tp)) (thr k me)) by (unfold k1; by rewrite thr_enq, decide_True).
  eapply go_sleep_spec; try done.
  - by rewrite Hme.
  - apply wfx_enq; [set_solver|done|done|done|done|done|by intros r [= <-]|exact (user_marks _ _ _ Hu)].
  - apply guar_enq. by right.
  - unfold may_sleep. split_and!; try done. unfold state_ok. rewrite thr_upd_eq, Hme. simpl. by exists tp.
  - intros k' W' Hc' Ha' _. by apply Hend, post_resumed.
Qed.

(** ** Priorities *)

(** The mutexes under a change of a thread that waits nowhere. *)
Lemma mtx_ok_upd_free X me k k' :
  mtx_but X k -> (forall q, me ∉ queues k q) -> (forall x, x <> me -> thr k' x = thr k x) ->
  queues k' = queues k -> m_owner k' = m_owner k -> t_mtxlist (thr k' me) = t_mtxlist (thr k me) ->
  (t_state (thr k' me) <> FINAL -> NOPRIO < t_realprio (thr k' me)) ->
  t_realprio (thr k' me) <= t_prio (thr k' me) ->
  (X <> Some me -> t_prio (thr k' me) <= t_realprio (thr k' me) \/
   exists m w, m ∈ t_mtxlist (thr k me) /\ w ∈ queues k (QMtx m) /\ t_prio (thr k' me) <= prio_of k w) ->
  mtx_but X k'.
Proof.
  intros [H1 H2 H3 H4 H5 H6 H7 H8] Hq Ht Hqs Ho Hm Hr Hlow Hup.
  assert (Hpq : forall q x, x ∈ queues k q -> prio_of k' x = prio_of k x).
  { intros q x Hx. unfold prio_of. rewrite Ht; [done|]. intros ->. by apply (Hq q). }
  assert (Hml : forall x, t_mtxlist (thr k' x) = t_mtxlist (thr k x)).
  { intros x. destruct (decide (x = me)) as [->|]; [done|by rewrite Ht]. }
  constructor.
  - intros m t. by rewrite Ho, Hml.
  - intros t. by rewrite Hml.
  - intros m. rewrite Ho, Hqs. auto.
  - intros m. rewrite Hqs. eapply sorted_ext; [|apply H4]. apply Hpq.
  - intros c. rewrite Hqs. eapply sorted_ext; [|apply H5]. apply Hpq.
  - intros t. destruct (decide (t = me)) as [->|]; [done|]. rewrite Ht by done. auto.
  - intros t. destruct (decide (t = me)) as [->|]; [done|]. unfold prio_of. rewrite Ht by done. auto.
  - intros t HX. rewrite Hml, Hqs. destruct (decide (t = me)) as [->|Hne].
    + destruct (Hup HX) as [|(m & w & Hmw & Hw & Hle)]; [by left|]. right. exists m, w. by rewrite (Hpq _ _ Hw).
    + assert (Hpt : prio_of k' t = prio_of k t) by (unfold prio_of; by rewrite Ht). rewrite Hpt, (Ht t) by done.
      destruct (H8 t HX) as [|(m & w & Hmw & Hw & Hle)]; [by left|]. right. exists m, w. by rewrite (Hpq _ _ Hw).
Qed.

#[export] Instance chThdSetPriority_service p : Service (fun _ _ => NOPRIO < p) (chThdSetPriority p).
Proof.
  intros me k Hu Hp. destruct (user_current _ _ Hu) as [Hst Hl]. pose proof Hu as (W & Hc & Hna).
  unfold chThdSetPriority. apply seg_get. rewrite Hc. cbv zeta. apply seg_upd, seg_bind.
  set (k1 := upd_thr me (set_priority p) k).
  assert (Hpos : NOPRIO < prio_of k me) by (apply W; by rewrite Hst).
  assert (Hme : exists q, thr k1 me = with_realprio p (with_prio q (thr k me)) /\ p <= q /\ NOPRIO < q /\
                     (q = p \/ q = prio_of k me /\ prio_of k me <> t_realprio (thr k me))).
  { unfold k1. rewrite thr_upd_eq. unfold set_priority, prio_of in *.
    destruct (Z.eqb_spec (t_prio (thr k me)) (t_realprio (thr k me))); simpl; [exists p; auto with lia|].
    destruct (Z.ltb_spec (t_prio (thr k me)) p); [exists p; auto with lia|].
    exists (t_prio (thr k me)). destruct (thr k me); simpl in *. auto with lia. }
  destruct Hme as (q & Hme & Hpq & Hq0 & Hq). pose proof (x_mtx _ _ W ltac:(set_solver)) as Hmx.
  assert (W1 : wfx [XMtx; XThr me; XTop] k1).
  { assert (Hme' := Hme). unfold k1 in Hme'. rewrite thr_upd_eq in Hme'.
    apply wfx_upd_free; [set_solver|set_solver|set_solver|done|by rewrite Hme'|by rewrite Hme'|
      rewrite Hme'; simpl; by rewrite Hst|right; by rewrite Hst|exact (user_marks _ _ _ Hu)]. }
  eapply resched_spec; [done| |apply guar_upd_me|].
  - apply (wfx_settle _ me), wfx_settle_mtx; [unfold state_ok; rewrite Hme; simpl; by rewrite Hst|by rewrite Hme|..|done].
    + intros _. right. by rewrite Hme.
    + by intros _; left.
    + apply (mtx_ok_upd_free None me k); try done; try (rewrite Hme; simpl; done || lia).
      * intros q' Hin. apply (x_link _ _ W) in Hin. congruence.
      * intros x Hx. by apply thr_upd_ne.
      * intros _. rewrite Hme. simpl. destruct Hq as [->|[-> Hne]]; [by left; lia|].
        pose proof (mx_lower _ _ Hmx me). destruct (mx_upper _ _ Hmx me ltac:(done)) as [Hup|]; [lia|by right].
  - intros k3 k' Hpost. by apply seg_ret.
Qed.

(** ** Creation *)

(** The memory of [tp] is not a live thread: nobody sends to it or waits for
    it, and it owns no mutex. *)
Definition not_alive (tp : Z) (k : kernel) : Prop :=
  t_state (thr k tp) = FINAL /\ queues k (QMsg tp) = [] /\ t_mtxlist (thr k tp) = [].

Lemma thread_init_ok me tp p k :
  user me k -> not_alive tp k -> NOPRIO < p ->
  exists k', _thread_init tp p k = KRet k' tt /\ wfx [XThr tp] k' /\ currp k' = me /\ guar me k k' /\
    vtlist k' = vtlist k /\ registry k' = registry k ++ [tp] /\ thr k' tp = init_thread p (thr k tp) /\
    t_link (thr k' tp) = None /\ tp <> me.
Proof.
  intros Hu (Hst & Hq & Hm) Hp. destruct (user_current _ _ Hu) as [Hcs _]. pose proof Hu as (W & Hc & Hna).
  pose proof (x_state _ _ W tp ltac:(set_solver)) as Hok. unfold state_ok in Hok. rewrite Hst in Hok.
  assert (Htm : tp <> me) by (intros ->; congruence).
  set (k1 := upd_thr tp (init_thread p) k).
  assert (Htp : thr k1 tp = init_thread p (thr k tp)) by apply thr_upd_eq.
  assert (W1 : wfx [XReg; XThr tp] k1).
  { apply wfx_settle_mtx.
    - apply (mtx_ok_upd_free None tp k); try done; try (rewrite Htp; simpl; done || lia).
      + apply W. set_solver.
      + intros q Hin. apply (x_link _ _ W) in Hin. congruence.
      + intros x Hx. by apply thr_upd_ne.
    - apply wfx_upd_free; [set_solver|set_solver|congruence|done|done|done|done|left; set_solver|exact (user_marks _ _ _ Hu)]. }
  set (k2 := set_registry (registry k1 ++ [tp]) k1).
  assert (W2 : wfx [XThr tp] k2).
  { apply wfx_settle_reg; [|apply wfx_registry; [left; set_solver|done]].
    intros t Ht. apply elem_of_app. destruct (decide (t = tp)) as [->|Htt]; [right; by left|left].
    change (t_state (thr k1 t) <> FINAL) in Ht. unfold k1 in Ht. rewrite thr_upd_ne in Ht by done.
    apply (x_reg _ _ W); [set_solver|done]. }
  set (k3 := set_queue (QMsg tp) [] (set_queue (QExit tp) [] k2)).
  assert (Hqs : forall q, queues k3 q = queues k2 q).
  { intros q. unfold k3. rewrite !queue_set. change (queues k2) with (queues k).
    case_decide as H1; subst; [done|]. case_decide as H2; subst; [|done]. symmetry. by apply W. }
  exists k3. split_and!; try done.
  - eapply wfx_ext; [|exact Hqs|done..]. done.
  - apply (guar_trans me k k2 k3); [|apply guar_same; [done|intros t; apply Hqs|done]].
    intros t Ht. unfold rely. change (queues k2) with (queues k). change (thr k2) with (thr k1).
    split_and!; [done|done|..].
    + intros Hw. left. unfold k1. rewrite thr_upd_ne; [done|]. congruence.
    + unfold k1. rewrite thr_upd. case_decide; subst; [|reflexivity].
      apply mtx_rely_free; [apply not_pending; congruence|done|by rewrite Hm].
  - change (thr k3) with (thr k1). by rewrite Htp.
Qed.

#[export] Instance chThdCreateStatic_service tp p :
  Service (fun _ k => not_alive tp k /\ NOPRIO < p) (chThdCreateStatic tp p).
Proof.
  intros me k Hu [Hn Hp]. destruct (thread_init_ok me tp p k Hu Hn Hp) as (k1 & E1 & W1 & C1 & G1 & V1 & _ & T1 & L1 & N1).
  eapply seg_step; [exact E1|]. eapply wakeup_s_spec; try done.
  - unfold may_wake. rewrite L1, T1, C1. by split_and!.
  - intros k2 k' (W' & C' & G' & A'). unfold post. split_and!; auto. intros Ha. apply A' in Ha. unfold armed in *. by rewrite V1 in Ha.
Qed.

(** ** The tick *)

Lemma vt_fire_ok me fuel k :
  wfx [XVts; XTop] k -> currp k = me -> ~ armed k me -> (length (vtlist k) < fuel)%nat ->
  exists k', vt_fire fuel wakeup k = KRet k' tt /\ wfx [XTop] k' /\ currp k' = me /\ guar me k k' /\
    (forall t, armed k' t -> armed k t).
Proof.
  revert k. induction fuel as [|fuel IH]; intros k W Hc Hna Hf; [lia|]. cbn [vt_fire].
  destruct (vtlist k) as [|p l] eqn:Hv.
  - exists k. split_and!; try done. apply wfx_settle_vts; [by rewrite Hv|done].
  - destruct (x_vts _ _ W) as [Hok Hnd]. rewrite Hv in Hok, Hnd. rewrite fmap_cons in Hnd.
    apply NoDup_cons in Hnd as [Hp Hnd]. pose proof (vts_ok_cons _ _ Hok) as (Hp0 & Hok' & _).
    destruct (Z.eqb_spec (vt_time p) 0) as [H0|H0].
    + set (k1 := set_vts l k).
      assert (Hsub : forall t, armed k1 t -> armed k t).
      { intros t Ht. unfold armed in *. rewrite Hv. by right. }
      assert (W1 : wfx [XVts; XTop] k1).
      { apply wfx_vts; [done|done|set_solver| |done]. intros t Ht. left. by apply Hsub. }
      assert (Hap : armed k (vt_par p)) by (unfold armed; rewrite Hv; by left).
      assert (Hpm : vt_par p <> me) by (intros Heq; by rewrite Heq in Hap).
      destruct (wakeup_ok me (vt_par p) k1) as (k2 & E2 & (W2 & C2 & V2 & G2 & _)); [done|done|done|..].
      { change (thr k1) with (thr k). destruct (x_armed _ _ W _ Hap) as [Hx|[Hx|Hx]]; [set_solver|congruence|done]. }
      assert (Ha2 : forall t, armed k2 t -> armed k t) by (intros t; unfold armed at 1; rewrite V2; apply Hsub).
      destruct (IH k2 W2 C2) as (k' & E' & W' & C' & G' & A'); [auto|rewrite V2; simpl in *; lia|].
      exists k'. split_and!; [|done|done| |auto].
      * rewrite kmod_bind. fold k1. by erewrite kbind_ret by exact E2.
      * etrans; [|etrans; [exact G2|exact G']]. apply guar_vts. intros t _ Ht. apply Hsub. done.
    + exists k. split_and!; try done. apply wfx_settle_vts; [rewrite Hv; simpl; lia|done].
Qed.

Lemma chSysTimerHandlerI_ok me k :
  user me k ->
  exists k', chSysTimerHandlerI k = KRet k' tt /\ wfx [XTop] k' /\ currp k' = me /\ guar me k k' /\
    (forall t, armed k' t -> armed k t).
Proof.
  intros Hu. pose proof Hu as (W & Hc & Hna). destruct (user_current _ _ Hu) as [Hst _].
  set (k1 := if 0 <? r_preempt k then set_preempt (r_preempt k - 1) k else k).
  set (f := fun th => with_time (u32 (t_time th + 1)) th). set (k2 := upd_thr me f k1).
  set (k3 := set_systime (u32 (vt_systime k2 + 1)) k2). set (k4 := set_vts (vt_dec (vtlist k3)) k3).
  assert (Wk1 : wfx [XVts; XTop] k1 /\ thr k1 = thr k /\ vtlist k1 = vtlist k /\ currp k1 = currp k /\ guar me k k1).
  { unfold k1. destruct (0 <? r_preempt k); split_and!; try done; [apply wfx_preempt| |];
      first [exact (user_marks _ _ _ Hu)|by apply guar_same]. }
  destruct Wk1 as (W1 & T1 & V1 & C1 & G1).
  assert (W3 : wfx [XVts; XTop] k3) by (apply wfx_systime, wfx_tame; auto; done).
  destruct (x_vts _ _ W) as [Hok Hnd]. pose proof (x_live _ _ W ltac:(set_solver)) as Hlive.
  assert (V3 : vtlist k3 = vtlist k) by exact V1.
  destruct (vts_ok_dec _ Hok Hlive) as [Hokd Hpar].
  assert (Ha4 : forall t, armed k4 t -> armed k t).
  { intros t. unfold armed, k4. cbn [vtlist set_vts]. by rewrite V3, Hpar. }
  assert (W4 : wfx [XVts; XTop] k4).
  { apply wfx_vts; [by rewrite V3|by rewrite V3, Hpar|set_solver| |done].
    intros t. rewrite V3, Hpar. intros Ht. left. unfold armed. by rewrite V3. }
  destruct (vt_fire_ok me (S (length (vtlist k4))) k4) as (k' & E' & W' & C' & G' & A'); [done|by rewrite <- Hc|auto|lia|].
  exists k'. split_and!; [|done|done| |auto].
  - unfold chSysTimerHandlerI. rewrite kget_bind.
    assert (Hif : (if 0 <? r_preempt k then kmod (set_preempt (r_preempt k - 1)) else mret tt) k = KRet k1 tt).
    { unfold k1. by destruct (0 <? r_preempt k). }
    erewrite kbind_ret by exact Hif. unfold upd. rewrite kmod_bind, Hc. fold f k2. unfold chVTDoTickI.
    rewrite kmod_bind. fold k3. rewrite kmod_bind. fold k4. by rewrite kget_bind.
  - etrans; [exact G1|]. etrans; [apply (guar_upd_me me f)|]. etrans; [|exact G'].
    etrans; [|apply guar_vts]; [by apply (guar_same me k2 k3)|].
    intros t _. rewrite V3, Hpar. unfold armed. by rewrite V3.
Qed.

Lemma int_exit_spec me k k1 :
  wfx [XTop] k1 -> currp k1 = me -> guar me k k1 -> (armed k1 me -> armed k me) ->
  seg me (fun k1 _ k' => post me k k1 k') k (ALT_OS_INT_EXIT k1).
Proof.
  intros W1 C1 G1 A1. unfold ALT_OS_INT_EXIT. apply seg_get. unfold chSchIsPreemptionRequired. rewrite C1.
  assert (Hmono : forall k2 k', post me k1 k2 k' -> post me k k2 k').
  { intros k2 k' (W' & C' & G' & A'). unfold post. split_and!; auto. }
  assert (Hend : firstprio k1 <= prio_of k1 me -> post me k k k1).
  { intros Hf. unfold post. split_and!; auto. apply wfx_settle_top; [|done]. rewrite C1. intros x Hx.
    unfold firstprio in Hf. destruct (queues k1 QReady) as [|t l] eqn:Hq; [by apply elem_of_nil in Hx|].
    apply elem_of_cons in Hx as [->|Hx]; [done|]. pose proof (head_top _ _ _ _ W1 Hq x Hx). lia. }
  destruct (negb (r_preempt k1 =? 0)).
  - destruct (Z.ltb_spec (prio_of k1 me) (firstprio k1)).
    + apply do_resched_spec; auto; lia.
    + apply seg_ret, Hend. lia.
  - destruct (Z.leb_spec (prio_of k1 me) (firstprio k1)).
    + apply do_resched_spec; auto.
    + apply seg_ret, Hend. lia.
Qed.

#[export] Instance port_time_tick_service : Service (fun _ _ => True) port_time_tick.
Proof.
  intros me k Hu _. destruct (chSysTimerHandlerI_ok me k Hu) as (k1 & E1 & W1 & C1 & G1 & A1).
  eapply seg_step; [exact E1|]. apply int_exit_spec; auto.
Qed.

(** ** The start *)

(** Memory before the start: no live thread, empty queues. *)
Definition no_thread : Thread := mkThread 0 0 FINAL (URdy 0) None 0 0 0 0 0 [].

Definition blank : kernel :=
  mkKernel (fun _ => no_thread) (fun _ => []) mainthread 0 (fun _ => 0) (fun _ => None) [] 0 []
    (fun _ => []) (fun _ => mkMailbox [] 0 0 0 0) (fun _ => mkQueue 0 [] 0 0).

Definition main_thread : Thread := mkThread NORMALPRIO NORMALPRIO CURRENT (URdy 0) None 0 1 0 0 0 [].
Definition idle_thread : Thread := mkThread IDLEPRIO IDLEPRIO READY (URdy RDY_OK) (Some QReady) 0 1 0 0 0 [].

(** The state [chSysInit] leaves. *)
Record booted (k : kernel) : Prop := {
  bt_thr t : thr k t = if decide (t = mainthread) then main_thread
                       else if decide (t = idle) then idle_thread else no_thread;
  bt_queues q : queues k q = if decide (q = QReady) then [idle] else [];
  bt_currp : currp k = mainthread;
  bt_cnt s : s_cnt k s = 0;
  bt_owner m : m_owner k m = None;
  bt_vts : vtlist k = [];
  bt_registry : registry k = [mainthread; idle];
  bt_ioq q : ioq k q = mkQueue 0 [] 0 0
}.

Lemma booted_wf k : booted k -> user mainthread k.
Proof.
  intros [Ht Hq Hc Hs Ho Hv Hreg Hio].
  assert (Hcases : forall t, (t = mainthread /\ thr k t = main_thread) \/ (t = idle /\ thr k t = idle_thread) \/
    (t <> mainthread /\ t <> idle /\ thr k t = no_thread)).
  { intros t. specialize (Ht t). repeat case_decide; auto. }
  assert (Hm : thr k mainthread = main_thread) by (by rewrite Ht, decide_True).
  assert (Hi : thr k idle = idle_thread) by (by rewrite Ht).
  unfold user, armed. rewrite Hv. split_and!; [|done|by apply not_elem_of_nil]. constructor.
  - intros t q. rewrite Hq. case_decide; subst; destruct (Hcases t) as [[-> ->]|[[-> ->]|(? & ? & ->)]]; set_solver.
  - intros q. rewrite Hq. case_decide; [apply NoDup_singleton|constructor].
  - intros t _. unfold state_ok. destruct (Hcases t) as [[-> ->]|[[-> ->]|(? & ? & ->)]]; done.
  - intros _. by rewrite Hc, Hm.
  - rewrite Hq, decide_True by done. repeat constructor.
  - intros t. unfold prio_of. destruct (Hcases t) as [[-> ->]|[[-> ->]|(? & ? & ->)]]; done.
  - intros _. rewrite Hi. by left.
  - intros t _. by rewrite Hq.
  - rewrite Hv. split; [split; [done|simpl; lia]|constructor].
  - by rewrite Hv.
  - intros t. unfold armed. rewrite Hv. by intros ?%elem_of_nil.
  - intros s _. unfold sem_ok. rewrite Hq, Hs. unfold zlen. simpl. lia.
  - intros _ t. rewrite Hq, Hc, decide_True by done. unfold prio_of. rewrite Hm. intros ->%list_elem_of_singleton.
    by rewrite Hi.
  - intros _. constructor.
    + intros m t. rewrite Ho. destruct (Hcases t) as [[-> ->]|[[-> ->]|(? & ? & ->)]]; set_solver.
    + intros t. destruct (Hcases t) as [[-> ->]|[[-> ->]|(? & ? & ->)]]; constructor.
    + intros m _. by rewrite Hq.
    + intros m. rewrite Hq. constructor.
    + intros c. rewrite Hq. constructor.
    + intros t. destruct (Hcases t) as [[-> ->]|[[-> ->]|(? & ? & ->)]]; done.
    + intros t. unfold prio_of. destruct (Hcases t) as [[-> ->]|[[-> ->]|(? & ? & ->)]]; done.
    + intros t _. left. unfold prio_of. destruct (Hcases t) as [[-> ->]|[[-> ->]|(? & ? & ->)]]; done.
  - intros _ t Ha. rewrite Hreg. destruct (Hcases t) as [[-> _]|[[-> _]|(? & ? & Hn)]]; [set_solver..|].
    by rewrite Hn in Ha.
  - intros q. rewrite Hio. unfold ioq_ok, q_used, zlen. destruct q; simpl; lia.
Qed.

(** The state, step by step. *)
Definition thread_inited (tp p : Z) (k : kernel) : kernel :=
  set_queue (QMsg tp) [] (set_queue (QExit tp) []
    (set_registry (registry k ++ [tp]) (upd_thr tp (init_thread p) k))).

Definition boot_main : kernel :=
  let k := set_registry [] (set_preempt CH_TIME_QUANTUM (set_queue QReady [] blank)) in
  let k := set_systime 0 (set_vts [] k) in
  upd_thr mainthread (with_state CURRENT) (set_currp mainthread (thread_inited mainthread NORMALPRIO k)).

Definition boot_kernel : kernel :=
  ready idle (upd_thr idle (with_u (URdy RDY_OK)) (thread_inited idle IDLEPRIO boot_main)).

Ltac boot_simpl :=
  repeat first
    [rewrite queues_ready|rewrite thr_ready|rewrite thr_upd|rewrite queues_upd|rewrite queue_set|rewrite thr_set_queue
    |progress change (thr (set_registry ?l ?k)) with (thr k)|progress change (thr (set_currp ?l ?k)) with (thr k)
    |progress change (thr (set_systime ?l ?k)) with (thr k)|progress change (thr (set_vts ?l ?k)) with (thr k)
    |progress change (thr (set_preempt ?l ?k)) with (thr k)
    |progress change (queues (set_registry ?l ?k)) with (queues k)|progress change (queues (set_currp ?l ?k)) with (queues k)
    |progress change (queues (set_systime ?l ?k)) with (queues k)|progress change (queues (set_vts ?l ?k)) with (queues k)
    |progress change (queues (set_preempt ?l ?k)) with (queues k)].

Lemma boot_kernel_booted : booted boot_kernel.
Proof.
  constructor; try done; unfold boot_kernel, boot_main, thread_inited; cbv zeta.
  - intros t. boot_simpl. repeat case_decide; subst; done.
  - intros q. boot_simpl. repeat case_decide; subst; done.
Qed.

Lemma thread_init_eq tp p k : _thread_init tp p k = KRet (thread_inited tp p k) tt.
Proof. done. Qed.

Lemma chSysInit_boots : chSysInit blank = KRet boot_kernel tt.
Proof.
  unfold chSysInit, _scheduler_init, _vt_init, upd. rewrite !kmod_bind.
  erewrite kbind_ret by apply thread_init_eq. rewrite !kmod_bind. fold boot_main.
  unfold chThdCreateStatic, chThdCreateI. erewrite kbind_ret by apply thread_init_eq.
  unfold chSchWakeupS, upd. rewrite kmod_bind, kget_bind.
  assert (Hp : forall t, prio_of (upd_thr idle (with_u (URdy RDY_OK)) (thread_inited idle IDLEPRIO boot_main)) t
                         = prio_of boot_kernel t) by (intros t; unfold boot_kernel; by rewrite prio_ready).
  assert (Hi : prio_of boot_kernel idle = IDLEPRIO /\ prio_of boot_kernel mainthread = NORMALPRIO).
  { unfold prio_of. rewrite !(bt_thr _ boot_kernel_booted). done. }
  change (currp (upd_thr idle (with_u (URdy RDY_OK)) (thread_inited idle IDLEPRIO boot_main))) with mainthread.
  rewrite !Hp, (proj1 Hi), (proj2 Hi). change (IDLEPRIO <=? NORMALPRIO) with true. cbn match. rewrite chSchReadyI_eq; [done|]. by rewrite Hp, (proj1 Hi).
Qed.
