(* ===== verification/ChMsg.v ===== *)
(** * Synchronous messages: kernel/src/chmsg.c, include/chmsg.h

    A sender queues up at the receiver's thread and sleeps until the receiver
    has taken its message and answered.  In the configuration without priority
    queues. *)

From S2P Require Import Prelude ChLists Kernel ChVt ChSchd ChInv ChSeg ChSem ChThreads.

Definition msg_insert (t tp : Z) : K unit := k_queue_insert t (QMsg tp).

Definition chMsgIsPendingI (tp : Z) (k : kernel) : bool := k_notempty (QMsg tp) k.

Definition chMsgGet (tp : Z) : K Z := k ← kget; mret (t_msg (thr k tp)).

Definition chMsgSend (tp msg : Z) : K Z :=
  k ← kget;
  let ctp := currp k in
  upd ctp (with_msg msg);;
  upd ctp (with_u (UObj (QMsg tp)));;
  msg_insert ctp tp;;
  k ← kget;
  (if bool_decide (t_state (thr k tp) = WTMSG) then chSchReadyI tp else mret tt);;
  chSchGoSleepS SNDMSGQ;;
  k ← kget;
  mret (u_msg (t_u (thr k ctp))).

Definition chMsgWait : K Z :=
  k ← kget;
  (if negb (chMsgIsPendingI (currp k) k) then chSchGoSleepS WTMSG else mret tt);;
  k ← kget;
  tp ← k_fifo_remove (QMsg (currp k));
  upd tp (with_state SNDMSG);;
  mret tp.

Definition chMsgReleaseS (tp msg : Z) : K unit := chSchWakeupS tp msg.

Definition chMsgRelease (tp msg : Z) : K unit := chMsgReleaseS tp msg.

(** ** Services *)

#[export] Instance chMsgRelease_service tp msg :
  Service (fun _ k => t_state (thr k tp) = SNDMSG) (chMsgRelease tp msg).
Proof.
  intros me k Hu Hs. pose proof Hu as (W & Hc & Hna). destruct (user_current _ _ Hu) as [Hst _].
  pose proof (x_state _ _ W tp ltac:(set_solver)) as Hok. unfold state_ok in Hok. rewrite Hs in Hok.
  eapply wakeup_s_spec; try done; [exact (user_marks _ _ _ Hu)|].
  unfold may_wake. rewrite Hs, Hc. split_and!; [done|done| |done|apply not_pending; by rewrite Hs].
  intros ->. congruence.
Qed.

(** Queued at [tp], which is woken if it waits for a message. *)
Lemma msg_enqueue me tp msg k :
  user me k ->
  let k1 := upd_thr me (with_u (UObj (QMsg tp))) (upd_thr me (with_msg msg) k) in
  let k2 := enq me (QMsg tp) (queues k (QMsg tp) ++ [me]) k1 in
  let k3 := if bool_decide (t_state (thr k2 tp) = WTMSG) then ready tp k2 else k2 in
  (if bool_decide (t_state (thr k2 tp) = WTMSG) then chSchReadyI tp else mret tt) k2 = KRet k3 tt /\
  wfx [XThr me; XTop] k3 /\ currp k3 = me /\ guar me k k3 /\ vtlist k3 = vtlist k /\
  t_state (thr k3 me) = CURRENT /\ may_sleep SNDMSGQ me k3.
Proof.
  intros Hu k1 k2 k3. pose proof Hu as (W & Hc & Hna). destruct (user_current _ _ Hu) as [Hst Hl].
  assert (H1 : thr k1 me = with_u (UObj (QMsg tp)) (with_msg msg (thr k me))) by (unfold k1; by rewrite !thr_upd_eq).
  assert (H2 : thr k2 me = with_link (Some (QMsg tp)) (thr k1 me)) by (unfold k2; by rewrite thr_enq, decide_True).
  assert (W2 : wfx [XThr me; XTop] k2).
  { apply wfx_enq; [set_solver|by rewrite H1|by rewrite Permutation_app_comm|done|done..|].
    apply wfx_upd; [set_solver|done|by rewrite thr_upd_eq|rewrite thr_upd_eq; simpl; by rewrite Hst|].
    apply wfx_upd; [set_solver|done|done|simpl; by rewrite Hst|exact (user_marks _ _ _ Hu)]. }
  assert (G2 : guar me k k2).
  { etrans; [apply (guar_upd_me me (with_msg msg))|]. etrans; [apply (guar_upd_me me (with_u (UObj (QMsg tp))))|].
    apply guar_enq. left. by destruct (queues k (QMsg tp)). }
  assert (Hsl : forall k', thr k' me = thr k2 me -> vtlist k' = vtlist k -> may_sleep SNDMSGQ me k').
  { intros k' Ht Hv. unfold may_sleep, armed. rewrite Hv. split_and!; try done.
    unfold state_ok. rewrite thr_upd_eq, Ht, H2, H1. simpl. by exists tp. }
  unfold k3. case_bool_decide as Hw.
  - assert (Htm : tp <> me) by (intros ->; rewrite H2, H1 in Hw; simpl in Hw; congruence).
    assert (Hlt : t_link (thr k2 tp) = None).
    { pose proof (x_state _ _ W2 tp ltac:(set_solver)) as Hok. unfold state_ok in Hok. by rewrite Hw in Hok. }
    assert (Hme : thr (ready tp k2) me = thr k2 me) by (by rewrite thr_ready, decide_False).
    split_and!; [|..|by apply Hsl]; try done.
    + apply chSchReadyI_eq, W2. by rewrite Hw.
    + apply wfx_ready; [done|by rewrite Hw|by change (currp k2) with (currp k); rewrite Hc|left; set_solver|].
      eapply wfx_mono; [|exact W2]. set_solver.
    + etrans; [exact G2|]. apply guar_ready; [|apply not_pending; by rewrite Hw].
      intros _. unfold k2. rewrite queues_enq, decide_True by done. by destruct (queues k (QMsg tp)).
    + by rewrite Hme, H2, H1.
  - split_and!; try done; [by rewrite H2, H1|by apply Hsl].
Qed.

#[export] Instance chMsgSend_service tp msg : Service (fun me _ => me <> idle) (chMsgSend tp msg).
Proof.
  intros me k Hu Hi. pose proof (msg_enqueue me tp msg k Hu) as (E3 & W3 & C3 & G3 & V3 & S3 & M3).
  pose proof Hu as (W & Hc & Hna). unfold chMsgSend. apply seg_get. rewrite Hc. cbv zeta.
  apply seg_upd, seg_upd, seg_mod, seg_get. eapply seg_step; [exact E3|]. apply seg_bind.
  eapply go_sleep_spec; try done. intros k' W' Hc' Ha' _. apply seg_get, seg_ret, post_resumed; [done..|].
  unfold armed in *. by rewrite V3 in Ha'.
Qed.

(** The receiver takes the oldest message: its sender waits for the answer. *)
Definition msg_taken (me tp : Z) (k k' : kernel) : Prop :=
  head (queues k (QMsg me)) = Some tp /\ queues k' (QMsg me) = tail (queues k (QMsg me)) /\
  t_state (thr k' tp) = SNDMSG /\ t_msg (thr k' tp) = t_msg (thr k tp).

Lemma msg_take me k :
  user me k -> queues k (QMsg me) <> [] ->
  exists tp k', (tp ← k_fifo_remove (QMsg me); upd tp (with_state SNDMSG);; mret tp) k = KRet k' tp /\
    post me k k k' /\ msg_taken me tp k k'.
Proof.
  intros (W & Hc & Hna) Hq. destruct (queues k (QMsg me)) as [|tp l] eqn:Hql; [done|].
  assert (Hl : t_link (thr k tp) = Some (QMsg me)) by (apply (x_link _ _ W); rewrite Hql; by left).
  assert (Hs : t_state (thr k tp) = SNDMSGQ).
  { pose proof (x_state _ _ W tp ltac:(set_solver)) as Hok. unfold state_ok in Hok.
    destruct (t_state (thr k tp)); try congruence; naive_solver congruence. }
  destruct (linked_state [] tp (QMsg me) k W ltac:(set_solver) Hl) as (Hf & Hw & Hne).
  set (k1 := deq tp (QMsg me) l k). set (k2 := upd_thr tp (with_state SNDMSG) k1).
  assert (H1 : thr k1 tp = with_link None (thr k tp)) by (unfold k1; by rewrite thr_deq, decide_True).
  assert (H2 : thr k2 tp = with_state SNDMSG (with_link None (thr k tp))) by (unfold k2; by rewrite thr_upd_eq, H1).
  exists tp, k2. split_and!.
  - erewrite kbind_ret; [|unfold k_fifo_remove; by rewrite Hql]. done.
  - unfold post. split_and!; [|done| |done].
    + apply (wfx_settle _ tp); [unfold state_ok; by rewrite H2|by intros|intros ->|..].
      * destruct (x_idle _ _ W ltac:(set_solver)); congruence.
      * intros Ha. change (armed k2 tp) with (armed k tp) in Ha.
        destruct (x_armed _ _ W tp Ha) as [Hx|[Hx|Hx]]; [set_solver|done|]. by rewrite Hs in Hx.
      * apply wfx_upd; [set_solver|done|by rewrite H1|done|].
        apply wfx_deq; [by rewrite Hql|rewrite Hql; by constructor|done|done].
    + intros t Ht. unfold rely, k2, k1. rewrite queues_upd, queues_deq, decide_False by congruence.
      split_and!; [done|done|..].
      * intros Hwt. left. rewrite thr_upd_ne, thr_deq, decide_False by congruence. done.
      * rewrite thr_upd, !thr_deq. rewrite (decide_True (P := tp = tp)) by done. repeat case_decide; subst; [|reflexivity].
        apply mtx_rely_free; [apply not_pending; congruence|done|done].
  - unfold msg_taken. rewrite Hql, H2. split_and!; try done. unfold k2, k1.
    by rewrite queues_upd, queues_deq, decide_True.
Qed.

(** Whenever [chMsgWait] returns, at once or after a sleep, it has taken the
    first of the senders queued in a state of its last segment. *)
Lemma chMsgWait_seg me k :
  user me k -> me <> idle ->
  seg me (fun k1 tp k' => post me k k1 k' /\ exists k0, user me k0 /\ msg_taken me tp k0 k') k (chMsgWait k).
Proof.
  intros Hu Hi. pose proof Hu as (W & Hc & Hna). destruct (user_current _ _ Hu) as [Hst Hl].
  assert (Htake : forall k1, (post me k k1 k1) -> queues k1 (QMsg me) <> [] ->
    seg me (fun k1 tp k' => post me k k1 k' /\ exists k0, user me k0 /\ msg_taken me tp k0 k') k1
      ((k ← kget; tp ← k_fifo_remove (QMsg (currp k)); upd tp (with_state SNDMSG);; mret tp) k1)).
  { intros k1 Hp Hq. assert (Hu1 : user me k1) by (by eapply post_user).
    destruct (msg_take me k1 Hu1 Hq) as (tp & k' & E' & Hp' & Ht). apply seg_get.
    rewrite (proj1 (proj2 Hu1)). eapply seg_done; [exact E'|]. split; [|by exists k1].
    destruct Hp as (_ & _ & _ & Ha). destruct Hp' as (W' & C' & G' & A'). unfold post. split_and!; auto. }
  unfold chMsgWait. apply seg_get, seg_bind. rewrite Hc. unfold chMsgIsPendingI, k_notempty.
  case_bool_decide as Hq; simpl.
  - eapply go_sleep_spec; try done; [exact (user_marks _ _ _ Hu)|by apply user_may_sleep|].
    intros k' W' Hc' Ha' Hm'. apply Htake; [by apply post_resumed|by apply Hm'].
  - apply Htake; [by apply post_start|done].
Qed.

#[export] Instance chMsgWait_service : Service (fun me _ => me <> idle) chMsgWait.
Proof. intros me k Hu Hi. eapply seg_mono; [|by apply chMsgWait_seg]. by intros k1 a k' [Hp _]. Qed.
