(* ===== verification/ChEvents.v ===== *)
(** * Events: kernel/src/chevents.c, include/chevents.h

    Event sources with their listeners, the pending flags of threads, and the
    waits for one, any or all of a set of flags. *)

From S2P Require Import Prelude ChLists Kernel ChVt ChSchd ChInv ChSeg ChSem ChThreads.

(** ** Sources and listeners *)

Definition chEvtInit (esp : Z) : K unit := kmod (set_listeners esp []).

Definition chEvtIsListeningI (esp : Z) (k : kernel) : bool := negb (bool_decide (es_next k esp = [])).

Definition chEvtRegisterMask (esp elp mask : Z) : K unit := kmod (fun k =>
  set_listeners esp (Listener elp (currp k) mask :: es_next k esp) k).

Definition EVENT_MASK (eid : Z) : Z := u32 (Z.shiftl 1 eid).

Definition chEvtRegister (esp elp eid : Z) : K unit := chEvtRegisterMask esp elp (EVENT_MASK eid).

(** The loop unlinks the first listener found. *)
Fixpoint evt_unlink (elp : Z) (l : list EventListener) : list EventListener :=
  match l with
  | [] => []
  | e :: l => if el_id e =? elp then l else e :: evt_unlink elp l
  end.

Definition chEvtUnregister (esp elp : Z) : K unit := kmod (fun k =>
  set_listeners esp (evt_unlink elp (es_next k esp)) k).

(** ** Pending flags *)

Definition evt_clear (mask : Z) (th : Thread) : Thread := with_epending (Z.ldiff (t_epending th) mask) th.
Definition evt_add (mask : Z) (th : Thread) : Thread := with_epending (Z.lor (t_epending th) mask) th.

Definition chEvtClearFlags (mask : Z) : K Z :=
  k ← kget;
  let m := Z.land (t_epending (thr k (currp k))) mask in
  upd (currp k) (evt_clear mask);;
  mret m.

Definition chEvtAddFlags (mask : Z) : K Z :=
  k ← kget;
  upd (currp k) (evt_add mask);;
  mret (Z.lor (t_epending (thr k (currp k))) mask).

(** The thread waits for flags that are there now. *)
Definition evt_satisfied (th : Thread) : bool :=
  let ewmask := u_msg (t_u th) in
  match t_state th with
  | WTOREVT => negb (Z.land (t_epending th) ewmask =? 0)
  | WTANDEVT => Z.land (t_epending th) ewmask =? ewmask
  | _ => false
  end.

Definition chEvtSignalFlagsI (tp mask : Z) : K unit :=
  upd tp (evt_add mask);;
  k ← kget;
  if evt_satisfied (thr k tp) then chSchReadyI tp;; upd tp (with_u (URdy RDY_OK)) else mret tt.

Definition chEvtSignalFlags (tp mask : Z) : K unit := chEvtSignalFlagsI tp mask;; chSchRescheduleS.

Fixpoint evt_signal_all (l : list EventListener) (mask : Z) : K unit :=
  match l with
  | [] => mret tt
  | e :: l => chEvtSignalFlagsI (el_listener e) (Z.lor (el_mask e) mask);; evt_signal_all l mask
  end.

Definition chEvtBroadcastFlagsI (esp mask : Z) : K unit := k ← kget; evt_signal_all (es_next k esp) mask.

Definition chEvtBroadcastFlags (esp mask : Z) : K unit := chEvtBroadcastFlagsI esp mask;; chSchRescheduleS.

Definition chEvtBroadcast (esp : Z) : K unit := chEvtBroadcastFlags esp 0.

(** ** Dispatching *)

(** The handlers called, in order; within a number of turns. *)
Fixpoint evt_dispatch (fuel : nat) (eid mask : Z) : option (list Z) :=
  if mask =? 0 then Some [] else
  match fuel with
  | O => None
  | S fuel =>
      if negb (Z.land mask (EVENT_MASK eid) =? 0)
      then l ← evt_dispatch fuel (eid + 1) (Z.ldiff mask (EVENT_MASK eid)); Some (eid :: l)
      else evt_dispatch fuel (eid + 1) mask
  end.

Definition chEvtDispatch (mask : Z) : option (list Z) := evt_dispatch 32 0 mask.

(** ** Waiting *)

(** [m & -m], the lowest flag. *)
Definition lowest (m : Z) : Z := Z.land m (u32 (- m)).

(** The pending flags of [mask], after waiting for one if there is none; [sel]
    is the part of them that is served. *)
Definition evt_wait (sel : Z -> Z) (mask : Z) : K Z :=
  k ← kget;
  let ctp := currp k in
  let m := Z.land (t_epending (thr k ctp)) mask in
  m ← (if m =? 0 then
         upd ctp (with_u (UMask mask));;
         chSchGoSleepS WTOREVT;;
         k ← kget;
         mret (Z.land (t_epending (thr k ctp)) mask)
       else mret m);
  upd ctp (evt_clear (sel m));;
  mret (sel m).

Definition chEvtWaitOne (mask : Z) : K Z := evt_wait lowest mask.
Definition chEvtWaitAny (mask : Z) : K Z := evt_wait (fun m => m) mask.

Definition chEvtWaitAll (mask : Z) : K Z :=
  k ← kget;
  let ctp := currp k in
  (if negb (Z.land (t_epending (thr k ctp)) mask =? mask) then
     upd ctp (with_u (UMask mask));; chSchGoSleepS WTANDEVT
   else mret tt);;
  upd ctp (evt_clear mask);;
  mret mask.

Definition evt_wait_timeout (sel : Z -> Z) (mask time : Z) : K Z :=
  k ← kget;
  let ctp := currp k in
  let m := Z.land (t_epending (thr k ctp)) mask in
  if m =? 0 then
    if TIME_IMMEDIATE =? time then mret 0
    else
      upd ctp (with_u (UMask mask));;
      msg ← chSchGoSleepTimeoutS WTOREVT time;
      if msg <? RDY_OK then mret 0
      else
        k ← kget;
        let m := Z.land (t_epending (thr k ctp)) mask in
        upd ctp (evt_clear (sel m));;
        mret (sel m)
  else
    upd ctp (evt_clear (sel m));;
    mret (sel m).

Definition chEvtWaitOneTimeout (mask time : Z) : K Z := evt_wait_timeout lowest mask time.
Definition chEvtWaitAnyTimeout (mask time : Z) : K Z := evt_wait_timeout (fun m => m) mask time.

Definition chEvtWaitAllTimeout (mask time : Z) : K Z :=
  k ← kget;
  let ctp := currp k in
  if negb (Z.land (t_epending (thr k ctp)) mask =? mask) then
    if TIME_IMMEDIATE =? time then mret 0
    else
      upd ctp (with_u (UMask mask));;
      msg ← chSchGoSleepTimeoutS WTANDEVT time;
      if msg <? RDY_OK then mret 0
      else upd ctp (evt_clear mask);; mret mask
  else upd ctp (evt_clear mask);; mret mask.

(** ** Signalling *)

Lemma tame_evt_add mask : tame (evt_add mask). Proof. done. Qed.
Lemma tame_evt_clear mask : tame (evt_clear mask). Proof. done. Qed.

(** What one signal does: the flags become pending; a thread whose wait they
    end is ready with [RDY_OK]; no other thread is touched. *)
Definition evt_signalled (tp mask : Z) (k k' : kernel) : Prop :=
  let th := evt_add mask (thr k tp) in
  t_epending (thr k' tp) = Z.lor (t_epending (thr k tp)) mask /\
  (evt_satisfied th = true -> t_state (thr k' tp) = READY /\ t_u (thr k' tp) = URdy RDY_OK) /\
  (evt_satisfied th = false -> thr k' tp = th) /\
  (forall x, x <> tp -> thr k' x = thr k x).

Lemma evt_signal_ok me tp mask k :
  wfx [XTop] k -> currp k = me ->
  exists k', chEvtSignalFlagsI tp mask k = KRet k' tt /\ quiet me [XTop] k k' /\ evt_signalled tp mask k k' /\
    es_next k' = es_next k.
Proof.
  intros W Hc. set (k1 := upd_thr tp (evt_add mask) k).
  assert (W1 : wfx [XTop] k1) by (apply wfx_tame; auto; done).
  assert (G1 : guar me k k1) by (by apply guar_tame).
  assert (H1 : thr k1 tp = evt_add mask (thr k tp)) by apply thr_upd_eq.
  unfold chEvtSignalFlagsI, upd. rewrite kmod_bind, kget_bind. fold k1. rewrite H1.
  unfold evt_signalled. destruct (evt_satisfied (evt_add mask (thr k tp))) eqn:Hs.
  - assert (Hst : t_state (thr k1 tp) = WTOREVT \/ t_state (thr k1 tp) = WTANDEVT).
    { rewrite H1. unfold evt_satisfied in Hs. destruct (t_state _) eqn:He in Hs; try done; auto. }
    assert (Hl : t_link (thr k1 tp) = None).
    { pose proof (x_state _ _ W1 tp ltac:(set_solver)) as Hok. unfold state_ok in Hok. by destruct Hst as [Hx|Hx]; rewrite Hx in Hok. }
    assert (Htm : tp <> currp k1).
    { intros Heq. pose proof (x_curr _ _ W1 ltac:(set_solver)) as Hcur. rewrite <- Heq in Hcur. destruct Hst; congruence. }
    set (k2 := ready tp k1).
    assert (W2 : wfx [XTop] k2).
    { apply wfx_ready; [done|by destruct Hst as [->| ->]|done|left; set_solver|].
      eapply wfx_mono; [|exact W1]. set_solver. }
    exists (upd_thr tp (with_u (URdy RDY_OK)) k2). split_and!; [| | | |done|..].
    + erewrite kbind_ret; [done|]. apply chSchReadyI_eq, W1. by destruct Hst as [->| ->].
    + unfold quiet. split_and!; [|done|done|].
      * apply wfx_set_msg; [set_solver|unfold k2; by rewrite thr_ready, decide_True|done].
      * etrans; [exact G1|]. etrans.
        -- apply (guar_ready me tp); [by destruct Hst as [->| ->]|apply not_pending; by destruct Hst as [->| ->]].
        -- apply guar_set_msg, not_pending. unfold k2. by rewrite thr_ready, decide_True.
    + rewrite thr_upd_eq. unfold k2. by rewrite thr_ready, decide_True, H1.
    + intros _. rewrite thr_upd_eq. unfold k2. by rewrite thr_ready, decide_True.
    + intros x Hx. unfold k2, k1. by rewrite thr_upd_ne, thr_ready, decide_False, thr_upd_ne.
    + done.
  - exists k1. unfold quiet. split_and!; try done; [by rewrite H1|]. intros x Hx. by apply thr_upd_ne.
Qed.

Lemma evt_signal_all_ok me l mask k :
  wfx [XTop] k -> currp k = me ->
  exists k', evt_signal_all l mask k = KRet k' tt /\ quiet me [XTop] k k' /\ es_next k' = es_next k.
Proof.
  revert k. induction l as [|e l IH]; intros k W Hc; cbn [evt_signal_all].
  - exists k. unfold quiet. by split_and!.
  - destruct (evt_signal_ok me (el_listener e) (Z.lor (el_mask e) mask) k W Hc) as
      (k1 & E1 & (W1 & C1 & V1 & G1) & _ & L1).
    destruct (IH k1 W1 C1) as (k2 & E2 & (W2 & C2 & V2 & G2) & L2).
    exists k2. erewrite kbind_ret by exact E1. unfold quiet. split_and!; [done|done|done|congruence|by etrans|congruence].
Qed.

Lemma quiet_resched me k k1 :
  user me k -> quiet me [XTop] k k1 ->
  seg me (fun k1 _ k' => post me k k1 k') k (chSchRescheduleS k1).
Proof.
  intros Hu (W1 & C1 & V1 & G1). eapply resched_spec; [done..|].
  intros k2 k' (W' & Hc' & Hg' & Ha'). unfold post. split_and!; auto.
  intros Ha. apply Ha' in Ha. unfold armed in *. by rewrite V1 in Ha.
Qed.

#[export] Instance chEvtSignalFlags_service tp mask : Service (fun _ _ => True) (chEvtSignalFlags tp mask).
Proof.
  intros me k Hu _. destruct (evt_signal_ok me tp mask k) as (k1 & E1 & Q1 & _);
    [exact (user_marks _ _ _ Hu)|apply Hu|]. eapply seg_step; [exact E1|]. by apply quiet_resched.
Qed.

#[export] Instance chEvtBroadcastFlags_service esp mask :
  Service (fun _ _ => True) (chEvtBroadcastFlags esp mask).
Proof.
  intros me k Hu _. destruct (evt_signal_all_ok me (es_next k esp) mask k) as (k1 & E1 & Q1 & _);
    [exact (user_marks _ _ _ Hu)|apply Hu|]. eapply (seg_step me (chEvtBroadcastFlagsI esp mask)); [exact E1|].
  by apply quiet_resched.
Qed.

(** ** Own flags and sources *)

Lemma listeners_post me k e l : user me k -> post me k k (set_listeners e l k).
Proof.
  intros (W & Hc & Hna). unfold post. split_and!; [|done|by apply guar_same|done].
  by apply (wfx_ext [] k).
Qed.

#[export] Instance chEvtRegisterMask_service esp elp mask : Service (fun _ _ => True) (chEvtRegisterMask esp elp mask).
Proof. intros me k Hu _. eapply seg_done; [done|]. by apply listeners_post. Qed.

#[export] Instance chEvtUnregister_service esp elp : Service (fun _ _ => True) (chEvtUnregister esp elp).
Proof. intros me k Hu _. eapply seg_done; [done|]. by apply listeners_post. Qed.

#[export] Instance chEvtClearFlags_service mask : Service (fun _ _ => True) (chEvtClearFlags mask).
Proof. intros me k Hu _. apply seg_get, seg_upd, seg_ret, tame_post; [by apply post_start|done..]. Qed.

#[export] Instance chEvtAddFlags_service mask : Service (fun _ _ => True) (chEvtAddFlags mask).
Proof. intros me k Hu _. apply seg_get, seg_upd, seg_ret, tame_post; [by apply post_start|done..]. Qed.

(** ** Waiting *)

Lemma post_tame me k k1 k' t f :
  post me k k1 k' -> tame f -> (forall th, t_state (f th) = t_state th) -> (forall th, t_u (f th) = t_u th) ->
  post me k k1 (upd_thr t f k').
Proof.
  intros (W & Hc & Hg & Ha) Hf Hs Hu. unfold post. split_and!; [apply wfx_tame; auto|done| |done].
  etrans; [done|]. by apply guar_tame.
Qed.

(** The wait flags are written, and the thread may sleep. *)
Lemma evt_mask_ok me mask s k :
  user me k -> s = WTOREVT \/ s = WTANDEVT ->
  let k1 := upd_thr me (with_u (UMask mask)) k in
  wfx [XThr me; XTop] k1 /\ guar me k k1 /\ t_state (thr k1 me) = CURRENT /\ may_sleep s me k1.
Proof.
  intros Hu Hs k1. destruct (user_current _ _ Hu) as [Hst Hl]. pose proof Hu as (W & Hc & Hna).
  assert (H1 : thr k1 me = with_u (UMask mask) (thr k me)) by apply thr_upd_eq.
  split_and!; [|apply guar_upd_me|by rewrite H1|].
  - apply wfx_upd; [set_solver|done|done|simpl; by rewrite Hst|exact (user_marks _ _ _ Hu)].
  - unfold may_sleep. split_and!; try (by destruct Hs as [->| ->]).
    unfold state_ok. rewrite thr_upd_eq, H1. simpl. by destruct Hs as [->| ->].
Qed.

Lemma evt_wait_seg sel mask me k :
  user me k -> me <> idle -> seg me (fun k1 _ k' => post me k k1 k') k (evt_wait sel mask k).
Proof.
  intros Hu Hi. destruct (evt_mask_ok me mask WTOREVT k Hu) as (W1 & G1 & S1 & M1); [by left|].
  pose proof Hu as (W & Hc & Hna). unfold evt_wait. apply seg_get. rewrite Hc. cbv zeta. apply seg_bind.
  assert (Hend : forall k1 k' m, post me k k1 k' -> seg me (fun k1 _ k' => post me k k1 k') k1
     ((upd me (evt_clear (sel m));; mret (sel m)) k')).
  { intros k1 k' m Hp. apply seg_upd, seg_ret. by apply post_tame. }
  destruct (_ =? 0).
  - apply seg_upd, seg_bind. eapply go_sleep_spec; try done.
    intros k' W' Hc' Ha' _. apply seg_get, seg_ret, Hend. by apply post_resumed.
  - apply seg_ret, Hend. by apply post_start.
Qed.

#[export] Instance chEvtWaitOne_service mask : Service (fun me _ => me <> idle) (chEvtWaitOne mask).
Proof. intros me k Hu Hi. by apply evt_wait_seg. Qed.

#[export] Instance chEvtWaitAny_service mask : Service (fun me _ => me <> idle) (chEvtWaitAny mask).
Proof. intros me k Hu Hi. by apply evt_wait_seg. Qed.

#[export] Instance chEvtWaitAll_service mask : Service (fun me _ => me <> idle) (chEvtWaitAll mask).
Proof.
  intros me k Hu Hi. destruct (evt_mask_ok me mask WTANDEVT k Hu) as (W1 & G1 & S1 & M1); [by right|].
  pose proof Hu as (W & Hc & Hna). unfold chEvtWaitAll. apply seg_get. rewrite Hc. cbv zeta. apply seg_bind.
  destruct (negb _).
  - apply seg_upd. eapply go_sleep_spec; try done. intros k' W' Hc' Ha' _. apply seg_upd, seg_ret.
    apply post_tame; [by apply post_resumed|done..].
  - apply seg_ret, seg_upd, seg_ret. apply post_tame; [by apply post_start|done..].
Qed.

Lemma evt_wait_timeout_seg sel mask time me k :
  user me k -> me <> idle -> fits 32 time ->
  seg me (fun k1 _ k' => post me k k1 k') k (evt_wait_timeout sel mask time k).
Proof.
  intros Hu Hi Hf. destruct (evt_mask_ok me mask WTOREVT k Hu) as (W1 & G1 & S1 & M1); [by left|].
  pose proof Hu as (W & Hc & Hna). unfold evt_wait_timeout. apply seg_get. rewrite Hc. cbv zeta.
  destruct (_ =? 0).
  - destruct (Z.eqb_spec TIME_IMMEDIATE time) as [Ht|Ht]; [by apply seg_ret, post_start|].
    apply seg_upd, seg_bind. eapply sleep_timeout_spec; try done.
    intros k1 k' Hp. destruct (_ <? _); [by apply seg_ret|].
    apply seg_get, seg_upd, seg_ret. by apply post_tame.
  - apply seg_upd, seg_ret. apply post_tame; [by apply post_start|done..].
Qed.

#[export] Instance chEvtWaitOneTimeout_service mask time :
  Service (fun me _ => me <> idle /\ fits 32 time) (chEvtWaitOneTimeout mask time).
Proof. intros me k Hu [Hi Hf]. by apply evt_wait_timeout_seg. Qed.

#[export] Instance chEvtWaitAnyTimeout_service mask time :
  Service (fun me _ => me <> idle /\ fits 32 time) (chEvtWaitAnyTimeout mask time).
Proof. intros me k Hu [Hi Hf]. by apply evt_wait_timeout_seg. Qed.

#[export] Instance chEvtWaitAllTimeout_service mask time :
  Service (fun me _ => me <> idle /\ fits 32 time) (chEvtWaitAllTimeout mask time).
Proof.
  intros me k Hu [Hi Hf]. destruct (evt_mask_ok me mask WTANDEVT k Hu) as (W1 & G1 & S1 & M1); [by right|].
  pose proof Hu as (W & Hc & Hna). unfold chEvtWaitAllTimeout. apply seg_get. rewrite Hc. cbv zeta.
  destruct (negb _).
  - destruct (Z.eqb_spec TIME_IMMEDIATE time) as [Ht|Ht]; [by apply seg_ret, post_start|].
    apply seg_upd, seg_bind. eapply sleep_timeout_spec; try done.
    intros k1 k' Hp. destruct (_ <? _); [by apply seg_ret|]. apply seg_upd, seg_ret. by apply post_tame.
  - apply seg_upd, seg_ret. apply post_tame; [by apply post_start|done..].
Qed.

(** ** Contracts *)

Lemma event_mask_pow eid : 0 <= eid < 32 -> EVENT_MASK eid = 2 ^ eid.
Proof.
  intros H. unfold EVENT_MASK. rewrite Z.shiftl_1_l. apply wrap_small. split; [apply Z.pow_nonneg; lia|].
  apply Z.pow_lt_mono_r; lia.
Qed.

Lemma land_pow2 m eid : 0 <= eid -> (Z.land m (2 ^ eid) =? 0) = negb (Z.testbit m eid).
Proof.
  intros He. destruct (Z.testbit m eid) eqn:Hb; simpl.
  - apply Z.eqb_neq. intros H0. assert (Z.testbit (Z.land m (2 ^ eid)) eid = true) as Ht.
    { by rewrite Z.land_spec, Hb, Z.pow2_bits_true. }
    rewrite H0, Z.bits_0 in Ht. done.
  - apply Z.eqb_eq. apply Z.bits_inj'. intros i Hi. rewrite Z.land_spec, Z.bits_0.
    destruct (decide (i = eid)) as [->|]; [by rewrite Hb|]. rewrite Z.pow2_bits_false by lia. by rewrite andb_false_r.
Qed.

Lemma evt_dispatch_ok fuel eid m :
  0 <= eid -> eid + Z.of_nat fuel = 32 -> 0 <= m -> (forall i, i < eid -> Z.testbit m i = false) ->
  (forall i, 32 <= i -> Z.testbit m i = false) ->
  evt_dispatch fuel eid m = Some (filter (fun i => Z.testbit m i = true) (seqZ eid (Z.of_nat fuel))).
Proof.
  revert eid m. induction fuel as [|fuel IH]; intros eid m He Hf Hm Hlow Hhigh.
  - assert (m = 0) as ->; [|done]. apply Z.bits_inj'. intros i Hi. rewrite Z.bits_0.
    destruct (decide (i < eid)); [by apply Hlow|apply Hhigh; lia].
  - cbn [evt_dispatch]. rewrite seqZ_cons by lia. replace (Z.succ eid) with (eid + 1) by lia.
    replace (Z.pred (Z.of_nat (S fuel))) with (Z.of_nat fuel) by lia.
    rewrite event_mask_pow by lia. rewrite land_pow2, negb_involutive by done.
    destruct (Z.eqb_spec m 0) as [->|H0].
    { f_equal. symmetry. apply filter_none. apply Forall_forall. intros i _. by rewrite Z.bits_0. }
    destruct (Z.testbit m eid) eqn:Hb.
    + rewrite filter_cons_True by done. rewrite IH; [|lia|lia|..].
      * cbn. do 2 f_equal. apply filter_ext_in. intros i Hi%elem_of_seqZ. rewrite Z.ldiff_spec, Z.pow2_bits_false by lia.
        by rewrite andb_true_r.
      * apply Z.ldiff_nonneg. by left.
      * intros i Hi. rewrite Z.ldiff_spec. destruct (decide (i = eid)) as [->|].
        -- by rewrite Z.pow2_bits_true, andb_false_r.
        -- by rewrite Hlow by lia.
      * intros i Hi. by rewrite Z.ldiff_spec, Hhigh.
    + rewrite filter_cons_False by congruence. apply IH; [lia|lia|done| |done].
      intros i Hi. destruct (decide (i = eid)) as [->|]; [done|apply Hlow; lia].
Qed.

