(* ===== verification/ChRuns.v ===== *)
(** * Runs of the booted system

    A call run from a state of the kernel up to its first switch, and what the
    theorems on semaphores and events say of such runs. *)

From S2P Require Import Prelude ChLists Kernel ChVt ChSchd ChInv ChSeg ChSem ChThreads ChEvents.

(** The state at the first switch of a program, or at its end. *)
Definition stopped {A} (p : kprog A) : option kernel :=
  match p with KRet k _ | KSwitch k _ => Some k | KUb => None end.

Definition stop_at {A} (k : kernel) (op : K A) : kernel := default k (stopped (op k)).

(** Another thread goes on from a switch. *)
Lemma stop_user {A} pre (op : K A) `{!Service pre op} me k x :
  user me k -> pre me k -> currp (stop_at k op) = x -> vtlist (stop_at k op) = [] -> user x (stop_at k op).
Proof.
  intros Hu Hpre Hc Hv. pose proof (service me k Hu Hpre) as Hs. unfold user, armed. rewrite Hv.
  split_and!; [|done|by apply not_elem_of_nil]. unfold stop_at, stopped in *.
  destruct (op k) as [k' a|k' r|]; simpl; [apply Hs|apply Hs|done].
Qed.

Lemma boot_user : user mainthread boot_kernel.
Proof. exact (booted_wf boot_kernel boot_kernel_booted). Qed.

(** Thread 2, more urgent than the main thread, waits on semaphore 5, which was
    at 0, and the main thread is current again. *)
Definition k_thread : kernel := stop_at boot_kernel (chThdCreateStatic 2 100).
Definition k_asleep : kernel := stop_at k_thread (chSemWait 5).

Lemma k_thread_user : user 2 k_thread.
Proof.
  eapply (stop_user _ _ mainthread); [exact boot_user| |by vm_compute|by vm_compute].
  split; [|by vm_compute]. unfold not_alive. split_and!; by vm_compute.
Qed.

Lemma k_asleep_user : user 0 k_asleep.
Proof. eapply (stop_user _ _ 2); [exact k_thread_user|by vm_compute|by vm_compute|by vm_compute]. Qed.

Lemma semaphore_ops_spec_witness :
  s_cnt k_asleep 5 = -1 /\
  exists k', chSemSignalI 5 k_asleep = KRet k' tt /\ t_state (thr k' 2) = READY /\ queues k' (QSem 5) = [].
Proof.
  split; [by vm_compute|]. assert (Hb : s_cnt k_asleep 5 + 1 < 2 ^ 31) by (by vm_compute).
  assert (Hc : currp k_asleep = 0) by (by vm_compute).
  destruct (proj1 (semaphore_ops_spec 0 5 k_asleep (user_top _ _ k_asleep_user) Hc) Hb) as (k' & Ek & _ & Hs).
  exists k'. destruct Hs as (_ & Hq & _ & _ & Hr).
  assert (Hh : head (queues k_asleep (QSem 5)) = Some 2) by (by vm_compute).
  split; [exact Ek|]. split; [exact (proj1 (Hr 2 Hh))|]. rewrite Hq. by vm_compute.
Defined.

(** Thread 2 waits for the event flags 1 and 4; the main thread, with flag 1
    pending for itself, signals flag 4. *)
Definition k_listening : kernel := stop_at k_thread (chEvtWaitAny 5).

Lemma k_listening_user : user 0 k_listening.
Proof. eapply (stop_user _ _ 2); [exact k_thread_user|by vm_compute|by vm_compute|by vm_compute]. Qed.

