(* ===== verification/ChBSem.v ===== *)
(** * Binary semaphores: include/chbsem.h

    Counting semaphores whose counter never goes above one: taken, with the
    threads that wait in the order they came, or not taken.  The macros implement
    that machine on the calls of ChSem.v. *)

From S2P Require Import Prelude ChLists Kernel ChVt ChSchd ChInv ChSeg ChSem ChRuns.

Definition chBSemInit (s : Z) (taken : bool) : K unit := chSemInit s (if taken then 0 else 1).
Definition chBSemWait (s : Z) : K Z := chSemWait s.
Definition chBSemWaitS (s : Z) : K Z := chSemWaitS s.
Definition chBSemWaitTimeout (s time : Z) : K Z := chSemWaitTimeout s time.
Definition chBSemWaitTimeoutS (s time : Z) : K Z := chSemWaitTimeoutS s time.
Definition chBSemReset (s : Z) (taken : bool) : K unit := chSemReset s (if taken then 0 else 1).
Definition chBSemResetI (s : Z) (taken : bool) : K unit := chSemResetI s (if taken then 0 else 1).

Definition chBSemSignalI (s : Z) : K unit :=
  cnt ← chSemGetCounterI s;
  if cnt <? 1 then chSemSignalI s else mret tt.

Definition chBSemSignal (s : Z) : K unit := chBSemSignalI s;; chSchRescheduleS.

Definition chBSemGetStateI (s : Z) : K bool := cnt ← chSemGetCounterI s; mret (negb (0 <? cnt)).

(** ** The machine *)

(** Not taken, or taken with the threads that wait. *)
Inductive bstate := BFree | BTaken (waiters : list Z).

Definition b_signal (b : bstate) : bstate :=
  match b with BFree | BTaken [] => BFree | BTaken (_ :: l) => BTaken l end.

Definition b_wait (me : Z) (b : bstate) : bstate :=
  match b with BFree => BTaken [] | BTaken l => BTaken (l ++ [me]) end.

Definition b_reset (taken : bool) : bstate := if taken then BTaken [] else BFree.

(** Who is let in by a signal, and with which message threads leave. *)
Definition b_let_in (b : bstate) : option Z := match b with BFree => None | BTaken l => head l end.
Definition b_taken (b : bstate) : bool := match b with BFree => false | BTaken _ => true end.
Definition b_waiters (b : bstate) : list Z := match b with BFree => [] | BTaken l => l end.

(** The semaphore [s] of the kernel is in the state [b]. *)
Definition shows (s : Z) (b : bstate) (k : kernel) : Prop :=
  match b with BFree => s_cnt k s = 1 | BTaken l => s_cnt k s = - zlen l end /\ queues k (QSem s) = b_waiters b.

(** Every counter up to one shows a state. *)
Lemma shows_binary E s k : wfx E k -> XSem s ∉ E -> s_cnt k s <= 1 <-> exists b, shows s b k.
Proof.
  intros W HE. destruct (x_sem _ _ W s HE) as [Hlen _]. split.
  - intros H1. destruct (decide (s_cnt k s = 1)) as [H|H].
    + exists BFree. split; [done|]. rewrite H in Hlen. destruct (queues k (QSem s)); [done|]. unfold zlen in Hlen. simpl in Hlen. lia.
    + exists (BTaken (queues k (QSem s))). split; [lia|done].
  - intros ([|l] & Hc & _); [lia|]. unfold zlen in Hc. lia.
Qed.

Lemma shows_bound s b k : shows s b k -> s_cnt k s <= 1.
Proof. intros [H _]. destruct b as [|l]; [lia|]. unfold zlen in H. lia. Qed.

Lemma chBSemSignalI_ok me s b k :
  wfx [XTop] k -> currp k = me -> shows s b k ->
  exists k', chBSemSignalI s k = KRet k' tt /\ quiet me [XTop] k k' /\ shows s (b_signal b) k' /\
    (forall t, b_let_in b <> Some t -> thr k' t = thr k t) /\
    (forall t, b_let_in b = Some t -> t_state (thr k' t) = READY /\ t_u (thr k' t) = URdy RDY_OK).
Proof.
  intros W Hc Hb. pose proof Hb as [Hn Hq]. pose proof (shows_bound _ _ _ Hb) as H1. unfold chBSemSignalI, chSemGetCounterI, mbind, K_bind, kbind.
  destruct b as [|l].
  - rewrite Hn. cbn. exists k. unfold quiet. by split_and!.
  - rewrite (proj2 (Z.ltb_lt _ _)) by (unfold zlen in Hn; lia).
    destruct (chSemSignalI_ok me s k W Hc) as (k' & E & Hqt & N & Q & _ & T & R); [lia|]. exists k'. split; [exact E|]. split; [done|].
    cbn [b_waiters] in Hq. rewrite Hq in Q, T, R. split; [|by split]. unfold shows. rewrite N, fn_lookup_insert, Q. destruct l as [|t l]; cbn; [by rewrite Hn|].
    split; [|done]. unfold zlen in *. simpl in Hn. lia.
Qed.

Lemma chBSemResetI_ok me s b taken k :
  wfx [XTop] k -> currp k = me -> shows s b k ->
  exists k', chBSemResetI s taken k = KRet k' tt /\ quiet me [XTop] k k' /\ shows s (b_reset taken) k' /\
    (forall t, t ∉ b_waiters b -> thr k' t = thr k t) /\
    (forall t, t ∈ b_waiters b -> t_state (thr k' t) = READY /\ t_u (thr k' t) = URdy RDY_RESET).
Proof.
  intros W Hc [_ Hq]. destruct (chSemResetI_ok me s (if taken then 0 else 1) k W Hc) as (k' & E & Hqt & N & Q & R & T); [by destruct taken|].
  exists k'. split; [exact E|]. split; [done|]. rewrite Hq in R, T. split; [|by split]. unfold shows. rewrite N, fn_lookup_insert, Q. by destruct taken.
Qed.

(** Waiting: through at once, or asleep at the end of the queue. *)
Lemma chBSemWaitS_ok me s b k :
  wfx [XTop] k -> currp k = me -> shows s b k -> -(2 ^ 31) <= s_cnt k s - 1 ->
  exists k', shows s (b_wait me b) k' /\
    chBSemWaitS s k = match b with BFree => KRet k' RDY_OK | BTaken _ => (chSchGoSleepS WTSEM;; rdymsg) k' end.
Proof.
  intros W Hc [Hn Hq] Hb. destruct (x_sem _ _ W s ltac:(set_solver)) as [_ Hr]. unfold chBSemWaitS, chSemWaitS, chSemFastWaitI. erewrite kbind_ret by (apply cnt_add_ok; lia).
  destruct b as [|l].
  - rewrite Hn. cbn. eexists. split; [|reflexivity]. split; [|exact Hq]. by rewrite cnt_set, decide_True.
  - rewrite (proj2 (Z.ltb_lt _ _)) by (unfold zlen in Hn; lia). rewrite kget_bind. change (currp (set_cnt _ _ k)) with (currp k). rewrite Hc. unfold upd. rewrite kmod_bind.
    unfold sem_insert, k_queue_insert. rewrite kmod_bind. eexists. split; [|reflexivity]. split.
    + change (s_cnt (set_cnt s (s_cnt k s + -1) k) s = - zlen (l ++ [me])). rewrite cnt_set, decide_True by done. unfold zlen in *. rewrite length_app. simpl. lia.
    + rewrite queues_enq, decide_True by done. change (queues k (QSem s) ++ [me] = l ++ [me]). by rewrite Hq.
Qed.

(** ** Signalling from a thread *)

#[export] Instance chBSemSignal_service s : Service (fun _ k => s_cnt k s <= 1) (chBSemSignal s).
Proof.
  intros me k Hu H1. pose proof Hu as (W & Hc & _). pose proof (user_top _ _ Hu) as Wt. destruct (proj1 (shows_binary [] s k W ltac:(set_solver)) H1) as [b Hb].
  destruct (chBSemSignalI_ok me s b k Wt Hc Hb) as (k1 & E1 & (W1 & C1 & V1 & G1) & _). eapply seg_step; [exact E1|]. eapply resched_spec; [done..|].
  intros k2 k' (W' & Hc' & Hg' & Ha'). unfold post. split_and!; [done..|]. intros Ha. apply Ha' in Ha. unfold armed in *. by rewrite V1 in Ha.
Qed.

#[export] Instance chBSemWait_service s : Service (sem_wait_pre s) (chBSemWait s).
Proof. exact (chSemWait_service s). Qed.

#[export] Instance chBSemWaitTimeout_service s time : Service (fun me k => sem_wait_pre s me k /\ fits 32 time) (chBSemWaitTimeout s time).
Proof. exact (chSemWaitTimeout_service s time). Qed.

#[export] Instance chBSemReset_service s taken : Service (fun _ _ => True) (chBSemReset s taken).
Proof. intros me k Hu _. apply (chSemReset_service s (if taken then 0 else 1)); [done|]. by destruct taken. Qed.

(** Binary semaphores are the machine of two states.  A counter is at most one
    exactly when the semaphore shows one of its states, and the calls keep it so:
    signalling a semaphore that is not taken changes nothing at all, and otherwise
    readies the thread that waited longest, with [RDY_OK], or leaves the semaphore
    not taken; a reset readies all with [RDY_RESET]; a wait takes the semaphore, or
    sleeps at the end of the queue; the state is told as it is. *)
Theorem binary_semaphore_refines me s b k :
  wfx [XTop] k -> currp k = me -> shows s b k ->
  (exists k', chBSemSignalI s k = KRet k' tt /\ quiet me [XTop] k k' /\ shows s (b_signal b) k' /\ (b = BFree -> k' = k) /\
     (forall t, b_let_in b <> Some t -> thr k' t = thr k t) /\
     (forall t, b_let_in b = Some t -> t_state (thr k' t) = READY /\ t_u (thr k' t) = URdy RDY_OK)) /\
  (forall taken, exists k', chBSemResetI s taken k = KRet k' tt /\ quiet me [XTop] k k' /\ shows s (b_reset taken) k' /\
     (forall t, t ∉ b_waiters b -> thr k' t = thr k t) /\
     (forall t, t ∈ b_waiters b -> t_state (thr k' t) = READY /\ t_u (thr k' t) = URdy RDY_RESET)) /\
  (-(2 ^ 31) <= s_cnt k s - 1 -> exists k', shows s (b_wait me b) k' /\
     chBSemWaitS s k = match b with BFree => KRet k' RDY_OK | BTaken _ => (chSchGoSleepS WTSEM;; rdymsg) k' end) /\
  chBSemGetStateI s k = KRet k (b_taken b).
Proof.
  intros W Hc Hb. split_and!.
  - destruct (chBSemSignalI_ok me s b k W Hc Hb) as (k' & E & Hq & Hs & H1 & H2). exists k'. split_and!; try done. intros ->. destruct Hb as [Hn _].
    unfold chBSemSignalI, chSemGetCounterI, mbind, K_bind, kbind in E. rewrite Hn in E. cbn in E. by injection E.
  - intros taken. by apply chBSemResetI_ok.
  - by apply chBSemWaitS_ok.
  - destruct Hb as [Hn _]. unfold chBSemGetStateI, chSemGetCounterI, mbind, K_bind, kbind. destruct b as [|l]; [by rewrite Hn|].
    by rewrite (proj2 (Z.ltb_ge _ _)) by (unfold zlen in Hn; lia).
Qed.

(** Thread 2 waits on semaphore 5: a signal lets it in, and the next leaves the semaphore
    not taken. *)
Lemma binary_semaphore_refines_witness :
  shows 5 (BTaken [2]) k_asleep /\
  exists k', chBSemSignalI 5 k_asleep = KRet k' tt /\ shows 5 (BTaken []) k' /\ t_state (thr k' 2) = READY.
Proof.
  assert (Hc : currp k_asleep = 0) by (by vm_compute). assert (Hs : shows 5 (BTaken [2]) k_asleep) by (split; by vm_compute). split; [exact Hs|].
  destruct (proj1 (binary_semaphore_refines 0 5 (BTaken [2]) k_asleep (user_top _ _ k_asleep_user) Hc Hs)) as (k' & Ek & _ & Hs' & _ & _ & Hr).
  exists k'. split; [exact Ek|]. split; [exact Hs'|]. exact (proj1 (Hr 2 eq_refl)).
Defined.
