(* ===== verification/ChMtx.v ===== *)
(** * Mutexes: kernel/src/chmtx.c, include/chmtx.h

    Locking with priority inheritance along the chain of owners, trying,
    unlocking in reverse order with the hand-over to the most urgent waiter, and
    unlocking everything. *)

From S2P Require Import Prelude ChLists Kernel ChVt ChSchd ChInv ChSeg ChSem ChThreads.

Definition chMtxInit (mp : Z) : K unit := kmod (fun k => set_owner mp None (set_queue (QMtx mp) [] k)).

Definition chMtxQueueNotEmptyS (mp : Z) (k : kernel) : bool := k_notempty (QMtx mp) k.

(** [mp] on top of the mutexes of its new owner [tp]. *)
Definition mtx_give (mp tp : Z) : K unit :=
  kmod (set_owner mp (Some tp));;
  upd tp (fun th => with_mtxlist (mp :: t_mtxlist th) th).

(** The loop that boosts the owner [tp] of the mutex, and the owner of the
    mutex that thread waits for, and so on.  The place of a waiting or ready
    thread follows its priority. *)
Fixpoint mtx_boost (fuel : nat) (ctp tp : Z) : K unit := fun k =>
  match fuel with
  | O => KUb
  | S fuel =>
      if prio_of k tp <? prio_of k ctp then
        (upd tp (with_prio (prio_of k ctp));;
         match t_state (thr k tp), t_u (thr k tp) with
         | WTMTX, UObj (QMtx m) =>
             k_dequeue tp;;
             k_prio_insert tp (QMtx m);;
             match m_owner k m with Some tp' => mtx_boost fuel ctp tp' | None => kub end
         | WTCOND, UObj q => k_dequeue tp;; k_prio_insert tp q
         | WTMTX, _ | WTCOND, _ => kub
         | READY, _ => k_dequeue tp;; chSchReadyI tp
         | _, _ => mret tt
         end) k
      else KRet k tt
  end.

(** A thread is boosted once at most, and every thread that waits is
    registered. *)
Definition chMtxLockS (mp : Z) : K unit :=
  k ← kget;
  let ctp := currp k in
  match m_owner k mp with
  | Some tp =>
      mtx_boost (S (length (registry k))) ctp tp;;
      k_prio_insert ctp (QMtx mp);;
      upd ctp (with_u (UObj (QMtx mp)));;
      chSchGoSleepS WTMTX
  | None => mtx_give mp ctp
  end.

Definition chMtxLock (mp : Z) : K unit := chMtxLockS mp.

Definition chMtxTryLockS (mp : Z) : K bool :=
  k ← kget;
  match m_owner k mp with
  | Some _ => mret false
  | None => mtx_give mp (currp k);; mret true
  end.

Definition chMtxTryLock (mp : Z) : K bool := chMtxTryLockS mp.

(** The highest of [newprio] and the priorities of the first waiters. *)
Fixpoint mtx_newprio (k : kernel) (newprio : Z) (mps : list Z) : Z :=
  match mps with
  | [] => newprio
  | mp :: mps =>
      mtx_newprio k
        match queues k (QMtx mp) with
        | w :: _ => if newprio <? prio_of k w then prio_of k w else newprio
        | [] => newprio
        end mps
  end.

(** The common body of the two ways to unlock: they differ in how the new owner
    is made ready. *)
Definition mtx_unlock (wake : Z -> K unit) : K Z :=
  k ← kget;
  let ctp := currp k in
  match t_mtxlist (thr k ctp) with
  | [] => kub
  | ump :: mps =>
      upd ctp (with_mtxlist mps);;
      (if chMtxQueueNotEmptyS ump k then
         upd ctp (with_prio (mtx_newprio k (t_realprio (thr k ctp)) mps));;
         tp ← k_fifo_remove (QMtx ump);
         mtx_give ump tp;;
         wake tp
       else kmod (set_owner ump None));;
      mret ump
  end.

Definition chMtxUnlock : K Z := mtx_unlock (fun tp => chSchWakeupS tp RDY_OK).

Definition chMtxUnlockS : K Z := mtx_unlock chSchReadyI.

(** [do { ... } while (ctp->p_mtxlist != NULL)]. *)
Fixpoint mtx_unlock_loop (mps : list Z) (ctp : Z) : K unit :=
  match mps with
  | [] => mret tt
  | ump :: mps =>
      upd ctp (with_mtxlist mps);;
      k ← kget;
      (if chMtxQueueNotEmptyS ump k then
         tp ← k_fifo_remove (QMtx ump);
         mtx_give ump tp;;
         chSchReadyI tp
       else kmod (set_owner ump None));;
      mtx_unlock_loop mps ctp
  end.

Definition chMtxUnlockAll : K unit :=
  k ← kget;
  let ctp := currp k in
  if bool_decide (t_mtxlist (thr k ctp) <> []) then
    mtx_unlock_loop (t_mtxlist (thr k ctp)) ctp;;
    upd ctp (fun th => with_prio (t_realprio th) th);;
    chSchRescheduleS
  else mret tt.

(** ** Small steps *)

Lemma kbind_then {B} (m n : K unit) (g : K B) k k' : (m;; n) k = KRet k' tt -> (m;; n;; g) k = g k'.
Proof. unfold mbind, K_bind. destruct (m k) as [k1 []| |]; simpl; [|done|done]. by intros ->. Qed.

Lemma kbind_then3 {B} (m n p : K unit) (g : K B) k k' :
  (m;; n;; p) k = KRet k' tt -> (m;; n;; p;; g) k = g k'.
Proof.
  intros H. change (kbind (m k) (fun _ => n;; p;; g) = g k').
  change (kbind (m k) (fun _ => n;; p) = KRet k' tt) in H. destruct (m k) as [k1 []| |]; [|done|done].
  exact (kbind_then n p g k1 k' H).
Qed.

Lemma owner_set m o k m' : m_owner (set_owner m o k) m' = if decide (m' = m) then o else m_owner k m'.
Proof.
  unfold set_owner. simpl. destruct (decide (m' = m)) as [->|Hx].
  - apply fn_lookup_insert.
  - by apply fn_lookup_insert_ne.
Qed.

Lemma thr_owner m o k : thr (set_owner m o k) = thr k.
Proof. done. Qed.

Lemma wfx_owner E m o k : XMtx ∈ E -> wfx E k -> wfx E (set_owner m o k).
Proof. intros Hm W. constructor; try apply W. done. Qed.

Lemma mtx_link E k t m :
  wfx E k -> XThr t ∉ E -> t_link (thr k t) = Some (QMtx m) -> t_state (thr k t) = WTMTX /\ t_u (thr k t) = UObj (QMtx m).
Proof.
  intros W He Hl. pose proof (x_state _ _ W t He) as Hs. unfold state_ok in Hs.
  destruct (t_state (thr k t)); naive_solver congruence.
Qed.

(** ** Raising priorities *)

(** [k'] is [k] with some priorities below [p] raised to [p]; queues may be in
    another order. *)
Record boosted (p : Z) (k k' : kernel) : Prop := {
  bo_thr t : thr k' t = with_prio (prio_of k' t) (thr k t);
  bo_prio t : prio_of k' t = prio_of k t \/ prio_of k t < p /\ prio_of k' t = p;
  bo_queues q : queues k' q ≡ₚ queues k q;
  bo_currp : currp k' = currp k;
  bo_cnt : s_cnt k' = s_cnt k;
  bo_owner : m_owner k' = m_owner k;
  bo_vts : vtlist k' = vtlist k;
  bo_registry : registry k' = registry k;
  bo_ioq : ioq k' = ioq k
}.

(** The queues that are kept by priority. *)
Definition by_priority (q : qid) : bool := match q with QReady | QMtx _ | QCond _ => true | _ => false end.

Definition queues_sorted (k : kernel) : Prop :=
  forall q, by_priority q = true -> StronglySorted (by_prio (prio_of k)) (queues k q).

Lemma with_prio_same th : with_prio (t_prio th) th = th.
Proof. by destruct th. Qed.

#[export] Instance boosted_refl p : Reflexive (boosted p).
Proof. intros k. constructor; try done; [|by left]. intros t. symmetry. apply with_prio_same. Qed.

#[export] Instance boosted_trans p : Transitive (boosted p).
Proof.
  intros k1 k2 k3 [T1 P1 Q1 C1 S1 O1 V1 R1 I1] [T2 P2 Q2 C2 S2 O2 V2 R2 I2]. constructor; try congruence.
  - intros t. by rewrite T2, T1.
  - intros t. destruct (P1 t), (P2 t); lia.
  - intros q. by rewrite Q2.
Qed.

Section Boosted.

Context (p : Z) (k k' : kernel) (HB : boosted p k k') (Hsort : queues_sorted k').

Lemma boosted_in t q : t ∈ queues k' q <-> t ∈ queues k q.
Proof. by rewrite (bo_queues _ _ _ HB). Qed.

Lemma boosted_le t : prio_of k t <= prio_of k' t.
Proof. destruct (bo_prio _ _ _ HB t); lia. Qed.

Lemma boosted_state t : t_state (thr k' t) = t_state (thr k t).
Proof. by rewrite (bo_thr _ _ _ HB). Qed.

Lemma boosted_guar me : guar me k k'.
Proof.
  intros t _. unfold rely, armed. rewrite (bo_vts _ _ _ HB), boosted_state. split_and!; [done| |by left|].
  - intros Hne He. apply Hne, Permutation_nil. by rewrite <- (bo_queues _ _ _ HB), He.
  - rewrite (bo_thr _ _ _ HB). by apply mtx_rely_same.
Qed.

Lemma wfx_boosted E :
  XMtx ∈ E -> XTop ∈ E \/ p <= prio_of k (currp k) -> wfx E k -> wfx E k'.
Proof.
  intros Hmx Hp W. pose proof (bo_thr _ _ _ HB) as Ht. constructor; rewrite ?(bo_currp _ _ _ HB), ?(bo_vts _ _ _ HB);
    try apply W; try done.
  - intros t q. rewrite boosted_in, Ht. apply W.
  - intros q. rewrite (bo_queues _ _ _ HB). apply W.
  - intros t He. pose proof (x_state _ _ W t He) as Hs. unfold state_ok in *. rewrite Ht. simpl.
    by rewrite (bo_currp _ _ _ HB).
  - intros Hc. rewrite Ht. by apply W.
  - by apply Hsort.
  - intros t. rewrite Ht. intros Hs. apply (x_prio _ _ W) in Hs. pose proof (boosted_le t). lia.
  - intros Hi. rewrite Ht. by apply W.
  - intros t. rewrite Ht. intros Hs. apply (x_exit _ _ W) in Hs. apply Permutation_nil.
    by rewrite <- Hs, (bo_queues _ _ _ HB).
  - intros t Ha. rewrite Ht. apply (x_armed _ _ W). unfold armed in *. by rewrite (bo_vts _ _ _ HB) in Ha.
  - intros s Hs. pose proof (x_sem _ _ W s Hs) as Hok. unfold sem_ok, zlen in *.
    by rewrite (bo_queues _ _ _ HB), (bo_cnt _ _ _ HB).
  - intros Htop t. rewrite boosted_in. intros Hq. pose proof (x_top _ _ W Htop t Hq).
    pose proof (boosted_le (currp k)). destruct Hp; [done|]. destruct (bo_prio _ _ _ HB t); lia.
  - intros Hr t. rewrite Ht, (bo_registry _ _ _ HB). by apply W.
  - rewrite (bo_ioq _ _ _ HB). apply W.
Qed.

Lemma mtx_boosted X :
  mtx_but X k ->
  (forall t, X <> Some t -> prio_of k' t <> prio_of k t ->
     exists m w, m ∈ t_mtxlist (thr k t) /\ w ∈ queues k (QMtx m) /\ p <= prio_of k' w) ->
  mtx_but X k'.
Proof.
  intros [H1 H2 H3 H4 H5 H6 H7 H8] Hup. pose proof (bo_thr _ _ _ HB) as Ht. constructor.
  - intros m t. rewrite (bo_owner _ _ _ HB), Ht. apply H1.
  - intros t. rewrite Ht. apply H2.
  - intros m. rewrite (bo_owner _ _ _ HB). intros Hm. apply Permutation_nil. by rewrite <- (H3 m Hm), (bo_queues _ _ _ HB).
  - intros m. by apply Hsort.
  - intros c. by apply Hsort.
  - intros t. rewrite Ht. apply H6.
  - intros t. pose proof (boosted_le t). pose proof (H7 t). rewrite Ht. simpl. lia.
  - intros t HX. assert (Hml : t_mtxlist (thr k' t) = t_mtxlist (thr k t)) by (by rewrite Ht).
    assert (Hr : t_realprio (thr k' t) = t_realprio (thr k t)) by (by rewrite Ht). rewrite Hml, Hr.
    destruct (decide (prio_of k' t = prio_of k t)) as [He|Hne].
    + rewrite He. destruct (H8 t HX) as [|(m & w & Hm & Hw & Hle)]; [by left|]. right. exists m, w.
      rewrite boosted_in. split_and!; [done|done|]. pose proof (boosted_le w). lia.
    + destruct (Hup t HX Hne) as (m & w & Hm & Hw & Hle). right. exists m, w. rewrite boosted_in.
      split_and!; [done|done|]. destruct (bo_prio _ _ _ HB t); lia.
Qed.

End Boosted.

(** ** One round of the loop *)

(** [kf] is [k] with [t] raised to [p], and no other thread. *)
Definition raised (t p : Z) (k kf : kernel) : Prop :=
  boosted p k kf /\ queues_sorted kf /\ forall x, prio_of kf x = if decide (x = t) then p else prio_of k x.

(** Raised and moved in its queue [q]. *)
Lemma raised_ok t p q pr k kf E :
  wfx E k -> queues_sorted k -> prio_of k t < p -> t_link (thr k t) = Some q ->
  (forall x, thr kf x = if decide (x = t) then with_prio p (thr k t) else thr k x) ->
  (forall x, pr x = prio_of kf x) ->
  (forall q', queues kf q' = if decide (q' = q) then pinsert pr t (filter (fun x => x <> t) (queues k q)) else queues k q') ->
  currp kf = currp k -> s_cnt kf = s_cnt k -> m_owner kf = m_owner k -> vtlist kf = vtlist k ->
  registry kf = registry k -> ioq kf = ioq k -> raised t p k kf.
Proof.
  intros W Hs Hp Hl Ht Hpr Hq Hc Hcn Ho Hv Hr Hio.
  assert (Hx : forall x, prio_of kf x = if decide (x = t) then p else prio_of k x).
  { intros x. unfold prio_of. rewrite Ht. by case_decide. }
  assert (Htq : t ∈ queues k q) by (by apply (x_link _ _ W)).
  split; [|split; [|done]].
  - constructor; try done.
    + intros x. rewrite Ht, Hx. case_decide; subst; [done|]. symmetry. apply with_prio_same.
    + intros x. rewrite Hx. case_decide; subst; auto.
    + intros q'. rewrite Hq. case_decide; subst; [|done].
      rewrite pinsert_perm. symmetry. apply filter_perm; [apply W|done].
  - intros q' Hb. rewrite Hq. case_decide as Hqq.
    + subst q'. eapply (sorted_ext pr); [intros; symmetry; apply Hpr|]. apply pinsert_sorted.
      eapply (sorted_ext (prio_of k)).
      * intros x [Hxt _]%list_elem_of_filter. by rewrite Hpr, Hx, decide_False.
      * eapply sorted_sublist; [apply sublist_filter|by apply Hs].
    + eapply (sorted_ext (prio_of k)); [|by apply Hs]. intros x Hxq. rewrite Hx, decide_False; [done|].
      intros ->. apply (x_link _ _ W) in Hxq. congruence.
Qed.

(** Raised where its queue is not kept by priority, or nowhere. *)
Lemma raised_in_place t p k E :
  wfx E k -> queues_sorted k -> prio_of k t < p ->
  (forall q, t_link (thr k t) = Some q -> by_priority q = false) ->
  raised t p k (upd_thr t (with_prio p) k).
Proof.
  intros W Hs Hp Hl.
  assert (Hx : forall x, prio_of (upd_thr t (with_prio p) k) x = if decide (x = t) then p else prio_of k x).
  { intros x. unfold prio_of. rewrite thr_upd. by case_decide. }
  split; [|split; [|done]].
  - constructor; try done.
    + intros x. rewrite thr_upd, Hx. case_decide; subst; [done|]. symmetry. apply with_prio_same.
    + intros x. rewrite Hx. case_decide; subst; auto.
  - intros q Hb. rewrite queues_upd. eapply (sorted_ext (prio_of k)); [|by apply Hs]. intros x Hxq.
    rewrite Hx, decide_False; [done|]. intros ->. apply (x_link _ _ W), Hl in Hxq. congruence.
Qed.

(** The thread and the queue it is in, raised and put back. *)
Definition requeue (t p : Z) (q : qid) (k : kernel) : kernel :=
  let k1 := upd_thr t (with_prio p) k in
  let kd := deq t q (filter (fun x => x <> t) (queues k1 q)) k1 in
  enq t q (pinsert (prio_of kd) t (queues kd q)) kd.

Lemma requeue_ok t p q k E :
  wfx E k -> queues_sorted k -> prio_of k t < p -> t_link (thr k t) = Some q ->
  (k_dequeue t;; k_prio_insert t q) (upd_thr t (with_prio p) k) = KRet (requeue t p q k) tt /\
  raised t p k (requeue t p q k).
Proof.
  intros W Hs Hp Hl. unfold requeue. set (k1 := upd_thr t (with_prio p) k).
  set (kd := deq t q (filter (fun x => x <> t) (queues k1 q)) k1).
  assert (Ht1 : thr k1 t = with_prio p (thr k t)) by apply thr_upd_eq.
  split.
  - erewrite kbind_ret; [|unfold k_dequeue; rewrite Ht1; simpl; rewrite Hl; reflexivity]. done.
  - apply (raised_ok t p q (prio_of kd) k _ E); try done.
    + intros x. rewrite thr_enq. unfold kd. rewrite !thr_deq, (decide_True (P := t = t)) by done.
      case_decide; [rewrite Ht1; simpl; rewrite <- Hl; by destruct (thr k t)|].
      unfold k1. by rewrite thr_upd_ne.
    + intros x. by rewrite prio_enq.
    + intros q'. rewrite queues_enq. case_decide; subst; unfold kd; rewrite queues_deq; [by rewrite decide_True|].
      by rewrite decide_False.
Qed.

Lemma requeue_ready_ok t p k E :
  wfx E k -> queues_sorted k -> prio_of k t < p -> t_link (thr k t) = Some QReady -> t_state (thr k t) = READY ->
  exists kf, (k_dequeue t;; chSchReadyI t) (upd_thr t (with_prio p) k) = KRet kf tt /\ raised t p k kf.
Proof.
  intros W Hs Hp Hl Hst. set (k1 := upd_thr t (with_prio p) k).
  set (kd := deq t QReady (filter (fun x => x <> t) (queues k1 QReady)) k1). exists (ready t kd).
  assert (Ht1 : thr k1 t = with_prio p (thr k t)) by apply thr_upd_eq.
  assert (Hpos : NOPRIO < prio_of k t) by (apply W; by rewrite Hst).
  assert (Htd : thr kd t = with_link None (with_prio p (thr k t))) by (unfold kd; by rewrite thr_deq, decide_True, Ht1).
  assert (Hth : thr (ready t kd) t = with_prio p (thr k t)).
  { rewrite thr_ready, decide_True, Htd by done. destruct (thr k t); simpl in *. by subst. }
  split.
  - erewrite kbind_ret; [|unfold k_dequeue; rewrite Ht1; simpl; rewrite Hl; reflexivity]. fold kd.
    apply chSchReadyI_eq. unfold prio_of. rewrite Htd. simpl. lia.
  - apply (raised_ok t p QReady (prio_of (upd_thr t (with_state READY) kd)) k _ E); try done.
    + intros x. case_decide; [by subst|]. rewrite thr_ready, decide_False by done. unfold kd.
      rewrite thr_deq, decide_False by done. unfold k1. by rewrite thr_upd_ne.
    + intros x. rewrite prio_ready. by apply prio_upd.
    + intros q'. rewrite queues_ready. case_decide; subst; unfold kd; rewrite queues_deq; [by rewrite decide_True|].
      by rewrite decide_False.
Qed.

(** ** The chain of owners *)

(** The threads that keep [m] locked: its owner, the owner of the mutex that
    thread waits for, and so on. *)
Inductive blocks (k : kernel) : Z -> Z -> Prop :=
| blocks_owner m t : m_owner k m = Some t -> blocks k m t
| blocks_next m t m' x :
    m_owner k m = Some t -> t_state (thr k t) = WTMTX -> t_u (thr k t) = UObj (QMtx m') ->
    blocks k m' x -> blocks k m x.

(** Owners have the priority of those who wait for them, but for the mutex
    [mo]. *)
Definition inherits_but (mo : option Z) (k : kernel) : Prop := forall m t w,
  mo <> Some m -> m_owner k m = Some t -> w ∈ queues k (QMtx m) -> prio_of k w <= prio_of k t.

Notation inherits := (inherits_but None).

Lemma boosted_blocks p k k' m x : boosted p k k' -> blocks k' m x -> blocks k m x.
Proof.
  intros HB. pose proof (bo_thr _ _ _ HB) as Ht. induction 1 as [m t Ho|m t m' x Ho Hs Hu _ IH].
  - apply blocks_owner. by rewrite <- (bo_owner _ _ _ HB).
  - rewrite Ht in Hs, Hu. eapply blocks_next; [|exact Hs|exact Hu|done]. by rewrite <- (bo_owner _ _ _ HB).
Qed.

Lemma boosted_blocks_back p k k' m x : boosted p k k' -> blocks k m x -> blocks k' m x.
Proof.
  intros HB. pose proof (bo_thr _ _ _ HB) as Ht. induction 1 as [m t Ho|m t m' x Ho Hs Hu _ IH].
  - apply blocks_owner. by rewrite (bo_owner _ _ _ HB).
  - eapply blocks_next; [by rewrite (bo_owner _ _ _ HB)|by rewrite Ht|by rewrite Ht|done].
Qed.

Lemma sorted_of E X k : wfx E k -> mtx_but X k -> queues_sorted k.
Proof. intros W M [] Hb; try done; [apply W|apply M|apply M]. Qed.

Section Raised.

Context (me t0 tp mc p : Z) (k kf : kernel).
Context (W : wfx [XMtx] k) (M : mtx_but (Some t0) k) (Hc : currp k = me) (Hp : prio_of k me = p).
Context (Ho : m_owner k mc = Some tp) (Hlt : prio_of k tp < p) (HR : raised tp p k kf).

Lemma raised_wfx : wfx [XMtx] kf.
Proof using W M Hc Hp Ho Hlt HR.
  destruct HR as (HB & HS & _). eapply wfx_boosted; [exact HB|exact HS|set_solver| |exact W].
  right. rewrite Hc, Hp. reflexivity.
Qed.

Lemma raised_mtx :
  tp = t0 \/ (exists m w, m ∈ t_mtxlist (thr k tp) /\ w ∈ queues k (QMtx m) /\ p <= prio_of k w) ->
  mtx_but (Some t0) kf.
Proof using W M Hc Hp Ho Hlt HR.
  intros Hj. destruct HR as (HB & HS & Hx). eapply mtx_boosted; [done|done|done|].
  intros t Ht0 Hne. rewrite Hx in Hne. case_decide; [subst t|done].
  destruct Hj as [->|(m & w & Hm & Hw & Hle)]; [done|]. exists m, w. split_and!; [done|done|].
  pose proof (boosted_le _ _ _ HB w). lia.
Qed.

Lemma raised_me : prio_of kf me = p.
Proof using W M Hc Hp Ho Hlt HR. destruct HR as (_ & _ & Hx). rewrite Hx. by case_decide. Qed.

(** The broken link of the chain moves on to the mutex [tp] waits for. *)
Lemma raised_inherits mo :
  (forall m, t_link (thr k tp) = Some (QMtx m) -> mo = Some m) ->
  inherits_but (Some mc) k -> (forall w, w ∈ queues k (QMtx mc) -> prio_of k w <= Z.max (prio_of k tp) p) ->
  inherits_but mo kf /\
  (forall m t w, m_owner k m = Some t -> w ∈ queues kf (QMtx m) -> prio_of kf w <= Z.max (prio_of kf t) p).
Proof using W M Hc Hp Ho Hlt HR.
  intros Hmo Hi Hw. destruct HR as (HB & _ & Hx).
  assert (Hk : forall m t w, m_owner k m = Some t -> w ∈ queues k (QMtx m) -> prio_of k w <= prio_of kf t).
  { intros m t w Hmt Hin. destruct (decide (m = mc)) as [->|Hne].
    - assert (t = tp) as -> by congruence. pose proof (Hw w Hin). rewrite Hx, decide_True by done. lia.
    - pose proof (Hi m t w ltac:(congruence) Hmt Hin). pose proof (boosted_le _ _ _ HB t). lia. }
  split.
  - intros m t w Hm. rewrite (bo_owner _ _ _ HB), (boosted_in _ _ _ HB). intros Hmt Hin.
    rewrite (Hx w), decide_False; [by eapply Hk|]. intros ->. apply (x_link _ _ W), Hmo in Hin. congruence.
  - intros m t w Hmt. rewrite (boosted_in _ _ _ HB). intros Hin. pose proof (Hk m t w Hmt Hin).
    rewrite (Hx w). case_decide; lia.
Qed.

End Raised.

(** ** The whole loop *)

(** What boosting from the owner [tp] of [mc] leaves. *)
Record boost_done (p t0 tp mc : Z) (k k' : kernel) : Prop := {
  bd_boosted : boosted p k k';
  bd_sorted : queues_sorted k';
  bd_wfx : wfx [XMtx] k';
  bd_mtx : mtx_but (Some t0) k';
  bd_owner : p <= prio_of k' tp;
  bd_blocks x : prio_of k' x <> prio_of k x -> blocks k mc x;
  bd_inherits : inherits_but (Some mc) k ->
    (forall w, w ∈ queues k (QMtx mc) -> prio_of k w <= Z.max (prio_of k tp) p) -> inherits k'
}.

(** A priority above [p] or equal to it is left alone. *)
Lemma boosted_high p k k' x : boosted p k k' -> p <= prio_of k x -> prio_of k' x = prio_of k x.
Proof. intros HB Hx. destruct (bo_prio _ _ _ HB x); lia. Qed.

Section Boost.

Context (me t0 p : Z).

(** The raise of [tp] is excused by a waiter it blocks. *)
Definition excused (tp : Z) (k : kernel) : Prop :=
  tp = t0 \/ exists m w, m ∈ t_mtxlist (thr k tp) /\ w ∈ queues k (QMtx m) /\ p <= prio_of k w.

Lemma raised_done tp mc k kf :
  wfx [XMtx] k -> mtx_but (Some t0) k -> currp k = me -> prio_of k me = p -> m_owner k mc = Some tp ->
  prio_of k tp < p -> excused tp k -> raised tp p k kf -> (forall m, t_link (thr k tp) <> Some (QMtx m)) ->
  boost_done p t0 tp mc k kf.
Proof.
  intros W M Hc Hp Ho Hlt Hex HR Hl. pose proof HR as (HB & HS & Hx). constructor; try done.
  - by apply (raised_wfx me t0 tp mc p k kf).
  - by apply (raised_mtx me t0 tp mc p k kf).
  - rewrite Hx, decide_True; done.
  - intros x. rewrite Hx. case_decide; [|done]. subst x. intros _. by apply blocks_owner.
  - intros Hi Hw. eapply (raised_inherits me t0 tp mc p k kf W M Hc Hp Ho Hlt HR None); [|done|done]. intros m Hm. by destruct (Hl m).
Qed.

(** Raising [tp] and going on with the owner [tp'] of the mutex [m] it waits for. *)
Lemma raised_then tp mc m tp' k kf k' :
  wfx [XMtx] k -> mtx_but (Some t0) k -> currp k = me -> prio_of k me = p ->
  m_owner k mc = Some tp -> prio_of k tp < p -> raised tp p k kf ->
  t_state (thr k tp) = WTMTX -> t_link (thr k tp) = Some (QMtx m) -> t_u (thr k tp) = UObj (QMtx m) ->
  m_owner k m = Some tp' -> boost_done p t0 tp' m kf k' -> boost_done p t0 tp mc k k'.
Proof.
  intros W M Hc Hp Ho Hlt HR Hst Hl Hu Ho' [B S W' M' O' K' I']. pose proof HR as (HB & HS & Hx). constructor; try done.
  - by etrans.
  - pose proof (boosted_le _ _ _ B tp) as Hle. rewrite Hx, decide_True in Hle by done. lia.
  - intros x Hne. destruct (decide (x = tp)) as [->|Hxt]; [by apply blocks_owner|].
    eapply blocks_next; [done|done|done|]. eapply boosted_blocks; [exact HB|]. apply K'. by rewrite Hx, decide_False.
  - intros Hi Hw. destruct (raised_inherits me t0 tp mc p k kf W M Hc Hp Ho Hlt HR (Some m)) as [Hi' Hw']; [|done|done|].
    + intros m' Hm'. congruence.
    + apply I'; [done|]. intros w Hin. by apply (Hw' m).
Qed.

Lemma filter_lt (P Q : Z -> Prop) `{forall x, Decision (P x), forall x, Decision (Q x)} y l :
  (forall x, P x -> Q x) -> y ∈ l -> Q y -> ~ P y -> (length (filter P l) < length (filter Q l))%nat.
Proof.
  intros HPQ Hy Hq Hp. assert (Hle : forall l, (length (filter P l) <= length (filter Q l))%nat).
  { intros l'. induction l' as [|x l' IH]; [done|]. rewrite !filter_cons. repeat case_decide; simpl; try lia; naive_solver. }
  induction l as [|x l IH]; [by apply elem_of_nil in Hy|]. rewrite !filter_cons.
  apply elem_of_cons in Hy as [<-|Hy].
  - rewrite decide_False, decide_True by done. simpl. pose proof (Hle l). lia.
  - specialize (IH Hy). repeat case_decide; simpl; try lia. naive_solver.
Qed.

(** The raise of [tp] excuses that of the owner of the mutex it waits for, and one
    thread fewer is below [p]. *)
Lemma raised_excuses tp m tp' k kf :
  mtx_but (Some t0) k -> raised tp p k kf -> tp ∈ queues k (QMtx m) -> m_owner k m = Some tp' -> excused tp' kf.
Proof.
  intros M (HB & _ & Hx) Htq Hom. right. exists m, tp. split_and!.
  - rewrite (bo_thr _ _ _ HB). by apply (mx_owner _ _ M).
  - by rewrite (boosted_in _ _ _ HB).
  - rewrite Hx, decide_True; [lia|done].
Qed.

Lemma raised_fewer tp k kf :
  t_state (thr k tp) <> FINAL -> wfx [XMtx] k -> prio_of k tp < p -> raised tp p k kf ->
  (length (filter (fun x => (prio_of kf x < p)%Z) (registry kf)) < length (filter (fun x => (prio_of k x < p)%Z) (registry k)))%nat.
Proof.
  intros Hst W Hlt (HB & _ & Hx). rewrite (bo_registry _ _ _ HB). apply (filter_lt _ _ tp); [|apply (x_reg _ _ W); [set_solver|done]|done|].
  - intros x Hx'. pose proof (boosted_le _ _ _ HB x). lia.
  - rewrite Hx, decide_True by done. lia.
Qed.

Lemma mtx_boost_ok fuel tp mc k :
  wfx [XMtx] k -> mtx_but (Some t0) k -> currp k = me -> prio_of k me = p -> m_owner k mc = Some tp -> excused tp k ->
  (length (filter (fun x => (prio_of k x < p)%Z) (registry k)) < fuel)%nat ->
  exists k', mtx_boost fuel me tp k = KRet k' tt /\ boost_done p t0 tp mc k k'.
Proof.
  revert tp mc k. induction fuel as [|fuel IH]; intros tp mc k W M Hc Hp Ho Hex Hf; [lia|].
  pose proof (sorted_of _ _ _ W M) as S. cbn [mtx_boost]. rewrite Hp.
  destruct (Z.ltb_spec (prio_of k tp) p) as [Hlt|Hge].
  2:{ exists k. split; [done|]. constructor; try done. intros Hi Hw m t w _ Hm Hin.
      destruct (decide (m = mc)) as [->|]; [|eapply Hi; [|done..]; congruence].
      assert (t = tp) as -> by congruence. pose proof (Hw w Hin). lia. }
  assert (Htm : tp <> currp k) by (intros ->; rewrite Hc in Hlt; lia).
  pose proof (x_state _ _ W tp ltac:(set_solver)) as Hok. unfold state_ok in Hok.
  set (k1 := upd_thr tp (with_prio p) k).
  assert (Hend : forall (c : K unit) kf, c k1 = KRet kf tt -> raised tp p k kf ->
    (forall m, t_link (thr k tp) <> Some (QMtx m)) ->
    exists k', (upd tp (with_prio p);; c) k = KRet k' tt /\ boost_done p t0 tp mc k k').
  { intros c kf Hk HR Hl. exists kf. split; [done|by apply raised_done]. }
  assert (Hplace : (forall q, t_link (thr k tp) = Some q -> by_priority q = false) ->
    exists k', (upd tp (with_prio p);; mret tt) k = KRet k' tt /\ boost_done p t0 tp mc k k').
  { intros Hl. apply (Hend (mret tt) k1); [done|by eapply raised_in_place|]. intros m Hm. by apply Hl in Hm. }
  destruct (t_state (thr k tp)) eqn:Hst.
  all: try (apply Hplace; intros q Hq; naive_solver congruence).
  - destruct (requeue_ready_ok tp p k _ W S Hlt Hok Hst) as (kf & Ek & HR). eapply Hend; [exact Ek|done|].
    intros m. congruence.
  - destruct Hok as (m & Hl & Hu). rewrite Hu. destruct (requeue_ok tp p (QMtx m) k _ W S Hlt Hl) as (Ek & HR).
    set (kf := requeue tp p (QMtx m) k) in *. pose proof HR as (HB & HS & Hx).
    assert (Htq : tp ∈ queues k (QMtx m)) by (by apply (x_link _ _ W)).
    destruct (m_owner k m) as [tp'|] eqn:Hom.
    2:{ rewrite (mx_free _ _ M m Hom) in Htq. by apply elem_of_nil in Htq. }
    destruct (IH tp' m kf) as (k' & Ek' & D).
    + by apply (raised_wfx me t0 tp mc p k kf).
    + by apply (raised_mtx me t0 tp mc p k kf).
    + by rewrite (bo_currp _ _ _ HB).
    + rewrite Hx, decide_False; congruence.
    + by rewrite (bo_owner _ _ _ HB).
    + by apply (raised_excuses tp m tp' k kf).
    + eapply Nat.lt_le_trans; [|apply Nat.lt_succ_r, Hf]. apply (raised_fewer tp k kf); [by rewrite Hst|done..].
    + exists k'. split; [|by eapply raised_then].
      unfold upd. rewrite kmod_bind. fold k1. rewrite <- Ek'. exact (kbind_then _ _ _ _ _ Ek).
  - destruct Hok as (c & Hl & Hu). rewrite Hu. destruct (requeue_ok tp p (QCond c) k _ W S Hlt Hl) as (Ek & HR).
    eapply Hend; [exact Ek|done|]. intros m. congruence.
Qed.

End Boost.

(** ** Locking *)

(** The mutex taken at once, or after the sleep, by a thread that did not own
    it. *)
Definition locked (mp me : Z) (mps : list Z) (k : kernel) : Prop :=
  m_owner k mp = Some me /\ t_mtxlist (thr k me) = mp :: mps.

Lemma thr_give mp t k x :
  thr (upd_thr t (fun th => with_mtxlist (mp :: t_mtxlist th) th) (set_owner mp (Some t) k)) x =
  if decide (x = t) then with_mtxlist (mp :: t_mtxlist (thr k t)) (thr k t) else thr k x.
Proof. by rewrite thr_upd. Qed.

(** A change of the mutexes' owners, of one thread's list, or of both. *)
Lemma mtx_give_ok X mp t k :
  mtx_but X k -> m_owner k mp = None ->
  mtx_but X (upd_thr t (fun th => with_mtxlist (mp :: t_mtxlist th) th) (set_owner mp (Some t) k)).
Proof.
  intros [H1 H2 H3 H4 H5 H6 H7 H8] Ho.
  set (k' := upd_thr t (fun th => with_mtxlist (mp :: t_mtxlist th) th) (set_owner mp (Some t) k)).
  assert (Hp : forall x, prio_of k' x = prio_of k x) by (intros x; unfold prio_of, k'; rewrite thr_give; by case_decide; subst).
  assert (Hr : forall x, t_realprio (thr k' x) = t_realprio (thr k x)) by (intros x; unfold k'; rewrite thr_give; by case_decide; subst).
  assert (Hnot : forall x, mp ∉ t_mtxlist (thr k x)) by (intros x Hx; apply H1 in Hx; congruence).
  constructor.
  - intros m x. unfold k'. rewrite thr_give. change (m_owner (upd_thr _ _ ?k)) with (m_owner k). rewrite owner_set.
    case_decide as Hm; case_decide as Hx; subst; simpl; rewrite ?elem_of_cons, ?H1.
    + naive_solver.
    + split; [naive_solver|intros Hin; by destruct (Hnot x)].
    + split; [by right|intros [|]; [done|done]].
    + done.
  - intros x. unfold k'. rewrite thr_give. case_decide; subst; [constructor; [apply Hnot|apply H2]|apply H2].
  - intros m. change (m_owner k') with (m_owner (set_owner mp (Some t) k)). rewrite owner_set.
    case_decide; [done|apply H3].
  - intros m. eapply sorted_ext; [|apply H4]. auto.
  - intros c. eapply sorted_ext; [|apply H5]. auto.
  - intros x. rewrite Hr. unfold k'. rewrite thr_give. case_decide; subst; apply H6.
  - intros x. rewrite Hp, Hr. apply H7.
  - intros x HX. rewrite Hp, Hr. destruct (H8 x HX) as [|(m & w & Hm & Hw & Hle)]; [by left|]. right.
    exists m, w. rewrite Hp. split_and!; [|done|done]. unfold k'. rewrite thr_give. case_decide; subst; [by right|done].
Qed.

(** Any change of the current thread that keeps its priority and its state,
    with the mutexes marked. *)
Lemma wfx_upd_current f me k E :
  wfx E k -> currp k = me -> XThr me ∉ E -> XMtx ∈ E ->
  (forall th, t_link (f th) = t_link th /\ t_prio (f th) = t_prio th /\ t_state (f th) = t_state th) ->
  wfx E (upd_thr me f k).
Proof.
  intros W Hc He Hmx Hf. assert (Hst : t_state (thr k me) = CURRENT) by (rewrite <- Hc in *; by apply W).
  assert (Hl : t_link (thr k me) = None) by (rewrite <- Hc in *; by eapply current_link).
  destruct (Hf (thr k me)) as (Hfl & Hfp & Hfs).
  assert (W1 : wfx (XThr me :: XTop :: E) (upd_thr me f k)).
  { apply wfx_upd_free; try done; [by left|by right; right|intros _; right; by left|congruence| | | |].
    - rewrite Hfp, Hfs. apply W.
    - rewrite Hfs. congruence.
    - right. congruence.
    - eapply wfx_mono; [|exact W]. intros e ?. by right; right. }
  assert (Hstate : t_state (thr (upd_thr me f k) me) = CURRENT) by (rewrite thr_upd_eq; congruence).
  assert (Wt : wfx (XTop :: E) (upd_thr me f k)).
  { apply (wfx_settle _ me); [| |by auto|by left|done].
    - unfold state_ok. rewrite Hstate, thr_upd_eq. split; [congruence|done].
    - done. }
  destruct (decide (XTop ∈ E)) as [Hin|Hout].
  - eapply wfx_mono; [|exact Wt]. intros e [->|]%elem_of_cons; done.
  - apply wfx_settle_top; [|done]. intros x Hx. rewrite !prio_upd by done. by apply (x_top _ _ W).
Qed.

Lemma mtx_take me mp k0 k :
  wfx [] k -> currp k = me -> guar me k0 k -> m_owner k mp = None ->
  exists k', mtx_give mp me k = KRet k' tt /\ wf k' /\ currp k' = me /\ guar me k0 k' /\ vtlist k' = vtlist k /\
    locked mp me (t_mtxlist (thr k me)) k'.
Proof.
  intros W Hc Hg Ho. eexists. split; [reflexivity|].
  set (k' := upd_thr me (fun th => with_mtxlist (mp :: t_mtxlist th) th) (set_owner mp (Some me) k)).
  assert (W' : wfx [XMtx] k').
  { apply wfx_upd_current; [|done|set_solver|set_solver|done]. apply wfx_owner; [set_solver|].
    eapply wfx_mono; [|exact W]. set_solver. }
  split_and!; [|done| |done|].
  - apply wfx_settle_mtx; [|done]. apply mtx_give_ok; [|done]. apply W. set_solver.
  - etrans; [done|]. etrans; [by apply (guar_same me k (set_owner mp (Some me) k))|]. apply guar_upd_me.
  - unfold locked. unfold k'. rewrite thr_upd_eq. split; [|done].
    change (m_owner (upd_thr _ _ ?k)) with (m_owner k). by rewrite owner_set, decide_True.
Qed.

(** [me] at its place among the waiters of [mp]. *)
Definition mtx_queued (mp me : Z) (k : kernel) : kernel :=
  upd_thr me (with_u (UObj (QMtx mp))) (enq me (QMtx mp) (pinsert (prio_of k) me (queues k (QMtx mp))) k).

Lemma thr_queued mp me k x :
  thr (mtx_queued mp me k) x =
  if decide (x = me) then with_u (UObj (QMtx mp)) (with_link (Some (QMtx mp)) (thr k me)) else thr k x.
Proof. unfold mtx_queued. rewrite thr_upd, !thr_enq. by repeat case_decide; subst. Qed.

Lemma queues_queued mp me k q :
  queues (mtx_queued mp me k) q =
  if decide (q = QMtx mp) then pinsert (prio_of k) me (queues k (QMtx mp)) else queues k q.
Proof. unfold mtx_queued. by rewrite queues_upd, queues_enq. Qed.

Lemma prio_queued mp me k x : prio_of (mtx_queued mp me k) x = prio_of k x.
Proof. unfold prio_of. rewrite thr_queued. by case_decide; subst. Qed.

Lemma queued_in mp me k x m :
  x ∈ queues (mtx_queued mp me k) (QMtx m) <-> x ∈ queues k (QMtx m) \/ (x = me /\ m = mp).
Proof.
  rewrite queues_queued. case_decide as Hm; [injection Hm as ->; rewrite pinsert_perm, elem_of_cons|]; naive_solver.
Qed.

(** Once [me] waits, the priority its owner has is excused. *)
Lemma mtx_queued_ok mp me t0 k :
  mtx_but (Some t0) k -> m_owner k mp = Some t0 ->
  (prio_of k t0 <= t_realprio (thr k t0) \/
   (exists m w, m ∈ t_mtxlist (thr k t0) /\ w ∈ queues k (QMtx m) /\ prio_of k t0 <= prio_of k w) \/
   prio_of k t0 <= prio_of k me) ->
  mtx_ok (mtx_queued mp me k).
Proof.
  intros [H1 H2 H3 H4 H5 H6 H7 H8] Ho Hup.
  assert (Hm : forall x, t_mtxlist (thr (mtx_queued mp me k) x) = t_mtxlist (thr k x))
    by (intros x; rewrite thr_queued; by case_decide; subst).
  assert (Hr : forall x, t_realprio (thr (mtx_queued mp me k) x) = t_realprio (thr k x))
    by (intros x; rewrite thr_queued; by case_decide; subst).
  assert (Hs : forall x, t_state (thr (mtx_queued mp me k) x) = t_state (thr k x))
    by (intros x; rewrite thr_queued; by case_decide; subst).
  assert (Hext : forall l, StronglySorted (by_prio (prio_of k)) l -> StronglySorted (by_prio (prio_of (mtx_queued mp me k))) l)
    by (intros l; apply sorted_ext; intros; apply prio_queued).
  constructor.
  - intros m x. rewrite Hm. apply H1.
  - intros x. rewrite Hm. apply H2.
  - intros m. change (m_owner (mtx_queued mp me k)) with (m_owner k). intros Hom.
    rewrite queues_queued, decide_False by congruence. by apply H3.
  - intros m. apply Hext. rewrite queues_queued. case_decide; [apply pinsert_sorted|]; apply H4.
  - intros c. apply Hext. rewrite queues_queued, decide_False by done. apply H5.
  - intros x. rewrite Hs, Hr. apply H6.
  - intros x. rewrite prio_queued, Hr. apply H7.
  - intros x _. rewrite prio_queued, Hr, Hm.
    assert (Hk : (exists m w, m ∈ t_mtxlist (thr k x) /\ w ∈ queues k (QMtx m) /\ prio_of k x <= prio_of k w) ->
      exists m w, m ∈ t_mtxlist (thr k x) /\ w ∈ queues (mtx_queued mp me k) (QMtx m) /\
        prio_of k x <= prio_of (mtx_queued mp me k) w).
    { intros (m & w & ? & ? & ?). exists m, w. rewrite queued_in, prio_queued. auto. }
    destruct (decide (x = t0)) as [->|Hx].
    + destruct Hup as [|[|Hle]]; [by left|by right; apply Hk|]. right. exists mp, me.
      rewrite queued_in, prio_queued. split_and!; [by apply H1|by right|done].
    + destruct (H8 x ltac:(congruence)); [by left|by right; apply Hk].
Qed.

Lemma mtx_queued_wfx mp me k :
  wfx [XMtx] k -> mtx_ok (mtx_queued mp me k) -> currp k = me -> ~ armed k me ->
  wfx [XThr me; XTop] (mtx_queued mp me k) /\ may_sleep WTMTX me (mtx_queued mp me k).
Proof.
  intros W M Hc Ha.
  assert (Hl : t_link (thr k me) = None) by (rewrite <- Hc; eapply current_link; [done|set_solver]).
  assert (Hst : t_state (thr k me) = CURRENT) by (rewrite <- Hc; apply W; set_solver). split.
  - apply wfx_settle_mtx; [done|]. unfold mtx_queued. apply wfx_upd; [set_solver|done|..].
    + done.
    + rewrite thr_enq, decide_True by done. simpl. by rewrite Hst.
    + apply wfx_enq; [set_solver|done|apply pinsert_perm|simpl; set_solver|done|done|done|].
      eapply wfx_mono; [|exact W]. set_solver.
  - unfold may_sleep. split_and!; try done. unfold state_ok. rewrite thr_upd_eq, thr_queued, decide_True by done.
    simpl. by exists mp.
Qed.

(** The loop as [chMtxLockS] runs it: the fuel is enough. *)
Lemma mtx_boost_user me mp t0 k :
  user me k -> m_owner k mp = Some t0 ->
  exists kb, mtx_boost (S (length (registry k))) me t0 k = KRet kb tt /\ boost_done (prio_of k me) t0 t0 mp k kb.
Proof.
  intros (W & Hc & Hna) Ho. pose proof (x_mtx _ _ W ltac:(set_solver)) as M.
  apply (mtx_boost_ok me t0 (prio_of k me)); try done.
  - eapply wfx_mono; [|exact W]. set_solver.
  - destruct M as [H1 H2 H3 H4 H5 H6 H7 H8]. constructor; try done. intros t _. by apply H8.
  - by left.
  - apply Nat.lt_succ_r, length_filter.
Qed.

Lemma queued_inherits mp me t0 k k' :
  inherits k -> m_owner k mp = Some t0 -> boost_done (prio_of k me) t0 t0 mp k k' -> prio_of k' me = prio_of k me ->
  inherits k' /\ inherits (mtx_queued mp me k').
Proof.
  intros Hi Ho [B S Wb Mb Ob Kb Ib] Hpm. assert (Hib : inherits k').
  { apply Ib; [intros m t w _; by apply Hi|]. intros w Hw. pose proof (Hi mp t0 w ltac:(done) Ho Hw). lia. }
  split; [done|]. intros m t w _. rewrite queued_in, !prio_queued. change (m_owner (mtx_queued mp me k')) with (m_owner k').
  intros Hm [Hw|[-> ->]]; [by apply (Hib m)|]. rewrite (bo_owner _ _ _ B) in Hm. assert (t = t0) as -> by congruence. lia.
Qed.

Lemma mtx_lock_waits me mp t0 k :
  user me k -> m_owner k mp = Some t0 ->
  exists k', (mtx_boost (S (length (registry k))) me t0;; k_prio_insert me (QMtx mp);; upd me (with_u (UObj (QMtx mp)))) k
             = KRet k' tt /\
    wfx [XThr me; XTop] k' /\ may_sleep WTMTX me k' /\ guar me k k' /\ currp k' = me /\
    vtlist k' = vtlist k /\ thr k' me = with_u (UObj (QMtx mp)) (with_link (Some (QMtx mp)) (thr k me)).
Proof.
  intros Hu Ho. pose proof Hu as (W & Hc & Hna). pose proof (x_mtx _ _ W ltac:(set_solver)) as M.
  destruct (mtx_boost_user me mp t0 k Hu Ho) as (kb & Eb & [B S Wb Mb Ob Kb Ib]).
  assert (Hpm : prio_of kb me = prio_of k me) by (eapply boosted_high; [exact B|lia]).
  assert (Hcb : currp kb = me) by (by rewrite (bo_currp _ _ _ B)).
  assert (Mq : mtx_ok (mtx_queued mp me kb)).
  { apply (mtx_queued_ok mp me t0); [done|by rewrite (bo_owner _ _ _ B)|].
    rewrite Hpm. destruct (bo_prio _ _ _ B t0) as [He|[_ He]]; [|right; right; lia].
    rewrite He, (bo_thr _ _ _ B). simpl. destruct (mx_upper _ _ M t0 ltac:(done)) as [|(m & w & Hm & Hw & Hle)]; [by left|].
    right. left. exists m, w. rewrite (boosted_in _ _ _ B). split_and!; [done|done|].
    pose proof (boosted_le _ _ _ B w). lia. }
  destruct (mtx_queued_wfx mp me kb Wb Mq Hcb) as [Wq Sq].
  { unfold armed in *. by rewrite (bo_vts _ _ _ B). }
  assert (Hme : thr kb me = thr k me) by (rewrite (bo_thr _ _ _ B), Hpm; apply with_prio_same).
  exists (mtx_queued mp me kb). split_and!; try done.
  - by erewrite kbind_ret by exact Eb.
  - etrans; [apply (boosted_guar _ _ _ B)|]. unfold mtx_queued.
    etrans; [|apply guar_upd_me]. apply guar_enq. by right.
  - exact (bo_vts _ _ _ B).
  - rewrite thr_queued, decide_True, Hme; done.
Qed.

(** [chMtxLock] returns to a thread that has the mutex on top of those it had;
    a free mutex is taken at once. *)
Lemma chMtxLock_seg me mp k :
  user me k -> me <> idle ->
  seg me (fun k1 _ k' => post me k k1 k' /\ (m_owner k mp = None -> k1 = k) /\
            (mp ∉ t_mtxlist (thr k me) -> locked mp me (t_mtxlist (thr k me)) k')) k (chMtxLock mp k).
Proof.
  intros Hu Hi. pose proof Hu as (W & Hc & Hna). destruct (user_current _ _ Hu) as [Hst Hl].
  unfold chMtxLock, chMtxLockS. apply seg_get. rewrite Hc. destruct (m_owner k mp) as [t0|] eqn:Ho.
  - destruct (mtx_lock_waits me mp t0 k Hu Ho) as (k' & Ek & Wk & Sk & Gk & Ck & Vk & Tk).
    unfold seg. rewrite (kbind_then3 _ _ _ _ _ _ Ek). eapply go_sleep_reg; try done.
    + by rewrite Tk.
    + eapply wfx_mono; [|exact Wk]. set_solver.
    + intros t Ht. left. apply (x_reg _ _ Wk); [set_solver|done].
    + intros k2 W2 C2 A2 _ M2. split; [apply post_resumed; [done..|]; unfold armed in *; by rewrite Vk in A2|].
      split; [done|]. intros Hn. rewrite Tk in M2.
      assert (Hcur : t_state (thr k2 me) = CURRENT) by (rewrite <- C2; apply W2; set_solver).
      assert (Hp2 : pending (thr k2 me) = None) by (apply not_pending; by rewrite Hcur).
      assert (Hpm : pending (with_state WTMTX (with_u (UObj (QMtx mp)) (with_link (Some (QMtx mp)) (thr k me)))) = Some mp).
      { unfold pending. simpl. by rewrite decide_False. }
      destruct M2 as [[Hx _]|(m & Hx & _ & Hm)]; [congruence|].
      assert (m = mp) as -> by congruence. split; [|done]. apply (mx_owner _ _ (x_mtx _ _ W2 ltac:(set_solver))).
      rewrite Hm. by left.
  - destruct (mtx_take me mp k k W Hc ltac:(reflexivity) Ho) as (k' & Ek & Wk & Ck & Gk & Vk & Lk).
    eapply seg_done; [exact Ek|]. split; [|done]. unfold post. split_and!; [done..|]. unfold armed. by rewrite Vk.
Qed.

#[export] Instance chMtxLock_service mp : Service (fun me _ => me <> idle) (chMtxLock mp).
Proof. intros me k Hu Hi. eapply seg_mono; [|by apply chMtxLock_seg]. by intros k1 a k' [Hp _]. Qed.

(** ** Trying *)

Lemma chMtxTryLock_ok me mp k :
  user me k ->
  exists k', chMtxTryLock mp k = KRet k' (bool_decide (m_owner k mp = None)) /\ post me k k k' /\
    (m_owner k mp = None -> locked mp me (t_mtxlist (thr k me)) k') /\ (m_owner k mp <> None -> k' = k).
Proof.
  intros Hu. pose proof Hu as (W & Hc & Hna). unfold chMtxTryLock, chMtxTryLockS. rewrite kget_bind, Hc.
  destruct (m_owner k mp) as [t|] eqn:Ho.
  - exists k. split_and!; [done|by apply post_start|done|done].
  - destruct (mtx_take me mp k k W Hc ltac:(reflexivity) Ho) as (k' & Ek & Wk & Ck & Gk & Vk & Lk).
    exists k'. split_and!; [by erewrite kbind_ret by exact Ek| |done|done].
    unfold post. split_and!; [done..|]. unfold armed. by rewrite Vk.
Qed.

#[export] Instance chMtxTryLock_service mp : Service (fun _ _ => True) (chMtxTryLock mp).
Proof.
  intros me k Hu _. destruct (chMtxTryLock_ok me mp k Hu) as (k' & Ek & Hp & _).
  eapply seg_done; [exact Ek|exact Hp].
Qed.

(** ** Unlocking *)

(** The mutex [ump] on top of [me]'s goes to [o], with its waiters [l] left, and
    [me] has the priority [np]. *)
Record moved (me ump : Z) (mps : list Z) (np : Z) (o : option Z) (l : list Z) (k k' : kernel) : Prop := {
  mv_owner m : m_owner k' m = if decide (m = ump) then o else m_owner k m;
  mv_mtx m : queues k' (QMtx m) = if decide (m = ump) then l else queues k (QMtx m);
  mv_cond c : queues k' (QCond c) = queues k (QCond c);
  mv_list x : t_mtxlist (thr k' x) = if decide (o = Some x) then ump :: t_mtxlist (thr k x)
                                     else if decide (x = me) then mps else t_mtxlist (thr k x);
  mv_prio x : prio_of k' x = if decide (x = me) then np else prio_of k x;
  mv_real x : t_realprio (thr k' x) = t_realprio (thr k x);
  mv_state x : t_state (thr k' x) = t_state (thr k x)
}.

(** Every waiter of a mutex of [mps] and the thread itself allow the priority
    [np]. *)
Definition prio_due (me : Z) (mps : list Z) (np : Z) (k : kernel) : Prop :=
  np <= t_realprio (thr k me) \/
  exists m w, m ∈ mps /\ w ∈ queues k (QMtx m) /\ np <= prio_of k w.

Section Moved.

Context (me ump : Z) (mps : list Z) (np : Z) (o : option Z) (l : list Z) (X X' : option Z) (k k' : kernel).
Context (M : mtx_but X k) (HV : moved me ump mps np o l k k').
Context (Hme : t_mtxlist (thr k me) = ump :: mps) (Ho : o <> Some me) (Hl : sublist l (queues k (QMtx ump))).
Context (Hnone : o = None -> l = []) (Hfree : forall q, me ∉ queues k q).

Lemma moved_ump x : ump ∈ t_mtxlist (thr k x) -> x = me.
Proof using M Hme.
  intros Hx. apply (mx_owner _ _ M) in Hx. assert (m_owner k ump = Some me) by (apply (mx_owner _ _ M); rewrite Hme; by left).
  congruence.
Qed.

Lemma moved_prio q x : x ∈ queues k q -> prio_of k' x = prio_of k x.
Proof using HV Hfree. intros Hx. rewrite (mv_prio _ _ _ _ _ _ _ _ HV), decide_False; [done|]. by intros ->; apply Hfree in Hx. Qed.

Lemma mtx_moved :
  t_realprio (thr k me) <= np -> (X' <> Some me -> prio_due me mps np k) ->
  (forall t, t <> me -> X' <> Some t -> X <> Some t) -> mtx_but X' k'.
Proof using M HV Hme Ho Hl Hnone Hfree.
  intros Hlow Hup HX. destruct HV as [Vo Vm Vc Vl Vp Vr Vs]. pose proof M as [H1 H2 H3 H4 H5 H6 H7 H8].
  assert (Hnd : ump ∉ mps /\ NoDup mps) by (pose proof (H2 me) as Hn; rewrite Hme in Hn; by apply NoDup_cons in Hn).
  assert (Hin : forall m x, m <> ump -> m ∈ t_mtxlist (thr k' x) <-> m ∈ t_mtxlist (thr k x)).
  { intros m x Hm. rewrite Vl. repeat case_decide; subst; rewrite ?elem_of_cons; [naive_solver| |done].
    rewrite Hme, elem_of_cons. naive_solver. }
  assert (Hum : forall x, ump ∈ t_mtxlist (thr k' x) <-> o = Some x).
  { intros x. rewrite Vl. repeat case_decide; subst.
    - split; [done|intros _; by left].
    - split; [intros Hx; by destruct (proj1 Hnd)|done].
    - split; [intros Hx; by apply moved_ump in Hx|done]. }
  assert (Hsub : forall m, sublist (queues k' (QMtx m)) (queues k (QMtx m))) by (intros m; rewrite Vm; by case_decide; subst).
  constructor.
  - intros m x. rewrite Vo. case_decide as Hm; [subst; by rewrite Hum|]. rewrite (Hin m x Hm). apply H1.
  - intros x. rewrite Vl. repeat case_decide; subst; [|apply Hnd|apply H2].
    constructor; [|apply H2]. intros Hx. apply moved_ump in Hx. congruence.
  - intros m. rewrite Vo, Vm. case_decide; [done|apply H3].
  - intros m. eapply (sorted_ext (prio_of k)); [|eapply sorted_sublist; [apply Hsub|apply H4]].
    intros t Ht. apply (moved_prio (QMtx m)). by eapply elem_of_sublist.
  - intros c. rewrite Vc. eapply sorted_ext; [|apply H5]. intros t. apply moved_prio.
  - intros x. rewrite Vs, Vr. apply H6.
  - intros x. rewrite Vp, Vr. case_decide; subst; [done|apply H7].
  - intros x Hx.
    assert (Hw : forall m w, m <> ump -> m ∈ t_mtxlist (thr k x) -> w ∈ queues k (QMtx m) -> prio_of k' x <= prio_of k w ->
      exists m w, m ∈ t_mtxlist (thr k' x) /\ w ∈ queues k' (QMtx m) /\ prio_of k' x <= prio_of k' w).
    { intros m w Hm Hmx Hwm Hle. exists m, w. rewrite Hin, Vm, decide_False, (moved_prio _ _ Hwm) by done. done. }
    rewrite Vr. destruct (decide (x = me)) as [->|Hxm].
    + rewrite Vp, decide_True in Hw |- * by done. destruct (Hup Hx) as [|(m & w & Hm & Hwm & Hle)]; [by left|]. right.
      apply (Hw m w); [intros ->; by destruct (proj1 Hnd)|rewrite Hme; by right|done|done].
    + rewrite Vp, decide_False in Hw |- * by done.
      destruct (H8 x (HX x Hxm Hx)) as [|(m & w & Hm & Hwm & Hle)]; [by left|]. right.
      apply (Hw m w); [intros ->; by apply moved_ump in Hm|done|done|done].
Qed.

End Moved.

(** The recalculated priority is the highest of the thread's own and those of
    the waiters of the mutexes it keeps. *)
Lemma mtx_newprio_max X k mps p :
  mtx_but X k ->
  p <= mtx_newprio k p mps /\
  (mtx_newprio k p mps = p \/ exists m w, m ∈ mps /\ w ∈ queues k (QMtx m) /\ mtx_newprio k p mps = prio_of k w) /\
  (forall m w, m ∈ mps -> w ∈ queues k (QMtx m) -> prio_of k w <= mtx_newprio k p mps).
Proof.
  intros M. revert p. induction mps as [|m0 mps IH]; intros p; cbn [mtx_newprio].
  { split_and!; [lia|by left|by intros m w ?%elem_of_nil]. }
  destruct (queues k (QMtx m0)) as [|w0 l] eqn:Hq.
  - destruct (IH p) as (Hle & Hex & Hall). split_and!; [done| |].
    + destruct Hex as [|(m & w & ? & ? & ?)]; [by left|]. right. exists m, w. split_and!; [by right|done|done].
    + intros m w [->|Hm]%elem_of_cons Hw; [rewrite Hq in Hw; by apply elem_of_nil in Hw|by apply (Hall m)].
  - set (p' := if p <? prio_of k w0 then prio_of k w0 else p).
    assert (Hp' : p <= p' /\ prio_of k w0 <= p' /\ (p' = p \/ p' = prio_of k w0))
      by (unfold p'; destruct (Z.ltb_spec p (prio_of k w0)); lia).
    destruct (IH p') as (Hle & Hex & Hall). split_and!; [lia| |].
    + destruct Hex as [He|(m & w & ? & ? & ?)]; [|right; exists m, w; split_and!; [by right|done|done]].
      destruct (proj2 (proj2 Hp')) as [Hpp|Hpp]; [left; lia|right]. exists m0, w0. rewrite Hq.
      split_and!; [by left|by left|lia].
    + intros m w [->|Hm]%elem_of_cons Hw; [|by apply (Hall m)].
      pose proof (mx_sorted _ _ M m0) as Hs. rewrite Hq in Hs, Hw. apply StronglySorted_inv in Hs as [_ Hs].
      rewrite Forall_forall in Hs. apply elem_of_cons in Hw as [->|Hw]; [lia|]. pose proof (Hs w Hw). unfold by_prio in *. lia.
Qed.

(** [ump] handed over to [tp], its first waiter. *)
Definition handed (ump tp : Z) (l : list Z) (k : kernel) : kernel :=
  upd_thr tp (fun th => with_mtxlist (ump :: t_mtxlist th) th)
    (set_owner ump (Some tp) (deq tp (QMtx ump) l k)).

(** [kg] is [k] after [g] of [me]. *)
Definition did (me : Z) (g : Thread -> Thread) (k kg : kernel) : Prop :=
  (forall x, thr kg x = thr (upd_thr me g k) x) /\ queues kg = queues k /\ currp kg = currp k /\
  s_cnt kg = s_cnt k /\ m_owner kg = m_owner k /\ vtlist kg = vtlist k /\ registry kg = registry k /\
  ioq kg = ioq k.

(** [g] changes the mutexes and the priority of a thread, to [mps] and [np]. *)
Definition own_change (g : Thread -> Thread) (mps : list Z) (np : Z) (th : Thread) : Prop :=
  t_link (g th) = t_link th /\ t_state (g th) = t_state th /\ t_realprio (g th) = t_realprio th /\
  t_mtxlist (g th) = mps /\ t_prio (g th) = np.

Lemma wfx_own_change me g mps np k :
  wfx [XTop; XMtx] k -> currp k = me -> own_change g mps np (thr k me) -> NOPRIO < np ->
  wfx [XTop; XMtx] (upd_thr me g k).
Proof.
  intros W Hc (Gl & Gs & Gr & Gm & Gp) Hnp.
  assert (Hst : t_state (thr k me) = CURRENT) by (rewrite <- Hc; apply W; set_solver).
  assert (Hlk : t_link (thr k me) = None) by (rewrite <- Hc; eapply current_link; [done|set_solver]).
  apply (wfx_settle _ me).
  - unfold state_ok. rewrite thr_upd_eq, Gs, Hst. split; [congruence|done].
  - intros _. by rewrite thr_upd_eq, Gs.
  - intros _. right. by rewrite thr_upd_eq, Gs.
  - by left.
  - apply wfx_upd_free; [set_solver|set_solver|set_solver|done|congruence|by rewrite Gp|congruence|right; congruence|].
    eapply wfx_mono; [|exact W]. set_solver.
Qed.

Lemma wfx_did E me g k kg : did me g k kg -> wfx E (upd_thr me g k) -> wfx E kg.
Proof.
  intros (Ht & Hq & Hc & Hs & Ho & Hv & Hr & Hi). apply wfx_ext; try done; intros q; by rewrite ?Hq, ?Hi.
Qed.

(** Handing over, after the owner changed its own fields: the threads, the queues and what moved. *)
Lemma handed_thr me g ump tp l k kg x :
  did me g k kg -> tp <> me ->
  thr (handed ump tp l kg) x = if decide (x = tp) then with_mtxlist (ump :: t_mtxlist (thr k tp)) (with_link None (thr k tp))
    else if decide (x = me) then g (thr k me) else thr k x.
Proof.
  intros (Dt & _) Htm. unfold handed. rewrite thr_upd, thr_owner, !thr_deq, (decide_True (P := tp = tp)), !Dt by done.
  case_decide; subst; [by rewrite thr_upd_ne|]. by rewrite thr_upd.
Qed.

Lemma handed_queues me g ump tp l k kg q : did me g k kg -> queues (handed ump tp l kg) q = if decide (q = QMtx ump) then l else queues k q.
Proof. intros (_ & Dq & _). rewrite <- Dq. exact (queues_deq tp (QMtx ump) l kg q). Qed.

Lemma handed_moved me g ump mps np tp l k kg :
  did me g k kg -> own_change g mps np (thr k me) -> t_mtxlist (thr k me) = ump :: mps -> tp <> me -> moved me ump mps np (Some tp) l k (handed ump tp l kg).
Proof.
  intros Hd (Gl & Gs & Gr & Gm & Gp) Hml Htm. pose proof Hd as (_ & _ & _ & _ & Do & _). constructor.
  - intros m. rewrite <- Do. exact (owner_set ump (Some tp) (deq tp (QMtx ump) l kg) m).
  - intros m. rewrite (handed_queues me g ump tp l k kg) by done. by repeat case_decide; simplify_eq.
  - intros c. by rewrite (handed_queues me g ump tp l k kg).
  - intros x. rewrite (handed_thr me g ump tp l k kg) by done. repeat case_decide; simplify_eq; try done.
  - intros x. unfold prio_of. rewrite (handed_thr me g ump tp l k kg) by done. by repeat case_decide; subst.
  - intros x. rewrite (handed_thr me g ump tp l k kg) by done. by repeat case_decide; subst.
  - intros x. rewrite (handed_thr me g ump tp l k kg) by done. by repeat case_decide; subst.
Qed.

Lemma handed_ok X X' me ump mps g np tp l k kg :
  wfx [XTop; XMtx] k -> mtx_but X k -> currp k = me -> t_mtxlist (thr k me) = ump :: mps ->
  queues k (QMtx ump) = tp :: l -> own_change g mps np (thr k me) -> NOPRIO < np -> t_realprio (thr k me) <= np ->
  (X' <> Some me -> prio_due me mps np k) -> (forall t, t <> me -> X' <> Some t -> X <> Some t) ->
  did me g k kg ->
  let k' := handed ump tp l kg in
  wfx [XThr tp; XTop; XMtx] k' /\ mtx_but X' k' /\ guar me k k' /\ may_wake tp k' /\ tp <> me /\
  moved me ump mps np (Some tp) l k k' /\ thr k' me = g (thr k me) /\ t_state (thr k' tp) = WTMTX /\
  (forall q, q <> QMtx ump -> queues k' q = queues k q).
Proof.
  intros W M Hc Hml Hq Hg Hnp Hlow Hup HX Hd k'. pose proof Hg as (Gl & Gs & Gr & Gm & Gp).
  assert (Wg : wfx [XTop; XMtx] kg) by (eapply wfx_did; [exact Hd|by eapply wfx_own_change]).
  pose proof Hd as (Dt & Dq & Dc & Ds & Do & Dv & Dr & _).
  assert (Hlk : t_link (thr k me) = None) by (rewrite <- Hc; eapply current_link; [done|set_solver]).
  assert (Htl : t_link (thr k tp) = Some (QMtx ump)) by (apply (x_link _ _ W); rewrite Hq; by left).
  assert (Htm : tp <> me) by congruence.
  destruct (mtx_link _ k tp ump W ltac:(set_solver) Htl) as [Hts Htu].
  pose proof (fun x => handed_thr me g ump tp l k kg x Hd Htm) as Hth. pose proof (fun q => handed_queues me g ump tp l k kg q Hd) as Hqs.
  pose proof (handed_moved me g ump mps np tp l k kg Hd Hg Hml Htm) as HV. fold k' in Hth, Hqs, HV.
  assert (Hnot : ump ∉ t_mtxlist (thr k tp)).
  { intros Hin. apply Htm. by eapply (moved_ump me ump mps). }
  assert (Wd : wfx [XThr tp; XTop; XMtx] (deq tp (QMtx ump) l kg)).
  { apply wfx_deq; [by rewrite Dq, Hq|rewrite Dq, Hq; by constructor|simpl; set_solver|done]. }
  assert (Hkg : thr kg tp = thr k tp) by (by rewrite Dt, thr_upd_ne).
  split_and!; try done.
  - apply wfx_upd_free; [set_solver|set_solver|set_solver|..|apply wfx_owner; [set_solver|done]].
    + by rewrite thr_owner, thr_deq, decide_True.
    + by rewrite thr_owner, thr_deq, decide_True.
    + rewrite thr_owner, thr_deq, decide_True, Hkg by done. apply W.
    + rewrite thr_owner, thr_deq, decide_True, Hkg by done. simpl. by rewrite Hts.
    + right. rewrite thr_owner, thr_deq, decide_True, Hkg by done. simpl. by rewrite Hts.
  - eapply (mtx_moved me ump mps np (Some tp) l X X' k k'); try done; [congruence|rewrite Hq; by constructor|].
    intros q Hin. apply (x_link _ _ W) in Hin. congruence.
  - intros x Hx. unfold rely. rewrite Hqs, Hth, decide_False by done. split_and!; [|done|..].
    + unfold armed. change (vtlist k') with (vtlist kg). by rewrite Dv.
    + intros Hw. left. rewrite decide_False; [by rewrite decide_False|]. congruence.
    + case_decide; [subst x|rewrite decide_False by done; reflexivity]. right. exists ump. unfold pending. simpl.
      rewrite Hts, Htu, decide_False by done. rewrite decide_True by (by left). done.
  - unfold may_wake. change (currp k') with (currp kg). rewrite Dc, Hqs, Hth, !decide_True by done. simpl.
    rewrite Hts. split_and!; try done; [congruence|]. unfold pending. simpl. rewrite Hts, Htu.
    by rewrite decide_True by (by left).
  - by rewrite Hth, decide_False, decide_True.
  - by rewrite Hth, decide_True.
  - intros q Hne. by rewrite Hqs, decide_False.
Qed.

(** [ump] released, nobody waiting for it. *)
Lemma freed_ok X X' me ump mps g np k kg :
  wfx [XTop; XMtx] k -> mtx_but X k -> currp k = me -> t_mtxlist (thr k me) = ump :: mps ->
  queues k (QMtx ump) = [] -> own_change g mps np (thr k me) -> NOPRIO < np -> t_realprio (thr k me) <= np ->
  (X' <> Some me -> prio_due me mps np k) -> (forall t, t <> me -> X' <> Some t -> X <> Some t) ->
  did me g k kg ->
  let k' := set_owner ump None kg in
  wfx [XTop; XMtx] k' /\ mtx_but X' k' /\ guar me k k' /\ moved me ump mps np None [] k k' /\ thr k' me = g (thr k me).
Proof.
  intros W M Hc Hml Hq Hg Hnp Hlow Hup HX Hd k'. pose proof Hg as (Gl & Gs & Gr & Gm & Gp).
  assert (Wg : wfx [XTop; XMtx] kg) by (eapply wfx_did; [exact Hd|by eapply wfx_own_change]).
  destruct Hd as (Dt & Dq & Dc & Ds & Do & Dv & Dr & _).
  assert (Hlk : t_link (thr k me) = None) by (rewrite <- Hc; eapply current_link; [done|set_solver]).
  assert (Hth : forall x, thr k' x = if decide (x = me) then g (thr k me) else thr k x).
  { intros x. change (thr k') with (thr kg). by rewrite Dt, thr_upd. }
  assert (HV : moved me ump mps np None [] k k').
  { constructor.
    - intros m. rewrite <- Do. exact (owner_set ump None kg m).
    - intros m. change (queues k') with (queues kg). rewrite Dq. case_decide; by subst.
    - intros c. change (queues k') with (queues kg). by rewrite Dq.
    - intros x. rewrite Hth. by repeat case_decide; simplify_eq.
    - intros x. unfold prio_of. rewrite Hth. by repeat case_decide; subst.
    - intros x. rewrite Hth. by repeat case_decide; subst.
    - intros x. rewrite Hth. by repeat case_decide; subst. }
  split_and!; [apply wfx_owner; [set_solver|done]| |..|done|by rewrite Hth, decide_True].
  - eapply (mtx_moved me ump mps np None [] X X' k k'); try done; [rewrite Hq; by constructor|].
    intros q Hin. apply (x_link _ _ W) in Hin. congruence.
  - apply guar_same; [done|intros t; change (queues k') with (queues kg); by rewrite Dq|].
    intros t Ht. by rewrite Hth, decide_False.
Qed.

Lemma did_two me f g k : did me (fun th => g (f th)) k (upd_thr me g (upd_thr me f k)).
Proof. unfold did. split_and!; try done. intros x. rewrite !thr_upd. by repeat case_decide; subst. Qed.

Lemma did_one me g k : did me g k (upd_thr me g k).
Proof. by unfold did. Qed.

(** The priority of the thread that unlocks. *)
Definition unlock_prio (me ump : Z) (mps : list Z) (k : kernel) : Z :=
  match queues k (QMtx ump) with [] => prio_of k me | _ => mtx_newprio k (t_realprio (thr k me)) mps end.

Section Unlock.

Context (me ump : Z) (mps : list Z) (k : kernel).
Context (Hu : user me k) (Hml : t_mtxlist (thr k me) = ump :: mps).

Lemma unlock_mtx : mtx_ok k.
Proof using Hu Hml. destruct Hu as (W & _). apply W. set_solver. Qed.

Lemma unlock_pos : NOPRIO < prio_of k me /\ NOPRIO < t_realprio (thr k me).
Proof using Hu Hml.
  destruct (user_current _ _ Hu) as [Hst _]. split; [apply Hu|apply unlock_mtx]; by rewrite Hst.
Qed.

(** The waiters of [ump] are no more urgent than its first one. *)
Lemma waiters_below tp l w : queues k (QMtx ump) = tp :: l -> w ∈ queues k (QMtx ump) -> prio_of k w <= prio_of k tp.
Proof using Hu Hml.
  intros Hq Hw. pose proof (mx_sorted _ _ unlock_mtx ump) as Hs. rewrite Hq in Hs, Hw.
  apply StronglySorted_inv in Hs as [_ Hs]. rewrite Forall_forall in Hs.
  apply elem_of_cons in Hw as [->|Hw]; [lia|]. by apply Hs.
Qed.

Lemma unlock_top tp l x :
  queues k (QMtx ump) = tp :: l -> x ∈ queues k QReady ->
  prio_of k x <= Z.max (mtx_newprio k (t_realprio (thr k me)) mps) (prio_of k tp).
Proof using Hu Hml.
  intros Hq Hx. pose proof Hu as (W & Hc & _). pose proof (x_top _ _ W ltac:(set_solver) x Hx) as Hxm. rewrite Hc in Hxm.
  destruct (mtx_newprio_max None k mps (t_realprio (thr k me)) unlock_mtx) as (Hle & _ & Hall).
  destruct (mx_upper _ _ unlock_mtx me ltac:(done)) as [|(m & w & Hm & Hw & Hmw)]; [lia|].
  rewrite Hml in Hm. apply elem_of_cons in Hm as [->|Hm].
  - pose proof (waiters_below tp l w Hq Hw). lia.
  - pose proof (Hall m w Hm Hw). lia.
Qed.

(** Nobody waits: the mutex is free, and that is all. *)
Lemma unlock_free wake :
  queues k (QMtx ump) = [] ->
  exists k', mtx_unlock wake k = KRet k' ump /\ post me k k k' /\ moved me ump mps (prio_of k me) None [] k k' /\
    queues k' = queues k /\ vtlist k' = vtlist k.
Proof using Hu Hml.
  intros Hq. pose proof Hu as (W & Hc & Hna). destruct (user_current _ _ Hu) as [Hst Hl].
  set (kg := upd_thr me (with_mtxlist mps) k). exists (set_owner ump None kg).
  destruct (freed_ok None None me ump mps (with_mtxlist mps) (prio_of k me) k kg) as (W' & M' & G' & V' & T'); try done.
  { exact (user_marks _ _ _ Hu). } { exact unlock_mtx. } { apply unlock_pos. } { apply unlock_mtx. }
  { intros _. destruct (mx_upper _ _ unlock_mtx me ltac:(done)) as [|(m & w & Hm & Hw & Hmw)]; [by left|].
    right. exists m, w. split_and!; [|done|done]. rewrite Hml in Hm. apply elem_of_cons in Hm as [->|]; [|done].
    rewrite Hq in Hw. by apply elem_of_nil in Hw. }
  split_and!; [|unfold post; split_and!|..]; try done.
  - unfold mtx_unlock. rewrite kget_bind, Hc. cbv zeta. rewrite Hml. unfold upd. rewrite kmod_bind.
    unfold chMtxQueueNotEmptyS, k_notempty. rewrite Hq. done.
  - apply wfx_settle_top, wfx_settle_mtx; [|done|eapply wfx_mono; [|exact W']; set_solver].
    intros x Hx. change (x ∈ queues k QReady) in Hx. rewrite !(mv_prio _ _ _ _ _ _ _ _ V').
    change (currp (set_owner ump None kg)) with (currp k). rewrite Hc, (decide_True (P := me = me)) by done.
    pose proof (x_top _ _ W ltac:(set_solver) x Hx) as Hle. rewrite Hc in Hle. case_decide; [lia|done].
Qed.

(** Somebody waits: the first waiter is given the mutex, and wakes. *)
Lemma unlock_hands wake tp l :
  queues k (QMtx ump) = tp :: l ->
  let np := mtx_newprio k (t_realprio (thr k me)) mps in
  exists k', mtx_unlock wake k = (wake tp;; mret ump) k' /\
    wfx [XThr tp; XTop] k' /\ guar me k k' /\ may_wake tp k' /\ tp <> me /\ top_of me tp k' /\ currp k' = me /\
    vtlist k' = vtlist k /\ moved me ump mps np (Some tp) l k k' /\ t_state (thr k' tp) = WTMTX.
Proof using Hu Hml.
  intros Hq np. pose proof Hu as (W & Hc & Hna). destruct (user_current _ _ Hu) as [Hst Hl].
  destruct (mtx_newprio_max None k mps (t_realprio (thr k me)) unlock_mtx) as (Hle & Hex & Hall).
  pose proof unlock_pos as [_ Hpos]. fold np in Hle, Hex, Hall.
  set (kg := upd_thr me (with_prio np) (upd_thr me (with_mtxlist mps) k)). exists (handed ump tp l kg).
  destruct (handed_ok None None me ump mps (fun th => with_prio np (with_mtxlist mps th)) np tp l k kg)
    as (W' & M' & G' & H' & Htm & V' & _ & S' & Q'); try done; [exact (user_marks _ _ _ Hu)|exact unlock_mtx|lia| |apply did_two|].
  { intros _. unfold prio_due. destruct Hex as [|(m & w & ? & ? & ?)]; [left; lia|right]. exists m, w. split_and!; [done|done|lia]. }
  split_and!; try done.
  - unfold mtx_unlock. rewrite kget_bind, Hc. cbv zeta. rewrite Hml. unfold upd. rewrite kmod_bind.
    unfold chMtxQueueNotEmptyS, k_notempty. rewrite Hq. simpl negb. cbn match.
    set (k1 := upd_thr me (with_mtxlist mps) k).
    assert (Hkg : k_fifo_remove (QMtx ump) kg = KRet (deq tp (QMtx ump) l kg) tp).
    { unfold k_fifo_remove. change (queues kg) with (queues k). by rewrite Hq. }
    change (kbind (kbind (k_fifo_remove (QMtx ump) kg) (fun tp => mtx_give ump tp;; wake tp)) (fun _ => mret ump) =
            (wake tp;; mret ump) (handed ump tp l kg)).
    by rewrite Hkg.
  - apply wfx_settle_mtx; [done|]. eapply wfx_mono; [|exact W']. set_solver.
  - intros x Hx. rewrite Q' in Hx by done. rewrite !(mv_prio _ _ _ _ _ _ _ _ V'), (decide_True (P := me = me)) by done.
    rewrite decide_False; [|intros ->; apply (x_link _ _ W) in Hx; congruence].
    rewrite decide_False by done. by eapply unlock_top.
Qed.

(** The priority protocol is kept. *)
Lemma unlock_inherits np o l k' :
  moved me ump mps np o l k k' -> (o = None -> l = []) -> (forall t, o = Some t -> t <> me /\ queues k (QMtx ump) = t :: l) ->
  (forall m w, m ∈ mps -> w ∈ queues k (QMtx m) -> prio_of k w <= np) -> inherits k -> inherits k'.
Proof using Hu Hml.
  intros V Hn Ho Hnp Hi m t w _ Hm Hw. rewrite (mv_owner _ _ _ _ _ _ _ _ V) in Hm. rewrite (mv_mtx _ _ _ _ _ _ _ _ V) in Hw.
  destruct (user_current _ _ Hu) as [_ Hl]. pose proof Hu as (W & _).
  assert (Hfree : forall q, w ∈ queues k q -> prio_of k' w = prio_of k w).
  { intros q Hin. rewrite (mv_prio _ _ _ _ _ _ _ _ V), decide_False; [done|]. intros ->. apply (x_link _ _ W) in Hin. congruence. }
  rewrite (mv_prio _ _ _ _ _ _ _ _ V t). destruct (decide (m = ump)) as [->|Hne].
  - destruct (Ho t Hm) as [Htm Hq]. rewrite (decide_False (P := t = me)) by done.
    assert (w ∈ queues k (QMtx ump)) as Hin by (rewrite Hq; by right).
    rewrite (Hfree _ Hin). by eapply waiters_below.
  - rewrite (Hfree _ Hw). case_decide; subst; [|by apply (Hi m)].
    apply (Hnp m); [|done]. apply (mx_owner _ _ unlock_mtx) in Hm. rewrite Hml in Hm.
    apply elem_of_cons in Hm as [|]; done.
Qed.

End Unlock.

(** [chMtxUnlock] returns the mutex it released, with the others still owned. *)
Lemma chMtxUnlock_seg me ump mps k :
  user me k -> t_mtxlist (thr k me) = ump :: mps ->
  seg me (fun k1 r k' => r = ump /\ post me k k1 k' /\ t_mtxlist (thr k' me) = mps) k (chMtxUnlock k).
Proof.
  intros Hu Hml. pose proof Hu as (W & Hc & Hna). unfold chMtxUnlock. destruct (queues k (QMtx ump)) as [|tp l] eqn:Hq.
  - destruct (unlock_free me ump mps k Hu Hml (fun tp => chSchWakeupS tp RDY_OK) Hq) as (k' & Ek & Hp & V & _ & _).
    eapply seg_done; [exact Ek|]. split_and!; [done|done|]. by rewrite (mv_list _ _ _ _ _ _ _ _ V), decide_False, decide_True.
  - destruct (unlock_hands me ump mps k Hu Hml (fun tp => chSchWakeupS tp RDY_OK) tp l Hq)
      as (k' & Ek & W' & G' & M' & Htm & T' & C' & V' & HV & _).
    unfold seg. rewrite Ek. apply seg_bind. apply (wakeup_s_top tp RDY_OK me k k'); try done.
    intros k1 k2 (W2 & C2 & G2 & A2) L2. apply seg_ret. split_and!; [done| |].
    + unfold post. split_and!; [done|done|done|]. intros Ha. apply A2 in Ha. unfold armed in *. by rewrite V' in Ha.
    + by rewrite L2, (mv_list _ _ _ _ _ _ _ _ HV), decide_False, decide_True by congruence.
Qed.

#[export] Instance chMtxUnlock_service : Service (fun me k => t_mtxlist (thr k me) <> []) chMtxUnlock.
Proof.
  intros me k Hu Hne. destruct (t_mtxlist (thr k me)) as [|ump mps] eqn:Hml; [done|].
  eapply seg_mono; [|by apply (chMtxUnlock_seg me ump mps)]. by intros k1 a k' (_ & Hp & _).
Qed.

Lemma mtx_ready X tp k : t_state (thr k tp) <> FINAL -> mtx_but X k -> mtx_but X (ready tp k).
Proof.
  intros Hs M. apply (mtx_ok_frame X k); try done.
  - intros t. apply prio_ready.
  - intros t. rewrite thr_ready. by case_decide; subst.
  - intros t. rewrite thr_ready. by case_decide; subst.
  - intros t. rewrite thr_ready. case_decide; subst; auto.
Qed.

(** What [chMtxUnlockS] does: the mutex goes to its first waiter, which is
    ready, or is free; the caller keeps its other mutexes and the priority they
    give it. *)
Definition unlocked (me ump : Z) (mps : list Z) (k k' : kernel) : Prop :=
  wfx [XTop] k' /\ currp k' = me /\ vtlist k' = vtlist k /\ guar me k k' /\
  m_owner k' ump = head (queues k (QMtx ump)) /\ queues k' (QMtx ump) = tail (queues k (QMtx ump)) /\
  (forall m, m <> ump -> m_owner k' m = m_owner k m /\ queues k' (QMtx m) = queues k (QMtx m)) /\
  t_mtxlist (thr k' me) = mps /\ prio_of k' me = unlock_prio me ump mps k /\
  (forall t, head (queues k (QMtx ump)) = Some t -> t_state (thr k' t) = READY) /\
  (inherits k -> inherits k').

Lemma chMtxUnlockS_ok me ump mps k :
  user me k -> t_mtxlist (thr k me) = ump :: mps ->
  exists k', chMtxUnlockS k = KRet k' ump /\ unlocked me ump mps k k'.
Proof.
  intros Hu Hml. pose proof Hu as (W & Hc & Hna). unfold chMtxUnlockS, unlocked, unlock_prio.
  destruct (queues k (QMtx ump)) as [|tp l] eqn:Hq.
  - destruct (unlock_free me ump mps k Hu Hml chSchReadyI Hq) as (k' & Ek & (W' & C' & G' & A') & V & Q' & V').
    exists k'. split; [done|]. pose proof V as [Vo Vm _ Vl Vp _ _].
    rewrite Vo, Vm, Vl, Vp, !(decide_True (P := ump = ump)), (decide_True (P := me = me)), decide_False by done.
    split_and!; try done.
    + eapply wfx_mono; [|exact W']. set_solver.
    + intros m Hm. by rewrite Vo, Vm, !decide_False.
    + by case_decide.
    + intros Hi. eapply (unlock_inherits me ump mps k Hu Hml (prio_of k me) None []); try done.
      intros m w Hm. apply (Hi m); [done|]. apply (mx_owner _ _ (unlock_mtx me ump mps k Hu Hml)). rewrite Hml. by right.
  - destruct (unlock_hands me ump mps k Hu Hml chSchReadyI tp l Hq)
      as (k1 & Ek & W1 & G1 & (Ml & Mf & Mc & Mm & Mp) & Htm & T1 & C1 & V1 & HV & S1).
    pose proof HV as [Vo Vm _ Vl Vp _ _].
    exists (ready tp k1). split.
    { rewrite Ek. erewrite kbind_ret; [done|]. by apply chSchReadyI_eq, (x_prio _ _ W1). }
    assert (Hqs : forall m, queues (ready tp k1) (QMtx m) = queues k1 (QMtx m)) by (intros m; by rewrite queues_ready, decide_False).
    change (m_owner (ready tp k1)) with (m_owner k1).
    rewrite Hqs, prio_ready, thr_ready, Vo, Vm, Vp, !(decide_True (P := ump = ump)), (decide_True (P := me = me)) by done.
    rewrite (decide_False (P := me = tp)), Vl, decide_False, decide_True by congruence.
    split_and!; try done.
    + apply wfx_ready; try done. left. set_solver.
    + etrans; [exact G1|]. by apply guar_ready.
    + intros m Hm. by rewrite Hqs, Vo, Vm, !decide_False.
    + intros t [= <-]. by rewrite thr_ready, decide_True.
    + intros Hi m t w Hne. rewrite Hqs, !prio_ready. change (m_owner (ready tp k1)) with (m_owner k1). revert m t w Hne.
      eapply (unlock_inherits me ump mps k Hu Hml _ (Some tp) l); try done.
      * by intros t [= <-].
      * apply (mtx_newprio_max None k mps _ (unlock_mtx me ump mps k Hu Hml)).
Qed.

(** ** Unlocking everything *)

(** What happens to the mutexes [mps]: each goes to its first waiter. *)
Definition released (mps : list Z) (k k' : kernel) : Prop :=
  (forall m, m ∈ mps -> m_owner k' m = head (queues k (QMtx m)) /\ queues k' (QMtx m) = tail (queues k (QMtx m))) /\
  (forall m, m ∉ mps -> m_owner k' m = m_owner k m /\ queues k' (QMtx m) = queues k (QMtx m)) /\
  (forall x, prio_of k' x = prio_of k x /\ t_realprio (thr k' x) = t_realprio (thr k x)).

Lemma released_ready mps tp k k' : released mps k k' -> released mps k (ready tp k').
Proof.
  intros (I1 & O1 & P1). split_and!.
  - intros m. rewrite queues_ready, decide_False by done. apply I1.
  - intros m. rewrite queues_ready, decide_False by done. apply O1.
  - intros x. rewrite prio_ready, thr_ready. destruct (P1 x) as [<- <-]. by case_decide; subst.
Qed.

Lemma moved_released me ump mps o l k k' :
  moved me ump mps (prio_of k me) o l k k' -> o = head (queues k (QMtx ump)) -> l = tail (queues k (QMtx ump)) ->
  released [ump] k k'.
Proof.
  intros V -> ->. split_and!.
  - intros m ->%list_elem_of_singleton. rewrite (mv_owner _ _ _ _ _ _ _ _ V), (mv_mtx _ _ _ _ _ _ _ _ V). by rewrite !decide_True.
  - intros m Hm%not_elem_of_cons. rewrite (mv_owner _ _ _ _ _ _ _ _ V), (mv_mtx _ _ _ _ _ _ _ _ V).
    by rewrite !decide_False by apply Hm.
  - intros x. rewrite (mv_prio _ _ _ _ _ _ _ _ V), (mv_real _ _ _ _ _ _ _ _ V). case_decide; by subst.
Qed.

Lemma released_cons ump mps k k1 k2 :
  ump ∉ mps -> released [ump] k k1 -> released mps k1 k2 -> released (ump :: mps) k k2.
Proof.
  intros Hn (I1 & O1 & P1) (I2 & O2 & P2). split_and!.
  - intros m [->|Hm]%elem_of_cons.
    + destruct (O2 ump Hn) as [-> ->]. apply I1. by left.
    + destruct (I2 m Hm) as [-> ->]. destruct (O1 m) as [_ ->]; [|done]. intros ->%list_elem_of_singleton. done.
  - intros m [Hm1 Hm2]%not_elem_of_cons. destruct (O2 m Hm2) as [-> ->]. apply O1. by intros ?%list_elem_of_singleton.
  - intros x. destruct (P2 x) as [-> ->]. apply P1.
Qed.

Section Unlock_all.

Context (me : Z).

(** In the middle of the loop. *)
Definition unlocking (mps : list Z) (k : kernel) : Prop :=
  wfx [XTop; XMtx] k /\ mtx_but (Some me) k /\ currp k = me /\ t_mtxlist (thr k me) = mps.

(** Every mutex goes to its first waiter; the thread's priority is settled at
    the end. *)
Lemma mtx_unlock_loop_ok mps k :
  unlocking mps k ->
  exists k', mtx_unlock_loop mps me k = KRet k' tt /\ unlocking [] k' /\ vtlist k' = vtlist k /\ guar me k k' /\
    released mps k k'.
Proof.
  revert k. induction mps as [|ump mps IH]; intros k (W & M & Hc & Hml).
  { exists k. unfold released, unlocking. split_and!; try done. by intros m ?%elem_of_nil. }
  assert (Hst : t_state (thr k me) = CURRENT) by (rewrite <- Hc; apply W; set_solver).
  assert (Hpos : NOPRIO < prio_of k me) by (apply W; by rewrite Hst).
  pose proof (mx_lower _ _ M me) as Hlow.
  assert (Hnd : ump ∉ mps).
  { pose proof (mx_nodup _ _ M me) as Hn. rewrite Hml in Hn. by apply NoDup_cons in Hn as [? _]. }
  set (kg := upd_thr me (with_mtxlist mps) k).
  assert (Hgo : forall k1 (c : K unit), c kg = KRet k1 tt ->
    (forall k, (if chMtxQueueNotEmptyS ump kg then tp ← k_fifo_remove (QMtx ump); mtx_give ump tp;; chSchReadyI tp
     else kmod (set_owner ump None)) k = c k) ->
    unlocking mps k1 -> vtlist k1 = vtlist k -> guar me k k1 -> released [ump] k k1 ->
    exists k', mtx_unlock_loop (ump :: mps) me k = KRet k' tt /\ unlocking [] k' /\ vtlist k' = vtlist k /\ guar me k k' /\
      released (ump :: mps) k k').
  { intros k1 c Ec Hif U1 V1 G1 R1. destruct (IH k1 U1) as (k' & E' & U' & V' & G' & R'). exists k'. split_and!; try done.
    - cbn [mtx_unlock_loop]. unfold upd. rewrite kmod_bind, kget_bind. fold kg. rewrite <- E'.
      apply (kbind_ret _ (fun _ => mtx_unlock_loop mps me) kg k1 tt). by rewrite Hif.
    - congruence.
    - by etrans.
    - by eapply released_cons. }
  unfold chMtxQueueNotEmptyS, k_notempty in Hgo. change (queues kg) with (queues k) in Hgo.
  destruct (queues k (QMtx ump)) as [|tp l] eqn:Hq.
  - destruct (freed_ok (Some me) (Some me) me ump mps (with_mtxlist mps) (prio_of k me) k kg) as (W1 & M1 & G1 & V1 & T1); try done.
    apply (Hgo (set_owner ump None kg) (kmod (set_owner ump None))); try done.
    + unfold unlocking. split_and!; try done. by rewrite T1.
    + eapply moved_released; [exact V1|by rewrite Hq..].
  - destruct (handed_ok (Some me) (Some me) me ump mps (with_mtxlist mps) (prio_of k me) tp l k kg)
      as (W1 & M1 & G1 & (Ml & Mf & Mc & Mm & Mp) & Htm & V1 & T1 & S1 & Q1); try done.
    set (k1 := handed ump tp l kg) in *.
    apply (Hgo (ready tp k1) (tp ← k_fifo_remove (QMtx ump); mtx_give ump tp;; chSchReadyI tp)); try done.
    + erewrite kbind_ret; [|unfold k_fifo_remove; change (queues kg) with (queues k); by rewrite Hq].
      change (chSchReadyI tp k1 = KRet (ready tp k1) tt). by apply chSchReadyI_eq, (x_prio _ _ W1).
    + unfold unlocking. split_and!; [|by apply mtx_ready|done|].
      * apply wfx_ready; try done. left. set_solver.
      * rewrite thr_ready, decide_False by congruence. by rewrite T1.
    + etrans; [exact G1|]. by apply guar_ready.
    + apply released_ready. eapply moved_released; [exact V1|by rewrite Hq..].
Qed.

End Unlock_all.

Lemma mtx_but_close X k : mtx_but X k -> (forall t, X = Some t -> prio_due t (t_mtxlist (thr k t)) (prio_of k t) k) -> mtx_ok k.
Proof.
  intros [H1 H2 H3 H4 H5 H6 H7 H8] HX. constructor; try done.
  intros t _. destruct (decide (X = Some t)) as [Ht|Ht]; [by apply HX|by apply H8].
Qed.

(** Nothing is owned after [chMtxUnlockAll], and the priority is the thread's
    own. *)
Lemma chMtxUnlockAll_ok me k :
  user me k -> t_mtxlist (thr k me) <> [] ->
  exists k', chMtxUnlockAll k = chSchRescheduleS k' /\ wfx [XTop] k' /\ currp k' = me /\ vtlist k' = vtlist k /\
    guar me k k' /\ t_mtxlist (thr k' me) = [] /\ prio_of k' me = t_realprio (thr k' me) /\
    t_realprio (thr k' me) = t_realprio (thr k me) /\
    (forall m, m ∈ t_mtxlist (thr k me) ->
       m_owner k' m = head (queues k (QMtx m)) /\ queues k' (QMtx m) = tail (queues k (QMtx m))).
Proof.
  intros Hu Hne. pose proof Hu as (W & Hc & Hna). destruct (user_current _ _ Hu) as [Hst Hl].
  destruct (mtx_unlock_loop_ok me (t_mtxlist (thr k me)) k) as (k1 & E1 & (W1 & M1 & C1 & L1) & V1 & G1 & R1).
  { unfold unlocking. split_and!; try done; [exact (user_marks _ _ _ Hu)|].
    destruct (x_mtx _ _ W ltac:(set_solver)) as [H1 H2 H3 H4 H5 H6 H7 H8]. constructor; try done. intros t _. by apply H8. }
  assert (Hst1 : t_state (thr k1 me) = CURRENT) by (rewrite <- C1; apply W1; set_solver).
  assert (Hl1 : t_link (thr k1 me) = None) by (rewrite <- C1; eapply current_link; [done|set_solver]).
  set (g := fun th => with_prio (t_realprio th) th). set (k2 := upd_thr me g k1).
  assert (T2 : thr k2 me = g (thr k1 me)) by apply thr_upd_eq.
  assert (Hreal : NOPRIO < t_realprio (thr k1 me)) by (apply (mx_real _ _ M1); by rewrite Hst1).
  assert (Hr : t_realprio (thr k1 me) = t_realprio (thr k me)).
  { apply R1. }
  exists k2. split_and!; try done.
  - unfold chMtxUnlockAll. rewrite kget_bind, Hc. cbv zeta. rewrite bool_decide_true by done. by erewrite kbind_ret by exact E1.
  - apply wfx_settle_mtx.
    + apply (mtx_but_close (Some me)); [|intros t [= <-]; left; unfold prio_of; by rewrite T2].
      apply (mtx_ok_upd_free (Some me) me k1); try done; try (rewrite T2; simpl; done || lia).
      * intros q Hin. apply (x_link _ _ W1) in Hin. congruence.
      * intros x Hx. by apply thr_upd_ne.
    + eapply wfx_mono; [|apply (wfx_own_change me g [] (t_realprio (thr k1 me)))]; [set_solver|done..| |done].
      unfold own_change. by split_and!.
  - etrans; [exact G1|]. apply guar_upd_me.
  - rewrite T2. done.
  - unfold prio_of. by rewrite T2.
  - rewrite T2. done.
  - intros m Hm. apply R1, Hm.
Qed.
