(* ===== verification/ChLocks.v ===== *)
(** * What the mutexes promise

    Ownership on return of a lock, priority inheritance along the chain of
    owners, the hand-over on unlocking, and a call that breaks the inheritance,
    each with a run of the booted system where it happens. *)

From S2P Require Import Prelude ChLists Kernel ChVt ChSchd ChInv ChSeg ChSem ChThreads ChRuns ChMtx.

(** The main thread owns mutex 5 and gives way to a new thread 2 of a higher
    priority; thread 2 waits for it; and a new thread 3 waits for a mutex that
    thread 2 has. *)
Definition k_locked : kernel := stop_at boot_kernel (chMtxLock 5).
Definition k_urgent : kernel := stop_at k_locked (chThdCreateStatic 2 100).

Lemma k_locked_user : user mainthread k_locked.
Proof. eapply (stop_user _ _ mainthread); [exact boot_user|by vm_compute|by vm_compute|by vm_compute]. Qed.

Lemma k_urgent_user : user 2 k_urgent.
Proof.
  eapply (stop_user _ _ mainthread); [exact k_locked_user| |by vm_compute|by vm_compute].
  split; [|by vm_compute]. unfold not_alive. split_and!; by vm_compute.
Qed.

(** ** Locking *)

(** (C2) The mutual exclusion [chMtxLock] promises: whatever the other threads
    do while the caller sleeps, when it returns, the caller owns the mutex and
    has it on top of exactly the mutexes it had, and nobody else owns it; a free
    mutex is taken without a switch; and the kernel stays well-formed at every
    switch and at the end. *)
Theorem mutex_lock_owns me mp k :
  user me k -> me <> idle -> mp ∉ t_mtxlist (thr k me) ->
  seg me (fun k1 _ k' => post me k k1 k' /\ (m_owner k mp = None -> k1 = k) /\
    t_mtxlist (thr k' me) = mp :: t_mtxlist (thr k me) /\
    forall t, m_owner k' mp = Some t <-> t = me) k (chMtxLock mp k).
Proof.
  intros Hu Hi Hn. eapply seg_mono; [|by apply chMtxLock_seg]. intros k1 a k' (Hp & Hk & Hl).
  destruct (Hl Hn) as [Ho Hm]. split_and!; try done. intros t. rewrite Ho. naive_solver.
Qed.

Lemma mutex_lock_owns_witness :
  exists Q, seg 2 Q k_urgent (chMtxLock 5 k_urgent) /\ m_owner k_urgent 5 = Some 0.
Proof.
  eexists. split; [|by vm_compute]. apply (mutex_lock_owns 2 5 k_urgent); [exact k_urgent_user|done|].
  apply (bool_decide_eq_false_1 (5 ∈ t_mtxlist (thr k_urgent 2))). by vm_compute.
Defined.

(** Every thread that keeps [m] locked is as urgent as the owner of [m]. *)
Lemma blocks_urgent E k p m x :
  inherits k -> wfx E k -> (forall t, XThr t ∉ E) -> blocks k m x ->
  (forall t, m_owner k m = Some t -> p <= prio_of k t) -> p <= prio_of k x.
Proof.
  intros Hi W HE H. induction H as [m t Ho|m t m' x Ho Hs Hu H IH]; intros Hp; [by apply Hp|].
  apply IH. intros t' Ho'. pose proof (x_state _ _ W t (HE t)) as Hok. unfold state_ok in Hok.
  rewrite Hs in Hok. destruct Hok as (m2 & Hl & Hu2). rewrite Hu in Hu2. injection Hu2 as <-.
  apply (x_link _ _ W) in Hl. pose proof (Hi m' t' t ltac:(done) Ho' Hl). pose proof (Hp t Ho). lia.
Qed.



(** A chain: the main thread has mutex 5, thread 2 has mutex 6 and waits for 5,
    and thread 3 asks for 6. *)
Definition k_chain : kernel :=
  let k2 := stop_at k_locked (chThdCreateStatic 2 70) in
  let k0 := stop_at k2 (chMtxLock 6;; chMtxLock 5) in
  stop_at k0 (chThdCreateStatic 3 100).

Example chain_boosted :
  (fun k => (prio_of k 0, prio_of k 2, queues k QReady)) <$> stopped (chMtxLock 6 k_chain) = Some (100, 100, [1]) /\
  currp k_chain = 3 /\ prio_of k_chain 0 = 70.
Proof. by vm_compute. Qed.

(** ** Unlocking *)

(** (C32) [chMtxUnlockS] on a thread with mutexes: the mutex it locked last goes
    to its most urgent waiter, which is ready, or is free when nobody waits; the
    other mutexes, their owners and waiters stay; the thread keeps the others
    and falls back to the highest of its own priority and those of their
    waiters; and if owners were as urgent as their waiters before, they are
    after. *)
Theorem mutex_unlock_hands_over me ump mps k :
  user me k -> t_mtxlist (thr k me) = ump :: mps ->
  exists k', chMtxUnlockS k = KRet k' ump /\ wfx [XTop] k' /\
    m_owner k' ump = head (queues k (QMtx ump)) /\ queues k' (QMtx ump) = tail (queues k (QMtx ump)) /\
    (forall m, m <> ump -> m_owner k' m = m_owner k m /\ queues k' (QMtx m) = queues k (QMtx m)) /\
    (forall t w, head (queues k (QMtx ump)) = Some t -> w ∈ queues k (QMtx ump) ->
       t_state (thr k' t) = READY /\ prio_of k w <= prio_of k t) /\
    t_mtxlist (thr k' me) = mps /\
    (queues k (QMtx ump) = [] -> prio_of k' me = prio_of k me) /\
    (queues k (QMtx ump) <> [] ->
       t_realprio (thr k me) <= prio_of k' me /\
       (forall m w, m ∈ mps -> w ∈ queues k (QMtx m) -> prio_of k w <= prio_of k' me) /\
       (prio_of k' me = t_realprio (thr k me) \/
        exists m w, m ∈ mps /\ w ∈ queues k (QMtx m) /\ prio_of k' me = prio_of k w)) /\
    (inherits k -> inherits k').
Proof.
  intros Hu Hml. destruct (chMtxUnlockS_ok me ump mps k Hu Hml) as (k' & Ek & W & C & V & G & Ho & Hq & Hm & Hl & Hp & Hr & Hi).
  pose proof (mtx_newprio_max None k mps (t_realprio (thr k me)) (unlock_mtx me ump mps k Hu Hml)) as (Hle & Hex & Hall).
  exists k'. split_and!; try done.
  - intros t w Ht Hw. split; [by apply Hr|]. destruct (queues k (QMtx ump)) as [|t' l] eqn:Hqk; [done|].
    injection Ht as ->. eapply (waiters_below me ump mps k Hu Hml); [exact Hqk|]. by rewrite Hqk.
  - intros He. by rewrite Hp; unfold unlock_prio; rewrite He.
  - intros Hne. rewrite Hp. unfold unlock_prio. destruct (queues k (QMtx ump)); [done|]. by split_and!.
Qed.

(** Thread 2 waits, and the main thread is current again. *)
Definition k_waiting : kernel := stop_at k_urgent (chMtxLock 5).

Lemma k_waiting_user : user 0 k_waiting.
Proof. eapply (stop_user _ _ 2); [exact k_urgent_user|by vm_compute|by vm_compute|by vm_compute]. Qed.

Lemma mutex_unlock_hands_over_witness :
  exists k', chMtxUnlockS k_waiting = KRet k' 5 /\ m_owner k' 5 = Some 2 /\ prio_of k_waiting 0 = 100.
Proof.
  destruct (mutex_unlock_hands_over 0 5 [] k_waiting) as (k' & Ek & _ & Ho & _).
  - exact k_waiting_user.
  - by vm_compute.
  - exists k'. split; [exact Ek|]. split; [rewrite Ho; by vm_compute|by vm_compute].
Defined.

(** [chMtxUnlock] returns the mutex the caller locked last, whether or not
    the new owner ran in between, and leaves it its other mutexes;
    [chMtxUnlockAll] leaves it none, hands each to its first waiter, and puts
    the caller back to its own priority before it reschedules. *)
Theorem mutex_unlock_returns me k :
  user me k ->
  (forall ump mps, t_mtxlist (thr k me) = ump :: mps ->
     seg me (fun k1 r k' => r = ump /\ post me k k1 k' /\ t_mtxlist (thr k' me) = mps) k (chMtxUnlock k)) /\
  (t_mtxlist (thr k me) = [] -> chMtxUnlock k = KUb /\ chMtxUnlockAll k = KRet k tt) /\
  (t_mtxlist (thr k me) <> [] ->
     exists k', chMtxUnlockAll k = chSchRescheduleS k' /\ wfx [XTop] k' /\ t_mtxlist (thr k' me) = [] /\
       prio_of k' me = t_realprio (thr k me) /\
       forall m, m ∈ t_mtxlist (thr k me) ->
         m_owner k' m = head (queues k (QMtx m)) /\ queues k' (QMtx m) = tail (queues k (QMtx m))).
Proof.
  intros Hu. pose proof Hu as (W & Hc & _). split_and!.
  - intros ump mps Hml. by apply chMtxUnlock_seg.
  - intros Hml. unfold chMtxUnlock, mtx_unlock, chMtxUnlockAll. rewrite !kget_bind, Hc. cbv zeta. by rewrite Hml.
  - intros Hne. destruct (chMtxUnlockAll_ok me k Hu Hne) as (k' & Ek & W' & C' & V' & G' & L' & P' & R' & Hm).
    exists k'. split_and!; try done. by rewrite P', R'.
Qed.

Lemma mutex_unlock_returns_witness :
  (exists Q, seg 0 Q k_waiting (chMtxUnlock k_waiting)) /\ t_mtxlist (thr k_waiting 0) = [5].
Proof.
  split; [|by vm_compute]. eexists. apply (mutex_unlock_returns 0 k_waiting k_waiting_user). by vm_compute.
Defined.

(** ** Where the inheritance breaks *)

(** The main thread owns mutex 5 and thread 2, of the same priority, waits for
    it. *)
Definition k_equal : kernel :=
  let k0 := stop_at k_locked (chThdCreateStatic 2 NORMALPRIO) in
  let k2 := stop_at k0 chThdYield in
  stop_at k2 (chMtxLock 5).

(** [chThdSetPriority] takes a priority equal to the thread's own for one that
    was not inherited: the owner falls below its waiter. *)
Example set_priority_breaks_inheritance :
  currp k_equal = 0 /\ m_owner k_equal 5 = Some 0 /\ queues k_equal (QMtx 5) = [2] /\
  (prio_of k_equal 2, prio_of k_equal 0) = (64, 64) /\
  (fun k => (prio_of k 2, prio_of k 0, m_owner k 5, queues k (QMtx 5))) <$> stopped (chThdSetPriority 50 k_equal)
  = Some (64, 50, Some 0, [2]).
Proof. by vm_compute. Qed.
