(* ===== verification/ChWake.v ===== *)
(** * Waking the waiters of a queue with a message

    What condition variables and queues of bytes do to the threads that wait for
    them: the first one, or all of them, become ready and find a message. *)

From S2P Require Import Prelude ChLists Kernel ChVt ChSchd ChInv ChSeg ChSem ChMtx.

(** [chSchReadyI(fifo_remove(...))->p_u.rdymsg = msg]. *)
Definition wake_first (q : qid) (msg : Z) : K unit :=
  tp ← k_fifo_remove q; chSchReadyI tp;; upd tp (with_u (URdy msg)).

(** The same until the queue is empty. *)
Fixpoint wake_all (fuel : nat) (q : qid) (msg : Z) : K unit := fun k =>
  match fuel with
  | O => KUb
  | S fuel => if k_notempty q k then (wake_first q msg;; wake_all fuel q msg) k else KRet k tt
  end.

(** The first waiter leaves the queue and is ready with the message [msg];
    the others stay. *)
Definition first_woken (q : qid) (msg : Z) (k k' : kernel) : Prop :=
  queues k' q = tail (queues k q) /\
  (forall t, head (queues k q) = Some t -> t_state (thr k' t) = READY /\ t_u (thr k' t) = URdy msg) /\
  (forall t, head (queues k q) <> Some t -> thr k' t = thr k t) /\
  ioq k' = ioq k /\ mbx k' = mbx k /\ s_cnt k' = s_cnt k.

Definition all_woken (q : qid) (msg : Z) (k k' : kernel) : Prop :=
  queues k' q = [] /\
  (forall t, t ∈ queues k q -> t_state (thr k' t) = READY /\ t_u (thr k' t) = URdy msg) /\
  (forall t, t ∉ queues k q -> thr k' t = thr k t) /\
  ioq k' = ioq k /\ mbx k' = mbx k /\ s_cnt k' = s_cnt k.

Section Wake.

Context (me : Z) (q : qid) (msg : Z) (E : list exc).
Context (Hq : q <> QReady) (Hm : forall r, q <> QMsg r /\ q <> QMtx r) (Hmark : queue_marks E q).
Context (HT : XTop ∈ E) (HE : forall t, XThr t ∉ E).

Lemma wake_first_ok tp l k :
  wfx E k -> currp k = me -> queues k q = tp :: l ->
  exists k', wake_first q msg k = KRet k' tt /\ quiet me E k k' /\ first_woken q msg k k'.
Proof using Hq Hm Hmark HT HE.
  intros W Hc Hql. destruct (wake_from_ok me E tp q l k) as (Htc & Er & Wr & Gr); try done.
  { by rewrite Hql. } { rewrite Hql. by constructor. }
  set (k1 := wake_from tp q l k) in *. exists (upd_thr tp (with_u (URdy msg)) k1).
  assert (Hs : t_state (thr k1 tp) = READY) by (unfold k1; by rewrite thr_wake_from, decide_True).
  split_and!.
  - unfold wake_first. erewrite kbind_ret; [|unfold k_fifo_remove; by rewrite Hql]. by erewrite kbind_ret by exact Er.
  - unfold quiet. split_and!; [by apply wfx_set_msg|done|done|].
    etrans; [exact Gr|]. apply guar_set_msg, not_pending. by rewrite Hs.
  - unfold first_woken. rewrite Hql. split_and!; try done.
    + unfold k1. by rewrite queues_upd, queues_wake_from, decide_True.
    + intros t [= <-]. by rewrite thr_upd_eq.
    + intros t Ht. assert (Htt : t <> tp) by (intros ->; by apply Ht).
      rewrite thr_upd_ne by done. unfold k1. by rewrite thr_wake_from, decide_False.
Qed.

Lemma wake_all_ok fuel k :
  wfx E k -> currp k = me -> (length (queues k q) < fuel)%nat ->
  exists k', wake_all fuel q msg k = KRet k' tt /\ quiet me E k k' /\ all_woken q msg k k'.
Proof using Hq Hm Hmark HT HE.
  revert k. induction fuel as [|fuel IH]; intros k W Hc Hf; [lia|]. cbn [wake_all]. unfold k_notempty, all_woken.
  destruct (queues k q) as [|tp l] eqn:Hql; simpl.
  { exists k. unfold quiet. split_and!; try done. by intros t ?%elem_of_nil. }
  destruct (wake_first_ok tp l k W Hc Hql) as (k1 & E1 & (W1 & C1 & V1 & G1) & Q1 & R1 & T1 & I1 & M1 & S1).
  rewrite Hql in Q1, R1, T1. simpl in Q1, R1, T1.
  assert (Hnd : tp ∉ l).
  { pose proof (x_nodup _ _ W q) as Hnd. rewrite Hql in Hnd. by apply NoDup_cons in Hnd as [? _]. }
  destruct (IH k1 W1 C1) as (k' & E' & (W' & C' & V' & G') & Q' & R' & T' & I' & M' & S'); [rewrite Q1; simpl in Hf; lia|].
  rewrite Q1 in R', T'. exists k'. split_and!; try congruence.
  - by erewrite kbind_ret by exact E1.
  - unfold quiet. split_and!; [done|done|congruence|by etrans].
  - intros t [->|Ht]%elem_of_cons; [|by apply R']. rewrite T' by done. by apply R1.
  - intros t [Ht1 Ht2]%not_elem_of_cons. rewrite T' by done. apply T1. congruence.
Qed.

End Wake.
