(* ===== verification/ChCond.v ===== *)
(** * Condition variables: kernel/src/chcond.c, include/chcond.h

    Waiting releases the mutex locked last and locks it again afterwards;
    signalling wakes the most urgent waiter, broadcasting all of them. *)

From S2P Require Import Prelude ChLists Kernel ChVt ChSchd ChInv ChSeg ChSem ChThreads ChMtx ChLocks ChWake.

Definition chCondInit (cp : Z) : K unit := kmod (set_queue (QCond cp) []).

Definition chCondSignal (cp : Z) : K unit :=
  k ← kget;
  if k_notempty (QCond cp) k then tp ← k_fifo_remove (QCond cp); chSchWakeupS tp RDY_OK else mret tt.

Definition chCondSignalI (cp : Z) : K unit :=
  k ← kget;
  if k_notempty (QCond cp) k then wake_first (QCond cp) RDY_OK else mret tt.

Definition chCondBroadcastI (cp : Z) : K unit :=
  k ← kget; wake_all (S (length (queues k (QCond cp)))) (QCond cp) RDY_RESET.

Definition chCondBroadcast (cp : Z) : K unit := chCondBroadcastI cp;; chSchRescheduleS.

(** The current thread at its place among the waiters of [cp]. *)
Definition cond_insert (cp : Z) : K unit :=
  k ← kget;
  upd (currp k) (with_u (UObj (QCond cp)));;
  k_prio_insert (currp k) (QCond cp).

Definition chCondWaitS (cp : Z) : K Z :=
  mp ← chMtxUnlockS;
  cond_insert cp;;
  chSchGoSleepS WTCOND;;
  msg ← rdymsg;
  chMtxLockS mp;;
  mret msg.

Definition chCondWait (cp : Z) : K Z := chCondWaitS cp.

(** After a time-out the mutex is not locked again. *)
Definition chCondWaitTimeoutS (cp time : Z) : K Z :=
  mp ← chMtxUnlockS;
  cond_insert cp;;
  msg ← chSchGoSleepTimeoutS WTCOND time;
  (if negb (msg =? RDY_TIMEOUT) then chMtxLockS mp else mret tt);;
  mret msg.

Definition chCondWaitTimeout (cp time : Z) : K Z := chCondWaitTimeoutS cp time.

(** ** Signalling *)

#[export] Instance chCondSignal_service cp : Service (fun _ _ => True) (chCondSignal cp).
Proof.
  intros me k Hu _. pose proof Hu as (W & Hc & Hna). unfold chCondSignal. apply seg_get. unfold k_notempty.
  destruct (queues k (QCond cp)) as [|tp l] eqn:Hq; simpl; [by apply seg_ret, post_start|].
  assert (Hl : t_link (thr k tp) = Some (QCond cp)) by (apply (x_link _ _ W); rewrite Hq; by left).
  destruct (linked_state [] tp (QCond cp) k W ltac:(set_solver) Hl) as (Hf & Hw & Hne).
  pose proof (linked_not_mtx [] tp (QCond cp) k W ltac:(set_solver) Hl ltac:(done)) as Hnm.
  eapply seg_step; [unfold k_fifo_remove; by rewrite Hq|]. eapply wakeup_s_spec; try done.
  - apply wfx_deq; [by rewrite Hq|rewrite Hq; by constructor|done|done].
  - by apply guar_deq.
  - by apply may_wake_deq.
Qed.

#[export] Instance chCondBroadcast_service cp : Service (fun _ _ => True) (chCondBroadcast cp).
Proof.
  intros me k Hu _. pose proof Hu as (W & Hc & Hna).
  destruct (wake_all_ok me (QCond cp) RDY_RESET [XTop] ltac:(done) ltac:(done) ltac:(done) ltac:(set_solver)
    ltac:(set_solver) (S (length (queues k (QCond cp)))) k) as (k1 & E1 & (W1 & C1 & V1 & G1) & _);
    [eapply wfx_mono; [|exact W]; set_solver|done|lia|].
  unfold chCondBroadcast, chCondBroadcastI. eapply seg_step; [by rewrite kget_bind|].
  eapply resched_spec; [done|done|done|]. intros k2 k' (W' & C' & G' & A'). unfold post. split_and!; try done.
  intros Ha. apply A' in Ha. unfold armed in *. by rewrite V1 in Ha.
Qed.

(** ** Waiting *)

Lemma kbind_then_z {B} (m : K Z) (f : Z -> K unit) (g : Z -> K B) k k' r :
  (x ← m; f x;; mret x) k = KRet k' r -> (x ← m; f x;; g x) k = g r k'.
Proof.
  intros H. change (kbind (m k) (fun x => f x;; mret x) = KRet k' r) in H. change (kbind (m k) (fun x => f x;; g x) = g r k').
  destruct (m k) as [k1 x| |]; simpl in *; [|done|done]. revert H. unfold mbind, K_bind.
  destruct (f x k1) as [k2 []| |]; simpl; [|done|done]. by intros [= -> ->].
Qed.

(** The mutex given back and the thread queued: it may sleep. *)
Lemma cond_queued me cp ump mps k :
  user me k -> t_mtxlist (thr k me) = ump :: mps ->
  exists k', (mp ← chMtxUnlockS; cond_insert cp;; mret mp) k = KRet k' ump /\
    wfx [XThr me; XTop] k' /\ currp k' = me /\ guar me k k' /\ vtlist k' = vtlist k /\
    t_state (thr k' me) = CURRENT /\ t_mtxlist (thr k' me) = mps /\ may_sleep WTCOND me k' /\
    m_owner k' ump = head (queues k (QMtx ump)).
Proof.
  intros Hu Hml. pose proof Hu as (W & Hc & Hna).
  destruct (chMtxUnlockS_ok me ump mps k Hu Hml) as (k1 & E1 & W1 & C1 & V1 & G1 & O1 & _ & _ & L1 & _).
  assert (Hst : t_state (thr k1 me) = CURRENT) by (rewrite <- C1; apply W1; set_solver).
  assert (Hlk : t_link (thr k1 me) = None) by (rewrite <- C1; eapply current_link; [done|set_solver]).
  set (u := with_u (UObj (QCond cp))). set (k2 := upd_thr me u k1).
  set (k3 := enq me (QCond cp) (pinsert (prio_of k2) me (queues k2 (QCond cp))) k2). exists k3.
  assert (T2 : thr k2 me = u (thr k1 me)) by apply thr_upd_eq.
  assert (T3 : thr k3 me = with_link (Some (QCond cp)) (u (thr k1 me))) by (unfold k3; by rewrite thr_enq, decide_True, T2).
  assert (W2 : wfx [XThr me; XTop] k2).
  { apply wfx_upd; [set_solver|done|done|simpl; by rewrite Hst|]. eapply wfx_mono; [|exact W1]. set_solver. }
  split_and!; try done.
  - erewrite kbind_ret by exact E1. unfold cond_insert. unfold mbind, K_bind. simpl. by rewrite C1.
  - apply wfx_enq; [set_solver|by rewrite T2|apply pinsert_perm|done|done| |done|done].
    intros c [= <-]. apply pinsert_sorted.
  - etrans; [exact G1|]. etrans; [apply (guar_upd_me me u)|]. apply guar_enq. by right.
  - by rewrite T3.
  - by rewrite T3.
  - unfold may_sleep, armed. change (vtlist k3) with (vtlist k1). rewrite V1. split_and!; try done.
    unfold state_ok. rewrite thr_upd_eq, T3. simpl. by exists cp.
Qed.

(** Back from the sleep in the state [k'], with the mutexes [mps]. *)
Lemma cond_relock {A} (msg : A) me ump mps k k1 k' (Q : kernel -> A -> kernel -> Prop) :
  ~ armed k me -> post me k k1 k' -> me <> idle -> t_mtxlist (thr k' me) = mps -> ump ∉ mps ->
  (forall k2 k3, post me k k2 k3 -> locked ump me mps k3 -> Q k2 msg k3) ->
  seg me Q k1 ((chMtxLockS ump;; mret msg) k').
Proof.
  intros Hna Hp Hi Hm Hn HQ. pose proof Hp as (W' & C' & G' & A').
  assert (Hu' : user me k') by (unfold user; split_and!; auto).
  apply seg_bind. apply (seg_mono me (fun k2 _ k3 => post me k k2 k3 /\ locked ump me mps k3)).
  { intros k2 [] k3 [Hp3 Hl3]. apply seg_ret. by apply HQ. }
  eapply (seg_start me _ k1 k'); [exact G'| |].
  - intros [] k3 [(W3 & C3 & G3 & A3) Hl3]. split; [|done]. unfold post. split_and!; try done. by etrans.
  - eapply seg_mono; [|by apply (chMtxLock_seg me ump k')]. intros k2 [] k3 ((W3 & C3 & G3 & A3) & _ & Hl3).
    rewrite <- Hm in Hn. rewrite Hm in Hl3. split; [unfold post; split_and!; auto|]. apply Hl3. by rewrite <- Hm.
Qed.

Lemma cond_wait_ok me cp time ump mps k :
  user me k -> me <> idle -> t_mtxlist (thr k me) = ump :: mps -> fits 32 time -> time <> TIME_IMMEDIATE ->
  seg me (fun k1 _ k' => post me k k1 k' /\ locked ump me mps k') k (chCondWait cp k) /\
  seg me (fun k1 msg k' => post me k k1 k' /\
            if msg =? RDY_TIMEOUT then t_mtxlist (thr k' me) = mps else locked ump me mps k') k (chCondWaitTimeout cp time k).
Proof.
  intros Hu Hi Hml Hft Hti. pose proof Hu as (W & Hc & Hna).
  destruct (cond_queued me cp ump mps k Hu Hml) as (k1 & E1 & W1 & C1 & G1 & V1 & S1 & L1 & M1 & _).
  assert (Hn : ump ∉ mps).
  { pose proof (mx_nodup _ _ (x_mtx _ _ W ltac:(set_solver)) me) as Hd. rewrite Hml in Hd. by apply NoDup_cons in Hd as [? _]. }
  assert (Hna1 : ~ armed k1 me) by (unfold armed; by rewrite V1).
  assert (Hml' : forall k', mtx_rely (with_state WTCOND (thr k1 me)) (thr k' me) -> t_mtxlist (thr k' me) = mps).
  { intros k' [[_ Hr]|(m & Hr & _)]; [by rewrite Hr|done]. }
  assert (Hp : forall k2 k', post me k1 k2 k' -> post me k k2 k').
  { intros k2 k' (W2 & C2 & G2 & A2). unfold post. split_and!; try done. intros Ha. by apply A2 in Ha. }
  split.
  - unfold chCondWait, chCondWaitS, seg. rewrite (kbind_then_z _ _ _ _ _ _ E1).
    apply seg_bind. eapply go_sleep_mtx; try done. intros k' W' C' A' _ Hr. unfold rdymsg. apply seg_bind, seg_get, seg_ret.
    eapply (cond_relock _ me ump mps k1 k' k'); [done|by apply post_resumed|done|by apply Hml'|done|].
    intros k2 k3 H2 H3. split; [by apply Hp|done].
  - unfold chCondWaitTimeout, chCondWaitTimeoutS, seg. rewrite (kbind_then_z _ _ _ _ _ _ E1).
    apply seg_bind. eapply sleep_timeout_mtx; try done. intros k2 k' H2 Hr.
    destruct (Z.eqb_spec (u_msg (t_u (thr k' me))) RDY_TIMEOUT) as [Ht|Ht]; simpl negb; cbn match.
    + apply seg_bind, seg_ret, seg_ret. split; [by apply Hp|]. rewrite Ht, Z.eqb_refl. by apply Hml'.
    + eapply (cond_relock _ me ump mps k1 k2 k'); [done|done|done|by apply Hml'|done|].
      intros k3 k4 H3 H4. split; [by apply Hp|]. by rewrite (proj2 (Z.eqb_neq _ _) Ht).
Qed.

#[export] Instance chCondWait_service cp :
  Service (fun me k => me <> idle /\ t_mtxlist (thr k me) <> []) (chCondWait cp).
Proof.
  intros me k Hu [Hi Hm]. destruct (t_mtxlist (thr k me)) as [|ump mps] eqn:Hml; [done|].
  eapply seg_mono; [|apply (cond_wait_ok me cp 1 ump mps k Hu Hi Hml); [unfold fits; lia|done]]. by intros k1 a k' [Hp _].
Qed.

#[export] Instance chCondWaitTimeout_service cp time :
  Service (fun me k => me <> idle /\ t_mtxlist (thr k me) <> [] /\ fits 32 time /\ time <> TIME_IMMEDIATE)
    (chCondWaitTimeout cp time).
Proof.
  intros me k Hu (Hi & Hm & Hf & Ht). destruct (t_mtxlist (thr k me)) as [|ump mps] eqn:Hml; [done|].
  eapply seg_mono; [|by apply (cond_wait_ok me cp time ump mps k Hu Hi Hml)]. by intros k1 a k' [Hp _].
Qed.


