(* ===== verification/ChSystem.v ===== *)
(** * The running system

    The threads of the program, each calling the kernel's services as it likes
    within their preconditions, and the interrupts, on the one kernel state: a
    step takes the current thread from where it is to its next return or
    switch.  Whatever they do, the kernel stays well-formed and nothing
    undefined happens. *)

From S2P Require Import Prelude ChLists Kernel ChVt ChSchd ChInv ChSeg ChSem ChThreads ChMsg ChEvents ChRuns ChBSem ChMtx ChWake ChCond.

(** ** The calls *)

(** A call of the kernel by a thread, or an interrupt taken while the thread is
    in its own code: the tick, and handlers that use the interrupt-level
    calls. *)
Inductive call :=
| ThdCreateStatic (tp prio : Z) | ThdExit (msg : Z) | ThdWait (tp : Z) | ThdSleep (time : Z) | ThdSleepUntil (time : Z)
| ThdYield | ThdSetPriority (prio : Z) | ThdTerminate (tp : Z) | ThdSuspend | ThdResume (tp : Z)
| ThdAddRef (tp : Z) | ThdRelease (tp : Z) | RegFirstThread | RegNextThread (tp : Z)
| SemWait (s : Z) | SemWaitTimeout (s time : Z) | SemSignal (s : Z) | SemReset (s n : Z) | SemSignalWait (s w : Z)
| BSemWait (s : Z) | BSemWaitTimeout (s time : Z) | BSemSignal (s : Z) | BSemReset (s : Z) (taken : bool)
| MtxLock (m : Z) | MtxTryLock (m : Z) | MtxUnlock | MtxUnlockAll
| CondSignal (c : Z) | CondBroadcast (c : Z) | CondWait (c : Z) | CondWaitTimeout (c time : Z)
| EvtRegisterMask (es el flags : Z) | EvtUnregister (es el : Z) | EvtClearFlags (flags : Z) | EvtAddFlags (flags : Z)
| EvtSignalFlags (tp flags : Z) | EvtBroadcastFlags (es flags : Z)
| EvtWaitOne (flags : Z) | EvtWaitAny (flags : Z) | EvtWaitAll (flags : Z)
| EvtWaitOneTimeout (flags time : Z) | EvtWaitAnyTimeout (flags time : Z) | EvtWaitAllTimeout (flags time : Z)
| MsgSend (tp msg : Z) | MsgWait | MsgRelease (tp msg : Z)
| Tick | IsrSemSignal (s : Z) | IsrSemReset (s n : Z) | IsrBSemSignal (s : Z) | IsrBSemReset (s : Z) (taken : bool)
| IsrEvtSignalFlags (tp flags : Z).

(** The answer of a call is the thread's own business. *)
Definition quietly {A} (op : K A) : K unit := op;; mret tt.

Definition run (c : call) : K unit :=
  match c with
  | ThdCreateStatic tp p => quietly (chThdCreateStatic tp p) | ThdExit msg => quietly (chThdExit msg)
  | ThdWait tp => quietly (chThdWait tp) | ThdSleep time => quietly (chThdSleep time)
  | ThdSleepUntil time => quietly (chThdSleepUntil time) | ThdYield => quietly chThdYield
  | ThdSetPriority p => quietly (chThdSetPriority p) | ThdTerminate tp => quietly (chThdTerminate tp)
  | ThdSuspend => quietly (chSchGoSleepS SUSPENDED) | ThdResume tp => quietly (chThdResume tp)
  | ThdAddRef tp => quietly (chThdAddRef tp) | ThdRelease tp => quietly (chThdRelease tp)
  | RegFirstThread => quietly chRegFirstThread | RegNextThread tp => quietly (chRegNextThread tp)
  | SemWait s => quietly (chSemWait s) | SemWaitTimeout s time => quietly (chSemWaitTimeout s time)
  | SemSignal s => quietly (chSemSignal s) | SemReset s n => quietly (chSemReset s n)
  | SemSignalWait s w => quietly (chSemSignalWait s w)
  | BSemWait s => quietly (chBSemWait s) | BSemWaitTimeout s time => quietly (chBSemWaitTimeout s time)
  | BSemSignal s => quietly (chBSemSignal s) | BSemReset s taken => quietly (chBSemReset s taken)
  | MtxLock m => quietly (chMtxLock m) | MtxTryLock m => quietly (chMtxTryLock m)
  | MtxUnlock => quietly chMtxUnlock | MtxUnlockAll => quietly chMtxUnlockAll
  | CondSignal c => quietly (chCondSignal c) | CondBroadcast c => quietly (chCondBroadcast c)
  | CondWait c => quietly (chCondWait c) | CondWaitTimeout c time => quietly (chCondWaitTimeout c time)
  | EvtRegisterMask es el flags => quietly (chEvtRegisterMask es el flags)
  | EvtUnregister es el => quietly (chEvtUnregister es el) | EvtClearFlags flags => quietly (chEvtClearFlags flags)
  | EvtAddFlags flags => quietly (chEvtAddFlags flags) | EvtSignalFlags tp flags => quietly (chEvtSignalFlags tp flags)
  | EvtBroadcastFlags es flags => quietly (chEvtBroadcastFlags es flags)
  | EvtWaitOne flags => quietly (chEvtWaitOne flags) | EvtWaitAny flags => quietly (chEvtWaitAny flags)
  | EvtWaitAll flags => quietly (chEvtWaitAll flags)
  | EvtWaitOneTimeout flags time => quietly (chEvtWaitOneTimeout flags time)
  | EvtWaitAnyTimeout flags time => quietly (chEvtWaitAnyTimeout flags time)
  | EvtWaitAllTimeout flags time => quietly (chEvtWaitAllTimeout flags time)
  | MsgSend tp msg => quietly (chMsgSend tp msg) | MsgWait => quietly chMsgWait
  | MsgRelease tp msg => quietly (chMsgRelease tp msg)
  | Tick => port_time_tick
  | IsrSemSignal s => chSemSignalI s;; ALT_OS_INT_EXIT
  | IsrSemReset s n => chSemResetI s n;; ALT_OS_INT_EXIT
  | IsrBSemSignal s => chBSemSignalI s;; ALT_OS_INT_EXIT
  | IsrBSemReset s taken => chBSemResetI s taken;; ALT_OS_INT_EXIT
  | IsrEvtSignalFlags tp flags => chEvtSignalFlagsI tp flags;; ALT_OS_INT_EXIT
  end.

(** What the sources ask of the caller: the idle thread never sleeps, times are
    words, counters do not overflow, a thread is created in memory that is not
    a live thread's, and the others' states are as the calls' checks demand. *)
Definition callable (c : call) (me : Z) (k : kernel) : Prop :=
  match c with
  | ThdCreateStatic tp p => not_alive tp k /\ NOPRIO < p
  | ThdSleep time => me <> idle /\ fits 32 time /\ time <> TIME_IMMEDIATE
  | ThdExit _ | ThdWait _ | ThdSleepUntil _ | ThdSuspend | MtxLock _ | MsgSend _ _ | MsgWait
  | EvtWaitOne _ | EvtWaitAny _ | EvtWaitAll _ => me <> idle
  | EvtWaitOneTimeout _ time | EvtWaitAnyTimeout _ time | EvtWaitAllTimeout _ time => me <> idle /\ fits 32 time
  | ThdSetPriority p => NOPRIO < p
  | ThdResume tp => t_state (thr k tp) = SUSPENDED
  | RegFirstThread => registry k <> []
  | SemWait s => sem_wait_pre s me k
  | SemWaitTimeout s time => sem_wait_pre s me k /\ fits 32 time
  | BSemWait s => sem_wait_pre s me k
  | BSemWaitTimeout s time => sem_wait_pre s me k /\ fits 32 time
  | BSemSignal s | IsrBSemSignal s => s_cnt k s <= 1
  | SemSignal s | IsrSemSignal s => sem_signal_pre s me k
  | SemReset _ n | IsrSemReset _ n => 0 <= n < 2 ^ 31
  | SemSignalWait s w => sem_signal_pre s me k /\ sem_wait_pre w me k
  | MtxUnlock => t_mtxlist (thr k me) <> []
  | CondWait _ => me <> idle /\ t_mtxlist (thr k me) <> []
  | CondWaitTimeout _ time => me <> idle /\ t_mtxlist (thr k me) <> [] /\ fits 32 time /\ time <> TIME_IMMEDIATE
  | MsgRelease tp _ => t_state (thr k tp) = SNDMSG
  | ThdYield | ThdTerminate _ | ThdAddRef _ | ThdRelease _ | RegNextThread _ | MtxTryLock _ | MtxUnlockAll
  | CondSignal _ | CondBroadcast _ | EvtRegisterMask _ _ _ | EvtUnregister _ _ | EvtClearFlags _ | EvtAddFlags _
  | EvtSignalFlags _ _ | EvtBroadcastFlags _ _ | Tick | IsrEvtSignalFlags _ _
  | BSemReset _ _ | IsrBSemReset _ _ => True
  end.

(** ** Every call is a service *)

#[export] Instance chMtxUnlockAll_service : Service (fun _ _ => True) chMtxUnlockAll.
Proof.
  intros me k Hu _. destruct (t_mtxlist (thr k me)) as [|m mps] eqn:Hm.
  - pose proof Hu as (_ & Hc & _). unfold chMtxUnlockAll. apply seg_get. rewrite Hc, Hm. by apply seg_ret, post_start.
  - destruct (chMtxUnlockAll_ok me k Hu ltac:(congruence)) as (k' & Ek & W' & C' & V' & G' & _). unfold seg. rewrite Ek.
    eapply resched_spec; [done..|]. intros k1 k2 (W2 & C2 & G2 & A2). unfold post. split_and!; [done..|].
    intros Ha. apply A2 in Ha. unfold armed in *. by rewrite V' in Ha.
Qed.

#[export] Instance quietly_service {A} pre (op : K A) `{!Service pre op} : Service pre (quietly op).
Proof. intros me k Hu Hp. apply seg_bind. eapply seg_mono; [|by apply service]. intros k1 a k' H. by apply seg_ret. Qed.

(** An interrupt handler that makes one interrupt-level call. *)
Lemma isr_seg me (op : K unit) k :
  (exists k', op k = KRet k' tt /\ quiet me [XTop] k k') ->
  seg me (fun k1 _ k' => post me k k1 k') k ((op;; ALT_OS_INT_EXIT) k).
Proof.
  intros (k' & Ek & W' & C' & V' & G'). eapply seg_step; [exact Ek|]. apply int_exit_spec; try done.
  unfold armed. by rewrite V'.
Qed.

Lemma isr_service pre (op : K unit) :
  (forall me k, user me k -> pre me k -> exists k', op k = KRet k' tt /\ quiet me [XTop] k k') ->
  Service pre (op;; ALT_OS_INT_EXIT).
Proof. intros H me k Hu Hp. apply isr_seg. by apply H. Qed.

Lemma run_service c : Service (callable c) (run c).
Proof.
  destruct c; simpl; try exact _; apply isr_service; intros me k Hu Hp; pose proof Hu as (_ & Hc & _).
  - destruct (chSemSignalI_ok me s k (user_top _ _ Hu) Hc Hp) as (k' & E & H & _). by exists k'.
  - destruct (chSemResetI_ok me s n k (user_top _ _ Hu) Hc Hp) as (k' & E & H & _). by exists k'.
  - destruct (proj1 (shows_binary _ s k (user_top _ _ Hu) ltac:(set_solver)) Hp) as [b Hb].
    destruct (chBSemSignalI_ok me s b k (user_top _ _ Hu) Hc Hb) as (k' & E & H & _). by exists k'.
  - destruct (chSemResetI_ok me s (if taken then 0 else 1) k (user_top _ _ Hu) Hc) as (k' & E & H & _); [by destruct taken|]. by exists k'.
  - edestruct (evt_signal_ok me tp flags k (user_top _ _ Hu) Hc) as (k' & E & H & _). exists k'. split; [exact E|exact H].
Qed.

(** ** Steps *)

(** [frame t]: the rest of the call in which thread [t] was switched out;
    [None] when it is in its own code, or has not begun. *)
Record system := mkSystem { ker : kernel; frame : Z -> option (K unit) }.

(** A thread that has ended has no rest of a call. *)
Definition dropped (k : kernel) (fr : Z -> option (K unit)) (t : Z) : option (K unit) :=
  match t_state (thr k t) with FINAL => None | _ => fr t end.

(** Where the current thread [me] is left; [None] is a crash. *)
Definition left_at (me : Z) (fr : Z -> option (K unit)) (p : kprog unit) : option system :=
  match p with
  | KRet k _ => Some (mkSystem k (dropped k (<[me := None]> fr)))
  | KSwitch k r => Some (mkSystem k (dropped k (<[me := Some r]> fr)))
  | KUb => None
  end.

(** The current thread, or an interrupt in its code, makes a call; or it goes
    on from where it was switched out. *)
Inductive step (s : system) : option system -> Prop :=
| step_call c :
    frame s (currp (ker s)) = None -> callable c (currp (ker s)) (ker s) ->
    step s (left_at (currp (ker s)) (frame s) (run c (ker s)))
| step_resume r :
    frame s (currp (ker s)) = Some r -> step s (left_at (currp (ker s)) (frame s) (r (ker s))).

(** From the system as [chSysInit] leaves it. *)
Definition start : system := mkSystem boot_kernel (fun _ => None).

Inductive reachable : option system -> Prop :=
| reach_start : reachable (Some start)
| reach_step s o : reachable (Some s) -> step s o -> reachable o.

(** ** The invariant *)

(** Resumed after anything the other threads may do, the call goes through. *)
Definition waits (t : Z) (r : K unit) (k : kernel) : Prop :=
  forall k', wf k' -> currp k' = t -> rely t k k' -> seg t (fun k1 _ k2 => user t k2 /\ guar t k1 k2) k' (r k').

Definition framed (k : kernel) (fr : Z -> option (K unit)) (t : Z) : Prop :=
  match fr t with Some r => waits t r k | None => ~ armed k t end.

Definition inv (s : system) : Prop := wf (ker s) /\ forall t, framed (ker s) (frame s) t.

Lemma waits_rely t r k k' : waits t r k -> rely t k k' -> waits t r k'.
Proof. intros H Hr k2 W C Hr2. apply H; [done|done|by etrans]. Qed.

Lemma framed_rely k k' fr t : framed k fr t -> rely t k k' -> framed k' fr t.
Proof. unfold framed. intros H Hr. destruct (fr t); [by eapply waits_rely|]. intros Ha. by apply H, Hr. Qed.

Lemma final_not_armed k t : wf k -> t_state (thr k t) = FINAL -> ~ armed k t.
Proof.
  intros W Hf Ha. destruct (x_armed _ _ W t Ha) as [H|[->|H]]; [set_solver| |by rewrite Hf in H].
  pose proof (x_curr _ _ W ltac:(set_solver)). congruence.
Qed.

Lemma inv_dropped k fr : wf k -> (forall t, framed k fr t) -> inv (mkSystem k (dropped k fr)).
Proof.
  intros W H. split; [done|]. intros t. unfold framed, dropped. simpl.
  destruct (t_state (thr k t)) eqn:Ht; try apply H. by apply final_not_armed.
Qed.

(** The others are where they were, the current thread is where it got. *)
Lemma framed_moved me k k' fr f :
  (forall t, framed k fr t) -> guar me k k' -> framed k' (<[me := f]> fr) me ->
  forall t, framed k' (<[me := f]> fr) t.
Proof.
  intros H G Hme t. destruct (decide (t = me)) as [->|Hne]; [done|]. unfold framed. rewrite fn_lookup_insert_ne by done.
  apply (framed_rely k); [apply H|by apply G].
Qed.

Lemma left_inv me k fr p :
  (forall t, framed k fr t) -> seg me (fun k1 _ k2 => user me k2 /\ guar me k1 k2) k p ->
  exists s, left_at me fr p = Some s /\ inv s.
Proof.
  intros H. destruct p as [k' []|k' r|]; [| |done].
  - intros [Hu G]. eexists. split; [done|]. apply inv_dropped; [apply Hu|]. apply (framed_moved me k); [done|done|].
    unfold framed. rewrite fn_lookup_insert. apply Hu.
  - intros [[W G] Hr]. eexists. split; [done|]. apply inv_dropped; [done|]. apply (framed_moved me k); [done|done|].
    unfold framed. rewrite fn_lookup_insert. intros k2 W2 C2 R2. by apply Hr.
Qed.

Lemma inv_user s : inv s -> frame s (currp (ker s)) = None -> user (currp (ker s)) (ker s).
Proof. intros [W H] Hf. split_and!; [done|done|]. specialize (H (currp (ker s))). unfold framed in H. by rewrite Hf in H. Qed.

Lemma step_inv s o : inv s -> step s o -> exists s', o = Some s' /\ inv s'.
Proof.
  intros Hi [c Hf Hc|r Hf]; pose proof Hi as [W H].
  - apply (left_inv _ (ker s)); [done|]. pose proof (inv_user s Hi Hf) as Hu.
    eapply seg_mono; [|by apply (run_service c)]. intros k1 a k' Hp. split; [exact (post_user _ _ _ _ Hu Hp)|apply Hp].
  - apply (left_inv _ (ker s)); [done|]. specialize (H (currp (ker s))). unfold framed in H. rewrite Hf in H.
    by apply H.
Qed.

Lemma start_inv : inv start.
Proof. split; [apply boot_user|]. intros t. apply not_elem_of_nil. Qed.

Lemma reachable_inv o : reachable o -> exists s, o = Some s /\ inv s.
Proof.
  induction 1 as [|s o _ (s' & [= <-] & Hi) Hs]; [exists start; split; [done|apply start_inv]|].
  by apply (step_inv s).
Qed.

(** (C1) The running system never crashes.  From the start, after any sequence
    of calls and interrupts in any threads, each within its precondition: the
    state is one of a system and not a crash; a thread that was switched out
    can go on; the current thread is at least as urgent as every ready one; a
    semaphore with waiters has as many as its counter is below zero and one at
    or above zero has none; an owned mutex is in its owner's list and nobody
    waits for a free one; no thread is below its own priority; no thread is in two queues or twice in one. *)
Theorem system_never_crashes o :
  reachable o ->
  exists s, o = Some s /\
    (forall r, frame s (currp (ker s)) = Some r -> exists s', step s (Some s')) /\
    t_state (thr (ker s) (currp (ker s))) = CURRENT /\
    (forall t, t ∈ queues (ker s) QReady -> prio_of (ker s) t <= prio_of (ker s) (currp (ker s))) /\
    (forall m, zlen (queues (ker s) (QSem m)) = Z.max 0 (- s_cnt (ker s) m)) /\
    (forall m t, m_owner (ker s) m = Some t <-> m ∈ t_mtxlist (thr (ker s) t)) /\
    (forall m, m_owner (ker s) m = None -> queues (ker s) (QMtx m) = []) /\
    (forall t, t_realprio (thr (ker s) t) <= prio_of (ker s) t) /\
    (forall q q' t, t ∈ queues (ker s) q -> t ∈ queues (ker s) q' -> q = q') /\
    (forall q, NoDup (queues (ker s) q)).
Proof.
  intros Hr. destruct (reachable_inv o Hr) as (s & -> & Hi). pose proof Hi as [W _]. exists s. split; [done|].
  pose proof (x_mtx _ _ W ltac:(set_solver)) as M. split_and!.
  - intros r Hf. pose proof (step_resume s r Hf) as Hs. destruct (step_inv s _ Hi Hs) as (s' & E & _).
    exists s'. by rewrite <- E.
  - apply (x_curr _ _ W). set_solver.
  - apply (x_top _ _ W). set_solver.
  - intros m. apply (x_sem _ _ W m). set_solver.
  - apply (mx_owner _ _ M).
  - apply (mx_free _ _ M).
  - apply (mx_lower _ _ M).
  - intros q q' t H1%(x_link _ _ W) H2%(x_link _ _ W). congruence.
  - apply (x_nodup _ _ W).
Qed.

(** The main thread creates a thread of a higher priority, which runs. *)
Definition after_create : option system := left_at 0 (frame start) (run (ThdCreateStatic 2 100) (ker start)).

Lemma after_create_reachable : reachable after_create.
Proof.
  eapply reach_step; [exact reach_start|]. refine (step_call start (ThdCreateStatic 2 100) eq_refl _).
  split; [|by vm_compute]. unfold not_alive. split_and!; by vm_compute.
Qed.

Lemma system_never_crashes_witness :
  exists s, after_create = Some s /\ currp (ker s) = 2 /\ t_state (thr (ker s) 2) = CURRENT.
Proof.
  destruct (system_never_crashes after_create after_create_reachable) as (s & E & _ & Hc & _).
  assert (H2 : currp (ker (default start after_create)) = 2) by (by vm_compute).
  rewrite E in H2. simpl in H2. rewrite H2 in Hc. exists s. split; [exact E|]. split; [exact H2|exact Hc].
Defined.
