(* ===== verification/ChRing.v ===== *)
(** * Circular buffers

    The rings of mailboxes and of queues of bytes: a buffer, a read place and a
    number of used places, seen as the list they hold. *)

From S2P Require Import Prelude.

(** The place [p] of a buffer of [n], one up and one down, as the code steps its
    pointers. *)
Definition ring_up (n p : Z) : Z := if n <=? p + 1 then 0 else p + 1.
Definition ring_down (n p : Z) : Z := if p - 1 <? 0 then n - 1 else p - 1.

(** A store at [p]; outside the buffer there is none. *)
Definition ring_write (buf : list Z) (p b : Z) : option (list Z) :=
  if (0 <=? p) && (p <? zlen buf) then Some (zset buf p b) else None.

(** The [u] bytes from place [rd] on. *)
Definition ring_list (buf : list Z) (rd u : Z) : list Z :=
  (fun i => buf !!! Z.to_nat ((rd + Z.of_nat i) mod zlen buf)) <$> seq 0 (Z.to_nat u).

Lemma ring_up_mod n p : 0 <= p < n -> ring_up n p = (p + 1) mod n.
Proof.
  intros Hp. unfold ring_up. destruct (Z.leb_spec n (p + 1)).
  - assert (p + 1 = n) as -> by lia. symmetry. apply Z.mod_same. lia.
  - symmetry. apply Z.mod_small. lia.
Qed.

Lemma ring_down_mod n p : 0 <= p < n -> ring_down n p = (p - 1) mod n.
Proof.
  intros Hp. unfold ring_down. destruct (Z.ltb_spec (p - 1) 0).
  - assert (p = 0) as -> by lia. apply (Z.mod_unique _ _ (-1)); lia.
  - symmetry. apply Z.mod_small. lia.
Qed.

Lemma ring_list_length buf rd u : length (ring_list buf rd u) = Z.to_nat u.
Proof. unfold ring_list. by rewrite length_fmap, length_seq. Qed.

Lemma zget_total (buf : list Z) p : 0 <= p < zlen buf -> zget buf p = Some (buf !!! Z.to_nat p).
Proof.
  intros Hp. unfold zget. zbool. apply list_lookup_lookup_total_lt. unfold zlen in Hp. lia.
Qed.

Lemma ring_write_ok (buf : list Z) p b : 0 <= p < zlen buf -> ring_write buf p b = Some (<[Z.to_nat p := b]> buf).
Proof.
  intros Hp. unfold ring_write, zset. by rewrite !(proj2 (Z.leb_le 0 p)), (proj2 (Z.ltb_lt _ _)) by lia.
Qed.

Lemma zlen_insert (buf : list Z) i b : zlen (<[i := b]> buf) = zlen buf.
Proof. unfold zlen. by rewrite length_insert. Qed.

(** Two used places of a ring differ. *)
Lemma ring_places n rd i j : 0 < n -> 0 <= i < n -> 0 <= j < n -> (rd + i) mod n = (rd + j) mod n -> i = j.
Proof.
  intros Hn Hi Hj He. assert ((i - j) mod n = 0) as Hd.
  { replace (i - j) with ((rd + i) - (rd + j)) by lia. rewrite Zminus_mod, He, Z.sub_diag. by apply Z.mod_0_l; lia. }
  apply Z.mod_divide in Hd as [c Hc]; [|lia]. assert (c = 0) by nia. lia.
Qed.

Section Ring.

Context (buf : list Z) (rd u b : Z).
Context (Hrd : 0 <= rd < zlen buf) (Hu : 0 <= u).

(** Behind the last one. *)
Lemma ring_put :
  u < zlen buf ->
  ring_list (<[Z.to_nat ((rd + u) mod zlen buf) := b]> buf) rd (u + 1) = ring_list buf rd u ++ [b].
Proof using Hrd Hu.
  intros Hlt. unfold ring_list. rewrite zlen_insert.
  replace (Z.to_nat (u + 1)) with (Z.to_nat u + 1)%nat by lia. rewrite seq_app, fmap_app. simpl. f_equal.
  - apply list_fmap_ext. intros j i Hi. apply lookup_seq in Hi as [-> Hj]. simpl.
    apply list_lookup_total_insert_ne. intros He. apply Z2Nat.inj in He; [|apply Z.mod_pos_bound; lia..].
    apply ring_places in He; lia.
  - f_equal. rewrite Z2Nat.id by lia. apply list_lookup_total_insert_eq.
    pose proof (Z.mod_pos_bound (rd + u) (zlen buf) ltac:(lia)). unfold zlen in *. lia.
Qed.

(** Before the first one. *)
Lemma ring_push :
  u < zlen buf ->
  let rd' := (rd - 1) mod zlen buf in
  ring_list (<[Z.to_nat rd' := b]> buf) rd' (u + 1) = b :: ring_list buf rd u.
Proof using Hrd Hu.
  intros Hlt rd'. unfold ring_list. rewrite zlen_insert.
  assert (Hr : 0 <= rd' < zlen buf) by (apply Z.mod_pos_bound; lia).
  replace (Z.to_nat (u + 1)) with (S (Z.to_nat u)) by lia. cbn [seq fmap list_fmap]. f_equal.
  - rewrite Z.add_0_r, Z.mod_small by done. apply list_lookup_total_insert_eq. unfold zlen in *. lia.
  - rewrite <- fmap_S_seq, <- list_fmap_compose. apply list_fmap_ext. intros j i Hi. apply lookup_seq in Hi as [-> Hj].
    unfold compose. simpl.
    assert (He : (rd' + Z.of_nat (S j)) mod zlen buf = (rd + Z.of_nat j) mod zlen buf).
    { unfold rd'. rewrite Zplus_mod_idemp_l. f_equal. lia. }
    rewrite He. apply list_lookup_total_insert_ne. intros Hx.
    apply Z2Nat.inj in Hx; [|lia|apply Z.mod_pos_bound; lia].
    rewrite <- He, <- (Z.mod_small rd' (zlen buf)) in Hx at 1 by done.
    rewrite <- (Z.add_0_r rd') in Hx at 1. apply ring_places in Hx; lia.
Qed.

(** The first one out. *)
Lemma ring_take :
  0 < u -> ring_list buf rd u = buf !!! Z.to_nat rd :: ring_list buf ((rd + 1) mod zlen buf) (u - 1).
Proof using Hrd Hu.
  intros Hlt. unfold ring_list. replace (Z.to_nat u) with (S (Z.to_nat (u - 1))) by lia. cbn [seq fmap list_fmap].
  f_equal; [by rewrite Z.add_0_r, Z.mod_small|].
  rewrite <- fmap_S_seq, <- list_fmap_compose. apply list_fmap_ext. intros j i Hi. unfold compose.
  do 2 f_equal. rewrite Zplus_mod_idemp_l. f_equal. lia.
Qed.

End Ring.
