(* ===== verification/ChMbox.v ===== *)
(** * Mailboxes: kernel/src/chmboxes.c, include/chmboxes.h

    A circular buffer of messages between two semaphores: one counts the free
    places, one the messages. *)

From S2P Require Import Prelude ChLists Kernel ChVt ChSchd ChInv ChSeg ChSem ChThreads ChRing.

Definition mb_upd (mbp : Z) (f : Mailbox -> Mailbox) : K unit := kmod (fun k => set_mbx mbp (f (mbx k mbp)) k).

Definition mb_size (m : Mailbox) : Z := zlen (mb_buffer m).

(** [buf] is the [n] cells of the buffer. *)
Definition chMBInit (mbp : Z) (buf : list Z) (n : Z) : K unit :=
  mb_upd mbp (fun m => mkMailbox buf 0 0 (mb_fullsem m) (mb_emptysem m));;
  k ← kget;
  chSemInit (mb_emptysem (mbx k mbp)) n;;
  chSemInit (mb_fullsem (mbx k mbp)) 0.

Definition chMBSizeI (mbp : Z) (k : kernel) : Z := mb_size (mbx k mbp).

Definition chMBReset (mbp : Z) : K unit :=
  mb_upd mbp (fun m => mkMailbox (mb_buffer m) 0 0 (mb_fullsem m) (mb_emptysem m));;
  k ← kget;
  chSemResetI (mb_emptysem (mbx k mbp)) (chMBSizeI mbp k);;
  chSemResetI (mb_fullsem (mbx k mbp)) 0;;
  chSchRescheduleS.

(** [*mbp->mb_wrptr++ = msg], and round the end of the buffer. *)
Definition mb_write (mbp msg : Z) : K unit := fun k =>
  let m := mbx k mbp in
  match ring_write (mb_buffer m) (mb_wrptr m) msg with
  | None => KUb
  | Some buf =>
      KRet (set_mbx mbp (mkMailbox buf (ring_up (mb_size m) (mb_wrptr m)) (mb_rdptr m)
                                   (mb_fullsem m) (mb_emptysem m)) k) tt
  end.

(** The read pointer back, and the message there. *)
Definition mb_write_ahead (mbp msg : Z) : K unit := fun k =>
  let m := mbx k mbp in
  let rd := ring_down (mb_size m) (mb_rdptr m) in
  match ring_write (mb_buffer m) rd msg with
  | None => KUb
  | Some buf => KRet (set_mbx mbp (mkMailbox buf (mb_wrptr m) rd (mb_fullsem m) (mb_emptysem m)) k) tt
  end.

(** [*msgp = *mbp->mb_rdptr++], and round the end of the buffer. *)
Definition mb_read (mbp : Z) : K Z := fun k =>
  let m := mbx k mbp in
  match zget (mb_buffer m) (mb_rdptr m) with
  | None => KUb
  | Some msg =>
      KRet (set_mbx mbp (mkMailbox (mb_buffer m) (mb_wrptr m) (ring_up (mb_size m) (mb_rdptr m))
                                   (mb_fullsem m) (mb_emptysem m)) k) msg
  end.

Definition chMBPostS (mbp msg time : Z) : K Z :=
  k ← kget;
  rdymsg ← chSemWaitTimeoutS (mb_emptysem (mbx k mbp)) time;
  if rdymsg =? RDY_OK then
    mb_write mbp msg;;
    chSemSignalI (mb_fullsem (mbx k mbp));;
    chSchRescheduleS;;
    mret rdymsg
  else mret rdymsg.

Definition chMBPost (mbp msg time : Z) : K Z := chMBPostS mbp msg time.

Definition chMBPostI (mbp msg : Z) : K Z :=
  k ← kget;
  n ← chSemGetCounterI (mb_emptysem (mbx k mbp));
  if n <=? 0 then mret RDY_TIMEOUT
  else
    chSemFastWaitI (mb_emptysem (mbx k mbp));;
    mb_write mbp msg;;
    chSemSignalI (mb_fullsem (mbx k mbp));;
    mret RDY_OK.

Definition chMBPostAheadS (mbp msg time : Z) : K Z :=
  k ← kget;
  rdymsg ← chSemWaitTimeoutS (mb_emptysem (mbx k mbp)) time;
  if rdymsg =? RDY_OK then
    mb_write_ahead mbp msg;;
    chSemSignalI (mb_fullsem (mbx k mbp));;
    chSchRescheduleS;;
    mret rdymsg
  else mret rdymsg.

Definition chMBPostAhead (mbp msg time : Z) : K Z := chMBPostAheadS mbp msg time.

Definition chMBPostAheadI (mbp msg : Z) : K Z :=
  k ← kget;
  n ← chSemGetCounterI (mb_emptysem (mbx k mbp));
  if n <=? 0 then mret RDY_TIMEOUT
  else
    chSemFastWaitI (mb_emptysem (mbx k mbp));;
    mb_write_ahead mbp msg;;
    chSemSignalI (mb_fullsem (mbx k mbp));;
    mret RDY_OK.

(** The answer and, when it is [RDY_OK], what is stored at [msgp]. *)
Definition chMBFetchS (mbp time : Z) : K (Z * option Z) :=
  k ← kget;
  rdymsg ← chSemWaitTimeoutS (mb_fullsem (mbx k mbp)) time;
  if rdymsg =? RDY_OK then
    msg ← mb_read mbp;
    chSemSignalI (mb_emptysem (mbx k mbp));;
    chSchRescheduleS;;
    mret (rdymsg, Some msg)
  else mret (rdymsg, None).

Definition chMBFetch (mbp time : Z) : K (Z * option Z) := chMBFetchS mbp time.

(** The counter of messages is read and not taken down. *)
Definition chMBFetchI (mbp : Z) : K (Z * option Z) :=
  k ← kget;
  n ← chSemGetCounterI (mb_fullsem (mbx k mbp));
  if n <=? 0 then mret (RDY_TIMEOUT, None)
  else
    msg ← mb_read mbp;
    chSemSignalI (mb_emptysem (mbx k mbp));;
    mret (RDY_OK, Some msg).

Definition chMBGetFreeCountI (mbp : Z) : K Z := fun k => chSemGetCounterI (mb_emptysem (mbx k mbp)) k.
Definition chMBGetUsedCountI (mbp : Z) : K Z := fun k => chSemGetCounterI (mb_fullsem (mbx k mbp)) k.
Definition chMBPeekI (mbp : Z) : K Z := fun k =>
  match zget (mb_buffer (mbx k mbp)) (mb_rdptr (mbx k mbp)) with None => KUb | Some msg => KRet k msg end.

(** ** What a mailbox holds *)

(** The mailbox holds the messages [l] and nobody is in the middle of a
    transfer: the counters are the free places and the messages. *)
Record mb_holds (mbp : Z) (l : list Z) (k : kernel) : Prop := {
  mh_size : zlen l <= mb_size (mbx k mbp) < 2 ^ 31;
  mh_rd : 0 <= mb_rdptr (mbx k mbp) < mb_size (mbx k mbp);
  mh_wr : mb_wrptr (mbx k mbp) = (mb_rdptr (mbx k mbp) + zlen l) mod mb_size (mbx k mbp);
  mh_list : l = ring_list (mb_buffer (mbx k mbp)) (mb_rdptr (mbx k mbp)) (zlen l);
  mh_full : s_cnt k (mb_fullsem (mbx k mbp)) = zlen l;
  mh_empty : s_cnt k (mb_emptysem (mbx k mbp)) = mb_size (mbx k mbp) - zlen l;
  mh_sems : mb_fullsem (mbx k mbp) <> mb_emptysem (mbx k mbp)
}.

Lemma mbx_set b m k b' : mbx (set_mbx b m k) b' = if decide (b' = b) then m else mbx k b'.
Proof.
  unfold set_mbx. simpl. destruct (decide (b' = b)) as [->|Hx]; [apply fn_lookup_insert|by apply fn_lookup_insert_ne].
Qed.

Lemma wfx_mbx E b m k : wfx E k -> wfx E (set_mbx b m k).
Proof. by apply wfx_ext. Qed.

(** Only the counters changed, to [a] and [e]. *)
Lemma mb_holds_frame mbp l k k' :
  mbx k' mbp = mbx k mbp ->
  s_cnt k' (mb_fullsem (mbx k mbp)) = s_cnt k (mb_fullsem (mbx k mbp)) ->
  s_cnt k' (mb_emptysem (mbx k mbp)) = s_cnt k (mb_emptysem (mbx k mbp)) ->
  mb_holds mbp l k -> mb_holds mbp l k'.
Proof. intros Hm Hf He [H1 H2 H3 H4 H5 H6 H7]. constructor; rewrite ?Hm; congruence. Qed.

(** A signal of a semaphore changes no mailbox. *)
Lemma signal_mbx s k k' : chSemSignalI s k = KRet k' tt -> mbx k' = mbx k.
Proof.
  unfold chSemSignalI, chSemFastSignalI, cnt_add, mbind, K_bind. destruct (_ && _); [|done]. simpl.
  destruct (_ <=? _); [|by intros [= <-]]. unfold k_fifo_remove. destruct (queues _ _) as [|t l]; [done|]. simpl.
  unfold chSchReadyI. destruct (_ <=? _); [done|]. by intros [= <-].
Qed.

(** ** A transfer: a token taken, the mailbox changed, the other side signalled *)

Section Transfer.

Context (me mbp a c : Z) (m' : Mailbox) (k : kernel).
Context (W : wfx [XTop] k) (Hc : currp k = me) (Hac : a <> c).
Context (Hcnt : 0 < s_cnt k a) (Hroom : s_cnt k c + 1 < 2 ^ 31).

(** The counter of [a] taken down. *)
Definition taken : kernel := set_cnt a (s_cnt k a + -1) k.

Lemma taken_ok : chSemFastWaitI a k = KRet taken (s_cnt k a + -1) /\ wfx [XTop] taken /\ guar me k taken.
Proof using W Hc Hcnt.
  destruct (sem_count_down me a k W Hc ltac:(lia)) as (He & Hg & W1 & Wp & _). split_and!; [done|apply Wp; lia|done].
Qed.

Lemma transfer_ok k1 :
  k1 = taken \/ k1 = k ->
  exists k', chSemSignalI c (set_mbx mbp m' k1) = KRet k' tt /\ quiet me [XTop] k k' /\
    (forall b, mbx k' b = if decide (b = mbp) then m' else mbx k b) /\
    s_cnt k' c = s_cnt k c + 1 /\ s_cnt k' a = s_cnt k1 a.
Proof using W Hc Hac Hcnt Hroom.
  intros Hk1. destruct taken_ok as (_ & Wt & Gt). set (k2 := set_mbx mbp m' k1).
  assert (W2 : wfx [XTop] k2) by (apply wfx_mbx; by destruct Hk1 as [->| ->]).
  assert (Hc2 : currp k2 = me) by (by destruct Hk1 as [Hx|Hx]; unfold k2; rewrite Hx).
  assert (Hcc : s_cnt k2 c = s_cnt k c).
  { destruct Hk1 as [Hx|Hx]; unfold k2; rewrite Hx; [|done]. change (s_cnt (set_mbx mbp m' taken)) with (s_cnt taken).
    unfold taken. by rewrite cnt_set, decide_False. }
  destruct (chSemSignalI_ok me c k2 W2 Hc2) as (k' & E' & (W' & C' & V' & G') & N' & _); [lia|].
  exists k'. split_and!; [done| | |by rewrite N', fn_lookup_insert, Hcc|].
  - unfold quiet. split_and!; [done|done| |].
    + rewrite V'. by destruct Hk1 as [Hx|Hx]; unfold k2; rewrite Hx.
    + etrans; [|exact G']. etrans; [|by apply (guar_same me k1 k2)]. by destruct Hk1 as [->| ->].
  - intros b. rewrite (signal_mbx _ _ _ E'). unfold k2. rewrite mbx_set. by destruct Hk1 as [->| ->].
  - by rewrite N', fn_lookup_insert_ne by done.
Qed.

End Transfer.

Section Holds.

Context (me mbp : Z) (l : list Z) (k : kernel).
Context (W : wfx [XTop] k) (Hc : currp k = me) (H : mb_holds mbp l k).

Lemma holds_used : 0 <= zlen l /\ ring_list (mb_buffer (mbx k mbp)) (mb_rdptr (mbx k mbp)) (zlen l) = l.
Proof using H. split; [apply zlen_nonneg|]. symmetry. apply H. Qed.

(** The mailbox after a message behind the last. *)
Definition with_last (msg : Z) : Mailbox :=
  let m := mbx k mbp in
  mkMailbox (<[Z.to_nat (mb_wrptr m) := msg]> (mb_buffer m)) (ring_up (mb_size m) (mb_wrptr m)) (mb_rdptr m)
    (mb_fullsem m) (mb_emptysem m).

Definition with_first (msg : Z) : Mailbox :=
  let m := mbx k mbp in
  mkMailbox (<[Z.to_nat (ring_down (mb_size m) (mb_rdptr m)) := msg]> (mb_buffer m)) (mb_wrptr m)
    (ring_down (mb_size m) (mb_rdptr m)) (mb_fullsem m) (mb_emptysem m).

Definition without_first : Mailbox :=
  let m := mbx k mbp in
  mkMailbox (mb_buffer m) (mb_wrptr m) (ring_up (mb_size m) (mb_rdptr m)) (mb_fullsem m) (mb_emptysem m).

Lemma wr_range : 0 <= mb_wrptr (mbx k mbp) < mb_size (mbx k mbp).
Proof using H. rewrite (mh_wr _ _ _ H). apply Z.mod_pos_bound. pose proof (mh_rd _ _ _ H). lia. Qed.

Lemma mb_write_eq msg k1 : mbx k1 mbp = mbx k mbp -> mb_write mbp msg k1 = KRet (set_mbx mbp (with_last msg) k1) tt.
Proof using H. intros Hm. unfold mb_write. rewrite Hm. cbv zeta. by rewrite ring_write_ok by apply wr_range. Qed.

Lemma mb_write_ahead_eq msg k1 :
  mbx k1 mbp = mbx k mbp -> mb_write_ahead mbp msg k1 = KRet (set_mbx mbp (with_first msg) k1) tt.
Proof using H.
  intros Hm. unfold mb_write_ahead. rewrite Hm. cbv zeta. rewrite ring_write_ok; [done|].
  pose proof (mh_rd _ _ _ H). rewrite ring_down_mod by done. apply Z.mod_pos_bound. unfold mb_size in *. lia.
Qed.

Lemma mb_read_eq x l' k1 :
  l = x :: l' -> mbx k1 mbp = mbx k mbp -> mb_read mbp k1 = KRet (set_mbx mbp without_first k1) x.
Proof using H.
  intros Hl Hm. unfold mb_read. rewrite Hm. cbv zeta. rewrite zget_total by apply (mh_rd _ _ _ H).
  pose proof (mh_list _ _ _ H) as Hr. pose proof (mh_rd _ _ _ H) as Hrd. unfold mb_size in Hrd.
  rewrite ring_take in Hr; [|done|apply zlen_nonneg|rewrite Hl; unfold zlen; simpl; lia].
  rewrite Hl in Hr at 1. injection Hr as Hx _. by rewrite <- Hx.
Qed.

(** What the three changes leave, with the counters to match. *)
Lemma holds_last msg k' :
  zlen l < mb_size (mbx k mbp) -> mbx k' mbp = with_last msg ->
  s_cnt k' (mb_fullsem (mbx k mbp)) = zlen l + 1 -> s_cnt k' (mb_emptysem (mbx k mbp)) = mb_size (mbx k mbp) - zlen l - 1 ->
  mb_holds mbp (l ++ [msg]) k'.
Proof using H.
  intros Hlt Hm Hf He. destruct H as [H1 H2 H3 H4 H5 H6 H7]. pose proof wr_range as Hw.
  assert (Hs : mb_size (with_last msg) = mb_size (mbx k mbp)) by apply zlen_insert.
  assert (Hz : zlen (l ++ [msg]) = zlen l + 1) by (unfold zlen; rewrite length_app; simpl; lia).
  constructor; rewrite Hm, ?Hz, ?Hs; simpl; try done; try lia.
  - rewrite ring_up_mod, H3 by done. rewrite Zplus_mod_idemp_l. f_equal. lia.
  - pose proof (ring_put (mb_buffer (mbx k mbp)) (mb_rdptr (mbx k mbp)) (zlen l) msg H2 (zlen_nonneg l) Hlt) as Hp.
    rewrite <- H4 in Hp. rewrite H3. by symmetry.
Qed.

Lemma holds_first msg k' :
  zlen l < mb_size (mbx k mbp) -> mbx k' mbp = with_first msg ->
  s_cnt k' (mb_fullsem (mbx k mbp)) = zlen l + 1 -> s_cnt k' (mb_emptysem (mbx k mbp)) = mb_size (mbx k mbp) - zlen l - 1 ->
  mb_holds mbp (msg :: l) k'.
Proof using H.
  intros Hlt Hm Hf He. destruct H as [H1 H2 H3 H4 H5 H6 H7].
  assert (Hs : mb_size (with_first msg) = mb_size (mbx k mbp)) by apply zlen_insert.
  assert (Hz : zlen (msg :: l) = zlen l + 1) by (unfold zlen; simpl; lia).
  constructor; rewrite Hm, ?Hz, ?Hs; simpl; try done; try lia; rewrite ?ring_down_mod by done.
  - apply Z.mod_pos_bound. lia.
  - rewrite Zplus_mod_idemp_l, H3. f_equal. lia.
  - pose proof (ring_push (mb_buffer (mbx k mbp)) (mb_rdptr (mbx k mbp)) (zlen l) msg H2 (zlen_nonneg l) Hlt) as Hp.
    rewrite <- H4 in Hp. by symmetry.
Qed.

Lemma holds_tail x l' k' :
  l = x :: l' -> mbx k' mbp = without_first ->
  s_cnt k' (mb_fullsem (mbx k mbp)) = zlen l - 1 -> s_cnt k' (mb_emptysem (mbx k mbp)) = mb_size (mbx k mbp) - zlen l + 1 ->
  mb_holds mbp l' k'.
Proof using H.
  intros Hl Hm Hf He. destruct H as [H1 H2 H3 H4 H5 H6 H7].
  assert (Hz : zlen l = zlen l' + 1) by (rewrite Hl; unfold zlen; simpl; lia). pose proof (zlen_nonneg l').
  assert (Hs : mb_size without_first = mb_size (mbx k mbp)) by done.
  constructor; rewrite Hm, ?Hs; simpl; try done; try lia; rewrite ?ring_up_mod by done.
  - apply Z.mod_pos_bound. lia.
  - rewrite Zplus_mod_idemp_l, H3. f_equal. lia.
  - pose proof (ring_take (mb_buffer (mbx k mbp)) (mb_rdptr (mbx k mbp)) (zlen l) H2 (zlen_nonneg l) ltac:(lia)) as Ht.
    rewrite <- H4 in Ht. rewrite Hl in Ht at 1. injection Ht as _ Ht.
    etrans; [exact Ht|]. by replace (zlen l - 1) with (zlen l') by lia.
Qed.

End Holds.

(** ** What the calls do to a mailbox at rest *)

Section Calls.

Context (me mbp : Z) (l : list Z) (k : kernel).
Context (W : wfx [XTop] k) (Hc : currp k = me) (H : mb_holds mbp l k).

(** The state after a transfer that left the list [l']. *)
Definition transferred (l' : list Z) (k' : kernel) : Prop :=
  quiet me [XTop] k k' /\ mb_holds mbp l' k' /\ forall b, b <> mbp -> mbx k' b = mbx k b.

Lemma wait_granted s time :
  0 < s_cnt k s -> chSemWaitTimeoutS s time k = KRet (taken s k) RDY_OK.
Proof using W Hc.
  intros Hs. unfold chSemWaitTimeoutS. erewrite kbind_ret by apply (taken_ok me s k W Hc Hs).
  by rewrite (proj2 (Z.ltb_ge _ _)) by lia.
Qed.

Lemma taken_mbx s : mbx (taken s k) mbp = mbx k mbp.
Proof. done. Qed.

Lemma post_transfer (m' : Mailbox) l' :
  zlen l < mb_size (mbx k mbp) -> mb_fullsem m' = mb_fullsem (mbx k mbp) ->
  (forall k', mbx k' mbp = m' -> s_cnt k' (mb_fullsem (mbx k mbp)) = zlen l + 1 ->
     s_cnt k' (mb_emptysem (mbx k mbp)) = mb_size (mbx k mbp) - zlen l - 1 -> mb_holds mbp l' k') ->
  exists k', chSemSignalI (mb_fullsem (mbx k mbp)) (set_mbx mbp m' (taken (mb_emptysem (mbx k mbp)) k)) = KRet k' tt /\
    transferred l' k'.
Proof using W Hc H.
  intros Hlt Hf Hh. pose proof (mh_full _ _ _ H) as Hfu. pose proof (mh_empty _ _ _ H) as Hem.
  pose proof (mh_sems _ _ _ H) as Hne. pose proof (mh_size _ _ _ H) as Hsz.
  destruct (transfer_ok me mbp (mb_emptysem (mbx k mbp)) (mb_fullsem (mbx k mbp)) m' k W Hc) with
    (k1 := taken (mb_emptysem (mbx k mbp)) k) as (k' & E' & Q' & M' & F' & A'); [done|lia|lia|by left|].
  exists k'. split; [done|]. unfold transferred. split_and!; [done| |].
  - apply Hh; [by rewrite M', decide_True|lia|]. rewrite A'. unfold taken. rewrite cnt_set, decide_True by done. lia.
  - intros b Hb. by rewrite M', decide_False.
Qed.

Lemma chMBPost_ok msg time :
  zlen l < mb_size (mbx k mbp) ->
  exists k', transferred (l ++ [msg]) k' /\ chMBPostI mbp msg k = KRet k' RDY_OK /\
    chMBPost mbp msg time k = (chSchRescheduleS;; mret RDY_OK) k'.
Proof using W Hc H.
  intros Hlt. destruct (post_transfer (with_last mbp k msg) (l ++ [msg])) as (k' & E' & T'); [done|done|intros k2 ???; by apply (holds_last mbp l k H msg)|].
  pose proof (mh_empty _ _ _ H) as Hem. pose proof (mb_write_eq mbp l k H msg (taken (mb_emptysem (mbx k mbp)) k) eq_refl) as Ew.
  exists k'. split_and!; [done|..].
  - unfold chMBPostI. rewrite kget_bind. erewrite kbind_ret by reflexivity. rewrite (proj2 (Z.leb_gt _ _)) by lia.
    erewrite kbind_ret by (apply (taken_ok me _ k W Hc); lia). erewrite kbind_ret by exact Ew. by erewrite kbind_ret by exact E'.
  - unfold chMBPost, chMBPostS. rewrite kget_bind. erewrite kbind_ret by (apply wait_granted; lia).
    change (RDY_OK =? RDY_OK) with true. cbn match. erewrite kbind_ret by exact Ew. by erewrite kbind_ret by exact E'.
Qed.

Lemma chMBPostAhead_ok msg time :
  zlen l < mb_size (mbx k mbp) ->
  exists k', transferred (msg :: l) k' /\ chMBPostAheadI mbp msg k = KRet k' RDY_OK /\
    chMBPostAhead mbp msg time k = (chSchRescheduleS;; mret RDY_OK) k'.
Proof using W Hc H.
  intros Hlt. destruct (post_transfer (with_first mbp k msg) (msg :: l)) as (k' & E' & T'); [done|done|intros k2 ???; by apply (holds_first mbp l k H msg)|].
  pose proof (mh_empty _ _ _ H) as Hem. pose proof (mb_write_ahead_eq mbp l k H msg (taken (mb_emptysem (mbx k mbp)) k) eq_refl) as Ew.
  exists k'. split_and!; [done|..].
  - unfold chMBPostAheadI. rewrite kget_bind. erewrite kbind_ret by reflexivity. rewrite (proj2 (Z.leb_gt _ _)) by lia.
    erewrite kbind_ret by (apply (taken_ok me _ k W Hc); lia). erewrite kbind_ret by exact Ew. by erewrite kbind_ret by exact E'.
  - unfold chMBPostAhead, chMBPostAheadS. rewrite kget_bind. erewrite kbind_ret by (apply wait_granted; lia).
    change (RDY_OK =? RDY_OK) with true. cbn match. erewrite kbind_ret by exact Ew. by erewrite kbind_ret by exact E'.
Qed.

Lemma chMBFetch_ok x l' time :
  l = x :: l' ->
  exists k', transferred l' k' /\ chMBFetch mbp time k = (chSchRescheduleS;; mret (RDY_OK, Some x)) k'.
Proof using W Hc H.
  intros Hl. pose proof (mh_full _ _ _ H) as Hfu. pose proof (mh_empty _ _ _ H) as Hem.
  pose proof (mh_sems _ _ _ H) as Hne. pose proof (mh_size _ _ _ H) as Hsz.
  assert (Hz : 0 < zlen l) by (rewrite Hl; unfold zlen; simpl; lia).
  destruct (transfer_ok me mbp (mb_fullsem (mbx k mbp)) (mb_emptysem (mbx k mbp)) (without_first mbp k) k W Hc) with
    (k1 := taken (mb_fullsem (mbx k mbp)) k) as (k' & E' & Q' & M' & F' & A'); [done|lia|lia|by left|].
  exists k'. split.
  - unfold transferred. split_and!; [done| |].
    + eapply (holds_tail mbp l k H x l' k' Hl); [by rewrite M', decide_True| |lia].
      rewrite A'. unfold taken. rewrite cnt_set, decide_True by done. lia.
    + intros b Hb. by rewrite M', decide_False.
  - unfold chMBFetch, chMBFetchS. rewrite kget_bind. erewrite kbind_ret by (apply wait_granted; lia).
    change (RDY_OK =? RDY_OK) with true. cbn match.
    erewrite kbind_ret by exact (mb_read_eq mbp l k H x l' (taken (mb_fullsem (mbx k mbp)) k) Hl eq_refl).
    by erewrite kbind_ret by exact E'.
Qed.

(** The counter of messages is one too high afterwards. *)
Lemma chMBFetchI_ok x l' :
  l = x :: l' ->
  exists k', chMBFetchI mbp k = KRet k' (RDY_OK, Some x) /\ quiet me [XTop] k k' /\
    ring_list (mb_buffer (mbx k' mbp)) (mb_rdptr (mbx k' mbp)) (zlen l') = l' /\
    s_cnt k' (mb_fullsem (mbx k mbp)) = zlen l' + 1 /\
    s_cnt k' (mb_emptysem (mbx k mbp)) = mb_size (mbx k mbp) - zlen l'.
Proof using W Hc H.
  intros Hl. pose proof (mh_full _ _ _ H) as Hfu. pose proof (mh_empty _ _ _ H) as Hem.
  pose proof (mh_sems _ _ _ H) as Hne. pose proof (mh_size _ _ _ H) as Hsz. pose proof (mh_rd _ _ _ H) as Hrd.
  assert (Hz : zlen l = zlen l' + 1) by (rewrite Hl; unfold zlen; simpl; lia). pose proof (zlen_nonneg l').
  destruct (transfer_ok me mbp (mb_fullsem (mbx k mbp)) (mb_emptysem (mbx k mbp)) (without_first mbp k) k W Hc) with
    (k1 := k) as (k' & E' & Q' & M' & F' & A'); [done|lia|lia|by right|].
  exists k'. split_and!; [|done| |lia|lia].
  - unfold chMBFetchI. rewrite kget_bind. erewrite kbind_ret by reflexivity. rewrite (proj2 (Z.leb_gt _ _)) by lia.
    erewrite kbind_ret by exact (mb_read_eq mbp l k H x l' k Hl eq_refl). by erewrite kbind_ret by exact E'.
  - rewrite M', decide_True by done. unfold without_first. simpl.
    pose proof (ring_take (mb_buffer (mbx k mbp)) (mb_rdptr (mbx k mbp)) (zlen l) Hrd (zlen_nonneg l) ltac:(lia)) as Ht.
    rewrite <- (mh_list _ _ _ H) in Ht. rewrite Hl in Ht at 1. injection Ht as _ Ht.
    rewrite ring_up_mod by done. etrans; [|symmetry; exact Ht]. by replace (zlen l - 1) with (zlen l') by lia.
Qed.

End Calls.

(** Full and empty: a try that may not wait changes nothing. *)
Lemma wait_refused s k :
  s_cnt k s = 0 ->
  exists k', chSemWaitTimeoutS s TIME_IMMEDIATE k = KRet k' RDY_TIMEOUT /\ (forall x, s_cnt k' x = s_cnt k x) /\
    mbx k' = mbx k /\ queues k' = queues k /\ thr k' = thr k.
Proof.
  intros Hs. unfold chSemWaitTimeoutS, chSemFastWaitI, chSemFastSignalI.
  erewrite kbind_ret by (apply cnt_add_ok; lia). rewrite Hs. change (0 + -1 <? 0) with true. cbn match.
  change (TIME_IMMEDIATE =? TIME_IMMEDIATE) with true. cbn match.
  erewrite kbind_ret by (apply cnt_add_ok; rewrite cnt_set, decide_True by done; lia).
  eexists. split_and!; [reflexivity| |done..]. intros x. rewrite !cnt_set. by repeat case_decide; subst.
Qed.

Lemma reset_mbx fuel s cnt k k' : sem_reset_loop fuel s cnt k = KRet k' tt -> mbx k' = mbx k.
Proof.
  revert cnt k. induction fuel as [|fuel IH]; intros cnt k; cbn [sem_reset_loop]; [done|].
  destruct (cnt + 1 <=? 0); [|by intros [= <-]]. unfold mbind, K_bind, k_lifo_remove.
  destruct (last (queues k (QSem s))); [|done]. simpl. unfold chSchReadyI.
  destruct (_ <=? _); [done|]. simpl. by intros ->%IH.
Qed.

Lemma chSemResetI_mbx s n k k' : chSemResetI s n k = KRet k' tt -> mbx k' = mbx k.
Proof.
  intros H. change (sem_reset_loop (S (Z.to_nat (- s_cnt k s))) s (s_cnt k s) (set_cnt s n k) = KRet k' tt) in H.
  apply reset_mbx in H. exact H.
Qed.

Lemma chMBReset_ok me mbp l k :
  wfx [XTop] k -> currp k = me -> mb_holds mbp l k ->
  exists k', transferred me mbp k [] k' /\ chMBReset mbp k = chSchRescheduleS k'.
Proof.
  intros W Hc [H1 H2 H3 H4 H5 H6 H7].
  set (m := mkMailbox (mb_buffer (mbx k mbp)) 0 0 (mb_fullsem (mbx k mbp)) (mb_emptysem (mbx k mbp))).
  set (k0 := set_mbx mbp m k).
  assert (Hm : mbx k0 mbp = m) by (unfold k0; by rewrite mbx_set, decide_True).
  destruct (chSemResetI_ok me (mb_emptysem m) (mb_size m) k0) as (k1 & E1 & (W1 & C1 & V1 & G1) & (N1 & _));
    [by apply wfx_mbx|done|unfold mb_size in *; simpl; lia|].
  destruct (chSemResetI_ok me (mb_fullsem m) 0 k1 W1 C1) as (k2 & E2 & (W2 & C2 & V2 & G2) & (N2 & _)); [lia|].
  assert (Hm2 : mbx k2 = mbx k0) by (rewrite (chSemResetI_mbx _ _ _ _ E2); by apply (chSemResetI_mbx _ _ _ _ E1)).
  exists k2. split.
  - unfold transferred, quiet. split_and!; [done|done|by rewrite V2| | |].
    + etrans; [|exact G2]. etrans; [|exact G1]. by apply guar_same.
    + constructor; rewrite ?Hm2, ?Hm; unfold mb_size in *; simpl; try lia; try done.
      * change (zlen []) with 0. lia.
      * rewrite N2. apply fn_lookup_insert.
      * rewrite N2, fn_lookup_insert_ne by done. rewrite N1, fn_lookup_insert. change (zlen []) with 0. unfold m. simpl. lia.
    + intros b Hb. rewrite Hm2. unfold k0. by rewrite mbx_set, decide_False.
  - unfold chMBReset, mb_upd. rewrite kmod_bind, kget_bind. fold m k0. unfold chMBSizeI. rewrite Hm.
    erewrite kbind_ret by exact E1. by erewrite kbind_ret by exact E2.
Qed.


(** A mailbox of four cells in the booted system. *)
Definition k_box : kernel := set_cnt 2 4 (set_mbx 9 (mkMailbox [0; 0; 0; 0] 0 0 1 2) boot_kernel).

Lemma k_box_wfx : wfx [XTop] k_box.
Proof.
  apply (wfx_settle_sem _ 2); [unfold sem_ok, zlen; vm_compute; split_and!; congruence|].
  apply wfx_cnt; [set_solver|]. apply wfx_mbx. exact (user_marks _ _ _ (booted_wf boot_kernel boot_kernel_booted)).
Qed.

Lemma k_box_empty : mb_holds 9 [] k_box.
Proof. constructor; vm_compute; split_and?; congruence. Qed.


(** Posting one message and fetching twice from interrupt level succeeds twice:
    [chMBFetchI] does not take the counter of messages down. *)
Example fetchI_repeats :
  match (chMBPostI 9 77;; a ← chMBFetchI 9; b ← chMBFetchI 9; mret (a, b)) k_box with
  | KRet k r => Some (r, s_cnt k 1, s_cnt k 2)
  | _ => None
  end = Some ((RDY_OK, Some 77, (RDY_OK, Some 0)), 1, 5).
Proof. by vm_compute. Qed.
