(* ===== verification/ChQueues.v ===== *)
(** * I/O queues: kernel/src/chqueues.c, include/chqueues.h

    Circular buffers of bytes with the threads that wait for a byte or for
    room: the upper side reads an input queue and writes an output queue, the
    lower side is an interrupt handler. *)

From S2P Require Import Prelude ChLists Kernel ChVt ChSchd ChInv ChSeg ChSem ChThreads ChRuns ChMtx ChRing ChWake ChCond.

Definition Q_OK : Z := RDY_OK.
Definition Q_TIMEOUT : Z := RDY_TIMEOUT.
Definition Q_RESET : Z := RDY_RESET.
Definition Q_EMPTY : Z := -3.
Definition Q_FULL : Z := -4.

Definition chQSizeI (iq : GenericQueue) : Z := zlen (q_buffer iq).
Definition chQSpaceI (iq : GenericQueue) : Z := q_counter iq.

Definition chIQGetFullI (iq : GenericQueue) : Z := chQSpaceI iq.
Definition chIQGetEmptyI (iq : GenericQueue) : Z := chQSizeI iq - chQSpaceI iq.
Definition chIQIsEmptyI (iq : GenericQueue) : bool := chQSpaceI iq <=? 0.
Definition chIQIsFullI (iq : GenericQueue) : bool := (q_wrptr iq =? q_rdptr iq) && negb (q_counter iq =? 0).

Definition chOQGetFullI (iq : GenericQueue) : Z := chQSizeI iq - chQSpaceI iq.
Definition chOQIsEmptyI (iq : GenericQueue) : bool := (q_wrptr iq =? q_rdptr iq) && negb (q_counter iq =? 0).
Definition chOQIsFullI (iq : GenericQueue) : bool := chQSpaceI iq <=? 0.

(** ** The two ends of the ring *)

(** [*qp->q_wrptr++ = b], and round the end, with [d] added to the counter. *)
Definition q_write (qp : qptr) (d b : Z) : K unit := fun k =>
  let iq := ioq k qp in
  match ring_write (q_buffer iq) (q_wrptr iq) b with
  | None => KUb
  | Some buf => KRet (set_ioq qp (mkQueue (q_counter iq + d) buf (ring_up (zlen buf) (q_wrptr iq)) (q_rdptr iq)) k) tt
  end.

(** [b = *qp->q_rdptr++], and round the end, with [d] added to the counter. *)
Definition q_read (qp : qptr) (d : Z) : K Z := fun k =>
  let iq := ioq k qp in
  match zget (q_buffer iq) (q_rdptr iq) with
  | None => KUb
  | Some b =>
      KRet (set_ioq qp (mkQueue (q_counter iq + d) (q_buffer iq) (q_wrptr iq)
                                (ring_up (zlen (q_buffer iq)) (q_rdptr iq))) k) b
  end.

(** [if (notempty(&qp->q_waiting)) chSchReadyI(fifo_remove(&qp->q_waiting))->p_u.rdymsg = Q_OK]. *)
Definition q_wake (qp : qptr) : K unit :=
  k ← kget; if k_notempty (QIoq qp) k then wake_first (QIoq qp) Q_OK else mret tt.

(** The pointers at the buffer, a new counter, and the waiters away. *)
Definition q_reset (qp : qptr) (counter : Z) : K unit :=
  kmod (fun k => set_ioq qp (mkQueue counter (q_buffer (ioq k qp)) 0 0) k);;
  k ← kget; wake_all (S (length (queues k (QIoq qp)))) (QIoq qp) Q_RESET.

Definition qwait (qp : qptr) (time : Z) : K Z :=
  if TIME_IMMEDIATE =? time then mret Q_TIMEOUT
  else
    k ← kget;
    upd (currp k) (with_u (UObj (QIoq qp)));;
    k_queue_insert (currp k) (QIoq qp);;
    chSchGoSleepTimeoutS WTQUEUE time.

(** [while (cond(qp)) ...qwait...], at most [fuel] rounds: [Some Q_OK] when the
    condition is gone, [Some msg] when a wait ended with a message that [stop]s
    the loop, [None] when the thread is still in it. *)
Fixpoint wait_while (fuel : nat) (cond : GenericQueue -> bool) (stop : Z -> bool) (qp : qptr) (time : Z) :
    K (option Z) :=
  match fuel with
  | O => mret None
  | S fuel =>
      k ← kget;
      if cond (ioq k qp) then
        msg ← qwait qp time;
        if stop msg then mret (Some msg) else wait_while fuel cond stop qp time
      else mret (Some Q_OK)
  end.

(** [chSysUnlock(); ... chSysLock();]: others may run in between. *)
Definition preemption_chance : K unit := chSysSwitch.

(** ** Interrupt side *)

Definition chIQInit (q : Z) (bp : list Z) : K unit :=
  kmod (set_queue (QIoq (InputQueue q)) []);;
  kmod (set_ioq (InputQueue q) (mkQueue 0 bp 0 0)).

Definition chIQResetI (q : Z) : K unit := q_reset (InputQueue q) 0.

Definition chIQPutI (q b : Z) : K Z :=
  k ← kget;
  if chIQIsFullI (ioq k (InputQueue q)) then mret Q_FULL
  else
    q_write (InputQueue q) 1 b;;
    q_wake (InputQueue q);;
    mret Q_OK.

Definition chOQInit (q : Z) (bp : list Z) : K unit :=
  kmod (set_queue (QIoq (OutputQueue q)) []);;
  kmod (set_ioq (OutputQueue q) (mkQueue (zlen bp) bp 0 0)).

Definition chOQResetI (q : Z) : K unit :=
  k ← kget; q_reset (OutputQueue q) (chQSizeI (ioq k (OutputQueue q))).

Definition chOQGetI (q : Z) : K Z :=
  k ← kget;
  if chOQIsEmptyI (ioq k (OutputQueue q)) then mret Q_EMPTY
  else
    b ← q_read (OutputQueue q) 1;
    q_wake (OutputQueue q);;
    mret b.

(** ** Thread side *)

Section Callbacks.

(** The callbacks of the queues; [None] for the null pointer. *)
Context (q_notify : qptr -> option (K unit)).

Definition notify (qp : qptr) : K unit := match q_notify qp with Some f => f | None => mret tt end.

Definition chIQGetTimeout (fuel : nat) (q time : Z) : K (option Z) :=
  notify (InputQueue q);;
  r ← wait_while fuel chIQIsEmptyI (fun msg => msg <? Q_OK) (InputQueue q) time;
  match r with
  | None => mret None
  | Some msg => if msg <? Q_OK then mret (Some msg) else b ← q_read (InputQueue q) (-1); mret (Some b)
  end.

(** The bytes stored at [bp]; their number is the call's result. *)
Fixpoint iq_read_loop (n : nat) (fuel : nat) (q time : Z) (bp : list Z) : K (option (list Z)) :=
  match n with
  | O => mret (Some bp)
  | S n =>
      notify (InputQueue q);;
      r ← wait_while fuel chIQIsEmptyI (fun msg => negb (msg =? Q_OK)) (InputQueue q) time;
      match r with
      | None => mret None
      | Some msg =>
          if negb (msg =? Q_OK) then mret (Some bp)
          else
            b ← q_read (InputQueue q) (-1);
            (if (n =? 0)%nat then mret tt else preemption_chance);;
            iq_read_loop n fuel q time (bp ++ [b])
      end
  end.

Definition chIQReadTimeout (fuel : nat) (q n time : Z) : K (option (list Z)) :=
  iq_read_loop (Z.to_nat n) fuel q time [].

Definition chOQPutTimeout (fuel : nat) (q b time : Z) : K (option Z) :=
  r ← wait_while fuel chOQIsFullI (fun msg => msg <? Q_OK) (OutputQueue q) time;
  match r with
  | None => mret None
  | Some msg =>
      if msg <? Q_OK then mret (Some msg)
      else q_write (OutputQueue q) (-1) b;; notify (OutputQueue q);; mret (Some Q_OK)
  end.

(** The number of bytes of [bp] written. *)
Fixpoint oq_write_loop (bp : list Z) (fuel : nat) (q time w : Z) : K (option Z) :=
  match bp with
  | [] => mret (Some w)
  | b :: bp =>
      r ← wait_while fuel chOQIsFullI (fun msg => negb (msg =? Q_OK)) (OutputQueue q) time;
      match r with
      | None => mret None
      | Some msg =>
          if negb (msg =? Q_OK) then mret (Some w)
          else
            q_write (OutputQueue q) (-1) b;;
            notify (OutputQueue q);;
            (if bool_decide (bp = []) then mret tt else preemption_chance);;
            oq_write_loop bp fuel q time (w + 1)
      end
  end.

Definition chOQWriteTimeout (fuel : nat) (q : Z) (bp : list Z) (time : Z) : K (option Z) :=
  oq_write_loop bp fuel q time 0.

End Callbacks.

(** ** What a queue holds *)

Lemma zlen_nil {A} (l : list A) : zlen l = 0 <-> l = [].
Proof. unfold zlen. split; [destruct l; simpl; [done|lia]|by intros ->]. Qed.

Definition q_list (qp : qptr) (k : kernel) : list Z :=
  ring_list (q_buffer (ioq k qp)) (q_rdptr (ioq k qp)) (q_used qp (ioq k qp)).

(** What a byte in the queue does to its counter. *)
Definition q_dir (qp : qptr) : Z := match qp with InputQueue _ => 1 | OutputQueue _ => -1 end.

Lemma ioq_set qp iq k q : ioq (set_ioq qp iq k) q = if decide (q = qp) then iq else ioq k q.
Proof.
  unfold set_ioq. simpl. destruct (decide (q = qp)) as [->|Hx]; [apply fn_lookup_insert|by apply fn_lookup_insert_ne].
Qed.

Lemma wfx_set_ioq E qp iq k : ioq_ok qp iq -> wfx E k -> wfx E (set_ioq qp iq k).
Proof. intros Hq. apply wfx_ext; try done. intros q Hok. rewrite ioq_set. by case_decide; subst. Qed.

(** The pointers meet when the ring is empty or full. *)
Lemma ring_meet n rd u : 0 <= rd < n -> 0 <= u <= n -> (rd + u) mod n = rd <-> u = 0 \/ u = n.
Proof.
  intros Hr Hu. split.
  - intros He. destruct (Z.eq_dec u n) as [->|Hne]; [by right|]. left.
    apply (ring_places n rd u 0); [lia..|]. by rewrite Z.add_0_r, (Z.mod_small rd).
  - intros [->| ->]; [rewrite Z.add_0_r; by apply Z.mod_small|].
    replace (rd + n) with (rd + 1 * n) by lia. rewrite Z.mod_add by lia. by apply Z.mod_small.
Qed.

Lemma q_list_length qp k : ioq_ok qp (ioq k qp) -> zlen (q_list qp k) = q_used qp (ioq k qp).
Proof. intros [H _]. unfold q_list, zlen. rewrite ring_list_length. lia. Qed.

Definition q_size (qp : qptr) (k : kernel) : Z := zlen (q_buffer (ioq k qp)).

Section Ends.

Context (qp : qptr) (k : kernel).
Context (H : ioq_ok qp (ioq k qp)).

Lemma q_write_ok b :
  zlen (q_list qp k) < q_size qp k ->
  exists iq, q_write qp (q_dir qp) b k = KRet (set_ioq qp iq k) tt /\ ioq_ok qp iq /\
    q_list qp (set_ioq qp iq k) = q_list qp k ++ [b] /\ zlen (q_buffer iq) = q_size qp k.
Proof using H.
  intros Hlt. rewrite q_list_length in Hlt by done. unfold q_size in *. destruct H as [Hu Hp].
  destruct Hp as [Hr Hw]; [lia|]. set (iq := ioq k qp) in *. set (n := zlen (q_buffer iq)) in *.
  assert (Hwr : 0 <= q_wrptr iq < n) by (rewrite Hw; apply Z.mod_pos_bound; lia).
  unfold q_write. fold iq. cbv zeta. rewrite ring_write_ok by done. eexists. split; [reflexivity|].
  assert (Hd' : forall buf w r, zlen buf = n -> q_used qp (mkQueue (q_counter iq + q_dir qp) buf w r) = q_used qp iq + 1).
  { intros buf w r Hb. unfold q_used. destruct qp; simpl in *; lia. }
  split_and!; [|..|apply zlen_insert].
  - unfold ioq_ok. rewrite Hd' by apply zlen_insert. simpl. rewrite zlen_insert. fold n. split; [lia|]. intros _.
    split; [done|]. rewrite ring_up_mod, Hw by done. rewrite Zplus_mod_idemp_l. f_equal. lia.
  - unfold q_list. rewrite ioq_set, decide_True, Hd' by (done || apply zlen_insert). simpl. rewrite Hw.
    apply ring_put; [done|apply Hu|done].
Qed.

Lemma q_read_ok :
  0 < zlen (q_list qp k) ->
  exists iq b, q_read qp (- q_dir qp) k = KRet (set_ioq qp iq k) b /\ ioq_ok qp iq /\
    q_list qp k = b :: q_list qp (set_ioq qp iq k) /\ zlen (q_buffer iq) = q_size qp k.
Proof using H.
  intros Hlt. rewrite q_list_length in Hlt by done. unfold q_size. destruct H as [Hu Hp].
  destruct Hp as [Hr Hw]; [lia|]. set (iq := ioq k qp) in *. set (n := zlen (q_buffer iq)) in *.
  unfold q_read. fold iq. cbv zeta. rewrite zget_total by done. do 2 eexists. split; [reflexivity|].
  assert (Hd : forall w r, q_used qp (mkQueue (q_counter iq + - q_dir qp) (q_buffer iq) w r) = q_used qp iq - 1)
    by (intros; unfold q_used; destruct qp; simpl in *; subst n; lia).
  split_and!; [|..|done].
  - unfold ioq_ok. rewrite Hd. simpl. fold n. split; [lia|]. intros _. rewrite ring_up_mod by done.
    split; [apply Z.mod_pos_bound; lia|]. rewrite Hw, Zplus_mod_idemp_l. f_equal. lia.
  - unfold q_list at 2. rewrite ioq_set, decide_True, Hd by done. simpl. rewrite ring_up_mod by done.
    unfold q_list. fold iq. apply ring_take; [done|lia|done].
Qed.

(** What the four tests say of the bytes held. *)
Lemma ring_full_iff : q_used qp (ioq k qp) <> 0 -> q_wrptr (ioq k qp) = q_rdptr (ioq k qp) <-> zlen (q_list qp k) = q_size qp k.
Proof using H.
  intros Hn. rewrite q_list_length by done. unfold q_size. destruct H as [Hu Hp]. destruct Hp as [Hr Hw]; [lia|].
  rewrite Hw, ring_meet by done. intuition lia.
Qed.

End Ends.

Lemma iq_full_spec q k :
  ioq_ok (InputQueue q) (ioq k (InputQueue q)) -> 0 < q_size (InputQueue q) k ->
  chIQIsFullI (ioq k (InputQueue q)) = bool_decide (zlen (q_list (InputQueue q) k) = q_size (InputQueue q) k).
Proof.
  intros H Hn. unfold chIQIsFullI. apply eq_true_iff_eq. rewrite bool_decide_eq_true, andb_true_iff, negb_true_iff.
  rewrite Z.eqb_eq, Z.eqb_neq. pose proof (q_list_length _ _ H) as Hl. simpl in Hl.
  destruct (Z.eq_dec (q_counter (ioq k (InputQueue q))) 0) as [He|He]; [intuition lia|].
  rewrite (ring_full_iff (InputQueue q) k H) by done. intuition.
Qed.

Lemma oq_empty_spec q k :
  ioq_ok (OutputQueue q) (ioq k (OutputQueue q)) -> 0 < q_size (OutputQueue q) k ->
  chOQIsEmptyI (ioq k (OutputQueue q)) = bool_decide (q_list (OutputQueue q) k = []).
Proof.
  intros H Hn. unfold chOQIsEmptyI. apply eq_true_iff_eq. rewrite bool_decide_eq_true, andb_true_iff, negb_true_iff.
  rewrite Z.eqb_eq, Z.eqb_neq. pose proof (q_list_length _ _ H) as Hl. unfold q_used in Hl. fold (q_size (OutputQueue q) k) in Hl.
  rewrite <- zlen_nil. destruct H as [Hu Hp]. unfold q_used, q_size in *. destruct Hp as [Hr Hw]; [done|].
  rewrite Hw, ring_meet by done. intuition lia.
Qed.

(** ** The interrupt side *)

Lemma q_wake_ok me qp k1 :
  wfx [XTop] k1 -> currp k1 = me ->
  exists k', q_wake qp k1 = KRet k' tt /\ quiet me [XTop] k1 k' /\ first_woken (QIoq qp) Q_OK k1 k'.
Proof.
  intros W1 C1. unfold q_wake. rewrite kget_bind. unfold k_notempty.
  destruct (queues k1 (QIoq qp)) as [|tp l] eqn:Hq; simpl.
  - exists k1. unfold quiet, first_woken. rewrite Hq. by split_and!.
  - apply (wake_first_ok me (QIoq qp) Q_OK [XTop] ltac:(done) ltac:(done) ltac:(done) ltac:(set_solver) ltac:(set_solver) tp l); done.
Qed.

Section Interrupt.

Context (me : Z) (qp : qptr) (k : kernel).
Context (W : wfx [XTop] k) (Hc : currp k = me).

(** The queue holds [l] and its first waiter, if any, has been woken. *)
Definition q_moved (l : list Z) (k' : kernel) : Prop :=
  q_list qp k' = l /\ q_size qp k' = q_size qp k /\ (forall q, q <> qp -> ioq k' q = ioq k q) /\
  queues k' (QIoq qp) = tail (queues k (QIoq qp)) /\
  (forall t, head (queues k (QIoq qp)) = Some t -> t_state (thr k' t) = READY /\ t_u (thr k' t) = URdy Q_OK) /\
  quiet me [XTop] k k'.

(** It is empty and every waiter has been sent away. *)
Definition q_emptied (k' : kernel) : Prop :=
  q_list qp k' = [] /\ q_size qp k' = q_size qp k /\ (forall q, q <> qp -> ioq k' q = ioq k q) /\
  queues k' (QIoq qp) = [] /\
  (forall t, t ∈ queues k (QIoq qp) -> t_state (thr k' t) = READY /\ t_u (thr k' t) = URdy Q_RESET) /\
  quiet me [XTop] k k'.

Lemma ring_only iq k' :
  ioq k' = ioq (set_ioq qp iq k) -> zlen (q_buffer iq) = q_size qp k ->
  q_list qp k' = q_list qp (set_ioq qp iq k) /\ q_size qp k' = q_size qp k /\ (forall q, q <> qp -> ioq k' q = ioq k q).
Proof using.
  intros Hi Hz. unfold q_list, q_size. rewrite Hi. split_and!; [done|by rewrite ioq_set, decide_True|].
  intros q Hne. by rewrite ioq_set, decide_False.
Qed.

Lemma q_step_ok iq :
  ioq_ok qp iq -> zlen (q_buffer iq) = q_size qp k ->
  exists k', q_wake qp (set_ioq qp iq k) = KRet k' tt /\ q_moved (q_list qp (set_ioq qp iq k)) k'.
Proof using W Hc.
  intros Hi Hz. destruct (q_wake_ok me qp (set_ioq qp iq k)) as (k' & E & Q' & Hq & Ht & Hh & Hio & _); [by apply wfx_set_ioq|done|].
  destruct (ring_only iq k' Hio Hz) as (HL & HS & HO). exists k'. split; [done|]. unfold q_moved. split_and!; done.
Qed.

Lemma q_reset_ok counter :
  q_used qp (mkQueue counter (q_buffer (ioq k qp)) 0 0) = 0 ->
  exists k', q_reset qp counter k = KRet k' tt /\ q_emptied k'.
Proof using W Hc.
  intros Hu. set (iq := mkQueue counter (q_buffer (ioq k qp)) 0 0) in *. set (k1 := set_ioq qp iq k).
  assert (Hi : ioq_ok qp iq).
  { unfold ioq_ok. rewrite Hu. pose proof (zlen_nonneg (q_buffer iq)). split; [lia|]. intros. simpl in *. rewrite Z.mod_0_l by lia. lia. }
  destruct (wake_all_ok me (QIoq qp) Q_RESET [XTop] ltac:(done) ltac:(done) ltac:(done) ltac:(set_solver)
    ltac:(set_solver) (S (length (queues k (QIoq qp)))) k1) as (k' & E & Q' & Hq & Hw & _ & Hio & _);
    [by apply wfx_set_ioq|done|change (queues k1) with (queues k); lia|].
  destruct (ring_only iq k' Hio eq_refl) as (HL & HS & HO). exists k'. split; [exact E|].
  unfold q_emptied. split_and!; try done.
  rewrite HL. unfold q_list. by rewrite ioq_set, decide_True, Hu.
Qed.

End Interrupt.

Lemma chIQPutI_ok me q b k :
  wfx [XTop] k -> currp k = me -> 0 < q_size (InputQueue q) k ->
  if decide (zlen (q_list (InputQueue q) k) = q_size (InputQueue q) k) then chIQPutI q b k = KRet k Q_FULL
  else exists k', chIQPutI q b k = KRet k' Q_OK /\ q_moved me (InputQueue q) k (q_list (InputQueue q) k ++ [b]) k'.
Proof.
  intros W Hc Hs. pose proof (x_ioq _ _ W (InputQueue q)) as Hok. unfold chIQPutI.
  rewrite kget_bind, (iq_full_spec q k Hok Hs). destruct (decide _) as [Hf|Hf]; [by rewrite bool_decide_eq_true_2|].
  rewrite bool_decide_eq_false_2 by done.
  assert (Hlt : zlen (q_list (InputQueue q) k) < q_size (InputQueue q) k).
  { rewrite q_list_length in Hf |- * by done. destruct Hok as [Hu _]. unfold q_size in *. lia. }
  destruct (q_write_ok (InputQueue q) k Hok b Hlt) as (iq & Ew & Hi & HL & Hz).
  destruct (q_step_ok me (InputQueue q) k W Hc iq Hi Hz) as (k' & E & HM). rewrite HL in HM.
  exists k'. split; [|done]. erewrite kbind_ret by exact Ew. by erewrite kbind_ret by exact E.
Qed.

Lemma chOQGetI_ok me q k :
  wfx [XTop] k -> currp k = me -> 0 < q_size (OutputQueue q) k ->
  match q_list (OutputQueue q) k with
  | [] => chOQGetI q k = KRet k Q_EMPTY
  | b :: l => exists k', chOQGetI q k = KRet k' b /\ q_moved me (OutputQueue q) k l k'
  end.
Proof.
  intros W Hc Hs. pose proof (x_ioq _ _ W (OutputQueue q)) as Hok. unfold chOQGetI.
  rewrite kget_bind, (oq_empty_spec q k Hok Hs). destruct (q_list (OutputQueue q) k) as [|b l] eqn:Hl; [done|].
  rewrite bool_decide_eq_false_2 by done.
  destruct (q_read_ok (OutputQueue q) k Hok) as (iq & b' & Er & Hi & HL & Hz); [rewrite Hl; unfold zlen; simpl; lia|].
  rewrite Hl in HL. injection HL as <- ->.
  destruct (q_step_ok me (OutputQueue q) k W Hc iq Hi Hz) as (k' & E & HM).
  exists k'. split; [|done]. erewrite kbind_ret by exact Er. by erewrite kbind_ret by exact E.
Qed.

(** (C27) The interrupt side of the I/O queues keeps them bounded first-in
    first-out lists of bytes.  Putting into an input queue answers [Q_FULL] and
    changes nothing exactly when as many bytes are in it as its buffer has
    cells, and else puts the byte behind the last one; getting from an output
    queue answers [Q_EMPTY] and changes nothing when it holds none, and else
    takes the first byte; either one wakes the thread that waits longest, with
    [Q_OK].  Resetting empties the queue and wakes every waiter with [Q_RESET].
    No cell outside the buffer is touched and no other queue changes. *)
Theorem io_queues_interrupt_side me q b k :
  wfx [XTop] k -> currp k = me ->
  (0 < q_size (InputQueue q) k ->
    if decide (zlen (q_list (InputQueue q) k) = q_size (InputQueue q) k) then chIQPutI q b k = KRet k Q_FULL
    else exists k', chIQPutI q b k = KRet k' Q_OK /\ q_moved me (InputQueue q) k (q_list (InputQueue q) k ++ [b]) k') /\
  (0 < q_size (OutputQueue q) k ->
    match q_list (OutputQueue q) k with
    | [] => chOQGetI q k = KRet k Q_EMPTY
    | c :: l => exists k', chOQGetI q k = KRet k' c /\ q_moved me (OutputQueue q) k l k'
    end) /\
  (exists k', chIQResetI q k = KRet k' tt /\ q_emptied me (InputQueue q) k k') /\
  (exists k', chOQResetI q k = KRet k' tt /\ q_emptied me (OutputQueue q) k k').
Proof.
  intros W Hc. split_and!.
  - intros Hs. by apply chIQPutI_ok.
  - intros Hs. by apply chOQGetI_ok.
  - by apply q_reset_ok.
  - unfold chOQResetI. rewrite kget_bind. apply q_reset_ok; [done|done|]. unfold q_used, chQSizeI. simpl. lia.
Qed.

(** ** The thread side *)

#[export] Instance qwait_service qp time :
  Service (fun me _ => me <> idle /\ fits 32 time) (qwait qp time).
Proof.
  intros me k Hu [Hi Hf]. pose proof Hu as (W & Hc & Hna). pose proof (user_current _ _ Hu) as [Hst Hl].
  unfold qwait. destruct (Z.eqb_spec TIME_IMMEDIATE time) as [Ht|Ht]; [by apply seg_ret, post_start|].
  apply seg_get. rewrite Hc. apply seg_upd, seg_mod.
  set (u := with_u (UObj (QIoq qp))). set (k1 := upd_thr me u k).
  set (k2 := enq me (QIoq qp) (queues k1 (QIoq qp) ++ [me]) k1).
  assert (T2 : thr k2 me = with_link (Some (QIoq qp)) (u (thr k me))).
  { unfold k2, k1. by rewrite thr_enq, decide_True, thr_upd_eq. }
  assert (W1 : wfx [XThr me; XTop] k1).
  { apply wfx_upd; [set_solver|done|done|simpl; by rewrite Hst|]. eapply wfx_mono; [|exact W]. set_solver. }
  assert (W2 : wfx [XThr me; XTop] k2).
  { apply wfx_enq; [set_solver|unfold k1; by rewrite thr_upd_eq| |done..]. by rewrite Permutation_app_comm. }
  assert (G2 : guar me k k2).
  { apply (guar_trans me k k1); [apply guar_upd_me|]. apply guar_enq. by right. }
  eapply sleep_timeout_spec; try done; [by rewrite T2|].
  unfold may_sleep. split_and!; try done. unfold state_ok. rewrite thr_upd_eq, T2. simpl. by exists qp.
Qed.

(** What a loop that waits has found when it ends. *)
Definition waited (cond : GenericQueue -> bool) (stop : Z -> bool) (qp : qptr) (r : option Z) (k' : kernel) : Prop :=
  match r with
  | None => True
  | Some msg => stop msg = true \/ msg = Q_OK /\ cond (ioq k' qp) = false
  end.

Lemma wait_while_seg fuel cond stop qp time me k :
  user me k -> me <> idle -> fits 32 time ->
  seg me (fun k1 r k' => post me k k1 k' /\ waited cond stop qp r k') k (wait_while fuel cond stop qp time k).
Proof.
  intros Hu Hi Hf. revert k Hu. induction fuel as [|fuel IH]; intros k Hu; cbn [wait_while].
  { apply seg_ret. split; [by apply post_start|done]. }
  apply seg_get. destruct (cond (ioq k qp)) eqn:Hcd; [|apply seg_ret; split; [by apply post_start|by right]].
  apply seg_bind. eapply seg_mono; [|by apply (qwait_service qp time me k)].
  intros k1 msg k' Hp. simpl. destruct (stop msg) eqn:Hs; [apply seg_ret; split; [done|by left]|].
  eapply seg_after; [exact Hu|exact Hp|]. apply IH.
Qed.

(** The ring of one queue changed by the thread itself. *)
Lemma post_ring me k k1 k2 qp iq :
  post me k k1 k2 -> ioq_ok qp iq -> post me k k1 (set_ioq qp iq k2).
Proof.
  intros (W' & C' & G' & A') Hi. unfold post. split_and!; [by apply wfx_set_ioq|done|exact G'|done].
Qed.

Section Thread.

Context (q_notify : qptr -> option (K unit)).
Context (notify_ok : forall qp f, q_notify qp = Some f -> Service (fun me _ => me <> idle) f).

Lemma notify_seg me qp k : user me k -> me <> idle -> seg me (fun k1 _ k' => post me k k1 k') k (notify q_notify qp k).
Proof using notify_ok.
  intros Hu Hi. unfold notify. destruct (q_notify qp) as [f|] eqn:Hf; [by apply (notify_ok qp f Hf me k)|].
  by apply seg_ret, post_start.
Qed.

(** A byte read: it was the first one. *)
Definition byte_read (qp : qptr) (b : Z) (k' : kernel) : Prop :=
  exists k2 iq, k' = set_ioq qp iq k2 /\ q_list qp k2 = b :: q_list qp k' /\ q_size qp k' = q_size qp k2.

(** The byte that is there read in the state [k2], reached with the guarantee kept. *)
Lemma read_now {A} me q k k1 k2 (f : Z -> K A) Q :
  post me k k1 k2 -> chIQIsEmptyI (ioq k2 (InputQueue q)) = false ->
  (forall b k', post me k k1 k' -> byte_read (InputQueue q) b k' -> seg me Q k1 (f b k')) ->
  seg me Q k1 ((b ← q_read (InputQueue q) (-1); f b) k2).
Proof using.
  intros Hp He HQ. pose proof (x_ioq _ _ (proj1 Hp) (InputQueue q)) as Hok.
  destruct (q_read_ok (InputQueue q) k2 Hok) as (iq & b & Er & Hi & HL & Hz).
  { rewrite q_list_length by done. apply Z.leb_gt in He. exact He. }
  eapply seg_step; [exact Er|]. apply HQ; [by apply post_ring|]. exists k2, iq. split_and!; [done|done|].
  unfold q_size. by rewrite ioq_set, decide_True.
Qed.

(** What [chIQGetTimeout] answers. *)
Definition got (q : Z) (r : option Z) (k' : kernel) : Prop :=
  match r with
  | None => True
  | Some b => b < Q_OK \/ byte_read (InputQueue q) b k'
  end.

Lemma chIQGetTimeout_seg fuel q time me k :
  user me k -> me <> idle -> fits 32 time ->
  seg me (fun k1 r k' => post me k k1 k' /\ got q r k') k (chIQGetTimeout q_notify fuel q time k).
Proof using notify_ok.
  intros Hu Hi Hf. unfold chIQGetTimeout. apply seg_bind. eapply seg_mono; [|by apply notify_seg].
  intros k1 [] k' Hp. eapply seg_after; [exact Hu|exact Hp|]. intros Hu'. apply seg_bind.
  eapply seg_mono; [|by apply wait_while_seg]. intros k2 r k3 [Hp3 Hw].
  destruct r as [msg|]; [|by apply seg_ret]. destruct (Z.ltb_spec msg Q_OK) as [Hm|Hm]; [apply seg_ret; split; [done|by left]|].
  destruct Hw as [Hw|[_ He]]; [apply Z.ltb_lt in Hw; lia|].
  apply (read_now me q k' k2 k3); [done|done|]. intros b k4 Hp4 Hb. apply seg_ret. split; [done|by right].
Qed.

Lemma preemption_seg me k k1 k2 : user me k -> post me k k1 k2 -> seg me (fun k1 _ k' => post me k k1 k') k1 (preemption_chance k2).
Proof using.
  intros Hu (W & C & G & A). simpl. split; [by split|]. intros k' (W' & C' & (R & _)). unfold post. split_and!; [done|done|reflexivity|auto].
Qed.

Lemma iq_read_seg n fuel q time bp me k :
  user me k -> me <> idle -> fits 32 time ->
  seg me (fun k1 r k' => post me k k1 k' /\ forall l, r = Some l -> exists l', l = bp ++ l' /\ (length l' <= n)%nat) k
    (iq_read_loop q_notify n fuel q time bp k).
Proof using notify_ok.
  intros Hu Hi Hf. revert bp k Hu. induction n as [|n IH]; intros bp k Hu; cbn [iq_read_loop].
  { apply seg_ret. split; [by apply post_start|]. intros l [= <-]. exists []. by rewrite app_nil_r. }
  assert (Hstop : forall l, Some bp = Some l -> exists l', l = bp ++ l' /\ (length l' <= S n)%nat).
  { intros l [= <-]. exists []. rewrite app_nil_r. simpl. split; [done|lia]. }
  apply seg_bind. eapply seg_mono; [|by apply notify_seg].
  intros k1 [] k' Hp. eapply seg_after; [exact Hu|exact Hp|]. intros Hu'. apply seg_bind.
  eapply seg_mono; [|by apply wait_while_seg]. intros k2 r k3 [Hp3 Hw].
  destruct r as [msg|]; [|by apply seg_ret]. destruct (Z.eqb_spec msg Q_OK) as [->|Hm]; cbn [negb]; [|apply seg_ret; by split].
  destruct Hw as [Hw|[_ He]]; [done|].
  apply (read_now me q k' k2 k3); [done|done|]. intros b k4 Hp4 Hb.
  apply seg_bind. eapply (seg_mono me (fun k1 _ k'' => post me k' k1 k'')).
  { intros k5 [] k6 Hp6. eapply seg_after; [exact Hu'|exact Hp6|]. intros Hu6.
    eapply seg_mono; [|by apply (IH (bp ++ [b]) k6)]. intros k7 r k8 [Hp8 Hl]. split; [done|].
    intros l Hr. destruct (Hl l Hr) as (l' & -> & Hn). exists (b :: l'). rewrite <- app_assoc. simpl. split; [done|lia]. }
  destruct (n =? 0)%nat; [by apply seg_ret|]. by apply preemption_seg.
Qed.

(** A byte written behind the last one, before the callback. *)
Lemma write_now {A} me q b k k1 k2 (f : K A) Q :
  post me k k1 k2 -> chOQIsFullI (ioq k2 (OutputQueue q)) = false ->
  (forall iq, q_write (OutputQueue q) (-1) b k2 = KRet (set_ioq (OutputQueue q) iq k2) tt ->
     post me k k1 (set_ioq (OutputQueue q) iq k2) ->
     q_list (OutputQueue q) (set_ioq (OutputQueue q) iq k2) = q_list (OutputQueue q) k2 ++ [b] ->
     seg me Q k1 (f (set_ioq (OutputQueue q) iq k2))) ->
  seg me Q k1 ((q_write (OutputQueue q) (-1) b;; f) k2).
Proof using.
  intros Hp He HQ. pose proof (x_ioq _ _ (proj1 Hp) (OutputQueue q)) as Hok. apply Z.leb_gt in He.
  destruct (q_write_ok (OutputQueue q) k2 Hok b) as (iq & Er & Hi & HL & Hz).
  { rewrite q_list_length by done. unfold q_used, q_size. unfold chQSpaceI in He. lia. }
  eapply seg_step; [exact Er|]. apply HQ; [exact Er|by apply post_ring|done].
Qed.

Lemma chOQPutTimeout_seg fuel q b time me k :
  user me k -> me <> idle -> fits 32 time ->
  seg me (fun k1 r k' => post me k k1 k' /\
            (r = Some Q_OK -> q_notify (OutputQueue q) = None ->
             exists k2, q_list (OutputQueue q) k' = q_list (OutputQueue q) k2 ++ [b])) k
    (chOQPutTimeout q_notify fuel q b time k).
Proof using notify_ok.
  intros Hu Hi Hf. unfold chOQPutTimeout. apply seg_bind. eapply seg_mono; [|by apply wait_while_seg].
  intros k1 r k2 [Hp Hw]. destruct r as [msg|]; [|apply seg_ret; split; [done|by intros ?]].
  destruct (Z.ltb_spec msg Q_OK) as [Hm|Hm]; [apply seg_ret; split; [done|intros [= ->]; unfold Q_OK in Hm; lia]|].
  destruct Hw as [Hw|[_ He]]; [apply Z.ltb_lt in Hw; lia|].
  apply (write_now me q b k k1 k2); [done|done|]. intros iq _ Hp3 HL. set (k3 := set_ioq (OutputQueue q) iq k2) in *.
  assert (Hn : q_notify (OutputQueue q) = None -> notify q_notify (OutputQueue q) k3 = KRet k3 tt)
    by (intros Hn; unfold notify; by rewrite Hn).
  destruct (q_notify (OutputQueue q)) as [f|] eqn:Hq.
  - apply seg_bind. eapply (seg_mono me (fun k1 (_ : unit) k' => post me k k1 k' /\ True)).
    { intros k4 [] k5 [Hp5 _]. apply seg_ret. split; [done|by intros]. }
    eapply seg_after; [exact Hu|exact Hp3|]. intros Hu3. eapply seg_mono; [|by apply notify_seg]. intros k4 [] k5 H5. by split.
  - eapply seg_step; [by apply Hn|]. apply seg_ret. split; [done|]. intros _ _. by exists k2.
Qed.

Lemma oq_write_seg bp fuel q time w me k :
  user me k -> me <> idle -> fits 32 time ->
  seg me (fun k1 r k' => post me k k1 k' /\ forall n, r = Some n -> w <= n <= w + zlen bp) k
    (oq_write_loop q_notify bp fuel q time w k).
Proof using notify_ok.
  intros Hu Hi Hf. revert w k Hu. induction bp as [|b bp IH]; intros w k Hu; cbn [oq_write_loop].
  { apply seg_ret. split; [by apply post_start|]. intros n [= <-]. unfold zlen. simpl. lia. }
  assert (Hz : zlen (b :: bp) = zlen bp + 1) by (unfold zlen; simpl; lia). pose proof (zlen_nonneg bp).
  apply seg_bind. eapply seg_mono; [|by apply wait_while_seg]. intros k1 r k2 [Hp Hw].
  destruct r as [msg|]; [|by apply seg_ret].
  destruct (Z.eqb_spec msg Q_OK) as [->|Hm]; cbn [negb]; [|apply seg_ret; split; [done|intros n [= <-]; lia]].
  destruct Hw as [Hw|[_ He]]; [done|].
  apply (write_now me q b k k1 k2); [done|done|]. intros iq _ Hp3 _. apply seg_bind.
  eapply (seg_mono me (fun k1 (_ : unit) k' => post me k k1 k' /\ True)); cycle 1.
  { eapply seg_after; [exact Hu|exact Hp3|]. intros Hu3. eapply seg_mono; [|by apply notify_seg]. intros k4 [] k5 H5. by split. }
  intros k4 [] k5 [Hp5 _]. apply seg_bind. eapply (seg_mono me (fun k1 _ k'' => post me k k1 k'')).
  { intros k6 [] k7 Hp7. eapply seg_after; [exact Hu|exact Hp7|]. intros Hu7.
    eapply seg_mono; [|by apply (IH (w + 1) k7)]. intros k8 r k9 [Hp9 Hl]. split; [done|].
    intros n Hr. specialize (Hl n Hr). lia. }
  destruct (bool_decide (bp = [])); [by apply seg_ret|]. by apply preemption_seg.
Qed.

(** Nobody waits when there is a byte. *)
Lemma chIQGetTimeout_now fuel q time b l k :
  q_notify (InputQueue q) = None -> wfx [XTop] k -> q_list (InputQueue q) k = b :: l ->
  exists k', chIQGetTimeout q_notify (S fuel) q time k = KRet k' (Some b) /\ q_list (InputQueue q) k' = l.
Proof using.
  intros Hn W Hl. pose proof (x_ioq _ _ W (InputQueue q)) as Hok.
  assert (Hz : 0 < zlen (q_list (InputQueue q) k)) by (rewrite Hl; unfold zlen; simpl; lia).
  destruct (q_read_ok (InputQueue q) k Hok Hz) as (iq & b' & Er & Hi & HL & _). rewrite Hl in HL. injection HL as <- ->.
  exists (set_ioq (InputQueue q) iq k). split; [|done]. rewrite q_list_length in Hz by done.
  unfold chIQGetTimeout, notify. rewrite Hn. erewrite kbind_ret by reflexivity. cbn [wait_while].
  assert (He : chIQIsEmptyI (ioq k (InputQueue q)) = false) by (apply Z.leb_gt; exact Hz).
  erewrite kbind_ret by (rewrite kget_bind, He; reflexivity). cbn match.
  change (Q_OK <? Q_OK) with false. cbn match. by erewrite kbind_ret by exact Er.
Qed.

Lemma chIQGetTimeout_refused fuel q k :
  q_notify (InputQueue q) = None -> wfx [XTop] k -> q_list (InputQueue q) k = [] ->
  chIQGetTimeout q_notify (S fuel) q TIME_IMMEDIATE k = KRet k (Some Q_TIMEOUT).
Proof using.
  intros Hn W Hl. pose proof (q_list_length _ _ (x_ioq _ _ W (InputQueue q))) as Hz. rewrite Hl in Hz.
  unfold chIQGetTimeout, notify. rewrite Hn. erewrite kbind_ret by reflexivity. cbn [wait_while].
  assert (He : chIQIsEmptyI (ioq k (InputQueue q)) = true) by (apply Z.leb_le; unfold q_used, zlen in Hz; simpl in Hz; unfold chQSpaceI; lia).
  erewrite kbind_ret; [|rewrite kget_bind, He; reflexivity]. done.
Qed.


End Thread.

(** ** A queue of two bytes in the booted system *)

Definition k_ioq : kernel := set_ioq (InputQueue 3) (mkQueue 0 [0; 0] 0 0) boot_kernel.

Lemma k_ioq_user : user mainthread k_ioq.
Proof.
  destruct boot_user as (W & Hc & Ha). split_and!; [|done|done]. apply wfx_set_ioq; [|done].
  unfold ioq_ok, q_used, zlen. simpl. split; [lia|]. intros _. split; [lia|done].
Qed.

Lemma io_queues_interrupt_side_witness : exists k', chIQPutI 3 65 k_ioq = KRet k' Q_OK /\ q_list (InputQueue 3) k' = [65].
Proof.
  destruct (io_queues_interrupt_side mainthread 3 65 k_ioq (user_top _ _ k_ioq_user) eq_refl) as (Hp & _).
  assert (Hs : 0 < q_size (InputQueue 3) k_ioq) by (by vm_compute). specialize (Hp Hs).
  destruct (decide _) as [Hf|Hf]; [by vm_compute in Hf|]. destruct Hp as (k' & E & Hl & _). by exists k'.
Defined.

(** Broadcasting from the callback of the output queues. *)
Definition notify_9 (qp : qptr) : option (K unit) :=
  match qp with InputQueue _ => None | OutputQueue _ => Some (chCondBroadcast 9) end.

