(* ===== verification/ChMem.v ===== *)
(** * Memory and the core allocator: kernel/src/chmemcore.c

    The words the allocators keep their lists in, the calls that read and write
    them, and the allocator that hands out the memory behind the program, block
    after block. *)

From S2P Require Import Prelude.

(** The functions a heap or a pool may get its memory from; the sources know
    one. *)
Inductive memgetfunc := CoreAlloc.

(** [word] is the memory by word address; [h_lock] tells which heaps are in a
    critical section, [h_provider] and [mp_provider] are fields of the heaps' and
    the pools' descriptors. *)
Record mstate := mkMem {
  word : Z -> Z;
  nextmem : Z;
  endmem : Z;
  h_lock : Z -> bool;
  h_provider : Z -> option memgetfunc;
  mp_provider : Z -> option memgetfunc
}.

Definition with_word a x m := mkMem (<[a := x]> (word m)) (nextmem m) (endmem m) (h_lock m) (h_provider m) (mp_provider m).
Definition with_nextmem n m := mkMem (word m) n (endmem m) (h_lock m) (h_provider m) (mp_provider m).
Definition with_lock h b m := mkMem (word m) (nextmem m) (endmem m) (<[h := b]> (h_lock m)) (h_provider m) (mp_provider m).

(** Programs on the memory; [None] is an access through the null pointer, or a
    lock that is already taken. *)
Definition M (A : Type) : Type := mstate -> option (A * mstate).

#[export] Instance M_ret : MRet M := fun A a m => Some (a, m).
#[export] Instance M_bind : MBind M := fun A B f p m =>
  match p m with Some (a, m') => f a m' | None => None end.

Definition NULL : Z := 0.

Definition ld (a : Z) : M Z := fun m => if a =? NULL then None else Some (word m a, m).
Definition st (a x : Z) : M unit := fun m => if a =? NULL then None else Some (tt, with_word a x m).
Definition mget : M mstate := fun m => Some (m, m).
Definition mmod (f : mstate -> mstate) : M unit := fun m => Some (tt, f m).

Lemma bind_eq {A B} (p : M A) (f : A -> M B) m a m' : p m = Some (a, m') -> (p ≫= f) m = f a m'.
Proof. unfold mbind, M_bind. by intros ->. Qed.

Lemma ld_eq a m : a <> NULL -> ld a m = Some (word m a, m).
Proof. intros H. unfold ld. by rewrite (proj2 (Z.eqb_neq _ _) H). Qed.

Lemma st_eq a x m : a <> NULL -> st a x m = Some (tt, with_word a x m).
Proof. intros H. unfold st. by rewrite (proj2 (Z.eqb_neq _ _) H). Qed.

Lemma word_set a x m b : word (with_word a x m) b = if decide (b = a) then x else word m b.
Proof.
  unfold with_word. simpl. destruct (decide (b = a)) as [->|Hx]; [apply fn_lookup_insert|by apply fn_lookup_insert_ne].
Qed.

(** ** Alignment *)

Definition MEM_ALIGN_SIZE : Z := 4.
Definition MEM_ALIGN_MASK : Z := MEM_ALIGN_SIZE - 1.
Definition MEM_ALIGN_PREV (p : Z) : Z := Z.land (u32 p) (u32 (Z.lnot MEM_ALIGN_MASK)).
Definition MEM_ALIGN_NEXT (p : Z) : Z := MEM_ALIGN_PREV (u32 p + MEM_ALIGN_MASK).
Definition MEM_IS_ALIGNED (p : Z) : bool := Z.land (u32 p) MEM_ALIGN_MASK =? 0.

Lemma align_prev_eq p : fits 32 p -> MEM_ALIGN_PREV p = p - p mod 4.
Proof.
  intros Hp. unfold MEM_ALIGN_PREV, MEM_ALIGN_MASK, MEM_ALIGN_SIZE. rewrite wrap_small by done.
  transitivity (Z.ldiff p (Z.ones 2)).
  - change (Z.ones 2) with 3. bit_eq i. destruct (Z.ltb_spec i 32) as [Hi|Hi]; [done|].
    by rewrite (fits_testbit 32 p i).
  - rewrite Z.ldiff_ones_r, Z.shiftl_mul_pow2, Z.shiftr_div_pow2 by lia. change (2 ^ 2) with 4.
    pose proof (Z.div_mod p 4 ltac:(lia)). lia.
Qed.

(** The next multiple of four, when there is one below 2^32. *)
Lemma align_next_spec p :
  0 <= p <= 2 ^ 32 - 4 -> p <= MEM_ALIGN_NEXT p < p + 4 /\ MEM_ALIGN_NEXT p mod 4 = 0 /\ MEM_ALIGN_NEXT p <= 2 ^ 32 - 4.
Proof.
  intros Hp. unfold MEM_ALIGN_NEXT. rewrite (wrap_small 32 p) by (unfold fits; lia).
  unfold MEM_ALIGN_MASK, MEM_ALIGN_SIZE. rewrite align_prev_eq by (unfold fits; lia).
  replace (p + (4 - 1)) with (p + 3) by lia.
  pose proof (Z.mod_pos_bound (p + 3) 4 ltac:(lia)). pose proof (Z.div_mod (p + 3) 4 ltac:(lia)) as Hd.
  split; [lia|]. split; [|lia]. rewrite Zminus_mod_idemp_r. replace (p + 3 - (p + 3)) with 0 by lia. done.
Qed.

Lemma align_next_id p : fits 32 p -> p mod 4 = 0 -> MEM_ALIGN_NEXT p = p.
Proof.
  intros Hp Hm. pose proof (Z.div_mod p 4 ltac:(lia)) as Hd.
  assert (Hle : p <= 2 ^ 32 - 4) by (unfold fits in Hp; lia).
  destruct (align_next_spec p) as (Hr & Hm' & _); [unfold fits in Hp; lia|].
  pose proof (Z.div_mod (MEM_ALIGN_NEXT p) 4 ltac:(lia)). lia.
Qed.

(** ** The core allocator *)

(** The linker's symbols for the memory behind the program. *)
Definition _core_init (heap_base heap_end : Z) : M unit :=
  mmod (fun m => mkMem (word m) (MEM_ALIGN_NEXT heap_base) (MEM_ALIGN_PREV heap_end) (h_lock m) (h_provider m) (mp_provider m)).

Definition chCoreAllocI (size : Z) : M Z :=
  let size := MEM_ALIGN_NEXT size in
  m ← mget;
  if u32 (endmem m - nextmem m) <? size then mret NULL
  else
    mmod (with_nextmem (nextmem m + size));;
    mret (nextmem m).

Definition chCoreAlloc (size : Z) : M Z := chCoreAllocI size.

Definition chCoreStatus : M Z := m ← mget; mret (u32 (endmem m - nextmem m)).

(** Calling a provider. *)
Definition provide (f : memgetfunc) (size : Z) : M Z := match f with CoreAlloc => chCoreAlloc size end.

(** The memory that is left is an aligned piece of the address space. *)
Record core_ok (m : mstate) : Prop := {
  co_range : 0 < nextmem m <= endmem m;
  co_end : endmem m < 2 ^ 32;
  co_next : nextmem m mod 4 = 0;
  co_last : endmem m mod 4 = 0
}.

Lemma core_init_ok base end_ m :
  0 < base -> base <= end_ - 7 -> fits 32 end_ ->
  exists m', _core_init base end_ m = Some (tt, m') /\ core_ok m' /\ base <= nextmem m' /\ endmem m' <= end_.
Proof.
  intros Hb Hle Hf. unfold _core_init, mmod. eexists. split; [reflexivity|].
  destruct (align_next_spec base) as (Hr & Hm & _); [unfold fits in Hf; lia|].
  pose proof (align_prev_eq end_ Hf) as He. pose proof (Z.mod_pos_bound end_ 4 ltac:(lia)).
  unfold fits in Hf. split; [|simpl; lia]. constructor; simpl; [lia|lia|done|].
  rewrite He, Zminus_mod_idemp_r. by rewrite Z.sub_diag.
Qed.

Lemma chCoreAlloc_eq size m :
  core_ok m ->
  chCoreAlloc size m = if endmem m - nextmem m <? MEM_ALIGN_NEXT size then Some (NULL, m)
                       else Some (nextmem m, with_nextmem (nextmem m + MEM_ALIGN_NEXT size) m).
Proof.
  intros [[Hn1 Hn2] He _ _]. unfold chCoreAlloc, chCoreAllocI. erewrite bind_eq by reflexivity.
  rewrite wrap_small by (unfold fits; lia). by destruct (_ <? _).
Qed.

Lemma core_ok_less n m : core_ok m -> 0 <= n <= endmem m - nextmem m -> n mod 4 = 0 -> core_ok (with_nextmem (nextmem m + n) m).
Proof. intros [[Hn1 Hn2] He Ha Hb] Hn Hm. constructor; simpl; [lia|done| |done]. by rewrite Z.add_mod, Ha, Hm. Qed.

(** The core allocator, for a size that is not in the last three bytes of
    the address space: it answers [NULL] and changes nothing exactly when the
    size, rounded up to words, does not fit in what is left; else the
    block is word-aligned, at least as long as asked, lies within the memory
    managed, before everything that later calls return, and what is left
    shrinks by exactly the rounded size. *)
Theorem core_alloc_spec size m :
  core_ok m -> 0 <= size <= 2 ^ 32 - 4 ->
  let n := MEM_ALIGN_NEXT size in
  if endmem m - nextmem m <? n then chCoreAlloc size m = Some (NULL, m)
  else exists m', chCoreAlloc size m = Some (nextmem m, m') /\ core_ok m' /\
    nextmem m mod 4 = 0 /\ size <= n /\ nextmem m' = nextmem m + n /\ nextmem m' <= endmem m /\
    word m' = word m /\ endmem m' = endmem m /\
    chCoreStatus m' = Some (endmem m - nextmem m - n, m').
Proof.
  intros Hok Hs n. destruct (align_next_spec size Hs) as (Hr & Hm & _). fold n in Hr, Hm.
  rewrite (chCoreAlloc_eq size m Hok). fold n. destruct (Z.ltb_spec (endmem m - nextmem m) n) as [Hlt|Hge]; [done|].
  eexists. split; [reflexivity|]. pose proof Hok as [[Hn1 Hn2] He Ha Hb]. simpl. split_and!; try done; [|lia|lia|].
  - apply core_ok_less; [done|lia|done].
  - unfold chCoreStatus. erewrite bind_eq by reflexivity. simpl. rewrite wrap_small by (unfold fits; lia).
    unfold mret, M_ret. do 2 f_equal. lia.
Qed.

Definition m_core : mstate := mkMem (fun _ => 0) 4096 8192 (fun _ => false) (fun _ => None) (fun _ => None).

Lemma m_core_ok : core_ok m_core.
Proof. by constructor. Qed.

Lemma core_alloc_spec_witness : exists m', chCoreAlloc 10 m_core = Some (4096, m') /\ nextmem m' = 4108.
Proof.
  assert (Hs : 0 <= 10 <= 2 ^ 32 - 4) by lia. pose proof (core_alloc_spec 10 m_core m_core_ok Hs) as H.
  change (MEM_ALIGN_NEXT 10) with 12 in H. simpl in H. destruct H as (m' & E & _ & _ & _ & Hn & _). by exists m'.
Defined.

(** In the last three bytes the rounding wraps: an empty block instead of
    [NULL]. *)
Example core_alloc_wraps : (fst <$> chCoreAlloc (2 ^ 32 - 1) m_core) = Some 4096.
Proof. by vm_compute. Qed.
