(* ===== verification/ChHeap.v ===== *)
(** * The heap: kernel/src/chheap.c, include/chheap.h

    First-fit allocation from a list of free blocks kept by address, with the
    neighbours joined when a block is freed.  A header is two words: the next
    free block, or the owner's heap, and the size of the block behind it. *)

From S2P Require Import Prelude ChMem.

(** [sizeof(union heap_header)], and the place of [h_free] in [MemoryHeap]. *)
Definition header_size : Z := 8.
Definition h_free (heapp : Z) : Z := heapp + 4.

(** The heap's mutex as a flag: unlocked again before each return, and nothing to
    go on with when it is taken. *)
Definition H_LOCK (heapp : Z) : M unit := fun m => if h_lock m heapp then None else Some (tt, with_lock heapp true m).
Definition H_UNLOCK (heapp : Z) : M unit := mmod (with_lock heapp false).

Section Heap.

(** The address of the descriptor [default_heap]. *)
Context (default_heap : Z).

(** A null pointer stands for the default heap. *)
Definition the_heap (heapp : Z) : Z := if heapp =? NULL then default_heap else heapp.

Definition set_provider (heapp : Z) (f : option memgetfunc) : M unit := mmod (fun m =>
  mkMem (word m) (nextmem m) (endmem m) (h_lock m) (<[heapp := f]> (h_provider m)) (mp_provider m)).

Definition _heap_init : M unit :=
  set_provider default_heap (Some CoreAlloc);;
  st (h_free default_heap) NULL;;
  st (h_free default_heap + 4) 0;;
  H_UNLOCK default_heap.

Definition chHeapInit (heapp buf size : Z) : M unit :=
  set_provider heapp None;;
  st (h_free heapp) buf;;
  st (h_free heapp + 4) 0;;
  st buf NULL;;
  st (buf + 4) (u32 (size - header_size));;
  H_UNLOCK heapp.

(** The search from the block [qp] on: the payload's address, or [None] at the
    end of the list; at most [fuel] blocks. *)
Fixpoint alloc_loop (fuel : nat) (heapp qp size : Z) : M (option Z) :=
  match fuel with
  | O => fun _ => None
  | S fuel =>
      hp ← ld qp;
      if hp =? NULL then mret None
      else
        hsize ← ld (hp + 4);
        if size <=? hsize then
          next ← ld hp;
          (if hsize <? u32 (size + header_size) then st qp next
           else
             let fp := u32 (hp + header_size + size) in
             st fp next;;
             st (fp + 4) (u32 (hsize - header_size - size));;
             st qp fp;;
             st (hp + 4) size);;
          st hp heapp;;
          mret (Some (hp + header_size))
        else alloc_loop fuel heapp hp size
  end.

Definition chHeapAlloc (fuel : nat) (heapp size : Z) : M Z :=
  let heapp := the_heap heapp in
  let size := MEM_ALIGN_NEXT size in
  H_LOCK heapp;;
  r ← alloc_loop fuel heapp (h_free heapp) size;
  H_UNLOCK heapp;;
  match r with
  | Some p => mret p
  | None =>
      m ← mget;
      match h_provider m heapp with
      | None => mret NULL
      | Some f =>
          hp ← provide f (u32 (size + header_size));
          if hp =? NULL then mret NULL
          else
            st hp heapp;;
            st (hp + 4) size;;
            mret (hp + header_size)
      end
  end.

(** The address behind the block [p]. *)
Definition LIMIT (p : Z) : M Z := s ← ld (p + 4); mret (u32 (p + header_size + s)).

(** [if (LIMIT(p) == n)] the block [p] swallows the block [n] behind it. *)
Definition merge (p n : Z) : M unit :=
  l ← LIMIT p;
  if l =? n then
    ps ← ld (p + 4);
    ns ← ld (n + 4);
    st (p + 4) (u32 (ps + ns + header_size));;
    nn ← ld n;
    st p nn
  else mret tt.

(** [hp] put behind [qp] and joined with its neighbours. *)
Definition free_here (hp qp : Z) : M unit :=
  next ← ld qp;
  st hp next;;
  st qp hp;;
  merge hp next;;
  merge qp hp.

Fixpoint free_loop (fuel : nat) (heapp hp qp : Z) : M unit :=
  match fuel with
  | O => fun _ => None
  | S fuel =>
      next ← ld qp;
      if ((qp =? h_free heapp) || (qp <? hp)) && ((next =? NULL) || (hp <? next)) then free_here hp qp
      else free_loop fuel heapp hp next
  end.

Definition chHeapFree (fuel : nat) (p : Z) : M unit :=
  let hp := p - header_size in
  heapp ← ld hp;
  H_LOCK heapp;;
  free_loop fuel heapp hp (h_free heapp);;
  H_UNLOCK heapp.

(** The blocks behind [qp], and their sizes added to [sz]. *)
Fixpoint status_loop (fuel : nat) (qp n sz : Z) : M (Z * Z) :=
  match fuel with
  | O => fun _ => None
  | S fuel =>
      next ← ld qp;
      if next =? NULL then mret (n, sz)
      else
        s ← ld (next + 4);
        status_loop fuel next (u32 (n + 1)) (u32 (sz + s))
  end.

(** The number of fragments and what is stored at [sizep]. *)
Definition chHeapStatus (fuel : nat) (heapp : Z) : M (Z * Z) :=
  let heapp := the_heap heapp in
  H_LOCK heapp;;
  r ← status_loop fuel (h_free heapp) 0 0;
  H_UNLOCK heapp;;
  mret r.

End Heap.

(** ** The list of free blocks as a list

    A block is its header's address and its size. *)

Definition block : Type := Z * Z.

Definition b_end (b : block) : Z := b.1 + header_size + b.2.

(** What a request of [size] gets from the first block that is large enough. *)
Definition granted (size s : Z) : Z := if s <? size + header_size then s else size.

Fixpoint first_fit (size : Z) (l : list block) : option (block * list block) :=
  match l with
  | [] => None
  | (a, s) :: l =>
      if size <=? s then
        Some ((a, granted size s),
              if s <? size + header_size then l else (a + header_size + size, s - header_size - size) :: l)
      else '(b, l') ← first_fit size l; Some (b, (a, s) :: l')
  end.

(** A block in front of the others, joined with the first when they touch. *)
Definition join (b : block) (l : list block) : list block :=
  match l with
  | c :: l' => if b_end b =? c.1 then (b.1, b.2 + header_size + c.2) :: l' else b :: l
  | [] => [b]
  end.

Fixpoint give_back (b : block) (l : list block) : list block :=
  match l with
  | [] => [b]
  | c :: l' => if b.1 <? c.1 then join b l else join c (give_back b l')
  end.

(** The blocks lie in this order in memory, above [lo] and up to [hi], and no
    two touch. *)
Fixpoint blocks (lo hi : Z) (l : list block) : Prop :=
  match l with
  | [] => True
  | b :: l => lo < b.1 /\ 0 <= b.2 /\ b_end b <= hi /\ blocks (b_end b) hi l
  end.

(** The list from the header at [q] on. *)
Fixpoint chain (f : Z -> Z) (q : Z) (l : list block) : Prop :=
  match l with
  | [] => f q = NULL
  | b :: l => f q = b.1 /\ f (b.1 + 4) = b.2 /\ chain f b.1 l
  end.

(** An address in one of the blocks. *)
Definition inb (x : Z) (l : list block) : Prop := exists b, b ∈ l /\ b.1 <= x < b_end b.

Lemma inb_cons x b l : inb x (b :: l) <-> b.1 <= x < b_end b \/ inb x l.
Proof.
  unfold inb. split.
  - intros (c & [->|Hc]%elem_of_cons & H); [by left|right; eauto].
  - intros [H|(c & Hc & H)]; [exists b|exists c]; (split; [|done]); [by left|by right].
Qed.

Lemma blocks_in lo hi l x : blocks lo hi l -> inb x l -> lo < x < hi.
Proof.
  revert lo. induction l as [|b l IH]; intros lo; [by intros _ (c & Hc%elem_of_nil & _)|].
  intros (H1 & H2 & H3 & H4) [H|H]%inb_cons; [lia|]. pose proof (IH _ H4 H). unfold b_end, header_size in *. lia.
Qed.

Lemma blocks_head lo hi b l x : blocks lo hi (b :: l) -> x <= b_end b -> ~ inb x l.
Proof. intros (H1 & H2 & H3 & H4) Hx Hi. pose proof (blocks_in _ _ _ _ H4 Hi). lia. Qed.

Lemma blocks_lower lo lo' hi l : lo' <= lo -> blocks lo hi l -> blocks lo' hi l.
Proof. intros Hl. destruct l as [|b l]; [done|]. intros (? & ?). split; [lia|done]. Qed.

(** The list read from another header, in a memory that agrees on the blocks. *)
Lemma chain_from f f' q a lo hi l :
  blocks lo hi l -> chain f a l -> f' q = f a -> (forall x, inb x l -> f' x = f x) -> chain f' q l.
Proof.
  revert q a lo. induction l as [|b l IH]; intros q a lo; cbn [chain]; [by intros _ -> ->|].
  intros Hb (H1 & H2 & H3) Hq Hf. pose proof Hb as (B1 & B2 & B3 & B4).
  assert (Hi : forall x, b.1 <= x < b.1 + 8 -> f' x = f x).
  { intros x Hx. apply Hf, inb_cons. left. unfold b_end, header_size. lia. }
  split_and!; [congruence|rewrite Hi by lia; done|].
  apply (IH b.1 b.1 (b_end b)); [done|done|apply Hi; lia|]. intros x Hx. apply Hf, inb_cons. by right.
Qed.

(** What else than words there is does not change. *)
Definition same_rest (m m' : mstate) : Prop :=
  nextmem m' = nextmem m /\ endmem m' = endmem m /\ h_lock m' = h_lock m /\ h_provider m' = h_provider m /\
  mp_provider m' = mp_provider m.

Ltac words :=
  repeat match goal with |- context [word (with_lock ?h ?b ?x)] => change (word (with_lock h b x)) with (word x) end;
  rewrite ?word_set; repeat case_decide; try lia; try done.

(** ** Allocating *)

(** The block [b] was taken from the list [l] behind the header at [q], and [l'] is left. *)
Definition taken (heapp q : Z) (l : list block) (b : block) (l' : list block) (m m' : mstate) : Prop :=
  chain (word m') q l' /\ word m' b.1 = heapp /\ word m' (b.1 + 4) = b.2 /\ same_rest m m' /\
  (forall x, x <> q -> ~ inb x l -> word m' x = word m x).

(** The first block is large enough: it is taken, or split. *)
Lemma alloc_here_ok heapp q size a s l lo hi m :
  q <> NULL -> chain (word m) q ((a, s) :: l) -> blocks lo hi ((a, s) :: l) -> 0 <= lo -> hi < 2 ^ 32 -> ~ inb q ((a, s) :: l) ->
  0 <= size <= s -> size + header_size < 2 ^ 32 ->
  exists m', (next ← ld a;
    (if s <? u32 (size + header_size) then st q next
     else
       let fp := u32 (a + header_size + size) in
       st fp next;;
       st (fp + 4) (u32 (s - header_size - size));;
       st q fp;;
       st (a + 4) size);;
    st a heapp;;
    mret (Some (a + header_size))) m = Some (Some (a + header_size), m') /\
    taken heapp q ((a, s) :: l) (a, granted size s) (if s <? size + header_size then l else (a + header_size + size, s - header_size - size) :: l) m m'.
Proof.
  intros Hq (C1 & C2 & C3) (B1 & B2 & B3 & B4) Hlo Hhi Hqi Hle Hsz. simpl in C1, C2, C3, B1, B2. unfold b_end, header_size in B3, B4. simpl in B3, B4.
  rewrite (bind_eq _ _ _ _ _ (ld_eq a m ltac:(unfold NULL; lia))).
  rewrite (wrap_small 32 (size + header_size)) by (unfold fits, header_size in *; lia). unfold granted, taken.
  assert (Hqr : ~ (a <= q < a + 8 + s)) by (intros Hr; apply Hqi, inb_cons; left; exact Hr).
  assert (Hin : forall x, inb x l -> a + 8 + s < x /\ x <> q).
  { intros x Hx. split; [apply (blocks_in _ _ _ _ B4 Hx)|]. intros ->. apply Hqi, inb_cons. by right. }
  assert (Hout : forall x, ~ inb x ((a, s) :: l) -> ~ (a <= x < a + 8 + s)) by (intros x Hn Hr; apply Hn, inb_cons; left; exact Hr).
  destruct (Z.ltb_spec s (size + header_size)) as [Hsm|Hbig].
  - rewrite (bind_eq _ _ _ _ _ (st_eq q _ m Hq)). erewrite bind_eq by (apply st_eq; unfold NULL; lia).
    eexists. split; [reflexivity|]. simpl fst. simpl snd. split_and!.
    + eapply (chain_from (word m) _ q a); [exact B4|exact C3| |]; [words|]. intros x Hx. destruct (Hin x Hx). words.
    + words.
    + words.
    + done.
    + intros x Hx Hn. pose proof (Hout x Hn). words.
  - unfold header_size in *. rewrite (wrap_small 32 (a + 8 + size)), (wrap_small 32 (s - 8 - size)) by (unfold fits; lia).
    cbv zeta. unfold mbind at 1. unfold M_bind at 1.
    do 2 erewrite (bind_eq (st _ _)) by (apply st_eq; unfold NULL; lia).
    erewrite (bind_eq (st _ _)) by (apply st_eq; done).
    rewrite st_eq by (unfold NULL; lia). erewrite bind_eq by (apply st_eq; unfold NULL; lia).
    eexists. split; [reflexivity|]. cbn [fst snd]. split_and!.
    + cbn [chain fst snd]. split_and!; [words|words|].
      eapply (chain_from (word m) _ _ a); [exact B4|exact C3| |]; [words|]. intros x Hx. destruct (Hin x Hx). words.
    + words.
    + words.
    + done.
    + intros x Hx Hn. pose proof (Hout x Hn). words.
Qed.

(** A block that is too small stays in front. *)
Lemma taken_behind heapp q a s l b l' lo hi m m' :
  chain (word m) q ((a, s) :: l) -> blocks lo hi ((a, s) :: l) -> ~ inb q ((a, s) :: l) -> taken heapp a l b l' m m' ->
  taken heapp q ((a, s) :: l) b ((a, s) :: l') m m'.
Proof.
  intros (C1 & C2 & C3) Hb Hqi (K1 & K2 & K3 & K4 & K5). simpl in C1, C2, C3. pose proof Hb as (_ & B2 & _). simpl in B2.
  assert (Ha : forall x, ~ inb x ((a, s) :: l) -> x <> a /\ ~ inb x l).
  { intros x Hx. split; [intros ->; apply Hx, inb_cons; left; unfold b_end, header_size; simpl; lia|]. intros Hi. apply Hx, inb_cons. by right. }
  assert (Hai4 : ~ inb (a + 4) l) by (eapply (blocks_head _ _ (a, s)); [exact Hb|unfold b_end, header_size; simpl; lia]).
  unfold taken. cbn [chain fst snd]. split_and!; try done.
  - rewrite K5; [done|apply (Ha q Hqi)..].
  - rewrite K5; [done|lia|done].
  - intros x Hx Hn. apply K5; apply (Ha x Hn).
Qed.

Lemma alloc_loop_ok fuel heapp q size l lo hi m :
  q <> NULL -> chain (word m) q l -> blocks lo hi l -> 0 <= lo -> hi < 2 ^ 32 -> ~ inb q l ->
  0 <= size -> size + header_size < 2 ^ 32 -> (length l < fuel)%nat ->
  match first_fit size l with
  | None => alloc_loop fuel heapp q size m = Some (None, m)
  | Some (b, l') => exists m', alloc_loop fuel heapp q size m = Some (Some (b.1 + header_size), m') /\ taken heapp q l b l' m m'
  end.
Proof.
  intros Hq Hch Hb Hlo Hhi Hqi Hs Hsz. revert q l lo Hq Hch Hb Hlo Hqi.
  induction fuel as [|fuel IH]; intros q l lo Hq Hch Hb Hlo Hqi Hf; [lia|]. cbn [alloc_loop].
  rewrite (bind_eq _ _ _ _ _ (ld_eq q m Hq)). destruct l as [|[a s] l]; cbn [first_fit].
  { cbn [chain] in Hch. by rewrite Hch. }
  pose proof Hch as (C1 & C2 & C3). simpl in C1, C2, C3. pose proof Hb as (B1 & B2 & B3 & B4). simpl in B1, B2. rewrite C1.
  rewrite (proj2 (Z.eqb_neq a NULL)) by (unfold NULL; lia).
  rewrite (bind_eq _ _ _ _ _ (ld_eq (a + 4) m ltac:(unfold NULL; lia))), C2.
  destruct (Z.leb_spec size s) as [Hle|Hgt]; [by apply (alloc_here_ok heapp q size a s l lo hi)|].
  assert (Hai : ~ inb a l) by (eapply (blocks_head _ _ (a, s)); [exact Hb|unfold b_end, header_size; simpl; lia]).
  specialize (IH a l _ ltac:(unfold NULL; lia) C3 B4 ltac:(unfold b_end, header_size; simpl; lia) Hai ltac:(simpl in Hf; lia)).
  destruct (first_fit size l) as [[b l']|]; [|done]. destruct IH as (m' & E & K). exists m'. split; [done|]. by eapply taken_behind.
Qed.

(** ** The list after an allocation and after a release *)

Definition apart (b c : block) : Prop := b_end b <= c.1 \/ b_end c <= b.1.

(** The bytes of the blocks with their headers. *)
Definition total (l : list block) : Z := foldr (fun b n => header_size + b.2 + n) 0 l.

Lemma join_apart c lo hi l : blocks lo hi l -> b_end c <= lo -> join c l = c :: l.
Proof.
  intros Hb Hc. destruct l as [|d l]; [done|]. simpl. destruct Hb as (H & _). by rewrite (proj2 (Z.eqb_neq _ _)) by lia.
Qed.

Lemma join_ok c lo hi l :
  lo < c.1 -> 0 <= c.2 -> b_end c <= hi -> blocks (b_end c - 1) hi l -> blocks lo hi (join c l).
Proof.
  intros H1 H2 H3 H4. destruct l as [|d l]; [done|]. destruct H4 as (D1 & D2 & D3 & D4). simpl.
  destruct (Z.eqb_spec (b_end c) d.1) as [He|Hne]; cbn [blocks]; unfold b_end, header_size in *; cbn [fst snd].
  - split_and!; [done|lia|lia|]. by replace (c.1 + 8 + (c.2 + 8 + d.2)) with (d.1 + 8 + d.2) by lia.
  - split_and!; [done|done|lia|lia|done|done|done].
Qed.

Lemma give_back_ok b lo hi l :
  lo < b.1 -> 0 <= b.2 -> b_end b <= hi -> blocks lo hi l -> Forall (apart b) l -> blocks lo hi (give_back b l).
Proof.
  revert lo. induction l as [|c l IH]; intros lo H1 H2 H3 Hb Ha; cbn [give_back]; [done|].
  pose proof Hb as (C1 & C2 & C3 & C4). apply Forall_cons in Ha as [Ha Hal].
  unfold apart, b_end, header_size in Ha. destruct (Z.ltb_spec b.1 c.1) as [Hlt|Hge].
  - apply join_ok; [done|done|done|]. cbn [blocks]. split_and!; [|done|done|done]. unfold b_end, header_size. lia.
  - apply join_ok; [done|done|done|]. apply IH; [unfold b_end, header_size; lia|done|done| |done].
    eapply blocks_lower; [|exact C4]. lia.
Qed.

Lemma join_inb x b l : 0 <= b.2 -> Forall (fun c => 0 <= c.2) l -> inb x (join b l) <-> inb x (b :: l).
Proof.
  intros Hb Hl. destruct l as [|c l]; [done|]. simpl. apply Forall_cons in Hl as [Hc _].
  destruct (Z.eqb_spec (b_end b) c.1) as [He|]; [|done]. rewrite !inb_cons. unfold b_end, header_size in *. cbn [fst snd].
  intuition lia.
Qed.

Lemma blocks_sizes lo hi l : blocks lo hi l -> Forall (fun c => 0 <= c.2) l.
Proof. revert lo. induction l as [|b l IH]; intros lo; [constructor|]. intros (? & ? & ? & H). constructor; [done|by apply (IH _ H)]. Qed.

Lemma join_sizes b l : 0 <= b.2 -> Forall (fun c => 0 <= c.2) l -> Forall (fun c => 0 <= c.2) (join b l).
Proof.
  intros Hb Hl. destruct l as [|c l]; simpl; [by constructor|]. pose proof Hl as [Hc Hr]%Forall_cons.
  destruct (_ =? _); [|by constructor]. constructor; [simpl; unfold header_size; lia|done].
Qed.

Lemma give_back_sizes b l : 0 <= b.2 -> Forall (fun c => 0 <= c.2) l -> Forall (fun c => 0 <= c.2) (give_back b l).
Proof.
  intros Hb. induction 1 as [|c l Hc Hl IH]; cbn [give_back]; [by constructor|].
  destruct (_ <? _); apply join_sizes; try done. by constructor.
Qed.

Lemma give_back_inb x b l : 0 <= b.2 -> Forall (fun c => 0 <= c.2) l -> inb x (give_back b l) <-> inb x (b :: l).
Proof.
  intros Hb. induction 1 as [|c l Hc Hl IH]; cbn [give_back]; [done|].
  destruct (_ <? _); [apply join_inb; [done|by constructor]|].
  rewrite join_inb by (done || by apply give_back_sizes). rewrite !inb_cons, IH, inb_cons. tauto.
Qed.

Lemma join_total b l : total (join b l) = header_size + b.2 + total l.
Proof. destruct l as [|c l]; [done|]. simpl. destruct (_ =? _); simpl; lia. Qed.

Lemma give_back_total b l : total (give_back b l) = header_size + b.2 + total l.
Proof.
  induction l as [|c l IH]; cbn [give_back]; [done|]. destruct (_ <? _); [apply join_total|].
  rewrite join_total, IH. simpl. lia.
Qed.

(** What a first fit takes, and that giving it back restores the list. *)
Lemma first_fit_ok size l b l' lo hi :
  blocks lo hi l -> 0 <= size -> first_fit size l = Some (b, l') ->
  blocks lo hi l' /\ size <= b.2 < size + header_size /\ lo < b.1 /\ b_end b <= hi /\ Forall (apart b) l' /\
  (forall x, b.1 <= x < b_end b -> inb x l) /\ (forall x, inb x l' -> inb x l) /\ give_back b l' = l.
Proof.
  intros Hb Hs. revert lo Hb l'. induction l as [|[a s] l IH]; intros lo Hb l'; [done|]. cbn [first_fit].
  pose proof Hb as (B1 & B2 & B3 & B4). simpl in B1, B2.
  assert (Hap : forall e, e <= a + 8 + s -> Forall (apart (a, e - a - 8)) l).
  { intros e He. rewrite Forall_forall. intros c Hc. left.
    assert (Hi : inb c.1 l) by (exists c; split; [done|]; pose proof (blocks_sizes _ _ _ B4) as Hz; rewrite Forall_forall in Hz;
      pose proof (Hz c Hc); unfold b_end, header_size; lia).
    pose proof (blocks_in _ _ _ _ B4 Hi). unfold b_end, header_size in *. simpl in *. lia. }
  unfold b_end, header_size in B3, B4. simpl in B3, B4. destruct (Z.leb_spec size s) as [Hle|Hgt].
  - unfold granted. intros [= <- <-]. destruct (Z.ltb_spec s (size + header_size)) as [Hsm|Hbig]; unfold header_size in *.
    + split_and!; try done; [by apply (blocks_lower (a + 8 + s)); [lia|]| | | |].
      * specialize (Hap (a + 8 + s) ltac:(lia)). by replace (a + 8 + s - a - 8) with s in Hap by lia.
      * intros x Hx. apply inb_cons. by left.
      * intros x Hx. apply inb_cons. by right.
      * destruct l as [|c l]; [done|]. cbn [give_back]. destruct B4 as (D1 & _).
        rewrite (proj2 (Z.ltb_lt _ _)) by (simpl; lia). simpl. rewrite (proj2 (Z.eqb_neq _ _)); [done|].
        unfold b_end, header_size. simpl. lia.
    + split_and!; try done; cbn [fst snd]; try lia.
      * cbn [blocks fst snd]. unfold b_end, header_size. cbn [fst snd]. split_and!; [lia|lia|lia|].
        by replace (a + 8 + size + 8 + (s - 8 - size)) with (a + 8 + s) by lia.
      * unfold b_end, header_size. simpl. lia.
      * constructor; [left; unfold b_end, header_size; simpl; lia|].
        specialize (Hap (a + 8 + size) ltac:(lia)). by replace (a + 8 + size - a - 8) with size in Hap by lia.
      * intros x Hx. apply inb_cons. left. unfold b_end, header_size in *. simpl in *. lia.
      * intros x [Hx|Hx]%inb_cons; apply inb_cons; [left|by right]. unfold b_end, header_size in *. simpl in *. lia.
      * cbn [give_back fst]. rewrite (proj2 (Z.ltb_lt _ _)) by lia. unfold join, b_end, header_size. cbn [fst snd].
        rewrite Z.eqb_refl. do 2 f_equal. lia.
  - destruct (first_fit size l) as [[b2 l2]|] eqn:Hff; [|done]. simpl. intros [= -> <-].
    destruct (IH _ B4 l2 eq_refl) as (I1 & I2 & I3 & I4 & I5 & I6 & I7 & I8). split_and!; try done; try lia.
    + constructor; [right; unfold b_end, header_size; simpl; lia|done].
    + intros x Hx. apply inb_cons. right. by apply I6.
    + intros x [Hx|Hx]%inb_cons; apply inb_cons; [by left|right; by apply I7].
    + cbn [give_back fst]. rewrite (proj2 (Z.ltb_ge _ _)) by lia. rewrite I8. eapply join_apart; [exact B4|].
      unfold b_end, header_size. simpl. lia.
Qed.

(** ** Freeing *)

(** The list that starts with the header at [q] itself. *)
Definition chain_at (f : Z -> Z) (q : Z) (r : list block) : Prop :=
  match r with
  | [] => False
  | c :: l => c.1 = q /\ c.2 = f (q + 4) /\ chain f q l
  end.

Lemma LIMIT_eq p s m : p + 4 <> NULL -> word m (p + 4) = s -> 0 <= p + 8 + s < 2 ^ 32 -> LIMIT p m = Some (p + 8 + s, m).
Proof.
  intros Hp Hs Hr. unfold LIMIT. rewrite (bind_eq _ _ _ _ _ (ld_eq _ m Hp)), Hs.
  unfold header_size. by rewrite wrap_small by (unfold fits; lia).
Qed.

Lemma merge_no p n s m :
  p + 4 <> NULL -> word m (p + 4) = s -> 0 <= p + 8 + s < 2 ^ 32 -> p + 8 + s <> n -> merge p n m = Some (tt, m).
Proof.
  intros Hp Hs Hr Hn. unfold merge. rewrite (bind_eq _ _ _ _ _ (LIMIT_eq p s m Hp Hs Hr)).
  by rewrite (proj2 (Z.eqb_neq _ _) Hn).
Qed.

Lemma merge_ok p s l hi m :
  0 < p -> 0 <= s -> p + 8 + s <= hi -> hi < 2 ^ 32 -> word m (p + 4) = s ->
  chain (word m) p l -> blocks (p + 8 + s - 1) hi l ->
  exists m', merge p (word m p) m = Some (tt, m') /\ chain_at (word m') p (join (p, s) l) /\ same_rest m m' /\
    (forall x, x <> p -> x <> p + 4 -> word m' x = word m x).
Proof.
  intros Hp Hs Hhi Hhi2 Hsz Hch Hb.
  assert (Hn : forall n, p + 8 + s <> n -> merge p n m = Some (tt, m)) by (intros n Hne; apply (merge_no p n s); unfold NULL; lia || done).
  destruct l as [|[a t] l]; cbn [chain join] in *.
  { exists m. rewrite Hn by (rewrite Hch; unfold NULL; lia). unfold chain_at. simpl. by split_and!. }
  destruct Hch as (C1 & C2 & C3). destruct Hb as (B1 & B2 & B3 & B4). unfold b_end, header_size in *. cbn [fst snd] in *.
  destruct (Z.eqb_spec (p + 8 + s) a) as [He|Hne].
  - unfold merge. rewrite (bind_eq _ _ _ _ _ (LIMIT_eq p s m ltac:(unfold NULL; lia) Hsz ltac:(lia))), C1, He, Z.eqb_refl.
    rewrite (bind_eq _ _ _ _ _ (ld_eq (p + 4) m ltac:(unfold NULL; lia))).
    rewrite (bind_eq _ _ _ _ _ (ld_eq (a + 4) m ltac:(unfold NULL; lia))), C2, Hsz.
    erewrite bind_eq by (apply st_eq; unfold NULL; lia).
    erewrite bind_eq by (apply ld_eq; unfold NULL; lia). rewrite st_eq by (unfold NULL; lia).
    eexists. split; [reflexivity|]. unfold header_size. rewrite wrap_small by (unfold fits; lia).
    cbn [chain_at fst snd]. split_and!; [done| | |done|intros; words].
    + words.
    + assert (Hin : forall x, inb x l -> a + 8 + t < x) by (intros x Hx; apply (blocks_in _ _ _ _ B4 Hx)).
      eapply (chain_from (word m) _ p a); [exact B4|exact C3|words|]. intros x Hx. pose proof (Hin x Hx). words.
  - exists m. rewrite Hn by (rewrite C1; lia). cbn [chain_at chain fst snd]. by split_and!.
Qed.

(** The block [b] put behind the header [q], with [l] the list behind that. *)
Lemma insert_ok q b l hi m :
  q <> NULL -> 0 < b.1 -> 0 <= b.2 -> b_end b <= hi -> hi < 2 ^ 32 -> word m (b.1 + 4) = b.2 ->
  chain (word m) q l -> blocks (b_end b - 1) hi l -> ~ inb q (b :: l) ->
  exists m', (next ← ld q; st b.1 next;; st q b.1;; merge b.1 next;; merge q b.1) m = merge q b.1 m' /\
    chain (word m') q (join b l) /\ same_rest m m' /\ (forall x, x <> q -> ~ inb x [b] -> word m' x = word m x).
Proof.
  intros Hq Hb1 Hb2 Hhi Hhi2 Hsz Hch Hb Hqi. destruct b as [a s]. unfold b_end, header_size in *. cbn [fst snd] in *.
  rewrite (bind_eq _ _ _ _ _ (ld_eq q m Hq)). set (n := word m q).
  assert (Hqb : ~ (a <= q < a + 8 + s)) by (intros Hx; apply Hqi, inb_cons; left; exact Hx).
  rewrite (bind_eq _ _ _ _ _ (st_eq a n m ltac:(unfold NULL; lia))). rewrite (bind_eq _ _ _ _ _ (st_eq q a _ Hq)).
  set (m2 := with_word q a (with_word a n m)).
  assert (W : forall x, x <> q -> x <> a -> word m2 x = word m x) by (intros; unfold m2; words).
  assert (Wa : word m2 a = n) by (unfold m2; words). assert (Wq : word m2 q = a) by (unfold m2; words).
  assert (Hlow : forall x, inb x l -> a + 8 + s - 1 < x) by (intros x Hx; apply (blocks_in _ _ _ _ Hb Hx)).
  assert (Hch2 : chain (word m2) a l).
  { eapply (chain_from (word m) _ a q); [exact Hb|exact Hch|exact Wa|]. intros x Hx. pose proof (Hlow x Hx).
    apply W; [|lia]. intros ->. apply Hqi, inb_cons. by right. }
  destruct (merge_ok a s l hi m2) as (m3 & E & K & R & F); [lia|done|done|done|rewrite W by lia; done|done|done|].
  rewrite Wa in E. rewrite (bind_eq _ _ _ _ _ E). exists m3. split_and!; [done| |done|].
  - destruct (join (a, s) l) as [|c r] eqn:Hj; [done|]. destruct K as (K1 & K2 & K3). cbn [chain].
    rewrite F, Wq by lia. split_and!; [done|by rewrite K1|by rewrite K1].
  - intros x Hx Hn. assert (~ (a <= x < a + 8 + s)).
    { intros Hr. apply Hn, inb_cons. left. unfold b_end, header_size. exact Hr. }
    rewrite F by lia. apply W; [done|lia].
Qed.

Lemma join_head b l : exists s r, join b l = (b.1, s) :: r.
Proof. destruct b as [a s]. destruct l as [|c l]; simpl; [eauto|]. destruct (_ =? _); eauto. Qed.

Lemma join_not b l c r : l = c :: r -> b_end b <> c.1 -> join b l = b :: l.
Proof. intros -> Hne. simpl. by rewrite (proj2 (Z.eqb_neq _ _) Hne). Qed.

(** The header [q] of size [t] in front of the list [r] of another memory. *)
Lemma chain_at_cons f q t r c l : r = c :: l -> t = f (q + 4) -> f q = c.1 -> chain_at f c.1 r -> q + 8 + t <> c.1 ->
  chain_at f q (join (q, t) r).
Proof.
  intros Hr Ht Hq Hc Hne. rewrite (join_not _ _ c l Hr) by exact Hne. cbn [chain_at fst snd].
  split_and!; [done|done|]. subst r. destruct Hc as (_ & H2 & H3). cbn [chain]. by split_and!.
Qed.

Section Free.

Context (b : block) (hi : Z).
Context (Hb1 : 0 < b.1) (Hb2 : 0 <= b.2) (Hhi : b_end b <= hi) (Hhi2 : hi < 2 ^ 32).

(** The header [q] of size [t] in front of [b]: a block that ends before it, or
    the list's head, which touches nothing. *)
Definition before (q t : Z) (l : list block) : Prop :=
  0 < q + 4 /\ q <> NULL /\ 0 <= t /\ 0 <= q + 8 + t < 2 ^ 32 /\ ~ inb q (b :: l) /\ ~ inb (q + 4) (b :: l) /\
  (0 < q /\ q + 8 + t <= b.1 /\ blocks (q + 8 + t) hi l \/ ~ inb (q + 8 + t) (b :: l)).

Lemma before_apart q t l c : before q t l -> c ∈ l -> 0 <= c.2 -> q + 8 + t <> c.1.
Proof using.
  intros (_ & _ & _ & _ & _ & _ & [(H1 & H2 & H3)|Hn]) Hc Hc2 He.
  - assert (Hi : inb c.1 l) by (exists c; split; [done|unfold b_end, header_size; lia]).
    pose proof (blocks_in _ _ _ _ H3 Hi). lia.
  - apply Hn. exists c. split; [by right|]. unfold b_end, header_size. lia.
Qed.

Lemma free_here_ok q t l m :
  word m (q + 4) = t -> word m (b.1 + 4) = b.2 -> chain (word m) q l -> blocks (b_end b - 1) hi l -> before q t l ->
  exists m', free_here b.1 q m = Some (tt, m') /\ chain_at (word m') q (join (q, t) (join b l)) /\ same_rest m m' /\
    (forall x, x <> q -> x <> q + 4 -> ~ inb x [b] -> word m' x = word m x).
Proof using Hb1 Hb2 Hhi Hhi2.
  intros Ht Hsz Hch Hb (Q0 & Q1 & Q2 & Q3 & Q4 & Q5 & Q6).
  destruct (insert_ok q b l hi m Q1 Hb1 Hb2 Hhi Hhi2 Hsz Hch Hb Q4) as (m1 & E & K & R & F).
  unfold free_here. rewrite E. clear E. destruct (join_head b l) as (s & r & Hj).
  assert (Hq4 : word m1 (q + 4) = t).
  { rewrite F; [done|lia|]. intros [Hx|(c & Hc%elem_of_nil & _)]%inb_cons; [|done]. apply Q5, inb_cons. by left. }
  assert (Hq : word m1 q = b.1) by (rewrite Hj in K; exact (proj1 K)).
  destruct (decide (q + 8 + t = b.1)) as [He|Hne].
  - assert (0 < q /\ q + 8 + t <= b.1) as [P1 P2].
    { destruct Q6 as [(P1 & P2 & _)|Hn]; [done|]. destruct Hn. apply inb_cons. left. unfold b_end, header_size. lia. }
    assert (Hbl : blocks (q + 8 + t - 1) hi (join b l)) by (apply join_ok; [lia|done|done|done]).
    destruct (merge_ok q t (join b l) hi m1) as (m2 & E & K2 & R2 & F2);
      [done|done|unfold b_end, header_size in Hhi; lia|done|done|done|done|].
    rewrite Hq in E. exists m2. split_and!; [exact E|done| |].
    + destruct R as (? & ? & ? & ? & ?), R2 as (? & ? & ? & ? & ?). unfold same_rest. split_and!; congruence.
    + intros x X1 X2 X3. rewrite F2 by done. by apply F.
  - exists m1. rewrite (merge_no q b.1 t) by (unfold NULL; lia || done). split_and!; [done| |done|].
    + eapply (chain_at_cons _ q t _ (b.1, s) r Hj); [done|exact Hq| |exact Hne].
      rewrite Hj in K |- *. destruct K as (_ & K2 & K3). cbn [chain_at fst snd] in *. by split_and!.
    + intros x X1 X2 X3. by apply F.
Qed.

Lemma free_loop_ok fuel heapp q t l lo m :
  word m (q + 4) = t -> word m (b.1 + 4) = b.2 -> chain (word m) q l -> blocks lo hi l -> 0 <= lo ->
  Forall (apart b) l -> before q t l -> q = h_free heapp \/ q < b.1 -> (length l < fuel)%nat ->
  exists m', free_loop fuel heapp b.1 q m = Some (tt, m') /\ chain_at (word m') q (join (q, t) (give_back b l)) /\
    same_rest m m' /\ (forall x, x <> q -> x <> q + 4 -> ~ inb x (b :: l) -> word m' x = word m x).
Proof using Hb1 Hb2 Hhi Hhi2.
  revert q t l lo. induction fuel as [|fuel IH]; intros q t l lo Ht Hsz Hch Hb Hlo Ha Hbf Hq Hf; [lia|].
  cbn [free_loop]. pose proof Hbf as (Q0 & Q1 & Q2 & Q3 & Q4 & Q5 & Q6).
  rewrite (bind_eq _ _ _ _ _ (ld_eq q m Q1)).
  replace ((q =? h_free heapp) || (q <? b.1)) with true
    by (symmetry; apply orb_true_iff; rewrite Z.eqb_eq, Z.ltb_lt; exact Hq). cbn [andb].
  destruct l as [|c l]; cbn [chain give_back] in *.
  { rewrite Hch. change (NULL =? NULL) with true. cbn [orb].
    destruct (free_here_ok q t [] m) as (m' & E & K & R & F); try done. exists m'. split_and!; try done. }
  destruct Hch as (C1 & C2 & C3). pose proof Hb as (B1 & B2 & B3 & B4). rewrite C1.
  rewrite (proj2 (Z.eqb_neq c.1 NULL)) by (unfold NULL; lia). cbn [orb]. apply Forall_cons in Ha as [Hac Hal].
  unfold apart, b_end, header_size in Hac. destruct (Z.ltb_spec b.1 c.1) as [Hlt|Hge].
  - destruct (free_here_ok q t (c :: l) m) as (m' & E & K & R & F); try done.
    { cbn [blocks]. split_and!; [unfold b_end, header_size; lia|done..]. }
    exists m'. split_and!; try done. intros x X1 X2 X3. apply F; [done|done|]. intros [Hx|(d & Hd%elem_of_nil & _)]%inb_cons; [|done].
    apply X3, inb_cons. by left.
  - assert (Hcb : c.1 + 8 + c.2 <= b.1) by lia.
    assert (Hin : forall x, x <= c.1 + 8 + c.2 -> ~ inb x l) by (intros x Hx; by apply (blocks_head _ _ c l x Hb)).
    assert (Hbf' : before c.1 c.2 l).
    { assert (Hx : forall x, x < b.1 -> x <= c.1 + 8 + c.2 -> ~ inb x (b :: l))
        by (intros x H1 H2 [H|H]%inb_cons; [lia|by apply (Hin x)]).
      unfold before. unfold b_end, header_size in *. split_and!; try (apply Hx); try (unfold NULL); try lia.
      left. split_and!; [lia|lia|exact B4]. }
    assert (Hle : 0 <= b_end c /\ c.1 < b.1 /\ (length l < fuel)%nat)
      by (simpl in Hf; unfold b_end, header_size; lia). destruct Hle as (Hl1 & Hl2 & Hl3).
    destruct (IH c.1 c.2 l (b_end c) C2 Hsz C3 B4 Hl1 Hal Hbf' (or_intror Hl2) Hl3) as (m' & E & K & R & F).
    replace (c.1, c.2) with c in K by (by destruct c). exists m'. split_and!; [exact E| |done|].
    + destruct (join_head c (give_back b l)) as (s & r & Hj).
      assert (Hfr : forall x, ~ inb x (b :: c :: l) -> word m' x = word m x).
      { intros x Hx. apply F.
        - intros ->. apply Hx, inb_cons. right. apply inb_cons. left. unfold b_end, header_size. lia.
        - intros ->. apply Hx, inb_cons. right. apply inb_cons. left. unfold b_end, header_size. lia.
        - intros [H|H]%inb_cons; apply Hx, inb_cons; [by left|right; apply inb_cons; by right]. }
      eapply (chain_at_cons _ q t _ (c.1, s) r Hj); [by rewrite Hfr|by rewrite Hfr|exact K|].
      apply (before_apart q t (c :: l) c); [done|by left|done].
    + intros x X1 X2 X3. apply F.
      * intros ->. apply X3, inb_cons. right. apply inb_cons. left. unfold b_end, header_size. lia.
      * intros ->. apply X3, inb_cons. right. apply inb_cons. left. unfold b_end, header_size. lia.
      * intros [H|H]%inb_cons; apply X3, inb_cons; [by left|right; apply inb_cons; by right].
Qed.

End Free.

(** ** The heap's invariant *)

(** The heap at [heapp] manages the memory above [lo] and up to [hi]: the free
    blocks [free], in a list by address in which no two touch, and the blocks
    [used], each with its owner and its size in its header. *)
Record heap_ok (heapp lo hi : Z) (free used : list block) (m : mstate) : Prop := {
  hk_chain : chain (word m) (h_free heapp) free;
  hk_zero : word m (h_free heapp + 4) = 0;
  hk_blocks : blocks lo hi free;
  hk_range : 0 <= lo /\ hi < 2 ^ 32;
  hk_desc : 0 < heapp /\ heapp + 12 < 2 ^ 32 /\ (heapp + 12 <= lo \/ hi <= heapp);
  hk_used b : b ∈ used -> lo < b.1 /\ 0 <= b.2 /\ b_end b <= hi /\ word m b.1 = heapp /\ word m (b.1 + 4) = b.2 /\
                          Forall (apart b) free;
  hk_apart : ForallOrdPairs apart used;
  hk_aligned : Forall (fun b => b.1 mod 4 = 0 /\ b.2 mod 4 = 0) (free ++ used)
}.

Lemma apart_sym b c : apart b c -> apart c b.
Proof. unfold apart. tauto. Qed.

Lemma apart_inb b l x : Forall (apart b) l -> b.1 <= x < b_end b -> ~ inb x l.
Proof. intros Ha Hx (c & Hc & Hi). rewrite Forall_forall in Ha. destruct (Ha c Hc); lia. Qed.

Lemma inb_apart lo hi b l :
  0 <= b.2 -> blocks lo hi l -> (forall x, b.1 <= x < b_end b -> ~ inb x l) -> Forall (apart b) l.
Proof.
  intros Hb Hl Hn. rewrite Forall_forall. intros c Hc. pose proof (blocks_sizes _ _ _ Hl) as Hz.
  rewrite Forall_forall in Hz. specialize (Hz c Hc). destruct (Z_le_gt_dec (b_end b) c.1) as [|H1]; [by left|].
  destruct (Z_le_gt_dec (b_end c) b.1) as [|H2]; [by right|]. exfalso.
  apply (Hn (Z.max b.1 c.1)); [unfold b_end, header_size in *; lia|]. exists c. split; [done|].
  unfold b_end, header_size in *. lia.
Qed.

(** Another list of free blocks in the same bytes, and a memory that agrees on
    the headers of the used blocks. *)
Lemma used_frame heapp lo hi free free' used m m' b :
  heap_ok heapp lo hi free used m -> blocks lo hi free' -> (forall x, inb x free' -> inb x free) ->
  (forall x, b.1 <= x < b_end b -> word m' x = word m x) ->
  b ∈ used -> lo < b.1 /\ 0 <= b.2 /\ b_end b <= hi /\ word m' b.1 = heapp /\ word m' (b.1 + 4) = b.2 /\ Forall (apart b) free'.
Proof.
  intros H Hb Hi Hw Hu. destruct (hk_used _ _ _ _ _ _ H b Hu) as (U1 & U2 & U3 & U4 & U5 & U6).
  unfold b_end, header_size in *. split_and!; try done; [by rewrite Hw by lia|by rewrite Hw by lia|].
  eapply inb_apart; [done|exact Hb|]. intros x Hx Hx'. by apply (apart_inb b free x U6 Hx), Hi.
Qed.

Lemma desc_out heapp lo hi free used m x b :
  heap_ok heapp lo hi free used m -> h_free heapp <= x <= h_free heapp + 8 -> lo < b.1 -> b_end b <= hi ->
  0 <= b.2 -> ~ inb x (b :: free).
Proof.
  intros H Hx H1 H2 H3. destruct (hk_desc _ _ _ _ _ _ H) as (_ & _ & Hd). unfold h_free in Hx.
  intros [Hi|Hi]%inb_cons; [lia|]. pose proof (blocks_in _ _ _ _ (hk_blocks _ _ _ _ _ _ H) Hi). lia.
Qed.

Lemma desc_free heapp lo hi free used m x :
  heap_ok heapp lo hi free used m -> h_free heapp <= x <= h_free heapp + 8 -> ~ inb x free.
Proof.
  intros H Hx Hi. destruct (hk_desc _ _ _ _ _ _ H) as (_ & _ & Hd). unfold h_free in Hx.
  pose proof (blocks_in _ _ _ _ (hk_blocks _ _ _ _ _ _ H) Hi). lia.
Qed.

(** The invariant reads only words. *)
Lemma heap_ok_words heapp lo hi free used m m' :
  word m' = word m -> heap_ok heapp lo hi free used m -> heap_ok heapp lo hi free used m'.
Proof. intros Hw [H1 H2 H3 H4 H5 H6 H7 H8]. constructor; try (intros b Hb); rewrite ?Hw; auto. Qed.

Lemma first_fit_aligned n l b l' :
  first_fit n l = Some (b, l') -> n mod 4 = 0 ->
  Forall (fun b => b.1 mod 4 = 0 /\ b.2 mod 4 = 0) l -> Forall (fun b => b.1 mod 4 = 0 /\ b.2 mod 4 = 0) (b :: l').
Proof.
  intros Hff Hn Hl. revert b l' Hff. induction Hl as [|[a s] l [Ha Hs] Hl IH]; intros b l'; [done|]. cbn [first_fit fst snd] in *.
  destruct (n <=? s).
  - unfold granted, header_size. intros [= <- <-]. destruct (s <? n + 8).
    + constructor; [by split|done].
    + constructor; [by split|]. constructor; [|done]. cbn [fst snd]. split.
      * rewrite Z.add_mod, Hn, (Z.add_mod a), Ha by lia. done.
      * rewrite Zminus_mod, Hn, (Zminus_mod s), Hs. done.
  - destruct (first_fit n l) as [[b2 l2]|]; [|done]. cbn. intros Hx. injection Hx as -> <-.
    specialize (IH b l2 eq_refl). apply Forall_cons in IH as [I1 I2]. constructor; [done|]. by constructor.
Qed.

Lemma join_aligned b l :
  Forall (fun b => b.1 mod 4 = 0 /\ b.2 mod 4 = 0) (b :: l) -> Forall (fun b => b.1 mod 4 = 0 /\ b.2 mod 4 = 0) (join b l).
Proof.
  intros Hl. destruct l as [|c l]; [done|]. simpl. destruct (_ =? _); [|done].
  apply Forall_cons in Hl as [[B1 B2] [[C1 C2] Hl]%Forall_cons]. constructor; [|done]. cbn [fst snd]. split; [done|].
  unfold header_size. rewrite Z.add_mod, C2, (Z.add_mod b.2), B2 by lia. done.
Qed.

Lemma give_back_aligned b l :
  Forall (fun b => b.1 mod 4 = 0 /\ b.2 mod 4 = 0) (b :: l) -> Forall (fun b => b.1 mod 4 = 0 /\ b.2 mod 4 = 0) (give_back b l).
Proof.
  induction l as [|c l IH]; intros Hl; [done|]. cbn [give_back]. destruct (_ <? _); [by apply join_aligned|].
  apply Forall_cons in Hl as [Hb [Hc Hl]%Forall_cons]. apply join_aligned. constructor; [done|]. apply IH. by constructor.
Qed.

(** ** What the calls do *)

Definition locked_m (heapp : Z) (m : mstate) : mstate := with_lock heapp true m.

Lemma lock_eq heapp m : h_lock m heapp = false -> H_LOCK heapp m = Some (tt, with_lock heapp true m).
Proof. unfold H_LOCK. by intros ->. Qed.

Lemma unlocked_lock heapp m : h_lock (with_lock heapp false m) heapp = false.
Proof. simpl. apply fn_lookup_insert. Qed.

Lemma h_free_ne heapp lo hi free used m : heap_ok heapp lo hi free used m -> h_free heapp <> NULL.
Proof. intros H. destruct (hk_desc _ _ _ _ _ _ H). unfold h_free, NULL. lia. Qed.

Section Ops.

Context (default_heap hp0 heapp lo hi : Z) (free used : list block) (m : mstate) (fuel : nat).
Context (Hheap : the_heap default_heap hp0 = heapp) (Hfree : h_lock m heapp = false).
Context (H : heap_ok heapp lo hi free used m) (Hfuel : (length free < fuel)%nat).

(** The search under the lock. *)
Lemma search_ok n m0 :
  word m0 = word m -> 0 <= n -> n + header_size < 2 ^ 32 -> n mod 4 = 0 ->
  match first_fit n free with
  | None => alloc_loop fuel heapp (h_free heapp) n m0 = Some (None, m0)
  | Some (b, free') => exists m', alloc_loop fuel heapp (h_free heapp) n m0 = Some (Some (b.1 + header_size), m') /\
      same_rest m0 m' /\ heap_ok heapp lo hi free' (b :: used) m' /\
      (forall c x, c ∈ used -> c.1 <= x < b_end c -> word m' x = word m0 x)
  end.
Proof using H Hfuel.
  intros Hw Hn Hn2 Hn4. apply (heap_ok_words _ _ _ _ _ m m0 Hw) in H as H0. clear Hw. destruct (hk_range _ _ _ _ _ _ H0) as [R1 R2].
  pose proof (alloc_loop_ok fuel heapp (h_free heapp) n free lo hi m0 (h_free_ne _ _ _ _ _ _ H0) (hk_chain _ _ _ _ _ _ H0)
    (hk_blocks _ _ _ _ _ _ H0) R1 R2) as HA.
  assert (Hd : forall x, h_free heapp <= x <= h_free heapp + 8 -> ~ inb x free) by (intros; by eapply desc_free).
  specialize (HA (Hd (h_free heapp) ltac:(lia)) Hn Hn2 Hfuel). destruct (first_fit n free) as [[b free']|] eqn:Hff; [|done].
  destruct HA as (m' & E & K1 & K2 & K3 & K4 & K5).
  destruct (first_fit_ok n free b free' lo hi (hk_blocks _ _ _ _ _ _ H0) Hn Hff) as (F1 & F2 & F3 & F4 & F5 & F6 & F7 & F8).
  assert (Hap : forall c, c ∈ used -> apart b c).
  { intros c Hc. destruct (hk_used _ _ _ _ _ _ H0 c Hc) as (U1 & U2 & U3 & _ & _ & U6).
    destruct (Z_le_gt_dec (b_end b) c.1) as [|H1]; [by left|]. destruct (Z_le_gt_dec (b_end c) b.1) as [|H2]; [by right|].
    exfalso. apply (apart_inb c free (Z.max b.1 c.1) U6); [unfold b_end, header_size in *; lia|].
    apply F6. unfold b_end, header_size in *. lia. }
  assert (Hfr : forall c x, c ∈ used -> c.1 <= x < b_end c -> word m' x = word m0 x).
  { intros c x Hc Hx. destruct (hk_used _ _ _ _ _ _ H0 c Hc) as (U1 & U2 & U3 & _ & _ & U6). apply K5.
    - intros ->. apply (desc_out heapp lo hi free used m0 (h_free heapp) c H0); [lia|done|done|done|]. apply inb_cons. by left.
    - by apply (apart_inb c). }
  exists m'. split_and!; [done|done| |exact Hfr]. constructor.
  - done.
  - rewrite K5; [apply (hk_zero _ _ _ _ _ _ H0)|lia|]. apply Hd. lia.
  - done.
  - done.
  - apply (hk_desc _ _ _ _ _ _ H0).
  - intros c [->|Hc]%elem_of_cons.
    + split_and!; try done. lia.
    + apply (used_frame heapp lo hi free free' used m0 m' c H0); [done|done| |done]. intros x Hx. by apply (Hfr c).
  - constructor; [|apply (hk_apart _ _ _ _ _ _ H0)]. rewrite List.Forall_forall. intros c Hc. apply Hap. by apply list_elem_of_In.
  - pose proof (hk_aligned _ _ _ _ _ _ H0) as Ha. apply Forall_app in Ha as [A1 A2].
    pose proof (first_fit_aligned n free b free' Hff Hn4 A1) as Ha'. apply Forall_cons in Ha' as [A3 A4].
    apply Forall_app. split; [done|]. by constructor.
Qed.

(** The contents of the blocks in use. *)
Definition contents_kept (us : list block) (m' : mstate) : Prop :=
  forall c x, c ∈ us -> c.1 <= x < b_end c -> word m' x = word m x.

Lemma chHeapAlloc_fit n size b free' :
  0 <= size <= 2 ^ 32 - 16 -> n = MEM_ALIGN_NEXT size -> first_fit n free = Some (b, free') ->
  exists m', chHeapAlloc default_heap fuel hp0 size m = Some (b.1 + header_size, m') /\ h_lock m' heapp = false /\
    heap_ok heapp lo hi free' (b :: used) m' /\ contents_kept used m'.
Proof using Hheap Hfree H Hfuel.
  intros Hs Hn Hff. destruct (align_next_spec size) as (Hr & Hm & _); [lia|]. rewrite <- Hn in Hr, Hm.
  pose proof (search_ok n (with_lock heapp true m) eq_refl) as HS. rewrite Hff in HS.
  destruct HS as (m' & E & _ & K & F); [lia|unfold header_size; lia|done|].
  exists (with_lock heapp false m'). split_and!; [|apply unlocked_lock|by apply (heap_ok_words _ _ _ _ _ m')|exact F].
  unfold chHeapAlloc. rewrite Hheap, <- Hn. cbv zeta. rewrite (bind_eq _ _ _ _ _ (lock_eq heapp m Hfree)).
  by rewrite (bind_eq _ _ _ _ _ E).
Qed.

(** No block is large enough: the provider's turn, after the lock. *)
Lemma chHeapAlloc_none n size :
  0 <= size <= 2 ^ 32 - 16 -> n = MEM_ALIGN_NEXT size -> first_fit n free = None ->
  let m1 := with_lock heapp false (with_lock heapp true m) in
  chHeapAlloc default_heap fuel hp0 size m =
    match h_provider m heapp with
    | None => Some (NULL, m1)
    | Some f => (hp ← provide f (n + header_size);
                 if hp =? NULL then mret NULL else st hp heapp;; st (hp + 4) n;; mret (hp + header_size)) m1
    end.
Proof using Hheap Hfree H Hfuel.
  intros Hs Hn Hff m1. destruct (align_next_spec size) as (Hr & Hm & _); [lia|]. rewrite <- Hn in Hr, Hm.
  pose proof (search_ok n (with_lock heapp true m) eq_refl) as HS. rewrite Hff in HS.
  unfold chHeapAlloc. rewrite Hheap, <- Hn. cbv zeta. rewrite (bind_eq _ _ _ _ _ (lock_eq heapp m Hfree)).
  rewrite (bind_eq _ _ _ _ _ (HS ltac:(lia) ltac:(unfold header_size; lia) Hm)).
  erewrite (bind_eq (H_UNLOCK heapp)) by reflexivity. fold m1. erewrite bind_eq by reflexivity.
  change (h_provider m1) with (h_provider m). destruct (h_provider m heapp); [|done].
  by rewrite wrap_small by (unfold fits, header_size; lia).
Qed.

(** A block of the memory behind the heap joins it. *)
Lemma heap_grows n m1 :
  word m1 = word m -> core_ok m1 -> lo < nextmem m1 -> hi <= nextmem m1 -> heapp + 12 <= lo -> 0 <= n -> n mod 4 = 0 ->
  n + header_size <= endmem m1 - nextmem m1 ->
  let b := (nextmem m1, n) in
  let m' := with_word (nextmem m1 + 4) n (with_word (nextmem m1) heapp (with_nextmem (nextmem m1 + (n + header_size)) m1)) in
  heap_ok heapp lo (nextmem m') free (b :: used) m' /\ contents_kept used m'.
Proof using H Hfuel.
  intros Hw [[Hn1 Hn2] He Ha Hb] Hlo Hhi Hd Hn Hm Hfit b m'. unfold header_size in *.
  assert (Hwx : forall x, x < nextmem m1 -> word m' x = word m x) by (intros; unfold m'; rewrite <- Hw; words).
  assert (Hin : forall x, inb x free -> x < nextmem m1).
  { intros x Hx. pose proof (blocks_in _ _ _ _ (hk_blocks _ _ _ _ _ _ H) Hx). lia. }
  assert (Hup : forall l lo, blocks lo hi l -> blocks lo (nextmem m') l).
  { induction l as [|c l IH]; intros lo0; [done|]. intros (C1 & C2 & C3 & C4). cbn [blocks]. split_and!; [done|done|simpl; lia|by apply IH]. }
  destruct (hk_desc _ _ _ _ _ _ H) as (D1 & D2 & _).
  assert (Hk : contents_kept used m').
  { intros c x Hc Hx. apply Hwx. destruct (hk_used _ _ _ _ _ _ H c Hc) as (_ & _ & U3 & _). lia. }
  split; [|done]. constructor.
  - eapply (chain_from (word m)); [exact (hk_blocks _ _ _ _ _ _ H)|exact (hk_chain _ _ _ _ _ _ H)| |].
    + apply Hwx. unfold h_free. lia.
    + intros x Hx. by apply Hwx, Hin.
  - rewrite Hwx by (unfold h_free; lia). apply (hk_zero _ _ _ _ _ _ H).
  - apply Hup, (hk_blocks _ _ _ _ _ _ H).
  - destruct (hk_range _ _ _ _ _ _ H). simpl. lia.
  - split_and!; [done|done|by left].
  - intros c [->|Hc]%elem_of_cons.
    + unfold b, b_end, header_size. simpl fst. simpl snd. split_and!; [done|done|simpl; lia| | |].
      * unfold m'. words.
      * unfold m'. words.
      * rewrite Forall_forall. intros d Hdf. right. cbn [fst].
        pose proof (blocks_sizes _ _ _ (hk_blocks _ _ _ _ _ _ H)) as Hz. rewrite Forall_forall in Hz. specialize (Hz d Hdf).
        assert (inb (b_end d - 1) free) as Hi by (exists d; split; [done|unfold b_end, header_size; lia]).
        specialize (Hin _ Hi). lia.
    + destruct (hk_used _ _ _ _ _ _ H c Hc) as (U1 & U2 & U3 & U4 & U5 & U6).
      split_and!; [done|done|simpl; lia| | |done]; rewrite (Hk c); [done|done|unfold b_end, header_size; lia|done|done|unfold b_end, header_size; lia].
  - constructor; [|apply (hk_apart _ _ _ _ _ _ H)]. rewrite List.Forall_forall. intros c Hc%list_elem_of_In. right.
    destruct (hk_used _ _ _ _ _ _ H c Hc) as (_ & _ & U3 & _). simpl. lia.
  - pose proof (hk_aligned _ _ _ _ _ _ H) as Hal. apply Forall_app in Hal as [A1 A2]. apply Forall_app. split; [done|]. by constructor.
Qed.

End Ops.

(** A block taken out of a family of separate blocks. *)
Lemma apart_middle us1 b us2 :
  ForallOrdPairs apart (us1 ++ b :: us2) ->
  ForallOrdPairs apart (us1 ++ us2) /\ forall c, c ∈ us1 ++ us2 -> apart b c.
Proof.
  induction us1 as [|d us1 IH]; inversion 1 as [|? ? Hd Ha]; subst; rewrite List.Forall_forall in Hd.
  - split; [done|]. intros c Hc. by apply Hd, list_elem_of_In.
  - destruct (IH Ha) as [I1 I2]. split.
    + simpl. constructor; [|done]. rewrite List.Forall_forall. intros c Hc. apply Hd.
      apply list_elem_of_In. apply list_elem_of_In in Hc. rewrite elem_of_app, elem_of_cons in *. tauto.
    + intros c [->|Hc]%elem_of_cons; [|by apply I2]. apply apart_sym, Hd, list_elem_of_In, elem_of_app. right. by left.
Qed.

Lemma chHeapFree_ok heapp lo hi free us1 us2 b m fuel :
  heap_ok heapp lo hi free (us1 ++ b :: us2) m -> h_lock m heapp = false -> (length free < fuel)%nat ->
  exists m', chHeapFree fuel (b.1 + header_size) m = Some (tt, m') /\ h_lock m' heapp = false /\
    heap_ok heapp lo hi (give_back b free) (us1 ++ us2) m' /\ contents_kept m (us1 ++ us2) m'.
Proof.
  intros H Hl Hf. set (m1 := with_lock heapp true m).
  assert (Hb : b ∈ us1 ++ b :: us2) by (apply elem_of_app; right; by left).
  destruct (hk_used _ _ _ _ _ _ H b Hb) as (U1 & U2 & U3 & U4 & U5 & U6). destruct (hk_range _ _ _ _ _ _ H) as [R1 R2].
  destruct (hk_desc _ _ _ _ _ _ H) as (D1 & D2 & D3). pose proof (hk_blocks _ _ _ _ _ _ H) as Hbl.
  assert (Hd : forall x, h_free heapp <= x <= h_free heapp + 8 -> ~ inb x (b :: free)) by (intros; by eapply desc_out).
  assert (Hbf : before b hi (h_free heapp) 0 free).
  { unfold before. unfold h_free in *. split_and!; try (apply Hd); try (unfold NULL); try lia. right. apply Hd. lia. }
  destruct (free_loop_ok b hi ltac:(lia) U2 U3 R2 fuel heapp (h_free heapp) 0 free lo m1) as (m' & E & K & R & F);
    [exact (hk_zero _ _ _ _ _ _ H)|exact U5|exact (hk_chain _ _ _ _ _ _ H)|done|done|done|done|by left|done|].
  pose proof (blocks_sizes _ _ _ Hbl) as Hz. pose proof (give_back_ok b lo hi free U1 U2 U3 Hbl U6) as Hgb.
  assert (Hib : forall x, inb x (give_back b free) -> inb x (b :: free)) by (intros x; by apply give_back_inb).
  assert (Hj : join (h_free heapp, 0) (give_back b free) = (h_free heapp, 0) :: give_back b free).
  { destruct (give_back b free) as [|c l] eqn:Hg; [done|]. eapply join_not; [done|]. intros He.
    apply (Hd c.1); [unfold b_end, header_size in He; cbn [fst snd] in He; lia|]. apply Hib. destruct Hgb as (_ & G & _).
    exists c. split; [by left|]. unfold b_end, header_size. lia. }
  rewrite Hj in K. destruct K as (_ & K2 & K3). cbn [fst snd] in K2, K3.
  destruct (apart_middle us1 b us2 (hk_apart _ _ _ _ _ _ H)) as [Hord Hap].
  assert (Hsub : forall c, c ∈ us1 ++ us2 -> c ∈ us1 ++ b :: us2) by (intros c; rewrite !elem_of_app, elem_of_cons; tauto).
  assert (Hk : contents_kept m (us1 ++ us2) m').
  { intros c x Hc Hx. destruct (hk_used _ _ _ _ _ _ H c (Hsub c Hc)) as (V1 & V2 & V3 & _ & _ & V6).
    assert (Ho : forall y, h_free heapp <= y <= h_free heapp + 8 -> x <> y).
    { intros y Hy ->. apply (desc_out heapp lo hi free _ m y c H Hy V1 V3 V2), inb_cons. by left. }
    rewrite F; [done|apply Ho; lia|apply Ho; lia|]. intros [Hi|Hi]%inb_cons; [|by apply (apart_inb c free x)].
    destruct (Hap c Hc); lia. }
  exists (with_lock heapp false m'). split_and!; [|apply unlocked_lock| |exact Hk].
  - unfold chHeapFree. replace (b.1 + header_size - header_size) with b.1 by lia.
    rewrite (bind_eq _ _ _ _ _ (ld_eq b.1 m ltac:(unfold NULL; lia))), U4. rewrite (bind_eq _ _ _ _ _ (lock_eq heapp m Hl)).
    by rewrite (bind_eq _ _ _ _ _ E).
  - apply (heap_ok_words _ _ _ _ _ m'); [done|]. constructor; try done.
    + intros c Hc. destruct (hk_used _ _ _ _ _ _ H c (Hsub c Hc)) as (V1 & V2 & V3 & V4 & V5 & V6).
      unfold b_end, header_size in *. split_and!; [done|done|done|rewrite (Hk c); [done|done|unfold b_end, header_size; lia]|
        rewrite (Hk c); [done|done|unfold b_end, header_size; lia]|].
      eapply inb_apart; [done|exact Hgb|]. intros x Hx Hi%Hib. apply inb_cons in Hi as [Hi|Hi]; [|by apply (apart_inb c free x)].
      pose proof (Hap c Hc) as Hbc. unfold apart, b_end, header_size in Hbc, Hi, Hx. lia.
    + pose proof (hk_aligned _ _ _ _ _ _ H) as Hal. apply Forall_app in Hal as [A1 A2]. apply Forall_app in A2 as [A2 A3].
      apply Forall_cons in A3 as [A3 A4]. apply Forall_app. split; [apply give_back_aligned; by constructor|].
      by apply Forall_app.
Qed.

(** (C3) Allocation from a heap whose lock is free.  The first free block that
    is large enough is taken, whole or split, and the caller gets the address
    behind its header: the block is word-aligned and at least as long as asked,
    overlaps no other block, in use or free, and the contents of the blocks in
    use stay.  When no block is large enough a heap without provider answers
    [NULL]; the default heap takes a new block from the core memory, or answers
    [NULL] when that is too small too.  The list of free blocks stays sorted and
    without neighbours, no byte is lost, every path gives the lock back, and the
    search ends after the last free block. *)
Theorem heap_alloc_spec default_heap hp0 heapp lo hi free used m fuel size :
  the_heap default_heap hp0 = heapp -> h_lock m heapp = false -> heap_ok heapp lo hi free used m ->
  (length free < fuel)%nat -> 0 <= size <= 2 ^ 32 - 16 ->
  (h_provider m heapp <> None -> core_ok m /\ lo < nextmem m /\ hi <= nextmem m /\ heapp + 12 <= lo) ->
  let n := MEM_ALIGN_NEXT size in
  exists p m', chHeapAlloc default_heap fuel hp0 size m = Some (p, m') /\ h_lock m' heapp = false /\
    contents_kept m used m' /\ size <= n < size + 4 /\
    match first_fit n free with
    | Some (b, free') =>
        p = b.1 + header_size /\ n <= b.2 < n + header_size /\ heap_ok heapp lo hi free' (b :: used) m' /\
        total free' + header_size + b.2 = total free
    | None =>
        if match h_provider m heapp with None => true | Some _ => endmem m - nextmem m <? n + header_size end
        then p = NULL /\ heap_ok heapp lo hi free used m'
        else p = nextmem m + header_size /\ heap_ok heapp lo (nextmem m + n + header_size) free ((nextmem m, n) :: used) m'
    end.
Proof.
  intros Hh Hl H Hf Hs Hp n. destruct (align_next_spec size) as (Hr & Hm & _); [lia|]. fold n in Hr, Hm.
  destruct (first_fit n free) as [[b free']|] eqn:Hff.
  - destruct (chHeapAlloc_fit default_heap hp0 heapp lo hi free used m fuel Hh Hl H Hf n size b free' Hs eq_refl Hff)
      as (m' & E & L & K & C).
    destruct (first_fit_ok n free b free' lo hi (hk_blocks _ _ _ _ _ _ H) ltac:(lia) Hff) as (_ & F2 & _ & _ & _ & _ & _ & F8).
    do 2 eexists. split_and!; [exact E|done|done|lia|lia|done|lia|lia|done|]. rewrite <- F8, give_back_total. lia.
  - pose proof (chHeapAlloc_none default_heap hp0 heapp lo hi free used m fuel Hh Hl H Hf n size Hs eq_refl Hff) as E.
    simpl in E. set (m1 := with_lock heapp false (with_lock heapp true m)) in *.
    assert (K1 : heap_ok heapp lo hi free used m1) by (by apply (heap_ok_words _ _ _ _ _ m)).
    destruct (h_provider m heapp) as [[]|]; [|by exists NULL, m1; split_and!; try done; lia || apply unlocked_lock].
    destruct (Hp ltac:(done)) as (Hc & H1 & H2 & H3). cbn [provide] in E.
    assert (Hc1 : core_ok m1) by (by destruct Hc).
    assert (Hn8 : MEM_ALIGN_NEXT (n + header_size) = n + header_size).
    { apply align_next_id; [unfold fits, header_size; lia|]. unfold header_size. by rewrite Z.add_mod, Hm. }
    pose proof (chCoreAlloc_eq (n + header_size) m1 Hc1) as Ec. rewrite Hn8 in Ec. change (endmem m1) with (endmem m) in Ec.
    change (nextmem m1) with (nextmem m) in Ec. destruct (Z.ltb_spec (endmem m - nextmem m) (n + header_size)) as [Hlt|Hge].
    + exists NULL, m1. rewrite E, (bind_eq _ _ _ _ _ Ec). split_and!; try done; [apply unlocked_lock|lia|lia].
    + destruct (heap_grows heapp lo hi free used m fuel H Hf n m1) as [K C]; try done; [lia|].
      change (nextmem m1) with (nextmem m) in *.
      rewrite E, (bind_eq _ _ _ _ _ Ec). destruct Hc as [[N1 N2] N3 _ _].
      rewrite (proj2 (Z.eqb_neq (nextmem m) NULL)) by (unfold NULL; lia).
      erewrite bind_eq by (apply st_eq; unfold NULL; lia). erewrite bind_eq by (apply st_eq; unfold NULL; lia).
      do 2 eexists. split_and!; [reflexivity|apply unlocked_lock|exact C|lia|lia|done|].
      change (nextmem (with_word _ _ _)) with (nextmem m + (n + header_size)) in K.
      by replace (nextmem m + n + header_size) with (nextmem m + (n + header_size)) by lia.
Qed.

(** (C5) Freeing a block in use puts it back between its neighbours by address
    and joins it with those it touches: the list stays sorted and without
    neighbours, the other blocks and their contents stay, the lock is given
    back, and no byte is lost.  Freeing what an allocation just returned restores
    the list of free blocks exactly. *)
Theorem heap_free_spec heapp lo hi free us1 us2 b m fuel :
  heap_ok heapp lo hi free (us1 ++ b :: us2) m -> h_lock m heapp = false -> (length free < fuel)%nat ->
  (exists m', chHeapFree fuel (b.1 + header_size) m = Some (tt, m') /\ h_lock m' heapp = false /\
    heap_ok heapp lo hi (give_back b free) (us1 ++ us2) m' /\ contents_kept m (us1 ++ us2) m' /\
    total (give_back b free) = total free + header_size + b.2) /\
  (forall n free0, 0 <= n -> blocks lo hi free0 -> first_fit n free0 = Some (b, free) -> give_back b free = free0).
Proof.
  intros H Hl Hf. split.
  - destruct (chHeapFree_ok heapp lo hi free us1 us2 b m fuel H Hl Hf) as (m' & E & L & K & C).
    exists m'. split_and!; try done. rewrite give_back_total. lia.
  - intros n free0 Hn Hb Hff. by destruct (first_fit_ok n free0 b free lo hi Hb Hn Hff) as (_ & _ & _ & _ & _ & _ & _ & ?).
Qed.

(** A heap made of the buffer [buf] is one free block. *)
Lemma chHeapInit_ok heapp buf size m :
  0 < heapp -> heapp + 12 < buf -> header_size <= size -> buf + size < 2 ^ 32 -> buf mod 4 = 0 -> size mod 4 = 0 ->
  exists m', chHeapInit heapp buf size m = Some (tt, m') /\ h_lock m' heapp = false /\ h_provider m' heapp = None /\
    heap_ok heapp (buf - 1) (buf + size) [(buf, size - header_size)] [] m'.
Proof.
  intros H1 H2 H3 H4 H5 H6. unfold chHeapInit, header_size, h_free in *.
  erewrite bind_eq by reflexivity. do 4 (erewrite bind_eq by (apply st_eq; unfold NULL; lia)).
  rewrite (wrap_small 32 (size - 8)) by (unfold fits; lia).
  eexists. split_and!; [reflexivity|apply unlocked_lock|simpl; apply fn_lookup_insert|]. constructor.
  - cbn [chain fst snd]. unfold h_free. split_and!; words.
  - unfold h_free. words.
  - cbn [blocks]. unfold b_end, header_size. cbn [fst snd]. split_and!; lia || done.
  - lia.
  - lia.
  - intros b Hb. by apply elem_of_nil in Hb.
  - constructor.
  - repeat constructor; cbn [fst snd]; [done|]. by rewrite Zminus_mod, H6.
Qed.

Definition m_heap : mstate :=
  match chHeapInit 256 1024 1024 m_core with Some (_, m) => m | None => m_core end.

Lemma m_heap_ok : h_lock m_heap 256 = false /\ h_provider m_heap 256 = None /\ heap_ok 256 1023 2048 [(1024, 1016)] [] m_heap.
Proof.
  destruct (chHeapInit_ok 256 1024 1024 m_core) as (m' & E & H); try done; try (unfold header_size; lia).
  unfold m_heap. by rewrite E.
Qed.

Lemma heap_alloc_spec_witness :
  exists m', chHeapAlloc 64 2 256 10 m_heap = Some (1032, m') /\ heap_ok 256 1023 2048 [(1044, 996)] [(1024, 12)] m'.
Proof.
  destruct m_heap_ok as (Hl & Hp & H).
  assert (Hs : 0 <= 10 <= 2 ^ 32 - 16) by lia. assert (Hf : (length [(1024, 1016)] < 2)%nat) by (simpl; lia).
  destruct (heap_alloc_spec 64 256 256 1023 2048 [(1024, 1016)] [] m_heap 2 10 eq_refl Hl H Hf Hs) as (p & m' & E & _ & _ & _ & K).
  - by rewrite Hp.
  - change (MEM_ALIGN_NEXT 10) with 12 in K. cbn in K. destruct K as (-> & _ & K & _). by exists m'.
Defined.

(** After that allocation. *)
Definition m_used : mstate :=
  match chHeapAlloc 64 2 256 10 m_heap with Some (_, m) => m | None => m_core end.

Lemma m_used_ok : h_lock m_used 256 = false /\ heap_ok 256 1023 2048 [(1044, 996)] [(1024, 12)] m_used.
Proof.
  destruct m_heap_ok as (Hl & Hp & H).
  destruct (chHeapAlloc_fit 64 256 256 1023 2048 [(1024, 1016)] [] m_heap 2 eq_refl Hl H) with (n := 12) (size := 10)
    (b := (1024, 12)) (free' := [(1044, 996)]) as (m' & E & L & K & _); [simpl; lia|lia|done|done|].
  unfold m_used. by rewrite E.
Qed.

Lemma heap_free_spec_witness :
  exists m', chHeapFree 2 1032 m_used = Some (tt, m') /\ heap_ok 256 1023 2048 [(1024, 1016)] [] m'.
Proof.
  destruct m_used_ok as (Hl & H). assert (Hf : (length [(1044, 996)] < 2)%nat) by (simpl; lia).
  destruct (heap_free_spec 256 1023 2048 [(1044, 996)] [] [] (1024, 12) m_used 2 H Hl Hf) as ((m' & E & _ & K & _) & _).
  exists m'. split; [exact E|exact K].
Defined.

(** A request of almost the whole address space: the size of the block asked of
    the core allocator wraps, and a block of four bytes is handed out as one of
    4294967292. *)
Definition m_default : mstate :=
  match (_core_init 4096 8192;; _heap_init 64) m_core with Some (_, m) => m | None => m_core end.

Example heap_alloc_wraps :
  match chHeapAlloc 64 2 NULL (2 ^ 32 - 4) m_default with
  | Some (p, m) => Some (p, word m (p - 4), nextmem m - p)
  | None => None
  end = Some (4104, 4294967292, -4).
Proof. by vm_compute. Qed.
