(* ===== verification/ChPool.v ===== *)
(** * Memory pools: kernel/src/chmempools.c

    Objects of one size, kept in a list threaded through the free objects
    themselves; an empty pool may ask its provider for another one. *)

From S2P Require Import Prelude ChMem.

(** The descriptor: [mp_next], [mp_object_size] and the provider. *)
Definition mp_next (mp : Z) : Z := mp.
Definition mp_object_size (mp : Z) : Z := mp + 4.

Definition chPoolInit (mp size : Z) (provider : option memgetfunc) : M unit :=
  st (mp_next mp) NULL;;
  st (mp_object_size mp) (MEM_ALIGN_NEXT size);;
  mmod (fun m => mkMem (word m) (nextmem m) (endmem m) (h_lock m) (h_provider m) (<[mp := provider]> (mp_provider m))).

Definition chPoolAllocI (mp : Z) : M Z :=
  objp ← ld (mp_next mp);
  if negb (objp =? NULL) then
    next ← ld objp;
    st (mp_next mp) next;;
    mret objp
  else
    m ← mget;
    match mp_provider m mp with
    | Some f => size ← ld (mp_object_size mp); provide f size
    | None => mret objp
    end.

Definition chPoolAlloc (mp : Z) : M Z := chPoolAllocI mp.

Definition chPoolFreeI (mp objp : Z) : M unit :=
  next ← ld (mp_next mp);
  st objp next;;
  st (mp_next mp) objp.

Definition chPoolFree (mp objp : Z) : M unit := chPoolFreeI mp objp.

(** ** A pool is a stack of objects *)

Fixpoint linked (f : Z -> Z) (q : Z) (l : list Z) : Prop :=
  match l with
  | [] => f q = NULL
  | a :: l => f q = a /\ linked f a l
  end.

(** The pool at [mp], of objects of [size] bytes, has the free objects [l]. *)
Record pool_ok (mp size : Z) (l : list Z) (m : mstate) : Prop := {
  pk_list : linked (word m) (mp_next mp) l;
  pk_nodup : NoDup l;
  pk_size : word m (mp_object_size mp) = size;
  pk_out a : a ∈ l -> a <> NULL /\ a <> mp_next mp /\ a <> mp_object_size mp;
  pk_mp : 0 < mp
}.

Lemma linked_frame f f' q q' l :
  f' q' = f q -> (forall a, a ∈ l -> f' a = f a) -> linked f q l -> linked f' q' l.
Proof.
  revert q q'. induction l as [|a l IH]; intros q q' Hq Hf; cbn [linked]; [by rewrite Hq|].
  intros [H1 H2]. split; [congruence|]. apply (IH a a); [apply Hf; by left| |done]. intros b Hb. apply Hf. by right.
Qed.

Lemma chPoolFree_ok mp size l m objp :
  pool_ok mp size l m -> objp <> NULL -> objp ∉ l -> objp <> mp_next mp -> objp <> mp_object_size mp ->
  exists m', chPoolFree mp objp m = Some (tt, m') /\ pool_ok mp size (objp :: l) m' /\
    (forall x, x <> mp_next mp -> x <> objp -> word m' x = word m x).
Proof.
  intros [H1 H2 H3 H4 H5]. unfold mp_next, mp_object_size in *.
  assert (Hmp : mp <> NULL /\ mp + 4 <> NULL) by (unfold NULL; lia). destruct Hmp as [M1 M2].
  intros O1 O2 O3 O4. eexists. split.
  { unfold chPoolFree, chPoolFreeI, mp_next. rewrite (bind_eq _ _ _ _ _ (ld_eq mp m M1)).
    rewrite (bind_eq _ _ _ _ _ (st_eq objp _ m O1)). by apply st_eq. }
  split; [|intros x X1 X2; by rewrite !word_set, !decide_False].
  assert (Hf : forall a, a ∈ l -> word (with_word mp objp (with_word objp (word m mp) m)) a = word m a).
  { intros a Ha. destruct (H4 a Ha) as (? & ? & ?). rewrite !word_set, !decide_False; congruence. }
  constructor; unfold mp_next, mp_object_size.
  + cbn [linked]. rewrite word_set, decide_True by done. split; [done|].
    apply (linked_frame (word m) _ mp); [|done|done]. by rewrite !word_set, decide_False, decide_True.
  + by constructor.
  + rewrite !word_set, !decide_False by (done || lia). done.
  + intros a [->|Ha]%elem_of_cons; [done|by apply H4].
  + done.
Qed.

Lemma chPoolAlloc_ok mp size l m :
  pool_ok mp size l m ->
  match l with
  | a :: l' => exists m', chPoolAlloc mp m = Some (a, m') /\ pool_ok mp size l' m' /\
                 (forall x, x <> mp_next mp -> word m' x = word m x)
  | [] => chPoolAlloc mp m = match mp_provider m mp with None => Some (NULL, m) | Some f => provide f size m end
  end.
Proof.
  intros [H1 H2 H3 H4 H5]. unfold mp_next, mp_object_size in *.
  assert (Hmp : mp <> NULL /\ mp + 4 <> NULL) by (unfold NULL; lia). destruct Hmp as [M1 M2].
  destruct l as [|a l]; cbn [linked] in H1.
  + unfold chPoolAlloc, chPoolAllocI, mp_next. rewrite (bind_eq _ _ _ _ _ (ld_eq mp m M1)), H1.
    change (negb (NULL =? NULL)) with false. cbn match. erewrite bind_eq by reflexivity.
    destruct (mp_provider m mp); [|done]. unfold mp_object_size. by rewrite (bind_eq _ _ _ _ _ (ld_eq _ m M2)), H3.
  + destruct H1 as [Hh H1]. destruct (H4 a ltac:(by left)) as (A1 & A2 & A3). apply NoDup_cons in H2 as [N1 N2].
    eexists. split.
    { unfold chPoolAlloc, chPoolAllocI, mp_next. rewrite (bind_eq _ _ _ _ _ (ld_eq mp m M1)).
      rewrite Hh, (proj2 (Z.eqb_neq a NULL) A1). cbn [negb]. rewrite (bind_eq _ _ _ _ _ (ld_eq a m A1)).
      by rewrite (bind_eq _ _ _ _ _ (st_eq mp _ m M1)). }
    split; [|intros x X1; by rewrite word_set, decide_False].
    constructor; unfold mp_next, mp_object_size.
    * apply (linked_frame (word m) _ a); [by rewrite word_set, decide_True| |done].
      intros b Hb. destruct (H4 b ltac:(by right)) as (? & ? & ?). by rewrite word_set, decide_False.
    * done.
    * by rewrite word_set, decide_False by lia.
    * intros b Hb. apply H4. by right.
    * done.
Qed.

Lemma chPoolInit_ok mp n p m :
  0 < mp -> exists m', chPoolInit mp n p m = Some (tt, m') /\ pool_ok mp (MEM_ALIGN_NEXT n) [] m'.
Proof.
  intros H5. assert (Hmp : mp <> NULL /\ mp + 4 <> NULL) by (unfold NULL; lia). destruct Hmp as [M1 M2].
  eexists. split.
  { unfold chPoolInit, mp_next, mp_object_size. rewrite (bind_eq _ _ _ _ _ (st_eq mp _ m M1)).
    rewrite (bind_eq _ _ _ _ _ (st_eq (mp + 4) _ _ M2)). reflexivity. }
  constructor; unfold mp_next, mp_object_size.
  + cbn [linked word]. rewrite !word_set, decide_False, decide_True by (done || lia). done.
  + constructor.
  + cbn [word]. by rewrite word_set, decide_True.
  + intros a Ha. by apply elem_of_nil in Ha.
  + done.
Qed.

(** A memory pool is a stack of free objects.  Freeing an object pushes it;
    allocating pops the object freed last, so the two are inverse; an empty pool
    answers [NULL] when it has no provider, and else gets one object of its
    size from the core memory.  An initialised pool is empty, its object
    size rounded up to words. *)
Theorem pool_is_a_stack mp size l m :
  pool_ok mp size l m ->
  (forall objp, objp <> NULL -> objp ∉ l -> objp <> mp_next mp -> objp <> mp_object_size mp ->
     exists m', chPoolFree mp objp m = Some (tt, m') /\ pool_ok mp size (objp :: l) m' /\
       (forall x, x <> mp_next mp -> x <> objp -> word m' x = word m x)) /\
  match l with
  | a :: l' => exists m', chPoolAlloc mp m = Some (a, m') /\ pool_ok mp size l' m' /\
                 (forall x, x <> mp_next mp -> word m' x = word m x)
  | [] => chPoolAlloc mp m = match mp_provider m mp with None => Some (NULL, m) | Some f => provide f size m end
  end /\
  (forall n p, exists m', chPoolInit mp n p m = Some (tt, m') /\ pool_ok mp (MEM_ALIGN_NEXT n) [] m').
Proof.
  intros H. split_and!.
  - intros objp O1 O2 O3 O4. by apply chPoolFree_ok.
  - by apply chPoolAlloc_ok.
  - intros n p. apply chPoolInit_ok, H.
Qed.

(** A pool of objects of 10 bytes that has got the object at 2048. *)
Definition m_pool : mstate :=
  match (chPoolInit 512 10 None;; chPoolFree 512 2048) m_core with Some (_, m) => m | None => m_core end.

Lemma m_pool_ok : pool_ok 512 12 [2048] m_pool.
Proof.
  destruct (chPoolInit_ok 512 10 None m_core ltac:(lia)) as (m1 & E1 & K1).
  destruct (chPoolFree_ok 512 12 [] m1 2048 K1) as (m2 & E2 & K2 & _); [done|apply not_elem_of_nil|done|done|].
  unfold m_pool. by rewrite (bind_eq _ _ _ _ _ E1), E2.
Qed.

Lemma pool_is_a_stack_witness : exists m', chPoolAlloc 512 m_pool = Some (2048, m') /\ pool_ok 512 12 [] m'.
Proof.
  destruct (pool_is_a_stack 512 12 [2048] m_pool m_pool_ok) as (_ & (m' & E & K & _) & _). exists m'. by split.
Defined.
