(* ===== verification/ChDyn.v ===== *)
(** * Threads in allocated memory: kernel/src/chdynamic.c

    Threads whose working areas come from a heap or from a pool: the allocator
    runs first, then the kernel makes the thread; the last reference to a thread
    that ended gives the memory back where its flags say it came from. *)

From S2P Require Import Prelude ChLists Kernel ChVt ChSchd ChInv ChSeg ChSem ChThreads ChRuns ChMem ChHeap ChPool.

(** The kernel, the memory, and the pools the threads' memory came from. *)
Record machine := mkMachine { krn : kernel; mem : mstate; p_mpool : Z -> Z }.

(** From [chSysLock] on: the thread is made, marked and readied. *)
Definition start_dynamic (mode wsp prio : Z) : K Z :=
  chThdCreateI wsp prio;;
  upd wsp (with_flags mode);;
  chSchWakeupS wsp RDY_OK;;
  mret wsp.

(** The memory comes first; what the kernel does then may switch threads. *)
Definition chThdCreateFromHeap (default_heap : Z) (fuel : nat) (heapp size prio : Z) : M (K Z) :=
  wsp ← chHeapAlloc default_heap fuel heapp size;
  if wsp =? NULL then mret (mret NULL)
  else mret (start_dynamic THD_MEM_MODE_HEAP wsp prio).

(** With the new pools of the threads. *)
Definition chThdCreateFromMemoryPool (mp prio : Z) (mps : Z -> Z) : M (K Z * (Z -> Z)) :=
  wsp ← chPoolAlloc mp;
  if wsp =? NULL then mret (mret NULL, mps)
  else mret (start_dynamic THD_MEM_MODE_MEMPOOL wsp prio, <[wsp := mp]> mps).

(** The [switch] of [chThdRelease], which answers whether it gets there. *)
Definition give_memory_back (fuel : nat) (mode mp tp : Z) : M unit :=
  if mode =? THD_MEM_MODE_HEAP then chHeapFree fuel tp else chPoolFree mp tp.

Definition release (fuel : nat) (tp : Z) (s : machine) : option machine :=
  match chThdRelease tp (krn s) with
  | KRet k true =>
      '(_, m) ← give_memory_back fuel (Z.land (t_flags (thr k tp)) THD_MEM_MODE_MASK) (p_mpool s tp) tp (mem s);
      Some (mkMachine k m (p_mpool s))
  | KRet k false => Some (mkMachine k (mem s) (p_mpool s))
  | _ => None
  end.

(** ** Making *)

(** The kernel's part, up to the wake-up. *)
Lemma start_dynamic_ok me mode wsp prio k :
  user me k -> not_alive wsp k -> NOPRIO < prio ->
  (exists k1, start_dynamic mode wsp prio k = (chSchWakeupS wsp RDY_OK;; mret wsp) k1 /\ registry k1 = registry k ++ [wsp] /\
     thr k1 wsp = with_flags mode (init_thread prio (thr k wsp))) /\
  seg me (fun k1 a k' => a = wsp /\ post me k k1 k') k (start_dynamic mode wsp prio k).
Proof.
  intros Hu Hn Hp. destruct (thread_init_ok me wsp prio k Hu Hn Hp) as (k1 & E1 & W1 & C1 & G1 & V1 & R1 & T1 & L1 & N1).
  unfold start_dynamic, chThdCreateI. rewrite (kbind_ret _ _ _ _ _ E1). unfold upd. rewrite kmod_bind.
  set (k2 := upd_thr wsp (with_flags mode) k1). assert (T2 : thr k2 wsp = with_flags mode (init_thread prio (thr k wsp))) by (unfold k2; by rewrite thr_upd_eq, T1).
  assert (W2 : wfx [XThr wsp] k2) by (apply wfx_tame; [done|done|by left|done]). assert (G2 : guar me k k2) by (etrans; [exact G1|by apply guar_tame]).
  split; [by exists k2|]. apply seg_bind. eapply wakeup_s_spec; [exact C1|exact W2|exact G2| |].
  - unfold may_wake. change (currp k2) with (currp k1). rewrite T2, C1. split_and!; try done. by rewrite T1 in L1.
  - intros k3 k' (W' & C' & G' & A'). apply seg_ret. split; [done|]. unfold post. split_and!; auto. intros Ha. apply A' in Ha. unfold armed in *.
    change (vtlist k2) with (vtlist k1) in Ha. by rewrite V1 in Ha.
Qed.

(** ** Memory and threads *)

(** Live threads inside the heap's range are at the start of blocks in use, and nothing holds on to
    those that ended. *)
Record heap_threads (heapp lo hi : Z) (free used : list block) (k : kernel) (m : mstate) : Prop := {
  ht_heap : heap_ok heapp lo hi free used m;
  ht_lock : h_lock m heapp = false;
  ht_live t : t_state (thr k t) <> FINAL -> lo < t < hi -> exists b, b ∈ used /\ t = b.1 + header_size;
  ht_dead t : t_state (thr k t) = FINAL -> queues k (QMsg t) = [] /\ t_mtxlist (thr k t) = []
}.

(** Memory of a new block is no live thread's. *)
Lemma block_not_alive heapp lo hi free used free' b k m m' :
  heap_threads heapp lo hi free used k m -> heap_ok heapp lo hi free' (b :: used) m' -> 0 < b.2 -> not_alive (b.1 + header_size) k.
Proof.
  intros H H' Hz. destruct (hk_used _ _ _ _ _ _ H' b ltac:(by left)) as (Hlo & Hs & Hhi & _). unfold b_end, header_size in *.
  destruct (decide (t_state (thr k (b.1 + 8)) = FINAL)) as [Hf|Hf]; [split; [done|by apply (ht_dead _ _ _ _ _ _ _ H)]|]. exfalso.
  destruct (ht_live _ _ _ _ _ _ _ H _ Hf ltac:(lia)) as (c & Hc & Hr). pose proof (hk_apart _ _ _ _ _ _ H') as Hap. apply (apart_middle [] b used) in Hap as [_ Hap].
  destruct (hk_used _ _ _ _ _ _ (ht_heap _ _ _ _ _ _ _ H) c Hc) as (_ & Hc2 & _). destruct (Hap c Hc); unfold b_end, header_size in *; lia.
Qed.

(** A thread from the heap: the memory is a block that no live thread and no other block
    uses, and the kernel's part is a service. *)
Lemma create_from_heap_ok me default_heap hp0 heapp lo hi free used k m p_fuel size prio :
  user me k -> NOPRIO < prio -> the_heap default_heap hp0 = heapp -> h_provider m heapp = None -> heap_threads heapp lo hi free used k m ->
  (length free < p_fuel)%nat -> 0 < size <= 2 ^ 32 - 16 ->
  exists c m', chThdCreateFromHeap default_heap p_fuel hp0 size prio m = Some (c, m') /\ h_lock m' heapp = false /\
    match first_fit (MEM_ALIGN_NEXT size) free with
    | None => c = mret NULL /\ heap_ok heapp lo hi free used m'
    | Some (b, free') =>
        let wsp := b.1 + header_size in
        c = start_dynamic THD_MEM_MODE_HEAP wsp prio /\ heap_ok heapp lo hi free' (b :: used) m' /\ size <= b.2 /\ not_alive wsp k
    end.
Proof.
  intros Hu Hp Hh Hpr Ht Hf Hs. pose proof (ht_heap _ _ _ _ _ _ _ Ht) as Hhk.
  destruct (heap_alloc_spec default_heap hp0 heapp lo hi free used m p_fuel size Hh (ht_lock _ _ _ _ _ _ _ Ht) Hhk Hf ltac:(lia)) as (p & m' & E & L & _ & Hn & Hr); [by rewrite Hpr|].
  unfold chThdCreateFromHeap. rewrite (bind_eq _ _ _ _ _ E). destruct (first_fit _ free) as [[b free']|] eqn:Hff.
  - destruct Hr as (-> & Hb & Hok & _). destruct (hk_used _ _ _ _ _ _ Hok b ltac:(by left)) as (Hlo & _). pose proof (hk_range _ _ _ _ _ _ Hok) as [Hlo0 _].
    rewrite (proj2 (Z.eqb_neq _ _)) by (unfold NULL, header_size; lia). eexists _, m'. split; [reflexivity|]. split; [done|]. cbn zeta.
    split_and!; [done|done|lia|]. eapply block_not_alive; [done|done|lia].
  - rewrite Hpr in Hr. destruct Hr as [-> Hok]. cbn [Z.eqb NULL]. eexists _, m'. by split_and!.
Qed.

(** ** Giving back *)

(** The last reference to a thread that ended. *)
Definition last_ref (mode tp : Z) (k : kernel) : Prop :=
  t_state (thr k tp) = FINAL /\ t_refs (thr k tp) = 1 /\ Z.land (t_flags (thr k tp)) THD_MEM_MODE_MASK = mode.

(** The kernel forgets the thread. *)
Definition forgotten (tp : Z) (k k' : kernel) : Prop :=
  registry k' = filter (fun x => x <> tp) (registry k) /\ (forall t, t <> tp -> thr k' t = thr k t) /\
  thr k' tp = with_refs 0 (thr k tp) /\ queues k' = queues k.

Lemma chThdRelease_last me mode tp k :
  user me k -> last_ref mode tp k -> mode = THD_MEM_MODE_HEAP \/ mode = THD_MEM_MODE_MEMPOOL ->
  exists k', chThdRelease tp k = KRet k' true /\ user me k' /\ forgotten tp k k'.
Proof.
  intros Hu (Hf & Hr & Hm) Hmode. set (k1 := upd_thr tp (fun th => with_refs (u8 (t_refs th - 1)) th) k).
  set (k2 := set_registry (filter (fun x => x <> tp) (registry k1)) k1).
  assert (T1 : thr k1 tp = with_refs 0 (thr k tp)) by (unfold k1; by rewrite thr_upd_eq, Hr).
  assert (E : chThdRelease tp k = KRet k2 true).
  { unfold chThdRelease, upd. rewrite kmod_bind, kget_bind. fold k1. cbv zeta. rewrite T1. cbn [t_refs t_state t_flags with_refs]. rewrite Hf, Hm.
    rewrite bool_decide_eq_true_2 by done. by destruct Hmode as [-> | ->]. }
  exists k2. split; [done|]. split.
  - pose proof (chThdRelease_service tp me k Hu I) as Hs. rewrite E in Hs. by eapply post_user.
  - unfold forgotten. split_and!; [done| |exact T1|done]. intros t Ht. change (thr k2 t) with (thr k1 t). unfold k1. by rewrite thr_upd_ne.
Qed.

Lemma release_to_heap_ok me heapp lo hi free us1 us2 b s fuel :
  user me (krn s) -> heap_threads heapp lo hi free (us1 ++ b :: us2) (krn s) (mem s) -> (length free < fuel)%nat ->
  let tp := b.1 + header_size in last_ref THD_MEM_MODE_HEAP tp (krn s) ->
  exists s', release fuel tp s = Some s' /\ user me (krn s') /\ forgotten tp (krn s) (krn s') /\
    heap_threads heapp lo hi (give_back b free) (us1 ++ us2) (krn s') (mem s') /\ contents_kept (mem s) (us1 ++ us2) (mem s') /\
    total (give_back b free) = total free + header_size + b.2.
Proof.
  intros Hu Ht Hf tp Hlast. destruct (chThdRelease_last me _ tp _ Hu Hlast ltac:(by left)) as (k' & E & Hu' & Hfg). pose proof Hfg as (R1 & R2 & R3 & R4).
  destruct (heap_free_spec heapp lo hi free us1 us2 b (mem s) fuel (ht_heap _ _ _ _ _ _ _ Ht) (ht_lock _ _ _ _ _ _ _ Ht) Hf) as ((m' & Em & L & Hok & Hk & Htot) & _).
  destruct Hlast as (Hfin & Hrefs & Hm).
  assert (Hst : forall t, t_state (thr k' t) = t_state (thr (krn s) t) /\ t_mtxlist (thr k' t) = t_mtxlist (thr (krn s) t)).
  { intros t. destruct (decide (t = tp)) as [->|]; [by rewrite R3|by rewrite R2]. }
  exists (mkMachine k' m' (p_mpool s)). split_and!; try done; cbn [krn mem].
  - unfold release. rewrite E, R3. cbn [t_flags with_refs]. rewrite Hm. change (give_memory_back fuel THD_MEM_MODE_HEAP (p_mpool s tp) tp) with (chHeapFree fuel tp).
    unfold tp. by rewrite Em.
  - split; [done|done| |].
    + intros t Hl Hr. destruct (Hst t) as [Es _]. rewrite Es in Hl. destruct (ht_live _ _ _ _ _ _ _ Ht t Hl Hr) as (c & Hc & Ec). exists c. split; [|done].
      rewrite elem_of_app, elem_of_cons in Hc. rewrite elem_of_app. destruct Hc as [?|[->|?]]; [by left| |by right]. exfalso. apply Hl. by rewrite Ec.
    + intros t Hd. destruct (Hst t) as [Es Em2]. rewrite Es in Hd. rewrite Em2, R4. by apply (ht_dead _ _ _ _ _ _ _ Ht).
Qed.

(** Other references, threads that did not end and static ones leave the memory alone. *)
Lemma release_keeps me tp s fuel :
  user me (krn s) -> t_state (thr (krn s) tp) <> FINAL \/ u8 (t_refs (thr (krn s) tp) - 1) <> 0 \/ Z.land (t_flags (thr (krn s) tp)) THD_MEM_MODE_MASK = THD_MEM_MODE_STATIC ->
  exists s', release fuel tp s = Some s' /\ mem s' = mem s /\ registry (krn s') = registry (krn s) /\ user me (krn s').
Proof.
  intros Hu Hc. set (k1 := upd_thr tp (fun th => with_refs (u8 (t_refs th - 1)) th) (krn s)).
  assert (E : chThdRelease tp (krn s) = KRet k1 false).
  { unfold chThdRelease, upd. rewrite kmod_bind, kget_bind. fold k1. cbv zeta.
    assert (T1 : thr k1 tp = with_refs (u8 (t_refs (thr (krn s) tp) - 1)) (thr (krn s) tp)) by (unfold k1; by rewrite thr_upd_eq). rewrite T1. cbn [t_refs t_state t_flags with_refs].
    destruct Hc as [Hc|[Hc|Hc]]; [rewrite (bool_decide_eq_false_2 _ Hc); by rewrite andb_false_r|by rewrite (proj2 (Z.eqb_neq _ _) Hc)|].
    rewrite Hc. change ((THD_MEM_MODE_STATIC =? THD_MEM_MODE_HEAP) || (THD_MEM_MODE_STATIC =? THD_MEM_MODE_MEMPOOL)) with false. by rewrite andb_false_r. }
  exists (mkMachine k1 (mem s) (p_mpool s)). unfold release. rewrite E. split_and!; try done. cbn [krn].
  pose proof (chThdRelease_service tp me _ Hu I) as Hs. rewrite E in Hs. by eapply post_user.
Qed.

(** ** Pools *)

(** A thread from a pool takes the first free object; the last reference puts it back on top. *)
Lemma create_from_pool_ok mp size l m prio mps :
  pool_ok mp size l m -> mp_provider m mp = None ->
  match l with
  | [] => chThdCreateFromMemoryPool mp prio mps m = Some ((mret NULL, mps), m)
  | a :: l' => exists m', chThdCreateFromMemoryPool mp prio mps m = Some ((start_dynamic THD_MEM_MODE_MEMPOOL a prio, <[a := mp]> mps), m') /\ pool_ok mp size l' m'
  end.
Proof.
  intros H Hpr. pose proof (chPoolAlloc_ok mp size l m H) as Ha. unfold chThdCreateFromMemoryPool. destruct l as [|a l'].
  - rewrite Hpr in Ha. by rewrite (bind_eq _ _ _ _ _ Ha).
  - destruct Ha as (m' & E & Hok & _). exists m'. split; [|done]. rewrite (bind_eq _ _ _ _ _ E). destruct (pk_out _ _ _ _ H a ltac:(by left)) as [Hn _].
    by rewrite (proj2 (Z.eqb_neq _ _) Hn).
Qed.

Lemma release_to_pool_ok me mp size l tp s fuel :
  user me (krn s) -> pool_ok mp size l (mem s) -> p_mpool s tp = mp -> tp <> NULL -> tp ∉ l -> tp <> mp_next mp -> tp <> mp_object_size mp ->
  last_ref THD_MEM_MODE_MEMPOOL tp (krn s) ->
  exists s', release fuel tp s = Some s' /\ user me (krn s') /\ forgotten tp (krn s) (krn s') /\ pool_ok mp size (tp :: l) (mem s').
Proof.
  intros Hu Hp Hmp H1 H2 H3 H4 Hlast. destruct (chThdRelease_last me _ tp _ Hu Hlast ltac:(by right)) as (k' & E & Hu' & Hfg). pose proof Hfg as (_ & _ & R3 & _).
  destruct (chPoolFree_ok mp size l (mem s) tp Hp H1 H2 H3 H4) as (m' & Em & Hok & _). destruct Hlast as (_ & _ & Hm).
  exists (mkMachine k' m' (p_mpool s)). split_and!; try done. unfold release. rewrite E, R3. cbn [t_flags with_refs]. rewrite Hm, Hmp.
  change (give_memory_back fuel THD_MEM_MODE_MEMPOOL mp tp) with (chPoolFree mp tp). by rewrite Em.
Qed.

(** ** The life of a thread's memory *)

(** Memory of threads goes round: a thread made from a heap without provider is in a
    block as large as asked, that no live thread and no other block uses, and joins
    the registry with one reference, marked as the heap's; without a block that is
    large enough nothing changes.  When it has ended and its last reference is
    released, it leaves the registry and its block is free again, joined with its
    neighbours, while the blocks of the other threads keep their contents. *)
Theorem thread_memory_goes_round me default_heap hp0 heapp lo hi free used k m fuel size prio :
  user me k -> NOPRIO < prio -> the_heap default_heap hp0 = heapp -> h_provider m heapp = None -> heap_threads heapp lo hi free used k m ->
  (length free < fuel)%nat -> 0 < size <= 2 ^ 32 - 16 ->
  exists c m', chThdCreateFromHeap default_heap fuel hp0 size prio m = Some (c, m') /\
    match first_fit (MEM_ALIGN_NEXT size) free with
    | None => c = mret NULL /\ heap_threads heapp lo hi free used k m'
    | Some (b, free') =>
        let wsp := b.1 + header_size in
        heap_ok heapp lo hi free' (b :: used) m' /\ size <= b.2 /\ not_alive wsp k /\
        seg me (fun k1 a k' => a = wsp /\ post me k k1 k') k (c k) /\
        (exists k1, c k = (chSchWakeupS wsp RDY_OK;; mret wsp) k1 /\ registry k1 = registry k ++ [wsp] /\
           thr k1 wsp = with_flags THD_MEM_MODE_HEAP (init_thread prio (thr k wsp))) /\
        forall s fuel', user me (krn s) -> heap_threads heapp lo hi free' (b :: used) (krn s) (mem s) -> (length free' < fuel')%nat ->
          last_ref THD_MEM_MODE_HEAP wsp (krn s) ->
          exists s', release fuel' wsp s = Some s' /\ user me (krn s') /\ forgotten wsp (krn s) (krn s') /\
            heap_threads heapp lo hi free used (krn s') (mem s') /\ contents_kept (mem s) used (mem s')
    end.
Proof.
  intros Hu Hp Hh Hpr Ht Hf Hs. pose proof (ht_heap _ _ _ _ _ _ _ Ht) as Hhk.
  destruct (create_from_heap_ok me default_heap hp0 heapp lo hi free used k m fuel size prio Hu Hp Hh Hpr Ht Hf Hs) as (c & m' & E & L & Hr).
  exists c, m'. split; [done|]. destruct (first_fit _ free) as [[b free']|] eqn:Hff.
  - destruct Hr as (-> & Hok & Hsz & Hna). destruct (start_dynamic_ok me THD_MEM_MODE_HEAP _ prio k Hu Hna Hp) as [Hk1 Hseg]. split_and!; try done.
    intros s fuel' Hus Hts Hf' Hl. destruct (release_to_heap_ok me heapp lo hi free' [] used b s fuel' Hus Hts Hf' Hl) as (s' & E' & Hu' & Hfg & Ht' & Hk & _).
    exists s'. split_and!; try done. destruct (heap_free_spec heapp lo hi free' [] used b (mem s) fuel' (ht_heap _ _ _ _ _ _ _ Hts) (ht_lock _ _ _ _ _ _ _ Hts) Hf') as [_ Hback].
    pose proof (align_next_spec size ltac:(lia)) as (Hn & _). by rewrite (Hback (MEM_ALIGN_NEXT size) free ltac:(lia) (hk_blocks _ _ _ _ _ _ Hhk) Hff) in Ht'.
  - destruct Hr as [-> Hok]. split; [done|]. destruct Ht as [_ _ Hl2 Hd2]. by split.
Qed.

(** The booted kernel, with a heap of one block. *)
Lemma boot_heap_threads : heap_threads 256 1023 2048 [(1024, 1016)] [] boot_kernel m_heap.
Proof.
  destruct m_heap_ok as (Hl & _ & H). split; [done|done| |].
  - intros t Ht Hr. rewrite (bt_thr _ boot_kernel_booted) in Ht. unfold mainthread, idle in Ht. by rewrite !decide_False in Ht by lia.
  - intros t _. split; [by rewrite (bt_queues _ boot_kernel_booted)|]. rewrite (bt_thr _ boot_kernel_booted). by repeat case_decide.
Qed.

Lemma thread_memory_goes_round_witness :
  exists m', chThdCreateFromHeap 64 2 256 100 80 m_heap = Some (start_dynamic THD_MEM_MODE_HEAP 1032 80, m') /\
    heap_ok 256 1023 2048 [(1132, 908)] [(1024, 100)] m' /\ not_alive 1032 boot_kernel.
Proof.
  destruct m_heap_ok as (_ & Hp & _). assert (Hs : 0 < 100 <= 2 ^ 32 - 16) by lia. assert (Hf : (length [(1024, 1016)] < 2)%nat) by (simpl; lia).
  destruct (thread_memory_goes_round mainthread 64 256 256 1023 2048 [(1024, 1016)] [] boot_kernel m_heap 2 100 80 boot_user ltac:(done) eq_refl Hp boot_heap_threads Hf Hs)
    as (c & m' & E & Hr).
  destruct (create_from_heap_ok mainthread 64 256 256 1023 2048 [(1024, 1016)] [] boot_kernel m_heap 2 100 80 boot_user ltac:(done) eq_refl Hp boot_heap_threads Hf Hs)
    as (c2 & m2 & E2 & _ & -> & _).
  rewrite E in E2. injection E2 as -> ->. cbn in Hr. destruct Hr as (Hok & _ & Hna & _). exists m2. split; [exact E|]. split; [exact Hok|exact Hna].
Defined.
