(* ===== verification/Bash.v ===== *)
(** * The board's commands: shell/bash.[ch]

    The handlers behind the shell, the choice of the plugin and the thread that
    runs it.  The file system is an interface; the kernel's messages are the
    programs a handler is given for them. *)

From S2P Require Import Prelude FatVol ChMem ChHeap Hw Types Printf Dac Fgyrus Vcortex FftCache Lsd Shell.

(** ** The file system, as the handlers see it *)

Definition FA_READ : Z := 1.
Definition FA_CREATE_NEW : Z := 4.
Definition AM_DIR : Z := 16.

(** The members of [FILINFO] the listing looks at. *)
Record FILINFO := mkInfo { fname : list Z; fsize : Z; fattrib : Z }.

(** A file system with the one file and the one directory the handlers keep
    open; [None] is a call that does not come back.  [f_read] answers the bytes it
    stores and [f_getcwd] what the buffer holds then. *)
Class FatFs (F : Type) := {
  f_mount : F -> option F;
  f_open : list Z -> Z -> F -> option (FRESULT * F);
  f_close : F -> option (FRESULT * F);
  f_read : Z -> F -> option (FRESULT * list Z * F);
  f_rename : list Z -> list Z -> F -> option (FRESULT * F);
  f_chdir : list Z -> F -> option (FRESULT * F);
  f_getcwd : list Z -> F -> option (FRESULT * list Z * F);
  f_opendir : list Z -> F -> option (FRESULT * F);
  f_readdir : F -> option (FRESULT * FILINFO * F)
}.

(** ** The module's variables *)

Record bash (F : Type) := mkBash {
  fs : F;
  bash_rc : FRESULT;
  bash_Buff : list Z;
  current_acid : option acid_t;
  current_acid_str : option string;
  acid_tp : option Z;
  bash_tp : option Z;
  mem : mstate
}.
Arguments mkBash {F} fs bash_rc bash_Buff current_acid current_acid_str acid_tp bash_tp mem.
Arguments fs {F} _.
Arguments bash_rc {F} _.
Arguments bash_Buff {F} _.
Arguments current_acid {F} _.
Arguments current_acid_str {F} _.
Arguments acid_tp {F} _.
Arguments bash_tp {F} _.
Arguments mem {F} _.

Definition bash_Buff_size : Z := 65536.

Section bash.
Context {D : Type} `{Device D} {F : Type} `{!FatFs F}.
Local Abbreviation M := (M D (bash F)).

Definition set_call (r : FRESULT) (f : F) (s : bash F) : bash F :=
  mkBash f r (bash_Buff s) (current_acid s) (current_acid_str s) (acid_tp s) (bash_tp s) (mem s).
Definition set_buff (l : list Z) (s : bash F) : bash F :=
  mkBash (fs s) (bash_rc s) (l ++ drop (length l) (bash_Buff s)) (current_acid s) (current_acid_str s) (acid_tp s) (bash_tp s) (mem s).
Definition set_acid (a : Acid) (s : bash F) : bash F :=
  mkBash (fs s) (bash_rc s) (bash_Buff s) (Some (acid_function a)) (Some (acid_name a)) (acid_tp s) (bash_tp s) (mem s).
Definition set_acid_tp (t : Z) (s : bash F) : bash F :=
  mkBash (fs s) (bash_rc s) (bash_Buff s) (current_acid s) (current_acid_str s) (Some t) (bash_tp s) (mem s).
Definition set_bash_tp (t : Z) (s : bash F) : bash F :=
  mkBash (fs s) (bash_rc s) (bash_Buff s) (current_acid s) (current_acid_str s) (acid_tp s) (Some t) (mem s).
Definition set_mem (m : mstate) (s : bash F) : bash F :=
  mkBash (fs s) (bash_rc s) (bash_Buff s) (current_acid s) (current_acid_str s) (acid_tp s) (bash_tp s) m.

(** A loop with the program's fuel. *)
Definition with_fuel {A} (f : nat -> M A) : M A := fun n => f n n.

Definition modify (f : bash F -> bash F) : M unit := s ← get_st; put_st (f s).

(** [bash_rc = call(...)]. *)
Definition call (c : F -> option (FRESULT * F)) : M FRESULT :=
  s ← get_st; match c (fs s) with Some (r, f) => put_st (set_call r f s);; mret r | None => ub end.

(** A call that stores bytes at the beginning of the buffer. *)
Definition call_buff (c : F -> option (FRESULT * list Z * F)) : M (FRESULT * list Z) :=
  s ← get_st; match c (fs s) with Some (r, l, f) => put_st (set_buff l (set_call r f s));; mret (r, l) | None => ub end.

(** [bash_rc = f_getcwd(bash_Buff, sizeof(bash_Buff))]. *)
Definition call_getcwd : M FRESULT :=
  s ← get_st; '(r, _) ← call_buff (f_getcwd (bash_Buff s)); mret r.

(** [if(bash_rc) alt_printf("%s\r\n", decode_fres(bash_rc))]. *)
Definition tell (r : FRESULT) : M unit :=
  if decide (r = FR_OK) then mret tt else alt_printf ("%s" +:+ crlf) [PStr (codes (decode_fres r))].

Definition show_usage (w : string) : M unit := alt_printf ("Usage: " +:+ w +:+ crlf) [].

Definition is_help (arg : list Z) : bool := strcaseeq arg (codes "--help").

(** ** Files and directories *)

Definition cmd_touch (argv : list (list Z)) : M unit :=
  match argv with
  | [name] =>
      if is_help name then show_usage "touch <filename>"
      else
        r ← call (f_open name FA_CREATE_NEW); tell r;;
        r ← call f_close; tell r
  | _ => show_usage "touch <filename>"
  end.

Definition cmd_mv (argv : list (list Z)) : M unit :=
  match argv with
  | [old; new] =>
      if is_help old then show_usage "mv <existing_filename> <new_filename>"
      else r ← call (f_rename old new); tell r
  | _ => show_usage "mv <existing_filename> <new_filename>"
  end.

Definition cmd_cd (argv : list (list Z)) : M unit :=
  match argv with
  | [dir] => if is_help dir then show_usage "cd <destination_dir>" else r ← call (f_chdir dir); tell r
  | _ => show_usage "cd <destination_dir>"
  end.

(** The buffer as a string. *)
Definition buff_string : M (list Z) :=
  s ← get_st; match c_string (bash_Buff s) with Some w => mret w | None => ub end.

Definition cmd_pwd (argv : list (list Z)) : M unit :=
  match argv with
  | _ :: _ => show_usage "pwd"
  | [] =>
      r ← call_getcwd;
      if decide (r = FR_OK) then w ← buff_string; alt_printf ("%s" +:+ crlf) [PStr w] else tell r
  end.

(** The entries until the end, or an error, whose result is the answer. *)
Fixpoint ll_loop (k : nat) : M FRESULT :=
  match k with
  | O => diverge
  | S k =>
      s ← get_st;
      match f_readdir (fs s) with
      | None => ub
      | Some (r, fno, f) =>
          put_st (set_call r f s);;
          if negb (bool_decide (r = FR_OK)) || (default 0 (head (fname fno)) =? 0) then mret r
          else
            (if negb (Z.land (fattrib fno) AM_DIR =? 0)
             then alt_printf ("   <dir>  %s" +:+ crlf) [PStr (fname fno)]
             else printf [Dec 8 (fsize fno); Txt "  "; Str (fname fno); Txt crlf]);;
            ll_loop k
      end
  end.

Definition cmd_ll (argv : list (list Z)) : M unit :=
  match argv with
  | _ :: _ => show_usage "ll"
  | [] =>
      r ← call_getcwd;
      if decide (r = FR_OK) then
        w ← buff_string;
        r ← call (f_opendir w);
        (if decide (r = FR_OK) then mret tt
         else alt_printf ("Could not open pwd - %s" +:+ crlf) [PStr (codes (decode_fres r))]);;
        r ← with_fuel ll_loop;
        tell r
      else alt_printf ("Could not get pwd - %s" +:+ crlf) [PStr (codes (decode_fres r))]
  end.

(** The chunks of the open file, each shown, until the end or an error. *)
Fixpoint read_loop (show : list Z -> M unit) (k : nat) : M FRESULT :=
  match k with
  | O => diverge
  | S k =>
      '(r, l) ← call_buff (f_read bash_Buff_size);
      if negb (bool_decide (r = FR_OK)) || bool_decide (l = []) then mret r
      else show l;; read_loop show k
  end.

Definition show_text (l : list Z) : M unit := mfor alt_putchar l.

Definition show_hex (l : list Z) : M unit :=
  mfor (fun p : Z * Z =>
    (if p.1 mod 16 =? 0 then alt_printf crlf [] else mret tt);; alt_printf "%x " [PInt p.2])
    (imap (fun i b => (Z.of_nat i, b)) l).

Definition cmd_cat (argv : list (list Z)) : M unit :=
  match argv with
  | [name] =>
      if is_help name then show_usage "cat <filename>"
      else
        r ← call (f_open name FA_READ); tell r;;
        r ← with_fuel (read_loop show_text); tell r;;
        r ← call f_close; tell r
  | _ => show_usage "cat <filename>"
  end.

Definition cmd_cath (argv : list (list Z)) : M unit :=
  match argv with
  | [name] =>
      if is_help name then show_usage "cath <filename>"
      else
        r ← call (f_open name FA_READ); tell r;;
        r ← with_fuel (read_loop show_hex);
        alt_printf crlf [];;
        tell r;;
        r ← call f_close; tell r
  | _ => show_usage "cath <filename>"
  end.

(** ** Memory and performance *)

(** A call of the kernel's allocators. *)
Definition mem_call {A} (p : ChMem.M A) : M A :=
  s ← get_st; match p (mem s) with Some (a, m) => put_st (set_mem m s);; mret a | None => ub end.

Definition cmd_mem (default_heap : Z) (argv : list (list Z)) : M unit :=
  match argv with
  | _ :: _ => show_usage "mem"
  | [] =>
      '(n, size) ← with_fuel (fun k => mem_call (chHeapStatus default_heap k NULL));
      c ← mem_call chCoreStatus;
      printf [Txt "core free memory : "; Dec 0 c; Txt (" bytes" +:+ crlf)];;
      printf [Txt "heap fragments   : "; Dec 0 n; Txt crlf];;
      printf [Txt "heap free total  : "; Dec 0 size; Txt (" bytes" +:+ crlf)]
  end.

Definition PERF_CNTR_BASE : Z := 0x1102000.
Definition PERF_RESET (p : Z) : M unit := iowr p 0 1.
Definition PERF_BEGIN (p n : Z) : M unit := iowr p (4 * (n * 4 + 1)) 0.
Definition PERF_END (p n : Z) : M unit := iowr p (4 * (n * 4)) 0.

(** The tests [i], ..., each reading twice as much as the one before; the
    answer is the last result. *)
Fixpoint perf_loop (name : list Z) (tests : list Z) (size : Z) (rc : FRESULT) : M FRESULT :=
  match tests with
  | [] => mret rc
  | i :: tests =>
      sleep_ms 1000;;
      printf [Txt "Starting Test["; Dec 0 i; Txt "] - Read "; Dec 0 size; Txt ("B from SDCARD" +:+ crlf)];;
      r ← call (f_open name FA_READ);
      if negb (bool_decide (r = FR_OK)) then mret r
      else
        PERF_BEGIN PERF_CNTR_BASE i;;
        '(r, l) ← call_buff (f_read size);
        PERF_END PERF_CNTR_BASE i;;
        if negb (bool_decide (r = FR_OK)) || bool_decide (l = []) then mret r
        else
          r ← call f_close;
          if negb (bool_decide (r = FR_OK)) then mret r
          else perf_loop name tests (u32 (Z.shiftl size 1)) r
  end.

(** The report is the counter's driver's. *)
Definition cmd_perf (perf_print_formatted_report : M unit) (argv : list (list Z)) : M unit :=
  match argv with
  | [name] =>
      if is_help name then show_usage "perf <filename>"
      else
        alt_printf ("Reseting Performance Counter ..." +:+ crlf) [];;
        PERF_RESET PERF_CNTR_BASE;;
        sleep_ms 3000;;
        alt_printf ("Starting Performance Counter ..." +:+ crlf) [];;
        PERF_BEGIN PERF_CNTR_BASE 0;;
        s ← get_st;
        r ← perf_loop name [1; 2; 3] (Z.shiftr bash_Buff_size 2) (bash_rc s);
        sleep_ms 1000;;
        alt_printf ("Stopping Performance Counter ..." +:+ crlf) [];;
        PERF_END PERF_CNTR_BASE 0;;
        sleep_ms 3000;;
        if decide (r = FR_OK) then perf_print_formatted_report else tell r
  | _ => show_usage "perf <filename>"
  end.

(** ** Plugins *)

(** [TRUE] when no plugin has the name. *)
Fixpoint update_acid (ad : list Acid) (name : list Z) : M bool :=
  match ad with
  | [] => mret true
  | a :: ad => if strcaseeq (codes (acid_name a)) name then modify (set_acid a);; mret false else update_acid ad name
  end.

(** The kernel's calls, as the calling thread sees them. *)
Context (chThdSelf : M Z) (chMsgWait : M Z) (chMsgSend : Z -> Z -> M Z) (chMsgRelease : Z -> Z -> M unit)
  (chMsgIsPendingI : Z -> M bool).

(** What the shell's thread is, for the plugin's: a null pointer is fatal. *)
Definition release_bash : M unit :=
  s ← get_st; match bash_tp s with Some tp => chMsgRelease tp 0 | None => ub end.

(** One frame of the running plugin, on the thread's three buffers. *)
Definition acid_frame (b : list Z * list Z * list Z) : M (list Z * list Z * list Z) :=
  let '(lfft, rfft, pwm) := b in
  '(lfft, rfft) ← read_fft_cache lfft rfft FFT_NUM_SAMPLES;
  s ← get_st;
  match current_acid s with
  | None => ub
  | Some f =>
      pwm ← call_acid f 0 lfft rfft pwm;
      pwm_paint CORTEX_MM_SL_BASE pwm;;
      sleep_ms 1;;
      mret (lfft, rfft, pwm)
  end.

Fixpoint acid_frames (k : nat) (acid_tp : Z) (b : list Z * list Z * list Z) : M (list Z * list Z * list Z) :=
  match k with
  | O => diverge
  | S k => p ← chMsgIsPendingI acid_tp; if p : bool then mret b else b ← acid_frame b; acid_frames k acid_tp b
  end.

(** From a start message to the stop message. *)
Definition acid_turn (acid_tp : Z) (b : list Z * list Z * list Z) : M (list Z * list Z * list Z) :=
  chMsgWait;;
  release_bash;;
  b ← with_fuel (fun n => acid_frames n acid_tp b);
  chMsgWait;;
  release_bash;;
  mret b.

Fixpoint acid_turns (k : nat) (acid_tp : Z) (b : list Z * list Z * list Z) : M unit :=
  match k with
  | O => diverge
  | S k => b ← acid_turn acid_tp b; acid_turns k acid_tp b
  end.

(** The thread, which never leaves its loop; [b] is what the stack held. *)
Definition acid_thread (b : list Z * list Z * list Z) : M unit :=
  tp ← chThdSelf;
  modify (set_acid_tp tp);;
  with_fuel (fun n => acid_turns n tp b).

(** Keys until ['q']. *)
Fixpoint quit_loop (k : nat) : M unit :=
  match k with
  | O => diverge
  | S k => c ← alt_getchar; if s16 c =? 113 then mret tt else sleep_ms 100;; quit_loop k
  end.

Definition acid_usage : M unit := show_usage "drop_acid <plugin_name>".

(** From the engines' start to their end. *)
Definition acid_trip : M unit :=
  alt_printf ("Starting Cortex engines " +:+ crlf) [];;
  enable_fgyrus CORTEX_MM_SL_BASE (FGYRUS_TYPE_val LCHNL);;
  enable_fgyrus CORTEX_MM_SL_BASE (FGYRUS_TYPE_val RCHNL);;
  enable_adc_drvr CORTEX_MM_SL_BASE;;
  s ← get_st;
  match acid_tp s with
  | None => alt_printf ("acid_thread not started" +:+ crlf +:+ "Exiting ..." +:+ crlf) []
  | Some tp =>
      match current_acid_str s with
      | None => ub
      | Some w => printf [Txt "Starting plugin : "; Txt w; Txt (crlf +:+ "Press 'q' to stop ..." +:+ crlf)]
      end;;
      chMsgSend tp 1;;
      with_fuel quit_loop;;
      alt_printf ("Stopping plugin ..." +:+ crlf) [];;
      chMsgSend tp 1;;
      alt_printf ("Shutting down Cortex engines" +:+ crlf) [];;
      disable_fgyrus CORTEX_MM_SL_BASE (FGYRUS_TYPE_val LCHNL);;
      disable_fgyrus CORTEX_MM_SL_BASE (FGYRUS_TYPE_val RCHNL);;
      disable_adc_drvr CORTEX_MM_SL_BASE;;
      alt_printf ("End of Trip ..." +:+ crlf) []
  end.

(** With no argument, the null pointer behind the arguments is compared. *)
Definition cmd_drop_acid (argv : list (list Z)) : M unit :=
  tp ← chThdSelf;
  modify (set_bash_tp tp);;
  match argv with
  | _ :: _ :: _ => acid_usage
  | [] => ub
  | [name] =>
      if is_help name then acid_usage
      else
        unknown ← update_acid get_acid_box name;
        if unknown : bool then printf [Txt "Plugin <"; Str name; Txt ("> not found ... Bummer man :-(" +:+ crlf)]
        else acid_trip
  end.

(** ** The table *)

Definition commands (default_heap : Z) (perf_print_formatted_report : M unit) : list (ShellCommand D (bash F)) :=
  [ MkCommand "mem" (cmd_mem default_heap); MkCommand "touch" cmd_touch; MkCommand "mv" cmd_mv; MkCommand "cd" cmd_cd;
    MkCommand "pwd" cmd_pwd; MkCommand "ll" cmd_ll; MkCommand "cat" cmd_cat; MkCommand "cath" cmd_cath;
    MkCommand "perf" (cmd_perf perf_print_formatted_report); MkCommand "drop_acid" cmd_drop_acid ].

Definition init_bash : M unit :=
  s ← get_st;
  match f_mount (fs s) with Some f => put_st (set_call (bash_rc s) f s) | None => ub end;;
  alt_printf ("Registered Bash-FATFs - fmount() done" +:+ crlf) [];;
  PERF_RESET PERF_CNTR_BASE;;
  alt_printf ("Reset Performance Counter [0x%x]" +:+ crlf) [PInt PERF_CNTR_BASE].

End bash.

(** ** Showing a file *)

Section show.
Context {D : Type} `{Device D} {F : Type} `{!FatFs F}.
Local Abbreviation M := (M D (bash F)).

(** The chunks of bytes the reads of an open file deliver until the end or an
    error. *)
Inductive reads : F -> list (list Z) -> FRESULT -> F -> Prop :=
| reads_end f r l f' : f_read bash_Buff_size f = Some (r, l, f') -> r <> FR_OK \/ l = [] -> reads f [] r f'
| reads_more f l f1 ls r f' :
    f_read bash_Buff_size f = Some (FR_OK, l, f1) -> l <> [] -> Forall (fits 8) l -> reads f1 ls r f' -> reads f (l :: ls) r f'.

(** What is printed of a result. *)
Definition told (r : FRESULT) : list Z :=
  if decide (r = FR_OK) then [] else codes (decode_fres r) ++ codes crlf.

(** What is printed of a chunk in hexadecimal: sixteen bytes to a line. *)
Definition hex_dump (l : list Z) : list Z :=
  mbind (fun p : Z * Z => (if p.1 mod 16 =? 0 then codes crlf else []) ++ hex_of p.2 ++ [32])
    (imap (fun i b => (Z.of_nat i, b)) l).

Lemma tell_prints r : prints (D := D) (St := bash F) (tell r) (told r).
Proof.
  unfold tell, told. destruct (decide (r = FR_OK)); [apply prints_ret|]. apply alt_printf_prints. by destruct r.
Qed.

Lemma show_text_prints l : Forall (fits 8) l -> prints (D := D) (St := bash F) (show_text l) l.
Proof.
  intros Hl. assert (u8 <$> l = l) as E; [|rewrite <- E at 2; apply prints_str].
  induction Hl as [|b l Hb _ IH]; [done|]. rewrite fmap_cons, IH. f_equal. by apply wrap_small.
Qed.

Lemma mfor_prints {B} (f : B -> M unit) (g : B -> list Z) l :
  (forall b, b ∈ l -> prints (f b) (g b)) -> prints (mfor f l) (mbind g l).
Proof.
  induction l as [|b l IH]; intros Hf; [apply prints_ret|]. apply prints_bind; [apply Hf; set_solver|].
  apply IH. intros c Hc. apply Hf. set_solver.
Qed.

Lemma show_hex_prints l : Forall (fits 8) l -> prints (D := D) (St := bash F) (show_hex l) (hex_dump l).
Proof.
  intros Hl. apply mfor_prints. intros [i b] Hib. apply elem_of_lookup_imap in Hib as (j & x & [= -> ->] & Hj).
  pose proof (Forall_lookup_1 _ _ _ _ Hl Hj) as Hx. cbn [fst snd].
  apply prints_bind; [destruct (_ =? 0); [by apply alt_printf_prints|apply prints_ret]|].
  apply alt_printf_prints. cbn. by rewrite wrap_small by (unfold fits in *; lia).
Qed.

Lemma bind_silent {A B} (m : M A) (f : A -> M B) n d s a d1 s1 :
  m n d s = Out (Ok a) d1 s1 [] -> (m ≫= f) n d s = f a n d1 s1.
Proof. intros E. unfold mbind, M_bind. rewrite E. by destruct (f a n d1 s1). Qed.

Lemma call_run c n (d : D) (s : bash F) r f :
  c (fs s) = Some (r, f) -> call c n d s = Out (Ok r) d (set_call r f s) [].
Proof. intros E. unfold call, mbind, M_bind, get_st, put_st. by rewrite E. Qed.

Lemma call_buff_run c n (d : D) (s : bash F) r l f :
  c (fs s) = Some (r, l, f) -> call_buff c n d s = Out (Ok (r, l)) d (set_buff l (set_call r f s)) [].
Proof. intros E. unfold call_buff, mbind, M_bind, get_st, put_st. by rewrite E. Qed.

Lemma call_getcwd_run n (d : D) (s : bash F) r l f :
  f_getcwd (bash_Buff s) (fs s) = Some (r, l, f) -> call_getcwd n d s = Out (Ok r) d (set_buff l (set_call r f s)) [].
Proof.
  intros E. unfold call_getcwd. erewrite bind_silent; [|reflexivity]. erewrite bind_silent; [|by apply call_buff_run]. done.
Qed.

Lemma buff_string_run n (d : D) (s : bash F) w : c_string (bash_Buff s) = Some w -> buff_string n d s = Out (Ok w) d s [].
Proof. intros E. unfold buff_string. erewrite bind_silent; [|reflexivity]. by rewrite E. Qed.

(** The other variables stay. *)
Definition same_but_file (s s' : bash F) : Prop :=
  current_acid s' = current_acid s /\ current_acid_str s' = current_acid_str s /\ acid_tp s' = acid_tp s /\
  bash_tp s' = bash_tp s /\ mem s' = mem s.

Lemma read_loop_run show pr k n (d : D) (s : bash F) ls r f' :
  (forall l, Forall (fits 8) l -> prints (show l) (pr l)) -> reads (fs s) ls r f' -> (length ls < k)%nat ->
  exists s', read_loop show k n d s
    = Out (Ok r) (foldl (fun d c => dev_putc c d) d (mbind pr ls)) s' (EvPutc <$> mbind pr ls) /\
    fs s' = f' /\ bash_rc s' = r /\ same_but_file s s'.
Proof.
  intros Hp Hr. revert k d s Hr. assert (forall f, reads f ls r f' -> forall k d s, fs s = f -> (length ls < k)%nat ->
    exists s', read_loop show k n d s
    = Out (Ok r) (foldl (fun d c => dev_putc c d) d (mbind pr ls)) s' (EvPutc <$> mbind pr ls) /\
    fs s' = f' /\ bash_rc s' = r /\ same_but_file s s') as Hg; [|intros k d s Hr Hk; by eapply Hg].
  induction 1 as [f r l f' Er Hend|f l f1 ls r f' Er Hl Hfit Hr IH]; intros k d s Hf Hk; (destruct k as [|k]; [simpl in Hk; lia|]); cbn [read_loop].
  - assert (negb (bool_decide (r = FR_OK)) || bool_decide (l = []) = true) as Hc.
    { apply orb_true_iff. destruct Hend as [?|?]; [left; by rewrite bool_decide_eq_false_2|right; by apply bool_decide_eq_true_2]. }
    exists (set_buff l (set_call r f' s)). split; [|by split_and!].
    erewrite bind_silent; [|apply call_buff_run; rewrite Hf; exact Er]. cbn match. by rewrite Hc.
  - destruct (IH k (foldl (fun d c => dev_putc c d) d (pr l)) (set_buff l (set_call FR_OK f1 s)) eq_refl ltac:(simpl in Hk; lia))
      as (s' & E & F1 & F2 & F3). exists s'. split; [|by split_and!].
    erewrite bind_silent; [|apply call_buff_run; rewrite Hf; exact Er]. cbn match.
    rewrite (bool_decide_eq_false_2 (l = [])) by done. cbn [negb orb].
    rewrite bind_cons, foldl_app, fmap_app. eapply bind_ok; [apply (Hp l Hfit)|exact E].
Qed.

(** The common shape of [cat] and [cath]: open, tell, show, tell, close, tell;
    [post] is printed behind the chunks. *)
Lemma show_file_run show pr post name n (d : D) (s : bash F) r0 f1 ls r1 f2 r2 f3 :
  (forall l, Forall (fits 8) l -> prints (show l) (pr l)) -> plain post = true ->
  f_open name FA_READ (fs s) = Some (r0, f1) -> reads f1 ls r1 f2 -> f_close f2 = Some (r2, f3) -> (length ls < n)%nat ->
  let l := told r0 ++ mbind pr ls ++ codes post ++ told r1 ++ told r2 in
  exists s', (r ← call (f_open name FA_READ); tell r;;
              r ← with_fuel (read_loop show);
              alt_printf post [];;
              tell r;;
              r ← call f_close; tell r) n d s
    = Out (Ok tt) (foldl (fun d c => dev_putc c d) d l) s' (EvPutc <$> l) /\
    fs s' = f3 /\ bash_rc s' = r2 /\ same_but_file s s'.
Proof.
  intros Hp Hpl Eo Hr Ec Hn l.
  destruct (read_loop_run show pr n n (foldl (fun d c => dev_putc c d) d (told r0)) (set_call r0 f1 s) ls r1 f2 Hp Hr Hn)
    as (s1 & El & F1 & R1 & S1).
  exists (set_call r2 f3 s1). split; [|by split_and!].
  rewrite (bind_silent _ _ _ _ _ _ _ _ (call_run _ n d s _ _ Eo)). unfold l.
  rewrite foldl_app, fmap_app. eapply bind_ok; [apply tell_prints|].
  rewrite foldl_app, fmap_app. eapply bind_ok; [exact El|].
  rewrite foldl_app, fmap_app. eapply bind_ok; [by apply alt_printf_prints, formatted_plain|].
  rewrite foldl_app, fmap_app. eapply bind_ok; [apply tell_prints|].
  rewrite <- F1 in Ec. rewrite (bind_silent _ _ _ _ _ _ _ _ (call_run _ n _ s1 _ _ Ec)). apply tell_prints.
Qed.

Lemma cat_ok name n (d : D) (s : bash F) r0 f1 ls r1 f2 r2 f3 :
  f_open name FA_READ (fs s) = Some (r0, f1) -> reads f1 ls r1 f2 -> f_close f2 = Some (r2, f3) ->
  is_help name = false -> (length ls < n)%nat ->
  let l := told r0 ++ concat ls ++ told r1 ++ told r2 in
  exists s', cmd_cat [name] n d s = Out (Ok tt) (foldl (fun d c => dev_putc c d) d l) s' (EvPutc <$> l) /\
    fs s' = f3 /\ bash_rc s' = r2 /\ same_but_file s s'.
Proof.
  intros Eo Hr Ec Hh Hn l.
  destruct (show_file_run show_text (fun l => l) "" name n d s r0 f1 ls r1 f2 r2 f3 show_text_prints eq_refl Eo Hr Ec Hn)
    as (s' & E & H'). exists s'. split; [|done]. cbn [app codes] in E. unfold cmd_cat. rewrite Hh.
  unfold l. assert (mbind (fun l : list Z => l) ls = concat ls) as <- by (clear; induction ls as [|x ls IH]; [done|by rewrite bind_cons]).
  done.
Qed.

(** [cat] and [cath] show a file.  Whatever the file system answers: the
    chunks its reads deliver are printed, as they are or in hexadecimal, each
    byte once and in order, up to the end of the file or the first error; every
    result that is not [FR_OK] is told, in the order of the calls; the file is
    closed, and a file that could not be opened is still read and closed.  The
    command ends once the reads do.  Any other use prints the usage and calls
    nothing. *)
Theorem cat_prints_file name argv n (d : D) (s : bash F) r0 f1 ls r1 f2 r2 f3 :
  f_open name FA_READ (fs s) = Some (r0, f1) -> reads f1 ls r1 f2 -> f_close f2 = Some (r2, f3) ->
  is_help name = false -> (length ls < n)%nat ->
  let shows cmd l := exists s',
    cmd n d s = Out (Ok tt) (foldl (fun d c => dev_putc c d) d l) s' (EvPutc <$> l) /\
    fs s' = f3 /\ bash_rc s' = r2 /\ same_but_file s s' in
  shows (cmd_cat [name]) (told r0 ++ concat ls ++ told r1 ++ told r2) /\
  shows (cmd_cath [name]) (told r0 ++ mbind hex_dump ls ++ codes crlf ++ told r1 ++ told r2) /\
  (length argv <> 1%nat ->
     prints (D := D) (St := bash F) (cmd_cat argv) (codes ("Usage: cat <filename>" +:+ crlf)) /\
     prints (D := D) (St := bash F) (cmd_cath argv) (codes ("Usage: cath <filename>" +:+ crlf))).
Proof.
  intros Eo Hr Ec Hh Hn shows. split_and!.
  - by apply (cat_ok name n d s r0 f1 ls r1 f2 r2 f3).
  - destruct (show_file_run show_hex hex_dump crlf name n d s r0 f1 ls r1 f2 r2 f3 show_hex_prints eq_refl Eo Hr Ec Hn)
      as (s' & E & H'). exists s'. split; [|done]. unfold cmd_cath. by rewrite Hh.
  - intros Ha. destruct argv as [|? [|? ?]]; try done; split; by apply alt_printf_prints.
Qed.
End show.

(** ** A trip *)

(** The keys are the operator's: neither the bus nor time touches them. *)
Class Keyboard (D : Type) `{Console D} := {
  key_read a d : con_in (dev_read a d).2 = con_in d;
  key_write a v d : con_in (dev_write a v d) = con_in d;
  key_sleep ms d : con_in (dev_sleep ms d) = con_in d
}.

Section trip.
Context {D : Type} `{HK : Keyboard D} {F : Type} `{!FatFs F}.
Local Abbreviation M := (M D (bash F)).

(** The shell's thread, and a message that is answered: the sender goes on with
    its variables, the keys and the bus as they were. *)
Context (me : Z) (chThdSelf : M Z) (chMsgSend : Z -> Z -> M Z).
Context (self_ok : forall n d s, chThdSelf n d s = Out (Ok me) d s []).
Context (send_ok : forall tp msg n d s, exists r d' t, chMsgSend tp msg n d s = Out (Ok r) d' s t /\
  con_in d' = con_in d /\ writes t = []).

Definition is_key (c : Z) : Prop := 0 <= c < 256.

(** Engines on; engines off. *)
Definition engines (on c : Z) : list (Z * Z) :=
  [(0x1000000, on); (0x1010000, on); (ctrl_addr CORTEX_MM_SL_BASE, c)].

Lemma update_acid_run ad name n d (s : bash F) :
  match find (fun a => strcaseeq (codes (acid_name a)) name) ad with
  | Some a => update_acid (D := D) ad name n d s = Out (Ok false) d (set_acid a s) []
  | None => update_acid (D := D) ad name n d s = Out (Ok true) d s []
  end.
Proof.
  induction ad as [|a ad IH]; [done|]. cbn [find update_acid]. by destruct (strcaseeq _ _).
Qed.

Lemma quit_loop_run keys more k n d (s : bash F) :
  con_in d = keys ++ 113 :: more -> Forall (fun c => is_key c /\ c <> 113) keys -> (length keys < k)%nat ->
  wp (quit_loop k) n d s (fun r d' s' t => r = Ok tt /\ s' = s /\ con_in d' = more /\ writes t = []).
Proof.
  revert k d. induction keys as [|c keys IH]; intros k d Hin Hk Hl; (destruct k as [|k]; [simpl in Hl; lia|]); cbn [quit_loop].
  - wp_step. destruct (con_getc d 113 more Hin) as [-> Hin']. change (s16 113 =? 113) with true. cbn match.
    apply wp_ret. by split_and!.
  - apply Forall_cons in Hk as [[Hc Hne] Hk]. wp_step. destruct (con_getc d c (keys ++ 113 :: more) Hin) as [-> Hin'].
    rewrite s16_small by (unfold is_key in Hc; lia). rewrite (proj2 (Z.eqb_neq c 113)) by done. wp_step.
    eapply wp_mono; [apply (IH k); [by rewrite key_sleep|done|simpl in Hl; lia]|]. intros r d' s' t (-> & -> & Hm & Hw). by split_and!.
Qed.

(** [m] ends, keeps the variables and the keys, and writes what [P] says. *)
Definition steps (m : M unit) (P : list (Z * Z) -> Prop) : Prop :=
  forall n d s, wp m n d s (fun r d' s' t => r = Ok tt /\ s' = s /\ con_in d' = con_in d /\ P (writes t)).

Lemma steps_bind {B} (m : M unit) (f : M B) P n d s Q :
  steps m P ->
  (forall d' t, con_in d' = con_in d -> P (writes t) -> wp f n d' s (fun r d2 s2 t2 => Q r d2 s2 (t ++ t2))) ->
  wp (m;; f) n d s Q.
Proof. intros Hm Hf. apply wp_bind. eapply wp_mono; [apply Hm|]. intros r d1 s1 t1 (-> & -> & Hc & HP). by apply Hf. Qed.

Lemma steps_prints m l : prints m l -> steps m (fun w => w = []).
Proof.
  intros Hm n d s. apply (wp_prints _ _ _ _ _ _ Hm). split_and!; [done|done| |apply writes_putc].
  apply foldl_putc_inv. intros. apply con_putc.
Qed.

Lemma steps_puts w : plain w = true -> steps (alt_printf w []) (fun x => x = []).
Proof. intros Hp. by eapply steps_prints, alt_printf_prints, formatted_plain. Qed.

Lemma engines_step on (f g h : M unit) :
  f = iowr CORTEX_MM_SL_BASE 0x0 on -> g = iowr CORTEX_MM_SL_BASE 0x10000 on ->
  (exists k, h = (v ← IORD_DAC_DRVR_CTRL CORTEX_MM_SL_BASE; IOWR_DAC_DRVR_CTRL CORTEX_MM_SL_BASE (k v))) ->
  fits 32 on -> steps (f;; g;; h) (fun w => exists c, w = engines on c).
Proof.
  intros -> -> [k ->] Hf n d s. unfold IORD_DAC_DRVR_CTRL, IOWR_DAC_DRVR_CTRL. wp_step. wp_step. wp_step. wp_step.
  rewrite !key_write, key_read, !key_write. split_and!; [done..|]. eexists. unfold writes. cbn. rewrite (wrap_small 32 on Hf).
  reflexivity.
Qed.

Lemma trip_on :
  steps (enable_fgyrus CORTEX_MM_SL_BASE (FGYRUS_TYPE_val LCHNL);; enable_fgyrus CORTEX_MM_SL_BASE (FGYRUS_TYPE_val RCHNL);;
         enable_adc_drvr CORTEX_MM_SL_BASE) (fun w => exists c, w = engines 1 c).
Proof. apply engines_step; [done|done|by eexists|done]. Qed.

Lemma trip_off :
  steps (disable_fgyrus CORTEX_MM_SL_BASE (FGYRUS_TYPE_val LCHNL);; disable_fgyrus CORTEX_MM_SL_BASE (FGYRUS_TYPE_val RCHNL);;
         disable_adc_drvr CORTEX_MM_SL_BASE) (fun w => exists c, w = engines 0 c).
Proof. apply engines_step; [done|done|by eexists|done]. Qed.

Lemma wp_with_fuel {A} (f : nat -> M A) n d s Q : wp (f n) n d s Q -> wp (with_fuel f) n d s Q.
Proof. done. Qed.

Lemma seq3_eq {B} (f g h : M unit) (k : M B) n d s : (f;; g;; h;; k) n d s = ((f;; g;; h);; k) n d s.
Proof.
  rewrite bind_assoc. unfold mbind at 1 4, M_bind at 1 4. destruct (f n d s) as [[[]| |] d1 s1 t1]; [|done..].
  by rewrite bind_assoc.
Qed.

Lemma steps_bind3 {B} (f g h : M unit) (k : M B) P n d s Q :
  steps (f;; g;; h) P ->
  (forall d' t, con_in d' = con_in d -> P (writes t) -> wp k n d' s (fun r d2 s2 t2 => Q r d2 s2 (t ++ t2))) ->
  wp (f;; g;; h;; k) n d s Q.
Proof. intros Hm Hk. unfold wp. rewrite seq3_eq. by apply (steps_bind _ k P). Qed.

Lemma steps_send tp msg : steps (chMsgSend tp msg;; mret tt) (fun w => w = []).
Proof using send_ok.
  intros n d s. destruct (send_ok tp msg n d s) as (r & d' & t & E & Hk & Hw). apply wp_bind. unfold wp at 1. rewrite E.
  cbn [o_res o_dev o_st o_tr]. apply wp_ret. by rewrite app_nil_r.
Qed.

Lemma send_bind {B} tp msg (k : M B) n d s Q :
  (forall d' t, con_in d' = con_in d -> writes t = [] -> wp k n d' s (fun r d2 s2 t2 => Q r d2 s2 (t ++ t2))) ->
  wp (chMsgSend tp msg;; k) n d s Q.
Proof using send_ok.
  intros Hk. destruct (send_ok tp msg n d s) as (r & d' & t & E & Hc & Hw). apply wp_bind. unfold wp at 1. rewrite E.
  cbn [o_res o_dev o_st o_tr]. by apply Hk.
Qed.

(** With the plugin's thread running and a plugin chosen. *)
Lemma acid_trip_run tp w keys more n d s :
  acid_tp s = Some tp -> current_acid_str s = Some w ->
  con_in d = keys ++ 113 :: more -> Forall (fun c => is_key c /\ c <> 113) keys -> (length keys < n)%nat ->
  wp (acid_trip chMsgSend) n d s (fun r d' s' t =>
    r = Ok tt /\ s' = s /\ con_in d' = more /\ exists c1 c2, writes t = engines 1 c1 ++ engines 0 c2).
Proof using send_ok HK.
  intros Ht Hw Hin Hk Hn. unfold acid_trip.
  apply (steps_bind _ _ (fun x => x = [])); [by apply steps_puts|]. intros d1 t1 C1 W1.
  apply (steps_bind3 _ _ _ _ _ _ _ _ _ trip_on). intros d2 t2 C2 (c1 & W2).
  wp_step. rewrite Ht, Hw.
  apply (steps_bind _ _ (fun x => x = [])); [eapply steps_prints, printf_prints|]. intros d3 t3 C3 W3.
  apply send_bind. intros d4 t4 C4 W4.
  apply wp_bind, wp_with_fuel. eapply wp_mono; [apply (quit_loop_run keys more); [congruence|done|done]|].
  intros r d5 s5 t5 (-> & -> & C5 & W5).
  apply (steps_bind _ _ (fun x => x = [])); [by apply steps_puts|]. intros d6 t6 C6 W6.
  apply send_bind. intros d7 t7 C7 W7.
  apply (steps_bind _ _ (fun x => x = [])); [by apply steps_puts|]. intros d8 t8 C8 W8.
  apply (steps_bind3 _ _ _ _ _ _ _ _ _ trip_off). intros d9 t9 C9 (c2 & W9).
  eapply wp_mono; [apply (steps_puts ("End of Trip ..." +:+ crlf) eq_refl)|]. intros r d10 s10 t10 (-> & -> & C10 & W10).
  split_and!; [done|done|congruence|]. exists c1, c2. rewrite !writes_app, W1, W2, W3, W4, W5, W6, W7, W8, W9, W10.
  cbn [app]. by rewrite app_nil_r.
Qed.

End trip.

(** ** At the prompt *)

Section session.
Context {D : Type} `{Console D} {F : Type} `{!FatFs F}.
Local Abbreviation M := (M D (bash F)).
Context (DATE TIME : string) (chTimeNow : M Z) (default_heap : Z) (report : M unit).
Context (chThdSelf : M Z) (chMsgSend : Z -> Z -> M Z).

(** The table of the board. *)
Let table := commands chThdSelf chMsgSend default_heap report.

Lemma same_name a b : strcaseeq a b = true -> forall c, strcaseeq c a = strcaseeq c b /\ strcaseeq a c = strcaseeq b c.
Proof. intros Hab%bool_decide_eq_true c. unfold strcaseeq. by rewrite Hab. Qed.

(** A word that names a command of the board, in any case, runs it. *)
Lemma exec_known i c cmd args n d (s : bash F) :
  table !! i = Some c -> strcaseeq cmd (codes (sc_name c)) = true ->
  shell_exec DATE TIME chTimeNow (Some table) cmd args n d s = (sc_function c args;; sleep_ms 100) n d s.
Proof.
  intros Hi Hc. unfold shell_exec.
  assert (forall w, strcaseeq cmd (codes w) = strcaseeq (codes (sc_name c)) (codes w)) as H1 by (intros w; apply (same_name _ _ Hc (codes w))).
  assert (forall w, strcaseeq (codes w) cmd = strcaseeq (codes w) (codes (sc_name c))) as H2 by (intros w; apply (same_name _ _ Hc (codes w))).
  rewrite !H1. unfold table, commands, local_commands in *. cbn [cmdexec sc_name sc_function]. rewrite !H2. clear Hc H1 H2.
  do 10 (destruct i as [|i]; [injection Hi as <-; cbn [sc_name sc_function];
    repeat match goal with |- context [strcaseeq (codes ?a) (codes ?b)] =>
      let v := eval vm_compute in (strcaseeq (codes a) (codes b)) in change (strcaseeq (codes a) (codes b)) with v end; cbn match;
    unfold mbind, M_bind, mret, M_ret; cbn [o_res o_dev o_st o_tr];
    match goal with |- context [match ?x with {| o_res := _ |} => _ end] => destruct x as [[[]| |] d1 s1 t1] end; cbn; [by rewrite !app_nil_r|done..]|]).
  done.
Qed.

(** A turn in which one command with its arguments is typed. *)
Lemma known_turn i c line keys more cmd args n d (s : bash F) l (P : bash F -> Prop) :
  zlen line = SHELL_MAX_LINE_LENGTH -> con_in d = keys ++ 13 :: more -> Forall is_text keys -> (length keys < n)%nat ->
  words (foldl (typed SHELL_MAX_LINE_LENGTH) [] keys) = cmd :: args -> (length args <= 4)%nat ->
  table !! i = Some c -> strcaseeq cmd (codes (sc_name c)) = true ->
  (forall d, exists s', sc_function c args n d s = Out (Ok tt) (foldl (fun d c => dev_putc c d) d l) s' (EvPutc <$> l) /\ P s') ->
  exists line1 d1 s' t1,
    shell_turn DATE TIME chTimeNow (Some table) line n d s
    = Out (Ok line1) (dev_sleep 100 (foldl (fun d c => dev_putc c d) d1 l)) s' (t1 ++ (EvPutc <$> l) ++ [EvSleep 100]) /\
    con_in d1 = more /\ shown (codes SHELL_PROMPT ++ echo SHELL_MAX_LINE_LENGTH [] keys) t1 /\ P s'.
Proof.
  intros Hl Hin Ht Hk Hw Ha Hi Hc Hrun.
  destruct (shell_turn_ok DATE TIME chTimeNow (Some table) line keys more n d s Hl Hin Ht Hk) as (d1 & t1 & line1 & Hin1 & Ht1 & Hturn);
    [rewrite Hw; simpl; lia|]. rewrite Hw in Hturn. destruct (Hrun d1) as (s' & Hx1 & HP). exists line1, d1, s', t1. split; [|done]. rewrite Hturn.
  assert ((shell_exec DATE TIME chTimeNow (Some table) cmd args;; mret line1) n d1 s
    = Out (Ok line1) (dev_sleep 100 (foldl (fun d c => dev_putc c d) d1 l)) s' ((EvPutc <$> l) ++ [EvSleep 100])) as Hx.
  { rewrite <- (app_nil_r ((EvPutc <$> l) ++ [EvSleep 100])). eapply bind_ok; [|reflexivity]. rewrite (exec_known i c) by done.
    eapply bind_ok; [exact Hx1|reflexivity]. }
  cbv zeta. by rewrite Hx.
Qed.

Lemma cat_turn_ok line keys more cmd name n d (s : bash F) r0 f1 ls r1 f2 r2 f3 :
  zlen line = SHELL_MAX_LINE_LENGTH -> con_in d = keys ++ 13 :: more -> Forall is_text keys -> (length keys < n)%nat ->
  words (foldl (typed SHELL_MAX_LINE_LENGTH) [] keys) = [cmd; name] ->
  strcaseeq cmd (codes "cat") = true -> is_help name = false ->
  f_open name FA_READ (fs s) = Some (r0, f1) -> reads f1 ls r1 f2 -> f_close f2 = Some (r2, f3) -> (length ls < n)%nat ->
  exists line1 d1 d' s' t1,
    shell_turn DATE TIME chTimeNow (Some table) line n d s
    = Out (Ok line1) d' s' (t1 ++ (EvPutc <$> told r0 ++ concat ls ++ told r1 ++ told r2) ++ [EvSleep 100]) /\
    con_in d1 = more /\ shown (codes SHELL_PROMPT ++ echo SHELL_MAX_LINE_LENGTH [] keys) t1 /\
    d' = dev_sleep 100 (foldl (fun d c => dev_putc c d) d1 (told r0 ++ concat ls ++ told r1 ++ told r2)) /\
    fs s' = f3 /\ bash_rc s' = r2 /\ same_but_file s s'.
Proof.
  intros Hl Hin Ht Hk Hw Hc Hh Eo Hr Ec Hn.
  destruct (known_turn 6 (MkCommand "cat" cmd_cat) line keys more cmd [name] n d s (told r0 ++ concat ls ++ told r1 ++ told r2)
    (fun s' => fs s' = f3 /\ bash_rc s' = r2 /\ same_but_file s s') Hl Hin Ht Hk Hw ltac:(simpl; lia) eq_refl Hc) as (line1 & d1 & s' & t1 & E & Hin1 & Ht1 & HP);
    [intros d1; by apply (cat_ok name n d1 s r0 f1 ls r1 f2 r2 f3)|].
  by exists line1, d1, (dev_sleep 100 (foldl (fun d c => dev_putc c d) d1 (told r0 ++ concat ls ++ told r1 ++ told r2))), s', t1.
Qed.
(** At the prompt: the operator types [cat], in any case, and the name of a
    file; the turn of the shell prints the prompt and the echo, then the file
    chunk by chunk with every failed call told, waits a tenth of a second, and
    leaves the keys behind the line for the next turn. *)
Theorem cat_at_the_prompt line keys more cmd name n d (s : bash F) r0 f1 ls r1 f2 r2 f3 :
  zlen line = SHELL_MAX_LINE_LENGTH -> con_in d = keys ++ 13 :: more -> Forall is_text keys -> (length keys < n)%nat ->
  words (foldl (typed SHELL_MAX_LINE_LENGTH) [] keys) = [cmd; name] ->
  strcaseeq cmd (codes "cat") = true -> is_help name = false ->
  f_open name FA_READ (fs s) = Some (r0, f1) -> reads f1 ls r1 f2 -> f_close f2 = Some (r2, f3) -> (length ls < n)%nat ->
  exists line1 d1 d' s' t1,
    shell_turn DATE TIME chTimeNow (Some table) line n d s
    = Out (Ok line1) d' s' (t1 ++ (EvPutc <$> told r0 ++ concat ls ++ told r1 ++ told r2) ++ [EvSleep 100]) /\
    con_in d1 = more /\ shown (codes SHELL_PROMPT ++ echo SHELL_MAX_LINE_LENGTH [] keys) t1 /\
    d' = dev_sleep 100 (foldl (fun d c => dev_putc c d) d1 (told r0 ++ concat ls ++ told r1 ++ told r2)) /\
    fs s' = f3 /\ bash_rc s' = r2 /\ same_but_file s s'.
Proof. by apply cat_turn_ok. Qed.
End session.

(** ** A file of three bytes, and an operator who waits and quits *)

#[export] Instance one_file : FatFs (list Z) := {
  f_mount f := Some f;
  f_open name mode f := Some (FR_OK, f);
  f_close f := Some (FR_OK, f);
  f_read n f := Some (FR_OK, u8 <$> take (Z.to_nat n) f, drop (Z.to_nat n) f);
  f_rename old new f := Some (FR_NO_FILE, f);
  f_chdir dir f := Some (FR_NO_PATH, f);
  f_getcwd buf f := Some (FR_OK, [47; 0] ++ drop 2 buf, f);
  f_opendir dir f := Some (FR_OK, f);
  f_readdir f := Some (FR_OK, mkInfo [] 0 0, f)
}.

Definition mem_0 : mstate := mkMem (fun _ => 0) 0 0 (fun _ => false) (fun _ => None) (fun _ => None).

Definition bash_0 : bash (list Z) :=
  mkBash (codes "abc") FR_OK (replicate 3 0) None None (Some 7) None mem_0.

Lemma cat_prints_file_witness :
  exists s', cmd_cat (D := regdev) [codes "file"] 2%nat (RegDev ∅ []) bash_0
    = Out (Ok tt) (RegDev ∅ []) s' (EvPutc <$> codes "abc") /\ fs s' = [].
Proof.
  assert (Hr : reads (fs bash_0) [codes "abc"] FR_OK []).
  { apply (reads_more _ _ []); [by vm_compute|done|by repeat constructor|]. apply (reads_end _ _ [] []); [by vm_compute|by right]. }
  assert (Ho : f_open (codes "file") FA_READ (fs bash_0) = Some (FR_OK, codes "abc")) by (by vm_compute).
  assert (Hc : f_close ([] : list Z) = Some (FR_OK, [])) by (by vm_compute).
  assert (Hh : is_help (codes "file") = false) by (by vm_compute).
  assert (Hn : (length [codes "abc"] < 2)%nat) by (simpl; lia).
  destruct (cat_prints_file (codes "file") [] 2%nat (RegDev ∅ []) bash_0 FR_OK (codes "abc") [codes "abc"] FR_OK [] FR_OK []
    Ho Hr Hc Hh Hn) as ((s' & E & Hf & _) & _).
  exists s'. split; [exact E|exact Hf].
Defined.

Lemma cat_at_the_prompt_witness :
  exists line1 d' s' t1,
    shell_turn (D := regdev) "" "" (mret 0) (Some (commands (mret 2) (fun _ _ => mret 0) 4096 (mret tt))) (replicate 64 0) 20%nat
      (RegDev ∅ (codes "CAT file" ++ [13; 33])) bash_0
    = Out (Ok line1) d' s' (t1 ++ (EvPutc <$> codes "abc") ++ [EvSleep 100]).
Proof.
  assert (Hr : reads (fs bash_0) [codes "abc"] FR_OK []).
  { apply (reads_more _ _ []); [by vm_compute|done|by repeat constructor|]. apply (reads_end _ _ [] []); [by vm_compute|by right]. }
  assert (Ho : f_open (codes "file") FA_READ (fs bash_0) = Some (FR_OK, codes "abc")) by (by vm_compute).
  assert (Hc : f_close ([] : list Z) = Some (FR_OK, [])) by (by vm_compute).
  assert (Ht : Forall is_text (codes "CAT file")) by (repeat constructor; done).
  assert (Hw : words (foldl (typed SHELL_MAX_LINE_LENGTH) [] (codes "CAT file")) = [codes "CAT"; codes "file"]) by (by vm_compute).
  assert (Hn : (length (codes "CAT file") < 20)%nat) by (by vm_compute; lia).
  assert (Hn2 : (length [codes "abc"] < 20)%nat) by (simpl; lia).
  assert (Hl : zlen (replicate 64 0) = SHELL_MAX_LINE_LENGTH) by (by vm_compute).
  assert (Hi : con_in (RegDev ∅ (codes "CAT file" ++ [13; 33])) = codes "CAT file" ++ 13 :: [33]) by (by vm_compute).
  assert (Hcat : strcaseeq (codes "CAT") (codes "cat") = true) by (by vm_compute).
  assert (Hhelp : is_help (codes "file") = false) by (by vm_compute).
  destruct (cat_at_the_prompt "" "" (mret 0) 4096 (mret tt) (mret 2) (fun _ _ => mret 0) (replicate 64 0) (codes "CAT file") [33]
    (codes "CAT") (codes "file") 20%nat (RegDev ∅ (codes "CAT file" ++ [13; 33])) bash_0 FR_OK (codes "abc") [codes "abc"] FR_OK [] FR_OK []
    Hl Hi Ht Hn Hw Hcat Hhelp Ho Hr Hc Hn2) as (line1 & d1 & d' & s' & t1 & E & _).
  exists line1, d', s', t1. exact E.
Defined.

#[export] Program Instance regdev_keyboard : Keyboard regdev.
Next Obligation. done. Qed.
Next Obligation. done. Qed.
Next Obligation. done. Qed.

