(* ===== verification/BashFat.v ===== *)
(** * The commands on the file system

    The file system of ledos/fatfs behind the interface that the handlers of
    bash.c use, and what they show of a volume. *)

From S2P Require Import Prelude Diskio FatVol FatBytes FatWin FatTable FatChain FatMount FatName FatDir FatFile FatPath FatData FatRead FatWrite FatSeek FatScan FatOpen FatList FatRam FatRuns FatCases Hw Printf Shell Bash.

(** The variables of bash.c that the calls of the file system work on; [stack] is
    what the stack holds where a call has its buffer for a name. *)
Record board (DK : Type) {HD : Disk DK} := mkBoard {
  sys : fsys (DK := DK);
  bash_Fil : FIL;
  bash_dir : DIR;
  bash_fno : FatDir.FILINFO;
  stack : list Z
}.
Arguments mkBoard {DK HD} sys bash_Fil bash_dir bash_fno stack.
Arguments sys {DK HD} _.
Arguments bash_Fil {DK HD} _.
Arguments bash_dir {DK HD} _.
Arguments bash_fno {DK HD} _.
Arguments stack {DK HD} _.

(** ** The interface *)

Section BashFat.

Context {DK : Type} {HD : Disk DK}.
Implicit Types b : board DK.

Definition set_sys (s : fsys) b : board DK := mkBoard s (bash_Fil b) (bash_dir b) (bash_fno b) (stack b).
Definition set_fil (fp : FIL) b : board DK := mkBoard (sys b) fp (bash_dir b) (bash_fno b) (stack b).
Definition set_dir (dj : DIR) b : board DK := mkBoard (sys b) (bash_Fil b) dj (bash_fno b) (stack b).
Definition set_fno (fno : FatDir.FILINFO) b : board DK := mkBoard (sys b) (bash_Fil b) (bash_dir b) fno (stack b).

(** A string in memory. *)
Definition c_str (w : list Z) : list Z := w ++ [0].

(** The call [p], and what becomes of its answer. *)
Definition run {A B} (p : G A) (b : board DK) (k : A -> board DK -> B) : option B :=
  match p (sys b) with Some (a, s) => Some (k a (set_sys s b)) | None => None end.

#[export] Instance board_fs : FatFs (board DK) := {
  f_mount b := run (FatMount.f_mount 0 true) b (fun _ b => b);
  f_open name mode b := run (FatFile.f_open (stack b) (bash_Fil b) (c_str name) mode) b (fun '(r, fp) b => (r, set_fil fp b));
  f_close b := run (FatFile.f_close (bash_Fil b)) b (fun '(r, fp) b => (r, set_fil fp b));
  f_read n b := run (FatFile.f_read (bash_Fil b) n) b (fun '(r, fp, buff, _) b => (r, buff, set_fil fp b));
  f_rename old new b := run (FatPath.f_rename (stack b) (c_str old) (c_str new)) b (fun r b => (r, b));
  f_chdir dir b := run (FatPath.f_chdir (stack b) (c_str dir)) b (fun r b => (r, b));
  f_getcwd buf b := run (FatPath.f_getcwd (stack b) buf) b (fun '(r, buf) b => (r, buf, b));
  f_opendir dir b := run (FatPath.f_opendir (stack b) (bash_dir b) (c_str dir)) b (fun '(r, dj) b => (r, set_dir dj b));
  f_readdir b := run (FatPath.f_readdir (stack b) (bash_dir b) (Some (bash_fno b))) b (fun '(r, dj, fno) b =>
    let fno := default (bash_fno b) fno in
    (r, mkInfo (c_text (fi_name fno)) (fi_size fno) (fi_attrib fno), set_fno fno (set_dir dj b)))
}.

End BashFat.

(** ** The file behind [cat] *)

Section show.

Context {DK : Type} {HD : Disk DK} {HS : Store DK}.
Implicit Types (b : board DK) (v : vol (DK := DK)).

Local Abbreviation volume_of b := (volume (sys b)).

(** The disk behaves: transfers succeed and the drive is initialised. *)
Context (Hsound : sound) (Hdrive : drive_ready).

(** An open file that may be read. *)
Record open_file b (l : list Z) : Prop := {
  of_win : win_ok (volume_of b);
  of_layout : layout (fatfs (volume_of b));
  of_at : file_at (volume_of b) (bash_Fil b) l;
  of_usable : usable (fatfs (volume_of b)) (bash_Fil b) FA_READ
}.

(** [b'] after calls that only read, on the same file. *)
Definition only_read b b' : Prop :=
  quiet (volume_of b) (volume_of b') /\ same_file (bash_Fil b) (bash_Fil b') /\ stack b' = stack b.

Lemma file_bytes_fit v l o n : win_ok v -> Forall (fits 8) (file_bytes v l o n).
Proof using.
  intros Hok. apply Forall_fmap, Forall_true. intros i. unfold compose, file_byte, byte_at.
  destruct (view_sector v (place (fatfs v) l i) Hok) as [_ Hb]. rewrite nth_lookup.
  destruct (view v _ !! _) as [x|] eqn:E; [|by apply fits_0]. by apply (Forall_lookup_1 _ _ _ _ Hb E).
Qed.

(** One call delivers as much as fits the buffer. *)
Lemma read_chunk b l :
  open_file b l -> let m := Z.min bash_Buff_size (f_size (bash_Fil b) - f_ptr (bash_Fil b)) in
  exists b', Bash.f_read bash_Buff_size b = Some (FR_OK, file_bytes (volume_of b) l (f_ptr (bash_Fil b)) m, b') /\
    open_file b' l /\ only_read b b' /\ f_ptr (bash_Fil b') = f_ptr (bash_Fil b) + m.
Proof using Hsound Hdrive.
  intros [Hok Hl Hf Hu] m. destruct (gwp_run _ _ _ (f_read_ok (sys b) (bash_Fil b) l bash_Buff_size Hok Hl Hf ltac:(done)))
    as ([[[r fp] buff] br] & s & Hrun & Hq & _ & Htk & Hp & Hx & Hr).
  destruct Hr as [[-> _]|[([_ Hno] & _)|[_ []]]]; [|by destruct Hno|done]. destruct (Hx eq_refl) as (-> & Hlen & Hsf & Hf').
  rewrite take_ge in Htk by (unfold zlen in Hlen; lia). exists (set_fil fp (set_sys s b)). split; [|split; [|done]].
  - cbn [Bash.f_read board_fs]. unfold run. by rewrite Hrun, Htk.
  - pose proof (quiet_alike _ _ Hq). split; [apply Hq|by eapply alike_layout|done|by eapply usable_same].
Qed.

Lemma only_read_trans b1 b2 b3 : only_read b1 b2 -> only_read b2 b3 -> only_read b1 b3.
Proof using.
  intros (Q1 & F1 & S1) (Q2 & F2 & S2). split; [by eapply quiet_trans|]. split; [by eapply same_file_trans|congruence].
Qed.

(** The chunks up to the end of the file are its bytes. *)
Lemma reads_file k b l :
  open_file b l -> let fp := bash_Fil b in f_size fp - f_ptr fp <= bash_Buff_size * Z.of_nat k ->
  exists ls b', reads b ls FR_OK b' /\ concat ls = file_bytes (volume_of b) l (f_ptr fp) (f_size fp - f_ptr fp) /\ (length ls <= k)%nat /\
    open_file b' l /\ only_read b b'.
Proof using Hsound Hdrive.
  revert b. induction k as [|k IH]; intros b Hf fp Hk; pose proof (fc_ptr _ _ _ (fa_core _ _ _ (of_at _ _ Hf))) as Hp; fold fp in Hp;
    destruct (read_chunk b l Hf) as (b1 & Hrun & Hf1 & Hr1 & Hp1); fold fp in Hrun, Hp1;
    (destruct (decide (f_size fp = f_ptr fp)) as [E|Hne];
      [exists [], b1; rewrite E, Z.sub_diag in Hrun |- *; split_and!; [by eapply reads_end; [exact Hrun|right]|done|cbn; lia|done|done]|]); [unfold bash_Buff_size in Hk; lia|].
  assert (Hsz : f_size (bash_Fil b1) = f_size fp) by apply Hr1. set (m := Z.min bash_Buff_size _) in *.
  assert (Hm : 0 < m) by (unfold m, bash_Buff_size; lia).
  destruct (IH b1 Hf1) as (ls & b2 & Hrd & Hc & Hlen & Hf2 & Hr2); [rewrite Hsz, Hp1; unfold m, bash_Buff_size in *; lia|].
  exists (file_bytes (volume_of b) l (f_ptr fp) m :: ls), b2. split_and!; [|cbn [concat]; rewrite Hc|cbn; lia|done|by eapply only_read_trans].
  - eapply reads_more; [exact Hrun| |apply file_bytes_fit, Hf|exact Hrd]. intros E.
    pose proof (file_bytes_length (volume_of b) l (f_ptr fp) m ltac:(lia)) as Hl. rewrite E in Hl. unfold zlen in Hl. cbn in Hl. lia.
  - rewrite Hsz, Hp1, (file_bytes_stay (volume_of b) (volume_of b1) fp) by first [apply Hf|apply Hr1|lia].
    rewrite <- file_bytes_app by (unfold m, bash_Buff_size; lia). f_equal. lia.
Qed.

Lemma fil_closed (s : fsys) fp :
  win_ok (volume s) -> usable (fatfs (volume s)) fp FA_READ -> flagged FA__WRITTEN fp = false ->
  gwp (FatFile.f_close fp) (fun x s' => x = (FR_OK, put_fs false fp) /\ quiet (volume s) (volume s')) s.
Proof using Hdrive.
  intros Hok (U1 & U2 & U3 & _) Hw. unfold FatFile.f_close, f_sync. rewrite U1.
  apply gwp_bind, gwp_bind. eapply gwp_mono; [|by apply validate_ready]. intros r s1 (-> & Hq & _).
  rewrite Hw, andb_false_r. apply gwp_ret, gwp_ret. split; [done|exact Hq].
Qed.

Lemma close_file b l :
  open_file b l -> flagged FA__WRITTEN (bash_Fil b) = false ->
  exists b', Bash.f_close b = Some (FR_OK, b') /\ quiet (volume_of b) (volume_of b') /\ stack b' = stack b.
Proof using Hdrive.
  intros [Hok _ _ Hu] Hw. destruct (gwp_run _ _ _ (fil_closed (sys b) (bash_Fil b) Hok Hu Hw)) as (x & s & Hrun & -> & Hq).
  exists (set_fil (put_fs false (bash_Fil b)) (set_sys s b)). cbn [Bash.f_close board_fs]. unfold run. by rewrite Hrun.
Qed.

Lemma open_finds b name l i lf :
  win_ok (volume_of b) -> layout (fatfs (volume_of b)) -> mounted_ready (sys b) -> length (stack b) = 12%nat ->
  no_drive (c_str name) -> leads (volume_of b) (c_str name) l i -> let e := dentry (volume_of b) l i in
  Z.land (ent_attr e) AM_DIR = 0 -> clusters (volume_of b) (ent_cluster e) lf -> ent_size e <= bcs (fatfs (volume_of b)) * zlen lf ->
  exists b', Bash.f_open name FA_READ b = Some (FR_OK, b') /\ open_file b' lf /\ quiet (volume_of b) (volume_of b') /\ stack b' = stack b /\
    f_ptr (bash_Fil b') = 0 /\ f_size (bash_Fil b') = ent_size e /\ flagged FA__WRITTEN (bash_Fil b') = false.
Proof using Hsound.
  intros Hok Hl Hr Hsfn Hnd Hp e Ha Hc Hsz. assert (Hm : may_open FA_READ e) by (split; [done|]; split; [done|]; by intros []).
  destruct (gwp_run _ _ _ (f_open_ok (stack b) (sys b) (bash_Fil b) (c_str name) FA_READ l i Hok Hl Hr Hnd Hsfn Hp Hm)) as (x & s & Hrun & Hq & [->|[_ []]]); [|done].
  fold e in Hrun. set (fp := file_object _ _ _ _ _ _) in Hrun. exists (set_fil fp (set_sys s b)).
  split; [cbn [Bash.f_open board_fs]; unfold run; by rewrite Hrun|]. split_and!; try done. pose proof (quiet_alike _ _ Hq) as Hal.
  split; [apply Hq|by eapply alike_layout|eapply file_stays; [done|apply Hq|by apply file_object_at]|].
  eapply usable_same; [exact Hal|apply same_file_refl|]. split_and!; [done|apply Hr|done|done|by right].
Qed.

(** The path leads to a file with this many bytes in these clusters. *)
Definition is_file v (path : list Z) (size : Z) (lf : list Z) : Prop :=
  exists l i, leads v path l i /\ let e := dentry v l i in
    Z.land (ent_attr e) AM_DIR = 0 /\ ent_size e = size /\ clusters v (ent_cluster e) lf /\ size <= bcs (fatfs v) * zlen lf.

(** Opening, reading to the end and closing. *)
Lemma file_session b name size lf k :
  win_ok (volume_of b) -> layout (fatfs (volume_of b)) -> mounted_ready (sys b) -> length (stack b) = 12%nat ->
  no_drive (c_str name) -> is_file (volume_of b) (c_str name) size lf -> size <= bash_Buff_size * Z.of_nat k ->
  exists b1 ls b2 b3, Bash.f_open name FA_READ b = Some (FR_OK, b1) /\ reads b1 ls FR_OK b2 /\ Bash.f_close b2 = Some (FR_OK, b3) /\
    concat ls = file_bytes (volume_of b) lf 0 size /\ (length ls <= k)%nat /\ quiet (volume_of b) (volume_of b3) /\ stack b3 = stack b.
Proof using Hsound Hdrive.
  intros Hok Hl Hr Hsfn Hnd (l & i & Hp & Ha & <- & Hc & Hsz) Hk. pose proof (file_object_at (volume_of b) 0 l i FA_READ _ lf Hc Hsz) as [Hcore _ _].
  destruct (open_finds b name l i lf Hok Hl Hr Hsfn Hnd Hp Ha Hc Hsz) as (b1 & E1 & Hf1 & Q1 & S1 & P1 & Z1 & W1).
  destruct (reads_file k b1 lf Hf1) as (ls & b2 & E2 & Hls & Hlen & Hf2 & (Q2 & F2 & S2)); [rewrite P1, Z1; lia|].
  assert (W2 : flagged FA__WRITTEN (bash_Fil b2) = false) by (unfold flagged; destruct F2 as (_ & _ & -> & _); exact W1).
  destruct (close_file b2 lf Hf2 W2) as (b3 & E3 & Q3 & S3). exists b1, ls, b2, b3. split_and!; try done; [|by do 2 (eapply quiet_trans; [done|])|congruence].
  rewrite Hls, P1, Z1, Z.sub_0_r. eapply (file_bytes_stay _ _ (file_object _ l i _ _ _)); [done|exact Hcore|lia|cbn; lia|apply Q1].
Qed.

End show.

(** ** What [ll] shows *)

(** The name in an entry, up to a terminator. *)
Definition name_of (e : list Z) : list Z := c_text (fi_name (entry_info e)).

(** The line of an entry. *)
Definition ll_line (e : list Z) : list Z :=
  (if negb (Z.land (ent_attr e) AM_DIR =? 0) then codes "   <dir>  " else piece_chars (Dec 8 (ent_size e)) ++ codes "  ") ++ name_of e ++ codes crlf.

(** The lines of a listing; an empty name is taken for its end. *)
Fixpoint ll_text (es : list (list Z)) : list Z :=
  match es with [] => [] | e :: es => if bool_decide (name_of e = []) then [] else ll_line e ++ ll_text es end.

Lemma u8_bytes l : Forall (fits 8) l -> u8 <$> l = l.
Proof. intros H. induction H as [|b l Hb _ IH]; [done|]. rewrite fmap_cons, IH. f_equal. by apply wrap_small. Qed.

Lemma c_text_forall (P : Z -> Prop) l : Forall P l -> Forall P (c_text l).
Proof. induction 1 as [|x l Hx _ IH]; cbn [c_text]; [constructor|]. destruct (x =? 0); by constructor. Qed.

Lemma name_part_forall (P : Z -> Prop) l : Forall P l -> Forall P (name_part l).
Proof. induction 1 as [|x l Hx _ IH]; cbn [name_part]; [constructor|]. destruct (x =? 32); by constructor. Qed.

Lemma c_text_head l : default 0 (head (c_text l)) =? 0 = bool_decide (c_text l = []).
Proof. destruct l as [|x l]; [done|]. cbn [c_text]. destruct (Z.eqb_spec x 0) as [->|Hx]; [done|]. cbn. by apply Z.eqb_neq. Qed.

Lemma name_bytes e : Forall is_byte e -> Forall (fits 8) (name_of e).
Proof.
  intros He. assert (H11 : Forall is_byte (take 11 e)) by by apply Forall_take.
  apply c_text_forall, Forall_app. split; [|by repeat constructor]. apply Forall_app. split.
  - apply Forall_fmap, name_part_forall. eapply Forall_impl; [by apply Forall_take|]. intros c Hc. unfold compose. case_match; [by split|done].
  - destruct (_ =? 32); [constructor|]. constructor; [by split|]. by apply name_part_forall, Forall_take, Forall_drop.
Qed.

Lemma dec_bytes n v acc : Forall (fits 8) acc -> Forall (fits 8) (dec_digits n v acc).
Proof.
  revert v acc. induction n as [|n IH]; intros v acc Ha; [done|]. cbn [dec_digits]. pose proof (Z.mod_pos_bound v 10 ltac:(lia)).
  assert (Forall (fits 8) (48 + v mod 10 :: acc)) by (constructor; [unfold fits; lia|done]). destruct (v / 10 =? 0); [done|by apply IH].
Qed.

Lemma ll_line_bytes e : Forall is_byte e -> Forall (fits 8) (ll_line e).
Proof.
  intros He. unfold ll_line. apply Forall_app. split; [|apply Forall_app; split; [by apply name_bytes|by repeat constructor]].
  destruct (negb _); [by repeat constructor|]. apply Forall_app. split; [|by repeat constructor]. cbn [piece_chars]. apply Forall_app. split; [by apply Forall_replicate|].
  apply dec_bytes. constructor.
Qed.

Section list.

Context {D : Type} `{Device D} {DK : Type} {HD : Disk DK} {HS : Store DK}.
Context (Hsound : sound (DK := DK)) (Hdrive : drive_ready (DK := DK)).
Local Abbreviation M := (M D (bash (board DK))).

Lemma ll_line_prints e :
  Forall is_byte e ->
  prints (D := D) (St := bash (board DK)) (if negb (Z.land (ent_attr e) AM_DIR =? 0) then alt_printf ("   <dir>  %s" +:+ crlf) [PStr (name_of e)]
    else printf [Dec 8 (ent_size e); Txt "  "; Str (name_of e); Txt crlf]) (ll_line e).
Proof using.
  intros He. pose proof (u8_bytes _ (name_bytes e He)) as Hn. pose proof (u8_bytes _ (ll_line_bytes e He)) as Hl. unfold ll_line in *. destruct (negb _).
  - apply alt_printf_prints. rewrite <- Hn at 2. done.
  - rewrite <- Hl. replace (_ ++ _) with (mbind piece_chars [Dec 8 (ent_size e); Txt "  "; Str (name_of e); Txt crlf]); [apply printf_prints|].
    cbn -[name_of dec_of replicate]. by rewrite <- !app_assoc.
Qed.

(** The entries of a listing are bytes. *)
Lemma listing_bytes (v : vol (DK := DK)) l i : win_ok v -> Forall (Forall is_byte) (listing v l i).
Proof using.
  intros Hok. unfold listing. generalize (Z.to_nat (entries (fatfs v) l - i)). intros n. revert i. induction n as [|n IH]; intros i; cbn [listing_of]; [constructor|].
  destruct (_ =? 0); [constructor|]. apply Forall_app. split; [|apply IH]. destruct (listed _); [|constructor]. constructor; [|constructor].
  apply Forall_take, Forall_drop. apply (view_sector v), Hok.
Qed.

Lemma ll_loop_run l es k n (d : D) (s : bash (board DK)) :
  win_ok (volume (sys (fs s))) -> layout (fatfs (volume (sys (fs s)))) -> open_dir (volume (sys (fs s))) (bash_dir (fs s)) l es ->
  Forall (Forall is_byte) es -> (length es < k)%nat ->
  exists s', ll_loop k n d s = Out (Ok FR_OK) (foldl (fun d c => dev_putc c d) d (ll_text es)) s' (EvPutc <$> ll_text es) /\
    quiet (volume (sys (fs s))) (volume (sys (fs s'))) /\ bash_rc s' = FR_OK /\ same_but_file s s'.
Proof using Hsound Hdrive.
  revert es d s. induction k as [|k IH]; intros es d s Hok Hl Ho Hb Hk; [lia|]. cbn [ll_loop].
  destruct (gwp_run _ _ _ (f_readdir_ok (stack (fs s)) (sys (fs s)) (bash_dir (fs s)) (bash_fno (fs s)) l es Hdrive Hok Hl Ho))
    as ([[r dj] fno] & y & Hrun & Hq & [(Hr & Hfno & Ho')|[_ []]]); [|done]. cbn [fst snd] in *. subst r fno.
  set (info := listed_info (bash_fno (fs s)) es) in *.
  assert (Er : Bash.f_readdir (fs s) = Some (FR_OK, mkInfo (c_text (fi_name info)) (fi_size info) (fi_attrib info), set_fno info (set_dir dj (set_sys y (fs s))))).
  { cbn [Bash.f_readdir board_fs]. unfold run. by rewrite Hrun. }
  erewrite bind_silent; [|reflexivity]. rewrite Er. erewrite bind_silent; [|reflexivity]. set (s1 := set_call FR_OK _ s).
  cbn [fname fsize fattrib]. rewrite (bool_decide_eq_true_2 (FR_OK = FR_OK)) by done. cbn [negb orb]. rewrite c_text_head.
  destruct es as [|e es]; [exists s1; by split_and!|]. change (c_text (fi_name info)) with (name_of e). cbn [ll_text].
  destruct (bool_decide (name_of e = [])); [exists s1; by split_and!|]. apply Forall_cons in Hb as [He Hb].
  destruct (IH es (foldl (fun d c => dev_putc c d) d (ll_line e)) s1) as (s' & E & Hq' & Hrc & Hs'); [apply Hq|by eapply alike_layout; [apply quiet_alike|]|done|done|cbn in Hk; lia|].
  exists s'. split; [|split; [by eapply quiet_trans|done]]. rewrite foldl_app, fmap_app. eapply bind_ok; [by apply ll_line_prints|exact E].
Qed.

(** The command in the root directory. *)
Lemma ll_root_run n (d : D) (s : bash (board DK)) l :
  let v := volume (sys (fs s)) in
  win_ok v -> layout (fatfs v) -> mounted_ready (sys (fs s)) -> cdir (fatfs v) = 0 -> directory v 0 l -> 4 <= zlen (bash_Buff s) < 2 ^ 32 ->
  (length (listing v l 0) < n)%nat ->
  exists s', cmd_ll [] n d s = Out (Ok tt) (foldl (fun d c => dev_putc c d) d (ll_text (listing v l 0))) s' (EvPutc <$> ll_text (listing v l 0)) /\
    quiet v (volume (sys (fs s'))) /\ bash_rc s' = FR_OK /\ same_but_file s s'.
Proof using Hsound Hdrive.
  intros v Hok Hl Hr Hc Hd Hbuf Hn.
  destruct (gwp_run _ _ _ (f_getcwd_root (stack (fs s)) (sys (fs s)) (bash_Buff s) Hok Hr Hc Hbuf)) as (x & y & Hrun & -> & Hq1 & Hf1 & Hr1).
  assert (Eg : Bash.f_getcwd (bash_Buff s) (fs s) = Some (FR_OK, root_path ++ drop 4 (bash_Buff s), set_sys y (fs s))).
  { cbn [Bash.f_getcwd board_fs]. unfold run. by rewrite Hrun. }
  pose proof (alike_layout _ _ (quiet_alike _ _ Hq1) Hl) as Hl1. pose proof (directory_stays _ _ _ _ (ly_table _ Hl) (q_stays _ _ Hq1) Hd) as Hd1.
  set (s1 := set_buff (root_path ++ drop 4 (bash_Buff s)) (set_call FR_OK (set_sys y (fs s)) s)).
  destruct (gwp_run _ _ _ (f_opendir_root (stack (fs s)) y (bash_dir (fs s)) l (q_ok _ _ Hq1) Hl1 Hr1 Hd1)) as ([r dj] & z & Hrun2 & Hr2 & Ho & Hq2).
  cbn [fst snd] in *. subst r. set (s2 := set_call FR_OK (set_dir dj (set_sys z (fs s1))) s1).
  assert (Eo : Bash.f_opendir [48; 58; 47] (fs s1) = Some (FR_OK, set_dir dj (set_sys z (fs s1)))).
  { cbn [Bash.f_opendir board_fs]. unfold run.
    change (FatPath.f_opendir _ _ _ (sys (fs s1))) with (FatPath.f_opendir (stack (fs s)) (bash_dir (fs s)) root_path y). by rewrite Hrun2. }
  pose proof (quiet_trans _ _ _ Hq1 Hq2) as Hq3. rewrite (listing_stays v (volume y) 0) in Ho by (done || apply Hq1 || lia).
  destruct (ll_loop_run l (listing v l 0) n n d s2) as (s' & E & Hq4 & Hrc & Hs); [apply Hq3|by eapply alike_layout; [by apply quiet_alike|]|exact Ho|by apply listing_bytes|done|].
  exists s'. split; [|split; [by eapply quiet_trans|done]].
  unfold cmd_ll. rewrite (bind_silent _ _ _ _ _ _ _ _ (call_getcwd_run n d s _ _ _ Eg)). fold s1. rewrite decide_True by done.
  rewrite (bind_silent _ _ _ _ _ _ _ _ (buff_string_run n d s1 [48; 58; 47] eq_refl)).
  rewrite (bind_silent _ _ _ _ _ _ _ _ (call_run (Bash.f_opendir [48; 58; 47]) n d s1 _ _ Eo)). fold s2. rewrite decide_True, bind_ret_l by done.
  rewrite <- (app_nil_r (EvPutc <$> _)). eapply bind_ok; [exact E|]. done.
Qed.

End list.

(** ** At the prompt *)

Section prompt.

Context {D : Type} `{HK : Keyboard D} {DK : Type} {HD : Disk DK} {HS : Store DK}.
Context (DATE TIME : string) (chTimeNow : M D (bash (board DK)) Z) (default_heap : Z) (report : M D (bash (board DK)) unit).
Context (chThdSelf : M D (bash (board DK)) Z) (chMsgSend : Z -> Z -> M D (bash (board DK)) Z).

Let table := commands chThdSelf chMsgSend default_heap report.

(** What a turn shows of a command. *)
Lemma turn_shows line n d (s : bash (board DK)) keys more line' d1 s' t l (P : bash (board DK) -> Prop) :
  shell_turn DATE TIME chTimeNow (Some table) line n d s
    = Out (Ok line') (dev_sleep 100 (foldl (fun d c => dev_putc c d) d1 l)) s' (t ++ (EvPutc <$> l) ++ [EvSleep 100]) ->
  con_in d1 = more -> shown (codes SHELL_PROMPT ++ echo SHELL_MAX_LINE_LENGTH [] keys) t -> P s' ->
  exists line' d' s' t, shell_turn DATE TIME chTimeNow (Some table) line n d s = Out (Ok line') d' s' t /\
    printed t = codes SHELL_PROMPT ++ echo SHELL_MAX_LINE_LENGTH [] keys ++ l /\ writes t = [] /\ con_in d' = more /\ P s'.
Proof using HK.
  intros Hrun Hin [Hp Hw] HP. eexists line', _, s', _. split; [exact Hrun|]. split_and!; [| | |done].
  - rewrite !printed_app, Hp, printed_putc. cbn. by rewrite app_nil_r, <- !app_assoc.
  - by rewrite !writes_app, Hw, writes_putc.
  - rewrite key_sleep, (foldl_putc_inv con_in) by apply con_putc. done.
Qed.

(** (C11) From the keys to the disk: the operator types [cat], in any case, and the path of a
    file on a mounted volume.  The turn of the shell prints the prompt and the echo of
    the keys and then the file, all of its bytes in the order of its chain of clusters
    and nothing else, however many chunks and clusters there are; it writes to no
    device, leaves the volume as it was and the keys behind the line to the next turn. *)
Theorem cat_shows_the_file line keys more cmd name n d (s : bash (board DK)) size lf :
  let v := volume (sys (fs s)) in
  sound -> win_ok v -> layout (fatfs v) -> mounted_ready (sys (fs s)) -> length (stack (fs s)) = 12%nat ->
  is_file v (c_str name) size lf -> no_drive (c_str name) ->
  zlen line = SHELL_MAX_LINE_LENGTH -> con_in d = keys ++ 13 :: more -> Forall is_text keys ->
  words (foldl (typed SHELL_MAX_LINE_LENGTH) [] keys) = [cmd; name] -> strcaseeq cmd (codes "cat") = true -> is_help name = false ->
  (length keys < n)%nat -> size <= bash_Buff_size * (Z.of_nat n - 1) ->
  exists line' d' s' t, shell_turn DATE TIME chTimeNow (Some table) line n d s = Out (Ok line') d' s' t /\
    printed t = codes SHELL_PROMPT ++ echo SHELL_MAX_LINE_LENGTH [] keys ++ file_bytes v lf 0 size /\ writes t = [] /\
    con_in d' = more /\ quiet v (volume (sys (fs s'))) /\ bash_rc s' = FR_OK /\ same_but_file s s'.
Proof using HK.
  intros v S Hok Hl Hr Hsfn Hfile Hnd Hline Hin Htext Hw Hcmd Hhelp Hn Hsize.
  assert (Hdrive : drive_ready (DK := DK)) by (intros x; by rewrite (mr_status _ Hr)).
  destruct (file_session S Hdrive (fs s) name size lf (pred n) Hok Hl Hr Hsfn Hnd Hfile) as (b1 & ls & b2 & b3 & Eo & Er & Ec & Hls & Hlen & Hq & _); [unfold bash_Buff_size in *; lia|].
  destruct (cat_turn_ok DATE TIME chTimeNow default_heap report chThdSelf chMsgSend line keys more cmd name n d s FR_OK b1 ls FR_OK b2 FR_OK b3
    Hline Hin Htext Hn Hw Hcmd Hhelp Eo Er Ec ltac:(lia)) as (line' & d1 & d' & s' & t & Hrun & Hin1 & Ht & -> & Hfs & Hrc & Hsame).
  change (told FR_OK) with ([] : list Z) in Hrun. cbn [app] in Hrun. rewrite !app_nil_r, Hls in Hrun.
  apply (turn_shows line n d s keys more line' d1 s' t _ (fun s' => quiet v (volume (sys (fs s'))) /\ bash_rc s' = FR_OK /\ same_but_file s s') Hrun); try done.
  by rewrite Hfs.
Qed.

(** (C13) A listing at the prompt.  In the root directory of a mounted volume, the area of
    the root or a chain of clusters, [ll] prints behind prompt and echo one line for
    every entry up to the end mark that is neither deleted nor a volume label, in their
    order: the size and the name of a file, the name of a directory; an entry without
    a name would end it.  It writes to no device and leaves the volume as it was. *)
Theorem ll_lists_the_root line keys more cmd n d (s : bash (board DK)) l :
  let v := volume (sys (fs s)) in
  sound -> win_ok v -> layout (fatfs v) -> mounted_ready (sys (fs s)) -> cdir (fatfs v) = 0 -> directory v 0 l ->
  zlen (bash_Buff s) = bash_Buff_size ->
  zlen line = SHELL_MAX_LINE_LENGTH -> con_in d = keys ++ 13 :: more -> Forall is_text keys ->
  words (foldl (typed SHELL_MAX_LINE_LENGTH) [] keys) = [cmd] -> strcaseeq cmd (codes "ll") = true ->
  (length keys < n)%nat -> (length (listing v l 0) < n)%nat ->
  exists line' d' s' t, shell_turn DATE TIME chTimeNow (Some table) line n d s = Out (Ok line') d' s' t /\
    printed t = codes SHELL_PROMPT ++ echo SHELL_MAX_LINE_LENGTH [] keys ++ ll_text (listing v l 0) /\ writes t = [] /\
    con_in d' = more /\ quiet v (volume (sys (fs s'))) /\ bash_rc s' = FR_OK /\ same_but_file s s'.
Proof using HK.
  intros v S Hok Hl Hr Hc Hd Hbuf Hline Hin Htext Hw Hcmd Hn Hlen.
  assert (Hdrive : drive_ready (DK := DK)) by (intros x; by rewrite (mr_status _ Hr)).
  destruct (known_turn DATE TIME chTimeNow default_heap report chThdSelf chMsgSend 5 (MkCommand "ll" cmd_ll) line keys more cmd [] n d s (ll_text (listing v l 0))
    (fun s' => quiet v (volume (sys (fs s'))) /\ bash_rc s' = FR_OK /\ same_but_file s s') Hline Hin Htext Hn Hw ltac:(simpl; lia) eq_refl Hcmd)
    as (line' & d1 & s' & t & Hrun & Hin1 & Ht & HP); [intros d1; apply (ll_root_run S Hdrive); try done; by rewrite Hbuf|].
  by apply (turn_shows line n d s keys more line' d1 s' t _ (fun s' => quiet v (volume (sys (fs s'))) /\ bash_rc s' = FR_OK /\ same_but_file s s') Hrun).
Qed.

End prompt.

(** ** On the volume with the file AB.TXT *)

Definition ram_board : board (ram false) :=
  mkBoard rooted_system (small_file 0 0 0) (mkDir true 0 0 0 0 0 None name_buffer) (FatDir.mkInfo 0 0 0 0 [0]) name_buffer.

Definition ram_bash : bash (board (ram false)) := mkBash ram_board FR_OK (replicate 3 0) None None (Some 7) None mem_0.

Lemma ab_is_file : is_file rooted (c_str (codes "/ab.txt")) 1100 [3; 4; 5].
Proof.
  exists [], 0. split; [apply rooted_leads|]. split; [by vm_compute|]. split; [by vm_compute|]. split; [right; apply rooted_chain|by vm_compute].
Qed.

Lemma cat_shows_the_file_witness :
  exists line' d' s' t,
    shell_turn (D := regdev) "" "" (mret 0) (Some (commands (mret 2) (fun _ _ => mret 0) 4096 (mret tt))) (replicate 64 0) 20%nat
      (RegDev ∅ (codes "Cat /ab.txt" ++ [13; 33])) ram_bash = Out (Ok line') d' s' t /\
    printed t = [13; 10] ++ codes "root@ledos>Cat /ab.txt" ++ [13; 10] ++ file_bytes rooted [3; 4; 5] 0 1100 /\ con_in d' = [33].
Proof.
  assert (Ht : Forall is_text (codes "Cat /ab.txt")) by (repeat constructor; done).
  assert (Hw : words (foldl (typed SHELL_MAX_LINE_LENGTH) [] (codes "Cat /ab.txt")) = [codes "Cat"; codes "/ab.txt"]) by (by vm_compute).
  assert (Hn : (length (codes "Cat /ab.txt") < 20)%nat) by (by vm_compute; lia).
  assert (Hl : zlen (replicate 64 0) = SHELL_MAX_LINE_LENGTH) by (by vm_compute).
  assert (Hi : con_in (RegDev ∅ (codes "Cat /ab.txt" ++ [13; 33])) = codes "Cat /ab.txt" ++ 13 :: [33]) by (by vm_compute).
  destruct (cat_shows_the_file (D := regdev) "" "" (mret 0) 4096 (mret tt) (mret 2) (fun _ _ => mret 0) (replicate 64 0) (codes "Cat /ab.txt") [33]
    (codes "Cat") (codes "/ab.txt") 20%nat (RegDev ∅ (codes "Cat /ab.txt" ++ [13; 33])) ram_bash 1100 [3; 4; 5]
    ram_sound rooted_win rooted_layout rooted_ready ltac:(done) ab_is_file ltac:(by vm_compute) Hl Hi Ht Hw ltac:(by vm_compute) ltac:(by vm_compute) Hn ltac:(by vm_compute))
    as (line' & d' & s' & t & Hrun & Hp & _ & Hk & _).
  exists line', d', s', t. split; [exact Hrun|]. split; [exact Hp|exact Hk].
Defined.

(** The same with a buffer of the right size. *)
Definition ram_bash_full : bash (board (ram false)) := mkBash ram_board FR_OK (replicate 65536 0) None None (Some 7) None mem_0.

Lemma ll_lists_the_root_witness :
  exists line' d' s' t,
    shell_turn (D := regdev) "" "" (mret 0) (Some (commands (mret 2) (fun _ _ => mret 0) 4096 (mret tt))) (replicate 64 0) 20%nat
      (RegDev ∅ (codes "ll" ++ [13; 33])) ram_bash_full = Out (Ok line') d' s' t /\
    printed t = [13; 10] ++ codes "root@ledos>ll" ++ [13; 10] ++ codes "    1100  AB.TXT" ++ [13; 10] /\ con_in d' = [33].
Proof.
  assert (Ht : Forall is_text (codes "ll")) by (repeat constructor; done).
  assert (Hw : words (foldl (typed SHELL_MAX_LINE_LENGTH) [] (codes "ll")) = [codes "ll"]) by (by vm_compute).
  assert (Hn : (length (codes "ll") < 20)%nat) by (by vm_compute; lia).
  assert (Hl : zlen (replicate 64 0) = SHELL_MAX_LINE_LENGTH) by (by vm_compute).
  assert (Hi : con_in (RegDev ∅ (codes "ll" ++ [13; 33])) = codes "ll" ++ 13 :: [33]) by (by vm_compute).
  assert (Hb : zlen (bash_Buff ram_bash_full) = bash_Buff_size) by (by vm_compute).
  assert (Hls : ll_text (listing rooted [] 0) = codes "    1100  AB.TXT" ++ [13; 10]) by (by vm_compute).
  assert (Hle : (length (listing rooted [] 0) < 20)%nat) by (apply (bool_decide_unpack _); by vm_compute).
  destruct (ll_lists_the_root (D := regdev) "" "" (mret 0) 4096 (mret tt) (mret 2) (fun _ _ => mret 0) (replicate 64 0) (codes "ll") [33]
    (codes "ll") 20%nat (RegDev ∅ (codes "ll" ++ [13; 33])) ram_bash_full []
    ram_sound rooted_win rooted_layout rooted_ready eq_refl rooted_root Hb Hl Hi Ht Hw ltac:(by vm_compute) Hn Hle)
    as (line' & d' & s' & t & Hrun & Hp & _ & Hk & _).
  exists line', d', s', t. split; [exact Hrun|]. split; [|exact Hk]. rewrite Hp. change (volume (sys (fs ram_bash_full))) with rooted. rewrite Hls. reflexivity.
Defined.
